(* ===== verification/_CoqProject ===== *)
-Q . S2P
Prelude.v
Order.v
Text.v
Crates.v
Concrete.v
Merkle.v
Payout.v
RewardReplay.v
Snapshot.v
Withdrawal.v
DkgTransport.v
Ledger.v
IdenaAnchor.v
GossipNetwork.v
ShareWork.v
Commitment.v
Fork.v
ForkChain.v
ForkSample.v
ForkChainInv.v
ForkChainUtxo.v
ForkChainReplay.v
ForkChainDifficulty.v
ForkChainMempool.v
ForkChainTemplate.v
ForkExplorer.v
ForkExplorerBalance.v
Sharechain.v
ShareTree.v
ShareBranch.v
ShareTreeInv.v
ShareTreeAdmit.v
ShareTreeLiveness.v
ShareTreeCheckpoint.v
ShareTreeRebuild.v
SharechainState.v
Vault.v
VaultSafety.v
VaultTx.v
SharechainReplay.v
SharechainAccounting.v
GovText.v
GovMath.v
GovSource.v
GovTree.v
GovMetrics.v
GovAttest.v
GovManifest.v
GovScope.v
GovState.v
GovCommit.v
GovRules.v
GovStake.v
GovRound.v
GovEngine.v
GovWp.v
GovFunds.v
GovInvariant.v
GovSteps.v
GovLifecycle.v
GovOps.v
GovSample.v
GovHistory.v
