(* ===== verification/Prelude.v ===== *)
(** * Verification of P2poolBTC

    P2poolBTC is a proof-of-human-work mining pool: miners registered with an
    Idena identity mine shares of Bitcoin work, every node replays the same
    share chain into the same accounting, block rewards are paid to the miners
    directly or as claims on a threshold-signed vault, and an experimental fork
    chain and a code-governance engine are built around it.  This library
    models the Rust crates under [src/crates] and proves the properties that
    nodes rely on when they trust each other's messages.

    ** Conventions

    Each operation of the source is one executable definition with the name it has there
    (a file-local prefix is added where two structs share a field name).
    [Result] is [result], [&mut self] methods are [M S E A], which keeps the
    state a failing method leaves behind, and [?] is the monadic bind.  Integers
    are [N] or [Z] with the width written at every checked, saturating or
    wrapping operation.  [BTreeMap] and [HashMap] are [gmap], with [btree_entries]
    where the order of iteration matters.  A failed [expect] or an index out of
    range is an error value of its own, and so is a loop that exceeds its bound;
    both are proved not to occur in the states the program reaches.  Bounds are the
    number of elements a loop can visit plus one, so the proofs show that they
    are enough instead of assuming it.

    Third-party crates (hashing, curves, serialisation, [bitcoin], [cid],
    [chrono]) are classes whose fields are the functions called; what a theorem
    needs of them is a separate class of laws.  Nothing assumes that SHA-256 is
    injective: binding theorems conclude equality or exhibit a collision.
    [Concrete] and the samples instantiate every class, so every hypothesis is
    satisfiable, and the witnesses run the definitions on those instances.

    ** Files

    - [Prelude], [Order], [Text]: results, the state monad, machine integers,
      sorting and ordered maps, byte strings.  [Crates] and [Concrete]: the
      interfaces to other crates and an instance of each.
    - [Merkle], [Snapshot], [RewardReplay] ([pohw-core/src/merkle.rs],
      [snapshot.rs], [replay.rs]): commitments and identity scores.
    - [Payout], [Withdrawal], [Ledger] ([payout.rs], [withdrawal.rs],
      [ledger.rs]): the money.  A schedule pays exactly the reward in fair
      shares; a batch accounts for every satoshi; the ledger conserves claims
      and never accepts a nonce twice.
    - [IdenaAnchor], [GossipNetwork], [ShareWork], [Commitment]
      ([idena_anchor.rs], [gossip.rs], [share_work.rs], [commitment.rs]): what ties
      shares and blocks to Idena and to Bitcoin work.
    - [Sharechain] ([sharechain.rs]): messages, their hashes and signatures.
    - [ShareTree] with [ShareBranch], [ShareTreeInv], [ShareTreeAdmit],
      [ShareTreeLiveness], [ShareTreeCheckpoint], [ShareTreeRebuild]
      ([sharechain_state.rs]): the tree of shares.  The tip is the heaviest
      branch, the state does not depend on the order of delivery, delivered
      chains resolve, and checkpoints are final.
    - [SharechainState] with [SharechainReplay] and [SharechainAccounting] (same file): the
      replayed state, its invariant under every message, and the accounting.
    - [DkgTransport], [Vault], [VaultSafety], [VaultTx] ([dkg_transport.rs],
      [vault.rs], [vault_tx.rs]): key generation messages, epochs, spend plans,
      signing sessions and transactions.  An approval carries a quorum of
      distinct signers for every input of a plan that balances.
    - [Fork], [ForkChain] with [ForkChainInv], [ForkChainUtxo],
      [ForkChainReplay], [ForkChainDifficulty], [ForkChainMempool],
      [ForkChainTemplate], [ForkExplorer], [ForkExplorerBalance]
      ([pohw-core/src/fork.rs], [p2pool-node/src/fork_chain.rs]): the fork chain.
      Its UTXO set is exact and bounded by the subsidies, nodes with the same
      blocks agree, a restart reproduces the chain, targets follow the schedule,
      and a block made from the published fields of a template is accepted.
      [ForkSample] is a small concrete chain.
    - [GovText], [GovMath], [GovSource], [GovTree], [GovMetrics], [GovAttest],
      [GovManifest], [GovScope] ([governance-core/src] [math.rs], [gates.rs],
      [source.rs], [metrics.rs], [attestation.rs], [manifest.rs], [scope.rs]): vote
      weights and gates, content-addressed archives, metrics snapshots,
      attestations, manifests of the ecosystem and the scope of a change.
      An archive verifies exactly if packaging produces it, proofs show leaves,
      a verified patch takes the parent's sources to the candidate's.
    - [GovState], [GovCommit], [GovRules], [GovStake], [GovRound], [GovEngine]
      ([governance-core/src/lifecycle.rs]): the governance engine, with its records,
      commitments, checks, stakes and bonds, review rounds, and proposals.
    - [GovWp], [GovFunds], [GovInvariant], [GovSteps], [GovLifecycle]: reasoning about
      its methods: weakest preconditions over results and errors, what each payment
      moves, the invariant, and one lemma for each method.  [GovOps],
      [GovSample], [GovHistory]: sequences of calls, one complete sample from
      registration to execution, and what every sequence guarantees:
      money is conserved, records stay well formed and no call panics, the
      canonical ecosystem changes only by accepted proposals, finished
      proposals are final, and what is due can be settled.
    ** How the parts fit

    [Sharechain] messages are verified with [ShareWork], [IdenaAnchor] and the
    signatures of [Crates], and change [SharechainState]; a registered miner's
    work is the score that [Payout] divides; its vault part credits [Ledger],
    which [Withdrawal] batches draw on; a [Vault] session signs a plan only if the
    replayed state reserved its batch, and [VaultTx] builds the transaction.
    [Fork] manifests parametrise [ForkChain], whose log replays as the share chain does.
    [GovEngine] verifies the archives of [GovManifest], [GovScope] and [GovAttest] with
    [GovSource], counts weights that [GovMath] computes from the metrics of
    [GovMetrics], and executes what the gates of [GovMath] accept.

    ** Not modelled

    File, socket and process code: the node binary and its HTTP, RPC and
    peer-to-peer loops ([p2pool-node] except [fork_chain.rs] and the difficulty
    arithmetic of [bitcoin_rpc.rs]), [pohw-agent], [governance-cli] and
    [idena-lite-indexer].  They move data between the modelled functions and
    the outside; what they call is modelled, how they schedule it is not.  In
    [fork_chain.rs] the encoding of the log, its locking and repair and the
    peer protocol are left out: the log is the list of its records.
    [vault_frost.rs] wraps [frost-secp256k1-tr] and its file store.
    [consensus_identity.rs] encodes identity authorisations that the patched
    Bitcoin node enforces.  The gossip envelopes are
    serialisation around the messages.  Of [governance-core], the
    packaging and checkout of source trees read and write the file system,
    and [epoch_governance.rs], [readiness.rs], [release.rs] and
    [development_policy.rs] are left to later work.  The contracts, scripts and
    user interface are not Rust. *)
From stdpp Require Export base tactics option list list_numbers strings gmap sorting numbers pretty.
From Stdlib Require Export NArith ZArith Lia.
From Stdlib Require Import Strings.Byte.


Declare Scope pohw_scope.
Delimit Scope pohw_scope with pohw.

(** ** Rust's [Result] *)

Inductive result (E T : Type) : Type :=
| Ok (t : T)
| Err (e : E).
Arguments Ok {E T} t.
Arguments Err {E T} e.

Global Instance result_ret {E} : MRet (result E) := fun T t => Ok t.
Global Instance result_bind {E} : MBind (result E) := fun T U f r =>
  match r with Ok t => f t | Err e => Err e end.
Global Instance result_fmap {E} : FMap (result E) := fun T U f r =>
  match r with Ok t => Ok (f t) | Err e => Err e end.
Global Instance result_eq_dec {E T} `{EqDecision E, EqDecision T} : EqDecision (result E T).
Proof. solve_decision. Defined.

Definition map_err {E F T} (f : E -> F) (r : result E T) : result F T :=
  match r with Ok t => Ok t | Err e => Err (f e) end.

Definition ok_or {E T} (e : E) (o : option T) : result E T :=
  match o with Some t => Ok t | None => Err e end.

Definition is_ok {E T} (r : result E T) : bool :=
  match r with Ok _ => true | Err _ => false end.

(** [Iterator::try_fold] and the [for x in xs { f(x)?; }] loops. *)
Fixpoint try_fold {E A B} (f : B -> A -> result E B) (b : B) (l : list A) : result E B :=
  match l with
  | [] => Ok b
  | x :: l' => b' ← f b x; try_fold f b' l'
  end.

Fixpoint try_for_each {E A} (f : A -> result E unit) (l : list A) : result E unit :=
  match l with
  | [] => Ok tt
  | x :: l' => _ ← f x; try_for_each f l'
  end.

(** [iter().map(f).collect::<Result<Vec<_>, _>>()]. *)
Fixpoint try_map {E A B} (f : A -> result E B) (l : list A) : result E (list B) :=
  match l with
  | [] => Ok []
  | x :: l' => y ← f x; ys ← try_map f l'; Ok (y :: ys)
  end.

(** ** Methods on [&mut self] that return [Result]

    A method that fails keeps the writes made before the failure, so the
    monad returns the state on both outcomes. *)

Definition M (S E A : Type) : Type := S -> result E A * S.

Global Instance M_ret {S E} : MRet (M S E) := fun A a s => (Ok a, s).
Global Instance M_bind {S E} : MBind (M S E) := fun A B f m s =>
  match m s with
  | (Ok a, s') => f a s'
  | (Err e, s') => (Err e, s')
  end.

Definition lift {S E A} (r : result E A) : M S E A := fun s => (r, s).
Definition gets {S E A} (f : S -> A) : M S E A := fun s => (Ok (f s), s).
Definition modify {S E} (f : S -> S) : M S E unit := fun s => (Ok tt, f s).
Definition throw {S E A} (e : E) : M S E A := fun s => (Err e, s).
(** Runs a read-only method of [&self]. *)
Definition asks {S E A} (f : S -> result E A) : M S E A := fun s => (f s, s).

Fixpoint for_each {S E A} (f : A -> M S E unit) (l : list A) : M S E unit :=
  match l with
  | [] => mret tt
  | x :: l' => _ ← f x; for_each f l'
  end.

(** ** Machine integers: unsigned integers are [N] with their width explicit *)

Definition checked_add (bits a b : N) : option N :=
  if (a + b <? 2 ^ bits)%N then Some (a + b)%N else None.
Definition checked_mul (bits a b : N) : option N :=
  if (a * b <? 2 ^ bits)%N then Some (a * b)%N else None.
Definition checked_sub (a b : N) : option N :=
  if (b <=? a)%N then Some (a - b)%N else None.
Definition saturating_add (bits a b : N) : N := N.min (a + b) (2 ^ bits - 1).
(** An [as] cast to an unsigned type of the given width. *)
Definition as_uint (bits a : N) : N := (a mod 2 ^ bits)%N.
Definition fits (bits a : N) : Prop := (a < 2 ^ bits)%N.

Abbreviation sats_bits := 64%N (only parsing).
Abbreviation score_bits := 128%N (only parsing).

(** ** Lemmas and automation for results and stateful methods *)

Create HintDb pohw.

Section result_lemmas.
Context {E : Type}.

Lemma bind_Ok {A B} (m : result E A) (f : A -> result E B) b :
  (m ≫= f) = Ok b <-> exists a, m = Ok a /\ f a = Ok b.
Proof. destruct m; simpl; naive_solver. Qed.

Lemma bind_Err {A B} (m : result E A) (f : A -> result E B) e :
  (m ≫= f) = Err e <-> m = Err e \/ exists a, m = Ok a /\ f a = Err e.
Proof. destruct m; simpl; naive_solver. Qed.

Lemma map_err_Ok {F A} (f : E -> F) (r : result E A) a :
  map_err f r = Ok a <-> r = Ok a.
Proof. destruct r; simpl; naive_solver. Qed.

Lemma ok_or_Ok {A} (e : E) (o : option A) a : ok_or e o = Ok a <-> o = Some a.
Proof. destruct o; simpl; naive_solver. Qed.

Lemma is_ok_Ok {A} (r : result E A) : is_ok r = true -> exists a, r = Ok a.
Proof. destruct r; [eauto|done]. Qed.

Lemma try_for_each_Ok {A} (f : A -> result E unit) l u :
  try_for_each f l = Ok u <-> Forall (fun x => f x = Ok tt) l.
Proof.
  destruct u. induction l as [|x l IH]; simpl.
  - split; [constructor|done].
  - rewrite bind_Ok, Forall_cons. split.
    + intros ([] & ? & ?). by rewrite <-IH.
    + rewrite <-IH. intros [??]. eauto.
Qed.

Lemma try_map_Ok {A B} (f : A -> result E B) l k :
  try_map f l = Ok k <-> Forall2 (fun x y => f x = Ok y) l k.
Proof.
  revert k. induction l as [|x l IH]; intros k; simpl.
  - split; [intros [= <-]; constructor|by intros Hk; inversion Hk].
  - rewrite bind_Ok. setoid_rewrite bind_Ok. setoid_rewrite IH. split.
    + intros (y & ? & ys & ? & [= <-]). by constructor.
    + intros Hk; inversion Hk; subst; eauto 8.
Qed.

Lemma try_fold_app {A B} (f : B -> A -> result E B) b l1 l2 :
  try_fold f b (l1 ++ l2) = (b' ← try_fold f b l1; try_fold f b' l2).
Proof.
  revert b. induction l1 as [|x l1 IH]; intros b; simpl; [done|].
  destruct (f b x); simpl; [apply IH|done].
Qed.

(** A loop invariant for [try_fold]. *)
Lemma try_fold_inv {A B} (f : B -> A -> result E B) (P : list A -> B -> Prop) b0 l b :
  P [] b0 ->
  (forall done x b b', P done b -> f b x = Ok b' -> P (done ++ [x]) b') ->
  try_fold f b0 l = Ok b -> P l b.
Proof.
  intros H0 Hstep. enough (forall don b0, P don b0 -> try_fold f b0 l = Ok b -> P (don ++ l) b)
    as Hgen by (apply (Hgen []); done).
  clear H0. induction l as [|x l IH]; simpl; intros don b1 Hb.
  - intros [= <-]. by rewrite app_nil_r.
  - rewrite bind_Ok. intros (b' & Hf & Ht). rewrite cons_middle, app_assoc. eauto.
Qed.
End result_lemmas.

Lemma M_bind_run {S E A B} (m : M S E A) (f : A -> M S E B) s :
  (m ≫= f) s = match m s with (Ok a, s') => f a s' | (Err e, s') => (Err e, s') end.
Proof. done. Qed.

Lemma M_bind_Ok {S E A B} (m : M S E A) (f : A -> M S E B) s b s' :
  (m ≫= f) s = (Ok b, s') <-> exists a s1, m s = (Ok a, s1) /\ f a s1 = (Ok b, s').
Proof. rewrite M_bind_run. destruct (m s) as [[a|e] s1]; naive_solver. Qed.

Lemma for_each_app {S E A} (f : A -> M S E unit) l1 l2 s :
  for_each f (l1 ++ l2) s = (_ ← for_each f l1; for_each f l2) s.
Proof.
  revert s. induction l1 as [|x l1 IH]; intros s; [done|].
  simpl. rewrite !M_bind_run. destruct (f x s) as [[[]|e] s1]; [|done].
  rewrite IH. by rewrite M_bind_run.
Qed.

(** A loop invariant for [for_each]. *)
Lemma for_each_inv {S E A} (f : A -> M S E unit) (P : list A -> S -> Prop) l s0 s u :
  P [] s0 ->
  (forall don x s s', P don s -> f x s = (Ok tt, s') -> P (don ++ [x]) s') ->
  for_each f l s0 = (Ok u, s) -> P l s.
Proof.
  intros H0 Hstep. destruct u.
  enough (forall don s0, P don s0 -> for_each f l s0 = (Ok tt, s) -> P (don ++ l) s)
    as Hgen by (apply (Hgen []); done).
  clear H0. induction l as [|x l IH]; simpl; intros don s1 Hs.
  - intros [= <-]. by rewrite app_nil_r.
  - rewrite M_bind_Ok. intros ([] & s2 & Hf & Ht). rewrite cons_middle, app_assoc. eauto.
Qed.

(** A loop whose body succeeds under its invariant succeeds. *)
Lemma for_each_run {S E A} (f : A -> M S E unit) (P : list A -> S -> Prop) l s0 :
  P [] s0 ->
  (forall don x rest s, l = don ++ x :: rest -> P don s ->
     exists s', f x s = (Ok tt, s') /\ P (don ++ [x]) s') ->
  exists s, for_each f l s0 = (Ok tt, s) /\ P l s.
Proof.
  intros H0 Hstep.
  enough (forall rest don s0, l = don ++ rest -> P don s0 ->
    exists s, for_each f rest s0 = (Ok tt, s) /\ P l s) as Hgen by (by apply (Hgen l [])).
  clear s0 H0. induction rest as [|x rest IH]; intros don s0 Hl Hs.
  - rewrite app_nil_r in Hl. subst. by exists s0.
  - destruct (Hstep don x rest s0 Hl Hs) as (s1 & Hf & Hs1). simpl.
    rewrite M_bind_run, Hf. apply (IH (don ++ [x])); [|done]. by rewrite <-app_assoc.
Qed.

(** Inverts hypotheses of the form [... = Ok _] along binds and guards. *)
Ltac res_step :=
  match goal with
  | H : Err _ = Ok _ |- _ => discriminate H
  | H : Ok _ = Err _ |- _ => discriminate H
  | H : Ok _ = Ok _ |- _ => injection H as H
  | H : Err _ = Err _ |- _ => injection H as H
  | H : (?m ≫= ?f) = Ok _ |- _ => apply bind_Ok in H; destruct H as (? & ? & H)
  | H : map_err _ _ = Ok _ |- _ => apply map_err_Ok in H
  | H : ok_or _ _ = Ok _ |- _ => apply ok_or_Ok in H
  | H : (if ?b then Err _ else _) = Ok _ |- _ =>
      let Hb := fresh "Hif" in destruct b eqn:Hb; [discriminate H|]
  | H : (if ?b then _ else Err _) = Ok _ |- _ =>
      let Hb := fresh "Hif" in destruct b eqn:Hb; [|discriminate H]
  | H : unit |- _ => destruct H
  end.
Ltac res_inv := repeat res_step.

(** Splits boolean conditions of the source into propositions. *)
Ltac bool_inv :=
  repeat match goal with
  | H : (_ || _)%bool = false |- _ => apply orb_false_iff in H; destruct H
  | H : (_ && _)%bool = true |- _ => apply andb_true_iff in H; destruct H
  | H : negb _ = true |- _ => apply negb_true_iff in H
  | H : negb _ = false |- _ => apply negb_false_iff in H
  | H : bool_decide _ = true |- _ => apply bool_decide_eq_true_1 in H
  | H : bool_decide _ = false |- _ => apply bool_decide_eq_false_1 in H
  | H : N.eqb _ _ = true |- _ => apply N.eqb_eq in H
  | H : N.eqb _ _ = false |- _ => apply N.eqb_neq in H
  | H : N.leb _ _ = true |- _ => apply N.leb_le in H
  | H : N.leb _ _ = false |- _ => apply N.leb_gt in H
  | H : N.ltb _ _ = true |- _ => apply N.ltb_lt in H
  | H : N.ltb _ _ = false |- _ => apply N.ltb_ge in H
  | H : Z.leb _ _ = true |- _ => apply Z.leb_le in H
  | H : Z.leb _ _ = false |- _ => apply Z.leb_gt in H
  | H : Nat.eqb _ _ = true |- _ => apply Nat.eqb_eq in H
  | H : Nat.eqb _ _ = false |- _ => apply Nat.eqb_neq in H
  | H : Nat.ltb _ _ = true |- _ => apply Nat.ltb_lt in H
  | H : Nat.ltb _ _ = false |- _ => apply Nat.ltb_ge in H
  | H : String.eqb _ _ = true |- _ => apply String.eqb_eq in H
  | H : String.eqb _ _ = false |- _ => apply String.eqb_neq in H
  end.

(** ** Checked arithmetic *)

Lemma checked_add_Some bits a b c :
  checked_add bits a b = Some c <-> c = (a + b)%N /\ fits bits (a + b).
Proof. unfold checked_add, fits. destruct (N.ltb_spec (a + b) (2 ^ bits)); naive_solver lia. Qed.

Lemma checked_mul_Some bits a b c :
  checked_mul bits a b = Some c <-> c = (a * b)%N /\ fits bits (a * b).
Proof. unfold checked_mul, fits. destruct (N.ltb_spec (a * b) (2 ^ bits)); naive_solver lia. Qed.

Lemma checked_sub_Some a b c :
  checked_sub a b = Some c <-> c = (a - b)%N /\ (b <= a)%N.
Proof. unfold checked_sub. destruct (N.leb_spec b a); naive_solver lia. Qed.

Lemma checked_add_None bits a b :
  checked_add bits a b = None <-> (2 ^ bits <= a + b)%N.
Proof. unfold checked_add. destruct (N.ltb_spec (a + b) (2 ^ bits)); naive_solver lia. Qed.

Lemma fits_mono bits a b : (a <= b)%N -> fits bits b -> fits bits a.
Proof. unfold fits. lia. Qed.

Lemma as_uint_small bits a : fits bits a -> as_uint bits a = a.
Proof. apply N.mod_small. Qed.

Definition sum_N (l : list N) : N := foldr N.add 0%N l.

Lemma sum_N_cons x l : sum_N (x :: l) = (x + sum_N l)%N.
Proof. done. Qed.

Lemma sum_N_app l1 l2 : sum_N (l1 ++ l2) = (sum_N l1 + sum_N l2)%N.
Proof. induction l1 as [|x l1 IH]; simpl; [done|]. rewrite IH. lia. Qed.

Global Instance sum_N_perm : Proper ((≡ₚ) ==> (=)) sum_N.
Proof. intros l1 l2 Hp. induction Hp; simpl; lia. Qed.

Lemma sum_N_elem x l : x ∈ l -> (x <= sum_N l)%N.
Proof. induction 1; simpl; lia. Qed.

(** Summing with overflow checks succeeds exactly when the total fits. *)
Lemma try_fold_checked_add {E} bits (e : E) l t0 t :
  fits bits t0 ->
  try_fold (fun t v => ok_or e (checked_add bits t v)) t0 l = Ok t
    <-> t = (t0 + sum_N l)%N /\ fits bits (t0 + sum_N l).
Proof.
  revert t0. induction l as [|x l IH]; intros t0 H0; simpl.
  - rewrite N.add_0_r. naive_solver.
  - rewrite bind_Ok. setoid_rewrite ok_or_Ok. setoid_rewrite checked_add_Some.
    rewrite N.add_assoc. split.
    + intros (t1 & [-> Hf] & Ht). by apply IH in Ht.
    + intros [-> Hf]. exists (t0 + x)%N.
      assert (fits bits (t0 + x)) by (unfold fits in *; lia).
      split; [done|]. by apply IH.
Qed.

(** ** Lists *)

Lemma sum_N_insert (l : list N) i x y :
  l !! i = Some x -> (sum_N (<[i := y]> l) + x = sum_N l + y)%N.
Proof.
  revert i. induction l as [|z l IH]; intros [|i] Hi; simplify_eq/=; [lia|].
  specialize (IH i Hi). lia.
Qed.

Lemma sum_N_zip_add (l k : list N) :
  length l = length k -> sum_N (zip_with N.add l k) = (sum_N l + sum_N k)%N.
Proof.
  revert k. induction l as [|x l IH]; intros [|y k] Hl; simplify_eq/=; [done|].
  rewrite IH by done. lia.
Qed.

Lemma sum_N_le_length (l : list N) b :
  Forall (fun x => (x <= b)%N) l -> (sum_N l <= N.of_nat (length l) * b)%N.
Proof. induction 1; simpl; lia. Qed.

Lemma sum_N_replicate_0 n : sum_N (replicate n 0%N) = 0%N.
Proof. induction n; simpl; lia. Qed.

Lemma NoDup_map_elem {A B} (f : A -> B) (l : list A) x y :
  NoDup (map f l) -> x ∈ l -> y ∈ l -> f x = f y -> x = y.
Proof.
  induction l as [|z l IH]; simpl; [set_solver|]. rewrite NoDup_cons.
  intros [Hz Hl] Hx Hy Hf. apply elem_of_cons in Hx as [->|Hx], Hy as [->|Hy]; auto.
  - exfalso. apply Hz. rewrite Hf. by apply list_elem_of_fmap_2.
  - exfalso. apply Hz. rewrite <-Hf. by apply list_elem_of_fmap_2.
Qed.

Lemma size_list_to_set_le (l : list string) : size (list_to_set l : gset string) <= length l.
Proof.
  induction l as [|x l IH]; [done|]. rewrite list_to_set_cons. cbn [length].
  rewrite size_union_alt, size_singleton.
  assert (size (list_to_set l ∖ {[x]} : gset string) <= size (list_to_set l : gset string))
    by (apply subseteq_size; set_solver). lia.
Qed.
