(* ===== verification/Order.v ===== *)
(** * Orderings, stable sorting and ordered containers

    [Ordering] of Rust's [std::cmp] is [comparison]; [slice::sort_by] is a
    stable sort, [BTreeMap] iterates in key order, and the [windows(2)] loops
    of the code compare neighbours.  The lemmas here are the ones the
    components share: a sort is a permutation, is ordered, and is determined
    by the elements when the order separates them. *)
From S2P Require Import Prelude.

(** [Ordering::then_with] and [Ordering::reverse]. *)
Definition then_with (c1 c2 : comparison) : comparison :=
  match c1 with Eq => c2 | c => c end.

(** [str::cmp] compares the bytes lexicographically. *)
Definition str_cmp (a b : string) : comparison := String.compare a b.

Class CmpOrder {A} (cmp : A -> A -> comparison) : Prop := {
  cmp_antisym : forall x y, cmp y x = CompOpp (cmp x y);
  cmp_trans : forall x y z, cmp x y <> Gt -> cmp y z <> Gt -> cmp x z <> Gt
}.
Arguments cmp_antisym {A} cmp {_} x y.
Arguments cmp_trans {A} cmp {_} x y z.

Section cmp_order.
Context {A : Type} (cmp : A -> A -> comparison) `{!CmpOrder cmp}.

Definition cmp_le (x y : A) : Prop := cmp x y <> Gt.

Lemma cmp_refl x : cmp x x = Eq.
Proof. pose proof (cmp_antisym cmp x x) as H. destruct (cmp x x); done. Qed.

Lemma cmp_le_total x y : cmp_le x y \/ cmp_le y x.
Proof. unfold cmp_le. rewrite (cmp_antisym cmp x y). destruct (cmp x y); simpl; auto. Qed.

Lemma cmp_le_antisym x y : cmp_le x y -> cmp_le y x -> cmp x y = Eq.
Proof. unfold cmp_le. rewrite (cmp_antisym cmp x y). destruct (cmp x y); simpl; done. Qed.

Lemma cmp_Eq_le x y z : cmp x y = Eq -> cmp_le y z -> cmp_le x z.
Proof. intros H. apply (cmp_trans cmp). by rewrite H. Qed.

Lemma cmp_Gt_Lt x y : cmp x y = Gt <-> cmp y x = Lt.
Proof. rewrite (cmp_antisym cmp x y). destruct (cmp x y); simpl; naive_solver. Qed.

Lemma cmp_Lt_trans x y z : cmp x y = Lt -> cmp_le y z -> cmp x z = Lt.
Proof.
  intros Hxy Hyz. destruct (cmp x z) eqn:Hxz; [|done|].
  - exfalso. assert (cmp_le y x) as Hyx.
    { eapply (cmp_trans cmp); [exact Hyz|]. rewrite (cmp_antisym cmp x z), Hxz. done. }
    unfold cmp_le in Hyx. by rewrite (cmp_antisym cmp x y), Hxy in Hyx.
  - exfalso. revert Hxz. eapply (cmp_trans cmp); [by rewrite Hxy|done].
Qed.
End cmp_order.
Arguments cmp_le {A} cmp x y /.

Global Instance N_compare_order : CmpOrder N.compare.
Proof.
  split.
  - intros x y. apply N.compare_antisym.
  - intros x y z. rewrite !N.compare_le_iff. lia.
Qed.

Global Instance str_cmp_order : CmpOrder str_cmp.
Proof.
  unfold str_cmp. split.
  - intros x y. apply String.compare_antisym.
  - assert (forall x y, (x ?= y)%string <> Gt <-> String.le x y) as Hle.
    { intros x y. unfold String.le, String.leb. by destruct (x ?= y)%string. }
    intros x y z. rewrite !Hle. intros ??. by etrans.
Qed.

Lemma str_cmp_Eq x y : str_cmp x y = Eq <-> x = y.
Proof.
  split; [apply String.compare_eq_iff|]. intros ->. apply (cmp_refl str_cmp).
Qed.

(** Orders on projections, reversed orders and lexicographic combinations. *)
Global Instance cmp_on_order {A B} (f : A -> B) (cmp : B -> B -> comparison) `{!CmpOrder cmp} :
  CmpOrder (fun x y => cmp (f x) (f y)).
Proof. split; [intros; apply (cmp_antisym cmp)|intros x y z; apply (cmp_trans cmp)]. Qed.

Lemma cmp_flip_order {A} (cmp : A -> A -> comparison) `{!CmpOrder cmp} :
  CmpOrder (fun x y => cmp y x).
Proof.
  split; [intros; apply (cmp_antisym cmp)|]. intros x y z H1 H2. exact (cmp_trans cmp _ _ _ H2 H1).
Qed.

Lemma then_with_order {A} (c1 c2 : A -> A -> comparison) `{!CmpOrder c1, !CmpOrder c2} :
  CmpOrder (fun x y => then_with (c1 x y) (c2 x y)).
Proof.
  split.
  - intros x y. rewrite (cmp_antisym c1 x y), (cmp_antisym c2 x y).
    by destruct (c1 x y).
  - intros x y z. destruct (c1 x y) eqn:Hxy; simpl; [| |done].
    + destruct (c1 y z) eqn:Hyz; simpl; [| |done]; intros H1 H2.
      * assert (c1 x z = Eq) as ->.
        { apply (cmp_le_antisym c1); eapply (cmp_trans c1);
            rewrite ?Hxy, ?Hyz; try done;
            rewrite (cmp_antisym c1), ?Hxy, ?Hyz; done. }
        simpl. by eapply (cmp_trans c2).
      * assert (c1 x z = Lt) as ->; [|done].
        apply (cmp_Gt_Lt c1). destruct (c1 z x) eqn:Hzx; [exfalso..|done].
        all: apply (cmp_trans c1 z x y); [by rewrite Hzx|by rewrite Hxy|].
        all: by apply (cmp_Gt_Lt c1).
    + destruct (c1 y z) eqn:Hyz; simpl; [| |done]; intros _ _;
        by rewrite (cmp_Lt_trans c1 x y z) by (simpl; by rewrite ?Hyz).
Qed.

(** ** [slice::sort_by] *)

Section sort_by.
Context {A : Type} (cmp : A -> A -> comparison).

Fixpoint insert_by (x : A) (l : list A) : list A :=
  match l with
  | [] => [x]
  | y :: l' => match cmp x y with Gt => y :: insert_by x l' | _ => x :: l end
  end.

Definition sort_by (l : list A) : list A := foldr insert_by [] l.

Lemma insert_by_perm x l : insert_by x l ≡ₚ x :: l.
Proof.
  induction l as [|y l IH]; simpl; [done|]. destruct (cmp x y); [done..|].
  rewrite IH. apply perm_swap.
Qed.

Lemma sort_by_perm l : sort_by l ≡ₚ l.
Proof. induction l as [|x l IH]; simpl; [done|]. by rewrite insert_by_perm, IH. Qed.

Lemma sort_by_length l : length (sort_by l) = length l.
Proof. apply Permutation_length, sort_by_perm. Qed.

Lemma sort_by_elem x l : x ∈ sort_by l <-> x ∈ l.
Proof. by rewrite sort_by_perm. Qed.

Context `{!CmpOrder cmp}.

Lemma insert_by_sorted x l :
  StronglySorted (cmp_le cmp) l -> StronglySorted (cmp_le cmp) (insert_by x l).
Proof.
  induction 1 as [|y l Hl IH Hy]; simpl; [repeat constructor|].
  destruct (cmp x y) eqn:Hxy.
  1,2: constructor; [by constructor|]; constructor; [simpl; by rewrite Hxy|].
  1,2: eapply Forall_impl; [exact Hy|]; intros z Hz; eapply (cmp_trans cmp); [|exact Hz]; by rewrite Hxy.
  constructor; [done|]. rewrite insert_by_perm. constructor; [|done].
  simpl. rewrite (cmp_antisym cmp x y), Hxy. done.
Qed.

Lemma sort_by_sorted l : StronglySorted (cmp_le cmp) (sort_by l).
Proof. induction l; simpl; [constructor|by apply insert_by_sorted]. Qed.

(** Sorting a list that is already in order changes nothing. *)
Lemma sort_by_id l : StronglySorted (cmp_le cmp) l -> sort_by l = l.
Proof.
  induction 1 as [|x l Hl IH Hx]; simpl; [done|]. rewrite IH.
  destruct l as [|y l]; simpl; [done|]. inversion Hx as [|?? Hxy]; subst.
  simpl in Hxy. by destruct (cmp x y).
Qed.

Lemma sort_by_idemp l : sort_by (sort_by l) = sort_by l.
Proof. apply sort_by_id, sort_by_sorted. Qed.

(** When the order tells the elements apart, the result depends only on the
    multiset of elements, not on the order they came in. *)
Lemma sort_by_unique l1 l2 :
  (forall x y, x ∈ l1 -> y ∈ l1 -> cmp x y = Eq -> x = y) ->
  l1 ≡ₚ l2 -> sort_by l1 = sort_by l2.
Proof.
  intros Hinj Hp. apply (StronglySorted_unique_strong (cmp_le cmp)).
  - intros x y. rewrite !sort_by_elem, <-Hp. intros Hx Hy Hxy Hyx.
    apply Hinj; [done..|]. by apply cmp_le_antisym.
  - apply sort_by_sorted.
  - apply sort_by_sorted.
  - by rewrite !sort_by_perm.
Qed.
End sort_by.

Lemma sort_by_map {A B} (f : A -> B) (cmpA : A -> A -> comparison) (cmpB : B -> B -> comparison) l :
  (forall x y, cmpB (f x) (f y) = cmpA x y) ->
  sort_by cmpB (map f l) = map f (sort_by cmpA l).
Proof.
  intros Hf. induction l as [|x l IH]; simpl; [done|]. rewrite IH. clear IH.
  induction (sort_by cmpA l) as [|y k IH]; simpl; [done|]. rewrite Hf.
  destruct (cmpA x y); simpl; [done..|]. by rewrite IH.
Qed.

(** ** [windows(2)] *)

Fixpoint windows2_all {A} (p : A -> A -> bool) (l : list A) : bool :=
  match l with
  | x :: (y :: _) as l' => p x y && windows2_all p l'
  | _ => true
  end.

Lemma windows2_all_sorted {A} (p : A -> A -> bool) (R : A -> A -> Prop) l :
  (forall x y, R x y -> p x y = true) ->
  StronglySorted R l -> windows2_all p l = true.
Proof.
  intros Hp. induction 1 as [|x l Hl IH Hx]; [done|].
  destruct l as [|y l]; [done|]. inversion Hx; subst.
  simpl. rewrite andb_true_iff. auto.
Qed.

Lemma windows2_all_strongly {A} (p : A -> A -> bool) (R : A -> A -> Prop) `{!Transitive R} l :
  (forall x y, p x y = true -> R x y) ->
  windows2_all p l = true -> StronglySorted R l.
Proof.
  intros Hp. intros H. apply Sorted_StronglySorted; [done|].
  induction l as [|x l IH]; [constructor|].
  destruct l as [|y l]; [repeat constructor|].
  simpl in H. apply andb_true_iff in H as [Hxy H].
  constructor; [by apply IH|]. constructor. auto.
Qed.

(** The [for window in ids.windows(2)] scan for two equal neighbours. *)
Fixpoint adjacent_duplicate (l : list string) : option string :=
  match l with
  | x :: (y :: _) as l' => if String.eqb x y then Some x else adjacent_duplicate l'
  | _ => None
  end.

Lemma adjacent_duplicate_None l :
  StronglySorted (cmp_le str_cmp) l -> adjacent_duplicate l = None <-> NoDup l.
Proof.
  induction 1 as [|x l Hl IH Hx]; [split; [constructor|done]|].
  destruct l as [|y l]; [split; [intros _; apply NoDup_singleton|done]|].
  cbn [adjacent_duplicate]. rewrite NoDup_cons, <-IH.
  inversion Hx as [|?? Hxy Hxl]; subst. inversion Hl as [|?? Hl' Hyl]; subst.
  destruct (String.eqb_spec x y) as [->|Hne].
  - split; [done|]. intros [[]%not_elem_of_cons _]. done.
  - split; [|by intros []]. intros Hd. split; [|done]. intros [->|Hin]%elem_of_cons; [done|].
    rewrite Forall_forall in Hyl. apply Hne, str_cmp_Eq, cmp_le_antisym; [apply _|done|].
    by apply Hyl.
Qed.

(** ** Iteration over a [BTreeMap<String, V>] *)

Definition btree_entries {V} (m : gmap string V) : list (string * V) :=
  sort_by (fun a b => str_cmp a.1 b.1) (map_to_list m).
Definition btree_keys {V} (m : gmap string V) : list string := map fst (btree_entries m).
Definition btree_values {V} (m : gmap string V) : list V := map snd (btree_entries m).
Definition btree_set_list (s : gset string) : list string := sort_by str_cmp (elements s).

Lemma btree_entries_elem {V} (m : gmap string V) k v : (k, v) ∈ btree_entries m <-> m !! k = Some v.
Proof. unfold btree_entries. rewrite sort_by_elem. apply elem_of_map_to_list. Qed.

Lemma btree_keys_NoDup {V} (m : gmap string V) : NoDup (btree_keys m).
Proof.
  unfold btree_keys, btree_entries. rewrite sort_by_perm. apply NoDup_fst_map_to_list.
Qed.

Lemma btree_set_list_elem (s : gset string) x : x ∈ btree_set_list s <-> x ∈ s.
Proof. unfold btree_set_list. rewrite sort_by_elem. apply elem_of_elements. Qed.
