(* ===== verification/Text.v ===== *)
(** * Strings

    A Rust [String] is its sequence of bytes; every check the code makes is
    on bytes ([is_ascii_hexdigit], [len], [to_ascii_lowercase], [split]).
    This file models the methods of [str] and [u8] the sources use, with the
    normalisation lemmas (lower-casing is idempotent, keeps lengths and keeps
    hexadecimal digits) and the decimal print/parse round trip. *)
From S2P Require Import Prelude Order.
From Stdlib Require Import Ascii.

Local Open Scope N_scope.

Definition in_range (lo hi : ascii) (c : ascii) : bool :=
  (N_of_ascii lo <=? N_of_ascii c) && (N_of_ascii c <=? N_of_ascii hi).

Definition is_ascii_uppercase : ascii -> bool := in_range "A" "Z".
Definition is_ascii_lowercase : ascii -> bool := in_range "a" "z".
Definition is_ascii_digit : ascii -> bool := in_range "0" "9".
Definition is_ascii_alphanumeric (c : ascii) : bool :=
  is_ascii_uppercase c || is_ascii_lowercase c || is_ascii_digit c.
Definition is_ascii_hexdigit (c : ascii) : bool :=
  is_ascii_digit c || in_range "a" "f" c || in_range "A" "F" c.
Definition is_ascii_control (c : ascii) : bool :=
  (N_of_ascii c <? 32) || (N_of_ascii c =? 127).

Definition lower_char (c : ascii) : ascii :=
  if is_ascii_uppercase c then ascii_of_N (N_of_ascii c + 32) else c.
Definition upper_char (c : ascii) : ascii :=
  if is_ascii_lowercase c then ascii_of_N (N_of_ascii c - 32) else c.

Fixpoint string_map (f : ascii -> ascii) (s : string) : string :=
  match s with EmptyString => EmptyString | String c s' => String (f c) (string_map f s') end.

Definition to_ascii_lowercase : string -> string := string_map lower_char.
Definition to_ascii_uppercase : string -> string := string_map upper_char.

Definition eq_ignore_ascii_case (a b : string) : bool :=
  String.eqb (to_ascii_lowercase a) (to_ascii_lowercase b).

(** [s.bytes().all(p)] *)
Fixpoint all_bytes (p : ascii -> bool) (s : string) : bool :=
  match s with EmptyString => true | String c s' => p c && all_bytes p s' end.

Definition any_bytes (p : ascii -> bool) (s : string) : bool :=
  negb (all_bytes (fun c => negb (p c)) s).

Definition is_empty (s : string) : bool :=
  match s with EmptyString => true | _ => false end.

Fixpoint strip_prefix (pre s : string) : option string :=
  match pre, s with
  | EmptyString, _ => Some s
  | String c pre', String d s' => if Ascii.eqb c d then strip_prefix pre' s' else None
  | _, EmptyString => None
  end.

Definition starts_with (pre s : string) : bool :=
  match strip_prefix pre s with Some _ => true | None => false end.

(** [&s[n..]] *)
Fixpoint drop_bytes (n : nat) (s : string) : string :=
  match n, s with
  | O, _ => s
  | S n', String _ s' => drop_bytes n' s'
  | S _, EmptyString => EmptyString
  end.

(** [s.split(sep)]: always at least one field. *)
Fixpoint split (sep : ascii) (s : string) : list string :=
  match s with
  | EmptyString => [EmptyString]
  | String c s' =>
      if Ascii.eqb c sep then EmptyString :: split sep s'
      else match split sep s' with
           | f :: fs => String c f :: fs
           | [] => [String c EmptyString]
           end
  end.

(** [fields.join(sep)] with a one-byte separator. *)
Fixpoint join (sep : ascii) (fs : list string) : string :=
  match fs with
  | [] => EmptyString
  | [f] => f
  | f :: fs' => (f +:+ String sep (join sep fs'))%string
  end.

(** [str::parse] for the unsigned integer types: an optional [+], then at
    least one digit, within the width of the type. *)
Definition digit_value (c : ascii) : option N :=
  if is_ascii_digit c then Some (N_of_ascii c - 48) else None.

Fixpoint parse_digits (acc : N) (s : string) : option N :=
  match s with
  | EmptyString => Some acc
  | String c s' => d ← digit_value c; parse_digits (acc * 10 + d) s'
  end.

Definition parse_uint (bits : N) (s : string) : option N :=
  let body := default s (strip_prefix "+" s) in
  if is_empty body then None
  else n ← parse_digits 0 body; if n <? 2 ^ bits then Some n else None.

(** [str::parse] for a signed type: an optional [+] or [-]. *)
Definition parse_int (bits : N) (s : string) : option Z :=
  match strip_prefix "-" s with
  | Some body =>
      if is_empty body then None
      else n ← parse_digits 0 body;
           if n <=? 2 ^ (bits - 1) then Some (- Z.of_N n)%Z else None
  | None => n ← parse_uint (bits - 1) s; Some (Z.of_N n)
  end.

Fixpoint repeat_char (c : ascii) (n : nat) : string :=
  match n with O => EmptyString | S n' => String c (repeat_char c n') end.

(** The [{:x}] and [{:0<width>x}] formats of an unsigned integer. *)
Definition lower_hex_digit (n : N) : ascii := ascii_of_N (if n <? 10 then 48 + n else 87 + n).

Fixpoint lower_hex_digits (digits : nat) (n : N) (acc : string) : string :=
  match digits with
  | O => acc
  | S digits' =>
      let acc := String (lower_hex_digit (n mod 16)) acc in
      if n <? 16 then acc else lower_hex_digits digits' (n / 16) acc
  end.

(** A number has at most as many hexadecimal digits as binary ones. *)
Definition lower_hex (n : N) : string := lower_hex_digits (S (N.size_nat n)) n EmptyString.

Definition padded_lower_hex (width : nat) (n : N) : string :=
  let s := lower_hex n in (repeat_char "0" (width - String.length s) +:+ s)%string.

(** The UTF-8 encodings of the characters [str::trim] removes. *)
Definition white_space : list (list N) :=
  [[9]; [10]; [11]; [12]; [13]; [32]; [0xC2; 0x85]; [0xC2; 0xA0]; [0xE1; 0x9A; 0x80]; [0xE2; 0x80; 0x80];
   [0xE2; 0x80; 0x81]; [0xE2; 0x80; 0x82]; [0xE2; 0x80; 0x83]; [0xE2; 0x80; 0x84]; [0xE2; 0x80; 0x85];
   [0xE2; 0x80; 0x86]; [0xE2; 0x80; 0x87]; [0xE2; 0x80; 0x88]; [0xE2; 0x80; 0x89]; [0xE2; 0x80; 0x8A];
   [0xE2; 0x80; 0xA8]; [0xE2; 0x80; 0xA9]; [0xE2; 0x80; 0xAF]; [0xE2; 0x81; 0x9F]; [0xE3; 0x80; 0x80]].

(** [s.trim() == s] for UTF-8 text. *)
Definition is_trimmed (s : string) : bool :=
  let codes := map N_of_ascii (Stdlib.Strings.String.list_ascii_of_string s) in
  negb (existsb (fun w => bool_decide (take (length w) codes = w)) white_space) &&
  negb (existsb (fun w => bool_decide (take (length w) (rev codes) = rev w)) white_space).

(** ** Lemmas *)

Lemma string_map_length f s : String.length (string_map f s) = String.length s.
Proof. induction s; simpl; auto. Qed.

Lemma lower_length s : String.length (to_ascii_lowercase s) = String.length s.
Proof. apply string_map_length. Qed.

Lemma lower_char_idemp c : lower_char (lower_char c) = lower_char c.
Proof. by destruct c as [[] [] [] [] [] [] [] []]. Qed.

Lemma lower_idemp s : to_ascii_lowercase (to_ascii_lowercase s) = to_ascii_lowercase s.
Proof. unfold to_ascii_lowercase. induction s; simpl; [done|]. by rewrite lower_char_idemp, IHs. Qed.

Lemma upper_char_idemp c : upper_char (upper_char c) = upper_char c.
Proof. by destruct c as [[] [] [] [] [] [] [] []]. Qed.

Lemma upper_idemp s : to_ascii_uppercase (to_ascii_uppercase s) = to_ascii_uppercase s.
Proof. unfold to_ascii_uppercase. induction s; simpl; [done|]. by rewrite upper_char_idemp, IHs. Qed.

Lemma hexdigit_lower c : is_ascii_hexdigit (lower_char c) = is_ascii_hexdigit c.
Proof. by destruct c as [[] [] [] [] [] [] [] []]. Qed.

Lemma alphanumeric_lower c : is_ascii_alphanumeric (lower_char c) = is_ascii_alphanumeric c.
Proof. by destruct c as [[] [] [] [] [] [] [] []]. Qed.

Lemma all_bytes_lower p s :
  (forall c, p (lower_char c) = p c) -> all_bytes p (to_ascii_lowercase s) = all_bytes p s.
Proof. unfold to_ascii_lowercase. intros Hp. induction s; simpl; [done|]. by rewrite Hp, IHs. Qed.

Lemma all_bytes_impl (p q : ascii -> bool) s :
  (forall c, p c = true -> q c = true) -> all_bytes p s = true -> all_bytes q s = true.
Proof.
  intros Hpq. induction s as [|c s IH]; simpl; [done|].
  rewrite !andb_true_iff. naive_solver.
Qed.

Lemma eq_ignore_ascii_case_iff a b :
  eq_ignore_ascii_case a b = true <-> to_ascii_lowercase a = to_ascii_lowercase b.
Proof. apply String.eqb_eq. Qed.

Lemma eq_ignore_ascii_case_refl a : eq_ignore_ascii_case a a = true.
Proof. by apply eq_ignore_ascii_case_iff. Qed.

Lemma is_empty_true s : is_empty s = true <-> s = EmptyString.
Proof. by destruct s. Qed.

Lemma starts_with_app pre s : starts_with pre (pre +:+ s) = true.
Proof.
  unfold starts_with. enough (strip_prefix pre (pre +:+ s) = Some s) as -> by done.
  induction pre as [|c pre IH]; [done|].
  change (strip_prefix (String c pre) (String c (pre +:+ s)) = Some s).
  simpl. by rewrite Ascii.eqb_refl.
Qed.

Lemma strip_prefix_Some pre s r : strip_prefix pre s = Some r <-> s = (pre +:+ r)%string.
Proof.
  revert s. induction pre as [|c pre IH]; intros s.
  - simpl. split; [by intros [= ->]|by intros ->].
  - destruct s as [|d s]; simpl; [split; [done|]; intros H; discriminate H|].
    destruct (Ascii.eqb_spec c d) as [->|Hne].
    + rewrite IH. change ((String d pre +:+ r)%string) with (String d (pre +:+ r)).
      split; [by intros ->|by intros [=]].
    + split; [done|]. change ((String c pre +:+ r)%string) with (String c (pre +:+ r)).
      intros [= ->]. done.
Qed.

(** A field without the separator is one field; joining and splitting are inverse. *)
Lemma split_no_sep sep s :
  all_bytes (fun c => negb (Ascii.eqb c sep)) s = true -> split sep s = [s].
Proof.
  induction s as [|c s IH]; simpl; [done|]. rewrite andb_true_iff, negb_true_iff.
  intros [-> ?]. by rewrite IH.
Qed.

Lemma split_app_sep sep f s :
  all_bytes (fun c => negb (Ascii.eqb c sep)) f = true ->
  split sep (f +:+ String sep s) = f :: split sep s.
Proof.
  induction f as [|c f IH]; intros Hf.
  - change ((EmptyString +:+ String sep s)%string) with (String sep s). simpl.
    by rewrite Ascii.eqb_refl.
  - simpl in Hf. apply andb_true_iff in Hf as [Hc Hf]. apply negb_true_iff in Hc.
    change ((String c f +:+ String sep s)%string) with (String c (f +:+ String sep s)).
    simpl. by rewrite Hc, IH.
Qed.

Lemma split_join sep fs :
  fs <> [] -> Forall (fun f => all_bytes (fun c => negb (Ascii.eqb c sep)) f = true) fs ->
  split sep (join sep fs) = fs.
Proof.
  intros Hne Hfs. induction Hfs as [|f fs Hf Hfs IH]; [done|].
  destruct fs as [|g fs]; [by apply split_no_sep|].
  change (join sep (f :: g :: fs)) with (f +:+ String sep (join sep (g :: fs)))%string.
  rewrite split_app_sep by done. by rewrite IH.
Qed.

(** ** Decimal numbers *)

Lemma digit_value_pretty x : x < 10 -> digit_value (pretty_N_char x) = Some x.
Proof.
  intros Hx. assert (x = 0 \/ x = 1 \/ x = 2 \/ x = 3 \/ x = 4 \/ x = 5 \/ x = 6 \/ x = 7 \/
    x = 8 \/ x = 9) as Hc by lia.
  by repeat destruct Hc as [->|Hc]; subst.
Qed.

Lemma pretty_char_digit x : is_ascii_digit (pretty_N_char x) = true.
Proof. unfold pretty_N_char. repeat case_match; done. Qed.

Lemma parse_digits_pretty_go x s :
  exists k, forall base,
    parse_digits base (pretty_N_go x s) = parse_digits (base * 10 ^ k + x) s.
Proof.
  revert s. induction (N.lt_wf_0 x) as [x _ IH]; intros s.
  destruct (decide (x = 0)) as [->|Hx].
  - exists 0. intros base. rewrite pretty_N_go_0. f_equal. lia.
  - destruct (IH (x `div` 10) ltac:(apply N.div_lt; lia)
      (String (pretty_N_char (x `mod` 10)) s)) as [k Hk].
    exists (N.succ k). intros base. rewrite pretty_N_go_step by lia. rewrite Hk. simpl.
    rewrite digit_value_pretty by (apply N.mod_lt; lia). simpl. f_equal.
    rewrite N.pow_succ_r'. pose proof (N.div_mod x 10). lia.
Qed.

Lemma parse_digits_pretty n : parse_digits 0 (pretty n) = Some n.
Proof.
  unfold pretty, pretty_N. case_decide as Hn; [by subst|].
  destruct (parse_digits_pretty_go n "") as [k Hk]. by rewrite Hk.
Qed.

Lemma all_digits_pretty_go x s :
  all_bytes is_ascii_digit s = true -> all_bytes is_ascii_digit (pretty_N_go x s) = true.
Proof.
  revert s. induction (N.lt_wf_0 x) as [x _ IH]; intros s Hs.
  destruct (decide (x = 0)) as [->|Hx]; [by rewrite pretty_N_go_0|].
  rewrite pretty_N_go_step by lia. apply IH; [apply N.div_lt; lia|].
  simpl. by rewrite pretty_char_digit.
Qed.

Lemma pretty_digits (n : N) : all_bytes is_ascii_digit (pretty n) = true.
Proof.
  unfold pretty, pretty_N. case_decide as Hn; [done|]. by apply all_digits_pretty_go.
Qed.

Lemma pretty_nonempty (n : N) : is_empty (pretty n) = false.
Proof.
  destruct (pretty n) eqn:Hp; [|done]. exfalso.
  pose proof (parse_digits_pretty n) as H. rewrite Hp in H. injection H as <-. discriminate Hp.
Qed.

Lemma digits_no_prefix (c : ascii) s :
  all_bytes is_ascii_digit s = true -> is_ascii_digit c = false ->
  strip_prefix (String c EmptyString) s = None.
Proof.
  destruct s as [|d s]; simpl; [done|]. rewrite andb_true_iff. intros [Hd _] Hc.
  destruct (Ascii.eqb_spec c d); [congruence|done].
Qed.

(** Printing then parsing an unsigned integer gives it back. *)
Lemma parse_uint_pretty bits n : fits bits n -> parse_uint bits (pretty n) = Some n.
Proof.
  intros Hn. unfold parse_uint. rewrite digits_no_prefix by (done || apply pretty_digits). simpl.
  rewrite pretty_nonempty, parse_digits_pretty. simpl. apply N.ltb_lt in Hn. by rewrite Hn.
Qed.
