(* ===== verification/Crates.v ===== *)
(** * The interface to third-party crates

    The sources call [sha2], [serde_json], [hex], [secp256k1]/[bitcoin],
    [tiny_keccak], [chrono] and [cid].  None of that code is in the
    repository, so each function is a field of a class and every definition
    that uses it takes the class as an argument.  The [*Laws] classes hold the
    documented behaviour that some theorems rely on; [Concrete.v] has
    instances that satisfy them.

    [#[derive(Serialize)]] is modelled by the value tree it produces ([json]);
    printing that tree to bytes is [serde_json::to_vec]. *)
From S2P Require Import Prelude Text.
From Stdlib Require Import Strings.Byte.

#[local] Set Warnings "-register-all".

Abbreviation bytes := (list byte).

Global Instance byte_eq_dec : EqDecision byte := Byte.byte_eq_dec.

(** A byte-string literal [b"..."]. *)
Definition byte_str (s : string) : bytes := Stdlib.Strings.String.list_byte_of_string s.

Inductive json : Type :=
| JNull
| JBool (b : bool)
| JNum (n : Z)
| JStr (s : string)
| JArr (l : list json)
| JObj (fields : list (string * json)).

Class Serialize (A : Type) := to_json : A -> json.
Global Hint Mode Serialize ! : typeclass_instances.

Global Instance string_serialize : Serialize string := JStr.
Global Instance bool_serialize : Serialize bool := JBool.
Global Instance N_serialize : Serialize N := fun n => JNum (Z.of_N n).
Global Instance Z_serialize : Serialize Z := JNum.
(** [usize]. *)
Global Instance nat_serialize : Serialize nat := fun n => JNum (Z.of_nat n).
Global Instance option_serialize `{Serialize A} : Serialize (option A) := fun o =>
  match o with Some a => to_json a | None => JNull end.
Global Instance list_serialize `{Serialize A} : Serialize (list A) := fun l => JArr (map to_json l).
Global Instance pair_serialize `{Serialize A, Serialize B} : Serialize (A * B) := fun p =>
  JArr [to_json p.1; to_json p.2].

(** A struct field, and a field with [skip_serializing_if = "Option::is_none"]. *)
Definition field {A} `{Serialize A} (name : string) (a : A) : list (string * json) :=
  [(name, to_json a)].
Definition field_opt {A} `{Serialize A} (name : string) (o : option A) : list (string * json) :=
  match o with Some a => [(name, to_json a)] | None => [] end.

(** Types whose serialisation loses nothing. *)
Class SerializeInj (A : Type) `{Serialize A} : Prop := to_json_inj : Inj (=) (=) (to_json (A := A)).

Global Instance string_serialize_inj : SerializeInj string.
Proof. intros x y Heq. by injection Heq. Qed.
Global Instance bool_serialize_inj : SerializeInj bool.
Proof. intros x y Heq. by injection Heq. Qed.
Global Instance N_serialize_inj : SerializeInj N.
Proof. intros x y Heq. injection Heq as Heq. by apply N2Z.inj. Qed.
Global Instance Z_serialize_inj : SerializeInj Z.
Proof. intros x y Heq. by injection Heq. Qed.
Global Instance nat_serialize_inj : SerializeInj nat.
Proof. intros x y Heq. injection Heq as Heq. by apply Nat2Z.inj. Qed.
Global Instance option_string_serialize_inj : SerializeInj (option string).
Proof. intros [x|] [y|] Heq; try discriminate; [|done]. by injection Heq as ->. Qed.
Global Instance list_serialize_inj `{SerializeInj A} : SerializeInj (list A).
Proof.
  intros l. induction l as [|x l IH]; intros [|y k] Heq; try discriminate; [done|].
  injection Heq as Hxy Heq. f_equal; [by apply to_json_inj|]. apply IH. unfold to_json, list_serialize.
  by f_equal.
Qed.

Lemma map_to_json_inj {A} `{SerializeInj A} (l k : list A) : map to_json l = map to_json k -> l = k.
Proof. intros Heq. apply list_serialize_inj. unfold to_json, list_serialize. by f_equal. Qed.

Lemma field_app_inj {A} `{SerializeInj A} name (a b : A) r r' :
  field name a ++ r = field name b ++ r' -> a = b /\ r = r'.
Proof. intros Heq. injection Heq as Hab Hr. by apply to_json_inj in Hab. Qed.

Lemma field_inj {A} `{SerializeInj A} name (a b : A) : field name a = field name b -> a = b.
Proof. intros Heq. injection Heq as Hab. by apply to_json_inj in Hab. Qed.

Lemma JObj_inj l l' : JObj l = JObj l' -> l = l'.
Proof. congruence. Qed.

Lemma field_opt_app_inj {A} `{SerializeInj A} name (o o' : option A) r r' :
  name ∉ map fst r -> name ∉ map fst r' ->
  field_opt name o ++ r = field_opt name o' ++ r' -> o = o' /\ r = r'.
Proof.
  intros Hr Hr' Heq. destruct o as [a|], o' as [a'|]; simpl in Heq.
  - injection Heq as Ha Heq. apply to_json_inj in Ha. by subst.
  - subst r'. simpl in Hr'. set_solver.
  - subst r. simpl in Hr. set_solver.
  - done.
Qed.

(** A field name does not occur among the later ones. *)
Ltac solve_other_fields :=
  unfold field_opt, field; repeat case_match; simpl;
  repeat (apply not_elem_of_cons; split; [discriminate|]); apply not_elem_of_nil.

(** Splits an equation of two serialised structs into equations of the fields. *)
Ltac invert_fields Heq :=
  apply JObj_inj in Heq;
  repeat first
    [ lazymatch type of Heq with field _ _ = field _ _ => apply field_inj in Heq end
    | lazymatch type of Heq with field _ _ ++ _ = _ => idtac end;
      apply field_app_inj in Heq; destruct Heq as [? Heq]
    | lazymatch type of Heq with field_opt _ _ ++ _ = _ => idtac end;
      apply field_opt_app_inj in Heq; [destruct Heq as [? Heq]|solve_other_fields..] ].

(** Injectivity of a derived [Serialize] of a struct. *)
Ltac solve_serialize_inj :=
  let x := fresh "x" in let y := fresh "y" in let Heq := fresh "Heq" in
  intros x y Heq; invert_fields Heq; destruct x, y; simpl in *; subst; reflexivity.

(** [sha2], [serde_json] and [hex]. *)
Class Hashing := {
  sha256 : bytes -> bytes;
  to_vec : json -> bytes;
  hex_encode : bytes -> string;
  hex_decode : string -> result string bytes
}.

(** [secp256k1] and [tiny_keccak]; errors are their [to_string()]. *)
Class Secp256k1 := {
  XOnlyPublicKey : Type;
  xonly_from_str : string -> result string XOnlyPublicKey;
  SchnorrSignature : Type;
  schnorr_from_slice : bytes -> result string SchnorrSignature;
  verify_schnorr : SchnorrSignature -> bytes -> XOnlyPublicKey -> result string unit;
  RecoveryId : Type;
  recovery_id_from_i32 : Z -> result string RecoveryId;
  RecoverableSignature : Type;
  recoverable_from_compact : bytes -> RecoveryId -> result string RecoverableSignature;
  PublicKey : Type;
  recover_ecdsa : bytes -> RecoverableSignature -> result string PublicKey;
  serialize_uncompressed : PublicKey -> bytes;
  keccak256_crate : bytes -> bytes
}.

(** [bitcoin]: scripts, targets, double SHA-256 and transactions. *)
Class BitcoinCrate := {
  is_p2wpkh : bytes -> bool;
  is_p2tr : bytes -> bool;
  sha256d_hash : bytes -> bytes;
  sha256d_to_string : bytes -> string;
  max_attainable_regtest : bytes;
  target_difficulty_regtest : bytes -> N;
  Transaction : Type;
  tx_deserialize : bytes -> result string Transaction;
  tx_serialize : Transaction -> bytes;
  tx_is_coinbase : Transaction -> bool;
  tx_output_scripts : Transaction -> list bytes;
  tx_compute_txid : Transaction -> bytes
}.

(** [secp256k1] keys with their secrets, [chacha20poly1305] and [rand_core]:
    [fill_bytes n] draws [n] bytes from the generator and advances it. *)
Class KeyExchange `{Secp256k1} := {
  SecretKey : Type;
  secret_from_slice : bytes -> option SecretKey;
  public_from_secret : SecretKey -> PublicKey;
  public_from_str : string -> result string PublicKey;
  public_to_string : PublicKey -> string;
  public_serialize : PublicKey -> bytes;
  shared_secret : PublicKey -> SecretKey -> bytes;
  Keypair : Type;
  keypair_xonly : Keypair -> XOnlyPublicKey;
  xonly_to_string : XOnlyPublicKey -> string;
  sign_schnorr : bytes -> Keypair -> SchnorrSignature;
  schnorr_serialize : SchnorrSignature -> bytes;
  aead_encrypt (key nonce msg aad : bytes) : option bytes;
  aead_decrypt (key nonce msg aad : bytes) : option bytes;
  Rng : Type;
  fill_bytes : nat -> Rng -> bytes * Rng
}.

(** Documented behaviour: Diffie-Hellman agreement, the cipher accepts messages
    of up to 4 GiB (its limit is higher) and decryption inverts encryption, keys and signatures read back what they print (a public
    key as lower-case hexadecimal), signatures of a key pair verify. *)
Class KeyExchangeLaws `{KeyExchange} := {
  shared_secret_comm a b :
    shared_secret (public_from_secret a) b = shared_secret (public_from_secret b) a;
  public_from_to_string pk : public_from_str (public_to_string pk) = Ok pk;
  public_to_string_lower pk : to_ascii_lowercase (public_to_string pk) = public_to_string pk;
  public_serialize_length pk : length (public_serialize pk) = 33%nat;
  aead_encrypt_total key nonce msg aad :
    (N.of_nat (length msg) <= 2 ^ 32)%N -> exists c, aead_encrypt key nonce msg aad = Some c;
  aead_decrypt_encrypt key nonce msg aad c :
    aead_encrypt key nonce msg aad = Some c -> aead_decrypt key nonce c aad = Some msg;
  keypair_xonly_from_str kp :
    xonly_from_str (xonly_to_string (keypair_xonly kp)) = Ok (keypair_xonly kp);
  schnorr_from_serialize msg kp :
    length msg = 32%nat ->
    schnorr_from_slice (schnorr_serialize (sign_schnorr msg kp)) = Ok (sign_schnorr msg kp);
  verify_sign_schnorr msg kp :
    length msg = 32%nat -> verify_schnorr (sign_schnorr msg kp) msg (keypair_xonly kp) = Ok tt;
  fill_bytes_length n rng : length (fill_bytes n rng).1 = n
}.

(** [bitcoin::ScriptBuf::new_p2tr(_, key, None)]: the script of a key-path-only
    taproot output. *)
Class Taproot `{Secp256k1} := { new_p2tr : XOnlyPublicKey -> bytes }.

(** [chrono::NaiveDate::parse_from_str(_, "%Y-%m-%d")] and [cid]. *)
Class DateAndCid := {
  naive_date_parse : string -> result string unit;
  Cid : Type;
  cid_parse : string -> option Cid;
  cid_is_v1 : Cid -> bool;
  cid_to_string : Cid -> string;
  cid_hash_code : Cid -> N;
  cid_digest_len : Cid -> nat
}.

(** Documented behaviour of [hex]: lower-case output, two characters per byte,
    decoding accepts both cases and nothing else. *)
Class HexLaws `{Hashing} := {
  hex_encode_length b : String.length (hex_encode b) = (2 * length b)%nat;
  hex_encode_lower b : to_ascii_lowercase (hex_encode b) = hex_encode b;
  hex_encode_digits b : all_bytes is_ascii_hexdigit (hex_encode b) = true;
  hex_decode_iff s b : hex_decode s = Ok b <-> to_ascii_lowercase s = hex_encode b;
  hex_decode_total s :
    Nat.Even (String.length s) -> all_bytes is_ascii_hexdigit s = true -> exists b, hex_decode s = Ok b
}.

(** SHA-256 digests have 32 bytes and distinct values print differently. *)
Class HashLaws `{Hashing} := {
  sha256_length b : length (sha256 b) = 32%nat;
  to_vec_inj : Inj (=) (=) to_vec
}.

Section helpers.
Context `{Hashing}.

(** [canonical_json], [sha256_tagged] and [hash_hex] of [lib.rs]. *)
Definition canonical_json {A} `{Serialize A} (a : A) : bytes := to_vec (to_json a).

Definition sha256_tagged (tag payload : bytes) : bytes := sha256 (tag ++ [x00] ++ payload).

Definition hash_hex (hash : bytes) : string := hex_encode hash.

Context `{!HexLaws}.

Lemma hex_decode_encode b : hex_decode (hex_encode b) = Ok b.
Proof. apply hex_decode_iff, hex_encode_lower. Qed.

Lemma hex_encode_inj b b' : hex_encode b = hex_encode b' -> b = b'.
Proof.
  intros Heq. pose proof (hex_decode_encode b) as Hb. rewrite Heq, hex_decode_encode in Hb.
  by injection Hb.
Qed.

Lemma hex_decode_length s b : hex_decode s = Ok b -> String.length s = (2 * length b)%nat.
Proof. intros Hs%hex_decode_iff. by rewrite <-lower_length, Hs, hex_encode_length. Qed.

Lemma hash_hex_lower h : to_ascii_lowercase (hash_hex h) = hash_hex h.
Proof. apply hex_encode_lower. Qed.

(** The byte string that [sha256_tagged] feeds to the hash function. *)
Definition tagged_input (tag payload : bytes) : bytes := tag ++ [x00] ++ payload.

Lemma tagged_input_inj tag p1 p2 : tagged_input tag p1 = tagged_input tag p2 -> p1 = p2.
Proof. intros Heq. apply (app_inv_head tag) in Heq. by injection Heq. Qed.

(** Collisions exist for every hash function, so binding theorems name the
    strings that were actually hashed: no two of them collide. *)
Definition collision_free (known : bytes -> Prop) : Prop :=
  forall a b, known a -> known b -> sha256 a = sha256 b -> a = b.

Definition collision_among (inputs : list bytes) : Prop :=
  exists a b, a ∈ inputs /\ b ∈ inputs /\ a <> b /\ sha256 a = sha256 b.

Lemma collision_free_or inputs :
  collision_free (fun a => a ∈ inputs) \/ collision_among inputs.
Proof.
  destruct (decide (Exists (fun a => Exists (fun b => a <> b /\ sha256 a = sha256 b) inputs) inputs))
    as [Hc|Hn].
  - right. apply Exists_exists in Hc as (a & Ha & (b & Hb & ? & ?)%Exists_exists). by exists a, b.
  - left. intros a b Ha Hb Heq. destruct (decide (a = b)) as [|Hne]; [done|].
    exfalso. apply Hn, Exists_exists. exists a. split; [done|]. apply Exists_exists. eauto.
Qed.

Lemma sha256_tagged_free known t1 p1 t2 p2 :
  collision_free known -> known (tagged_input t1 p1) -> known (tagged_input t2 p2) ->
  sha256_tagged t1 p1 = sha256_tagged t2 p2 -> tagged_input t1 p1 = tagged_input t2 p2.
Proof. intros Hcf. apply Hcf. Qed.
End helpers.
