(* ===== verification/Concrete.v ===== *)
(** * Concrete instances of the crate interfaces

    The theorems about hashing quantify over [Hashing] with [HexLaws] and
    [HashLaws].  This file builds an executable instance that satisfies the
    laws, so that the hypotheses are known to be consistent and so that the
    definitions can be evaluated: hexadecimal coding is the real one, the JSON
    printer is a prefix code, and the digest is a 256-bit rolling checksum
    standing for SHA-256. *)
From S2P Require Import Prelude Text Crates.
From Stdlib Require Import Ascii Strings.Byte.

Local Open Scope N_scope.

(** ** Hexadecimal *)

Definition hex_digit (n : N) : ascii :=
  ascii_of_N (if n <? 10 then 48 + n else 87 + n).

Definition hex_value (c : ascii) : option N :=
  let n := N_of_ascii c in
  if is_ascii_digit c then Some (n - 48)
  else if in_range "a" "f" c then Some (n - 87)
  else if in_range "A" "F" c then Some (n - 55)
  else None.

Fixpoint hex_encode_c (b : bytes) : string :=
  match b with
  | [] => EmptyString
  | x :: b' =>
      let n := Byte.to_N x in
      String (hex_digit (n / 16)) (String (hex_digit (n mod 16)) (hex_encode_c b'))
  end.

Fixpoint hex_decode_c (s : string) : option bytes :=
  match s with
  | EmptyString => Some []
  | String c (String d s') =>
      h ← hex_value c; l ← hex_value d; x ← Byte.of_N (16 * h + l);
      b ← hex_decode_c s'; Some (x :: b)
  | String _ EmptyString => None
  end.

Lemma hex_value_Some c h :
  hex_value c = Some h -> h < 16 /\ lower_char c = hex_digit h /\ is_ascii_hexdigit c = true.
Proof. destruct c as [[] [] [] [] [] [] [] []]; compute; intros [= <-]; done. Qed.

Lemma hex_value_total c : is_ascii_hexdigit c = true -> exists h, hex_value c = Some h.
Proof. destruct c as [[] [] [] [] [] [] [] []]; compute; intros [=]; eauto. Qed.

(** The two characters of a byte are lower-case hexadecimal and read back. *)
Definition byte_hex_ok (x : byte) : bool :=
  let c := hex_digit (Byte.to_N x / 16) in
  let d := hex_digit (Byte.to_N x mod 16) in
  Ascii.eqb (lower_char c) c && Ascii.eqb (lower_char d) d &&
  is_ascii_hexdigit c && is_ascii_hexdigit d.

Lemma byte_hex_ok_true x : byte_hex_ok x = true.
Proof. by destruct x. Qed.

Lemma hex_encode_c_length b : String.length (hex_encode_c b) = (2 * length b)%nat.
Proof. induction b as [|x b IH]; simpl; [done|]. rewrite IH. lia. Qed.

Lemma hex_encode_c_chars b :
  to_ascii_lowercase (hex_encode_c b) = hex_encode_c b /\
  all_bytes is_ascii_hexdigit (hex_encode_c b) = true.
Proof.
  induction b as [|x b [IH1 IH2]]; [done|]. pose proof (byte_hex_ok_true x) as Hx.
  unfold byte_hex_ok in Hx. rewrite !andb_true_iff, !Ascii.eqb_eq in Hx.
  destruct Hx as [[[Hc Hd] Hc'] Hd']. unfold to_ascii_lowercase in *. cbn [hex_encode_c string_map all_bytes].
  by rewrite Hc, Hd, IH1, Hc', Hd', IH2.
Qed.

Lemma hex_digit_inj h h' : h < 16 -> h' < 16 -> hex_digit h = hex_digit h' -> h = h'.
Proof.
  intros Hh Hh' Heq. apply (f_equal N_of_ascii) in Heq. unfold hex_digit in Heq.
  destruct (N.ltb_spec h 10), (N.ltb_spec h' 10);
    rewrite !N_ascii_embedding in Heq by lia; lia.
Qed.

Lemma byte_split x : Byte.to_N x / 16 < 16 /\ Byte.to_N x mod 16 < 16.
Proof.
  pose proof (Byte.to_N_bounded x). split; [apply N.Div0.div_lt_upper_bound; lia|].
  apply N.mod_lt; lia.
Qed.

Fixpoint hex_decode_c_iff (s : string) (b : bytes) :
  hex_decode_c s = Some b <-> string_map lower_char s = hex_encode_c b.
Proof.
  destruct s as [|c [|d s]]; cbn [hex_decode_c string_map].
  - split; [by intros [= <-]|]. by destruct b.
  - split; [done|]. by destruct b.
  - split.
    + destruct (hex_value c) as [h|] eqn:Hc; [|done]. destruct (hex_value d) as [l|] eqn:Hd; [|done].
      simpl. destruct (Byte.of_N (16 * h + l)) as [x|] eqn:Hx; [|done]. simpl.
      destruct (hex_decode_c s) as [b'|] eqn:Hs; [|done]. intros [= <-].
      apply hex_value_Some in Hc as (Hh & -> & _). apply hex_value_Some in Hd as (Hl & -> & _).
      apply Byte.to_of_N in Hx. cbn [hex_encode_c].
      rewrite Hx, (proj1 (hex_decode_c_iff s b') Hs).
      replace ((16 * h + l) / 16) with h by (rewrite N.mul_comm, N.div_add_l, N.div_small; lia).
      replace ((16 * h + l) mod 16) with l
        by (rewrite N.add_comm, N.mul_comm, N.Div0.mod_add, N.mod_small; lia).
      done.
    + destruct b as [|x b]; cbn [hex_encode_c]; [done|]. intros [= Hc Hd Hs].
      apply hex_decode_c_iff in Hs. rewrite Hs.
      pose proof (byte_hex_ok_true x) as Hx. unfold byte_hex_ok in Hx.
      rewrite !andb_true_iff in Hx. destruct Hx as [[_ Hc'] Hd'].
      rewrite <-Hc, hexdigit_lower in Hc'. rewrite <-Hd, hexdigit_lower in Hd'.
      destruct (hex_value_total c Hc') as [h Hh]. destruct (hex_value_total d Hd') as [l Hl].
      rewrite Hh, Hl. simpl.
      apply hex_value_Some in Hh as (Hh & Hch & _). apply hex_value_Some in Hl as (Hl & Hdl & _).
      destruct (byte_split x) as [Hx1 Hx2].
      rewrite Hc in Hch. rewrite Hd in Hdl.
      apply hex_digit_inj in Hch; [|done..]. apply hex_digit_inj in Hdl; [|done..].
      replace (16 * h + l) with (Byte.to_N x) by (subst; rewrite <-N.div_mod; lia).
      by rewrite Byte.of_to_N.
Qed.

Fixpoint hex_decode_c_total (s : string) :
  Nat.Even (String.length s) -> all_bytes is_ascii_hexdigit s = true ->
  exists b, hex_decode_c s = Some b.
Proof.
  destruct s as [|c [|d s]]; cbn [hex_decode_c String.length all_bytes].
  - eauto.
  - intros [k Hk]. lia.
  - intros [k Hk] Hs. rewrite !andb_true_iff in Hs. destruct Hs as (Hc & Hd & Hs).
    destruct (hex_value_total c Hc) as [h Hh]. destruct (hex_value_total d Hd) as [l Hl].
    destruct (hex_decode_c_total s) as [b Hb]; [exists (k - 1)%nat; lia|done|].
    rewrite Hh, Hl. simpl.
    apply hex_value_Some in Hh as (Hh & _). apply hex_value_Some in Hl as (Hl & _).
    destruct (Byte.of_N (16 * h + l)) as [x|] eqn:Hx.
    + simpl. rewrite Hb. simpl. eauto.
    + apply Byte.of_N_None_iff in Hx. lia.
Qed.

(** ** A prefix code for JSON values *)

Fixpoint enc_str (s : string) : bytes :=
  match s with EmptyString => [x00] | String c s' => x01 :: byte_of_ascii c :: enc_str s' end.

Fixpoint enc_pos (p : positive) : bytes :=
  match p with xH => [x00] | xO p' => x01 :: enc_pos p' | xI p' => x02 :: enc_pos p' end.

Definition enc_Z (z : Z) : bytes :=
  match z with Z0 => [x00] | Zpos p => x01 :: enc_pos p | Zneg p => x02 :: enc_pos p end.

Fixpoint to_vec_c (j : json) : bytes :=
  match j with
  | JNull => [x00]
  | JBool b => [x01; if b then x01 else x00]
  | JNum z => x02 :: enc_Z z
  | JStr s => x03 :: enc_str s
  | JArr l => x04 :: foldr (fun v r => x01 :: to_vec_c v ++ r) [x00] l
  | JObj fs => x05 :: foldr (fun f r => x01 :: enc_str f.1 ++ to_vec_c f.2 ++ r) [x00] fs
  end.

Lemma enc_str_prefix s s' r r' : enc_str s ++ r = enc_str s' ++ r' -> s = s' /\ r = r'.
Proof.
  revert s'. induction s as [|c s IH]; intros [|c' s'] Heq; simpl in Heq; try discriminate.
  - by injection Heq.
  - injection Heq as Hc Heq. apply IH in Heq as [-> ->].
    apply (f_equal ascii_of_byte) in Hc. rewrite !ascii_of_byte_of_ascii in Hc. by subst.
Qed.

Lemma enc_pos_prefix p p' r r' : enc_pos p ++ r = enc_pos p' ++ r' -> p = p' /\ r = r'.
Proof.
  revert p'. induction p as [p IH|p IH|]; intros [p'|p'|] Heq; simpl in Heq; try discriminate;
    injection Heq as Heq; try (apply IH in Heq as [-> ->]); done.
Qed.

Lemma enc_Z_prefix z z' r r' : enc_Z z ++ r = enc_Z z' ++ r' -> z = z' /\ r = r'.
Proof.
  destruct z, z'; simpl; intros Heq; try discriminate; injection Heq as Heq; [done|..];
    by apply enc_pos_prefix in Heq as [-> ->].
Qed.

Definition prefix_ok (j : json) : Prop :=
  forall j' r r', to_vec_c j ++ r = to_vec_c j' ++ r' -> j = j' /\ r = r'.

Lemma arr_prefix l l' r r' :
  Forall prefix_ok l ->
  foldr (fun v r => x01 :: to_vec_c v ++ r) [x00] l ++ r =
    foldr (fun v r => x01 :: to_vec_c v ++ r) [x00] l' ++ r' -> l = l' /\ r = r'.
Proof.
  intros Hl. revert l'. induction Hl as [|v l Hv Hl IH]; intros [|v' l'] Heq; simpl in Heq;
    try discriminate; injection Heq as Heq; [done|].
  rewrite <-!app_assoc in Heq. apply Hv in Heq as [-> Heq]. by apply IH in Heq as [-> ->].
Qed.

Lemma obj_prefix l l' r r' :
  Forall (fun f => prefix_ok f.2) l ->
  foldr (fun f r => x01 :: enc_str f.1 ++ to_vec_c f.2 ++ r) [x00] l ++ r =
    foldr (fun f r => x01 :: enc_str f.1 ++ to_vec_c f.2 ++ r) [x00] l' ++ r' -> l = l' /\ r = r'.
Proof.
  intros Hl. revert l'. induction Hl as [|[k v] l Hv Hl IH]; intros [|[k' v'] l'] Heq; simpl in Heq;
    try discriminate; injection Heq as Heq; [done|].
  rewrite <-!app_assoc in Heq. apply enc_str_prefix in Heq as [-> Heq].
  simpl in Hv. apply Hv in Heq as [-> Heq]. by apply IH in Heq as [-> ->].
Qed.

Fixpoint to_vec_c_prefix (j : json) : prefix_ok j.
Proof.
  intros j' r r'. destruct j as [|b|z|s|l|fs], j' as [|b'|z'|s'|l'|fs'];
    cbn [to_vec_c app]; intros Heq; try discriminate Heq.
  - by injection Heq.
  - by destruct b, b'; injection Heq.
  - injection Heq as Heq. by apply enc_Z_prefix in Heq as [-> ->].
  - injection Heq as Heq. by apply enc_str_prefix in Heq as [-> ->].
  - injection Heq as Heq. apply arr_prefix in Heq as [-> ->]; [done|].
    clear Heq. induction l as [|v l IH]; [constructor|constructor; [apply to_vec_c_prefix|exact IH]].
  - injection Heq as Heq. apply obj_prefix in Heq as [-> ->]; [done|].
    clear Heq. induction fs as [|f fs IH]; [constructor|constructor; [apply to_vec_c_prefix|exact IH]].
Qed.

(** ** A stand-in digest of 32 bytes *)

Definition checksum (b : bytes) : N :=
  let mask := N.ones 256 in
  foldl (fun acc x => N.land (acc + N.shiftl acc 8 + Byte.to_N x + 1) mask) 7 b.

Fixpoint be_bytes (k : nat) (n : N) : bytes :=
  match k with
  | O => []
  | S k' => be_bytes k' (N.shiftr n 8) ++ [default x00 (Byte.of_N (N.land n 255))]
  end.

Lemma be_bytes_length k n : length (be_bytes k n) = k.
Proof. revert n. induction k as [|k IH]; intros n; simpl; [done|]. rewrite length_app, IH. simpl. lia. Qed.

Definition hashing_c : Hashing := {|
  sha256 b := be_bytes 32 (checksum b);
  to_vec := to_vec_c;
  hex_encode := hex_encode_c;
  hex_decode s := ok_or "invalid hex"%string (hex_decode_c s)
|}.

Lemma hex_laws_c : @HexLaws hashing_c.
Proof.
  split; simpl.
  - apply hex_encode_c_length.
  - apply hex_encode_c_chars.
  - apply hex_encode_c_chars.
  - intros s b. rewrite ok_or_Ok. apply hex_decode_c_iff.
  - intros s He Hs. destruct (hex_decode_c_total s He Hs) as [b Hb]. exists b. by rewrite Hb.
Qed.

Lemma hash_laws_c : @HashLaws hashing_c.
Proof.
  split; [intros b; apply be_bytes_length|].
  intros j j' Heq. apply (f_equal (fun b => b ++ [])) in Heq.
  by apply to_vec_c_prefix in Heq as [-> _].
Qed.

(** ** Stand-ins for signatures, scripts, targets and identifiers

    A signature is accepted when it starts with the digest it signs, so that
    an example can carry a valid one; script templates, targets and double
    hashing have their documented shape. *)

Definition secp_c : Secp256k1 := {|
  XOnlyPublicKey := string;
  xonly_from_str s :=
    if Nat.eqb (String.length s) 64 then Ok s else Err "malformed public key"%string;
  SchnorrSignature := bytes;
  schnorr_from_slice b :=
    if Nat.eqb (length b) 64 then Ok b else Err "malformed signature"%string;
  verify_schnorr sig msg _ :=
    if bool_decide (take 32 sig = msg) then Ok tt else Err "signature failed verification"%string;
  RecoveryId := Z;
  recovery_id_from_i32 z := Ok z;
  RecoverableSignature := bytes;
  recoverable_from_compact b _ := Ok b;
  PublicKey := bytes;
  recover_ecdsa _ sig := Ok sig;
  serialize_uncompressed pk := x04 :: pk;
  keccak256_crate b := be_bytes 32 (checksum (x01 :: b))
|}.

(** [OP_0 PUSH20 _] and [OP_1 PUSH32 _]. *)
Definition bitcoin_c : BitcoinCrate := {|
  is_p2wpkh b := Nat.eqb (length b) 22 && bool_decide (take 2 b = [x00; x14]);
  is_p2tr b := Nat.eqb (length b) 34 && bool_decide (take 2 b = [x51; x20]);
  sha256d_hash b := be_bytes 32 (checksum (be_bytes 32 (checksum b)));
  sha256d_to_string b := hex_encode_c (rev (be_bytes 32 (checksum (be_bytes 32 (checksum b)))));
  max_attainable_regtest := be_bytes 32 (0x7fffff * 256 ^ 29);
  target_difficulty_regtest t :=
    0x7fffff * 256 ^ 29 / foldl (fun acc x => acc * 256 + Byte.to_N x) 0 t;
  Transaction := bytes;
  tx_deserialize b := Ok b;
  tx_serialize b := b;
  tx_is_coinbase _ := true;
  tx_output_scripts b := [b];
  tx_compute_txid b := be_bytes 32 (checksum b)
|}.

Definition date_cid_c : DateAndCid := {|
  naive_date_parse s :=
    if Nat.eqb (String.length s) 10 then Ok tt else Err "input is not a date"%string;
  Cid := string;
  cid_parse s := Some s;
  cid_is_v1 _ := true;
  cid_to_string s := s;
  cid_hash_code _ := 0x12;
  cid_digest_len _ := 32%nat
|}.

(** Key exchange: a public key prefixes the bytes of its secret with [02], the
    shared secret hashes both, the cipher appends a checksum of its key, nonce
    and associated data as the tag, and the generator counts. *)
Definition aead_tag (key nonce msg aad : bytes) : bytes :=
  be_bytes 16 (checksum (key ++ nonce ++ aad ++ msg)).

Definition key_exchange_c : @KeyExchange secp_c := {|
  SecretKey := bytes;
  secret_from_slice b := if Nat.eqb (length b) 32 then Some b else None;
  public_from_secret sk := x02 :: sk : @PublicKey secp_c;
  public_from_str s := ok_or "malformed public key"%string (hex_decode_c s);
  public_to_string := hex_encode_c;
  public_serialize pk := be_bytes 33 (checksum pk);
  shared_secret pk sk := be_bytes 32 (checksum pk + checksum (x02 :: sk));
  Keypair := bytes;
  keypair_xonly kp := hex_encode_c (be_bytes 32 (checksum kp)) : @XOnlyPublicKey secp_c;
  xonly_to_string s := s;
  sign_schnorr msg _ := msg ++ replicate 32 x00 : @SchnorrSignature secp_c;
  schnorr_serialize sig := sig;
  aead_encrypt key nonce msg aad := Some (aead_tag key nonce msg aad ++ msg);
  aead_decrypt key nonce c aad :=
    let msg := drop 16 c in
    if bool_decide (take 16 c = aead_tag key nonce msg aad) then Some msg else None;
  Rng := N;
  fill_bytes n rng := (be_bytes n rng, rng + 1)
|}.

Lemma key_exchange_laws_c : @KeyExchangeLaws secp_c key_exchange_c.
Proof.
  split; cbn -[be_bytes checksum aead_tag].
  - intros a b. by rewrite N.add_comm.
  - intros pk. rewrite ok_or_Ok. apply hex_decode_c_iff, hex_encode_c_chars.
  - intros pk. apply hex_encode_c_chars.
  - intros pk. apply be_bytes_length.
  - eauto.
  - intros key nonce msg aad c Hc. apply (inj Some) in Hc as <-.
    rewrite drop_app_length', take_app_length' by (symmetry; apply be_bytes_length).
    by rewrite bool_decide_eq_true_2.
  - intros kp. by rewrite hex_encode_c_length, be_bytes_length.
  - intros msg kp Hlen. by rewrite length_app, Hlen.
  - intros msg kp Hlen. rewrite take_app_length' by (symmetry; exact Hlen). by rewrite bool_decide_eq_true_2.
  - intros n rng. apply be_bytes_length.
Qed.

Definition taproot_c : @Taproot secp_c := {|
  new_p2tr (key : @XOnlyPublicKey secp_c) := x51 :: x20 :: default (be_bytes 32 0) (hex_decode_c key)
|}.
