(* ===== verification/Merkle.v ===== *)
(** * Merkle roots ([crates/pohw-core/src/merkle.rs])

    Every consensus object (score snapshots, payout schedules) is committed
    to by a Merkle root over the canonical JSON of its entries.  An odd level
    pairs its last hash with itself.  The central fact is that the root binds
    the entries: two duplicate-free sequences with one root are equal unless
    SHA-256 collides, whatever their lengths. *)
From S2P Require Import Prelude Text Crates Concrete.
From Equations Require Import Equations.
From Stdlib Require Import Strings.Byte.

Section merkle.
Context `{Hashing}.

Definition LEAF_TAG : bytes := byte_str "POHW1_MERKLE_LEAF".
Definition NODE_TAG : bytes := byte_str "POHW1_MERKLE_NODE".
Definition EMPTY_TAG : bytes := byte_str "POHW1_MERKLE_EMPTY".

Definition leaf_hash {A} `{Serialize A} (leaf : A) : bytes :=
  sha256_tagged LEAF_TAG (canonical_json leaf).

Definition node_hash (left right : bytes) : bytes := sha256_tagged NODE_TAG (left ++ right).

(** One pass of the [for pair in leaves.chunks(2)] loop. *)
Fixpoint merkle_level (leaves : list bytes) : list bytes :=
  match leaves with
  | [] => []
  | [a] => [node_hash a a]
  | a :: b :: rest => node_hash a b :: merkle_level rest
  end.

Lemma merkle_level_length leaves : length (merkle_level leaves) <= S (length leaves) / 2.
Proof.
  remember (length leaves) as n eqn:Hn. revert leaves Hn.
  induction (lt_wf n) as [n _ IH]; intros [|a [|b rest]] ->; simpl length; [simpl; lia..|].
  specialize (IH (length rest) ltac:(simpl; lia) rest eq_refl).
  replace (S (S (S (length rest)))) with (S (length rest) + 1 * 2)%nat by lia.
  rewrite Nat.div_add by lia. lia.
Qed.

Lemma merkle_level_shrinks a b rest :
  length (merkle_level (a :: b :: rest)) < length (a :: b :: rest).
Proof.
  pose proof (merkle_level_length rest). simpl.
  enough (S (length rest) / 2 <= length rest)%nat by lia.
  destruct (length rest) as [|n]; [done|].
  apply Nat.Div0.div_le_upper_bound. lia.
Qed.

(** The [while leaves.len() > 1] loop of [merkle_root_hashes]. *)
Equations? merkle_loop (leaves : list bytes) : bytes by wf (length leaves) lt :=
  merkle_loop [] := [];
  merkle_loop [a] := a;
  merkle_loop (a :: b :: rest) := merkle_loop (merkle_level (a :: b :: rest)).
Proof. exact (merkle_level_shrinks a b rest). Qed.

Definition merkle_root_hashes (leaves : list bytes) : bytes :=
  match leaves with
  | [] => sha256_tagged EMPTY_TAG []
  | _ => merkle_loop leaves
  end.

Definition merkle_root {A} `{Serialize A} (leaves : list A) : string :=
  hash_hex (merkle_root_hashes (map leaf_hash leaves)).

(** ** The strings that are hashed *)

Definition node_input (left right : bytes) : bytes := tagged_input NODE_TAG (left ++ right).

Fixpoint level_inputs (leaves : list bytes) : list bytes :=
  match leaves with
  | [] => []
  | [a] => [node_input a a]
  | a :: b :: rest => node_input a b :: level_inputs rest
  end.

Equations? loop_inputs (leaves : list bytes) : list bytes by wf (length leaves) lt :=
  loop_inputs [] := [];
  loop_inputs [a] := [];
  loop_inputs (a :: b :: rest) :=
    level_inputs (a :: b :: rest) ++ loop_inputs (merkle_level (a :: b :: rest)).
Proof. exact (merkle_level_shrinks a b rest). Qed.

Definition leaf_input {A} `{Serialize A} (leaf : A) : bytes :=
  tagged_input LEAF_TAG (canonical_json leaf).

(** Everything [merkle_root leaves] passes to SHA-256. *)
Definition merkle_inputs {A} `{Serialize A} (leaves : list A) : list bytes :=
  match leaves with
  | [] => [tagged_input EMPTY_TAG []]
  | _ => map leaf_input leaves ++ loop_inputs (map leaf_hash leaves)
  end.

(** ** Binding *)

Context `{HL : !HashLaws}.

Abbreviation digest h := (length h = 32).

Lemma tagged_digest tag p : digest (sha256_tagged tag p).
Proof. apply sha256_length. Qed.

Section binding.
Context (known : bytes -> Prop) (Hfree : collision_free known).

Lemma node_hash_inj a b c d :
  known (node_input a b) -> known (node_input c d) -> digest a -> digest c ->
  node_hash a b = node_hash c d -> a = c /\ b = d.
Proof.
  intros Hk1 Hk2 Ha Hc Heq.
  apply (sha256_tagged_free known _ _ _ _ Hfree Hk1 Hk2), tagged_input_inj in Heq.
  apply app_inj_1 in Heq; [done|]. by rewrite Ha, Hc.
Qed.

(** The hashes that can occur [k] levels above the leaves. *)
Fixpoint at_height (k : nat) (h : bytes) : Prop :=
  match k with
  | O => exists p, known (tagged_input LEAF_TAG p) /\ h = sha256_tagged LEAF_TAG p
  | S k' => exists a b, at_height k' a /\ at_height k' b /\ known (node_input a b) /\ h = node_hash a b
  end.

Lemma at_height_digest k h : at_height k h -> digest h.
Proof using HL. clear Hfree. destruct k; simpl; naive_solver eauto using tagged_digest. Qed.

Lemma at_heights_digest k l : Forall (at_height k) l -> Forall (fun h => digest h) l.
Proof using HL. clear Hfree. intros Hl. eapply Forall_impl; [exact Hl|]. apply at_height_digest. Qed.

Lemma at_height_unique i j h : at_height i h -> at_height j h -> i = j.
Proof.
  revert j h. induction i as [|i IH]; intros [|j] h; simpl; [done|..].
  - intros (p & Hp & ->) (a & b & _ & _ & Hk & Heq).
    apply (sha256_tagged_free known _ _ _ _ Hfree Hp Hk) in Heq. discriminate.
  - intros (a & b & _ & _ & Hk & Heq) (p & Hp & ->).
    apply (sha256_tagged_free known _ _ _ _ Hfree Hp Hk) in Heq. discriminate.
  - intros (a & b & Ha & Hb & Hk & ->) (c & d & Hc & Hd & Hk' & Heq).
    apply node_hash_inj in Heq as [-> ->]; eauto using at_height_digest.
Qed.

Lemma at_height_level k l :
  Forall known (level_inputs l) -> Forall (at_height k) l -> Forall (at_height (S k)) (merkle_level l).
Proof using HL.
  clear Hfree. remember (length l) as n eqn:Hn. revert l Hn.
  induction (lt_wf n) as [n _ IH]; intros [|a [|b rest]] -> Hin Hl; simpl in *.
  - constructor.
  - inversion Hl; inversion Hin; subst. repeat constructor. exists a, a. done.
  - inversion Hl as [|?? Ha Hl']; inversion Hin as [|?? Hab Hin']; subst.
    inversion Hl' as [|?? Hb Hr]; subst.
    constructor; [by exists a, b|]. eapply IH; [|done|done|done]. simpl; lia.
Qed.

Lemma loop_inputs_cons a b rest :
  Forall known (loop_inputs (a :: b :: rest)) ->
  Forall known (level_inputs (a :: b :: rest)) /\
  Forall known (loop_inputs (merkle_level (a :: b :: rest))).
Proof using HL. clear Hfree. rewrite loop_inputs_equation_3, Forall_app. done. Qed.

Lemma merkle_loop_height k l :
  l <> [] -> Forall known (loop_inputs l) -> Forall (at_height k) l ->
  exists d, at_height (d + k) (merkle_loop l) /\ (2 <= length l -> 1 <= d)%nat.
Proof using HL.
  clear Hfree. revert k. funelim (merkle_loop l); intros k Hne Hin Hl; [done|..].
  - exists 0%nat. inversion Hl; subst. split; [done|simpl; lia].
  - match goal with IH : forall k, _ -> _ -> _ -> exists d, _ |- _ => rename IH into IHl end.
    apply loop_inputs_cons in Hin as [Hin1 Hin2].
    destruct (IHl (S k)) as (d & Hd & _); [done|done|by apply (at_height_level k (a :: b :: rest))|].
    exists (S d). split; [|lia]. change (S d + k)%nat with (S (d + k)). by rewrite <-Nat.add_succ_r.
Qed.

Lemma elem_of_merkle_level h l :
  Forall known (level_inputs l) ->
  h ∈ merkle_level l -> exists a b, a ∈ l /\ b ∈ l /\ known (node_input a b) /\ h = node_hash a b.
Proof using HL.
  clear Hfree. remember (length l) as n eqn:Hn. revert l Hn.
  induction (lt_wf n) as [n _ IH]; intros [|a [|b rest]] -> Hin; simpl merkle_level.
  - by rewrite elem_of_nil.
  - rewrite list_elem_of_singleton. intros ->. inversion Hin; subst. exists a, a. set_solver.
  - inversion Hin; subst. rewrite elem_of_cons. intros [->|Hr]; [exists a, b; set_solver|].
    destruct (IH (length rest) ltac:(simpl; lia) rest eq_refl) as (c & d & ? & ? & ? & ?); [done..|].
    exists c, d. set_solver.
Qed.

Lemma merkle_level_NoDup l :
  Forall known (level_inputs l) -> Forall (fun h => digest h) l -> NoDup l -> NoDup (merkle_level l).
Proof.
  remember (length l) as n eqn:Hn. revert l Hn.
  induction (lt_wf n) as [n _ IH]; intros [|a [|b rest]] -> Hin Hd Hnd; simpl merkle_level;
    [constructor|apply NoDup_singleton|].
  inversion Hin as [|?? Hab Hin']; inversion Hd as [|?? Ha Hd']; subst.
  inversion Hd' as [|?? Hb Hr]; subst.
  apply NoDup_cons in Hnd as [Hna Hnd]. pose proof Hnd as [_ Hndr]%NoDup_cons.
  apply NoDup_cons. split; [|by apply (IH (length rest) ltac:(simpl; lia) rest eq_refl)].
  intros (c & d & Hc & Hd2 & Hcd & Heq)%elem_of_merkle_level; [|done].
  rewrite Forall_forall in Hr. apply node_hash_inj in Heq as [-> ->]; [|by auto..].
  apply Hna. set_solver.
Qed.

Lemma merkle_level_inj l1 l2 :
  Forall known (level_inputs l1) -> Forall known (level_inputs l2) ->
  Forall (fun h => digest h) l1 -> Forall (fun h => digest h) l2 -> NoDup l1 -> NoDup l2 ->
  merkle_level l1 = merkle_level l2 -> l1 = l2.
Proof.
  remember (length l1) as n eqn:Hn. revert l1 l2 Hn.
  induction (lt_wf n) as [n _ IH];
    intros [|a [|b r1]] [|c [|d r2]] -> Hi1 Hi2 Hd1 Hd2 Hn1 Hn2 Heq; simpl in Heq; try discriminate;
    [done|..]; inversion Hi1; inversion Hi2; inversion Hd1; inversion Hd2; subst;
    injection Heq; clear Heq; intros;
    match goal with HH : node_hash _ _ = node_hash _ _ |- _ => apply node_hash_inj in HH as [? ?] end;
    subst; try done.
  - exfalso. apply NoDup_cons in Hn2 as [Hn2 _]. set_solver.
  - exfalso. apply NoDup_cons in Hn1 as [Hn1 _]. set_solver.
  - apply NoDup_cons in Hn1 as [_ [_ Hn1]%NoDup_cons].
    apply NoDup_cons in Hn2 as [_ [_ Hn2]%NoDup_cons].
    do 2 f_equal. apply (IH (length r1) ltac:(simpl; lia) r1 r2); try done;
      by eapply Forall_inv_tail.
Qed.

Lemma merkle_loop_inj k l1 l2 :
  l1 <> [] -> l2 <> [] -> Forall known (loop_inputs l1) -> Forall known (loop_inputs l2) ->
  Forall (at_height k) l1 -> Forall (at_height k) l2 -> NoDup l1 -> NoDup l2 ->
  merkle_loop l1 = merkle_loop l2 -> l1 = l2.
Proof.
  revert k l2. funelim (merkle_loop l1); intros k l2 Hne1 Hne2 Hi1 Hi2 Hk1 Hk2 Hn1 Hn2 Heq; [done|..].
  - destruct l2 as [|c [|d r2]]; [done|rewrite merkle_loop_equation_2 in Heq; by rewrite Heq|].
    destruct (merkle_loop_height k (c :: d :: r2) Hne2 Hi2 Hk2) as (e & He & Hpos).
    rewrite <-Heq in He. apply Forall_cons in Hk1 as [Ha _].
    pose proof (at_height_unique (e + k) k a He Ha). specialize (Hpos ltac:(simpl; lia)). lia.
  - destruct l2 as [|c [|d r2]]; [done|..].
    + rewrite <-merkle_loop_equation_3, merkle_loop_equation_2 in Heq.
      destruct (merkle_loop_height k (a :: b :: rest) Hne1 Hi1 Hk1) as (e & He & Hpos).
      rewrite Heq in He. apply Forall_cons in Hk2 as [Hc _].
      pose proof (at_height_unique (e + k) k c He Hc). specialize (Hpos ltac:(simpl; lia)). lia.
    + rewrite (merkle_loop_equation_3 c d r2) in Heq.
      apply loop_inputs_cons in Hi1 as [Hi1 Hi1'], Hi2 as [Hi2 Hi2'].
      match goal with IH : forall (k : nat) (l2 : list bytes), _ |- _ => rename IH into IHl end.
      apply merkle_level_inj; [done|done|by eapply at_heights_digest..|done|done|].
      apply (IHl (S k)); [done|done|done|done|..|done].
      * by apply (at_height_level k (a :: b :: rest)).
      * by apply at_height_level.
      * apply (merkle_level_NoDup (a :: b :: rest)); [done|by eapply at_heights_digest|done].
      * apply merkle_level_NoDup; [done|by eapply at_heights_digest|done].
Qed.

Lemma map_leaf_hash_height {A} `{Serialize A} (l : list A) :
  Forall known (map leaf_input l) -> Forall (at_height 0) (map leaf_hash l).
Proof using HL.
  clear Hfree. induction l; simpl; intros Hin; inversion Hin; subst; constructor; [by eexists|auto].
Qed.

Lemma leaf_hash_inj {A} `{Serialize A} (x y : A) :
  known (leaf_input x) -> known (leaf_input y) -> leaf_hash x = leaf_hash y -> to_json x = to_json y.
Proof.
  intros Hx Hy Heq. apply (sha256_tagged_free known _ _ _ _ Hfree Hx Hy), tagged_input_inj in Heq.
  by apply to_vec_inj in Heq.
Qed.

Lemma map_leaf_hash_NoDup {A} `{Serialize A} (l : list A) :
  Forall known (map leaf_input l) -> NoDup (map to_json l) -> NoDup (map leaf_hash l).
Proof.
  induction l as [|x l IH]; simpl; intros Hin; [constructor|]. inversion Hin as [|?? Hx Hl]; subst.
  rewrite !NoDup_cons. intros [Hnx Hnl]. split; [|by apply IH].
  intros (y & Heq & Hy)%list_elem_of_fmap. apply leaf_hash_inj in Heq; [|done|].
  - apply Hnx. rewrite Heq. by apply list_elem_of_fmap_2.
  - rewrite Forall_forall in Hl. apply Hl. by apply list_elem_of_fmap_2.
Qed.

Lemma map_leaf_hash_inj {A} `{Serialize A} (l1 l2 : list A) :
  Forall known (map leaf_input l1) -> Forall known (map leaf_input l2) ->
  map leaf_hash l1 = map leaf_hash l2 -> map to_json l1 = map to_json l2.
Proof.
  revert l2. induction l1 as [|x l1 IH]; intros [|y l2] H1 H2 Heq; simpl in *; try discriminate; [done|].
  inversion H1; inversion H2; subst. injection Heq as Hxy Heq.
  f_equal; [by apply leaf_hash_inj|by apply IH].
Qed.

(** The empty root is neither a leaf nor an inner hash. *)
Lemma empty_root_height k :
  known (tagged_input EMPTY_TAG []) -> ~ at_height k (sha256_tagged EMPTY_TAG []).
Proof.
  intros He. destruct k; simpl.
  - intros (p & Hp & Heq). apply (sha256_tagged_free known _ _ _ _ Hfree He Hp) in Heq. discriminate.
  - intros (a & b & _ & _ & Hk & Heq).
    apply (sha256_tagged_free known _ _ _ _ Hfree He Hk) in Heq. discriminate.
Qed.

Lemma merkle_inputs_cons {A} `{Serialize A} (x : A) l :
  Forall known (merkle_inputs (x :: l)) ->
  Forall known (map leaf_input (x :: l)) /\ Forall known (loop_inputs (map leaf_hash (x :: l))).
Proof using HL. clear Hfree. unfold merkle_inputs. by rewrite Forall_app. Qed.

Lemma merkle_root_cons_height {A} `{Serialize A} (x : A) l :
  Forall known (merkle_inputs (x :: l)) ->
  exists d, at_height d (merkle_root_hashes (map leaf_hash (x :: l))).
Proof using HL.
  clear Hfree. intros [Hl Hin]%merkle_inputs_cons. apply map_leaf_hash_height in Hl.
  destruct (merkle_loop_height 0 (map leaf_hash (x :: l))) as (d & Hd & _); [done..|]. eauto.
Qed.

(** The root of a duplicate-free sequence determines its entries. *)
Lemma merkle_root_hashes_inj {A} `{Serialize A} (l1 l2 : list A) :
  Forall known (merkle_inputs l1) -> Forall known (merkle_inputs l2) ->
  NoDup (map to_json l1) -> NoDup (map to_json l2) ->
  merkle_root_hashes (map leaf_hash l1) = merkle_root_hashes (map leaf_hash l2) ->
  map to_json l1 = map to_json l2.
Proof.
  intros Hi1 Hi2 Hn1 Hn2 Heq. destruct l1 as [|a l1], l2 as [|b l2]; [done|..].
  - destruct (merkle_root_cons_height b l2 Hi2) as [d Hd]. rewrite <-Heq in Hd. exfalso.
    eapply empty_root_height; [|exact Hd]. by inversion Hi1.
  - destruct (merkle_root_cons_height a l1 Hi1) as [d Hd]. rewrite Heq in Hd. exfalso.
    eapply empty_root_height; [|exact Hd]. by inversion Hi2.
  - apply merkle_inputs_cons in Hi1 as [Hl1 Hi1], Hi2 as [Hl2 Hi2].
    apply map_leaf_hash_inj; [done..|].
    apply (merkle_loop_inj 0); try done; by (apply map_leaf_hash_height || apply map_leaf_hash_NoDup).
Qed.
End binding.

Lemma merkle_root_inj `{!HexLaws} {A} `{Serialize A} (l1 l2 : list A) :
  NoDup (map to_json l1) -> NoDup (map to_json l2) -> merkle_root l1 = merkle_root l2 ->
  map to_json l1 = map to_json l2 \/ collision_among (merkle_inputs l1 ++ merkle_inputs l2).
Proof.
  intros Hn1 Hn2 Heq%hex_encode_inj.
  destruct (collision_free_or (merkle_inputs l1 ++ merkle_inputs l2)) as [Hf|]; [left|by right].
  apply (merkle_root_hashes_inj _ Hf); try done; apply Forall_forall; set_solver.
Qed.

Lemma merkle_level_odd_tail l x :
  Nat.Even (length l) -> merkle_level (l ++ [x]) = merkle_level (l ++ [x; x]).
Proof.
  remember (length l) as n eqn:Hn. revert l Hn.
  induction (lt_wf n) as [n _ IH]; intros [|a [|b rest]] -> He; [done| |].
  - simpl in He. destruct He as [k Hk]. lia.
  - change (node_hash a b :: merkle_level (rest ++ [x]) = node_hash a b :: merkle_level (rest ++ [x; x])).
    f_equal. eapply (IH (length rest)); [simpl; lia|done|].
    destruct He as [k Hk]. exists (k - 1)%nat. simpl in Hk. lia.
Qed.
End merkle.

(** (binding). The root determines the committed entries: two
    duplicate-free sequences, of any lengths, with the same Merkle root
    serialise to the same entries in the same order, unless two of the byte
    strings hashed for these two roots are a SHA-256 collision. *)
Theorem merkle_root_binds `{Hashing, !HashLaws, !HexLaws} {A} `{Serialize A} (l1 l2 : list A) :
  NoDup (map to_json l1) -> NoDup (map to_json l2) ->
  merkle_root l1 = merkle_root l2 ->
  map to_json l1 = map to_json l2 \/ collision_among (merkle_inputs l1 ++ merkle_inputs l2).
Proof. apply merkle_root_inj. Qed.

Lemma merkle_root_binds_witness :
  map to_json ["a"; "b"; "c"]%string = map to_json ["a"; "b"; "c"]%string \/
  @collision_among hashing_c (@merkle_inputs hashing_c _ _ ["a"; "b"; "c"]%string ++
                              @merkle_inputs hashing_c _ _ ["a"; "b"; "c"]%string).
Proof.
  apply (@merkle_root_binds hashing_c hash_laws_c hex_laws_c string _
           ["a"; "b"; "c"]%string ["a"; "b"; "c"]%string).
  - vm_compute. repeat constructor; set_solver.
  - vm_compute. repeat constructor; set_solver.
  - reflexivity.
Defined.

(** (duplicate tail). Repeating the last entry of an odd sequence of three
    or more does not change its root, so the absence of duplicates in
    [merkle_root_binds] is needed. *)
Theorem merkle_root_odd_tail `{Hashing} (l : list bytes) (x : bytes) :
  Nat.Even (length l) -> l <> [] ->
  merkle_root_hashes (l ++ [x]) = merkle_root_hashes (l ++ [x; x]).
Proof.
  intros He Hne. destruct l as [|a [|b l]]; [done|destruct He as [k Hk]; simpl in Hk; lia|].
  pose proof (merkle_level_odd_tail (a :: b :: l) x He) as Hlev.
  simpl app in *. unfold merkle_root_hashes. by rewrite !merkle_loop_equation_3, Hlev.
Qed.

Lemma merkle_root_odd_tail_witness :
  @merkle_root_hashes hashing_c [[x01]; [x02]; [x03]] =
  @merkle_root_hashes hashing_c [[x01]; [x02]; [x03]; [x03]].
Proof.
  apply (@merkle_root_odd_tail hashing_c [[x01]; [x02]] [x03]); [by exists 1%nat|discriminate].
Defined.
