(* ===== verification/Payout.v ===== *)
(** * Payout schedules ([crates/pohw-core/src/payout.rs])

    A block reward is split into a hashrate pool and an Idena pool; each pool
    is divided by the largest-remainder method over integer scores; balances
    that reach the direct-payout floor are paid in the coinbase (bounded in
    number, ranked by unpaid balance) and the rest becomes vault claims.

    [Payout.v] has the data, the operations and their functional behaviour:
    the schedule pays out exactly the reward, passes its own validation, does
    not depend on the order of the accounts and fails only for the documented
    reasons. *)
From S2P Require Import Prelude Order Text Crates Concrete Merkle.

Local Open Scope N_scope.

(** ** Data *)

Record ParticipantAccount := {
  pa_miner_id : string;
  pa_btc_payout_script_hex : string;
  pa_claim_owner_id : string;
  pa_unpaid_sats : N;
  pa_hashrate_score : N;
  pa_idena_score : N
}.

(** [ParticipantAccount::normalized] *)
Definition pa_normalized (a : ParticipantAccount) : ParticipantAccount := {|
  pa_miner_id := to_ascii_lowercase (pa_miner_id a);
  pa_btc_payout_script_hex := to_ascii_lowercase (pa_btc_payout_script_hex a);
  pa_claim_owner_id := to_ascii_lowercase (pa_claim_owner_id a);
  pa_unpaid_sats := pa_unpaid_sats a;
  pa_hashrate_score := pa_hashrate_score a;
  pa_idena_score := pa_idena_score a
|}.

Record DirectPayout := {
  dp_miner_id : string;
  dp_btc_payout_script_hex : string;
  dp_amount_sats : N
}.

Record VaultAllocation := {
  va_miner_id : string;
  va_claim_owner_id : string;
  va_amount_sats : N
}.

Record PayoutSchedule := {
  ps_direct_outputs : list DirectPayout;
  ps_vault_allocations : list VaultAllocation;
  ps_vault_output_sats : N;
  ps_payout_root : string
}.

Global Instance DirectPayout_eq_dec : EqDecision DirectPayout.
Proof. solve_decision. Defined.
Global Instance VaultAllocation_eq_dec : EqDecision VaultAllocation.
Proof. solve_decision. Defined.
Global Instance PayoutSchedule_eq_dec : EqDecision PayoutSchedule.
Proof. solve_decision. Defined.

Global Instance DirectPayout_serialize : Serialize DirectPayout := fun o =>
  JObj (field "miner_id" (dp_miner_id o) ++
        field "btc_payout_script_hex" (dp_btc_payout_script_hex o) ++
        field "amount_sats" (dp_amount_sats o)).
Global Instance VaultAllocation_serialize : Serialize VaultAllocation := fun a =>
  JObj (field "miner_id" (va_miner_id a) ++
        field "claim_owner_id" (va_claim_owner_id a) ++
        field "amount_sats" (va_amount_sats a)).
Global Instance PayoutSchedule_serialize : Serialize PayoutSchedule := fun s =>
  JObj (field "direct_outputs" (ps_direct_outputs s) ++
        field "vault_allocations" (ps_vault_allocations s) ++
        field "vault_output_sats" (ps_vault_output_sats s) ++
        field "payout_root" (ps_payout_root s)).

Record PayoutRootMaterial := {
  prm_direct_outputs : list DirectPayout;
  prm_vault_allocations : list VaultAllocation;
  prm_vault_output_sats : N
}.

Global Instance PayoutRootMaterial_serialize : Serialize PayoutRootMaterial := fun m =>
  JObj (field "direct_outputs" (prm_direct_outputs m) ++
        field "vault_allocations" (prm_vault_allocations m) ++
        field "vault_output_sats" (prm_vault_output_sats m)).

Inductive PayoutError :=
| AmountOverflow
| ScoreOverflow
| ScoreMultiplicationOverflow
| ZeroScorePool (component : string)
| PayoutRootMismatch (expected actual : string)
| VaultOutputMismatch (expected_sats actual_sats : N)
| ZeroAmount
| NonCanonicalOrder (field : string)
| DuplicateEntry (field : string).

(** ** Operations *)

Definition compare_direct_outputs (a b : DirectPayout) : comparison :=
  then_with (N.compare (dp_amount_sats b) (dp_amount_sats a))
            (str_cmp (dp_miner_id a) (dp_miner_id b)).

Definition compare_vault_allocations (a b : VaultAllocation) : comparison :=
  then_with (str_cmp (va_claim_owner_id a) (va_claim_owner_id b))
            (str_cmp (va_miner_id a) (va_miner_id b)).

Definition sum_sats (values : list N) : result PayoutError N :=
  try_fold (fun total value => ok_or AmountOverflow (checked_add sats_bits total value)) 0 values.

Definition sum_scores (values : list N) : result PayoutError N :=
  try_fold (fun total value => ok_or ScoreOverflow (checked_add score_bits total value)) 0 values.

(** The state of the first loop of [add_component]: [deltas], [allocated] and
    [remainders]. *)
Definition component_state : Type := list N * N * list (nat * N * string).

(** One iteration for [(idx, account)].  [deltas] has one cell per account, so
    the index is in range. *)
Definition add_component_step (pool total_score : N) (score : ParticipantAccount -> N)
    (st : component_state) (entry : nat * ParticipantAccount) : result PayoutError component_state :=
  let '(deltas, allocated, remainders) := st in
  let '(idx, account) := entry in
  let account_score := score account in
  numerator ← ok_or ScoreMultiplicationOverflow (checked_mul score_bits account_score pool);
  let whole := as_uint sats_bits (numerator / total_score) in
  let remainder := numerator mod total_score in
  delta ← ok_or AmountOverflow (checked_add sats_bits (deltas !!! idx) whole);
  allocated' ← ok_or AmountOverflow (checked_add sats_bits allocated whole);
  Ok (<[idx := delta]> deltas, allocated', remainders ++ [(idx, remainder, pa_miner_id account)]).

(** The order of [remainders.sort_by]: larger remainder first, then miner id. *)
Definition compare_remainders (a b : nat * N * string) : comparison :=
  then_with (N.compare b.1.2 a.1.2) (str_cmp a.2 b.2).

(** The second loop: one extra unit to each entry while [left] lasts. *)
Fixpoint give_remainders (remainders : list (nat * N * string)) (left : N) (deltas : list N)
    : result PayoutError (list N) :=
  match remainders with
  | [] => Ok deltas
  | (idx, _, _) :: rest =>
      if left =? 0 then Ok deltas
      else
        delta ← ok_or AmountOverflow (checked_add sats_bits (deltas !!! idx) 1);
        give_remainders rest (left - 1) (<[idx := delta]> deltas)
  end.

Definition enumerate {A} (l : list A) : list (nat * A) := zip (seq 0 (length l)) l.

Definition add_component (accounts : list ParticipantAccount) (deltas : list N) (pool : N)
    (component : string) (score : ParticipantAccount -> N) : result PayoutError (list N) :=
  if pool =? 0 then Ok deltas
  else
    total_score ← sum_scores (map score accounts);
    if total_score =? 0 then Err (ZeroScorePool component)
    else
      st ← try_fold (add_component_step pool total_score score) (deltas, 0, []) (enumerate accounts);
      let '(deltas, allocated, remainders) := st in
      let remainders := sort_by compare_remainders remainders in
      left ← ok_or AmountOverflow (checked_sub pool allocated);
      give_remainders remainders left deltas.

Definition reward_deltas (accounts : list ParticipantAccount) (reward_sats : N)
    : result PayoutError (list N) :=
  let hash_pool := reward_sats / 2 in
  let idena_pool := reward_sats - hash_pool in
  let deltas := replicate (length accounts) 0 in
  deltas ← add_component accounts deltas hash_pool "hashrate" pa_hashrate_score;
  add_component accounts deltas idena_pool "idena" pa_idena_score.

(** [ranked]: an account with its delta and its rank balance. *)
Definition ranked_entry : Type := ParticipantAccount * N * N.

Definition rank_entry (entry : ParticipantAccount * N) : result PayoutError ranked_entry :=
  let '(account, delta) := entry in
  rank_balance ← ok_or AmountOverflow (checked_add sats_bits (pa_unpaid_sats account) delta);
  Ok (account, delta, rank_balance).

Definition compare_ranked (a b : ranked_entry) : comparison :=
  then_with (N.compare b.2 a.2)
    (then_with (N.compare b.1.2 a.1.2)
       (str_cmp (pa_miner_id a.1.1) (pa_miner_id b.1.1))).

Definition select_direct (ranked : list ranked_entry) (direct_limit : nat)
    (min_direct_payout_sats : N) : gset string :=
  list_to_set (map (fun e : ranked_entry => pa_miner_id e.1.1)
    (take direct_limit (List.filter (fun e : ranked_entry => min_direct_payout_sats <=? e.1.2) ranked))).

(** The loop that routes each delta to a direct output or a vault claim. *)
Fixpoint route_payouts (selected_ids : gset string) (entries : list (ParticipantAccount * N))
    : list DirectPayout * list VaultAllocation :=
  match entries with
  | [] => ([], [])
  | (account, delta) :: rest =>
      let '(direct, vault) := route_payouts selected_ids rest in
      if delta =? 0 then (direct, vault)
      else if bool_decide (pa_miner_id account ∈ selected_ids) then
        ({| dp_miner_id := pa_miner_id account;
            dp_btc_payout_script_hex := pa_btc_payout_script_hex account;
            dp_amount_sats := delta |} :: direct, vault)
      else
        (direct, {| va_miner_id := pa_miner_id account;
                    va_claim_owner_id := pa_claim_owner_id account;
                    va_amount_sats := delta |} :: vault)
  end.

Section payout.
Context `{Hashing}.

Definition expected_payout_root (s : PayoutSchedule) : string :=
  merkle_root [ {| prm_direct_outputs := ps_direct_outputs s;
                   prm_vault_allocations := ps_vault_allocations s;
                   prm_vault_output_sats := ps_vault_output_sats s |} ].

Definition build_payout_schedule (accounts : list ParticipantAccount) (reward_sats : N)
    (direct_limit : nat) (min_direct_payout_sats : N) : result PayoutError PayoutSchedule :=
  let accounts := sort_by (fun a b => str_cmp (pa_miner_id a) (pa_miner_id b))
                          (map pa_normalized accounts) in
  deltas ← reward_deltas accounts reward_sats;
  ranked ← try_map rank_entry (zip accounts deltas);
  let ranked := sort_by compare_ranked ranked in
  let selected_ids := select_direct ranked direct_limit min_direct_payout_sats in
  let '(direct_outputs, vault_allocations) := route_payouts selected_ids (zip accounts deltas) in
  let direct_outputs := sort_by compare_direct_outputs direct_outputs in
  let vault_allocations := sort_by compare_vault_allocations vault_allocations in
  direct_total ← sum_sats (map dp_amount_sats direct_outputs);
  vault_output_sats ← ok_or AmountOverflow (checked_sub reward_sats direct_total);
  let payout_root :=
    merkle_root [ {| prm_direct_outputs := direct_outputs;
                     prm_vault_allocations := vault_allocations;
                     prm_vault_output_sats := vault_output_sats |} ] in
  Ok {| ps_direct_outputs := direct_outputs;
        ps_vault_allocations := vault_allocations;
        ps_vault_output_sats := vault_output_sats;
        ps_payout_root := payout_root |}.

(** The [BTreeSet::insert] loops of [validate]: the ids seen, or a duplicate. *)
Definition collect_unique (field : string) (ids : list string) : result PayoutError (gset string) :=
  try_fold (fun (seen : gset string) id =>
      let id := to_ascii_lowercase id in
      if bool_decide (id ∈ seen) then Err (DuplicateEntry field) else Ok ({[id]} ∪ seen))
    ∅ ids.

(** [PayoutSchedule::validate] *)
Definition ps_validate (s : PayoutSchedule) : result PayoutError unit :=
  let expected_root := expected_payout_root s in
  if negb (String.eqb (ps_payout_root s) expected_root)
  then Err (PayoutRootMismatch expected_root (ps_payout_root s))
  else if existsb (fun o => dp_amount_sats o =? 0) (ps_direct_outputs s) ||
          existsb (fun a => va_amount_sats a =? 0) (ps_vault_allocations s)
  then Err ZeroAmount
  else if negb (windows2_all (fun a b => bool_decide (compare_direct_outputs a b <> Gt))
                             (ps_direct_outputs s))
  then Err (NonCanonicalOrder "direct_outputs")
  else if negb (windows2_all (fun a b => bool_decide (compare_vault_allocations a b <> Gt))
                             (ps_vault_allocations s))
  then Err (NonCanonicalOrder "vault_allocations")
  else
    direct_miner_ids ← collect_unique "direct miner" (map dp_miner_id (ps_direct_outputs s));
    vault_miner_ids ← collect_unique "vault miner" (map va_miner_id (ps_vault_allocations s));
    if bool_decide (direct_miner_ids ∩ vault_miner_ids <> ∅)
    then Err (DuplicateEntry "miner across direct and vault outputs")
    else
      expected_vault_total ← sum_sats (map va_amount_sats (ps_vault_allocations s));
      if negb (ps_vault_output_sats s =? expected_vault_total)
      then Err (VaultOutputMismatch expected_vault_total (ps_vault_output_sats s))
      else Ok tt.

(** [DIRECT_PAYOUT_LIMIT] and [MIN_DIRECT_PAYOUT_SATS] of [lib.rs]. *)
Definition MIN_DIRECT_PAYOUT_SATS : N := 10000.
Definition DIRECT_PAYOUT_LIMIT : nat := 100.

(** [PayoutSchedule::default()], before its [expect]. *)
Definition ps_default : result PayoutError PayoutSchedule :=
  build_payout_schedule [] 0 DIRECT_PAYOUT_LIMIT MIN_DIRECT_PAYOUT_SATS.

(** The [expect] cannot panic. *)
Lemma ps_default_Ok : is_ok ps_default = true.
Proof. reflexivity. Qed.
End payout.

(** ** Dividing one pool: the largest-remainder method *)

Lemma enumerate_length {A} (l : list A) : length (enumerate l) = length l.
Proof. unfold enumerate. rewrite length_zip, length_seq. lia. Qed.

Section component.
Context (pool total : N) (score : ParticipantAccount -> N).

Definition floor_share (a : ParticipantAccount) : N := score a * pool / total.
Definition rem_share (a : ParticipantAccount) : N := (score a * pool) mod total.

Hypothesis Hpool : fits sats_bits pool.
Hypothesis Htotal : total <> 0.

Lemma floor_share_le a : score a <= total -> floor_share a <= pool.
Proof.
  intros Ha. unfold floor_share. apply N.Div0.div_le_upper_bound.
  by apply N.mul_le_mono_r.
Qed.

(** The [as Sats] cast does not truncate. *)
Lemma floor_share_cast a :
  score a <= total -> as_uint sats_bits (score a * pool / total) = floor_share a.
Proof.
  intros Ha. apply as_uint_small. pose proof (floor_share_le a Ha).
  unfold fits, floor_share in *. lia.
Qed.

Definition indexed_rems (k : nat) (accounts : list ParticipantAccount) : list (nat * N * string) :=
  imap (fun i a => (k + i, rem_share a, pa_miner_id a)%nat) accounts.

Lemma indexed_rems_cons k a accounts :
  indexed_rems k (a :: accounts) = (k, rem_share a, pa_miner_id a) :: indexed_rems (S k) accounts.
Proof using.
  clear Hpool Htotal.
  unfold indexed_rems. simpl. rewrite Nat.add_0_r. f_equal.
  apply imap_ext. intros i x Hx. simpl. f_equal. f_equal. lia.
Qed.

Lemma component_step_Ok pre d ds alloc rems a st :
  score a <= total ->
  add_component_step pool total score (pre ++ d :: ds, alloc, rems) (length pre, a) = Ok st <->
  st = (pre ++ (d + floor_share a) :: ds, alloc + floor_share a,
        rems ++ [(length pre, rem_share a, pa_miner_id a)]) /\
  fits score_bits (score a * pool) /\ fits sats_bits (d + floor_share a) /\
  fits sats_bits (alloc + floor_share a).
Proof.
  intros Ha. unfold add_component_step. rewrite list_lookup_total_middle by done.
  split.
  - intros Hst. res_inv.
    match goal with HH : checked_mul _ _ _ = Some _ |- _ => apply checked_mul_Some in HH as [-> ?] end.
    rewrite floor_share_cast in * by done.
    repeat match goal with HH : checked_add _ _ _ = Some _ |- _ => apply checked_add_Some in HH as [-> ?] end.
    subst st. rewrite insert_app_r_alt, Nat.sub_diag by done. done.
  - intros (-> & Hm & Hd & Hal). unfold checked_mul, checked_add, fits in *.
    rewrite (proj2 (N.ltb_lt _ _) Hm). simpl. rewrite floor_share_cast by done.
    rewrite (proj2 (N.ltb_lt _ _) Hd). simpl. rewrite (proj2 (N.ltb_lt _ _) Hal). simpl.
    rewrite insert_app_r_alt, Nat.sub_diag by done. done.
Qed.

Lemma fold_component pre ds alloc rems accounts st :
  Forall (fun a => score a <= total) accounts -> length ds = length accounts ->
  st = (pre ++ zip_with N.add ds (map floor_share accounts),
        alloc + sum_N (map floor_share accounts),
        rems ++ indexed_rems (length pre) accounts) ->
  (forall st',
    try_fold (add_component_step pool total score) (pre ++ ds, alloc, rems)
      (zip (seq (length pre) (length accounts)) accounts) = Ok st' -> st' = st) /\
  (Forall (fun a => fits score_bits (score a * pool)) accounts ->
   fits sats_bits (sum_N ds + alloc + sum_N (map floor_share accounts)) ->
    try_fold (add_component_step pool total score) (pre ++ ds, alloc, rems)
      (zip (seq (length pre) (length accounts)) accounts) = Ok st).
Proof.
  intros Hs. revert pre ds alloc rems st.
  induction Hs as [|a accounts Ha Hs IH]; intros pre ds alloc rems st Hl ->.
  { destruct ds; [|done]. simpl. rewrite N.add_0_r, !app_nil_r. split; [by intros st' [= <-]|done]. }
  destruct ds as [|d ds]; [done|]. simpl in Hl. injection Hl as Hl.
  destruct (IH (pre ++ [d + floor_share a]) ds (alloc + floor_share a)
              (rems ++ [(length pre, rem_share a, pa_miner_id a)]) _ Hl eq_refl) as [IH1 IH2].
  rewrite length_app, Nat.add_1_r, <-!app_assoc in IH1, IH2. simpl app in IH1, IH2.
  rewrite indexed_rems_cons.
  cbn [length seq zip zip_with try_fold map]. rewrite !sum_N_cons.
  rewrite N.add_assoc. split.
  - intros st' (st1 & Hst1 & Hst')%bind_Ok.
    apply component_step_Ok in Hst1 as (-> & _); [|done]. by apply IH1.
  - intros Hfit Hsum. inversion Hfit as [|?? Hfa Hfit']; subst.
    apply bind_Ok. eexists. split.
    + apply component_step_Ok; [done|]. unfold fits in *. repeat split; [done|lia..].
    + apply IH2; [done|]. unfold fits in *. lia.
Qed.

Lemma sum_scores_split accounts :
  pool * sum_N (map score accounts) =
    total * sum_N (map floor_share accounts) + sum_N (map rem_share accounts).
Proof.
  induction accounts as [|a accounts IH]; simpl; [lia|].
  unfold floor_share at 1, rem_share at 1.
  pose proof (N.div_mod (score a * pool) total Htotal). lia.
Qed.
End component.

(** ** Handing out the units that rounding left over *)

Definition rem_indices (rems : list (nat * N * string)) : list nat :=
  (fun r : nat * N * string => r.1.1) <$> rems.

Lemma rem_indices_cons i r m rems : rem_indices ((i, r, m) :: rems) = i :: rem_indices rems.
Proof. done. Qed.

Lemma give_remainders_sum rems left deltas deltas' :
  Forall (fun i => (i < length deltas)%nat) (rem_indices rems) ->
  give_remainders rems left deltas = Ok deltas' ->
  length deltas' = length deltas /\
  sum_N deltas' = sum_N deltas + N.min left (N.of_nat (length rems)).
Proof.
  revert left deltas. induction rems as [|[[i r] m] rems IH]; intros left deltas Hin Hg;
    cbn [give_remainders length] in *.
  - injection Hg as <-. split; [done|]. lia.
  - destruct (N.eqb_spec left 0) as [->|Hleft]; [injection Hg as <-; split; [done|lia]|].
    rewrite rem_indices_cons in Hin. apply Forall_cons in Hin as [Hi Hin]. res_inv.
    match goal with HH : checked_add _ _ _ = Some _ |- _ => apply checked_add_Some in HH as [-> _] end.
    apply IH in Hg; [|by rewrite length_insert]. rewrite length_insert in Hg.
    destruct Hg as [-> ->]. split; [done|].
    apply lookup_lt_is_Some in Hi as [x Hx].
    rewrite (list_lookup_total_correct _ _ _ Hx) in *.
    pose proof (sum_N_insert deltas i x (x + 1) Hx). lia.
Qed.

Lemma give_remainders_lookup rems left deltas deltas' :
  Forall (fun i => (i < length deltas)%nat) (rem_indices rems) -> NoDup (rem_indices rems) ->
  give_remainders rems left deltas = Ok deltas' ->
  forall i d, deltas !! i = Some d ->
    deltas' !! i = Some (d + if decide (i ∈ rem_indices (take (N.to_nat left) rems)) then 1 else 0).
Proof.
  revert left deltas. induction rems as [|[[i r] m] rems IH];
    intros left deltas Hin Hnd Hg j d Hj; cbn [give_remainders] in Hg.
  - injection Hg as <-. rewrite take_nil. simpl. rewrite Hj, N.add_0_r. done.
  - destruct (N.eqb_spec left 0) as [->|Hleft].
    { injection Hg as <-. simpl. by rewrite Hj, N.add_0_r. }
    rewrite rem_indices_cons in Hin, Hnd.
    apply Forall_cons in Hin as [Hi Hin]. apply NoDup_cons in Hnd as [Hni Hnd]. res_inv.
    match goal with HH : checked_add _ _ _ = Some _ |- _ => apply checked_add_Some in HH as [-> _] end.
    replace (N.to_nat left) with (S (N.to_nat (left - 1))) by lia.
    specialize (IH _ _ ltac:(by rewrite length_insert) Hnd Hg j). cbn [take].
    rewrite rem_indices_cons.
    assert (rem_indices (take (N.to_nat (left - 1)) rems) ⊆ rem_indices rems) as Hsub.
    { intros k (e & -> & He)%list_elem_of_fmap. apply (list_elem_of_fmap_2 (fun r => r.1.1)).
      apply elem_of_take in He as (? & ? & ?). by eapply list_elem_of_lookup_2. }
    destruct (decide (i = j)) as [->|Hne].
    + rewrite (list_lookup_total_correct _ _ _ Hj) in IH.
      rewrite (IH (d + 1)) by (by rewrite list_lookup_insert_eq).
      rewrite decide_False by (intros Hx; by apply Hni, Hsub).
      rewrite decide_True by (by left). f_equal. lia.
    + rewrite (IH d) by (by rewrite list_lookup_insert_ne). f_equal. f_equal.
      apply decide_ext. rewrite elem_of_cons. naive_solver.
Qed.

Lemma give_remainders_total rems left deltas :
  Forall (fun i => (i < length deltas)%nat) (rem_indices rems) ->
  fits sats_bits (sum_N deltas + left) ->
  exists deltas', give_remainders rems left deltas = Ok deltas'.
Proof.
  revert left deltas. induction rems as [|[[i r] m] rems IH];
    intros left deltas Hin Hfit; cbn [give_remainders]; [eauto|].
  destruct (N.eqb_spec left 0) as [->|Hleft]; [eauto|].
  rewrite rem_indices_cons in Hin. apply Forall_cons in Hin as [Hi Hin].
  apply lookup_lt_is_Some in Hi as [x Hx]. simpl in Hx.
  rewrite (list_lookup_total_correct _ _ _ Hx).
  assert (x <= sum_N deltas) by (by eapply sum_N_elem, list_elem_of_lookup_2).
  pose proof (sum_N_insert deltas i x (x + 1) Hx) as Hins.
  unfold checked_add. rewrite (proj2 (N.ltb_lt _ _)) by (unfold fits in *; lia). simpl.
  apply IH; [by rewrite length_insert|]. unfold fits in *. lia.
Qed.

(** ** One component *)

Global Instance compare_remainders_order : CmpOrder compare_remainders.
Proof.
  refine (@then_with_order _ _ (fun a b => str_cmp a.2 b.2)
            (cmp_flip_order (fun a b : nat * N * string => N.compare a.1.2 b.1.2)) _).
Qed.

Lemma compare_remainders_le (a b : nat * N * string) : compare_remainders a b <> Gt -> b.1.2 <= a.1.2.
Proof.
  unfold compare_remainders. destruct (N.compare_spec b.1.2 a.1.2); simpl; try done; lia.
Qed.

Lemma indexed_rems_indices pool total score k accounts :
  rem_indices (indexed_rems pool total score k accounts) = seq k (length accounts).
Proof.
  revert k. induction accounts as [|a accounts IH]; intros k; [done|].
  rewrite indexed_rems_cons, rem_indices_cons. simpl. by rewrite IH.
Qed.

Lemma indexed_rems_elem pool total score accounts i r m :
  (i, r, m) ∈ indexed_rems pool total score 0 accounts ->
  exists a, accounts !! i = Some a /\ r = rem_share pool total score a /\ m = pa_miner_id a.
Proof.
  unfold indexed_rems. intros (j & a & Heq & Ha)%elem_of_lookup_imap. simpl in Heq.
  injection Heq as -> -> ->. eauto.
Qed.

Lemma indexed_rems_lookup pool total score accounts i a :
  accounts !! i = Some a ->
  (i, rem_share pool total score a, pa_miner_id a) ∈ indexed_rems pool total score 0 accounts.
Proof. intros Ha. apply elem_of_lookup_imap. exists i, a. done. Qed.

Lemma indexed_rems_sum pool total score k accounts :
  sum_N (map (fun r => r.1.2) (indexed_rems pool total score k accounts)) =
  sum_N (map (rem_share pool total score) accounts).
Proof.
  revert k. induction accounts as [|a accounts IH]; intros k; [done|].
  rewrite indexed_rems_cons. simpl. by rewrite IH.
Qed.

(** The entries that get a leftover unit all have a positive remainder, and no
    entry left out has a larger one. *)
Lemma sorted_take_positive total left (sr : list (nat * N * string)) e :
  StronglySorted (cmp_le compare_remainders) sr ->
  Forall (fun r => r.1.2 < total) sr ->
  total * N.of_nat left = sum_N (map (fun r => r.1.2) sr) ->
  e ∈ take left sr -> 0 < e.1.2.
Proof.
  intros Hs Hlt Hsum (i & Hi & Hil)%elem_of_take.
  destruct (decide (e.1.2 = 0)) as [H0|]; [exfalso|lia].
  apply list_elem_of_split_length in Hi as (l1 & l2 & -> & Hl1).
  apply StronglySorted_app in Hs as (_ & _ & Hs). apply StronglySorted_cons in Hs as [Hs _].
  apply Forall_app in Hlt as [Hlt1 [He _]%Forall_cons].
  rewrite map_app, sum_N_app in Hsum. cbn [map] in Hsum. rewrite sum_N_cons, H0 in Hsum.
  assert (sum_N (map (fun r => r.1.2) l2) = 0) as Hz.
  { clear -Hs H0. induction Hs as [|x l2 Hx Hs IH]; [done|]. cbn [map].
    apply compare_remainders_le in Hx. rewrite sum_N_cons, IH. lia. }
  assert (sum_N (map (fun r => r.1.2) l1) <= N.of_nat (length l1) * total) as Hb.
  { rewrite <-(length_map (fun r : nat * N * string => r.1.2) l1). apply sum_N_le_length.
    apply Forall_map. eapply Forall_impl; [exact Hlt1|]. simpl. intros. lia. }
  nia.
Qed.

Lemma sorted_take_largest left (sr : list (nat * N * string)) e e' :
  StronglySorted (cmp_le compare_remainders) sr ->
  e ∈ take left sr -> e' ∈ sr -> e' ∉ take left sr -> e'.1.2 <= e.1.2.
Proof.
  intros Hs He He' Hn. rewrite <-(take_drop left sr) in Hs, He'.
  apply elem_of_app in He' as [|He']; [done|]. apply compare_remainders_le.
  by apply (StronglySorted_app_1_elem_of (cmp_le compare_remainders) _ _ e e' Hs).
Qed.

Lemma sum_scores_Ok values t :
  sum_scores values = Ok t <-> t = sum_N values /\ fits score_bits (sum_N values).
Proof. unfold sum_scores. by rewrite try_fold_checked_add by (unfold fits; lia). Qed.

Lemma sum_sats_Ok values t :
  sum_sats values = Ok t <-> t = sum_N values /\ fits sats_bits (sum_N values).
Proof. unfold sum_sats. by rewrite try_fold_checked_add by (unfold fits; lia). Qed.

Section add_component.
Context (accounts : list ParticipantAccount) (score : ParticipantAccount -> N) (pool : N).
Context (deltas : list N) (component : string).

Abbreviation total := (sum_N (map score accounts)).
Abbreviation floors := (map (floor_share pool total score) accounts).
Abbreviation rems := (indexed_rems pool total score 0 accounts).

Hypothesis Hpool : fits sats_bits pool.
Hypothesis Hlen : length deltas = length accounts.

Lemma score_le_total : Forall (fun a => score a <= total) accounts.
Proof using.
  clear Hpool Hlen. apply Forall_forall. intros a Ha. apply sum_N_elem. by apply list_elem_of_fmap_2.
Qed.

Lemma leftover_identity : total <> 0 ->
  total * (pool - sum_N floors) = sum_N (map (rem_share pool total score) accounts) /\
  sum_N floors <= pool.
Proof using.
  clear Hpool Hlen. intros Ht. pose proof (sum_scores_split pool total score Ht accounts). nia.
Qed.

Lemma leftover_bound : total <> 0 -> pool - sum_N floors <= N.of_nat (length rems).
Proof using.
  clear Hpool Hlen. intros Ht. destruct (leftover_identity Ht) as [Hid Hle].
  assert (sum_N (map (rem_share pool total score) accounts) <= N.of_nat (length accounts) * total) as Hb.
  { rewrite <-(length_map (rem_share pool total score) accounts). apply sum_N_le_length.
    apply Forall_map, Forall_true. intros a. unfold rem_share.
    pose proof (N.mod_lt (score a * pool) total Ht). lia. }
  unfold indexed_rems. rewrite length_imap. nia.
Qed.

Lemma add_component_run deltas' : pool <> 0 ->
  add_component accounts deltas pool component score = Ok deltas' ->
  total <> 0 /\
  give_remainders (sort_by compare_remainders rems) (pool - sum_N floors)
    (zip_with N.add deltas floors) = Ok deltas'.
Proof.
  intros Hp. unfold add_component. rewrite (proj2 (N.eqb_neq _ _) Hp). intros Ha. res_inv.
  match goal with HH : sum_scores _ = Ok _ |- _ => apply sum_scores_Ok in HH as [-> _] end.
  bool_inv. split; [done|].
  match goal with HH : try_fold _ _ _ = Ok ?st |- _ =>
    apply (proj1 (fold_component pool total score Hpool Hif [] deltas 0 [] accounts _
             score_le_total Hlen eq_refl)) in HH; subst st end.
  simpl app in Ha. res_inv.
  match goal with HH : checked_sub _ _ = Some _ |- _ => apply checked_sub_Some in HH as [-> _] end.
  exact Ha.
Qed.

Lemma sorted_rems_range :
  Forall (fun i => (i < length (zip_with N.add deltas floors))%nat)
    (rem_indices (sort_by compare_remainders rems)).
Proof using Hlen.
  clear Hpool. unfold rem_indices. rewrite sort_by_perm. fold (rem_indices rems).
  rewrite indexed_rems_indices, length_zip_with, length_map. apply Forall_forall.
  intros i Hi%elem_of_seq. lia.
Qed.

Lemma sorted_rems_NoDup : NoDup (rem_indices (sort_by compare_remainders rems)).
Proof using.
  clear Hpool Hlen. unfold rem_indices. rewrite sort_by_perm. fold (rem_indices rems).
  rewrite indexed_rems_indices. apply NoDup_seq.
Qed.

Lemma floors_length : length deltas = length floors.
Proof using Hlen. clear Hpool. by rewrite length_map. Qed.

(** A component adds exactly its pool. *)
Lemma add_component_sum deltas' :
  add_component accounts deltas pool component score = Ok deltas' ->
  length deltas' = length accounts /\ sum_N deltas' = sum_N deltas + pool.
Proof.
  intros Ha. destruct (decide (pool = 0)) as [->|Hp].
  { unfold add_component in Ha. simpl in Ha. injection Ha as <-. split; [done|]. lia. }
  apply add_component_run in Ha as [Ht Hg]; [|done].
  apply give_remainders_sum in Hg as [Hl Hs]; [|apply sorted_rems_range].
  pose proof (leftover_bound Ht). pose proof (leftover_identity Ht).
  rewrite length_zip_with, length_map in Hl.
  rewrite sum_N_zip_add, sort_by_length in Hs by apply floors_length.
  split; lia.
Qed.

(** The only ways a component can fail, given that the amounts fit. *)
Lemma add_component_total :
  fits sats_bits (sum_N deltas + pool) ->
  (pool <> 0 -> total <> 0) -> fits score_bits total ->
  Forall (fun a => fits score_bits (score a * pool)) accounts ->
  exists deltas', add_component accounts deltas pool component score = Ok deltas'.
Proof.
  intros Hfit Hnz Htot Hmul. unfold add_component.
  destruct (N.eqb_spec pool 0) as [|Hp]; [eauto|]. specialize (Hnz Hp).
  rewrite (proj2 (sum_scores_Ok _ total)) by done. simpl.
  rewrite (proj2 (N.eqb_neq _ _) Hnz).
  destruct (leftover_identity Hnz) as [_ Hle].
  destruct (fold_component pool total score Hpool Hnz [] deltas 0 [] accounts _
             score_le_total Hlen eq_refl) as [_ Hf].
  specialize (Hf Hmul ltac:(unfold fits in *; lia)). simpl app in Hf. simpl length in Hf.
  unfold enumerate. rewrite Hf. simpl.
  unfold checked_sub. rewrite (proj2 (N.leb_le _ _)) by lia. simpl.
  apply give_remainders_total; [apply sorted_rems_range|].
  rewrite sum_N_zip_add by apply floors_length. unfold fits in *. lia.
Qed.

(** Who gets what: the floor of the proportional share, plus one unit for the
    entries with the largest remainders, all of them positive. *)
Lemma add_component_share deltas' : pool <> 0 ->
  add_component accounts deltas pool component score = Ok deltas' ->
  exists winners : list nat,
    (forall i a d, accounts !! i = Some a -> deltas !! i = Some d ->
      deltas' !! i = Some (d + score a * pool / total + if decide (i ∈ winners) then 1 else 0)) /\
    (forall i a, i ∈ winners -> accounts !! i = Some a -> 0 < (score a * pool) mod total) /\
    (forall i j a b, i ∈ winners -> j ∉ winners -> accounts !! i = Some a -> accounts !! j = Some b ->
      (score b * pool) mod total <= (score a * pool) mod total).
Proof.
  intros Hp Ha. apply add_component_run in Ha as [Ht Hg]; [|done].
  set (left := N.to_nat (pool - sum_N floors)) in *.
  set (sr := sort_by compare_remainders rems) in *.
  assert (StronglySorted (cmp_le compare_remainders) sr) as Hsr by apply (sort_by_sorted _).
  assert (forall i a, accounts !! i = Some a -> i ∈ rem_indices (take left sr) ->
            (i, rem_share pool total score a, pa_miner_id a) ∈ take left sr) as Hent.
  { intros i a Hi ([[i' r] m] & -> & He)%list_elem_of_fmap. simpl in Hi.
    assert ((i', r, m) ∈ rems) as Hr.
    { apply elem_of_take in He as (? & He & _). apply list_elem_of_lookup_2 in He.
      by apply sort_by_elem in He. }
    apply indexed_rems_elem in Hr as (a' & Ha' & -> & ->). simplify_eq. done. }
  exists (rem_indices (take left sr)). split_and!.
  - intros i a d Hi Hd.
    rewrite (give_remainders_lookup _ _ _ _ sorted_rems_range sorted_rems_NoDup Hg i
               (d + floor_share pool total score a)); [done|].
    rewrite lookup_zip_with, Hd. simpl. rewrite list_lookup_fmap, Hi. done.
  - intros i a Hw Hi. apply (Hent i a Hi) in Hw.
    apply (sorted_take_positive total left sr) in Hw; [done|done|..].
    + unfold sr. rewrite sort_by_perm. apply Forall_forall. intros [[j r] m] Hj.
      apply indexed_rems_elem in Hj as (? & _ & -> & _). simpl. by apply N.mod_lt.
    + unfold sr. rewrite sort_by_perm, indexed_rems_sum. unfold left.
      rewrite N2Nat.id. by apply leftover_identity.
  - intros i j a b Hi Hj Hia Hjb. apply (Hent i a Hia) in Hi.
    apply (sorted_take_largest left sr (i, _, _) (j, rem_share pool total score b, pa_miner_id b)) in Hi;
      [done|done|..].
    + apply sort_by_elem. by apply indexed_rems_lookup.
    + intros Hin. apply Hj. by apply (list_elem_of_fmap_2 (fun r => r.1.1)) in Hin.
Qed.
End add_component.

(** ** The whole reward *)

Lemma reward_deltas_sum accounts reward_sats deltas :
  fits sats_bits reward_sats -> reward_deltas accounts reward_sats = Ok deltas ->
  length deltas = length accounts /\ sum_N deltas = reward_sats.
Proof.
  intros Hfit Hd. unfold reward_deltas in Hd. res_inv.
  assert (reward_sats / 2 <= reward_sats) by (apply N.Div0.div_le_upper_bound; lia).
  match goal with HH : add_component _ _ _ "hashrate" _ = _ |- _ =>
    apply add_component_sum in HH as [Hl1 Hs1]; [|unfold fits in *; lia|by rewrite length_replicate] end.
  apply add_component_sum in Hd as [Hl2 Hs2]; [|eapply fits_mono; [apply N.le_sub_l|exact Hfit]|done].
  rewrite sum_N_replicate_0 in Hs1. split; [done|]. lia.
Qed.

Lemma reward_deltas_total accounts reward_sats :
  fits sats_bits reward_sats ->
  fits score_bits (sum_N (map pa_hashrate_score accounts)) ->
  fits score_bits (sum_N (map pa_idena_score accounts)) ->
  (2 <= reward_sats -> sum_N (map pa_hashrate_score accounts) <> 0) ->
  (1 <= reward_sats -> sum_N (map pa_idena_score accounts) <> 0) ->
  Forall (fun a => fits score_bits (pa_hashrate_score a * reward_sats) /\
                   fits score_bits (pa_idena_score a * reward_sats)) accounts ->
  exists deltas, reward_deltas accounts reward_sats = Ok deltas.
Proof.
  intros Hfit Hh Hi Hh0 Hi0 Hmul. unfold reward_deltas.
  assert (reward_sats / 2 <= reward_sats) as Hhalf by (apply N.Div0.div_le_upper_bound; lia).
  assert (forall x p, p <= reward_sats -> fits score_bits (x * reward_sats) -> fits score_bits (x * p))
    as Hmono by (unfold fits; intros; nia).
  destruct (add_component_total accounts pa_hashrate_score (reward_sats / 2)
             (replicate (length accounts) 0) "hashrate") as [d1 Hd1].
  - unfold fits in *; lia.
  - by rewrite length_replicate.
  - rewrite sum_N_replicate_0. unfold fits in *; lia.
  - intros Hp. apply Hh0. destruct (decide (reward_sats < 2)) as [Hlt|]; [|lia].
    exfalso. apply Hp. by apply N.div_small.
  - done.
  - eapply Forall_impl; [exact Hmul|]. naive_solver.
  - rewrite Hd1. simpl. apply add_component_sum in Hd1 as [Hl1 Hs1];
      [|unfold fits in *; lia|by rewrite length_replicate].
    rewrite sum_N_replicate_0 in Hs1. apply add_component_total; [unfold fits in *; lia|done|..].
    + unfold fits in *; lia.
    + intros Hp. apply Hi0. destruct (decide (reward_sats = 0)) as [->|]; [done|lia].
    + done.
    + eapply Forall_impl; [exact Hmul|]. intros a [_ Ha]. eapply Hmono; [|exact Ha]. lia.
Qed.

(** ** Routing *)

Lemma route_cons sel a d rest :
  route_payouts sel ((a, d) :: rest) =
  (if d =? 0 then (route_payouts sel rest).1
   else if bool_decide (pa_miner_id a ∈ sel)
   then {| dp_miner_id := pa_miner_id a; dp_btc_payout_script_hex := pa_btc_payout_script_hex a;
           dp_amount_sats := d |} :: (route_payouts sel rest).1
   else (route_payouts sel rest).1,
   if d =? 0 then (route_payouts sel rest).2
   else if bool_decide (pa_miner_id a ∈ sel) then (route_payouts sel rest).2
   else {| va_miner_id := pa_miner_id a; va_claim_owner_id := pa_claim_owner_id a;
           va_amount_sats := d |} :: (route_payouts sel rest).2).
Proof. simpl. destruct (route_payouts sel rest). by repeat case_match. Qed.

Lemma route_sum sel entries :
  sum_N (map dp_amount_sats (route_payouts sel entries).1) +
  sum_N (map va_amount_sats (route_payouts sel entries).2) = sum_N (map snd entries).
Proof.
  induction entries as [|[a d] entries IH]; [done|]. rewrite route_cons.
  cbn [map fst snd]. rewrite sum_N_cons.
  destruct (N.eqb_spec d 0); [lia|]. case_bool_decide; cbn [map dp_amount_sats va_amount_sats];
    rewrite sum_N_cons; lia.
Qed.

Lemma route_direct_elem sel entries o :
  o ∈ (route_payouts sel entries).1 ->
  exists a, (a, dp_amount_sats o) ∈ entries /\ dp_amount_sats o <> 0 /\
    dp_miner_id o = pa_miner_id a /\ pa_miner_id a ∈ sel /\
    dp_btc_payout_script_hex o = pa_btc_payout_script_hex a.
Proof.
  induction entries as [|[a d] entries IH]; [simpl; set_solver|]. rewrite route_cons. cbn [fst].
  destruct (N.eqb_spec d 0); [set_solver|]. case_bool_decide; [|set_solver].
  rewrite elem_of_cons. intros [->|Ho]; [exists a; set_solver|].
  destruct (IH Ho) as (b & ? & ?). exists b. set_solver.
Qed.

Lemma route_vault_elem sel entries o :
  o ∈ (route_payouts sel entries).2 ->
  exists a, (a, va_amount_sats o) ∈ entries /\ va_amount_sats o <> 0 /\
    va_miner_id o = pa_miner_id a /\ (pa_miner_id a ∉ sel) /\
    va_claim_owner_id o = pa_claim_owner_id a.
Proof.
  induction entries as [|[a d] entries IH]; [simpl; set_solver|]. rewrite route_cons. cbn [snd].
  destruct (N.eqb_spec d 0); [set_solver|]. case_bool_decide; [set_solver|].
  rewrite elem_of_cons. intros [->|Ho]; [exists a; set_solver|].
  destruct (IH Ho) as (b & ? & ?). exists b. set_solver.
Qed.

Lemma route_ids sel entries :
  map dp_miner_id (route_payouts sel entries).1
    `sublist_of` map (fun e : ParticipantAccount * N => pa_miner_id e.1) entries /\
  map va_miner_id (route_payouts sel entries).2
    `sublist_of` map (fun e : ParticipantAccount * N => pa_miner_id e.1) entries.
Proof.
  induction entries as [|[a d] entries [IH1 IH2]]; [done|]. rewrite route_cons. cbn [fst snd map].
  destruct (d =? 0); [split; by constructor|]. case_bool_decide; cbn [map dp_miner_id va_miner_id];
    split; by constructor.
Qed.

(** ** Canonical orders *)

Global Instance compare_direct_outputs_order : CmpOrder compare_direct_outputs.
Proof.
  refine (@then_with_order _ _ (fun a b => str_cmp (dp_miner_id a) (dp_miner_id b))
            (cmp_flip_order (fun a b : DirectPayout => N.compare (dp_amount_sats a) (dp_amount_sats b))) _).
Qed.

Global Instance compare_vault_allocations_order : CmpOrder compare_vault_allocations.
Proof.
  refine (@then_with_order _ (fun a b => str_cmp (va_claim_owner_id a) (va_claim_owner_id b))
            (fun a b => str_cmp (va_miner_id a) (va_miner_id b)) _ _).
Qed.

Lemma sort_by_windows {A} (cmp : A -> A -> comparison) `{!CmpOrder cmp} l :
  windows2_all (fun a b => bool_decide (cmp a b <> Gt)) (sort_by cmp l) = true.
Proof.
  apply (windows2_all_sorted _ (cmp_le cmp)); [|by apply sort_by_sorted].
  intros x y Hxy. by apply bool_decide_eq_true_2.
Qed.

(** The id sets of [validate] exist exactly when the ids are distinct up to case. *)
Lemma collect_unique_Ok field ids seen :
  collect_unique field ids = Ok seen <->
  NoDup (map to_ascii_lowercase ids) /\ seen = list_to_set (map to_ascii_lowercase ids).
Proof.
  unfold collect_unique.
  enough (forall s0 : gset string,
    try_fold (fun (seen : gset string) id =>
      let id := to_ascii_lowercase id in
      if bool_decide (id ∈ seen) then Err (DuplicateEntry field) else Ok ({[id]} ∪ seen)) s0 ids = Ok seen
    <-> (forall x, x ∈ map to_ascii_lowercase ids -> x ∉ s0) /\ NoDup (map to_ascii_lowercase ids) /\
        seen = s0 ∪ list_to_set (map to_ascii_lowercase ids)) as Hgen.
  { rewrite Hgen. split; [intros (_ & ? & ->)|intros [? ->]]; set_solver. }
  induction ids as [|id ids IH]; intros s0.
  - simpl. split; [intros [= <-]; split_and!; [set_solver|constructor|set_solver]|].
    intros (_ & _ & ->). f_equal. set_solver.
  - cbn [try_fold map]. rewrite NoDup_cons. case_bool_decide as Hin; simpl.
    + split; [done|]. intros (Hx & _). set_solver.
    + rewrite IH. split.
      * intros (Hx & Hnd & ->). split_and!; [set_solver|set_solver|done|set_solver].
      * intros (Hx & (Hni & Hnd) & ->). split_and!; [set_solver|done|set_solver].
Qed.

(** ** The schedule *)

Definition sorted_accounts (accounts : list ParticipantAccount) : list ParticipantAccount :=
  sort_by (fun a b => str_cmp (pa_miner_id a) (pa_miner_id b)) (map pa_normalized accounts).

Definition account_key (a : ParticipantAccount) : string := to_ascii_lowercase (pa_miner_id a).

Lemma sorted_accounts_ids accounts :
  map pa_miner_id (sorted_accounts accounts) ≡ₚ map account_key accounts.
Proof. unfold sorted_accounts. rewrite sort_by_perm, map_map. done. Qed.

Lemma sorted_accounts_lower accounts a :
  a ∈ sorted_accounts accounts -> to_ascii_lowercase (pa_miner_id a) = pa_miner_id a.
Proof.
  unfold sorted_accounts. rewrite sort_by_elem. intros (b & -> & _)%list_elem_of_fmap.
  apply lower_idemp.
Qed.

Lemma zip_accounts_ids (accounts : list ParticipantAccount) (deltas : list N) :
  length deltas = length accounts ->
  map (fun e : ParticipantAccount * N => pa_miner_id e.1) (zip accounts deltas) = map pa_miner_id accounts.
Proof.
  revert deltas. induction accounts as [|a l IH]; intros [|d k] Hl; simplify_eq/=; [done|].
  by rewrite IH.
Qed.

Lemma zip_accounts_snd (accounts : list ParticipantAccount) (deltas : list N) :
  length deltas = length accounts -> map snd (zip accounts deltas) = deltas.
Proof.
  revert deltas. induction accounts as [|a l IH]; intros [|d k] Hl; simplify_eq/=; [done|].
  by rewrite IH.
Qed.

Lemma select_direct_size ranked limit m : (size (select_direct ranked limit m) <= limit)%nat.
Proof.
  unfold select_direct. etrans; [apply size_list_to_set_le|]. rewrite length_map, length_take. lia.
Qed.

Lemma select_direct_elem ranked limit m id :
  id ∈ select_direct ranked limit m ->
  exists e, e ∈ ranked /\ pa_miner_id e.1.1 = id /\ m <= e.1.2.
Proof.
  unfold select_direct. rewrite elem_of_list_to_set. intros (e & -> & He)%list_elem_of_fmap.
  apply elem_of_take in He as (i & He & _). apply list_elem_of_lookup_2 in He.
  apply list_elem_of_In, filter_In in He as [He Hm]. apply N.leb_le in Hm.
  exists e. split_and!; [by apply list_elem_of_In|done|done].
Qed.

Lemma rank_entries_elem entries ranked e :
  try_map rank_entry entries = Ok ranked -> e ∈ ranked -> (e.1.1, e.1.2) ∈ entries.
Proof.
  intros Hr%try_map_Ok He. apply list_elem_of_lookup in He as [i Hi].
  destruct (Forall2_lookup_r _ _ _ _ _ Hr Hi) as ([a d] & Ha & Hrank).
  unfold rank_entry in Hrank. res_inv. subst e. simpl. by eapply list_elem_of_lookup_2.
Qed.

Section schedule.
Context `{Hashing}.

(** The parts of a successful run. *)
Lemma build_inv accounts reward_sats limit m s :
  fits sats_bits reward_sats ->
  build_payout_schedule accounts reward_sats limit m = Ok s ->
  exists deltas ranked,
    let entries := zip (sorted_accounts accounts) deltas in
    let sel := select_direct (sort_by compare_ranked ranked) limit m in
    length deltas = length (sorted_accounts accounts) /\ sum_N deltas = reward_sats /\
    try_map rank_entry entries = Ok ranked /\
    ps_direct_outputs s = sort_by compare_direct_outputs (route_payouts sel entries).1 /\
    ps_vault_allocations s = sort_by compare_vault_allocations (route_payouts sel entries).2 /\
    ps_vault_output_sats s + sum_N (map dp_amount_sats (ps_direct_outputs s)) = reward_sats /\
    ps_payout_root s = expected_payout_root s.
Proof.
  intros Hfit Hb. unfold build_payout_schedule in Hb. fold (sorted_accounts accounts) in Hb. res_inv.
  match goal with HH : reward_deltas _ _ = Ok ?d |- _ =>
    apply reward_deltas_sum in HH as [Hl Hs]; [|done]; exists d end.
  match goal with HH : try_map _ _ = Ok ?r |- _ => exists r; rename HH into Hr end.
  destruct (route_payouts _ _) as [direct vault] eqn:Hroute. res_inv.
  match goal with HH : sum_sats _ = Ok _ |- _ => apply sum_sats_Ok in HH as [-> _] end.
  match goal with HH : checked_sub _ _ = Some _ |- _ => apply checked_sub_Some in HH as [-> ?] end.
  subst s. cbn [ps_direct_outputs ps_vault_allocations ps_vault_output_sats ps_payout_root].
  rewrite Hroute. split_and!; try done. lia.
Qed.
End schedule.

Lemma collect_unique_of_NoDup field ids :
  (forall x, x ∈ ids -> to_ascii_lowercase x = x) -> NoDup ids ->
  collect_unique field ids = Ok (list_to_set ids).
Proof.
  intros Hl Hnd. assert (map to_ascii_lowercase ids = ids) as Hid.
  { clear Hnd. induction ids as [|x ids IH]; simpl; [done|].
    rewrite Hl, IH by set_solver. done. }
  apply collect_unique_Ok. by rewrite Hid.
Qed.

Global Instance perm_map {A B} (f : A -> B) : Proper ((≡ₚ) ==> (≡ₚ)) (map f).
Proof. intros l1 l2. apply Permutation_map. Qed.

Lemma build_conserves `{Hashing} accounts reward_sats limit m s :
  fits sats_bits reward_sats ->
  build_payout_schedule accounts reward_sats limit m = Ok s ->
  sum_N (map dp_amount_sats (ps_direct_outputs s)) +
    sum_N (map va_amount_sats (ps_vault_allocations s)) = reward_sats /\
  ps_vault_output_sats s = sum_N (map va_amount_sats (ps_vault_allocations s)).
Proof.
  intros Hfit Hb. destruct (build_inv _ _ _ _ _ Hfit Hb) as
    (deltas & ranked & Hl & Hs & Hr & Hd & Hv & Hout & _).
  pose proof (route_sum (select_direct (sort_by compare_ranked ranked) limit m)
                (zip (sorted_accounts accounts) deltas)) as Hsum.
  rewrite zip_accounts_snd in Hsum by done.
  assert (sum_N (map dp_amount_sats (ps_direct_outputs s)) =
    sum_N (map dp_amount_sats (route_payouts (select_direct (sort_by compare_ranked ranked) limit m)
      (zip (sorted_accounts accounts) deltas)).1)) as Hds by (by rewrite Hd, sort_by_perm).
  rewrite Hv, sort_by_perm. lia.
Qed.

(** C9 (conservation). A schedule that is built pays out exactly the block
    reward: the direct outputs and the vault claims add up to it, and the vault
    output is exactly what the vault claims need. *)
Theorem payout_conserves_reward `{Hashing} accounts reward_sats limit m s :
  fits sats_bits reward_sats ->
  build_payout_schedule accounts reward_sats limit m = Ok s ->
  sum_N (map dp_amount_sats (ps_direct_outputs s)) +
    sum_N (map va_amount_sats (ps_vault_allocations s)) = reward_sats /\
  ps_vault_output_sats s = sum_N (map va_amount_sats (ps_vault_allocations s)).
Proof. apply build_conserves. Qed.

Lemma build_validates `{Hashing} accounts reward_sats limit m s :
  fits sats_bits reward_sats -> NoDup (map account_key accounts) ->
  build_payout_schedule accounts reward_sats limit m = Ok s ->
  ps_validate s = Ok tt.
Proof.
  intros Hfit Hnd Hb. destruct (build_inv _ _ _ _ _ Hfit Hb) as
    (deltas & ranked & Hl & Hs & Hr & Hd & Hv & Hout & Hroot).
  set (sel := select_direct _ limit m) in *. set (entries := zip _ deltas) in *.
  rewrite <-sorted_accounts_ids, <-(zip_accounts_ids _ deltas) in Hnd by done.
  destruct (route_ids sel entries) as [Hds Hvs].
  assert (forall e, e ∈ entries -> to_ascii_lowercase (pa_miner_id e.1) = pa_miner_id e.1) as Hlow.
  { intros [a d] He. apply (sorted_accounts_lower accounts). by apply elem_of_zip_l in He. }
  pose proof (route_sum sel entries) as Hsum. unfold entries in Hsum at 3.
  rewrite zip_accounts_snd in Hsum by done.
  unfold ps_validate. rewrite Hroot, String.eqb_refl, Hd, Hv. cbn [negb].
  match goal with |- context [existsb ?f ?l || existsb ?g ?k] =>
    assert (existsb f l = false /\ existsb g k = false) as [-> ->] end.
  { split; apply not_true_iff_false; rewrite existsb_exists; intros (o & Ho & H0%N.eqb_eq);
      apply list_elem_of_In in Ho; rewrite sort_by_elem in Ho.
    - apply route_direct_elem in Ho as (? & _ & ? & _). done.
    - apply route_vault_elem in Ho as (? & _ & ? & _). done. }
  rewrite !sort_by_windows by apply _. cbn [orb negb].
  rewrite collect_unique_of_NoDup; cycle 1.
  { intros x (o & -> & Ho)%list_elem_of_fmap. rewrite sort_by_elem in Ho.
    apply route_vault_elem in Ho as (a & Ha & _ & -> & _). apply (Hlow _ Ha). }
  { rewrite sort_by_perm. by eapply sublist_NoDup. }
  simpl. rewrite collect_unique_of_NoDup; cycle 1.
  { intros x (o & -> & Ho)%list_elem_of_fmap. rewrite sort_by_elem in Ho.
    apply route_direct_elem in Ho as (a & Ha & _ & -> & _). apply (Hlow _ Ha). }
  { rewrite sort_by_perm. by eapply sublist_NoDup. }
  simpl. rewrite bool_decide_false.
  - rewrite (proj2 (sum_sats_Ok _ (sum_N (map va_amount_sats (route_payouts sel entries).2)))).
    + simpl. rewrite Hd, sort_by_perm in Hout. rewrite (proj2 (N.eqb_eq _ _)) by lia. done.
    + rewrite sort_by_perm. split; [done|]. eapply fits_mono; [|exact Hfit]. lia.
  - intros Hne. apply Hne. apply set_eq. intros x. rewrite elem_of_intersection, !elem_of_list_to_set.
    split; [|set_solver]. intros [(o & -> & Ho)%list_elem_of_fmap (v & Heq & Hv')%list_elem_of_fmap].
    rewrite sort_by_elem in Ho. rewrite sort_by_elem in Hv'.
    apply route_direct_elem in Ho as (? & _ & _ & Hid1 & Hin & _).
    apply route_vault_elem in Hv' as (? & _ & _ & Hid2 & Hni & _). congruence.
Qed.

(** (validity). When the miner ids are distinct up to letter case, the
    schedule that is built passes [PayoutSchedule::validate]: its root matches,
    amounts are positive, both lists are in canonical order, no miner occurs
    twice and the vault total is right. *)
Theorem built_schedule_validates `{Hashing} accounts reward_sats limit m s :
  fits sats_bits reward_sats -> NoDup (map account_key accounts) ->
  build_payout_schedule accounts reward_sats limit m = Ok s ->
  ps_validate s = Ok tt.
Proof. apply build_validates. Qed.


(** ** Properties of the schedule *)

(** The accounts that receive one of the units left by rounding: their
    fractional part is positive and no account left out has a larger one. *)
Definition largest_remainders (accounts : list ParticipantAccount)
    (score : ParticipantAccount -> N) (pool : N) (winners : list nat) : Prop :=
  let total := sum_N (map score accounts) in
  (forall i a, i ∈ winners -> accounts !! i = Some a -> 0 < (score a * pool) mod total) /\
  (forall i j a b, i ∈ winners -> j ∉ winners -> accounts !! i = Some a -> accounts !! j = Some b ->
    (score b * pool) mod total <= (score a * pool) mod total).

(** The proportional share of a pool, rounded by the largest-remainder rule. *)
Definition fair_share (accounts : list ParticipantAccount) (score : ParticipantAccount -> N)
    (pool : N) (winners : list nat) (i : nat) (a : ParticipantAccount) : N :=
  score a * pool / sum_N (map score accounts) + if decide (i ∈ winners) then 1 else 0.

(** (fairness). Half of the reward is divided by hashrate score and the rest
    by Idena score.  Each account receives, from each half, the floor of its
    proportional share plus at most one unit, and the extra units go to the
    accounts with the largest fractional parts. *)
Theorem reward_deltas_fair accounts reward_sats deltas :
  fits sats_bits reward_sats -> 2 <= reward_sats ->
  reward_deltas accounts reward_sats = Ok deltas ->
  exists hash_winners idena_winners,
    largest_remainders accounts pa_hashrate_score (reward_sats / 2) hash_winners /\
    largest_remainders accounts pa_idena_score (reward_sats - reward_sats / 2) idena_winners /\
    forall i a, accounts !! i = Some a ->
      deltas !! i =
        Some (fair_share accounts pa_hashrate_score (reward_sats / 2) hash_winners i a +
              fair_share accounts pa_idena_score (reward_sats - reward_sats / 2) idena_winners i a).
Proof.
  intros Hfit H2 Hd. unfold reward_deltas in Hd. res_inv.
  assert (reward_sats / 2 <= reward_sats) as Hle by (apply N.Div0.div_le_upper_bound; lia).
  assert (reward_sats / 2 <> 0 /\ reward_sats - reward_sats / 2 <> 0) as [Hne1 Hne2].
  { pose proof (N.Div0.div_mod reward_sats 2). pose proof (N.mod_lt reward_sats 2 ltac:(done)).
    clear Hd. generalize dependent (reward_sats mod 2). generalize dependent (reward_sats / 2). lia. }
  assert (fits sats_bits (reward_sats / 2)) as Hf1 by (by eapply fits_mono).
  assert (fits sats_bits (reward_sats - reward_sats / 2)) as Hf2
    by (eapply fits_mono; [apply N.le_sub_l|done]).
  match goal with HH : add_component _ _ _ "hashrate" _ = _ |- _ =>
    pose proof HH as Hh; apply add_component_sum in HH as [Hl1 _]; [|done|by rewrite length_replicate] end.
  apply add_component_share in Hh as (wh & Hh1 & Hh2 & Hh3); [|done|by rewrite length_replicate|done].
  apply add_component_share in Hd as (wi & Hi1 & Hi2 & Hi3); [|done..].
  exists wh, wi. split_and!; [by split..|]. intros i a Hi. unfold fair_share.
  erewrite Hi1; [|done|apply (Hh1 i a 0 Hi)].
  - f_equal. lia.
  - apply lookup_replicate_2. by eapply lookup_lt_Some.
Qed.

Lemma sorted_accounts_perm accounts1 accounts2 :
  NoDup (map account_key accounts1) -> accounts1 ≡ₚ accounts2 ->
  sorted_accounts accounts1 = sorted_accounts accounts2.
Proof.
  intros Hnd Hp. apply sort_by_unique; [apply _| |by rewrite Hp].
  intros x y Hx Hy Heq%str_cmp_Eq. eapply (NoDup_map_elem pa_miner_id); [|done..].
  rewrite map_map. done.
Qed.

(** (order independence). With distinct miner ids the schedule does not
    depend on the order in which the accounts are listed, so every node derives
    the same payout root. *)
Theorem payout_order_independent `{Hashing} accounts1 accounts2 reward_sats limit m :
  NoDup (map account_key accounts1) -> accounts1 ≡ₚ accounts2 ->
  build_payout_schedule accounts1 reward_sats limit m =
  build_payout_schedule accounts2 reward_sats limit m.
Proof.
  intros Hnd Hp. unfold build_payout_schedule.
  fold (sorted_accounts accounts1) (sorted_accounts accounts2).
  by rewrite (sorted_accounts_perm _ _ Hnd Hp).
Qed.

Lemma account_scores_perm f accounts :
  (forall a, f (pa_normalized a) = f a) ->
  sum_N (map f (sorted_accounts accounts)) = sum_N (map f accounts).
Proof.
  intros Hf. unfold sorted_accounts. rewrite sort_by_perm, map_map. f_equal. by apply map_ext.
Qed.

Lemma sorted_accounts_Forall (P : ParticipantAccount -> Prop) accounts :
  (forall a, P a -> P (pa_normalized a)) -> Forall P accounts -> Forall P (sorted_accounts accounts).
Proof.
  intros HP Ha. unfold sorted_accounts. rewrite sort_by_perm. apply Forall_fmap.
  eapply Forall_impl; [exact Ha|]. intros a. apply HP.
Qed.

Lemma rank_entries_total accounts deltas b :
  Forall (fun a => fits sats_bits (pa_unpaid_sats a + b)) accounts ->
  Forall (fun d => d <= b) deltas ->
  exists ranked, try_map rank_entry (zip accounts deltas) = Ok ranked.
Proof.
  intros Ha. revert deltas. induction Ha as [|a accounts Ha _ IH]; intros [|d deltas] Hd; simpl; eauto.
  apply Forall_cons in Hd as [Hd Hds]. destruct (IH _ Hds) as [ranked Hr].
  rewrite (proj2 (checked_add_Some sats_bits (pa_unpaid_sats a) d _)
             (conj eq_refl (fits_mono _ _ _ (proj1 (N.add_le_mono_l _ _ _) Hd) Ha))).
  simpl. rewrite Hr. simpl. eauto.
Qed.

(** C36 (totality). Building a schedule succeeds whenever the scores and balances
    stay inside their integer types and each pool that is paid has a positive
    score: none of the checked additions and multiplications can fail. *)
Theorem build_payout_schedule_total `{Hashing} accounts reward_sats limit m :
  fits sats_bits reward_sats ->
  fits score_bits (sum_N (map pa_hashrate_score accounts)) ->
  fits score_bits (sum_N (map pa_idena_score accounts)) ->
  (2 <= reward_sats -> sum_N (map pa_hashrate_score accounts) <> 0) ->
  (1 <= reward_sats -> sum_N (map pa_idena_score accounts) <> 0) ->
  Forall (fun a => fits score_bits (pa_hashrate_score a * reward_sats) /\
                   fits score_bits (pa_idena_score a * reward_sats)) accounts ->
  Forall (fun a => fits sats_bits (pa_unpaid_sats a + reward_sats)) accounts ->
  exists s, build_payout_schedule accounts reward_sats limit m = Ok s.
Proof.
  intros Hfit Hh Hi Hh0 Hi0 Hmul Hbal. unfold build_payout_schedule.
  fold (sorted_accounts accounts).
  destruct (reward_deltas_total (sorted_accounts accounts) reward_sats) as [deltas Hd];
    rewrite ?account_scores_perm; try done; [by apply sorted_accounts_Forall|].
  rewrite Hd. simpl. apply reward_deltas_sum in Hd as [Hl Hs]; [|done].
  destruct (rank_entries_total (sorted_accounts accounts) deltas reward_sats) as [ranked Hr];
    [by apply sorted_accounts_Forall|apply Forall_forall; intros d Hd; rewrite <-Hs; by apply sum_N_elem|].
  rewrite Hr. simpl. set (sel := select_direct _ _ _).
  pose proof (route_sum sel (zip (sorted_accounts accounts) deltas)) as Hsum.
  rewrite zip_accounts_snd in Hsum by done.
  destruct (route_payouts sel _) as [direct vault]. simpl in *.
  rewrite (proj2 (sum_sats_Ok _ (sum_N (map dp_amount_sats direct)))).
  - assert (sum_N (map dp_amount_sats direct) <= reward_sats) as Hle by lia.
    simpl. rewrite (proj2 (checked_sub_Some reward_sats _ _) (conj eq_refl Hle)). simpl. eauto.
  - rewrite sort_by_perm. split; [done|]. eapply fits_mono; [|exact Hfit]. lia.
Qed.

Lemma direct_ids_subset sel entries :
  (list_to_set (map dp_miner_id (route_payouts sel entries).1) : gset string) ⊆ sel.
Proof.
  intros x. rewrite elem_of_list_to_set. intros (o & -> & Ho)%list_elem_of_fmap.
  apply route_direct_elem in Ho as (a & _ & _ & -> & Hin & _). done.
Qed.

Lemma route_direct_intro sel entries a d :
  (a, d) ∈ entries -> d <> 0 -> pa_miner_id a ∈ sel ->
  pa_miner_id a ∈ map dp_miner_id (route_payouts sel entries).1.
Proof.
  intros Hin Hd Hs. induction entries as [|[b e] entries IH]; [by apply not_elem_of_nil in Hin|].
  rewrite route_cons. apply elem_of_cons in Hin as [[= <- <-]|Hin].
  - rewrite (proj2 (N.eqb_neq d 0) Hd), bool_decide_true by done. simpl. left.
  - specialize (IH Hin). destruct (e =? 0), (bool_decide (pa_miner_id b ∈ sel)); simpl; try done. by right.
Qed.

Lemma rank_entries_fst entries ranked :
  try_map rank_entry entries = Ok ranked -> map fst ranked = entries.
Proof.
  intros Hr%try_map_Ok. induction Hr as [|[a d] e entries ranked Hrank _ IH]; [done|].
  simpl in Hrank. res_inv. subst. simpl. by f_equal.
Qed.

(** A qualifying entry that is not selected means the limit is used up. *)
Lemma select_direct_full ranked limit m e :
  NoDup (map (fun e : ranked_entry => pa_miner_id e.1.1) ranked) ->
  e ∈ ranked -> m <= e.1.2 -> pa_miner_id e.1.1 ∉ select_direct ranked limit m ->
  size (select_direct ranked limit m) = limit.
Proof.
  intros Hnd He Hm Hni. unfold select_direct in *.
  set (id := fun e : ranked_entry => pa_miner_id e.1.1) in *.
  set (F := List.filter _ ranked) in *.
  assert (e ∈ F) as HF.
  { apply list_elem_of_In, filter_In. split; [by apply list_elem_of_In|by apply N.leb_le]. }
  rewrite size_list_to_set.
  - rewrite length_map, length_take. apply Nat.min_l.
    destruct (decide (limit <= length F)%nat) as [|Hgt]; [done|]. exfalso. apply Hni.
    rewrite take_ge by lia. apply elem_of_list_to_set. by apply (list_elem_of_fmap_2 id).
  - eapply sublist_NoDup; [|apply fmap_sublist, sublist_take].
    eapply sublist_NoDup; [exact Hnd|]. apply fmap_sublist. unfold F. clear.
    induction ranked as [|x l IH]; simpl; [done|]. destruct (m <=? x.1.2); by constructor.
Qed.

(** (direct outputs). With distinct miner ids a schedule has at most
    [direct_limit] direct outputs, each of at least the minimum; and a miner
    whose amount reaches the minimum is sent to the vault only when the limit is
    used up. *)
Theorem direct_outputs_bounded `{Hashing} accounts reward_sats limit m s :
  fits sats_bits reward_sats -> NoDup (map account_key accounts) -> 0 < m ->
  build_payout_schedule accounts reward_sats limit m = Ok s ->
  (length (ps_direct_outputs s) <= limit)%nat /\
  (forall o, o ∈ ps_direct_outputs s -> m <= dp_amount_sats o) /\
  (forall v, v ∈ ps_vault_allocations s -> m <= va_amount_sats v ->
    length (ps_direct_outputs s) = limit).
Proof.
  intros Hfit Hnd Hm Hb. destruct (build_inv _ _ _ _ _ Hfit Hb) as
    (deltas & ranked & Hl & Hs & Hr & Hd & Hv & _ & _).
  set (sel := select_direct _ limit m) in *. set (entries := zip _ deltas) in *.
  rewrite <-sorted_accounts_ids, <-(zip_accounts_ids _ deltas) in Hnd by done. fold entries in Hnd.
  assert (NoDup (map dp_miner_id (route_payouts sel entries).1)) as Hnd1
    by (eapply sublist_NoDup; [done|apply route_ids]).
  pose proof (rank_entries_fst _ _ Hr) as Hfst.
  assert (length (ps_direct_outputs s) = size (list_to_set (map dp_miner_id (route_payouts sel entries).1) : gset string))
    as Hlen by (by rewrite Hd, sort_by_length, size_list_to_set, length_map).
  assert (forall id, id ∈ sel -> exists a d, (a, d) ∈ entries /\ pa_miner_id a = id /\ m <= d) as Hsel.
  { intros id (e & He & <- & Hme)%select_direct_elem. rewrite sort_by_elem in He.
    exists e.1.1, e.1.2. split; [|done]. by eapply rank_entries_elem. }
  split_and!.
  - rewrite Hlen. etrans; [apply subseteq_size, direct_ids_subset|apply select_direct_size].
  - intros o Ho. rewrite Hd, sort_by_elem in Ho.
    apply route_direct_elem in Ho as (a & Ha & _ & _ & Hin & _).
    destruct (Hsel _ Hin) as (b & d & Hbd & Hid & Hmd).
    assert ((b, d) = (a, dp_amount_sats o)) as [= _ <-]; [|done].
    by eapply (NoDup_map_elem (fun e : ParticipantAccount * N => pa_miner_id e.1)).
  - intros v Hv' Hmv. rewrite Hv, sort_by_elem in Hv'.
    apply route_vault_elem in Hv' as (a & Ha & _ & _ & Hni & _).
    rewrite <-Hfst in Ha. apply list_elem_of_fmap in Ha as (e & He1 & He).
    rewrite Hlen, <-(select_direct_full (sort_by compare_ranked ranked) limit m e); fold sel.
    + apply (f_equal size), set_eq. intros id. split; [apply direct_ids_subset|].
      intros Hin. destruct (Hsel _ Hin) as (b & d & Hbd & <- & Hmd). apply elem_of_list_to_set.
      eapply route_direct_intro; [done|lia|done].
    + rewrite sort_by_perm. rewrite <-Hfst, map_map in Hnd. done.
    + by rewrite sort_by_elem.
    + by rewrite <-He1.
    + by rewrite <-He1.
Qed.

(** ** A concrete run *)

Definition sample_account (id : string) (unpaid h i : N) : ParticipantAccount := {|
  pa_miner_id := id; pa_btc_payout_script_hex := "00"; pa_claim_owner_id := id;
  pa_unpaid_sats := unpaid; pa_hashrate_score := h; pa_idena_score := i |}.

Definition sample_accounts : list ParticipantAccount :=
  [sample_account "Alice" 5 3 1; sample_account "bob" 0 2 4; sample_account "carol" 7 2 0].

Definition sample_schedule : PayoutSchedule := {|
  ps_direct_outputs :=
    [{| dp_miner_id := "bob"; dp_btc_payout_script_hex := "00"; dp_amount_sats := 544 |}];
  ps_vault_allocations :=
    [{| va_miner_id := "alice"; va_claim_owner_id := "alice"; va_amount_sats := 314 |};
     {| va_miner_id := "carol"; va_claim_owner_id := "carol"; va_amount_sats := 143 |}];
  ps_vault_output_sats := 457;
  ps_payout_root := "a45bd963a7c22ea130003f7e1af95d841c9605305010cf3e39363bab32ef5b5e" |}.

Lemma sample_fits : fits sats_bits 1001.
Proof. vm_compute. reflexivity. Qed.

Lemma sample_keys_NoDup : NoDup (map account_key sample_accounts).
Proof. apply (bool_decide_unpack _). vm_compute. exact I. Qed.

Lemma sample_run : @build_payout_schedule hashing_c sample_accounts 1001 1 400 = Ok sample_schedule.
Proof. vm_compute. reflexivity. Qed.

Lemma payout_conserves_reward_witness :
  sum_N (map dp_amount_sats (ps_direct_outputs sample_schedule)) +
    sum_N (map va_amount_sats (ps_vault_allocations sample_schedule)) = 1001.
Proof.
  exact (proj1 (@payout_conserves_reward hashing_c sample_accounts 1001 1 400 sample_schedule
                  sample_fits sample_run)).
Defined.

Lemma built_schedule_validates_witness : @ps_validate hashing_c sample_schedule = Ok tt.
Proof.
  exact (@built_schedule_validates hashing_c sample_accounts 1001 1 400 sample_schedule
           sample_fits sample_keys_NoDup sample_run).
Defined.

Lemma reward_deltas_fair_witness : exists hash_winners idena_winners,
  largest_remainders sample_accounts pa_hashrate_score 500 hash_winners /\
  largest_remainders sample_accounts pa_idena_score 501 idena_winners.
Proof.
  destruct (reward_deltas_fair sample_accounts 1001 [314; 544; 143]) as (wh & wi & Hh & Hi & _);
    [vm_compute; reflexivity|vm_compute; discriminate|vm_compute; reflexivity|].
  exists wh, wi. split; [exact Hh|exact Hi].
Defined.

Lemma payout_order_independent_witness :
  @build_payout_schedule hashing_c sample_accounts 1001 1 400 =
  @build_payout_schedule hashing_c (rev sample_accounts) 1001 1 400.
Proof.
  exact (@payout_order_independent hashing_c sample_accounts (rev sample_accounts) 1001 1 400
           sample_keys_NoDup (Permutation_rev sample_accounts)).
Defined.

Lemma build_payout_schedule_total_witness :
  exists s, @build_payout_schedule hashing_c sample_accounts 1001 1 400 = Ok s.
Proof.
  refine (@build_payout_schedule_total hashing_c sample_accounts 1001 1 400 sample_fits _ _ _ _ _ _);
    [reflexivity|reflexivity|intros _; discriminate|intros _; discriminate|..];
    repeat constructor.
Defined.

Lemma direct_outputs_bounded_witness : (length (ps_direct_outputs sample_schedule) <= 1)%nat.
Proof.
  exact (proj1 (@direct_outputs_bounded hashing_c sample_accounts 1001 1 400 sample_schedule
                  sample_fits sample_keys_NoDup eq_refl sample_run)).
Defined.
