(* ===== verification/RewardReplay.v ===== *)
(** * Replay of Idena rewards into scores ([crates/pohw-core/src/replay.rs])

    A [RewardReplay] folds reward events into one score record per address.
    Validation, proposer and committee rewards are eligible; invitation and
    other rewards are recorded and ignored.  The theorems show that a replay
    computes exactly the per-address, per-category totals, that it fails only
    when one of those totals leaves [u128], and that the order of the events
    is irrelevant. *)
From S2P Require Import Prelude Order Text Crates.

Local Open Scope N_scope.

(** ** Data *)

Inductive RewardKind :=
| Validation | Proposer | FinalCommittee | Invitation | Invitee | ContractOracle | OtherReward.

Record RewardEvent := {
  re_idena_address : string;
  re_kind : RewardKind;
  re_amount_atoms : N;
  re_source_height : N;
  re_source_hash : string
}.

Record RewardScore := {
  rs_validation_reward_score : N;
  rs_proposer_reward_score : N;
  rs_committee_reward_score : N;
  rs_ignored_invitation_score : N;
  rs_ignored_other_score : N
}.

Inductive RewardReplayError :=
| ReplayScoreOverflow (idena_address : string).

(** The derived [Default]. *)
Definition reward_score_default : RewardScore := {|
  rs_validation_reward_score := 0;
  rs_proposer_reward_score := 0;
  rs_committee_reward_score := 0;
  rs_ignored_invitation_score := 0;
  rs_ignored_other_score := 0 |}.

Definition rs_eligible_score (s : RewardScore) : result RewardReplayError N :=
  ok_or (ReplayScoreOverflow "<score>")
    (score ← checked_add score_bits (rs_validation_reward_score s) (rs_proposer_reward_score s);
     checked_add score_bits score (rs_committee_reward_score s)).

Record RewardReplay := { replay_scores : gmap string RewardScore }.

Definition replay_default : RewardReplay := {| replay_scores := ∅ |}.

(** ** Operations *)

(** The match of [apply] on the event kind: the updated entry, or overflow. *)
Definition credit_entry (idena_address : string) (event : RewardEvent) (entry : RewardScore)
    : result RewardReplayError RewardScore :=
  let add field := ok_or (ReplayScoreOverflow idena_address)
                     (checked_add score_bits field (re_amount_atoms event)) in
  match re_kind event with
  | Validation =>
      v ← add (rs_validation_reward_score entry);
      Ok {| rs_validation_reward_score := v;
            rs_proposer_reward_score := rs_proposer_reward_score entry;
            rs_committee_reward_score := rs_committee_reward_score entry;
            rs_ignored_invitation_score := rs_ignored_invitation_score entry;
            rs_ignored_other_score := rs_ignored_other_score entry |}
  | Proposer =>
      v ← add (rs_proposer_reward_score entry);
      Ok {| rs_validation_reward_score := rs_validation_reward_score entry;
            rs_proposer_reward_score := v;
            rs_committee_reward_score := rs_committee_reward_score entry;
            rs_ignored_invitation_score := rs_ignored_invitation_score entry;
            rs_ignored_other_score := rs_ignored_other_score entry |}
  | FinalCommittee =>
      v ← add (rs_committee_reward_score entry);
      Ok {| rs_validation_reward_score := rs_validation_reward_score entry;
            rs_proposer_reward_score := rs_proposer_reward_score entry;
            rs_committee_reward_score := v;
            rs_ignored_invitation_score := rs_ignored_invitation_score entry;
            rs_ignored_other_score := rs_ignored_other_score entry |}
  | Invitation | Invitee =>
      v ← add (rs_ignored_invitation_score entry);
      Ok {| rs_validation_reward_score := rs_validation_reward_score entry;
            rs_proposer_reward_score := rs_proposer_reward_score entry;
            rs_committee_reward_score := rs_committee_reward_score entry;
            rs_ignored_invitation_score := v;
            rs_ignored_other_score := rs_ignored_other_score entry |}
  | ContractOracle | OtherReward =>
      v ← add (rs_ignored_other_score entry);
      Ok {| rs_validation_reward_score := rs_validation_reward_score entry;
            rs_proposer_reward_score := rs_proposer_reward_score entry;
            rs_committee_reward_score := rs_committee_reward_score entry;
            rs_ignored_invitation_score := rs_ignored_invitation_score entry;
            rs_ignored_other_score := v |}
  end.

(** [entry(..).or_default()] creates the entry even when the addition fails. *)
Definition replay_apply (event : RewardEvent) : M RewardReplay RewardReplayError unit := fun self =>
  let idena_address := to_ascii_lowercase (re_idena_address event) in
  let entry := default reward_score_default (replay_scores self !! idena_address) in
  match credit_entry idena_address event entry with
  | Ok entry' => (Ok tt, {| replay_scores := <[idena_address := entry']> (replay_scores self) |})
  | Err e => (Err e, {| replay_scores := <[idena_address := entry]> (replay_scores self) |})
  end.

Definition score_for (self : RewardReplay) (idena_address : string) : RewardScore :=
  default reward_score_default (replay_scores self !! to_ascii_lowercase idena_address).

(** ** Specification: totals per address and category *)

Inductive category := CatValidation | CatProposer | CatCommittee | CatInvitation | CatOther.

Global Instance category_eq_dec : EqDecision category.
Proof. solve_decision. Defined.

Definition category_of (k : RewardKind) : category :=
  match k with
  | Validation => CatValidation
  | Proposer => CatProposer
  | FinalCommittee => CatCommittee
  | Invitation | Invitee => CatInvitation
  | ContractOracle | OtherReward => CatOther
  end.

Definition event_key (e : RewardEvent) : string := to_ascii_lowercase (re_idena_address e).

Definition credit (addr : string) (c : category) (e : RewardEvent) : N :=
  if decide (event_key e = addr /\ category_of (re_kind e) = c) then re_amount_atoms e else 0.

Definition category_total (events : list RewardEvent) (addr : string) (c : category) : N :=
  sum_N (map (credit addr c) events).

Definition score_spec (events : list RewardEvent) (addr : string) : RewardScore := {|
  rs_validation_reward_score := category_total events addr CatValidation;
  rs_proposer_reward_score := category_total events addr CatProposer;
  rs_committee_reward_score := category_total events addr CatCommittee;
  rs_ignored_invitation_score := category_total events addr CatInvitation;
  rs_ignored_other_score := category_total events addr CatOther |}.

(** The state a replay of [events] must reach. *)
Definition replay_spec (events : list RewardEvent) : RewardReplay := {|
  replay_scores := list_to_map (map (fun e => (event_key e, score_spec events (event_key e))) events) |}.

Definition totals_fit (events : list RewardEvent) : Prop :=
  forall addr c, fits score_bits (category_total events addr c).

Lemma category_total_snoc events e addr c :
  category_total (events ++ [e]) addr c = category_total events addr c + credit addr c e.
Proof. unfold category_total. rewrite map_app, sum_N_app. simpl. lia. Qed.

Global Instance category_total_perm : Proper ((≡ₚ) ==> (=) ==> (=) ==> (=)) category_total.
Proof.
  intros l1 l2 Hp addr ? <- c ? <-. unfold category_total.
  by rewrite (Permutation_map (credit addr c) Hp).
Qed.

Lemma score_spec_perm l1 l2 addr : l1 ≡ₚ l2 -> score_spec l1 addr = score_spec l2 addr.
Proof. intros Hp. unfold score_spec. by rewrite Hp. Qed.

Lemma replay_spec_lookup events addr :
  replay_scores (replay_spec events) !! addr =
  if decide (addr ∈ map event_key events) then Some (score_spec events addr) else None.
Proof.
  unfold replay_spec. simpl. generalize (score_spec events) as f. intros f.
  induction events as [|e events IH]; simpl; [by rewrite lookup_empty|].
  destruct (decide (addr = event_key e)) as [->|Hne].
  - rewrite lookup_insert_eq, decide_True by set_solver. done.
  - rewrite lookup_insert_ne, IH by done.
    destruct (decide (addr ∈ map event_key events)); [rewrite decide_True by set_solver|
      rewrite decide_False by set_solver]; done.
Qed.

(** ** One event *)

Lemma credit_other e addr c : event_key e <> addr -> credit addr c e = 0.
Proof. intros Hne. unfold credit. rewrite decide_False; [done|naive_solver]. Qed.

Lemma credit_self e c :
  credit (event_key e) c e = if decide (category_of (re_kind e) = c) then re_amount_atoms e else 0.
Proof. unfold credit. repeat case_decide; naive_solver. Qed.

(** Crediting moves the specification one event further, or overflows exactly
    when the new total does not fit. *)
Lemma credit_entry_spec events e :
  credit_entry (event_key e) e (score_spec events (event_key e)) =
  if category_total (events ++ [e]) (event_key e) (category_of (re_kind e)) <? 2 ^ score_bits
  then Ok (score_spec (events ++ [e]) (event_key e))
  else Err (ReplayScoreOverflow (event_key e)).
Proof.
  unfold credit_entry, score_spec, checked_add. rewrite !category_total_snoc, !credit_self.
  destruct (re_kind e); cbn [category_of rs_validation_reward_score rs_proposer_reward_score
    rs_committee_reward_score rs_ignored_invitation_score rs_ignored_other_score];
    repeat case_decide; try done; rewrite ?N.add_0_r; destruct (_ <? _); done.
Qed.

Lemma score_spec_other events e addr :
  event_key e <> addr -> score_spec (events ++ [e]) addr = score_spec events addr.
Proof.
  intros Hne. unfold score_spec. rewrite !category_total_snoc, !credit_other by done.
  by rewrite !N.add_0_r.
Qed.

Lemma score_spec_absent events addr :
  addr ∉ map event_key events -> score_spec events addr = reward_score_default.
Proof.
  intros Hni. unfold score_spec, reward_score_default.
  assert (forall c, category_total events addr c = 0) as Hz; [|by rewrite !Hz].
  intros c. unfold category_total. induction events as [|e events IH]; simpl; [done|].
  rewrite credit_other, IH by set_solver. done.
Qed.

Lemma replay_default_spec : replay_default = replay_spec [].
Proof. done. Qed.

Lemma default_score_spec events addr :
  default reward_score_default (replay_scores (replay_spec events) !! addr) = score_spec events addr.
Proof. rewrite replay_spec_lookup. case_decide; [done|]. symmetry. by apply score_spec_absent. Qed.

Lemma replay_insert_spec events e :
  <[event_key e := score_spec (events ++ [e]) (event_key e)]> (replay_scores (replay_spec events)) =
  replay_scores (replay_spec (events ++ [e])).
Proof.
  apply map_eq. intros addr. rewrite replay_spec_lookup.
  destruct (decide (addr = event_key e)) as [->|Hne].
  - rewrite lookup_insert_eq, decide_True; [done|]. rewrite map_app. set_solver.
  - rewrite lookup_insert_ne, replay_spec_lookup by done.
    rewrite <-(score_spec_other events e addr) by done. rewrite map_app.
    repeat case_decide; set_solver.
Qed.

Lemma replay_apply_spec events e :
  replay_apply e (replay_spec events) =
  if category_total (events ++ [e]) (event_key e) (category_of (re_kind e)) <? 2 ^ score_bits
  then (Ok tt, replay_spec (events ++ [e]))
  else (Err (ReplayScoreOverflow (event_key e)),
        {| replay_scores := <[event_key e := score_spec events (event_key e)]>
                              (replay_scores (replay_spec events)) |}).
Proof.
  unfold replay_apply. fold (event_key e). rewrite default_score_spec, credit_entry_spec.
  destruct (_ <? _); [|done]. by rewrite replay_insert_spec.
Qed.

(** ** Whole replays *)

Lemma replay_from_spec pre events s :
  for_each replay_apply events (replay_spec pre) = (Ok tt, s) -> s = replay_spec (pre ++ events).
Proof.
  revert pre. induction events as [|e events IH]; intros pre; simpl.
  - intros [= <-]. by rewrite app_nil_r.
  - rewrite M_bind_Ok. intros ([] & s1 & He & Hs). rewrite replay_apply_spec in He.
    destruct (_ <? _); [|done]. injection He as <-. apply IH in Hs. by rewrite <-app_assoc in Hs.
Qed.

Lemma replay_fits_prefix pre events :
  totals_fit (pre ++ events) -> for_each replay_apply events (replay_spec pre) =
    (Ok tt, replay_spec (pre ++ events)).
Proof.
  revert pre. induction events as [|e events IH]; intros pre Hfit; simpl; [by rewrite app_nil_r|].
  rewrite M_bind_run, replay_apply_spec.
  assert (totals_fit ((pre ++ [e]) ++ events)) as Hfit' by (by rewrite <-app_assoc).
  rewrite (proj2 (N.ltb_lt _ _)).
  - rewrite IH by done. by rewrite <-app_assoc.
  - specialize (Hfit' (event_key e) (category_of (re_kind e))). revert Hfit'.
    unfold fits, category_total. rewrite (map_app _ (pre ++ [e])), sum_N_app. lia.
Qed.

(** The totals only grow along a replay, so success means the final totals fit. *)
Lemma replay_Ok_fits pre events s :
  totals_fit pre -> for_each replay_apply events (replay_spec pre) = (Ok tt, s) ->
  totals_fit (pre ++ events).
Proof.
  revert pre. induction events as [|e events IH]; intros pre Hpre; simpl.
  - intros _. by rewrite app_nil_r.
  - rewrite M_bind_Ok. intros ([] & s1 & He & Hs). rewrite replay_apply_spec in He.
    destruct (_ <? _) eqn:Hlt; [|done]. injection He as <-. apply N.ltb_lt in Hlt.
    replace (pre ++ e :: events) with ((pre ++ [e]) ++ events) by (by rewrite <-app_assoc).
    apply IH; [|done]. intros addr c. rewrite category_total_snoc in *. unfold credit at 1.
    case_decide as Hc; [|specialize (Hpre addr c); unfold fits in *; lia].
    destruct Hc as [<- <-]. revert Hlt. rewrite credit_self, decide_True by done. done.
Qed.

Lemma replay_run_iff events s :
  for_each replay_apply events replay_default = (Ok tt, s) <->
  totals_fit events /\ s = replay_spec events.
Proof.
  rewrite replay_default_spec. split.
  - intros Hs. split; [|by apply replay_from_spec in Hs].
    apply (replay_Ok_fits [] events s); [|done]. intros addr c. vm_compute. done.
  - intros [Hfit ->]. by apply (replay_fits_prefix []).
Qed.

Lemma replay_spec_perm l1 l2 : l1 ≡ₚ l2 -> replay_spec l1 = replay_spec l2.
Proof.
  intros Hp. enough (replay_scores (replay_spec l1) = replay_scores (replay_spec l2)) as Heq.
  { unfold replay_spec in *. simpl in Heq. by rewrite Heq. }
  apply map_eq. intros addr. rewrite !replay_spec_lookup.
  rewrite (score_spec_perm _ _ addr Hp).
  rewrite (decide_ext (addr ∈ map event_key l1) (addr ∈ map event_key l2)); [done|].
  by rewrite (Permutation_map event_key Hp).
Qed.

Lemma totals_fit_perm l1 l2 : l1 ≡ₚ l2 -> totals_fit l1 <-> totals_fit l2.
Proof. intros Hp. unfold totals_fit. split; intros Hf addr c; specialize (Hf addr c);
  [rewrite <-Hp|rewrite Hp]; done. Qed.

(** (replay). Replaying events from the empty state succeeds exactly when
    every per-address, per-category total fits in a [u128]; then the state holds
    exactly those totals, one entry per address that occurs, and replaying the
    same events in any other order gives the same state. *)
Theorem replay_computes_totals events s :
  (for_each replay_apply events replay_default = (Ok tt, s) <->
    totals_fit events /\ s = replay_spec events) /\
  (forall events', events ≡ₚ events' ->
    for_each replay_apply events' replay_default = (Ok tt, s) <->
    for_each replay_apply events replay_default = (Ok tt, s)).
Proof.
  split; [apply replay_run_iff|]. intros events' Hp.
  by rewrite !replay_run_iff, (totals_fit_perm _ _ Hp), (replay_spec_perm _ _ Hp).
Qed.
