(* ===== verification/Snapshot.v ===== *)
(** * Daily score snapshots ([crates/pohw-core/src/snapshot.rs])

    A snapshot lists the scored Idena identities of one day.  Nodes exchange
    snapshots and check [verify_score_root] before they vote.  The theorems
    characterise acceptance exactly and show that the score root pins down the
    scored leaves. *)
From S2P Require Import Prelude Order Text Crates Concrete Merkle.

Local Open Scope N_scope.

Definition FORMULA_VERSION : N := 2.

(** ** Data *)

Inductive IdenaStatus :=
| Invite | Candidate | Newbie | Verified | Suspended | Zombie | Killed | Human | Undefined.

Global Instance IdenaStatus_eq_dec : EqDecision IdenaStatus.
Proof. solve_decision. Defined.

(** Unit variants serialise as their (Pascal-case) names. *)
Definition status_name (s : IdenaStatus) : string :=
  match s with
  | Invite => "Invite" | Candidate => "Candidate" | Newbie => "Newbie" | Verified => "Verified"
  | Suspended => "Suspended" | Zombie => "Zombie" | Killed => "Killed" | Human => "Human"
  | Undefined => "Undefined"
  end.
Global Instance IdenaStatus_serialize : Serialize IdenaStatus := fun s => JStr (status_name s).

Definition status_is_block_eligible (s : IdenaStatus) : bool :=
  match s with Newbie | Verified | Human => true | _ => false end.

Record SnapshotLeaf := {
  sl_idena_address : string;
  sl_status : IdenaStatus;
  sl_pubkey : string;
  sl_validation_reward_score : N;
  sl_proposer_reward_score : N;
  sl_committee_reward_score : N;
  sl_ignored_invitation_score : N;
  sl_identity_root : string;
  sl_formula_version : N
}.

Global Instance SnapshotLeaf_eq_dec : EqDecision SnapshotLeaf.
Proof. solve_decision. Defined.

Global Instance SnapshotLeaf_serialize : Serialize SnapshotLeaf := fun l =>
  JObj (field "idena_address" (sl_idena_address l) ++
        field "status" (sl_status l) ++
        field "pubkey" (sl_pubkey l) ++
        field "validation_reward_score" (sl_validation_reward_score l) ++
        field "proposer_reward_score" (sl_proposer_reward_score l) ++
        field "committee_reward_score" (sl_committee_reward_score l) ++
        field "ignored_invitation_score" (sl_ignored_invitation_score l) ++
        field "identity_root" (sl_identity_root l) ++
        field "formula_version" (sl_formula_version l)).

Inductive SnapshotError :=
| SnapshotScoreOverflow (idena_address : string)
| FormulaVersionMismatch (expected actual : N)
| LeafFormulaVersionMismatch (idena_address : string) (expected actual : N)
| DuplicateAddress (idena_address : string)
| IdentityRootMismatch (idena_address expected actual : string)
| ScoreRootMismatch (expected actual : string)
| InvalidIdenaAddress (idena_address reason : string)
| InvalidIdentityRoot.

(** ** Leaves *)

Definition sl_normalized (l : SnapshotLeaf) : SnapshotLeaf := {|
  sl_idena_address := to_ascii_lowercase (sl_idena_address l);
  sl_status := sl_status l;
  sl_pubkey := to_ascii_lowercase (sl_pubkey l);
  sl_validation_reward_score := sl_validation_reward_score l;
  sl_proposer_reward_score := sl_proposer_reward_score l;
  sl_committee_reward_score := sl_committee_reward_score l;
  sl_ignored_invitation_score := sl_ignored_invitation_score l;
  sl_identity_root := to_ascii_lowercase (sl_identity_root l);
  sl_formula_version := sl_formula_version l |}.

Definition sl_eligible_score (l : SnapshotLeaf) : result SnapshotError N :=
  ok_or (SnapshotScoreOverflow (sl_idena_address l))
    (score ← checked_add score_bits (sl_validation_reward_score l) (sl_proposer_reward_score l);
     checked_add score_bits score (sl_committee_reward_score l)).

Definition sl_is_block_eligible (l : SnapshotLeaf) : bool :=
  (sl_formula_version l =? FORMULA_VERSION) && status_is_block_eligible (sl_status l).

Definition compare_leaves (left right : SnapshotLeaf) : comparison :=
  str_cmp (sl_idena_address left) (sl_idena_address right).

Definition validate_idena_address (value : string) : result SnapshotError unit :=
  match strip_prefix "0x" value with
  | None => Err (InvalidIdenaAddress value "address must start with 0x")
  | Some hex_part =>
      if negb (Nat.eqb (String.length hex_part) 40) || negb (all_bytes is_ascii_hexdigit hex_part)
      then Err (InvalidIdenaAddress value
                  "address must contain 20 bytes encoded as 40 hex characters")
      else Ok tt
  end.

(** ** Snapshots

    [NaiveDate] is the [chrono] type of the day; snapshots only carry it. *)

Section snapshot.
Context `{Hashing} {NaiveDate : Type}.

Record Snapshot := {
  sn_snapshot_day : NaiveDate;
  sn_idena_height : N;
  sn_idena_block_hash : string;
  sn_identity_root : string;
  sn_score_root : string;
  sn_formula_version : N;
  sn_leaves : list SnapshotLeaf
}.

Definition snapshot_build (snapshot_day : NaiveDate) (idena_height : N)
    (idena_block_hash identity_root : string) (formula_version : N)
    (leaves : list SnapshotLeaf) : Snapshot :=
  let leaves := sort_by compare_leaves (map sl_normalized leaves) in
  {| sn_snapshot_day := snapshot_day;
     sn_idena_height := idena_height;
     sn_idena_block_hash := to_ascii_lowercase idena_block_hash;
     sn_identity_root := to_ascii_lowercase identity_root;
     sn_score_root := merkle_root leaves;
     sn_formula_version := formula_version;
     sn_leaves := leaves |}.

(** The loop of [verify_score_root] over the sorted leaves. *)
Fixpoint verify_leaves (formula_version : N) (expected_identity_root : string)
    (previous_address : option string) (leaves : list SnapshotLeaf) : result SnapshotError unit :=
  match leaves with
  | [] => Ok tt
  | leaf :: rest =>
      _ ← validate_idena_address (sl_idena_address leaf);
      if negb (sl_formula_version leaf =? formula_version)
      then Err (LeafFormulaVersionMismatch (sl_idena_address leaf) formula_version
                  (sl_formula_version leaf))
      else if bool_decide (previous_address = Some (sl_idena_address leaf))
      then Err (DuplicateAddress (sl_idena_address leaf))
      else if negb (String.eqb (sl_identity_root leaf) expected_identity_root)
      then Err (IdentityRootMismatch (sl_idena_address leaf) expected_identity_root
                  (sl_identity_root leaf))
      else verify_leaves formula_version expected_identity_root (Some (sl_idena_address leaf)) rest
  end.

Definition verify_score_root (s : Snapshot) : result SnapshotError unit :=
  if negb (sn_formula_version s =? FORMULA_VERSION)
  then Err (FormulaVersionMismatch FORMULA_VERSION (sn_formula_version s))
  else
    let leaves := sort_by compare_leaves (map sl_normalized (sn_leaves s)) in
    let expected_identity_root := to_ascii_lowercase (sn_identity_root s) in
    _ ← verify_leaves (sn_formula_version s) expected_identity_root None leaves;
    let expected := merkle_root leaves in
    if negb (String.eqb (sn_score_root s) expected)
    then Err (ScoreRootMismatch expected (sn_score_root s))
    else Ok tt.

Definition identity_proof_root_hex (s : Snapshot) : result SnapshotError string :=
  let normalized := to_ascii_lowercase (sn_identity_root s) in
  let value := default normalized (strip_prefix "0x" normalized) in
  if negb (Nat.eqb (String.length value) 64) || negb (all_bytes is_ascii_hexdigit value)
  then Err InvalidIdentityRoot
  else Ok value.
End snapshot.
Arguments Snapshot : clear implicits.

(** ** Acceptance *)

Definition canonical_leaves (leaves : list SnapshotLeaf) : list SnapshotLeaf :=
  sort_by compare_leaves (map sl_normalized leaves).

Definition leaf_key (l : SnapshotLeaf) : string := to_ascii_lowercase (sl_idena_address l).

(** What a leaf must satisfy, in the terms of the caller's data. *)
Definition leaf_ok (version : N) (identity_root : string) (l : SnapshotLeaf) : Prop :=
  validate_idena_address (leaf_key l) = Ok tt /\
  sl_formula_version l = version /\
  to_ascii_lowercase (sl_identity_root l) = to_ascii_lowercase identity_root.

Global Instance compare_leaves_order : CmpOrder compare_leaves.
Proof. apply cmp_on_order, _. Qed.

Lemma leaf_rejected_iff version root prev leaf rest :
  verify_leaves version root prev (leaf :: rest) = Ok tt <->
  validate_idena_address (sl_idena_address leaf) = Ok tt /\ sl_formula_version leaf = version /\
  prev <> Some (sl_idena_address leaf) /\ sl_identity_root leaf = root /\
  verify_leaves version root (Some (sl_idena_address leaf)) rest = Ok tt.
Proof.
  simpl. destruct (validate_idena_address _) as [[]|e]; simpl; [|naive_solver].
  destruct (N.eqb_spec (sl_formula_version leaf) version); simpl; [|naive_solver].
  case_bool_decide; [naive_solver|].
  destruct (String.eqb_spec (sl_identity_root leaf) root); simpl; naive_solver.
Qed.

(** On sorted leaves comparing neighbours finds every duplicate. *)
Lemma verify_leaves_Ok version root prev leaves :
  StronglySorted (cmp_le compare_leaves) leaves ->
  (forall p, prev = Some p -> Forall (fun l => str_cmp p (sl_idena_address l) <> Gt) leaves) ->
  verify_leaves version root prev leaves = Ok tt <->
  Forall (fun l => validate_idena_address (sl_idena_address l) = Ok tt /\
                   sl_formula_version l = version /\ sl_identity_root l = root) leaves /\
  NoDup (map sl_idena_address leaves) /\
  (forall p, prev = Some p -> p ∉ map sl_idena_address leaves).
Proof.
  intros Hs. revert prev. induction Hs as [|leaf rest Hs IH Hle]; intros prev Hprev.
  { simpl. split; [|done]. intros _. split_and!; [constructor|constructor|set_solver]. }
  rewrite leaf_rejected_iff, Forall_cons. cbn [map]. rewrite NoDup_cons.
  rewrite IH by (intros p [= <-]; exact Hle). split.
  - intros (Hv & Hf & Hp & Hr & Hall & Hnd & Hnp). split_and!; try done; [by apply Hnp|].
    intros p -> [->|Hin]%elem_of_cons; [done|].
    apply list_elem_of_fmap in Hin as (l & -> & Hl).
    rewrite Forall_forall in Hle. specialize (Hle l Hl).
    specialize (Hprev _ eq_refl). apply Forall_cons in Hprev as [Hpl _]. apply Hp. f_equal.
    apply str_cmp_Eq. by apply (cmp_le_antisym str_cmp).
  - intros (((Hv & Hf & Hr) & Hall) & (Hni & Hnd) & Hp). split_and!; try done.
    + intros ->. apply (Hp _ eq_refl). set_solver.
    + intros p [= <-]. done.
Qed.

Lemma canonical_leaves_Forall (P : SnapshotLeaf -> Prop) leaves :
  Forall P (canonical_leaves leaves) <-> Forall (fun l => P (sl_normalized l)) leaves.
Proof. unfold canonical_leaves. rewrite sort_by_perm. apply Forall_fmap. Qed.

Lemma canonical_leaves_keys leaves :
  map sl_idena_address (canonical_leaves leaves) ≡ₚ map leaf_key leaves.
Proof. unfold canonical_leaves. rewrite sort_by_perm, map_map. done. Qed.

Section acceptance.
Context `{Hashing} {NaiveDate : Type}.
Implicit Types s : Snapshot NaiveDate.

Lemma verify_score_root_Ok s :
  verify_score_root s = Ok tt <->
  sn_formula_version s = FORMULA_VERSION /\
  Forall (leaf_ok FORMULA_VERSION (sn_identity_root s)) (sn_leaves s) /\
  NoDup (map leaf_key (sn_leaves s)) /\
  sn_score_root s = merkle_root (canonical_leaves (sn_leaves s)).
Proof.
  unfold verify_score_root. fold (canonical_leaves (sn_leaves s)).
  destruct (N.eqb_spec (sn_formula_version s) FORMULA_VERSION) as [->|]; simpl; [|naive_solver].
  assert (verify_leaves FORMULA_VERSION (to_ascii_lowercase (sn_identity_root s)) None
            (canonical_leaves (sn_leaves s)) = Ok tt <->
          Forall (leaf_ok FORMULA_VERSION (sn_identity_root s)) (sn_leaves s) /\
          NoDup (map leaf_key (sn_leaves s))) as Hv.
  { rewrite verify_leaves_Ok by (apply sort_by_sorted, _ || done).
    rewrite canonical_leaves_Forall, canonical_leaves_keys. unfold leaf_ok. naive_solver. }
  destruct (verify_leaves _ _ _ _) as [[]|e]; simpl;
    [|naive_solver]. destruct (String.eqb_spec (sn_score_root s) (merkle_root (canonical_leaves (sn_leaves s))));
    simpl; naive_solver.
Qed.

End acceptance.

Lemma sl_normalized_idemp l : sl_normalized (sl_normalized l) = sl_normalized l.
Proof. destruct l. unfold sl_normalized. simpl. by rewrite !lower_idemp. Qed.

Lemma canonical_leaves_idemp leaves : canonical_leaves (canonical_leaves leaves) = canonical_leaves leaves.
Proof.
  unfold canonical_leaves at 1.
  replace (map sl_normalized (canonical_leaves leaves)) with (canonical_leaves leaves);
    [apply (sort_by_idemp compare_leaves)|].
  assert (Forall (fun l => sl_normalized l = l) (canonical_leaves leaves)) as Hf.
  { apply canonical_leaves_Forall, Forall_forall. intros l _. apply sl_normalized_idemp. }
  induction Hf as [|l k Hl _ IH]; [done|]. simpl. by rewrite Hl, <-IH.
Qed.

Global Instance SnapshotLeaf_serialize_inj : SerializeInj SnapshotLeaf.
Proof.
  intros [] [] Heq. cbv [to_json SnapshotLeaf_serialize field app] in Heq. simpl in Heq.
  injection Heq. intros. simplify_eq.
  repeat match goal with HH : Z.of_N _ = Z.of_N _ |- _ => apply N2Z.inj in HH; subst end.
  match goal with HH : status_name ?a = status_name ?b |- _ => assert (a = b) as -> end; [|done].
  repeat match goal with st : IdenaStatus |- _ => destruct st end; done.
Qed.

Lemma canonical_leaves_NoDup leaves :
  NoDup (map leaf_key leaves) -> NoDup (map to_json (canonical_leaves leaves)).
Proof.
  rewrite <-canonical_leaves_keys. intros Hnd. apply NoDup_fmap_2_strong.
  - intros x y _ _ Heq. by apply to_json_inj in Heq.
  - by apply NoDup_fmap_1 in Hnd.
Qed.

(** (acceptance). [verify_score_root] accepts exactly the snapshots of the
    current formula version whose leaves have well-formed, pairwise distinct
    addresses (up to letter case), the snapshot's identity root and the same
    formula version, and whose score root is the Merkle root of the leaves in
    canonical form. *)
Theorem verify_score_root_iff `{Hashing} {NaiveDate} (s : Snapshot NaiveDate) :
  verify_score_root s = Ok tt <->
  sn_formula_version s = FORMULA_VERSION /\
  Forall (leaf_ok FORMULA_VERSION (sn_identity_root s)) (sn_leaves s) /\
  NoDup (map leaf_key (sn_leaves s)) /\
  sn_score_root s = merkle_root (canonical_leaves (sn_leaves s)).
Proof. apply verify_score_root_Ok. Qed.

(** (round trip). A snapshot built from well-formed leaves with distinct
    addresses is accepted by [verify_score_root], whatever the order and letter
    case in which the leaves were given. *)
Theorem built_snapshot_verifies `{Hashing} {NaiveDate} (day : NaiveDate) height block root leaves :
  Forall (leaf_ok FORMULA_VERSION root) leaves -> NoDup (map leaf_key leaves) ->
  verify_score_root (snapshot_build day height block root FORMULA_VERSION leaves) = Ok tt.
Proof.
  intros Hok Hnd. apply verify_score_root_Ok. cbn [snapshot_build sn_formula_version sn_identity_root
    sn_leaves sn_score_root]. fold (canonical_leaves leaves).
  rewrite canonical_leaves_idemp. split_and!; [done| |  |done].
  - apply canonical_leaves_Forall. eapply Forall_impl; [exact Hok|].
    intros l (Hv & Hf & Hr). unfold leaf_ok, leaf_key in *. simpl. rewrite !lower_idemp. done.
  - enough (map leaf_key (canonical_leaves leaves) ≡ₚ map leaf_key leaves) as -> by done.
    unfold canonical_leaves. rewrite sort_by_perm, map_map. apply reflexive_eq, map_ext.
    intros l. apply lower_idemp.
Qed.

(** (binding). Two accepted snapshots with the same score root contain the
    same scored leaves, up to the order and letter case in which they are
    listed, unless two of the strings hashed for these roots collide. *)
Theorem score_root_binds `{Hashing, !HashLaws, !HexLaws} {NaiveDate} (s1 s2 : Snapshot NaiveDate) :
  verify_score_root s1 = Ok tt -> verify_score_root s2 = Ok tt ->
  sn_score_root s1 = sn_score_root s2 ->
  canonical_leaves (sn_leaves s1) = canonical_leaves (sn_leaves s2) \/
  collision_among (merkle_inputs (canonical_leaves (sn_leaves s1)) ++
                   merkle_inputs (canonical_leaves (sn_leaves s2))).
Proof.
  intros (_ & _ & Hn1 & Hr1)%verify_score_root_Ok (_ & _ & Hn2 & Hr2)%verify_score_root_Ok Heq.
  rewrite Hr1, Hr2 in Heq. apply merkle_root_inj in Heq as [Hl|]; [left|by right|by apply canonical_leaves_NoDup..].
  by apply map_to_json_inj.
Qed.

(** ** A concrete snapshot *)

Definition sample_leaf (addr : string) (status : IdenaStatus) (score : N) : SnapshotLeaf := {|
  sl_idena_address := addr; sl_status := status; sl_pubkey := "AB";
  sl_validation_reward_score := score; sl_proposer_reward_score := 1;
  sl_committee_reward_score := 0; sl_ignored_invitation_score := 7;
  sl_identity_root := "0xAA"; sl_formula_version := 2 |}.

Definition sample_leaves : list SnapshotLeaf :=
  [sample_leaf "0xB1B1B1B1B1B1B1B1B1B1B1B1B1B1B1B1B1B1B1B1" Human 5;
   sample_leaf "0xa1a1a1a1a1a1a1a1a1a1a1a1a1a1a1a1a1a1a1a1" Newbie 9].

Definition sample_snapshot : Snapshot string :=
  @snapshot_build hashing_c string "2026-01-01" 100 "0xcc" "0xaa" FORMULA_VERSION sample_leaves.

Lemma built_snapshot_verifies_witness : @verify_score_root hashing_c string sample_snapshot = Ok tt.
Proof.
  apply (@built_snapshot_verifies hashing_c string).
  - repeat constructor.
  - apply (bool_decide_unpack _). vm_compute. exact I.
Defined.

(** The same snapshot as a peer may send it: leaves unsorted and in mixed case. *)
Definition sample_snapshot_raw : Snapshot string := {|
  sn_snapshot_day := "2026-01-01"; sn_idena_height := 100; sn_idena_block_hash := "0xcc";
  sn_identity_root := "0xAA"; sn_score_root := sn_score_root sample_snapshot;
  sn_formula_version := FORMULA_VERSION; sn_leaves := sample_leaves |}.

Lemma score_root_binds_witness :
  canonical_leaves (sn_leaves sample_snapshot) = canonical_leaves (sn_leaves sample_snapshot_raw) \/
  @collision_among hashing_c (@merkle_inputs hashing_c _ _ (canonical_leaves (sn_leaves sample_snapshot)) ++
                              @merkle_inputs hashing_c _ _ (canonical_leaves (sn_leaves sample_snapshot_raw))).
Proof.
  apply (@score_root_binds hashing_c hash_laws_c hex_laws_c string sample_snapshot sample_snapshot_raw);
    [vm_compute; reflexivity|vm_compute; reflexivity|reflexivity].
Defined.
