(* ===== verification/Withdrawal.v ===== *)
(** * Withdrawal requests and batches ([crates/pohw-core/src/withdrawal.rs])

    Claim owners sign withdrawal requests; [build_withdrawal_batch] turns the
    valid ones into the outputs of one Bitcoin transaction and divides the
    transaction fee among them.  The theorems show how a batch accounts for
    every satoshi, that it does not depend on the order in which requests
    arrive, and when requests are accepted. *)
From S2P Require Import Prelude Order Text Crates Concrete.
From Stdlib Require Import Strings.Ascii Strings.Byte.

Local Open Scope N_scope.

Definition MIN_WITHDRAWAL_REQUEST_SATS : N := 10000.
Definition P2WPKH_DUST_SATS : N := 546.
Definition P2TR_DUST_SATS : N := 330.
Definition MAX_WITHDRAWAL_REQUEST_ID_LEN : nat := 64.
Definition SCHNORR_SIGNATURE_HEX_LEN : nat := 128.
Definition P2WPKH_SCRIPT_HEX_LEN : nat := 44.
Definition P2TR_SCRIPT_HEX_LEN : nat := 68.

(** ** Data *)

Inductive WithdrawalOutputKind := P2wpkh | P2tr.

Global Instance WithdrawalOutputKind_eq_dec : EqDecision WithdrawalOutputKind.
Proof. solve_decision. Defined.
Global Instance WithdrawalOutputKind_serialize : Serialize WithdrawalOutputKind := fun k =>
  JStr match k with P2wpkh => "P2wpkh" | P2tr => "P2tr" end.

Record WithdrawalRequest := {
  wr_request_id : string;
  wr_claim_owner_id : string;
  wr_claim_owner_pubkey_hex : string;
  wr_destination_script_hex : string;
  wr_amount_sats : N;
  wr_max_fee_rate_sat_vb : N;
  wr_nonce : N;
  wr_expiry_height : N;
  wr_signature_hex : option string;
  wr_output_kind : WithdrawalOutputKind
}.

Global Instance WithdrawalRequest_eq_dec : EqDecision WithdrawalRequest.
Proof. solve_decision. Defined.

Global Instance WithdrawalRequest_serialize : Serialize WithdrawalRequest := fun r =>
  JObj (field "request_id" (wr_request_id r) ++
        field "claim_owner_id" (wr_claim_owner_id r) ++
        field "claim_owner_pubkey_hex" (wr_claim_owner_pubkey_hex r) ++
        field "destination_script_hex" (wr_destination_script_hex r) ++
        field "amount_sats" (wr_amount_sats r) ++
        field "max_fee_rate_sat_vb" (wr_max_fee_rate_sat_vb r) ++
        field "nonce" (wr_nonce r) ++
        field "expiry_height" (wr_expiry_height r) ++
        field "signature_hex" (wr_signature_hex r) ++
        field "output_kind" (wr_output_kind r)).

Record WithdrawalOutput := {
  wo_request_id : string;
  wo_destination_script_hex : string;
  wo_output_kind : WithdrawalOutputKind;
  wo_gross_amount_sats : N;
  wo_fee_sats : N;
  wo_net_amount_sats : N
}.

Global Instance WithdrawalOutput_eq_dec : EqDecision WithdrawalOutput.
Proof. solve_decision. Defined.

Global Instance WithdrawalOutput_serialize : Serialize WithdrawalOutput := fun o =>
  JObj (field "request_id" (wo_request_id o) ++
        field "destination_script_hex" (wo_destination_script_hex o) ++
        field "output_kind" (wo_output_kind o) ++
        field "gross_amount_sats" (wo_gross_amount_sats o) ++
        field "fee_sats" (wo_fee_sats o) ++
        field "net_amount_sats" (wo_net_amount_sats o)).

Record WithdrawalBatch := {
  wb_inputs : N;
  wb_fee_rate_sat_vb : N;
  wb_estimated_vsize : N;
  wb_total_fee_sats : N;
  wb_outputs : list WithdrawalOutput
}.

Global Instance WithdrawalBatch_eq_dec : EqDecision WithdrawalBatch.
Proof. solve_decision. Defined.

Global Instance WithdrawalBatch_serialize : Serialize WithdrawalBatch := fun b =>
  JObj (field "inputs" (wb_inputs b) ++
        field "fee_rate_sat_vb" (wb_fee_rate_sat_vb b) ++
        field "estimated_vsize" (wb_estimated_vsize b) ++
        field "total_fee_sats" (wb_total_fee_sats b) ++
        field "outputs" (wb_outputs b)).

Inductive WithdrawalError :=
| EmptyBatch
| InputCountZero
| DuplicateRequest (request_id : string)
| InvalidRequestId (request_id reason : string)
| Expired (request_id : string) (expiry_height current_height : N)
| AmountBelowMinimum (request_id : string) (amount_sats minimum_sats : N)
| DustOutput (request_id : string) (net_amount_sats : N) (output_kind : WithdrawalOutputKind)
| InvalidDestinationScript (request_id : string) (output_kind : WithdrawalOutputKind) (reason : string)
| MissingSignature (request_id : string)
| InvalidOwnerPubkey (request_id reason : string)
| OwnerIdPubkeyMismatch (request_id : string)
| InvalidSignature (request_id reason : string)
| FeeRateTooHigh (request_id : string) (fee_rate_sat_vb max_fee_rate_sat_vb : N)
| FeeExceedsAmount (request_id : string) (amount_sats fee_sats : N)
| VsizeOverflow
| FeeOverflow.

Record WithdrawalSigningPayload := {
  wsp_request_id : string;
  wsp_claim_owner_id : string;
  wsp_claim_owner_pubkey_hex : string;
  wsp_destination_script_hex : string;
  wsp_amount_sats : N;
  wsp_max_fee_rate_sat_vb : N;
  wsp_nonce : N;
  wsp_expiry_height : N;
  wsp_output_kind : WithdrawalOutputKind
}.

Global Instance WithdrawalSigningPayload_serialize : Serialize WithdrawalSigningPayload := fun p =>
  JObj (field "request_id" (wsp_request_id p) ++
        field "claim_owner_id" (wsp_claim_owner_id p) ++
        field "claim_owner_pubkey_hex" (wsp_claim_owner_pubkey_hex p) ++
        field "destination_script_hex" (wsp_destination_script_hex p) ++
        field "amount_sats" (wsp_amount_sats p) ++
        field "max_fee_rate_sat_vb" (wsp_max_fee_rate_sat_vb p) ++
        field "nonce" (wsp_nonce p) ++
        field "expiry_height" (wsp_expiry_height p) ++
        field "output_kind" (wsp_output_kind p)).

(** ** Helpers *)

Definition validate_hex_exact {E} (value : string) (expected_len : nat) (error : E) : result E unit :=
  if negb (Nat.eqb (String.length value) expected_len) || negb (all_bytes is_ascii_hexdigit value)
  then Err error
  else Ok tt.

Definition dust_threshold (k : WithdrawalOutputKind) : N :=
  match k with P2wpkh => P2WPKH_DUST_SATS | P2tr => P2TR_DUST_SATS end.

Definition request_id_char (c : ascii) : bool :=
  is_ascii_alphanumeric c || Ascii.eqb c "-" || Ascii.eqb c "_" || Ascii.eqb c ".".

Definition validate_request_id (request_id : string) : result WithdrawalError unit :=
  if is_empty request_id || Nat.ltb MAX_WITHDRAWAL_REQUEST_ID_LEN (String.length request_id)
  then Err (InvalidRequestId request_id "must be 1-64 characters")
  else if negb (all_bytes request_id_char request_id)
  then Err (InvalidRequestId request_id
              "must contain only ASCII letters, digits, '-', '_' or '.'")
  else Ok tt.

(** [u64::try_from(usize)]. *)
Definition u64_try_from (n : N) : result WithdrawalError N :=
  if n <? 2 ^ 64 then Ok n else Err VsizeOverflow.

Definition estimate_batch_vsize (inputs p2wpkh_outputs p2tr_outputs : N) : result WithdrawalError N :=
  inputs ← u64_try_from inputs;
  p2wpkh_outputs ← u64_try_from p2wpkh_outputs;
  p2tr_outputs ← u64_try_from p2tr_outputs;
  input_weight ← ok_or VsizeOverflow (checked_mul 64 115 inputs);
  p2wpkh_weight ← ok_or VsizeOverflow (checked_mul 64 62 p2wpkh_outputs);
  p2tr_weight ← ok_or VsizeOverflow (checked_mul 64 86 p2tr_outputs);
  weight_x2 ← ok_or VsizeOverflow
    (weight ← checked_add 64 21 input_weight;
     weight ← checked_add 64 weight p2wpkh_weight;
     checked_add 64 weight p2tr_weight);
  Ok ((weight_x2 + 1) / 2).

Definition estimate_fee_sats (vsize fee_rate_sat_vb : N) : result WithdrawalError N :=
  ok_or FeeOverflow (checked_mul 64 vsize fee_rate_sat_vb).

(** ** Normalisation and hashes *)

Definition wr_normalized (r : WithdrawalRequest) : WithdrawalRequest := {|
  wr_request_id := wr_request_id r;
  wr_claim_owner_id := to_ascii_lowercase (wr_claim_owner_id r);
  wr_claim_owner_pubkey_hex := to_ascii_lowercase (wr_claim_owner_pubkey_hex r);
  wr_destination_script_hex := to_ascii_lowercase (wr_destination_script_hex r);
  wr_amount_sats := wr_amount_sats r;
  wr_max_fee_rate_sat_vb := wr_max_fee_rate_sat_vb r;
  wr_nonce := wr_nonce r;
  wr_expiry_height := wr_expiry_height r;
  wr_signature_hex := to_ascii_lowercase <$> wr_signature_hex r;
  wr_output_kind := wr_output_kind r |}.

Definition wo_normalized (o : WithdrawalOutput) : WithdrawalOutput := {|
  wo_request_id := wo_request_id o;
  wo_destination_script_hex := to_ascii_lowercase (wo_destination_script_hex o);
  wo_output_kind := wo_output_kind o;
  wo_gross_amount_sats := wo_gross_amount_sats o;
  wo_fee_sats := wo_fee_sats o;
  wo_net_amount_sats := wo_net_amount_sats o |}.

Definition compare_output_ids (left right : WithdrawalOutput) : comparison :=
  str_cmp (wo_request_id left) (wo_request_id right).

Definition wb_normalized (b : WithdrawalBatch) : WithdrawalBatch := {|
  wb_inputs := wb_inputs b;
  wb_fee_rate_sat_vb := wb_fee_rate_sat_vb b;
  wb_estimated_vsize := wb_estimated_vsize b;
  wb_total_fee_sats := wb_total_fee_sats b;
  wb_outputs := sort_by compare_output_ids (map wo_normalized (wb_outputs b)) |}.

Section withdrawal.
Context `{Hashing, Secp256k1, BitcoinCrate}.

Definition batch_hash (b : WithdrawalBatch) : string :=
  hash_hex (sha256_tagged (byte_str "POHW1_WITHDRAWAL_BATCH") (canonical_json (wb_normalized b))).

Definition signing_payload (r : WithdrawalRequest) : WithdrawalSigningPayload := {|
  wsp_request_id := wr_request_id r;
  wsp_claim_owner_id := to_ascii_lowercase (wr_claim_owner_id r);
  wsp_claim_owner_pubkey_hex := to_ascii_lowercase (wr_claim_owner_pubkey_hex r);
  wsp_destination_script_hex := to_ascii_lowercase (wr_destination_script_hex r);
  wsp_amount_sats := wr_amount_sats r;
  wsp_max_fee_rate_sat_vb := wr_max_fee_rate_sat_vb r;
  wsp_nonce := wr_nonce r;
  wsp_expiry_height := wr_expiry_height r;
  wsp_output_kind := wr_output_kind r |}.

Definition signing_hash (r : WithdrawalRequest) : bytes :=
  sha256_tagged (byte_str "POHW1_WITHDRAWAL_REQUEST") (canonical_json (signing_payload r)).

(** ** Validation *)

Definition validate_destination_script_policy (request_id destination_script_hex : string)
    (output_kind : WithdrawalOutputKind) (net_amount_sats : N) : result WithdrawalError unit :=
  _ ← validate_request_id request_id;
  if net_amount_sats <? dust_threshold output_kind
  then Err (DustOutput request_id net_amount_sats output_kind)
  else
    let expected_hex_len :=
      match output_kind with P2wpkh => P2WPKH_SCRIPT_HEX_LEN | P2tr => P2TR_SCRIPT_HEX_LEN end in
    _ ← validate_hex_exact destination_script_hex expected_hex_len
          (InvalidDestinationScript request_id output_kind
             ("script must be " +:+ pretty expected_hex_len +:+ " hex characters"));
    script_bytes ← map_err (InvalidDestinationScript request_id output_kind)
                     (hex_decode destination_script_hex);
    let matches_kind :=
      match output_kind with P2wpkh => is_p2wpkh script_bytes | P2tr => is_p2tr script_bytes end in
    if negb matches_kind
    then Err (InvalidDestinationScript request_id output_kind
                "script template does not match output kind")
    else Ok tt.

Definition validate_destination_script (r : WithdrawalRequest) (net_amount_sats : N)
    : result WithdrawalError unit :=
  validate_destination_script_policy (wr_request_id r) (wr_destination_script_hex r)
    (wr_output_kind r) net_amount_sats.

Definition verify_owner_signature (r : WithdrawalRequest) : result WithdrawalError unit :=
  signature_hex ← ok_or (MissingSignature (wr_request_id r)) (wr_signature_hex r);
  _ ← validate_hex_exact signature_hex SCHNORR_SIGNATURE_HEX_LEN
        (InvalidSignature (wr_request_id r) "signature must be 128 hex characters");
  owner_pubkey ← map_err (InvalidOwnerPubkey (wr_request_id r))
                   (xonly_from_str (wr_claim_owner_pubkey_hex r));
  signature_bytes ← map_err (InvalidSignature (wr_request_id r)) (hex_decode signature_hex);
  signature ← map_err (InvalidSignature (wr_request_id r)) (schnorr_from_slice signature_bytes);
  map_err (InvalidSignature (wr_request_id r))
    (verify_schnorr signature (signing_hash r) owner_pubkey).

Definition wr_validate (self : WithdrawalRequest) (current_height : N) : result WithdrawalError unit :=
  let request := wr_normalized self in
  _ ← validate_request_id (wr_request_id request);
  if wr_expiry_height request <? current_height
  then Err (Expired (wr_request_id request) (wr_expiry_height request) current_height)
  else if wr_amount_sats request <? MIN_WITHDRAWAL_REQUEST_SATS
  then Err (AmountBelowMinimum (wr_request_id request) (wr_amount_sats request)
              MIN_WITHDRAWAL_REQUEST_SATS)
  else if negb (String.eqb (wr_claim_owner_id request) (wr_claim_owner_pubkey_hex request))
  then Err (OwnerIdPubkeyMismatch (wr_request_id request))
  else
    _ ← validate_destination_script request (wr_amount_sats request);
    verify_owner_signature request.

(** ** Batches *)

Definition compare_request_ids (a b : WithdrawalRequest) : comparison :=
  str_cmp (wr_request_id a) (wr_request_id b).

(** The [windows(2)] loop. *)
Fixpoint check_duplicates (requests : list WithdrawalRequest) : result WithdrawalError unit :=
  match requests with
  | a :: (b :: _) as rest =>
      if String.eqb (wr_request_id a) (wr_request_id b)
      then Err (DuplicateRequest (wr_request_id a))
      else check_duplicates rest
  | _ => Ok tt
  end.

Definition check_request (current_height fee_rate_sat_vb : N) (request : WithdrawalRequest)
    : result WithdrawalError unit :=
  _ ← wr_validate request current_height;
  if wr_max_fee_rate_sat_vb request <? fee_rate_sat_vb
  then Err (FeeRateTooHigh (wr_request_id request) fee_rate_sat_vb (wr_max_fee_rate_sat_vb request))
  else Ok tt.

(** The loop that assigns fees; [remainder] is its mutable variable.  The
    increment cannot overflow: see [fee_increment_fits]. *)
Fixpoint assign_fees (base_fee remainder : N) (requests : list WithdrawalRequest)
    : result WithdrawalError (list WithdrawalOutput) :=
  match requests with
  | [] => Ok []
  | request :: rest =>
      let '(fee_sats, remainder) :=
        if 0 <? remainder then (base_fee + 1, remainder - 1) else (base_fee, remainder) in
      if wr_amount_sats request <=? fee_sats
      then Err (FeeExceedsAmount (wr_request_id request) (wr_amount_sats request) fee_sats)
      else
        _ ← validate_destination_script request (wr_amount_sats request - fee_sats);
        outputs ← assign_fees base_fee remainder rest;
        Ok ({| wo_request_id := wr_request_id request;
               wo_destination_script_hex := wr_destination_script_hex request;
               wo_output_kind := wr_output_kind request;
               wo_gross_amount_sats := wr_amount_sats request;
               wo_fee_sats := fee_sats;
               wo_net_amount_sats := wr_amount_sats request - fee_sats |} :: outputs)
  end.

Definition is_p2wpkh_request (r : WithdrawalRequest) : bool :=
  bool_decide (wr_output_kind r = P2wpkh).

Definition build_withdrawal_batch (requests : list WithdrawalRequest)
    (inputs fee_rate_sat_vb current_height : N) : result WithdrawalError WithdrawalBatch :=
  if (match requests with [] => true | _ => false end) then Err EmptyBatch
  else if inputs =? 0 then Err InputCountZero
  else
    let requests := sort_by compare_request_ids (map wr_normalized requests) in
    _ ← check_duplicates requests;
    _ ← try_for_each (check_request current_height fee_rate_sat_vb) requests;
    let p2wpkh_outputs := N.of_nat (length (List.filter is_p2wpkh_request requests)) in
    let p2tr_outputs := N.of_nat (length requests) - p2wpkh_outputs in
    estimated_vsize ← estimate_batch_vsize inputs p2wpkh_outputs p2tr_outputs;
    total_fee_sats ← estimate_fee_sats estimated_vsize fee_rate_sat_vb;
    let base_fee := total_fee_sats / N.of_nat (length requests) in
    let remainder := total_fee_sats mod N.of_nat (length requests) in
    outputs ← assign_fees base_fee remainder requests;
    Ok {| wb_inputs := inputs;
          wb_fee_rate_sat_vb := fee_rate_sat_vb;
          wb_estimated_vsize := estimated_vsize;
          wb_total_fee_sats := total_fee_sats;
          wb_outputs := outputs |}.
End withdrawal.

(** ** Normalisation *)

Lemma wr_normalized_idemp r : wr_normalized (wr_normalized r) = wr_normalized r.
Proof.
  destruct r as [? ? ? ? ? ? ? ? sig ?]. unfold wr_normalized. simpl. rewrite !lower_idemp.
  destruct sig; simpl; by rewrite ?lower_idemp.
Qed.

Lemma wr_normalized_id r : wr_request_id (wr_normalized r) = wr_request_id r.
Proof. done. Qed.

Lemma wb_normalized_idemp b : wb_normalized (wb_normalized b) = wb_normalized b.
Proof.
  unfold wb_normalized. simpl. f_equal.
  assert (forall o, wo_normalized (wo_normalized o) = wo_normalized o) as Hn
    by (intros []; unfold wo_normalized; simpl; by rewrite lower_idemp).
  assert (forall l, sort_by compare_output_ids (map wo_normalized l) =
                    map wo_normalized (sort_by compare_output_ids l)) as Hm
    by (intros l; by apply sort_by_map).
  rewrite !Hm.
  rewrite map_map, (map_ext _ _ Hn). f_equal. apply sort_by_idemp. apply cmp_on_order, _.
Qed.

Section withdrawal_theorems.
Context `{Hashing, Secp256k1, BitcoinCrate}.

(** Normalising a request keeps what its owner signed. *)
Lemma signing_hash_normalized r : signing_hash (wr_normalized r) = signing_hash r.
Proof.
  unfold signing_hash, signing_payload, wr_normalized.
  cbn [wr_request_id wr_claim_owner_id wr_claim_owner_pubkey_hex wr_destination_script_hex
       wr_amount_sats wr_max_fee_rate_sat_vb wr_nonce wr_expiry_height wr_output_kind].
  by rewrite !lower_idemp.
Qed.

(** [batch_hash] does not see letter case or the order of outputs that a
    normalisation already removed. *)
Lemma batch_hash_normalized b : batch_hash (wb_normalized b) = batch_hash b.
Proof. unfold batch_hash. by rewrite wb_normalized_idemp. Qed.

(** ** What validation establishes *)

Lemma validate_hex_exact_Ok {E} value n (e : E) :
  validate_hex_exact value n e = Ok tt <->
  String.length value = n /\ all_bytes is_ascii_hexdigit value = true.
Proof.
  unfold validate_hex_exact. destruct (Nat.eqb_spec (String.length value) n); simpl; [|naive_solver].
  destruct (all_bytes _ value); simpl; naive_solver.
Qed.

Lemma script_policy_Ok id script kind net :
  validate_destination_script_policy id script kind net = Ok tt ->
  dust_threshold kind <= net /\
  exists b, hex_decode script = Ok b /\
    match kind with P2wpkh => is_p2wpkh b | P2tr => is_p2tr b end = true.
Proof.
  unfold validate_destination_script_policy. intros Hv. res_inv. bool_inv. eauto.
Qed.

(** The owner's authorisation of a request: a Schnorr signature by the key that
    names the claim, over every field that decides where the money goes. *)
Definition authorized (r : WithdrawalRequest) : Prop :=
  to_ascii_lowercase (wr_claim_owner_id r) = to_ascii_lowercase (wr_claim_owner_pubkey_hex r) /\
  exists pk sig_hex sig_bytes sig,
    wr_signature_hex r = Some sig_hex /\
    xonly_from_str (to_ascii_lowercase (wr_claim_owner_pubkey_hex r)) = Ok pk /\
    hex_decode (to_ascii_lowercase sig_hex) = Ok sig_bytes /\
    schnorr_from_slice sig_bytes = Ok sig /\
    verify_schnorr sig (signing_hash r) pk = Ok tt.

Lemma wr_validate_Ok r height :
  wr_validate r height = Ok tt ->
  height <= wr_expiry_height r /\ MIN_WITHDRAWAL_REQUEST_SATS <= wr_amount_sats r /\ authorized r.
Proof.
  intros Hv. unfold wr_validate in Hv. res_inv. bool_inv.
  split_and!; [done..|]. split; [done|].
  unfold verify_owner_signature in Hv. res_inv. rewrite signing_hash_normalized in Hv.
  cbn [wr_signature_hex wr_normalized] in *.
  match goal with HH : to_ascii_lowercase <$> wr_signature_hex r = Some _ |- _ =>
    destruct (wr_signature_hex r) as [sig_hex|] eqn:Hsig; [injection HH as <-|discriminate] end.
  eauto 12.
Qed.

Lemma wr_validate_normalized r height : wr_validate (wr_normalized r) height = wr_validate r height.
Proof. unfold wr_validate. by rewrite wr_normalized_idemp. Qed.

(** ** Fees *)

Lemma assign_fees_Ok base rem requests outputs :
  assign_fees base rem requests = Ok outputs ->
  Forall2 (fun r o =>
    wo_request_id o = wr_request_id r /\ wo_destination_script_hex o = wr_destination_script_hex r /\
    wo_output_kind o = wr_output_kind r /\ wo_gross_amount_sats o = wr_amount_sats r /\
    base <= wo_fee_sats o <= base + 1 /\
    wo_net_amount_sats o + wo_fee_sats o = wo_gross_amount_sats o /\
    dust_threshold (wo_output_kind o) <= wo_net_amount_sats o) requests outputs.
Proof.
  revert rem outputs. induction requests as [|r requests IH]; intros rem outputs Ha; simpl in Ha.
  { injection Ha as <-. constructor. }
  destruct (N.ltb_spec 0 rem) as [Hr|Hr]; res_inv; bool_inv; subst;
    (constructor; [|by eapply IH]);
    cbn [wo_request_id wo_destination_script_hex wo_output_kind wo_gross_amount_sats wo_fee_sats
         wo_net_amount_sats];
    match goal with HH : validate_destination_script _ _ = Ok _ |- _ =>
      apply script_policy_Ok in HH as [Hdust _] end;
    split_and!; try done; lia.
Qed.

Lemma assign_fees_sum base rem requests outputs :
  rem <= N.of_nat (length requests) -> assign_fees base rem requests = Ok outputs ->
  sum_N (map wo_fee_sats outputs) = base * N.of_nat (length requests) + rem.
Proof.
  revert rem outputs. induction requests as [|r requests IH]; intros rem outputs Hle Ha; simpl in Ha.
  { injection Ha as <-. simpl in *. lia. }
  destruct (N.ltb_spec 0 rem) as [Hr|Hr]; res_inv; subst; simpl;
    match goal with HH : assign_fees _ _ _ = Ok _ |- _ => apply IH in HH end; simpl in *; lia.
Qed.

(** The increment in the fee loop stays in [u64]. *)
Lemma fee_increment_fits total n :
  fits sats_bits total -> 0 < n -> 0 < total mod n -> fits sats_bits (total / n + 1).
Proof.
  intros Hfit Hn Hr. eapply fits_mono; [|exact Hfit].
  pose proof (N.Div0.div_mod total n) as Hdm. pose proof (N.mod_lt total n ltac:(lia)).
  assert (1 < n) by (destruct (decide (n = 1)) as [->|]; [rewrite N.mod_1_r in Hr|]; lia). nia.
Qed.

Lemma build_batch_inv requests inputs rate height b :
  build_withdrawal_batch requests inputs rate height = Ok b ->
  let rs := sort_by compare_request_ids (map wr_normalized requests) in
  requests <> [] /\ inputs <> 0 /\ check_duplicates rs = Ok tt /\
  Forall (fun r => check_request height rate r = Ok tt) rs /\
  wb_total_fee_sats b = wb_estimated_vsize b * rate /\ fits sats_bits (wb_total_fee_sats b) /\
  assign_fees (wb_total_fee_sats b / N.of_nat (length rs))
              (wb_total_fee_sats b mod N.of_nat (length rs)) rs = Ok (wb_outputs b).
Proof.
  unfold build_withdrawal_batch. intros Hb. destruct requests as [|r requests]; [discriminate|].
  res_inv. bool_inv. subst. cbn [wb_total_fee_sats wb_estimated_vsize wb_outputs].
  match goal with HH : try_for_each _ _ = Ok _ |- _ => apply try_for_each_Ok in HH end.
  match goal with HH : estimate_fee_sats _ _ = Ok _ |- _ =>
    apply ok_or_Ok, checked_mul_Some in HH as [-> Hfit] end.
  by split_and!.
Qed.
End withdrawal_theorems.

(** ** Duplicates and order *)

Global Instance compare_request_ids_order : CmpOrder compare_request_ids.
Proof. apply cmp_on_order, _. Qed.

Lemma check_duplicates_cons a b rs :
  check_duplicates (a :: b :: rs) =
  if String.eqb (wr_request_id a) (wr_request_id b) then Err (DuplicateRequest (wr_request_id a))
  else check_duplicates (b :: rs).
Proof. done. Qed.

(** [check_duplicates] only looks at the ids. *)
Lemma check_duplicates_ids rs1 rs2 :
  map wr_request_id rs1 = map wr_request_id rs2 -> check_duplicates rs1 = check_duplicates rs2.
Proof.
  revert rs2. induction rs1 as [|a [|b rs1] IH]; intros [|c [|d rs2]] Heq; try discriminate; try done.
  injection Heq as Hac Hbd Heq. rewrite !check_duplicates_cons, Hac, Hbd.
  destruct (String.eqb _ _); [done|]. apply IH. simpl. by rewrite Hbd, Heq.
Qed.

Lemma check_duplicates_sorted rs :
  StronglySorted (cmp_le compare_request_ids) rs ->
  check_duplicates rs = Ok tt <-> NoDup (map wr_request_id rs).
Proof.
  induction 1 as [|a rs Hs IH Hle]; [by split; [constructor|]|].
  destruct rs as [|b rs]; [split; [intros _; apply NoDup_singleton|done]|].
  rewrite check_duplicates_cons. cbn [map]. rewrite NoDup_cons.
  destruct (String.eqb_spec (wr_request_id a) (wr_request_id b)) as [Heq|Hne].
  { split; [done|]. intros [Hni _]. exfalso. apply Hni. rewrite Heq. left. }
  rewrite IH. split; [|naive_solver]. intros Hnd. split; [|done].
  intros [|Hin]%elem_of_cons; [done|]. apply list_elem_of_fmap in Hin as (c & Hac & Hc).
  inversion Hs as [|?? _ Hbs]; subst. rewrite Forall_forall in Hbs, Hle.
  apply Hne, str_cmp_Eq. apply (cmp_le_antisym str_cmp).
  - apply (Hle b). left.
  - rewrite Hac. by apply (Hbs c).
Qed.

Lemma sorted_request_ids requests :
  map wr_request_id (sort_by compare_request_ids (map wr_normalized requests)) =
  sort_by str_cmp (map wr_request_id requests).
Proof.
  rewrite <-(sort_by_map wr_request_id compare_request_ids str_cmp) by done.
  by rewrite map_map.
Qed.

Lemma sorted_requests_perm rs1 rs2 :
  rs1 ≡ₚ rs2 -> NoDup (map wr_request_id rs1) ->
  sort_by compare_request_ids (map wr_normalized rs1) = sort_by compare_request_ids (map wr_normalized rs2).
Proof.
  intros Hp Hnd. apply sort_by_unique; [apply _| |by apply Permutation_map].
  intros x y Hx Hy Heq%str_cmp_Eq. eapply (NoDup_map_elem wr_request_id); [|done..].
  rewrite map_map. done.
Qed.

(** (order independence). The batch built from a set of requests, or the
    error, does not depend on the order in which the requests were received. *)
Theorem withdrawal_batch_order_independent `{Hashing, Secp256k1, BitcoinCrate}
    requests1 requests2 inputs rate height :
  requests1 ≡ₚ requests2 ->
  build_withdrawal_batch requests1 inputs rate height =
  build_withdrawal_batch requests2 inputs rate height.
Proof.
  intros Hp. unfold build_withdrawal_batch.
  destruct requests1 as [|r1 rs1] eqn:Hr1, requests2 as [|r2 rs2] eqn:Hr2; [done|..].
  { by apply Permutation_nil_cons in Hp. } { symmetry in Hp. by apply Permutation_nil_cons in Hp. }
  rewrite <-Hr1, <-Hr2 in *. destruct (inputs =? 0); [done|].
  destruct (decide (NoDup (map wr_request_id requests1))) as [Hnd|Hdup].
  { by rewrite (sorted_requests_perm _ _ Hp Hnd). }
  assert (forall rs, rs ≡ₚ requests1 ->
            check_duplicates (sort_by compare_request_ids (map wr_normalized rs)) =
            check_duplicates (sort_by compare_request_ids (map wr_normalized requests1))) as Hch.
  { intros rs Hrs. apply check_duplicates_ids. rewrite !sorted_request_ids.
    apply sort_by_unique; [apply _|by intros x y _ _ ?%str_cmp_Eq|by rewrite (Permutation_map _ Hrs)]. }
  rewrite (Hch requests2) by done.
  destruct (check_duplicates (sort_by compare_request_ids (map wr_normalized requests1))) as [[]|e] eqn:Hc;
    [|done].
  exfalso. apply Hdup. apply check_duplicates_sorted in Hc; [|apply sort_by_sorted, _].
  by rewrite sorted_request_ids, sort_by_perm in Hc.
Qed.

(** (accounting). A batch has one output per request.  Each output pays the
    requested amount minus its fee, which is at least the dust limit; fees differ
    by at most one satoshi, add up exactly to the estimated transaction fee and
    respect each owner's fee-rate cap. *)
Theorem withdrawal_batch_accounts `{Hashing, Secp256k1, BitcoinCrate} requests inputs rate height b :
  build_withdrawal_batch requests inputs rate height = Ok b ->
  sum_N (map wo_fee_sats (wb_outputs b)) = wb_total_fee_sats b /\
  wb_total_fee_sats b = wb_estimated_vsize b * rate /\
  map (fun o => (wo_request_id o, wo_gross_amount_sats o)) (wb_outputs b) ≡ₚ
    map (fun r => (wr_request_id r, wr_amount_sats r)) requests /\
  (forall o, o ∈ wb_outputs b ->
    wo_net_amount_sats o + wo_fee_sats o = wo_gross_amount_sats o /\
    dust_threshold (wo_output_kind o) <= wo_net_amount_sats o /\
    wb_total_fee_sats b / N.of_nat (length requests) <= wo_fee_sats o <=
      wb_total_fee_sats b / N.of_nat (length requests) + 1) /\
  (forall r, r ∈ requests -> rate <= wr_max_fee_rate_sat_vb r).
Proof.
  intros (Hne & _ & _ & Hall & Hfee & Hfit & Ha)%build_batch_inv.
  rewrite sort_by_length, length_map in Ha.
  assert (N.of_nat (length requests) <> 0) as Hlen by (destruct requests; [done|simpl; lia]).
  pose proof (assign_fees_Ok _ _ _ _ Ha) as Hf2.
  split_and!.
  - apply assign_fees_sum in Ha; rewrite sort_by_length, length_map in *.
    + rewrite Ha, N.mul_comm. symmetry. apply N.Div0.div_mod.
    + pose proof (N.mod_lt (wb_total_fee_sats b) _ Hlen). lia.
  - done.
  - transitivity (map (fun r => (wr_request_id r, wr_amount_sats r))
                    (sort_by compare_request_ids (map wr_normalized requests))).
    + apply reflexive_eq. clear -Hf2. induction Hf2 as [|r o rs os Hro _ IH]; [done|].
      simpl. rewrite IH. f_equal. naive_solver congruence.
    + rewrite sort_by_perm, map_map. done.
  - intros o Ho. apply list_elem_of_lookup in Ho as [i Hi].
    destruct (Forall2_lookup_r _ _ _ _ _ Hf2 Hi) as (r & _ & Hr). naive_solver.
  - intros r Hr. rewrite Forall_forall in Hall.
    assert (check_request height rate (wr_normalized r) = Ok tt) as Hc.
    { apply Hall. rewrite sort_by_elem. by apply list_elem_of_fmap_2. }
    unfold check_request in Hc. res_inv. bool_inv. done.
Qed.

(** (authorisation). Every output of a batch is backed by a request of its
    owner that is not expired and reaches the minimum amount, and the owner's key
    signed exactly this destination, amount and fee cap. *)
Theorem withdrawal_outputs_authorized `{Hashing, Secp256k1, BitcoinCrate} requests inputs rate height b o :
  build_withdrawal_batch requests inputs rate height = Ok b -> o ∈ wb_outputs b ->
  exists r, r ∈ requests /\ authorized r /\
    height <= wr_expiry_height r /\ MIN_WITHDRAWAL_REQUEST_SATS <= wr_amount_sats r /\
    wo_request_id o = wr_request_id r /\ wo_gross_amount_sats o = wr_amount_sats r /\
    wo_destination_script_hex o = to_ascii_lowercase (wr_destination_script_hex r) /\
    wo_output_kind o = wr_output_kind r.
Proof.
  intros (_ & _ & _ & Hall & _ & _ & Ha)%build_batch_inv Ho.
  apply list_elem_of_lookup in Ho as [i Hi].
  destruct (Forall2_lookup_r _ _ _ _ _ (assign_fees_Ok _ _ _ _ Ha) Hi) as (rn & Hrn & Hro).
  apply list_elem_of_lookup_2 in Hrn. rewrite Forall_forall in Hall. specialize (Hall _ Hrn).
  rewrite sort_by_elem in Hrn. apply list_elem_of_fmap in Hrn as (r & -> & Hr).
  unfold check_request in Hall. res_inv.
  match goal with HH : wr_validate _ _ = Ok _ |- _ =>
    rewrite wr_validate_normalized in HH; apply wr_validate_Ok in HH as (Hh & Hm & Hau) end.
  exists r. destruct Hro as (? & ? & ? & ? & _). by split_and!.
Qed.

(** ** A concrete batch *)

Definition unsigned_request (id owner : string) (amount nonce : N) : WithdrawalRequest := {|
  wr_request_id := id; wr_claim_owner_id := owner; wr_claim_owner_pubkey_hex := owner;
  wr_destination_script_hex := "0014" +:+ repeat_char "a" 40;
  wr_amount_sats := amount; wr_max_fee_rate_sat_vb := 10; wr_nonce := nonce;
  wr_expiry_height := 900; wr_signature_hex := None; wr_output_kind := P2wpkh |}.

(** A request signed with the concrete scheme of [secp_c]. *)
Definition sample_request (id owner : string) (amount nonce : N) : WithdrawalRequest :=
  let r := unsigned_request id owner amount nonce in
  {| wr_request_id := wr_request_id r; wr_claim_owner_id := wr_claim_owner_id r;
     wr_claim_owner_pubkey_hex := wr_claim_owner_pubkey_hex r;
     wr_destination_script_hex := wr_destination_script_hex r;
     wr_amount_sats := wr_amount_sats r; wr_max_fee_rate_sat_vb := wr_max_fee_rate_sat_vb r;
     wr_nonce := wr_nonce r; wr_expiry_height := wr_expiry_height r;
     wr_signature_hex := Some (@hex_encode hashing_c (@signing_hash hashing_c r) +:+ repeat_char "0" 64);
     wr_output_kind := wr_output_kind r |}.

Definition sample_requests : list WithdrawalRequest :=
  [sample_request "w-2" (repeat_char "B" 64) 20000 1; sample_request "w-1" (repeat_char "a" 64) 30000 1].

Definition sample_output (id : string) (gross fee : N) : WithdrawalOutput := {|
  wo_request_id := id; wo_destination_script_hex := "0014" +:+ repeat_char "a" 40;
  wo_output_kind := P2wpkh; wo_gross_amount_sats := gross; wo_fee_sats := fee;
  wo_net_amount_sats := gross - fee |}.

Definition sample_batch : WithdrawalBatch := {|
  wb_inputs := 1; wb_fee_rate_sat_vb := 3; wb_estimated_vsize := 130; wb_total_fee_sats := 390;
  wb_outputs := [sample_output "w-1" 30000 195; sample_output "w-2" 20000 195] |}.

Lemma sample_batch_run :
  @build_withdrawal_batch hashing_c secp_c bitcoin_c sample_requests 1 3 800 = Ok sample_batch.
Proof. vm_compute. reflexivity. Qed.

Lemma withdrawal_batch_order_independent_witness :
  @build_withdrawal_batch hashing_c secp_c bitcoin_c sample_requests 1 3 800 =
  @build_withdrawal_batch hashing_c secp_c bitcoin_c (rev sample_requests) 1 3 800.
Proof.
  exact (@withdrawal_batch_order_independent hashing_c secp_c bitcoin_c sample_requests
           (rev sample_requests) 1 3 800 (Permutation_rev sample_requests)).
Defined.

Lemma withdrawal_batch_accounts_witness :
  sum_N (map wo_fee_sats (wb_outputs sample_batch)) = wb_total_fee_sats sample_batch.
Proof.
  exact (proj1 (@withdrawal_batch_accounts hashing_c secp_c bitcoin_c sample_requests 1 3 800
                  sample_batch sample_batch_run)).
Defined.

Lemma withdrawal_outputs_authorized_witness : exists r,
  r ∈ sample_requests /\ @authorized hashing_c secp_c r.
Proof.
  destruct (@withdrawal_outputs_authorized hashing_c secp_c bitcoin_c sample_requests 1 3 800
              sample_batch (sample_output "w-1" 30000 195) sample_batch_run) as (r & Hr & Ha & _).
  - left.
  - exists r. split; [exact Hr|exact Ha].
Defined.
