(* ===== verification/DkgTransport.v ===== *)
(** * DKG transport ([crates/pohw-core/src/dkg_transport.rs])

    The messages of the distributed key generation: session identifiers, peer
    identities, signed envelopes, and the encryption of round-2 packages.  The
    random generator is threaded explicitly; [random_secret_key] retries until a
    draw is a valid scalar, so it takes a bound on the number of draws. *)
From S2P Require Import Prelude Order Text Crates Concrete.
From Stdlib Require Import Strings.Byte Strings.Ascii.

Local Open Scope N_scope.

(** ** Data *)

Definition MAX_DKG_SIGNER_ID_LEN : nat := 64.

Record DkgPeerIdentity := {
  dp_signer_id : string;
  dp_auth_pubkey_xonly_hex : string;
  dp_ecdh_pubkey_hex : string
}.

Global Instance DkgPeerIdentity_serialize : Serialize DkgPeerIdentity := fun p =>
  JObj (field "signer_id" (dp_signer_id p) ++
        field "auth_pubkey_xonly_hex" (dp_auth_pubkey_xonly_hex p) ++
        field "ecdh_pubkey_hex" (dp_ecdh_pubkey_hex p)).

Record DkgSessionId := {
  ds_epoch_id : N;
  ds_threshold : nat;
  ds_signer_ids : list string;
  ds_recovery_data_hash : option string
}.

Global Instance DkgSessionId_serialize : Serialize DkgSessionId := fun s =>
  JObj (field "epoch_id" (ds_epoch_id s) ++
        field "threshold" (ds_threshold s) ++
        field "signer_ids" (ds_signer_ids s) ++
        field_opt "recovery_data_hash" (ds_recovery_data_hash s)).

Record EncryptedDkgPayload := {
  ep_algorithm : string;
  ep_ephemeral_pubkey_hex : string;
  ep_nonce_hex : string;
  ep_ciphertext_hex : string
}.

Global Instance EncryptedDkgPayload_serialize : Serialize EncryptedDkgPayload := fun p =>
  JObj (field "algorithm" (ep_algorithm p) ++
        field "ephemeral_pubkey_hex" (ep_ephemeral_pubkey_hex p) ++
        field "nonce_hex" (ep_nonce_hex p) ++
        field "ciphertext_hex" (ep_ciphertext_hex p)).

Record DkgRound1BroadcastBody := {
  r1_frost_identifier_hex : string;
  r1_package_hash : string;
  r1_package_hex : string
}.

Global Instance DkgRound1BroadcastBody_serialize : Serialize DkgRound1BroadcastBody := fun b =>
  JObj (field "frost_identifier_hex" (r1_frost_identifier_hex b) ++
        field "package_hash" (r1_package_hash b) ++
        field "package_hex" (r1_package_hex b)).

Record DkgRound2DirectBody := {
  r2_receiver_signer_id : string;
  r2_receiver_identifier_hex : string;
  r2_package_hash : string;
  r2_encrypted_package : EncryptedDkgPayload
}.

Global Instance DkgRound2DirectBody_serialize : Serialize DkgRound2DirectBody := fun b =>
  JObj (field "receiver_signer_id" (r2_receiver_signer_id b) ++
        field "receiver_identifier_hex" (r2_receiver_identifier_hex b) ++
        field "package_hash" (r2_package_hash b) ++
        field "encrypted_package" (r2_encrypted_package b)).

Record DkgSignerAckBody := {
  sa_frost_identifier_hex : string;
  sa_public_key_package_hash : string
}.

Global Instance DkgSignerAckBody_serialize : Serialize DkgSignerAckBody := fun b =>
  JObj (field "frost_identifier_hex" (sa_frost_identifier_hex b) ++
        field "public_key_package_hash" (sa_public_key_package_hash b)).

Record DkgComplaintBody := {
  cb_accused_signer_id : string;
  cb_reason : string;
  cb_evidence_hash : string
}.

Global Instance DkgComplaintBody_serialize : Serialize DkgComplaintBody := fun b =>
  JObj (field "accused_signer_id" (cb_accused_signer_id b) ++
        field "reason" (cb_reason b) ++
        field "evidence_hash" (cb_evidence_hash b)).

Inductive DkgMessageBody :=
| Round1Broadcast (b : DkgRound1BroadcastBody)
| Round2Direct (b : DkgRound2DirectBody)
| SignerAck (b : DkgSignerAckBody)
| Complaint (b : DkgComplaintBody).

(** [serde(tag = "kind", content = "payload")]. *)
Definition tagged (kind : string) (payload : json) : json :=
  JObj [("kind"%string, JStr kind); ("payload"%string, payload)].

Global Instance DkgMessageBody_serialize : Serialize DkgMessageBody := fun b =>
  match b with
  | Round1Broadcast b => tagged "Round1Broadcast" (to_json b)
  | Round2Direct b => tagged "Round2Direct" (to_json b)
  | SignerAck b => tagged "SignerAck" (to_json b)
  | Complaint b => tagged "Complaint" (to_json b)
  end.

Record DkgMessageEnvelope := {
  de_session_id : string;
  de_epoch_id : N;
  de_sequence : N;
  de_sender : DkgPeerIdentity;
  de_receiver_signer_id : option string;
  de_body : DkgMessageBody;
  de_signature_hex : option string
}.

(** [DkgEnvelopeSigningPayload]: every field but the signature. *)
Record DkgEnvelopeSigningPayload := {
  dsp_session_id : string;
  dsp_epoch_id : N;
  dsp_sequence : N;
  dsp_sender : DkgPeerIdentity;
  dsp_receiver_signer_id : option string;
  dsp_body : DkgMessageBody
}.

Global Instance DkgEnvelopeSigningPayload_serialize : Serialize DkgEnvelopeSigningPayload := fun p =>
  JObj (field "session_id" (dsp_session_id p) ++
        field "epoch_id" (dsp_epoch_id p) ++
        field "sequence" (dsp_sequence p) ++
        field "sender" (dsp_sender p) ++
        field "receiver_signer_id" (dsp_receiver_signer_id p) ++
        field "body" (dsp_body p)).

Record Round2EncryptionAad := {
  ra_session_id : string;
  ra_epoch_id : N;
  ra_sender_signer_id : string;
  ra_receiver_signer_id : string;
  ra_package_hash : string
}.

Global Instance Round2EncryptionAad_serialize : Serialize Round2EncryptionAad := fun a =>
  JObj (field "session_id" (ra_session_id a) ++
        field "epoch_id" (ra_epoch_id a) ++
        field "sender_signer_id" (ra_sender_signer_id a) ++
        field "receiver_signer_id" (ra_receiver_signer_id a) ++
        field "package_hash" (ra_package_hash a)).

Inductive DkgTransportError :=
| DT_InvalidSignerId
| DT_DuplicateSignerId (signer_id : string)
| DT_EmptySignerSet
| DT_InvalidThreshold (threshold signer_count : nat)
| DT_InvalidAuthPubkey (reason : string)
| DT_InvalidEcdhPubkey (reason : string)
| DT_InvalidSecretKey (reason : string)
| DT_InvalidRecoveryDataHash (reason : string)
| DT_InvalidSignature (reason : string)
| DT_MissingSignature
| DT_SigningKeyMismatch
| DT_UnsupportedEncryptionAlgorithm (algorithm : string)
| DT_InvalidEncryptedPayload (reason : string)
| DT_EncryptionFailed
| DT_DecryptionFailed
| DT_PackageHashMismatch (expected_hash actual_hash : string).

Abbreviation checked_dkg := (result DkgTransportError).

(** ** Field normalisation *)

Definition normalize_hex (value : string) (expected_len_bytes : nat) : result string string :=
  let normalized := to_ascii_lowercase value in
  if Nat.eqb (String.length normalized) (expected_len_bytes * 2)
     && all_bytes is_ascii_hexdigit normalized
  then Ok normalized
  else Err value.

Definition signer_id_char (c : ascii) : bool :=
  is_ascii_alphanumeric c || Ascii.eqb c "-" || Ascii.eqb c "_".

Definition normalize_dkg_signer_id (value : string) : checked_dkg string :=
  let normalized := to_ascii_lowercase value in
  if is_empty normalized || Nat.ltb MAX_DKG_SIGNER_ID_LEN (String.length normalized)
     || negb (all_bytes signer_id_char normalized)
  then Err DT_InvalidSignerId
  else Ok normalized.

Definition normalize_dkg_session_signer_ids (signer_ids : list string) : checked_dkg (list string) :=
  match signer_ids with
  | [] => Err DT_EmptySignerSet
  | _ =>
      signer_ids ← try_map normalize_dkg_signer_id signer_ids;
      let signer_ids := sort_by str_cmp signer_ids in
      match adjacent_duplicate signer_ids with
      | Some d => Err (DT_DuplicateSignerId d)
      | None => Ok signer_ids
      end
  end.

(** ** Sessions *)

Definition ds_new_inner (epoch_id : N) (threshold : nat) (signer_ids : list string)
    (recovery_data_hash : option string) : checked_dkg DkgSessionId :=
  signer_ids ← normalize_dkg_session_signer_ids signer_ids;
  if Nat.eqb threshold 0 || Nat.ltb (length signer_ids) threshold
  then Err (DT_InvalidThreshold threshold (length signer_ids))
  else Ok {| ds_epoch_id := epoch_id; ds_threshold := threshold; ds_signer_ids := signer_ids;
             ds_recovery_data_hash := recovery_data_hash |}.

Definition ds_new (epoch_id : N) (threshold : nat) (signer_ids : list string)
    : checked_dkg DkgSessionId :=
  ds_new_inner epoch_id threshold signer_ids None.

Definition ds_new_with_recovery_data_hash (epoch_id : N) (threshold : nat) (signer_ids : list string)
    (recovery_data_hash : string) : checked_dkg DkgSessionId :=
  recovery_data_hash ← map_err DT_InvalidRecoveryDataHash (normalize_hex recovery_data_hash 32);
  ds_new_inner epoch_id threshold signer_ids (Some recovery_data_hash).

Definition session_id `{Hashing} (s : DkgSessionId) : string :=
  hash_hex (sha256_tagged (byte_str "POHW1_DKG_SESSION") (canonical_json s)).

(** ** Peers and envelopes *)

Section messages.
Context `{Hashing, Secp256k1, !KeyExchange}.

Definition normalize_compressed_pubkey_hex (value : string) : checked_dkg string :=
  pubkey ← map_err DT_InvalidEcdhPubkey (public_from_str (to_ascii_lowercase value));
  if negb (Nat.eqb (length (public_serialize pubkey)) 33)
  then Err (DT_InvalidEcdhPubkey "expected compressed secp256k1 pubkey")
  else Ok (public_to_string pubkey).

Definition dp_normalized (p : DkgPeerIdentity) : checked_dkg DkgPeerIdentity :=
  signer_id ← normalize_dkg_signer_id (dp_signer_id p);
  auth ← map_err DT_InvalidAuthPubkey (normalize_hex (dp_auth_pubkey_xonly_hex p) 32);
  ecdh ← normalize_compressed_pubkey_hex (dp_ecdh_pubkey_hex p);
  Ok {| dp_signer_id := signer_id; dp_auth_pubkey_xonly_hex := auth; dp_ecdh_pubkey_hex := ecdh |}.

Definition de_unsigned (session_id : string) (epoch_id sequence : N) (sender : DkgPeerIdentity)
    (receiver_signer_id : option string) (body : DkgMessageBody) : checked_dkg DkgMessageEnvelope :=
  session_id ← map_err DT_InvalidEncryptedPayload (normalize_hex session_id 32);
  sender ← dp_normalized sender;
  receiver ← match receiver_signer_id with
             | Some id => Some <$> normalize_dkg_signer_id id
             | None => Ok None
             end;
  Ok {| de_session_id := session_id; de_epoch_id := epoch_id; de_sequence := sequence;
        de_sender := sender; de_receiver_signer_id := receiver; de_body := body;
        de_signature_hex := None |}.

Definition envelope_payload (e : DkgMessageEnvelope) : DkgEnvelopeSigningPayload := {|
  dsp_session_id := de_session_id e;
  dsp_epoch_id := de_epoch_id e;
  dsp_sequence := de_sequence e;
  dsp_sender := de_sender e;
  dsp_receiver_signer_id := de_receiver_signer_id e;
  dsp_body := de_body e |}.

Definition de_signing_hash (e : DkgMessageEnvelope) : bytes :=
  sha256_tagged (byte_str "POHW1_DKG_MESSAGE") (canonical_json (envelope_payload e)).

Definition de_with_signature (sig : string) (e : DkgMessageEnvelope) : DkgMessageEnvelope := {|
  de_session_id := de_session_id e; de_epoch_id := de_epoch_id e; de_sequence := de_sequence e;
  de_sender := de_sender e; de_receiver_signer_id := de_receiver_signer_id e;
  de_body := de_body e; de_signature_hex := Some sig |}.

Definition de_sign (keypair : Keypair) : M DkgMessageEnvelope DkgTransportError unit :=
  self ← gets id;
  let auth_pubkey := xonly_to_string (keypair_xonly keypair) in
  if negb (String.eqb auth_pubkey (dp_auth_pubkey_xonly_hex (de_sender self)))
  then throw DT_SigningKeyMismatch
  else
    let signature := sign_schnorr (de_signing_hash self) keypair in
    modify (de_with_signature (hex_encode (schnorr_serialize signature))).

Definition de_verify_signature (e : DkgMessageEnvelope) : checked_dkg unit :=
  signature_hex ← ok_or DT_MissingSignature (de_signature_hex e);
  pubkey ← map_err DT_InvalidAuthPubkey (xonly_from_str (dp_auth_pubkey_xonly_hex (de_sender e)));
  signature_bytes ← map_err DT_InvalidSignature (hex_decode (to_ascii_lowercase signature_hex));
  signature ← map_err DT_InvalidSignature (schnorr_from_slice signature_bytes);
  map_err DT_InvalidSignature (verify_schnorr signature (de_signing_hash e) pubkey).

(** ** Round-2 encryption *)

Definition dkg_package_hash (b : bytes) : string :=
  hash_hex (sha256_tagged (byte_str "POHW1_FROST_DKG_PACKAGE") b).

Definition round2_aad (a : Round2EncryptionAad) : bytes := canonical_json a.

Definition derive_round2_key (a : Round2EncryptionAad) (shared_secret : bytes) : bytes :=
  sha256_tagged (byte_str "POHW1_DKG_ROUND2_AEAD_KEY") (shared_secret ++ canonical_json a).

(** [None]: none of the first [draws] draws is a valid scalar. *)
Fixpoint random_secret_key (draws : nat) (rng : Rng) : option (SecretKey * Rng) :=
  match draws with
  | O => None
  | S draws' =>
      let '(b, rng) := fill_bytes 32 rng in
      match secret_from_slice b with
      | Some secret_key => Some (secret_key, rng)
      | None => random_secret_key draws' rng
      end
  end.

Definition ROUND2_ALGORITHM : string := "secp256k1-ecdh+chacha20poly1305".

(** The part of [encrypt_round2_package] before the generator is used. *)
Definition prepare_round2 (session_id : string) (epoch_id : N) (sender receiver : DkgPeerIdentity)
    (package_hash : string) : checked_dkg (Round2EncryptionAad * PublicKey) :=
  sender ← dp_normalized sender;
  receiver ← dp_normalized receiver;
  session_id ← map_err DT_InvalidEncryptedPayload (normalize_hex session_id 32);
  package_hash ← map_err DT_InvalidEncryptedPayload (normalize_hex package_hash 32);
  receiver_pubkey ← map_err DT_InvalidEcdhPubkey (public_from_str (dp_ecdh_pubkey_hex receiver));
  Ok ({| ra_session_id := session_id; ra_epoch_id := epoch_id;
         ra_sender_signer_id := dp_signer_id sender; ra_receiver_signer_id := dp_signer_id receiver;
         ra_package_hash := package_hash |}, receiver_pubkey).

(** The part after the ephemeral key and the nonce are drawn. *)
Definition seal_round2 (aad : Round2EncryptionAad) (receiver_pubkey : PublicKey)
    (ephemeral_secret : SecretKey) (nonce plaintext_package : bytes)
    : checked_dkg EncryptedDkgPayload :=
  let ephemeral_pubkey := public_from_secret ephemeral_secret in
  let key := derive_round2_key aad (shared_secret receiver_pubkey ephemeral_secret) in
  ciphertext ← ok_or DT_EncryptionFailed (aead_encrypt key nonce plaintext_package (round2_aad aad));
  Ok {| ep_algorithm := ROUND2_ALGORITHM;
        ep_ephemeral_pubkey_hex := public_to_string ephemeral_pubkey;
        ep_nonce_hex := hex_encode nonce;
        ep_ciphertext_hex := hex_encode ciphertext |}.

Definition encrypt_round2_package (draws : nat) (session_id : string) (epoch_id : N)
    (sender receiver : DkgPeerIdentity) (package_hash : string) (plaintext_package : bytes) (rng : Rng)
    : option (checked_dkg EncryptedDkgPayload * Rng) :=
  match prepare_round2 session_id epoch_id sender receiver package_hash with
  | Err e => Some (Err e, rng)
  | Ok (aad, receiver_pubkey) =>
      '(ephemeral_secret, rng) ← random_secret_key draws rng;
      let '(nonce, rng) := fill_bytes 12 rng in
      Some (seal_round2 aad receiver_pubkey ephemeral_secret nonce plaintext_package, rng)
  end.

Definition decrypt_round2_package (session_id : string) (epoch_id : N)
    (sender receiver : DkgPeerIdentity) (receiver_secret_key : SecretKey) (package_hash : string)
    (encrypted : EncryptedDkgPayload) : checked_dkg bytes :=
  if negb (String.eqb (ep_algorithm encrypted) ROUND2_ALGORITHM)
  then Err (DT_UnsupportedEncryptionAlgorithm (ep_algorithm encrypted))
  else
    sender ← dp_normalized sender;
    receiver ← dp_normalized receiver;
    let expected_receiver_pubkey := public_from_secret receiver_secret_key in
    if negb (String.eqb (public_to_string expected_receiver_pubkey) (dp_ecdh_pubkey_hex receiver))
    then Err (DT_InvalidSecretKey "receiver secret key does not match receiver ECDH pubkey")
    else
      session_id ← map_err DT_InvalidEncryptedPayload (normalize_hex session_id 32);
      package_hash ← map_err DT_InvalidEncryptedPayload (normalize_hex package_hash 32);
      ephemeral_pubkey ← map_err DT_InvalidEcdhPubkey
                           (public_from_str (ep_ephemeral_pubkey_hex encrypted));
      nonce_bytes ← map_err DT_InvalidEncryptedPayload
                      (hex_decode (to_ascii_lowercase (ep_nonce_hex encrypted)));
      if negb (Nat.eqb (length nonce_bytes) 12)
      then Err (DT_InvalidEncryptedPayload "nonce must be 12 bytes")
      else
        ciphertext ← map_err DT_InvalidEncryptedPayload
                       (hex_decode (to_ascii_lowercase (ep_ciphertext_hex encrypted)));
        let aad := {| ra_session_id := session_id; ra_epoch_id := epoch_id;
                      ra_sender_signer_id := dp_signer_id sender;
                      ra_receiver_signer_id := dp_signer_id receiver;
                      ra_package_hash := package_hash |} in
        let key := derive_round2_key aad (shared_secret ephemeral_pubkey receiver_secret_key) in
        plaintext ← ok_or DT_DecryptionFailed
                      (aead_decrypt key nonce_bytes ciphertext (round2_aad aad));
        let actual_hash := dkg_package_hash plaintext in
        if negb (String.eqb actual_hash package_hash)
        then Err (DT_PackageHashMismatch package_hash actual_hash)
        else Ok plaintext.
End messages.

(** ** Normalised fields *)

Global Instance DkgPeerIdentity_serialize_inj : SerializeInj DkgPeerIdentity.
Proof. solve_serialize_inj. Qed.
Global Instance DkgSessionId_serialize_inj : SerializeInj DkgSessionId.
Proof.
  intros x y Heq. apply JObj_inj in Heq. do 3 (apply field_app_inj in Heq as [? Heq]).
  rewrite <-(app_nil_r (field_opt _ (ds_recovery_data_hash x))) in Heq.
  rewrite <-(app_nil_r (field_opt _ (ds_recovery_data_hash y))) in Heq.
  apply field_opt_app_inj in Heq as [? _]; [|apply not_elem_of_nil..].
  destruct x, y; simpl in *; by subst.
Qed.
Global Instance EncryptedDkgPayload_serialize_inj : SerializeInj EncryptedDkgPayload.
Proof. solve_serialize_inj. Qed.
Global Instance DkgRound1BroadcastBody_serialize_inj : SerializeInj DkgRound1BroadcastBody.
Proof. solve_serialize_inj. Qed.
Global Instance DkgRound2DirectBody_serialize_inj : SerializeInj DkgRound2DirectBody.
Proof. solve_serialize_inj. Qed.
Global Instance DkgSignerAckBody_serialize_inj : SerializeInj DkgSignerAckBody.
Proof. solve_serialize_inj. Qed.
Global Instance DkgComplaintBody_serialize_inj : SerializeInj DkgComplaintBody.
Proof. solve_serialize_inj. Qed.
Global Instance DkgMessageBody_serialize_inj : SerializeInj DkgMessageBody.
Proof.
  assert (forall k p p', tagged k p = tagged k p' -> p = p') as Htag by (unfold tagged; congruence).
  intros [b|b|b|b] [b'|b'|b'|b'] Heq; cbn in Heq; try discriminate Heq;
    apply Htag, to_json_inj in Heq; by subst.
Qed.
Global Instance DkgEnvelopeSigningPayload_serialize_inj : SerializeInj DkgEnvelopeSigningPayload.
Proof. solve_serialize_inj. Qed.

Lemma normalize_hex_Ok v k n :
  normalize_hex v k = Ok n <->
  n = to_ascii_lowercase v /\ String.length n = (k * 2)%nat /\ all_bytes is_ascii_hexdigit n = true.
Proof.
  unfold normalize_hex. rewrite <-Nat.eqb_eq. split.
  - intros. res_inv. subst. bool_inv. rewrite Nat.eqb_eq. auto.
  - intros (-> & -> & ->). done.
Qed.

Lemma normalize_dkg_signer_id_Ok v n :
  normalize_dkg_signer_id v = Ok n <->
  n = to_ascii_lowercase v /\ n <> EmptyString /\ (String.length n <= 64)%nat /\
  all_bytes signer_id_char n = true.
Proof.
  unfold normalize_dkg_signer_id. split.
  - intros. res_inv. bool_inv. subst. unfold is_empty, MAX_DKG_SIGNER_ID_LEN in *.
    repeat split; [|done|done].
    by destruct (to_ascii_lowercase v).
  - intros (-> & Hne & Hlen & ->). rewrite (proj2 (Nat.ltb_ge _ _)) by exact Hlen.
    by destruct (to_ascii_lowercase v).
Qed.

Lemma normalize_dkg_signer_id_idemp v n :
  normalize_dkg_signer_id v = Ok n -> normalize_dkg_signer_id n = Ok n.
Proof. rewrite !normalize_dkg_signer_id_Ok. intros (-> & ?). by rewrite lower_idemp. Qed.

(** A signer list as the code keeps it: normalised, in order, without repeats. *)
Definition signer_list (ids : list string) : Prop :=
  Forall (fun id => normalize_dkg_signer_id id = Ok id) ids /\
  StronglySorted (cmp_le str_cmp) ids /\ NoDup ids.

Lemma sort_strings_perm l1 l2 : l1 ≡ₚ l2 -> sort_by str_cmp l1 = sort_by str_cmp l2.
Proof. intros Hp. apply (sort_by_unique str_cmp); [|done]. intros x y _ _. apply str_cmp_Eq. Qed.

Lemma try_map_perm {E A B} (f : A -> result E B) l l' k :
  l ≡ₚ l' -> try_map f l = Ok k -> exists k', try_map f l' = Ok k' /\ k ≡ₚ k'.
Proof.
  intros Hp. revert k. induction Hp as [|x l l' Hp IH|x y l|l1 l2 l3 _ IH1 _ IH2]; intros k Hk.
  - by exists k.
  - apply try_map_Ok in Hk. inversion Hk as [|? z ? k0 Hz Hk0]; subst. apply try_map_Ok, IH in Hk0 as (k' & Hk' & ?).
    exists (z :: k'). simpl. rewrite Hz. simpl. rewrite Hk'. by split; [|constructor].
  - apply try_map_Ok in Hk. inversion Hk as [|? z ? k0 Hz Hk0]; subst. inversion Hk0 as [|? w ? k1 Hw Hk1]; subst.
    exists (w :: z :: k1). split; [|constructor]. apply try_map_Ok. by repeat constructor.
  - apply IH1 in Hk as (k2 & Hk2 & ?). apply IH2 in Hk2 as (k3 & ? & ?).
    exists k3. split; [done|]. by etrans.
Qed.

Lemma normalize_dkg_session_signer_ids_Ok ids k :
  normalize_dkg_session_signer_ids ids = Ok k -> signer_list k /\ length k = length ids /\ k <> [].
Proof.
  unfold normalize_dkg_session_signer_ids. destruct ids as [|id ids]; [done|]. intros H.
  apply bind_Ok in H as (norm & Hm & H). destruct (adjacent_duplicate _) eqn:Hd in H; [done|].
  injection H as <-. assert (Hsort := sort_by_sorted str_cmp norm).
  apply adjacent_duplicate_None in Hd; [|done]. apply try_map_Ok in Hm.
  assert (length norm = length (id :: ids)) as Hlen by (symmetry; by eapply Forall2_length).
  repeat split; try done.
  - rewrite sort_by_perm. apply Forall_forall. intros x Hx.
    apply list_elem_of_lookup in Hx as [i Hi]. eapply Forall2_lookup_r in Hm as (y & _ & Hy); [|exact Hi].
    by eapply normalize_dkg_signer_id_idemp.
  - by rewrite sort_by_length.
  - intros Hnil. apply (f_equal length) in Hnil. rewrite sort_by_length, Hlen in Hnil. done.
Qed.

Lemma normalize_dkg_session_signer_ids_perm ids ids' k :
  ids ≡ₚ ids' -> normalize_dkg_session_signer_ids ids = Ok k ->
  normalize_dkg_session_signer_ids ids' = Ok k.
Proof.
  unfold normalize_dkg_session_signer_ids. intros Hp.
  destruct ids as [|id ids]; [done|]. destruct ids' as [|id' ids']; [by apply Permutation_nil_r in Hp|].
  rewrite !bind_Ok. intros (n & Hn & Hd). apply (try_map_perm _ _ _ _ Hp) in Hn as (n' & Hn' & Hp').
  exists n'. split; [done|]. by rewrite <-(sort_strings_perm n n' Hp').
Qed.

(** ** Sessions *)

(** The byte string whose hash is the session identifier. *)
Definition session_input `{Hashing} (s : DkgSessionId) : bytes :=
  tagged_input (byte_str "POHW1_DKG_SESSION") (canonical_json s).

Lemma session_id_binds `{Hashing, !HexLaws, !HashLaws} s s' :
  session_id s = session_id s' -> s = s' \/ collision_among [session_input s; session_input s'].
Proof.
  intros Heq%hex_encode_inj. destruct (collision_free_or [session_input s; session_input s']) as [Hcf|]; [|by right].
  left. apply Hcf in Heq; [|set_solver..].
  by apply tagged_input_inj, to_vec_inj, to_json_inj in Heq.
Qed.

Lemma normalized_ids_lower ids k :
  normalize_dkg_session_signer_ids ids = Ok k -> k ≡ₚ map to_ascii_lowercase ids.
Proof.
  unfold normalize_dkg_session_signer_ids. destruct ids as [|id ids]; [done|].
  rewrite bind_Ok. intros (n & Hn & H). destruct (adjacent_duplicate _) in H; [done|].
  injection H as <-. rewrite sort_by_perm. enough (n = map to_ascii_lowercase (id :: ids)) as -> by done.
  apply try_map_Ok in Hn. clear -Hn. revert n Hn. generalize (id :: ids). clear.
  induction l as [|x l IH]; intros n Hn; inversion Hn as [|?? ? k Hx Hk]; subst; [done|].
  apply normalize_dkg_signer_id_Ok in Hx as [-> _]. simpl. f_equal. auto.
Qed.

(** (safety). Signers agree on a DKG session exactly by its identifier.
    Listing the same signers in another order gives the same session, and two
    sessions with the same identifier have the same epoch, threshold, recovery
    hash and set of signers (up to letter case), unless the two hashed strings
    collide. *)
Theorem dkg_session_agreed `{Hashing, !HexLaws, !HashLaws} e t ids r e' t' ids' r' s s' :
  ds_new_inner e t ids r = Ok s -> ds_new_inner e' t' ids' r' = Ok s' ->
  (e = e' -> t = t' -> r = r' -> ids ≡ₚ ids' -> session_id s = session_id s') /\
  (session_id s = session_id s' ->
   (e = e' /\ t = t' /\ r = r' /\ map to_ascii_lowercase ids ≡ₚ map to_ascii_lowercase ids') \/
   collision_among [session_input s; session_input s']).
Proof.
  unfold ds_new_inner. intros Hs Hs'. apply bind_Ok in Hs as (k & Hk & Hs), Hs' as (k' & Hk' & Hs').
  res_inv. split.
  - intros -> -> -> Hp. apply (normalize_dkg_session_signer_ids_perm ids ids') in Hk; [|done].
    congruence.
  - intros [Heq|]%session_id_binds; [left|by right]. subst. injection Heq as -> -> -> ->.
    apply normalized_ids_lower in Hk, Hk'. by rewrite <-Hk, <-Hk'.
Qed.

(** ** Envelopes *)

(** (functional). An envelope signed with its sender's key is accepted by
    [verify_signature], and the signature covers the whole message: an envelope
    with the same signing hash has the same session, epoch, sequence number,
    sender, receiver and body, or the two hashed strings collide. *)
Theorem signed_envelope_verifies `{Hashing, !HexLaws, !HashLaws, Secp256k1, !KeyExchange, !KeyExchangeLaws}
    (kp : Keypair) e e' :
  dp_auth_pubkey_xonly_hex (de_sender e) = xonly_to_string (keypair_xonly kp) ->
  exists signed, de_sign kp e = (Ok tt, signed) /\ envelope_payload signed = envelope_payload e /\
    de_verify_signature signed = Ok tt /\
    (de_signing_hash e' = de_signing_hash signed ->
     envelope_payload e' = envelope_payload e \/
     collision_among [tagged_input (byte_str "POHW1_DKG_MESSAGE") (canonical_json (envelope_payload e'));
                      tagged_input (byte_str "POHW1_DKG_MESSAGE") (canonical_json (envelope_payload e))]).
Proof.
  intros Hkey. unfold de_sign. rewrite M_bind_run. cbn [gets id]. rewrite Hkey, String.eqb_refl. cbn [negb].
  eexists. split; [reflexivity|]. split; [done|]. split.
  - unfold de_verify_signature. cbn [de_with_signature de_signature_hex ok_or de_sender].
    assert (length (de_signing_hash e) = 32%nat) as Hlen by apply sha256_length.
    cbn. rewrite Hkey, keypair_xonly_from_str. cbn. rewrite hex_encode_lower, hex_decode_encode. cbn.
    rewrite schnorr_from_serialize by done. cbn.
    change (de_signing_hash _) with (de_signing_hash e) at 2. by rewrite verify_sign_schnorr.
  - change (de_signing_hash (de_with_signature _ e)) with (de_signing_hash e). intros Heq.
    match goal with |- _ \/ collision_among ?l => destruct (collision_free_or l) as [Hcf|]; [left|by right] end.
    apply Hcf in Heq; [|set_solver..]. by apply tagged_input_inj, to_vec_inj, to_json_inj in Heq.
Qed.

(** ** Round-2 packages *)

Section round2.
Context `{Hashing, !HexLaws, Secp256k1, !KeyExchange, !KeyExchangeLaws}.

(** The generator after [i] draws of [random_secret_key]. *)
Fixpoint skip_draws (i : nat) (rng : Rng) : Rng :=
  match i with O => rng | S i' => skip_draws i' (fill_bytes 32 rng).2 end.

Lemma random_secret_key_total draws i rng sk :
  (i < draws)%nat -> secret_from_slice (fill_bytes 32 (skip_draws i rng)).1 = Some sk ->
  exists esk rng', random_secret_key draws rng = Some (esk, rng').
Proof.
  revert i rng. induction draws as [|draws IH]; intros i rng Hi Hsk; [lia|]. simpl.
  destruct (fill_bytes 32 rng) as [b rng1] eqn:Hf. destruct (secret_from_slice b) as [k|] eqn:Hb; [eauto|].
  destruct i as [|i].
  - simpl in Hsk. rewrite Hf in Hsk. simpl in Hsk. congruence.
  - apply (IH i); [lia|]. simpl in Hsk. by rewrite Hf in Hsk.
Qed.

Lemma normalize_hex_own v k : normalize_hex v k = Ok (to_ascii_lowercase v) \/ normalize_hex v k = Err v.
Proof. unfold normalize_hex. destruct (_ && _); auto. Qed.

(** Opening what [seal_round2] sealed. *)
Lemma open_sealed aad esk sk nonce plaintext :
  (N.of_nat (length plaintext) <= 2 ^ 32)%N -> length nonce = 12%nat ->
  exists c, aead_encrypt (derive_round2_key aad (shared_secret (public_from_secret sk) esk)) nonce plaintext
              (round2_aad aad) = Some c /\
    aead_decrypt (derive_round2_key aad (shared_secret (public_from_secret esk) sk)) nonce c
      (round2_aad aad) = Some plaintext.
Proof.
  intros Hp Hn.
  destruct (aead_encrypt_total (derive_round2_key aad (shared_secret (public_from_secret sk) esk)) nonce
    plaintext (round2_aad aad) Hp) as [c Hc].
  exists c. split; [done|]. rewrite shared_secret_comm. by apply aead_decrypt_encrypt.
Qed.
End round2.

(** C35 (roundtrip). A round-2 package reaches its receiver: for valid
    identities, a receiver key that belongs to the receiver's secret, the right
    package hash and a generator that yields a scalar within the given number of
    draws, [encrypt_round2_package] returns a payload that
    [decrypt_round2_package] opens to exactly the package. *)
Theorem round2_package_roundtrip `{Hashing, !HexLaws, Secp256k1, !KeyExchange, !KeyExchangeLaws}
    draws i session epoch sender receiver s r n hash plaintext (sk k : SecretKey) rng :
  dp_normalized sender = Ok s -> dp_normalized receiver = Ok r ->
  dp_ecdh_pubkey_hex r = public_to_string (public_from_secret sk) ->
  normalize_hex session 32 = Ok n ->
  normalize_hex hash 32 = Ok (dkg_package_hash plaintext) ->
  (N.of_nat (length plaintext) <= 2 ^ 32)%N ->
  (i < draws)%nat -> secret_from_slice (fill_bytes 32 (skip_draws i rng)).1 = Some k ->
  exists payload rng',
    encrypt_round2_package draws session epoch sender receiver hash plaintext rng = Some (Ok payload, rng') /\
    decrypt_round2_package session epoch sender receiver sk hash payload = Ok plaintext.
Proof.
  intros Hs Hr Hkey Hsession Hhash Hlen Hi Hk.
  destruct (random_secret_key_total draws i rng k Hi Hk) as (esk & rng1 & Hdraw).
  pose (aad := {| ra_session_id := n; ra_epoch_id := epoch; ra_sender_signer_id := dp_signer_id s;
                  ra_receiver_signer_id := dp_signer_id r; ra_package_hash := dkg_package_hash plaintext |}).
  destruct (fill_bytes 12 rng1) as [nonce rng2] eqn:Hnonce.
  assert (length nonce = 12%nat) as Hnl by (rewrite <-(fill_bytes_length 12 rng1), Hnonce; done).
  destruct (open_sealed aad esk sk nonce plaintext Hlen Hnl) as (c & Hc & Hopen).
  unfold encrypt_round2_package, prepare_round2. rewrite Hs, Hr. cbn.
  rewrite Hsession, Hhash, Hkey, public_from_to_string. cbn. rewrite Hdraw. cbn. rewrite Hnonce.
  unfold seal_round2. fold aad. rewrite Hc. cbn. eexists _, _. split; [reflexivity|].
  unfold decrypt_round2_package. cbn [ep_algorithm ep_ephemeral_pubkey_hex ep_nonce_hex ep_ciphertext_hex].
  rewrite String.eqb_refl, Hs, Hr. cbn. rewrite Hkey, String.eqb_refl, Hsession, Hhash. cbn.
  rewrite public_from_to_string. cbn. rewrite !hex_encode_lower, !hex_decode_encode. cbn.
  rewrite Hnl. cbn. fold aad. rewrite Hopen. cbn.
  by rewrite String.eqb_refl.
Qed.

(** ** Examples *)

Definition sample_secret : bytes := repeat x05 32.
Definition sample_identity (id : string) : DkgPeerIdentity := {|
  dp_signer_id := id;
  dp_auth_pubkey_xonly_hex := hex_encode_c (be_bytes 32 (checksum sample_secret));
  dp_ecdh_pubkey_hex := hex_encode_c (x02 :: sample_secret)
|}.

Lemma dkg_session_agreed_witness : exists s s',
  ds_new_inner 7 2 ["bob"; "Alice"]%string None = Ok s /\ ds_new_inner 7 2 ["Alice"; "bob"]%string None = Ok s' /\
  @session_id hashing_c s = @session_id hashing_c s'.
Proof.
  eexists _, _. split; [vm_compute; reflexivity|]. split; [vm_compute; reflexivity|].
  eapply (@dkg_session_agreed hashing_c hex_laws_c hash_laws_c 7 2%nat ["bob"; "Alice"]%string None
    7 2%nat ["Alice"; "bob"]%string None);
    [vm_compute; reflexivity|vm_compute; reflexivity|done..|apply perm_swap].
Defined.

Definition sample_envelope : DkgMessageEnvelope := {|
  de_session_id := hex_encode_c (repeat x00 32); de_epoch_id := 7; de_sequence := 1;
  de_sender := sample_identity "alice"; de_receiver_signer_id := None;
  de_body := SignerAck {| sa_frost_identifier_hex := "01"; sa_public_key_package_hash := "02" |};
  de_signature_hex := None |}.

Lemma signed_envelope_verifies_witness : exists signed,
  @de_sign hashing_c secp_c key_exchange_c sample_secret sample_envelope = (Ok tt, signed) /\
  @de_verify_signature hashing_c secp_c signed = Ok tt.
Proof.
  destruct (@signed_envelope_verifies hashing_c hex_laws_c hash_laws_c secp_c key_exchange_c key_exchange_laws_c
    sample_secret sample_envelope sample_envelope eq_refl) as (signed & Hs & _ & Hv & _).
  exists signed. split; [exact Hs|exact Hv].
Defined.

Lemma round2_package_roundtrip_witness : exists payload rng',
  @encrypt_round2_package hashing_c secp_c key_exchange_c 1 (hex_encode_c (repeat x00 32)) 7
    (sample_identity "alice") (sample_identity "Bob") (@dkg_package_hash hashing_c [x01; x02]) [x01; x02] 9
    = Some (Ok payload, rng') /\
  @decrypt_round2_package hashing_c secp_c key_exchange_c (hex_encode_c (repeat x00 32)) 7
    (sample_identity "alice") (sample_identity "Bob") sample_secret
    (@dkg_package_hash hashing_c [x01; x02]) payload = Ok [x01; x02].
Proof.
  eapply (@round2_package_roundtrip hashing_c hex_laws_c secp_c key_exchange_c key_exchange_laws_c 1%nat 0%nat);
    try (vm_compute; reflexivity). vm_compute. discriminate.
Defined.
