(* ===== verification/Ledger.v ===== *)
(** * The claim ledger ([crates/pohw-core/src/ledger.rs])

    Vault claims are balances per owner.  A payout schedule credits them, a
    signed withdrawal request reserves an amount, and a confirmed transaction
    removes the reservation.  The theorems treat the ledger as a state machine
    driven by any sequence of these operations: no satoshi appears or vanishes,
    a reservation never overdraws, a failed reservation changes nothing, and a
    withdrawal nonce is never accepted twice. *)
From S2P Require Import Prelude Order Text Crates Concrete Payout Withdrawal.
From Stdlib Require Import Strings.Ascii.

Local Open Scope N_scope.

(** ** Data *)

Record PendingWithdrawal := {
  pw_request_id : string;
  pw_claim_owner_id : string;
  pw_gross_amount_sats : N;
  pw_fee_sats : N;
  pw_net_amount_sats : N
}.

Record ClaimLedger := {
  cl_balances : gmap string N;
  cl_pending_withdrawals : gmap string PendingWithdrawal;
  cl_last_withdrawal_nonce_by_owner : gmap string N
}.

Definition ledger_default : ClaimLedger :=
  {| cl_balances := ∅; cl_pending_withdrawals := ∅; cl_last_withdrawal_nonce_by_owner := ∅ |}.

Inductive LedgerError :=
| InsufficientBalance (claim_owner_id : string) (requested_sats available_sats : N)
| DuplicateWithdrawal (request_id : string)
| StaleNonce (claim_owner_id : string) (nonce last_nonce : N)
| BalanceOverflow (claim_owner_id : string)
| InvalidWithdrawal (e : WithdrawalError).

Definition set_balance (key : string) (v : N) (l : ClaimLedger) : ClaimLedger := {|
  cl_balances := <[key := v]> (cl_balances l);
  cl_pending_withdrawals := cl_pending_withdrawals l;
  cl_last_withdrawal_nonce_by_owner := cl_last_withdrawal_nonce_by_owner l |}.

(** ** Operations *)

Definition balance (l : ClaimLedger) (claim_owner_id : string) : N :=
  default 0 (cl_balances l !! to_ascii_lowercase claim_owner_id).

(** [entry(key).or_default()] leaves a zero balance behind when the addition
    overflows. *)
Definition apply_vault_allocation (allocation : VaultAllocation) : M ClaimLedger LedgerError unit := fun self =>
  let key := to_ascii_lowercase (va_claim_owner_id allocation) in
  let entry := default 0 (cl_balances self !! key) in
  match checked_add sats_bits entry (va_amount_sats allocation) with
  | Some v => (Ok tt, set_balance key v self)
  | None => (Err (BalanceOverflow key), set_balance key entry self)
  end.

Definition apply_payout_schedule (schedule : PayoutSchedule) : M ClaimLedger LedgerError unit :=
  for_each apply_vault_allocation (ps_vault_allocations schedule).

Section ledger.
Context `{Hashing, Secp256k1, BitcoinCrate}.

(** The checks of [reserve_withdrawal], in order. *)
Definition check_reservation (self : ClaimLedger) (request : WithdrawalRequest)
    (fee_sats current_height : N) : result LedgerError unit :=
  _ ← map_err InvalidWithdrawal (wr_validate request current_height);
  let key := to_ascii_lowercase (wr_claim_owner_id request) in
  let available := balance self key in
  if available <? wr_amount_sats request
  then Err (InsufficientBalance key (wr_amount_sats request) available)
  else if bool_decide (is_Some (cl_pending_withdrawals self !! wr_request_id request))
  then Err (DuplicateWithdrawal (wr_request_id request))
  else if wr_amount_sats request <=? fee_sats
  then Err (InvalidWithdrawal (FeeExceedsAmount (wr_request_id request) (wr_amount_sats request) fee_sats))
  else
    _ ← map_err InvalidWithdrawal
          (validate_destination_script_policy (wr_request_id request)
             (wr_destination_script_hex request) (wr_output_kind request)
             (wr_amount_sats request - fee_sats));
    match cl_last_withdrawal_nonce_by_owner self !! key with
    | Some last_nonce =>
        if wr_nonce request <=? last_nonce
        then Err (StaleNonce key (wr_nonce request) last_nonce)
        else Ok tt
    | None => Ok tt
    end.

Definition reserve_withdrawal (request : WithdrawalRequest) (fee_sats current_height : N)
    : M ClaimLedger LedgerError PendingWithdrawal :=
  _ ← asks (fun self => check_reservation self request fee_sats current_height);
  let key := to_ascii_lowercase (wr_claim_owner_id request) in
  let pending := {|
    pw_request_id := wr_request_id request;
    pw_claim_owner_id := key;
    pw_gross_amount_sats := wr_amount_sats request;
    pw_fee_sats := fee_sats;
    pw_net_amount_sats := wr_amount_sats request - fee_sats |} in
  _ ← modify (fun self => {|
    cl_balances := <[key := default 0 (cl_balances self !! key) - wr_amount_sats request]> (cl_balances self);
    cl_pending_withdrawals := <[wr_request_id request := pending]> (cl_pending_withdrawals self);
    cl_last_withdrawal_nonce_by_owner :=
      <[key := wr_nonce request]> (cl_last_withdrawal_nonce_by_owner self) |});
  mret pending.
End ledger.

Definition mark_paid (request_id : string) (self : ClaimLedger) : option PendingWithdrawal * ClaimLedger :=
  (cl_pending_withdrawals self !! request_id,
   {| cl_balances := cl_balances self;
      cl_pending_withdrawals := delete request_id (cl_pending_withdrawals self);
      cl_last_withdrawal_nonce_by_owner := cl_last_withdrawal_nonce_by_owner self |}).

Definition pending_withdrawal (self : ClaimLedger) (request_id : string) : option PendingWithdrawal :=
  cl_pending_withdrawals self !! request_id.

Definition pending_withdrawal_count (self : ClaimLedger) : nat := size (cl_pending_withdrawals self).

(** ** The ledger as a state machine *)

Inductive LedgerOp :=
| OpPayout (schedule : PayoutSchedule)
| OpReserve (request : WithdrawalRequest) (fee_sats current_height : N)
| OpMarkPaid (request_id : string).

(** What an operation adds to and removes from the money the ledger holds. *)
Fixpoint applied_sats (allocations : list VaultAllocation) (l : ClaimLedger) : N :=
  match allocations with
  | [] => 0
  | a :: rest =>
      match apply_vault_allocation a l with
      | (Ok _, l') => va_amount_sats a + applied_sats rest l'
      | (Err _, _) => 0
      end
  end.

Definition credited (op : LedgerOp) (l : ClaimLedger) : N :=
  match op with OpPayout s => applied_sats (ps_vault_allocations s) l | _ => 0 end.

Definition paid (op : LedgerOp) (l : ClaimLedger) : N :=
  match op with
  | OpMarkPaid id => from_option pw_gross_amount_sats 0 (cl_pending_withdrawals l !! id)
  | _ => 0
  end.

Definition map_total {A} (f : A -> N) (m : gmap string A) : N := map_fold (fun _ a t => f a + t) 0 m.

(** Claims not yet reserved plus reservations not yet paid. *)
Definition ledger_total (l : ClaimLedger) : N :=
  map_total (fun v => v) (cl_balances l) + map_total pw_gross_amount_sats (cl_pending_withdrawals l).

Section runs.
Context `{Hashing, Secp256k1, BitcoinCrate}.

Definition ledger_exec (op : LedgerOp) (l : ClaimLedger) : ClaimLedger :=
  match op with
  | OpPayout s => (apply_payout_schedule s l).2
  | OpReserve r fee height => (reserve_withdrawal r fee height l).2
  | OpMarkPaid id => (mark_paid id l).2
  end.

Fixpoint ledger_run (ops : list LedgerOp) (l : ClaimLedger) : ClaimLedger :=
  match ops with [] => l | op :: rest => ledger_run rest (ledger_exec op l) end.

Fixpoint run_credited (ops : list LedgerOp) (l : ClaimLedger) : N :=
  match ops with [] => 0 | op :: rest => credited op l + run_credited rest (ledger_exec op l) end.

Fixpoint run_paid (ops : list LedgerOp) (l : ClaimLedger) : N :=
  match ops with [] => 0 | op :: rest => paid op l + run_paid rest (ledger_exec op l) end.
End runs.

(** ** Totals of maps *)

Section map_total.
Context {A : Type} (f : A -> N).
Implicit Types m : gmap string A.

Lemma map_total_insert_None m k a : m !! k = None -> map_total f (<[k := a]> m) = f a + map_total f m.
Proof.
  intros Hk. unfold map_total. rewrite map_fold_insert_L; [done| |done]. intros; lia.
Qed.

Lemma map_total_delete m k a : m !! k = Some a -> map_total f m = f a + map_total f (delete k m).
Proof.
  intros Hk. rewrite <-(map_total_insert_None (delete k m) k a) by apply lookup_delete_eq.
  by rewrite insert_delete_eq, insert_id.
Qed.

Lemma map_total_insert m k a :
  map_total f (<[k := a]> m) + from_option f 0 (m !! k) = f a + map_total f m.
Proof.
  destruct (m !! k) as [b|] eqn:Hk; simpl.
  - rewrite <-(insert_delete_eq m k a), map_total_insert_None by apply lookup_delete_eq.
    rewrite (map_total_delete m k b Hk). lia.
  - rewrite map_total_insert_None by done. lia.
Qed.
End map_total.

(** ** Credits *)

Lemma balances_set l key v :
  ledger_total (set_balance key v l) + default 0 (cl_balances l !! key) = v + ledger_total l.
Proof.
  unfold ledger_total, set_balance. simpl.
  pose proof (map_total_insert (fun v => v) (cl_balances l) key v) as Hi.
  replace (default 0 (cl_balances l !! key)) with (from_option (fun v => v) 0 (cl_balances l !! key))
    by (by destruct (cl_balances l !! key)). lia.
Qed.

Lemma allocation_total a l :
  ledger_total (apply_vault_allocation a l).2 =
  ledger_total l + match (apply_vault_allocation a l).1 with Ok _ => va_amount_sats a | Err _ => 0 end.
Proof.
  unfold apply_vault_allocation. destruct (checked_add _ _ _) as [v|] eqn:Hc; simpl.
  - apply checked_add_Some in Hc as [-> _].
    pose proof (balances_set l (to_ascii_lowercase (va_claim_owner_id a))
      (default 0 (cl_balances l !! to_ascii_lowercase (va_claim_owner_id a)) + va_amount_sats a)). lia.
  - pose proof (balances_set l (to_ascii_lowercase (va_claim_owner_id a))
      (default 0 (cl_balances l !! to_ascii_lowercase (va_claim_owner_id a)))). lia.
Qed.

Lemma payout_total s l :
  ledger_total (apply_payout_schedule s l).2 = ledger_total l + applied_sats (ps_vault_allocations s) l.
Proof.
  unfold apply_payout_schedule. revert l.
  induction (ps_vault_allocations s) as [|a rest IH]; intros l; simpl; [lia|].
  rewrite M_bind_run. pose proof (allocation_total a l) as Ha.
  destruct (apply_vault_allocation a l) as [[[]|e] l1]; simpl in *; [rewrite IH|]; lia.
Qed.

(** ** Reservations *)

Section reservations.
Context `{Hashing, Secp256k1, BitcoinCrate}.

Lemma reserve_run r fee height l :
  reserve_withdrawal r fee height l =
  match check_reservation l r fee height with
  | Err e => (Err e, l)
  | Ok _ =>
      let key := to_ascii_lowercase (wr_claim_owner_id r) in
      let pending := {| pw_request_id := wr_request_id r; pw_claim_owner_id := key;
                        pw_gross_amount_sats := wr_amount_sats r; pw_fee_sats := fee;
                        pw_net_amount_sats := wr_amount_sats r - fee |} in
      (Ok pending,
       {| cl_balances := <[key := default 0 (cl_balances l !! key) - wr_amount_sats r]> (cl_balances l);
          cl_pending_withdrawals := <[wr_request_id r := pending]> (cl_pending_withdrawals l);
          cl_last_withdrawal_nonce_by_owner :=
            <[key := wr_nonce r]> (cl_last_withdrawal_nonce_by_owner l) |})
  end.
Proof.
  unfold reserve_withdrawal. rewrite M_bind_run. unfold asks. simpl.
  by destruct (check_reservation l r fee height) as [[]|e].
Qed.

Lemma check_reservation_Ok l r fee height :
  check_reservation l r fee height = Ok tt ->
  wr_validate r height = Ok tt /\
  wr_amount_sats r <= balance l (wr_claim_owner_id r) /\
  cl_pending_withdrawals l !! wr_request_id r = None /\
  fee + dust_threshold (wr_output_kind r) <= wr_amount_sats r /\
  (forall last, cl_last_withdrawal_nonce_by_owner l !! to_ascii_lowercase (wr_claim_owner_id r) = Some last ->
    last < wr_nonce r).
Proof.
  unfold check_reservation, balance. rewrite lower_idemp. intros Hc. res_inv. bool_inv.
  match goal with HH : validate_destination_script_policy _ _ _ _ = Ok _ |- _ =>
    apply script_policy_Ok in HH as [Hd _] end.
  split_and!; [done|done| |lia|].
  - by apply eq_None_not_Some.
  - intros last Hlast. rewrite Hlast in Hc. res_inv. by bool_inv.
Qed.

Lemma reserve_total r fee height l : ledger_total (reserve_withdrawal r fee height l).2 = ledger_total l.
Proof.
  rewrite reserve_run. destruct (check_reservation l r fee height) as [[]|e] eqn:Hc; [|done].
  apply check_reservation_Ok in Hc as (_ & Hb & Hp & _). unfold balance in Hb. simpl.
  set (key := to_ascii_lowercase (wr_claim_owner_id r)) in *. unfold ledger_total. simpl.
  rewrite (map_total_insert_None pw_gross_amount_sats) by done. simpl.
  pose proof (map_total_insert (fun v => v) (cl_balances l) key
                (default 0 (cl_balances l !! key) - wr_amount_sats r)) as Hi.
  destruct (cl_balances l !! key) as [v|] eqn:Hv; simpl in *; [|lia].
  pose proof (map_total_delete (fun v => v) _ _ _ Hv). lia.
Qed.

Lemma mark_paid_total id l :
  ledger_total (mark_paid id l).2 + from_option pw_gross_amount_sats 0 (cl_pending_withdrawals l !! id) =
  ledger_total l.
Proof.
  unfold ledger_total. simpl. destruct (cl_pending_withdrawals l !! id) as [p|] eqn:Hp; simpl.
  - rewrite (map_total_delete _ _ _ _ Hp). lia.
  - rewrite delete_id by done. lia.
Qed.

(** ** Nonces only grow *)

Definition nonces_le (l l' : ClaimLedger) : Prop :=
  forall k n, cl_last_withdrawal_nonce_by_owner l !! k = Some n ->
    exists n', cl_last_withdrawal_nonce_by_owner l' !! k = Some n' /\ n <= n'.

Global Instance nonces_le_preorder : PreOrder nonces_le.
Proof.
  split; [intros l k n Hn; eauto with lia|].
  intros l1 l2 l3 H12 H23 k n (n2 & Hn2 & ?)%H12.
  destruct (H23 _ _ Hn2) as (n3 & ? & ?). exists n3. split; [done|lia].
Qed.

Lemma payout_nonces s l :
  cl_last_withdrawal_nonce_by_owner (apply_payout_schedule s l).2 = cl_last_withdrawal_nonce_by_owner l.
Proof.
  unfold apply_payout_schedule. revert l.
  induction (ps_vault_allocations s) as [|a rest IH]; intros l; [done|]. simpl. rewrite M_bind_run.
  unfold apply_vault_allocation at 1. destruct (checked_add _ _ _); [|done]. by rewrite IH.
Qed.

Lemma ledger_exec_nonces op l : nonces_le l (ledger_exec op l).
Proof.
  destruct op as [s|r fee height|id]; simpl.
  - intros k n Hn. rewrite payout_nonces. eauto with lia.
  - rewrite reserve_run. destruct (check_reservation l r fee height) as [[]|e] eqn:Hc; [|reflexivity].
    apply check_reservation_Ok in Hc as (_ & _ & _ & _ & Hlast). intros k n Hn. simpl.
    destruct (decide (to_ascii_lowercase (wr_claim_owner_id r) = k)) as [<-|Hne].
    + rewrite lookup_insert_eq. specialize (Hlast _ Hn). eauto with lia.
    + rewrite lookup_insert_ne by done. eauto with lia.
  - intros k n Hn. simpl. eauto with lia.
Qed.

Lemma ledger_run_nonces ops l : nonces_le l (ledger_run ops l).
Proof.
  revert l. induction ops as [|op ops IH]; intros l; simpl; [reflexivity|].
  etrans; [apply ledger_exec_nonces|apply IH].
Qed.
End reservations.

(** ** Properties *)

(** C10 (conservation). Over any sequence of payouts, reservations and payments,
    failing ones included, the claims and reservations the ledger holds grow by
    exactly what payouts credited and shrink by exactly what was marked paid. *)
Theorem ledger_conserves `{Hashing, Secp256k1, BitcoinCrate} ops l :
  ledger_total (ledger_run ops l) + run_paid ops l = ledger_total l + run_credited ops l.
Proof.
  revert l. induction ops as [|op ops IH]; intros l; simpl; [lia|]. specialize (IH (ledger_exec op l)).
  enough (ledger_total (ledger_exec op l) + paid op l = ledger_total l + credited op l) by lia.
  destruct op as [s|r fee height|id]; simpl.
  - rewrite payout_total. lia.
  - rewrite reserve_total. lia.
  - rewrite <-(mark_paid_total id l). simpl. lia.
Qed.

(** (reservation). A reservation succeeds only for a request its owner
    authorised, with a fresh id, a nonce above the last accepted one and an
    amount covered by the balance; it then moves exactly that amount from the
    balance to the pending entry.  A failed reservation leaves the ledger as it
    was. *)
Theorem reserve_withdrawal_spec `{Hashing, Secp256k1, BitcoinCrate} r fee height l :
  match reserve_withdrawal r fee height l with
  | (Ok p, l') =>
      authorized r /\ height <= wr_expiry_height r /\
      cl_pending_withdrawals l !! wr_request_id r = None /\
      (forall last, cl_last_withdrawal_nonce_by_owner l !! to_ascii_lowercase (wr_claim_owner_id r) = Some last ->
        last < wr_nonce r) /\
      balance l' (wr_claim_owner_id r) + wr_amount_sats r = balance l (wr_claim_owner_id r) /\
      (forall owner, to_ascii_lowercase owner <> to_ascii_lowercase (wr_claim_owner_id r) ->
        balance l' owner = balance l owner) /\
      pending_withdrawal l' (wr_request_id r) = Some p /\
      pw_net_amount_sats p + pw_fee_sats p = wr_amount_sats r /\
      dust_threshold (wr_output_kind r) <= pw_net_amount_sats p
  | (Err _, l') => l' = l
  end.
Proof.
  rewrite reserve_run. destruct (check_reservation l r fee height) as [[]|e] eqn:Hc; [|done].
  apply check_reservation_Ok in Hc as (Hv & Hb & Hp & Hd & Hn).
  apply wr_validate_Ok in Hv as (Hh & _ & Ha). unfold balance in *. simpl.
  split_and!; try done.
  - rewrite lookup_insert_eq. simpl. lia.
  - intros owner Hne. by rewrite lookup_insert_ne.
  - unfold pending_withdrawal. simpl. by rewrite lookup_insert_eq.
  - lia.
  - lia.
Qed.

(** (replay protection). Once a request of an owner has been reserved, no
    later request of that owner with the same or a smaller nonce can be reserved,
    whatever payouts, reservations and payments happen in between. *)
Theorem withdrawal_nonce_not_reusable `{Hashing, Secp256k1, BitcoinCrate}
    r fee height l p l' ops r' fee' height' :
  reserve_withdrawal r fee height l = (Ok p, l') ->
  to_ascii_lowercase (wr_claim_owner_id r') = to_ascii_lowercase (wr_claim_owner_id r) ->
  wr_nonce r' <= wr_nonce r ->
  exists e, reserve_withdrawal r' fee' height' (ledger_run ops l') = (Err e, ledger_run ops l').
Proof.
  intros Hr Hown Hle. rewrite reserve_run in Hr.
  destruct (check_reservation l r fee height) as [[]|e]; [|discriminate]. injection Hr as <- <-.
  match goal with |- context [ledger_run ops ?l0] => set (l1 := l0) end.
  destruct (ledger_run_nonces ops l1 (to_ascii_lowercase (wr_claim_owner_id r)) (wr_nonce r))
    as (n & Hn & Hnle); [by apply lookup_insert_eq|].
  rewrite reserve_run.
  destruct (check_reservation (ledger_run ops l1) r' fee' height') as [[]|e] eqn:Hc; [exfalso|by exists e].
  apply check_reservation_Ok in Hc as (_ & _ & _ & _ & Hlast). rewrite Hown in Hlast.
  specialize (Hlast _ Hn). lia.
Qed.

(** ** A concrete ledger *)

Definition sample_allocation (owner : string) (amount : N) : VaultAllocation := {|
  va_miner_id := "m"; va_claim_owner_id := owner; va_amount_sats := amount |}.

Definition sample_vault_schedule : PayoutSchedule := {|
  ps_direct_outputs := []; ps_vault_allocations := [sample_allocation (repeat_char "A"%char 64) 50000];
  ps_vault_output_sats := 50000; ps_payout_root := EmptyString |}.

Definition sample_ledger : ClaimLedger := (apply_payout_schedule sample_vault_schedule ledger_default).2.

Definition sample_first : WithdrawalRequest := sample_request "w-1" (repeat_char "a"%char 64) 30000 1.
Definition sample_replay : WithdrawalRequest := sample_request "w-9" (repeat_char "a"%char 64) 10000 1.
Definition sample_ops : list LedgerOp := [OpPayout sample_vault_schedule; OpMarkPaid "w-1"].

Lemma sample_reserve : exists p l',
  @reserve_withdrawal hashing_c secp_c bitcoin_c sample_first 195 800 sample_ledger = (Ok p, l').
Proof.
  assert (is_ok (@reserve_withdrawal hashing_c secp_c bitcoin_c sample_first 195 800 sample_ledger).1 = true)
    as Hok by (vm_compute; reflexivity).
  destruct (@reserve_withdrawal hashing_c secp_c bitcoin_c sample_first 195 800 sample_ledger)
    as [[p|e] l']; [by exists p, l'|discriminate Hok].
Qed.

Lemma withdrawal_nonce_not_reusable_witness : exists e l2,
  @reserve_withdrawal hashing_c secp_c bitcoin_c sample_replay 300 800 l2 = (Err e, l2).
Proof.
  assert (to_ascii_lowercase (wr_claim_owner_id sample_replay) =
          to_ascii_lowercase (wr_claim_owner_id sample_first)) as Hown by (vm_compute; reflexivity).
  assert (wr_nonce sample_replay <= wr_nonce sample_first) as Hn by (vm_compute; discriminate).
  destruct sample_reserve as (p & l' & Hr).
  pose proof (@withdrawal_nonce_not_reusable hashing_c secp_c bitcoin_c
    sample_first 195 800 sample_ledger p l' sample_ops sample_replay 300 800 Hr Hown Hn) as [e He].
  exists e, (@ledger_run hashing_c secp_c bitcoin_c sample_ops l'). exact He.
Defined.
