(* ===== verification/IdenaAnchor.v ===== *)
(** * Idena anchors, registry records and checkpoints
      ([crates/pohw-core/src/idena_anchor.rs])

    Miners and sharechain checkpoints are recorded by a contract on Idena; the
    node re-parses the contract's canonical record lines, checks quorums and
    relates anchors to the finalised Idena height.  The theorems characterise
    both record parsers by their printers, show that two quorums over one
    miner set intersect, and describe the anchor window. *)
From S2P Require Import Prelude Order Text Crates Concrete.
From Stdlib Require Import Strings.Ascii Strings.Byte.

Local Open Scope N_scope.

Definition ZERO_SHARE_PARENT_HASH : string :=
  "0000000000000000000000000000000000000000000000000000000000000000".
Definition CHECKPOINT_QUORUM_NUMERATOR : N := 2.
Definition CHECKPOINT_QUORUM_DENOMINATOR : N := 3.
Definition CHECKPOINT_MIN_INTERVAL_BLOCKS : N := 6.
Definition MAX_CHECKPOINT_MINERS : nat := 48.

Inductive IdenaAnchorError :=
| UnsupportedPolicyVersion (version : N)
| InvalidBlockHeight
| InvalidRegistrationSequence
| InvalidRegistrationBlock
| InvalidRegistrationTimestamp
| InvalidRegistryRecord
| InvalidCheckpointRecord
| InvalidCheckpointParent
| InvalidCheckpointQuorum
| InvalidCheckpointScore
| InvalidActivationHeight
| InvalidFinalityConfirmations
| InvalidAnchorAgeWindow
| ZeroRegistryContractAddress
| InvalidRegistryEcosystemCid
| InvalidMinimumRegistrationBurn
| InvalidHandoffVersionBit (bit : N)
| InvalidExperimentId
| InvalidMinerId
| InvalidAnchorIdenaAddress
| InvalidHex (field : string) (bytes : nat)
| ExperimentMismatch
| RegistryContractMismatch
| PolicyCommitmentMismatch
| RegistrationBeforeActivation
| CheckpointBeforeActivation
| AnchorBeforeActivation
| IdenaTipNotFinalized
| AnchorNotFinalized (anchor_height finalized_height : N)
| StaleAnchor (age maximum : N).

(** The [#[error(..)]] texts. *)
Definition display_anchor_error (e : IdenaAnchorError) : string :=
  match e with
  | UnsupportedPolicyVersion v => "unsupported Idena anchor policy version " +:+ pretty v
  | InvalidBlockHeight => "invalid Idena block height"
  | InvalidRegistrationSequence => "invalid miner registration sequence"
  | InvalidRegistrationBlock => "invalid miner registration block"
  | InvalidRegistrationTimestamp => "invalid miner registration timestamp"
  | InvalidRegistryRecord => "invalid or noncanonical miner registry record"
  | InvalidCheckpointRecord => "invalid or noncanonical sharechain checkpoint record"
  | InvalidCheckpointParent => "checkpoint parent does not match its round"
  | InvalidCheckpointQuorum => "checkpoint registered/supporting miner quorum is invalid"
  | InvalidCheckpointScore => "checkpoint cumulative score must be a positive canonical u128 decimal"
  | InvalidActivationHeight => "invalid Idena anchor activation height"
  | InvalidFinalityConfirmations => "Idena anchor finality confirmations must be greater than zero"
  | InvalidAnchorAgeWindow => "Idena anchor age window must cover the finality confirmation depth"
  | ZeroRegistryContractAddress => "registry contract address must not be the zero address"
  | InvalidRegistryEcosystemCid =>
      "registry ecosystem CID must be canonical CIDv1 base32 with SHA2-256 multihash"
  | InvalidMinimumRegistrationBurn =>
      "minimum registration burn must be a positive canonical u128 decimal"
  | InvalidHandoffVersionBit b =>
      "Bitcoin handoff version bit " +:+ pretty b +:+ " is outside the versionbits range 0-28"
  | InvalidExperimentId => "invalid experiment id"
  | InvalidMinerId => "invalid miner id"
  | InvalidAnchorIdenaAddress => "invalid Idena address"
  | InvalidHex field n =>
      "invalid " +:+ field +:+ ": expected " +:+ pretty n +:+ " lowercase hexadecimal bytes"
  | ExperimentMismatch => "miner registry experiment does not match the active policy"
  | RegistryContractMismatch => "miner registry contract does not match the active policy"
  | PolicyCommitmentMismatch => "Idena anchor policy commitment does not match the active policy"
  | RegistrationBeforeActivation => "miner registration predates Idena anchor-policy activation"
  | CheckpointBeforeActivation => "sharechain checkpoint predates Idena anchor-policy activation"
  | AnchorBeforeActivation => "Idena block anchor predates policy activation"
  | IdenaTipNotFinalized => "Idena tip does not have the configured finality depth"
  | AnchorNotFinalized a f =>
      "Idena block anchor " +:+ pretty a +:+ " is newer than finalized height " +:+ pretty f
  | StaleAnchor age maximum =>
      "Idena block anchor is " +:+ pretty age +:+ " blocks old, above maximum " +:+ pretty maximum
  end.

(** ** Field checks *)

Definition experiment_id_char (c : ascii) : bool :=
  is_ascii_lowercase c || is_ascii_digit c ||
  existsb (Ascii.eqb c) ["."; "_"; ":"; "/"; "-"]%char.

Definition validate_experiment_id (value : string) : result IdenaAnchorError unit :=
  if is_empty value || Nat.ltb 64 (String.length value)
     || negb (String.eqb value (to_ascii_lowercase value))
     || negb (all_bytes experiment_id_char value)
  then Err InvalidExperimentId
  else Ok tt.

Definition miner_id_char (c : ascii) : bool :=
  is_ascii_alphanumeric c || Ascii.eqb c "-" || Ascii.eqb c "_" || Ascii.eqb c ".".

Definition validate_miner_id (value : string) : result IdenaAnchorError unit :=
  if is_empty value || Nat.ltb 64 (String.length value) || negb (all_bytes miner_id_char value)
  then Err InvalidMinerId
  else Ok tt.

Definition validate_prefixed_hex (field value : string) (bytes : nat) : result IdenaAnchorError unit :=
  if negb (Nat.eqb (String.length value) (bytes * 2 + 2))
     || negb (starts_with "0x" value)
     || any_bytes (fun c => negb (is_ascii_hexdigit c)) (drop_bytes 2 value)
     || negb (String.eqb value (to_ascii_lowercase value))
  then Err (InvalidHex field bytes)
  else Ok tt.

Definition validate_unprefixed_hex (field value : string) (bytes : nat) : result IdenaAnchorError unit :=
  if negb (Nat.eqb (String.length value) (bytes * 2))
     || any_bytes (fun c => negb (is_ascii_hexdigit c)) value
     || negb (String.eqb value (to_ascii_lowercase value))
  then Err (InvalidHex field bytes)
  else Ok tt.

(** The test shared by [validate_positive_canonical_u128] and
    [validate_positive_checkpoint_score]: their bodies differ in the error. *)
Definition positive_canonical_u128 (value : string) : bool :=
  negb (is_empty value
        || (Nat.ltb 1 (String.length value) && starts_with "0" value)
        || any_bytes (fun c => negb (is_ascii_digit c)) value
        || match parse_uint 128 value with
           | Some amount => negb (0 <? amount)
           | None => true
           end).

Definition validate_positive_canonical_u128 (value : string) : result IdenaAnchorError unit :=
  if positive_canonical_u128 value then Ok tt else Err InvalidMinimumRegistrationBurn.

Definition validate_positive_checkpoint_score (value : string) : result IdenaAnchorError unit :=
  if positive_canonical_u128 value then Ok tt else Err InvalidCheckpointScore.

Definition parse_checkpoint_field {T} (parse : string -> option T) (value : string)
    : result IdenaAnchorError T :=
  if is_empty value
     || (Nat.ltb 1 (String.length value) && starts_with "0" value)
     || any_bytes (fun c => negb (is_ascii_digit c)) value
  then Err InvalidCheckpointRecord
  else ok_or InvalidCheckpointRecord (parse value).

(** The loop of [validate_checkpoint_miner_list]; [seen] is its set. *)
Fixpoint check_miner_list (seen : gset string) (previous : option string) (miners : list string)
    : result IdenaAnchorError unit :=
  match miners with
  | [] => Ok tt
  | miner :: rest =>
      _ ← validate_miner_id miner;
      if negb (String.eqb miner (to_ascii_lowercase miner))
         || match previous with
            | Some value => bool_decide (str_cmp value miner <> Lt)
            | None => false
            end
         || bool_decide (miner ∈ seen)
      then Err InvalidCheckpointRecord
      else check_miner_list ({[miner]} ∪ seen) (Some miner) rest
  end.

Definition validate_checkpoint_miner_list (miners : list string) : result IdenaAnchorError unit :=
  check_miner_list ∅ None miners.

Definition parse_checkpoint_miner_list (value : string) : result IdenaAnchorError (list string) :=
  if is_empty value then Ok []
  else
    let miners := split "," value in
    _ ← validate_checkpoint_miner_list miners;
    Ok miners.

Definition checkpoint_quorum_threshold (registered_count : N) : result IdenaAnchorError N :=
  if (registered_count =? 0) || (N.of_nat MAX_CHECKPOINT_MINERS <? registered_count)
  then Err InvalidCheckpointQuorum
  else ok_or InvalidCheckpointQuorum
    (value ← checked_mul 32 registered_count CHECKPOINT_QUORUM_NUMERATOR;
     value ← checked_add 32 value (CHECKPOINT_QUORUM_DENOMINATOR - 1);
     Some (value / CHECKPOINT_QUORUM_DENOMINATOR)).

Definition normalize_idena_hash (value : string) : result IdenaAnchorError string :=
  _ ← validate_prefixed_hex "Idena block hash" value 32;
  Ok (to_ascii_lowercase value).

Definition normalize_idena_address (value : string) : result IdenaAnchorError string :=
  match validate_prefixed_hex "Idena address" value 20 with
  | Err _ => Err InvalidAnchorIdenaAddress
  | Ok _ => Ok (to_ascii_lowercase value)
  end.

(** [str::trim_start_matches] for a non-empty prefix. *)
Fixpoint trim_start_matches_fuel (fuel : nat) (pre s : string) : string :=
  match fuel with
  | O => s
  | S fuel' => match strip_prefix pre s with
               | Some rest => trim_start_matches_fuel fuel' pre rest
               | None => s
               end
  end.
Definition trim_start_matches (pre s : string) : string :=
  trim_start_matches_fuel (String.length s) pre s.

Definition miner_registry_storage_key (idena_address : string) (registration_sequence : N)
    : result IdenaAnchorError string :=
  if registration_sequence =? 0 then Err InvalidRegistrationSequence
  else
    address ← normalize_idena_address idena_address;
    Ok ("miner:" +:+ trim_start_matches "0x" address +:+ ":" +:+ pretty registration_sequence).

(** ** Block anchors *)

Record IdenaBlockAnchorV1 := { iba_height : N; iba_hash : string }.

Global Instance IdenaBlockAnchorV1_eq_dec : EqDecision IdenaBlockAnchorV1.
Proof. solve_decision. Defined.
Global Instance IdenaBlockAnchorV1_serialize : Serialize IdenaBlockAnchorV1 := fun a =>
  JObj (field "height" (iba_height a) ++ field "hash" (iba_hash a)).

Definition iba_normalized (a : IdenaBlockAnchorV1) : IdenaBlockAnchorV1 :=
  {| iba_height := iba_height a; iba_hash := to_ascii_lowercase (iba_hash a) |}.

Definition iba_validate (a : IdenaBlockAnchorV1) : result IdenaAnchorError unit :=
  if iba_height a =? 0 then Err InvalidBlockHeight
  else validate_prefixed_hex "Idena block hash" (iba_hash a) 32.

(** ** Miner registrations *)

Record MinerRegistryAnchorV1 := {
  mra_contract_address : string;
  mra_experiment_id : string;
  mra_registration_sequence : N;
  mra_registration_block : N;
  mra_registration_epoch : N;
  mra_registration_timestamp : Z;
  mra_registration_commitment : string
}.

Global Instance MinerRegistryAnchorV1_eq_dec : EqDecision MinerRegistryAnchorV1.
Proof. solve_decision. Defined.
Global Instance MinerRegistryAnchorV1_serialize : Serialize MinerRegistryAnchorV1 := fun a =>
  JObj (field "contract_address" (mra_contract_address a) ++
        field "experiment_id" (mra_experiment_id a) ++
        field "registration_sequence" (mra_registration_sequence a) ++
        field "registration_block" (mra_registration_block a) ++
        field "registration_epoch" (mra_registration_epoch a) ++
        field "registration_timestamp" (mra_registration_timestamp a) ++
        field "registration_commitment" (mra_registration_commitment a)).

Definition mra_normalized (a : MinerRegistryAnchorV1) : MinerRegistryAnchorV1 := {|
  mra_contract_address := to_ascii_lowercase (mra_contract_address a);
  mra_experiment_id := to_ascii_lowercase (mra_experiment_id a);
  mra_registration_sequence := mra_registration_sequence a;
  mra_registration_block := mra_registration_block a;
  mra_registration_epoch := mra_registration_epoch a;
  mra_registration_timestamp := mra_registration_timestamp a;
  mra_registration_commitment := to_ascii_lowercase (mra_registration_commitment a) |}.

Definition mra_validate (a : MinerRegistryAnchorV1) : result IdenaAnchorError unit :=
  _ ← validate_prefixed_hex "registry contract address" (mra_contract_address a) 20;
  _ ← validate_experiment_id (mra_experiment_id a);
  if mra_registration_sequence a =? 0 then Err InvalidRegistrationSequence
  else if mra_registration_block a =? 0 then Err InvalidRegistrationBlock
  else if (mra_registration_timestamp a <=? 0)%Z then Err InvalidRegistrationTimestamp
  else validate_unprefixed_hex "registration commitment" (mra_registration_commitment a) 32.

Definition mra_storage_key (a : MinerRegistryAnchorV1) (idena_address : string)
    : result IdenaAnchorError string :=
  miner_registry_storage_key idena_address (mra_registration_sequence a).

Definition mra_canonical_record_line (a : MinerRegistryAnchorV1) (miner_id : string)
    : result IdenaAnchorError string :=
  _ ← validate_miner_id miner_id;
  _ ← mra_validate a;
  Ok (join "|" ["1"; to_ascii_lowercase miner_id; to_ascii_lowercase (mra_registration_commitment a);
                pretty (mra_registration_sequence a); pretty (mra_registration_block a);
                pretty (mra_registration_epoch a); pretty (mra_registration_timestamp a)]).

Definition mra_from_canonical_record_line (contract_address experiment_id record : string)
    : result IdenaAnchorError (string * MinerRegistryAnchorV1) :=
  if Nat.ltb 512 (String.length record) || any_bytes is_ascii_control record
  then Err InvalidRegistryRecord
  else
    match split "|" record with
    | [f0; f1; f2; f3; f4; f5; f6] =>
        if negb (String.eqb f0 "1") then Err InvalidRegistryRecord
        else
          let miner_id := f1 in
          _ ← validate_miner_id miner_id;
          registration_sequence ← ok_or InvalidRegistryRecord (parse_uint 32 f3);
          registration_block ← ok_or InvalidRegistryRecord (parse_uint 64 f4);
          registration_epoch ← ok_or InvalidRegistryRecord (parse_uint 16 f5);
          registration_timestamp ← ok_or InvalidRegistryRecord (parse_int 64 f6);
          let anchor := mra_normalized {|
            mra_contract_address := contract_address;
            mra_experiment_id := experiment_id;
            mra_registration_sequence := registration_sequence;
            mra_registration_block := registration_block;
            mra_registration_epoch := registration_epoch;
            mra_registration_timestamp := registration_timestamp;
            mra_registration_commitment := f2 |} in
          _ ← mra_validate anchor;
          line ← mra_canonical_record_line anchor miner_id;
          if negb (String.eqb line record) then Err InvalidRegistryRecord
          else Ok (miner_id, anchor)
    | _ => Err InvalidRegistryRecord
    end.

(** ** Sharechain checkpoints *)

Record SharechainCheckpointAnchorV1 := {
  cp_contract_address : string;
  cp_experiment_id : string;
  cp_round : N;
  cp_share_tip_hash : string;
  cp_share_height : N;
  cp_cumulative_score : string;
  cp_parent_checkpoint_tip : string;
  cp_finalization_block : N;
  cp_finalization_block_hash : string;
  cp_finalization_epoch : N;
  cp_finalization_timestamp : Z;
  cp_support_count : N;
  cp_registered_count : N;
  cp_registered_miners : list string;
  cp_supporters : list string
}.

Global Instance SharechainCheckpointAnchorV1_eq_dec : EqDecision SharechainCheckpointAnchorV1.
Proof. solve_decision. Defined.
Global Instance SharechainCheckpointAnchorV1_serialize : Serialize SharechainCheckpointAnchorV1 := fun c =>
  JObj (field "contract_address" (cp_contract_address c) ++
        field "experiment_id" (cp_experiment_id c) ++
        field "round" (cp_round c) ++
        field "share_tip_hash" (cp_share_tip_hash c) ++
        field "share_height" (cp_share_height c) ++
        field "cumulative_score" (cp_cumulative_score c) ++
        field "parent_checkpoint_tip" (cp_parent_checkpoint_tip c) ++
        field "finalization_block" (cp_finalization_block c) ++
        field "finalization_block_hash" (cp_finalization_block_hash c) ++
        field "finalization_epoch" (cp_finalization_epoch c) ++
        field "finalization_timestamp" (cp_finalization_timestamp c) ++
        field "support_count" (cp_support_count c) ++
        field "registered_count" (cp_registered_count c) ++
        field "registered_miners" (cp_registered_miners c) ++
        field "supporters" (cp_supporters c)).

Definition cp_normalized (c : SharechainCheckpointAnchorV1) : SharechainCheckpointAnchorV1 := {|
  cp_contract_address := to_ascii_lowercase (cp_contract_address c);
  cp_experiment_id := to_ascii_lowercase (cp_experiment_id c);
  cp_round := cp_round c;
  cp_share_tip_hash := to_ascii_lowercase (cp_share_tip_hash c);
  cp_share_height := cp_share_height c;
  cp_cumulative_score := cp_cumulative_score c;
  cp_parent_checkpoint_tip := to_ascii_lowercase (cp_parent_checkpoint_tip c);
  cp_finalization_block := cp_finalization_block c;
  cp_finalization_block_hash := to_ascii_lowercase (cp_finalization_block_hash c);
  cp_finalization_epoch := cp_finalization_epoch c;
  cp_finalization_timestamp := cp_finalization_timestamp c;
  cp_support_count := cp_support_count c;
  cp_registered_count := cp_registered_count c;
  cp_registered_miners := map to_ascii_lowercase (cp_registered_miners c);
  cp_supporters := map to_ascii_lowercase (cp_supporters c) |}.

(** [slice::binary_search(..).is_ok()]: halve the slice around its middle. *)
Fixpoint binary_search (fuel : nat) (l : list string) (x : string) : bool :=
  match fuel with
  | O => false
  | S fuel' =>
      let mid := Nat.div2 (length l) in
      match l !! mid with
      | None => false
      | Some y => match str_cmp y x with
                  | Eq => true
                  | Lt => binary_search fuel' (drop (S mid) l) x
                  | Gt => binary_search fuel' (take mid l) x
                  end
      end
  end.

Definition cp_validate (c : SharechainCheckpointAnchorV1) : result IdenaAnchorError unit :=
  _ ← validate_prefixed_hex "registry contract address" (cp_contract_address c) 20;
  _ ← validate_experiment_id (cp_experiment_id c);
  if (cp_round c =? 0) || (cp_share_height c =? 0) || (cp_finalization_block c =? 0)
  then Err InvalidCheckpointRecord
  else if (cp_finalization_timestamp c <=? 0)%Z then Err InvalidCheckpointRecord
  else
    _ ← validate_unprefixed_hex "checkpoint share tip" (cp_share_tip_hash c) 32;
    if String.eqb (cp_share_tip_hash c) ZERO_SHARE_PARENT_HASH then Err InvalidCheckpointRecord
    else
      _ ← validate_unprefixed_hex "checkpoint parent share tip" (cp_parent_checkpoint_tip c) 32;
      if negb (Bool.eqb (cp_round c =? 1)
                        (String.eqb (cp_parent_checkpoint_tip c) ZERO_SHARE_PARENT_HASH))
      then Err InvalidCheckpointParent
      else
        _ ← validate_prefixed_hex "checkpoint finalization block hash" (cp_finalization_block_hash c) 32;
        _ ← validate_positive_checkpoint_score (cp_cumulative_score c);
        _ ← validate_checkpoint_miner_list (cp_registered_miners c);
        _ ← validate_checkpoint_miner_list (cp_supporters c);
        let registered := cp_registered_miners c in
        if (match registered with [] => true | _ => false end)
           || Nat.ltb MAX_CHECKPOINT_MINERS (length registered)
           || negb (cp_support_count c =? N.of_nat (length (cp_supporters c)))
           || negb (cp_registered_count c =? N.of_nat (length registered))
           || negb (forallb (binary_search (length registered) registered) (cp_supporters c))
        then Err InvalidCheckpointQuorum
        else
          threshold ← checkpoint_quorum_threshold (cp_registered_count c);
          if cp_support_count c <? threshold then Err InvalidCheckpointQuorum else Ok tt.

Definition cp_canonical_record_line (c : SharechainCheckpointAnchorV1) : result IdenaAnchorError string :=
  _ ← cp_validate c;
  Ok (join "|" ["1"; pretty (cp_round c); cp_share_tip_hash c; pretty (cp_share_height c);
                cp_cumulative_score c; cp_parent_checkpoint_tip c; pretty (cp_finalization_block c);
                pretty (cp_finalization_epoch c); pretty (cp_finalization_timestamp c);
                pretty (cp_support_count c); pretty (cp_registered_count c);
                join "," (cp_registered_miners c); join "," (cp_supporters c)]).

Definition cp_from_canonical_record_line
    (contract_address experiment_id finalization_block_hash record : string)
    : result IdenaAnchorError SharechainCheckpointAnchorV1 :=
  if Nat.ltb 4096 (String.length record) || any_bytes is_ascii_control record
  then Err InvalidCheckpointRecord
  else
    match split "|" record with
    | [f0; f1; f2; f3; f4; f5; f6; f7; f8; f9; f10; f11; f12] =>
        if negb (String.eqb f0 "1") then Err InvalidCheckpointRecord
        else
          round ← parse_checkpoint_field (parse_uint 32) f1;
          share_height ← parse_checkpoint_field (parse_uint 64) f3;
          finalization_block ← parse_checkpoint_field (parse_uint 64) f6;
          finalization_epoch ← parse_checkpoint_field (parse_uint 16) f7;
          finalization_timestamp ← parse_checkpoint_field (parse_int 64) f8;
          support_count ← parse_checkpoint_field (parse_uint 32) f9;
          registered_count ← parse_checkpoint_field (parse_uint 32) f10;
          registered_miners ← parse_checkpoint_miner_list f11;
          supporters ← parse_checkpoint_miner_list f12;
          let checkpoint := cp_normalized {|
            cp_contract_address := contract_address;
            cp_experiment_id := experiment_id;
            cp_round := round;
            cp_share_tip_hash := f2;
            cp_share_height := share_height;
            cp_cumulative_score := f4;
            cp_parent_checkpoint_tip := f5;
            cp_finalization_block := finalization_block;
            cp_finalization_block_hash := finalization_block_hash;
            cp_finalization_epoch := finalization_epoch;
            cp_finalization_timestamp := finalization_timestamp;
            cp_support_count := support_count;
            cp_registered_count := registered_count;
            cp_registered_miners := registered_miners;
            cp_supporters := supporters |} in
          _ ← cp_validate checkpoint;
          line ← cp_canonical_record_line checkpoint;
          if negb (String.eqb line record) then Err InvalidCheckpointRecord
          else Ok checkpoint
    | _ => Err InvalidCheckpointRecord
    end.

Definition cp_storage_key (c : SharechainCheckpointAnchorV1) : string :=
  "checkpoint:final:" +:+ pretty (cp_round c).

Definition cp_finalization_anchor (c : SharechainCheckpointAnchorV1) : IdenaBlockAnchorV1 :=
  {| iba_height := cp_finalization_block c; iba_hash := cp_finalization_block_hash c |}.

(** ** The anchor policy *)

Record IdenaAnchorPolicyV2 := {
  iap_schema_version : N;
  iap_experiment_id : string;
  iap_registry_contract_address : string;
  iap_registry_deployment_tx_hash : string;
  iap_registry_deployment_payload_sha256 : string;
  iap_registry_contract_code_hash : string;
  iap_registry_contract_wasm_sha256 : string;
  iap_registry_ecosystem_cid : string;
  iap_minimum_registration_burn_atoms : string;
  iap_activation_idena_height : N;
  iap_finality_confirmations : N;
  iap_max_anchor_age_blocks : N;
  iap_handoff_version_bit : N
}.

Global Instance IdenaAnchorPolicyV2_eq_dec : EqDecision IdenaAnchorPolicyV2.
Proof. solve_decision. Defined.
Global Instance IdenaAnchorPolicyV2_serialize : Serialize IdenaAnchorPolicyV2 := fun p =>
  JObj (field "schema_version" (iap_schema_version p) ++
        field "experiment_id" (iap_experiment_id p) ++
        field "registry_contract_address" (iap_registry_contract_address p) ++
        field "registry_deployment_tx_hash" (iap_registry_deployment_tx_hash p) ++
        field "registry_deployment_payload_sha256" (iap_registry_deployment_payload_sha256 p) ++
        field "registry_contract_code_hash" (iap_registry_contract_code_hash p) ++
        field "registry_contract_wasm_sha256" (iap_registry_contract_wasm_sha256 p) ++
        field "registry_ecosystem_cid" (iap_registry_ecosystem_cid p) ++
        field "minimum_registration_burn_atoms" (iap_minimum_registration_burn_atoms p) ++
        field "activation_idena_height" (iap_activation_idena_height p) ++
        field "finality_confirmations" (iap_finality_confirmations p) ++
        field "max_anchor_age_blocks" (iap_max_anchor_age_blocks p) ++
        field "handoff_version_bit" (iap_handoff_version_bit p)).

Definition iap_normalized (p : IdenaAnchorPolicyV2) : IdenaAnchorPolicyV2 := {|
  iap_schema_version := iap_schema_version p;
  iap_experiment_id := to_ascii_lowercase (iap_experiment_id p);
  iap_registry_contract_address := to_ascii_lowercase (iap_registry_contract_address p);
  iap_registry_deployment_tx_hash := to_ascii_lowercase (iap_registry_deployment_tx_hash p);
  iap_registry_deployment_payload_sha256 := to_ascii_lowercase (iap_registry_deployment_payload_sha256 p);
  iap_registry_contract_code_hash := to_ascii_lowercase (iap_registry_contract_code_hash p);
  iap_registry_contract_wasm_sha256 := to_ascii_lowercase (iap_registry_contract_wasm_sha256 p);
  iap_registry_ecosystem_cid := iap_registry_ecosystem_cid p;
  iap_minimum_registration_burn_atoms := iap_minimum_registration_burn_atoms p;
  iap_activation_idena_height := iap_activation_idena_height p;
  iap_finality_confirmations := iap_finality_confirmations p;
  iap_max_anchor_age_blocks := iap_max_anchor_age_blocks p;
  iap_handoff_version_bit := iap_handoff_version_bit p |}.

Section policy.
Context `{DateAndCid}.

Definition validate_canonical_cid_v1 (value : string) : result IdenaAnchorError unit :=
  cid ← ok_or InvalidRegistryEcosystemCid (cid_parse value);
  if negb (cid_is_v1 cid) || negb (String.eqb (cid_to_string cid) value)
     || negb (cid_hash_code cid =? 18) || negb (Nat.eqb (cid_digest_len cid) 32)
  then Err InvalidRegistryEcosystemCid
  else Ok tt.

Definition iap_validate (p : IdenaAnchorPolicyV2) : result IdenaAnchorError unit :=
  if negb (iap_schema_version p =? 2) then Err (UnsupportedPolicyVersion (iap_schema_version p))
  else
    _ ← validate_experiment_id (iap_experiment_id p);
    _ ← validate_prefixed_hex "registry contract address" (iap_registry_contract_address p) 20;
    if all_bytes (fun c => Ascii.eqb c "0") (drop_bytes 2 (iap_registry_contract_address p))
    then Err ZeroRegistryContractAddress
    else
      _ ← validate_prefixed_hex "registry deployment transaction hash"
            (iap_registry_deployment_tx_hash p) 32;
      _ ← validate_unprefixed_hex "registry deployment payload SHA-256"
            (iap_registry_deployment_payload_sha256 p) 32;
      _ ← validate_unprefixed_hex "registry contract WASM SHA-256"
            (iap_registry_contract_wasm_sha256 p) 32;
      _ ← validate_unprefixed_hex "registry contract code hash"
            (iap_registry_contract_code_hash p) 32;
      _ ← validate_canonical_cid_v1 (iap_registry_ecosystem_cid p);
      _ ← validate_positive_canonical_u128 (iap_minimum_registration_burn_atoms p);
      if iap_activation_idena_height p =? 0 then Err InvalidActivationHeight
      else if iap_finality_confirmations p =? 0 then Err InvalidFinalityConfirmations
      else if iap_max_anchor_age_blocks p <? iap_finality_confirmations p
      then Err InvalidAnchorAgeWindow
      else if 28 <? iap_handoff_version_bit p
      then Err (InvalidHandoffVersionBit (iap_handoff_version_bit p))
      else Ok tt.

Definition commitment_hash `{Hashing} (p : IdenaAnchorPolicyV2) : result IdenaAnchorError string :=
  let policy := iap_normalized p in
  _ ← iap_validate policy;
  Ok (hash_hex (sha256_tagged (byte_str "POHW_IDENA_ANCHOR_POLICY_V2") (canonical_json policy))).

Definition validate_registry_anchor (p : IdenaAnchorPolicyV2) (anchor : MinerRegistryAnchorV1)
    : result IdenaAnchorError unit :=
  _ ← iap_validate p;
  _ ← mra_validate anchor;
  if negb (eq_ignore_ascii_case (mra_experiment_id anchor) (iap_experiment_id p))
  then Err ExperimentMismatch
  else if negb (eq_ignore_ascii_case (mra_contract_address anchor) (iap_registry_contract_address p))
  then Err RegistryContractMismatch
  else if mra_registration_block anchor <? iap_activation_idena_height p
  then Err RegistrationBeforeActivation
  else Ok tt.

Definition validate_checkpoint_anchor (p : IdenaAnchorPolicyV2) (checkpoint : SharechainCheckpointAnchorV1)
    : result IdenaAnchorError unit :=
  _ ← iap_validate p;
  _ ← cp_validate checkpoint;
  if negb (eq_ignore_ascii_case (cp_experiment_id checkpoint) (iap_experiment_id p))
  then Err ExperimentMismatch
  else if negb (eq_ignore_ascii_case (cp_contract_address checkpoint) (iap_registry_contract_address p))
  then Err RegistryContractMismatch
  else if cp_finalization_block checkpoint <? iap_activation_idena_height p
  then Err CheckpointBeforeActivation
  else Ok tt.

Definition validate_finalized_block_anchor (p : IdenaAnchorPolicyV2) (anchor : IdenaBlockAnchorV1)
    (current_idena_height : N) : result IdenaAnchorError N :=
  _ ← iap_validate p;
  _ ← iba_validate anchor;
  finalized_height ← ok_or IdenaTipNotFinalized
                       (checked_sub current_idena_height (iap_finality_confirmations p));
  if finalized_height <? iba_height anchor
  then Err (AnchorNotFinalized (iba_height anchor) finalized_height)
  else if iba_height anchor <? iap_activation_idena_height p then Err AnchorBeforeActivation
  else Ok finalized_height.

Definition validate_live_block_anchor (p : IdenaAnchorPolicyV2) (anchor : IdenaBlockAnchorV1)
    (current_idena_height : N) : result IdenaAnchorError N :=
  finalized_height ← validate_finalized_block_anchor p anchor current_idena_height;
  let age := finalized_height - iba_height anchor in
  if iap_max_anchor_age_blocks p <? age then Err (StaleAnchor age (iap_max_anchor_age_blocks p))
  else Ok finalized_height.
End policy.

(** [1u32 << bit]; a validated policy has [bit <= 28]. *)
Definition bootstrap_limits_active (p : IdenaAnchorPolicyV2) (bitcoin_header_version : N) : bool :=
  N.land bitcoin_header_version (as_uint 32 (N.shiftl 1 (iap_handoff_version_bit p))) =? 0.

(** ** What the field checks establish *)

Lemma any_bytes_false p s : any_bytes p s = false <-> all_bytes (fun c => negb (p c)) s = true.
Proof. unfold any_bytes. by rewrite negb_false_iff. Qed.

Lemma all_bytes_negb_negb p s :
  all_bytes (fun c => negb (negb (p c))) s = all_bytes p s.
Proof. induction s; simpl; [done|]. by rewrite negb_involutive, IHs. Qed.

Lemma unprefixed_hex_Ok field value n :
  validate_unprefixed_hex field value n = Ok tt <->
  String.length value = (n * 2)%nat /\ all_bytes is_ascii_hexdigit value = true /\
  to_ascii_lowercase value = value.
Proof.
  unfold validate_unprefixed_hex. destruct (Nat.eqb_spec (String.length value) (n * 2)); simpl; [|naive_solver].
  unfold any_bytes. rewrite all_bytes_negb_negb.
  destruct (all_bytes is_ascii_hexdigit value); simpl; [|naive_solver].
  destruct (String.eqb_spec value (to_ascii_lowercase value)); simpl; naive_solver.
Qed.

Lemma prefixed_hex_Ok field value n :
  validate_prefixed_hex field value n = Ok tt ->
  to_ascii_lowercase value = value /\ exists body, value = "0x" +:+ body /\
    all_bytes is_ascii_hexdigit body = true.
Proof.
  unfold validate_prefixed_hex. intros Hv. res_inv. bool_inv. split; [done|].
  unfold starts_with in *. destruct (strip_prefix "0x" value) as [body|] eqn:Hp; [|discriminate].
  apply strip_prefix_Some in Hp. exists body. split; [done|].
  match goal with HH : any_bytes _ _ = false |- _ => apply any_bytes_false in HH;
    rewrite all_bytes_negb_negb, Hp in HH; exact HH end.
Qed.

Lemma experiment_id_lower value : validate_experiment_id value = Ok tt -> to_ascii_lowercase value = value.
Proof. unfold validate_experiment_id. intros Hv. res_inv. by bool_inv. Qed.

Lemma miner_id_Ok value :
  validate_miner_id value = Ok tt <->
  is_empty value = false /\ (String.length value <= 64)%nat /\ all_bytes miner_id_char value = true.
Proof.
  unfold validate_miner_id. destruct (is_empty value); simpl; [naive_solver|].
  destruct (Nat.ltb_spec 64 (String.length value)); simpl; [naive_solver lia|].
  destruct (all_bytes miner_id_char value); simpl; naive_solver.
Qed.

(** ** Separators and control characters *)

(** Characters that neither end a field nor a record. *)
Definition field_char (c : ascii) : bool := negb (Ascii.eqb c "|") && negb (is_ascii_control c).

Lemma hexdigit_field c : is_ascii_hexdigit c = true -> field_char c = true.
Proof. by destruct c as [[] [] [] [] [] [] [] []]. Qed.
Lemma digit_field c : is_ascii_digit c = true -> field_char c = true.
Proof. by destruct c as [[] [] [] [] [] [] [] []]. Qed.
Lemma miner_field c : miner_id_char c = true -> field_char c = true.
Proof. by destruct c as [[] [] [] [] [] [] [] []]. Qed.
Lemma miner_comma c : miner_id_char c = true -> negb (Ascii.eqb c ",") = true.
Proof. by destruct c as [[] [] [] [] [] [] [] []]. Qed.
Lemma miner_char_lower c : miner_id_char (lower_char c) = miner_id_char c.
Proof. by destruct c as [[] [] [] [] [] [] [] []]. Qed.

Lemma all_bytes_app p s1 s2 : all_bytes p (s1 +:+ s2) = all_bytes p s1 && all_bytes p s2.
Proof. induction s1; simpl; [done|]. rewrite IHs1. by destruct (p _). Qed.

Lemma all_bytes_join p sep fs :
  p sep = true -> Forall (fun f => all_bytes p f = true) fs -> all_bytes p (join sep fs) = true.
Proof.
  intros Hs Hf. induction Hf as [|f fs Hf Hfs IH]; [done|]. destruct fs as [|g fs]; [done|].
  change (join sep (f :: g :: fs)) with (f +:+ String sep (join sep (g :: fs))).
  rewrite all_bytes_app. change (all_bytes p (String sep (join sep (g :: fs))))
    with (p sep && all_bytes p (join sep (g :: fs))). by rewrite Hf, Hs, IH.
Qed.

Lemma pretty_field (n : N) : all_bytes field_char (pretty n) = true.
Proof. eapply all_bytes_impl; [|apply pretty_digits]. apply digit_field. Qed.

Lemma pretty_Z_pos (z : Z) : (0 < z)%Z -> pretty z = pretty (Z.to_N z).
Proof. destruct z; done. Qed.

Lemma join_split_fields fs :
  fs <> [] -> Forall (fun f => all_bytes field_char f = true) fs ->
  split "|" (join "|" fs) = fs /\ any_bytes is_ascii_control (join "|" fs) = false.
Proof.
  intros Hne Hf. split.
  - apply split_join; [done|]. eapply Forall_impl; [exact Hf|]. intros f Hf'.
    eapply all_bytes_impl; [|exact Hf']. intros c Hc. unfold field_char in Hc. by apply andb_true_iff in Hc as [? ?].
  - apply any_bytes_false, all_bytes_join; [done|]. eapply Forall_impl; [exact Hf|]. intros f Hf'.
    eapply all_bytes_impl; [|exact Hf']. intros c Hc. unfold field_char in Hc. by apply andb_true_iff in Hc as [? ?].
Qed.

(** ** Canonical numbers *)

Lemma pretty_go_nonzero x s :
  0 < x -> exists c s', pretty_N_go x s = String c s' /\ c <> "0"%char.
Proof.
  revert s. induction (N.lt_wf_0 x) as [x _ IH]; intros s Hx.
  rewrite pretty_N_go_step by lia. destruct (decide (x < 10)) as [Hlt|Hge].
  - rewrite N.div_small, pretty_N_go_0 by done. rewrite N.mod_small by done.
    do 2 eexists. split; [done|]. intros Hc.
    pose proof (digit_value_pretty x Hlt) as Hd. rewrite Hc in Hd. injection Hd. lia.
  - apply IH; [apply N.div_lt; lia|]. apply N.div_str_pos. lia.
Qed.

Lemma pretty_no_leading_zero (n : N) :
  Nat.ltb 1 (String.length (pretty n)) && starts_with "0" (pretty n) = false.
Proof.
  unfold pretty, pretty_N. case_decide as Hn; [done|].
  destruct (pretty_go_nonzero n "") as (c & s & -> & Hc); [lia|].
  apply andb_false_intro2. unfold starts_with. cbn [strip_prefix].
  destruct (Ascii.eqb_spec "0" c); [congruence|done].
Qed.

Lemma parse_field_pretty {T} (parse : string -> option T) (n : N) t :
  parse (pretty n) = Some t -> parse_checkpoint_field parse (pretty n) = Ok t.
Proof.
  intros Hp. unfold parse_checkpoint_field.
  rewrite pretty_nonempty, pretty_no_leading_zero. unfold any_bytes.
  rewrite all_bytes_negb_negb, pretty_digits. simpl. by rewrite Hp.
Qed.

Lemma parse_int_pretty (z : Z) : (0 < z < 2 ^ 63)%Z -> parse_int 64 (pretty z) = Some z.
Proof.
  intros Hz. rewrite pretty_Z_pos by lia. unfold parse_int.
  rewrite digits_no_prefix by (done || apply pretty_digits).
  rewrite parse_uint_pretty; [|unfold fits; change (2 ^ (64 - 1)) with (Z.to_N (2 ^ 63)); lia].
  simpl. f_equal. lia.
Qed.

(** ** Registry records *)

Definition mra_fields (a : MinerRegistryAnchorV1) (miner_id : string) : list string :=
  ["1"; to_ascii_lowercase miner_id; to_ascii_lowercase (mra_registration_commitment a);
   pretty (mra_registration_sequence a); pretty (mra_registration_block a);
   pretty (mra_registration_epoch a); pretty (mra_registration_timestamp a)].

(** The values fit the integer types of the struct. *)
Definition mra_widths (a : MinerRegistryAnchorV1) : Prop :=
  fits 32 (mra_registration_sequence a) /\ fits 64 (mra_registration_block a) /\
  fits 16 (mra_registration_epoch a) /\ (mra_registration_timestamp a < 2 ^ 63)%Z.

Lemma mra_validate_Ok a :
  mra_validate a = Ok tt ->
  mra_normalized a = a /\ (0 < mra_registration_timestamp a)%Z /\
  all_bytes is_ascii_hexdigit (mra_registration_commitment a) = true.
Proof.
  intros Hv. unfold mra_validate in Hv. res_inv. bool_inv.
  apply unprefixed_hex_Ok in Hv as (_ & Hh & Hl).
  repeat match goal with
  | HH : validate_prefixed_hex _ _ _ = Ok _ |- _ => apply prefixed_hex_Ok in HH as [HH _]
  | HH : validate_experiment_id _ = Ok _ |- _ => apply experiment_id_lower in HH
  end.
  split_and!; [|done|done]. destruct a. unfold mra_normalized. simpl in *. congruence.
Qed.

Lemma mra_line_Ok a miner_id record :
  mra_canonical_record_line a miner_id = Ok record <->
  validate_miner_id miner_id = Ok tt /\ mra_validate a = Ok tt /\ record = join "|" (mra_fields a miner_id).
Proof.
  unfold mra_canonical_record_line. fold (mra_fields a miner_id).
  destruct (validate_miner_id miner_id) as [[]|]; simpl; [|naive_solver].
  destruct (mra_validate a) as [[]|]; simpl; naive_solver.
Qed.

Lemma mra_fields_clean a miner_id :
  validate_miner_id miner_id = Ok tt -> mra_validate a = Ok tt ->
  Forall (fun f => all_bytes field_char f = true) (mra_fields a miner_id).
Proof.
  intros (_ & _ & Hm)%miner_id_Ok (_ & Ht & Hc)%mra_validate_Ok.
  repeat constructor; try apply pretty_field.
  - rewrite <-(all_bytes_lower miner_id_char) in Hm by apply miner_char_lower.
    eapply all_bytes_impl; [apply miner_field|done].
  - rewrite <-(all_bytes_lower is_ascii_hexdigit) in Hc by apply hexdigit_lower.
    eapply all_bytes_impl; [apply hexdigit_field|done].
  - rewrite pretty_Z_pos by done. apply pretty_field.
Qed.


Lemma parse_uint_fits bits s n : parse_uint bits s = Some n -> fits bits n.
Proof.
  unfold parse_uint. destruct (is_empty _); [done|].
  destruct (parse_digits 0 _) as [m|]; simpl; [|done].
  destruct (N.ltb_spec m (2 ^ bits)); [|done]. intros [= <-]. done.
Qed.

Lemma parse_int_lt s z : parse_int 64 s = Some z -> (z < 2 ^ 63)%Z.
Proof.
  unfold parse_int. destruct (strip_prefix "-" s) as [body|].
  - destruct (is_empty body); [done|]. destruct (parse_digits 0 body) as [n|]; simpl; [|done].
    destruct (n <=? _); [|done]. intros [= <-]. lia.
  - destruct (parse_uint (64 - 1) s) as [n|] eqn:Hp; simpl; [|done]. intros [= <-].
    apply parse_uint_fits in Hp. unfold fits in Hp. change (2 ^ (64 - 1)) with (Z.to_N (2 ^ 63)) in Hp. lia.
Qed.

Lemma registry_parse_sound contract experiment record miner_id a :
  mra_from_canonical_record_line contract experiment record = Ok (miner_id, a) ->
  mra_canonical_record_line a miner_id = Ok record /\ to_ascii_lowercase miner_id = miner_id /\
  mra_contract_address a = to_ascii_lowercase contract /\
  mra_experiment_id a = to_ascii_lowercase experiment /\
  mra_widths a /\ (String.length record <= 512)%nat.
Proof.
  unfold mra_from_canonical_record_line. intros Hp. res_inv.
  destruct (split "|" record) as [|f0 [|f1 [|f2 [|f3 [|f4 [|f5 [|f6 [|]]]]]]]] eqn:Hs; try discriminate.
  res_inv. bool_inv. simplify_eq.
  match goal with HH : mra_canonical_record_line ?a0 _ = Ok _ |- _ => set (a := a0) in *; rename HH into Hl end.
  pose proof Hl as (Hm & Hv & Hr)%mra_line_Ok.
  destruct (join_split_fields (mra_fields a miner_id)) as [Hj _]; [done|by apply mra_fields_clean|].
  rewrite <-Hr, Hs in Hj. injection Hj as Hlow _ _ _ _ _.
  split_and!; try done.
  unfold mra_widths, a. simpl.
  split_and!; eauto using parse_uint_fits, parse_int_lt.
Qed.

Lemma registry_parse_complete contract experiment record miner_id a :
  mra_canonical_record_line a miner_id = Ok record -> to_ascii_lowercase miner_id = miner_id ->
  mra_contract_address a = to_ascii_lowercase contract ->
  mra_experiment_id a = to_ascii_lowercase experiment ->
  mra_widths a -> (String.length record <= 512)%nat ->
  mra_from_canonical_record_line contract experiment record = Ok (miner_id, a).
Proof.
  intros Hl Hlow Hc He (Hw1 & Hw2 & Hw3 & Hw4) Hlen. pose proof Hl as (Hm & Hv & Hr)%mra_line_Ok.
  pose proof (mra_validate_Ok _ Hv) as (Hn & Ht & _).
  destruct (join_split_fields (mra_fields a miner_id)) as [Hj Hctl]; [done|by apply mra_fields_clean|].
  unfold mra_from_canonical_record_line. rewrite Hr at 2. rewrite Hctl.
  rewrite (proj2 (Nat.ltb_ge _ _) Hlen). simpl orb. cbv iota. rewrite Hr at 1. rewrite Hj.
  unfold mra_fields. cbv iota. simpl negb. cbv iota. rewrite Hlow, Hm.
  cbn [mbind result_bind]. rewrite !parse_uint_pretty, parse_int_pretty by (done || lia).
  cbn [ok_or mbind result_bind].
  match goal with |- context [mra_normalized ?x] => assert (mra_normalized x = a) as -> end.
  { transitivity (mra_normalized a); [|done]. unfold mra_normalized. simpl.
    by rewrite Hc, He, !lower_idemp. }
  rewrite Hv. cbn [mbind result_bind]. rewrite Hl. cbn [mbind result_bind].
  by rewrite String.eqb_refl.
Qed.

(** ** Miner lists *)

Lemma check_miner_list_Ok seen prev miners :
  check_miner_list seen prev miners = Ok tt ->
  Forall (fun m => validate_miner_id m = Ok tt /\ to_ascii_lowercase m = m) miners /\
  NoDup miners /\ Forall (fun m => m ∉ seen) miners.
Proof.
  revert seen prev. induction miners as [|m miners IH]; intros seen prev Hc; simpl in Hc.
  { split_and!; constructor. }
  res_inv. bool_inv.
  match goal with HH : validate_miner_id m = Ok _ |- _ => rename HH into Hm end.
  apply IH in Hc as (Hv & Hnd & Hseen). rewrite !Forall_cons, NoDup_cons.
  split_and!; try done.
  - rewrite Forall_forall in Hseen. intros Hin. specialize (Hseen _ Hin). set_solver.
  - eapply Forall_impl; [exact Hseen|]. set_solver.
Qed.

Lemma miner_list_Ok miners :
  validate_checkpoint_miner_list miners = Ok tt ->
  Forall (fun m => validate_miner_id m = Ok tt /\ to_ascii_lowercase m = m) miners /\ NoDup miners.
Proof. intros (Hv & Hnd & _)%check_miner_list_Ok. done. Qed.

Lemma miner_list_lower miners :
  validate_checkpoint_miner_list miners = Ok tt -> map to_ascii_lowercase miners = miners.
Proof.
  intros [Hv _]%miner_list_Ok. induction Hv as [|m miners [_ Hm] _ IH]; simpl; [done|]. by rewrite Hm, IH.
Qed.

Lemma parse_miner_list_join miners :
  validate_checkpoint_miner_list miners = Ok tt ->
  parse_checkpoint_miner_list (join "," miners) = Ok miners.
Proof.
  intros Hv. pose proof (miner_list_Ok _ Hv) as [Hall _]. unfold parse_checkpoint_miner_list.
  destruct miners as [|m miners]; [done|].
  assert (is_empty (join "," (m :: miners)) = false) as ->.
  { apply Forall_cons in Hall as [[(Hne & _)%miner_id_Ok _] _].
    destruct m; [done|]. by destruct miners. }
  rewrite split_join; [by rewrite Hv|done|].
  eapply Forall_impl; [exact Hall|]. intros x [(_ & _ & Hc)%miner_id_Ok _].
  eapply all_bytes_impl; [apply miner_comma|done].
Qed.

Lemma miner_list_field miners :
  validate_checkpoint_miner_list miners = Ok tt -> all_bytes field_char (join "," miners) = true.
Proof.
  intros [Hall _]%miner_list_Ok. apply all_bytes_join; [done|].
  eapply Forall_impl; [exact Hall|]. intros x [(_ & _ & Hc)%miner_id_Ok _].
  eapply all_bytes_impl; [apply miner_field|done].
Qed.

(** ** Checkpoint records *)

Definition cp_fields (c : SharechainCheckpointAnchorV1) : list string :=
  ["1"; pretty (cp_round c); cp_share_tip_hash c; pretty (cp_share_height c);
   cp_cumulative_score c; cp_parent_checkpoint_tip c; pretty (cp_finalization_block c);
   pretty (cp_finalization_epoch c); pretty (cp_finalization_timestamp c);
   pretty (cp_support_count c); pretty (cp_registered_count c);
   join "," (cp_registered_miners c); join "," (cp_supporters c)].

Definition cp_widths (c : SharechainCheckpointAnchorV1) : Prop :=
  fits 32 (cp_round c) /\ fits 64 (cp_share_height c) /\ fits 64 (cp_finalization_block c) /\
  fits 16 (cp_finalization_epoch c) /\ (cp_finalization_timestamp c < 2 ^ 63)%Z /\
  fits 32 (cp_support_count c) /\ fits 32 (cp_registered_count c).

(** The facts a successful [cp_validate] provides. *)
Record checkpoint_facts (c : SharechainCheckpointAnchorV1) : Prop := {
  cpf_normal : cp_normalized c = c;
  cpf_timestamp : (0 < cp_finalization_timestamp c)%Z;
  cpf_tip : all_bytes is_ascii_hexdigit (cp_share_tip_hash c) = true;
  cpf_parent : all_bytes is_ascii_hexdigit (cp_parent_checkpoint_tip c) = true;
  cpf_score : all_bytes is_ascii_digit (cp_cumulative_score c) = true;
  cpf_registered : validate_checkpoint_miner_list (cp_registered_miners c) = Ok tt;
  cpf_supporters : validate_checkpoint_miner_list (cp_supporters c) = Ok tt;
  cpf_support_count : cp_support_count c = N.of_nat (length (cp_supporters c));
  cpf_registered_count : cp_registered_count c = N.of_nat (length (cp_registered_miners c));
  cpf_members : forallb (binary_search (length (cp_registered_miners c)) (cp_registered_miners c))
                        (cp_supporters c) = true;
  cpf_quorum : exists t, checkpoint_quorum_threshold (cp_registered_count c) = Ok t /\
                         t <= cp_support_count c
}.

Lemma positive_score_digits s : positive_canonical_u128 s = true -> all_bytes is_ascii_digit s = true.
Proof.
  unfold positive_canonical_u128. rewrite negb_true_iff. intros Hp. bool_inv.
  match goal with HH : any_bytes _ _ = false |- _ =>
    apply any_bytes_false in HH; by rewrite all_bytes_negb_negb in HH end.
Qed.

Lemma cp_validate_Ok c : cp_validate c = Ok tt -> checkpoint_facts c.
Proof.
  intros Hv. unfold cp_validate in Hv. res_inv. bool_inv.
  repeat match goal with
  | HH : validate_prefixed_hex _ _ _ = Ok _ |- _ => apply prefixed_hex_Ok in HH as [? _]
  | HH : validate_unprefixed_hex _ _ _ = Ok _ |- _ => apply unprefixed_hex_Ok in HH as (_ & ? & ?)
  | HH : validate_experiment_id _ = Ok _ |- _ => apply experiment_id_lower in HH
  | HH : validate_positive_checkpoint_score _ = Ok _ |- _ =>
      unfold validate_positive_checkpoint_score in HH; res_inv
  end.
  assert (cp_normalized c = c) as Hn.
  { assert (map to_ascii_lowercase (cp_registered_miners c) = cp_registered_miners c)
      by (by apply miner_list_lower).
    assert (map to_ascii_lowercase (cp_supporters c) = cp_supporters c) by (by apply miner_list_lower).
    destruct c. unfold cp_normalized. simpl in *. congruence. }
  split; try done; [by apply positive_score_digits|eauto].
Qed.

Lemma cp_line_Ok c record :
  cp_canonical_record_line c = Ok record <-> cp_validate c = Ok tt /\ record = join "|" (cp_fields c).
Proof.
  unfold cp_canonical_record_line. fold (cp_fields c).
  destruct (cp_validate c) as [[]|]; simpl; naive_solver.
Qed.

Lemma cp_fields_clean c :
  cp_validate c = Ok tt -> Forall (fun f => all_bytes field_char f = true) (cp_fields c).
Proof.
  intros Hf%cp_validate_Ok.
  assert (forall s, all_bytes is_ascii_hexdigit s = true -> all_bytes field_char s = true) as Hhex
    by (intros s; apply all_bytes_impl, hexdigit_field).
  repeat constructor; try apply pretty_field; try (apply Hhex; apply Hf); try (apply miner_list_field, Hf).
  - eapply all_bytes_impl; [apply digit_field|apply Hf].
  - rewrite pretty_Z_pos by apply Hf. apply pretty_field.
Qed.

Lemma parse_field_inv {T} (parse : string -> option T) s t :
  parse_checkpoint_field parse s = Ok t -> parse s = Some t.
Proof. unfold parse_checkpoint_field. intros Hp. by res_inv. Qed.

Lemma checkpoint_parse_sound contract experiment fhash record c :
  cp_from_canonical_record_line contract experiment fhash record = Ok c ->
  cp_canonical_record_line c = Ok record /\
  cp_contract_address c = to_ascii_lowercase contract /\
  cp_experiment_id c = to_ascii_lowercase experiment /\
  cp_finalization_block_hash c = to_ascii_lowercase fhash /\
  cp_widths c /\ (String.length record <= 4096)%nat.
Proof.
  unfold cp_from_canonical_record_line. intros Hp. res_inv.
  destruct (split "|" record) as [|f0 [|f1 [|f2 [|f3 [|f4 [|f5 [|f6 [|f7 [|f8 [|f9 [|f10 [|f11 [|f12
    [|]]]]]]]]]]]]]]; try discriminate.
  res_inv. bool_inv. subst c. subst.
  repeat match goal with HH : parse_checkpoint_field _ _ = Ok _ |- _ => apply parse_field_inv in HH end.
  split_and!; try done. unfold cp_widths. simpl. split_and!; eauto using parse_uint_fits, parse_int_lt.
Qed.

Lemma checkpoint_parse_complete contract experiment fhash record c :
  cp_canonical_record_line c = Ok record ->
  cp_contract_address c = to_ascii_lowercase contract ->
  cp_experiment_id c = to_ascii_lowercase experiment ->
  cp_finalization_block_hash c = to_ascii_lowercase fhash ->
  cp_widths c -> (String.length record <= 4096)%nat ->
  cp_from_canonical_record_line contract experiment fhash record = Ok c.
Proof.
  intros Hl Hc He Hh (Hw1 & Hw2 & Hw3 & Hw4 & Hw5 & Hw6 & Hw7) Hlen. pose proof Hl as (Hv & Hr)%cp_line_Ok.
  pose proof (cp_validate_Ok _ Hv) as Hf.
  destruct (join_split_fields (cp_fields c)) as [Hj Hctl]; [done|by apply cp_fields_clean|].
  unfold cp_from_canonical_record_line. rewrite Hr at 2. rewrite Hctl.
  rewrite (proj2 (Nat.ltb_ge _ _) Hlen). simpl orb. cbv iota. rewrite Hr at 1. rewrite Hj.
  unfold cp_fields. cbv iota. simpl negb. cbv iota.
  rewrite (parse_field_pretty (parse_uint 32) (cp_round c) (cp_round c)) by (by apply parse_uint_pretty).
  rewrite (parse_field_pretty (parse_uint 64) (cp_share_height c) (cp_share_height c)) by (by apply parse_uint_pretty).
  rewrite (parse_field_pretty (parse_uint 64) (cp_finalization_block c) (cp_finalization_block c)) by (by apply parse_uint_pretty).
  rewrite (parse_field_pretty (parse_uint 16) (cp_finalization_epoch c) (cp_finalization_epoch c)) by (by apply parse_uint_pretty).
  rewrite (parse_field_pretty (parse_uint 32) (cp_support_count c) (cp_support_count c)) by (by apply parse_uint_pretty).
  rewrite (parse_field_pretty (parse_uint 32) (cp_registered_count c) (cp_registered_count c)) by (by apply parse_uint_pretty).
  assert (parse_checkpoint_field (parse_int 64) (pretty (cp_finalization_timestamp c)) =
          Ok (cp_finalization_timestamp c)) as ->.
  { rewrite pretty_Z_pos by apply Hf. apply parse_field_pretty. rewrite <-pretty_Z_pos by apply Hf.
    apply parse_int_pretty. pose proof (cpf_timestamp _ Hf). lia. }
  rewrite !parse_miner_list_join by apply Hf. cbn [mbind result_bind].
  match goal with |- context [cp_normalized ?x] => assert (cp_normalized x = c) as -> end.
  { transitivity (cp_normalized c); [|apply Hf]. unfold cp_normalized. simpl.
    by rewrite Hc, He, Hh, !lower_idemp. }
  rewrite Hv. cbn [mbind result_bind]. rewrite Hl. cbn [mbind result_bind].
  by rewrite String.eqb_refl.
Qed.

(** ** Quorums *)

Lemma binary_search_elem fuel l x : binary_search fuel l x = true -> x ∈ l.
Proof.
  revert l. induction fuel as [|fuel IH]; intros l; simpl; [done|].
  destruct (l !! Nat.div2 (length l)) as [y|] eqn:Hy; [|done].
  destruct (str_cmp y x) eqn:Hc.
  - intros _. apply str_cmp_Eq in Hc as ->. by apply list_elem_of_lookup_2 in Hy.
  - intros (i & Hi)%IH%list_elem_of_lookup. rewrite lookup_drop in Hi.
    by apply list_elem_of_lookup_2 in Hi.
  - intros (i & Hi & _)%IH%elem_of_take. by apply list_elem_of_lookup_2 in Hi.
Qed.

(** On a sorted slice the search misses nothing. *)
Lemma binary_search_sorted fuel l x :
  StronglySorted (fun a b => str_cmp a b = Lt) l -> (length l <= fuel)%nat -> x ∈ l ->
  binary_search fuel l x = true.
Proof.
  revert l. induction fuel as [|fuel IH]; intros l Hs Hf Hin.
  { destruct l; [by apply not_elem_of_nil in Hin|simpl in Hf; lia]. }
  destruct l as [|z l']; [by apply not_elem_of_nil in Hin|]. set (l := z :: l') in *.
  set (mid := Nat.div2 (length l)). cbn [binary_search]. fold mid.
  assert (mid < length l)%nat as Hlt by (apply Nat.lt_div2; simpl; lia).
  destruct (lookup_lt_is_Some_2 l mid Hlt) as [y Hy]. rewrite Hy.
  rewrite <-(take_drop_middle l mid y Hy) in Hs, Hin.
  apply StronglySorted_app in Hs as (Hcross & Hs1 & Hs2). inversion Hs2 as [|?? Hs3 Hys]; subst.
  assert (forall w, w ∈ take mid l -> str_cmp w y = Lt) as Hbefore by (intros w Hw; apply Hcross; [done|left]).
  rewrite Forall_forall in Hys. apply elem_of_app in Hin as [Hin|[->|Hin]%elem_of_cons].
  - pose proof (Hbefore x Hin) as Hxy. rewrite (cmp_antisym str_cmp x y), Hxy. simpl.
    apply IH; [done|rewrite length_take; lia|done].
  - by rewrite (cmp_refl str_cmp).
  - rewrite (Hys x Hin). apply IH; [done|rewrite length_drop; lia|done].
Qed.

Lemma quorum_threshold_spec n t :
  checkpoint_quorum_threshold n = Ok t <->
  1 <= n <= 48 /\ 2 * n <= 3 * t /\ 3 * t < 2 * n + 3.
Proof.
  unfold checkpoint_quorum_threshold, MAX_CHECKPOINT_MINERS, CHECKPOINT_QUORUM_NUMERATOR,
    CHECKPOINT_QUORUM_DENOMINATOR. change (N.of_nat 48) with 48.
  destruct (N.eqb_spec n 0); [naive_solver lia|]. destruct (N.ltb_spec 48 n); simpl orb; cbv iota;
    [naive_solver lia|].
  assert (checked_mul 32 n 2 = Some (n * 2)) as -> by (apply checked_mul_Some; unfold fits; lia).
  cbn [mbind option_bind]. change (3 - 1) with 2.
  assert (checked_add 32 (n * 2) 2 = Some (n * 2 + 2)) as ->
    by (apply checked_add_Some; unfold fits; lia). cbn [mbind option_bind ok_or].
  pose proof (N.Div0.div_mod (n * 2 + 2) 3) as Hd. pose proof (N.mod_lt (n * 2 + 2) 3 ltac:(done)).
  set (q := (n * 2 + 2) / 3) in *. set (r := (n * 2 + 2) mod 3) in *. clearbody q r.
  split; [intros [= <-]; lia|]. intros Ht. f_equal. lia.
Qed.

Lemma size_intersection_bound (A B R : gset string) :
  A ⊆ R -> B ⊆ R -> (size A + size B <= size R + size (A ∩ B))%nat.
Proof.
  intros HA HB. assert (size (A ∪ B) <= size R)%nat by (apply subseteq_size; set_solver).
  rewrite size_union_alt in *.
  assert (size B = size (B ∖ A) + size (A ∩ B))%nat; [|lia].
  rewrite <-(size_union (B ∖ A) (A ∩ B)) by set_solver. f_equal. apply set_eq. intros x.
  rewrite elem_of_union, elem_of_difference, elem_of_intersection.
  destruct (decide (x ∈ A)); naive_solver.
Qed.

Lemma supporters_subset c :
  checkpoint_facts c ->
  (list_to_set (cp_supporters c) : gset string) ⊆ list_to_set (cp_registered_miners c).
Proof.
  intros Hf x. rewrite !elem_of_list_to_set. intros Hx.
  eapply binary_search_elem. pose proof (cpf_members _ Hf) as Hm. rewrite forallb_forall in Hm.
  apply Hm. by apply list_elem_of_In.
Qed.

(** (round trip). The registry parser accepts exactly the lines that
    [canonical_record_line] prints: it returns the miner and the anchor whose
    line was given, and rejects every other spelling of the same values. *)
Theorem registry_record_roundtrip contract experiment record miner_id a :
  mra_from_canonical_record_line contract experiment record = Ok (miner_id, a) <->
  mra_canonical_record_line a miner_id = Ok record /\ to_ascii_lowercase miner_id = miner_id /\
  mra_contract_address a = to_ascii_lowercase contract /\
  mra_experiment_id a = to_ascii_lowercase experiment /\
  mra_widths a /\ (String.length record <= 512)%nat.
Proof.
  split; [apply registry_parse_sound|]. intros (? & ? & ? & ? & ? & ?). by apply registry_parse_complete.
Qed.

(** (round trip). The checkpoint parser accepts exactly the lines of at most
    4096 bytes that [canonical_record_line] prints for a valid checkpoint. *)
Theorem checkpoint_record_roundtrip contract experiment fhash record c :
  cp_from_canonical_record_line contract experiment fhash record = Ok c <->
  cp_canonical_record_line c = Ok record /\
  cp_contract_address c = to_ascii_lowercase contract /\
  cp_experiment_id c = to_ascii_lowercase experiment /\
  cp_finalization_block_hash c = to_ascii_lowercase fhash /\
  cp_widths c /\ (String.length record <= 4096)%nat.
Proof.
  split; [apply checkpoint_parse_sound|]. intros (? & ? & ? & ? & ? & ?).
  by apply checkpoint_parse_complete.
Qed.

(** (quorum intersection). Two valid checkpoints over the same registered
    miners have common supporters, at least a third of all miners: two
    conflicting checkpoints of a round need that many double votes. *)
Theorem checkpoint_quorums_intersect c1 c2 :
  cp_validate c1 = Ok tt -> cp_validate c2 = Ok tt ->
  cp_registered_miners c1 = cp_registered_miners c2 ->
  let common := list_to_set (cp_supporters c1) ∩ list_to_set (cp_supporters c2) : gset string in
  (0 < size common)%nat /\ (length (cp_registered_miners c1) <= 3 * size common)%nat.
Proof.
  intros Hf1%cp_validate_Ok Hf2%cp_validate_Ok Heq common.
  pose proof (size_intersection_bound (list_to_set (cp_supporters c1)) (list_to_set (cp_supporters c2))
    (list_to_set (cp_registered_miners c1)) (supporters_subset _ Hf1)
    ltac:(rewrite Heq; apply supporters_subset; done)) as Hb. fold common in Hb.
  pose proof (miner_list_Ok _ (cpf_registered _ Hf1)) as [_ Hr1].
  pose proof (miner_list_Ok _ (cpf_supporters _ Hf1)) as [_ Hs1].
  pose proof (miner_list_Ok _ (cpf_supporters _ Hf2)) as [_ Hs2].
  rewrite !size_list_to_set in Hb by done.
  pose proof (cpf_support_count _ Hf1). pose proof (cpf_support_count _ Hf2).
  pose proof (cpf_registered_count _ Hf1) as Hn1. pose proof (cpf_registered_count _ Hf2) as Hn2.
  destruct (cpf_quorum _ Hf1) as (t1 & Ht1%quorum_threshold_spec & Hle1).
  destruct (cpf_quorum _ Hf2) as (t2 & Ht2%quorum_threshold_spec & Hle2).
  rewrite <-Heq in Hn2. lia.
Qed.

Lemma finalized_anchor_Ok `{DateAndCid} p a height f :
  validate_finalized_block_anchor p a height = Ok f <->
  iap_validate p = Ok tt /\ iba_validate a = Ok tt /\
  f + iap_finality_confirmations p = height /\
  iap_activation_idena_height p <= iba_height a <= f.
Proof.
  unfold validate_finalized_block_anchor.
  destruct (iap_validate p) as [[]|]; simpl; [|naive_solver].
  destruct (iba_validate a) as [[]|]; simpl; [|naive_solver]. unfold checked_sub.
  destruct (N.leb_spec (iap_finality_confirmations p) height); simpl; [|split; [done|lia]].
  destruct (N.ltb_spec (height - iap_finality_confirmations p) (iba_height a)); [split; [done|lia]|].
  destruct (N.ltb_spec (iba_height a) (iap_activation_idena_height p)); [split; [done|lia]|].
  split; [intros [= <-]; split_and!; (done || lia)|]. intros (_ & _ & ? & ?). f_equal. lia.
Qed.

(** (anchor window). A live Idena anchor is accepted exactly when policy and
    anchor are well formed and the anchor lies between the activation height and
    the finalised height, at most [max_anchor_age_blocks] below it; the result is
    the finalised height.  The subtraction in the age cannot underflow. *)
Theorem live_anchor_window `{DateAndCid} p a height f :
  validate_live_block_anchor p a height = Ok f <->
  iap_validate p = Ok tt /\ iba_validate a = Ok tt /\
  f + iap_finality_confirmations p = height /\
  iap_activation_idena_height p <= iba_height a <= f /\
  f <= iba_height a + iap_max_anchor_age_blocks p.
Proof.
  unfold validate_live_block_anchor. rewrite bind_Ok. split.
  - intros (f' & Hf & Ha). res_inv. subst f'. bool_inv.
    apply finalized_anchor_Ok in Hf as (? & ? & ? & ?). split_and!; (done || lia).
  - intros (? & ? & ? & [? ?] & ?). exists f. rewrite finalized_anchor_Ok. split; [by split_and!|].
    rewrite (proj2 (N.ltb_ge _ _)) by lia. done.
Qed.

(** ** Concrete checkpoints *)

Definition sample_address : string := "0x" +:+ repeat_char "a" 40.

Definition sample_checkpoint (tip : string) (supporters : list string) : SharechainCheckpointAnchorV1 := {|
  cp_contract_address := sample_address;
  cp_experiment_id := "exp-1";
  cp_round := 1;
  cp_share_tip_hash := tip;
  cp_share_height := 12;
  cp_cumulative_score := "345";
  cp_parent_checkpoint_tip := ZERO_SHARE_PARENT_HASH;
  cp_finalization_block := 1000;
  cp_finalization_block_hash := "0x" +:+ repeat_char "b" 64;
  cp_finalization_epoch := 7;
  cp_finalization_timestamp := 1700000000;
  cp_support_count := N.of_nat (length supporters);
  cp_registered_count := 4;
  cp_registered_miners := ["m1"; "m2"; "m3"; "m4"];
  cp_supporters := supporters |}.

Definition sample_checkpoint_1 := sample_checkpoint (repeat_char "c" 64) ["m1"; "m2"; "m3"].
Definition sample_checkpoint_2 := sample_checkpoint (repeat_char "d" 64) ["m2"; "m3"; "m4"].

Lemma sample_checkpoints_valid :
  cp_validate sample_checkpoint_1 = Ok tt /\ cp_validate sample_checkpoint_2 = Ok tt.
Proof. split; vm_compute; reflexivity. Qed.

Lemma checkpoint_quorums_intersect_witness :
  (0 < size (list_to_set (cp_supporters sample_checkpoint_1) ∩
             list_to_set (cp_supporters sample_checkpoint_2) : gset string))%nat.
Proof.
  exact (proj1 (checkpoint_quorums_intersect sample_checkpoint_1 sample_checkpoint_2
    (proj1 sample_checkpoints_valid) (proj2 sample_checkpoints_valid) eq_refl)).
Defined.

(** A checkpoint of [MAX_CHECKPOINT_MINERS] miners with 64-character ids. *)
Definition long_miner (i : nat) : string :=
  "m" +:+ pretty (Nat.div i 10) +:+ pretty (Nat.modulo i 10) +:+ repeat_char "a" 61.

Definition large_checkpoint : SharechainCheckpointAnchorV1 := {|
  cp_contract_address := sample_address;
  cp_experiment_id := "exp-1";
  cp_round := 1;
  cp_share_tip_hash := repeat_char "c" 64;
  cp_share_height := 12;
  cp_cumulative_score := "345";
  cp_parent_checkpoint_tip := ZERO_SHARE_PARENT_HASH;
  cp_finalization_block := 1000;
  cp_finalization_block_hash := "0x" +:+ repeat_char "b" 64;
  cp_finalization_epoch := 7;
  cp_finalization_timestamp := 1700000000;
  cp_support_count := 48;
  cp_registered_count := 48;
  cp_registered_miners := map long_miner (seq 0 48);
  cp_supporters := map long_miner (seq 0 48) |}.

(** (record size). The bounds on miner count and id length admit checkpoints
    whose canonical line the parser rejects: it is longer than the 4096 bytes
    that parser and contract storage allow. *)
Theorem large_checkpoint_line_rejected :
  cp_validate large_checkpoint = Ok tt /\
  exists line, cp_canonical_record_line large_checkpoint = Ok line /\
    (4096 < String.length line)%nat /\
    forall contract experiment fhash,
      cp_from_canonical_record_line contract experiment fhash line = Err InvalidCheckpointRecord.
Proof.
  assert (cp_validate large_checkpoint = Ok tt) as Hv by (vm_compute; reflexivity).
  split; [exact Hv|]. exists (join "|" (cp_fields large_checkpoint)).
  assert (Nat.ltb 4096 (String.length (join "|" (cp_fields large_checkpoint))) = true) as Hlen
    by (vm_compute; reflexivity).
  split; [apply cp_line_Ok; split; [exact Hv|reflexivity]|].
  split; [exact (proj1 (Nat.ltb_lt _ _) Hlen)|].
  intros contract experiment fhash. unfold cp_from_canonical_record_line.
  rewrite Hlen. reflexivity.
Qed.
