(* ===== verification/GossipNetwork.v ===== *)
(** * Gossip errors and network ids ([crates/pohw-core/src/gossip.rs])

    The part of the gossip module that share-work bindings depend on. *)
From S2P Require Import Prelude Order Text Crates.

Inductive GossipError :=
| UnsupportedProtocol (version : string)
| UnexpectedNetworkId
| MissingNetworkId
| InvalidNetworkId (reason : string)
| NetworkMismatch (expected actual : string)
| InvalidPeerPubkey (reason : string)
| InvalidNonce (reason : string)
| FutureTimestamp (created_at_unix now_unix : Z)
| StaleTimestamp (created_at_unix now_unix : Z)
| GossipMissingSignature
| SigningKeyMismatch
| GossipInvalidSignature (reason : string).

(** The [#[error(..)]] texts. *)
Definition display_gossip_error (e : GossipError) : string :=
  match e with
  | UnsupportedProtocol v => "unsupported gossip protocol version " +:+ v
  | UnexpectedNetworkId => "legacy gossip protocol must not carry a network id"
  | MissingNetworkId => "network-bound gossip protocol requires a network id"
  | InvalidNetworkId r => "invalid gossip network id: " +:+ r
  | NetworkMismatch expected actual =>
      "gossip envelope network " +:+ actual +:+ " does not match expected network " +:+ expected
  | InvalidPeerPubkey r => "invalid gossip peer pubkey: " +:+ r
  | InvalidNonce r => "invalid gossip nonce: " +:+ r
  | FutureTimestamp c n =>
      "gossip envelope timestamp " +:+ pretty c +:+ " is too far in the future relative to " +:+ pretty n
  | StaleTimestamp c n =>
      "gossip envelope timestamp " +:+ pretty c +:+ " is older than max age at " +:+ pretty n
  | GossipMissingSignature => "missing gossip envelope signature"
  | SigningKeyMismatch => "gossip signing key does not match envelope peer pubkey"
  | GossipInvalidSignature r => "invalid gossip envelope signature: " +:+ r
  end.

(** [normalize_hex_32]; [normalize_gossip_network_id] has the same body with a
    fixed error. *)
Definition normalize_hex_32 (value : string) (err : string -> GossipError) : result GossipError string :=
  let value := to_ascii_lowercase (default value (strip_prefix "0x" value)) in
  if negb (Nat.eqb (String.length value) 64) || negb (all_bytes is_ascii_hexdigit value)
  then Err (err "value must be 32 bytes encoded as 64 hex characters"%string)
  else Ok value.

Definition normalize_gossip_network_id (value : string) : result GossipError string :=
  normalize_hex_32 value InvalidNetworkId.

Lemma normalize_hex_32_Ok value err v :
  normalize_hex_32 value err = Ok v ->
  String.length v = 64%nat /\ all_bytes is_ascii_hexdigit v = true /\ to_ascii_lowercase v = v.
Proof.
  unfold normalize_hex_32. intros Hn. res_inv. bool_inv. subst v. by rewrite lower_idemp.
Qed.

(** A string of hex digits has no [0x] prefix. *)
Lemma hex_no_prefix v : all_bytes is_ascii_hexdigit v = true -> strip_prefix "0x" v = None.
Proof.
  intros Hv. destruct (strip_prefix "0x" v) as [r|] eqn:Hp; [|done].
  apply strip_prefix_Some in Hp as ->. discriminate Hv.
Qed.

Lemma normalize_hex_32_idemp value err err' v :
  normalize_hex_32 value err = Ok v -> normalize_hex_32 v err' = Ok v.
Proof.
  intros (Hl & Hh & Hlow)%normalize_hex_32_Ok. unfold normalize_hex_32.
  rewrite hex_no_prefix by done. simpl. by rewrite Hlow, Hl, Hh.
Qed.
