(* ===== verification/ShareWork.v ===== *)
(** * Share-work bindings ([crates/pohw-core/src/share_work.rs])

    A share proves Bitcoin work whose coinbase carries a [P2SW1] output that
    commits to the share's fields.  The development models the activation
    manifest, the policy and the binding with the whole check of a header; the
    theorems show that one coinbase commits to one set of share fields and that
    the panicking conversions of the source cannot panic. *)
From S2P Require Import Prelude Order Text Crates Concrete IdenaAnchor GossipNetwork.
From Stdlib Require Import Strings.Ascii Strings.Byte.

Local Open Scope N_scope.

Definition SHARE_WORK_BINDING_POLICY_SCHEMA_VERSION : N := 1.
Definition SHARE_WORK_BINDING_SCHEMA_VERSION : N := 1.
Definition SHARE_WORK_ACTIVATION_SCHEMA : string := "pohw-share-work-activation/v1".
Definition SHARE_WORK_COMMITMENT_TAG : bytes := byte_str "P2POOLBTC_SHARE_WORK_V1".
Definition SHARE_WORK_POLICY_TAG : bytes := byte_str "P2POOLBTC_SHARE_WORK_POLICY_V1".
Definition SHARE_WORK_ACTIVATION_TAG : bytes := byte_str "P2POOLBTC_SHARE_WORK_ACTIVATION_V1".
Definition SHARE_WORK_OP_RETURN_PREFIX : bytes := byte_str "P2SW1".
Definition MAX_MINER_ID_BYTES : nat := 64.
Definition MAX_SNAPSHOT_ID_BYTES : nat := 64.
Definition MAX_COINBASE_BYTES : N := 256 * 1024.
Definition MAX_MERKLE_BRANCHES : nat := 512.

(** ** Data *)

Record ShareWorkActivationManifestV1 := {
  am_schema_version : string;
  am_profile_revision : N;
  am_status : string;
  am_launch_enabled : bool;
  am_activation_id : string;
  am_experiment_id : string;
  am_bitcoin_fork_activation_id : string;
  am_sharechain_network_id : string;
  am_require_binding_from_genesis : bool;
  am_require_fresh_datadir : bool;
  am_history_reinterpreted : bool;
  am_coinbase_commitment_tag : string
}.

(** The payload borrows from the manifest: all its fields but the id. *)
Record ShareWorkActivationPayloadV1 := {
  ap_schema_version : string;
  ap_profile_revision : N;
  ap_status : string;
  ap_launch_enabled : bool;
  ap_experiment_id : string;
  ap_bitcoin_fork_activation_id : string;
  ap_sharechain_network_id : string;
  ap_require_binding_from_genesis : bool;
  ap_require_fresh_datadir : bool;
  ap_history_reinterpreted : bool;
  ap_coinbase_commitment_tag : string
}.

Global Instance ShareWorkActivationPayloadV1_serialize : Serialize ShareWorkActivationPayloadV1 := fun p =>
  JObj (field "schema_version" (ap_schema_version p) ++
        field "profile_revision" (ap_profile_revision p) ++
        field "status" (ap_status p) ++
        field "launch_enabled" (ap_launch_enabled p) ++
        field "experiment_id" (ap_experiment_id p) ++
        field "bitcoin_fork_activation_id" (ap_bitcoin_fork_activation_id p) ++
        field "sharechain_network_id" (ap_sharechain_network_id p) ++
        field "require_binding_from_genesis" (ap_require_binding_from_genesis p) ++
        field "require_fresh_datadir" (ap_require_fresh_datadir p) ++
        field "history_reinterpreted" (ap_history_reinterpreted p) ++
        field "coinbase_commitment_tag" (ap_coinbase_commitment_tag p)).

Record ShareWorkBindingPolicyV1 := {
  swp_schema_version : N;
  swp_experiment_id : string;
  swp_fork_activation_id : string;
  swp_sharechain_network_id : string;
  swp_require_binding_from_genesis : bool
}.

Global Instance ShareWorkBindingPolicyV1_eq_dec : EqDecision ShareWorkBindingPolicyV1.
Proof. solve_decision. Defined.
Global Instance ShareWorkBindingPolicyV1_serialize : Serialize ShareWorkBindingPolicyV1 := fun p =>
  JObj (field "schema_version" (swp_schema_version p) ++
        field "experiment_id" (swp_experiment_id p) ++
        field "fork_activation_id" (swp_fork_activation_id p) ++
        field "sharechain_network_id" (swp_sharechain_network_id p) ++
        field "require_binding_from_genesis" (swp_require_binding_from_genesis p)).

Record ShareWorkBindingV1 := {
  sw_schema_version : N;
  sw_policy_hash : string;
  sw_miner_id : string;
  sw_assigned_share_target : string;
  sw_parent_share_hash : string;
  sw_idena_snapshot_id : string;
  sw_idena_snapshot_proof_root : string;
  sw_idena_anchor : IdenaBlockAnchorV1;
  sw_idena_anchor_policy_hash : string;
  sw_coinbase_tx_hex : string;
  sw_coinbase_merkle_branches : list string
}.

Global Instance ShareWorkBindingV1_eq_dec : EqDecision ShareWorkBindingV1.
Proof. solve_decision. Defined.
Global Instance ShareWorkBindingV1_serialize : Serialize ShareWorkBindingV1 := fun b =>
  JObj (field "schema_version" (sw_schema_version b) ++
        field "policy_hash" (sw_policy_hash b) ++
        field "miner_id" (sw_miner_id b) ++
        field "assigned_share_target" (sw_assigned_share_target b) ++
        field "parent_share_hash" (sw_parent_share_hash b) ++
        field "idena_snapshot_id" (sw_idena_snapshot_id b) ++
        field "idena_snapshot_proof_root" (sw_idena_snapshot_proof_root b) ++
        field "idena_anchor" (sw_idena_anchor b) ++
        field "idena_anchor_policy_hash" (sw_idena_anchor_policy_hash b) ++
        field "coinbase_tx_hex" (sw_coinbase_tx_hex b) ++
        field "coinbase_merkle_branches" (sw_coinbase_merkle_branches b)).

Record ShareWorkCommitmentPayloadV1 := {
  scp_schema_version : N;
  scp_policy_hash : string;
  scp_miner_id : string;
  scp_assigned_share_target : string;
  scp_parent_share_hash : string;
  scp_idena_snapshot_id : string;
  scp_idena_snapshot_proof_root : string;
  scp_idena_anchor : IdenaBlockAnchorV1;
  scp_idena_anchor_policy_hash : string
}.

Global Instance ShareWorkCommitmentPayloadV1_serialize : Serialize ShareWorkCommitmentPayloadV1 := fun p =>
  JObj (field "schema_version" (scp_schema_version p) ++
        field "policy_hash" (scp_policy_hash p) ++
        field "miner_id" (scp_miner_id p) ++
        field "assigned_share_target" (scp_assigned_share_target p) ++
        field "parent_share_hash" (scp_parent_share_hash p) ++
        field "idena_snapshot_id" (scp_idena_snapshot_id p) ++
        field "idena_snapshot_proof_root" (scp_idena_snapshot_proof_root p) ++
        field "idena_anchor" (scp_idena_anchor p) ++
        field "idena_anchor_policy_hash" (scp_idena_anchor_policy_hash p)).

Inductive ShareWorkBindingError :=
| UnsupportedActivationSchema (schema : string)
| SW_UnsupportedPolicyVersion (version : N)
| UnsupportedBindingVersion (version : N)
| SW_InvalidField (field reason : string)
| LegacyReplayPolicyRejected
| PolicyMismatch (expected actual : string)
| CommitmentOutputCount (count : nat)
| CommitmentOutputMismatch
| InvalidCoinbase (reason : string)
| MerkleRootMismatch
| ActivationIdMismatch (expected actual : string)
| ActivationNotLaunchable (reason : string).

(** ** Field checks *)

Definition validate_hash (field value : string) : result ShareWorkBindingError unit :=
  if negb (Nat.eqb (String.length value) 64)
     || negb (String.eqb value (to_ascii_lowercase value))
     || negb (all_bytes is_ascii_hexdigit value)
  then Err (SW_InvalidField field "must be 32-byte lowercase hex")
  else Ok tt.

Definition label_char (c : ascii) : bool :=
  is_ascii_lowercase c || is_ascii_digit c ||
  existsb (Ascii.eqb c) ["-"; "_"; "."; ":"]%char.

Definition validate_label (field value : string) (max_bytes : nat) : result ShareWorkBindingError unit :=
  if is_empty value || Nat.ltb max_bytes (String.length value)
  then Err (SW_InvalidField field ("length must be 1..=" +:+ pretty max_bytes +:+ " bytes"))
  else if negb (String.eqb value (to_ascii_lowercase value)) || negb (all_bytes label_char value)
  then Err (SW_InvalidField field "must use canonical lowercase ASCII label characters")
  else Ok tt.

Definition all_zero_digits (s : string) : bool := all_bytes (fun c => Ascii.eqb c "0") s.

(** ** Activation manifest *)

Definition am_normalized (m : ShareWorkActivationManifestV1) : ShareWorkActivationManifestV1 := {|
  am_schema_version := to_ascii_lowercase (am_schema_version m);
  am_profile_revision := am_profile_revision m;
  am_status := to_ascii_lowercase (am_status m);
  am_launch_enabled := am_launch_enabled m;
  am_activation_id := to_ascii_lowercase (am_activation_id m);
  am_experiment_id := to_ascii_lowercase (am_experiment_id m);
  am_bitcoin_fork_activation_id := to_ascii_lowercase (am_bitcoin_fork_activation_id m);
  am_sharechain_network_id := to_ascii_lowercase (am_sharechain_network_id m);
  am_require_binding_from_genesis := am_require_binding_from_genesis m;
  am_require_fresh_datadir := am_require_fresh_datadir m;
  am_history_reinterpreted := am_history_reinterpreted m;
  am_coinbase_commitment_tag := am_coinbase_commitment_tag m |}.

Definition am_validate_fields (m : ShareWorkActivationManifestV1) : result ShareWorkBindingError unit :=
  if negb (String.eqb (am_schema_version m) SHARE_WORK_ACTIVATION_SCHEMA)
  then Err (UnsupportedActivationSchema (am_schema_version m))
  else if am_profile_revision m =? 0
  then Err (SW_InvalidField "profile_revision" "must be positive")
  else if negb ((String.eqb (am_status m) "experimental-candidate" && negb (am_launch_enabled m))
                || (String.eqb (am_status m) "experimental-active" && am_launch_enabled m))
  then Err (SW_InvalidField "status"
    "must be experimental-candidate with launch disabled or experimental-active with launch enabled")
  else
    _ ← validate_hash "activation_id" (am_activation_id m);
    _ ← map_err (fun e => SW_InvalidField "experiment_id" (display_anchor_error e))
          (validate_experiment_id (am_experiment_id m));
    _ ← validate_hash "bitcoin_fork_activation_id" (am_bitcoin_fork_activation_id m);
    if all_zero_digits (am_bitcoin_fork_activation_id m)
    then Err (SW_InvalidField "bitcoin_fork_activation_id" "must not be zero")
    else
      network_id ← map_err (fun e => SW_InvalidField "sharechain_network_id" (display_gossip_error e))
                     (normalize_gossip_network_id (am_sharechain_network_id m));
      if negb (String.eqb network_id (am_sharechain_network_id m))
         || all_zero_digits (am_sharechain_network_id m)
      then Err (SW_InvalidField "sharechain_network_id" "must be nonzero canonical lowercase network id")
      else if negb (am_require_binding_from_genesis m)
      then Err (SW_InvalidField "require_binding_from_genesis" "must be true")
      else if negb (am_require_fresh_datadir m)
      then Err (SW_InvalidField "require_fresh_datadir" "must be true")
      else if am_history_reinterpreted m
      then Err (SW_InvalidField "history_reinterpreted" "must be false")
      else if negb (String.eqb (am_coinbase_commitment_tag m) "P2SW1")
      then Err (SW_InvalidField "coinbase_commitment_tag" "must be P2SW1")
      else Ok tt.

(** [bool]'s [Display]. *)
Definition display_bool (b : bool) : string := if b then "true" else "false".

Definition activation_payload (m : ShareWorkActivationManifestV1) : ShareWorkActivationPayloadV1 := {|
  ap_schema_version := am_schema_version m;
  ap_profile_revision := am_profile_revision m;
  ap_status := am_status m;
  ap_launch_enabled := am_launch_enabled m;
  ap_experiment_id := am_experiment_id m;
  ap_bitcoin_fork_activation_id := am_bitcoin_fork_activation_id m;
  ap_sharechain_network_id := am_sharechain_network_id m;
  ap_require_binding_from_genesis := am_require_binding_from_genesis m;
  ap_require_fresh_datadir := am_require_fresh_datadir m;
  ap_history_reinterpreted := am_history_reinterpreted m;
  ap_coinbase_commitment_tag := am_coinbase_commitment_tag m |}.

Section share_work.
Context `{Hashing, BitcoinCrate}.

Definition recomputed_activation_id (m : ShareWorkActivationManifestV1)
    : result ShareWorkBindingError string :=
  let manifest := am_normalized m in
  _ ← am_validate_fields manifest;
  Ok (hash_hex (sha256_tagged SHARE_WORK_ACTIVATION_TAG (canonical_json (activation_payload manifest)))).

Definition am_validate (m : ShareWorkActivationManifestV1) : result ShareWorkBindingError unit :=
  _ ← am_validate_fields m;
  expected ← recomputed_activation_id m;
  let actual := to_ascii_lowercase (am_activation_id m) in
  if negb (String.eqb actual expected) then Err (ActivationIdMismatch expected actual) else Ok tt.

Definition am_validate_for_launch (m : ShareWorkActivationManifestV1) : result ShareWorkBindingError unit :=
  _ ← am_validate m;
  if negb (String.eqb (am_status m) "experimental-active") || negb (am_launch_enabled m)
  then Err (ActivationNotLaunchable
              ("status=" +:+ am_status m +:+ " launch_enabled=" +:+ display_bool (am_launch_enabled m)))
  else Ok tt.

(** ** Policy *)

Definition swp_normalized (p : ShareWorkBindingPolicyV1) : ShareWorkBindingPolicyV1 := {|
  swp_schema_version := swp_schema_version p;
  swp_experiment_id := to_ascii_lowercase (swp_experiment_id p);
  swp_fork_activation_id := to_ascii_lowercase (swp_fork_activation_id p);
  swp_sharechain_network_id := to_ascii_lowercase (swp_sharechain_network_id p);
  swp_require_binding_from_genesis := swp_require_binding_from_genesis p |}.

Definition swp_validate (p : ShareWorkBindingPolicyV1) : result ShareWorkBindingError unit :=
  if negb (swp_schema_version p =? SHARE_WORK_BINDING_POLICY_SCHEMA_VERSION)
  then Err (SW_UnsupportedPolicyVersion (swp_schema_version p))
  else
    _ ← map_err (fun e => SW_InvalidField "experiment_id" (display_anchor_error e))
          (validate_experiment_id (swp_experiment_id p));
    _ ← validate_hash "fork_activation_id" (swp_fork_activation_id p);
    if all_zero_digits (swp_fork_activation_id p)
    then Err (SW_InvalidField "fork_activation_id" "must not be zero")
    else
      normalized_network_id ←
        map_err (fun e => SW_InvalidField "sharechain_network_id" (display_gossip_error e))
          (normalize_gossip_network_id (swp_sharechain_network_id p));
      if negb (String.eqb normalized_network_id (swp_sharechain_network_id p))
      then Err (SW_InvalidField "sharechain_network_id" "must use canonical lowercase form")
      else if negb (swp_require_binding_from_genesis p) then Err LegacyReplayPolicyRejected
      else Ok tt.

Definition swp_commitment_hash (p : ShareWorkBindingPolicyV1) : result ShareWorkBindingError string :=
  let policy := swp_normalized p in
  _ ← swp_validate policy;
  Ok (hash_hex (sha256_tagged SHARE_WORK_POLICY_TAG (canonical_json policy))).

(** ** Bindings *)

Definition sw_normalized (b : ShareWorkBindingV1) : ShareWorkBindingV1 := {|
  sw_schema_version := sw_schema_version b;
  sw_policy_hash := to_ascii_lowercase (sw_policy_hash b);
  sw_miner_id := to_ascii_lowercase (sw_miner_id b);
  sw_assigned_share_target := to_ascii_lowercase (sw_assigned_share_target b);
  sw_parent_share_hash := to_ascii_lowercase (sw_parent_share_hash b);
  sw_idena_snapshot_id := to_ascii_lowercase (sw_idena_snapshot_id b);
  sw_idena_snapshot_proof_root := to_ascii_lowercase (sw_idena_snapshot_proof_root b);
  sw_idena_anchor := iba_normalized (sw_idena_anchor b);
  sw_idena_anchor_policy_hash := to_ascii_lowercase (sw_idena_anchor_policy_hash b);
  sw_coinbase_tx_hex := to_ascii_lowercase (sw_coinbase_tx_hex b);
  sw_coinbase_merkle_branches := map to_ascii_lowercase (sw_coinbase_merkle_branches b) |}.

Definition validate_commitment_fields (b : ShareWorkBindingV1) : result ShareWorkBindingError unit :=
  if negb (sw_schema_version b =? SHARE_WORK_BINDING_SCHEMA_VERSION)
  then Err (UnsupportedBindingVersion (sw_schema_version b))
  else
    _ ← validate_hash "policy_hash" (sw_policy_hash b);
    _ ← validate_label "miner_id" (sw_miner_id b) MAX_MINER_ID_BYTES;
    _ ← validate_hash "assigned_share_target" (sw_assigned_share_target b);
    if all_zero_digits (sw_assigned_share_target b)
    then Err (SW_InvalidField "assigned_share_target" "must not be zero")
    else
      _ ← validate_hash "parent_share_hash" (sw_parent_share_hash b);
      _ ← validate_label "idena_snapshot_id" (sw_idena_snapshot_id b) MAX_SNAPSHOT_ID_BYTES;
      _ ← validate_hash "idena_snapshot_proof_root" (sw_idena_snapshot_proof_root b);
      _ ← map_err (fun e => SW_InvalidField "idena_anchor" (display_anchor_error e))
            (iba_validate (sw_idena_anchor b));
      validate_hash "idena_anchor_policy_hash" (sw_idena_anchor_policy_hash b).

Definition commitment_payload (b : ShareWorkBindingV1) : ShareWorkCommitmentPayloadV1 := {|
  scp_schema_version := sw_schema_version b;
  scp_policy_hash := sw_policy_hash b;
  scp_miner_id := sw_miner_id b;
  scp_assigned_share_target := sw_assigned_share_target b;
  scp_parent_share_hash := sw_parent_share_hash b;
  scp_idena_snapshot_id := sw_idena_snapshot_id b;
  scp_idena_snapshot_proof_root := sw_idena_snapshot_proof_root b;
  scp_idena_anchor := sw_idena_anchor b;
  scp_idena_anchor_policy_hash := sw_idena_anchor_policy_hash b |}.

Definition sw_commitment_hash (b : ShareWorkBindingV1) : result ShareWorkBindingError string :=
  let binding := sw_normalized b in
  _ ← validate_commitment_fields binding;
  Ok (hash_hex (sha256_tagged SHARE_WORK_COMMITMENT_TAG (canonical_json (commitment_payload binding)))).

(** [hex::decode(h).expect(..)] on a string that is known to be hex: the panic
    is unreachable ([expect_decode_encode]). *)
Definition expect_decode (h : string) : bytes :=
  match hex_decode h with Ok b => b | Err _ => [] end.

(** [OP_RETURN] and a direct push of the payload; [u8::try_from] of its length. *)
Definition op_return_script (payload : bytes) : bytes :=
  x6a :: default x00 (Byte.of_N (N.of_nat (length payload))) :: payload.

Definition sw_op_return_script_pubkey_hex (b : ShareWorkBindingV1) : result ShareWorkBindingError string :=
  commitment ← sw_commitment_hash b;
  let payload := SHARE_WORK_OP_RETURN_PREFIX ++ expect_decode commitment in
  Ok (hex_encode (op_return_script payload)).

Definition verify_policy (b : ShareWorkBindingV1) (policy : ShareWorkBindingPolicyV1)
    : result ShareWorkBindingError unit :=
  expected ← swp_commitment_hash policy;
  let actual := to_ascii_lowercase (sw_policy_hash b) in
  if negb (String.eqb actual expected) then Err (PolicyMismatch expected actual) else Ok tt.

Definition decode_exact_hex (field value : string) (expected_bytes : nat)
    : result ShareWorkBindingError bytes :=
  if negb (Nat.eqb (String.length value) (expected_bytes * 2)) || negb (all_bytes is_ascii_hexdigit value)
  then Err (SW_InvalidField field ("must be exactly " +:+ pretty expected_bytes +:+ " bytes of hex"))
  else map_err (SW_InvalidField field) (hex_decode value).

(** [slice.windows(p.len()).any(|window| window == p)] for a non-empty [p]. *)
Fixpoint windows_any (p s : bytes) : bool :=
  match s with
  | [] => false
  | _ :: s' => bool_decide (take (length p) s = p) || windows_any p s'
  end.

Definition is_commitment_output (script : bytes) : bool :=
  match script with
  | c :: rest => bool_decide (c = x6a) && windows_any SHARE_WORK_OP_RETURN_PREFIX rest
  | [] => false
  end.

Definition merkle_step (merkle : bytes) (branch : string) : result ShareWorkBindingError bytes :=
  branch ← decode_exact_hex "coinbase_merkle_branch" branch 32;
  Ok (sha256d_hash (merkle ++ branch)).

Definition verify_header_commitment (b : ShareWorkBindingV1) (bitcoin_header_hex : string)
    : result ShareWorkBindingError unit :=
  _ ← validate_commitment_fields b;
  header ← decode_exact_hex "bitcoin_header_hex" bitcoin_header_hex 80;
  if is_empty (sw_coinbase_tx_hex b)
     || negb (Nat.even (String.length (sw_coinbase_tx_hex b)))
     || (MAX_COINBASE_BYTES * 2 <? N.of_nat (String.length (sw_coinbase_tx_hex b)))
     || negb (all_bytes is_ascii_hexdigit (sw_coinbase_tx_hex b))
  then Err (SW_InvalidField "coinbase_tx_hex"
              "must be nonempty canonical transaction hex within the size limit")
  else if Nat.ltb MAX_MERKLE_BRANCHES (length (sw_coinbase_merkle_branches b))
  then Err (SW_InvalidField "coinbase_merkle_branches" "must contain at most 512 entries")
  else
    coinbase_bytes ← map_err InvalidCoinbase (hex_decode (sw_coinbase_tx_hex b));
    coinbase ← map_err InvalidCoinbase (tx_deserialize coinbase_bytes);
    if negb (tx_is_coinbase coinbase) || bool_decide (tx_serialize coinbase <> coinbase_bytes)
    then Err (InvalidCoinbase "transaction is not a canonical coinbase")
    else
      script_hex ← sw_op_return_script_pubkey_hex b;
      let expected_script := expect_decode script_hex in
      match List.filter is_commitment_output (tx_output_scripts coinbase) with
      | [script] =>
          if bool_decide (script <> expected_script) then Err CommitmentOutputMismatch
          else
            merkle ← try_fold merkle_step (tx_compute_txid coinbase) (sw_coinbase_merkle_branches b);
            if bool_decide (merkle <> take 32 (drop 36 header)) then Err MerkleRootMismatch
            else Ok tt
      | commitment_outputs => Err (CommitmentOutputCount (length commitment_outputs))
      end.
End share_work.

(** ** Uniqueness of the committed fields *)

Global Instance IdenaBlockAnchorV1_serialize_inj : SerializeInj IdenaBlockAnchorV1.
Proof. solve_serialize_inj. Qed.

Global Instance ShareWorkCommitmentPayloadV1_serialize_inj : SerializeInj ShareWorkCommitmentPayloadV1.
Proof. solve_serialize_inj. Qed.

Section binding_theorems.
Context `{Hashing, BitcoinCrate, !HexLaws, !HashLaws}.

(** The [expect]s of the source cannot panic. *)
Lemma expect_decode_encode b : expect_decode (hex_encode b) = b.
Proof. unfold expect_decode. by rewrite hex_decode_encode. Qed.

Lemma commitment_payload_length tag p :
  length (SHARE_WORK_OP_RETURN_PREFIX ++ sha256_tagged tag p) = 37%nat.
Proof. rewrite length_app. unfold sha256_tagged. by rewrite sha256_length. Qed.

(** What a verified header says about its coinbase. *)
Lemma verify_header_Ok b header_hex :
  verify_header_commitment b header_hex = Ok tt ->
  exists coinbase_bytes coinbase commitment,
    hex_decode (sw_coinbase_tx_hex b) = Ok coinbase_bytes /\
    tx_deserialize coinbase_bytes = Ok coinbase /\ tx_is_coinbase coinbase = true /\
    sw_commitment_hash b = Ok commitment /\
    List.filter is_commitment_output (tx_output_scripts coinbase) =
      [op_return_script (SHARE_WORK_OP_RETURN_PREFIX ++ expect_decode commitment)].
Proof.
  intros Hv. unfold verify_header_commitment in Hv. res_inv. bool_inv.
  destruct (List.filter _ _) as [|script [|]] eqn:Hf; try discriminate. res_inv. bool_inv.
  match goal with HH : sw_op_return_script_pubkey_hex _ = Ok _ |- _ =>
    unfold sw_op_return_script_pubkey_hex in HH; res_inv end.
  subst. do 3 eexists. split_and!; try done.
  rewrite Hf. f_equal. match goal with HH : ~ (script <> _) |- _ => apply dec_stable in HH as -> end.
  by rewrite expect_decode_encode.
Qed.

Lemma sw_commitment_hash_Ok b c :
  sw_commitment_hash b = Ok c ->
  c = hex_encode (sha256_tagged SHARE_WORK_COMMITMENT_TAG (canonical_json (commitment_payload (sw_normalized b)))).
Proof. unfold sw_commitment_hash. intros Hc. by res_inv. Qed.

Definition binding_input (b : ShareWorkBindingV1) : bytes :=
  tagged_input SHARE_WORK_COMMITMENT_TAG (canonical_json (commitment_payload (sw_normalized b))).

Lemma singleton_inj (p1 p2 : bytes) : [p1] = [p2] -> p1 = p2.
Proof. congruence. Qed.

Lemma op_return_script_inj p1 p2 : op_return_script p1 = op_return_script p2 -> p1 = p2.
Proof. intros Heq. by injection Heq. Qed.
End binding_theorems.

(** (one share per coinbase). If two bindings verify, against any headers,
    with the same coinbase transaction, they commit to the same share fields
    (policy, miner, target, parent share, snapshot and anchor), or the two
    committed payloads are a SHA-256 collision. *)
Theorem coinbase_commits_to_one_share `{Hashing, BitcoinCrate, !HexLaws, !HashLaws} b1 b2 h1 h2 :
  verify_header_commitment b1 h1 = Ok tt -> verify_header_commitment b2 h2 = Ok tt ->
  to_ascii_lowercase (sw_coinbase_tx_hex b1) = to_ascii_lowercase (sw_coinbase_tx_hex b2) ->
  commitment_payload (sw_normalized b1) = commitment_payload (sw_normalized b2) \/
  collision_among [binding_input b1; binding_input b2].
Proof.
  intros (c1 & t1 & m1 & Hd1 & Ht1 & _ & Hm1 & Hf1)%verify_header_Ok
         (c2 & t2 & m2 & Hd2 & Ht2 & _ & Hm2 & Hf2)%verify_header_Ok Heq.
  apply hex_decode_iff in Hd1, Hd2. rewrite <-Heq, Hd1 in Hd2. apply hex_encode_inj in Hd2 as <-.
  rewrite Ht1 in Ht2. injection Ht2 as <-. rewrite Hf1 in Hf2.
  apply singleton_inj, op_return_script_inj, app_inv_head in Hf2.
  apply sw_commitment_hash_Ok in Hm1 as ->, Hm2 as ->. rewrite !expect_decode_encode in Hf2.
  destruct (collision_free_or [binding_input b1; binding_input b2]) as [Hfree|]; [left|by right].
  apply (Hfree (binding_input b1) (binding_input b2)) in Hf2; [|set_solver..].
  by apply tagged_input_inj, to_vec_inj, to_json_inj in Hf2.
Qed.

(** ** A concrete binding *)

Definition binding_without_coinbase (miner : string) : ShareWorkBindingV1 := {|
  sw_schema_version := 1;
  sw_policy_hash := repeat_char "1" 64;
  sw_miner_id := miner;
  sw_assigned_share_target := repeat_char "f" 64;
  sw_parent_share_hash := ZERO_SHARE_PARENT_HASH;
  sw_idena_snapshot_id := "snap-1";
  sw_idena_snapshot_proof_root := repeat_char "2" 64;
  sw_idena_anchor := {| iba_height := 7; iba_hash := "0x" +:+ repeat_char "3" 64 |};
  sw_idena_anchor_policy_hash := repeat_char "4" 64;
  sw_coinbase_tx_hex := EmptyString;
  sw_coinbase_merkle_branches := [] |}.

(** The coinbase of [bitcoin_c] is its only output script. *)
Definition sample_binding (miner : string) : ShareWorkBindingV1 :=
  let b := binding_without_coinbase miner in
  {| sw_schema_version := sw_schema_version b; sw_policy_hash := sw_policy_hash b;
     sw_miner_id := sw_miner_id b; sw_assigned_share_target := sw_assigned_share_target b;
     sw_parent_share_hash := sw_parent_share_hash b; sw_idena_snapshot_id := sw_idena_snapshot_id b;
     sw_idena_snapshot_proof_root := sw_idena_snapshot_proof_root b;
     sw_idena_anchor := sw_idena_anchor b; sw_idena_anchor_policy_hash := sw_idena_anchor_policy_hash b;
     sw_coinbase_tx_hex :=
       match @sw_op_return_script_pubkey_hex hashing_c b with Ok s => s | Err _ => EmptyString end;
     sw_coinbase_merkle_branches := [] |}.

Definition sample_header (b : ShareWorkBindingV1) : string :=
  @hex_encode hashing_c
    (replicate 36 x00 ++
     @tx_compute_txid bitcoin_c (@expect_decode hashing_c (sw_coinbase_tx_hex b)) ++ replicate 12 x00).

Lemma sample_binding_verifies :
  @verify_header_commitment hashing_c bitcoin_c (sample_binding "alice") (sample_header (sample_binding "alice")) = Ok tt.
Proof. vm_compute. reflexivity. Qed.

Lemma coinbase_commits_to_one_share_witness :
  commitment_payload (sw_normalized (sample_binding "alice")) =
    commitment_payload (sw_normalized (sample_binding "alice")) \/
  @collision_among hashing_c [@binding_input hashing_c (sample_binding "alice");
                              @binding_input hashing_c (sample_binding "alice")].
Proof.
  exact (@coinbase_commits_to_one_share hashing_c bitcoin_c hex_laws_c hash_laws_c
    (sample_binding "alice") (sample_binding "alice")
    (sample_header (sample_binding "alice")) (sample_header (sample_binding "alice"))
    sample_binding_verifies sample_binding_verifies eq_refl).
Defined.
