(* ===== verification/Commitment.v ===== *)
(** * Block commitments ([crates/pohw-core/src/commitment.rs])

    A pool block carries a [POHW1] commitment to the snapshot, the proposer,
    the sharechain tip and the payout schedule.  The theorems show that all
    commitments a node accepts in one context hash to the same [OP_RETURN]
    script, and that a script commits to one normalised record. *)
From S2P Require Import Prelude Order Text Crates Concrete Snapshot ShareWork.
From Stdlib Require Import Strings.Ascii Strings.Byte.

Local Open Scope N_scope.

Definition MAX_COMMITMENT_SNAPSHOT_ID_BYTES : nat := 64.
Definition HASH_HEX_BYTES : nat := 64.
Definition IDENA_ADDRESS_BYTES : nat := 42.

Record PohwCommitment := {
  pc_version : string;
  pc_idena_snapshot_id : string;
  pc_idena_score_root : string;
  pc_miner_idena_address : string;
  pc_identity_proof_root : string;
  pc_sharechain_tip : string;
  pc_sharechain_state_root : option string;
  pc_payout_schedule_root : string;
  pc_vault_epoch_id : N;
  pc_frost_vault_key_xonly : string
}.

Global Instance PohwCommitment_eq_dec : EqDecision PohwCommitment.
Proof. solve_decision. Defined.

(** [sharechain_state_root] is skipped when absent. *)
Global Instance PohwCommitment_serialize : Serialize PohwCommitment := fun c =>
  JObj (field "version" (pc_version c) ++
        field "idena_snapshot_id" (pc_idena_snapshot_id c) ++
        field "idena_score_root" (pc_idena_score_root c) ++
        field "miner_idena_address" (pc_miner_idena_address c) ++
        field "identity_proof_root" (pc_identity_proof_root c) ++
        field "sharechain_tip" (pc_sharechain_tip c) ++
        field_opt "sharechain_state_root" (pc_sharechain_state_root c) ++
        field "payout_schedule_root" (pc_payout_schedule_root c) ++
        field "vault_epoch_id" (pc_vault_epoch_id c) ++
        field "frost_vault_key_xonly" (pc_frost_vault_key_xonly c)).

Record PohwCommitmentParams := {
  pp_idena_snapshot_id : string;
  pp_idena_score_root : string;
  pp_miner_idena_address : string;
  pp_identity_proof_root : string;
  pp_sharechain_tip : string;
  pp_sharechain_state_root : option string;
  pp_payout_schedule_root : string;
  pp_vault_epoch_id : N;
  pp_frost_vault_key_xonly : string
}.

Record PohwCommitmentValidationContext := {
  vc_idena_snapshot_id : string;
  vc_idena_score_root : string;
  vc_miner_leaf : SnapshotLeaf;
  vc_identity_proof_root : string;
  vc_sharechain_tip : string;
  vc_sharechain_state_root : option string;
  vc_payout_schedule_root : string;
  vc_vault_epoch_id : N;
  vc_frost_vault_key_xonly : string
}.

Inductive CommitmentError :=
| PC_UnsupportedVersion (version : string)
| PC_InvalidField (field reason : string)
| IneligibleIdentity
| MinerAddressMismatch (commitment_address snapshot_address : string)
| SnapshotIdMismatch (expected actual : string)
| IdenaScoreRootMismatch (expected actual : string)
| IdentityProofRootMismatch (expected actual : string)
| SharechainTipMismatch (expected actual : string)
| MissingSharechainStateRoot
| SharechainStateRootMismatch (expected actual : string)
| PayoutScheduleRootMismatch (expected actual : string)
| VaultEpochMismatch (expected actual : N)
| FrostVaultKeyMismatch (expected actual : string).

Definition new_pohw1 (p : PohwCommitmentParams) : PohwCommitment := {|
  pc_version := "POHW1";
  pc_idena_snapshot_id := pp_idena_snapshot_id p;
  pc_idena_score_root := pp_idena_score_root p;
  pc_miner_idena_address := to_ascii_lowercase (pp_miner_idena_address p);
  pc_identity_proof_root := pp_identity_proof_root p;
  pc_sharechain_tip := pp_sharechain_tip p;
  pc_sharechain_state_root := pp_sharechain_state_root p;
  pc_payout_schedule_root := pp_payout_schedule_root p;
  pc_vault_epoch_id := pp_vault_epoch_id p;
  pc_frost_vault_key_xonly := pp_frost_vault_key_xonly p |}.

Definition pc_normalized (c : PohwCommitment) : PohwCommitment := {|
  pc_version := to_ascii_uppercase (pc_version c);
  pc_idena_snapshot_id := to_ascii_lowercase (pc_idena_snapshot_id c);
  pc_idena_score_root := to_ascii_lowercase (pc_idena_score_root c);
  pc_miner_idena_address := to_ascii_lowercase (pc_miner_idena_address c);
  pc_identity_proof_root := to_ascii_lowercase (pc_identity_proof_root c);
  pc_sharechain_tip := to_ascii_lowercase (pc_sharechain_tip c);
  pc_sharechain_state_root := to_ascii_lowercase <$> pc_sharechain_state_root c;
  pc_payout_schedule_root := to_ascii_lowercase (pc_payout_schedule_root c);
  pc_vault_epoch_id := pc_vault_epoch_id c;
  pc_frost_vault_key_xonly := to_ascii_lowercase (pc_frost_vault_key_xonly c) |}.

(** ** Field checks *)

Definition snapshot_id_char (c : ascii) : bool :=
  is_ascii_alphanumeric c || existsb (Ascii.eqb c) ["-"; "_"; "."; ":"]%char.

Definition pc_validate_snapshot_id (value : string) : result CommitmentError unit :=
  if is_empty value || Nat.ltb MAX_COMMITMENT_SNAPSHOT_ID_BYTES (String.length value)
  then Err (PC_InvalidField "idena_snapshot_id" "length must be 1..=64 bytes")
  else if negb (all_bytes snapshot_id_char value)
  then Err (PC_InvalidField "idena_snapshot_id" "contains unsupported characters")
  else Ok tt.

Definition pc_validate_hash_hex (field value : string) : result CommitmentError unit :=
  if negb (Nat.eqb (String.length value) HASH_HEX_BYTES) || negb (all_bytes is_ascii_hexdigit value)
  then Err (PC_InvalidField field "must be exactly 32 bytes encoded as 64 hex characters")
  else Ok tt.

Definition pc_validate_idena_address (value : string) : result CommitmentError unit :=
  match (match strip_prefix "0x" value with Some h => Some h | None => strip_prefix "0X" value end) with
  | None => Err (PC_InvalidField "miner_idena_address" "must start with 0x")
  | Some hex =>
      if negb (Nat.eqb (String.length value) IDENA_ADDRESS_BYTES)
         || negb (Nat.eqb (String.length hex) 40)
         || negb (all_bytes is_ascii_hexdigit hex)
      then Err (PC_InvalidField "miner_idena_address"
                  "must contain 20 bytes encoded as 40 hex characters")
      else Ok tt
  end.

Definition require_case_insensitive_match (actual expected : string) (error : CommitmentError)
    : result CommitmentError unit :=
  if eq_ignore_ascii_case actual expected then Ok tt else Err error.

Definition pc_validate_fields (c : PohwCommitment) : result CommitmentError unit :=
  if negb (String.eqb (pc_version c) "POHW1") then Err (PC_UnsupportedVersion (pc_version c))
  else
    _ ← pc_validate_snapshot_id (pc_idena_snapshot_id c);
    _ ← pc_validate_hash_hex "idena_score_root" (pc_idena_score_root c);
    _ ← pc_validate_idena_address (pc_miner_idena_address c);
    _ ← pc_validate_hash_hex "identity_proof_root" (pc_identity_proof_root c);
    _ ← pc_validate_hash_hex "sharechain_tip" (pc_sharechain_tip c);
    _ ← match pc_sharechain_state_root c with
        | Some root => pc_validate_hash_hex "sharechain_state_root" root
        | None => Ok tt
        end;
    _ ← pc_validate_hash_hex "payout_schedule_root" (pc_payout_schedule_root c);
    pc_validate_hash_hex "frost_vault_key_xonly" (pc_frost_vault_key_xonly c).

Definition validate_commitment_identity (commitment : PohwCommitment) (miner_leaf : SnapshotLeaf)
    : result CommitmentError unit :=
  _ ← pc_validate_fields commitment;
  if negb (String.eqb (pc_miner_idena_address commitment) (to_ascii_lowercase (sl_idena_address miner_leaf)))
  then Err (MinerAddressMismatch (pc_miner_idena_address commitment) (sl_idena_address miner_leaf))
  else if negb (sl_is_block_eligible miner_leaf) then Err IneligibleIdentity
  else Ok tt.

Definition validate_pohw_commitment (commitment : PohwCommitment)
    (context : PohwCommitmentValidationContext) : result CommitmentError unit :=
  _ ← validate_commitment_identity commitment (vc_miner_leaf context);
  _ ← require_case_insensitive_match (pc_idena_snapshot_id commitment) (vc_idena_snapshot_id context)
        (SnapshotIdMismatch (vc_idena_snapshot_id context) (pc_idena_snapshot_id commitment));
  _ ← require_case_insensitive_match (pc_idena_score_root commitment) (vc_idena_score_root context)
        (IdenaScoreRootMismatch (vc_idena_score_root context) (pc_idena_score_root commitment));
  _ ← require_case_insensitive_match (pc_identity_proof_root commitment) (vc_identity_proof_root context)
        (IdentityProofRootMismatch (vc_identity_proof_root context) (pc_identity_proof_root commitment));
  _ ← require_case_insensitive_match (pc_sharechain_tip commitment) (vc_sharechain_tip context)
        (SharechainTipMismatch (vc_sharechain_tip context) (pc_sharechain_tip commitment));
  _ ← match vc_sharechain_state_root context with
      | Some expected_state_root =>
          actual_state_root ← ok_or MissingSharechainStateRoot (pc_sharechain_state_root commitment);
          require_case_insensitive_match actual_state_root expected_state_root
            (SharechainStateRootMismatch expected_state_root actual_state_root)
      | None => Ok tt
      end;
  _ ← require_case_insensitive_match (pc_payout_schedule_root commitment) (vc_payout_schedule_root context)
        (PayoutScheduleRootMismatch (vc_payout_schedule_root context) (pc_payout_schedule_root commitment));
  if negb (pc_vault_epoch_id commitment =? vc_vault_epoch_id context)
  then Err (VaultEpochMismatch (vc_vault_epoch_id context) (pc_vault_epoch_id commitment))
  else
    require_case_insensitive_match (pc_frost_vault_key_xonly commitment) (vc_frost_vault_key_xonly context)
      (FrostVaultKeyMismatch (vc_frost_vault_key_xonly context) (pc_frost_vault_key_xonly commitment)).

(** ** Hash and script *)

Section hashes.
Context `{Hashing}.

Definition pc_commitment_hash (c : PohwCommitment) : string :=
  hash_hex (sha256_tagged (byte_str "POHW1_COMMITMENT") (canonical_json (pc_normalized c))).

Definition op_return_payload (c : PohwCommitment) : bytes :=
  byte_str "POHW1" ++ expect_decode (pc_commitment_hash c).

(** The [assert!(payload.len() <= 75)] is unconditional: [op_return_payload_length]. *)
Definition pc_op_return_script_pubkey_hex (c : PohwCommitment) : string :=
  hex_encode (op_return_script (op_return_payload c)).
End hashes.

(** ** Properties *)

Global Instance PohwCommitment_serialize_inj : SerializeInj PohwCommitment.
Proof. solve_serialize_inj. Qed.

Lemma match_Ok actual expected e :
  require_case_insensitive_match actual expected e = Ok tt ->
  to_ascii_lowercase actual = to_ascii_lowercase expected.
Proof. unfold require_case_insensitive_match. intros Hm. res_inv. by apply eq_ignore_ascii_case_iff. Qed.

(** An accepted commitment equals its context up to letter case. *)
Lemma validate_pohw_commitment_Ok c ctx root :
  vc_sharechain_state_root ctx = Some root ->
  validate_pohw_commitment c ctx = Ok tt ->
  pc_normalized c = pc_normalized {|
    pc_version := "POHW1";
    pc_idena_snapshot_id := vc_idena_snapshot_id ctx;
    pc_idena_score_root := vc_idena_score_root ctx;
    pc_miner_idena_address := sl_idena_address (vc_miner_leaf ctx);
    pc_identity_proof_root := vc_identity_proof_root ctx;
    pc_sharechain_tip := vc_sharechain_tip ctx;
    pc_sharechain_state_root := Some root;
    pc_payout_schedule_root := vc_payout_schedule_root ctx;
    pc_vault_epoch_id := vc_vault_epoch_id ctx;
    pc_frost_vault_key_xonly := vc_frost_vault_key_xonly ctx |} /\
  sl_is_block_eligible (vc_miner_leaf ctx) = true.
Proof.
  intros Hroot Hv. unfold validate_pohw_commitment, validate_commitment_identity, pc_validate_fields in Hv.
  rewrite Hroot in Hv. res_inv. bool_inv.
  repeat match goal with HH : require_case_insensitive_match _ _ _ = Ok _ |- _ => apply match_Ok in HH end.
  split; [|done]. destruct c as [? ? ? ? ? ? sr ? ? ?]. simpl in *. subst.
  unfold pc_normalized. simpl. rewrite lower_idemp. f_equal; congruence.
Qed.

Section binding.
Context `{Hashing, !HexLaws, !HashLaws}.

Lemma op_return_payload_length c : length (op_return_payload c) = 37%nat.
Proof.
  unfold op_return_payload, pc_commitment_hash, hash_hex.
  rewrite expect_decode_encode, length_app. unfold sha256_tagged. by rewrite sha256_length.
Qed.

Definition commitment_input (c : PohwCommitment) : bytes :=
  tagged_input (byte_str "POHW1_COMMITMENT") (canonical_json (pc_normalized c)).
End binding.

(** (agreement). All commitments accepted in one context, which fixes a state
    root, produce the same [OP_RETURN] script: a proposer cannot vary the script
    by letter case, and an ineligible identity is never accepted. *)
Theorem accepted_commitments_agree `{Hashing} c1 c2 ctx root :
  vc_sharechain_state_root ctx = Some root ->
  validate_pohw_commitment c1 ctx = Ok tt -> validate_pohw_commitment c2 ctx = Ok tt ->
  pc_op_return_script_pubkey_hex c1 = pc_op_return_script_pubkey_hex c2 /\
  sl_is_block_eligible (vc_miner_leaf ctx) = true.
Proof.
  intros Hr H1v H2v. destruct (validate_pohw_commitment_Ok _ _ _ Hr H1v) as [Hn1 He].
  destruct (validate_pohw_commitment_Ok _ _ _ Hr H2v) as [Hn2 _].
  unfold pc_op_return_script_pubkey_hex, op_return_payload, pc_commitment_hash.
  by rewrite Hn1, Hn2.
Qed.

(** (binding). Two commitments with the same [OP_RETURN] script are equal up
    to letter case, or their serialisations are a SHA-256 collision. *)
Theorem commitment_script_binds `{Hashing, !HexLaws, !HashLaws} c1 c2 :
  pc_op_return_script_pubkey_hex c1 = pc_op_return_script_pubkey_hex c2 ->
  pc_normalized c1 = pc_normalized c2 \/ collision_among [commitment_input c1; commitment_input c2].
Proof.
  intros Heq%hex_encode_inj%op_return_script_inj.
  apply app_inv_head in Heq. unfold pc_commitment_hash, hash_hex in Heq.
  rewrite !expect_decode_encode in Heq.
  destruct (collision_free_or [commitment_input c1; commitment_input c2]) as [Hfree|]; [left|by right].
  apply (Hfree (commitment_input c1) (commitment_input c2)) in Heq; [|set_solver..].
  by apply tagged_input_inj, to_vec_inj, to_json_inj in Heq.
Qed.

(** ** A concrete commitment *)

Definition sample_context : PohwCommitmentValidationContext := {|
  vc_idena_snapshot_id := "snap-1"; vc_idena_score_root := repeat_char "A" 64;
  vc_miner_leaf := sample_leaf ("0xB1" +:+ repeat_char "b" 38) Human 5;
  vc_identity_proof_root := repeat_char "b" 64; vc_sharechain_tip := repeat_char "c" 64;
  vc_sharechain_state_root := Some (repeat_char "d" 64);
  vc_payout_schedule_root := repeat_char "e" 64; vc_vault_epoch_id := 3;
  vc_frost_vault_key_xonly := repeat_char "f" 64 |}.

Definition sample_commitment (c : ascii) : PohwCommitment := new_pohw1 {|
  pp_idena_snapshot_id := "snap-1"; pp_idena_score_root := repeat_char c 64;
  pp_miner_idena_address := "0xb1" +:+ repeat_char "B" 38;
  pp_identity_proof_root := repeat_char "B" 64; pp_sharechain_tip := repeat_char "c" 64;
  pp_sharechain_state_root := Some (repeat_char "D" 64);
  pp_payout_schedule_root := repeat_char "e" 64; pp_vault_epoch_id := 3;
  pp_frost_vault_key_xonly := repeat_char "f" 64 |}.

Lemma sample_commitments_accepted :
  validate_pohw_commitment (sample_commitment "a") sample_context = Ok tt /\
  validate_pohw_commitment (sample_commitment "A") sample_context = Ok tt.
Proof. split; vm_compute; reflexivity. Qed.

Lemma accepted_commitments_agree_witness :
  @pc_op_return_script_pubkey_hex hashing_c (sample_commitment "a") =
  @pc_op_return_script_pubkey_hex hashing_c (sample_commitment "A").
Proof.
  exact (proj1 (@accepted_commitments_agree hashing_c (sample_commitment "a") (sample_commitment "A")
    sample_context (repeat_char "d" 64) eq_refl
    (proj1 sample_commitments_accepted) (proj2 sample_commitments_accepted))).
Defined.

Lemma sample_scripts_equal :
  @pc_op_return_script_pubkey_hex hashing_c (sample_commitment "a") =
  @pc_op_return_script_pubkey_hex hashing_c (sample_commitment "A").
Proof. vm_compute. reflexivity. Qed.

Lemma commitment_script_binds_witness :
  pc_normalized (sample_commitment "a") = pc_normalized (sample_commitment "A") \/
  @collision_among hashing_c [@commitment_input hashing_c (sample_commitment "a");
                              @commitment_input hashing_c (sample_commitment "A")].
Proof.
  exact (@commitment_script_binds hashing_c hex_laws_c hash_laws_c
    (sample_commitment "a") (sample_commitment "A") sample_scripts_equal).
Defined.
