(* ===== verification/Fork.v ===== *)
(** * Fork activation ([crates/pohw-core/src/fork.rs])

    The manifests that fix where the chain forks from Bitcoin mainnet and when
    its transaction rules change: selection of the fork point, construction and
    validation of both manifests, and their identifiers.  Times are nanoseconds;
    how [chrono] prints them and [bitcoin]'s compact targets are parameters. *)
From S2P Require Import Prelude Order Text Crates Concrete.
From Stdlib Require Import Strings.Ascii Strings.Byte.

Local Open Scope N_scope.

(** [DateTime<Utc>]'s serialisation (RFC 3339), and [Target::from_compact] and
    [Target::to_compact_lossy] on 256-bit targets. *)
Class ChainClock := {
  rfc3339 : Z -> string;
  target_from_compact : N -> N;
  target_to_compact_lossy : N -> N
}.

(** The printed time determines the time. *)
Class ClockLaws `{ChainClock} := { rfc3339_inj : Inj (=) (=) rfc3339 }.

(** ** Data *)

Definition FORK_ACTIVATION_SCHEMA_VERSION : N := 2.
Definition FORK_TRANSACTION_UPGRADE_SCHEMA_VERSION : N := 1.
Definition BITCOIN_DIFFICULTY_ADJUSTMENT_INTERVAL : N := 2016.
Definition DEFAULT_BOOTSTRAP_HANDOFF_HASHRATE_HPS : N := 1000000000000000.
Definition DEFAULT_FORK_COINBASE_MATURITY : N := 100.
Definition DEFAULT_FORK_MAX_BLOCK_TRANSACTIONS : N := 1000.
Definition DEFAULT_FORK_MAX_TRANSACTION_WEIGHT_WU : N := 400000.
Definition FORK_ACTIVATION_HASH_TAG : bytes := byte_str "POHW1_FORK_ACTIVATION".
Definition FORK_TRANSACTION_UPGRADE_HASH_TAG : bytes := byte_str "POHW1_FORK_TRANSACTION_UPGRADE".

Inductive ForkDifficultyAlgorithm := BootstrapThenBitcoin2016V1.
Inductive ForkTransactionConsensus := SegwitKeypathV1.

Global Instance ForkDifficultyAlgorithm_eq_dec : EqDecision ForkDifficultyAlgorithm.
Proof. solve_decision. Defined.
Global Instance ForkTransactionConsensus_eq_dec : EqDecision ForkTransactionConsensus.
Proof. solve_decision. Defined.

(** [as_str], which is also the [serde] name. *)
Definition difficulty_as_str (a : ForkDifficultyAlgorithm) : string :=
  match a with BootstrapThenBitcoin2016V1 => "bootstrap_then_bitcoin_2016_v1" end.
Definition consensus_as_str (c : ForkTransactionConsensus) : string :=
  match c with SegwitKeypathV1 => "pohw_segwit_keypath_v1" end.

Global Instance ForkDifficultyAlgorithm_serialize : Serialize ForkDifficultyAlgorithm := fun a =>
  JStr (difficulty_as_str a).
Global Instance ForkTransactionConsensus_serialize : Serialize ForkTransactionConsensus := fun c =>
  JStr (consensus_as_str c).

Record ForkConfig := {
  fc_chain_name : string;
  fc_launch_timestamp_utc : Z;
  fc_inherited_utxo_spending_enabled : bool;
  fc_post_fork_pow_limit_bits : N;
  fc_target_spacing_seconds : N;
  fc_difficulty_algorithm : ForkDifficultyAlgorithm;
  fc_bootstrap_handoff_hashrate_hps : N
}.

Record MainnetBlockRef := {
  mb_height : N;
  mb_block_hash : string;
  mb_timestamp : Z
}.

Record ForkPoint := {
  fp_inherited_tip_height : N;
  fp_inherited_tip_hash : string;
  fp_first_fork_height : N;
  fp_launch_timestamp_utc : Z
}.

Record ForkActivationManifest := {
  fa_schema_version : N;
  fa_activation_id : string;
  fa_config : ForkConfig;
  fa_fork_point : ForkPoint;
  fa_launch_block : MainnetBlockRef;
  fa_replay_protection_required : bool
}.

Record ForkActivationPayload := {
  fap_schema_version : N;
  fap_config : ForkConfig;
  fap_fork_point : ForkPoint;
  fap_launch_block : MainnetBlockRef;
  fap_replay_protection_required : bool
}.

Record ForkTransactionUpgradeManifest := {
  fu_schema_version : N;
  fu_upgrade_id : string;
  fu_base_activation_id : string;
  fu_activation_height : N;
  fu_transaction_consensus : ForkTransactionConsensus;
  fu_inherited_utxo_spending_enabled : bool;
  fu_coinbase_maturity : N;
  fu_max_block_transactions : N;
  fu_max_transaction_weight_wu : N
}.

Record ForkTransactionUpgradePayload := {
  fup_schema_version : N;
  fup_base_activation_id : string;
  fup_activation_height : N;
  fup_transaction_consensus : ForkTransactionConsensus;
  fup_inherited_utxo_spending_enabled : bool;
  fup_coinbase_maturity : N;
  fup_max_block_transactions : N;
  fup_max_transaction_weight_wu : N
}.

Global Instance ForkConfig_eq_dec : EqDecision ForkConfig.
Proof. solve_decision. Defined.
Global Instance MainnetBlockRef_eq_dec : EqDecision MainnetBlockRef.
Proof. solve_decision. Defined.
Global Instance ForkPoint_eq_dec : EqDecision ForkPoint.
Proof. solve_decision. Defined.
Global Instance ForkActivationManifest_eq_dec : EqDecision ForkActivationManifest.
Proof. solve_decision. Defined.
Global Instance ForkTransactionUpgradeManifest_eq_dec : EqDecision ForkTransactionUpgradeManifest.
Proof. solve_decision. Defined.

Inductive ForkError :=
| MissingLaunchBlock
| LaunchBlockHasNoParent
| ForkPointHeightOverflow
| ForkPointHeightMismatch (inherited_tip_height first_fork_height : N)
| ConfigLaunchTimestampMismatch
| LaunchBlockHeightMismatch (expected actual : N)
| LaunchBlockBeforeLaunchTimestamp
| InvalidChainName
| InvalidTargetSpacing
| BitcoinRetargetTimespanOverflow
| InvalidBootstrapHandoffHashrate
| InvalidPostForkPowLimitBits
| NonCanonicalPostForkPowLimitBits
| ManifestIntegrityMismatch
| InvalidTransactionActivationHeight
| InvalidCoinbaseMaturity
| InvalidMaxBlockTransactions
| InvalidMaxTransactionWeight
| TransactionUpgradeIntegrityMismatch
| TransactionUpgradeBaseMismatch
| TransactionUpgradeDoesNotPreserveLaunchRules
| InheritedUtxoSpendingNotAllowed
| InvalidBlockHash (field : string).

Abbreviation fork_checked := (result ForkError).

(** ** Configuration *)

Definition no_value_testnet (chain_name : string) (launch_timestamp_utc : Z) : ForkConfig := {|
  fc_chain_name := chain_name;
  fc_launch_timestamp_utc := launch_timestamp_utc;
  fc_inherited_utxo_spending_enabled := false;
  fc_post_fork_pow_limit_bits := 0x207fffff;
  fc_target_spacing_seconds := 600;
  fc_difficulty_algorithm := BootstrapThenBitcoin2016V1;
  fc_bootstrap_handoff_hashrate_hps := DEFAULT_BOOTSTRAP_HANDOFF_HASHRATE_HPS |}.

Definition post_fork_pow_limit_bits_hex (c : ForkConfig) : string :=
  padded_lower_hex 8 (fc_post_fork_pow_limit_bits c).

Definition bitcoin_retarget_timespan_seconds (c : ForkConfig) : option N :=
  checked_mul 64 (fc_target_spacing_seconds c) BITCOIN_DIFFICULTY_ADJUSTMENT_INTERVAL.

Definition chain_name_char (c : ascii) : bool :=
  is_ascii_alphanumeric c || Ascii.eqb c "." || Ascii.eqb c "_" || Ascii.eqb c "-".

Definition validate_chain_name (raw : string) : fork_checked string :=
  if is_empty raw || Nat.ltb 64 (String.length raw) then Err InvalidChainName
  else if negb (all_bytes chain_name_char raw) then Err InvalidChainName
  else Ok raw.

Definition normalize_hash_hex (field raw : string) : fork_checked string :=
  let value := to_ascii_lowercase raw in
  if negb (Nat.eqb (String.length value) 64) || negb (all_bytes is_ascii_hexdigit value)
  then Err (InvalidBlockHash field)
  else Ok value.

(** [iter().position(|block| block.timestamp >= launch)], with the preceding
    and the found block. *)
Fixpoint launch_position (launch : Z) (previous : option MainnetBlockRef) (blocks : list MainnetBlockRef)
    : option (option MainnetBlockRef * MainnetBlockRef) :=
  match blocks with
  | [] => None
  | block :: blocks' =>
      if (launch <=? mb_timestamp block)%Z then Some (previous, block)
      else launch_position launch (Some block) blocks'
  end.

Definition select_fork_point (launch_timestamp_utc : Z) (ordered_mainnet_blocks : list MainnetBlockRef)
    : fork_checked ForkPoint :=
  found ← ok_or MissingLaunchBlock (launch_position launch_timestamp_utc None ordered_mainnet_blocks);
  inherited_tip ← ok_or LaunchBlockHasNoParent found.1;
  let launch_block := found.2 in
  first_fork_height ← ok_or ForkPointHeightOverflow (checked_add 64 (mb_height inherited_tip) 1);
  if negb (mb_height launch_block =? first_fork_height)
  then Err (ForkPointHeightMismatch (mb_height inherited_tip) (mb_height launch_block))
  else
    tip_hash ← normalize_hash_hex "inherited_tip.block_hash" (mb_block_hash inherited_tip);
    Ok {| fp_inherited_tip_height := mb_height inherited_tip; fp_inherited_tip_hash := tip_hash;
          fp_first_fork_height := first_fork_height; fp_launch_timestamp_utc := launch_timestamp_utc |}.

(** ** Manifests *)

Section manifests.
Context `{Hashing, ChainClock}.

Global Instance ForkConfig_serialize : Serialize ForkConfig := fun c =>
  JObj (field "chain_name" (fc_chain_name c) ++
        field "launch_timestamp_utc" (rfc3339 (fc_launch_timestamp_utc c)) ++
        field "inherited_utxo_spending_enabled" (fc_inherited_utxo_spending_enabled c) ++
        field "post_fork_pow_limit_bits" (fc_post_fork_pow_limit_bits c) ++
        field "target_spacing_seconds" (fc_target_spacing_seconds c) ++
        field "difficulty_algorithm" (fc_difficulty_algorithm c) ++
        field "bootstrap_handoff_hashrate_hps" (fc_bootstrap_handoff_hashrate_hps c)).

Global Instance MainnetBlockRef_serialize : Serialize MainnetBlockRef := fun b =>
  JObj (field "height" (mb_height b) ++
        field "block_hash" (mb_block_hash b) ++
        field "timestamp" (rfc3339 (mb_timestamp b))).

Global Instance ForkPoint_serialize : Serialize ForkPoint := fun p =>
  JObj (field "inherited_tip_height" (fp_inherited_tip_height p) ++
        field "inherited_tip_hash" (fp_inherited_tip_hash p) ++
        field "first_fork_height" (fp_first_fork_height p) ++
        field "launch_timestamp_utc" (rfc3339 (fp_launch_timestamp_utc p))).

Global Instance ForkActivationPayload_serialize : Serialize ForkActivationPayload := fun p =>
  JObj (field "schema_version" (fap_schema_version p) ++
        field "config" (fap_config p) ++
        field "fork_point" (fap_fork_point p) ++
        field "launch_block" (fap_launch_block p) ++
        field "replay_protection_required" (fap_replay_protection_required p)).

Global Instance ForkTransactionUpgradePayload_serialize : Serialize ForkTransactionUpgradePayload := fun p =>
  JObj (field "schema_version" (fup_schema_version p) ++
        field "base_activation_id" (fup_base_activation_id p) ++
        field "activation_height" (fup_activation_height p) ++
        field "transaction_consensus" (fup_transaction_consensus p) ++
        field "inherited_utxo_spending_enabled" (fup_inherited_utxo_spending_enabled p) ++
        field "coinbase_maturity" (fup_coinbase_maturity p) ++
        field "max_block_transactions" (fup_max_block_transactions p) ++
        field "max_transaction_weight_wu" (fup_max_transaction_weight_wu p)).

(** The checks of [ForkActivationManifest::new] on the heights and times. *)
Definition check_fork_point (config : ForkConfig) (fork_point : ForkPoint) (launch_block : MainnetBlockRef)
    : fork_checked unit :=
  if negb (fp_launch_timestamp_utc fork_point =? fc_launch_timestamp_utc config)%Z
  then Err ConfigLaunchTimestampMismatch
  else
    expected ← ok_or ForkPointHeightOverflow (checked_add 64 (fp_inherited_tip_height fork_point) 1);
    if negb (fp_first_fork_height fork_point =? expected)
    then Err (ForkPointHeightMismatch (fp_inherited_tip_height fork_point) (fp_first_fork_height fork_point))
    else if negb (mb_height launch_block =? fp_first_fork_height fork_point)
    then Err (LaunchBlockHeightMismatch (fp_first_fork_height fork_point) (mb_height launch_block))
    else if (mb_timestamp launch_block <? fc_launch_timestamp_utc config)%Z
    then Err LaunchBlockBeforeLaunchTimestamp
    else Ok tt.

(** The checks on the configuration, which return the chain name. *)
Definition check_config (config : ForkConfig) : fork_checked string :=
  chain_name ← validate_chain_name (fc_chain_name config);
  if fc_target_spacing_seconds config <? 4 then Err InvalidTargetSpacing
  else if negb (bool_decide (is_Some (bitcoin_retarget_timespan_seconds config ≫= fun t => checked_mul 64 t 4)))
  then Err BitcoinRetargetTimespanOverflow
  else if fc_bootstrap_handoff_hashrate_hps config =? 0 then Err InvalidBootstrapHandoffHashrate
  else
    let pow_limit_bits := fc_post_fork_pow_limit_bits config in
    if 32 <? N.shiftr pow_limit_bits 24 then Err InvalidPostForkPowLimitBits
    else
      let pow_limit := target_from_compact pow_limit_bits in
      if pow_limit =? 0 then Err InvalidPostForkPowLimitBits
      else if negb (target_to_compact_lossy pow_limit =? pow_limit_bits)
      then Err NonCanonicalPostForkPowLimitBits
      else Ok chain_name.

(** [ForkActivationManifest::new]. *)
Definition fa_new (config : ForkConfig) (fork_point : ForkPoint) (launch_block : MainnetBlockRef)
    : fork_checked ForkActivationManifest :=
  _ ← check_fork_point config fork_point launch_block;
  chain_name ← check_config config;
  let config := {|
    fc_chain_name := chain_name; fc_launch_timestamp_utc := fc_launch_timestamp_utc config;
    fc_inherited_utxo_spending_enabled := fc_inherited_utxo_spending_enabled config;
    fc_post_fork_pow_limit_bits := fc_post_fork_pow_limit_bits config;
    fc_target_spacing_seconds := fc_target_spacing_seconds config;
    fc_difficulty_algorithm := fc_difficulty_algorithm config;
    fc_bootstrap_handoff_hashrate_hps := fc_bootstrap_handoff_hashrate_hps config |} in
  tip_hash ← normalize_hash_hex "fork_point.inherited_tip_hash" (fp_inherited_tip_hash fork_point);
  let fork_point := {|
    fp_inherited_tip_height := fp_inherited_tip_height fork_point; fp_inherited_tip_hash := tip_hash;
    fp_first_fork_height := fp_first_fork_height fork_point;
    fp_launch_timestamp_utc := fp_launch_timestamp_utc fork_point |} in
  block_hash ← normalize_hash_hex "launch_block.block_hash" (mb_block_hash launch_block);
  let launch_block := {| mb_height := mb_height launch_block; mb_block_hash := block_hash;
                         mb_timestamp := mb_timestamp launch_block |} in
  let replay_protection_required := negb (fc_inherited_utxo_spending_enabled config) in
  let payload := {| fap_schema_version := FORK_ACTIVATION_SCHEMA_VERSION; fap_config := config;
                    fap_fork_point := fork_point; fap_launch_block := launch_block;
                    fap_replay_protection_required := replay_protection_required |} in
  Ok {| fa_schema_version := FORK_ACTIVATION_SCHEMA_VERSION;
        fa_activation_id := hash_hex (sha256_tagged FORK_ACTIVATION_HASH_TAG (canonical_json payload));
        fa_config := config; fa_fork_point := fork_point; fa_launch_block := launch_block;
        fa_replay_protection_required := replay_protection_required |}.

Definition fa_validate (self : ForkActivationManifest) : fork_checked unit :=
  canonical ← fa_new (fa_config self) (fa_fork_point self) (fa_launch_block self);
  if bool_decide (canonical <> self) then Err ManifestIntegrityMismatch else Ok tt.

(** [ForkTransactionUpgradeManifest::new]. *)
Definition fu_new (base_activation_id : string) (activation_height : N)
    (transaction_consensus : ForkTransactionConsensus)
    (coinbase_maturity max_block_transactions max_transaction_weight_wu : N)
    : fork_checked ForkTransactionUpgradeManifest :=
  base_activation_id ← normalize_hash_hex "transaction_upgrade.base_activation_id" base_activation_id;
  if activation_height =? 0 then Err InvalidTransactionActivationHeight
  else if (coinbase_maturity =? 0) || (10000 <? coinbase_maturity) then Err InvalidCoinbaseMaturity
  else if negb ((2 <=? max_block_transactions) && (max_block_transactions <=? 100000))
  then Err InvalidMaxBlockTransactions
  else if negb ((400 <=? max_transaction_weight_wu) && (max_transaction_weight_wu <=? 4000000))
  then Err InvalidMaxTransactionWeight
  else
    let payload := {|
      fup_schema_version := FORK_TRANSACTION_UPGRADE_SCHEMA_VERSION;
      fup_base_activation_id := base_activation_id; fup_activation_height := activation_height;
      fup_transaction_consensus := transaction_consensus; fup_inherited_utxo_spending_enabled := false;
      fup_coinbase_maturity := coinbase_maturity; fup_max_block_transactions := max_block_transactions;
      fup_max_transaction_weight_wu := max_transaction_weight_wu |} in
    Ok {|
      fu_schema_version := FORK_TRANSACTION_UPGRADE_SCHEMA_VERSION;
      fu_upgrade_id := hash_hex (sha256_tagged FORK_TRANSACTION_UPGRADE_HASH_TAG (canonical_json payload));
      fu_base_activation_id := base_activation_id; fu_activation_height := activation_height;
      fu_transaction_consensus := transaction_consensus; fu_inherited_utxo_spending_enabled := false;
      fu_coinbase_maturity := coinbase_maturity; fu_max_block_transactions := max_block_transactions;
      fu_max_transaction_weight_wu := max_transaction_weight_wu |}.

Definition segwit_keypath_v1 (base_activation_id : string) (activation_height : N)
    : fork_checked ForkTransactionUpgradeManifest :=
  fu_new base_activation_id activation_height SegwitKeypathV1 DEFAULT_FORK_COINBASE_MATURITY
    DEFAULT_FORK_MAX_BLOCK_TRANSACTIONS DEFAULT_FORK_MAX_TRANSACTION_WEIGHT_WU.

Definition fu_validate (self : ForkTransactionUpgradeManifest) : fork_checked unit :=
  canonical ← fu_new (fu_base_activation_id self) (fu_activation_height self) (fu_transaction_consensus self)
                (fu_coinbase_maturity self) (fu_max_block_transactions self)
                (fu_max_transaction_weight_wu self);
  if bool_decide (canonical <> self) then Err TransactionUpgradeIntegrityMismatch else Ok tt.

Definition validate_for (self : ForkTransactionUpgradeManifest) (activation : ForkActivationManifest)
    : fork_checked unit :=
  _ ← fu_validate self;
  _ ← fa_validate activation;
  if negb (String.eqb (fu_base_activation_id self) (fa_activation_id activation))
  then Err TransactionUpgradeBaseMismatch
  else if fu_activation_height self <=? fp_first_fork_height (fa_fork_point activation)
  then Err TransactionUpgradeDoesNotPreserveLaunchRules
  else if fu_inherited_utxo_spending_enabled self then Err InheritedUtxoSpendingNotAllowed
  else Ok tt.
End manifests.

(** ** Identifiers *)

Global Instance ForkDifficultyAlgorithm_serialize_inj : SerializeInj ForkDifficultyAlgorithm.
Proof. by intros [] [] _. Qed.
Global Instance ForkTransactionConsensus_serialize_inj : SerializeInj ForkTransactionConsensus.
Proof. by intros [] [] _. Qed.

Section inj.
Context `{ChainClock, !ClockLaws}.

(** Printed times are compared as times. *)
Ltac solve_timed_inj :=
  let x := fresh "x" in let y := fresh "y" in let Heq := fresh "Heq" in
  intros x y Heq; invert_fields Heq;
  repeat match goal with Ht : rfc3339 _ = rfc3339 _ |- _ => apply rfc3339_inj in Ht end;
  destruct x, y; simpl in *; subst; reflexivity.

Global Instance ForkConfig_serialize_inj : SerializeInj ForkConfig.
Proof. solve_timed_inj. Qed.
Global Instance MainnetBlockRef_serialize_inj : SerializeInj MainnetBlockRef.
Proof.
  intros x y Heq. invert_fields Heq. apply rfc3339_inj in Heq. destruct x, y; simpl in *; by subst.
Qed.
Global Instance ForkPoint_serialize_inj : SerializeInj ForkPoint.
Proof.
  intros x y Heq. invert_fields Heq. apply rfc3339_inj in Heq. destruct x, y; simpl in *; by subst.
Qed.
Global Instance ForkActivationPayload_serialize_inj : SerializeInj ForkActivationPayload.
Proof. solve_serialize_inj. Qed.
Global Instance ForkTransactionUpgradePayload_serialize_inj : SerializeInj ForkTransactionUpgradePayload.
Proof. solve_serialize_inj. Qed.
End inj.

Lemma normalize_hash_hex_Ok field raw v :
  normalize_hash_hex field raw = Ok v <->
  v = to_ascii_lowercase raw /\ String.length v = 64%nat /\ all_bytes is_ascii_hexdigit v = true.
Proof.
  unfold normalize_hash_hex. split.
  - intros. res_inv. bool_inv. by subst.
  - intros (-> & Hl & ->). by rewrite Hl.
Qed.

Lemma normalize_hash_hex_idemp field raw v : normalize_hash_hex field raw = Ok v -> normalize_hash_hex field v = Ok v.
Proof. rewrite !normalize_hash_hex_Ok. intros (-> & ?). by rewrite lower_idemp. Qed.

Lemma check_config_name `{ChainClock} c name : check_config c = Ok name -> name = fc_chain_name c.
Proof. unfold check_config, validate_chain_name. intros. res_inv. by subst. Qed.

Section binding.
Context `{Hashing, ChainClock}.

(** What the activation identifier hashes. *)
Definition fork_activation_payload (m : ForkActivationManifest) : ForkActivationPayload := {|
  fap_schema_version := fa_schema_version m; fap_config := fa_config m; fap_fork_point := fa_fork_point m;
  fap_launch_block := fa_launch_block m; fap_replay_protection_required := fa_replay_protection_required m |}.
Definition activation_input (m : ForkActivationManifest) : bytes :=
  tagged_input FORK_ACTIVATION_HASH_TAG (canonical_json (fork_activation_payload m)).

Lemma fa_new_Ok c p b m :
  fa_new c p b = Ok m ->
  check_fork_point c p b = Ok tt /\ check_config c = Ok (fc_chain_name c) /\ fa_config m = c /\
  fa_schema_version m = FORK_ACTIVATION_SCHEMA_VERSION /\
  fa_replay_protection_required m = negb (fc_inherited_utxo_spending_enabled c) /\
  fp_inherited_tip_height (fa_fork_point m) = fp_inherited_tip_height p /\
  fp_first_fork_height (fa_fork_point m) = fp_first_fork_height p /\
  fp_launch_timestamp_utc (fa_fork_point m) = fp_launch_timestamp_utc p /\
  normalize_hash_hex "fork_point.inherited_tip_hash" (fp_inherited_tip_hash p) = Ok (fp_inherited_tip_hash (fa_fork_point m)) /\
  mb_height (fa_launch_block m) = mb_height b /\ mb_timestamp (fa_launch_block m) = mb_timestamp b /\
  normalize_hash_hex "launch_block.block_hash" (mb_block_hash b) = Ok (mb_block_hash (fa_launch_block m)) /\
  fa_activation_id m = hash_hex (sha256 (activation_input m)).
Proof.
  unfold fa_new. intros Hn. apply bind_Ok in Hn as ([] & Hp & Hn). apply bind_Ok in Hn as (name & Hc & Hn).
  assert (Hname := check_config_name _ _ Hc). subst name.
  apply bind_Ok in Hn as (tip & Ht & Hn). apply bind_Ok in Hn as (hash & Hh & [= <-]). cbn.
  split_and!; try done. by destruct c.
Qed.

(** Building again from a manifest's own fields gives the manifest back. *)
Lemma fa_new_fixed c p b m : fa_new c p b = Ok m -> fa_new (fa_config m) (fa_fork_point m) (fa_launch_block m) = Ok m.
Proof.
  intros Hn. assert (Hm := fa_new_Ok _ _ _ _ Hn).
  destruct Hm as (Hp & Hc & Hcfg & Hver & Hrep & H1 & H2 & H3 & Htip & H4 & H5 & Hhash & Hid).
  rewrite Hcfg. unfold fa_new.
  assert (check_fork_point c (fa_fork_point m) (fa_launch_block m) = Ok tt) as ->.
  { unfold check_fork_point in *. by rewrite H1, H2, H3, H4, H5. }
  cbn [mbind result_bind]. rewrite Hc. cbn [mbind result_bind].
  apply normalize_hash_hex_idemp in Htip, Hhash. rewrite Htip. cbn [mbind result_bind]. rewrite Hhash. cbn [mbind result_bind].
  f_equal. destruct m as [ver id cfg [? ? ? ?] [? ? ?] rep]. unfold activation_input, fork_activation_payload in Hid. cbn in *.
  subst. by destruct c.
Qed.

Lemma fa_validate_Ok m : fa_validate m = Ok tt <-> fa_new (fa_config m) (fa_fork_point m) (fa_launch_block m) = Ok m.
Proof.
  unfold fa_validate. split.
  - intros. res_inv. match goal with H : bool_decide _ = false |- _ => apply bool_decide_eq_false_1, dec_stable in H as -> end. done.
  - intros ->. cbn. rewrite bool_decide_eq_false_2; [done|]. by intros [].
Qed.

Lemma activation_id_binds `{!HexLaws, !HashLaws, !ClockLaws} m m' :
  fa_validate m = Ok tt -> fa_validate m' = Ok tt -> fa_activation_id m = fa_activation_id m' ->
  m = m' \/ collision_among [activation_input m; activation_input m'].
Proof.
  rewrite !fa_validate_Ok. intros Hm Hm' Hid.
  apply fa_new_Ok in Hm as (_ & _ & _ & _ & _ & _ & _ & _ & _ & _ & _ & _ & Hi).
  apply fa_new_Ok in Hm' as (_ & _ & _ & _ & _ & _ & _ & _ & _ & _ & _ & _ & Hi').
  destruct (collision_free_or [activation_input m; activation_input m']) as [Hcf|]; [left|by right].
  assert (Heq := Hid). rewrite Hi, Hi' in Heq. apply hex_encode_inj, Hcf in Heq; [|set_solver..].
  apply tagged_input_inj, to_vec_inj, to_json_inj in Heq.
  destruct m, m'; cbn in *. injection Heq as -> -> -> -> ->. by rewrite Hid.
Qed.
End binding.

(** (safety). A fork activation is one manifest: what [new] builds passes
    [validate], has contiguous heights with a launch block at or after the launch
    time and a retarget span whose quadruple fits 64 bits, requires replay
    protection exactly when inherited outputs cannot be spent, and any manifest
    that validates under the same identifier is equal to it, unless the two hashed
    strings collide. *)
Theorem fork_activation_agreed `{Hashing, !HexLaws, !HashLaws, ChainClock, !ClockLaws} c p b m m' :
  fa_new c p b = Ok m ->
  fa_validate m = Ok tt /\
  fp_first_fork_height (fa_fork_point m) = fp_inherited_tip_height (fa_fork_point m) + 1 /\
  mb_height (fa_launch_block m) = fp_first_fork_height (fa_fork_point m) /\
  (fc_launch_timestamp_utc (fa_config m) <= mb_timestamp (fa_launch_block m))%Z /\
  fits 64 (fc_target_spacing_seconds (fa_config m) * 2016 * 4) /\
  fa_replay_protection_required m = negb (fc_inherited_utxo_spending_enabled (fa_config m)) /\
  (fa_validate m' = Ok tt -> fa_activation_id m = fa_activation_id m' ->
   m = m' \/ collision_among [activation_input m; activation_input m']).
Proof.
  intros Hn. assert (Hv := fa_new_fixed _ _ _ _ Hn). apply fa_validate_Ok in Hv.
  assert (Hm := fa_new_Ok _ _ _ _ Hn).
  destruct Hm as (Hp & Hc & Hcfg & Hver & Hrep & Etip & Efirst & _ & Htip & Eheight & Etime & Hhash & Hid).
  rewrite Hcfg, Etip, Efirst, Eheight, Etime, Hrep. unfold check_fork_point in Hp. res_inv. bool_inv.
  match goal with H : checked_add _ _ _ = Some _ |- _ => apply checked_add_Some in H as [-> _] end.
  unfold check_config in Hc. res_inv. bool_inv.
  match goal with H : is_Some _ |- _ => destruct H as [q Hq] end.
  apply bind_Some in Hq as (t & [-> _]%checked_mul_Some & [-> Hfit]%checked_mul_Some).
  split_and!; try done; [lia|]. intros Hv'. by apply activation_id_binds.
Qed.

(** ** Selecting the fork point *)

Lemma launch_position_Some launch previous blocks prev b :
  launch_position launch previous blocks = Some (prev, b) ->
  exists before after, blocks = before ++ b :: after /\ Forall (fun x => (mb_timestamp x < launch)%Z) before /\
    (launch <= mb_timestamp b)%Z /\ prev = match last before with Some t => Some t | None => previous end.
Proof.
  revert previous. induction blocks as [|x blocks IH]; intros previous; cbn [launch_position]; [done|].
  destruct (Z.leb_spec launch (mb_timestamp x)) as [Hle|Hlt].
  - intros [= <- <-]. by exists [], blocks.
  - intros (before & after & -> & Hb & Hl & ->)%IH. exists (x :: before), after. split_and!; [done|by constructor|done|].
    rewrite last_cons. by destruct (last before).
Qed.

(** The selected point and its launch block. *)
Definition fork_selected (launch : Z) (blocks : list MainnetBlockRef) (p : ForkPoint) (b : MainnetBlockRef) : Prop :=
  exists before tip after, blocks = before ++ tip :: b :: after /\
    Forall (fun x => (mb_timestamp x < launch)%Z) (before ++ [tip]) /\ (launch <= mb_timestamp b)%Z /\
    fp_inherited_tip_height p = mb_height tip /\ fp_inherited_tip_hash p = to_ascii_lowercase (mb_block_hash tip) /\
    fp_first_fork_height p = mb_height b.

(** (functional). [select_fork_point] finds the first block at or after the
    launch time and forks from its parent, and the point it returns can be
    activated: with a valid configuration for that launch time and a well-formed
    launch block hash, [ForkActivationManifest::new] succeeds. *)
Theorem selected_fork_activates `{Hashing, ChainClock} launch blocks p :
  select_fork_point launch blocks = Ok p ->
  exists b, fork_selected launch blocks p b /\
    forall c name hash, fc_launch_timestamp_utc c = launch -> check_config c = Ok name ->
      normalize_hash_hex "launch_block.block_hash" (mb_block_hash b) = Ok hash ->
      exists m, fa_new c p b = Ok m.
Proof.
  unfold select_fork_point. intros Hs. apply bind_Ok in Hs as ([prev b] & Hf%ok_or_Ok & Hs).
  apply launch_position_Some in Hf as (before & after & -> & Hb & Hl & ->).
  apply bind_Ok in Hs as (tip & Ht%ok_or_Ok & Hs). cbn in Ht. destruct (last before) as [t|] eqn:Hlast; [|done].
  injection Ht as ->. apply last_Some in Hlast as [before' ->]. cbn [snd] in Hs. res_inv. bool_inv.
  match goal with H : checked_add _ _ _ = Some _ |- _ => apply checked_add_Some in H as [Hh Hfit] end.
  match goal with H : normalize_hash_hex _ _ = Ok _ |- _ => rename H into Hn end. subst.
  exists b. split.
  - exists before', tip, after. rewrite <-app_assoc. apply normalize_hash_hex_Ok in Hn as (-> & _). cbn. done.
  - intros c name hash Hc Hcfg Hhash. unfold fa_new, check_fork_point. cbn. rewrite Hc, Z.eqb_refl. cbn.
    rewrite (proj2 (checked_add_Some 64 (mb_height tip) 1 _) (conj eq_refl Hfit)). cbn [ok_or mbind result_bind].
    rewrite N.eqb_refl. match goal with H : mb_height b = _ |- _ => rewrite H end. rewrite N.eqb_refl. cbn [negb].
    rewrite (proj2 (Z.ltb_ge _ _) Hl). cbn [mbind result_bind]. rewrite Hcfg. cbn [mbind result_bind].
    apply normalize_hash_hex_Ok in Hn as (-> & Hlen & Hdig).
    rewrite (proj2 (normalize_hash_hex_Ok "fork_point.inherited_tip_hash" (to_ascii_lowercase (mb_block_hash tip))
      (to_ascii_lowercase (mb_block_hash tip)))) by (by rewrite lower_idemp).
    cbn [mbind result_bind]. rewrite Hhash. cbn. eauto.
Qed.

(** ** Transaction upgrades *)

Section upgrades.
Context `{Hashing, ChainClock}.

Definition upgrade_payload (u : ForkTransactionUpgradeManifest) : ForkTransactionUpgradePayload := {|
  fup_schema_version := fu_schema_version u; fup_base_activation_id := fu_base_activation_id u;
  fup_activation_height := fu_activation_height u; fup_transaction_consensus := fu_transaction_consensus u;
  fup_inherited_utxo_spending_enabled := fu_inherited_utxo_spending_enabled u;
  fup_coinbase_maturity := fu_coinbase_maturity u; fup_max_block_transactions := fu_max_block_transactions u;
  fup_max_transaction_weight_wu := fu_max_transaction_weight_wu u |}.
Definition upgrade_input (u : ForkTransactionUpgradeManifest) : bytes :=
  tagged_input FORK_TRANSACTION_UPGRADE_HASH_TAG (canonical_json (upgrade_payload u)).

(** The limits every valid upgrade respects. *)
Definition upgrade_bounds (u : ForkTransactionUpgradeManifest) : Prop :=
  fu_inherited_utxo_spending_enabled u = false /\ 1 <= fu_coinbase_maturity u <= 10000 /\
  2 <= fu_max_block_transactions u <= 100000 /\ 400 <= fu_max_transaction_weight_wu u <= 4000000.

Lemma fu_validate_Ok u :
  fu_validate u = Ok tt -> upgrade_bounds u /\ fu_upgrade_id u = hash_hex (sha256 (upgrade_input u)).
Proof.
  unfold fu_validate. intros Hv. apply bind_Ok in Hv as (canonical & Hn & Hv). res_inv.
  match goal with H : bool_decide _ = false |- _ => apply bool_decide_eq_false_1, dec_stable in H as -> end.
  unfold fu_new in Hn. apply bind_Ok in Hn as (base & _ & Hn). res_inv. bool_inv. unfold upgrade_bounds, upgrade_input, upgrade_payload.
  rewrite <-Hn. cbn. split; [lia|]. done.
Qed.
End upgrades.

(** (safety). A transaction upgrade that is valid for a fork activation takes
    effect only after the first fork block, never enables spending of inherited
    outputs, keeps its limits in range, and is the only valid upgrade with its
    identifier, unless the two hashed strings collide. *)
Theorem upgrade_preserves_launch `{Hashing, !HexLaws, !HashLaws, ChainClock} u u' a :
  validate_for u a = Ok tt ->
  fa_validate a = Ok tt /\ fu_base_activation_id u = fa_activation_id a /\
  fp_first_fork_height (fa_fork_point a) < fu_activation_height u /\ upgrade_bounds u /\
  (fu_validate u' = Ok tt -> fu_upgrade_id u = fu_upgrade_id u' ->
   u = u' \/ collision_among [upgrade_input u; upgrade_input u']).
Proof.
  unfold validate_for. intros Hv. apply bind_Ok in Hv as ([] & Hu & Hv). apply bind_Ok in Hv as ([] & Ha & Hv).
  res_inv. bool_inv. apply fu_validate_Ok in Hu as [Hb Hid]. split_and!; try done.
  intros [Hb' Hid']%fu_validate_Ok Heq.
  destruct (collision_free_or [upgrade_input u; upgrade_input u']) as [Hcf|]; [left|by right].
  assert (Hs := Heq). rewrite Hid, Hid' in Hs. apply hex_encode_inj, Hcf in Hs; [|set_solver..].
  apply tagged_input_inj, to_vec_inj, to_json_inj in Hs.
  clear Hid Hid'. destruct u as [? ? ? ? []], u' as [? ? ? ? []]; cbn in *.
  injection Hs as -> -> -> -> -> -> ->. by rewrite Heq.
Qed.

(** ** Examples *)

(** Compact encoding of a target: an exponent byte and three mantissa bytes. *)
Definition compact_size (n : N) : N := (N.size n + 7) / 8.
Definition clock_c : ChainClock := {|
  rfc3339 z := pretty z;
  target_from_compact bits :=
    let mantissa := N.land bits 0xffffff in
    let size := N.shiftr bits 24 in
    if 0x7fffff <? mantissa then 0
    else as_uint 256 (if size <=? 3 then N.shiftr mantissa (8 * (3 - size)) else N.shiftl mantissa (8 * (size - 3)));
  target_to_compact_lossy t :=
    let size := compact_size t in
    let mantissa := if size <=? 3 then N.shiftl t (8 * (3 - size)) else N.shiftr t (8 * (size - 3)) in
    if 0x7fffff <? mantissa then N.lor (N.shiftr mantissa 8) (N.shiftl (size + 1) 24)
    else N.lor mantissa (N.shiftl size 24)
|}.

Lemma clock_laws_c : @ClockLaws clock_c.
Proof. split. intros x y Heq. cbn in Heq. by apply (inj pretty) in Heq. Qed.

Definition mainnet_block (height : N) (c : ascii) (time : Z) : MainnetBlockRef := {|
  mb_height := height; mb_block_hash := repeat_char c 64; mb_timestamp := time |}.
Definition sample_blocks : list MainnetBlockRef :=
  [mainnet_block 899 "A" 90; mainnet_block 900 "b" 99; mainnet_block 901 "c" 100; mainnet_block 902 "d" 130].
Definition sample_fork_point : ForkPoint := {|
  fp_inherited_tip_height := 900; fp_inherited_tip_hash := repeat_char "b" 64; fp_first_fork_height := 901;
  fp_launch_timestamp_utc := 100 |}.
Definition sample_config : ForkConfig := no_value_testnet "pohw-testnet" 100.

Lemma fork_activation_agreed_witness : exists m,
  @fa_new hashing_c clock_c sample_config sample_fork_point (mainnet_block 901 "c" 100) = Ok m /\
  @fa_validate hashing_c clock_c m = Ok tt.
Proof.
  destruct (is_ok_Ok (@fa_new hashing_c clock_c sample_config sample_fork_point (mainnet_block 901 "c" 100)))
    as [m Hm]; [vm_compute; reflexivity|].
  exists m. split; [exact Hm|].
  exact (proj1 (@fork_activation_agreed hashing_c hex_laws_c hash_laws_c clock_c clock_laws_c _ _ _ m m Hm)).
Defined.

Lemma selected_fork_activates_witness : exists b,
  fork_selected 100 sample_blocks sample_fork_point b.
Proof.
  assert (select_fork_point 100 sample_blocks = Ok sample_fork_point) as Hs by (vm_compute; reflexivity).
  destruct (@selected_fork_activates hashing_c clock_c 100 sample_blocks sample_fork_point Hs) as (b & Hb & _).
  exists b. exact Hb.
Defined.

Definition activated : ForkActivationManifest :=
  match @fa_new hashing_c clock_c sample_config sample_fork_point (mainnet_block 901 "c" 100) with
  | Ok m => m
  | Err _ => {| fa_schema_version := 0; fa_activation_id := EmptyString; fa_config := sample_config;
                fa_fork_point := sample_fork_point; fa_launch_block := mainnet_block 901 "c" 100;
                fa_replay_protection_required := true |}
  end.

Lemma upgrade_preserves_launch_witness : exists u,
  @segwit_keypath_v1 hashing_c (fa_activation_id activated) 950 = Ok u /\ 901 < fu_activation_height u.
Proof.
  destruct (is_ok_Ok (@segwit_keypath_v1 hashing_c (fa_activation_id activated) 950)) as [u Hu];
    [vm_compute; reflexivity|].
  assert (match @segwit_keypath_v1 hashing_c (fa_activation_id activated) 950 with
    | Ok u => @validate_for hashing_c clock_c u activated | Err e => Err e end = Ok tt) as Hv by (vm_compute; reflexivity).
  rewrite Hu in Hv. exists u. split; [exact Hu|].
  exact (proj1 (proj2 (proj2 (@upgrade_preserves_launch hashing_c hex_laws_c hash_laws_c clock_c u u activated Hv)))).
Defined.
