(* ===== verification/ForkChain.v ===== *)
(** * The fork chain ([crates/p2pool-node/src/fork_chain.rs])

    [ForkChainStore]: the blocks of the fork, the rules a block and its
    transactions must satisfy (difficulty, time, proof of work, the UTXO set of
    its branch, the coinbase reward), the choice of the active tip by cumulative
    work, the indexes derived from the active chain, the mempool, and the block
    log with its replay.

    Block hashes and txids are the big-endian value of their 32 bytes, so that
    [Ord] is the order of numbers.  An [anyhow] error is its outermost message;
    [Panic] stands for a failed [expect] and [Diverged] for a loop that did not
    end within its bound, and both are proved not to occur.  The log is the list
    of its records: encoding, file access and locking are not modelled here.
    Parsing, hashing, weights, Merkle roots, proof of work and signatures are the
    [bitcoin] crate's and stay parameters. *)
From S2P Require Import Prelude Order Text Crates Concrete Fork.
From Stdlib Require Import Strings.Ascii Strings.Byte.

Local Open Scope N_scope.

(** ** The structs of the [bitcoin] crate *)

Abbreviation BlockHash := N (only parsing).
Abbreviation Txid := N (only parsing).
Abbreviation OutPoint := (N * N)%type (only parsing).

Record TxInput := {
  in_previous_output : OutPoint;
  in_script_sig : bytes;
  in_sequence : N;
  in_witness : list bytes
}.

Record TxOutput := {
  out_value : N;
  out_script_pubkey : bytes
}.

Record Tx := {
  tx_version : Z;
  tx_lock_time : N;
  tx_input : list TxInput;
  tx_output : list TxOutput
}.

Record Header := {
  hd_version : Z;
  hd_prev_blockhash : BlockHash;
  hd_merkle_root : BlockHash;
  hd_time : N;
  hd_bits : N;
  hd_nonce : N
}.

Record Block := {
  bk_header : Header;
  bk_txdata : list Tx
}.

Class ForkCrate `{Secp256k1} := {
  block_hash_of : Header -> BlockHash;
  compute_txid : Tx -> Txid;
  compute_wtxid : Tx -> bytes;
  is_coinbase : Tx -> bool;
  weight_of_tx : Tx -> N;
  weight_of_block : Block -> N;
  check_merkle_root : Block -> bool;
  check_witness_commitment : Block -> bool;
  validate_pow : Header -> N -> bool;
  target_to_work : N -> N;
  deserialize_block : bytes -> option Block;
  serialize_block : Block -> bytes;
  deserialize_tx : bytes -> option Tx;
  serialize_tx : Tx -> bytes;
  hash_to_string : N -> string;
  hash_from_str : string -> option N;
  address_of_script : bytes -> option string;
  is_p2pkh : bytes -> bool;
  is_p2sh : bytes -> bool;
  is_p2wsh : bytes -> bool;
  is_p2pk : bytes -> bool;
  is_op_return : bytes -> bool;
  is_witness_program : bytes -> bool;
  taproot_signature : bytes -> option (SchnorrSignature * bool);
  xonly_from_slice : bytes -> option XOnlyPublicKey;
  taproot_key_sighash : Tx -> nat -> list TxOutput -> option bytes;
  EcdsaSignature : Type;
  ecdsa_signature : bytes -> option (EcdsaSignature * bool);
  CompressedKey : Type;
  compressed_key : bytes -> option CompressedKey;
  p2wpkh_script : CompressedKey -> bytes;
  p2wpkh_sighash : Tx -> nat -> bytes -> N -> option bytes;
  ecdsa_verify : CompressedKey -> bytes -> EcdsaSignature -> bool
}.

(** ** Constants and state *)

Definition FORK_BLOCK_RECORD_SCHEMA_VERSION : N := 1.
Definition MAX_BLOCK_BYTES : N := 4 * 1024 * 1024.
Definition MAX_BLOCK_HEX_BYTES : N := MAX_BLOCK_BYTES * 2.
Definition MAX_FUTURE_BLOCK_SECONDS : N := 2 * 60 * 60.
Definition MAX_MONEY_SATS : N := 21000000 * 100000000.
Definition MAX_MEMPOOL_TRANSACTIONS : N := 10000.
Definition MAX_MEMPOOL_BYTES : N := 3 * 1024 * 1024.
Definition MAX_MEMPOOL_TRANSACTION_BYTES : N := 400000.
Definition MAX_TEMPLATE_NON_COINBASE_WEIGHT_WU : N := 3500000.
Definition MAX_BLOCK_WEIGHT : N := 4000000.
Definition FORK_BLOCK_VERSION : Z := 0x20000000.

Inductive ChainError :=
| Bail (message : string)
| Panic (message : string)
| Diverged.

Abbreviation chain_checked := (result ChainError).

Inductive DifficultyPhase :=
| Bootstrap
| Bitcoin (epoch_start_height epoch_start_time : N).

Record NextDifficulty := {
  nd_bits : N;
  nd_phase : DifficultyPhase
}.

Record BlockNode := {
  bn_block : Block;
  bn_block_hex : string;
  bn_height : N;
  bn_cumulative_work : N;
  bn_difficulty_phase : DifficultyPhase
}.

Record IndexedForkOutput := {
  ifo_output : TxOutput;
  ifo_height : N;
  ifo_coinbase : bool
}.

Record ForkBranchState := {
  bs_utxos : gmap OutPoint IndexedForkOutput;
  bs_txids : gset Txid
}.

Record ForkBlockRecord := {
  br_schema_version : N;
  br_activation_id : string;
  br_block_hex : string
}.

Record ForkOutputSpend := {
  sp_txid : string;
  sp_vin : nat;
  sp_height : N
}.

Record ForkTransactionLocation := {
  tl_block_hash : BlockHash;
  tl_transaction_index : nat
}.

Record ForkTransactionRef := {
  tr_txid : string;
  tr_block_hash : string;
  tr_height : N;
  tr_active : bool;
  tr_transaction_index : nat;
  tr_coinbase : bool;
  tr_total_output_sats : N;
  tr_fee_sats : option N
}.

Record ForkAddressSummary := {
  as_address : string;
  as_transaction_count : nat;
  as_funded_output_count : N;
  as_funded_total_sats : N;
  as_spent_output_count : N;
  as_spent_total_sats : N;
  as_inherited_input_count : N;
  as_inherited_input_total_sats : N;
  as_balance_sats : N;
  as_balance_scope : string;
  as_first_seen_height : option N;
  as_last_seen_height : option N
}.

Record ForkUtxo := {
  fx_txid : string;
  fx_vout : N;
  fx_value_sats : N;
  fx_script_pubkey_hex : string;
  fx_script_type : string;
  fx_height : N;
  fx_coinbase : bool
}.

Record ForkAddressAccumulator := {
  aa_transaction_ids : gset Txid;
  aa_funded_output_count : N;
  aa_funded_total_sats : N;
  aa_spent_output_count : N;
  aa_spent_total_sats : N;
  aa_first_seen_height : option N;
  aa_last_seen_height : option N
}.

Definition aa_default : ForkAddressAccumulator := {|
  aa_transaction_ids := ∅; aa_funded_output_count := 0; aa_funded_total_sats := 0;
  aa_spent_output_count := 0; aa_spent_total_sats := 0; aa_first_seen_height := None;
  aa_last_seen_height := None |}.

Record ForkAddressIndexEntry := {
  ae_summary : ForkAddressSummary;
  ae_transactions : list ForkTransactionRef;
  ae_utxos : list ForkUtxo
}.

Record ForkExplorerIndex := {
  ei_outputs : gmap OutPoint IndexedForkOutput;
  ei_spends : gmap OutPoint ForkOutputSpend;
  ei_addresses : gmap string ForkAddressIndexEntry
}.

(** [stored_block_order] is the set of (height, hash); [fcs_log] is the content
    of the block log. *)
Record ForkChainStore := {
  fcs_manifest : ForkActivationManifest;
  fcs_transaction_upgrade : option ForkTransactionUpgradeManifest;
  fcs_inherited_tip_hash : BlockHash;
  fcs_blocks : gmap BlockHash BlockNode;
  fcs_active_tip : option BlockHash;
  fcs_active_by_height : gmap N BlockHash;
  fcs_stored_block_order : gset (N * BlockHash);
  fcs_transaction_locations : gmap Txid (list ForkTransactionLocation);
  fcs_explorer : ForkExplorerIndex;
  fcs_mempool : gmap Txid Tx;
  fcs_mempool_bytes : N;
  fcs_log : list ForkBlockRecord
}.

(** Iteration over a [BTreeMap] with numeric keys. *)
Definition btree_entries_N {V} (m : gmap N V) : list (N * V) :=
  sort_by (fun a b => a.1 ?= b.1) (map_to_list m).
Definition btree_values_N {V} (m : gmap N V) : list V := map snd (btree_entries_N m).

(** [.context(message)] on an [Option] and on a failing crate call. *)
Definition with_context {A} (message : string) (o : option A) : chain_checked A := ok_or (Bail message) o.
Definition ensure (ok : bool) (message : string) : chain_checked unit :=
  if ok then Ok tt else Err (Bail message).
Definition expect {A} (message : string) (o : option A) : chain_checked A := ok_or (Panic message) o.

(** ** Pure helpers *)

Definition len (s : string) : N := N.of_nat (String.length s).

Definition normalize_block_hex (raw : string) : chain_checked string :=
  if is_empty raw || negb (len raw mod 2 =? 0) || (MAX_BLOCK_HEX_BYTES <? len raw)
  then Err (Bail "fork block hex length is outside allowed bounds")
  else if negb (all_bytes is_ascii_hexdigit raw) then Err (Bail "fork block contains non-hex characters")
  else Ok (to_ascii_lowercase raw).

Definition normalize_transaction_hex (raw : string) : chain_checked string :=
  if is_empty raw || negb (len raw mod 2 =? 0) || (MAX_MEMPOOL_TRANSACTION_BYTES * 2 <? len raw)
  then Err (Bail "fork transaction hex length is outside allowed bounds")
  else if negb (all_bytes is_ascii_hexdigit raw)
  then Err (Bail "fork transaction contains non-hex characters")
  else Ok (to_ascii_lowercase raw).

Definition checked_mempool_bytes (current transaction_bytes : N) : chain_checked N :=
  next ← with_context "fork transaction mempool byte count overflow" (checked_add 64 current transaction_bytes);
  if MAX_MEMPOOL_BYTES <? next then Err (Bail "fork transaction mempool byte limit exceeded") else Ok next.

Definition block_subsidy_sats (height : N) : N :=
  let halvings := height / 210000 in
  if 64 <=? halvings then 0 else N.shiftr (50 * 100000000) halvings.

(** The little-endian bytes of the [while remaining > 0] loop; a [u64] has at
    most eight. *)
Fixpoint script_number_bytes (fuel : nat) (remaining : N) : list N :=
  match fuel with
  | O => []
  | S fuel' =>
      if remaining =? 0 then [] else N.land remaining 0xff :: script_number_bytes fuel' (N.shiftr remaining 8)
  end.

Definition minimal_script_number (value : N) : list N :=
  if value =? 0 then []
  else
    let b := script_number_bytes 8 value in
    match last b with
    | Some byte => if negb (N.land byte 0x80 =? 0) then b ++ [0] else b
    | None => b
    end.

Definition byte_values (b : bytes) : list N := map Byte.to_N b.

Definition validate_coinbase_height (coinbase : Tx) (height : N) : chain_checked unit :=
  input ← with_context "fork coinbase has no input" (head (tx_input coinbase));
  let script := byte_values (in_script_sig input) in
  if negb (Nat.leb 2 (length script) && Nat.leb (length script) 100)
  then Err (Bail "fork coinbase scriptSig length must be 2..=100 bytes")
  else
    let encoded_height := minimal_script_number height in
    if Nat.ltb 75 (length encoded_height) then Err (Bail "fork block height script number is too large")
    else
      let expected := as_uint 8 (N.of_nat (length encoded_height)) :: encoded_height in
      if negb (bool_decide (take (length expected) script = expected))
      then Err (Bail ("fork coinbase does not begin with the minimally encoded BIP34 height " +:+ pretty height))
      else Ok tt.

(** The loop over the outputs of a coinbase. *)
Definition add_coinbase_output (total : N) (output : TxOutput) : chain_checked N :=
  if MAX_MONEY_SATS <? out_value output then Err (Bail "fork coinbase output exceeds MAX_MONEY")
  else with_context "fork coinbase output sum overflow" (checked_add 64 total (out_value output)).

Definition validate_coinbase_reward (coinbase : Tx) (height fees_sats : N) : chain_checked unit :=
  total ← try_fold add_coinbase_output 0 (tx_output coinbase);
  allowed ← with_context "fork coinbase subsidy plus fees overflow"
              (checked_add 64 (block_subsidy_sats height) fees_sats);
  if allowed <? total
  then Err (Bail ("fork coinbase pays " +:+ pretty total +:+ " sats but subsidy plus fees are only " +:+
                  pretty allowed +:+ " sats"))
  else Ok tt.

Definition phase_as_str (p : DifficultyPhase) : string :=
  match p with Bootstrap => "bootstrap" | Bitcoin _ _ => "bitcoin_2016" end.

Definition update_height_range (first last : option N) (height : N) : option N * option N :=
  (Some (match first with Some current => N.min current height | None => height end),
   Some (match last with Some current => N.max current height | None => height end)).

(** [u64::clamp]. *)
Definition clamp (v lo hi : N) : N := if v <? lo then lo else if hi <? v then hi else v.

Section difficulty.
Context `{ChainClock}.

(** Works on 256-bit targets with a 512-bit product; a zero [target_timespan]
    would panic in the division. *)
Definition next_work_required_v1 (previous_bits actual_timespan target_timespan pow_limit_bits : N)
    : chain_checked N :=
  let min_timespan := N.shiftr target_timespan 2 in
  max_timespan ← with_context "fork difficulty maximum retarget timespan overflow" (checked_mul 64 target_timespan 4);
  let actual_timespan := clamp actual_timespan min_timespan max_timespan in
  let previous := target_from_compact previous_bits in
  let scaled := as_uint 512 (previous * actual_timespan) in
  if target_timespan =? 0 then Err (Panic "attempted to divide by zero")
  else
    let adjusted := scaled / target_timespan in
    let pow_limit := target_from_compact pow_limit_bits in
    let bounded := if pow_limit <? adjusted then pow_limit else adjusted in
    Ok (target_to_compact_lossy (as_uint 256 bounded)).

Definition next_work_required (previous_bits actual_timespan target_timespan : N) (config : ForkConfig)
    : chain_checked N :=
  match fc_difficulty_algorithm config with
  | BootstrapThenBitcoin2016V1 =>
      next_work_required_v1 previous_bits actual_timespan target_timespan (fc_post_fork_pow_limit_bits config)
  end.
End difficulty.

(** The product of two [u64] fits the [u128]. *)
Definition bootstrap_handoff_work (config : ForkConfig) : N :=
  fc_bootstrap_handoff_hashrate_hps config * fc_target_spacing_seconds config.

Section chain.
Context `{Hashing, Secp256k1, BitcoinCrate, !ForkCrate, ChainClock}.

(** [Work + Work] on 256 bits. *)
Definition add_work (a b : N) : N := as_uint 256 (a + b).

Definition estimated_hashrate_hps (target target_spacing_seconds : N) : N :=
  let work := target_to_work target in
  let expected_hashes := if 2 ^ 128 <=? work then 2 ^ 128 - 1 else work in
  expected_hashes / target_spacing_seconds.

Definition outpoint_str (o : OutPoint) : string := hash_to_string o.1 +:+ ":" +:+ pretty o.2.

Definition decode_block (block_hex : string) : chain_checked Block :=
  b ← map_err (fun _ => Bail "fork block is invalid hex") (hex_decode block_hex);
  if MAX_BLOCK_BYTES <? N.of_nat (length b) then Err (Bail "fork block exceeds serialized size limit")
  else
    block ← with_context "fork block is not Bitcoin consensus data" (deserialize_block b);
    if bool_decide (serialize_block block <> b) then Err (Bail "fork block encoding is not canonical")
    else Ok block.

Definition decode_transaction (transaction_hex : string) : chain_checked Tx :=
  b ← map_err (fun _ => Bail "fork transaction is invalid hex") (hex_decode transaction_hex);
  if MAX_BLOCK_BYTES <? N.of_nat (length b) then Err (Bail "fork transaction exceeds serialized size limit")
  else
    transaction ← with_context "fork transaction is not Bitcoin consensus data" (deserialize_tx b);
    if bool_decide (serialize_tx transaction <> b)
    then Err (Bail "fork transaction encoding is not canonical")
    else Ok transaction.

(** ** The UTXO set of a branch *)

(** The methods on [&mut ForkBranchState] keep what they changed before an error. *)
Abbreviation BM := (M ForkBranchState ChainError).

Definition run_state {S E A} (m : M S E A) (s : S) : result E S :=
  match m s with (Ok _, s') => Ok s' | (Err e, _) => Err e end.

Definition insert_utxo (outpoint : OutPoint) (indexed : IndexedForkOutput) (state : ForkBranchState)
    : ForkBranchState :=
  {| bs_utxos := <[outpoint := indexed]> (bs_utxos state); bs_txids := bs_txids state |}.

(** [add_transaction_outputs]: the loop from output [vout] on. *)
Fixpoint add_outputs (tx : Tx) (height vout : N) (outputs : list TxOutput) : BM unit :=
  match outputs with
  | [] => mret tt
  | output :: outputs' =>
      if 2 ^ 32 <=? vout then throw (Bail "fork transaction output index exceeds u32")
      else
        let outpoint := (compute_txid tx, vout) in
        replaced ← gets (fun state => bs_utxos state !! outpoint);
        _ ← modify (insert_utxo outpoint {| ifo_output := output; ifo_height := height;
                                            ifo_coinbase := is_coinbase tx |});
        match replaced with
        | Some _ => throw (Bail ("fork transaction output collision for " +:+ outpoint_str outpoint))
        | None => add_outputs tx height (vout + 1) outputs'
        end
  end.

Definition add_transaction_outputs (tx : Tx) (height : N) : BM unit := add_outputs tx height 0 (tx_output tx).

(** [state.txids.insert(txid)]: whether it was new. *)
Definition insert_txid (txid : Txid) : BM bool :=
  fresh ← gets (fun state => negb (bool_decide (txid ∈ bs_txids state)));
  _ ← modify (fun state => {| bs_utxos := bs_utxos state; bs_txids := {[txid]} ∪ bs_txids state |});
  mret fresh.

(** [state.utxos.remove(&input.previous_output)]. *)
Definition remove_utxo (e : OutPoint -> ChainError) (input : TxInput) : BM unit :=
  removed ← gets (fun state => bs_utxos state !! in_previous_output input);
  match removed with
  | None => throw (e (in_previous_output input))
  | Some _ => modify (fun state => {| bs_utxos := delete (in_previous_output input) (bs_utxos state);
                                      bs_txids := bs_txids state |})
  end.

(** One transaction of a stored block in [branch_state]. *)
Definition replay_transaction (block_hash : BlockHash) (height : N) (tx : Tx) : BM unit :=
  let txid := compute_txid tx in
  fresh ← insert_txid txid;
  if negb fresh
  then throw (Bail ("fork branch contains duplicate transaction id " +:+ hash_to_string txid +:+
                    " at block " +:+ hash_to_string block_hash))
  else
    _ ← (if is_coinbase tx then mret tt
         else for_each (remove_utxo (fun o => Bail ("fork branch transaction " +:+ hash_to_string txid +:+
                                                    " spends missing output " +:+ outpoint_str o)))
                (tx_input tx));
    add_transaction_outputs tx height.

Definition replay_block (entry : BlockHash * BlockNode) : BM unit :=
  for_each (replay_transaction entry.1 (bn_height entry.2)) (bk_txdata (bn_block entry.2)).

(** The parent of a stored block, [None] above the inherited tip. *)
Definition parent_of (s : ForkChainStore) (node : BlockNode) : option BlockHash :=
  let prev := hd_prev_blockhash (bk_header (bn_block node)) in
  if prev =? fcs_inherited_tip_hash s then None else Some prev.

(** The [while let Some(hash) = cursor] walks, newest block first; a walk visits
    a block at most once, so it is bounded by their number. *)
Fixpoint walk_branch (fuel : nat) (missing : BlockHash -> string) (s : ForkChainStore)
    (cursor : option BlockHash) : chain_checked (list (BlockHash * BlockNode)) :=
  match cursor with
  | None => Ok []
  | Some hash =>
      match fuel with
      | O => Err Diverged
      | S fuel' =>
          node ← with_context (missing hash) (fcs_blocks s !! hash);
          rest ← walk_branch fuel' missing s (parent_of s node);
          Ok ((hash, node) :: rest)
      end
  end.

Definition branch_fuel (s : ForkChainStore) : nat := size (fcs_blocks s).

Definition empty_branch : ForkBranchState := {| bs_utxos := ∅; bs_txids := ∅ |}.

Definition branch_state (s : ForkChainStore) (parent : option BlockHash) : chain_checked ForkBranchState :=
  branch ← walk_branch (branch_fuel s)
             (fun hash => "fork UTXO traversal found missing block " +:+ hash_to_string hash) s parent;
  run_state (for_each replay_block (rev branch)) empty_branch.

(** ** Transactions *)

Definition validate_p2tr_input (tx : Tx) (prevouts : list TxOutput) (input_index : nat) (input : TxInput)
    (previous : TxOutput) : chain_checked unit :=
  let label := "fork P2TR input " +:+ pretty input_index in
  match in_witness input with
  | [signature_bytes] =>
      if negb (Nat.eqb (length signature_bytes) 64)
      then Err (Bail (label +:+ " requires a 64-byte SIGHASH_DEFAULT signature"))
      else
        signature ← with_context (label +:+ " signature is invalid") (taproot_signature signature_bytes);
        if negb signature.2 then Err (Bail (label +:+ " must use SIGHASH_DEFAULT"))
        else
          output_key ← with_context "fork P2TR output key is invalid"
                         (xonly_from_slice (take 32 (drop 2 (out_script_pubkey previous))));
          sighash ← with_context ("failed to compute fork P2TR input " +:+ pretty input_index +:+ " sighash")
                      (taproot_key_sighash tx input_index prevouts);
          map_err (fun _ => Bail (label +:+ " signature verification failed"))
            (verify_schnorr signature.1 sighash output_key)
  | _ => Err (Bail (label +:+ " must contain exactly one key-path signature"))
  end.

Definition validate_p2wpkh_input (tx : Tx) (input_index : nat) (input : TxInput) (previous : TxOutput)
    : chain_checked unit :=
  let label := "fork P2WPKH input " +:+ pretty input_index in
  match in_witness input with
  | [signature_bytes; key_bytes] =>
      signature ← with_context (label +:+ " signature is invalid") (ecdsa_signature signature_bytes);
      if negb signature.2 then Err (Bail (label +:+ " must use SIGHASH_ALL"))
      else
        public_key ← with_context (label +:+ " public key is invalid") (compressed_key key_bytes);
        if bool_decide (p2wpkh_script public_key <> out_script_pubkey previous)
        then Err (Bail (label +:+ " public key does not match its output"))
        else
          sighash ← with_context ("failed to compute fork P2WPKH input " +:+ pretty input_index +:+ " sighash")
                      (p2wpkh_sighash tx input_index (out_script_pubkey previous) (out_value previous));
          if ecdsa_verify public_key sighash signature.1 then Ok tt
          else Err (Bail (label +:+ " signature verification failed"))
  | _ => Err (Bail (label +:+ " must contain a signature and public key"))
  end.

(** The loop of [validate_segwit_keypath_signatures] from input [input_index] on. *)
Fixpoint validate_inputs (tx : Tx) (prevouts : list TxOutput) (input_index : nat) (inputs : list TxInput)
    (previous_outputs : list TxOutput) : chain_checked unit :=
  match inputs, previous_outputs with
  | input :: inputs', previous :: previous_outputs' =>
      _ ← (if is_p2tr (out_script_pubkey previous)
           then validate_p2tr_input tx prevouts input_index input previous
           else if is_p2wpkh (out_script_pubkey previous)
           then validate_p2wpkh_input tx input_index input previous
           else Err (Bail ("fork input " +:+ pretty input_index +:+
                           " spends an unsupported script; segwit-keypath-v1 permits only P2WPKH and P2TR key-path outputs")));
      validate_inputs tx prevouts (S input_index) inputs' previous_outputs'
  | _, _ => Ok tt
  end.

Definition validate_segwit_keypath_signatures (tx : Tx) (prevouts : list TxOutput) : chain_checked unit :=
  if negb (Nat.eqb (length prevouts) (length (tx_input tx)))
  then Err (Bail "fork transaction previous-output count mismatch")
  else validate_inputs tx prevouts 0 (tx_input tx) prevouts.

Definition transactions_active_at (s : ForkChainStore) (height : N) : bool :=
  match fcs_transaction_upgrade s with
  | Some upgrade => fu_activation_height upgrade <=? height
  | None => false
  end.

(** The loop over the outputs. *)
Definition add_output_total (output_total : N) (output : TxOutput) : chain_checked N :=
  if MAX_MONEY_SATS <? out_value output then Err (Bail "fork transaction output exceeds MAX_MONEY")
  else
    output_total ← with_context "fork transaction output total overflow"
                     (checked_add 64 output_total (out_value output));
    if MAX_MONEY_SATS <? output_total then Err (Bail "fork transaction output total exceeds MAX_MONEY")
    else Ok output_total.

(** The loop over the inputs: the set of outpoints seen, the previous outputs
    and their total. *)
Definition check_tx_input (upgrade : ForkTransactionUpgradeManifest) (height : N)
    (utxos : gmap OutPoint IndexedForkOutput) (acc : gset OutPoint * list TxOutput * N) (input : TxInput)
    : chain_checked (gset OutPoint * list TxOutput * N) :=
  let '(seen_inputs, prevouts, input_total) := acc in
  let outpoint := in_previous_output input in
  if negb (Nat.eqb (length (in_script_sig input)) 0)
  then Err (Bail "fork segwit key-path input scriptSig must be empty")
  else if bool_decide (outpoint ∈ seen_inputs)
  then Err (Bail ("fork transaction repeats input " +:+ outpoint_str outpoint))
  else
    previous ← with_context ("fork transaction input " +:+ outpoint_str outpoint +:+
                        " is not an unspent fork-created output") (utxos !! outpoint);
    if ifo_coinbase previous && (height - ifo_height previous <? fu_coinbase_maturity upgrade)
    then Err (Bail ("fork transaction spends immature coinbase " +:+ outpoint_str outpoint +:+ " at depth " +:+
                    pretty (height - ifo_height previous) +:+ "; " +:+ pretty (fu_coinbase_maturity upgrade) +:+
                    " required"))
    else
      input_total ← with_context "fork transaction input total overflow"
                      (checked_add 64 input_total (out_value (ifo_output previous)));
      if MAX_MONEY_SATS <? input_total then Err (Bail "fork transaction input total exceeds MAX_MONEY")
      else Ok ({[outpoint]} ∪ seen_inputs, prevouts ++ [ifo_output previous], input_total).

(** The checks of [validate_and_apply_transaction] that do not read the state. *)
Definition check_tx_shape (upgrade : ForkTransactionUpgradeManifest) (tx : Tx) : chain_checked unit :=
  if is_coinbase tx then Err (Bail "fork non-coinbase transaction set contains a coinbase")
  else if negb (tx_version tx =? 2)%Z then Err (Bail "fork transaction version must be 2")
  else if negb (tx_lock_time tx =? 0)
  then Err (Bail "fork transaction lock_time must be zero in segwit-keypath-v1")
  else if Nat.eqb (length (tx_input tx)) 0 then Err (Bail "fork transaction has no inputs")
  else if Nat.eqb (length (tx_output tx)) 0 then Err (Bail "fork transaction has no outputs")
  else if fu_max_transaction_weight_wu upgrade <? weight_of_tx tx
  then Err (Bail ("fork transaction exceeds the " +:+ pretty (fu_max_transaction_weight_wu upgrade) +:+
                  " weight-unit limit"))
  else Ok tt.

(** The checks of [validate_and_apply_transaction], which only read the state: the fee. *)
Definition check_transaction (s : ForkChainStore) (tx : Tx) (height : N) (state : ForkBranchState)
    : chain_checked N :=
  upgrade ← with_context "fork transaction validation requested before activation"
              (upgrade ← fcs_transaction_upgrade s;
               if fu_activation_height upgrade <=? height then Some upgrade else None);
  _ ← check_tx_shape upgrade tx;
  let txid := compute_txid tx in
  if bool_decide (txid ∈ bs_txids state)
  then Err (Bail ("fork branch already contains transaction id " +:+ hash_to_string txid))
  else
    output_total ← try_fold add_output_total 0 (tx_output tx);
    acc ← try_fold (check_tx_input upgrade height (bs_utxos state)) (∅, [], 0) (tx_input tx);
    let '(_, prevouts, input_total) := acc in
    fee_sats ← with_context ("fork transaction outputs " +:+ pretty output_total +:+ " sats exceed inputs " +:+
                        pretty input_total +:+ " sats") (checked_sub input_total output_total);
    _ ← validate_segwit_keypath_signatures tx prevouts;
    Ok fee_sats.

Definition validate_and_apply_transaction (s : ForkChainStore) (height : N) (tx : Tx) : BM N :=
  fee_sats ← asks (check_transaction s tx height);
  _ ← for_each (remove_utxo (fun _ => Panic "validated fork transaction input remains unspent")) (tx_input tx);
  _ ← insert_txid (compute_txid tx);
  _ ← add_transaction_outputs tx height;
  mret fee_sats.

(** The loop of [validate_block_transactions], with the fees so far. *)
Fixpoint apply_block_transactions (s : ForkChainStore) (height fees_sats : N) (txs : list Tx) : BM N :=
  match txs with
  | [] => mret fees_sats
  | tx :: txs' =>
      fee ← validate_and_apply_transaction s height tx;
      fees_sats ← lift (with_context "fork block fee total overflow" (checked_add 64 fees_sats fee));
      apply_block_transactions s height fees_sats txs'
  end.

(** The transactions of a block on the state of its branch. *)
Definition apply_block (s : ForkChainStore) (height : N) (coinbase : Tx) (txs : list Tx) : BM N :=
  let coinbase_txid := compute_txid coinbase in
  fresh ← insert_txid coinbase_txid;
  if negb fresh
  then throw (Bail ("fork branch already contains coinbase transaction id " +:+ hash_to_string coinbase_txid))
  else
    _ ← add_transaction_outputs coinbase height;
    apply_block_transactions s height 0 txs.

Definition validate_block_transactions (s : ForkChainStore) (block : Block) (height : N)
    (parent : option BlockHash) : chain_checked N :=
  if negb (transactions_active_at s height)
  then
    if negb (Nat.eqb (length (bk_txdata block)) 1)
    then Err (Bail "fork blocks before the transaction activation height must contain exactly one coinbase transaction")
    else Ok 0
  else
    upgrade ← expect "active transaction rules have an upgrade manifest" (fcs_transaction_upgrade s);
    if fu_max_block_transactions upgrade <? N.of_nat (length (bk_txdata block))
    then Err (Bail ("fork block contains " +:+ pretty (length (bk_txdata block)) +:+ " transactions; " +:+
                    pretty (fu_max_block_transactions upgrade) +:+ " allowed"))
    else if existsb is_coinbase (drop 1 (bk_txdata block))
    then Err (Bail "fork block contains more than one coinbase transaction")
    else
      coinbase ← expect "index out of bounds" (head (bk_txdata block));
      state ← branch_state s parent;
      (apply_block s height coinbase (drop 1 (bk_txdata block)) state).1.

(** ** Difficulty and time *)

Definition phase_after_bootstrap_block (s : ForkChainStore) (bits height time : N) : DifficultyPhase :=
  if bootstrap_handoff_work (fa_config (fcs_manifest s)) <=? target_to_work (target_from_compact bits)
  then Bitcoin height time
  else Bootstrap.

Definition next_difficulty (s : ForkChainStore) (parent_hash : option BlockHash) (child_height child_time : N)
    : chain_checked NextDifficulty :=
  let config := fa_config (fcs_manifest s) in
  match parent_hash with
  | None =>
      let bits := fc_post_fork_pow_limit_bits config in
      Ok {| nd_bits := bits; nd_phase := phase_after_bootstrap_block s bits child_height child_time |}
  | Some parent_hash =>
      parent ← with_context "fork-chain difficulty parent is unknown" (fcs_blocks s !! parent_hash);
      let header := bk_header (bn_block parent) in
      match bn_difficulty_phase parent with
      | Bootstrap =>
          let elapsed := child_time - hd_time header in
          bits ← next_work_required (hd_bits header) elapsed (fc_target_spacing_seconds config) config;
          Ok {| nd_bits := bits; nd_phase := phase_after_bootstrap_block s bits child_height child_time |}
      | Bitcoin epoch_start_height epoch_start_time as phase =>
          epoch_offset ← with_context "fork-chain Bitcoin retarget height underflow"
                           (checked_sub child_height epoch_start_height);
          if epoch_offset <? BITCOIN_DIFFICULTY_ADJUSTMENT_INTERVAL
          then Ok {| nd_bits := hd_bits header; nd_phase := phase |}
          else if negb (epoch_offset =? BITCOIN_DIFFICULTY_ADJUSTMENT_INTERVAL)
          then Err (Bail "fork-chain Bitcoin retarget state skipped an epoch boundary")
          else
            let actual_timespan := hd_time header - epoch_start_time in
            timespan ← with_context "validated fork config lost its Bitcoin retarget timespan"
                         (bitcoin_retarget_timespan_seconds config);
            bits ← next_work_required (hd_bits header) actual_timespan timespan config;
            Ok {| nd_bits := bits; nd_phase := Bitcoin child_height child_time |}
      end
  end.

(** The loop stops after ten blocks. *)
Fixpoint collect_times (room : nat) (s : ForkChainStore) (cursor : option BlockHash) : chain_checked (list N) :=
  match cursor, room with
  | Some hash, S room' =>
      node ← with_context ("fork-chain parent traversal found missing block " +:+ hash_to_string hash)
               (fcs_blocks s !! hash);
      rest ← collect_times room' s (parent_of s node);
      Ok (hd_time (bk_header (bn_block node)) :: rest)
  | _, _ => Ok []
  end.

Definition unix_seconds (t : Z) : Z := (t / 1000000000)%Z.

Definition median_time_past (s : ForkChainStore) (parent : option BlockHash) : chain_checked N :=
  let launch := unix_seconds (fc_launch_timestamp_utc (fa_config (fcs_manifest s))) in
  if (launch - 1 <? 0)%Z then Err (Bail "fork launch timestamp predates Unix epoch")
  else
    rest ← collect_times 10 s parent;
    let times := sort_by N.compare (Z.to_N (launch - 1) :: rest) in
    expect "index out of bounds" (times !! (length times / 2)%nat).

(** ** Blocks *)

Definition check_block_shape (block : Block) : chain_checked Tx :=
  if MAX_BLOCK_WEIGHT <? weight_of_block block
  then Err (Bail "fork block exceeds the 4,000,000 weight-unit consensus limit")
  else
    coinbase ← with_context "fork block has no coinbase transaction" (head (bk_txdata block));
    if negb (is_coinbase coinbase) then Err (Bail "fork block first transaction is not a coinbase")
    else if negb (check_merkle_root block) then Err (Bail "fork block transaction merkle root is invalid")
    else if negb (check_witness_commitment block) then Err (Bail "fork block witness commitment is invalid")
    else if negb (hd_version (bk_header block) =? FORK_BLOCK_VERSION)%Z
    then Err (Bail "fork block has an unsupported version")
    else Ok coinbase.

(** The height, the work below and the stored parent of a block. *)
Definition block_parent (s : ForkChainStore) (previous_hash : BlockHash)
    : chain_checked (N * N * option BlockHash) :=
  if previous_hash =? fcs_inherited_tip_hash s
  then Ok (fp_first_fork_height (fa_fork_point (fcs_manifest s)), 0, None)
  else
    parent ← with_context ("fork block parent " +:+ hash_to_string previous_hash +:+ " is unknown")
               (fcs_blocks s !! previous_hash);
    height ← with_context "fork block height overflow" (checked_add 64 (bn_height parent) 1);
    Ok (height, bn_cumulative_work parent, Some previous_hash).

Definition validate_block (s : ForkChainStore) (block : Block) (block_hex : string) (now_unix : N)
    : chain_checked BlockNode :=
  coinbase ← check_block_shape block;
  let header := bk_header block in
  found ← block_parent s (hd_prev_blockhash header);
  let '(height, parent_work, parent_tip) := found in
  next ← next_difficulty s parent_tip height (hd_time header);
  let required_target := target_from_compact (nd_bits next) in
  _ ← ensure (validate_pow header required_target) "fork block has invalid difficulty bits or proof of work";
  mtp ← median_time_past s parent_tip;
  if hd_time header <=? mtp
  then Err (Bail ("fork block time " +:+ pretty (hd_time header) +:+ " is not greater than median-time-past " +:+
                  pretty mtp))
  else
    limit ← with_context "fork block future-time limit overflow" (checked_add 64 now_unix MAX_FUTURE_BLOCK_SECONDS);
    if limit <? hd_time header then Err (Bail "fork block time is more than two hours in the future")
    else
      fees_sats ← validate_block_transactions s block height parent_tip;
      _ ← validate_coinbase_height coinbase height;
      _ ← validate_coinbase_reward coinbase height fees_sats;
      Ok {| bn_block := block; bn_block_hex := block_hex; bn_height := height;
            bn_cumulative_work := add_work parent_work (target_to_work required_target);
            bn_difficulty_phase := nd_phase next |}.

(** ** The explorer index *)

Definition output_address (output : TxOutput) : option string := address_of_script (out_script_pubkey output).

Definition script_type (output : TxOutput) : string :=
  let script := out_script_pubkey output in
  if is_p2pkh script then "p2pkh"
  else if is_p2sh script then "p2sh"
  else if is_p2wpkh script then "v0_p2wpkh"
  else if is_p2wsh script then "v0_p2wsh"
  else if is_p2tr script then "v1_p2tr"
  else if is_p2pk script then "p2pk"
  else if is_op_return script then "op_return"
  else if is_witness_program script then "witness_unknown"
  else "nonstandard".

Fixpoint input_amounts (outputs : gmap OutPoint IndexedForkOutput) (total : N) (inputs : list TxInput)
    : chain_checked (option N) :=
  match inputs with
  | [] => Ok (Some total)
  | input :: inputs' =>
      match outputs !! in_previous_output input with
      | None => Ok None
      | Some previous =>
          total ← with_context "fork transaction input total overflow"
                    (checked_add 64 total (out_value (ifo_output previous)));
          input_amounts outputs total inputs'
      end
  end.

Definition transaction_amounts (tx : Tx) (outputs : gmap OutPoint IndexedForkOutput)
    : chain_checked (option N * N * option N) :=
  total_output ← try_fold (fun total output =>
                   with_context "fork transaction output total overflow" (checked_add 64 total (out_value output)))
                   0 (tx_output tx);
  if is_coinbase tx then Ok (None, total_output, None)
  else
    total_input ← input_amounts outputs 0 (tx_input tx);
    match total_input with
    | None => Ok (None, total_output, None)
    | Some total_input => Ok (Some total_input, total_output, checked_sub total_input total_output)
    end.

Definition transaction_ref (tx : Tx) (block_hash : BlockHash) (height : N) (active : bool)
    (transaction_index : nat) (outputs : gmap OutPoint IndexedForkOutput) : chain_checked ForkTransactionRef :=
  amounts ← transaction_amounts tx outputs;
  let '(_, total_output_sats, fee_sats) := amounts in
  Ok {| tr_txid := hash_to_string (compute_txid tx); tr_block_hash := hash_to_string block_hash;
        tr_height := height; tr_active := active; tr_transaction_index := transaction_index;
        tr_coinbase := is_coinbase tx; tr_total_output_sats := total_output_sats; tr_fee_sats := fee_sats |}.

(** [accumulators.entry(address).or_default()] and its update. *)
Definition fund_accumulator (txid : Txid) (height value : N) (a : ForkAddressAccumulator)
    : chain_checked ForkAddressAccumulator :=
  total ← with_context "fork address funded total overflow" (checked_add 64 (aa_funded_total_sats a) value);
  let range := update_height_range (aa_first_seen_height a) (aa_last_seen_height a) height in
  Ok {| aa_transaction_ids := {[txid]} ∪ aa_transaction_ids a;
        aa_funded_output_count := saturating_add 64 (aa_funded_output_count a) 1;
        aa_funded_total_sats := total; aa_spent_output_count := aa_spent_output_count a;
        aa_spent_total_sats := aa_spent_total_sats a; aa_first_seen_height := range.1;
        aa_last_seen_height := range.2 |}.

Definition spend_accumulator (txid : Txid) (height value : N) (a : ForkAddressAccumulator)
    : chain_checked ForkAddressAccumulator :=
  total ← with_context "fork address spent total overflow" (checked_add 64 (aa_spent_total_sats a) value);
  let range := update_height_range (aa_first_seen_height a) (aa_last_seen_height a) height in
  Ok {| aa_transaction_ids := {[txid]} ∪ aa_transaction_ids a;
        aa_funded_output_count := aa_funded_output_count a; aa_funded_total_sats := aa_funded_total_sats a;
        aa_spent_output_count := saturating_add 64 (aa_spent_output_count a) 1;
        aa_spent_total_sats := total; aa_first_seen_height := range.1; aa_last_seen_height := range.2 |}.

Definition accumulate (update : ForkAddressAccumulator -> chain_checked ForkAddressAccumulator)
    (address : string) (accumulators : gmap string ForkAddressAccumulator)
    : chain_checked (gmap string ForkAddressAccumulator) :=
  a ← update (default aa_default (accumulators !! address));
  Ok (<[address := a]> accumulators).

(** The first pass over a transaction: its outputs from [vout] on. *)
Fixpoint index_outputs (tx : Tx) (height vout : N) (l : list TxOutput)
    (acc : gmap OutPoint IndexedForkOutput * gmap string ForkAddressAccumulator)
    : chain_checked (gmap OutPoint IndexedForkOutput * gmap string ForkAddressAccumulator) :=
  match l with
  | [] => Ok acc
  | output :: l' =>
      if 2 ^ 32 <=? vout then Err (Bail "fork transaction output index exceeds u32")
      else
        let txid := compute_txid tx in
        let outputs := <[(txid, vout) := {| ifo_output := output; ifo_height := height;
                                           ifo_coinbase := is_coinbase tx |}]> acc.1 in
        accumulators ← match output_address output with
                       | None => Ok acc.2
                       | Some address => accumulate (fund_accumulator txid height (out_value output)) address acc.2
                       end;
        index_outputs tx height (vout + 1) l' (outputs, accumulators)
  end.

(** The second pass over a transaction: its inputs from [vin] on. *)
Fixpoint index_spends (outputs : gmap OutPoint IndexedForkOutput) (tx : Tx) (height : N) (vin : nat)
    (l : list TxInput) (acc : gmap OutPoint ForkOutputSpend * gmap string ForkAddressAccumulator)
    : chain_checked (gmap OutPoint ForkOutputSpend * gmap string ForkAddressAccumulator) :=
  match l with
  | [] => Ok acc
  | input :: l' =>
      let txid := compute_txid tx in
      let spends := <[in_previous_output input := {| sp_txid := hash_to_string txid; sp_vin := vin;
                                                    sp_height := height |}]> acc.1 in
      accumulators ← match outputs !! in_previous_output input with
                     | None => Ok acc.2
                     | Some indexed =>
                         match output_address (ifo_output indexed) with
                         | None => Ok acc.2
                         | Some address =>
                             accumulate (spend_accumulator txid height (out_value (ifo_output indexed)))
                               address acc.2
                         end
                     end;
      index_spends outputs tx height (S vin) l' (spends, accumulators)
  end.

Definition index_tx_spends (outputs : gmap OutPoint IndexedForkOutput) (height : N)
    (acc : gmap OutPoint ForkOutputSpend * gmap string ForkAddressAccumulator) (tx : Tx)
    : chain_checked (gmap OutPoint ForkOutputSpend * gmap string ForkAddressAccumulator) :=
  if is_coinbase tx then Ok acc else index_spends outputs tx height 0 (tx_input tx) acc.

(** The active blocks in height order, with their nodes. *)
Definition active_blocks (s : ForkChainStore) : chain_checked (list (N * BlockHash * BlockNode)) :=
  try_map (fun entry : N * BlockHash =>
    node ← expect "active fork block must exist" (fcs_blocks s !! entry.2);
    Ok (entry, node)) (btree_entries_N (fcs_active_by_height s)).

Definition address_entry (address : string) (a : ForkAddressAccumulator) : chain_checked ForkAddressIndexEntry :=
  balance ← with_context "fork address balance underflow"
              (checked_sub (aa_funded_total_sats a) (aa_spent_total_sats a));
  Ok {| ae_summary := {|
          as_address := address; as_transaction_count := size (aa_transaction_ids a);
          as_funded_output_count := aa_funded_output_count a;
          as_funded_total_sats := aa_funded_total_sats a;
          as_spent_output_count := aa_spent_output_count a; as_spent_total_sats := aa_spent_total_sats a;
          as_inherited_input_count := 0; as_inherited_input_total_sats := 0; as_balance_sats := balance;
          as_balance_scope := "fork_created_utxos"; as_first_seen_height := aa_first_seen_height a;
          as_last_seen_height := aa_last_seen_height a |};
        ae_transactions := []; ae_utxos := [] |}.

(** [if let Some(entry) = addresses.get_mut(&address)]. *)
Definition push_transaction (t : ForkTransactionRef) (addresses : gmap string ForkAddressIndexEntry)
    (address : string) : gmap string ForkAddressIndexEntry :=
  alter (fun e => {| ae_summary := ae_summary e; ae_transactions := ae_transactions e ++ [t];
                     ae_utxos := ae_utxos e |}) address addresses.
Definition push_utxo (u : ForkUtxo) (address : string) (addresses : gmap string ForkAddressIndexEntry)
    : gmap string ForkAddressIndexEntry :=
  alter (fun e => {| ae_summary := ae_summary e; ae_transactions := ae_transactions e;
                     ae_utxos := ae_utxos e ++ [u] |}) address addresses.

Definition related_addresses (outputs : gmap OutPoint IndexedForkOutput) (tx : Tx) : gset string :=
  list_to_set (omap output_address (tx_output tx) ++
               omap (fun input => outputs !! in_previous_output input ≫= fun indexed =>
                                  output_address (ifo_output indexed)) (tx_input tx)).

(** The third pass, newest transaction first. *)
Definition index_tx_ref (outputs : gmap OutPoint IndexedForkOutput) (block_hash : BlockHash) (height : N)
    (addresses : gmap string ForkAddressIndexEntry) (entry : nat * Tx)
    : chain_checked (gmap string ForkAddressIndexEntry) :=
  let related := btree_set_list (related_addresses outputs entry.2) in
  match related with
  | [] => Ok addresses
  | _ =>
      t ← transaction_ref entry.2 block_hash height true entry.1 outputs;
      Ok (foldl (push_transaction t) addresses related)
  end.

Definition compare_outpoints (a b : OutPoint) : comparison := then_with (a.1 ?= b.1) (a.2 ?= b.2).

Definition utxo_entry (entry : OutPoint * IndexedForkOutput) : ForkUtxo := {|
  fx_txid := hash_to_string entry.1.1; fx_vout := entry.1.2;
  fx_value_sats := out_value (ifo_output entry.2);
  fx_script_pubkey_hex := hex_encode (out_script_pubkey (ifo_output entry.2));
  fx_script_type := script_type (ifo_output entry.2); fx_height := ifo_height entry.2;
  fx_coinbase := ifo_coinbase entry.2 |}.

Definition index_utxo (spends : gmap OutPoint ForkOutputSpend) (addresses : gmap string ForkAddressIndexEntry)
    (entry : OutPoint * IndexedForkOutput) : gmap string ForkAddressIndexEntry :=
  match spends !! entry.1 with
  | Some _ => addresses
  | None =>
      match output_address (ifo_output entry.2) with
      | None => addresses
      | Some address => push_utxo (utxo_entry entry) address addresses
      end
  end.

Definition compare_utxos (left right : ForkUtxo) : comparison :=
  then_with (fx_height right ?= fx_height left)
    (then_with (str_cmp (fx_txid left) (fx_txid right)) (fx_vout left ?= fx_vout right)).

Definition sort_utxos (e : ForkAddressIndexEntry) : ForkAddressIndexEntry := {|
  ae_summary := ae_summary e; ae_transactions := ae_transactions e;
  ae_utxos := sort_by compare_utxos (ae_utxos e) |}.

Definition build_explorer_index (s : ForkChainStore) : chain_checked ForkExplorerIndex :=
  blocks ← active_blocks s;
  indexed ← try_fold (fun acc (b : N * BlockHash * BlockNode) =>
              try_fold (fun acc tx => index_outputs tx b.1.1 0 (tx_output tx) acc) acc (bk_txdata (bn_block b.2)))
              (∅, ∅) blocks;
  let outputs := indexed.1 in
  spent ← try_fold (fun acc (b : N * BlockHash * BlockNode) =>
            try_fold (index_tx_spends outputs b.1.1) acc (bk_txdata (bn_block b.2))) (∅, indexed.2) blocks;
  let spends := spent.1 in
  entries ← try_map (fun e : string * ForkAddressAccumulator =>
              entry ← address_entry e.1 e.2; Ok (e.1, entry)) (btree_entries spent.2);
  addresses ← try_fold (fun acc (b : N * BlockHash * BlockNode) =>
                try_fold (index_tx_ref outputs b.1.2 b.1.1) acc (rev (imap pair (bk_txdata (bn_block b.2)))))
                (list_to_map entries) (rev blocks);
  let addresses := foldl (index_utxo spends) addresses
                     (sort_by (fun a b => compare_outpoints a.1 b.1) (map_to_list outputs)) in
  Ok {| ei_outputs := outputs; ei_spends := spends; ei_addresses := sort_utxos <$> addresses |}.

(** ** Field updates *)

Definition set_active_tip (tip : option BlockHash) (s : ForkChainStore) : ForkChainStore := {|
  fcs_manifest := fcs_manifest s; fcs_transaction_upgrade := fcs_transaction_upgrade s;
  fcs_inherited_tip_hash := fcs_inherited_tip_hash s; fcs_blocks := fcs_blocks s; fcs_active_tip := tip;
  fcs_active_by_height := fcs_active_by_height s; fcs_stored_block_order := fcs_stored_block_order s;
  fcs_transaction_locations := fcs_transaction_locations s; fcs_explorer := fcs_explorer s;
  fcs_mempool := fcs_mempool s; fcs_mempool_bytes := fcs_mempool_bytes s; fcs_log := fcs_log s |}.

Definition set_active_by_height (active : gmap N BlockHash) (s : ForkChainStore) : ForkChainStore := {|
  fcs_manifest := fcs_manifest s; fcs_transaction_upgrade := fcs_transaction_upgrade s;
  fcs_inherited_tip_hash := fcs_inherited_tip_hash s; fcs_blocks := fcs_blocks s;
  fcs_active_tip := fcs_active_tip s; fcs_active_by_height := active;
  fcs_stored_block_order := fcs_stored_block_order s;
  fcs_transaction_locations := fcs_transaction_locations s; fcs_explorer := fcs_explorer s;
  fcs_mempool := fcs_mempool s; fcs_mempool_bytes := fcs_mempool_bytes s; fcs_log := fcs_log s |}.

Definition set_explorer (e : ForkExplorerIndex) (s : ForkChainStore) : ForkChainStore := {|
  fcs_manifest := fcs_manifest s; fcs_transaction_upgrade := fcs_transaction_upgrade s;
  fcs_inherited_tip_hash := fcs_inherited_tip_hash s; fcs_blocks := fcs_blocks s;
  fcs_active_tip := fcs_active_tip s; fcs_active_by_height := fcs_active_by_height s;
  fcs_stored_block_order := fcs_stored_block_order s;
  fcs_transaction_locations := fcs_transaction_locations s; fcs_explorer := e;
  fcs_mempool := fcs_mempool s; fcs_mempool_bytes := fcs_mempool_bytes s; fcs_log := fcs_log s |}.

Definition set_mempool (mempool : gmap Txid Tx) (mempool_bytes : N) (s : ForkChainStore) : ForkChainStore := {|
  fcs_manifest := fcs_manifest s; fcs_transaction_upgrade := fcs_transaction_upgrade s;
  fcs_inherited_tip_hash := fcs_inherited_tip_hash s; fcs_blocks := fcs_blocks s;
  fcs_active_tip := fcs_active_tip s; fcs_active_by_height := fcs_active_by_height s;
  fcs_stored_block_order := fcs_stored_block_order s;
  fcs_transaction_locations := fcs_transaction_locations s; fcs_explorer := fcs_explorer s;
  fcs_mempool := mempool; fcs_mempool_bytes := mempool_bytes; fcs_log := fcs_log s |}.

Definition set_log (log : list ForkBlockRecord) (s : ForkChainStore) : ForkChainStore := {|
  fcs_manifest := fcs_manifest s; fcs_transaction_upgrade := fcs_transaction_upgrade s;
  fcs_inherited_tip_hash := fcs_inherited_tip_hash s; fcs_blocks := fcs_blocks s;
  fcs_active_tip := fcs_active_tip s; fcs_active_by_height := fcs_active_by_height s;
  fcs_stored_block_order := fcs_stored_block_order s;
  fcs_transaction_locations := fcs_transaction_locations s; fcs_explorer := fcs_explorer s;
  fcs_mempool := fcs_mempool s; fcs_mempool_bytes := fcs_mempool_bytes s; fcs_log := log |}.

(** [self.blocks.insert(hash, node)]. *)
Definition insert_block (hash : BlockHash) (node : BlockNode) (s : ForkChainStore) : ForkChainStore := {|
  fcs_manifest := fcs_manifest s; fcs_transaction_upgrade := fcs_transaction_upgrade s;
  fcs_inherited_tip_hash := fcs_inherited_tip_hash s; fcs_blocks := <[hash := node]> (fcs_blocks s);
  fcs_active_tip := fcs_active_tip s; fcs_active_by_height := fcs_active_by_height s;
  fcs_stored_block_order := fcs_stored_block_order s;
  fcs_transaction_locations := fcs_transaction_locations s; fcs_explorer := fcs_explorer s;
  fcs_mempool := fcs_mempool s; fcs_mempool_bytes := fcs_mempool_bytes s; fcs_log := fcs_log s |}.

Definition set_stored_index (order : gset (N * BlockHash))
    (locations : gmap Txid (list ForkTransactionLocation)) (s : ForkChainStore) : ForkChainStore := {|
  fcs_manifest := fcs_manifest s; fcs_transaction_upgrade := fcs_transaction_upgrade s;
  fcs_inherited_tip_hash := fcs_inherited_tip_hash s; fcs_blocks := fcs_blocks s;
  fcs_active_tip := fcs_active_tip s; fcs_active_by_height := fcs_active_by_height s;
  fcs_stored_block_order := order; fcs_transaction_locations := locations; fcs_explorer := fcs_explorer s;
  fcs_mempool := fcs_mempool s; fcs_mempool_bytes := fcs_mempool_bytes s; fcs_log := fcs_log s |}.

(** ** The active chain *)

Definition rebuild_explorer_index : M ForkChainStore ChainError unit :=
  index ← asks build_explorer_index;
  modify (set_explorer index).

Definition active_missing (hash : BlockHash) : string :=
  "active fork chain contains missing block " +:+ hash_to_string hash.

Definition rebuild_active_index : M ForkChainStore ChainError unit :=
  branch ← asks (fun s => walk_branch (branch_fuel s) active_missing s (fcs_active_tip s));
  _ ← modify (set_active_by_height
        (foldl (fun active (e : BlockHash * BlockNode) => <[bn_height e.2 := e.1]> active) ∅ branch));
  rebuild_explorer_index.

Definition string_lt (a b : string) : bool := match str_cmp a b with Lt => true | _ => false end.

(** The comparison of [consider_active_tip]. *)
Definition better_tip (candidate_hash : BlockHash) (candidate : BlockNode) (current_hash : BlockHash)
    (current : BlockNode) : bool :=
  (bn_cumulative_work current <? bn_cumulative_work candidate) ||
  ((bn_cumulative_work candidate =? bn_cumulative_work current) &&
   string_lt (hash_to_string candidate_hash) (hash_to_string current_hash)).

Definition consider_active_tip (candidate_hash : BlockHash) : M ForkChainStore ChainError unit :=
  better ← asks (fun s =>
    candidate ← expect "new candidate must exist in block map" (fcs_blocks s !! candidate_hash);
    match fcs_active_tip s with
    | None => Ok true
    | Some current_hash =>
        current ← expect "active tip must exist in block map" (fcs_blocks s !! current_hash);
        Ok (better_tip candidate_hash candidate current_hash current)
    end);
  if (better : bool)
  then _ ← modify (set_active_tip (Some candidate_hash)); rebuild_active_index
  else mret tt.

Definition push_location (hash : BlockHash) (locations : gmap Txid (list ForkTransactionLocation))
    (entry : nat * Txid) : gmap Txid (list ForkTransactionLocation) :=
  let location := {| tl_block_hash := hash; tl_transaction_index := entry.1 |} in
  <[entry.2 := default [] (locations !! entry.2) ++ [location]]> locations.

Definition index_stored_block (hash : BlockHash) : M ForkChainStore ChainError unit :=
  node ← asks (fun s => with_context "cannot index a fork block that is not stored" (fcs_blocks s !! hash));
  order ← gets fcs_stored_block_order;
  if bool_decide ((bn_height node, hash) ∈ order)
  then throw (Bail "fork block is already present in explorer ordering index")
  else
    modify (fun s => set_stored_index ({[(bn_height node, hash)]} ∪ order)
      (foldl (push_location hash) (fcs_transaction_locations s)
         (imap pair (map compute_txid (bk_txdata (bn_block node))))) s).

(** ** Status *)

Record ForkChainStatus := {
  cs_protocol_version : N;
  cs_chain_name : string;
  cs_activation_id : string;
  cs_inherited_tip_height : N;
  cs_inherited_tip_hash : string;
  cs_tip_height : N;
  cs_tip_hash : string;
  cs_cumulative_work : string;
  cs_stored_block_count : nat;
  cs_active_fork_block_count : nat;
  cs_post_fork_pow_limit_bits : string;
  cs_target_spacing_seconds : N;
  cs_difficulty_algorithm : string;
  cs_difficulty_phase : string;
  cs_bootstrap_handoff_hashrate_hps : N;
  cs_estimated_hashrate_hps : string;
  cs_blocks_until_bitcoin_retarget : option N;
  cs_transaction_upgrade_id : option string;
  cs_transaction_activation_height : option N;
  cs_mempool_transaction_count : nat;
  cs_transaction_consensus : string
}.

(** The tuple at the start of [status]: height, hash, work, phase and bits of the tip. *)
Definition tip_facts (s : ForkChainStore) : chain_checked (N * string * N * DifficultyPhase * N) :=
  match fcs_active_tip s with
  | Some hash =>
      node ← expect "active fork tip must exist in block map" (fcs_blocks s !! hash);
      Ok (bn_height node, hash_to_string hash, bn_cumulative_work node, bn_difficulty_phase node,
          hd_bits (bk_header (bn_block node)))
  | None =>
      Ok (fp_inherited_tip_height (fa_fork_point (fcs_manifest s)), hash_to_string (fcs_inherited_tip_hash s), 0,
          Bootstrap, fc_post_fork_pow_limit_bits (fa_config (fcs_manifest s)))
  end.

(** [activation_height - 1] on a [u64]. *)
Definition consensus_text (s : ForkChainStore) (tip_height : N) : string :=
  match fcs_transaction_upgrade s with
  | Some upgrade =>
      let name := consensus_as_str (fu_transaction_consensus upgrade) in
      if fu_activation_height upgrade <=? tip_height
      then name +:+ " active; fork-created P2WPKH and P2TR key-path UTXOs only; inherited UTXOs disabled"
      else "coinbase-only through height " +:+
           pretty (as_uint 64 (fu_activation_height upgrade + (2 ^ 64 - 1))) +:+ "; " +:+ name +:+
           " activates at height " +:+ pretty (fu_activation_height upgrade) +:+ "; inherited UTXOs disabled"
  | None => "coinbase-only; inherited and post-fork spends disabled"
  end.

Definition FORK_PROTOCOL_VERSION : N := 3.

Definition status (s : ForkChainStore) : chain_checked ForkChainStatus :=
  tip ← tip_facts s;
  let '(tip_height, tip_hash, cumulative_work, phase, current_bits) := tip in
  let config := fa_config (fcs_manifest s) in
  Ok {| cs_protocol_version := FORK_PROTOCOL_VERSION; cs_chain_name := fc_chain_name config;
        cs_activation_id := fa_activation_id (fcs_manifest s);
        cs_inherited_tip_height := fp_inherited_tip_height (fa_fork_point (fcs_manifest s));
        cs_inherited_tip_hash := hash_to_string (fcs_inherited_tip_hash s);
        cs_tip_height := tip_height; cs_tip_hash := tip_hash;
        cs_cumulative_work := padded_lower_hex 64 cumulative_work;
        cs_stored_block_count := size (fcs_blocks s);
        cs_active_fork_block_count := size (fcs_active_by_height s);
        cs_post_fork_pow_limit_bits := post_fork_pow_limit_bits_hex config;
        cs_target_spacing_seconds := fc_target_spacing_seconds config;
        cs_difficulty_algorithm := difficulty_as_str (fc_difficulty_algorithm config);
        cs_difficulty_phase := phase_as_str phase;
        cs_bootstrap_handoff_hashrate_hps := fc_bootstrap_handoff_hashrate_hps config;
        cs_estimated_hashrate_hps :=
          pretty (estimated_hashrate_hps (target_from_compact current_bits) (fc_target_spacing_seconds config));
        cs_blocks_until_bitcoin_retarget :=
          match phase with
          | Bootstrap => None
          | Bitcoin epoch_start_height _ =>
              Some (BITCOIN_DIFFICULTY_ADJUSTMENT_INTERVAL - (tip_height - epoch_start_height))
          end;
        cs_transaction_upgrade_id := fu_upgrade_id <$> fcs_transaction_upgrade s;
        cs_transaction_activation_height := fu_activation_height <$> fcs_transaction_upgrade s;
        cs_mempool_transaction_count := size (fcs_mempool s);
        cs_transaction_consensus := consensus_text s tip_height |}.

(** ** The mempool *)

Record ForkTransactionAcceptance := {
  ta_accepted : bool;
  ta_txid : string;
  ta_fee_sats : N;
  ta_mempool_transaction_count : nat
}.

Definition mempool_spends (mempool : gmap Txid Tx) : gset OutPoint :=
  list_to_set (mbind (fun tx => map in_previous_output (tx_input tx)) (btree_values_N mempool)).

(** The checks of [submit_transaction] after the duplicate test: the byte count
    and the fee of the admitted transaction. *)
Definition check_mempool_transaction (s : ForkChainStore) (normalized : string) (tx : Tx)
    : chain_checked (N * N) :=
  let txid := compute_txid tx in
  if MAX_MEMPOOL_TRANSACTIONS <=? N.of_nat (size (fcs_mempool s))
  then Err (Bail "fork transaction mempool is full")
  else
    next_mempool_bytes ← checked_mempool_bytes (fcs_mempool_bytes s) (len normalized / 2);
    st ← status s;
    next_height ← with_context "fork-chain mempool height overflow" (checked_add 64 (cs_tip_height st) 1);
    if negb (transactions_active_at s next_height)
    then
      activation_height ← with_context "fork transaction consensus upgrade is not configured"
                            (fu_activation_height <$> fcs_transaction_upgrade s);
      Err (Bail ("fork transactions are not active until block height " +:+ pretty activation_height))
    else
      state ← branch_state s (fcs_active_tip s);
      if bool_decide (txid ∈ bs_txids state)
      then Err (Bail ("fork transaction " +:+ hash_to_string txid +:+
                      " is already confirmed on the active chain"))
      else if existsb (fun input => bool_decide (in_previous_output input ∈ mempool_spends (fcs_mempool s)))
                (tx_input tx)
      then Err (Bail "fork transaction conflicts with an existing mempool spend")
      else
        fee_sats ← (validate_and_apply_transaction s next_height tx state).1;
        Ok (next_mempool_bytes, fee_sats).

Definition submit_transaction (transaction_hex : string)
    : M ForkChainStore ChainError ForkTransactionAcceptance :=
  normalized ← lift (normalize_transaction_hex transaction_hex);
  tx ← lift (decode_transaction normalized);
  mempool ← gets fcs_mempool;
  let txid := compute_txid tx in
  if bool_decide (is_Some (mempool !! txid))
  then mret {| ta_accepted := false; ta_txid := hash_to_string txid; ta_fee_sats := 0;
               ta_mempool_transaction_count := size mempool |}
  else
    checked ← asks (fun s => check_mempool_transaction s normalized tx);
    _ ← modify (fun s => set_mempool (<[txid := tx]> (fcs_mempool s)) checked.1 s);
    count ← gets (fun s => size (fcs_mempool s));
    mret {| ta_accepted := true; ta_txid := hash_to_string txid; ta_fee_sats := checked.2;
            ta_mempool_transaction_count := count |}.

Definition mempool_transactions (s : ForkChainStore) : list string :=
  map (fun tx => hex_encode (serialize_tx tx)) (btree_values_N (fcs_mempool s)).

(** The selection loop of [template_transactions]. *)
Record Selection := {
  sel_state : ForkBranchState;
  sel_transactions : list Tx;
  sel_weight : N;
  sel_fees : N
}.

Definition select_transaction (s : ForkChainStore) (height : N) (acc : Selection) (tx : Tx)
    : chain_checked Selection :=
  let weight := weight_of_tx tx in
  if MAX_TEMPLATE_NON_COINBASE_WEIGHT_WU <? saturating_add 64 (sel_weight acc) weight then Ok acc
  else
    match validate_and_apply_transaction s height tx (sel_state acc) with
    | (Err (Bail _), state) =>
        Ok {| sel_state := state; sel_transactions := sel_transactions acc; sel_weight := sel_weight acc;
              sel_fees := sel_fees acc |}
    | (Err e, _) => Err e
    | (Ok fee, state) =>
        total_weight ← with_context "fork template transaction weight overflow"
                         (checked_add 64 (sel_weight acc) weight);
        total_fees ← with_context "fork template fee total overflow" (checked_add 64 (sel_fees acc) fee);
        Ok {| sel_state := state; sel_transactions := sel_transactions acc ++ [tx];
              sel_weight := total_weight; sel_fees := total_fees |}
    end.

Fixpoint select_transactions (s : ForkChainStore) (height max_non_coinbase : N) (acc : Selection)
    (pending : list Tx) : chain_checked Selection :=
  match pending with
  | [] => Ok acc
  | tx :: pending' =>
      if max_non_coinbase <=? N.of_nat (length (sel_transactions acc)) then Ok acc
      else acc ← select_transaction s height acc tx; select_transactions s height max_non_coinbase acc pending'
  end.

(** [max_block_transactions - 1] on a [u32]; it fits a [usize]. *)
Definition template_transactions (s : ForkChainStore) (height : N) : chain_checked (list Tx * N) :=
  if negb (transactions_active_at s height) || Nat.eqb (size (fcs_mempool s)) 0 then Ok ([], 0)
  else
    upgrade ← expect "active transaction consensus has an upgrade manifest" (fcs_transaction_upgrade s);
    let max_non_coinbase := as_uint 32 (fu_max_block_transactions upgrade + (2 ^ 32 - 1)) in
    state ← branch_state s (fcs_active_tip s);
    selected ← select_transactions s height max_non_coinbase
                 {| sel_state := state; sel_transactions := []; sel_weight := 0; sel_fees := 0 |}
                 (btree_values_N (fcs_mempool s));
    Ok (sel_transactions selected, sel_fees selected).

(** One pending transaction of [revalidate_mempool]: the branch state, the
    mempool and its byte count. *)
Definition readmit_transaction (s : ForkChainStore) (next_height : N)
    (acc : ForkBranchState * gmap Txid Tx * N) (entry : Txid * Tx)
    : chain_checked (ForkBranchState * gmap Txid Tx * N) :=
  let '(state, mempool, mempool_bytes) := acc in
  let '(txid, tx) := entry in
  if bool_decide (txid ∈ bs_txids state) then Ok acc
  else
    match validate_and_apply_transaction s next_height tx state with
    | (Err (Bail _), state) => Ok (state, mempool, mempool_bytes)
    | (Err e, _) => Err e
    | (Ok _, state) =>
        match checked_mempool_bytes mempool_bytes (N.of_nat (length (serialize_tx tx))) with
        | Ok next_mempool_bytes => Ok (state, <[txid := tx]> mempool, next_mempool_bytes)
        | Err _ => Ok (state, mempool, mempool_bytes)
        end
    end.

Definition revalidate_mempool : M ForkChainStore ChainError unit :=
  next_height ← asks (fun s =>
    st ← status s;
    with_context "fork-chain mempool revalidation height overflow" (checked_add 64 (cs_tip_height st) 1));
  pending ← gets fcs_mempool;
  _ ← modify (set_mempool ∅ 0);
  active ← gets (fun s => transactions_active_at s next_height);
  if negb active then mret tt
  else
    state ← asks (fun s => branch_state s (fcs_active_tip s));
    readmitted ← asks (fun s =>
      try_fold (readmit_transaction s next_height) (state, ∅, 0) (btree_entries_N pending));
    modify (set_mempool readmitted.1.2 readmitted.2).

(** ** Mining templates *)

Record BitcoinMiningJobTransaction := {
  mjt_txid : string;
  mjt_data_hex : string
}.

(** [pohw_replay_marker] and [pohw_idena_authorization] are always [None] here. *)
Record BitcoinMiningJobTemplate := {
  mj_version : Z;
  mj_previous_block_hash : string;
  mj_curtime : N;
  mj_bits : string;
  mj_height : N;
  mj_coinbase_value_sats : N;
  mj_transaction_hashes : list string;
  mj_transactions : list BitcoinMiningJobTransaction;
  mj_default_witness_commitment : option string
}.

(** One pass of the [level.chunks(2)] loop. *)
Fixpoint commitment_level (level : list bytes) : list bytes :=
  match level with
  | [] => []
  | [l] => [sha256d_hash (l ++ l)]
  | l :: r :: rest => sha256d_hash (l ++ r) :: commitment_level rest
  end.

(** [while level.len() > 1]; every pass shortens the level. *)
Fixpoint commitment_root (fuel : nat) (level : list bytes) : chain_checked bytes :=
  match level with
  | [] => Err (Panic "index out of bounds")
  | [root] => Ok root
  | _ => match fuel with O => Err Diverged | S fuel' => commitment_root fuel' (commitment_level level) end
  end.

Definition witness_commitment_script (transactions : list Tx) : chain_checked string :=
  match transactions with
  | [] => Err (Bail "fork witness commitment requires at least one non-coinbase transaction")
  | _ =>
      let level := repeat x00 32 :: map compute_wtxid transactions in
      root ← commitment_root (length level) level;
      Ok ("6a24aa21a9ed" +:+ hex_encode (sha256d_hash (root ++ repeat x00 32)))
  end.

Definition mining_template (s : ForkChainStore) (now_unix : N) : chain_checked BitcoinMiningJobTemplate :=
  st ← status s;
  height ← with_context "fork-chain height overflow" (checked_add 64 (cs_tip_height st) 1);
  mtp ← median_time_past s (fcs_active_tip s);
  minimum_time ← with_context "fork-chain median-time-past overflow" (checked_add 64 mtp 1);
  let curtime := N.max now_unix minimum_time in
  if 2 ^ 32 <=? curtime then Err (Bail "fork-chain template time exceeds u32")
  else
    next ← next_difficulty s (fcs_active_tip s) height curtime;
    selected ← template_transactions s height;
    let '(selected_transactions, fees_sats) := selected in
    coinbase_value_sats ← with_context "fork-chain template coinbase value overflow"
                            (checked_add 64 (block_subsidy_sats height) fees_sats);
    commitment ← match selected_transactions with
                 | [] => Ok None
                 | _ => script ← witness_commitment_script selected_transactions; Ok (Some script)
                 end;
    Ok {| mj_version := FORK_BLOCK_VERSION; mj_previous_block_hash := cs_tip_hash st; mj_curtime := curtime;
          mj_bits := padded_lower_hex 8 (nd_bits next); mj_height := height;
          mj_coinbase_value_sats := coinbase_value_sats;
          mj_transaction_hashes := map (fun tx => hash_to_string (compute_txid tx)) selected_transactions;
          mj_transactions := map (fun tx => {| mjt_txid := hash_to_string (compute_txid tx);
                                               mjt_data_hex := hex_encode (serialize_tx tx) |})
                                 selected_transactions;
          mj_default_witness_commitment := commitment |}.

(** ** Submission, the log and its replay *)

#[global] Instance ForkBlockRecord_serialize : Serialize ForkBlockRecord := fun r =>
  JObj (field "schema_version" (br_schema_version r) ++ field "activation_id" (br_activation_id r) ++
        field "block_hex" (br_block_hex r)).

Definition MAX_BLOCK_LOG_LINE_BYTES : N := MAX_BLOCK_HEX_BYTES + 64 * 1024.

Definition append_record (block_hex : string) : M ForkChainStore ChainError unit :=
  record ← gets (fun s => {| br_schema_version := FORK_BLOCK_RECORD_SCHEMA_VERSION;
                             br_activation_id := fa_activation_id (fcs_manifest s);
                             br_block_hex := block_hex |});
  if MAX_BLOCK_LOG_LINE_BYTES <? N.of_nat (length (to_vec (to_json record)))
  then throw (Bail "fork block record exceeds size limit")
  else modify (fun s => set_log (fcs_log s ++ [record]) s).

Record ForkBlockAcceptance := {
  ba_accepted : bool;
  ba_became_active_tip : bool;
  ba_block_hash : string;
  ba_height : N;
  ba_tip_hash : string;
  ba_tip_height : N
}.

(** The part common to [submit_block_at_time] and [replay_block_log]. *)
Definition store_block (hash : BlockHash) (node : BlockNode) : M ForkChainStore ChainError unit :=
  _ ← modify (insert_block hash node);
  _ ← index_stored_block hash;
  consider_active_tip hash.

Definition submit_block_at_time (block_hex : string) (now_unix : N)
    : M ForkChainStore ChainError ForkBlockAcceptance :=
  normalized ← lift (normalize_block_hex block_hex);
  block ← lift (decode_block normalized);
  let hash := block_hash_of (bk_header block) in
  existing ← gets (fun s => fcs_blocks s !! hash);
  match existing with
  | Some existing =>
      st ← asks status;
      active_tip ← gets fcs_active_tip;
      mret {| ba_accepted := false; ba_became_active_tip := bool_decide (active_tip = Some hash);
              ba_block_hash := hash_to_string hash; ba_height := bn_height existing;
              ba_tip_hash := cs_tip_hash st; ba_tip_height := cs_tip_height st |}
  | None =>
      node ← asks (fun s => validate_block s block normalized now_unix);
      previous_tip ← gets fcs_active_tip;
      _ ← append_record normalized;
      _ ← store_block hash node;
      active_tip ← gets fcs_active_tip;
      _ ← (if bool_decide (previous_tip <> active_tip) then revalidate_mempool else mret tt);
      st ← asks status;
      mret {| ba_accepted := true;
              ba_became_active_tip := bool_decide (active_tip = Some hash) &&
                                      bool_decide (previous_tip <> active_tip);
              ba_block_hash := hash_to_string hash; ba_height := bn_height node;
              ba_tip_hash := cs_tip_hash st; ba_tip_height := cs_tip_height st |}
  end.

(** One line of the log, counted from one. *)
Definition replay_record (entry : nat * ForkBlockRecord) : M ForkChainStore ChainError unit :=
  let '(index, record) := entry in
  let line := "fork block log line " +:+ pretty (S index) in
  activation_id ← gets (fun s => fa_activation_id (fcs_manifest s));
  if negb (br_schema_version record =? FORK_BLOCK_RECORD_SCHEMA_VERSION)
  then throw (Bail (line +:+ " has unsupported schema version " +:+ pretty (br_schema_version record)))
  else if bool_decide (br_activation_id record <> activation_id)
  then throw (Bail (line +:+ " belongs to another activation"))
  else
    normalized ← lift (normalize_block_hex (br_block_hex record));
    block ← lift (decode_block normalized);
    let hash := block_hash_of (bk_header block) in
    existing ← gets (fun s => fcs_blocks s !! hash);
    match existing with
    | Some _ => throw (Bail ("fork block log contains duplicate block " +:+ hash_to_string hash))
    | None =>
        node ← asks (fun s => validate_block s block normalized (2 ^ 64 - 1 - MAX_FUTURE_BLOCK_SECONDS));
        store_block hash node
    end.

Definition replay_block_log : M ForkChainStore ChainError unit :=
  log ← gets fcs_log;
  for_each replay_record (imap pair log).

Definition empty_explorer : ForkExplorerIndex := {| ei_outputs := ∅; ei_spends := ∅; ei_addresses := ∅ |}.

Definition new_store (manifest : ForkActivationManifest) (upgrade : option ForkTransactionUpgradeManifest)
    (inherited_tip_hash : BlockHash) (log : list ForkBlockRecord) : ForkChainStore := {|
  fcs_manifest := manifest; fcs_transaction_upgrade := upgrade; fcs_inherited_tip_hash := inherited_tip_hash;
  fcs_blocks := ∅; fcs_active_tip := None; fcs_active_by_height := ∅; fcs_stored_block_order := ∅;
  fcs_transaction_locations := ∅; fcs_explorer := empty_explorer; fcs_mempool := ∅; fcs_mempool_bytes := 0;
  fcs_log := log |}.

(** [open_with_transaction_upgrade] on the content of its files. *)
Definition open_with_transaction_upgrade (manifest : ForkActivationManifest)
    (upgrade : option ForkTransactionUpgradeManifest) (log : list ForkBlockRecord)
    : chain_checked ForkChainStore :=
  _ ← map_err (fun _ => Bail "invalid fork activation manifest") (fa_validate manifest);
  if fc_inherited_utxo_spending_enabled (fa_config manifest)
  then Err (Bail "Experiment 0 fork node requires inherited_utxo_spending_enabled=false")
  else
    _ ← match upgrade with
        | None => Ok tt
        | Some upgrade =>
            map_err (fun _ => Bail "fork transaction upgrade does not match the activation manifest")
              (validate_for upgrade manifest)
        end;
    inherited_tip_hash ← with_context "invalid inherited tip block hash"
                           (hash_from_str (fp_inherited_tip_hash (fa_fork_point manifest)));
    run_state replay_block_log (new_store manifest upgrade inherited_tip_hash log).

Definition active_block_hash (s : ForkChainStore) (height : N) : option string :=
  if height =? fp_inherited_tip_height (fa_fork_point (fcs_manifest s))
  then Some (hash_to_string (fcs_inherited_tip_hash s))
  else hash_to_string <$> fcs_active_by_height s !! height.

Definition active_block_hex (s : ForkChainStore) (height : N) : option string :=
  hash ← fcs_active_by_height s !! height;
  bn_block_hex <$> fcs_blocks s !! hash.
End chain.
