(* ===== verification/ForkSample.v ===== *)
(** * A concrete [bitcoin] crate and a small fork chain

    Shows that the parameters of [ForkChain] and their documented behaviour have
    an instance, with two rival blocks at the first fork height, a second block
    that spends a coinbase, and a transaction for the mempool. *)
From S2P Require Import Prelude Order Text Crates Concrete Fork ForkChain.
From Stdlib Require Import Strings.Ascii Strings.Byte.

Local Open Scope N_scope.

#[global] Instance ChainError_eq_dec : EqDecision ChainError.
Proof. solve_decision. Defined.
#[global] Instance TxInput_eq_dec : EqDecision TxInput.
Proof. solve_decision. Defined.
#[global] Instance TxOutput_eq_dec : EqDecision TxOutput.
Proof. solve_decision. Defined.
#[global] Instance Tx_eq_dec : EqDecision Tx.
Proof. solve_decision. Defined.
#[global] Instance Header_eq_dec : EqDecision Header.
Proof. solve_decision. Defined.
#[global] Instance Block_eq_dec : EqDecision Block.
Proof. solve_decision. Defined.
#[global] Instance DifficultyPhase_eq_dec : EqDecision DifficultyPhase.
Proof. solve_decision. Defined.
#[global] Instance BlockNode_eq_dec : EqDecision BlockNode.
Proof. solve_decision. Defined.

(** ** Blocks *)

Definition spawn_script : bytes := [x51; x20] ++ repeat x07 32.

Definition sample_coinbase (height_low tag value : N) : Tx := {|
  tx_version := 2; tx_lock_time := 0;
  tx_input := [{| in_previous_output := (0, 2 ^ 32 - 1);
                  in_script_sig := x02 :: be_bytes 1 height_low ++ x03 :: be_bytes 1 tag;
                  in_sequence := 0; in_witness := [] |}];
  tx_output := [{| out_value := value; out_script_pubkey := spawn_script |}] |}.

(** What the concrete txid and signature hash cover. *)
Definition tx_bytes (tx : Tx) : bytes :=
  (tx_input tx ≫= fun i => be_bytes 8 (in_previous_output i).1 ++ be_bytes 4 (in_previous_output i).2 ++
                            in_script_sig i) ++
  (tx_output tx ≫= fun o => be_bytes 8 (out_value o) ++ out_script_pubkey o).
Definition sample_txid (tx : Tx) : N := 1 + checksum (tx_bytes tx).

Definition sample_spend (from : Txid) (value sequence : N) : Tx :=
  let unsigned sig := {|
    tx_version := 2; tx_lock_time := 0;
    tx_input := [{| in_previous_output := (from, 0); in_script_sig := []; in_sequence := sequence;
                    in_witness := [sig] |}];
    tx_output := [{| out_value := value; out_script_pubkey := spawn_script |}] |} in
  unsigned (be_bytes 32 (checksum (tx_bytes (unsigned []))) ++ repeat x00 32).

Definition sample_root (ids : list Txid) : BlockHash := foldr (fun t acc => t + 2 * acc) 1 ids.

Definition sample_block (parent nonce time : N) (txs : list Tx) : Block := {|
  bk_header := {| hd_version := FORK_BLOCK_VERSION; hd_prev_blockhash := parent;
                  hd_merkle_root := sample_root (map sample_txid txs);
                  hd_time := time; hd_bits := 0x207fffff; hd_nonce := nonce |};
  bk_txdata := txs |}.

Definition sample_tip : BlockHash := 77.
Definition coinbase_a : Tx := sample_coinbase 0x85 1 5000000000.
Definition spend_a : Tx := sample_spend (sample_txid coinbase_a) 4999999000 0.
Definition block_a : Block := sample_block sample_tip 1 1600 [coinbase_a].
Definition block_b : Block := sample_block 1 2 2200 [sample_coinbase 0x86 2 5000001000; spend_a].
Definition block_c : Block := sample_block sample_tip 3 1600 [sample_coinbase 0x85 3 5000000000].
Definition spend_b : Tx := sample_spend (sample_txid spend_a) 4999998000 9.

(** ** The crate *)

(** An encoding of every transaction; [spend_b] has a short one. *)
#[local] Instance byte_countable : Countable byte := inj_countable Byte.to_N Byte.of_N Byte.of_to_N.
#[local] Instance TxInput_countable : Countable TxInput.
Proof.
  refine (inj_countable' (fun i => (in_previous_output i, in_script_sig i, in_sequence i, in_witness i))
    (fun '(o, sc, sq, w) => {| in_previous_output := o; in_script_sig := sc; in_sequence := sq; in_witness := w |}) _).
  by intros [].
Defined.
#[local] Instance TxOutput_countable : Countable TxOutput.
Proof.
  refine (inj_countable' (fun o => (out_value o, out_script_pubkey o))
    (fun '(v, sc) => {| out_value := v; out_script_pubkey := sc |}) _).
  by intros [].
Defined.
#[local] Instance Tx_countable : Countable Tx.
Proof.
  refine (inj_countable' (fun t => (tx_version t, tx_lock_time t, tx_input t, tx_output t))
    (fun '(v, l, i, o) => {| tx_version := v; tx_lock_time := l; tx_input := i; tx_output := o |}) _).
  by intros [].
Defined.

Fixpoint bits_of_pos (p : positive) : bytes :=
  match p with xH => [] | xO p' => x00 :: bits_of_pos p' | xI p' => x01 :: bits_of_pos p' end.
Fixpoint pos_of_bits (b : bytes) : positive :=
  match b with [] => xH | x00 :: b' => xO (pos_of_bits b') | _ :: b' => xI (pos_of_bits b') end.
Lemma pos_of_bits_of_pos p : pos_of_bits (bits_of_pos p) = p.
Proof. induction p; simpl; congruence. Qed.

Definition sample_serialize (tx : Tx) : bytes :=
  if bool_decide (tx = spend_b) then [x09] else x00 :: bits_of_pos (encode tx).
Definition sample_deserialize (b : bytes) : option Tx :=
  match b with [x09] => Some spend_b | x00 :: b' => decode (pos_of_bits b') | _ => None end.

Lemma sample_deserialize_serialize tx : sample_deserialize (sample_serialize tx) = Some tx.
Proof.
  unfold sample_serialize. case_bool_decide as Htx; [by rewrite Htx|].
  cbn [sample_deserialize]. by rewrite pos_of_bits_of_pos, decode_encode.
Qed.

Definition sample_weight (tx : Tx) : N := 240 + 172 * N.of_nat (length (tx_output tx)).

Definition fork_crate_c : @ForkCrate secp_c := {|
  block_hash_of := hd_nonce;
  compute_txid := sample_txid;
  compute_wtxid tx := be_bytes 32 (sample_txid tx);
  is_coinbase tx := bool_decide (map in_previous_output (tx_input tx) = [(0, 2 ^ 32 - 1)]);
  weight_of_tx := sample_weight;
  weight_of_block b := 320 + sum_N (map sample_weight (bk_txdata b));
  check_merkle_root b := hd_merkle_root (bk_header b) =? sample_root (map sample_txid (bk_txdata b));
  check_witness_commitment _ := true;
  validate_pow h target := @target_from_compact clock_c (hd_bits h) =? target;
  target_to_work t := 2 ^ 256 / (t + 1);
  deserialize_block b :=
    match b with [x01] => Some block_a | [x02] => Some block_b | [x03] => Some block_c | _ => None end;
  serialize_block b := be_bytes 1 (hd_nonce (bk_header b));
  deserialize_tx := sample_deserialize;
  serialize_tx := sample_serialize;
  hash_to_string := pretty;
  hash_from_str s := if Nat.eqb (String.length s) 64 then Some sample_tip else None;
  address_of_script b := Some (hex_encode_c b);
  is_p2pkh _ := false;
  is_p2sh _ := false;
  is_p2wsh _ := false;
  is_p2pk _ := false;
  is_op_return b := bool_decide (head b = Some x6a);
  is_witness_program _ := false;
  taproot_signature b := Some (b : @SchnorrSignature secp_c, true);
  xonly_from_slice _ := Some (EmptyString : @XOnlyPublicKey secp_c);
  taproot_key_sighash tx _ _ := Some (be_bytes 32 (checksum (tx_bytes tx)));
  EcdsaSignature := bytes;
  ecdsa_signature b := Some (b, true);
  CompressedKey := bytes;
  compressed_key b := Some b;
  p2wpkh_script b := x00 :: x14 :: b;
  p2wpkh_sighash tx _ _ _ := Some (be_bytes 32 (checksum (tx_bytes tx)));
  ecdsa_verify _ _ _ := true
|}.

(** ** A run *)

Definition sample_launch : Z := 1000 * 1000000000.
Definition sample_manifest : ForkActivationManifest :=
  match @fa_new hashing_c clock_c (no_value_testnet "pohw-testnet" sample_launch)
          {| fp_inherited_tip_height := 900; fp_inherited_tip_hash := repeat_char "b"%char 64;
             fp_first_fork_height := 901; fp_launch_timestamp_utc := sample_launch |}
          {| mb_height := 901; mb_block_hash := repeat_char "c"%char 64; mb_timestamp := sample_launch |} with
  | Ok m => m
  | Err _ => activated
  end.
Definition sample_upgrade : option ForkTransactionUpgradeManifest :=
  match @fu_new hashing_c (fa_activation_id sample_manifest) 902 SegwitKeypathV1 1 10 4000 with
  | Ok u => Some u
  | Err _ => None
  end.

(** Opens an empty log and submits the blocks with these texts. *)
Abbreviation sample_open :=
  (@open_with_transaction_upgrade hashing_c secp_c bitcoin_c fork_crate_c clock_c sample_manifest sample_upgrade []).
Abbreviation sample_submit s hex :=
  (@submit_block_at_time hashing_c secp_c bitcoin_c fork_crate_c clock_c hex 5000 s).
Fixpoint sample_run (s : ForkChainStore) (blocks : list string) : ForkChainStore :=
  match blocks with
  | [] => s
  | hex :: blocks' => sample_run (sample_submit s hex).2 blocks'
  end.
Definition sample_store (blocks : list string) : chain_checked ForkChainStore :=
  s ← sample_open; Ok (sample_run s blocks).
