(* ===== verification/ForkChainInv.v ===== *)
(** * The block tree of the fork chain and its active tip

    What every store reached by opening a log and submitting blocks and
    transactions satisfies: each stored block was validated against its stored
    ancestors, so branches end at the inherited tip and the traversals of
    [ForkChain] terminate; the active tip has the most work. *)
From S2P Require Import Prelude Order Text Crates Concrete Fork ForkChain ForkSample.

Local Open Scope N_scope.

(** ** Generic lemmas *)

Lemma with_context_Ok {A} msg (o : option A) a : with_context msg o = Ok a <-> o = Some a.
Proof. apply ok_or_Ok. Qed.
Lemma expect_Ok {A} msg (o : option A) a : expect msg o = Ok a <-> o = Some a.
Proof. apply ok_or_Ok. Qed.
Lemma ensure_Ok b msg u : ensure b msg = Ok u <-> b = true.
Proof. unfold ensure. destruct b, u; naive_solver. Qed.

(** [res_inv] through the error helpers of the fork chain. *)
Ltac chain_inv :=
  repeat first
    [ progress res_inv
    | match goal with
      | H : with_context _ _ = Ok _ |- _ => apply with_context_Ok in H
      | H : expect _ _ = Ok _ |- _ => apply expect_Ok in H
      | H : ensure _ _ = Ok _ |- _ => apply ensure_Ok in H
      end ].

Section inv.
Context `{Hashing, Secp256k1, BitcoinCrate, !ForkCrate, ChainClock}.

(** ** Validated blocks *)

(** What [validate_block] establishes about the node it returns. *)
Record valid_node (s : ForkChainStore) (n : BlockNode) (now : N) (coinbase : Tx) (parent_work : N)
    (next : NextDifficulty) (mtp fees : N) : Prop := {
  vn_shape : check_block_shape (bn_block n) = Ok coinbase;
  vn_parent : block_parent s (hd_prev_blockhash (bk_header (bn_block n))) =
              Ok (bn_height n, parent_work, parent_of s n);
  vn_next : next_difficulty s (parent_of s n) (bn_height n) (hd_time (bk_header (bn_block n))) = Ok next;
  vn_phase : bn_difficulty_phase n = nd_phase next;
  vn_pow : validate_pow (bk_header (bn_block n)) (target_from_compact (nd_bits next)) = true;
  vn_work : bn_cumulative_work n = add_work parent_work (target_to_work (target_from_compact (nd_bits next)));
  vn_mtp : median_time_past s (parent_of s n) = Ok mtp;
  vn_after : mtp < hd_time (bk_header (bn_block n));
  vn_now : now + MAX_FUTURE_BLOCK_SECONDS < 2 ^ 64;
  vn_future : hd_time (bk_header (bn_block n)) <= now + MAX_FUTURE_BLOCK_SECONDS;
  vn_txs : validate_block_transactions s (bn_block n) (bn_height n) (parent_of s n) = Ok fees;
  vn_height : validate_coinbase_height coinbase (bn_height n) = Ok tt;
  vn_reward : validate_coinbase_reward coinbase (bn_height n) fees = Ok tt
}.

Lemma block_parent_tip s n height work tip :
  block_parent s (hd_prev_blockhash (bk_header (bn_block n))) = Ok (height, work, tip) -> tip = parent_of s n.
Proof. unfold block_parent, parent_of. case_match; intros Hp; chain_inv; congruence. Qed.

Lemma validate_block_Ok s b hex now n :
  validate_block s b hex now = Ok n <->
  bn_block n = b /\ bn_block_hex n = hex /\
  exists coinbase parent_work next mtp fees, valid_node s n now coinbase parent_work next mtp fees.
Proof.
  unfold validate_block. split.
  - intros Hv. apply bind_Ok in Hv as (cb & Hcb & Hv). apply bind_Ok in Hv as ([[ht w] tip] & Hp & Hv).
    apply bind_Ok in Hv as (next & Hnext & Hv). apply bind_Ok in Hv as ([] & Hpow & Hv).
    apply bind_Ok in Hv as (mtp & Hmtp & Hv). case_match eqn:Ht; [done|].
    apply bind_Ok in Hv as (lim & Hlim & Hv). case_match eqn:Hfut; [done|].
    apply bind_Ok in Hv as (fees & Hfees & Hv). apply bind_Ok in Hv as ([] & Hh & Hv).
    apply bind_Ok in Hv as ([] & Hr & [= <-]). split; [done|]. split; [done|].
    apply ensure_Ok in Hpow. apply with_context_Ok, checked_add_Some in Hlim as [-> Hlim]. bool_inv.
    exists cb, w, next, mtp, fees.
    pose proof (block_parent_tip s {| bn_block := b; bn_block_hex := hex; bn_height := ht;
      bn_cumulative_work := w; bn_difficulty_phase := Bootstrap |} _ _ _ Hp) as Htip.
    unfold parent_of in Htip. subst tip. split; simpl; try done; lia.
  - intros (<- & <- & cb & w & next & mtp & fees & []).
    rewrite vn_shape0. cbn [mbind result_bind]. rewrite vn_parent0. cbn [mbind result_bind].
    rewrite vn_next0. cbn [mbind result_bind]. rewrite vn_pow0. cbn [mbind result_bind ensure].
    rewrite vn_mtp0. cbn [mbind result_bind]. rewrite (proj2 (N.leb_gt _ _)) by lia.
    unfold with_context at 1. unfold checked_add. rewrite (proj2 (N.ltb_lt _ _)) by done. cbn [mbind result_bind ok_or].
    rewrite (proj2 (N.ltb_ge _ _)) by lia. rewrite vn_txs0. cbn [mbind result_bind].
    rewrite vn_height0. cbn [mbind result_bind]. rewrite vn_reward0. cbn [mbind result_bind].
    f_equal. destruct n; simpl in *. by subst.
Qed.

(** ** Growing stores *)

(** [s'] has the same rules and at least the blocks of [s]. *)
Record extends (s s' : ForkChainStore) : Prop := {
  ext_manifest : fcs_manifest s' = fcs_manifest s;
  ext_upgrade : fcs_transaction_upgrade s' = fcs_transaction_upgrade s;
  ext_inherited : fcs_inherited_tip_hash s' = fcs_inherited_tip_hash s;
  ext_blocks : fcs_blocks s ⊆ fcs_blocks s'
}.

#[global] Instance extends_preorder : PreOrder extends.
Proof.
  split; [by intros s|]. intros s1 s2 s3 [] []. split; try congruence. by etrans.
Qed.

Section extends.
Context (s s' : ForkChainStore) (Hext : extends s s').

Lemma extends_lookup h n : fcs_blocks s !! h = Some n -> fcs_blocks s' !! h = Some n.
Proof. intros Hn. exact (lookup_weaken _ _ _ _ Hn (ext_blocks _ _ Hext)). Qed.

Lemma extends_parent n : parent_of s' n = parent_of s n.
Proof. unfold parent_of. by rewrite (ext_inherited _ _ Hext). Qed.

Lemma extends_fuel : (branch_fuel s <= branch_fuel s')%nat.
Proof. apply map_subseteq_size, (ext_blocks _ _ Hext). Qed.

Lemma extends_walk f f' m c l :
  (f <= f')%nat -> walk_branch f m s c = Ok l -> walk_branch f' m s' c = Ok l.
Proof.
  revert f' c l. induction f as [|f IH]; intros f' [h|] l Hf; cbn [walk_branch]; try done.
  - intros [= <-]. by destruct f'.
  - destruct f' as [|f']; [lia|]. cbn [walk_branch]. intros Hw. chain_inv.
    rewrite (extends_lookup h x) by done. cbn [with_context ok_or mbind result_bind].
    rewrite extends_parent, (IH f' _ x0) by (done || lia). cbn [mbind result_bind]. by subst.
  - intros [= <-]. by destruct f'.
Qed.

Lemma extends_branch_state c st : branch_state s c = Ok st -> branch_state s' c = Ok st.
Proof.
  unfold branch_state. intros Hb. apply bind_Ok in Hb as (l & Hw & Hr).
  rewrite (extends_walk _ _ _ _ _ extends_fuel Hw). by cbn [mbind result_bind].
Qed.

Lemma extends_times k c l : collect_times k s c = Ok l -> collect_times k s' c = Ok l.
Proof.
  revert c l. induction k as [|k IH]; intros [h|] l; cbn [collect_times]; try done.
  intros Hw. chain_inv. rewrite (extends_lookup h x) by done.
  cbn [with_context ok_or mbind result_bind]. rewrite extends_parent, (IH _ x0) by done. cbn [mbind result_bind]. by subst.
Qed.

Lemma extends_mtp c t : median_time_past s c = Ok t -> median_time_past s' c = Ok t.
Proof.
  unfold median_time_past. rewrite (ext_manifest _ _ Hext). case_match; [done|].
  intros Hb. apply bind_Ok in Hb as (l & Hw & Hr). rewrite (extends_times _ _ _ Hw). by cbn [mbind result_bind].
Qed.

Lemma extends_next c ht t d : next_difficulty s c ht t = Ok d -> next_difficulty s' c ht t = Ok d.
Proof.
  unfold next_difficulty, phase_after_bootstrap_block. rewrite (ext_manifest _ _ Hext).
  destruct c as [h|]; [|done]. intros Hb. apply bind_Ok in Hb as (n & Hn & Hb). apply with_context_Ok in Hn.
  rewrite (extends_lookup h n) by done. by cbn [with_context ok_or mbind result_bind].
Qed.

Lemma extends_active ht : transactions_active_at s' ht = transactions_active_at s ht.
Proof. unfold transactions_active_at. by rewrite (ext_upgrade _ _ Hext). Qed.

Lemma extends_check tx ht st : check_transaction s' tx ht st = check_transaction s tx ht st.
Proof. unfold check_transaction. by rewrite (ext_upgrade _ _ Hext). Qed.

Lemma extends_apply ht tx st :
  validate_and_apply_transaction s' ht tx st = validate_and_apply_transaction s ht tx st.
Proof. unfold validate_and_apply_transaction, asks. rewrite !M_bind_run. by rewrite extends_check. Qed.

Lemma extends_apply_all ht fees txs st :
  apply_block_transactions s' ht fees txs st = apply_block_transactions s ht fees txs st.
Proof.
  revert fees st. induction txs as [|tx txs IH]; intros fees st; cbn [apply_block_transactions]; [done|].
  rewrite !M_bind_run, extends_apply. destruct (validate_and_apply_transaction _ _ _ _) as [[fee|e] st']; [|done].
  rewrite !M_bind_run. unfold lift. destruct (with_context _ _); [apply IH|done].
Qed.

Lemma extends_apply_block ht cb txs st : apply_block s' ht cb txs st = apply_block s ht cb txs st.
Proof.
  unfold apply_block. rewrite !M_bind_run. destruct (insert_txid _ _) as [[[]|e] st']; try done. cbn [negb].
  rewrite !M_bind_run. destruct (add_transaction_outputs _ _ _) as [[[]|e] st'']; [|done]. apply extends_apply_all.
Qed.

Lemma extends_txs b ht c fees :
  validate_block_transactions s b ht c = Ok fees -> validate_block_transactions s' b ht c = Ok fees.
Proof.
  unfold validate_block_transactions. rewrite extends_active, (ext_upgrade _ _ Hext).
  destruct (negb _); [done|]. intros Hv. apply bind_Ok in Hv as (u & -> & Hv). cbn [mbind result_bind].
  case_match; [done|]. case_match; [done|]. apply bind_Ok in Hv as (cb & -> & Hv). cbn [mbind result_bind].
  apply bind_Ok in Hv as (st & Hst & Hv). rewrite (extends_branch_state _ _ Hst). cbn [mbind result_bind].
  by rewrite extends_apply_block.
Qed.

Lemma extends_block_parent h r : block_parent s h = Ok r -> block_parent s' h = Ok r.
Proof.
  unfold block_parent. rewrite (ext_manifest _ _ Hext), (ext_inherited _ _ Hext). case_match; [done|].
  intros Hb. apply bind_Ok in Hb as (n & Hn & Hb). apply with_context_Ok in Hn.
  rewrite (extends_lookup h n) by done. by cbn [with_context ok_or mbind result_bind].
Qed.

(** A block that was valid stays valid. *)
Lemma extends_valid n now cb w next mtp fees :
  valid_node s n now cb w next mtp fees -> valid_node s' n now cb w next mtp fees.
Proof.
  intros []. split; try done; rewrite ?extends_parent;
    eauto using extends_block_parent, extends_next, extends_mtp, extends_txs.
Qed.
End extends.

(** ** Branches *)

(** The blocks from [c] down to the inherited tip. *)
Inductive branch (s : ForkChainStore) : option BlockHash -> list (BlockHash * BlockNode) -> Prop :=
| branch_nil : branch s None []
| branch_cons h n l :
    fcs_blocks s !! h = Some n -> branch s (parent_of s n) l -> branch s (Some h) ((h, n) :: l).

(** A stored block under its key, with the text it came from. *)
Record node_ok (s : ForkChainStore) (h : BlockHash) (n : BlockNode) : Prop := {
  no_hash : h = block_hash_of (bk_header (bn_block n));
  no_text : normalize_block_hex (bn_block_hex n) = Ok (bn_block_hex n);
  no_decode : decode_block (bn_block_hex n) = Ok (bn_block n);
  no_valid : exists now coinbase parent_work next mtp fees,
    valid_node s n now coinbase parent_work next mtp fees
}.

Definition nodes_ok (s : ForkChainStore) : Prop :=
  forall h n, fcs_blocks s !! h = Some n -> node_ok s h n.

Definition stored (s : ForkChainStore) (c : option BlockHash) : Prop :=
  match c with None => True | Some h => is_Some (fcs_blocks s !! h) end.

Definition first_height (s : ForkChainStore) : N := fp_first_fork_height (fa_fork_point (fcs_manifest s)).

Lemma branch_walk s c l f m : branch s c l -> (length l <= f)%nat -> walk_branch f m s c = Ok l.
Proof.
  intros Hb. revert f. induction Hb as [|h n l Hn _ IH]; intros f Hf; [by destruct f|].
  destruct f as [|f]; simpl in Hf; [lia|]. cbn [walk_branch]. rewrite Hn.
  cbn [with_context ok_or mbind result_bind]. by rewrite IH by lia.
Qed.

Lemma walk_is_branch s c l f m : walk_branch f m s c = Ok l -> branch s c l.
Proof.
  revert c l. induction f as [|f IH]; intros [h|] l; cbn [walk_branch]; intros Hw; chain_inv; subst;
    try done; constructor; eauto.
Qed.

Lemma fork_branch_det s c l l' : branch s c l -> branch s c l' -> l = l'.
Proof.
  intros Hb. revert l'. induction Hb as [|h n l Hn _ IH]; intros l' Hb'; inversion Hb'; simplify_eq; [done|].
  f_equal. auto.
Qed.

Lemma branch_app s c l1 h n l2 :
  branch s c (l1 ++ (h, n) :: l2) -> fcs_blocks s !! h = Some n /\ branch s (Some h) ((h, n) :: l2).
Proof.
  revert c. induction l1 as [|e l1 IH]; intros c Hb; inversion Hb; simplify_eq; [|eauto].
  split; [done|by constructor].
Qed.

Lemma branch_stored s c l h n : branch s c l -> (h, n) ∈ l -> fcs_blocks s !! h = Some n.
Proof. intros Hb (l1 & l2 & ->)%list_elem_of_split. by apply branch_app in Hb as []. Qed.

Section nodes.
Context (s : ForkChainStore) (Hok : nodes_ok s).

Lemma parent_height h n :
  fcs_blocks s !! h = Some n ->
  match parent_of s n with
  | None => bn_height n = first_height s
  | Some p => exists np, fcs_blocks s !! p = Some np /\ bn_height n = bn_height np + 1
  end.
Proof.
  intros Hn. destruct (no_valid _ _ _ (Hok _ _ Hn)) as (? & ? & ? & ? & ? & ? & [_ Hp _ _ _ _ _ _ _ _ _ _ _]).
  revert Hp. unfold block_parent, parent_of, first_height. case_match; intros Hp; chain_inv; [congruence|].
  destruct (checked_add_Some 64 (bn_height x5) 1 x6) as [Hc _]. naive_solver.
Qed.

Lemma parent_stored h n : fcs_blocks s !! h = Some n -> stored s (parent_of s n).
Proof. intros Hn%parent_height. unfold stored. case_match; [|done]. destruct Hn as (np & -> & _). eauto. Qed.

Lemma branch_exists h n :
  fcs_blocks s !! h = Some n ->
  exists l, branch s (Some h) l /\ bn_height n + 1 = first_height s + N.of_nat (length l).
Proof.
  remember (N.to_nat (bn_height n)) as k eqn:Hk. revert h n Hk.
  induction (lt_wf k) as [k _ IH]. intros h n -> Hn. pose proof (parent_height h n Hn) as Hp.
  destruct (parent_of s n) as [p|] eqn:Hpar.
  - destruct Hp as (np & Hnp & Hh). destruct (IH (N.to_nat (bn_height np))) with (h := p) (n := np)
      as (l & Hl & Hlen); [lia|done..|].
    exists ((h, n) :: l). split; [constructor; [done|by rewrite Hpar]|]. simpl length. lia.
  - exists [(h, n)]. split; [constructor; [done|rewrite Hpar; constructor]|]. simpl length. lia.
Qed.

(** Heights fall by one along a branch. *)
Lemma branch_heights h n l i h' n' :
  branch s (Some h) l -> fcs_blocks s !! h = Some n -> l !! i = Some (h', n') ->
  bn_height n' + N.of_nat i = bn_height n.
Proof.
  intros Hb. remember (Some h) as c eqn:Hc. revert h n i Hc.
  induction Hb as [|h0 n0 l Hn0 Hl IH]; intros h n i [= ->] Hn Hi; simplify_eq.
  destruct i as [|i]; simpl in Hi; [simplify_eq; lia|].
  pose proof (parent_height h n0 Hn0) as Hp. destruct (parent_of s n0) as [p|] eqn:Hpar.
  - destruct Hp as (np & Hnp & Hh). specialize (IH p np i eq_refl Hnp Hi). lia.
  - inversion Hl; subst. done.
Qed.

Lemma fork_branch_NoDup c l : branch s c l -> NoDup (map fst l).
Proof.
  intros Hb. apply NoDup_alt. intros i j x Hi Hj. change (map fst l) with (fst <$> l) in *.
  rewrite list_lookup_fmap in Hi, Hj.
  destruct (l !! i) as [[hi ni]|] eqn:Hli; [|done]. destruct (l !! j) as [[hj nj]|] eqn:Hlj; [|done].
  simpl in *. simplify_eq. destruct c as [h|]; [|inversion Hb; subst; done].
  assert (exists n, fcs_blocks s !! h = Some n) as [n Hn] by (inversion Hb; eauto).
  pose proof (branch_stored _ _ _ _ _ Hb (list_elem_of_lookup_2 _ _ _ Hli)).
  pose proof (branch_stored _ _ _ _ _ Hb (list_elem_of_lookup_2 _ _ _ Hlj)). simplify_eq.
  pose proof (branch_heights _ _ _ _ _ _ Hb Hn Hli). pose proof (branch_heights _ _ _ _ _ _ Hb Hn Hlj). lia.
Qed.

Lemma fork_branch_length c l : branch s c l -> (length l <= branch_fuel s)%nat.
Proof.
  intros Hb. unfold branch_fuel. rewrite <-size_dom, <-(length_map fst l).
  rewrite <-(size_list_to_set (C := gset N) (map fst l)) by eauto using fork_branch_NoDup.
  apply subseteq_size. intros x. rewrite elem_of_list_to_set, list_elem_of_fmap.
  intros ([h n] & -> & Hin). apply elem_of_dom. simpl. eauto using branch_stored.
Qed.

(** The traversals end, at the inherited tip, after at most one visit per block. *)
Lemma walk_total c :
  stored s c -> exists l, branch s c l /\ forall m, walk_branch (branch_fuel s) m s c = Ok l.
Proof.
  intros Hc. assert (exists l, branch s c l) as [l Hl].
  { destruct c as [h|]; [|eexists; constructor]. destruct Hc as [n Hn].
    destruct (branch_exists h n Hn) as (l & Hl & _). eauto. }
  exists l. split; [done|]. intros m. apply branch_walk; [done|]. by eapply fork_branch_length.
Qed.
End nodes.

Lemma nodes_ok_insert s h n :
  nodes_ok s -> fcs_blocks s !! h = None -> node_ok s h n ->
  forall s', extends s s' -> fcs_blocks s' = <[h := n]> (fcs_blocks s) -> nodes_ok s'.
Proof.
  intros Hok Hh Hn s' Hext Hb h' n'. rewrite Hb. intros Hl.
  assert (node_ok s h' n') as [? ? ? (now & cb & w & nx & mt & fe & Hv)].
  { apply lookup_insert_Some in Hl as [[<- <-]|[_ Hl]]; auto. }
  split; try done. exists now, cb, w, nx, mt, fe. by eapply extends_valid.
Qed.

(** ** The active tip *)

(** The comparison of [consider_active_tip] as an order: more work first, then
    the smaller hash text. *)
Definition tip_cmp (a b : BlockHash * BlockNode) : comparison :=
  then_with (bn_cumulative_work b.2 ?= bn_cumulative_work a.2)
    (str_cmp (hash_to_string a.1) (hash_to_string b.1)).

#[global] Instance tip_cmp_order : CmpOrder tip_cmp.
Proof.
  pose proof (cmp_flip_order (fun a b : BlockHash * BlockNode =>
    bn_cumulative_work a.2 ?= bn_cumulative_work b.2)) as Hw.
  exact (then_with_order (fun a b : BlockHash * BlockNode => bn_cumulative_work b.2 ?= bn_cumulative_work a.2)
           (fun a b : BlockHash * BlockNode => str_cmp (hash_to_string a.1) (hash_to_string b.1))).
Qed.

Lemma better_tip_cmp h n h' n' : better_tip h n h' n' = true <-> tip_cmp (h, n) (h', n') = Lt.
Proof.
  unfold better_tip, tip_cmp, string_lt; simpl.
  destruct (N.compare_spec (bn_cumulative_work n') (bn_cumulative_work n)) as [Hw|Hw|Hw]; simpl.
  - rewrite Hw, N.ltb_irrefl, N.eqb_refl. simpl. case_match; naive_solver.
  - by rewrite (proj2 (N.ltb_lt _ _)).
  - rewrite (proj2 (N.ltb_ge _ _)), (proj2 (N.eqb_neq _ _)) by lia. done.
Qed.

(** The active tip comes before every other stored block. *)
Definition best_tip (s : ForkChainStore) : Prop :=
  match fcs_active_tip s with
  | None => fcs_blocks s = ∅
  | Some t => exists nt, fcs_blocks s !! t = Some nt /\
      forall h n, fcs_blocks s !! h = Some n -> cmp_le tip_cmp (t, nt) (h, n)
  end.

(** The indexes of all stored blocks. *)
Definition order_ok (s : ForkChainStore) : Prop :=
  forall height h, (height, h) ∈ fcs_stored_block_order s <->
                   exists n, fcs_blocks s !! h = Some n /\ bn_height n = height.

Definition location (h : BlockHash) (i : nat) : ForkTransactionLocation :=
  {| tl_block_hash := h; tl_transaction_index := i |}.

Definition locations_ok (s : ForkChainStore) : Prop :=
  forall txid h i, location h i ∈ default [] (fcs_transaction_locations s !! txid) <->
    exists n tx, fcs_blocks s !! h = Some n /\ bk_txdata (bn_block n) !! i = Some tx /\ txid = compute_txid tx.

Record chain_ok (s : ForkChainStore) : Prop := {
  co_nodes : nodes_ok s;
  co_best : best_tip s;
  co_order : order_ok s;
  co_locations : locations_ok s
}.

(** Stores that differ in the derived indexes, the mempool and the log only. *)
Record same_tree (s s' : ForkChainStore) : Prop := {
  st_manifest : fcs_manifest s' = fcs_manifest s;
  st_upgrade : fcs_transaction_upgrade s' = fcs_transaction_upgrade s;
  st_inherited : fcs_inherited_tip_hash s' = fcs_inherited_tip_hash s;
  st_blocks : fcs_blocks s' = fcs_blocks s;
  st_tip : fcs_active_tip s' = fcs_active_tip s;
  st_order : fcs_stored_block_order s' = fcs_stored_block_order s;
  st_locations : fcs_transaction_locations s' = fcs_transaction_locations s
}.

#[global] Instance same_tree_equiv : Equivalence same_tree.
Proof. split; [by intros s|by intros s s' []|]. intros s1 s2 s3 [] []. split; congruence. Qed.

Lemma same_tree_extends s s' : same_tree s s' -> extends s s'.
Proof. intros []. split; try done. by rewrite st_blocks0. Qed.

Lemma node_ok_extends s s' h n : extends s s' -> node_ok s h n -> node_ok s' h n.
Proof.
  intros Hext [? ? ? (now & cb & w & nx & mt & fe & Hv)]. split; try done.
  exists now, cb, w, nx, mt, fe. by eapply extends_valid.
Qed.

Lemma chain_ok_same s s' : same_tree s s' -> chain_ok s -> chain_ok s'.
Proof.
  intros Hs [Hn Hb Ho Hl]. pose proof (same_tree_extends _ _ Hs) as Hext. destruct Hs. split.
  - intros h n. rewrite st_blocks0. eauto using node_ok_extends.
  - unfold best_tip. by rewrite st_tip0, st_blocks0.
  - unfold order_ok. by rewrite st_order0, st_blocks0.
  - unfold locations_ok. by rewrite st_locations0, st_blocks0.
Qed.

Lemma push_locations_elem h (L : list (nat * Txid)) m txid h' i :
  location h' i ∈ default [] (foldl (push_location h) m L !! txid) <->
  location h' i ∈ default [] (m !! txid) \/ h' = h /\ (i, txid) ∈ L.
Proof.
  revert m. induction L as [|[j t] L IH]; intros m; simpl; [set_solver|].
  rewrite IH, elem_of_cons. unfold push_location; simpl. destruct (decide (t = txid)) as [->|Hne].
  - rewrite lookup_insert_eq. simpl. rewrite elem_of_app, list_elem_of_singleton. unfold location. naive_solver.
  - rewrite lookup_insert_ne by done. naive_solver.
Qed.

Lemma elem_of_imap_pair {A} (l : list A) i x : (i, x) ∈ imap pair l <-> l !! i = Some x.
Proof. rewrite elem_of_lookup_imap. naive_solver. Qed.

(** ** Storing a block *)

Definition height_index (l : list (BlockHash * BlockNode)) : gmap N BlockHash :=
  foldl (fun active (e : BlockHash * BlockNode) => <[bn_height e.2 := e.1]> active) ∅ l.

(** The derived indexes are those of the branch of the active tip. *)
Definition indexed (s : ForkChainStore) : Prop :=
  exists l, branch s (fcs_active_tip s) l /\ fcs_active_by_height s = height_index l /\
            build_explorer_index s = Ok (fcs_explorer s).

(** The height index alone, which is set before the explorer index is built. *)
Definition height_indexed (s : ForkChainStore) : Prop :=
  exists l, branch s (fcs_active_tip s) l /\ fcs_active_by_height s = height_index l.

Lemma branch_extends s s' c l : extends s s' -> branch s c l -> branch s' c l.
Proof.
  intros Hext Hb. induction Hb as [|h n l Hn _ IH]; constructor; [by eapply extends_lookup|].
  by rewrite (extends_parent s).
Qed.

Lemma active_blocks_extends s s' l :
  extends s s' -> fcs_active_by_height s' = fcs_active_by_height s ->
  active_blocks s = Ok l -> active_blocks s' = Ok l.
Proof.
  unfold active_blocks. intros Hext ->. rewrite !try_map_Ok. intros Hl. eapply Forall2_impl; [exact Hl|].
  intros [height h] y Hy. chain_inv. subst. simpl in *.
  rewrite (extends_lookup s s' Hext h x) by done. done.
Qed.

Lemma explorer_extends s s' e :
  extends s s' -> fcs_active_by_height s' = fcs_active_by_height s ->
  build_explorer_index s = Ok e -> build_explorer_index s' = Ok e.
Proof.
  unfold build_explorer_index. intros Hext Ha Hb. apply bind_Ok in Hb as (l & Hl & Hb).
  rewrite (active_blocks_extends s s' l Hext Ha Hl). exact Hb.
Qed.

(** The fields no index rebuild touches. *)
Record same_rest (s s' : ForkChainStore) : Prop := {
  sr_tree : same_tree s s';
  sr_mempool : fcs_mempool s' = fcs_mempool s;
  sr_bytes : fcs_mempool_bytes s' = fcs_mempool_bytes s;
  sr_log : fcs_log s' = fcs_log s
}.

Lemma rebuild_active_index_spec s r s' :
  nodes_ok s -> stored s (fcs_active_tip s) -> rebuild_active_index s = (r, s') ->
  same_rest s s' /\ height_indexed s' /\
  match r with Ok _ => indexed s' | Err e => build_explorer_index s' = Err e end.
Proof.
  intros Hok Htip. unfold rebuild_active_index, rebuild_explorer_index. rewrite M_bind_run. unfold asks at 1.
  destruct (walk_total s Hok _ Htip) as (l & Hl & Hw). rewrite Hw. rewrite M_bind_run. unfold modify at 1.
  rewrite M_bind_run. unfold asks at 1. set (s1 := set_active_by_height _ s).
  destruct (build_explorer_index s1) as [e|e] eqn:He; intros [= <- <-].
  - split; [done|]. split; [exists l; by split; [apply (branch_extends s)|]|]. exists l. split; [by apply (branch_extends s)|]. split; [done|].
    by eapply (explorer_extends s1).
  - split; [done|]. split; [|exact He]. exists l. by split; [apply (branch_extends s)|].
Qed.

(** Choosing between the tip and a new block. *)
Lemma best_tip_insert s s' h n :
  best_tip s -> fcs_blocks s !! h = None -> fcs_blocks s' = <[h := n]> (fcs_blocks s) ->
  fcs_active_tip s' = match fcs_active_tip s with
                      | None => Some h
                      | Some t => match fcs_blocks s !! t with
                                  | None => None
                                  | Some nt => if better_tip h n t nt then Some h else Some t
                                  end
                      end ->
  best_tip s'.
Proof.
  unfold best_tip. intros Hb Hh Hbl ->. destruct (fcs_active_tip s) as [t|].
  - destruct Hb as (nt & Hnt & Hle). rewrite Hnt. destruct (better_tip h n t nt) eqn:Hbt; rewrite Hbl.
    + apply better_tip_cmp in Hbt. exists n. split; [apply lookup_insert_eq|].
      intros h' n' [[<- <-]|[_ Hn']]%lookup_insert_Some.
      * unfold cmp_le. by rewrite cmp_refl by apply _.
      * unfold cmp_le. by rewrite (cmp_Lt_trans tip_cmp _ _ _ Hbt (Hle _ _ Hn')).
    + exists nt. split; [apply lookup_insert_Some; right; split; [congruence|done]|].
      intros h' n' [[<- <-]|[_ Hn']]%lookup_insert_Some; [|by apply Hle]. unfold cmp_le.
      intros Hgt%cmp_Gt_Lt; [|apply _]. apply better_tip_cmp in Hgt. congruence.
  - rewrite Hb in Hbl. rewrite Hbl. exists n. split; [apply lookup_insert_eq|].
    intros h' n' [[<- <-]|[_ Hn']]%lookup_insert_Some; [|by rewrite lookup_empty in Hn'].
    unfold cmp_le. by rewrite cmp_refl by apply _.
Qed.

(** [index_stored_block] after the insertion. *)
Lemma index_stored_block_spec s h n :
  order_ok s -> locations_ok s -> fcs_blocks s !! h = None ->
  exists s', index_stored_block h (insert_block h n s) = (Ok tt, s') /\
    order_ok s' /\ locations_ok s' /\
    fcs_transaction_locations s' = foldl (push_location h) (fcs_transaction_locations s)
      (imap pair (map compute_txid (bk_txdata (bn_block n)))) /\
    fcs_blocks s' = <[h := n]> (fcs_blocks s) /\
    fcs_active_tip s' = fcs_active_tip s /\ fcs_active_by_height s' = fcs_active_by_height s /\
    fcs_explorer s' = fcs_explorer s /\ fcs_manifest s' = fcs_manifest s /\
    fcs_transaction_upgrade s' = fcs_transaction_upgrade s /\
    fcs_inherited_tip_hash s' = fcs_inherited_tip_hash s /\ fcs_mempool s' = fcs_mempool s /\
    fcs_mempool_bytes s' = fcs_mempool_bytes s /\ fcs_log s' = fcs_log s.
Proof.
  intros Ho Hl Hh. unfold index_stored_block. rewrite M_bind_run. unfold asks, insert_block; simpl.
  rewrite lookup_insert_eq. cbn [with_context ok_or]. rewrite M_bind_run. unfold gets; simpl.
  rewrite bool_decide_false by (intros (? & ? & _)%Ho; congruence).
  eexists. split; [reflexivity|]. unfold order_ok, locations_ok; simpl. split_and!; try done.
  - intros height h'. rewrite elem_of_union, elem_of_singleton, (Ho height h').
    destruct (decide (h' = h)) as [->|Hne].
    + rewrite lookup_insert_eq. split; [intros [[= ->]|(? & ? & _)]; [eauto|congruence]|].
      intros (? & [= <-] & <-). by left.
    + rewrite lookup_insert_ne by done. split; [intros [[= ??]|]; done|eauto].
  - intros txid h' i. rewrite push_locations_elem, (Hl txid h' i), elem_of_imap_pair.
    change (map compute_txid ?l) with (compute_txid <$> l). rewrite list_lookup_fmap_Some.
    destruct (decide (h' = h)) as [->|Hne].
    + rewrite lookup_insert_eq. split; [intros [(? & ? & ? & _)|(_ & tx & -> & ?)]; [congruence|eauto]|].
      intros (? & tx & [= <-] & ? & ->). eauto.
    + rewrite lookup_insert_ne by done. naive_solver.
Qed.

(** What storing a valid new block does, whether or not the explorer index can
    then be rebuilt. *)
Record stored_block (h : BlockHash) (n : BlockNode) (s s' : ForkChainStore) : Prop := {
  sb_ok : chain_ok s';
  sb_extends : extends s s';
  sb_blocks : fcs_blocks s' = <[h := n]> (fcs_blocks s);
  sb_locations : fcs_transaction_locations s' = foldl (push_location h) (fcs_transaction_locations s)
    (imap pair (map compute_txid (bk_txdata (bn_block n))));
  sb_mempool : fcs_mempool s' = fcs_mempool s;
  sb_bytes : fcs_mempool_bytes s' = fcs_mempool_bytes s;
  sb_log : fcs_log s' = fcs_log s
}.

Lemma consider_active_tip_run s h n :
  fcs_blocks s !! h = Some n ->
  (forall t, fcs_active_tip s = Some t -> is_Some (fcs_blocks s !! t)) ->
  exists better,
    (better = match fcs_active_tip s with
              | None => true
              | Some t => match fcs_blocks s !! t with Some nt => better_tip h n t nt | None => false end
              end) /\
    consider_active_tip h s = if (better : bool) then rebuild_active_index (set_active_tip (Some h) s) else (Ok tt, s).
Proof.
  intros Hn Ht. unfold consider_active_tip. rewrite M_bind_run. unfold asks at 1. rewrite Hn.
  cbn [expect ok_or mbind result_bind]. destruct (fcs_active_tip s) as [t|] eqn:Htip.
  - destruct (Ht t eq_refl) as [nt Hnt]. rewrite Hnt. cbn [expect ok_or mbind result_bind].
    eexists. split; [reflexivity|]. by destruct (better_tip h n t nt).
  - exists true. split; done.
Qed.

Lemma store_block_spec s h n r s' :
  chain_ok s -> fcs_blocks s !! h = None -> node_ok s h n -> store_block h n s = (r, s') ->
  stored_block h n s s' /\ (height_indexed s -> height_indexed s') /\
  match r with Ok _ => indexed s -> indexed s' | Err e => build_explorer_index s' = Err e end.
Proof.
  intros [Hn Hb Ho Hl] Hh Hnew. unfold store_block. rewrite M_bind_run. unfold modify at 1. rewrite M_bind_run.
  destruct (index_stored_block_spec s h n Ho Hl Hh) as (s1 & -> & Ho1 & Hl1 & Hloc1 & Hb1 & Ht1 & Ha1 & He1 & Hm & Hu & Hi & Hmp & Hby & Hlog).
  assert (extends s s1) as Hext by (split; try done; rewrite Hb1; by apply insert_subseteq).
  assert (nodes_ok s1) as Hn1 by (by eapply nodes_ok_insert).
  destruct (consider_active_tip_run s1 h n) as (better & Hbe & Hrun).
  { rewrite Hb1. apply lookup_insert_eq. }
  { intros t Ht. rewrite Ht1 in Ht. unfold best_tip in Hb. rewrite Ht in Hb.
    destruct Hb as (nt & Hnt & _). eauto using extends_lookup. }
  rewrite Hrun, Ht1 in *. clear Hrun. destruct better.
  - intros Hreb. apply rebuild_active_index_spec in Hreb as ([Hst Hmp' Hby' Hlog'] & Hhi & Hr).
    + assert (chain_ok (set_active_tip (Some h) s1)) as Hc.
      { split; try done; [intros h' n' Hl'; eapply node_ok_extends; [|by apply Hn1]; done|].
        eapply (best_tip_insert s); try done. simpl. unfold best_tip in Hb.
        destruct (fcs_active_tip s) as [t|]; [|done]. destruct Hb as (nt & Hnt & _).
        rewrite Hb1, lookup_insert_ne, Hnt in Hbe by congruence. by rewrite Hnt, <-Hbe. }
      pose proof (same_tree_extends _ _ Hst). split; [split|by split; [|destruct r]].
      * by eapply chain_ok_same.
      * etrans; [exact Hext|]. by etrans; [|done].
      * destruct Hst. by rewrite st_blocks0.
      * destruct Hst. by rewrite st_locations0.
      * by rewrite Hmp'. * by rewrite Hby'. * by rewrite Hlog'.
    + intros h' n' Hl'. eapply node_ok_extends; [|by apply Hn1]. done.
    + simpl. rewrite Hb1. rewrite lookup_insert_eq. eauto.
  - intros [= <- <-]. split; [split; try done|].
    + split; try done. eapply (best_tip_insert s); try done. rewrite Ht1. revert Hbe.
      unfold best_tip in Hb. destruct (fcs_active_tip s) as [t|]; [|done].
      destruct Hb as (nt & Hnt & _). rewrite Hb1, lookup_insert_ne by congruence. rewrite Hnt. by intros <-.
    + split; [intros (l & Hl' & Hal); exists l; rewrite Ht1, Ha1; split; [by eapply branch_extends|done]|].
      intros (l & Hl' & Hal & Hex). exists l. rewrite Ht1, Ha1, He1. split; [by eapply branch_extends|].
      split; [done|]. by eapply explorer_extends.
Qed.

(** ** Submissions *)

Lemma normalize_block_hex_idemp raw hex :
  normalize_block_hex raw = Ok hex -> normalize_block_hex hex = Ok hex.
Proof.
  unfold normalize_block_hex, len. intros Hn. case_match eqn:Ha; [done|]. case_match eqn:Hb; [done|].
  injection Hn as <-.
  rewrite lower_length, lower_idemp, (all_bytes_lower _ _ hexdigit_lower).
  replace (is_empty (to_ascii_lowercase raw)) with (is_empty raw) by (by destruct raw).
  by rewrite Ha, Hb.
Qed.

Lemma validated_node_ok s raw hex block now n :
  normalize_block_hex raw = Ok hex -> decode_block hex = Ok block -> validate_block s block hex now = Ok n ->
  node_ok s (block_hash_of (bk_header block)) n.
Proof.
  intros Hnorm Hdec (<- & <- & cb & w & nx & mtp & fees & Hv)%validate_block_Ok.
  split; [done|by eapply normalize_block_hex_idemp|done|]. eauto 10.
Qed.

Definition log_record (s : ForkChainStore) (n : BlockNode) : ForkBlockRecord := {|
  br_schema_version := FORK_BLOCK_RECORD_SCHEMA_VERSION;
  br_activation_id := fa_activation_id (fcs_manifest s); br_block_hex := bn_block_hex n |}.

(** Only the mempool differs. *)
Definition mempool_only (s s' : ForkChainStore) : Prop :=
  exists m b, s' = set_mempool m b s.

Lemma mempool_only_refl s : mempool_only s s.
Proof. exists (fcs_mempool s), (fcs_mempool_bytes s). by destruct s. Qed.

Lemma mempool_only_tree s s' : mempool_only s s' -> same_tree s s'.
Proof. by intros (m & b & ->). Qed.

Lemma mempool_only_indexed s s' : mempool_only s s' -> indexed s -> indexed s'.
Proof.
  intros (m & b & ->) (l & Hl & Ha & He). exists l. split; [by apply (branch_extends s)|]. split; [done|].
  by apply (explorer_extends s).
Qed.

Lemma revalidate_mempool_only s r s' : revalidate_mempool s = (r, s') -> mempool_only s s'.
Proof.
  unfold revalidate_mempool. rewrite M_bind_run. unfold asks at 1.
  destruct (status s ≫= _) as [ht|e]; [|intros [= _ <-]; apply mempool_only_refl].
  rewrite M_bind_run. unfold gets at 1. rewrite M_bind_run. unfold modify at 1. rewrite M_bind_run. unfold gets at 1.
  case_match; [intros [= _ <-]; by eexists _, _|].
  rewrite M_bind_run. unfold asks at 1. case_match; [|intros [= _ <-]; by eexists _, _].
  rewrite M_bind_run. unfold asks at 1. case_match; intros [= _ <-]; by eexists _, _.
Qed.

Lemma submit_transaction_only hex s r s' : submit_transaction hex s = (r, s') -> mempool_only s s'.
Proof.
  unfold submit_transaction. rewrite M_bind_run. unfold lift at 1.
  case_match; [|intros [= _ <-]; apply mempool_only_refl]. rewrite M_bind_run. unfold lift at 1.
  case_match; [|intros [= _ <-]; apply mempool_only_refl]. rewrite M_bind_run. unfold gets at 1.
  case_match; [intros [= _ <-]; apply mempool_only_refl|].
  rewrite M_bind_run. unfold asks at 1. case_match; intros [= _ <-]; [by eexists _, _|apply mempool_only_refl].
Qed.

(** What may follow the storing of a block. *)
Definition maybe_revalidated (s s' : ForkChainStore) : Prop :=
  s' = s \/ exists r, revalidate_mempool s = (r, s').

Lemma maybe_revalidated_only s s' : maybe_revalidated s s' -> mempool_only s s'.
Proof. intros [->|[r Hr]]; [apply mempool_only_refl|by eapply revalidate_mempool_only]. Qed.

(** Either nothing changes, or a new valid block is logged and stored; then only
    the mempool still changes. *)
Inductive block_step (s s' : ForkChainStore) (r : chain_checked ForkBlockAcceptance) : Prop :=
| step_unchanged : s' = s -> block_step s s' r
| step_stored h n s1 r1 :
    fcs_blocks s !! h = None -> node_ok s h n ->
    store_block h n (set_log (fcs_log s ++ [log_record s n]) s) = (r1, s1) ->
    maybe_revalidated s1 s' -> (is_ok r1 = false -> s' = s1 /\ is_ok r = false) -> block_step s s' r.

Lemma submit_block_step s hex now r s' : submit_block_at_time hex now s = (r, s') -> block_step s s' r.
Proof.
  unfold submit_block_at_time. rewrite M_bind_run. unfold lift at 1.
  destruct (normalize_block_hex hex) as [a|] eqn:Hnorm; [|intros [= _ <-]; by left]. rewrite M_bind_run. unfold lift at 1.
  destruct (decode_block a) as [blk|] eqn:Hdec; [|intros [= _ <-]; by left]. rewrite M_bind_run. unfold gets at 1.
  destruct (fcs_blocks s !! _) as [old|] eqn:Hex.
  { rewrite M_bind_run. unfold asks at 1. destruct (status s); intros [= _ <-]; by left. }
  rewrite M_bind_run. unfold asks at 1.
  destruct (validate_block s _ _ now) as [b|e] eqn:Hval; [|intros [= _ <-]; by left].
  rewrite M_bind_run. unfold gets at 1. rewrite M_bind_run. unfold append_record.
  rewrite M_bind_run. unfold gets at 1. destruct (MAX_BLOCK_LOG_LINE_BYTES <? _); [intros [= _ <-]; by left|].
  unfold modify at 1.
  rewrite M_bind_run.
  match goal with |- context [store_block ?h ?n ?s2] => destruct (store_block h n s2) as [r1 s1] eqn:Hst end.
  assert (bn_block_hex b = a) as Hhex by (apply validate_block_Ok in Hval; naive_solver).
  pose proof (validated_node_ok _ _ _ _ _ _ Hnorm Hdec Hval) as Hnode.
  intros Hrun. eapply (step_stored _ _ _ _ _ s1 r1); [exact Hex|exact Hnode|unfold log_record; by rewrite Hhex|..].
  - destruct r1; [|injection Hrun as _ <-; by left]. revert Hrun. rewrite M_bind_run.
    unfold gets at 1. rewrite M_bind_run. case_bool_decide.
    + destruct (revalidate_mempool s1) as [r2 s2] eqn:Hre.
      destruct r2; [|intros [= _ <-]; right; by eexists]. rewrite M_bind_run. unfold asks at 1.
      case_match; intros [= _ <-]; right; by eexists.
    + unfold mret, M_ret. rewrite M_bind_run. unfold asks at 1. case_match; intros [= _ <-]; by left.
  - intros Hr. destruct r1; [done|]. by injection Hrun as <- <-.
Qed.

(** ** Reachable stores *)

Inductive reachable : ForkChainStore -> Prop :=
| reach_open manifest upgrade log s :
    open_with_transaction_upgrade manifest upgrade log = Ok s -> reachable s
| reach_block s hex now r s' : reachable s -> submit_block_at_time hex now s = (r, s') -> reachable s'
| reach_transaction s hex r s' : reachable s -> submit_transaction hex s = (r, s') -> reachable s'.

Lemma chain_ok_new m u t log : chain_ok (new_store m u t log).
Proof.
  split; [by intros h n; simpl|done|..].
  - intros height h. simpl. split; [set_solver|]. by intros (? & ? & _).
  - intros txid h i. simpl. split; [set_solver|]. by intros (? & ? & ? & _).
Qed.

Lemma indexed_new m u t log : indexed (new_store m u t log).
Proof. exists []. split; [constructor|]. split; done. Qed.

(** One line of the log. *)
Lemma replay_record_spec s entry s' :
  chain_ok s -> replay_record entry s = (Ok tt, s') ->
  exists n now, fcs_blocks s !! block_hash_of (bk_header (bn_block n)) = None /\
    normalize_block_hex (br_block_hex entry.2) = Ok (bn_block_hex n) /\
    validate_block s (bn_block n) (bn_block_hex n) now = Ok n /\
    node_ok s (block_hash_of (bk_header (bn_block n))) n /\
    store_block (block_hash_of (bk_header (bn_block n))) n s = (Ok tt, s').
Proof.
  destruct entry as [index record]. unfold replay_record. intros Hok. rewrite M_bind_run. unfold gets at 1.
  do 2 (case_match; [done|]). rewrite M_bind_run. unfold lift at 1. case_match eqn:Hnorm; [|done].
  rewrite M_bind_run. unfold lift at 1. case_match eqn:Hdec; [|done]. rewrite M_bind_run. unfold gets at 1.
  case_match eqn:Hex; [done|]. rewrite M_bind_run. unfold asks at 1. case_match eqn:Hval; [|done].
  pose proof (validated_node_ok _ _ _ _ _ _ Hnorm Hdec Hval) as Hnode.
  pose proof Hval as (<- & <- & _)%validate_block_Ok. intros Hst. eauto 10.
Qed.

Lemma replay_ok log m u t s :
  for_each replay_record (imap pair log) (new_store m u t log) = (Ok tt, s) ->
  chain_ok s /\ indexed s /\ extends (new_store m u t log) s /\ fcs_mempool s = ∅ /\ fcs_mempool_bytes s = 0 /\
  fcs_log s = log.
Proof.
  apply (for_each_inv _ (fun _ s => chain_ok s /\ indexed s /\ extends (new_store m u t log) s /\
           fcs_mempool s = ∅ /\ fcs_mempool_bytes s = 0 /\ fcs_log s = log)).
  - split_and!; try done; [apply chain_ok_new|apply indexed_new].
  - intros _ x s1 s2 (Hc & Hi & He & Hm & Hb & Hl) Hr.
    destruct (replay_record_spec _ _ _ Hc Hr) as (n & now & Hfresh & _ & _ & Hn & Hst).
    apply store_block_spec in Hst as ([] & _ & Hidx); try done. split_and!; try done; [by apply Hidx|..].
    + by etrans. + congruence. + congruence. + congruence.
Qed.

Lemma open_ok manifest upgrade log s :
  open_with_transaction_upgrade manifest upgrade log = Ok s ->
  chain_ok s /\ indexed s /\ fcs_manifest s = manifest /\ fcs_transaction_upgrade s = upgrade /\
  fcs_mempool s = ∅ /\ fcs_mempool_bytes s = 0 /\ fcs_log s = log /\ fa_validate manifest = Ok tt /\
  (forall u, upgrade = Some u -> validate_for u manifest = Ok tt).
Proof.
  unfold open_with_transaction_upgrade. intros Ho. apply bind_Ok in Ho as ([] & Hv%map_err_Ok & Ho).
  case_match; [done|]. apply bind_Ok in Ho as ([] & Hu & Ho). apply bind_Ok in Ho as (t & _ & Ho).
  unfold run_state, replay_block_log in Ho. rewrite M_bind_run in Ho. unfold gets in Ho.
  destruct (for_each _ _ _) as [[[]|e] s1] eqn:Hr in Ho; simplify_eq.
  destruct (replay_ok _ _ _ _ _ Hr) as (Hc & Hi & [] & Hm & Hb & Hl). split_and!; try done.
  intros u ->. by apply map_err_Ok in Hu.
Qed.

Lemma reachable_ok s : reachable s -> chain_ok s.
Proof.
  induction 1 as [m u log s Ho|s hex now r s' _ IH Hs|s hex r s' _ IH Hs].
  - by apply open_ok in Ho as [].
  - apply submit_block_step in Hs as [->|h n s1 r1 Hh Hn Hst Hm%maybe_revalidated_only _]; [done|].
    eapply chain_ok_same; [by apply mempool_only_tree|].
    apply store_block_spec in Hst as [[] _]; try done; [by apply (chain_ok_same s)|by apply (node_ok_extends s)].
  - eapply chain_ok_same; [by eapply mempool_only_tree, submit_transaction_only|done].
Qed.

(** The manifests of a reachable store were validated. *)
Definition rules_ok (s : ForkChainStore) : Prop :=
  fa_validate (fcs_manifest s) = Ok tt /\
  forall u, fcs_transaction_upgrade s = Some u -> validate_for u (fcs_manifest s) = Ok tt.

Lemma block_step_extends s s' r : chain_ok s -> block_step s s' r -> extends s s'.
Proof.
  intros Hok [->|h n s1 r1 Hh Hn Hst Hm%maybe_revalidated_only _]; [done|].
  apply store_block_spec in Hst as [[_ He _ _ _ _ _] _]; try done;
    [|by apply (chain_ok_same s)|by apply (node_ok_extends s)].
  trans s1; [by trans (set_log (fcs_log s ++ [log_record s n]) s)|].
  by apply same_tree_extends, mempool_only_tree.
Qed.

Lemma reachable_rules s : reachable s -> rules_ok s.
Proof.
  assert (forall s s', extends s s' -> rules_ok s -> rules_ok s') as Hext.
  { intros s1 s2 [Hm Hu _ _] Hr. unfold rules_ok. by rewrite Hm, Hu. }
  induction 1 as [m u log s Ho|s hex now r s' Hr IH Hs|s hex r s' _ IH Hs].
  - apply open_ok in Ho as (_ & _ & <- & <- & _ & _ & _ & Hm & Hu). by split.
  - apply submit_block_step in Hs. eauto using block_step_extends, reachable_ok.
  - apply submit_transaction_only in Hs. eauto using same_tree_extends, mempool_only_tree.
Qed.

Lemma fa_validate_facts m :
  fa_validate m = Ok tt ->
  fp_first_fork_height (fa_fork_point m) = fp_inherited_tip_height (fa_fork_point m) + 1 /\
  fp_first_fork_height (fa_fork_point m) < 2 ^ 64 /\ 4 <= fc_target_spacing_seconds (fa_config m) /\
  fc_target_spacing_seconds (fa_config m) * BITCOIN_DIFFICULTY_ADJUSTMENT_INTERVAL * 4 < 2 ^ 64 /\
  target_to_compact_lossy (target_from_compact (fc_post_fork_pow_limit_bits (fa_config m))) =
    fc_post_fork_pow_limit_bits (fa_config m).
Proof.
  unfold fa_validate, fa_new. intros Hv. apply bind_Ok in Hv as (c & Hc & _).
  apply bind_Ok in Hc as ([] & Hp & Hc). apply bind_Ok in Hc as (name & Hcfg & _).
  unfold check_fork_point in Hp. unfold check_config in Hcfg. res_inv. bool_inv.
  match goal with Ha : checked_add _ _ _ = Some _ |- _ => apply checked_add_Some in Ha as [-> ?] end.
  match goal with Hs : is_Some _ |- _ => destruct Hs as [t4 Ht4] end.
  unfold bitcoin_retarget_timespan_seconds, checked_mul in Ht4. case_match eqn:Hm1; [|done]. simpl in Ht4.
  case_match eqn:Hm2; [|done]. unfold fits in *. bool_inv. split_and!; lia || done.
Qed.
End inv.

(** ** The sample chain *)

Abbreviation reachable_c := (@reachable hashing_c secp_c bitcoin_c fork_crate_c clock_c).

Lemma sample_run_reachable blocks : forall s, reachable_c s -> reachable_c (sample_run s blocks).
Proof.
  induction blocks as [|b blocks IH]; intros s Hr; cbn [sample_run]; [exact Hr|]. apply IH.
  destruct (sample_submit s b) as [r s'] eqn:Hsub. cbn [snd]. eapply reach_block; [exact Hr|exact Hsub].
Qed.

Lemma sample_reachable blocks s : sample_store blocks = Ok s -> reachable_c s.
Proof.
  unfold sample_store. destruct sample_open as [s0|] eqn:Ho; cbn [mbind result_bind]; [|discriminate].
  intros Hs. injection Hs as <-. apply sample_run_reachable. eapply reach_open. exact Ho.
Qed.

(** The store after some blocks, with one of them. *)
Lemma sample_block_stored blocks h :
  match sample_store blocks with Ok s => bool_decide (is_Some (fcs_blocks s !! h)) | Err _ => false end = true ->
  exists s n, reachable_c s /\ fcs_blocks s !! h = Some n.
Proof.
  destruct (sample_store blocks) as [s|] eqn:Hs; [|done]. intros [n Hn]%bool_decide_eq_true_1.
  exists s, n. split; [by eapply sample_reachable|done].
Qed.
