(* ===== verification/ForkChainUtxo.v ===== *)
(** * The UTXO set of a fork branch

    The outputs a branch of the fork created and did not spend are exactly its
    UTXO set, nothing is spent twice, and the value of the set never exceeds the
    subsidies of the branch. *)
From S2P Require Import Prelude Order Text Crates Concrete Fork ForkChain ForkSample ForkChainInv.

Local Open Scope N_scope.

(** A transaction without its witnesses: what a txid commits to. *)
Definition strip_witness (tx : Tx) : Tx := {|
  tx_version := tx_version tx; tx_lock_time := tx_lock_time tx;
  tx_input := map (fun i => {| in_previous_output := in_previous_output i; in_script_sig := in_script_sig i;
                               in_sequence := in_sequence i; in_witness := [] |}) (tx_input tx);
  tx_output := tx_output tx |}.

(** Documented behaviour of the [bitcoin] crate: a coinbase is recognised by its
    inputs, the witness aside; every output adds to the weight. *)
Class TxLaws `{ForkCrate} : Prop := {
  is_coinbase_strip tx : is_coinbase (strip_witness tx) = is_coinbase tx;
  weight_tx_outputs tx : N.of_nat (length (tx_output tx)) <= weight_of_tx tx;
  weight_block_outputs b tx :
    tx ∈ bk_txdata b -> N.of_nat (length (tx_output tx)) <= weight_of_block b
}.

(** ** Totals *)

Definition output_value (x : IndexedForkOutput) : N := out_value (ifo_output x).
Definition outputs_total (l : list TxOutput) : N := sum_N (map out_value l).
Definition utxo_total (m : gmap OutPoint IndexedForkOutput) : N := map_fold (fun _ x acc => output_value x + acc) 0 m.

Lemma utxo_total_insert m o x : m !! o = None -> utxo_total (<[o := x]> m) = output_value x + utxo_total m.
Proof. intros Ho. unfold utxo_total. rewrite map_fold_insert_L; [done|intros; lia|done]. Qed.

Lemma utxo_total_delete m o x : m !! o = Some x -> utxo_total m = output_value x + utxo_total (delete o m).
Proof.
  intros Ho. rewrite <-(insert_delete_id m o x) at 1 by done. apply utxo_total_insert, lookup_delete_eq.
Qed.

Lemma utxo_total_empty : utxo_total ∅ = 0.
Proof. done. Qed.

(** ** The height in a coinbase *)

Definition le_value (l : list N) : N := foldr (fun b acc => b + 256 * acc) 0 l.

Lemma le_value_script k v : v < 256 ^ N.of_nat k -> le_value (script_number_bytes k v) = v.
Proof.
  revert v. induction k as [|k IH]; intros v Hv; cbn [script_number_bytes]; [change (256 ^ N.of_nat 0) with 1 in Hv; simpl; lia|].
  case_match; bool_inv; [by subst|]. simpl. rewrite IH.
  - change 0xff with (N.ones 8). rewrite N.land_ones, N.shiftr_div_pow2. change (2 ^ 8) with 256.
    pose proof (N.div_mod v 256). lia.
  - rewrite N.shiftr_div_pow2. change (2 ^ 8) with 256. apply N.Div0.div_lt_upper_bound.
    rewrite Nat2N.inj_succ, N.pow_succ_r' in Hv. lia.
Qed.

Lemma le_value_pad l : le_value (l ++ [0]) = le_value l.
Proof. induction l as [|b l IH]; simpl; [done|]. by rewrite IH. Qed.

Lemma minimal_script_number_inj a b :
  a < 2 ^ 64 -> b < 2 ^ 64 -> minimal_script_number a = minimal_script_number b -> a = b.
Proof.
  assert (forall v, v < 2 ^ 64 -> le_value (minimal_script_number v) = v) as Hval.
  { intros v Hv. unfold minimal_script_number. case_match; bool_inv; [by subst|].
    repeat case_match; rewrite ?le_value_pad; by apply le_value_script. }
  intros Ha Hb Heq. rewrite <-(Hval a Ha), <-(Hval b Hb). by rewrite Heq.
Qed.

(** The scriptSig of a valid coinbase tells its height. *)
Lemma coinbase_height_unique cb1 cb2 h1 h2 :
  h1 < 2 ^ 64 -> h2 < 2 ^ 64 ->
  validate_coinbase_height cb1 h1 = Ok tt -> validate_coinbase_height cb2 h2 = Ok tt ->
  map in_script_sig (tx_input cb1) = map in_script_sig (tx_input cb2) -> h1 = h2.
Proof.
  unfold validate_coinbase_height. intros Hh1 Hh2 Hv1 Hv2 Heq.
  apply bind_Ok in Hv1 as (i1 & Hi1%with_context_Ok & Hv1). apply bind_Ok in Hv2 as (i2 & Hi2%with_context_Ok & Hv2).
  assert (in_script_sig i1 = in_script_sig i2) as Hs.
  { destruct (tx_input cb1), (tx_input cb2); simplify_eq/=. done. }
  rewrite Hs in Hv1. res_inv. bool_inv.
  set (e1 := minimal_script_number h1) in *. set (e2 := minimal_script_number h2) in *.
  apply minimal_script_number_inj; [done..|]. fold e1 e2.
  set (script := byte_values (in_script_sig i2)) in *.
  assert (length e1 = length e2) as Hlen.
  { destruct script as [|b script]; [done|].
    repeat match goal with Ht : negb (bool_decide _) = false |- _ => apply negb_false_iff, bool_decide_eq_true_1 in Ht end.
    simpl in *. simplify_eq. unfold as_uint in *. change (2 ^ 8) with 256 in *.
    repeat match goal with Hb : Nat.ltb _ _ = false |- _ => apply Nat.ltb_ge in Hb end.
    rewrite !N.mod_small in * by lia. lia. }
  simpl in *. congruence.
Qed.

(** ** The subsidy schedule *)

(** The subsidies of [k] blocks from height [a] on. *)
Definition subsidies (a : N) (k : nat) : N :=
  sum_N (map (fun i => block_subsidy_sats (a + N.of_nat i)) (seq 0 k)).

Lemma subsidies_S a k : subsidies a (S k) = subsidies a k + block_subsidy_sats (a + N.of_nat k).
Proof. unfold subsidies. rewrite seq_S, map_app, sum_N_app. simpl. lia. Qed.

Lemma subsidies_shift a k : subsidies 0 (N.to_nat a) + subsidies a k = subsidies 0 (N.to_nat a + k).
Proof.
  induction k as [|k IH]; [rewrite Nat.add_0_r; unfold subsidies at 2; simpl; lia|].
  rewrite Nat.add_succ_r, !subsidies_S, <-IH. rewrite N.add_0_l, Nat2N.inj_add, N2Nat.id. lia.
Qed.

Definition era_subsidy (era : N) : N := if 64 <=? era then 0 else N.shiftr (50 * 100000000) era.

(** The subsidies of one block in each of the [k] eras from [era] on. *)
Fixpoint era_tail (k : nat) (era : N) : N :=
  match k with O => 0 | S k' => era_subsidy era + era_tail k' (era + 1) end.

Lemma era_tail_S k era : 64 <= era + N.of_nat k -> era_tail (S k) era = era_tail k era.
Proof.
  revert era. induction k as [|k IH]; intros era Hk.
  - simpl. unfold era_subsidy. by rewrite (proj2 (N.leb_le _ _)) by lia.
  - change (era_subsidy era + era_tail (S k) (era + 1) = era_subsidy era + era_tail k (era + 1)).
    rewrite IH; [done|]. lia.
Qed.

(** What is still to be issued at height [h]. *)
Definition unissued (h : N) : N :=
  (210000 - h mod 210000) * era_subsidy (h / 210000) + 210000 * era_tail 64 (h / 210000 + 1).

Lemma unissued_step h : unissued (h + 1) + block_subsidy_sats h = unissued h.
Proof.
  change (block_subsidy_sats h) with (era_subsidy (h / 210000)). unfold unissued.
  pose proof (N.div_mod h 210000 ltac:(lia)) as Hd. pose proof (N.mod_lt h 210000 ltac:(lia)) as Hm.
  set (q := h / 210000) in *. set (r := h mod 210000) in *.
  destruct (decide (r = 209999)) as [Hr|Hr].
  - assert ((h + 1) / 210000 = q + 1) as -> by (symmetry; apply (N.div_unique _ _ _ 0); lia).
    assert ((h + 1) mod 210000 = 0) as -> by (symmetry; apply (N.mod_unique _ _ (q + 1)); lia).
    rewrite <-(era_tail_S 64 (q + 1)) by lia.
    change (era_tail 65 (q + 1)) with (era_subsidy (q + 1) + era_tail 64 (q + 1 + 1)). lia.
  - assert ((h + 1) / 210000 = q) as -> by (symmetry; apply (N.div_unique _ _ _ (r + 1)); lia).
    assert ((h + 1) mod 210000 = r + 1) as -> by (symmetry; apply (N.mod_unique _ _ q); lia).
    replace (210000 - r) with (210000 - (r + 1) + 1) by lia. lia.
Qed.

Lemma subsidies_bounded a k : subsidies a k <= MAX_MONEY_SATS.
Proof.
  assert (forall k, subsidies 0 k + unissued (N.of_nat k) = unissued 0) as Hinv.
  { induction k0 as [|k0 IH]; [done|]. rewrite subsidies_S, <-IH, N.add_0_l.
    rewrite <-(unissued_step (N.of_nat k0)). rewrite Nat2N.inj_succ, <-N.add_1_r. lia. }
  pose proof (subsidies_shift a k). specialize (Hinv (N.to_nat a + k)%nat).
  assert (unissued 0 = 2099999997690000) as Hu by (vm_compute; reflexivity).
  change MAX_MONEY_SATS with 2100000000000000. lia.
Qed.

Lemma list_snoc_cases {A} (l : list A) : l = [] \/ exists l' x, l = l' ++ [x].
Proof. destruct l as [|x l] using rev_ind; eauto. Qed.

Section utxo.
Context `{Hashing, Secp256k1, BitcoinCrate, !ForkCrate, ChainClock}.

(** ** Transactions of a branch, oldest first *)

Definition branch_txs (l : list (BlockHash * BlockNode)) : list (N * Tx) :=
  rev l ≫= fun e => map (pair (bn_height e.2)) (bk_txdata (bn_block e.2)).

Definition spends_of (tx : Tx) : list OutPoint :=
  if is_coinbase tx then [] else map in_previous_output (tx_input tx).

Definition spent (L : list (N * Tx)) : list OutPoint := L ≫= fun e => spends_of e.2.

(** Output [o] was created as [x] by one of the transactions. *)
Definition created (L : list (N * Tx)) (o : OutPoint) (x : IndexedForkOutput) : Prop :=
  exists height tx vout,
    (height, tx) ∈ L /\ o = (compute_txid tx, N.of_nat vout) /\
    x = {| ifo_output := ifo_output x; ifo_height := height; ifo_coinbase := is_coinbase tx |} /\
    tx_output tx !! vout = Some (ifo_output x).

(** A branch state [st] after the transactions [L]; [done] are the inputs of the
    next transaction that were already removed. *)
Record utxo_state (L : list (N * Tx)) (spending : list OutPoint) (st : ForkBranchState) : Prop := {
  us_txids : bs_txids st = list_to_set (map (compute_txid ∘ snd) L);
  us_txids_NoDup : NoDup (map (compute_txid ∘ snd) L);
  us_utxos o x : bs_utxos st !! o = Some x <-> created L o x /\ o ∉ spent L ++ spending;
  us_spent_NoDup : NoDup (spent L ++ spending);
  us_spent_created o : o ∈ spent L ++ spending -> exists x, created L o x;
  us_ordered L1 height tx L2 o :
    L = L1 ++ (height, tx) :: L2 -> o ∈ spends_of tx -> exists x, created L1 o x
}.

Lemma spent_snoc L e : spent (L ++ [e]) = spent L ++ spends_of e.2.
Proof. unfold spent. rewrite bind_app. simpl. by rewrite app_nil_r. Qed.

Lemma created_snoc L e o x : created (L ++ [e]) o x <-> created L o x \/ created [e] o x.
Proof.
  unfold created. setoid_rewrite elem_of_app. split.
  - intros (ht & tx & v & [Hin|Hin] & Hr); [left|right]; eauto 10.
  - intros [(ht & tx & v & Hin & Hr)|(ht & tx & v & Hin & Hr)]; exists ht, tx, v; eauto.
Qed.

Lemma created_one ht tx o x :
  created [(ht, tx)] o x <->
  exists vout, o = (compute_txid tx, N.of_nat vout) /\
    x = {| ifo_output := ifo_output x; ifo_height := ht; ifo_coinbase := is_coinbase tx |} /\
    tx_output tx !! vout = Some (ifo_output x).
Proof.
  unfold created. split.
  - intros (ht' & tx' & v & [= -> ->]%list_elem_of_singleton & Hr). eauto.
  - intros (v & Hr). exists ht, tx, v. split; [by apply list_elem_of_singleton|done].
Qed.

Lemma created_txid L o x : created L o x -> o.1 ∈ map (compute_txid ∘ snd) L.
Proof.
  intros (ht & tx & v & Hin & -> & _). apply list_elem_of_fmap. by exists (ht, tx).
Qed.

Lemma utxo_state_empty : utxo_state [] [] empty_branch.
Proof.
  split; simpl; try done; try constructor.
  - by rewrite lookup_empty.
  - intros [(ht & tx & v & Hin & _) _]. by apply not_elem_of_nil in Hin.
  - intros o Hin. by apply not_elem_of_nil in Hin.
  - by intros [] *.
Qed.

(** Every known output belongs to a known transaction. *)
Definition txids_cover (st : ForkBranchState) : Prop :=
  forall o, is_Some (bs_utxos st !! o) -> o.1 ∈ bs_txids st.

Lemma utxo_state_cover L sp st : utxo_state L sp st -> txids_cover st.
Proof.
  intros [Ht _ Hu _ _ _] o [x [Hc _]%Hu]. rewrite Ht. apply elem_of_list_to_set. by eapply created_txid.
Qed.

(** ** The loops *)

Lemma remove_utxo_run e i st r st' :
  remove_utxo e i st = (r, st') ->
  match bs_utxos st !! in_previous_output i with
  | None => r = Err (e (in_previous_output i)) /\ st' = st
  | Some _ => r = Ok tt /\ st' = {| bs_utxos := delete (in_previous_output i) (bs_utxos st);
                                    bs_txids := bs_txids st |}
  end.
Proof.
  unfold remove_utxo. rewrite M_bind_run. unfold gets. case_match; unfold modify, throw; naive_solver.
Qed.

(** Removing the inputs of a transaction. *)
Lemma remove_all_spec e L inputs : forall sp st st',
  utxo_state L sp st -> for_each (remove_utxo e) inputs st = (Ok tt, st') ->
  utxo_state L (sp ++ map in_previous_output inputs) st' /\ bs_txids st' = bs_txids st.
Proof.
  induction inputs as [|i inputs IH]; intros sp st st' Hst; cbn [for_each].
  - intros [= <-]. simpl. by rewrite app_nil_r.
  - rewrite M_bind_run. destruct (remove_utxo e i st) as [[[]|err] st1] eqn:Hr; [|done].
    apply remove_utxo_run in Hr. destruct (bs_utxos st !! in_previous_output i) as [x|] eqn:Hx; [|naive_solver].
    destruct Hr as [_ ->]. set (o := in_previous_output i) in *.
    destruct Hst as [Ht Hnd Hu Hs Hc Hord]. pose proof (proj1 (Hu o x) Hx) as [Hco Hno]. intros Hrun.
    apply (IH (sp ++ [o])) in Hrun as [Hst' Hids].
    + simpl. by rewrite <-app_assoc in Hst'.
    + split; simpl; try done.
      * intros o' x'. rewrite lookup_delete_Some, Hu, !app_assoc, !not_elem_of_app, list_elem_of_singleton.
        naive_solver.
      * rewrite app_assoc. apply NoDup_app. split; [done|]. split; [|apply NoDup_singleton].
        intros y Hy ->%list_elem_of_singleton. done.
      * intros o'. rewrite app_assoc, elem_of_app, list_elem_of_singleton. naive_solver.
Qed.

Lemma insert_txid_run t st :
  insert_txid t st = (Ok (negb (bool_decide (t ∈ bs_txids st))),
                      {| bs_utxos := bs_utxos st; bs_txids := {[t]} ∪ bs_txids st |}).
Proof. done. Qed.

(** Adding the outputs from [vout] on. *)
Lemma add_outputs_run tx ht outputs : forall vout st st',
  add_outputs tx ht vout outputs st = (Ok tt, st') ->
  bs_txids st' = bs_txids st /\
  utxo_total (bs_utxos st') = utxo_total (bs_utxos st) + outputs_total outputs /\
  forall o x, bs_utxos st' !! o = Some x <->
    bs_utxos st !! o = Some x \/
    exists k, o = (compute_txid tx, vout + N.of_nat k) /\
      x = {| ifo_output := ifo_output x; ifo_height := ht; ifo_coinbase := is_coinbase tx |} /\
      outputs !! k = Some (ifo_output x).
Proof.
  induction outputs as [|out outputs IH]; intros vout st st'; cbn [add_outputs].
  - intros [= <-]. unfold outputs_total; simpl. split; [done|]. split; [lia|]. naive_solver.
  - case_match; [done|]. rewrite M_bind_run. unfold gets. rewrite M_bind_run. unfold modify.
    destruct (bs_utxos st !! _) as [y|] eqn:Hy; [done|]. intros Hrun.
    apply IH in Hrun as (-> & -> & Hl). split; [done|]. split.
    + unfold insert_utxo; simpl. rewrite utxo_total_insert by done. unfold outputs_total, output_value; simpl. lia.
    + intros o x. rewrite Hl. unfold insert_utxo; simpl. rewrite lookup_insert_Some. split.
      * intros [[[<- <-]|[Hne Ho]]|(k & -> & Hx & Hk)]; [right|by left|right].
        -- exists 0%nat. simpl. by rewrite N.add_0_r.
        -- exists (S k). split; [f_equal; lia|done].
      * intros [Ho|([|k] & -> & Hx & Hk)].
        -- left. right. split; [congruence|done].
        -- left. left. simpl in Hk. injection Hk as Hk. rewrite N.add_0_r, Hx. simpl. by subst.
        -- right. exists k. split; [f_equal; lia|done].
Qed.

(** It succeeds on a new txid. *)
Lemma add_outputs_total tx ht outputs : forall vout st,
  vout + N.of_nat (length outputs) <= 2 ^ 32 ->
  (forall v, vout <= v -> bs_utxos st !! (compute_txid tx, v) = None) ->
  exists st', add_outputs tx ht vout outputs st = (Ok tt, st').
Proof.
  induction outputs as [|out outputs IH]; intros vout st Hlen Hfree; cbn [add_outputs]; [by eexists|].
  simpl length in Hlen. rewrite (proj2 (N.leb_gt _ _)) by lia. rewrite M_bind_run. unfold gets.
  rewrite M_bind_run. unfold modify. rewrite Hfree by lia. apply IH; [lia|].
  intros v Hv. unfold insert_utxo; simpl. rewrite lookup_insert_ne by (intros [=]; lia). apply Hfree. lia.
Qed.

(** The value of the output an input spends. *)
Definition input_value (m : gmap OutPoint IndexedForkOutput) (i : TxInput) : N :=
  default 0 (output_value <$> m !! in_previous_output i).

Definition with_txids (T : gset Txid) (st : ForkBranchState) : ForkBranchState :=
  {| bs_utxos := bs_utxos st; bs_txids := T |}.

(** The effect of the removals on the total; the error and the txids do not matter. *)
Lemma remove_all_total e inputs : forall st st',
  for_each (remove_utxo e) inputs st = (Ok tt, st') ->
  utxo_total (bs_utxos st) = utxo_total (bs_utxos st') + sum_N (map (input_value (bs_utxos st)) inputs) /\
  Forall (fun i => is_Some (bs_utxos st !! in_previous_output i)) inputs /\
  bs_txids st' = bs_txids st /\ (bs_utxos st' ⊆ bs_utxos st) /\
  forall e' T, for_each (remove_utxo e') inputs (with_txids T st) = (Ok tt, with_txids T st').
Proof.
  induction inputs as [|i inputs IH]; intros st st'; cbn [for_each].
  - intros [= <-]. simpl. split; [lia|]. by split; [constructor|].
  - rewrite M_bind_run. destruct (remove_utxo e i st) as [[[]|err] st1] eqn:Hr; [|done].
    apply remove_utxo_run in Hr. destruct (bs_utxos st !! in_previous_output i) as [x|] eqn:Hx; [|naive_solver].
    destruct Hr as [_ ->]. intros Hrun. apply IH in Hrun as (Htot & Hall & Hids & Hsub & Hrun). simpl in *.
    assert (Forall (fun j => bs_utxos st !! in_previous_output j =
              delete (in_previous_output i) (bs_utxos st) !! in_previous_output j) inputs) as Hsame.
    { eapply Forall_impl; [exact Hall|]. intros j [y [Hne _]%lookup_delete_Some]. simpl.
      symmetry. by apply lookup_delete_ne. }
    split_and!.
    + rewrite (utxo_total_delete _ _ _ Hx), Htot.
      assert (input_value (bs_utxos st) i = output_value x) as -> by (unfold input_value; by rewrite Hx).
      assert (map (input_value (delete (in_previous_output i) (bs_utxos st))) inputs =
              map (input_value (bs_utxos st)) inputs) as ->; [|lia].
      apply map_ext_Forall. eapply Forall_impl; [exact Hsame|]. intros j Hj. unfold input_value. by rewrite Hj.
    + constructor; [by rewrite Hx|]. rewrite Forall_forall in *. intros j Hj. rewrite (Hsame j Hj). auto.
    + done.
    + etrans; [done|]. apply delete_subseteq.
    + intros e' T. rewrite M_bind_run. unfold remove_utxo at 1. rewrite M_bind_run. unfold gets. simpl. rewrite Hx.
      apply (Hrun e' T).
Qed.

(** ** Replaying a transaction *)

(** The state before the outputs are added. *)
Lemma utxo_state_outputs L st tx ht st' :
  utxo_state L (spends_of tx) st -> compute_txid tx ∉ bs_txids st ->
  add_transaction_outputs tx ht (with_txids ({[compute_txid tx]} ∪ bs_txids st) st) = (Ok tt, st') ->
  utxo_state (L ++ [(ht, tx)]) [] st'.
Proof.
  intros Hst Hfresh Hadd. apply add_outputs_run in Hadd as (Hids & _ & Hl).
  assert (forall o, o ∈ spent L ++ spends_of tx -> o.1 <> compute_txid tx) as Hne.
  { intros o Ho Heq. destruct (us_spent_created _ _ _ Hst _ Ho) as [x Hx%created_txid].
    apply Hfresh. rewrite (us_txids _ _ _ Hst), <-Heq. by apply elem_of_list_to_set. }
  destruct Hst as [Ht Hnd Hu Hs Hc Hord]. split.
  - rewrite Hids. simpl. rewrite map_app, list_to_set_app_L, Ht. simpl. set_solver.
  - rewrite map_app. apply NoDup_app. split; [done|]. split; [|apply NoDup_singleton].
    intros y Hy ->%list_elem_of_singleton. apply Hfresh. rewrite Ht. by apply elem_of_list_to_set.
  - intros o x. rewrite Hl, spent_snoc, app_nil_r, created_snoc, created_one. simpl. rewrite Hu. split.
    + intros [[? ?]|(k & -> & Hx & Hk)]; [eauto|]. rewrite N.add_0_l. split; [eauto|].
      intros Hin. by apply Hne in Hin.
    + intros [[?|(k & -> & Hx & Hk)] Hno]; [by left|]. right. exists k. by rewrite N.add_0_l.
  - by rewrite spent_snoc, app_nil_r.
  - intros o. rewrite spent_snoc, app_nil_r. intros [x Hx]%Hc. exists x. apply created_snoc. by left.
  - intros L1 ht' tx' L2 o Heq Ho. destruct (list_snoc_cases L2) as [->|(L3 & e & ->)].
    + apply app_inj_tail in Heq as [<- [= <- <-]]. apply Hc, elem_of_app. by right.
    + rewrite app_comm_cons, app_assoc in Heq. apply app_inj_tail in Heq as [-> _]. by eapply Hord.
Qed.

Lemma utxo_state_txids L sp st : utxo_state L sp st -> forall T, T = bs_txids st -> utxo_state L sp (with_txids T st).
Proof. intros [] T ->. by split. Qed.

Lemma replay_transaction_run bh ht tx st st' :
  replay_transaction bh ht tx st = (Ok tt, st') ->
  (compute_txid tx ∉ bs_txids st) /\
  exists st1, (if is_coinbase tx then st1 = st
               else exists e, for_each (remove_utxo e) (tx_input tx) st = (Ok tt, st1)) /\
    add_transaction_outputs tx ht (with_txids ({[compute_txid tx]} ∪ bs_txids st) st1) = (Ok tt, st').
Proof.
  unfold replay_transaction. rewrite M_bind_run, insert_txid_run. case_bool_decide as Hfresh; [done|].
  cbn [negb]. rewrite M_bind_run. destruct (is_coinbase tx).
  - intros Hadd. split; [done|]. by exists st.
  - destruct (for_each _ _ _) as [[[]|e] st1] eqn:Hr; [|done]. intros Hadd. split; [done|].
    apply remove_all_total in Hr as (_ & _ & Hids & _ & Hrun).
    specialize (Hrun (fun _ => Diverged) (bs_txids st)). simpl in Hids.
    exists (with_txids (bs_txids st) st1). split.
    + exists (fun _ => Diverged). destruct st; exact Hrun.
    + rewrite <-Hadd. destruct st1; simpl in *. by rewrite <-Hids.
Qed.

Lemma replay_transaction_spec bh ht tx L st st' :
  utxo_state L [] st -> replay_transaction bh ht tx st = (Ok tt, st') -> utxo_state (L ++ [(ht, tx)]) [] st'.
Proof.
  intros Hst (Hfresh & st1 & Hrem & Hadd)%replay_transaction_run.
  assert (utxo_state L (spends_of tx) st1 /\ bs_txids st1 = bs_txids st) as [Hst1 Hids].
  { unfold spends_of. destruct (is_coinbase tx); [by subst|]. destruct Hrem as [e Hrem].
    by apply (remove_all_spec _ _ _ [] _ _ Hst) in Hrem. }
  eapply utxo_state_outputs; [exact Hst1|by rewrite Hids|by rewrite Hids].
Qed.

(** ** Validating a transaction *)

Lemma outputs_fold {f : N -> TxOutput -> chain_checked N} (l : list TxOutput) t0 t :
  (forall a o b, f a o = Ok b -> b = a + out_value o) ->
  try_fold f t0 l = Ok t -> t = t0 + outputs_total l.
Proof.
  intros Hf. revert t0. induction l as [|o l IH]; intros t0; cbn [try_fold].
  - intros [= <-]. unfold outputs_total; simpl. lia.
  - intros Ht. apply bind_Ok in Ht as (b & ->%Hf & Ht). apply IH in Ht. subst. unfold outputs_total; simpl. lia.
Qed.

Lemma add_output_total_Ok a o b : add_output_total a o = Ok b -> b = a + out_value o.
Proof.
  unfold add_output_total. intros. chain_inv. bool_inv. subst.
  match goal with Hc : checked_add _ _ _ = Some _ |- _ => apply checked_add_Some in Hc as [-> _] end. done.
Qed.

Lemma add_coinbase_output_Ok a o b : add_coinbase_output a o = Ok b -> b = a + out_value o.
Proof.
  unfold add_coinbase_output. intros. chain_inv.
  match goal with Hc : checked_add _ _ _ = Some _ |- _ => by apply checked_add_Some in Hc as [-> _] end.
Qed.

Lemma check_tx_inputs_Ok u ht m inputs seen pre t seen' pre' t' :
  try_fold (check_tx_input u ht m) (seen, pre, t) inputs = Ok (seen', pre', t') ->
  t' = t + sum_N (map (input_value m) inputs) /\
  NoDup (map in_previous_output inputs) /\ Forall (fun i => in_previous_output i ∉ seen) inputs /\
  Forall (fun i => is_Some (m !! in_previous_output i)) inputs.
Proof.
  revert seen pre t. induction inputs as [|i inputs IH]; intros seen pre t; cbn [try_fold].
  - intros [= -> -> ->]. simpl. split; [lia|]. repeat constructor.
  - intros Hf. apply bind_Ok in Hf as ([[s1 p1] t1] & Hc & Hf). unfold check_tx_input in Hc. chain_inv. bool_inv.
    simplify_eq. match goal with Hadd : checked_add _ _ _ = Some _ |- _ => apply checked_add_Some in Hadd as [-> _] end.
    apply IH in Hf as (-> & Hnd & Hseen & Hall). cbn [map]. rewrite sum_N_cons.
    match goal with Hm : m !! in_previous_output i = Some _ |- _ => rename Hm into Hmi end.
    split_and!.
    + unfold input_value at 2. rewrite Hmi. simpl. unfold output_value. lia.
    + constructor; [|done]. rewrite list_elem_of_fmap. intros (j & Heq & Hj).
      rewrite Forall_forall in Hseen. specialize (Hseen j Hj). set_solver.
    + constructor; [done|]. eapply Forall_impl; [exact Hseen|]. set_solver.
    + constructor; [by rewrite Hmi|done].
Qed.

Lemma check_transaction_Ok s tx ht st fee :
  check_transaction s tx ht st = Ok fee ->
  is_coinbase tx = false /\ (compute_txid tx ∉ bs_txids st) /\
  sum_N (map (input_value (bs_utxos st)) (tx_input tx)) = outputs_total (tx_output tx) + fee /\
  NoDup (map in_previous_output (tx_input tx)) /\
  Forall (fun i => is_Some (bs_utxos st !! in_previous_output i)) (tx_input tx).
Proof.
  unfold check_transaction. intros Hc. apply bind_Ok in Hc as (u & _ & Hc). apply bind_Ok in Hc as ([] & Hshape & Hc).
  case_bool_decide as Hfresh; [done|]. apply bind_Ok in Hc as (out & Hout & Hc).
  apply bind_Ok in Hc as ([[seen pre] total] & Hin & Hc). apply bind_Ok in Hc as (fee' & Hfee & Hc).
  apply bind_Ok in Hc as ([] & _ & [= <-]). apply with_context_Ok, checked_sub_Some in Hfee as [-> Hle].
  apply (outputs_fold (f := add_output_total) _ _ _ add_output_total_Ok) in Hout.
  apply check_tx_inputs_Ok in Hin as (-> & Hnd & _ & Hall). rewrite N.add_0_l in *. subst.
  split_and!; try done; [|lia]. unfold check_tx_shape in Hshape. by destruct (is_coinbase tx).
Qed.

(** A validated transaction takes its fee out of the set, and replaying it later
    gives the same state. *)
Lemma validate_and_apply_Ok s ht tx st fee st' bh :
  validate_and_apply_transaction s ht tx st = (Ok fee, st') ->
  is_coinbase tx = false /\ utxo_total (bs_utxos st') + fee = utxo_total (bs_utxos st) /\
  replay_transaction bh ht tx st = (Ok tt, st').
Proof.
  unfold validate_and_apply_transaction. rewrite M_bind_run. unfold asks.
  destruct (check_transaction s tx ht st) as [f|] eqn:Hc; [|done].
  apply check_transaction_Ok in Hc as (Hcb & Hfresh & Hval & _ & _). rewrite M_bind_run.
  destruct (for_each _ _ _) as [[[]|e] st1] eqn:Hrem; [|done]. rewrite M_bind_run, insert_txid_run, M_bind_run.
  destruct (add_transaction_outputs _ _ _) as [[[]|e] st2] eqn:Hadd; [|done]. intros [= <- <-].
  split; [done|]. apply remove_all_total in Hrem as (Htot & _ & Hids & _ & Hrun).
  pose proof Hadd as (_ & Hout & _)%add_outputs_run. simpl in Hout. split; [lia|].
  unfold replay_transaction. rewrite M_bind_run, insert_txid_run, bool_decide_false by done. cbn [negb].
  rewrite M_bind_run, Hcb. unfold with_txids in Hrun. rewrite Hrun. rewrite <-Hids. exact Hadd.
Qed.

Lemma apply_block_transactions_Ok s ht bh txs : forall fees st fees' st',
  apply_block_transactions s ht fees txs st = (Ok fees', st') ->
  utxo_total (bs_utxos st') + fees' = utxo_total (bs_utxos st) + fees /\
  for_each (replay_transaction bh ht) txs st = (Ok tt, st').
Proof.
  induction txs as [|tx txs IH]; intros fees st fees' st'; cbn [apply_block_transactions for_each].
  - by intros [= <- <-].
  - rewrite M_bind_run. destruct (validate_and_apply_transaction s ht tx st) as [[fee|e] st1] eqn:Hv; [|done].
    apply (validate_and_apply_Ok _ _ _ _ _ _ bh) in Hv as (_ & Htot & Hrep). rewrite M_bind_run. unfold lift.
    destruct (with_context _ _) as [f1|] eqn:Hf; [|done]. apply with_context_Ok, checked_add_Some in Hf as [-> _].
    intros Hrun. apply IH in Hrun as [Htot' Hrep']. split; [lia|]. by rewrite M_bind_run, Hrep.
Qed.

Lemma apply_block_Ok s ht bh cb txs st fees st' :
  is_coinbase cb = true -> apply_block s ht cb txs st = (Ok fees, st') ->
  utxo_total (bs_utxos st') + fees = utxo_total (bs_utxos st) + outputs_total (tx_output cb) /\
  for_each (replay_transaction bh ht) (cb :: txs) st = (Ok tt, st').
Proof.
  intros Hcb. unfold apply_block. rewrite M_bind_run, insert_txid_run. case_bool_decide as Hfresh; [done|].
  cbn [negb]. rewrite M_bind_run. destruct (add_transaction_outputs _ _ _) as [[[]|e] st1] eqn:Hadd; [|done].
  intros Hrun. apply (apply_block_transactions_Ok _ _ bh) in Hrun as [Htot Hrep].
  pose proof Hadd as (_ & Hout & _)%add_outputs_run. simpl in Hout. split; [lia|].
  cbn [for_each]. rewrite M_bind_run. unfold replay_transaction at 1.
  rewrite M_bind_run, insert_txid_run, bool_decide_false by done. cbn [negb]. rewrite M_bind_run, Hcb.
  unfold mret, M_ret. by rewrite Hadd.
Qed.

(** ** Replaying blocks *)

Lemma replay_block_spec e L st st' :
  utxo_state L [] st -> replay_block e st = (Ok tt, st') ->
  utxo_state (L ++ map (pair (bn_height e.2)) (bk_txdata (bn_block e.2))) [] st'.
Proof.
  intros Hst. unfold replay_block.
  apply (for_each_inv _ (fun don s => utxo_state (L ++ map (pair (bn_height e.2)) don) [] s)).
  - by rewrite app_nil_r.
  - intros don tx s1 s2 Hs1 Hr. rewrite map_app, app_assoc. by eapply replay_transaction_spec.
Qed.

Lemma branch_txs_cons e l :
  branch_txs (e :: l) = branch_txs l ++ map (pair (bn_height e.2)) (bk_txdata (bn_block e.2)).
Proof. unfold branch_txs. simpl. rewrite bind_app. simpl. by rewrite app_nil_r. Qed.

(** [branch_state] one block at a time. *)
Lemma branch_state_nil s : branch_state s None = Ok empty_branch.
Proof. unfold branch_state. by destruct (branch_fuel s). Qed.

Lemma branch_state_cons s h n :
  nodes_ok s -> fcs_blocks s !! h = Some n ->
  branch_state s (Some h) = (st ← branch_state s (parent_of s n); run_state (replay_block (h, n)) st).
Proof.
  intros Hok Hn.
  destruct (walk_total s Hok (parent_of s n)) as (l & Hl & Hw); [by eapply parent_stored|].
  destruct (walk_total s Hok (Some h)) as (l' & Hl' & Hw'); [by eexists|].
  assert (l' = (h, n) :: l) as -> by (eapply fork_branch_det; [done|by constructor]).
  unfold branch_state. rewrite Hw, Hw'. cbn [mbind result_bind]. simpl rev.
  unfold run_state. rewrite for_each_app. rewrite M_bind_run. cbn [for_each].
  destruct (for_each replay_block (rev l) empty_branch) as [[[]|e] st]; [|done]. cbn [mbind result_bind].
  rewrite M_bind_run. by destruct (replay_block (h, n) st) as [[[]|e] st'].
Qed.

(** What a successful traversal has read. *)
Lemma branch_state_spec s c l st :
  nodes_ok s -> branch s c l -> branch_state s c = Ok st -> utxo_state (branch_txs l) [] st.
Proof.
  intros Hok Hb. revert st. induction Hb as [|h n l Hn Hl IH]; intros st.
  - rewrite branch_state_nil. intros [= <-]. apply utxo_state_empty.
  - rewrite (branch_state_cons s h n) by done. intros Hst. apply bind_Ok in Hst as (st1 & Hst1 & Hr).
    unfold run_state in Hr. destruct (replay_block (h, n) st1) as [[[]|e] st2] eqn:Hrep; simplify_eq.
    rewrite branch_txs_cons. eapply replay_block_spec; eauto.
Qed.

(** ** Supply *)

(** Two stored transactions with different content and the same txid. *)
Definition txid_collision (s : ForkChainStore) : Prop :=
  exists h1 n1 tx1 h2 n2 tx2,
    fcs_blocks s !! h1 = Some n1 /\ tx1 ∈ bk_txdata (bn_block n1) /\
    fcs_blocks s !! h2 = Some n2 /\ tx2 ∈ bk_txdata (bn_block n2) /\
    strip_witness tx1 <> strip_witness tx2 /\ compute_txid tx1 = compute_txid tx2.

Definition issued (l : list (BlockHash * BlockNode)) : N :=
  sum_N (map (fun e => block_subsidy_sats (bn_height e.2)) l).

Lemma check_block_shape_Ok b cb :
  check_block_shape b = Ok cb ->
  weight_of_block b <= MAX_BLOCK_WEIGHT /\ is_coinbase cb = true /\
  exists txs, bk_txdata b = cb :: txs.
Proof.
  unfold check_block_shape. intros Hc. case_match; bool_inv; [done|]. chain_inv. bool_inv. subst.
  split_and!; [lia|done|]. destruct (bk_txdata b); simplify_eq/=. eauto.
Qed.

Lemma reward_Ok cb ht fees :
  validate_coinbase_reward cb ht fees = Ok tt -> outputs_total (tx_output cb) <= block_subsidy_sats ht + fees.
Proof.
  unfold validate_coinbase_reward. intros Hr. apply bind_Ok in Hr as (total & Ht & Hr).
  apply (outputs_fold (f := add_coinbase_output) _ _ _ add_coinbase_output_Ok) in Ht.
  apply bind_Ok in Hr as (allowed & Ha & Hr). apply with_context_Ok, checked_add_Some in Ha as [-> _].
  case_match; bool_inv; [done|]. lia.
Qed.

(** The two shapes of a valid block: coinbase only before the activation height,
    and validated on the state of its branch from then on. *)
Lemma validate_block_transactions_Ok s b ht c cb txs fees :
  bk_txdata b = cb :: txs -> validate_block_transactions s b ht c = Ok fees ->
  (transactions_active_at s ht = false /\ txs = [] /\ fees = 0) \/
  (transactions_active_at s ht = true /\ Forall (fun tx => is_coinbase tx = false) txs /\
   exists st st', branch_state s c = Ok st /\ apply_block s ht cb txs st = (Ok fees, st')).
Proof.
  unfold validate_block_transactions. intros Hb. destruct (transactions_active_at s ht); cbn [negb]; intros Hv.
  - right. split; [done|]. apply bind_Ok in Hv as (u & _ & Hv). case_match; [done|]. case_match eqn:Hex; [done|].
    rewrite Hb in *. cbn [drop head] in *. rewrite drop_0 in *. apply bind_Ok in Hv as (cb' & [= <-]%expect_Ok & Hv).
    apply bind_Ok in Hv as (st & Hst & Hv). destruct (apply_block _ _ _ _ st) as [r st'] eqn:Ha. simpl in Hv. subst.
    split; [|by eexists _, _]. apply Forall_forall. intros tx Htx.
    destruct (is_coinbase tx) eqn:Hcb; [|done]. exfalso. enough (existsb is_coinbase txs = true) by congruence.
    apply existsb_exists. exists tx. by rewrite <-list_elem_of_In.
  - left. rewrite Hb in Hv. destruct txs; simpl in Hv; [|done]. naive_solver.
Qed.

Section supply.
Context `{!TxLaws} (s : ForkChainStore) (Hok : nodes_ok s) (Hrules : rules_ok s).

Lemma stored_height h n : fcs_blocks s !! h = Some n -> bn_height n < 2 ^ 64.
Proof.
  intros Hn. destruct (no_valid _ _ _ (Hok _ _ Hn)) as (? & ? & ? & ? & ? & ? & [_ Hp _ _ _ _ _ _ _ _ _ _ _]).
  revert Hp. unfold block_parent. case_match; intros Hp; chain_inv.
  - rewrite <-Hp. destruct Hrules as [Hm _]. by apply fa_validate_facts in Hm as (_ & ? & _).
  - rewrite <-Hp.
    match goal with Hc : checked_add _ _ _ = Some _ |- _ => by apply checked_add_Some in Hc as [-> ?] end.
Qed.

(** The coinbase of a stored block and its only one. *)
Lemma stored_coinbase h n :
  fcs_blocks s !! h = Some n ->
  exists cb txs, bk_txdata (bn_block n) = cb :: txs /\ is_coinbase cb = true /\
    validate_coinbase_height cb (bn_height n) = Ok tt /\
    forall tx, tx ∈ bk_txdata (bn_block n) -> is_coinbase tx = true -> tx = cb.
Proof.
  intros Hn. destruct (no_valid _ _ _ (Hok _ _ Hn)) as (now & cb & w & nx & mtp & fees & Hv).
  destruct Hv as [Hshape _ _ _ _ _ _ _ _ _ Htxs Hheight _].
  apply check_block_shape_Ok in Hshape as (_ & Hcb & txs & Hb). exists cb, txs. split_and!; try done.
  intros tx. rewrite Hb. intros [->|Htx]%elem_of_cons Htc; [done|].
  destruct (validate_block_transactions_Ok _ _ _ _ _ _ _ Hb Htxs) as [(_ & -> & _)|(_ & Hall & _)].
  - by apply not_elem_of_nil in Htx.
  - rewrite Forall_forall in Hall. by rewrite Hall in Htc.
Qed.

(** A coinbase repeats an earlier txid only by a collision of txids. *)
Lemma coinbase_repeat_collides h n cb h' n' tx :
  fcs_blocks s !! h = Some n -> cb ∈ bk_txdata (bn_block n) -> is_coinbase cb = true ->
  fcs_blocks s !! h' = Some n' -> tx ∈ bk_txdata (bn_block n') -> bn_height n' <> bn_height n ->
  compute_txid tx = compute_txid cb -> txid_collision s.
Proof.
  intros Hn Hcb Hc Hn' Htx Hht Heq. exists h, n, cb, h', n', tx. split_and!; try done. intros Hs.
  pose proof (f_equal is_coinbase Hs) as Hsc. rewrite !is_coinbase_strip, Hc in Hsc.
  destruct (stored_coinbase h n Hn) as (cb1 & ? & _ & _ & Hv1 & Hu1).
  destruct (stored_coinbase h' n' Hn') as (cb2 & ? & _ & _ & Hv2 & Hu2).
  rewrite <-(Hu1 cb Hcb Hc) in Hv1. rewrite <-(Hu2 tx Htx (eq_sym Hsc)) in Hv2.
  apply Hht. eapply coinbase_height_unique; [by eapply stored_height|by eapply stored_height|done..|].
  apply (f_equal (map in_script_sig ∘ tx_input)) in Hs. simpl in Hs. rewrite !map_map in Hs. by symmetry.
Qed.

(** A block that holds its coinbase only. *)
Lemma replay_coinbase h n cb l st :
  fcs_blocks s !! h = Some n -> branch s (parent_of s n) l -> branch_state s (parent_of s n) = Ok st ->
  bk_txdata (bn_block n) = [cb] -> is_coinbase cb = true ->
  weight_of_block (bn_block n) <= MAX_BLOCK_WEIGHT ->
  txid_collision s \/
  exists st', replay_block (h, n) st = (Ok tt, st') /\
    utxo_total (bs_utxos st') = utxo_total (bs_utxos st) + outputs_total (tx_output cb).
Proof.
  intros Hn Hl Hst Hb Hcb Hw. pose proof (branch_state_spec _ _ _ _ Hok Hl Hst) as Hus.
  assert (cb ∈ bk_txdata (bn_block n)) as Hin by (rewrite Hb; apply list_elem_of_here).
  unfold replay_block; simpl. rewrite Hb. cbn [for_each]. rewrite M_bind_run.
  unfold replay_transaction. rewrite M_bind_run, insert_txid_run, Hcb. case_bool_decide as Hfresh.
  - left. rewrite (us_txids _ _ _ Hus), elem_of_list_to_set, list_elem_of_fmap in Hfresh.
    destruct Hfresh as ([ht tx] & Heq & Htx). unfold branch_txs in Htx. apply list_elem_of_bind in Htx as ([h' n'] & Htx & He).
    apply list_elem_of_fmap in Htx as (tx' & [= -> ->] & Htx). apply list_elem_of_In, in_rev, list_elem_of_In in He.
    pose proof (branch_stored _ _ _ _ _ Hl He) as Hn'. simpl in *.
    eapply (coinbase_repeat_collides h n cb h' n' tx'); try done.
    destruct (parent_of s n) as [p|] eqn:Hp; [|by inversion Hl; subst; apply not_elem_of_nil in He].
    pose proof (parent_height s Hok h n Hn) as Hh. rewrite Hp in Hh. destruct Hh as (np & Hnp & Hh).
    apply list_elem_of_lookup in He as [i Hi]. pose proof (branch_heights s Hok _ _ _ _ _ _ Hl Hnp Hi). lia.
  - right. cbn [negb]. rewrite M_bind_run. unfold mret, M_ret.
    destruct (add_outputs_total cb (bn_height n) (tx_output cb) 0
      (with_txids ({[compute_txid cb]} ∪ bs_txids st) st)) as [st' Hadd].
    { pose proof (weight_block_outputs _ _ Hin). unfold MAX_BLOCK_WEIGHT in Hw. lia. }
    { intros v _. apply eq_None_not_Some. intros Hs. apply Hfresh.
      apply (utxo_state_cover _ _ _ Hus (compute_txid cb, v) Hs). }
    unfold with_txids in Hadd. unfold add_transaction_outputs. rewrite Hadd. exists st'. split; [done|].
    by apply add_outputs_run in Hadd as (_ & ? & _).
Qed.

(** Every branch of stored blocks has a UTXO set, worth at most its subsidies. *)
Lemma branch_supply c l :
  branch s c l ->
  txid_collision s \/ exists st, branch_state s c = Ok st /\ utxo_total (bs_utxos st) <= issued l.
Proof.
  induction 1 as [|h n l Hn Hl IH].
  { right. exists empty_branch. by rewrite branch_state_nil. }
  destruct IH as [?|(st & Hst & Htot)]; [by left|].
  destruct (no_valid _ _ _ (Hok _ _ Hn)) as (now & cb & w & nx & mtp & fees & Hv).
  destruct Hv as [Hshape _ _ _ _ _ _ _ _ _ Htxs _ Hreward%reward_Ok].
  apply check_block_shape_Ok in Hshape as (Hw & Hcb & txs & Hb).
  assert (issued ((h, n) :: l) = block_subsidy_sats (bn_height n) + issued l) as -> by done.
  rewrite (branch_state_cons s h n), Hst by done. cbn [mbind result_bind].
  destruct (validate_block_transactions_Ok _ _ _ _ _ _ _ Hb Htxs) as [(_ & -> & ->)|(_ & _ & st0 & st' & Hst0 & Ha)].
  - destruct (replay_coinbase h n cb l st) as [?|(st' & Hr & Ht)]; try done; [by left|right].
    exists st'. unfold run_state. rewrite Hr. split; [done|]. lia.
  - right. rewrite Hst in Hst0. injection Hst0 as <-. apply (apply_block_Ok _ _ h) in Ha as [Ht Hr]; [|done].
    exists st'. unfold run_state, replay_block. cbn [fst snd]. rewrite Hb, Hr. split; [done|]. lia.
Qed.

Lemma issued_subsidies h n l :
  fcs_blocks s !! h = Some n -> branch s (Some h) l -> issued l = subsidies (first_height s) (length l).
Proof.
  intros Hn Hb. destruct (branch_exists s Hok h n Hn) as (l' & Hl' & Hlen).
  assert (l' = l) as -> by (by eapply fork_branch_det). clear Hl'.
  remember (Some h) as c eqn:Hc. revert h n Hc Hn Hlen. induction Hb as [|h0 n0 l Hn0 Hl IH]; [done|].
  intros h n [= ->] Hn Hlen. assert (n0 = n) as -> by congruence. cbn [length] in *. rewrite subsidies_S.
  assert (issued ((h, n) :: l) = block_subsidy_sats (bn_height n) + issued l) as -> by done.
  replace (first_height s + N.of_nat (length l)) with (bn_height n) by lia.
  enough (issued l = subsidies (first_height s) (length l)) by lia.
  destruct (parent_of s n) as [p|] eqn:Hp; [|by inversion Hl].
  pose proof (parent_height s Hok h n Hn) as Hh. rewrite Hp in Hh. destruct Hh as (np & Hnp & Hh).
  eapply (IH p np); [done..|lia].
Qed.
End supply.

(** C7 (bounds). The UTXO set of every stored branch of the fork exists and is worth
    at most the subsidies of its blocks, hence less than the 21 million coins,
    unless two stored transactions of different content have the same txid. *)
Theorem fork_supply_bounded `{!TxLaws} s h n :
  reachable s -> fcs_blocks s !! h = Some n ->
  txid_collision s \/
  exists st, branch_state s (Some h) = Ok st /\
    utxo_total (bs_utxos st) <= subsidies (first_height s) (N.to_nat (bn_height n + 1 - first_height s)) /\
    utxo_total (bs_utxos st) <= MAX_MONEY_SATS.
Proof.
  intros Hr Hn. pose proof (co_nodes _ (reachable_ok _ Hr)) as Hok. pose proof (reachable_rules _ Hr) as Hrules.
  destruct (branch_exists s Hok h n Hn) as (l & Hl & Hlen).
  destruct (branch_supply s Hok Hrules _ _ Hl) as [?|(st & Hst & Htot)]; [by left|right].
  exists st. rewrite (issued_subsidies s Hok h n l Hn Hl) in Htot.
  pose proof (subsidies_bounded (first_height s) (length l)).
  replace (N.to_nat (bn_height n + 1 - first_height s)) with (length l) by lia. split_and!; [done..|lia].
Qed.

(** C3 (safety). On every stored branch of the fork no transaction id repeats, no
    output is spent twice, every input spends an output of an earlier transaction
    of the branch, and the UTXO set is exactly what was created and not spent,
    unless two stored transactions of different content have the same txid. *)
Theorem fork_utxo_exact `{!TxLaws} s h n :
  reachable s -> fcs_blocks s !! h = Some n ->
  txid_collision s \/
  exists l st, branch s (Some h) l /\ branch_state s (Some h) = Ok st /\
    NoDup (map (compute_txid ∘ snd) (branch_txs l)) /\ NoDup (spent (branch_txs l)) /\
    (forall L1 height tx L2 o, branch_txs l = L1 ++ (height, tx) :: L2 -> o ∈ spends_of tx ->
       exists x, created L1 o x) /\
    (forall o x, bs_utxos st !! o = Some x <-> created (branch_txs l) o x /\ o ∉ spent (branch_txs l)).
Proof.
  intros Hr Hn. pose proof (co_nodes _ (reachable_ok _ Hr)) as Hok. pose proof (reachable_rules _ Hr) as Hrules.
  destruct (branch_exists s Hok h n Hn) as (l & Hl & _).
  destruct (branch_supply s Hok Hrules _ _ Hl) as [?|(st & Hst & _)]; [by left|right].
  exists l, st. destruct (branch_state_spec s _ l st Hok Hl Hst) as [_ Hnd Hu Hs _ Hord].
  setoid_rewrite app_nil_r in Hu. rewrite app_nil_r in Hs. by split_and!.
Qed.
End utxo.

(** ** The sample chain *)

Lemma tx_laws_c : @TxLaws secp_c fork_crate_c.
Proof.
  split.
  - intros tx. cbn. by rewrite map_map.
  - intros tx. cbn. unfold sample_weight. lia.
  - intros b tx Htx. cbn. assert (sample_weight tx <= sum_N (map sample_weight (bk_txdata b))) as Hs
      by (apply sum_N_elem, list_elem_of_fmap; by exists tx).
    unfold sample_weight in Hs at 1. lia.
Qed.

Lemma fork_supply_bounded_witness : exists s h n,
  reachable_c s /\ fcs_blocks s !! h = Some n /\
  (@txid_collision secp_c fork_crate_c s \/
   exists st, @branch_state secp_c fork_crate_c s (Some h) = Ok st /\ utxo_total (bs_utxos st) <= MAX_MONEY_SATS).
Proof.
  destruct (sample_block_stored ["01"; "02"; "03"] 2) as (s & n & Hr & Hn); [vm_compute; reflexivity|].
  exists s, 2, n. split; [exact Hr|]. split; [exact Hn|].
  destruct (@fork_supply_bounded hashing_c secp_c bitcoin_c fork_crate_c clock_c tx_laws_c s 2 n Hr Hn)
    as [Hc|(st & Hst & _ & Hb)]; [left; exact Hc|right]. exists st. split; [exact Hst|exact Hb].
Defined.

Lemma fork_utxo_exact_witness : exists s h n,
  reachable_c s /\ fcs_blocks s !! h = Some n /\
  (@txid_collision secp_c fork_crate_c s \/
   exists l, branch s (Some h) l /\ NoDup (@spent secp_c fork_crate_c (branch_txs l))).
Proof.
  destruct (sample_block_stored ["01"; "02"; "03"] 2) as (s & n & Hr & Hn); [vm_compute; reflexivity|].
  exists s, 2, n. split; [exact Hr|]. split; [exact Hn|].
  destruct (@fork_utxo_exact hashing_c secp_c bitcoin_c fork_crate_c clock_c tx_laws_c s 2 n Hr Hn)
    as [Hc|(l & st & Hl & _ & _ & Hs & _)]; [left; exact Hc|right]. exists l. split; [exact Hl|exact Hs].
Defined.
