(* ===== verification/ForkChainReplay.v ===== *)
(** * Agreement on the active chain and the replay of the block log

    Nodes that hold the same blocks follow the same chain with the same indexes,
    and a node that restarts rebuilds its chain from its block log. *)
From S2P Require Import Prelude Order Text Crates Concrete Fork ForkChain ForkSample ForkChainInv.

Local Open Scope N_scope.

(** Documented behaviour: a printed hash determines the hash. *)
Class HashText `{ForkCrate} : Prop := hash_to_string_inj : Inj (=) (=) hash_to_string.

Section agreement.
Context `{Hashing, Secp256k1, BitcoinCrate, !ForkCrate, ChainClock, !HashText}.

Lemma tip_cmp_Eq (a b : BlockHash * BlockNode) : tip_cmp a b = Eq -> a.1 = b.1.
Proof.
  unfold tip_cmp. destruct (_ ?= _); simpl; [|done..]. rewrite str_cmp_Eq. apply hash_to_string_inj.
Qed.

Lemma best_tip_unique s s' :
  fcs_blocks s' = fcs_blocks s -> best_tip s -> best_tip s' -> fcs_active_tip s' = fcs_active_tip s.
Proof.
  unfold best_tip. intros ->. destruct (fcs_active_tip s) as [t|], (fcs_active_tip s') as [t'|]; try done.
  - intros (n & Hn & Hle) (n' & Hn' & Hle'). f_equal. symmetry. apply (tip_cmp_Eq (t, n) (t', n')).
    apply cmp_le_antisym; [apply _|by apply Hle|by apply Hle'].
  - intros (n & Hn & _) He. by rewrite He in Hn.
  - intros He (n & Hn & _). by rewrite He in Hn.
Qed.

(** Stores of nodes with the same rules and the same blocks. *)
Record same_blocks (s s' : ForkChainStore) : Prop := {
  same_manifest : fcs_manifest s' = fcs_manifest s;
  same_upgrade : fcs_transaction_upgrade s' = fcs_transaction_upgrade s;
  same_inherited : fcs_inherited_tip_hash s' = fcs_inherited_tip_hash s;
  same_stored : fcs_blocks s' = fcs_blocks s
}.

Lemma same_blocks_extends s s' : same_blocks s s' -> extends s s'.
Proof. intros []. split; try done. by rewrite same_stored0. Qed.

Lemma same_blocks_sym s s' : same_blocks s s' -> same_blocks s' s.
Proof. intros []. by split. Qed.

(** The indexes are a function of the stored blocks. *)
Lemma indexes_agree s s' :
  same_blocks s s' -> fcs_active_tip s' = fcs_active_tip s -> height_indexed s -> height_indexed s' ->
  fcs_active_by_height s' = fcs_active_by_height s.
Proof.
  intros Hs Ht (l & Hl & ->) (l' & Hl' & ->). f_equal. apply (branch_extends s s') in Hl; [|by apply same_blocks_extends].
  rewrite Ht in Hl'. by eapply fork_branch_det.
Qed.

Lemma indexed_height s : indexed s -> height_indexed s.
Proof. intros (l & ? & ? & _). by exists l. Qed.

Lemma explorers_agree s s' :
  same_blocks s s' -> fcs_active_by_height s' = fcs_active_by_height s -> indexed s ->
  build_explorer_index s' = Ok (fcs_explorer s).
Proof.
  intros Hs Ha (l & _ & _ & He). eapply explorer_extends; [|done..]. by apply same_blocks_extends.
Qed.

(** [stored_block_order] and the active tip follow from the blocks. *)
Lemma order_agree s s' :
  same_blocks s s' -> order_ok s -> order_ok s' -> fcs_stored_block_order s' = fcs_stored_block_order s.
Proof.
  intros [_ _ _ Hb] Ho Ho'. apply set_eq. intros [height h]. rewrite (Ho height h), (Ho' height h). by rewrite Hb.
Qed.

(** C14 (safety). The active tip of a node has the most cumulative work of all its
    blocks and, among those, the smallest hash text; and two nodes with the same
    rules that hold the same blocks have the same active tip and, once their
    indexes are built, the same active block at every height and the same explorer. *)
Theorem fork_chain_agreed s s' :
  reachable s -> reachable s' -> same_blocks s s' ->
  best_tip s /\ fcs_active_tip s' = fcs_active_tip s /\
  fcs_stored_block_order s' = fcs_stored_block_order s /\
  (indexed s -> indexed s' ->
   fcs_active_by_height s' = fcs_active_by_height s /\ fcs_explorer s' = fcs_explorer s).
Proof.
  intros Hr%reachable_ok Hr'%reachable_ok Hs. split; [apply Hr|].
  assert (fcs_active_tip s' = fcs_active_tip s) as Ht by (apply best_tip_unique; [apply Hs|apply Hr|apply Hr']).
  split; [done|]. split; [by apply order_agree; [|apply Hr|apply Hr']|]. intros Hi Hi'.
  assert (fcs_active_by_height s' = fcs_active_by_height s) as Ha by (by apply indexes_agree; auto using indexed_height).
  split; [done|]. destruct Hi' as (l & _ & _ & He'). rewrite (explorers_agree s s') in He' by done. congruence.
Qed.

(** ** Replay *)

(** Two stores at the same point of a replay. *)
Record same_replay (s s' : ForkChainStore) : Prop := {
  rp_ok : chain_ok s; rp_ok' : chain_ok s';
  rp_indexed : indexed s; rp_indexed' : indexed s';
  rp_blocks : same_blocks s s';
  rp_locations : fcs_transaction_locations s' = fcs_transaction_locations s
}.

Lemma same_blocks_insert h n s s' s1 s1' :
  same_blocks s s' -> stored_block h n s s1 -> stored_block h n s' s1' -> same_blocks s1 s1'.
Proof.
  intros [] [? [] ? ? ? ? ?] [? [] ? ? ? ? ?]. split; congruence.
Qed.

Lemma store_block_replay h n s s' s1 :
  same_replay s s' -> fcs_blocks s !! h = None -> node_ok s h n -> store_block h n s = (Ok tt, s1) ->
  exists s1', store_block h n s' = (Ok tt, s1') /\ same_replay s1 s1'.
Proof.
  intros [Hok Hok' Hi Hi' Hs Hl] Hh Hn Hst. apply store_block_spec in Hst as (Hsb & Hhi & Hidx); try done.
  destruct (store_block h n s') as [r s1'] eqn:Hst'.
  apply store_block_spec in Hst' as (Hsb' & Hhi' & Hidx'); try done;
    [|by rewrite (same_stored _ _ Hs)|eapply node_ok_extends; [by apply same_blocks_extends|done]].
  specialize (Hidx Hi). specialize (Hhi' (indexed_height _ Hi')).
  pose proof (same_blocks_insert _ _ _ _ _ _ Hs Hsb Hsb') as Hs1.
  assert (fcs_active_tip s1' = fcs_active_tip s1) as Ht.
  { apply best_tip_unique; [apply Hs1|apply Hsb|apply Hsb']. }
  assert (fcs_active_by_height s1' = fcs_active_by_height s1) as Ha by (apply indexes_agree; auto using indexed_height).
  pose proof (explorers_agree s1 s1' Hs1 Ha Hidx) as He.
  destruct r as [[]|e]; [|congruence]. exists s1'. split; [done|]. split; try done.
  - apply Hsb. - apply Hsb'. - by apply Hidx'.
  - rewrite (sb_locations _ _ _ _ Hsb), (sb_locations _ _ _ _ Hsb'). by rewrite Hl.
Qed.

(** The time a replay uses accepts every block accepted before. *)
Lemma valid_at_replay s n now cb w nx mtp fees :
  valid_node s n now cb w nx mtp fees ->
  valid_node s n (2 ^ 64 - 1 - MAX_FUTURE_BLOCK_SECONDS) cb w nx mtp fees.
Proof.
  intros []. split; try done. unfold MAX_FUTURE_BLOCK_SECONDS in *. lia.
Qed.

(** Replaying the record of a valid new block. *)
Lemma replay_record_run i s n s1 :
  fcs_blocks s !! block_hash_of (bk_header (bn_block n)) = None ->
  node_ok s (block_hash_of (bk_header (bn_block n))) n ->
  store_block (block_hash_of (bk_header (bn_block n))) n s = (Ok tt, s1) ->
  replay_record (i, log_record s n) s = (Ok tt, s1).
Proof.
  intros Hh [_ Htext Hdec (now & cb & w & nx & mtp & fees & Hv)] Hst. unfold replay_record, log_record.
  cbn [br_schema_version br_activation_id br_block_hex].
  rewrite M_bind_run. unfold gets at 1. rewrite N.eqb_refl. cbn [negb]. rewrite bool_decide_false by auto.
  rewrite M_bind_run. unfold lift at 1. rewrite Htext. rewrite M_bind_run. unfold lift at 1. rewrite Hdec.
  rewrite M_bind_run. unfold gets at 1. rewrite Hh. rewrite M_bind_run. unfold asks at 1.
  assert (validate_block s (bn_block n) (bn_block_hex n) (2 ^ 64 - 1 - MAX_FUTURE_BLOCK_SECONDS) = Ok n) as ->; [|done].
  apply validate_block_Ok. eauto 10 using valid_at_replay.
Qed.

(** A successful line of the log does the same on a store with the same blocks. *)
Lemma replay_record_same entry s s' s1 :
  same_replay s s' -> replay_record entry s = (Ok tt, s1) ->
  exists s1', replay_record entry s' = (Ok tt, s1') /\ same_replay s1 s1'.
Proof.
  intros Hrep. destruct entry as [i record]. unfold replay_record, gets, lift, asks. rewrite !M_bind_run.
  rewrite (same_manifest _ _ (rp_blocks _ _ Hrep)). do 2 (case_match; [done|]).
  rewrite !M_bind_run. destruct (normalize_block_hex _) as [hex|] eqn:Hnorm; [|done].
  rewrite !M_bind_run. destruct (decode_block hex) as [b|] eqn:Hdec; [|done].
  rewrite !M_bind_run, (same_stored _ _ (rp_blocks _ _ Hrep)).
  destruct (fcs_blocks s !! _) eqn:Hex; [done|]. rewrite !M_bind_run.
  destruct (validate_block s b hex _) as [n|] eqn:Hv; [|done].
  pose proof (validated_node_ok _ _ _ _ _ _ Hnorm Hdec Hv) as Hn.
  pose proof Hv as (<- & <- & cb & w & nx & mtp & fees & Hval)%validate_block_Ok.
  apply (extends_valid s s') in Hval; [|by apply same_blocks_extends, (rp_blocks _ _ Hrep)].
  rewrite (proj2 (validate_block_Ok s' _ _ _ n)) by eauto 10. intros Hst. by eapply store_block_replay.
Qed.

Lemma replay_same L s s' s1 :
  same_replay s s' -> for_each replay_record L s = (Ok tt, s1) ->
  exists s1', for_each replay_record L s' = (Ok tt, s1') /\ same_replay s1 s1'.
Proof.
  revert s s'. induction L as [|e L IH]; intros s s' Hrep; cbn [for_each].
  - intros [= <-]. by exists s'.
  - rewrite M_bind_run. destruct (replay_record e s) as [[[]|err] s2] eqn:Hr; [|done]. intros Hrun.
    destruct (replay_record_same _ _ _ _ Hrep Hr) as (s2' & Hr' & Hrep'). rewrite M_bind_run, Hr'. eauto.
Qed.

Lemma same_replay_sym s s' : same_replay s s' -> same_replay s' s.
Proof. intros []. split; try done. by apply same_blocks_sym. Qed.

Lemma same_replay_trans s1 s2 s3 : same_replay s1 s2 -> same_replay s2 s3 -> same_replay s1 s3.
Proof. intros [? ? ? ? [] ?] [? ? ? ? [] ?]. split; try done; [split|]; congruence. Qed.

(** Stores on the way to which every index rebuild succeeded. *)
Inductive steady : ForkChainStore -> Prop :=
| steady_open manifest upgrade log s :
    open_with_transaction_upgrade manifest upgrade log = Ok s -> steady s
| steady_block s hex now r s' :
    steady s -> submit_block_at_time hex now s = (r, s') -> indexed s' -> steady s'
| steady_transaction s hex r s' : steady s -> submit_transaction hex s = (r, s') -> steady s'.

Lemma steady_reachable s : steady s -> reachable s.
Proof. induction 1; [by eapply reach_open|by eapply reach_block|by eapply reach_transaction]. Qed.

Lemma same_replay_other s s' :
  chain_ok s -> indexed s -> same_tree s s' -> fcs_active_by_height s' = fcs_active_by_height s ->
  fcs_explorer s' = fcs_explorer s -> same_replay s s'.
Proof.
  intros Hok Hi Hs Ha He. pose proof (chain_ok_same _ _ Hs Hok). pose proof (same_tree_extends _ _ Hs) as Hext.
  destruct Hs as [Hm Hu Hin Hb Ht Ho Hlo]. split; try done. destruct Hi as (l & Hl & Hal & Hex).
  exists l. rewrite Ht, Ha, He.
  split; [by eapply branch_extends|]. split; [done|]. by eapply explorer_extends.
Qed.

Lemma submit_ok_indexed s hex now a s' :
  chain_ok s -> indexed s -> submit_block_at_time hex now s = (Ok a, s') -> indexed s'.
Proof.
  intros Hok Hi Hs. apply submit_block_step in Hs as [->|h n s1 r1 Hh Hn Hst Hm%maybe_revalidated_only Herr]; [done|].
  destruct r1 as [u|e]; [|by destruct (Herr eq_refl)]. eapply mempool_only_indexed; [done|].
  apply store_block_spec in Hst as (_ & _ & Hidx); [|by apply (chain_ok_same s)|done|by apply (node_ok_extends s)].
  apply Hidx. destruct Hi as (l & Hl & Ha & He). exists l. split; [by apply (branch_extends s)|].
  split; [done|]. by apply (explorer_extends s).
Qed.

Lemma steady_indexed s : steady s -> indexed s.
Proof.
  induction 1 as [m u log s Ho|s hex now r s' _ _ _ Hi|s hex r s' _ IH Hsub]; [by apply open_ok in Ho as (_ & ? & _)|done|].
  eapply mempool_only_indexed; [by eapply submit_transaction_only|done].
Qed.

(** Accepted and duplicate blocks keep a node steady. *)
Lemma steady_accept s hex now a s' : steady s -> submit_block_at_time hex now s = (Ok a, s') -> steady s'.
Proof.
  intros Hs Hsub. eapply steady_block; [done..|].
  eapply submit_ok_indexed; [by apply reachable_ok, steady_reachable|by apply steady_indexed|done].
Qed.

(** The log of [s] replays, from an empty store, to a store like [s]. *)
Definition log_replays (s : ForkChainStore) : Prop :=
  fc_inherited_utxo_spending_enabled (fa_config (fcs_manifest s)) = false /\
  hash_from_str (fp_inherited_tip_hash (fa_fork_point (fcs_manifest s))) = Some (fcs_inherited_tip_hash s) /\
  exists s0,
    for_each replay_record (imap pair (fcs_log s))
      (new_store (fcs_manifest s) (fcs_transaction_upgrade s) (fcs_inherited_tip_hash s) (fcs_log s)) = (Ok tt, s0) /\
    same_replay s0 s.

Lemma new_store_same m u t log log' : same_replay (new_store m u t log) (new_store m u t log').
Proof. apply same_replay_other; [apply chain_ok_new|apply indexed_new|done..]. Qed.

Lemma log_replays_snoc s h n s1 :
  log_replays s -> fcs_blocks s !! h = None -> node_ok s h n ->
  store_block h n (set_log (fcs_log s ++ [log_record s n]) s) = (Ok tt, s1) -> log_replays s1.
Proof.
  intros (Hinh & Htip & s0 & Hrun & Hrep) Hh Hn Hst. set (sl := set_log _ s) in *.
  assert (same_replay s sl) as Hsl by (apply same_replay_other; [apply Hrep|apply Hrep|done..]).
  destruct (replay_same _ _ _ _ (new_store_same _ _ _ _ (fcs_log sl)) Hrun) as (s0' & Hrun' & Hrep').
  assert (same_replay sl s0') as Hsl'.
  { apply same_replay_sym. eapply same_replay_trans; [apply same_replay_sym, Hrep'|].
    exact (same_replay_trans _ _ _ Hrep Hsl). }
  assert (node_ok sl h n) as Hnl by (by apply (node_ok_extends s)).
  destruct (store_block_replay h n sl s0' s1 Hsl' Hh Hnl Hst) as (s1' & Hst' & Hrep1).
  pose proof (no_hash _ _ _ Hn) as ->.
  apply store_block_spec in Hst as ([_ [Hm Hu Hi _] _ _ _ _ Hlog] & _); [|apply Hsl|done..].
  unfold log_replays. rewrite Hm, Hu, Hi, Hlog. split_and!; try done. exists s1'.
  split; [|by apply same_replay_sym].
  change (fcs_log sl) with (fcs_log s ++ [log_record s n]) in *. rewrite imap_app, for_each_app, M_bind_run.
  change (fcs_manifest sl) with (fcs_manifest s). change (fcs_transaction_upgrade sl) with (fcs_transaction_upgrade s).
  change (fcs_inherited_tip_hash sl) with (fcs_inherited_tip_hash s).
  rewrite Hrun'. cbn [imap for_each]. rewrite M_bind_run.
  assert (log_record s n = log_record s0' n) as ->.
  { unfold log_record. by rewrite (same_manifest _ _ (rp_blocks _ _ Hsl')). }
  rewrite (replay_record_run _ s0' n s1'); try done.
  - by rewrite (same_stored _ _ (rp_blocks _ _ Hsl')).
  - eapply node_ok_extends; [by apply same_blocks_extends, (rp_blocks _ _ Hsl')|done].
Qed.

Lemma log_replays_mempool s s' : mempool_only s s' -> log_replays s -> log_replays s'.
Proof.
  intros (m & b & ->) (Hinh & Htip & s0 & Hrun & Hrep). split; [done|]. split; [done|]. exists s0. split; [done|].
  eapply same_replay_trans; [done|]. apply same_replay_other; [apply Hrep|apply Hrep|done..].
Qed.

Lemma steady_replays s : steady s -> log_replays s.
Proof.
  induction 1 as [m u log s Ho|s hex now r s' Hs IH Hsub Hidx|s hex r s' _ IH Hsub].
  - pose proof (open_ok _ _ _ _ Ho) as (Hc & Hi & <- & <- & _ & _ & <- & _).
    unfold open_with_transaction_upgrade in Ho. apply bind_Ok in Ho as ([] & _ & Ho). case_match eqn:Hinh; [done|].
    apply bind_Ok in Ho as ([] & _ & Ho). apply bind_Ok in Ho as (t & Ht%with_context_Ok & Ho).
    unfold run_state, replay_block_log in Ho. rewrite M_bind_run in Ho. unfold gets in Ho.
    destruct (for_each _ _ _) as [[[]|e] s1] eqn:Hr in Ho; [|done]. injection Ho as ->. simpl in Hr.
    destruct (replay_ok _ _ _ _ _ Hr) as (_ & _ & [_ _ Hin _] & _). simpl in Hin. split_and!; try done.
    + by rewrite Hin.
    + exists s. rewrite Hin. split; [done|]. by apply same_replay_other.
  - apply submit_block_step in Hsub as [->|h n s1 r1 Hh Hn Hst Hm%maybe_revalidated_only Herr]; [done|].
    destruct r1 as [[]|e].
    + eapply log_replays_mempool; [done|]. by eapply log_replays_snoc.
    + destruct (Herr eq_refl) as [-> _]. apply store_block_spec in Hst as (_ & _ & He); try done.
      * destruct Hidx as (l & _ & _ & He'). congruence.
      * eapply (chain_ok_same s); [done|]. by apply reachable_ok, steady_reachable.
      * by apply (node_ok_extends s).
  - eapply log_replays_mempool; [by eapply submit_transaction_only|done].
Qed.

(** C11 (refinement). Restart: opening a node on the block log of a running node whose
    index rebuilds all succeeded gives the same blocks, active tip, height index,
    block order, transaction locations and explorer, with an empty mempool. *)
Theorem reopen_reproduces_chain s :
  steady s ->
  exists s0, open_with_transaction_upgrade (fcs_manifest s) (fcs_transaction_upgrade s) (fcs_log s) = Ok s0 /\
    same_tree s s0 /\ fcs_active_by_height s0 = fcs_active_by_height s /\ fcs_explorer s0 = fcs_explorer s /\
    fcs_mempool s0 = ∅ /\ fcs_log s0 = fcs_log s.
Proof.
  intros Hs. destruct (steady_replays s Hs) as (Hinh & Htip & s0 & Hrun & Hrep).
  destruct (reachable_rules _ (steady_reachable _ Hs)) as [Hv Hu].
  destruct (replay_ok _ _ _ _ _ Hrun) as (_ & _ & _ & Hmp & _ & Hlog).
  exists s0. split.
  { unfold open_with_transaction_upgrade. rewrite Hv. cbn [mbind result_bind map_err]. rewrite Hinh.
    assert (match fcs_transaction_upgrade s with None => Ok tt | Some u =>
      map_err (fun _ => Bail "fork transaction upgrade does not match the activation manifest")
        (validate_for u (fcs_manifest s)) end = Ok tt) as ->.
    { destruct (fcs_transaction_upgrade s) as [u|]; [|done]. by rewrite (Hu u eq_refl). }
    cbn [mbind result_bind]. rewrite Htip. cbn [with_context ok_or mbind result_bind].
    unfold run_state, replay_block_log. rewrite M_bind_run. unfold gets. simpl fcs_log. by rewrite Hrun. }
  pose proof (same_blocks_sym _ _ (rp_blocks _ _ Hrep)) as Hb.
  assert (fcs_active_tip s0 = fcs_active_tip s) as Ht.
  { apply best_tip_unique; [apply Hb|apply Hrep|apply Hrep]. }
  assert (fcs_active_by_height s0 = fcs_active_by_height s) as Ha.
  { apply indexes_agree; try done; apply indexed_height, Hrep. }
  assert (fcs_stored_block_order s0 = fcs_stored_block_order s) as Ho by (apply order_agree; [done|apply Hrep|apply Hrep]).
  assert (fcs_explorer s0 = fcs_explorer s) as He.
  { pose proof (explorers_agree s s0 Hb Ha (rp_indexed' _ _ Hrep)) as He.
    destruct (rp_indexed _ _ Hrep) as (l & _ & _ & He'). congruence. }
  split_and!; try done. destruct Hb. split; try done. by rewrite (rp_locations _ _ Hrep).
Qed.
End agreement.

(** ** The sample chain *)

Lemma hash_text_c : @HashText secp_c fork_crate_c.
Proof. intros x y Heq. cbn in Heq. by apply (inj pretty) in Heq. Qed.

#[global] Instance same_blocks_dec s s' : Decision (same_blocks s s').
Proof.
  refine (cast_if_and4 (decide (fcs_manifest s' = fcs_manifest s))
            (decide (fcs_transaction_upgrade s' = fcs_transaction_upgrade s))
            (decide (fcs_inherited_tip_hash s' = fcs_inherited_tip_hash s))
            (decide (fcs_blocks s' = fcs_blocks s))); (split || intros []; congruence).
Defined.

(** Two nodes that receive the rival blocks in opposite orders. *)
Lemma fork_chain_agreed_witness : exists s s',
  reachable_c s /\ reachable_c s' /\ same_blocks s s' /\ fcs_active_tip s' = fcs_active_tip s.
Proof.
  assert (match sample_store ["01"; "03"], sample_store ["03"; "01"] with
          | Ok s, Ok s' => bool_decide (same_blocks s s') | _, _ => false end = true) as Hrun
    by (vm_compute; reflexivity).
  destruct (sample_store ["01"; "03"]) as [s|] eqn:Hs; [|discriminate].
  destruct (sample_store ["03"; "01"]) as [s'|] eqn:Hs'; [|discriminate].
  apply bool_decide_eq_true_1 in Hrun. exists s, s'.
  assert (reachable_c s) as Hr by exact (sample_reachable _ _ Hs).
  assert (reachable_c s') as Hr' by exact (sample_reachable _ _ Hs').
  split; [exact Hr|]. split; [exact Hr'|]. split; [exact Hrun|].
  exact (proj1 (proj2 (@fork_chain_agreed hashing_c secp_c bitcoin_c fork_crate_c clock_c hash_text_c s s' Hr Hr' Hrun))).
Defined.

Fixpoint sample_all_ok (s : ForkChainStore) (blocks : list string) : bool :=
  match blocks with
  | [] => true
  | hex :: blocks' => is_ok (sample_submit s hex).1 && sample_all_ok (sample_submit s hex).2 blocks'
  end.

Abbreviation steady_c := (@steady hashing_c secp_c bitcoin_c fork_crate_c clock_c).

Lemma sample_run_steady blocks : forall s,
  steady_c s -> sample_all_ok s blocks = true -> steady_c (sample_run s blocks).
Proof.
  induction blocks as [|b blocks IH]; intros s Hs; cbn [sample_run sample_all_ok]; [done|].
  rewrite andb_true_iff. destruct (sample_submit s b) as [[a|e] s'] eqn:Hsub; cbn [fst snd is_ok]; intros [Ha Hall];
    [|discriminate]. apply IH; [|exact Hall]. eapply steady_accept; [exact Hs|exact Hsub].
Qed.

Lemma reopen_reproduces_chain_witness : exists s s0,
  fcs_active_tip s = Some 2 /\ length (fcs_log s) = 3%nat /\
  @open_with_transaction_upgrade hashing_c secp_c bitcoin_c fork_crate_c clock_c
    (fcs_manifest s) (fcs_transaction_upgrade s) (fcs_log s) = Ok s0 /\
  fcs_active_by_height s0 = fcs_active_by_height s.
Proof.
  assert (match sample_open with
          | Ok s => sample_all_ok s ["01"; "02"; "03"] &&
                    bool_decide (fcs_active_tip (sample_run s ["01"; "02"; "03"]) = Some 2) &&
                    Nat.eqb (length (fcs_log (sample_run s ["01"; "02"; "03"]))) 3
          | _ => false end = true) as Hrun by (vm_compute; reflexivity).
  destruct sample_open as [s|] eqn:Ho; [|discriminate].
  apply andb_true_iff in Hrun as [Hrun Hlen]. apply andb_true_iff in Hrun as [Hok Htip].
  apply bool_decide_eq_true_1 in Htip. apply Nat.eqb_eq in Hlen.
  assert (steady_c (sample_run s ["01"; "02"; "03"])) as Hs.
  { apply sample_run_steady; [|exact Hok]. eapply steady_open. exact Ho. }
  set (s1 := sample_run s ["01"; "02"; "03"]) in *. clearbody s1.
  destruct (@reopen_reproduces_chain hashing_c secp_c bitcoin_c fork_crate_c clock_c hash_text_c s1 Hs)
    as (s0 & Hopen & _ & Ha & _).
  exists s1, s0. split; [exact Htip|]. split; [exact Hlen|]. split; [exact Hopen|exact Ha].
Defined.
