(* ===== verification/ForkChainDifficulty.v ===== *)
(** * The difficulty schedule of the fork chain

    The bootstrap phase adjusts the target every block and hands over, once, to
    the 2016-block epochs; every stored block has the target of the schedule, which
    is clamped on both sides and never exceeds the proof-of-work limit; the next
    difficulty is always defined. *)
From S2P Require Import Prelude Order Text Crates Concrete Fork ForkChain ForkSample ForkChainInv.

Local Open Scope N_scope.

(** Documented behaviour: a header meets its proof of work only if its bits encode
    the required target, targets have 256 bits, and the compact encoding rounds
    down, to a floating-point number of at least fifteen binary digits. *)
Class PowLaws `{ForkCrate, ChainClock} : Prop := {
  validate_pow_target h t : validate_pow h t = true -> target_from_compact (hd_bits h) = t;
  target_fits b : target_from_compact b < 2 ^ 256;
  compact_rounds_down t : t < 2 ^ 256 -> target_from_compact (target_to_compact_lossy t) <= t;
  compact_precision t : t < 2 ^ 256 -> t <= target_from_compact (target_to_compact_lossy t) + t / 2 ^ 15
}.

Section difficulty.
Context `{Hashing, Secp256k1, BitcoinCrate, !ForkCrate, ChainClock, !PowLaws}.

Definition target_of (n : BlockNode) : N := target_from_compact (hd_bits (bk_header (bn_block n))).
Definition pow_limit (s : ForkChainStore) : N :=
  target_from_compact (fc_post_fork_pow_limit_bits (fa_config (fcs_manifest s))).

(** The schedule over unbounded integers: the target is scaled by the elapsed
    time, clamped to a quarter and four times the intended one. *)
Definition retarget (limit previous elapsed span : N) : N :=
  N.min limit (previous * N.min (N.max elapsed (span / 4)) (4 * span) / span).
Definition rounded (t : N) : N := target_from_compact (target_to_compact_lossy t).

Lemma clamp_minmax v span : clamp v (N.shiftr span 2) (span * 4) = N.min (N.max v (span / 4)) (4 * span).
Proof.
  rewrite N.shiftr_div_pow2. change (2 ^ 2) with 4. pose proof (N.Div0.div_le_upper_bound span 4 span).
  unfold clamp. repeat case_match; bool_inv; lia.
Qed.

(** One adjustment; the 512-bit product and the 256-bit result do not overflow. *)
Lemma next_work_required_spec bits elapsed span config :
  span <> 0 -> span * 4 < 2 ^ 64 ->
  exists b, next_work_required bits elapsed span config = Ok b /\
    target_from_compact b =
      rounded (retarget (target_from_compact (fc_post_fork_pow_limit_bits config)) (target_from_compact bits) elapsed span).
Proof.
  intros Hne Hfit. unfold next_work_required. destruct (fc_difficulty_algorithm config).
  unfold next_work_required_v1, checked_mul. rewrite (proj2 (N.ltb_lt _ _)) by done.
  cbn [with_context ok_or mbind result_bind]. rewrite (proj2 (N.eqb_neq _ _)) by done. eexists. split; [reflexivity|].
  unfold rounded, retarget. rewrite clamp_minmax.
  set (prev := target_from_compact bits). set (limit := target_from_compact (fc_post_fork_pow_limit_bits config)).
  set (actual := N.min _ _). assert (actual <= 4 * span) as Hc by (unfold actual; lia).
  assert (prev < 2 ^ 256) as Hp by apply target_fits. assert (limit < 2 ^ 256) as Hlim by apply target_fits.
  assert (as_uint 512 (prev * actual) = prev * actual) as ->.
  { apply N.mod_small. apply N.lt_le_trans with (2 ^ 256 * 2 ^ 64); [nia|]. by vm_compute. }
  do 2 f_equal. set (adjusted := prev * actual / span).
  assert ((if limit <? adjusted then limit else adjusted) = N.min limit adjusted) as ->.
  { case_match; bool_inv; lia. }
  apply N.mod_small. lia.
Qed.

(** What an adjustment may be. *)
Lemma retarget_bounds limit prev elapsed span :
  span <> 0 -> limit < 2 ^ 256 ->
  let low := N.min limit (prev * (span / 4) / span) in
  let t := rounded (retarget limit prev elapsed span) in
  t <= limit /\ t <= 4 * prev /\ low <= t + low / 2 ^ 15.
Proof.
  intros Hne Hlim. cbn zeta. set (low := N.min _ _). set (r := retarget limit prev elapsed span).
  assert (r <= limit /\ r <= 4 * prev /\ low <= r) as (Hr1 & Hr2 & Hr3).
  { unfold r, retarget, low. set (actual := N.min _ (4 * span)).
    assert (span / 4 <= actual <= 4 * span) as [Ha1 Ha2].
    { pose proof (N.Div0.div_le_upper_bound span 4 span). unfold actual. lia. }
    assert (prev * actual / span <= 4 * prev) by (apply N.Div0.div_le_upper_bound; nia).
    assert (prev * (span / 4) / span <= prev * actual / span) by (apply N.Div0.div_le_mono; nia). lia. }
  pose proof (compact_rounds_down r ltac:(lia)) as Hdown. pose proof (compact_precision r ltac:(lia)) as Hprec.
  unfold rounded. split_and!; [lia|lia|].
  change (2 ^ 15) with 32768 in *. pose proof (N.div_mod low 32768 ltac:(lia)).
  pose proof (N.mod_lt low 32768 ltac:(lia)).
  assert (r / 32768 < low / 32768 + (r - low) + 1) by (apply N.Div0.div_lt_upper_bound; lia). lia.
Qed.

(** A phase places a height within its epoch. *)
Definition phase_of_height (p : DifficultyPhase) (height : N) : Prop :=
  match p with
  | Bootstrap => True
  | Bitcoin start _ => start <= height < start + BITCOIN_DIFFICULTY_ADJUSTMENT_INTERVAL
  end.
Definition phase_ok (n : BlockNode) : Prop := phase_of_height (bn_difficulty_phase n) (bn_height n).

Section store.
Context (s : ForkChainStore) (Hok : nodes_ok s) (Hrules : rules_ok s).

Lemma after_bootstrap_height bits height time :
  phase_of_height (phase_after_bootstrap_block s bits height time) height.
Proof.
  unfold phase_after_bootstrap_block. case_match; simpl; [|done]. unfold BITCOIN_DIFFICULTY_ADJUSTMENT_INTERVAL. lia.
Qed.

(** The target of a block of the given time above [np]. *)
Definition scheduled_target (np : BlockNode) (height time : N) : N :=
  let header := bk_header (bn_block np) in
  let spacing := fc_target_spacing_seconds (fa_config (fcs_manifest s)) in
  match bn_difficulty_phase np with
  | Bootstrap => rounded (retarget (pow_limit s) (target_of np) (time - hd_time header) spacing)
  | Bitcoin start start_time =>
      if height <? start + BITCOIN_DIFFICULTY_ADJUSTMENT_INTERVAL then target_of np
      else rounded (retarget (pow_limit s) (target_of np) (hd_time header - start_time)
                      (spacing * BITCOIN_DIFFICULTY_ADJUSTMENT_INTERVAL))
  end.

(** Its phase: the bootstrap ends at the first block whose target takes the work
    of the hand-over, an epoch after 2016 blocks. *)
Definition scheduled_phase (np : BlockNode) (height time : N) : DifficultyPhase :=
  match bn_difficulty_phase np with
  | Bootstrap =>
      if bootstrap_handoff_work (fa_config (fcs_manifest s)) <=? target_to_work (scheduled_target np height time)
      then Bitcoin height time else Bootstrap
  | Bitcoin start start_time =>
      if height <? start + BITCOIN_DIFFICULTY_ADJUSTMENT_INTERVAL then Bitcoin start start_time
      else Bitcoin height time
  end.

Lemma spacing_ok :
  let spacing := fc_target_spacing_seconds (fa_config (fcs_manifest s)) in
  4 <= spacing /\ spacing * BITCOIN_DIFFICULTY_ADJUSTMENT_INTERVAL * 4 < 2 ^ 64.
Proof. destruct Hrules as [Hm _]. by apply fa_validate_facts in Hm as (_ & _ & ? & ? & _). Qed.

(** The next difficulty above a stored block is the scheduled one. *)
Lemma next_difficulty_spec h n time :
  fcs_blocks s !! h = Some n -> phase_ok n ->
  exists d, next_difficulty s (Some h) (bn_height n + 1) time = Ok d /\
    target_from_compact (nd_bits d) = scheduled_target n (bn_height n + 1) time /\
    nd_phase d = scheduled_phase n (bn_height n + 1) time /\ phase_of_height (nd_phase d) (bn_height n + 1).
Proof.
  intros Hn Hph. destruct spacing_ok as [Hsp Hts].
  unfold next_difficulty. rewrite Hn. cbn [with_context ok_or mbind result_bind]. unfold phase_ok, phase_of_height in Hph.
  unfold scheduled_phase, scheduled_target, pow_limit, target_of. set (config := fa_config (fcs_manifest s)) in *.
  set (I := BITCOIN_DIFFICULTY_ADJUSTMENT_INTERVAL) in *. assert (I = 2016) as HI by done.
  destruct (bn_difficulty_phase n) as [|start start_time].
  - destruct (next_work_required_spec (hd_bits (bk_header (bn_block n)))
      (time - hd_time (bk_header (bn_block n))) (fc_target_spacing_seconds config) config) as (b & -> & Hb);
      [lia|lia|]. cbn [mbind result_bind]. eexists. split; [reflexivity|]. cbn [nd_bits nd_phase].
    split_and!; [done|unfold phase_after_bootstrap_block; by rewrite Hb|apply after_bootstrap_height].
  - unfold checked_sub. rewrite (proj2 (N.leb_le _ _)) by lia. cbn [with_context ok_or mbind result_bind].
    destruct (N.ltb_spec (bn_height n + 1 - start) I) as [Hlt|Hge].
    + eexists. split; [reflexivity|]. rewrite (proj2 (N.ltb_lt _ _)) by lia. simpl. split_and!; [done|done|lia|lia].
    + rewrite (proj2 (N.eqb_eq _ _)) by lia. cbn [negb].
      unfold bitcoin_retarget_timespan_seconds, checked_mul. fold I.
      rewrite (proj2 (N.ltb_lt _ _)) by lia. cbn [with_context ok_or mbind result_bind].
      destruct (next_work_required_spec (hd_bits (bk_header (bn_block n)))
        (hd_time (bk_header (bn_block n)) - start_time) (fc_target_spacing_seconds config * I) config) as (b & -> & Hb);
        [lia|lia|]. cbn [mbind result_bind]. eexists. split; [reflexivity|].
      rewrite (proj2 (N.ltb_ge _ _)) by lia. simpl. split_and!; [done|done|lia|fold I; lia].
Qed.

(** The span of the adjustment above [np]; between epochs there is none. *)
Definition adjustment_span (np : BlockNode) : N :=
  let spacing := fc_target_spacing_seconds (fa_config (fcs_manifest s)) in
  match bn_difficulty_phase np with
  | Bootstrap => spacing
  | Bitcoin _ _ => spacing * BITCOIN_DIFFICULTY_ADJUSTMENT_INTERVAL
  end.

Lemma scheduled_bounds np height time :
  target_of np <= pow_limit s ->
  let low := target_of np * (adjustment_span np / 4) / adjustment_span np in
  let t := scheduled_target np height time in
  t <= pow_limit s /\ t <= 4 * target_of np /\ low <= t + low / 2 ^ 15.
Proof.
  intros Hle. destruct spacing_ok as [Hsp Hts]. unfold adjustment_span, scheduled_target.
  set (spacing := fc_target_spacing_seconds _) in *. assert (pow_limit s < 2 ^ 256) as Hfit by apply target_fits.
  assert (forall span, span <> 0 -> N.min (pow_limit s) (target_of np * (span / 4) / span) = target_of np * (span / 4) / span
            /\ target_of np * (span / 4) / span <= target_of np) as Hmin.
  { intros span Hspan. assert (target_of np * (span / 4) / span <= target_of np); [|lia].
    apply N.Div0.div_le_upper_bound. pose proof (N.Div0.div_le_upper_bound span 4 span). nia. }
  assert (BITCOIN_DIFFICULTY_ADJUSTMENT_INTERVAL = 2016) as HI by done.
  destruct (bn_difficulty_phase np) as [|start start_time].
  - destruct (retarget_bounds (pow_limit s) (target_of np) (time - hd_time (bk_header (bn_block np))) spacing)
      as (Hr1 & Hr2 & Hr3); [lia|done|]. rewrite (proj1 (Hmin spacing ltac:(lia))) in Hr3. done.
  - set (span := spacing * _) in *. assert (span <> 0) as Hspan by (unfold span; rewrite HI; lia). case_match.
    + pose proof (proj2 (Hmin span Hspan)) as Hq. cbn zeta. split_and!; [done|lia|].
      etrans; [exact Hq|]. apply N.le_add_r.
    + destruct (retarget_bounds (pow_limit s) (target_of np) (hd_time (bk_header (bn_block np)) - start_time) span)
        as (Hr1 & Hr2 & Hr3); [done|done|]. rewrite (proj1 (Hmin span Hspan)) in Hr3. done.
Qed.

(** Every stored block has its place in the schedule and the target it asks for. *)
Lemma stored_target h n p np :
  fcs_blocks s !! h = Some n -> parent_of s n = Some p -> fcs_blocks s !! p = Some np -> phase_ok np ->
  phase_ok n /\ target_of n = scheduled_target np (bn_height n) (hd_time (bk_header (bn_block n))) /\
  bn_difficulty_phase n = scheduled_phase np (bn_height n) (hd_time (bk_header (bn_block n))).
Proof.
  intros Hn Hp Hnp Hph. destruct (no_valid _ _ _ (Hok _ _ Hn)) as (now & cb & w & nx & mtp & fees & Hv).
  destruct Hv as [_ _ Hnext Hphase Hpow _ _ _ _ _ _ _ _]. apply validate_pow_target in Hpow.
  pose proof (parent_height s Hok h n Hn) as Hh. rewrite Hp in Hh. destruct Hh as (np' & Hnp' & Hht).
  assert (np' = np) as -> by congruence.
  destruct (next_difficulty_spec p np (hd_time (bk_header (bn_block n))) Hnp Hph) as (d & Hd & Ht & Hs & Hd').
  rewrite Hp, Hht, Hd in Hnext. injection Hnext as <-.
  unfold phase_ok, target_of. rewrite Hphase, Hpow, Hht. done.
Qed.

Lemma first_target h n :
  fcs_blocks s !! h = Some n -> parent_of s n = None -> phase_ok n /\ target_of n = pow_limit s.
Proof.
  intros Hn Hp. destruct (no_valid _ _ _ (Hok _ _ Hn)) as (now & cb & w & nx & mtp & fees & Hv).
  destruct Hv as [_ _ Hnext Hphase Hpow _ _ _ _ _ _ _ _]. apply validate_pow_target in Hpow.
  rewrite Hp in Hnext. simpl in Hnext. injection Hnext as <-. unfold phase_ok, target_of. rewrite Hphase, Hpow.
  split; [apply after_bootstrap_height|done].
Qed.

Lemma stored_schedule h n : fcs_blocks s !! h = Some n -> phase_ok n /\ target_of n <= pow_limit s.
Proof.
  intros Hn. destruct (branch_exists s Hok h n Hn) as (l & Hl & _).
  remember (Some h) as c eqn:Hc. revert h n Hc Hn. induction Hl as [|h0 n0 l Hn0 Hl IH]; [done|].
  intros h n [= ->] Hn. simplify_eq. pose proof (parent_height s Hok h n0 Hn0) as Hh.
  destruct (parent_of s n0) as [p|] eqn:Hp.
  - destruct Hh as (np & Hnp & _). destruct (IH p np eq_refl Hnp) as [Hph Hlim].
    destruct (stored_target h n0 p np Hn0 Hp Hnp Hph) as (? & -> & _). split; [done|]. by apply scheduled_bounds.
  - destruct (first_target h n0 Hn0 Hp) as [? ->]. by split.
Qed.
End store.

(** C25 (bounds). Above every stored block the difficulty of the next block is
    defined: no retarget overflows, divides by zero or misses an epoch boundary.
    The first block has the proof-of-work limit as its target, every later one the
    target and the phase of the schedule above its parent: scaled by the time since
    the parent in the bootstrap phase, unchanged within an epoch, scaled by the
    time of the epoch after 2016 blocks, with that time clamped to a quarter and
    four times the intended span. So the target of a block is within the limit, at
    most four times the target of its parent and, up to the rounding of the compact
    encoding, at least a quarter of it (the clamp rounds the quarter of the span
    down). Once a block is in the Bitcoin phase so are all blocks above it. *)
Theorem fork_difficulty_schedule s h n :
  reachable s -> fcs_blocks s !! h = Some n ->
  (forall time, exists d, next_difficulty s (Some h) (bn_height n + 1) time = Ok d /\
     target_from_compact (nd_bits d) = scheduled_target s n (bn_height n + 1) time) /\
  target_of n <= pow_limit s /\
  (parent_of s n = None -> target_of n = pow_limit s) /\
  (forall p np, parent_of s n = Some p -> fcs_blocks s !! p = Some np ->
     let time := hd_time (bk_header (bn_block n)) in
     let low := target_of np * (adjustment_span s np / 4) / adjustment_span s np in
     target_of n = scheduled_target s np (bn_height n) time /\
     bn_difficulty_phase n = scheduled_phase s np (bn_height n) time /\
     target_of n <= 4 * target_of np /\ low <= target_of n + low / 2 ^ 15 /\
     forall start start_time, bn_difficulty_phase np = Bitcoin start start_time ->
       if bn_height n <? start + BITCOIN_DIFFICULTY_ADJUSTMENT_INTERVAL
       then bn_difficulty_phase n = Bitcoin start start_time /\ target_of n = target_of np
       else bn_difficulty_phase n = Bitcoin (bn_height n) time).
Proof.
  intros Hr Hn. pose proof (co_nodes _ (reachable_ok _ Hr)) as Hok. pose proof (reachable_rules _ Hr) as Hrules.
  destruct (stored_schedule s Hok Hrules h n Hn) as [Hph Hlim]. split_and!; [|done|by eapply first_target|].
  - intros time. destruct (next_difficulty_spec s Hrules h n time Hn Hph) as (d & Hd & Ht & _). eauto.
  - intros p np Hp Hnp. destruct (stored_schedule s Hok Hrules p np Hnp) as [Hphp Hlimp].
    destruct (stored_target s Hok Hrules h n p np Hn Hp Hnp Hphp) as (_ & Ht & Hs). cbn zeta.
    destruct (scheduled_bounds s Hrules np (bn_height n) (hd_time (bk_header (bn_block n))) Hlimp) as (_ & Hhi & Hlo).
    rewrite <-Ht in Hhi, Hlo. split_and!; try done. intros start st Hst.
    unfold scheduled_phase in Hs. unfold scheduled_target in Ht. rewrite Hst in Hs, Ht. by case_match.
Qed.
End difficulty.

(** ** The sample chain *)

(** Decoding of a mantissa below the sign bit, before truncation to 256 bits. *)
Definition decode_target (m size : N) : N :=
  if size <=? 3 then N.shiftr m (8 * (3 - size)) else N.shiftl m (8 * (size - 3)).

Lemma decode_wider m size : decode_target (N.shiftr m 8) (size + 1) <= decode_target m size.
Proof.
  unfold decode_target. destruct (N.leb_spec (size + 1) 3), (N.leb_spec size 3); try lia.
  - rewrite N.shiftr_shiftr. by replace (8 + 8 * (3 - (size + 1))) with (8 * (3 - size)) by lia.
  - replace size with 3 by lia. change (8 * (3 + 1 - 3)) with 8. change (8 * (3 - 3)) with 0.
    rewrite N.shiftr_0_r, N.shiftl_mul_pow2, N.shiftr_div_pow2. pose proof (N.Div0.mul_div_le m (2 ^ 8)). lia.
  - replace (8 * (size + 1 - 3)) with (8 + 8 * (size - 3)) by lia.
    rewrite <-N.shiftl_shiftl, !N.shiftl_mul_pow2, N.shiftr_div_pow2.
    apply N.mul_le_mono_r. pose proof (N.Div0.mul_div_le m (2 ^ 8)). lia.
Qed.

Lemma decode_encode t size :
  decode_target (if size <=? 3 then N.shiftl t (8 * (3 - size)) else N.shiftr t (8 * (size - 3))) size <= t.
Proof.
  unfold decode_target. destruct (N.leb_spec size 3).
  - rewrite N.shiftr_shiftl_l by lia. by rewrite N.sub_diag, N.shiftl_0_r.
  - rewrite N.shiftl_mul_pow2, N.shiftr_div_pow2. pose proof (N.Div0.mul_div_le t (2 ^ (8 * (size - 3)))). lia.
Qed.

Lemma compact_parts m size :
  m < 2 ^ 24 ->
  N.land (N.lor m (N.shiftl size 24)) 0xffffff = m /\ N.shiftr (N.lor m (N.shiftl size 24)) 24 = size.
Proof.
  intros Hm. change 0xffffff with (N.ones 24).
  rewrite N.land_lor_distr_l, !N.land_ones, N.shiftr_lor, N.shiftr_shiftl_l, N.sub_diag, N.shiftl_0_r by lia.
  rewrite N.shiftl_mul_pow2, N.Div0.mod_mul, N.lor_0_r, N.mod_small by done.
  rewrite N.shiftr_div_pow2, N.div_small by done. done.
Qed.

Definition mantissa (t : N) : N :=
  let size := compact_size t in if size <=? 3 then N.shiftl t (8 * (3 - size)) else N.shiftr t (8 * (size - 3)).

Lemma compact_size_bounds t : t < 2 ^ (8 * compact_size t) /\ (t <> 0 -> 2 ^ (8 * (compact_size t - 1)) <= t).
Proof.
  unfold compact_size. assert (t < 2 ^ N.size t) as Ht by apply N.size_gt. set (q := (N.size t + 7) / 8).
  pose proof (N.div_mod (N.size t + 7) 8 ltac:(lia)). pose proof (N.mod_lt (N.size t + 7) 8 ltac:(lia)).
  split.
  - eapply N.lt_le_trans; [done|]. apply N.pow_le_mono_r; [done|]. unfold q. lia.
  - intros Hne. pose proof (N.size_le t) as Hle. rewrite N.succ_double_spec in Hle.
    assert (N.size t <> 0) as Hs by (by destruct t).
    assert (forall k d r, k + 7 = 8 * d + r -> r < 8 -> k <> 0 -> 8 * (d - 1) <= k - 1) as Hexp by lia.
    assert (8 * (q - 1) <= N.size t - 1) by (by eapply Hexp).
    replace (N.size t) with (N.succ (N.size t - 1)) in Hle by lia. rewrite N.pow_succ_r' in Hle.
    assert (2 ^ (8 * (q - 1)) <= 2 ^ (N.size t - 1)) by (by apply N.pow_le_mono_r). lia.
Qed.

Lemma mantissa_lt t : mantissa t < 2 ^ 24.
Proof.
  unfold mantissa. destruct (compact_size_bounds t) as [Hq _]. set (q := compact_size t) in *. destruct (N.leb_spec q 3).
  - rewrite N.shiftl_mul_pow2. replace 24 with (8 * q + 8 * (3 - q)) by lia. rewrite N.pow_add_r.
    apply N.mul_lt_mono_pos_r; [|done]. apply N.neq_0_lt_0. by apply N.pow_nonzero.
  - rewrite N.shiftr_div_pow2. apply N.Div0.div_lt_upper_bound. rewrite <-N.pow_add_r.
    by replace (8 * (q - 3) + 24) with (8 * q) by lia.
Qed.

(** What the concrete encoding of a target decodes to. *)
Definition decoded (t : N) : N :=
  if 0x7fffff <? mantissa t then decode_target (N.shiftr (mantissa t) 8) (compact_size t + 1)
  else decode_target (mantissa t) (compact_size t).

Lemma decoded_le t : decoded t <= t.
Proof.
  pose proof (decode_encode t (compact_size t)) as Henc. fold (mantissa t) in Henc. unfold decoded.
  case_match; [|done]. etrans; [apply decode_wider|done].
Qed.

Lemma rounded_c t : t < 2 ^ 256 -> @rounded clock_c t = decoded t.
Proof.
  intros Ht. unfold rounded. cbn [target_from_compact target_to_compact_lossy clock_c]. fold (mantissa t).
  pose proof (decoded_le t) as Hle. unfold decoded, decode_target in *. pose proof (mantissa_lt t) as Hm.
  destruct (N.ltb_spec 0x7fffff (mantissa t)).
  - assert (N.shiftr (mantissa t) 8 < 2 ^ 16) as Hm8.
    { rewrite N.shiftr_div_pow2. apply N.Div0.div_lt_upper_bound. by rewrite <-N.pow_add_r. }
    destruct (compact_parts (N.shiftr (mantissa t) 8) (compact_size t + 1)) as [-> ->]; [|].
    { etrans; [exact Hm8|done]. }
    rewrite (proj2 (N.ltb_ge _ _)) by (change (2 ^ 16) with 65536 in Hm8; lia). apply N.mod_small. lia.
  - destruct (compact_parts (mantissa t) (compact_size t)) as [-> ->]; [done|].
    rewrite (proj2 (N.ltb_ge _ _)) by done. apply N.mod_small. lia.
Qed.

Lemma shift_error t k : 2 ^ 15 * 2 ^ k <= t -> t <= N.shiftl (N.shiftr t k) k + t / 2 ^ 15.
Proof.
  intros Ht. rewrite N.shiftl_mul_pow2, N.shiftr_div_pow2.
  assert (2 ^ k <> 0) as Hk by (by apply N.pow_nonzero). pose proof (N.div_mod t (2 ^ k) Hk).
  pose proof (N.mod_lt t (2 ^ k) Hk). assert (2 ^ k <= t / 2 ^ 15) by (by apply N.div_le_lower_bound). lia.
Qed.

Lemma decoded_precision t : t <= decoded t + t / 2 ^ 15.
Proof.
  destruct (decide (t = 0)) as [->|Hne]; [apply N.le_0_l|]. destruct (compact_size_bounds t) as [_ Hlo]. specialize (Hlo Hne).
  unfold decoded, decode_target, mantissa. set (q := compact_size t) in *.
  destruct (N.leb_spec q 3) as [Hq|Hq].
  - destruct (N.ltb_spec 0x7fffff (N.shiftl t (8 * (3 - q)))) as [Hm|Hm].
    + destruct (N.leb_spec (q + 1) 3).
      * rewrite N.shiftr_shiftr, N.shiftr_shiftl_l by lia.
        replace (8 * (3 - q) - (8 + 8 * (3 - (q + 1)))) with 0 by lia. rewrite N.shiftl_0_r. apply N.le_add_r.
      * replace q with 3 in * by lia. change (8 * (3 - 3)) with 0 in *. rewrite N.shiftl_0_r in *.
        apply shift_error. change (2 ^ 15 * 2 ^ (8 * (3 + 1 - 3))) with 8388608. lia.
    + rewrite N.shiftr_shiftl_l, N.sub_diag, N.shiftl_0_r by lia. apply N.le_add_r.
  - destruct (N.ltb_spec 0x7fffff (N.shiftr t (8 * (q - 3)))) as [Hm|Hm].
    + rewrite (proj2 (N.leb_gt _ _)) by lia. rewrite N.shiftr_shiftr.
      replace (8 * (q - 3) + 8) with (8 * (q + 1 - 3)) by lia. apply shift_error.
      rewrite <-N.pow_add_r. rewrite N.shiftr_div_pow2 in Hm.
      replace (15 + 8 * (q + 1 - 3)) with (8 * (q - 3) + 23) by lia. rewrite N.pow_add_r.
      pose proof (N.Div0.mul_div_le t (2 ^ (8 * (q - 3)))) as Hd. etrans; [|exact Hd].
      apply N.mul_le_mono_l. change (2 ^ 23) with 8388608. lia.
    + apply shift_error. etrans; [|exact Hlo]. rewrite <-N.pow_add_r. apply N.pow_le_mono_r; lia.
Qed.

Lemma pow_laws_c : @PowLaws secp_c fork_crate_c clock_c.
Proof.
  split.
  - intros h t Hp. cbn [validate_pow fork_crate_c] in Hp. by apply N.eqb_eq in Hp.
  - intros b. cbn. case_match; [done|]. by apply N.mod_lt.
  - intros t Ht. change (@rounded clock_c t <= t). rewrite rounded_c by done. apply decoded_le.
  - intros t Ht. change (t <= @rounded clock_c t + t / 2 ^ 15). rewrite rounded_c by done. apply decoded_precision.
Qed.

Lemma fork_difficulty_schedule_witness : exists s h n,
  reachable_c s /\ fcs_blocks s !! h = Some n /\ @target_of clock_c n <= @pow_limit clock_c s.
Proof.
  destruct (sample_block_stored ["01"; "02"] 2) as (s & n & Hr & Hn); [vm_compute; reflexivity|].
  exists s, 2, n. split; [exact Hr|]. split; [exact Hn|].
  exact (proj1 (proj2 (@fork_difficulty_schedule hashing_c secp_c bitcoin_c fork_crate_c clock_c pow_laws_c s 2 n Hr Hn))).
Defined.
