(* ===== verification/ForkChainMempool.v ===== *)
(** * The mempool of the fork chain

    The mempool stays within its limits and never holds two transactions that
    spend the same output; the transactions selected for a mining template apply
    in order behind any coinbase and stay within the weight of a template. *)
From S2P Require Import Prelude Order Text Crates Concrete Fork ForkChain ForkSample ForkChainInv ForkChainUtxo.

Local Open Scope N_scope.

Section mempool.
Context `{Hashing, Secp256k1, BitcoinCrate, !ForkCrate, ChainClock, !TxLaws}.

(** ** A validated transaction applies *)

Lemma remove_all_runs e inputs : forall st,
  NoDup (map in_previous_output inputs) ->
  Forall (fun i => is_Some (bs_utxos st !! in_previous_output i)) inputs ->
  exists st', for_each (remove_utxo e) inputs st = (Ok tt, st').
Proof.
  induction inputs as [|i inputs IH]; intros st Hnd Hall; cbn [for_each]; [by eexists|].
  apply NoDup_cons in Hnd as [Hi Hnd]. apply Forall_cons in Hall as [[x Hx] Hall].
  rewrite M_bind_run. unfold remove_utxo at 1. rewrite M_bind_run. unfold gets. rewrite Hx. apply IH; [done|].
  simpl. rewrite Forall_forall in *. intros j Hj. rewrite lookup_delete_ne; [auto|].
  intros Heq. apply Hi. rewrite Heq. by apply list_elem_of_fmap_2.
Qed.

Lemma upgrade_limits s u :
  rules_ok s -> fcs_transaction_upgrade s = Some u ->
  2 <= fu_max_block_transactions u <= 100000 /\ fu_max_transaction_weight_wu u <= 4000000.
Proof.
  intros [_ Hu] Hup. specialize (Hu u Hup). unfold validate_for, fu_validate, fu_new in Hu.
  apply bind_Ok in Hu as ([] & Hu & _). apply bind_Ok in Hu as (c & Hn & _). apply bind_Ok in Hn as (id & _ & Hn).
  res_inv. bool_inv. lia.
Qed.

(** The weight limit of the upgrade bounds the outputs. *)
Lemma check_transaction_outputs s tx ht st fee :
  rules_ok s -> check_transaction s tx ht st = Ok fee -> N.of_nat (length (tx_output tx)) <= 4000000.
Proof.
  intros Hrules Hc. unfold check_transaction in Hc. apply bind_Ok in Hc as (u & Hup%with_context_Ok & Hc).
  apply bind_Ok in Hc as ([] & Hshape & _). destruct (fcs_transaction_upgrade s) as [u'|] eqn:Hu; [|done].
  simpl in Hup. case_match; [|done]. injection Hup as ->. destruct (upgrade_limits s u Hrules Hu) as [_ Hw].
  unfold check_tx_shape in Hshape. res_inv. bool_inv. pose proof (weight_tx_outputs tx). lia.
Qed.

Lemma validate_and_apply_total s ht tx st fee :
  rules_ok s -> txids_cover st -> check_transaction s tx ht st = Ok fee ->
  exists st', validate_and_apply_transaction s ht tx st = (Ok fee, st').
Proof.
  intros Hrules Hcov Hc. pose proof (check_transaction_outputs _ _ _ _ _ Hrules Hc) as Hlen.
  pose proof (check_transaction_Ok _ _ _ _ _ Hc) as (_ & Hfresh & _ & Hnd & Hall).
  unfold validate_and_apply_transaction. rewrite M_bind_run. unfold asks. rewrite Hc, M_bind_run.
  destruct (remove_all_runs (fun _ => Panic "validated fork transaction input remains unspent") _ _ Hnd Hall) as [st1 Hrem].
  rewrite Hrem. rewrite M_bind_run, insert_txid_run, M_bind_run.
  apply remove_all_total in Hrem as (_ & _ & Hids & Hsub & _).
  destruct (add_outputs_total tx ht (tx_output tx) 0
    {| bs_utxos := bs_utxos st1; bs_txids := {[compute_txid tx]} ∪ bs_txids st1 |}) as [st2 Hadd].
  - change (2 ^ 32) with 4294967296. lia.
  - intros v _. simpl. apply eq_None_not_Some. intros [x Hx]. apply Hfresh.
    apply (Hcov (compute_txid tx, v)). eexists. by eapply lookup_weaken.
  - unfold add_transaction_outputs. rewrite Hadd. by eexists.
Qed.

Lemma validate_and_apply_cover s ht tx st r st' :
  rules_ok s -> txids_cover st -> validate_and_apply_transaction s ht tx st = (r, st') ->
  txids_cover st' /\ (is_ok r = false -> st' = st).
Proof.
  intros Hrules Hcov Hrun. destruct (check_transaction s tx ht st) as [fee|e] eqn:Hc.
  - destruct (validate_and_apply_total _ _ _ _ _ Hrules Hcov Hc) as [st2 Hrun2].
    rewrite Hrun in Hrun2. injection Hrun2 as -> ->. split; [|done].
    revert Hrun. unfold validate_and_apply_transaction. rewrite M_bind_run. unfold asks. rewrite Hc, M_bind_run.
    destruct (for_each _ _ _) as [[[]|e] st1] eqn:Hrem; [|done]. rewrite M_bind_run, insert_txid_run, M_bind_run.
    destruct (add_transaction_outputs _ _ _) as [[[]|e] st3] eqn:Hadd; [|done]. intros [= <-].
    apply remove_all_total in Hrem as (_ & _ & Hids & Hsub & _). apply add_outputs_run in Hadd as (Hids3 & _ & Hl).
    intros o [x [Ho|(k & -> & _)]%Hl]; rewrite Hids3; simpl; [|set_solver].
    apply elem_of_union_r. rewrite Hids. apply Hcov. eexists. by eapply lookup_weaken.
  - revert Hrun. unfold validate_and_apply_transaction. rewrite M_bind_run. unfold asks. rewrite Hc.
    by intros [= <- <-].
Qed.

(** ** Adding a coinbase first does not disturb other transactions *)

(** [st'] is [st] with the outputs [E] of transaction [t] added. *)
Record with_coinbase (t : Txid) (E : gmap OutPoint IndexedForkOutput) (st st' : ForkBranchState) : Prop := {
  wc_utxos : bs_utxos st' = bs_utxos st ∪ E;
  wc_txids : bs_txids st' = {[t]} ∪ bs_txids st;
  wc_outputs o : is_Some (E !! o) -> o.1 = t;
  wc_fresh : t ∉ bs_txids st;
  wc_cover : txids_cover st
}.

Lemma wc_lookup t E st st' o x : with_coinbase t E st st' -> bs_utxos st !! o = Some x -> bs_utxos st' !! o = Some x.
Proof. intros [-> _ _ _ _] Ho. by apply lookup_union_Some_l. Qed.

Lemma wc_remove t E e i st st' st1 :
  with_coinbase t E st st' -> remove_utxo e i st = (Ok tt, st1) ->
  exists st1', remove_utxo e i st' = (Ok tt, st1') /\ with_coinbase t E st1 st1'.
Proof.
  intros Hw Hr. apply remove_utxo_run in Hr. set (o := in_previous_output i) in *.
  destruct (bs_utxos st !! o) as [x|] eqn:Hx; [|by destruct Hr]. destruct Hr as [_ ->].
  unfold remove_utxo. rewrite M_bind_run. unfold gets. fold o. rewrite (wc_lookup _ _ _ _ _ _ Hw Hx).
  eexists. split; [reflexivity|]. destruct Hw as [Hu Ht Ho Hf Hc]. split; simpl; try done.
  - rewrite Hu, delete_union. f_equal. apply delete_id, eq_None_not_Some. intros HE%Ho. apply Hf.
    rewrite <-HE. apply Hc. eauto.
  - intros o' [y Hy]. simpl in Hy. apply lookup_delete_Some in Hy as [_ Hy]. apply Hc. eauto.
Qed.

Lemma wc_remove_all t E e inputs : forall st st' st1,
  with_coinbase t E st st' -> for_each (remove_utxo e) inputs st = (Ok tt, st1) ->
  exists st1', for_each (remove_utxo e) inputs st' = (Ok tt, st1') /\ with_coinbase t E st1 st1'.
Proof.
  induction inputs as [|i inputs IH]; intros st st' st1 Hw; cbn [for_each].
  - intros [= <-]. by exists st'.
  - rewrite M_bind_run. destruct (remove_utxo e i st) as [[[]|err] st2] eqn:Hr; [|done]. intros Hrun.
    destruct (wc_remove _ _ _ _ _ _ _ Hw Hr) as (st2' & Hr' & Hw'). rewrite M_bind_run, Hr'. eauto.
Qed.

Lemma wc_add t E tx ht outputs : forall vout st st' st1,
  with_coinbase t E st st' -> compute_txid tx <> t -> compute_txid tx ∈ bs_txids st ->
  add_outputs tx ht vout outputs st = (Ok tt, st1) ->
  exists st1', add_outputs tx ht vout outputs st' = (Ok tt, st1') /\ with_coinbase t E st1 st1'.
Proof.
  induction outputs as [|out outputs IH]; intros vout st st' st1 Hw Hne Hin; cbn [add_outputs].
  - intros [= <-]. by exists st'.
  - case_match; [done|]. rewrite !M_bind_run. unfold gets. rewrite !M_bind_run. unfold modify.
    destruct (bs_utxos st !! _) as [y|] eqn:Hy; [done|]. intros Hrun.
    assert (bs_utxos st' !! (compute_txid tx, vout) = None) as ->.
    { rewrite (wc_utxos _ _ _ _ Hw). apply lookup_union_None. split; [done|].
      apply eq_None_not_Some. intros HE%(wc_outputs _ _ _ _ Hw). done. }
    refine (IH _ _ _ _ _ Hne _ Hrun); [|exact Hin]. destruct Hw as [Hu Ht Ho Hf Hc]. unfold insert_utxo. split; simpl; try done.
    + by rewrite Hu, insert_union_l.
    + intros o [x Hx]. simpl in Hx. apply lookup_insert_Some in Hx as [[<- _]|[_ Hx]]; [done|]. apply Hc. eauto.
Qed.

Lemma wc_check t E s tx ht st st' fee :
  with_coinbase t E st st' -> compute_txid tx <> t ->
  check_transaction s tx ht st = Ok fee -> check_transaction s tx ht st' = Ok fee.
Proof.
  intros Hw Hne. unfold check_transaction. intros Hc. apply bind_Ok in Hc as (u & -> & Hc). cbn [mbind result_bind].
  apply bind_Ok in Hc as ([] & -> & Hc). cbn [mbind result_bind]. case_bool_decide as Hin; [done|].
  rewrite bool_decide_false by (rewrite (wc_txids _ _ _ _ Hw); set_solver).
  apply bind_Ok in Hc as (out & -> & Hc). cbn [mbind result_bind]. apply bind_Ok in Hc as (acc & Hacc & Hc).
  assert (try_fold (check_tx_input u ht (bs_utxos st')) (∅, [], 0) (tx_input tx) = Ok acc) as ->; [|exact Hc].
  clear Hc. revert Hacc. generalize (∅ : gset OutPoint, @nil TxOutput, 0). intros acc0. revert acc0.
  induction (tx_input tx) as [|i l IH]; intros acc0; cbn [try_fold]; [done|].
  intros Hc. apply bind_Ok in Hc as (acc1 & Hc1 & Hc). enough (check_tx_input u ht (bs_utxos st') acc0 i = Ok acc1) as ->;
    [by apply IH|].
  unfold check_tx_input in *. destruct acc0 as [[seen pre] tot]. do 2 (case_match; [done|]).
  apply bind_Ok in Hc1 as (x & Hx%with_context_Ok & Hc1). rewrite (wc_lookup _ _ _ _ _ _ Hw Hx). exact Hc1.
Qed.

Lemma wc_apply t E s tx ht st st' fee st1 :
  with_coinbase t E st st' -> compute_txid tx <> t ->
  validate_and_apply_transaction s ht tx st = (Ok fee, st1) ->
  exists st1', validate_and_apply_transaction s ht tx st' = (Ok fee, st1') /\ with_coinbase t E st1 st1'.
Proof.
  intros Hw Hne. unfold validate_and_apply_transaction. rewrite !M_bind_run. unfold asks.
  destruct (check_transaction s tx ht st) as [f|] eqn:Hc; [|done]. rewrite (wc_check _ _ _ _ _ _ _ _ Hw Hne Hc).
  rewrite !M_bind_run. destruct (for_each _ _ st) as [[[]|e] st2] eqn:Hrem; [|done].
  destruct (wc_remove_all _ _ _ _ _ _ _ Hw Hrem) as (st2' & -> & Hw2). rewrite !M_bind_run, !insert_txid_run, !M_bind_run.
  set (st3 := {| bs_utxos := bs_utxos st2; bs_txids := _ |}). set (st3' := {| bs_utxos := bs_utxos st2'; bs_txids := _ |}).
  assert (with_coinbase t E st3 st3') as Hw3.
  { destruct Hw2 as [Hu Ht Ho Hf Hcv]. split; simpl; try done; [rewrite Ht; set_solver|set_solver|].
    intros o Hox. apply elem_of_union_r. by apply Hcv. }
  destruct (add_transaction_outputs tx ht st3) as [[[]|e] st4] eqn:Hadd; [|done]. intros [= <- <-].
  destruct (wc_add t E tx ht (tx_output tx) 0 st3 st3' st4) as (st4' & Hadd' & Hw4); try done; [simpl; set_solver|].
  unfold add_transaction_outputs. rewrite Hadd'. eauto.
Qed.

(** ** Template transactions *)

(** What the selection loop appends is a list of transactions that apply in
    order, also after a coinbase. *)
Record selected_from (s : ForkChainStore) (ht : N) (t : Txid) (E : gmap OutPoint IndexedForkOutput)
    (acc sel : Selection) (new : list Tx) : Prop := {
  sf_transactions : sel_transactions sel = sel_transactions acc ++ new;
  sf_coinbase : Forall (fun tx => is_coinbase tx = false) new;
  sf_apply st' : with_coinbase t E (sel_state acc) st' ->
    exists st'', apply_block_transactions s ht (sel_fees acc) new st' = (Ok (sel_fees sel), st'')
}.

Lemma select_spec s ht max t E pending : rules_ok s -> forall acc sel,
  txids_cover (sel_state acc) -> N.of_nat (length (sel_transactions acc)) <= max ->
  Forall (fun tx => is_coinbase tx = false -> compute_txid tx <> t) pending ->
  select_transactions s ht max acc pending = Ok sel ->
  N.of_nat (length (sel_transactions sel)) <= max /\ exists new, selected_from s ht t E acc sel new.
Proof.
  intros Hrules. induction pending as [|tx pending IH]; intros acc sel Hcov Hlen Hne; cbn [select_transactions].
  - intros [= <-]. split; [done|]. exists []. split; [by rewrite app_nil_r|done|]. intros st' _. by eexists.
  - apply Forall_cons in Hne as [Htx Hne]. destruct (N.leb_spec max (N.of_nat (length (sel_transactions acc)))) as [Hle|Hlt].
    { intros [= <-]. split; [done|]. exists []. split; [by rewrite app_nil_r|done|]. intros st' _. by eexists. }
    intros Hs. apply bind_Ok in Hs as (acc1 & Hs1 & Hs). unfold select_transaction in Hs1.
    case_match; [injection Hs1 as <-; by eapply IH|].
    destruct (validate_and_apply_transaction s ht tx (sel_state acc)) as [r st1] eqn:Hrun.
    pose proof (validate_and_apply_cover _ _ _ _ _ _ Hrules Hcov Hrun) as [Hcov1 Herr].
    destruct r as [fee|[m|m|]]; [..|done|done].
    + assert (is_coinbase tx = false) as Hnc by (by apply (validate_and_apply_Ok _ _ _ _ _ _ 0) in Hrun as (? & _)).
      apply bind_Ok in Hs1 as (w & _ & Hs1). apply bind_Ok in Hs1 as (f & Hf%with_context_Ok & [= <-]).
      apply IH in Hs as (Hmax & new & [Ht Hcb Happ]); [|done|cbn [sel_transactions]; rewrite length_app; simpl; lia|done].
      split; [done|]. exists (tx :: new). split.
      * simpl in Ht. by rewrite <-app_assoc in Ht.
      * by constructor.
      * intros st' Hw. destruct (wc_apply _ _ _ _ _ _ _ _ _ Hw (Htx Hnc) Hrun) as (st1' & Hrun' & Hw1).
        cbn [apply_block_transactions]. rewrite M_bind_run, Hrun', M_bind_run. unfold lift. rewrite Hf. by apply Happ.
    + injection Hs1 as <-. rewrite (Herr eq_refl) in *. destruct acc. by eapply IH.
Qed.

Lemma with_coinbase_add cb ht st st' :
  txids_cover st -> compute_txid cb ∉ bs_txids st ->
  add_transaction_outputs cb ht (with_txids ({[compute_txid cb]} ∪ bs_txids st) st) = (Ok tt, st') ->
  exists E, with_coinbase (compute_txid cb) E st st'.
Proof.
  intros Hcov Hfresh Hadd. apply add_outputs_run in Hadd as (Hids & _ & Hl). simpl in *.
  exists (filter (fun e => e.1.1 = compute_txid cb) (bs_utxos st')). split.
  - apply map_eq. intros o. apply option_eq. intros x.
    rewrite lookup_union_Some, map_lookup_filter_Some, Hl; [|].
    + split; [|naive_solver]. intros [Ho|Hn]; [by left|]. right. split; [by right|].
      destruct Hn as (k & -> & _). done.
    + apply map_disjoint_spec. intros o' x1 x2 H1' [_ H2']%map_lookup_filter_Some. apply Hfresh.
      simpl in H2'. rewrite <-H2'. apply Hcov. eauto.
  - done.
  - intros o [x [_ Hx]%map_lookup_filter_Some]. done.
  - done.
  - done.
Qed.

(** The selected transactions with a fresh coinbase in front pass the
    transaction rules of a block. *)
Lemma template_transactions_valid s ht txs fees b cb :
  nodes_ok s -> rules_ok s -> stored s (fcs_active_tip s) ->
  template_transactions s ht = Ok (txs, fees) -> bk_txdata b = cb :: txs -> is_coinbase cb = true ->
  N.of_nat (length (tx_output cb)) <= 4000000 ->
  Forall (fun tx => is_coinbase tx = false -> compute_txid tx <> compute_txid cb)
         (map snd (map_to_list (fcs_mempool s))) ->
  (forall st, branch_state s (fcs_active_tip s) = Ok st -> compute_txid cb ∉ bs_txids st) ->
  txid_collision s \/ validate_block_transactions s b ht (fcs_active_tip s) = Ok fees.
Proof.
  intros Hok Hrules Htip Ht Hb Hcb Hout Hne Hfresh.
  unfold validate_block_transactions. unfold template_transactions in Ht.
  destruct (transactions_active_at s ht) eqn:Hact; cbn [negb orb] in *.
  2: { injection Ht as <- <-. right. by rewrite Hb. }
  destruct (walk_total s Hok _ Htip) as (l & Hl & _).
  destruct (branch_supply s Hok Hrules _ _ Hl) as [?|(st & Hst & _)]; [by left|right].
  pose proof (branch_state_spec _ _ _ _ Hok Hl Hst) as Hus. pose proof (utxo_state_cover _ _ _ Hus) as Hcov.
  destruct (fcs_transaction_upgrade s) as [u|] eqn:Hup; [|unfold transactions_active_at in Hact; by rewrite Hup in Hact].
  cbn [expect ok_or mbind result_bind] in *. rewrite Hb. cbn [head drop]. rewrite drop_0.
  destruct (upgrade_limits s u Hrules Hup) as [Hmax _].
  (* the coinbase first *)
  destruct (add_outputs_total cb ht (tx_output cb) 0 (with_txids ({[compute_txid cb]} ∪ bs_txids st) st)) as [st1 Hadd].
  { change (2 ^ 32) with 4294967296. lia. }
  { intros v _. simpl. apply eq_None_not_Some. intros Hs. apply (Hfresh st Hst). by apply (Hcov (compute_txid cb, v)). }
  destruct (with_coinbase_add cb ht st st1 Hcov (Hfresh st Hst) Hadd) as [E HE].
  assert (exists st2, apply_block_transactions s ht 0 txs st1 = (Ok fees, st2) /\
    N.of_nat (length (cb :: txs)) <= fu_max_block_transactions u /\ Forall (fun tx => is_coinbase tx = false) txs)
    as (st2 & Happ & Hlen & Hnc).
  { destruct (Nat.eqb (size (fcs_mempool s)) 0).
    - injection Ht as <- <-. exists st1. split_and!; [done|simpl; lia|done].
    - rewrite Hst in Ht. cbn [mbind result_bind] in Ht. apply bind_Ok in Ht as (sel & Hsel & [= <- <-]).
      assert (as_uint 32 (fu_max_block_transactions u + (2 ^ 32 - 1)) = fu_max_block_transactions u - 1) as Hm1.
      { unfold as_uint. change (2 ^ 32) with 4294967296. symmetry. apply (N.mod_unique _ _ 1); lia. }
      rewrite Hm1 in Hsel. apply (select_spec s ht _ (compute_txid cb) E _ Hrules) in Hsel as (Hmx & new & [Htx Hnc Hrun]);
        [|done|simpl; lia|].
      + simpl in Htx. rewrite Htx in *. destruct (Hrun _ HE) as [st2 Hst2]. exists st2.
        split_and!; [done|simpl length in *; lia|done].
      + unfold btree_values_N, btree_entries_N. rewrite Forall_forall in *. intros tx Htx. apply Hne.
        apply list_elem_of_fmap in Htx as (e & -> & He). apply list_elem_of_fmap. exists e.
        split; [done|]. by apply sort_by_elem in He. }
  rewrite (proj2 (N.ltb_ge _ _)) by lia.
  assert (existsb is_coinbase txs = false) as ->.
  { apply not_true_is_false. intros (tx & Hin & Hc)%existsb_exists. rewrite Forall_forall in Hnc.
    rewrite Hnc in Hc; [done|]. by apply list_elem_of_In. }
  rewrite Hst. cbn [expect ok_or mbind result_bind]. unfold apply_block. rewrite M_bind_run, insert_txid_run.
  rewrite bool_decide_false by (by apply Hfresh). cbn [negb]. rewrite M_bind_run. unfold with_txids in Hadd.
  unfold add_transaction_outputs. rewrite Hadd. by rewrite Happ.
Qed.

(** The selected transactions weigh at most the limit of a template. *)
Lemma select_weight s ht max pending : forall acc sel,
  sum_N (map weight_of_tx (sel_transactions acc)) = sel_weight acc ->
  sel_weight acc <= MAX_TEMPLATE_NON_COINBASE_WEIGHT_WU ->
  select_transactions s ht max acc pending = Ok sel ->
  sum_N (map weight_of_tx (sel_transactions sel)) <= MAX_TEMPLATE_NON_COINBASE_WEIGHT_WU.
Proof.
  induction pending as [|tx pending IH]; intros acc sel Hsum Hle; cbn [select_transactions]; [intros [= <-]; lia|].
  case_match; [intros [= <-]; lia|]. intros Hs. apply bind_Ok in Hs as (acc1 & Hs1 & Hs).
  unfold select_transaction in Hs1. case_match eqn:Hlim; [injection Hs1 as <-; by eapply IH|].
  destruct (validate_and_apply_transaction s ht tx (sel_state acc)) as [r st1].
  destruct r as [fee|[m|m|]]; [..|done|done].
  - apply bind_Ok in Hs1 as (w & [-> Hw]%with_context_Ok%checked_add_Some & Hs1).
    apply bind_Ok in Hs1 as (f & _ & [= <-]). apply IH in Hs; [done|..]; cbn [sel_transactions sel_weight].
    + rewrite map_app, sum_N_app, Hsum. cbn [map]. rewrite sum_N_cons. unfold sum_N. simpl. lia.
    + apply N.ltb_ge in Hlim. unfold saturating_add, MAX_TEMPLATE_NON_COINBASE_WEIGHT_WU in *. lia.
  - injection Hs1 as <-. by apply IH in Hs.
Qed.

Lemma template_weight s ht txs fees :
  template_transactions s ht = Ok (txs, fees) ->
  sum_N (map weight_of_tx txs) <= MAX_TEMPLATE_NON_COINBASE_WEIGHT_WU.
Proof.
  unfold template_transactions. case_match; [by intros [= <- _]|]. intros Ht.
  apply bind_Ok in Ht as (u & _ & Ht). apply bind_Ok in Ht as (st & _ & Ht).
  apply bind_Ok in Ht as (sel & Hsel & [= <- _]). by apply select_weight in Hsel.
Qed.
End mempool.

(** ** Limits of the mempool *)

Section limits.
Context `{Hashing, !HexLaws, Secp256k1, BitcoinCrate, !ForkCrate, ChainClock}.

Definition tx_size (tx : Tx) : N := N.of_nat (length (serialize_tx tx)).
Definition mempool_total (m : gmap Txid Tx) : N := map_fold (fun _ tx acc => tx_size tx + acc) 0 m.

Lemma mempool_total_insert m t tx : m !! t = None -> mempool_total (<[t := tx]> m) = tx_size tx + mempool_total m.
Proof. intros Ht. unfold mempool_total. rewrite map_fold_insert_L; [done|intros; lia|done]. Qed.

(** No two transactions of [m] spend the same output. *)
Definition spends_disjoint (m : gmap Txid Tx) : Prop :=
  forall t1 tx1 t2 tx2 o, m !! t1 = Some tx1 -> m !! t2 = Some tx2 ->
    o ∈ map in_previous_output (tx_input tx1) -> o ∈ map in_previous_output (tx_input tx2) -> t1 = t2.

Record mempool_ok (s : ForkChainStore) : Prop := {
  mo_key t tx : fcs_mempool s !! t = Some tx -> t = compute_txid tx;
  mo_bytes : fcs_mempool_bytes s = mempool_total (fcs_mempool s);
  mo_limit : fcs_mempool_bytes s <= MAX_MEMPOOL_BYTES;
  mo_count : N.of_nat (size (fcs_mempool s)) <= MAX_MEMPOOL_TRANSACTIONS;
  mo_disjoint : spends_disjoint (fcs_mempool s)
}.

Lemma mempool_ok_empty s : fcs_mempool s = ∅ -> fcs_mempool_bytes s = 0 -> mempool_ok s.
Proof.
  intros Hm Hb. by split; rewrite ?Hm, ?Hb.
Qed.

Lemma mempool_ok_same s s' :
  fcs_mempool s' = fcs_mempool s -> fcs_mempool_bytes s' = fcs_mempool_bytes s -> mempool_ok s -> mempool_ok s'.
Proof. intros Hm Hb []. split; by rewrite ?Hm, ?Hb. Qed.

Lemma checked_mempool_bytes_Ok a b c :
  checked_mempool_bytes a b = Ok c -> c = a + b /\ c <= MAX_MEMPOOL_BYTES.
Proof.
  unfold checked_mempool_bytes. intros. chain_inv. bool_inv. subst.
  match goal with Hc : checked_add _ _ _ = Some _ |- _ => apply checked_add_Some in Hc as [-> _] end. done.
Qed.

Lemma spends_disjoint_insert m t tx :
  spends_disjoint m -> (forall t' tx' o, m !! t' = Some tx' -> o ∈ map in_previous_output (tx_input tx') ->
    o ∉ map in_previous_output (tx_input tx)) -> spends_disjoint (<[t := tx]> m).
Proof.
  intros Hd Hnew t1 tx1 t2 tx2 o [[<- <-]|[_ H1']]%lookup_insert_Some [[<- <-]|[_ H2']]%lookup_insert_Some Ho1 Ho2;
    [done|..|by eapply Hd]; [by destruct (Hnew t2 tx2 o H2' Ho2)|by destruct (Hnew t1 tx1 o H1' Ho1)].
Qed.

Lemma spends_disjoint_subset m m' : m' ⊆ m -> spends_disjoint m -> spends_disjoint m'.
Proof. intros Hsub Hd t1 tx1 t2 tx2 o H1' H2'. apply Hd; by eapply lookup_weaken. Qed.

Lemma mempool_spends_elem (m : gmap Txid Tx) o :
  o ∈ mempool_spends m <-> exists t tx, m !! t = Some tx /\ o ∈ map in_previous_output (tx_input tx).
Proof.
  unfold mempool_spends, btree_values_N, btree_entries_N. rewrite elem_of_list_to_set, list_elem_of_bind. split.
  - intros (tx & Ho & Hin). apply list_elem_of_fmap in Hin as ([t tx'] & -> & Hin). apply sort_by_elem in Hin.
    apply elem_of_map_to_list in Hin. eauto.
  - intros (t & tx & Hm & Ho). exists tx. split; [done|]. apply list_elem_of_fmap. exists (t, tx). split; [done|].
    apply sort_by_elem. by apply elem_of_map_to_list.
Qed.

(** The byte count of a submission is the size of its transaction. *)
Lemma decoded_size hex tx : decode_transaction hex = Ok tx -> len hex / 2 = tx_size tx.
Proof.
  unfold decode_transaction. intros Hd. apply bind_Ok in Hd as (b & Hb%map_err_Ok & Hd). case_match; [done|].
  apply bind_Ok in Hd as (tx' & _ & Hd). case_bool_decide as Hs; [done|]. injection Hd as ->.
  apply hex_decode_iff in Hb. unfold len, tx_size. rewrite Hs.
  rewrite <-(lower_length hex), Hb, hex_encode_length. rewrite Nat2N.inj_mul.
  replace (N.of_nat 2 * N.of_nat (length b)) with (N.of_nat (length b) * 2) by lia. by apply N.div_mul.
Qed.

Lemma submit_transaction_limits hex s r s' :
  mempool_ok s -> submit_transaction hex s = (r, s') -> mempool_ok s'.
Proof.
  intros Hok. unfold submit_transaction, lift, gets, asks, modify. rewrite M_bind_run.
  destruct (normalize_transaction_hex hex) as [norm|]; [|by intros [= _ <-]]. rewrite M_bind_run.
  destruct (decode_transaction norm) as [tx|] eqn:Hdec; [|by intros [= _ <-]]. rewrite M_bind_run.
  case_bool_decide as Hdup; [by intros [= _ <-]|]. rewrite M_bind_run.
  destruct (check_mempool_transaction s norm tx) as [[bytes fee]|] eqn:Hchk; [|by intros [= _ <-]].
  intros [= _ <-]. unfold check_mempool_transaction in Hchk. case_match eqn:Hfull; [done|]. bool_inv.
  apply bind_Ok in Hchk as (nb & Hnb & Hchk). apply bind_Ok in Hchk as (st & _ & Hchk).
  apply bind_Ok in Hchk as (nh & _ & Hchk). case_match; [by chain_inv|].
  apply bind_Ok in Hchk as (bst & _ & Hchk). case_match; [done|]. case_match eqn:Hconf; [done|].
  apply bind_Ok in Hchk as (f & _ & [= -> ->]). apply checked_mempool_bytes_Ok in Hnb as [-> Hle].
  rewrite (decoded_size _ _ Hdec) in *. apply eq_None_not_Some in Hdup. destruct Hok as [Hk Hb Hl Hc Hd].
  split; simpl in *.
  - intros t tx' [[<- <-]|[_ Ht]]%lookup_insert_Some; auto.
  - rewrite mempool_total_insert by done. lia.
  - done.
  - rewrite map_size_insert_None by done. lia.
  - apply spends_disjoint_insert; [done|]. intros t' tx' o Ht' Ho Hnew.
    apply not_true_iff_false in Hconf. apply Hconf, existsb_exists.
    apply list_elem_of_fmap in Hnew as (i & -> & Hi). exists i. split; [by apply list_elem_of_In|].
    apply bool_decide_eq_true_2, mempool_spends_elem. eauto.
Qed.

(** One pending transaction of the revalidation. *)
Lemma readmit_limits s ht pending L acc acc' :
  (forall e, e ∈ L -> pending !! e.1 = Some e.2) -> NoDup (map fst L) ->
  (forall t, is_Some (acc.1.2 !! t) -> t ∉ map fst L) -> acc.1.2 ⊆ pending ->
  acc.2 = mempool_total acc.1.2 -> acc.2 <= MAX_MEMPOOL_BYTES ->
  try_fold (readmit_transaction s ht) acc L = Ok acc' ->
  acc'.1.2 ⊆ pending /\ acc'.2 = mempool_total acc'.1.2 /\ acc'.2 <= MAX_MEMPOOL_BYTES.
Proof.
  revert acc. induction L as [|[t tx] L IH]; intros acc HL Hnd Hnew Hsub Htot Hle; cbn [try_fold].
  { by intros [= <-]. }
  intros Hf. apply bind_Ok in Hf as (acc1 & Hf1 & Hf). simpl in Hnd. apply NoDup_cons in Hnd as [Ht Hnd].
  assert (forall e, e ∈ L -> pending !! e.1 = Some e.2) as HL' by (intros e He; apply HL; by apply list_elem_of_further).
  assert (pending !! t = Some tx) as Hpt by (apply (HL (t, tx)), list_elem_of_here).
  destruct acc as [[st m] b]. unfold readmit_transaction in Hf1. simpl in *.
  assert (forall t', is_Some (m !! t') -> t' ∉ map fst L) as Hnew'.
  { intros t' Ht'. specialize (Hnew t' Ht'). intros Hin. apply Hnew. by right. }
  assert (m !! t = None) as Hmt.
  { apply eq_None_not_Some. intros Hs. apply (Hnew t Hs). by left. }
  case_bool_decide; [injection Hf1 as <-; by apply (IH (st, m, b))|].
  destruct (validate_and_apply_transaction s ht tx st) as [[fee|[msg|msg|]] st1]; [..|done|done].
  - destruct (checked_mempool_bytes _ _) as [nb|] eqn:Hnb; injection Hf1 as <-; [|by apply (IH (st1, m, b))].
    apply checked_mempool_bytes_Ok in Hnb as [-> Hnb].
    apply (IH (st1, <[t := tx]> m, b + N.of_nat (length (serialize_tx tx)))) in Hf; try done; simpl.
    + intros t' [x Hx]. apply lookup_insert_Some in Hx as [[<- _]|[_ Hx]]; [done|]. eauto.
    + by apply insert_subseteq_l.
    + rewrite mempool_total_insert by done. unfold tx_size. lia.
  - injection Hf1 as <-. by apply (IH (st1, m, b)).
Qed.

Lemma revalidate_limits s r s' : mempool_ok s -> revalidate_mempool s = (r, s') -> mempool_ok s'.
Proof.
  intros Hok. unfold revalidate_mempool, asks, gets, modify. rewrite M_bind_run.
  destruct (status s ≫= _) as [ht|]; [|by intros [= _ <-]]. do 3 rewrite M_bind_run.
  case_match; [intros [= _ <-]; by apply mempool_ok_empty|]. rewrite M_bind_run.
  destruct (branch_state _ _) as [st|]; [|intros [= _ <-]; by apply mempool_ok_empty]. rewrite M_bind_run.
  set (s0 := set_mempool ∅ 0 s).
  destruct (try_fold (readmit_transaction s0 ht) (st, ∅, 0) (btree_entries_N (fcs_mempool s))) as [acc|] eqn:Hf;
    [|intros [= _ <-]; by apply mempool_ok_empty].
  intros [= _ <-]. destruct Hok as [Hk Hb Hl Hc Hd].
  assert (btree_entries_N (fcs_mempool s) ≡ₚ map_to_list (fcs_mempool s)) as Hperm by apply sort_by_perm.
  apply (readmit_limits _ _ (fcs_mempool s)) in Hf as (Hsub & Htot & Hle); simpl in *; try done.
  - split; simpl; [intros t tx Ht; apply Hk; by eapply lookup_weaken|done|done| |by eapply spends_disjoint_subset].
    pose proof (map_subseteq_size _ _ Hsub). lia.
  - intros [t tx]. rewrite Hperm. by rewrite elem_of_map_to_list.
  - rewrite Hperm. apply NoDup_fst_map_to_list.
  - intros t [x Hx]. by rewrite lookup_empty in Hx.
  - apply map_empty_subseteq.
Qed.

(** (invariant). The mempool is always keyed by txid, its byte count is the size
    of its transactions and stays within three mebibytes, it holds at most ten
    thousand of them, and no two of them spend the same output, through every
    submission, reorganisation and error. *)
Theorem mempool_within_limits s : reachable s -> mempool_ok s.
Proof.
  induction 1 as [m u log s Ho|s hex now r s' Hr IH Hs|s hex r s' _ IH Hs].
  - apply open_ok in Ho as (_ & _ & _ & _ & ? & ? & _). by apply mempool_ok_empty.
  - apply submit_block_step in Hs as [->|h n s1 r1 Hh Hn Hst Hm _]; [done|].
    apply store_block_spec in Hst as [[_ _ _ _ Hmp Hby _] _];
      [|apply (chain_ok_same s); [done|by apply reachable_ok]|done|by apply (node_ok_extends s)].
    assert (mempool_ok s1) as Hs1 by (by apply (mempool_ok_same s)).
    destruct Hm as [->|[r2 Hre]]; [done|]. by eapply revalidate_limits.
  - by eapply submit_transaction_limits.
Qed.
End limits.

(** ** The sample chain *)

Abbreviation sample_tx s hex := (@submit_transaction hashing_c secp_c bitcoin_c fork_crate_c clock_c hex s).

(** The two blocks of the sample chain with a transaction in the mempool. *)
Definition sample_pending : chain_checked ForkChainStore :=
  s ← sample_store ["01"; "02"]; Ok (sample_tx s "09").2.

Lemma sample_pending_reachable s : sample_pending = Ok s -> reachable_c s.
Proof.
  unfold sample_pending. destruct (sample_store ["01"; "02"]) as [s0|] eqn:Hs; cbn [mbind result_bind]; [|discriminate].
  destruct (sample_tx s0 "09") as [r s1] eqn:Htx. cbn [snd]. intros Heq. injection Heq as <-.
  eapply reach_transaction; [exact (sample_reachable _ _ Hs)|exact Htx].
Qed.

Lemma mempool_within_limits_witness : exists s,
  reachable_c s /\ size (fcs_mempool s) = 1%nat /\ @mempool_ok secp_c fork_crate_c s.
Proof.
  assert (match sample_pending with Ok s => Nat.eqb (size (fcs_mempool s)) 1 | Err _ => false end = true) as Hrun
    by (vm_compute; reflexivity).
  destruct sample_pending as [s|] eqn:Hs; [|discriminate]. apply Nat.eqb_eq in Hrun.
  apply sample_pending_reachable in Hs. exists s. split; [exact Hs|]. split; [exact Hrun|].
  exact (@mempool_within_limits hashing_c hex_laws_c secp_c bitcoin_c fork_crate_c clock_c s Hs).
Defined.
