(* ===== verification/ForkChainTemplate.v ===== *)
(** * Mining templates of the fork chain

    What a miner may build from the published fields of a mining template alone,
    and that the node which published them accepts it. *)
From S2P Require Import Prelude Order Text Crates Concrete Fork ForkChain ForkSample ForkChainInv ForkChainUtxo ForkChainMempool.
From Stdlib Require Import Strings.Ascii Strings.Byte.

Local Open Scope N_scope.

(** ** Numbers printed in hexadecimal *)

Definition hex_digit_value (c : ascii) : N :=
  let n := N_of_ascii c in if n <? 58 then n - 48 else n - 87.

Fixpoint hex_string_value (acc : N) (s : string) : N :=
  match s with EmptyString => acc | String c s' => hex_string_value (16 * acc + hex_digit_value c) s' end.

Lemma hex_digit_value_digit n : n < 16 -> hex_digit_value (lower_hex_digit n) = n.
Proof.
  intros Hn. unfold hex_digit_value, lower_hex_digit. rewrite N_ascii_embedding by (case_match; lia).
  destruct (N.ltb_spec n 10); [rewrite (proj2 (N.ltb_lt _ _)) by lia|rewrite (proj2 (N.ltb_ge _ _)) by lia]; lia.
Qed.

Lemma lower_hex_digits_value k : forall n s,
  n < 16 ^ N.of_nat k -> hex_string_value 0 (lower_hex_digits k n s) = hex_string_value n s.
Proof.
  induction k as [|k IH]; intros n s Hn; cbn [lower_hex_digits].
  { change (16 ^ N.of_nat 0) with 1 in Hn. by replace n with 0 by lia. }
  pose proof (N.mod_lt n 16 ltac:(lia)) as Hm. pose proof (N.div_mod n 16 ltac:(lia)) as Hd.
  rewrite Nat2N.inj_succ, N.pow_succ_r' in Hn. destruct (N.ltb_spec n 16).
  - cbn [hex_string_value]. rewrite hex_digit_value_digit by done. by rewrite N.mod_small by done.
  - rewrite IH by (apply N.Div0.div_lt_upper_bound; lia). cbn [hex_string_value].
    rewrite hex_digit_value_digit by done. f_equal. lia.
Qed.

Lemma lower_hex_value n : hex_string_value 0 (lower_hex n) = n.
Proof.
  unfold lower_hex. rewrite lower_hex_digits_value; [done|]. rewrite Nat2N.inj_succ, N.pow_succ_r'.
  assert (n < 2 ^ N.of_nat (N.size_nat n)) as Hn.
  { destruct n as [|p]; [done|]. cbn [N.size_nat].
    induction p as [p IH|p IH|]; cbn [Pos.size_nat]; rewrite ?Nat2N.inj_succ, ?N.pow_succ_r'; lia. }
  assert (2 ^ N.of_nat (N.size_nat n) <= 16 ^ N.of_nat (N.size_nat n)) by (apply N.pow_le_mono_l; lia). lia.
Qed.

Lemma padded_lower_hex_inj w : Inj (=) (=) (padded_lower_hex w).
Proof.
  assert (forall k s, hex_string_value 0 (repeat_char "0" k +:+ s) = hex_string_value 0 s) as Hpad.
  { induction k as [|k IH]; intros s; simpl; [done|]. apply IH. }
  intros a b Hab. apply (f_equal (hex_string_value 0)) in Hab. unfold padded_lower_hex in Hab.
  by rewrite !Hpad, !lower_hex_value in Hab.
Qed.

(** ** The crates of a miner *)

(** Bitcoin's Merkle tree: a level of odd length repeats its last node, and every
    pair of nodes is hashed together until one is left. *)
Definition pad_even (level : list bytes) : list bytes :=
  if Nat.even (length level) then level else level ++ option_list (last level).

Fixpoint pair_up (level : list bytes) : list (bytes * bytes) :=
  match level with l :: r :: rest => (l, r) :: pair_up rest | _ => [] end.

Inductive merkle_root_of `{BitcoinCrate} : list bytes -> bytes -> Prop :=
| merkle_single root : merkle_root_of [root] root
| merkle_up level root :
    (1 < length level)%nat ->
    merkle_root_of (map (fun '(l, r) => sha256d_hash (l ++ r)) (pair_up (pad_even level))) root ->
    merkle_root_of level root.

(** The script of BIP 141's commitment: [OP_RETURN], a push of 36 bytes, the
    commitment header and the hash. *)
Definition commitment_magic : bytes := [x6a; x24; xaa; x21; xa9; xed].
Definition commitment_output (o : TxOutput) : bool :=
  Nat.leb 38 (length (out_script_pubkey o)) && bool_decide (take 6 (out_script_pubkey o) = commitment_magic).

(** [bitcoin::merkle_tree::calculate_root] over txids. *)
Class MerkleCrate := { txid_merkle_root : list Txid -> BlockHash }.

(** Documented behaviour of [bitcoin] and [hex]: consensus decoding inverts the
    encoding; different hashes print differently; [hex::encode] prints byte by
    byte; a double SHA-256 digest has 32 bytes; a block weighs four times its
    header and transaction count, at most 89 bytes, and its transactions;
    [check_merkle_root] compares the header with the root of the txids;
    [check_witness_commitment] accepts a block without witnesses, and one whose
    last commitment output commits to the root of the wtxids, with the reserved
    value in the witness of the coinbase. *)
Class MinerLaws `{Hashing, BitcoinCrate, Secp256k1, !ForkCrate, MerkleCrate} : Prop := {
  deserialize_serialize_tx tx : deserialize_tx (serialize_tx tx) = Some tx;
  hash_to_string_inj : Inj (=) (=) hash_to_string;
  hex_encode_app a b : hex_encode (a ++ b) = hex_encode a +:+ hex_encode b;
  hex_encode_magic : hex_encode commitment_magic = "6a24aa21a9ed"%string;
  sha256d_length b : length (sha256d_hash b) = 32%nat;
  block_weight_sum b : weight_of_block b <= 4 * 89 + sum_N (map weight_of_tx (bk_txdata b));
  merkle_root_checks b :
    hd_merkle_root (bk_header b) = txid_merkle_root (map compute_txid (bk_txdata b)) -> check_merkle_root b = true;
  no_witness_checks b :
    Forall (fun tx => Forall (fun i => in_witness i = []) (tx_input tx)) (bk_txdata b) ->
    check_witness_commitment b = true;
  commitment_checks b cb txs root reserved pre out post :
    bk_txdata b = cb :: txs -> is_coinbase cb = true ->
    merkle_root_of (repeat x00 32 :: map compute_wtxid txs) root ->
    length reserved = 32%nat -> in_witness <$> head (tx_input cb) = Some [reserved] ->
    tx_output cb = pre ++ out :: post -> Forall (fun o => commitment_output o = false) post ->
    out_script_pubkey out = commitment_magic ++ sha256d_hash (root ++ reserved) ->
    check_witness_commitment b = true
}.

Section template.
Context `{Hashing, !HexLaws, Secp256k1, BitcoinCrate, !ForkCrate, ChainClock, !TxLaws, MerkleCrate, !MinerLaws}.

(** ** What a miner builds *)

(** The transaction a template publishes as text. *)
Definition published_transaction (t : BitcoinMiningJobTransaction) : option Tx :=
  match hex_decode (mjt_data_hex t) with Ok raw => deserialize_tx raw | Err _ => None end.

(** The coinbase carries the published commitment in its last commitment output
    and thirty-two zero bytes as the reserved value; without a published
    commitment it has no witness. *)
Definition carries_commitment (cb : Tx) (commitment : option string) : Prop :=
  match commitment with
  | None => Forall (fun i => in_witness i = []) (tx_input cb)
  | Some script =>
      in_witness <$> head (tx_input cb) = Some [repeat x00 32] /\
      exists pre out post, tx_output cb = pre ++ out :: post /\ Forall (fun o => commitment_output o = false) post /\
        hex_decode script = Ok (out_script_pubkey out)
  end.

(** The script of the coinbase starts with a push of the height (BIP 34). *)
Definition pushes_height (cb : Tx) (height : N) : Prop :=
  exists input extra, head (tx_input cb) = Some input /\ (2 <= length (in_script_sig input) <= 100)%nat /\
    let encoded := minimal_script_number height in
    byte_values (in_script_sig input) = N.of_nat (length encoded) :: encoded ++ extra.

(** A block [b] with coinbase [cb] made from the fields of [tpl]. *)
Record fills_template (tpl : BitcoinMiningJobTemplate) (b : Block) (cb : Tx) : Prop := {
  ft_version : hd_version (bk_header b) = mj_version tpl;
  ft_parent : hash_to_string (hd_prev_blockhash (bk_header b)) = mj_previous_block_hash tpl;
  ft_time : hd_time (bk_header b) = mj_curtime tpl;
  ft_bits : padded_lower_hex 8 (hd_bits (bk_header b)) = mj_bits tpl;
  ft_pow : validate_pow (bk_header b) (target_from_compact (hd_bits (bk_header b))) = true;
  ft_transactions : map Some (bk_txdata b) = Some cb :: map published_transaction (mj_transactions tpl);
  ft_root : exists ids, map hash_to_string ids = mj_transaction_hashes tpl /\
    hd_merkle_root (bk_header b) = txid_merkle_root (compute_txid cb :: ids);
  ft_coinbase : is_coinbase cb = true;
  ft_commitment : carries_commitment cb (mj_default_witness_commitment tpl);
  ft_height : pushes_height cb (mj_height tpl);
  ft_outputs : Forall (fun o => out_value o <= MAX_MONEY_SATS) (tx_output cb);
  ft_value : outputs_total (tx_output cb) <= mj_coinbase_value_sats tpl;
  ft_weight : weight_of_tx cb <= MAX_BLOCK_WEIGHT - MAX_TEMPLATE_NON_COINBASE_WEIGHT_WU - 4 * 89
}.

(** ** The commitment *)

Lemma list_pair_ind {A} (P : list A -> Prop) :
  P [] -> (forall x, P [x]) -> (forall x y l, P l -> P (x :: y :: l)) -> forall l, P l.
Proof.
  intros Hnil Hone Hmore. assert (forall l, P l /\ forall x, P (x :: l)) as Hl; [|intros l; apply Hl].
  induction l as [|y l [IH1 IH2]]; [by split|]. split; [apply IH2|]. intros x. by apply Hmore.
Qed.

Lemma commitment_level_spec level :
  commitment_level level = map (fun '(l, r) => sha256d_hash (l ++ r)) (pair_up (pad_even level)).
Proof.
  induction level as [|l|l r rest IH] using list_pair_ind; [done..|]. cbn [commitment_level]. rewrite IH.
  unfold pad_even. cbn [length Nat.even]. destruct (Nat.even (length rest)) eqn:Hev; [done|].
  destruct rest as [|x rest]; [done|]. by rewrite !last_cons_cons.
Qed.

(** The loop of [witness_commitment_script] computes the root of Bitcoin's tree. *)
Lemma commitment_root_spec fuel : forall level root,
  commitment_root fuel level = Ok root -> merkle_root_of level root.
Proof.
  induction fuel as [|fuel IH]; intros [|l [|r rest]] root; cbn [commitment_root]; try done.
  1,2: intros [= <-]; constructor.
  intros Hr. apply merkle_up; [simpl; lia|]. rewrite <-commitment_level_spec. by apply IH.
Qed.

Lemma witness_commitment_script_Ok txs script :
  witness_commitment_script txs = Ok script ->
  exists root, merkle_root_of (repeat x00 32 :: map compute_wtxid txs) root /\
    script = hex_encode (commitment_magic ++ sha256d_hash (root ++ repeat x00 32)).
Proof.
  unfold witness_commitment_script. destruct txs as [|tx txs]; [done|]. intros Hs.
  apply bind_Ok in Hs as (root & Hroot & [= <-]). exists root. split; [by eapply commitment_root_spec|].
  by rewrite hex_encode_app, hex_encode_magic.
Qed.

(** ** A published template *)

(** How the fields of a template come from the store. *)
Record template_of (s : ForkChainStore) (tpl : BitcoinMiningJobTemplate) (st : ForkChainStatus) (mtp : N)
    (next : NextDifficulty) (txs : list Tx) (fees : N) : Prop := {
  to_status : status s = Ok st;
  to_height : checked_add 64 (cs_tip_height st) 1 = Some (mj_height tpl);
  to_mtp : median_time_past s (fcs_active_tip s) = Ok mtp;
  to_time : mtp < mj_curtime tpl;
  to_next : next_difficulty s (fcs_active_tip s) (mj_height tpl) (mj_curtime tpl) = Ok next;
  to_selected : template_transactions s (mj_height tpl) = Ok (txs, fees);
  to_value : mj_coinbase_value_sats tpl = block_subsidy_sats (mj_height tpl) + fees;
  to_value_fits : mj_coinbase_value_sats tpl < 2 ^ 64;
  to_version : mj_version tpl = FORK_BLOCK_VERSION;
  to_parent : mj_previous_block_hash tpl = cs_tip_hash st;
  to_bits : mj_bits tpl = padded_lower_hex 8 (nd_bits next);
  to_hashes : mj_transaction_hashes tpl = map (fun tx => hash_to_string (compute_txid tx)) txs;
  to_transactions : map published_transaction (mj_transactions tpl) = map Some txs;
  to_commitment : match mj_default_witness_commitment tpl with
                  | None => txs = []
                  | Some script => exists root, merkle_root_of (repeat x00 32 :: map compute_wtxid txs) root /\
                      script = hex_encode (commitment_magic ++ sha256d_hash (root ++ repeat x00 32))
                  end
}.

Lemma mining_template_Ok s now tpl :
  mining_template s now = Ok tpl -> exists st mtp next txs fees, template_of s tpl st mtp next txs fees.
Proof.
  unfold mining_template. intros Htpl. apply bind_Ok in Htpl as (st & Hst & Htpl).
  apply bind_Ok in Htpl as (ht & Hht%with_context_Ok & Htpl). apply bind_Ok in Htpl as (mtp & Hmtp & Htpl).
  apply bind_Ok in Htpl as (mint & Hmin%with_context_Ok & Htpl). apply checked_add_Some in Hmin as [-> _].
  case_match; [done|]. apply bind_Ok in Htpl as (next & Hnext & Htpl).
  apply bind_Ok in Htpl as ([txs fees] & Htxs & Htpl).
  apply bind_Ok in Htpl as (value & Hvalue%with_context_Ok & Htpl). apply bind_Ok in Htpl as (com & Hcom & [= <-]).
  apply checked_add_Some in Hvalue as [-> Hfit].
  exists st, mtp, next, txs, fees. split; try done; cbn [mj_curtime mj_transactions mj_default_witness_commitment].
  - lia.
  - rewrite map_map. apply map_ext. intros tx. unfold published_transaction. cbn [mjt_data_hex].
    by rewrite hex_decode_encode, deserialize_serialize_tx.
  - destruct txs as [|tx txs]; [by injection Hcom as <-|]. apply bind_Ok in Hcom as (script & Hs & [= <-]).
    by apply witness_commitment_script_Ok.
Qed.

Lemma map_injective {A B} (f : A -> B) : Inj (=) (=) f -> forall l l', map f l = map f l' -> l = l'.
Proof.
  intros Hf l. induction l as [|x l IH]; intros [|y l']; simpl; try done. intros [= Hxy Hl]. apply Hf in Hxy.
  apply IH in Hl. congruence.
Qed.

Lemma filled_transactions s tpl st mtp next txs fees b cb :
  template_of s tpl st mtp next txs fees -> fills_template tpl b cb -> bk_txdata b = cb :: txs.
Proof.
  intros Ht Hf. pose proof (ft_transactions _ _ _ Hf) as Htx. rewrite (to_transactions _ _ _ _ _ _ _ Ht) in Htx.
  change (Some cb :: map Some txs) with (map Some (cb :: txs)) in Htx.
  revert Htx. apply map_injective. by intros ?? [= ->].
Qed.

Lemma filled_root s tpl st mtp next txs fees b cb :
  template_of s tpl st mtp next txs fees -> fills_template tpl b cb -> check_merkle_root b = true.
Proof.
  intros Ht Hf. apply merkle_root_checks. rewrite (filled_transactions _ _ _ _ _ _ _ _ _ Ht Hf).
  destruct (ft_root _ _ _ Hf) as (ids & Hids & ->). cbn [map]. do 2 f_equal.
  rewrite (to_hashes _ _ _ _ _ _ _ Ht), <-(map_map compute_txid hash_to_string) in Hids.
  revert Hids. apply map_injective, hash_to_string_inj.
Qed.

Lemma filled_commitment s tpl st mtp next txs fees b cb :
  template_of s tpl st mtp next txs fees -> fills_template tpl b cb -> check_witness_commitment b = true.
Proof.
  intros Ht Hf. pose proof (filled_transactions _ _ _ _ _ _ _ _ _ Ht Hf) as Hb.
  pose proof (ft_commitment _ _ _ Hf) as Hc. pose proof (to_commitment _ _ _ _ _ _ _ Ht) as Hto.
  destruct (mj_default_witness_commitment tpl) as [script|]; simpl in Hc.
  - destruct Hto as (root & Hroot & ->). destruct Hc as (Hw & pre & out & post & Hout & Hpost & Hs).
    rewrite hex_decode_encode in Hs. injection Hs as Hs.
    by apply (commitment_checks b cb txs root (repeat x00 32) pre out post Hb (ft_coinbase _ _ _ Hf) Hroot).
  - subst txs. apply no_witness_checks. rewrite Hb. by constructor.
Qed.

Lemma filled_weight s tpl st mtp next txs fees b cb :
  template_of s tpl st mtp next txs fees -> fills_template tpl b cb -> weight_of_block b <= MAX_BLOCK_WEIGHT.
Proof.
  intros Ht Hf. pose proof (block_weight_sum b) as Hsum. pose proof (ft_weight _ _ _ Hf) as Hcb.
  pose proof (template_weight _ _ _ _ (to_selected _ _ _ _ _ _ _ Ht)) as Htxs.
  rewrite (filled_transactions _ _ _ _ _ _ _ _ _ Ht Hf) in Hsum. cbn [map] in Hsum. rewrite sum_N_cons in Hsum.
  unfold MAX_BLOCK_WEIGHT, MAX_TEMPLATE_NON_COINBASE_WEIGHT_WU in *. lia.
Qed.

(** The block passes the checks of its shape. *)
Lemma filled_shape s tpl st mtp next txs fees b cb :
  template_of s tpl st mtp next txs fees -> fills_template tpl b cb -> check_block_shape b = Ok cb.
Proof.
  intros Ht Hf. unfold check_block_shape.
  rewrite (proj2 (N.ltb_ge _ _)) by (by eapply filled_weight).
  rewrite (filled_transactions _ _ _ _ _ _ _ _ _ Ht Hf). cbn [head with_context ok_or mbind result_bind].
  rewrite (ft_coinbase _ _ _ Hf), (filled_root _ _ _ _ _ _ _ _ _ Ht Hf),
    (filled_commitment _ _ _ _ _ _ _ _ _ Ht Hf), (ft_version _ _ _ Hf), (to_version _ _ _ _ _ _ _ Ht).
  by rewrite Z.eqb_refl.
Qed.

Lemma script_number_length k v : (length (script_number_bytes k v) <= k)%nat.
Proof. revert v. induction k as [|k IH]; intros v; simpl; [done|]. case_match; simpl; [lia|]. specialize (IH (N.shiftr v 8)). lia. Qed.

Lemma minimal_script_number_length v : (length (minimal_script_number v) <= 9)%nat.
Proof.
  unfold minimal_script_number. pose proof (script_number_length 8 v) as Hb.
  set (b := script_number_bytes 8 v) in *. clearbody b. destruct (v =? 0); [simpl; lia|].
  destruct (last b) as [x|]; [|lia]. destruct (negb (N.land x 0x80 =? 0)); [rewrite length_app; simpl; lia|lia].
Qed.

Lemma pushes_height_Ok cb height : pushes_height cb height -> validate_coinbase_height cb height = Ok tt.
Proof.
  intros (input & extra & Hin & Hlen & Hs). unfold validate_coinbase_height. rewrite Hin.
  cbn [with_context ok_or mbind result_bind]. 
  assert (length (byte_values (in_script_sig input)) = length (in_script_sig input)) as -> by apply length_map.
  rewrite (proj2 (Nat.leb_le _ _)), (proj2 (Nat.leb_le _ _)) by lia. cbn [andb negb].
  assert (length (minimal_script_number height) <= 9)%nat as Henc.
  { apply minimal_script_number_length. }
  rewrite (proj2 (Nat.ltb_ge _ _)) by lia. simpl in Hs. rewrite Hs.
  assert (as_uint 8 (N.of_nat (length (minimal_script_number height))) = N.of_nat (length (minimal_script_number height))) as ->.
  { unfold as_uint. apply N.mod_small. change (2 ^ 8) with 256. lia. }
  rewrite bool_decide_true; [done|]. cbn [length take]. f_equal. apply take_app_length.
Qed.

(** ** The coinbase is new *)

(** A transaction of the store that differs from [cb] and has its txid. *)
Definition coinbase_collision (s : ForkChainStore) (cb : Tx) : Prop :=
  exists tx, ((exists h n, fcs_blocks s !! h = Some n /\ tx ∈ bk_txdata (bn_block n)) \/
              exists t, fcs_mempool s !! t = Some tx) /\
    strip_witness tx <> strip_witness cb /\ compute_txid tx = compute_txid cb.

Lemma mempool_fresh s cb :
  is_coinbase cb = true ->
  coinbase_collision s cb \/
  Forall (fun tx => is_coinbase tx = false -> compute_txid tx <> compute_txid cb) (map snd (map_to_list (fcs_mempool s))).
Proof.
  intros Hcb. destruct (Exists_dec (fun tx => is_coinbase tx = false /\ compute_txid tx = compute_txid cb)
    (map snd (map_to_list (fcs_mempool s)))) as [Hex|Hno].
  - left. apply Exists_exists in Hex as (tx & Htx & Hnc & Heq).
    apply list_elem_of_fmap in Htx as ([t tx'] & -> & Ht%elem_of_map_to_list). exists tx'. split; [eauto|].
    split; [|done]. intros Hs%(f_equal is_coinbase). rewrite !is_coinbase_strip in Hs. simpl in Hnc. congruence.
  - right. rewrite <-Forall_Exists_neg in Hno. eapply Forall_impl; [exact Hno|]. simpl. naive_solver.
Qed.

(** The coinbase of the next height repeats the txid of an earlier transaction of
    the branch only by a collision. *)
Lemma branch_fresh s h n cb l st height :
  nodes_ok s -> rules_ok s -> fcs_blocks s !! h = Some n -> branch s (Some h) l -> branch_state s (Some h) = Ok st ->
  is_coinbase cb = true -> validate_coinbase_height cb height = Ok tt -> bn_height n < height < 2 ^ 64 ->
  compute_txid cb ∈ bs_txids st -> coinbase_collision s cb.
Proof.
  intros Hok Hrules Hn Hl Hst Hcb Hv Hlt Hin. pose proof (branch_state_spec _ _ _ _ Hok Hl Hst) as Hus.
  rewrite (us_txids _ _ _ Hus), elem_of_list_to_set, list_elem_of_fmap in Hin.
  destruct Hin as ([ht tx] & Heq & Htx). unfold branch_txs in Htx. apply list_elem_of_bind in Htx as ([h' n'] & Htx & He).
  apply list_elem_of_fmap in Htx as (tx' & [= -> ->] & Htx). apply list_elem_of_In, in_rev, list_elem_of_In in He.
  pose proof (branch_stored _ _ _ _ _ Hl He) as Hn'. simpl in *.
  exists tx'. split; [eauto|]. split; [|done]. intros Hs.
  pose proof (f_equal is_coinbase Hs) as Hsc. rewrite !is_coinbase_strip, Hcb in Hsc.
  destruct (stored_coinbase s Hok h' n' Hn') as (cb2 & ? & _ & _ & Hv2 & Hu2). rewrite <-(Hu2 tx' Htx Hsc) in Hv2.
  apply list_elem_of_lookup in He as [i Hi]. pose proof (branch_heights s Hok _ _ _ _ _ _ Hl Hn Hi) as Hh.
  enough (bn_height n' = height) by lia.
  eapply coinbase_height_unique; [by eapply (stored_height s Hok Hrules)|lia|done..|].
  apply (f_equal (map in_script_sig ∘ tx_input)) in Hs. simpl in Hs. rewrite !map_map in Hs. exact Hs.
Qed.

(** The facts of the tip that [status] reports. *)
Lemma status_tip s st :
  status s = Ok st ->
  match fcs_active_tip s with
  | None => cs_tip_height st = fp_inherited_tip_height (fa_fork_point (fcs_manifest s)) /\
            cs_tip_hash st = hash_to_string (fcs_inherited_tip_hash s)
  | Some t => exists n, fcs_blocks s !! t = Some n /\ cs_tip_height st = bn_height n /\ cs_tip_hash st = hash_to_string t
  end.
Proof.
  unfold status. intros Hst. apply bind_Ok in Hst as ([[[[ht hs] w] ph] bits] & Htip & Hst). injection Hst as <-.
  cbn [cs_tip_height cs_tip_hash]. unfold tip_facts in Htip. destruct (fcs_active_tip s) as [t|].
  - apply bind_Ok in Htip as (n & Hn%expect_Ok & [= <- <- _ _ _]). eauto.
  - by injection Htip as <- <- _ _ _.
Qed.

Lemma coinbase_fresh s tpl st mtp next txs fees b cb bst :
  chain_ok s -> rules_ok s -> template_of s tpl st mtp next txs fees -> fills_template tpl b cb ->
  branch_state s (fcs_active_tip s) = Ok bst -> compute_txid cb ∈ bs_txids bst -> coinbase_collision s cb.
Proof.
  intros Hok Hrules Ht Hf Hbst Hin. pose proof (status_tip _ _ (to_status _ _ _ _ _ _ _ Ht)) as Htip.
  destruct (fcs_active_tip s) as [t|].
  - destruct Htip as (n & Hn & Hth & _). destruct (walk_total s (co_nodes _ Hok) (Some t)) as (l & Hl & _); [by exists n|].
    pose proof (to_height _ _ _ _ _ _ _ Ht) as [Hh Hfit]%checked_add_Some.
    eapply (branch_fresh s t n cb l bst (mj_height tpl) (co_nodes _ Hok)); try done;
      [by apply (ft_coinbase _ _ _ Hf)|by apply pushes_height_Ok, (ft_height _ _ _ Hf)|unfold fits in Hfit; lia].
  - rewrite branch_state_nil in Hbst. injection Hbst as <-. by apply not_elem_of_empty in Hin.
Qed.

(** The parent and height a template stands for. *)
Lemma template_parent s tpl st mtp next txs fees b cb :
  rules_ok s -> fcs_active_tip s <> Some (fcs_inherited_tip_hash s) ->
  template_of s tpl st mtp next txs fees -> fills_template tpl b cb ->
  exists work, block_parent s (hd_prev_blockhash (bk_header b)) = Ok (mj_height tpl, work, fcs_active_tip s).
Proof.
  intros Hrules Hne Ht Hf. pose proof (status_tip _ _ (to_status _ _ _ _ _ _ _ Ht)) as Htip.
  pose proof (ft_parent _ _ _ Hf) as Hp. rewrite (to_parent _ _ _ _ _ _ _ Ht) in Hp.
  pose proof (to_height _ _ _ _ _ _ _ Ht) as Hh. unfold block_parent.
  destruct (fcs_active_tip s) as [t|] eqn:Htip'.
  - destruct Htip as (n & Hn & Hth & Hts). rewrite Hts in Hp. apply hash_to_string_inj in Hp as ->.
    rewrite (proj2 (N.eqb_neq _ _)) by congruence. rewrite Hn. cbn [with_context ok_or mbind result_bind].
    rewrite <-Hth, Hh. by eexists.
  - destruct Htip as [Hth Hts]. rewrite Hts in Hp. apply hash_to_string_inj in Hp as ->. rewrite N.eqb_refl. exists 0.
    destruct Hrules as [Hm _]. apply fa_validate_facts in Hm as (Hfirst & _).
    apply checked_add_Some in Hh as [-> _]. by rewrite Hth, Hfirst.
Qed.

Lemma coinbase_sum_Ok (l : list TxOutput) : forall t0 bound,
  Forall (fun o => out_value o <= MAX_MONEY_SATS) l -> t0 + outputs_total l <= bound -> bound < 2 ^ 64 ->
  try_fold add_coinbase_output t0 l = Ok (t0 + outputs_total l).
Proof.
  induction l as [|o l IH]; intros t0 bound Hall Hle Hb; unfold outputs_total in *; cbn [map try_fold] in *.
  { f_equal. unfold sum_N. simpl. lia. }
  rewrite sum_N_cons in *.
  apply Forall_cons in Hall as [Ho Hall].
  assert (add_coinbase_output t0 o = Ok (t0 + out_value o)) as ->.
  { unfold add_coinbase_output, checked_add. rewrite (proj2 (N.ltb_ge _ _)) by lia.
    by rewrite (proj2 (N.ltb_lt _ _)) by lia. }
  cbn [mbind result_bind].
  rewrite (IH _ bound) by (done || lia). f_equal. lia.
Qed.

(** The coinbase pays at most the published value. *)
Lemma filled_reward s tpl st mtp next txs fees b cb :
  template_of s tpl st mtp next txs fees -> fills_template tpl b cb ->
  validate_coinbase_reward cb (mj_height tpl) fees = Ok tt.
Proof.
  intros Ht Hf. pose proof (to_value _ _ _ _ _ _ _ Ht) as Hv. pose proof (to_value_fits _ _ _ _ _ _ _ Ht) as Hfit.
  pose proof (ft_value _ _ _ Hf) as Hle. unfold validate_coinbase_reward.
  rewrite (coinbase_sum_Ok _ 0 (mj_coinbase_value_sats tpl) (ft_outputs _ _ _ Hf)) by lia.
  cbn [mbind result_bind]. unfold checked_add. rewrite (proj2 (N.ltb_lt _ _)) by lia.
  cbn [with_context ok_or mbind result_bind]. by rewrite (proj2 (N.ltb_ge _ _)) by lia.
Qed.

(** The transactions of the block are valid on the active branch. *)
Lemma filled_valid s tpl st mtp next txs fees b cb :
  chain_ok s -> rules_ok s -> template_of s tpl st mtp next txs fees -> fills_template tpl b cb ->
  txid_collision s \/ coinbase_collision s cb \/
  validate_block_transactions s b (mj_height tpl) (fcs_active_tip s) = Ok fees.
Proof.
  intros Hok Hrules Ht Hf. destruct (mempool_fresh s cb (ft_coinbase _ _ _ Hf)) as [?|Hmem]; [by right; left|].
  assert (stored s (fcs_active_tip s)) as Htip.
  { unfold stored. pose proof (co_best _ Hok) as Hbest. unfold best_tip in Hbest. case_match; [|done].
    destruct Hbest as (nt & Hnt & _). eauto. }
  destruct (branch_state s (fcs_active_tip s)) as [bst|e] eqn:Hbst.
  - destruct (decide (compute_txid cb ∈ bs_txids bst)) as [Hin|Hnew].
    { right; left. by eapply coinbase_fresh. }
    destruct (template_transactions_valid s (mj_height tpl) txs fees b cb (co_nodes _ Hok) Hrules Htip
      (to_selected _ _ _ _ _ _ _ Ht) (filled_transactions _ _ _ _ _ _ _ _ _ Ht Hf) (ft_coinbase _ _ _ Hf))
      as [?|Hvt]; [..|by left|by right; right].
    + pose proof (weight_tx_outputs cb) as Hout. pose proof (ft_weight _ _ _ Hf) as Hw.
      unfold MAX_BLOCK_WEIGHT, MAX_TEMPLATE_NON_COINBASE_WEIGHT_WU in Hw. lia.
    + done.
    + intros st' Hst'. congruence.
  - left. destruct (walk_total s (co_nodes _ Hok) _ Htip) as (l & Hl & _).
    destruct (branch_supply s (co_nodes _ Hok) Hrules _ _ Hl) as [?|(st' & Hst' & _)]; [done|congruence].
Qed.

(** C19 (liveness). A block mined from the published fields of a node's template is
    valid for that node. Whatever block has the version, parent, time and bits of
    the template in its header and meets these bits, carries the transactions
    decoded from their published texts behind a coinbase with the published
    height, witness commitment and at most the published value, and the Merkle
    root of the published txids, passes [validate_block] at the template's height
    until the node's clock is two hours behind it. The exceptions are two
    transactions of different content with the same txid, in the store or with
    the new coinbase. *)
Theorem template_block_accepted s now tpl b cb now' hex :
  reachable s -> mining_template s now = Ok tpl -> fcs_active_tip s <> Some (fcs_inherited_tip_hash s) ->
  fills_template tpl b cb -> mj_curtime tpl <= now' + MAX_FUTURE_BLOCK_SECONDS < 2 ^ 64 ->
  txid_collision s \/ coinbase_collision s cb \/
  exists n, validate_block s b hex now' = Ok n /\ bn_block n = b /\ bn_height n = mj_height tpl.
Proof.
  intros Hr Htpl Hne Hf Hnow. pose proof (reachable_ok _ Hr) as Hok. pose proof (reachable_rules _ Hr) as Hrules.
  apply mining_template_Ok in Htpl as (st & mtp & next & txs & fees & Ht).
  destruct (filled_valid _ _ _ _ _ _ _ _ _ Hok Hrules Ht Hf) as [?|[?|Hvt]]; [by left|by right; left|right; right].
  destruct (template_parent _ _ _ _ _ _ _ _ _ Hrules Hne Ht Hf) as [work Hparent].
  pose proof (ft_bits _ _ _ Hf) as Hbits. rewrite (to_bits _ _ _ _ _ _ _ Ht) in Hbits.
  apply padded_lower_hex_inj in Hbits. pose proof (ft_pow _ _ _ Hf) as Hpow. rewrite Hbits in Hpow.
  pose proof (to_time _ _ _ _ _ _ _ Ht) as Hmtp.
  unfold validate_block. rewrite (filled_shape _ _ _ _ _ _ _ _ _ Ht Hf). cbn [mbind result_bind].
  rewrite Hparent. cbn [mbind result_bind]. rewrite (ft_time _ _ _ Hf), (to_next _ _ _ _ _ _ _ Ht).
  cbn [mbind result_bind]. rewrite Hpow. cbn [ensure mbind result_bind].
  rewrite (to_mtp _ _ _ _ _ _ _ Ht). cbn [mbind result_bind]. rewrite (proj2 (N.leb_gt _ _)) by done.
  unfold checked_add at 1. rewrite (proj2 (N.ltb_lt _ _)) by lia. cbn [with_context ok_or mbind result_bind].
  rewrite (proj2 (N.ltb_ge _ _)) by lia. rewrite Hvt. cbn [mbind result_bind].
  rewrite (pushes_height_Ok _ _ (ft_height _ _ _ Hf)). cbn [mbind result_bind].
  rewrite (filled_reward _ _ _ _ _ _ _ _ _ Ht Hf). by eexists.
Qed.
End template.

(** ** The sample chain *)

#[local] Instance merkle_c : MerkleCrate := {| txid_merkle_root := sample_root |}.

Lemma hex_encode_c_app a b : hex_encode_c (a ++ b) = hex_encode_c a +:+ hex_encode_c b.
Proof. induction a as [|x a IH]; simpl; [done|]. by rewrite IH. Qed.

Lemma miner_laws_c : @MinerLaws hashing_c bitcoin_c secp_c fork_crate_c merkle_c.
Proof.
  split.
  - exact sample_deserialize_serialize.
  - cbn [hash_to_string fork_crate_c]. apply _.
  - exact hex_encode_c_app.
  - reflexivity.
  - intros b. apply be_bytes_length.
  - intros b. cbn [weight_of_block weight_of_tx fork_crate_c]. lia.
  - intros b Hb. cbn [check_merkle_root fork_crate_c]. by apply N.eqb_eq.
  - done.
  - done.
Qed.

Section sample.
Context `{Hashing, Secp256k1, BitcoinCrate, !ForkCrate, ChainClock, MerkleCrate}.

(** [fills_template] evaluated, for a template with a commitment and a coinbase
    that carries it in its last output. *)
Definition height_check (cb : Tx) (height : N) : bool :=
  match head (tx_input cb) with
  | Some input =>
      let encoded := minimal_script_number height in
      Nat.leb 2 (length (in_script_sig input)) && Nat.leb (length (in_script_sig input)) 100 &&
      bool_decide (take (S (length encoded)) (byte_values (in_script_sig input)) = N.of_nat (length encoded) :: encoded)
  | None => false
  end.

Definition commitment_check (cb : Tx) (commitment : option string) : bool :=
  match commitment, last (tx_output cb) with
  | Some script, Some out =>
      bool_decide (in_witness <$> head (tx_input cb) = Some [repeat x00 32]) &&
      match hex_decode script with Ok raw => bool_decide (raw = out_script_pubkey out) | Err _ => false end
  | _, _ => false
  end.

Definition fills_check (tpl : BitcoinMiningJobTemplate) (b : Block) (cb : Tx) : bool :=
  let header := bk_header b in
  let ids := map compute_txid (tail (bk_txdata b)) in
  (hd_version header =? mj_version tpl)%Z &&
  bool_decide (hash_to_string (hd_prev_blockhash header) = mj_previous_block_hash tpl) &&
  (hd_time header =? mj_curtime tpl) && bool_decide (padded_lower_hex 8 (hd_bits header) = mj_bits tpl) &&
  validate_pow header (target_from_compact (hd_bits header)) &&
  bool_decide (map Some (bk_txdata b) = Some cb :: map published_transaction (mj_transactions tpl)) &&
  bool_decide (map hash_to_string ids = mj_transaction_hashes tpl) &&
  (hd_merkle_root header =? txid_merkle_root (compute_txid cb :: ids)) && is_coinbase cb &&
  commitment_check cb (mj_default_witness_commitment tpl) && height_check cb (mj_height tpl) &&
  forallb (fun o => out_value o <=? MAX_MONEY_SATS) (tx_output cb) &&
  (outputs_total (tx_output cb) <=? mj_coinbase_value_sats tpl) &&
  (weight_of_tx cb <=? MAX_BLOCK_WEIGHT - MAX_TEMPLATE_NON_COINBASE_WEIGHT_WU - 4 * 89).

Lemma height_check_sound cb height : height_check cb height = true -> pushes_height cb height.
Proof.
  unfold height_check, pushes_height. destruct (head (tx_input cb)) as [input|]; [|done].
  rewrite !andb_true_iff, !Nat.leb_le. intros [[Hlo Hhi] Hs%bool_decide_eq_true_1].
  exists input, (drop (S (length (minimal_script_number height))) (byte_values (in_script_sig input))).
  split; [done|]. split; [done|]. simpl. rewrite app_comm_cons, <-Hs. by rewrite take_drop.
Qed.

Lemma commitment_check_sound cb commitment :
  commitment_check cb commitment = true -> carries_commitment cb commitment.
Proof.
  unfold commitment_check, carries_commitment. destruct commitment as [script|]; [|done].
  destruct (last (tx_output cb)) as [out|] eqn:Hlast; [|done]. rewrite andb_true_iff.
  intros [Hw%bool_decide_eq_true_1 Hs]. split; [done|]. apply last_Some in Hlast as [pre Hpre].
  exists pre, out, []. split_and!; [done|constructor|]. case_match; [|done]. by apply bool_decide_eq_true_1 in Hs as ->.
Qed.

Lemma fills_check_sound tpl b cb : fills_check tpl b cb = true -> fills_template tpl b cb.
Proof.
  unfold fills_check. rewrite !andb_true_iff, !bool_decide_eq_true, !N.eqb_eq, !N.leb_le, Z.eqb_eq.
  intros Hc. destruct_and?. split; try done.
  - by eexists.
  - by apply commitment_check_sound.
  - by apply height_check_sound.
  - apply Forall_forall. intros o Ho. match goal with Hf : forallb _ _ = true |- _ =>
      rewrite forallb_forall in Hf; apply N.leb_le, Hf end. by apply list_elem_of_In.
Qed.
End sample.

(** A coinbase and a block from the fields of a template. *)
Definition mined_coinbase (script : option string) : Tx :=
  let cb := sample_coinbase 0x87 5 5000001000 in
  let raw := match @hex_decode hashing_c (default EmptyString script) with Ok raw => raw | Err _ => [] end in
  {| tx_version := tx_version cb; tx_lock_time := tx_lock_time cb;
     tx_input := map (fun i => {| in_previous_output := in_previous_output i; in_script_sig := in_script_sig i;
                                  in_sequence := in_sequence i; in_witness := [repeat x00 32] |}) (tx_input cb);
     tx_output := tx_output cb ++ [{| out_value := 0; out_script_pubkey := raw |}] |}.

Definition sample_mined (tpl : BitcoinMiningJobTemplate) : Block :=
  sample_block 2 5 (mj_curtime tpl) [mined_coinbase (mj_default_witness_commitment tpl); spend_b].

Abbreviation template_c s now := (@mining_template hashing_c secp_c bitcoin_c fork_crate_c clock_c s now).
Abbreviation fills_check_c := (@fills_check hashing_c secp_c fork_crate_c clock_c merkle_c).

Lemma template_block_accepted_witness : exists s tpl,
  reachable_c s /\ template_c s 2800 = Ok tpl /\ length (mj_transactions tpl) = 1%nat /\
  (@txid_collision secp_c fork_crate_c s \/
   @coinbase_collision secp_c fork_crate_c s (mined_coinbase (mj_default_witness_commitment tpl)) \/
   exists n, @validate_block secp_c bitcoin_c fork_crate_c clock_c s (sample_mined tpl) EmptyString 2800 = Ok n /\
             bn_block n = sample_mined tpl /\ bn_height n = mj_height tpl).
Proof.
  assert (match sample_pending with
          | Ok s => match template_c s 2800 with
                    | Ok tpl => Nat.eqb (length (mj_transactions tpl)) 1 &&
                                negb (bool_decide (fcs_active_tip s = Some (fcs_inherited_tip_hash s))) &&
                                (mj_curtime tpl <=? 2800) &&
                                fills_check_c tpl (sample_mined tpl) (mined_coinbase (mj_default_witness_commitment tpl))
                    | Err _ => false end
          | Err _ => false end = true) as Hrun by (vm_compute; reflexivity).
  destruct sample_pending as [s|] eqn:Hs; [|discriminate].
  destruct (template_c s 2800) as [tpl|] eqn:Htpl; [|discriminate].
  apply andb_true_iff in Hrun as [Hrun Hfill]. apply andb_true_iff in Hrun as [Hrun Hnow].
  apply andb_true_iff in Hrun as [Hone Htip].
  apply Nat.eqb_eq in Hone. apply negb_true_iff, bool_decide_eq_false_1 in Htip. apply N.leb_le in Hnow.
  apply fills_check_sound in Hfill. apply sample_pending_reachable in Hs. exists s, tpl.
  split; [exact Hs|]. split; [exact Htpl|]. split; [exact Hone|].
  apply (@template_block_accepted hashing_c hex_laws_c secp_c bitcoin_c fork_crate_c clock_c tx_laws_c merkle_c
           miner_laws_c s 2800 tpl (sample_mined tpl) (mined_coinbase (mj_default_witness_commitment tpl)) 2800
           EmptyString Hs Htpl Htip Hfill).
  unfold MAX_FUTURE_BLOCK_SECONDS. change (2 ^ 64) with 18446744073709551616. lia.
Defined.
