(* ===== verification/ForkExplorer.v ===== *)
(** * The explorer views of the fork chain ([crates/p2pool-node/src/fork_chain.rs])

    Read-only queries of [ForkChainStore]: block pages and summaries, transaction
    details, address summaries, histories and unspent outputs.  Disassembly and
    address parsing are the [bitcoin] crate's. *)
From S2P Require Import Prelude Order Text Crates Concrete Fork ForkChain.
From Stdlib Require Import Strings.Byte.

Local Open Scope N_scope.

(** [Script::to_asm_string] and [Address]: a parsed address, whether it is valid
    for mainnet, and its text. *)
Class ExplorerCrate := {
  to_asm_string : bytes -> string;
  Address : Type;
  address_from_str : string -> option Address;
  address_is_mainnet : Address -> bool;
  address_to_string : Address -> string
}.

Record ForkBlockSummary := {
  fs_block_hash : string;
  fs_previous_block_hash : string;
  fs_height : N;
  fs_active : bool;
  fs_timestamp : N;
  fs_bits : string;
  fs_difficulty_phase : string;
  fs_cumulative_work : string;
  fs_version : Z;
  fs_nonce : N;
  fs_merkle_root : string;
  fs_transaction_count : nat;
  fs_size_bytes : N;
  fs_weight_wu : N;
  fs_coinbase_txid : string;
  fs_coinbase_value_sats : N;
  fs_coinbase_output_count : nat;
  fs_pohw_commitment_hash : option string
}.

Record ForkBlockPage := {
  bp_tip_height : N;
  bp_total : nat;
  bp_items : list ForkBlockSummary;
  bp_next_cursor : option string
}.

Record ForkPreviousOutput := {
  po_value_sats : N;
  po_script_pubkey_hex : string;
  po_script_pubkey_asm : string;
  po_script_type : string;
  po_address : option string;
  po_script_hash : string
}.

Record ForkTransactionInput := {
  ti_vin : nat;
  ti_coinbase : bool;
  ti_previous_txid : option string;
  ti_previous_vout : option N;
  ti_script_sig_hex : string;
  ti_script_sig_asm : string;
  ti_sequence : N;
  ti_witness : list string;
  ti_previous_output : option ForkPreviousOutput
}.

Record ForkTransactionOutput := {
  to_vout : N;
  to_value_sats : N;
  to_script_pubkey_hex : string;
  to_script_pubkey_asm : string;
  to_script_type : string;
  to_address : option string;
  to_script_hash : string;
  to_spent_by : option ForkOutputSpend
}.

Record ForkTransactionDetail := {
  td_txid : string;
  td_wtxid : bytes;
  td_block_hash : string;
  td_height : N;
  td_active : bool;
  td_transaction_index : nat;
  td_coinbase : bool;
  td_version : Z;
  td_lock_time : N;
  td_size_bytes : nat;
  td_weight_wu : N;
  td_input_count : nat;
  td_output_count : nat;
  td_total_input_sats : option N;
  td_total_output_sats : N;
  td_fee_sats : option N;
  td_spend_state_complete : bool;
  td_inputs : list ForkTransactionInput;
  td_outputs : list ForkTransactionOutput
}.

(** [ForkTransactionPage], [ForkAddressTransactionPage] and [ForkUtxoPage]: the
    key they are about, and a slice of a list. *)
Record ForkTransactionPage := {
  tp_block_hash : string;
  tp_total : nat;
  tp_items : list ForkTransactionRef;
  tp_next_cursor : option nat
}.

Record ForkAddressTransactionPage := {
  atp_address : string;
  atp_total : nat;
  atp_items : list ForkTransactionRef;
  atp_next_cursor : option nat
}.

Record ForkUtxoPage := {
  up_address : string;
  up_total : nat;
  up_items : list ForkUtxo;
  up_next_cursor : option nat
}.

Record ForkUnspentOutput := {
  uo_txid : string;
  uo_vout : N;
  uo_value_sats : N;
  uo_script_pubkey_hex : string;
  uo_height : N;
  uo_confirmations : N;
  uo_coinbase : bool
}.

(** [(1..=100).contains(&limit)] and the cursor bound. *)
Definition validate_numeric_page (cursor limit : nat) : chain_checked unit :=
  if negb ((1 <=? limit) && (limit <=? 100))%nat
  then Err (Bail "fork explorer page limit must be between 1 and 100")
  else if 10000000 <? N.of_nat cursor then Err (Bail "fork explorer cursor exceeds the supported range")
  else Ok tt.

(** [items[cursor..end]] with [end = (cursor + limit).min(total)], empty past the
    end, and [next_cursor]. *)
Definition page_items {A} (items : list A) (cursor limit : nat) : list A := take limit (drop cursor items).
Definition page_next {A} (items : list A) (cursor limit : nat) : option nat :=
  let last := Nat.min (cursor + limit) (length items) in
  if Nat.ltb last (length items) then Some last else None.

Section views.
Context `{Hashing, Secp256k1, BitcoinCrate, !ForkCrate, ChainClock, ExplorerCrate}.

Definition output_script_hash (output : TxOutput) : string := hex_encode (sha256 (out_script_pubkey output)).

Definition pohw_output (output : TxOutput) : option string :=
  let script := out_script_pubkey output in
  if Nat.eqb (length script) 39 && bool_decide (take 2 script = [x6a; x25]) &&
     bool_decide (take 5 (drop 2 script) = byte_str "POHW1")
  then Some (hex_encode (drop 7 script)) else None.

(** [find_map]. *)
Fixpoint find_map {A B} (f : A -> option B) (l : list A) : option B :=
  match l with
  | [] => None
  | x :: l' => match f x with Some y => Some y | None => find_map f l' end
  end.

Definition pohw_commitment_hash (block : Block) : option string :=
  coinbase ← head (bk_txdata block);
  find_map pohw_output (tx_output coinbase).

Definition is_active (s : ForkChainStore) (hash : BlockHash) (node : BlockNode) : bool :=
  bool_decide (fcs_active_by_height s !! bn_height node = Some hash).

(** [sum()] of [u64] values. *)
Definition block_summary_for_node (s : ForkChainStore) (hash : BlockHash) (node : BlockNode)
    : chain_checked ForkBlockSummary :=
  coinbase ← expect "validated fork blocks always contain a coinbase" (head (bk_txdata (bn_block node)));
  let header := bk_header (bn_block node) in
  Ok {| fs_block_hash := hash_to_string hash;
        fs_previous_block_hash := hash_to_string (hd_prev_blockhash header);
        fs_height := bn_height node; fs_active := is_active s hash node; fs_timestamp := hd_time header;
        fs_bits := padded_lower_hex 8 (hd_bits header);
        fs_difficulty_phase := phase_as_str (bn_difficulty_phase node);
        fs_cumulative_work := padded_lower_hex 64 (bn_cumulative_work node);
        fs_version := hd_version header; fs_nonce := hd_nonce header;
        fs_merkle_root := hash_to_string (hd_merkle_root header);
        fs_transaction_count := length (bk_txdata (bn_block node));
        fs_size_bytes := len (bn_block_hex node) / 2; fs_weight_wu := weight_of_block (bn_block node);
        fs_coinbase_txid := hash_to_string (compute_txid coinbase);
        fs_coinbase_value_sats := as_uint 64 (sum_N (map out_value (tx_output coinbase)));
        fs_coinbase_output_count := length (tx_output coinbase);
        fs_pohw_commitment_hash := pohw_commitment_hash (bn_block node) |}.

(** The order of [stored_block_order]: [(Reverse(height), hash)]. *)
Definition compare_stored (a b : N * BlockHash) : comparison := then_with (b.1 ?= a.1) (a.2 ?= b.2).
Definition stored_order (s : ForkChainStore) : list (N * BlockHash) :=
  sort_by compare_stored (elements (fcs_stored_block_order s)).

Definition after_key (key entry : N * BlockHash) : bool :=
  match compare_stored key entry with Lt => true | _ => false end.

(** The iterator of [block_page]. *)
Definition page_source (s : ForkChainStore) (cursor : option string) : chain_checked (list (N * BlockHash)) :=
  match cursor with
  | None => Ok (stored_order s)
  | Some text =>
      cursor ← with_context "fork block cursor is not a valid block hash" (hash_from_str text);
      node ← with_context "fork block cursor is not present in local replay" (fcs_blocks s !! cursor);
      let key := (bn_height node, cursor) in
      if negb (bool_decide (key ∈ fcs_stored_block_order s))
      then Err (Bail "fork block cursor is not present in the explorer index")
      else Ok (List.filter (after_key key) (stored_order s))
  end.

Definition block_page (s : ForkChainStore) (cursor : option string) (limit : nat) : chain_checked ForkBlockPage :=
  if negb ((1 <=? limit) && (limit <=? 100))%nat
  then Err (Bail "fork block page limit must be between 1 and 100")
  else
    ordered ← page_source s cursor;
    let page_hashes := take (S limit) ordered in
    let has_more := Nat.ltb limit (length page_hashes) in
    items ← try_map (fun entry : N * BlockHash =>
              node ← expect "indexed fork block must exist in block map" (fcs_blocks s !! entry.2);
              block_summary_for_node s entry.2 node) (take limit page_hashes);
    st ← status s;
    Ok {| bp_tip_height := cs_tip_height st; bp_total := size (fcs_stored_block_order s); bp_items := items;
          bp_next_cursor := if has_more then fs_block_hash <$> last items else None |}.

Definition block_summary (s : ForkChainStore) (block_hash : string) : chain_checked (option ForkBlockSummary) :=
  hash ← with_context "invalid fork block hash" (hash_from_str block_hash);
  match fcs_blocks s !! hash with
  | None => Ok None
  | Some node => summary ← block_summary_for_node s hash node; Ok (Some summary)
  end.

Definition block_transactions (s : ForkChainStore) (block_hash : string) (cursor limit : nat)
    : chain_checked (option ForkTransactionPage) :=
  _ ← validate_numeric_page cursor limit;
  hash ← with_context "invalid fork block hash" (hash_from_str block_hash);
  match fcs_blocks s !! hash with
  | None => Ok None
  | Some node =>
      let txs := bk_txdata (bn_block node) in
      items ← try_map (fun entry : nat * Tx =>
                transaction_ref entry.2 hash (bn_height node) (is_active s hash node) entry.1
                  (ei_outputs (fcs_explorer s)))
                (imap (fun offset tx => (cursor + offset, tx)%nat) (page_items txs cursor limit));
      Ok (Some {| tp_block_hash := hash_to_string hash; tp_total := length txs; tp_items := items;
                  tp_next_cursor := page_next txs cursor limit |})
  end.

Definition previous_output (output : TxOutput) : ForkPreviousOutput := {|
  po_value_sats := out_value output; po_script_pubkey_hex := hex_encode (out_script_pubkey output);
  po_script_pubkey_asm := to_asm_string (out_script_pubkey output); po_script_type := script_type output;
  po_address := output_address output; po_script_hash := output_script_hash output |}.

Definition input_view (tx : Tx) (outputs : gmap OutPoint IndexedForkOutput) (vin : nat) (input : TxInput)
    : ForkTransactionInput :=
  let coinbase := is_coinbase tx in {|
  ti_vin := vin; ti_coinbase := coinbase;
  ti_previous_txid := if coinbase then None else Some (hash_to_string (in_previous_output input).1);
  ti_previous_vout := if coinbase then None else Some (in_previous_output input).2;
  ti_script_sig_hex := hex_encode (in_script_sig input);
  ti_script_sig_asm := to_asm_string (in_script_sig input); ti_sequence := in_sequence input;
  ti_witness := map hex_encode (in_witness input);
  ti_previous_output :=
    if coinbase then None
    else (fun indexed => previous_output (ifo_output indexed)) <$> outputs !! in_previous_output input |}.

Definition output_view (tx : Tx) (active : bool) (spends : gmap OutPoint ForkOutputSpend) (entry : nat * TxOutput)
    : chain_checked ForkTransactionOutput :=
  let vout := N.of_nat entry.1 in
  if 2 ^ 32 <=? vout then Err (Panic "Bitcoin transaction output count fits u32")
  else
    Ok {| to_vout := vout; to_value_sats := out_value entry.2;
          to_script_pubkey_hex := hex_encode (out_script_pubkey entry.2);
          to_script_pubkey_asm := to_asm_string (out_script_pubkey entry.2);
          to_script_type := script_type entry.2; to_address := output_address entry.2;
          to_script_hash := output_script_hash entry.2;
          to_spent_by := if active then spends !! (compute_txid tx, vout) else None |}.

Definition transaction_detail_of (tx : Tx) (block_hash : BlockHash) (height : N) (active : bool)
    (transaction_index : nat) (outputs : gmap OutPoint IndexedForkOutput) (spends : gmap OutPoint ForkOutputSpend)
    : chain_checked ForkTransactionDetail :=
  amounts ← transaction_amounts tx outputs;
  let '(total_input_sats, total_output_sats, fee_sats) := amounts in
  views ← try_map (output_view tx active spends) (imap pair (tx_output tx));
  Ok {| td_txid := hash_to_string (compute_txid tx); td_wtxid := compute_wtxid tx;
        td_block_hash := hash_to_string block_hash; td_height := height; td_active := active;
        td_transaction_index := transaction_index; td_coinbase := is_coinbase tx; td_version := tx_version tx;
        td_lock_time := tx_lock_time tx; td_size_bytes := length (serialize_tx tx);
        td_weight_wu := weight_of_tx tx; td_input_count := length (tx_input tx);
        td_output_count := length (tx_output tx); td_total_input_sats := total_input_sats;
        td_total_output_sats := total_output_sats; td_fee_sats := fee_sats; td_spend_state_complete := active;
        td_inputs := imap (input_view tx outputs) (tx_input tx); td_outputs := views |}.

(** A place where a transaction is stored, with its block. *)
Record Match := {
  mt_hash : BlockHash;
  mt_node : BlockNode;
  mt_index : nat;
  mt_tx : Tx
}.

Definition resolve_location (s : ForkChainStore) (location : ForkTransactionLocation) : chain_checked Match :=
  node ← expect "indexed transaction block must exist" (fcs_blocks s !! tl_block_hash location);
  tx ← expect "indexed transaction position must exist"
         (bk_txdata (bn_block node) !! tl_transaction_index location);
  Ok {| mt_hash := tl_block_hash location; mt_node := node; mt_index := tl_transaction_index location;
        mt_tx := tx |}.

(** [bool::cmp]. *)
Definition compare_bool (a b : bool) : comparison :=
  match a, b with false, true => Lt | true, false => Gt | _, _ => Eq end.

Definition compare_matches (s : ForkChainStore) (left right : Match) : comparison :=
  then_with (compare_bool (is_active s (mt_hash right) (mt_node right)) (is_active s (mt_hash left) (mt_node left)))
    (then_with (bn_height (mt_node right) ?= bn_height (mt_node left))
       (then_with (Nat.compare (mt_index left) (mt_index right))
          (str_cmp (hash_to_string (mt_hash left)) (hash_to_string (mt_hash right))))).

Definition transaction_detail (s : ForkChainStore) (txid : string) : chain_checked (option ForkTransactionDetail) :=
  txid ← with_context "invalid fork transaction id" (hash_from_str txid);
  match fcs_transaction_locations s !! txid with
  | None => Ok None
  | Some locations =>
      matches ← try_map (resolve_location s) locations;
      match sort_by (compare_matches s) matches with
      | [] => Ok None
      | first :: _ =>
          detail ← transaction_detail_of (mt_tx first) (mt_hash first) (bn_height (mt_node first))
                     (is_active s (mt_hash first) (mt_node first)) (mt_index first)
                     (ei_outputs (fcs_explorer s)) (ei_spends (fcs_explorer s));
          Ok (Some detail)
      end
  end.

Definition normalize_mainnet_address (raw : string) : chain_checked string :=
  if (128 <? len raw) || negb (is_trimmed raw) then Err (Bail "fork explorer address is malformed")
  else
    address ← with_context "fork explorer address is not a Bitcoin address" (address_from_str raw);
    if address_is_mainnet address then Ok (address_to_string address)
    else Err (Bail "fork explorer address is not a Bitcoin mainnet address").

Definition empty_summary (address : string) : ForkAddressSummary := {|
  as_address := address; as_transaction_count := 0; as_funded_output_count := 0; as_funded_total_sats := 0;
  as_spent_output_count := 0; as_spent_total_sats := 0; as_inherited_input_count := 0;
  as_inherited_input_total_sats := 0; as_balance_sats := 0; as_balance_scope := "fork_created_utxos";
  as_first_seen_height := None; as_last_seen_height := None |}.

Definition address_summary (s : ForkChainStore) (address : string) : chain_checked ForkAddressSummary :=
  address ← normalize_mainnet_address address;
  Ok (default (empty_summary address) (ae_summary <$> ei_addresses (fcs_explorer s) !! address)).

Definition address_transactions (s : ForkChainStore) (address : string) (cursor limit : nat)
    : chain_checked ForkAddressTransactionPage :=
  _ ← validate_numeric_page cursor limit;
  address ← normalize_mainnet_address address;
  let items := default [] (ae_transactions <$> ei_addresses (fcs_explorer s) !! address) in
  Ok {| atp_address := address; atp_total := length items; atp_items := page_items items cursor limit;
        atp_next_cursor := page_next items cursor limit |}.

Definition address_utxos (s : ForkChainStore) (address : string) (cursor limit : nat)
    : chain_checked ForkUtxoPage :=
  _ ← validate_numeric_page cursor limit;
  address ← normalize_mainnet_address address;
  let items := default [] (ae_utxos <$> ei_addresses (fcs_explorer s) !! address) in
  Ok {| up_address := address; up_total := length items; up_items := page_items items cursor limit;
        up_next_cursor := page_next items cursor limit |}.

Definition unspent_output (s : ForkChainStore) (txid : string) (vout : N)
    : chain_checked (option ForkUnspentOutput) :=
  txid ← with_context "invalid fork transaction id" (hash_from_str txid);
  let outpoint := (txid, vout) in
  match ei_spends (fcs_explorer s) !! outpoint with
  | Some _ => Ok None
  | None =>
      match ei_outputs (fcs_explorer s) !! outpoint with
      | None => Ok None
      | Some indexed =>
          st ← status s;
          confirmations ← with_context "fork UTXO confirmation depth overflow"
                            (depth ← checked_sub (cs_tip_height st) (ifo_height indexed); checked_add 64 depth 1);
          Ok (Some {| uo_txid := hash_to_string txid; uo_vout := vout;
                      uo_value_sats := out_value (ifo_output indexed);
                      uo_script_pubkey_hex := hex_encode (out_script_pubkey (ifo_output indexed));
                      uo_height := ifo_height indexed; uo_confirmations := confirmations;
                      uo_coinbase := ifo_coinbase indexed |})
      end
  end.
End views.
