(* ===== verification/ForkExplorerBalance.v ===== *)
(** * The explorer shows the UTXO set

    The outputs and spends of the explorer index are those of the active branch;
    what it lists as unspent is the UTXO set that validates transactions, and the
    balance of an address is the value of its unspent outputs. *)
From S2P Require Import Prelude Order Text Crates Concrete Fork ForkChain ForkSample ForkChainInv ForkChainUtxo.
From S2P Require Import ForkChainReplay ForkExplorer.

Local Open Scope N_scope.

(** ** Loops over loops *)

Lemma try_fold_flatten {E A B C} (g : B -> C -> A -> result E C) (xs : B -> list A) bs acc :
  try_fold (fun acc b => try_fold (g b) acc (xs b)) acc bs =
  try_fold (fun acc p => g p.1 acc p.2) acc (bs ≫= fun b => map (pair b) (xs b)).
Proof.
  revert acc. induction bs as [|b bs IH]; intros acc; [done|]. rewrite bind_cons, try_fold_app. cbn [try_fold].
  assert (try_fold (g b) acc (xs b) = try_fold (fun acc p => g p.1 acc p.2) acc (map (pair b) (xs b))) as ->.
  { clear. revert acc. induction (xs b) as [|x l IH]; intros acc; cbn [try_fold map]; [done|].
    simpl. destruct (g b acc x); [apply IH|done]. }
  destruct (try_fold _ acc (map _ _)); [apply IH|done].
Qed.

Lemma try_fold_map {E A B C} (f : C -> B -> result E C) (h : A -> B) l acc :
  try_fold f acc (map h l) = try_fold (fun acc a => f acc (h a)) acc l.
Proof. revert acc. induction l as [|x l IH]; intros acc; simpl; [done|]. by destruct (f acc (h x)); simpl. Qed.

Lemma sum_N_filter {A} (P : A -> Prop) `{!forall x, Decision (P x)} (f : A -> N) l :
  sum_N (map f (filter P l)) = sum_N (map (fun x => if decide (P x) then f x else 0) l).
Proof.
  induction l as [|x l IH]; [done|]. rewrite filter_cons. cbn [map]. rewrite sum_N_cons.
  destruct (decide (P x)); cbn [map]; rewrite ?sum_N_cons, IH; lia.
Qed.

Section explorer.
Context `{Hashing, Secp256k1, BitcoinCrate, !ForkCrate, ChainClock}.

(** ** The active blocks *)

Definition height_entry (e : BlockHash * BlockNode) : N * BlockHash := (bn_height e.2, e.1).

Lemma height_index_list l : height_index l = list_to_map (map height_entry (rev l)).
Proof.
  unfold height_index. induction l as [|e l IH] using rev_ind; [done|].
  rewrite foldl_app, rev_unit. simpl. by rewrite IH.
Qed.

(** The heights of a branch ascend from its oldest block on. *)
Lemma branch_sorted s c l :
  nodes_ok s -> branch s c l -> StronglySorted (fun a b => a.1 < b.1) (map height_entry (rev l)).
Proof.
  intros Hok Hb. induction Hb as [|h n l Hn Hl IH]; [constructor|].
  simpl rev. rewrite map_app. apply StronglySorted_app. split_and!; [|done|repeat constructor].
  intros x y Hx ->%list_elem_of_singleton. apply list_elem_of_fmap in Hx as ([h' n'] & -> & Hin).
  apply list_elem_of_In, in_rev, list_elem_of_In in Hin. simpl.
  pose proof (parent_height s Hok h n Hn) as Hp. destruct (parent_of s n) as [p|].
  - destruct Hp as (np & Hnp & Hh). apply list_elem_of_lookup in Hin as [i Hi].
    pose proof (branch_heights s Hok _ _ _ _ _ _ Hl Hnp Hi). lia.
  - inversion Hl; subst. by apply not_elem_of_nil in Hin.
Qed.

Lemma active_entries s l :
  nodes_ok s -> branch s (fcs_active_tip s) l -> btree_entries_N (height_index l) = map height_entry (rev l).
Proof.
  intros Hok Hb. pose proof (branch_sorted s _ l Hok Hb) as Hs. unfold btree_entries_N.
  set (K := map height_entry (rev l)) in *.
  assert (NoDup K.*1) as Hnd.
  { clear Hb. induction Hs as [|x k Hs IH Hx]; [constructor|]. constructor; [|done].
    intros Hin. apply list_elem_of_fmap in Hin as (y & Heq & Hy). rewrite Forall_forall in Hx.
    specialize (Hx y Hy). lia. }
  rewrite height_index_list. fold K.
  assert (sort_by (fun a b : N * BlockHash => a.1 ?= b.1) (map_to_list (list_to_map K : gmap N BlockHash)) =
          sort_by (fun a b : N * BlockHash => a.1 ?= b.1) K) as ->.
  { apply sort_by_unique; [apply _| |by apply map_to_list_to_map].
    intros [x1 x2] [y1 y2] Hx Hy Heq%N.compare_eq. simpl in Heq. subst.
    apply elem_of_map_to_list in Hx, Hy. by simplify_eq. }
  apply sort_by_id. clear Hb Hnd. induction Hs as [|x k Hs IH Hx]; constructor; [done|].
  eapply Forall_impl; [exact Hx|]. intros y Hlt. unfold cmp_le. by rewrite (proj2 (N.compare_lt_iff _ _) Hlt).
Qed.

Definition active_entry (e : BlockHash * BlockNode) : N * BlockHash * BlockNode := (height_entry e, e.2).

Lemma active_blocks_branch s l :
  nodes_ok s -> branch s (fcs_active_tip s) l -> fcs_active_by_height s = height_index l ->
  active_blocks s = Ok (map active_entry (rev l)).
Proof.
  intros Hok Hb Ha. unfold active_blocks. rewrite Ha, (active_entries s l) by done.
  apply try_map_Ok. rewrite Forall2_fmap. apply Forall_Forall2_diag, Forall_forall. intros [h n] Hin.
  apply list_elem_of_In, in_rev, list_elem_of_In in Hin. simpl. by rewrite (branch_stored _ _ _ _ _ Hb Hin).
Qed.

(** A pass over the transactions of the active blocks is a pass over [branch_txs]. *)
Lemma active_txs_fold {C} (f : N -> C -> Tx -> chain_checked C) acc l :
  try_fold (fun acc (b : N * BlockHash * BlockNode) => try_fold (f b.1.1) acc (bk_txdata (bn_block b.2)))
    acc (map active_entry (rev l)) =
  try_fold (fun acc (e : N * Tx) => f e.1 acc e.2) acc (branch_txs l).
Proof.
  rewrite try_fold_map. simpl. unfold branch_txs.
  rewrite (try_fold_flatten (fun (e : BlockHash * BlockNode) acc tx => f (bn_height e.2) acc tx)
             (fun e => bk_txdata (bn_block e.2))).
  generalize (rev l). intros k. revert acc. induction k as [|e k IH]; intros acc; [done|].
  rewrite !bind_cons, !try_fold_app, !try_fold_map. simpl. destruct (try_fold _ acc _); [apply IH|done].
Qed.

(** ** Totals per address *)

Definition addr_value (a : string) (x : IndexedForkOutput) : N :=
  if decide (output_address (ifo_output x) = Some a) then output_value x else 0.
Definition addr_total (a : string) (m : gmap OutPoint IndexedForkOutput) : N :=
  sum_N (map (fun e => addr_value a e.2) (map_to_list m)).

Lemma addr_total_insert a m o x :
  m !! o = None -> addr_total a (<[o := x]> m) = addr_value a x + addr_total a m.
Proof.
  intros Ho. unfold addr_total. rewrite <-sum_N_cons. apply sum_N_perm.
  change (addr_value a x :: map (fun e => addr_value a e.2) (map_to_list m)) with
    (map (fun e : OutPoint * IndexedForkOutput => addr_value a e.2) ((o, x) :: map_to_list m)).
  apply Permutation_map. by apply map_to_list_insert.
Qed.

Lemma addr_total_delete a m o x :
  m !! o = Some x -> addr_total a m = addr_value a x + addr_total a (delete o m).
Proof. intros Ho. rewrite <-(insert_delete_id m o x) at 1 by done. apply addr_total_insert, lookup_delete_eq. Qed.

(** The value of the listed outputs, and what remains without them. *)
Definition listed_total (a : string) (m : gmap OutPoint IndexedForkOutput) (l : list OutPoint) : N :=
  sum_N (map (fun o => default 0 (addr_value a <$> m !! o)) l).

Lemma addr_total_without a l : forall m m',
  NoDup l -> (forall o, o ∈ l -> is_Some (m !! o)) ->
  (forall o x, m' !! o = Some x <-> m !! o = Some x /\ o ∉ l) ->
  addr_total a m = listed_total a m l + addr_total a m'.
Proof.
  induction l as [|o l IH]; intros m m' Hnd Hin Hm'.
  - assert (m' = m) as ->; [|unfold listed_total; simpl; lia]. apply map_eq. intros o. apply option_eq. intros x.
    rewrite Hm'. set_solver.
  - apply NoDup_cons in Hnd as [Ho Hnd]. destruct (Hin o) as [x Hx]; [apply list_elem_of_here|].
    rewrite (addr_total_delete _ _ _ _ Hx). rewrite (IH (delete o m) m').
    + unfold listed_total. cbn [map]. rewrite sum_N_cons, Hx. simpl.
      assert (map (fun o' => default 0 (addr_value a <$> delete o m !! o')) l =
              map (fun o' => default 0 (addr_value a <$> m !! o')) l) as ->; [|lia].
      apply map_ext_Forall, Forall_forall. intros o' Ho'. rewrite lookup_delete_ne; [done|]. by intros ->.
    + done.
    + intros o' Ho'. rewrite lookup_delete_ne by (by intros ->). apply Hin. by right.
    + intros o' x'. rewrite Hm', lookup_delete_Some, not_elem_of_cons. naive_solver.
Qed.

(** ** The accumulators *)

Definition funded (accs : gmap string ForkAddressAccumulator) (a : string) : N :=
  default 0 (aa_funded_total_sats <$> accs !! a).
Definition drawn (accs : gmap string ForkAddressAccumulator) (a : string) : N :=
  default 0 (aa_spent_total_sats <$> accs !! a).

Lemma accumulate_fund txid ht v address accs accs' :
  accumulate (fund_accumulator txid ht v) address accs = Ok accs' ->
  (forall a, funded accs' a = funded accs a + if decide (address = a) then v else 0) /\
  (forall a, drawn accs' a = drawn accs a).
Proof.
  unfold accumulate, fund_accumulator. intros Hacc. chain_inv. subst.
  match goal with Hc : checked_add _ _ _ = Some _ |- _ => apply checked_add_Some in Hc as [-> _] end.
  unfold funded, drawn. split; intros a; (destruct (decide (address = a)) as [->|Hne];
    [rewrite lookup_insert_eq; by destruct (accs !! a)|rewrite lookup_insert_ne by done; lia]).
Qed.

Lemma accumulate_spend txid ht v address accs accs' :
  accumulate (spend_accumulator txid ht v) address accs = Ok accs' ->
  (forall a, drawn accs' a = drawn accs a + if decide (address = a) then v else 0) /\
  (forall a, funded accs' a = funded accs a).
Proof.
  unfold accumulate, spend_accumulator. intros Hacc. chain_inv. subst.
  match goal with Hc : checked_add _ _ _ = Some _ |- _ => apply checked_add_Some in Hc as [-> _] end.
  unfold funded, drawn. split; intros a; (destruct (decide (address = a)) as [->|Hne];
    [rewrite lookup_insert_eq; by destruct (accs !! a)|rewrite lookup_insert_ne by done; lia]).
Qed.

(** The first pass over one transaction whose txid is new. *)
Lemma index_outputs_spec tx ht outs : forall vout acc acc',
  (forall v, vout <= v -> acc.1 !! (compute_txid tx, v) = None) ->
  index_outputs tx ht vout outs acc = Ok acc' ->
  (forall o x, acc'.1 !! o = Some x <-> acc.1 !! o = Some x \/
     exists k, o = (compute_txid tx, vout + N.of_nat k) /\
       x = {| ifo_output := ifo_output x; ifo_height := ht; ifo_coinbase := is_coinbase tx |} /\
       outs !! k = Some (ifo_output x)) /\
  (forall a, funded acc'.2 a + addr_total a acc.1 = funded acc.2 a + addr_total a acc'.1) /\
  (forall a, drawn acc'.2 a = drawn acc.2 a).
Proof.
  induction outs as [|out outs IH]; intros vout acc acc' Hfree; cbn [index_outputs].
  { intros [= <-]. split; [naive_solver|]. split; [intros; lia|done]. }
  case_match; [done|]. intros Hf. apply bind_Ok in Hf as (accs & Haccs & Hf).
  set (o := (compute_txid tx, vout)) in *.
  set (x := {| ifo_output := out; ifo_height := ht; ifo_coinbase := is_coinbase tx |}) in *.
  assert (acc.1 !! o = None) as Ho by (apply Hfree; lia).
  assert ((forall a, funded accs a = funded acc.2 a + addr_value a x) /\ (forall a, drawn accs a = drawn acc.2 a))
    as [Hfu Hdr].
  { unfold addr_value; simpl. destruct (output_address out) as [address|] eqn:Ha.
    - apply accumulate_fund in Haccs as [Hfu Hdr]. split; [|done]. intros a. rewrite Hfu. unfold output_value; simpl.
      destruct (decide (address = a)), (decide (Some address = Some a)); try congruence; done.
    - injection Haccs as <-. split; [|done]. intros a. destruct (decide (None = Some a)); [done|]. lia. }
  apply IH in Hf as (Hl & Hfund & Hdrawn); [|intros v Hv; simpl; rewrite lookup_insert_ne; [apply Hfree; lia|intros [=]; lia]].
  simpl in *. split_and!.
  - intros o' x'. rewrite Hl, lookup_insert_Some. split.
    + intros [[[<- <-]|[Hne Ho']]|(k & -> & Hx & Hk)]; [right|by left|right].
      * exists 0%nat. by rewrite N.add_0_r.
      * exists (S k). split; [f_equal; lia|done].
    + intros [Ho'|([|k] & -> & Hx & Hk)].
      * left. right. split; [congruence|done].
      * left. left. rewrite N.add_0_r. split; [done|]. simpl in Hk. injection Hk as Hk. by rewrite Hx, <-Hk.
      * right. exists k. split; [f_equal; lia|done].
  - intros a. specialize (Hfund a). rewrite addr_total_insert, Hfu in Hfund by done. lia.
  - intros a. by rewrite Hdrawn, Hdr.
Qed.

(** Every address that is paid has an accumulator. *)
Definition accounted (outputs : gmap OutPoint IndexedForkOutput) (accs : gmap string ForkAddressAccumulator) : Prop :=
  forall o x a, outputs !! o = Some x -> output_address (ifo_output x) = Some a -> is_Some (accs !! a).

Lemma accumulate_dom f address accs accs' :
  accumulate f address accs = Ok accs' ->
  is_Some (accs' !! address) /\ (forall a, is_Some (accs !! a) -> is_Some (accs' !! a)).
Proof.
  unfold accumulate. intros Hacc. apply bind_Ok in Hacc as (v & _ & [= <-]).
  split; [by rewrite lookup_insert_eq|]. intros a Ha. rewrite lookup_insert_is_Some'. by right.
Qed.

Lemma index_outputs_accounted tx ht outs : forall vout acc acc',
  accounted acc.1 acc.2 -> index_outputs tx ht vout outs acc = Ok acc' -> accounted acc'.1 acc'.2.
Proof.
  induction outs as [|out outs IH]; intros vout acc acc' Hacc; cbn [index_outputs]; [by intros [= <-]|].
  case_match; [done|]. intros Hf. apply bind_Ok in Hf as (accs & Haccs & Hf). eapply IH, Hf. simpl.
  assert (forall a, output_address out = Some a -> is_Some (accs !! a)) as Hout.
  { intros a Ha. rewrite Ha in Haccs. by apply accumulate_dom in Haccs as [? _]. }
  assert (forall a, is_Some (acc.2 !! a) -> is_Some (accs !! a)) as Hmono.
  { destruct (output_address out); [by apply accumulate_dom in Haccs as [_ ?]|by injection Haccs as <-]. }
  intros o x a [[<- <-]|[_ Ho]]%lookup_insert_Some Ha; eauto.
Qed.

(** ** The passes over a branch *)

Definition output_pass (acc : gmap OutPoint IndexedForkOutput * gmap string ForkAddressAccumulator) (e : N * Tx) :=
  index_outputs e.2 e.1 0 (tx_output e.2) acc.

Lemma output_pass_spec L acc :
  NoDup (map (compute_txid ∘ snd) L) -> try_fold output_pass (∅, ∅) L = Ok acc ->
  (forall o x, acc.1 !! o = Some x <-> created L o x) /\
  (forall a, funded acc.2 a = addr_total a acc.1) /\ (forall a, drawn acc.2 a = 0) /\ accounted acc.1 acc.2.
Proof.
  revert acc. induction L as [|e L IH] using rev_ind; intros acc Hnd Hf.
  { injection Hf as <-. simpl. split_and!; [|done..|by intros ?].
    intros o x. split; [done|]. by intros (? & ? & ? & ?%not_elem_of_nil & _). }
  rewrite map_app, NoDup_app in Hnd. destruct Hnd as (Hnd & Hfresh & _).
  rewrite try_fold_app in Hf. destruct (try_fold output_pass (∅, ∅) L) as [acc0|] eqn:Hf0; [|done].
  destruct (IH acc0 Hnd eq_refl) as (Hl & Hfu & Hdr & Hacc). simpl in Hf. apply bind_Ok in Hf as (acc1 & Hf & [= ->]).
  pose proof (index_outputs_accounted _ _ _ _ _ _ Hacc Hf) as Hacc'.
  apply index_outputs_spec in Hf as (Hl' & Hfu' & Hdr').
  - split_and!; [|..|done].
    + intros o x. rewrite Hl', Hl, created_snoc. destruct e. by rewrite created_one.
    + intros a. specialize (Hfu' a). rewrite Hfu in Hfu'. lia.
    + intros a. by rewrite Hdr', Hdr.
  - intros v _. apply eq_None_not_Some. intros [x Hx%Hl%created_txid]. simpl in Hx.
    apply (Hfresh _ Hx). simpl. by apply list_elem_of_singleton.
Qed.

Definition spend_pass (outputs : gmap OutPoint IndexedForkOutput)
    (acc : gmap OutPoint ForkOutputSpend * gmap string ForkAddressAccumulator) (e : N * Tx) :=
  index_tx_spends outputs e.1 acc e.2.

Lemma listed_total_app a m l1 l2 : listed_total a m (l1 ++ l2) = listed_total a m l1 + listed_total a m l2.
Proof. unfold listed_total. by rewrite map_app, sum_N_app. Qed.

Lemma index_spends_spec outputs tx ht l : forall vin acc acc',
  index_spends outputs tx ht vin l acc = Ok acc' ->
  (forall o, is_Some (acc'.1 !! o) <-> is_Some (acc.1 !! o) \/ o ∈ map in_previous_output l) /\
  (forall a, drawn acc'.2 a = drawn acc.2 a + listed_total a outputs (map in_previous_output l)) /\
  (forall a, funded acc'.2 a = funded acc.2 a) /\ (forall a, is_Some (acc.2 !! a) -> is_Some (acc'.2 !! a)).
Proof.
  induction l as [|i l IH]; intros vin acc acc'; cbn [index_spends].
  { intros [= <-]. split_and!; [|intros; unfold listed_total; simpl; lia|done..]. set_solver. }
  intros Hf. apply bind_Ok in Hf as (accs & Haccs & Hf).
  assert ((forall a, drawn accs a = drawn acc.2 a + listed_total a outputs [in_previous_output i]) /\
          (forall a, funded accs a = funded acc.2 a) /\ (forall a, is_Some (acc.2 !! a) -> is_Some (accs !! a)))
    as (Hdr & Hfu & Hdom).
  { unfold listed_total, addr_value, output_value. simpl.
    destruct (outputs !! in_previous_output i) as [x|]; simpl; [|injection Haccs as <-; split_and!; [intros; lia|done..]].
    destruct (output_address (ifo_output x)) as [address|] eqn:Ha.
    - pose proof (accumulate_dom _ _ _ _ Haccs) as [_ ?]. apply accumulate_spend in Haccs as [Hd Hf'].
      split_and!; [|done..]. intros a. rewrite Hd.
      destruct (decide (address = a)), (decide (Some address = Some a)); try congruence; lia.
    - injection Haccs as <-. split_and!; [|done..]. intros a. destruct (decide (None = Some a)); [done|]. lia. }
  apply IH in Hf as (Hs & Hdr' & Hfu' & Hdom'). simpl in *. split_and!.
  - intros o. rewrite Hs, lookup_insert_is_Some', elem_of_cons. naive_solver.
  - intros a. rewrite Hdr', Hdr. rewrite <-N.add_assoc, <-listed_total_app. done.
  - intros a. by rewrite Hfu', Hfu.
  - eauto.
Qed.

Lemma spend_pass_spec outputs L : forall acc acc',
  try_fold (spend_pass outputs) acc L = Ok acc' ->
  (forall o, is_Some (acc'.1 !! o) <-> is_Some (acc.1 !! o) \/ o ∈ spent L) /\
  (forall a, drawn acc'.2 a = drawn acc.2 a + listed_total a outputs (spent L)) /\
  (forall a, funded acc'.2 a = funded acc.2 a) /\ (forall a, is_Some (acc.2 !! a) -> is_Some (acc'.2 !! a)).
Proof.
  induction L as [|e L IH]; intros acc acc' Hf.
  { injection Hf as <-. split_and!; [set_solver|intros; unfold listed_total; simpl; lia|done..]. }
  simpl in Hf. apply bind_Ok in Hf as (acc1 & Hp & Hf). apply IH in Hf as (Hs & Hdr & Hfu & Hdom).
  assert ((forall o, is_Some (acc1.1 !! o) <-> is_Some (acc.1 !! o) \/ o ∈ spends_of e.2) /\
    (forall a, drawn acc1.2 a = drawn acc.2 a + listed_total a outputs (spends_of e.2)) /\
    (forall a, funded acc1.2 a = funded acc.2 a) /\ (forall a, is_Some (acc.2 !! a) -> is_Some (acc1.2 !! a)))
    as (Hs1 & Hdr1 & Hfu1 & Hdom1).
  { unfold spend_pass, index_tx_spends in Hp. unfold spends_of. destruct (is_coinbase e.2).
    - injection Hp as <-. split_and!; [set_solver|intros; unfold listed_total; simpl; lia|done..].
    - by eapply index_spends_spec. }
  change (spent (e :: L)) with (spends_of e.2 ++ spent L). split_and!.
  - intros o. rewrite Hs, Hs1, elem_of_app. tauto.
  - intros a. rewrite Hdr, Hdr1, listed_total_app. lia.
  - intros a. by rewrite Hfu.
  - eauto.
Qed.

(** The third pass leaves the summaries and the unspent outputs alone. *)
Definition entry_facts (e : ForkAddressIndexEntry) : ForkAddressSummary * list ForkUtxo := (ae_summary e, ae_utxos e).

Lemma push_transaction_facts t addresses address :
  entry_facts <$> push_transaction t addresses address = entry_facts <$> addresses.
Proof.
  unfold push_transaction. apply map_eq. intros a. rewrite !lookup_fmap.
  destruct (decide (address = a)) as [->|Hne]; [rewrite lookup_alter_eq|by rewrite lookup_alter_ne].
  by destruct (addresses !! a).
Qed.

Lemma push_all_facts t l : forall addresses,
  entry_facts <$> foldl (push_transaction t) addresses l = entry_facts <$> addresses.
Proof.
  induction l as [|a l IH]; intros addresses; [done|]. simpl. by rewrite IH, push_transaction_facts.
Qed.

Lemma index_tx_ref_facts outputs h ht addresses e addresses' :
  index_tx_ref outputs h ht addresses e = Ok addresses' ->
  entry_facts <$> addresses' = entry_facts <$> addresses.
Proof.
  unfold index_tx_ref. destruct (btree_set_list _) as [|a l]; [by intros [= <-]|].
  intros Hf. apply bind_Ok in Hf as (t & _ & [= <-]). exact (push_all_facts t (a :: l) addresses).
Qed.

Lemma ref_pass_facts outputs (blocks : list (N * BlockHash * BlockNode)) addresses addresses' :
  try_fold (fun acc (b : N * BlockHash * BlockNode) =>
    try_fold (index_tx_ref outputs b.1.2 b.1.1) acc (rev (imap pair (bk_txdata (bn_block b.2))))) addresses blocks =
    Ok addresses' ->
  entry_facts <$> addresses' = entry_facts <$> addresses.
Proof.
  rewrite (try_fold_flatten (fun b : N * BlockHash * BlockNode => index_tx_ref outputs b.1.2 b.1.1)
             (fun b => rev (imap pair (bk_txdata (bn_block b.2))))).
  intros Hf. apply (try_fold_inv _ (fun _ acc => entry_facts <$> acc = entry_facts <$> addresses)) in Hf; [done|done|].
  intros l [b e] acc acc' Hacc Hstep%index_tx_ref_facts. congruence.
Qed.

(** The fourth pass appends the unspent outputs of each address. *)
Definition unspent_of (spends : gmap OutPoint ForkOutputSpend) (a : string) (e : OutPoint * IndexedForkOutput) : Prop :=
  spends !! e.1 = None /\ output_address (ifo_output e.2) = Some a.
#[global] Instance unspent_of_dec spends a e : Decision (unspent_of spends a e).
Proof. unfold unspent_of. apply _. Defined.

Lemma index_utxo_facts spends l : forall addresses a,
  entry_facts <$> foldl (index_utxo spends) addresses l !! a =
  (fun f : ForkAddressSummary * list ForkUtxo => (f.1, f.2 ++ map utxo_entry (filter (unspent_of spends a) l))) <$>
    (entry_facts <$> addresses !! a).
Proof.
  induction l as [|e l IH]; intros addresses a.
  - simpl. destruct (addresses !! a) as [x|]; [|done]. simpl. by rewrite app_nil_r.
  - cbn [foldl]. rewrite IH, filter_cons. unfold index_utxo, push_utxo.
    destruct (decide (unspent_of spends a e)) as [[Hs Ha]|Hno].
    + rewrite Hs, Ha, lookup_alter_eq. destruct (addresses !! a); [|done]. simpl. by rewrite <-app_assoc.
    + unfold unspent_of in Hno. destruct (spends !! e.1); [done|].
      destruct (output_address (ifo_output e.2)) as [b|]; [|done]. rewrite lookup_alter_ne; [done|]. naive_solver.
Qed.

(** The entries made from the accumulators. *)
Lemma address_entries accs entries :
  try_map (fun e : string * ForkAddressAccumulator => entry ← address_entry e.1 e.2; Ok (e.1, entry))
    (btree_entries accs) = Ok entries ->
  forall a, (is_Some (accs !! a) -> is_Some ((list_to_map entries : gmap string ForkAddressIndexEntry) !! a)) /\
    forall e, (list_to_map entries : gmap string ForkAddressIndexEntry) !! a = Some e ->
      ae_utxos e = [] /\ as_balance_sats (ae_summary e) + drawn accs a = funded accs a.
Proof.
  intros Hm%try_map_Ok a. split.
  - intros [v Hv]. apply btree_entries_elem in Hv. apply list_elem_of_lookup in Hv as [i Hi].
    destruct (Forall2_lookup_l _ _ _ _ _ Hm Hi) as ([a' e] & He & Hok). simpl in Hok.
    apply bind_Ok in Hok as (? & _ & [= <- <-]).
    apply not_eq_None_Some. intros Hnone%not_elem_of_list_to_map_2. apply Hnone, list_elem_of_fmap.
    eexists. split; [|by eapply list_elem_of_lookup_2]. done.
  - intros e He%elem_of_list_to_map_2. apply list_elem_of_lookup in He as [i Hi].
    destruct (Forall2_lookup_r _ _ _ _ _ Hm Hi) as ([a' v] & Hv & Hok). simpl in Hok.
    apply bind_Ok in Hok as (e' & Hent & [= -> ->]). apply list_elem_of_lookup_2, btree_entries_elem in Hv.
    unfold address_entry in Hent. chain_inv. subst. simpl.
    match goal with Hc : checked_sub _ _ = Some _ |- _ => apply checked_sub_Some in Hc as [-> ?] end.
    unfold funded, drawn. rewrite Hv. simpl. split; [done|lia].
Qed.

(** ** The index and the UTXO set *)

(** What the explorer shows as unspent, [unspent_output]. *)
Definition shown_unspent (e : ForkExplorerIndex) (o : OutPoint) : option IndexedForkOutput :=
  match ei_spends e !! o with Some _ => None | None => ei_outputs e !! o end.
Definition shown_balance (e : ForkExplorerIndex) (a : string) : N :=
  default 0 (as_balance_sats ∘ ae_summary <$> ei_addresses e !! a).
Definition shown_utxos (e : ForkExplorerIndex) (a : string) : list ForkUtxo :=
  default [] (ae_utxos <$> ei_addresses e !! a).

(** The entries of the UTXO set that pay an address. *)
Definition pays (a : string) (e : OutPoint * IndexedForkOutput) : Prop := output_address (ifo_output e.2) = Some a.
#[global] Instance pays_dec a e : Decision (pays a e).
Proof. unfold pays. apply _. Defined.

(** An explorer index that agrees with a UTXO set. *)
Record explains (e : ForkExplorerIndex) (utxos : gmap OutPoint IndexedForkOutput) : Prop := {
  ex_unspent o : shown_unspent e o = utxos !! o;
  ex_balance a : shown_balance e a = addr_total a utxos;
  ex_utxos a : shown_utxos e a ≡ₚ map utxo_entry (filter (pays a) (map_to_list utxos))
}.

Lemma unspent_filter outputs spends utxos a :
  (forall o x, utxos !! o = Some x <-> outputs !! o = Some x /\ spends !! o = None) ->
  filter (unspent_of spends a) (map_to_list outputs) ≡ₚ filter (pays a) (map_to_list utxos).
Proof.
  intros Hu. apply NoDup_Permutation; [apply NoDup_filter, NoDup_map_to_list..|]. intros [o x].
  rewrite !list_elem_of_filter, !elem_of_map_to_list, Hu. unfold unspent_of, pays. simpl. tauto.
Qed.

Lemma pays_none a m : (forall o x, m !! o = Some x -> output_address (ifo_output x) <> Some a) ->
  filter (pays a) (map_to_list m) = [].
Proof.
  intros Hm. apply elem_of_nil_inv. intros [o x] [Ha Hin%elem_of_map_to_list]%list_elem_of_filter.
  by apply Hm in Hin.
Qed.

Lemma sorted_facts (e : ForkAddressIndexEntry) :
  ae_summary (sort_utxos e) = ae_summary e /\ ae_utxos (sort_utxos e) ≡ₚ ae_utxos e.
Proof. split; [done|]. apply sort_by_perm. Qed.

(** The last two passes, from the entries made of the accumulators. *)
Lemma final_entries spends outputs blocks (entries addresses : gmap string ForkAddressIndexEntry) a :
  try_fold (fun acc (b : N * BlockHash * BlockNode) =>
    try_fold (index_tx_ref outputs b.1.2 b.1.1) acc (rev (imap pair (bk_txdata (bn_block b.2))))) entries blocks =
    Ok addresses ->
  let final := sort_utxos <$> foldl (index_utxo spends) addresses
                 (sort_by (fun x y => compare_outpoints x.1 y.1) (map_to_list outputs)) in
  match entries !! a with
  | None => final !! a = None
  | Some e0 => exists e, final !! a = Some e /\ ae_summary e = ae_summary e0 /\
      ae_utxos e ≡ₚ ae_utxos e0 ++ map utxo_entry (filter (unspent_of spends a) (map_to_list outputs))
  end.
Proof.
  intros Hf%ref_pass_facts. simpl. pose proof (f_equal (lookup a) Hf) as Ha. rewrite !lookup_fmap in Ha.
  pose proof (index_utxo_facts spends
    (sort_by (fun x y => compare_outpoints x.1 y.1) (map_to_list outputs)) addresses a) as Hu.
  rewrite Ha in Hu. rewrite lookup_fmap. destruct (entries !! a) as [e0|]; simpl in Hu.
  - destruct (foldl _ _ _ !! a) as [e|]; [|done]. injection Hu as Hsum Hutxos. simpl. eexists. split; [done|].
    destruct (sorted_facts e) as [-> ->]. split; [done|]. rewrite Hutxos. f_equiv.
    apply Permutation_map. by rewrite sort_by_perm.
  - by destruct (foldl _ _ _ !! a).
Qed.

(** Entries whose accumulators balance against a UTXO set explain it. *)
Lemma accounts_explain spends outputs blocks accs entries addresses utxos :
  (forall o x, utxos !! o = Some x <-> outputs !! o = Some x /\ spends !! o = None) ->
  accounted outputs accs ->
  (forall a, funded accs a = drawn accs a + addr_total a utxos) ->
  try_map (fun e : string * ForkAddressAccumulator => entry ← address_entry e.1 e.2; Ok (e.1, entry))
    (btree_entries accs) = Ok entries ->
  try_fold (fun acc (b : N * BlockHash * BlockNode) =>
    try_fold (index_tx_ref outputs b.1.2 b.1.1) acc (rev (imap pair (bk_txdata (bn_block b.2)))))
    (list_to_map entries) blocks = Ok addresses ->
  explains {| ei_outputs := outputs; ei_spends := spends;
              ei_addresses := sort_utxos <$> foldl (index_utxo spends) addresses
                (sort_by (fun x y => compare_outpoints x.1 y.1) (map_to_list outputs)) |} utxos.
Proof.
  intros Hutxo Hacc Hbal Hentries Hrefs. split.
  - intros o. unfold shown_unspent. simpl. apply option_eq. intros x. rewrite Hutxo. destruct (spends !! o); naive_solver.
  - intros a. unfold shown_balance. simpl. pose proof (final_entries spends _ _ _ _ a Hrefs) as Hfin. simpl in Hfin.
    specialize (Hbal a). destruct (address_entries _ _ Hentries a) as [Hsome Hent].
    destruct ((list_to_map entries : gmap string ForkAddressIndexEntry) !! a) as [e0|] eqn:He0.
    + destruct Hfin as (e & -> & Hsum & _). simpl. rewrite Hsum. destruct (Hent _ eq_refl) as [_ Hb']. lia.
    + rewrite Hfin. simpl. unfold funded in Hbal. destruct (accs !! a); [|simpl in Hbal; lia].
      destruct Hsome as [? ?]; [by eexists|done].
  - intros a. unfold shown_utxos. simpl. pose proof (final_entries spends _ _ _ _ a Hrefs) as Hfin. simpl in Hfin.
    rewrite <-(unspent_filter outputs spends) by done.
    destruct (address_entries _ _ Hentries a) as [Hsome Hent].
    destruct ((list_to_map entries : gmap string ForkAddressIndexEntry) !! a) as [e0|] eqn:He0.
    + destruct Hfin as (e & -> & _ & Hux). simpl. rewrite Hux. by destruct (Hent _ eq_refl) as [-> _].
    + rewrite Hfin. simpl. rewrite (unspent_filter outputs spends utxos) by done.
      rewrite pays_none; [done|]. intros o x [Hx _]%Hutxo Hax. destruct Hsome as [? ?]; [|done]. by eapply Hacc.
Qed.

Lemma build_explains s l st e :
  nodes_ok s -> branch s (fcs_active_tip s) l -> fcs_active_by_height s = height_index l ->
  build_explorer_index s = Ok e -> utxo_state (branch_txs l) [] st -> explains e (bs_utxos st).
Proof.
  intros Hok Hb Ha Hbuild Hst. unfold build_explorer_index in Hbuild.
  rewrite (active_blocks_branch s l) in Hbuild by done. cbn [mbind result_bind] in Hbuild.
  rewrite (active_txs_fold (fun ht acc tx => index_outputs tx ht 0 (tx_output tx) acc)) in Hbuild.
  apply bind_Ok in Hbuild as ([outputs accs1] & Hpass1 & Hbuild). cbn [fst snd] in Hbuild.
  rewrite (active_txs_fold (index_tx_spends outputs)) in Hbuild.
  apply bind_Ok in Hbuild as ([spends accs2] & Hpass2 & Hbuild). cbn [fst snd] in Hbuild.
  apply bind_Ok in Hbuild as (entries & Hentries & Hbuild).
  apply bind_Ok in Hbuild as (addresses & Hrefs & [= <-]).
  destruct Hst as [_ Hnd Hu Hsnd Hsc _]. rewrite app_nil_r in Hsnd. setoid_rewrite app_nil_r in Hu.
  setoid_rewrite app_nil_r in Hsc.
  apply (output_pass_spec _ _ Hnd) in Hpass1 as (Hout & Hfu1 & Hdr1 & Hacc1).
  apply spend_pass_spec in Hpass2 as (Hsp & Hdr2 & Hfu2 & Hdom2). cbn [fst snd] in *.
  assert (forall o x, bs_utxos st !! o = Some x <-> outputs !! o = Some x /\ o ∉ spent (branch_txs l)) as Hutxo
    by (intros o x; by rewrite Hu, Hout).
  eapply accounts_explain; [..|exact Hentries|exact Hrefs].
  - intros o x. rewrite Hutxo. apply and_iff_compat_l. rewrite eq_None_not_Some, Hsp, lookup_empty.
    split; [by intros Hn [[? ?]|?]|tauto].
  - intros o x a Hx Hxa. by eapply Hdom2, Hacc1.
  - intros a. rewrite Hfu2, Hfu1, Hdr2, Hdr1. rewrite (addr_total_without a _ _ (bs_utxos st) Hsnd); [lia| |done].
    intros o [x Hx]%Hsc. exists x. by apply Hout.
Qed.

(** C24 (equivalence). As long as every rebuild of its indexes has succeeded, the
    explorer of a fork node shows the UTXO set its blocks are validated against: an
    output is unspent in the explorer exactly when it is in the UTXO set of the
    active tip, the balance of every address is the value of its outputs there, and
    the outputs listed for the address are these outputs; unless two stored
    transactions of different content have the same txid.  Opening a log and every
    submission that returns without an error keep the condition; a block whose
    rebuild fails is stored and ends it. *)
Theorem explorer_shows_utxo_set `{!TxLaws, ExplorerCrate} s :
  steady s ->
  (txid_collision s \/
   exists st, branch_state s (fcs_active_tip s) = Ok st /\ explains (fcs_explorer s) (bs_utxos st) /\
     forall address a, normalize_mainnet_address address = Ok a ->
       as_balance_sats <$> address_summary s address = Ok (addr_total a (bs_utxos st))) /\
  (forall hex now a s', submit_block_at_time hex now s = (Ok a, s') -> steady s') /\
  (forall hex r s', submit_transaction hex s = (r, s') -> steady s').
Proof.
  intros Hs. split; [|split; [intros hex now a s'; by apply steady_accept|intros hex r s'; by apply steady_transaction]].
  pose proof (steady_reachable _ Hs) as Hr. pose proof (co_nodes _ (reachable_ok _ Hr)) as Hok.
  pose proof (reachable_rules _ Hr) as Hrules. destruct (steady_indexed _ Hs) as (l & Hl & Ha & Hbuild).
  destruct (branch_supply s Hok Hrules _ _ Hl) as [?|(st & Hst & _)]; [by left|right].
  assert (explains (fcs_explorer s) (bs_utxos st)) as Hex
    by (eapply build_explains; [done..|]; by eapply branch_state_spec).
  exists st. split_and!; [done..|]. intros address a Hn. unfold address_summary. rewrite Hn.
  rewrite <-(ex_balance _ _ Hex). unfold shown_balance. simpl. by destruct (ei_addresses _ !! a).
Qed.
End explorer.

(** ** The sample chain *)

(** Addresses that are their own text. *)
Definition explorer_crate_c : ExplorerCrate := {|
  to_asm_string _ := EmptyString; Address := string; address_from_str := Some;
  address_is_mainnet _ := true; address_to_string a := a |}.

Definition sample_address : string := hex_encode_c spawn_script.

Lemma explorer_shows_utxo_set_witness : exists s,
  shown_balance (fcs_explorer s) sample_address = 10000000000 /\
  (@txid_collision secp_c fork_crate_c s \/
   exists st, @branch_state secp_c fork_crate_c s (fcs_active_tip s) = Ok st /\
     @addr_total secp_c fork_crate_c sample_address (bs_utxos st) = 10000000000).
Proof.
  assert (match sample_open with
          | Ok s => sample_all_ok s ["01"; "02"; "03"] &&
                    (shown_balance (fcs_explorer (sample_run s ["01"; "02"; "03"])) sample_address =? 10000000000)
          | _ => false end = true) as Hrun by (vm_compute; reflexivity).
  destruct sample_open as [s|] eqn:Ho; [|discriminate].
  apply andb_true_iff in Hrun as [Hok Hbal]. apply N.eqb_eq in Hbal.
  assert (steady_c (sample_run s ["01"; "02"; "03"])) as Hs.
  { apply sample_run_steady; [|exact Hok]. eapply steady_open. exact Ho. }
  set (s1 := sample_run s ["01"; "02"; "03"]) in *. clearbody s1. exists s1. split; [exact Hbal|].
  destruct (proj1 (@explorer_shows_utxo_set hashing_c secp_c bitcoin_c fork_crate_c clock_c tx_laws_c explorer_crate_c s1 Hs))
    as [Hc|(st & Hst & Hex & _)]; [left; exact Hc|right].
  exists st. split; [exact Hst|]. rewrite <-(ex_balance _ _ Hex). exact Hbal.
Defined.
