(* ===== verification/Sharechain.v ===== *)
(** * Sharechain messages ([crates/pohw-core/src/sharechain.rs])

    Registrations, work templates, shares and snapshot votes: their data,
    normal forms, signing and message hashes, and the checks a node makes
    before a message reaches the replay state.  The theorems show that a message hash
    binds the normalised message, that an accepted share is proof of work
    under its template, and that a registration is tied to its contract record. *)
From S2P Require Import Prelude Order Text Crates Concrete Payout Withdrawal IdenaAnchor ShareWork Commitment.
From Stdlib Require Import Strings.Ascii Strings.Byte.

Local Open Scope N_scope.

Definition MAX_MINER_ID_LEN : nat := 64.
Definition MAX_SNAPSHOT_ID_LEN : nat := 64.
Definition IDENA_RECOVERABLE_SIGNATURE_HEX_LEN : nat := 130.
Definition BITCOIN_HEADER_BYTES : nat := 80.
Definition BITCOIN_HEADER_HEX_LEN : nat := BITCOIN_HEADER_BYTES * 2.
Definition BITCOIN_TEMPLATE_PREFIX_BYTES : nat := 76.
Definition BITCOIN_NONCE_BYTES : nat := 4.
Definition BITCOIN_NONCE_HEX_LEN : nat := BITCOIN_NONCE_BYTES * 2.
Definition LEGACY_BITCOIN_WORK_TEMPLATE_VERSION : N := 1.
Definition TARGET_BOUND_BITCOIN_WORK_TEMPLATE_VERSION : N := 2.
Definition IDENA_ANCHORED_BITCOIN_WORK_TEMPLATE_VERSION : N := 3.
Definition LEGACY_MINER_REGISTRATION_VERSION : N := 1.
Definition IDENA_ANCHORED_MINER_REGISTRATION_VERSION : N := 2.

(** ** Data *)

(** [skip_serializing_if = "is_legacy_..._version"]: version 1 is not written. *)
Definition is_legacy_miner_registration_version (version : N) : bool :=
  version =? LEGACY_MINER_REGISTRATION_VERSION.
Definition is_legacy_bitcoin_work_template_version (version : N) : bool :=
  version =? LEGACY_BITCOIN_WORK_TEMPLATE_VERSION.
Definition unless (skip : N -> bool) (version : N) : option N :=
  if skip version then None else Some version.

Record MinerRegistration := {
  mr_version : N;
  mr_miner_id : string;
  mr_idena_address : string;
  mr_btc_payout_script_hex : string;
  mr_claim_owner_pubkey_hex : string;
  mr_mining_pubkey_hex : string;
  mr_registry_anchor : option MinerRegistryAnchorV1;
  mr_idena_signature_hex : string;
  mr_mining_signature_hex : string
}.

Global Instance MinerRegistration_eq_dec : EqDecision MinerRegistration.
Proof. solve_decision. Defined.
Global Instance MinerRegistration_serialize : Serialize MinerRegistration := fun r =>
  JObj (field_opt "version" (unless is_legacy_miner_registration_version (mr_version r)) ++
        field "miner_id" (mr_miner_id r) ++
        field "idena_address" (mr_idena_address r) ++
        field "btc_payout_script_hex" (mr_btc_payout_script_hex r) ++
        field "claim_owner_pubkey_hex" (mr_claim_owner_pubkey_hex r) ++
        field "mining_pubkey_hex" (mr_mining_pubkey_hex r) ++
        field_opt "registry_anchor" (mr_registry_anchor r) ++
        field "idena_signature_hex" (mr_idena_signature_hex r) ++
        field "mining_signature_hex" (mr_mining_signature_hex r)).

Record BitcoinWorkTemplate := {
  wt_version : N;
  wt_miner_id : string;
  wt_header_prefix_hex : string;
  wt_template_hash : string;
  wt_assigned_share_target : option string;
  wt_idena_anchor : option IdenaBlockAnchorV1;
  wt_idena_anchor_policy_hash : option string;
  wt_created_at_unix : Z;
  wt_mining_signature_hex : string
}.

Global Instance BitcoinWorkTemplate_eq_dec : EqDecision BitcoinWorkTemplate.
Proof. solve_decision. Defined.
Global Instance BitcoinWorkTemplate_serialize : Serialize BitcoinWorkTemplate := fun t =>
  JObj (field_opt "version" (unless is_legacy_bitcoin_work_template_version (wt_version t)) ++
        field "miner_id" (wt_miner_id t) ++
        field "header_prefix_hex" (wt_header_prefix_hex t) ++
        field "template_hash" (wt_template_hash t) ++
        field_opt "assigned_share_target" (wt_assigned_share_target t) ++
        field_opt "idena_anchor" (wt_idena_anchor t) ++
        field_opt "idena_anchor_policy_hash" (wt_idena_anchor_policy_hash t) ++
        field "created_at_unix" (wt_created_at_unix t) ++
        field "mining_signature_hex" (wt_mining_signature_hex t)).

Record Share := {
  sh_miner_id : string;
  sh_bitcoin_header_hex : string;
  sh_bitcoin_template_hash : string;
  sh_nonce_hex : string;
  sh_work_hash : string;
  sh_target : string;
  sh_idena_snapshot_id : string;
  sh_idena_snapshot_proof_root : string;
  sh_hashrate_score_delta : N;
  sh_parent_share_hash : string;
  sh_work_binding : option ShareWorkBindingV1;
  sh_mining_signature_hex : string
}.

Global Instance Share_eq_dec : EqDecision Share.
Proof. solve_decision. Defined.
Global Instance Share_serialize : Serialize Share := fun s =>
  JObj (field "miner_id" (sh_miner_id s) ++
        field "bitcoin_header_hex" (sh_bitcoin_header_hex s) ++
        field "bitcoin_template_hash" (sh_bitcoin_template_hash s) ++
        field "nonce_hex" (sh_nonce_hex s) ++
        field "work_hash" (sh_work_hash s) ++
        field "target" (sh_target s) ++
        field "idena_snapshot_id" (sh_idena_snapshot_id s) ++
        field "idena_snapshot_proof_root" (sh_idena_snapshot_proof_root s) ++
        field "hashrate_score_delta" (sh_hashrate_score_delta s) ++
        field "parent_share_hash" (sh_parent_share_hash s) ++
        field_opt "work_binding" (sh_work_binding s) ++
        field "mining_signature_hex" (sh_mining_signature_hex s)).

Record SnapshotVote := {
  sv_voter_miner_id : string;
  sv_snapshot_day : string;
  sv_idena_height : N;
  sv_score_root : string;
  sv_signature_hex : string
}.

Global Instance SnapshotVote_serialize : Serialize SnapshotVote := fun v =>
  JObj (field "voter_miner_id" (sv_voter_miner_id v) ++
        field "snapshot_day" (sv_snapshot_day v) ++
        field "idena_height" (sv_idena_height v) ++
        field "score_root" (sv_score_root v) ++
        field "signature_hex" (sv_signature_hex v)).

Inductive SharechainMessage :=
| MsgMinerRegistration (registration : MinerRegistration)
| MsgBitcoinWorkTemplate (template : BitcoinWorkTemplate)
| MsgShare (share : Share)
| MsgSharechainCheckpoint (checkpoint : SharechainCheckpointAnchorV1)
| MsgSnapshotVote (vote : SnapshotVote)
| MsgPayoutSchedule (schedule : PayoutSchedule)
| MsgWithdrawalRequest (request : WithdrawalRequest)
| MsgWithdrawalBatch (batch : WithdrawalBatch)
| MsgPohwCommitment (commitment : PohwCommitment).

(** [#[serde(tag = "type", content = "payload")]]. *)
Definition tagged_json (type : string) (payload : json) : json :=
  JObj [("type"%string, JStr type); ("payload"%string, payload)].
Global Instance SharechainMessage_serialize : Serialize SharechainMessage := fun m =>
  match m with
  | MsgMinerRegistration r => tagged_json "MinerRegistration" (to_json r)
  | MsgBitcoinWorkTemplate t => tagged_json "BitcoinWorkTemplate" (to_json t)
  | MsgShare s => tagged_json "Share" (to_json s)
  | MsgSharechainCheckpoint c => tagged_json "SharechainCheckpoint" (to_json c)
  | MsgSnapshotVote v => tagged_json "SnapshotVote" (to_json v)
  | MsgPayoutSchedule s => tagged_json "PayoutSchedule" (to_json s)
  | MsgWithdrawalRequest r => tagged_json "WithdrawalRequest" (to_json r)
  | MsgWithdrawalBatch b => tagged_json "WithdrawalBatch" (to_json b)
  | MsgPohwCommitment c => tagged_json "PohwCommitment" (to_json c)
  end.

Inductive SharechainError :=
| InvalidMiningPubkey (reason : string)
| MissingMiningSignature
| InvalidMiningSignature (reason : string)
| InvalidIdenaSignature (reason : string)
| IdenaAddressSignatureMismatch (claimed_address recovered_address : string)
| InvalidPayoutScript (reason : string)
| InvalidClaimOwnerPubkey (reason : string)
| SC_InvalidMinerId (field reason : string)
| SC_InvalidIdenaAddress (reason : string)
| SC_InvalidField (field reason : string)
| ZeroShareScore
| ZeroShareTarget
| ShareTargetAboveLimit
| UnsupportedBitcoinWorkTemplateVersion (version : N)
| UnsupportedMinerRegistrationVersion (version : N)
| UnexpectedMinerRegistryAnchor
| MissingMinerRegistryAnchor
| MinerRegistryCommitmentMismatch
| InvalidMinerRegistryAnchor (reason : string)
| UnexpectedAssignedShareTarget
| MissingAssignedShareTarget
| UnexpectedIdenaBlockAnchor
| MissingIdenaBlockAnchor
| UnexpectedIdenaAnchorPolicyHash
| MissingIdenaAnchorPolicyHash
| InvalidIdenaBlockAnchor (reason : string)
| TargetBoundBitcoinWorkTemplateRequired
| AssignedShareTargetMismatch (expected actual : string)
| ShareTemplateHashMismatch (expected actual : string)
| ShareNonceMismatch (expected actual : string)
| ShareWorkHashMismatch (expected actual : string)
| ShareWorkAboveTarget
| ShareScoreMismatch (expected actual : N)
| MissingShareWorkBinding
| ShareWorkBindingMismatch (field : string)
| InvalidShareWorkBinding (error : ShareWorkBindingError).

(** ** Payloads that are hashed or signed *)

Record MinerRegistrationSigningPayload := {
  mrs_version : N;
  mrs_miner_id : string;
  mrs_idena_address : string;
  mrs_btc_payout_script_hex : string;
  mrs_claim_owner_pubkey_hex : string;
  mrs_mining_pubkey_hex : string;
  mrs_registry_anchor : option MinerRegistryAnchorV1
}.

Global Instance MinerRegistrationSigningPayload_serialize : Serialize MinerRegistrationSigningPayload := fun p =>
  JObj (field_opt "version" (unless is_legacy_miner_registration_version (mrs_version p)) ++
        field "miner_id" (mrs_miner_id p) ++
        field "idena_address" (mrs_idena_address p) ++
        field "btc_payout_script_hex" (mrs_btc_payout_script_hex p) ++
        field "claim_owner_pubkey_hex" (mrs_claim_owner_pubkey_hex p) ++
        field "mining_pubkey_hex" (mrs_mining_pubkey_hex p) ++
        field_opt "registry_anchor" (mrs_registry_anchor p)).

Record MinerRegistryCommitmentPayload := {
  mrc_schema_version : N;
  mrc_experiment_id : string;
  mrc_miner_id : string;
  mrc_idena_address : string;
  mrc_btc_payout_script_hex : string;
  mrc_claim_owner_pubkey_hex : string;
  mrc_mining_pubkey_hex : string
}.

Global Instance MinerRegistryCommitmentPayload_serialize : Serialize MinerRegistryCommitmentPayload := fun p =>
  JObj (field "schema_version" (mrc_schema_version p) ++
        field "experiment_id" (mrc_experiment_id p) ++
        field "miner_id" (mrc_miner_id p) ++
        field "idena_address" (mrc_idena_address p) ++
        field "btc_payout_script_hex" (mrc_btc_payout_script_hex p) ++
        field "claim_owner_pubkey_hex" (mrc_claim_owner_pubkey_hex p) ++
        field "mining_pubkey_hex" (mrc_mining_pubkey_hex p)).

Record BitcoinWorkTemplateSigningPayload := {
  wts_version : N;
  wts_miner_id : string;
  wts_header_prefix_hex : string;
  wts_template_hash : string;
  wts_assigned_share_target : option string;
  wts_idena_anchor : option IdenaBlockAnchorV1;
  wts_idena_anchor_policy_hash : option string;
  wts_created_at_unix : Z
}.

Global Instance BitcoinWorkTemplateSigningPayload_serialize : Serialize BitcoinWorkTemplateSigningPayload := fun p =>
  JObj (field_opt "version" (unless is_legacy_bitcoin_work_template_version (wts_version p)) ++
        field "miner_id" (wts_miner_id p) ++
        field "header_prefix_hex" (wts_header_prefix_hex p) ++
        field "template_hash" (wts_template_hash p) ++
        field_opt "assigned_share_target" (wts_assigned_share_target p) ++
        field_opt "idena_anchor" (wts_idena_anchor p) ++
        field_opt "idena_anchor_policy_hash" (wts_idena_anchor_policy_hash p) ++
        field "created_at_unix" (wts_created_at_unix p)).

Record TargetBoundBitcoinWorkTemplateHashPayload := {
  tbh_version : N;
  tbh_header_prefix_hex : string;
  tbh_assigned_share_target : string
}.

Global Instance TargetBoundBitcoinWorkTemplateHashPayload_serialize :
  Serialize TargetBoundBitcoinWorkTemplateHashPayload := fun p =>
  JObj (field "version" (tbh_version p) ++
        field "header_prefix_hex" (tbh_header_prefix_hex p) ++
        field "assigned_share_target" (tbh_assigned_share_target p)).

Record IdenaAnchoredBitcoinWorkTemplateHashPayload := {
  iah_version : N;
  iah_header_prefix_hex : string;
  iah_assigned_share_target : string;
  iah_idena_anchor : IdenaBlockAnchorV1;
  iah_idena_anchor_policy_hash : string
}.

Global Instance IdenaAnchoredBitcoinWorkTemplateHashPayload_serialize :
  Serialize IdenaAnchoredBitcoinWorkTemplateHashPayload := fun p =>
  JObj (field "version" (iah_version p) ++
        field "header_prefix_hex" (iah_header_prefix_hex p) ++
        field "assigned_share_target" (iah_assigned_share_target p) ++
        field "idena_anchor" (iah_idena_anchor p) ++
        field "idena_anchor_policy_hash" (iah_idena_anchor_policy_hash p)).

Record ShareSigningPayload := {
  shs_miner_id : string;
  shs_bitcoin_header_hex : string;
  shs_bitcoin_template_hash : string;
  shs_nonce_hex : string;
  shs_work_hash : string;
  shs_target : string;
  shs_idena_snapshot_id : string;
  shs_idena_snapshot_proof_root : string;
  shs_hashrate_score_delta : N;
  shs_parent_share_hash : string;
  shs_work_binding : option ShareWorkBindingV1
}.

Global Instance ShareSigningPayload_serialize : Serialize ShareSigningPayload := fun p =>
  JObj (field "miner_id" (shs_miner_id p) ++
        field "bitcoin_header_hex" (shs_bitcoin_header_hex p) ++
        field "bitcoin_template_hash" (shs_bitcoin_template_hash p) ++
        field "nonce_hex" (shs_nonce_hex p) ++
        field "work_hash" (shs_work_hash p) ++
        field "target" (shs_target p) ++
        field "idena_snapshot_id" (shs_idena_snapshot_id p) ++
        field "idena_snapshot_proof_root" (shs_idena_snapshot_proof_root p) ++
        field "hashrate_score_delta" (shs_hashrate_score_delta p) ++
        field "parent_share_hash" (shs_parent_share_hash p) ++
        field_opt "work_binding" (shs_work_binding p)).

Record SnapshotVoteSigningPayload := {
  svs_voter_miner_id : string;
  svs_snapshot_day : string;
  svs_idena_height : N;
  svs_score_root : string
}.

Global Instance SnapshotVoteSigningPayload_serialize : Serialize SnapshotVoteSigningPayload := fun p =>
  JObj (field "voter_miner_id" (svs_voter_miner_id p) ++
        field "snapshot_day" (svs_snapshot_day p) ++
        field "idena_height" (svs_idena_height p) ++
        field "score_root" (svs_score_root p)).

(** ** Field checks *)

Definition label_byte (extra : list ascii) (c : ascii) : bool :=
  is_ascii_alphanumeric c || existsb (Ascii.eqb c) extra.

Definition sc_validate_miner_id (field value : string) : result SharechainError unit :=
  if is_empty value || Nat.ltb MAX_MINER_ID_LEN (String.length value)
  then Err (SC_InvalidMinerId field ("length must be 1..=" +:+ pretty MAX_MINER_ID_LEN))
  else if negb (all_bytes (label_byte ["-"; "_"; "."]%char) value)
  then Err (SC_InvalidMinerId field "only ASCII letters, digits, '-', '_', and '.' are allowed")
  else Ok tt.

Definition sc_validate_idena_address (value : string) : result SharechainError unit :=
  match (match strip_prefix "0x" value with Some h => Some h | None => strip_prefix "0X" value end) with
  | None => Err (SC_InvalidIdenaAddress "address must start with 0x")
  | Some hex_part =>
      if negb (Nat.eqb (String.length hex_part) 40) || negb (all_bytes is_ascii_hexdigit hex_part)
      then Err (SC_InvalidIdenaAddress "address must contain 20 bytes encoded as 40 hex characters")
      else Ok tt
  end.

Definition sc_validate_snapshot_id (value : string) : result SharechainError unit :=
  if is_empty value || Nat.ltb MAX_SNAPSHOT_ID_LEN (String.length value)
  then Err (SC_InvalidField "idena_snapshot_id" ("length must be 1..=" +:+ pretty MAX_SNAPSHOT_ID_LEN))
  else if negb (all_bytes (label_byte ["-"; "_"; "."; ":"]%char) value)
  then Err (SC_InvalidField "idena_snapshot_id" "contains unsupported characters")
  else Ok tt.

Definition validate_hex_exact_len (field value : string) (expected_hex_len : nat)
    : result SharechainError unit :=
  if negb (Nat.eqb (String.length value) expected_hex_len) || negb (all_bytes is_ascii_hexdigit value)
  then Err (SC_InvalidField field
              ("must be " +:+ pretty (expected_hex_len / 2)%nat +:+ " bytes encoded as " +:+
               pretty expected_hex_len +:+ " hex characters"))
  else Ok tt.

Definition validate_hex_32 (field value : string) : result SharechainError unit :=
  validate_hex_exact_len field value 64.

Definition validate_bitcoin_header_hex (value : string) : result SharechainError unit :=
  validate_hex_exact_len "bitcoin_header_hex" value BITCOIN_HEADER_HEX_LEN.

Definition validate_bitcoin_header_prefix_hex (value : string) : result SharechainError unit :=
  validate_hex_exact_len "header_prefix_hex" value (BITCOIN_TEMPLATE_PREFIX_BYTES * 2).

(** [<[u8; N]>::cmp]. *)
Fixpoint bytes_cmp (a b : bytes) : comparison :=
  match a, b with
  | [], [] => Eq
  | [], _ => Lt
  | _, [] => Gt
  | x :: a', y :: b' => then_with (Byte.to_N x ?= Byte.to_N y) (bytes_cmp a' b')
  end.
Definition bytes_gt (a b : bytes) : bool := match bytes_cmp a b with Gt => true | _ => false end.

Definition all_zero_bytes (b : bytes) : bool := forallb (fun x => Byte.eqb x x00) b.

(** [u32::from_le_bytes]. *)
Definition from_le_bytes (b : bytes) : N := foldr (fun x acc => Byte.to_N x + 256 * acc) 0 b.

Section sharechain.
Context `{Hashing, Secp256k1, BitcoinCrate, DateAndCid}.

(** [bytes.try_into()] for a fixed-size array. *)
Definition decode_hex_array (field value reason : string) (n : nat) : result SharechainError bytes :=
  bytes ← map_err (SC_InvalidField field) (hex_decode (to_ascii_lowercase value));
  if Nat.eqb (length bytes) n then Ok bytes else Err (SC_InvalidField field reason).

Definition decode_hex_32 (field value : string) : result SharechainError bytes :=
  _ ← validate_hex_32 field value;
  decode_hex_array field value "must be exactly 32 bytes" 32.

Definition decode_bitcoin_header_hex (value : string) : result SharechainError bytes :=
  _ ← validate_bitcoin_header_hex value;
  decode_hex_array "bitcoin_header_hex" value
    ("must be exactly " +:+ pretty BITCOIN_HEADER_BYTES +:+ " bytes") BITCOIN_HEADER_BYTES.

Definition decode_bitcoin_header_prefix_hex (value : string) : result SharechainError bytes :=
  _ ← validate_bitcoin_header_prefix_hex value;
  decode_hex_array "header_prefix_hex" value
    ("must be exactly " +:+ pretty BITCOIN_TEMPLATE_PREFIX_BYTES +:+ " bytes")
    BITCOIN_TEMPLATE_PREFIX_BYTES.

Definition max_share_target_bytes : bytes := max_attainable_regtest.

Definition validate_share_target_hex (target_hex : string) : result SharechainError unit :=
  target ← decode_hex_32 "target" target_hex;
  if all_zero_bytes target then Err ZeroShareTarget
  else if bytes_gt target max_share_target_bytes then Err ShareTargetAboveLimit
  else Ok tt.

Definition share_score_from_target (target : bytes) : result SharechainError N :=
  if all_zero_bytes target then Err ZeroShareTarget
  else if bytes_gt target max_share_target_bytes then Err ShareTargetAboveLimit
  else Ok (target_difficulty_regtest target).

(** ** Signatures *)

Definition verify_mining_signature (mining_pubkey_hex signature_hex : string) (signing_hash : bytes)
    : result SharechainError unit :=
  if is_empty signature_hex then Err MissingMiningSignature
  else if negb (Nat.eqb (String.length signature_hex) SCHNORR_SIGNATURE_HEX_LEN)
          || negb (all_bytes is_ascii_hexdigit signature_hex)
  then Err (InvalidMiningSignature
              ("signature must be " +:+ pretty SCHNORR_SIGNATURE_HEX_LEN +:+ " hex characters"))
  else
    mining_pubkey ← map_err InvalidMiningPubkey (xonly_from_str (to_ascii_lowercase mining_pubkey_hex));
    signature_bytes ← map_err InvalidMiningSignature (hex_decode (to_ascii_lowercase signature_hex));
    signature ← map_err InvalidMiningSignature (schnorr_from_slice signature_bytes);
    map_err InvalidMiningSignature (verify_schnorr signature signing_hash mining_pubkey).

Definition decode_recoverable_idena_signature (signature_hex : string) : result string bytes :=
  let normalized := to_ascii_lowercase (default signature_hex (strip_prefix "0x" signature_hex)) in
  if negb (Nat.eqb (String.length normalized) IDENA_RECOVERABLE_SIGNATURE_HEX_LEN)
     || negb (all_bytes is_ascii_hexdigit normalized)
  then Err ("signature must be 65 bytes encoded as " +:+ pretty IDENA_RECOVERABLE_SIGNATURE_HEX_LEN
              +:+ " hex characters")
  else
    bytes ← hex_decode normalized;
    if Nat.eqb (length bytes) 65 then Ok bytes
    else Err "signature must be 65 bytes encoded as 130 hex characters"%string.

Definition idena_recovery_id (v : N) : result string RecoveryId :=
  if v <=? 3 then recovery_id_from_i32 (Z.of_N v)
  else if (27 <=? v) && (v <=? 30) then recovery_id_from_i32 (Z.of_N (v - 27))
  else Err ("unsupported recovery id " +:+ pretty v).

Definition keccak256 (data : bytes) : bytes := keccak256_crate data.

Definition idena_signin_hash (challenge : string) : bytes := keccak256 (keccak256 (byte_str challenge)).

Definition idena_address_from_pubkey (pubkey : PublicKey) : string :=
  let hash := keccak256 (drop 1 (serialize_uncompressed pubkey)) in
  "0x" +:+ hex_encode (drop 12 hash).

(** [signature_bytes[64]] is in range: the array has 65 bytes. *)
Definition recover_idena_signin_address (challenge signature_hex : string)
    : result SharechainError string :=
  signature_bytes ← map_err InvalidIdenaSignature (decode_recoverable_idena_signature signature_hex);
  recovery_id ← map_err InvalidIdenaSignature
                  (idena_recovery_id (Byte.to_N (nth 64 signature_bytes x00)));
  signature ← map_err InvalidIdenaSignature
                (recoverable_from_compact (take 64 signature_bytes) recovery_id);
  pubkey ← map_err InvalidIdenaSignature (recover_ecdsa (idena_signin_hash challenge) signature);
  Ok (idena_address_from_pubkey pubkey).

Definition validate_direct_payout_script (script_hex : string) : result SharechainError unit :=
  if negb (Nat.eqb (String.length script_hex) P2WPKH_SCRIPT_HEX_LEN
           || Nat.eqb (String.length script_hex) P2TR_SCRIPT_HEX_LEN)
     || negb (all_bytes is_ascii_hexdigit script_hex)
  then Err (InvalidPayoutScript "direct payout script must be P2WPKH or P2TR hex")
  else
    script_bytes ← map_err InvalidPayoutScript (hex_decode (to_ascii_lowercase script_hex));
    if is_p2wpkh script_bytes || is_p2tr script_bytes then Ok tt
    else Err (InvalidPayoutScript "only P2WPKH and P2TR direct payout scripts are supported").

(** ** Registrations *)

Definition mr_normalized (r : MinerRegistration) : MinerRegistration := {|
  mr_version := mr_version r;
  mr_miner_id := to_ascii_lowercase (mr_miner_id r);
  mr_idena_address := to_ascii_lowercase (mr_idena_address r);
  mr_btc_payout_script_hex := to_ascii_lowercase (mr_btc_payout_script_hex r);
  mr_claim_owner_pubkey_hex := to_ascii_lowercase (mr_claim_owner_pubkey_hex r);
  mr_mining_pubkey_hex := to_ascii_lowercase (mr_mining_pubkey_hex r);
  mr_registry_anchor := mra_normalized <$> mr_registry_anchor r;
  mr_idena_signature_hex := to_ascii_lowercase (mr_idena_signature_hex r);
  mr_mining_signature_hex := to_ascii_lowercase (mr_mining_signature_hex r) |}.

Definition registration_payload (r : MinerRegistration) : MinerRegistrationSigningPayload := {|
  mrs_version := mr_version r;
  mrs_miner_id := to_ascii_lowercase (mr_miner_id r);
  mrs_idena_address := to_ascii_lowercase (mr_idena_address r);
  mrs_btc_payout_script_hex := to_ascii_lowercase (mr_btc_payout_script_hex r);
  mrs_claim_owner_pubkey_hex := to_ascii_lowercase (mr_claim_owner_pubkey_hex r);
  mrs_mining_pubkey_hex := to_ascii_lowercase (mr_mining_pubkey_hex r);
  mrs_registry_anchor := mra_normalized <$> mr_registry_anchor r |}.

Definition registration_tag (r : MinerRegistration) : bytes :=
  if mr_version r =? LEGACY_MINER_REGISTRATION_VERSION
  then byte_str "POHW1_MINER_REGISTRATION" else byte_str "POHW2_MINER_REGISTRATION".

Definition mr_signing_hash (r : MinerRegistration) : bytes :=
  sha256_tagged (registration_tag r) (canonical_json (registration_payload r)).

Definition registry_commitment_payload (r : MinerRegistration) (experiment_id : string)
    : MinerRegistryCommitmentPayload := {|
  mrc_schema_version := 1;
  mrc_experiment_id := experiment_id;
  mrc_miner_id := to_ascii_lowercase (mr_miner_id r);
  mrc_idena_address := to_ascii_lowercase (mr_idena_address r);
  mrc_btc_payout_script_hex := to_ascii_lowercase (mr_btc_payout_script_hex r);
  mrc_claim_owner_pubkey_hex := to_ascii_lowercase (mr_claim_owner_pubkey_hex r);
  mrc_mining_pubkey_hex := to_ascii_lowercase (mr_mining_pubkey_hex r) |}.

Definition registry_commitment_hash (r : MinerRegistration) (experiment_id : string)
    : result SharechainError string :=
  let experiment_id := to_ascii_lowercase experiment_id in
  _ ← map_err (fun e => InvalidMinerRegistryAnchor (display_anchor_error e))
        (validate_experiment_id experiment_id);
  Ok (hash_hex (sha256_tagged (byte_str "POHW_MINER_REGISTRY_COMMITMENT_V1")
                  (canonical_json (registry_commitment_payload r experiment_id)))).

Definition attach_registry_anchor (r : MinerRegistration) (anchor : MinerRegistryAnchorV1)
    : result SharechainError MinerRegistration :=
  let anchor := mra_normalized anchor in
  _ ← map_err (fun e => InvalidMinerRegistryAnchor (display_anchor_error e)) (mra_validate anchor);
  expected ← registry_commitment_hash r (mra_experiment_id anchor);
  if negb (String.eqb expected (mra_registration_commitment anchor))
  then Err MinerRegistryCommitmentMismatch
  else Ok {|
    mr_version := IDENA_ANCHORED_MINER_REGISTRATION_VERSION;
    mr_miner_id := mr_miner_id r;
    mr_idena_address := mr_idena_address r;
    mr_btc_payout_script_hex := mr_btc_payout_script_hex r;
    mr_claim_owner_pubkey_hex := mr_claim_owner_pubkey_hex r;
    mr_mining_pubkey_hex := mr_mining_pubkey_hex r;
    mr_registry_anchor := Some anchor;
    mr_idena_signature_hex := mr_idena_signature_hex r;
    mr_mining_signature_hex := mr_mining_signature_hex r |}.

Definition mr_validate_registry_anchor (r : MinerRegistration) : result SharechainError unit :=
  if mr_version r =? LEGACY_MINER_REGISTRATION_VERSION
  then if bool_decide (is_Some (mr_registry_anchor r)) then Err UnexpectedMinerRegistryAnchor else Ok tt
  else if mr_version r =? IDENA_ANCHORED_MINER_REGISTRATION_VERSION
  then
    anchor ← ok_or MissingMinerRegistryAnchor (mr_registry_anchor r);
    _ ← map_err (fun e => InvalidMinerRegistryAnchor (display_anchor_error e)) (mra_validate anchor);
    commitment ← registry_commitment_hash r (mra_experiment_id anchor);
    if negb (String.eqb commitment (mra_registration_commitment anchor))
    then Err MinerRegistryCommitmentMismatch else Ok tt
  else Err (UnsupportedMinerRegistrationVersion (mr_version r)).

Definition require_registry_anchor (r : MinerRegistration) : result SharechainError MinerRegistryAnchorV1 :=
  _ ← mr_validate_registry_anchor r;
  ok_or MissingMinerRegistryAnchor (mr_registry_anchor r).

Definition idena_ownership_challenge (r : MinerRegistration) : string :=
  "signin-pohw1-miner-registration-" +:+ hex_encode (mr_signing_hash r).

Definition verify_idena_ownership_signature (r : MinerRegistration) : result SharechainError unit :=
  recovered_address ← recover_idena_signin_address (idena_ownership_challenge r) (mr_idena_signature_hex r);
  let claimed_address := to_ascii_lowercase (mr_idena_address r) in
  if negb (String.eqb recovered_address claimed_address)
  then Err (IdenaAddressSignatureMismatch claimed_address recovered_address)
  else Ok tt.

Definition mr_verify_mining_signature (r : MinerRegistration) : result SharechainError unit :=
  _ ← sc_validate_miner_id "miner_id" (mr_miner_id r);
  _ ← sc_validate_idena_address (mr_idena_address r);
  _ ← mr_validate_registry_anchor r;
  _ ← map_err InvalidIdenaSignature (decode_recoverable_idena_signature (mr_idena_signature_hex r));
  _ ← validate_direct_payout_script (mr_btc_payout_script_hex r);
  _ ← map_err InvalidClaimOwnerPubkey (xonly_from_str (to_ascii_lowercase (mr_claim_owner_pubkey_hex r)));
  verify_mining_signature (mr_mining_pubkey_hex r) (mr_mining_signature_hex r) (mr_signing_hash r).

(** ** Work templates *)

Definition wt_normalized (t : BitcoinWorkTemplate) : BitcoinWorkTemplate := {|
  wt_version := wt_version t;
  wt_miner_id := to_ascii_lowercase (wt_miner_id t);
  wt_header_prefix_hex := to_ascii_lowercase (wt_header_prefix_hex t);
  wt_template_hash := to_ascii_lowercase (wt_template_hash t);
  wt_assigned_share_target := to_ascii_lowercase <$> wt_assigned_share_target t;
  wt_idena_anchor := iba_normalized <$> wt_idena_anchor t;
  wt_idena_anchor_policy_hash := to_ascii_lowercase <$> wt_idena_anchor_policy_hash t;
  wt_created_at_unix := wt_created_at_unix t;
  wt_mining_signature_hex := to_ascii_lowercase (wt_mining_signature_hex t) |}.

Definition template_hash_for_header_prefix_hex (header_prefix_hex : string)
    : result SharechainError string :=
  header_prefix ← decode_bitcoin_header_prefix_hex header_prefix_hex;
  Ok (hash_hex (sha256_tagged (byte_str "POHW1_BTC_TEMPLATE") header_prefix)).

Definition target_bound_template_hash_for_header_prefix_hex
    (header_prefix_hex assigned_share_target : string) : result SharechainError string :=
  header_prefix ← decode_bitcoin_header_prefix_hex header_prefix_hex;
  let assigned_share_target := to_ascii_lowercase assigned_share_target in
  _ ← validate_share_target_hex assigned_share_target;
  Ok (hash_hex (sha256_tagged (byte_str "POHW2_BTC_TEMPLATE") (canonical_json {|
    tbh_version := TARGET_BOUND_BITCOIN_WORK_TEMPLATE_VERSION;
    tbh_header_prefix_hex := hex_encode header_prefix;
    tbh_assigned_share_target := assigned_share_target |}))).

Definition idena_anchored_template_hash_for_header_prefix_hex
    (header_prefix_hex assigned_share_target : string) (idena_anchor : IdenaBlockAnchorV1)
    (idena_anchor_policy_hash : string) : result SharechainError string :=
  header_prefix ← decode_bitcoin_header_prefix_hex header_prefix_hex;
  let assigned_share_target := to_ascii_lowercase assigned_share_target in
  let idena_anchor_policy_hash := to_ascii_lowercase idena_anchor_policy_hash in
  _ ← validate_share_target_hex assigned_share_target;
  _ ← validate_hex_32 "idena_anchor_policy_hash" idena_anchor_policy_hash;
  let idena_anchor := iba_normalized idena_anchor in
  _ ← map_err (fun e => InvalidIdenaBlockAnchor (display_anchor_error e)) (iba_validate idena_anchor);
  Ok (hash_hex (sha256_tagged (byte_str "POHW3_BTC_TEMPLATE") (canonical_json {|
    iah_version := IDENA_ANCHORED_BITCOIN_WORK_TEMPLATE_VERSION;
    iah_header_prefix_hex := hex_encode header_prefix;
    iah_assigned_share_target := assigned_share_target;
    iah_idena_anchor := idena_anchor;
    iah_idena_anchor_policy_hash := idena_anchor_policy_hash |}))).

Definition new_unsigned (miner_id header_prefix_hex : string) (created_at_unix : Z)
    : result SharechainError BitcoinWorkTemplate :=
  template_hash ← template_hash_for_header_prefix_hex header_prefix_hex;
  Ok {|
    wt_version := LEGACY_BITCOIN_WORK_TEMPLATE_VERSION;
    wt_miner_id := miner_id;
    wt_header_prefix_hex := header_prefix_hex;
    wt_template_hash := template_hash;
    wt_assigned_share_target := None;
    wt_idena_anchor := None;
    wt_idena_anchor_policy_hash := None;
    wt_created_at_unix := created_at_unix;
    wt_mining_signature_hex := "" |}.

Definition new_target_bound_unsigned (miner_id header_prefix_hex assigned_share_target : string)
    (created_at_unix : Z) : result SharechainError BitcoinWorkTemplate :=
  let assigned_share_target := to_ascii_lowercase assigned_share_target in
  _ ← validate_share_target_hex assigned_share_target;
  template_hash ← target_bound_template_hash_for_header_prefix_hex header_prefix_hex assigned_share_target;
  Ok {|
    wt_version := TARGET_BOUND_BITCOIN_WORK_TEMPLATE_VERSION;
    wt_miner_id := miner_id;
    wt_header_prefix_hex := header_prefix_hex;
    wt_template_hash := template_hash;
    wt_assigned_share_target := Some assigned_share_target;
    wt_idena_anchor := None;
    wt_idena_anchor_policy_hash := None;
    wt_created_at_unix := created_at_unix;
    wt_mining_signature_hex := "" |}.

Definition new_idena_anchored_target_bound_unsigned
    (miner_id header_prefix_hex assigned_share_target : string) (idena_anchor : IdenaBlockAnchorV1)
    (idena_anchor_policy_hash : string) (created_at_unix : Z)
    : result SharechainError BitcoinWorkTemplate :=
  let assigned_share_target := to_ascii_lowercase assigned_share_target in
  let idena_anchor := iba_normalized idena_anchor in
  let idena_anchor_policy_hash := to_ascii_lowercase idena_anchor_policy_hash in
  _ ← validate_share_target_hex assigned_share_target;
  _ ← validate_hex_32 "idena_anchor_policy_hash" idena_anchor_policy_hash;
  _ ← map_err (fun e => InvalidIdenaBlockAnchor (display_anchor_error e)) (iba_validate idena_anchor);
  template_hash ← idena_anchored_template_hash_for_header_prefix_hex header_prefix_hex
                    assigned_share_target idena_anchor idena_anchor_policy_hash;
  Ok {|
    wt_version := IDENA_ANCHORED_BITCOIN_WORK_TEMPLATE_VERSION;
    wt_miner_id := miner_id;
    wt_header_prefix_hex := header_prefix_hex;
    wt_template_hash := template_hash;
    wt_assigned_share_target := Some assigned_share_target;
    wt_idena_anchor := Some idena_anchor;
    wt_idena_anchor_policy_hash := Some idena_anchor_policy_hash;
    wt_created_at_unix := created_at_unix;
    wt_mining_signature_hex := "" |}.

Definition from_bitcoin_header_hex (miner_id bitcoin_header_hex : string) (created_at_unix : Z)
    : result SharechainError BitcoinWorkTemplate :=
  header ← decode_bitcoin_header_hex bitcoin_header_hex;
  new_unsigned miner_id (hex_encode (take BITCOIN_TEMPLATE_PREFIX_BYTES header)) created_at_unix.

Definition from_bitcoin_header_hex_with_share_target
    (miner_id bitcoin_header_hex assigned_share_target : string) (created_at_unix : Z)
    : result SharechainError BitcoinWorkTemplate :=
  header ← decode_bitcoin_header_hex bitcoin_header_hex;
  new_target_bound_unsigned miner_id (hex_encode (take BITCOIN_TEMPLATE_PREFIX_BYTES header))
    assigned_share_target created_at_unix.

Definition from_bitcoin_header_hex_with_share_target_and_idena_anchor
    (miner_id bitcoin_header_hex assigned_share_target : string) (idena_anchor : IdenaBlockAnchorV1)
    (idena_anchor_policy_hash : string) (created_at_unix : Z)
    : result SharechainError BitcoinWorkTemplate :=
  header ← decode_bitcoin_header_hex bitcoin_header_hex;
  new_idena_anchored_target_bound_unsigned miner_id
    (hex_encode (take BITCOIN_TEMPLATE_PREFIX_BYTES header)) assigned_share_target idena_anchor
    idena_anchor_policy_hash created_at_unix.

(** The [match self.version] of [verify_template_hash]. *)
Definition expected_template_hash (t : BitcoinWorkTemplate) : result SharechainError string :=
  if wt_version t =? LEGACY_BITCOIN_WORK_TEMPLATE_VERSION
  then
    if bool_decide (is_Some (wt_assigned_share_target t)) then Err UnexpectedAssignedShareTarget
    else if bool_decide (is_Some (wt_idena_anchor t)) then Err UnexpectedIdenaBlockAnchor
    else if bool_decide (is_Some (wt_idena_anchor_policy_hash t)) then Err UnexpectedIdenaAnchorPolicyHash
    else template_hash_for_header_prefix_hex (wt_header_prefix_hex t)
  else if wt_version t =? TARGET_BOUND_BITCOIN_WORK_TEMPLATE_VERSION
  then
    if bool_decide (is_Some (wt_idena_anchor t)) then Err UnexpectedIdenaBlockAnchor
    else if bool_decide (is_Some (wt_idena_anchor_policy_hash t)) then Err UnexpectedIdenaAnchorPolicyHash
    else
      assigned_share_target ← ok_or MissingAssignedShareTarget (wt_assigned_share_target t);
      target_bound_template_hash_for_header_prefix_hex (wt_header_prefix_hex t) assigned_share_target
  else if wt_version t =? IDENA_ANCHORED_BITCOIN_WORK_TEMPLATE_VERSION
  then
    assigned_share_target ← ok_or MissingAssignedShareTarget (wt_assigned_share_target t);
    idena_anchor ← ok_or MissingIdenaBlockAnchor (wt_idena_anchor t);
    idena_anchor_policy_hash ← ok_or MissingIdenaAnchorPolicyHash (wt_idena_anchor_policy_hash t);
    idena_anchored_template_hash_for_header_prefix_hex (wt_header_prefix_hex t) assigned_share_target
      idena_anchor idena_anchor_policy_hash
  else Err (UnsupportedBitcoinWorkTemplateVersion (wt_version t)).

Definition verify_template_hash (t : BitcoinWorkTemplate) : result SharechainError unit :=
  _ ← sc_validate_miner_id "miner_id" (wt_miner_id t);
  if (wt_created_at_unix t <=? 0)%Z
  then Err (SC_InvalidField "created_at_unix" "must be greater than zero")
  else
    expected ← expected_template_hash t;
    if negb (eq_ignore_ascii_case (wt_template_hash t) expected)
    then Err (ShareTemplateHashMismatch expected (to_ascii_lowercase (wt_template_hash t)))
    else Ok tt.

Definition template_payload (t : BitcoinWorkTemplate) : BitcoinWorkTemplateSigningPayload := {|
  wts_version := wt_version t;
  wts_miner_id := to_ascii_lowercase (wt_miner_id t);
  wts_header_prefix_hex := to_ascii_lowercase (wt_header_prefix_hex t);
  wts_template_hash := to_ascii_lowercase (wt_template_hash t);
  wts_assigned_share_target := to_ascii_lowercase <$> wt_assigned_share_target t;
  wts_idena_anchor := iba_normalized <$> wt_idena_anchor t;
  wts_idena_anchor_policy_hash := to_ascii_lowercase <$> wt_idena_anchor_policy_hash t;
  wts_created_at_unix := wt_created_at_unix t |}.

Definition wt_signing_hash (t : BitcoinWorkTemplate) : bytes :=
  sha256_tagged (byte_str "POHW1_BITCOIN_WORK_TEMPLATE") (canonical_json (template_payload t)).

Definition is_target_bound (t : BitcoinWorkTemplate) : bool :=
  ((wt_version t =? TARGET_BOUND_BITCOIN_WORK_TEMPLATE_VERSION)
   || (wt_version t =? IDENA_ANCHORED_BITCOIN_WORK_TEMPLATE_VERSION))
  && bool_decide (is_Some (wt_assigned_share_target t)).

Definition is_idena_anchored (t : BitcoinWorkTemplate) : bool :=
  (wt_version t =? IDENA_ANCHORED_BITCOIN_WORK_TEMPLATE_VERSION)
  && bool_decide (is_Some (wt_idena_anchor t))
  && bool_decide (is_Some (wt_idena_anchor_policy_hash t)).

Definition bitcoin_header_version (t : BitcoinWorkTemplate) : result SharechainError N :=
  prefix ← decode_bitcoin_header_prefix_hex (wt_header_prefix_hex t);
  Ok (from_le_bytes (take 4 prefix)).

Definition require_idena_anchor (t : BitcoinWorkTemplate) : result SharechainError IdenaBlockAnchorV1 :=
  _ ← verify_template_hash t;
  if negb (is_idena_anchored t) then Err MissingIdenaBlockAnchor
  else ok_or MissingIdenaBlockAnchor (wt_idena_anchor t).

Definition require_idena_anchor_policy_hash (t : BitcoinWorkTemplate) : result SharechainError string :=
  _ ← verify_template_hash t;
  if negb (is_idena_anchored t) then Err MissingIdenaAnchorPolicyHash
  else ok_or MissingIdenaAnchorPolicyHash (wt_idena_anchor_policy_hash t).

Definition require_target_bound (t : BitcoinWorkTemplate) : result SharechainError unit :=
  _ ← verify_template_hash t;
  if negb (is_target_bound t) then Err TargetBoundBitcoinWorkTemplateRequired else Ok tt.

Definition verify_assigned_share_target (t : BitcoinWorkTemplate) (claimed_target : string)
    : result SharechainError unit :=
  _ ← verify_template_hash t;
  if wt_version t =? LEGACY_BITCOIN_WORK_TEMPLATE_VERSION then Ok tt
  else
    expected ← ok_or MissingAssignedShareTarget (wt_assigned_share_target t);
    let expected := to_ascii_lowercase expected in
    let actual := to_ascii_lowercase claimed_target in
    _ ← validate_share_target_hex actual;
    if negb (String.eqb actual expected) then Err (AssignedShareTargetMismatch expected actual) else Ok tt.

Definition wt_verify_mining_signature (t : BitcoinWorkTemplate) (mining_pubkey_hex : string)
    : result SharechainError unit :=
  _ ← verify_template_hash t;
  verify_mining_signature mining_pubkey_hex (wt_mining_signature_hex t) (wt_signing_hash t).

(** ** Message hashes *)

Definition sh_normalized (s : Share) : Share := {|
  sh_miner_id := to_ascii_lowercase (sh_miner_id s);
  sh_bitcoin_header_hex := to_ascii_lowercase (sh_bitcoin_header_hex s);
  sh_bitcoin_template_hash := to_ascii_lowercase (sh_bitcoin_template_hash s);
  sh_nonce_hex := to_ascii_lowercase (sh_nonce_hex s);
  sh_work_hash := to_ascii_lowercase (sh_work_hash s);
  sh_target := to_ascii_lowercase (sh_target s);
  sh_idena_snapshot_id := to_ascii_lowercase (sh_idena_snapshot_id s);
  sh_idena_snapshot_proof_root := to_ascii_lowercase (sh_idena_snapshot_proof_root s);
  sh_hashrate_score_delta := sh_hashrate_score_delta s;
  sh_parent_share_hash := to_ascii_lowercase (sh_parent_share_hash s);
  sh_work_binding := sw_normalized <$> sh_work_binding s;
  sh_mining_signature_hex := to_ascii_lowercase (sh_mining_signature_hex s) |}.

Definition sv_normalized (v : SnapshotVote) : SnapshotVote := {|
  sv_voter_miner_id := to_ascii_lowercase (sv_voter_miner_id v);
  sv_snapshot_day := sv_snapshot_day v;
  sv_idena_height := sv_idena_height v;
  sv_score_root := to_ascii_lowercase (sv_score_root v);
  sv_signature_hex := to_ascii_lowercase (sv_signature_hex v) |}.

(** The [PayoutSchedule] arm of [normalized_for_hash]. *)
Definition ps_normalized_for_hash (s : PayoutSchedule) : PayoutSchedule := {|
  ps_direct_outputs := map (fun o => {|
    dp_miner_id := to_ascii_lowercase (dp_miner_id o);
    dp_btc_payout_script_hex := to_ascii_lowercase (dp_btc_payout_script_hex o);
    dp_amount_sats := dp_amount_sats o |}) (ps_direct_outputs s);
  ps_vault_allocations := map (fun a => {|
    va_miner_id := to_ascii_lowercase (va_miner_id a);
    va_claim_owner_id := to_ascii_lowercase (va_claim_owner_id a);
    va_amount_sats := va_amount_sats a |}) (ps_vault_allocations s);
  ps_vault_output_sats := ps_vault_output_sats s;
  ps_payout_root := to_ascii_lowercase (ps_payout_root s) |}.

Definition normalized_for_hash (m : SharechainMessage) : SharechainMessage :=
  match m with
  | MsgMinerRegistration r => MsgMinerRegistration (mr_normalized r)
  | MsgBitcoinWorkTemplate t => MsgBitcoinWorkTemplate (wt_normalized t)
  | MsgShare s => MsgShare (sh_normalized s)
  | MsgSharechainCheckpoint c => MsgSharechainCheckpoint (cp_normalized c)
  | MsgSnapshotVote v => MsgSnapshotVote (sv_normalized v)
  | MsgPayoutSchedule s => MsgPayoutSchedule (ps_normalized_for_hash s)
  | MsgWithdrawalRequest r => MsgWithdrawalRequest (wr_normalized r)
  | MsgWithdrawalBatch b => MsgWithdrawalBatch (wb_normalized b)
  | MsgPohwCommitment c => MsgPohwCommitment (pc_normalized c)
  end.

Definition message_hash (m : SharechainMessage) : string :=
  hash_hex (sha256_tagged (byte_str "POHW1_SHARECHAIN_MESSAGE") (canonical_json (normalized_for_hash m))).

Definition msg_normalized (m : SharechainMessage) : SharechainMessage := normalized_for_hash m.

Definition share_hash (s : Share) : string := message_hash (MsgShare s).

(** ** Shares *)

Definition share_payload (s : Share) : ShareSigningPayload := {|
  shs_miner_id := to_ascii_lowercase (sh_miner_id s);
  shs_bitcoin_header_hex := to_ascii_lowercase (sh_bitcoin_header_hex s);
  shs_bitcoin_template_hash := to_ascii_lowercase (sh_bitcoin_template_hash s);
  shs_nonce_hex := to_ascii_lowercase (sh_nonce_hex s);
  shs_work_hash := to_ascii_lowercase (sh_work_hash s);
  shs_target := to_ascii_lowercase (sh_target s);
  shs_idena_snapshot_id := to_ascii_lowercase (sh_idena_snapshot_id s);
  shs_idena_snapshot_proof_root := to_ascii_lowercase (sh_idena_snapshot_proof_root s);
  shs_hashrate_score_delta := sh_hashrate_score_delta s;
  shs_parent_share_hash := to_ascii_lowercase (sh_parent_share_hash s);
  shs_work_binding := sw_normalized <$> sh_work_binding s |}.

Definition sh_signing_hash (s : Share) : bytes :=
  sha256_tagged (byte_str "POHW1_SHARE") (canonical_json (share_payload s)).

Definition bitcoin_header_prefix_hex (s : Share) : result SharechainError string :=
  header ← decode_bitcoin_header_hex (sh_bitcoin_header_hex s);
  Ok (hex_encode (take BITCOIN_TEMPLATE_PREFIX_BYTES header)).

Definition recomputed_bitcoin_template_hash (s : Share) : result SharechainError string :=
  prefix ← bitcoin_header_prefix_hex s;
  template_hash_for_header_prefix_hex prefix.

Definition recomputed_target_bound_bitcoin_template_hash (s : Share) : result SharechainError string :=
  prefix ← bitcoin_header_prefix_hex s;
  target_bound_template_hash_for_header_prefix_hex prefix (sh_target s).

Definition recomputed_idena_anchored_bitcoin_template_hash (s : Share) (anchor : IdenaBlockAnchorV1)
    (policy_hash : string) : result SharechainError string :=
  prefix ← bitcoin_header_prefix_hex s;
  idena_anchored_template_hash_for_header_prefix_hex prefix (sh_target s) anchor policy_hash.

Definition recomputed_nonce_hex (s : Share) : result SharechainError string :=
  header ← decode_bitcoin_header_hex (sh_bitcoin_header_hex s);
  Ok (hex_encode (take (BITCOIN_HEADER_BYTES - BITCOIN_TEMPLATE_PREFIX_BYTES)
                    (drop BITCOIN_TEMPLATE_PREFIX_BYTES header))).

Definition recomputed_work_hash (s : Share) : result SharechainError string :=
  header ← decode_bitcoin_header_hex (sh_bitcoin_header_hex s);
  Ok (sha256d_to_string header).

Definition sh_validate_fields (s : Share) : result SharechainError unit :=
  _ ← sc_validate_miner_id "miner_id" (sh_miner_id s);
  _ ← validate_bitcoin_header_hex (sh_bitcoin_header_hex s);
  _ ← validate_hex_32 "bitcoin_template_hash" (sh_bitcoin_template_hash s);
  _ ← validate_hex_exact_len "nonce_hex" (sh_nonce_hex s) BITCOIN_NONCE_HEX_LEN;
  _ ← validate_hex_32 "work_hash" (sh_work_hash s);
  _ ← validate_hex_32 "target" (sh_target s);
  _ ← sc_validate_snapshot_id (sh_idena_snapshot_id s);
  _ ← validate_hex_32 "idena_snapshot_proof_root" (sh_idena_snapshot_proof_root s);
  _ ← validate_hex_32 "parent_share_hash" (sh_parent_share_hash s);
  if sh_hashrate_score_delta s =? 0 then Err ZeroShareScore else Ok tt.

Definition verify_present_work_binding_fields (s : Share) : result SharechainError unit :=
  match sh_work_binding s with
  | None => Ok tt
  | Some binding =>
      _ ← map_err InvalidShareWorkBinding (validate_commitment_fields binding);
      if negb (eq_ignore_ascii_case (sw_miner_id binding) (sh_miner_id s))
      then Err (ShareWorkBindingMismatch "miner_id")
      else if negb (eq_ignore_ascii_case (sw_assigned_share_target binding) (sh_target s))
      then Err (ShareWorkBindingMismatch "assigned_share_target")
      else if negb (eq_ignore_ascii_case (sw_parent_share_hash binding) (sh_parent_share_hash s))
      then Err (ShareWorkBindingMismatch "parent_share_hash")
      else if negb (eq_ignore_ascii_case (sw_idena_snapshot_id binding) (sh_idena_snapshot_id s))
      then Err (ShareWorkBindingMismatch "idena_snapshot_id")
      else if negb (eq_ignore_ascii_case (sw_idena_snapshot_proof_root binding)
                      (sh_idena_snapshot_proof_root s))
      then Err (ShareWorkBindingMismatch "idena_snapshot_proof_root")
      else map_err InvalidShareWorkBinding (verify_header_commitment binding (sh_bitcoin_header_hex s))
  end.

Definition verify_present_work_binding_for_template (s : Share) (template : BitcoinWorkTemplate)
    : result SharechainError unit :=
  _ ← verify_present_work_binding_fields s;
  match sh_work_binding s with
  | None => Ok tt
  | Some binding =>
      anchor ← ok_or (ShareWorkBindingMismatch "idena_anchor") (wt_idena_anchor template);
      if bool_decide (sw_idena_anchor binding <> anchor)
      then Err (ShareWorkBindingMismatch "idena_anchor")
      else
        template_policy_hash ← ok_or (ShareWorkBindingMismatch "idena_anchor_policy_hash")
                                 (wt_idena_anchor_policy_hash template);
        if negb (eq_ignore_ascii_case (sw_idena_anchor_policy_hash binding) template_policy_hash)
        then Err (ShareWorkBindingMismatch "idena_anchor_policy_hash")
        else Ok tt
  end.

Definition verify_required_work_binding (s : Share) (template : BitcoinWorkTemplate)
    (policy : ShareWorkBindingPolicyV1) : result SharechainError unit :=
  _ ← verify_present_work_binding_for_template s template;
  binding ← ok_or MissingShareWorkBinding (sh_work_binding s);
  map_err InvalidShareWorkBinding (verify_policy binding policy).

Definition expected_hashrate_score_delta_for_target (target_hex : string) : result SharechainError N :=
  target ← decode_hex_32 "target" target_hex;
  share_score_from_target target.

Definition expected_hashrate_score_delta (s : Share) : result SharechainError N :=
  expected_hashrate_score_delta_for_target (sh_target s).

Definition verify_work_score (s : Share) : result SharechainError unit :=
  expected_work_hash ← recomputed_work_hash s;
  if negb (eq_ignore_ascii_case (sh_work_hash s) expected_work_hash)
  then Err (ShareWorkHashMismatch expected_work_hash (to_ascii_lowercase (sh_work_hash s)))
  else
    work_hash ← decode_hex_32 "work_hash" (sh_work_hash s);
    target ← decode_hex_32 "target" (sh_target s);
    if all_zero_bytes target then Err ZeroShareTarget
    else if bytes_gt target max_share_target_bytes then Err ShareTargetAboveLimit
    else if bytes_gt work_hash target then Err ShareWorkAboveTarget
    else
      expected ← share_score_from_target target;
      if negb (sh_hashrate_score_delta s =? expected)
      then Err (ShareScoreMismatch expected (sh_hashrate_score_delta s))
      else Ok tt.

Definition verify_nonce_binding (s : Share) : result SharechainError unit :=
  expected_nonce ← recomputed_nonce_hex s;
  if negb (eq_ignore_ascii_case (sh_nonce_hex s) expected_nonce)
  then Err (ShareNonceMismatch expected_nonce (to_ascii_lowercase (sh_nonce_hex s)))
  else Ok tt.

Definition verify_bitcoin_header_binding (s : Share) : result SharechainError unit :=
  legacy_template_hash ← recomputed_bitcoin_template_hash s;
  target_bound_template_hash ← recomputed_target_bound_bitcoin_template_hash s;
  if negb (eq_ignore_ascii_case (sh_bitcoin_template_hash s) legacy_template_hash)
     && negb (eq_ignore_ascii_case (sh_bitcoin_template_hash s) target_bound_template_hash)
  then Err (ShareTemplateHashMismatch target_bound_template_hash
              (to_ascii_lowercase (sh_bitcoin_template_hash s)))
  else Ok tt.

Definition sh_verify_mining_signature (s : Share) (mining_pubkey_hex : string)
    : result SharechainError unit :=
  _ ← sh_validate_fields s;
  _ ← verify_bitcoin_header_binding s;
  _ ← verify_nonce_binding s;
  _ ← verify_work_score s;
  _ ← verify_present_work_binding_fields s;
  verify_mining_signature mining_pubkey_hex (sh_mining_signature_hex s) (sh_signing_hash s).

Definition verify_mining_signature_for_template (s : Share) (mining_pubkey_hex : string)
    (template : BitcoinWorkTemplate) : result SharechainError unit :=
  _ ← sh_validate_fields s;
  _ ← verify_template_hash template;
  if negb (eq_ignore_ascii_case (sh_bitcoin_template_hash s) (wt_template_hash template))
  then Err (ShareTemplateHashMismatch (to_ascii_lowercase (wt_template_hash template))
              (to_ascii_lowercase (sh_bitcoin_template_hash s)))
  else
    prefix ← bitcoin_header_prefix_hex s;
    if negb (eq_ignore_ascii_case prefix (wt_header_prefix_hex template))
    then Err (ShareTemplateHashMismatch (to_ascii_lowercase (wt_template_hash template))
                (to_ascii_lowercase (sh_bitcoin_template_hash s)))
    else
      _ ← verify_assigned_share_target template (sh_target s);
      _ ← verify_nonce_binding s;
      _ ← verify_work_score s;
      _ ← verify_present_work_binding_for_template s template;
      verify_mining_signature mining_pubkey_hex (sh_mining_signature_hex s) (sh_signing_hash s).

(** ** Snapshot votes *)

Definition vote_payload (v : SnapshotVote) : SnapshotVoteSigningPayload := {|
  svs_voter_miner_id := to_ascii_lowercase (sv_voter_miner_id v);
  svs_snapshot_day := sv_snapshot_day v;
  svs_idena_height := sv_idena_height v;
  svs_score_root := to_ascii_lowercase (sv_score_root v) |}.

Definition sv_signing_hash (v : SnapshotVote) : bytes :=
  sha256_tagged (byte_str "POHW1_SNAPSHOT_VOTE") (canonical_json (vote_payload v)).

Definition sv_verify_mining_signature (v : SnapshotVote) (mining_pubkey_hex : string)
    : result SharechainError unit :=
  _ ← sc_validate_miner_id "voter_miner_id" (sv_voter_miner_id v);
  _ ← map_err (SC_InvalidField "snapshot_day") (naive_date_parse (sv_snapshot_day v));
  if sv_idena_height v =? 0
  then Err (SC_InvalidField "idena_height" "height must be greater than zero")
  else
    _ ← validate_hex_32 "score_root" (sv_score_root v);
    verify_mining_signature mining_pubkey_hex (sv_signature_hex v) (sv_signing_hash v).
End sharechain.

(** ** Serialisation loses nothing *)

Lemma unless_inj c v v' : unless (N.eqb c) v = unless (N.eqb c) v' -> v = v'.
Proof. unfold unless. destruct (N.eqb_spec c v), (N.eqb_spec c v'); congruence. Qed.

Lemma unless_registration_inj v v' :
  unless is_legacy_miner_registration_version v = unless is_legacy_miner_registration_version v' -> v = v'.
Proof.
  intros Heq. apply (unless_inj LEGACY_MINER_REGISTRATION_VERSION). unfold unless in *.
  unfold is_legacy_miner_registration_version in Heq. by rewrite !(N.eqb_sym LEGACY_MINER_REGISTRATION_VERSION).
Qed.

Lemma unless_template_inj v v' :
  unless is_legacy_bitcoin_work_template_version v = unless is_legacy_bitcoin_work_template_version v' -> v = v'.
Proof. exact (unless_registration_inj v v'). Qed.

(** As [solve_serialize_inj], for structs with a skipped legacy version. *)
Ltac solve_versioned_inj :=
  let x := fresh "x" in let y := fresh "y" in let Heq := fresh "Heq" in
  intros x y Heq; invert_fields Heq;
  repeat match goal with
  | HH : unless _ _ = unless _ _ |- _ => apply unless_registration_inj in HH
  | HH : unless _ _ = unless _ _ |- _ => apply unless_template_inj in HH
  end;
  destruct x, y; simpl in *; subst; reflexivity.

Global Instance MinerRegistryAnchorV1_serialize_inj : SerializeInj MinerRegistryAnchorV1.
Proof. solve_serialize_inj. Qed.
Global Instance MinerRegistration_serialize_inj : SerializeInj MinerRegistration.
Proof. solve_versioned_inj. Qed.
Global Instance BitcoinWorkTemplate_serialize_inj : SerializeInj BitcoinWorkTemplate.
Proof. solve_versioned_inj. Qed.
Global Instance ShareWorkBindingV1_serialize_inj : SerializeInj ShareWorkBindingV1.
Proof. solve_serialize_inj. Qed.
Global Instance Share_serialize_inj : SerializeInj Share.
Proof. solve_serialize_inj. Qed.
Global Instance SharechainCheckpointAnchorV1_serialize_inj : SerializeInj SharechainCheckpointAnchorV1.
Proof. solve_serialize_inj. Qed.
Global Instance SnapshotVote_serialize_inj : SerializeInj SnapshotVote.
Proof. solve_serialize_inj. Qed.
Global Instance DirectPayout_serialize_inj : SerializeInj DirectPayout.
Proof. solve_serialize_inj. Qed.
Global Instance VaultAllocation_serialize_inj : SerializeInj VaultAllocation.
Proof. solve_serialize_inj. Qed.
Global Instance PayoutSchedule_serialize_inj : SerializeInj PayoutSchedule.
Proof. solve_serialize_inj. Qed.
Global Instance WithdrawalOutputKind_serialize_inj : SerializeInj WithdrawalOutputKind.
Proof. by intros [] []. Qed.
Global Instance WithdrawalRequest_serialize_inj : SerializeInj WithdrawalRequest.
Proof. solve_serialize_inj. Qed.
Global Instance WithdrawalOutput_serialize_inj : SerializeInj WithdrawalOutput.
Proof. solve_serialize_inj. Qed.
Global Instance WithdrawalBatch_serialize_inj : SerializeInj WithdrawalBatch.
Proof. solve_serialize_inj. Qed.

Lemma tagged_json_inj t t' p p' : tagged_json t p = tagged_json t' p' -> t = t' /\ p = p'.
Proof. unfold tagged_json. intros Heq. injection Heq. done. Qed.

Global Instance SharechainMessage_serialize_inj : SerializeInj SharechainMessage.
Proof.
  intros [] [] Heq; apply tagged_json_inj in Heq as [Ht Heq]; try discriminate Ht;
    f_equal; by apply to_json_inj.
Qed.

Global Instance MinerRegistryCommitmentPayload_serialize_inj : SerializeInj MinerRegistryCommitmentPayload.
Proof. solve_serialize_inj. Qed.
Global Instance TargetBoundBitcoinWorkTemplateHashPayload_serialize_inj :
  SerializeInj TargetBoundBitcoinWorkTemplateHashPayload.
Proof. solve_serialize_inj. Qed.
Global Instance IdenaAnchoredBitcoinWorkTemplateHashPayload_serialize_inj :
  SerializeInj IdenaAnchoredBitcoinWorkTemplateHashPayload.
Proof. solve_serialize_inj. Qed.

(** ** Normal forms *)

Lemma lower_option_idemp (o : option string) :
  to_ascii_lowercase <$> (to_ascii_lowercase <$> o) = to_ascii_lowercase <$> o.
Proof. destruct o; simpl; [by rewrite lower_idemp|done]. Qed.

Lemma map_lower_idemp l : map to_ascii_lowercase (map to_ascii_lowercase l) = map to_ascii_lowercase l.
Proof. induction l; simpl; [done|]. by rewrite lower_idemp, IHl. Qed.

Lemma iba_normalized_idemp a : iba_normalized (iba_normalized a) = iba_normalized a.
Proof. unfold iba_normalized. simpl. by rewrite lower_idemp. Qed.

Lemma mra_normalized_idemp a : mra_normalized (mra_normalized a) = mra_normalized a.
Proof. unfold mra_normalized. simpl. by rewrite !lower_idemp. Qed.

Lemma sw_normalized_idemp b : sw_normalized (sw_normalized b) = sw_normalized b.
Proof.
  unfold sw_normalized. simpl. by rewrite !lower_idemp, map_lower_idemp, iba_normalized_idemp.
Qed.

Lemma sh_normalized_idemp s : sh_normalized (sh_normalized s) = sh_normalized s.
Proof.
  unfold sh_normalized. simpl. rewrite !lower_idemp. f_equal.
  destruct (sh_work_binding s); simpl; [by rewrite sw_normalized_idemp|done].
Qed.

Lemma share_hash_normalized `{Hashing} s : share_hash (sh_normalized s) = share_hash s.
Proof. unfold share_hash, message_hash. simpl. by rewrite sh_normalized_idemp. Qed.

(** ** What the hashes bind *)

Section inputs.
Context `{Hashing}.

Definition message_input (m : SharechainMessage) : bytes :=
  tagged_input (byte_str "POHW1_SHARECHAIN_MESSAGE") (canonical_json (normalized_for_hash m)).

(** The string a work template's hash is computed from. *)
Definition template_input (t : BitcoinWorkTemplate) : bytes :=
  let prefix := expect_decode (to_ascii_lowercase (wt_header_prefix_hex t)) in
  let target := to_ascii_lowercase (default "" (wt_assigned_share_target t)) in
  if wt_version t =? LEGACY_BITCOIN_WORK_TEMPLATE_VERSION
  then tagged_input (byte_str "POHW1_BTC_TEMPLATE") prefix
  else if wt_version t =? TARGET_BOUND_BITCOIN_WORK_TEMPLATE_VERSION
  then tagged_input (byte_str "POHW2_BTC_TEMPLATE") (canonical_json {|
         tbh_version := wt_version t;
         tbh_header_prefix_hex := hex_encode prefix;
         tbh_assigned_share_target := target |})
  else tagged_input (byte_str "POHW3_BTC_TEMPLATE") (canonical_json {|
         iah_version := wt_version t;
         iah_header_prefix_hex := hex_encode prefix;
         iah_assigned_share_target := target;
         iah_idena_anchor := iba_normalized (default {| iba_height := 0; iba_hash := "" |} (wt_idena_anchor t));
         iah_idena_anchor_policy_hash := to_ascii_lowercase (default "" (wt_idena_anchor_policy_hash t)) |}).

Definition registry_input (r : MinerRegistration) (a : MinerRegistryAnchorV1) : bytes :=
  tagged_input (byte_str "POHW_MINER_REGISTRY_COMMITMENT_V1")
    (canonical_json (registry_commitment_payload r (to_ascii_lowercase (mra_experiment_id a)))).

(** The fields of a template that its hash covers. *)
Definition template_work (t : BitcoinWorkTemplate) :=
  (wt_version t, to_ascii_lowercase (wt_header_prefix_hex t),
   to_ascii_lowercase <$> wt_assigned_share_target t, iba_normalized <$> wt_idena_anchor t,
   to_ascii_lowercase <$> wt_idena_anchor_policy_hash t).

(** The identity, the payout script and the keys of a registration. *)
Definition registration_keys (r : MinerRegistration) :=
  (to_ascii_lowercase (mr_miner_id r), to_ascii_lowercase (mr_idena_address r),
   to_ascii_lowercase (mr_btc_payout_script_hex r), to_ascii_lowercase (mr_claim_owner_pubkey_hex r),
   to_ascii_lowercase (mr_mining_pubkey_hex r)).
End inputs.

Section decode.
Context `{Hashing, !HexLaws}.

Lemma decode_hex_array_Ok field value reason n b :
  decode_hex_array field value reason n = Ok b ->
  hex_decode (to_ascii_lowercase value) = Ok b /\ length b = n.
Proof.
  unfold decode_hex_array. intros Hd. res_inv.
  match goal with HH : hex_decode _ = _ |- _ => rewrite HH end. bool_inv. by subst.
Qed.

Lemma decode_prefix_Ok value b :
  decode_bitcoin_header_prefix_hex value = Ok b ->
  expect_decode (to_ascii_lowercase value) = b /\ hex_encode b = to_ascii_lowercase value.
Proof.
  unfold decode_bitcoin_header_prefix_hex. intros Hd. res_inv. apply decode_hex_array_Ok in Hd as [Hd _].
  split; [unfold expect_decode; by rewrite Hd|]. apply hex_decode_iff in Hd. by rewrite <-Hd, lower_idemp.
Qed.
End decode.

Lemma is_Some_false {A} (o : option A) : bool_decide (is_Some o) = false -> o = None.
Proof. destruct o; [|done]. by rewrite bool_decide_eq_true_2 by eauto. Qed.

Section template_hash.
Context `{Hashing, !HexLaws, BitcoinCrate}.

(** Which fields of a template with a valid hash are present. *)
Definition template_shape (t : BitcoinWorkTemplate) : Prop :=
  wt_version t = 1 /\ wt_assigned_share_target t = None /\ wt_idena_anchor t = None /\
    wt_idena_anchor_policy_hash t = None \/
  wt_version t = 2 /\ is_Some (wt_assigned_share_target t) /\ wt_idena_anchor t = None /\
    wt_idena_anchor_policy_hash t = None \/
  wt_version t = 3 /\ is_Some (wt_assigned_share_target t) /\ is_Some (wt_idena_anchor t) /\
    is_Some (wt_idena_anchor_policy_hash t).

Lemma expected_template_hash_Ok t h :
  expected_template_hash t = Ok h ->
  h = hash_hex (sha256 (template_input t)) /\ template_shape t /\
  hex_encode (expect_decode (to_ascii_lowercase (wt_header_prefix_hex t))) =
    to_ascii_lowercase (wt_header_prefix_hex t).
Proof.
  unfold expected_template_hash, template_hash_for_header_prefix_hex, template_input, template_shape,
    target_bound_template_hash_for_header_prefix_hex, idena_anchored_template_hash_for_header_prefix_hex.
  intros Ht. destruct (wt_version t =? LEGACY_BITCOIN_WORK_TEMPLATE_VERSION) eqn:H1v;
    [|destruct (wt_version t =? TARGET_BOUND_BITCOIN_WORK_TEMPLATE_VERSION) eqn:H2v;
      [|destruct (wt_version t =? IDENA_ANCHORED_BITCOIN_WORK_TEMPLATE_VERSION) eqn:H3v; [|discriminate]]];
    res_inv; bool_inv;
    repeat match goal with
    | HH : ~ is_Some ?o |- _ => apply eq_None_not_Some in HH
    | HH : decode_bitcoin_header_prefix_hex _ = Ok _ |- _ => apply decode_prefix_Ok in HH as [-> HH]
    | HH : ?o = Some _ |- _ => rewrite HH in *; clear HH
    end; subst h; (split; [|split; [|done]]); try done.
  all: match goal with HH : wt_version _ = _ |- _ => rewrite HH end; try reflexivity.
  - by left.
  - right; left. eauto.
  - right; right. eauto.
Qed.

Lemma verify_template_hash_Ok t :
  verify_template_hash t = Ok tt ->
  to_ascii_lowercase (wt_template_hash t) = hash_hex (sha256 (template_input t)) /\ template_shape t /\
  hex_encode (expect_decode (to_ascii_lowercase (wt_header_prefix_hex t))) =
    to_ascii_lowercase (wt_header_prefix_hex t).
Proof.
  unfold verify_template_hash. intros Ht. res_inv. bool_inv.
  match goal with HH : expected_template_hash _ = _ |- _ => apply expected_template_hash_Ok in HH as [-> ?] end.
  match goal with HH : eq_ignore_ascii_case _ _ = true |- _ => apply eq_ignore_ascii_case_iff in HH end.
  rewrite hash_hex_lower in *. done.
Qed.
End template_hash.

(** The three template tags differ, so the version can be read off the input. *)
Lemma template_input_inj `{Hashing, !HexLaws, !HashLaws} t1 t2 :
  template_shape t1 -> template_shape t2 ->
  hex_encode (expect_decode (to_ascii_lowercase (wt_header_prefix_hex t1))) =
    to_ascii_lowercase (wt_header_prefix_hex t1) ->
  hex_encode (expect_decode (to_ascii_lowercase (wt_header_prefix_hex t2))) =
    to_ascii_lowercase (wt_header_prefix_hex t2) ->
  template_input t1 = template_input t2 -> template_work t1 = template_work t2.
Proof.
  intros Hs1 Hs2 Hp1 Hp2 Heq. unfold template_work. rewrite <-Hp1, <-Hp2. unfold template_input in Heq.
  destruct Hs1 as [(Hv1 & Ht1 & Ha1 & Hh1)|[(Hv1 & [x1 Ht1] & Ha1 & Hh1)|(Hv1 & [x1 Ht1] & [a1 Ha1] & [h1 Hh1])]],
    Hs2 as [(Hv2 & Ht2 & Ha2 & Hh2)|[(Hv2 & [x2 Ht2] & Ha2 & Hh2)|(Hv2 & [x2 Ht2] & [a2 Ha2] & [h2 Hh2])]];
    rewrite Hv1, Hv2, ?Ht1, ?Ht2, ?Ha1, ?Ha2, ?Hh1, ?Hh2 in *; cbn [N.eqb] in Heq; try discriminate Heq.
  - apply tagged_input_inj in Heq. by rewrite Heq.
  - apply tagged_input_inj, to_vec_inj, to_json_inj in Heq. injection Heq as Hp Ht. simpl. by rewrite Hp, Ht.
  - apply tagged_input_inj, to_vec_inj, to_json_inj in Heq.
    apply (f_equal (fun p => (iah_header_prefix_hex p, iah_assigned_share_target p, iah_idena_anchor p,
                              iah_idena_anchor_policy_hash p))) in Heq.
    cbn [iah_header_prefix_hex iah_assigned_share_target iah_idena_anchor iah_idena_anchor_policy_hash
         default option_fmap option_map id from_option] in Heq |- *.
    rewrite !pair_equal_spec in Heq. destruct Heq as [[[Hp Ht] Ha] Hh].
    cbn [fmap option_fmap option_map]. by rewrite Hp, Ht, Ha, Hh.
Qed.

(** (binding). Messages with one hash have one normal form (the same kind and
    the same fields up to letter case), or their serialisations are a SHA-256 collision. *)
Theorem message_hash_binds `{Hashing, !HexLaws, !HashLaws} m1 m2 :
  message_hash m1 = message_hash m2 ->
  normalized_for_hash m1 = normalized_for_hash m2 \/ collision_among [message_input m1; message_input m2].
Proof.
  intros Heq%hex_encode_inj.
  destruct (collision_free_or [message_input m1; message_input m2]) as [Hfree|]; [left|by right].
  apply (Hfree (message_input m1) (message_input m2)) in Heq; [|set_solver..].
  by apply tagged_input_inj, to_vec_inj, to_json_inj in Heq.
Qed.

(** (binding). Two work templates with valid, equal hashes describe the same
    work: version, header prefix, assigned share target, Idena anchor and anchor
    policy agree, or the hashed strings are a SHA-256 collision. *)
Theorem template_hash_binds_work `{Hashing, !HexLaws, !HashLaws, BitcoinCrate} t1 t2 :
  verify_template_hash t1 = Ok tt -> verify_template_hash t2 = Ok tt ->
  eq_ignore_ascii_case (wt_template_hash t1) (wt_template_hash t2) = true ->
  template_work t1 = template_work t2 \/ collision_among [template_input t1; template_input t2].
Proof.
  intros (Hh1 & Hs1 & Hp1)%verify_template_hash_Ok (Hh2 & Hs2 & Hp2)%verify_template_hash_Ok.
  intros Heq%eq_ignore_ascii_case_iff. rewrite Hh1, Hh2 in Heq. apply hex_encode_inj in Heq.
  destruct (collision_free_or [template_input t1; template_input t2]) as [Hfree|]; [left|by right].
  apply Hfree in Heq; [|set_solver..]. by apply template_input_inj.
Qed.

(** (binding). Anchored registrations that carry the same contract commitment
    name the same miner, Idena address, payout script and keys, or the hashed
    payloads are a SHA-256 collision. *)
Theorem registry_commitment_binds `{Hashing, !HexLaws, !HashLaws} r1 r2 a1 a2 :
  require_registry_anchor r1 = Ok a1 -> require_registry_anchor r2 = Ok a2 ->
  mra_registration_commitment a1 = mra_registration_commitment a2 ->
  registration_keys r1 = registration_keys r2 \/ collision_among [registry_input r1 a1; registry_input r2 a2].
Proof.
  assert (forall r a, require_registry_anchor r = Ok a ->
    mra_registration_commitment a = hash_hex (sha256 (registry_input r a))) as Hc.
  { unfold require_registry_anchor, mr_validate_registry_anchor. intros r a Hr. res_inv. rewrite Hr in *.
    match goal with HH : (if _ then _ else _) = Ok _ |- _ => rename HH into Hv end.
    change (bool_decide (is_Some (Some a))) with true in Hv.
    destruct (_ =? LEGACY_MINER_REGISTRATION_VERSION); [discriminate|].
    simpl in Hv. unfold registry_commitment_hash in Hv. res_inv. bool_inv. subst. done. }
  intros Hr1%Hc Hr2%Hc Heq. rewrite Hr1, Hr2 in Heq. apply hex_encode_inj in Heq.
  destruct (collision_free_or [registry_input r1 a1; registry_input r2 a2]) as [Hfree|]; [left|by right].
  apply Hfree in Heq; [|set_solver..]. apply tagged_input_inj, to_vec_inj, to_json_inj in Heq.
  unfold registration_keys. by injection Heq as _ -> -> -> -> ->.
Qed.

(** ** Accepted shares *)

Section accepted.
Context `{Hashing, !HexLaws, Secp256k1, BitcoinCrate}.

Lemma decode_header_Ok value b :
  decode_bitcoin_header_hex value = Ok b -> length b = 80%nat /\ hex_encode b = to_ascii_lowercase value.
Proof.
  unfold decode_bitcoin_header_hex. intros Hd. res_inv. apply decode_hex_array_Ok in Hd as [Hd Hl].
  apply hex_decode_iff in Hd. by rewrite <-Hd, lower_idemp.
Qed.

Lemma decode_hex_32_Ok field value b :
  decode_hex_32 field value = Ok b -> length b = 32%nat /\ hex_encode b = to_ascii_lowercase value.
Proof.
  unfold decode_hex_32. intros Hd. res_inv. apply decode_hex_array_Ok in Hd as [Hd Hl].
  apply hex_decode_iff in Hd. by rewrite <-Hd, lower_idemp.
Qed.

(** A header whose double hash meets the target, with the score of that target. *)
Record proof_of_work (s : Share) (header work target : bytes) : Prop := {
  pow_header : hex_encode header = to_ascii_lowercase (sh_bitcoin_header_hex s);
  pow_header_length : length header = 80%nat;
  pow_hash : to_ascii_lowercase (sha256d_to_string header) = hex_encode work;
  pow_work : hex_encode work = to_ascii_lowercase (sh_work_hash s);
  pow_target : hex_encode target = to_ascii_lowercase (sh_target s);
  pow_target_nonzero : all_zero_bytes target = false;
  pow_target_limit : bytes_cmp target max_attainable_regtest <> Gt;
  pow_meets_target : bytes_cmp work target <> Gt;
  pow_score : sh_hashrate_score_delta s = target_difficulty_regtest target;
  pow_score_positive : sh_hashrate_score_delta s <> 0
}.

Lemma bytes_gt_false a b : bytes_gt a b = false -> bytes_cmp a b <> Gt.
Proof. unfold bytes_gt. by destruct (bytes_cmp a b). Qed.

Lemma verify_work_score_Ok s header :
  sh_validate_fields s = Ok tt -> verify_work_score s = Ok tt ->
  decode_bitcoin_header_hex (sh_bitcoin_header_hex s) = Ok header ->
  exists work target, proof_of_work s header work target.
Proof.
  unfold verify_work_score, recomputed_work_hash, share_score_from_target. intros Hf Hw Hh.
  rewrite Hh in Hw. simpl in Hw. res_inv. bool_inv. apply decode_header_Ok in Hh as [Hl Hh].
  assert (sh_hashrate_score_delta s <> 0) as Hpos.
  { unfold sh_validate_fields in Hf. res_inv. by bool_inv. }
  repeat match goal with
  | HH : decode_hex_32 _ _ = Ok _ |- _ => apply decode_hex_32_Ok in HH as [? HH]
  | HH : eq_ignore_ascii_case _ _ = true |- _ => apply eq_ignore_ascii_case_iff in HH
  | HH : bytes_gt _ _ = false |- _ => apply bytes_gt_false in HH
  end.
  eexists _, _. split; try eassumption; congruence.
Qed.
End accepted.

(** (safety). A share accepted for a template is proof of work: its header
    extends the template's 76-byte prefix with the share's nonce, the double
    hash of that header meets the share's target, the target is nonzero, below the network
    limit and, unless the template is a legacy one, the assigned target; the
    credited score is the difficulty of that target and positive; and the
    miner's key signs all of it. *)
Theorem accepted_share_proves_work `{Hashing, !HexLaws, Secp256k1, BitcoinCrate} s key t :
  verify_mining_signature_for_template s key t = Ok tt ->
  exists header work target,
    proof_of_work s header work target /\
    header = expect_decode (to_ascii_lowercase (wt_header_prefix_hex t)) ++
             expect_decode (to_ascii_lowercase (sh_nonce_hex s)) /\
    (wt_version t = LEGACY_BITCOIN_WORK_TEMPLATE_VERSION \/
     to_ascii_lowercase <$> wt_assigned_share_target t = Some (to_ascii_lowercase (sh_target s))) /\
    verify_mining_signature key (sh_mining_signature_hex s) (sh_signing_hash s) = Ok tt.
Proof.
  unfold verify_mining_signature_for_template, bitcoin_header_prefix_hex, verify_nonce_binding,
    recomputed_nonce_hex, verify_assigned_share_target. intros Hv.
  destruct (decode_bitcoin_header_hex (sh_bitcoin_header_hex s)) as [header|] eqn:Hh;
    [|simpl in Hv; res_inv; congruence].
  simpl in Hv. res_inv. bool_inv.
  destruct (verify_work_score_Ok s header) as (work & target & Hpow); [done..|].
  exists header, work, target. split_and!; [done| | |done].
  - repeat match goal with HH : eq_ignore_ascii_case _ _ = true |- _ =>
      apply eq_ignore_ascii_case_iff in HH; rewrite ?hex_encode_lower in HH end.
    match goal with HH : hex_encode (take _ _) = _ |- _ => rewrite <-HH end.
    match goal with HH : to_ascii_lowercase (sh_nonce_hex s) = _ |- _ => rewrite HH end.
    rewrite !expect_decode_encode, (take_ge (drop _ _)); [by rewrite take_drop|].
    rewrite length_drop, (pow_header_length _ _ _ _ Hpow). done.
  - match goal with HH : (if _ =? LEGACY_BITCOIN_WORK_TEMPLATE_VERSION then _ else _) = _ |- _ =>
      rename HH into Ht end.
    destruct (N.eqb_spec (wt_version t) LEGACY_BITCOIN_WORK_TEMPLATE_VERSION); [by left|right].
    res_inv. bool_inv. match goal with HH : wt_assigned_share_target t = _ |- _ => rewrite HH end.
    simpl. congruence.
Qed.

(** ** Concrete messages *)

(** A signature that the stand-in verifier of [Concrete.v] accepts. *)
Definition sign_c (hash : bytes) : string := hex_encode_c (hash ++ replicate 32 x00).
Definition sample_key : string := repeat_char "a" 64.
Definition sample_target : string := "7fffff" +:+ repeat_char "0" 58.
Definition sample_idena_signature : string := repeat_char "0" 130.
Definition sample_idena_address : string :=
  @idena_address_from_pubkey hashing_c secp_c (replicate 64 x00).

Definition sample_registration (miner_id : string) : MinerRegistration :=
  let unsigned := {|
    mr_version := 1; mr_miner_id := miner_id; mr_idena_address := sample_idena_address;
    mr_btc_payout_script_hex := "0014" +:+ repeat_char "1" 40;
    mr_claim_owner_pubkey_hex := repeat_char "c" 64; mr_mining_pubkey_hex := sample_key;
    mr_registry_anchor := None; mr_idena_signature_hex := sample_idena_signature;
    mr_mining_signature_hex := "" |} in {|
    mr_version := 1; mr_miner_id := miner_id; mr_idena_address := mr_idena_address unsigned;
    mr_btc_payout_script_hex := mr_btc_payout_script_hex unsigned;
    mr_claim_owner_pubkey_hex := mr_claim_owner_pubkey_hex unsigned;
    mr_mining_pubkey_hex := sample_key;
    mr_registry_anchor := None; mr_idena_signature_hex := sample_idena_signature;
    mr_mining_signature_hex := sign_c (@mr_signing_hash hashing_c unsigned) |}.

Definition sample_prefix : string := repeat_char "1" 152.

Definition sign_template (t : BitcoinWorkTemplate) : BitcoinWorkTemplate := {|
  wt_version := wt_version t; wt_miner_id := wt_miner_id t;
  wt_header_prefix_hex := wt_header_prefix_hex t; wt_template_hash := wt_template_hash t;
  wt_assigned_share_target := wt_assigned_share_target t; wt_idena_anchor := wt_idena_anchor t;
  wt_idena_anchor_policy_hash := wt_idena_anchor_policy_hash t;
  wt_created_at_unix := wt_created_at_unix t;
  wt_mining_signature_hex := sign_c (@wt_signing_hash hashing_c t) |}.

Definition unwrap {E A} (d : A) (r : result E A) : A := match r with Ok a => a | Err _ => d end.

Definition sample_template (miner_id : string) (created_at : Z) : BitcoinWorkTemplate :=
  sign_template (unwrap
    {| wt_version := 0; wt_miner_id := ""; wt_header_prefix_hex := ""; wt_template_hash := "";
       wt_assigned_share_target := None; wt_idena_anchor := None; wt_idena_anchor_policy_hash := None;
       wt_created_at_unix := 0; wt_mining_signature_hex := "" |}
    (@new_target_bound_unsigned hashing_c bitcoin_c miner_id sample_prefix sample_target created_at)).

Definition sample_share (miner_id parent nonce : string) : Share :=
  let header := sample_prefix +:+ nonce in
  let make signature := {|
    sh_miner_id := miner_id; sh_bitcoin_header_hex := header;
    sh_bitcoin_template_hash := wt_template_hash (sample_template miner_id 7);
    sh_nonce_hex := nonce;
    sh_work_hash := @sha256d_to_string bitcoin_c (default [] (hex_decode_c header));
    sh_target := sample_target; sh_idena_snapshot_id := "snap-1";
    sh_idena_snapshot_proof_root := repeat_char "b" 64; sh_hashrate_score_delta := 1;
    sh_parent_share_hash := parent; sh_work_binding := None; sh_mining_signature_hex := signature |} in
  make (sign_c (@sh_signing_hash hashing_c (make ""%string))).

Lemma sample_share_accepted :
  @verify_mining_signature_for_template hashing_c secp_c bitcoin_c
    (sample_share "Alice" ZERO_SHARE_PARENT_HASH "00000014") sample_key (sample_template "alice" 7) = Ok tt.
Proof. vm_compute. reflexivity. Qed.

Lemma accepted_share_proves_work_witness : exists header work target,
  @proof_of_work hashing_c bitcoin_c (sample_share "Alice" ZERO_SHARE_PARENT_HASH "00000014") header work target.
Proof.
  destruct (@accepted_share_proves_work hashing_c hex_laws_c secp_c bitcoin_c
    (sample_share "Alice" ZERO_SHARE_PARENT_HASH "00000014") sample_key (sample_template "alice" 7)
    sample_share_accepted) as (header & work & target & Hpow & _).
  exists header, work, target. exact Hpow.
Defined.

Lemma sample_message_hashes :
  @message_hash hashing_c (MsgMinerRegistration (sample_registration "Alice")) =
  @message_hash hashing_c (MsgMinerRegistration (mr_normalized (sample_registration "Alice"))).
Proof. vm_compute. reflexivity. Qed.

Lemma message_hash_binds_witness :
  normalized_for_hash (MsgMinerRegistration (sample_registration "Alice")) =
  normalized_for_hash (MsgMinerRegistration (mr_normalized (sample_registration "Alice"))) \/
  @collision_among hashing_c
    [@message_input hashing_c (MsgMinerRegistration (sample_registration "Alice"));
     @message_input hashing_c (MsgMinerRegistration (mr_normalized (sample_registration "Alice")))].
Proof.
  exact (@message_hash_binds hashing_c hex_laws_c hash_laws_c _ _ sample_message_hashes).
Defined.

Lemma sample_templates_valid :
  @verify_template_hash hashing_c bitcoin_c (sample_template "alice" 7) = Ok tt /\
  @verify_template_hash hashing_c bitcoin_c (sample_template "bob" 9) = Ok tt /\
  eq_ignore_ascii_case (wt_template_hash (sample_template "alice" 7))
    (wt_template_hash (sample_template "bob" 9)) = true.
Proof. split_and!; vm_compute; reflexivity. Qed.

Lemma template_hash_binds_work_witness :
  template_work (sample_template "alice" 7) = template_work (sample_template "bob" 9) \/
  @collision_among hashing_c [@template_input hashing_c (sample_template "alice" 7);
                              @template_input hashing_c (sample_template "bob" 9)].
Proof.
  exact (@template_hash_binds_work hashing_c hex_laws_c hash_laws_c bitcoin_c
    (sample_template "alice" 7) (sample_template "bob" 9)
    (proj1 sample_templates_valid) (proj1 (proj2 sample_templates_valid))
    (proj2 (proj2 sample_templates_valid))).
Defined.

(** A contract record for a registration, with its commitment. *)
Definition sample_registry_anchor (sequence : N) : MinerRegistryAnchorV1 := {|
  mra_contract_address := "0x" +:+ repeat_char "4" 40; mra_experiment_id := "exp-1";
  mra_registration_sequence := sequence; mra_registration_block := 5; mra_registration_epoch := 1;
  mra_registration_timestamp := 100;
  mra_registration_commitment :=
    unwrap ""%string (@registry_commitment_hash hashing_c (sample_registration "alice") "exp-1") |}.

Definition sample_anchored (sequence : N) : MinerRegistration :=
  unwrap (sample_registration "")
    (@attach_registry_anchor hashing_c (sample_registration "alice") (sample_registry_anchor sequence)).

Lemma sample_anchored_valid :
  @require_registry_anchor hashing_c (sample_anchored 1) = Ok (sample_registry_anchor 1) /\
  @require_registry_anchor hashing_c (sample_anchored 2) = Ok (sample_registry_anchor 2).
Proof. split; vm_compute; reflexivity. Qed.

Lemma registry_commitment_binds_witness :
  registration_keys (sample_anchored 1) = registration_keys (sample_anchored 2) \/
  @collision_among hashing_c
    [@registry_input hashing_c (sample_anchored 1) (sample_registry_anchor 1);
     @registry_input hashing_c (sample_anchored 2) (sample_registry_anchor 2)].
Proof.
  exact (@registry_commitment_binds hashing_c hex_laws_c hash_laws_c
    (sample_anchored 1) (sample_anchored 2) (sample_registry_anchor 1) (sample_registry_anchor 2)
    (proj1 sample_anchored_valid) (proj2 sample_anchored_valid) eq_refl).
Defined.
