(* ===== verification/ShareTree.v ===== *)
(** * The share tree and its fork choice
      ([crates/pohw-core/src/sharechain_state.rs])

    The part of [SharechainReplayState] that stores shares, resolves their
    cumulative scores and keeps the active branch: its fields are a record of
    its own here, and every method that touches them is a definition of this
    file.  [ShareTreeInv.v] has the invariant and the theorems. *)
From S2P Require Import Prelude Order Text Crates Payout Withdrawal Ledger IdenaAnchor ShareWork Commitment Sharechain.

Local Open Scope N_scope.

Record ShareNode := {
  nd_share : Share;
  nd_parent_share_hash : string;
  nd_cumulative_score : option N;
  nd_height : N
}.

Global Instance ShareNode_eq_dec : EqDecision ShareNode.
Proof. solve_decision. Defined.

(** The last two constructors are not in the source: [Panic] is an [expect]
    that fails and [Diverged] a loop that exceeds its bound.  The theorems show
    that neither occurs. *)
Inductive SharechainReplayError :=
| ConflictingRegistration (miner_id : string)
| IdenaAnchorPolicy (error : IdenaAnchorError)
| UnanchoredMinerRegistration (miner_id : string)
| UnanchoredBitcoinWorkTemplate (template_hash : string)
| TemplateAnchorBeforeRegistration
| DuplicateBootstrapAnchor (miner_id : string) (anchor_height : N)
| NonIncreasingBootstrapAnchor
| MissingAnchoredShareParent (parent_hash : string)
| MissingAnchoredParentBitcoinWorkTemplate (template_hash : string)
| UnknownShareMiner (miner_id : string)
| UnknownBitcoinWorkTemplateMiner (miner_id : string)
| UnacceptedBitcoinWorkTemplate (template_hash : string)
| ConflictingBitcoinWorkTemplate (template_hash : string)
| UnknownShareBitcoinWorkTemplate (template_hash : string)
| ShareBitcoinWorkTemplateMismatch (template_hash : string)
| AdditionalSharechainRoot (existing_share_hash candidate_share_hash : string)
| ConflictingShare (share_hash : string)
| DuplicateShareWork (work_hash existing_share_hash : string)
| ConflictingCheckpoint (round : N)
| NonSequentialCheckpoint (expected_parent actual : N)
| CheckpointParentMismatch
| CheckpointIntervalNotElapsed
| CheckpointRegistrationSetMismatch
| UnknownCheckpointShareTip (share_hash : string)
| CheckpointShareMetadataMismatch
| CheckpointNotDescendant
| UnknownSnapshotVoter (miner_id : string)
| HashrateScoreOverflow (miner_id : string)
| ShareBranchScoreOverflow (share_hash : string)
| ConflictingPayoutSchedule (payout_root : string)
| UnknownPayoutMiner (miner_id : string)
| PayoutScriptMismatch (miner_id : string)
| PayoutClaimOwnerMismatch (miner_id : string)
| PayoutScheduleMismatch
| ConflictingWithdrawalRequest (request_id : string)
| ConflictingWithdrawalBatch (batch_hash : string)
| UnknownWithdrawalRequest (request_id : string)
| UnknownWithdrawalBatch (batch_hash : string)
| UnreservedWithdrawalRequest (request_id : string)
| WithdrawalBatchMismatch (batch_hash : string)
| WithdrawalBatchRequestMismatch (request_id : string)
| InvalidSharechainSignature (error : SharechainError)
| InvalidCommitment (error : CommitmentError)
| RP_InvalidWithdrawal (error : WithdrawalError)
| InvalidPayoutSchedule (error : PayoutError)
| LedgerFailure (error : LedgerError)
| Panic (message : string)
| Diverged.

(** ** State *)

Record ShareTree := {
  st_sharechain_checkpoints : gmap N SharechainCheckpointAnchorV1;
  st_shares : gmap string ShareNode;
  st_share_hash_by_work_hash : gmap string string;
  st_children_by_parent : gmap string (gset string);
  st_active_share_hashes : gset string;
  st_active_share_score_total : N;
  st_best_share_tip : option string;
  st_hashrate_scores : gmap string N
}.

Definition st_default : ShareTree := {|
  st_sharechain_checkpoints := ∅; st_shares := ∅; st_share_hash_by_work_hash := ∅;
  st_children_by_parent := ∅; st_active_share_hashes := ∅; st_active_share_score_total := 0;
  st_best_share_tip := None; st_hashrate_scores := ∅ |}.

(** Field assignments. *)
Definition set_checkpoints (v : gmap N SharechainCheckpointAnchorV1) (t : ShareTree) : ShareTree := {|
  st_sharechain_checkpoints := v; st_shares := st_shares t;
  st_share_hash_by_work_hash := st_share_hash_by_work_hash t;
  st_children_by_parent := st_children_by_parent t; st_active_share_hashes := st_active_share_hashes t;
  st_active_share_score_total := st_active_share_score_total t;
  st_best_share_tip := st_best_share_tip t; st_hashrate_scores := st_hashrate_scores t |}.
Definition set_shares (v : gmap string ShareNode) (t : ShareTree) : ShareTree := {|
  st_sharechain_checkpoints := st_sharechain_checkpoints t; st_shares := v;
  st_share_hash_by_work_hash := st_share_hash_by_work_hash t;
  st_children_by_parent := st_children_by_parent t; st_active_share_hashes := st_active_share_hashes t;
  st_active_share_score_total := st_active_share_score_total t;
  st_best_share_tip := st_best_share_tip t; st_hashrate_scores := st_hashrate_scores t |}.
Definition set_by_work (v : gmap string string) (t : ShareTree) : ShareTree := {|
  st_sharechain_checkpoints := st_sharechain_checkpoints t; st_shares := st_shares t;
  st_share_hash_by_work_hash := v;
  st_children_by_parent := st_children_by_parent t; st_active_share_hashes := st_active_share_hashes t;
  st_active_share_score_total := st_active_share_score_total t;
  st_best_share_tip := st_best_share_tip t; st_hashrate_scores := st_hashrate_scores t |}.
Definition set_children (v : gmap string (gset string)) (t : ShareTree) : ShareTree := {|
  st_sharechain_checkpoints := st_sharechain_checkpoints t; st_shares := st_shares t;
  st_share_hash_by_work_hash := st_share_hash_by_work_hash t;
  st_children_by_parent := v; st_active_share_hashes := st_active_share_hashes t;
  st_active_share_score_total := st_active_share_score_total t;
  st_best_share_tip := st_best_share_tip t; st_hashrate_scores := st_hashrate_scores t |}.
Definition set_active (v : gset string) (t : ShareTree) : ShareTree := {|
  st_sharechain_checkpoints := st_sharechain_checkpoints t; st_shares := st_shares t;
  st_share_hash_by_work_hash := st_share_hash_by_work_hash t;
  st_children_by_parent := st_children_by_parent t; st_active_share_hashes := v;
  st_active_share_score_total := st_active_share_score_total t;
  st_best_share_tip := st_best_share_tip t; st_hashrate_scores := st_hashrate_scores t |}.
Definition set_total (v : N) (t : ShareTree) : ShareTree := {|
  st_sharechain_checkpoints := st_sharechain_checkpoints t; st_shares := st_shares t;
  st_share_hash_by_work_hash := st_share_hash_by_work_hash t;
  st_children_by_parent := st_children_by_parent t; st_active_share_hashes := st_active_share_hashes t;
  st_active_share_score_total := v;
  st_best_share_tip := st_best_share_tip t; st_hashrate_scores := st_hashrate_scores t |}.
Definition set_tip (v : option string) (t : ShareTree) : ShareTree := {|
  st_sharechain_checkpoints := st_sharechain_checkpoints t; st_shares := st_shares t;
  st_share_hash_by_work_hash := st_share_hash_by_work_hash t;
  st_children_by_parent := st_children_by_parent t; st_active_share_hashes := st_active_share_hashes t;
  st_active_share_score_total := st_active_share_score_total t;
  st_best_share_tip := v; st_hashrate_scores := st_hashrate_scores t |}.
Definition set_scores (v : gmap string N) (t : ShareTree) : ShareTree := {|
  st_sharechain_checkpoints := st_sharechain_checkpoints t; st_shares := st_shares t;
  st_share_hash_by_work_hash := st_share_hash_by_work_hash t;
  st_children_by_parent := st_children_by_parent t; st_active_share_hashes := st_active_share_hashes t;
  st_active_share_score_total := st_active_share_score_total t;
  st_best_share_tip := st_best_share_tip t; st_hashrate_scores := v |}.

(** A method of [&mut self] on the share tree. *)
Abbreviation tree_method A := (M ShareTree SharechainReplayError A).

(** [Option::expect]. *)
Definition expect {A} (message : string) (o : option A) : tree_method A :=
  match o with Some a => mret a | None => throw (Panic message) end.

(** [BTreeMap::last_key_value]. *)
Definition last_key_value {V} (m : gmap N V) : option (N * V) :=
  foldr (fun kv best => match best with
                        | Some b => if fst b <? fst kv then Some kv else Some b
                        | None => Some kv
                        end) None (map_to_list m).

Definition latest_sharechain_checkpoint (t : ShareTree) : option SharechainCheckpointAnchorV1 :=
  snd <$> last_key_value (st_sharechain_checkpoints t).

(** ** Walks along parents

    Both [while let] loops stop at a share seen before, so they take at most
    one step per stored share; the bound is that number and [None] is its
    exhaustion. *)

(** The loop that collects the active branch. *)
Fixpoint branch_walk (fuel : nat) (shares : gmap string ShareNode) (seen : gset string)
    (share_hash : string) : option (list string) :=
  match fuel with
  | O => None
  | S fuel' =>
      if bool_decide (share_hash ∈ seen) then Some []
      else
        match shares !! share_hash with
        | None => Some []
        | Some node =>
            if String.eqb (nd_parent_share_hash node) ZERO_SHARE_PARENT_HASH then Some [share_hash]
            else
              rest ← branch_walk fuel' shares ({[share_hash]} ∪ seen) (nd_parent_share_hash node);
              Some (share_hash :: rest)
        end
  end.

Definition active_branch_of (shares : gmap string ShareNode) (tip : string) : option (list string) :=
  branch_walk (S (S (size shares))) shares ∅ tip.

Fixpoint descends_walk (fuel : nat) (shares : gmap string ShareNode) (seen : gset string)
    (ancestor_hash share_hash : string) : option bool :=
  match fuel with
  | O => None
  | S fuel' =>
      if String.eqb share_hash ancestor_hash then Some true
      else if bool_decide (share_hash ∈ seen) then Some false
      else
        match shares !! share_hash with
        | None => Some false
        | Some node =>
            if String.eqb (nd_parent_share_hash node) ZERO_SHARE_PARENT_HASH then Some false
            else descends_walk fuel' shares ({[share_hash]} ∪ seen) ancestor_hash (nd_parent_share_hash node)
        end
  end.

Definition share_descends_from (t : ShareTree) (candidate_hash ancestor_hash : string) : option bool :=
  descends_walk (S (S (size (st_shares t)))) (st_shares t) ∅
    (to_ascii_lowercase ancestor_hash) (to_ascii_lowercase candidate_hash).

(** ** Fork choice *)

(** The update of [hashrate_scores] and the total for one active share; the
    entry is created before the checked addition. *)
Definition credit_share (share_hash : string) (node : ShareNode) : tree_method unit :=
  let miner_id := to_ascii_lowercase (sh_miner_id (nd_share node)) in
  let delta := sh_hashrate_score_delta (nd_share node) in
  scores ← gets st_hashrate_scores;
  let entry := default 0 (scores !! miner_id) in
  _ ← modify (set_scores (<[miner_id := entry]> scores));
  score ← lift (ok_or (HashrateScoreOverflow miner_id) (checked_add 128 entry delta));
  _ ← modify (fun t => set_scores (<[miner_id := score]> (st_hashrate_scores t)) t);
  total ← gets st_active_share_score_total;
  total ← lift (ok_or (ShareBranchScoreOverflow share_hash) (checked_add 128 total delta));
  modify (set_total total).

Definition credit_stored_share (share_hash : string) : tree_method unit :=
  shares ← gets st_shares;
  node ← expect "active branch share remains in replay state" (shares !! share_hash);
  credit_share share_hash node.

Definition rebuild_active_branch (best_share_tip : string) : tree_method unit :=
  shares ← gets st_shares;
  active_branch ← lift (ok_or Diverged (active_branch_of shares best_share_tip));
  _ ← modify (fun t => set_total 0 (set_scores ∅ (set_active (list_to_set active_branch) t)));
  _ ← for_each credit_stored_share active_branch;
  modify (set_tip (Some best_share_tip)).

(** [is_better] of [consider_resolved_share]. *)
Definition is_better (t : ShareTree) (share_hash : string) (score : N) : tree_method bool :=
  match st_best_share_tip t with
  | None => mret true
  | Some tip =>
      match st_shares t !! tip with
      | None => mret true
      | Some current =>
          current_score ← expect "best share tip has cumulative score" (nd_cumulative_score current);
          mret ((current_score <? score)
                || ((score =? current_score) && bool_decide (str_cmp share_hash tip = Lt)))
      end
  end.

Definition consider_resolved_share (share_hash : string) : tree_method unit :=
  t ← gets id;
  if bool_decide (is_Some (latest_sharechain_checkpoint t)) then mret tt
  else
    node ← expect "resolved share remains in replay state" (st_shares t !! share_hash);
    score ← expect "resolved share has cumulative score" (nd_cumulative_score node);
    better ← is_better t share_hash score;
    if negb better then mret tt
    else if bool_decide (st_best_share_tip t = Some (nd_parent_share_hash node))
            && bool_decide (nd_parent_share_hash node ∈ st_active_share_hashes t)
    then
      _ ← credit_share share_hash node;
      _ ← modify (fun t => set_active ({[share_hash]} ∪ st_active_share_hashes t) t);
      modify (set_tip (Some share_hash))
    else rebuild_active_branch share_hash.

(** The [branch_score] of the resolution loop. *)
Definition branch_score (shares : gmap string ShareNode) (candidate_hash : string)
    : result SharechainReplayError (option (N * N)) :=
  match shares !! candidate_hash with
  | None => Ok None
  | Some candidate =>
      if String.eqb (nd_parent_share_hash candidate) ZERO_SHARE_PARENT_HASH
      then Ok (Some (sh_hashrate_score_delta (nd_share candidate), 1))
      else
        match shares !! nd_parent_share_hash candidate with
        | None => Ok None
        | Some parent =>
            match nd_cumulative_score parent with
            | None => Ok None
            | Some parent_score =>
                score ← ok_or (ShareBranchScoreOverflow candidate_hash)
                          (checked_add 128 parent_score (sh_hashrate_score_delta (nd_share candidate)));
                height ← ok_or (ShareBranchScoreOverflow candidate_hash) (checked_add 64 (nd_height parent) 1);
                Ok (Some (score, height))
            end
        end
  end.

Definition resolve_node (cumulative_score height : N) (node : ShareNode) : ShareNode := {|
  nd_share := nd_share node;
  nd_parent_share_hash := nd_parent_share_hash node;
  nd_cumulative_score := Some cumulative_score;
  nd_height := height |}.

(** The queue loop; a share is enqueued by its only parent, so the loop takes
    at most one step per stored share. *)
Fixpoint resolve_loop (fuel : nat) (queue : list string) : tree_method unit :=
  match fuel with
  | O => throw Diverged
  | S fuel' =>
      match queue with
      | [] => mret tt
      | candidate_hash :: queue =>
          branch ← asks (fun t => branch_score (st_shares t) candidate_hash);
          match branch with
          | None => resolve_loop fuel' queue
          | Some (cumulative_score, height) =>
              if height =? 0 then throw (ShareBranchScoreOverflow candidate_hash)
              else
                _ ← modify (fun t =>
                      set_shares (alter (resolve_node cumulative_score height) candidate_hash (st_shares t)) t);
                _ ← consider_resolved_share candidate_hash;
                children ← gets (fun t => st_children_by_parent t !! candidate_hash);
                resolve_loop fuel' (queue ++ from_option btree_set_list [] children)
          end
      end
  end.

Definition resolve_share_and_descendants (share_hash : string) : tree_method unit :=
  shares ← gets st_shares;
  resolve_loop (S (S (size shares))) [share_hash].

Definition validate_unique_sharechain_root (t : ShareTree) (candidate_share_hash parent_share_hash : string)
    : result SharechainReplayError unit :=
  if negb (eq_ignore_ascii_case parent_share_hash ZERO_SHARE_PARENT_HASH) then Ok tt
  else
    let candidate_share_hash := to_ascii_lowercase candidate_share_hash in
    match List.find (fun entry => eq_ignore_ascii_case (nd_parent_share_hash entry.2) ZERO_SHARE_PARENT_HASH
                                  && negb (eq_ignore_ascii_case entry.1 candidate_share_hash))
            (btree_entries (st_shares t)) with
    | Some (existing, _) =>
        Err (AdditionalSharechainRoot (to_ascii_lowercase existing) candidate_share_hash)
    | None => Ok tt
    end.

Section apply_share.
Context `{Hashing}.

Definition apply_share (share : Share) : tree_method unit :=
  let share := sh_normalized share in
  let hash := share_hash share in
  shares ← gets st_shares;
  match shares !! hash with
  | Some existing =>
      if bool_decide (nd_share existing <> share) then throw (ConflictingShare hash) else mret tt
  | None =>
      let work_hash := to_ascii_lowercase (sh_work_hash share) in
      by_work ← gets st_share_hash_by_work_hash;
      match by_work !! work_hash with
      | Some existing_share_hash => throw (DuplicateShareWork work_hash existing_share_hash)
      | None =>
          let parent_share_hash := to_ascii_lowercase (sh_parent_share_hash share) in
          _ ← asks (fun t => validate_unique_sharechain_root t hash parent_share_hash);
          _ ← modify (fun t => set_shares (<[hash := {|
                nd_share := share; nd_parent_share_hash := parent_share_hash;
                nd_cumulative_score := None; nd_height := 0 |}]> (st_shares t)) t);
          _ ← modify (fun t => set_children
                (<[parent_share_hash := {[hash]} ∪ default ∅ (st_children_by_parent t !! parent_share_hash)]>
                   (st_children_by_parent t)) t);
          _ ← resolve_share_and_descendants hash;
          modify (fun t => set_by_work (<[work_hash := hash]> (st_share_hash_by_work_hash t)) t)
      end
  end.

(** ** Checkpoints *)

(** One miner of the registration check of [apply_sharechain_checkpoint]. *)
Definition check_checkpoint_miner (registrations : gmap string MinerRegistration)
    (checkpoint : SharechainCheckpointAnchorV1) (miner_id : string) : result SharechainReplayError unit :=
  registration ← ok_or CheckpointRegistrationSetMismatch (registrations !! miner_id);
  registry_anchor ← map_err (fun _ => CheckpointRegistrationSetMismatch) (require_registry_anchor registration);
  if negb (eq_ignore_ascii_case (mra_contract_address registry_anchor) (cp_contract_address checkpoint))
     || negb (eq_ignore_ascii_case (mra_experiment_id registry_anchor) (cp_experiment_id checkpoint))
  then Err CheckpointRegistrationSetMismatch
  else Ok tt.

(** The checks of a checkpoint against the previous one. *)
Definition check_checkpoint_parent (previous : option (N * SharechainCheckpointAnchorV1))
    (checkpoint : SharechainCheckpointAnchorV1) : result SharechainReplayError unit :=
  let expected_round := from_option (fun p => saturating_add 32 p.1 1) 1 previous in
  if negb (cp_round checkpoint =? expected_round)
  then Err (NonSequentialCheckpoint (expected_round - 1) (cp_round checkpoint))
  else
    match previous with
    | None =>
        if negb (String.eqb (cp_parent_checkpoint_tip checkpoint) ZERO_SHARE_PARENT_HASH)
        then Err CheckpointParentMismatch else Ok tt
    | Some (_, prior) =>
        if negb (String.eqb (cp_parent_checkpoint_tip checkpoint) (cp_share_tip_hash prior))
        then Err CheckpointParentMismatch
        else
          earliest ← ok_or CheckpointIntervalNotElapsed
                       (checked_add 64 (cp_finalization_block prior) CHECKPOINT_MIN_INTERVAL_BLOCKS);
          if cp_finalization_block checkpoint <? earliest then Err CheckpointIntervalNotElapsed else Ok tt
    end.

(** The checks of the checkpointed share against the local tree. *)
Definition check_checkpoint_tip (t : ShareTree) (previous : option (N * SharechainCheckpointAnchorV1))
    (checkpoint : SharechainCheckpointAnchorV1) : result SharechainReplayError unit :=
  checkpoint_tip ← ok_or (UnknownCheckpointShareTip (cp_share_tip_hash checkpoint))
    (node ← st_shares t !! cp_share_tip_hash checkpoint;
     if bool_decide (is_Some (nd_cumulative_score node)) then Some node else None);
  expected_score ← ok_or CheckpointShareMetadataMismatch (parse_uint 128 (cp_cumulative_score checkpoint));
  if negb (nd_height checkpoint_tip =? cp_share_height checkpoint)
     || bool_decide (nd_cumulative_score checkpoint_tip <> Some expected_score)
  then Err CheckpointShareMetadataMismatch
  else
    match previous with
    | None => Ok tt
    | Some (_, prior) =>
        descends ← ok_or Diverged
          (share_descends_from t (cp_share_tip_hash checkpoint) (cp_share_tip_hash prior));
        if negb descends then Err CheckpointNotDescendant else Ok tt
    end.

Definition apply_sharechain_checkpoint (registrations : gmap string MinerRegistration)
    (checkpoint : SharechainCheckpointAnchorV1) : tree_method unit :=
  let checkpoint := cp_normalized checkpoint in
  _ ← lift (map_err IdenaAnchorPolicy (cp_validate checkpoint));
  checkpoints ← gets st_sharechain_checkpoints;
  match checkpoints !! cp_round checkpoint with
  | Some existing =>
      if bool_decide (existing = checkpoint) then mret tt
      else throw (ConflictingCheckpoint (cp_round checkpoint))
  | None =>
      let previous := last_key_value checkpoints in
      _ ← lift (check_checkpoint_parent previous checkpoint);
      if bool_decide (btree_keys registrations <> cp_registered_miners checkpoint)
      then throw CheckpointRegistrationSetMismatch
      else
        _ ← lift (try_for_each (check_checkpoint_miner registrations checkpoint)
                    (cp_registered_miners checkpoint));
        _ ← asks (fun t => check_checkpoint_tip t previous checkpoint);
        _ ← modify (fun t => set_checkpoints
              (<[cp_round checkpoint := checkpoint]> (st_sharechain_checkpoints t)) t);
        rebuild_active_branch (cp_share_tip_hash checkpoint)
  end.
End apply_share.

(** ** Recomputing the derived fields *)

(** The state of [compute_share_branch_score]: the memo table and the set of
    shares being visited. *)
Abbreviation memo_method A := (M (gmap string (option (N * N)) * gset string) SharechainReplayError A).

Definition extend_branch_score (share_hash : string) (node : ShareNode) (parent : option (N * N))
    : result SharechainReplayError (option (N * N)) :=
  match parent with
  | None => Ok None
  | Some (parent_score, parent_height) =>
      score ← ok_or (ShareBranchScoreOverflow share_hash)
                (checked_add 128 parent_score (sh_hashrate_score_delta (nd_share node)));
      height ← ok_or (ShareBranchScoreOverflow share_hash) (checked_add 64 parent_height 1);
      Ok (Some (score, height))
  end.

(** One recursive call per share on the way to the root. *)
Fixpoint compute_share_branch_score (fuel : nat) (shares : gmap string ShareNode) (share_hash : string)
    : memo_method (option (N * N)) :=
  match fuel with
  | O => throw Diverged
  | S fuel' =>
      s ← gets id;
      match s.1 !! share_hash with
      | Some cached => mret cached
      | None =>
          if bool_decide (share_hash ∈ s.2)
          then
            _ ← modify (fun s => (<[share_hash := None]> s.1, s.2));
            mret None
          else
            _ ← modify (fun s => (s.1, {[share_hash]} ∪ s.2));
            result ←
              match shares !! share_hash with
              | None => mret None
              | Some node =>
                  if String.eqb (nd_parent_share_hash node) ZERO_SHARE_PARENT_HASH
                  then mret (Some (sh_hashrate_score_delta (nd_share node), 1))
                  else if bool_decide (is_Some (shares !! nd_parent_share_hash node))
                  then
                    parent ← compute_share_branch_score fuel' shares (nd_parent_share_hash node);
                    lift (extend_branch_score share_hash node parent)
                  else mret None
              end;
            _ ← modify (fun s => (<[share_hash := result]> s.1, s.2 ∖ {[share_hash]}));
            mret result
      end
  end.

(** [for share_hash in self.shares.keys()]: one memo table, a fresh visiting set per share. *)
Fixpoint compute_branch_scores (shares : gmap string ShareNode) (keys : list string)
    (memo : gmap string (option (N * N))) : result SharechainReplayError (gmap string (option (N * N))) :=
  match keys with
  | [] => Ok memo
  | share_hash :: keys =>
      let '(r, s) := compute_share_branch_score (S (S (size shares))) shares share_hash (memo, ∅) in
      _ ← r;
      compute_branch_scores shares keys s.1
  end.

(** [Iterator::max_by] on (hash, score): the larger score, then the smaller hash. *)
Definition compare_tips (left right : string * N) : comparison :=
  then_with (left.2 ?= right.2) (str_cmp right.1 left.1).

Fixpoint max_by {A} (cmp : A -> A -> comparison) (best : option A) (l : list A) : option A :=
  match l with
  | [] => best
  | x :: l' =>
      max_by cmp (match best with
                  | None => Some x
                  | Some b => match cmp b x with Gt => Some b | _ => Some x end
                  end) l'
  end.

Definition apply_branch_score (branch_scores : gmap string (option (N * N))) (share_hash : string)
    (node : ShareNode) : ShareNode :=
  match mjoin (branch_scores !! share_hash) with
  | Some (score, height) => resolve_node score height node
  | None => {| nd_share := nd_share node; nd_parent_share_hash := nd_parent_share_hash node;
               nd_cumulative_score := None; nd_height := 0 |}
  end.

Definition rebuild_work_index (entry : string * ShareNode) : tree_method unit :=
  let '(share_hash, node) := entry in
  _ ← asks (fun t => validate_unique_sharechain_root t share_hash (nd_parent_share_hash node));
  let work_hash := to_ascii_lowercase (sh_work_hash (nd_share node)) in
  by_work ← gets st_share_hash_by_work_hash;
  _ ← modify (set_by_work (<[work_hash := share_hash]> by_work));
  match by_work !! work_hash with
  | Some existing => throw (DuplicateShareWork work_hash existing)
  | None => mret tt
  end.

Definition rebuild_child_index (entry : string * ShareNode) : tree_method unit :=
  let '(share_hash, node) := entry in
  modify (fun t => set_children
    (<[nd_parent_share_hash node :=
         {[share_hash]} ∪ default ∅ (st_children_by_parent t !! nd_parent_share_hash node)]>
       (st_children_by_parent t)) t).

(** [let Some(node) = .. else { continue }] *)
Definition credit_if_stored (share_hash : string) : tree_method unit :=
  shares ← gets st_shares;
  match shares !! share_hash with
  | Some node => credit_share share_hash node
  | None => mret tt
  end.

Definition rebuild_derived_share_state : tree_method unit :=
  shares ← gets st_shares;
  _ ← modify (set_by_work ∅);
  _ ← for_each rebuild_work_index (btree_entries shares);
  _ ← modify (set_children ∅);
  _ ← for_each rebuild_child_index (btree_entries shares);
  branch_scores ← lift (compute_branch_scores shares (btree_keys shares) ∅);
  _ ← modify (set_shares (map_imap (fun h node => Some (apply_branch_score branch_scores h node)) shares));
  let tip := fst <$> max_by compare_tips None
    (omap (fun entry => match entry.2 with Some (score, _) => Some (entry.1, score) | None => None end)
       (btree_entries branch_scores)) in
  _ ← modify (set_tip tip);
  shares ← gets st_shares;
  active_branch ← match tip with
                  | Some tip => lift (ok_or Diverged (active_branch_of shares tip))
                  | None => mret []
                  end;
  _ ← modify (fun t => set_total 0 (set_scores ∅ (set_active (list_to_set active_branch) t)));
  for_each credit_if_stored active_branch.
