(* ===== verification/ShareBranch.v ===== *)
(** * Branches of the share tree

    The specification the replay state is measured against: the branch of a
    share is its chain of ancestors up to the root, its score the sum of their
    deltas, and the score of a miner the sum over the miner's shares. *)
From S2P Require Import Prelude Order Text Crates Payout Withdrawal Ledger IdenaAnchor ShareWork Commitment Sharechain ShareTree.

Local Open Scope N_scope.

Definition parent_of (s : Share) : string := to_ascii_lowercase (sh_parent_share_hash s).

Inductive branch (K : gmap string Share) : string -> list string -> Prop :=
| branch_root h s : K !! h = Some s -> parent_of s = ZERO_SHARE_PARENT_HASH -> branch K h [h]
| branch_step h s p :
    K !! h = Some s -> parent_of s <> ZERO_SHARE_PARENT_HASH ->
    branch K (parent_of s) p -> branch K h (h :: p).

Definition score_of (K : gmap string Share) (h : string) : N :=
  from_option sh_hashrate_score_delta 0 (K !! h).
Definition miner_of (K : gmap string Share) (h : string) : string :=
  from_option (fun s => to_ascii_lowercase (sh_miner_id s)) ""%string (K !! h).

Definition path_score (K : gmap string Share) (p : list string) : N := sum_N (map (score_of K) p).

(** The credit of one miner on a path. *)
Definition miner_sum (K : gmap string Share) (p : list string) (m : string) : N :=
  sum_N (map (fun h => if decide (miner_of K h = m) then score_of K h else 0) p).
Definition miner_score (K : gmap string Share) (p : list string) (m : string) : option N :=
  if decide (m ∈ map (miner_of K) p) then Some (miner_sum K p m) else None.

Definition miner_scores (K : gmap string Share) (p : list string) : gmap string N :=
  foldr (fun h acc => <[miner_of K h := default 0 (acc !! miner_of K h) + score_of K h]> acc) ∅ p.

(** ** Paths *)

Section branch.
Context {K : gmap string Share}.

Lemma branch_head h p : branch K h p -> exists q, p = h :: q.
Proof. destruct 1; eauto. Qed.

Lemma branch_lookup h p x : branch K h p -> x ∈ p -> is_Some (K !! x).
Proof. induction 1; set_solver. Qed.

Lemma branch_det h p p' : branch K h p -> branch K h p' -> p = p'.
Proof.
  intros Hb. revert p'. induction Hb as [h s Hs Hz|h s p Hs Hz Hb IH]; intros p' Hb';
    inversion Hb'; simplify_eq; [done|]. f_equal. by apply IH.
Qed.

(** Every ancestor of a share has the rest of the path as its own branch. *)
Lemma branch_suffix h p x : branch K h p -> x ∈ p -> exists q r, p = q ++ r /\ branch K x r.
Proof.
  induction 1 as [h s Hs Hz|h s p Hs Hz Hb IH]; intros Hx.
  - apply list_elem_of_singleton in Hx as ->. exists [], [h]. split; [done|]. by eapply branch_root.
  - apply elem_of_cons in Hx as [->|Hx].
    + exists [], (h :: p). split; [done|]. by eapply branch_step.
    + destruct (IH Hx) as (q & r & -> & Hr). by exists (h :: q), r.
Qed.

Lemma branch_NoDup h p : branch K h p -> NoDup p.
Proof.
  induction 1 as [h s Hs Hz|h s p Hs Hz Hb IH]; [apply NoDup_singleton|].
  apply NoDup_cons. split; [|done]. intros Hin.
  destruct (branch_suffix _ _ _ Hb Hin) as (q & r & -> & Hr).
  assert (branch K h (h :: q ++ r)) as Hh by (by eapply branch_step).
  pose proof (branch_det _ _ _ Hr Hh) as Heq. apply (f_equal length) in Heq.
  simpl in Heq. rewrite length_app in Heq. lia.
Qed.

Lemma branch_length h p : branch K h p -> (length p <= size K)%nat.
Proof.
  intros Hb. rewrite <-size_dom.
  rewrite <-(size_list_to_set (C := gset string) p) by (by eapply branch_NoDup).
  apply subseteq_size. intros x Hx%elem_of_list_to_set. apply elem_of_dom. by eapply branch_lookup.
Qed.

Lemma branch_parent h s p :
  branch K h p -> K !! h = Some s -> parent_of s <> ZERO_SHARE_PARENT_HASH ->
  exists q, p = h :: q /\ branch K (parent_of s) q.
Proof. intros Hb Hs Hz. inversion Hb; simplify_eq. eauto. Qed.
End branch.

Lemma branch_mono K K' h p : K ⊆ K' -> branch K h p -> branch K' h p.
Proof.
  intros Hsub. induction 1 as [h s Hs Hz|h s p Hs Hz Hb IH];
    [eapply branch_root|eapply branch_step]; try done; by eapply lookup_weaken.
Qed.

(** A path that avoids a new share was there before. *)
Lemma branch_insert_inv K h s x p :
  branch (<[h := s]> K) x p -> h ∉ p -> branch K x p.
Proof.
  induction 1 as [x s' Hs Hz|x s' p Hs Hz Hb IH]; intros Hh.
  - rewrite lookup_insert_ne in Hs by set_solver. by eapply branch_root.
  - rewrite lookup_insert_ne in Hs by set_solver. eapply branch_step; [done..|]. apply IH. set_solver.
Qed.

Lemma branch_restrict K K' h p :
  K ⊆ K' -> branch K' h p -> (forall x, x ∈ p -> is_Some (K !! x)) -> branch K h p.
Proof.
  intros Hsub. induction 1 as [h s Hs Hz|h s p Hs Hz Hb IH]; intros Hin.
  - destruct (Hin h) as [s' Hs']; [set_solver|].
    pose proof (lookup_weaken _ _ _ _ Hs' Hsub). simplify_eq. by eapply branch_root.
  - destruct (Hin h) as [s' Hs']; [set_solver|].
    pose proof (lookup_weaken _ _ _ _ Hs' Hsub). simplify_eq.
    eapply branch_step; [done..|]. apply IH. set_solver.
Qed.

(** ** Scores *)

Lemma path_score_cons K h p : path_score K (h :: p) = score_of K h + path_score K p.
Proof. done. Qed.

Lemma path_score_app K p q : path_score K (p ++ q) = path_score K p + path_score K q.
Proof. unfold path_score. by rewrite map_app, sum_N_app. Qed.

Lemma path_score_snoc K p h : path_score K (p ++ [h]) = path_score K p + score_of K h.
Proof. rewrite path_score_app. unfold path_score at 2. simpl. lia. Qed.

Lemma path_score_mono K K' p :
  K ⊆ K' -> (forall x, x ∈ p -> is_Some (K !! x)) -> path_score K' p = path_score K p.
Proof.
  intros Hsub Hin. unfold path_score. f_equal. apply map_ext_in. intros x Hx%list_elem_of_In.
  destruct (Hin x Hx) as [s Hs]. unfold score_of. by rewrite Hs, (lookup_weaken _ _ _ _ Hs Hsub).
Qed.

Lemma miner_sum_le K p m : miner_sum K p m <= path_score K p.
Proof.
  unfold miner_sum, path_score. induction p as [|h p IH]; simpl; [done|]. case_decide; lia.
Qed.

Lemma miner_sum_snoc K p h m :
  miner_sum K (p ++ [h]) m = miner_sum K p m + (if decide (miner_of K h = m) then score_of K h else 0).
Proof. unfold miner_sum. rewrite map_app, sum_N_app. simpl. lia. Qed.

Lemma miner_sum_absent K p m : m ∉ map (miner_of K) p -> miner_sum K p m = 0.
Proof.
  unfold miner_sum. induction p as [|h p IH]; simpl; [done|]. intros Hm.
  rewrite decide_False by set_solver. rewrite IH by set_solver. done.
Qed.

Lemma miner_score_default K p m : default 0 (miner_score K p m) = miner_sum K p m.
Proof. unfold miner_score. case_decide; simpl; [done|]. by rewrite miner_sum_absent. Qed.

Lemma miner_scores_lookup K p m : miner_scores K p !! m = miner_score K p m.
Proof.
  induction p as [|h p IH]; [done|]. simpl. destruct (decide (miner_of K h = m)) as [<-|Hne].
  - rewrite lookup_insert_eq, IH, miner_score_default. unfold miner_score.
    rewrite decide_True by set_solver. f_equal. unfold miner_sum. simpl. rewrite decide_True by done. lia.
  - rewrite lookup_insert_ne by done. rewrite IH. unfold miner_score, miner_sum. simpl.
    rewrite (decide_False (P := miner_of K h = m)) by done.
    destruct (decide (m ∈ map (miner_of K) p)); [rewrite decide_True by set_solver; done|].
    by rewrite decide_False by set_solver.
Qed.

(** Crediting the shares of a path from its head on gives the same table. *)
Lemma miner_scores_snoc K p h :
  <[miner_of K h := default 0 (miner_scores K p !! miner_of K h) + score_of K h]> (miner_scores K p) =
  miner_scores K (p ++ [h]).
Proof.
  apply map_eq. intros m. rewrite (miner_scores_lookup K (p ++ [h])). destruct (decide (miner_of K h = m)) as [<-|Hne].
  - rewrite lookup_insert_eq, miner_scores_lookup, miner_score_default. unfold miner_score.
    rewrite map_app. rewrite decide_True by (simpl; set_solver). f_equal.
    rewrite miner_sum_snoc. by rewrite decide_True.
  - rewrite lookup_insert_ne by done. rewrite miner_scores_lookup. unfold miner_score.
    rewrite map_app, miner_sum_snoc, (decide_False (P := miner_of K h = m)) by done. simpl.
    destruct (decide (m ∈ map (miner_of K) p)).
    + rewrite decide_True by set_solver. f_equal. lia.
    + by rewrite decide_False by set_solver.
Qed.

Lemma miner_scores_mono K K' p :
  K ⊆ K' -> (forall x, x ∈ p -> is_Some (K !! x)) -> miner_scores K' p = miner_scores K p.
Proof.
  intros Hsub. induction p as [|h p IH]; [done|]. intros Hin. simpl. rewrite IH by set_solver.
  destruct (Hin h) as [s Hs]; [set_solver|]. unfold miner_of, score_of.
  by rewrite Hs, (lookup_weaken _ _ _ _ Hs Hsub).
Qed.
