(* ===== verification/ShareTreeInv.v ===== *)
(** * Invariant of the share tree

    The stored shares determine everything else in [ShareTree]: which shares
    are resolved and with what cumulative score, the best tip, the active
    branch and the score table.  This file states that as an invariant, shows
    that admitting a share keeps it and never panics or diverges, and derives
    that the state does not depend on the order in which shares arrive. *)
From S2P Require Import Prelude Order Text Crates Concrete Payout Withdrawal Ledger IdenaAnchor ShareWork Commitment Sharechain ShareTree ShareBranch.

Local Open Scope N_scope.

(** The stored shares, without the derived fields of their nodes. *)
Definition shares_of (t : ShareTree) : gmap string Share := nd_share <$> st_shares t.

Definition resolved (t : ShareTree) (h : string) (s : N) : Prop :=
  exists n, st_shares t !! h = Some n /\ nd_cumulative_score n = Some s.

Definition is_root (s : Share) : Prop := parent_of s = ZERO_SHARE_PARENT_HASH.

Section inv.
Context `{Hashing}.

(** What holds of the stored shares alone. *)
Record store_ok (K : gmap string Share) : Prop := {
  so_key : forall h s, K !! h = Some s -> h = share_hash s /\ sh_normalized s = s;
  so_zero : K !! ZERO_SHARE_PARENT_HASH = None;
  so_work : forall h1 h2 s1 s2, K !! h1 = Some s1 -> K !! h2 = Some s2 ->
    sh_work_hash s1 = sh_work_hash s2 -> h1 = h2;
  so_root : forall h1 h2 s1 s2, K !! h1 = Some s1 -> K !! h2 = Some s2 ->
    is_root s1 -> is_root s2 -> h1 = h2;
  so_fits : forall h s, K !! h = Some s -> fits 128 (sh_hashrate_score_delta s)
}.

(** The indexes agree with the stored shares. *)
Record index_ok (t : ShareTree) : Prop := {
  io_parent : forall h n, st_shares t !! h = Some n -> nd_parent_share_hash n = parent_of (nd_share n);
  io_children : forall p h, h ∈ default ∅ (st_children_by_parent t !! p) <->
    exists s, shares_of t !! h = Some s /\ parent_of s = p;
  io_children_nonempty : forall p c, st_children_by_parent t !! p = Some c -> c <> ∅
}.

Definition work_ok (t : ShareTree) : Prop :=
  forall w h, st_share_hash_by_work_hash t !! w = Some h <->
    exists s, shares_of t !! h = Some s /\ sh_work_hash s = w.

(** Recorded scores and heights are those of the branch. *)
Definition sound (t : ShareTree) : Prop :=
  forall h n, st_shares t !! h = Some n ->
    match nd_cumulative_score n with
    | Some s => exists p, branch (shares_of t) h p /\ s = path_score (shares_of t) p /\
                          nd_height n = N.of_nat (length p) /\ fits 128 s /\ fits 64 (nd_height n)
    | None => nd_height n = 0
    end.

(** Every share with a branch has its score recorded. *)
Definition complete (t : ShareTree) : Prop :=
  forall h p, branch (shares_of t) h p -> exists s, resolved t h s.

(** [a] is not preferred to [b]. *)
Definition tip_le (a b : string * N) : Prop := compare_tips a b <> Gt.

Definition best_resolved (t : ShareTree) : Prop :=
  match st_best_share_tip t with
  | Some tip => exists s, resolved t tip s /\ forall h s', resolved t h s' -> tip_le (h, s') (tip, s)
  | None => forall h s, ~ resolved t h s
  end.

(** The active branch, its total and the score table are those of the tip. *)
Definition active_ok (t : ShareTree) : Prop :=
  match st_best_share_tip t with
  | Some tip => exists p, branch (shares_of t) tip p /\ fits 128 (path_score (shares_of t) p) /\
      st_active_share_hashes t = list_to_set p /\
      st_active_share_score_total t = path_score (shares_of t) p /\
      st_hashrate_scores t = miner_scores (shares_of t) p
  | None => st_active_share_hashes t = ∅ /\ st_active_share_score_total t = 0 /\
      st_hashrate_scores t = ∅
  end.

(** Fork choice: the best resolved share, or the last checkpoint once there is one. *)
Definition tip_ok (t : ShareTree) : Prop :=
  match latest_sharechain_checkpoint t with
  | Some cp => st_best_share_tip t = Some (cp_share_tip_hash cp)
  | None => best_resolved t
  end.

(** Checkpoints are numbered 1, 2, ...; each one names a resolved share with its
    height and score, and extends the branch of the one before it. *)
Record checkpoint_ok (t : ShareTree) (r : N) (c : SharechainCheckpointAnchorV1) : Prop := {
  ck_round : cp_round c = r;
  ck_valid : cp_validate c = Ok tt;
  ck_branch : exists p, branch (shares_of t) (cp_share_tip_hash c) p /\
    cp_share_height c = N.of_nat (length p) /\
    parse_uint 128 (cp_cumulative_score c) = Some (path_score (shares_of t) p)
}.

Definition extends (t : ShareTree) (c c' : SharechainCheckpointAnchorV1) : Prop :=
  cp_parent_checkpoint_tip c' = cp_share_tip_hash c /\
  cp_finalization_block c + CHECKPOINT_MIN_INTERVAL_BLOCKS <= cp_finalization_block c' /\
  exists p, branch (shares_of t) (cp_share_tip_hash c') p /\ cp_share_tip_hash c ∈ p.

Record checkpoints_ok (t : ShareTree) : Prop := {
  cs_rounds : forall r, is_Some (st_sharechain_checkpoints t !! r) <->
    1 <= r <= N.of_nat (size (st_sharechain_checkpoints t));
  cs_valid : forall r c, st_sharechain_checkpoints t !! r = Some c -> checkpoint_ok t r c;
  cs_chain : forall r c c', st_sharechain_checkpoints t !! r = Some c ->
    st_sharechain_checkpoints t !! (r + 1) = Some c' -> extends t c c'
}.

Record tree_inv (t : ShareTree) : Prop := {
  inv_store : store_ok (shares_of t);
  inv_index : index_ok t;
  inv_work : work_ok t;
  inv_sound : sound t;
  inv_complete : complete t;
  inv_active : active_ok t;
  inv_tip : tip_ok t;
  inv_checkpoints : checkpoints_ok t
}.
End inv.

(** ** Running the loops *)

Lemma shares_of_lookup t h n : st_shares t !! h = Some n -> shares_of t !! h = Some (nd_share n).
Proof. unfold shares_of. intros Hn. by rewrite lookup_fmap, Hn. Qed.

Lemma shares_of_Some t h s : shares_of t !! h = Some s <-> exists n, st_shares t !! h = Some n /\ s = nd_share n.
Proof. unfold shares_of. rewrite lookup_fmap, fmap_Some. done. Qed.

Lemma zero_eqb x : String.eqb x ZERO_SHARE_PARENT_HASH = true <-> x = ZERO_SHARE_PARENT_HASH.
Proof. apply String.eqb_eq. Qed.

Lemma branch_walk_run t h p fuel seen :
  index_ok t -> branch (shares_of t) h p -> (length p < fuel)%nat ->
  (forall x, x ∈ p -> x ∉ seen) ->
  branch_walk fuel (st_shares t) seen h = Some p.
Proof.
  intros Hio Hb. revert fuel seen.
  induction Hb as [h s Hs Hz|h s p Hs Hz Hb IH]; intros fuel seen Hf Hseen;
    (destruct fuel as [|fuel]; [simpl in Hf; lia|]); cbn [branch_walk];
    rewrite bool_decide_eq_false_2 by (apply Hseen; set_solver);
    apply shares_of_Some in Hs as (n & Hn & ->); rewrite Hn, (io_parent _ Hio _ _ Hn).
  - by rewrite (proj2 (zero_eqb _)).
  - destruct (String.eqb_spec (parent_of (nd_share n)) ZERO_SHARE_PARENT_HASH); [done|].
    rewrite IH; [done|simpl in Hf; lia|].
    assert (h ∉ p) as Hh.
    { assert (branch (shares_of t) h (h :: p)) as Hhp
        by (eapply branch_step; [by apply shares_of_lookup|done..]).
      apply branch_NoDup in Hhp. by apply NoDup_cons in Hhp as [? _]. }
    intros x Hx. assert (x <> h) by set_solver. specialize (Hseen x). set_solver.
Qed.

Lemma active_branch_run t h p :
  index_ok t -> branch (shares_of t) h p -> active_branch_of (st_shares t) h = Some p.
Proof.
  intros Hio Hb. apply branch_walk_run; [done..| |set_solver].
  apply branch_length in Hb. unfold shares_of in Hb. rewrite map_size_fmap in Hb. lia.
Qed.

(** The state with a branch made active. *)
Definition activate (h : string) (p : list string) (t : ShareTree) : ShareTree :=
  set_tip (Some h) (set_total (path_score (shares_of t) p)
    (set_scores (miner_scores (shares_of t) p) (set_active (list_to_set p) t))).

Lemma credit_share_run h n t :
  fits 128 (default 0 (st_hashrate_scores t !! to_ascii_lowercase (sh_miner_id (nd_share n)))
            + sh_hashrate_score_delta (nd_share n)) ->
  fits 128 (st_active_share_score_total t + sh_hashrate_score_delta (nd_share n)) ->
  credit_share h n t = (Ok tt,
    set_total (st_active_share_score_total t + sh_hashrate_score_delta (nd_share n))
      (set_scores (<[to_ascii_lowercase (sh_miner_id (nd_share n)) :=
         default 0 (st_hashrate_scores t !! to_ascii_lowercase (sh_miner_id (nd_share n)))
         + sh_hashrate_score_delta (nd_share n)]> (st_hashrate_scores t)) t)).
Proof.
  intros Hs Ht. unfold credit_share. rewrite M_bind_run. cbn [gets].
  rewrite M_bind_run. cbn [modify]. rewrite M_bind_run. unfold lift at 1.
  rewrite (proj2 (checked_add_Some 128 _ _ _) (conj eq_refl Hs)). cbn [ok_or].
  rewrite M_bind_run. cbn [modify]. rewrite M_bind_run. cbn [gets].
  rewrite M_bind_run. unfold lift. cbn [st_active_share_score_total set_scores].
  rewrite (proj2 (checked_add_Some 128 _ _ _) (conj eq_refl Ht)). cbn [ok_or modify].
  unfold set_total, set_scores. simpl. by rewrite insert_insert_eq.
Qed.

Lemma miner_scores_bound K p q m :
  fits 128 (path_score K (p ++ [q])) -> fits 128 (default 0 (miner_scores K p !! m) + score_of K q).
Proof.
  rewrite miner_scores_lookup, miner_score_default, path_score_snoc. apply fits_mono.
  pose proof (miner_sum_le K p m). lia.
Qed.

Lemma credit_branch_run f t p q :
  (forall h n t, st_shares t !! h = Some n -> f h t = credit_share h n t) ->
  (forall x, x ∈ q -> is_Some (shares_of t !! x)) ->
  fits 128 (path_score (shares_of t) (p ++ q)) ->
  st_hashrate_scores t = miner_scores (shares_of t) p ->
  st_active_share_score_total t = path_score (shares_of t) p ->
  for_each f q t = (Ok tt,
    set_total (path_score (shares_of t) (p ++ q)) (set_scores (miner_scores (shares_of t) (p ++ q)) t)).
Proof.
  intros Hcredit. revert p t. induction q as [|h q IH]; intros p t Hin Hf Hs Ht.
  - rewrite app_nil_r. simpl. rewrite <-Hs, <-Ht. by destruct t.
  - cbn [for_each]. rewrite M_bind_run.
    destruct (Hin h) as [s Hk]; [set_solver|]. pose proof Hk as (n & Hn & ->)%shares_of_Some.
    rewrite (Hcredit h n t Hn).
    assert (miner_of (shares_of t) h = to_ascii_lowercase (sh_miner_id (nd_share n))) as Hm
      by (unfold miner_of; by rewrite Hk).
    assert (score_of (shares_of t) h = sh_hashrate_score_delta (nd_share n)) as Hd
      by (unfold score_of; by rewrite Hk).
    assert (fits 128 (path_score (shares_of t) (p ++ [h]))) as Hf'.
    { revert Hf. apply fits_mono. 
      replace (p ++ h :: q) with ((p ++ [h]) ++ q) by (by rewrite <-app_assoc).
      rewrite (path_score_app _ (p ++ [h])). lia. }
    rewrite credit_share_run.
    + rewrite <-Hd, <-Hm, Hs, miner_scores_snoc, Ht.
      rewrite <-path_score_snoc.
      rewrite (IH (p ++ [h])); [|set_solver| |done..]; by rewrite <-app_assoc.
    + rewrite <-Hd, <-Hm, Hs. by apply miner_scores_bound.
    + by rewrite <-Hd, Ht, <-path_score_snoc.
Qed.

Lemma rebuild_run t h p :
  index_ok t -> branch (shares_of t) h p -> fits 128 (path_score (shares_of t) p) ->
  rebuild_active_branch h t = (Ok tt, activate h p t).
Proof.
  intros Hio Hb Hf. unfold rebuild_active_branch. rewrite M_bind_run. cbn [gets].
  rewrite M_bind_run. unfold lift. rewrite (active_branch_run _ _ _ Hio Hb). cbn [ok_or].
  rewrite M_bind_run. cbn [modify]. rewrite M_bind_run.
  rewrite (credit_branch_run credit_stored_share _ [] p); [done| | |done..].
  { intros x n t' Hn. unfold credit_stored_share. rewrite M_bind_run. cbn [gets]. rewrite M_bind_run. by rewrite Hn. }
  intros x Hx. exact (branch_lookup _ _ _ Hb Hx).
Qed.

(** ** Preference between tips *)

Global Instance compare_tips_order : CmpOrder compare_tips.
Proof.
  pose proof (cmp_on_order (@snd string N) N.compare).
  pose proof (cmp_flip_order _ (CmpOrder0 := cmp_on_order (@fst string N) str_cmp)).
  exact (then_with_order (fun a b : string * N => a.2 ?= b.2) (fun a b : string * N => str_cmp b.1 a.1)).
Qed.

Lemma tip_le_trans a b c : tip_le a b -> tip_le b c -> tip_le a c.
Proof. apply (cmp_trans compare_tips). Qed.

Lemma tip_le_refl a : tip_le a a.
Proof. unfold tip_le. by rewrite (cmp_refl compare_tips). Qed.

Lemma tip_le_antisym a b : tip_le a b -> tip_le b a -> a = b.
Proof.
  intros Hab Hba. pose proof (cmp_le_antisym compare_tips a b Hab Hba) as Heq.
  unfold compare_tips in Heq. destruct a as [h s], b as [h' s']. simpl in Heq.
  destruct (N.compare_spec s s'); simpl in Heq; [|done..]. apply str_cmp_Eq in Heq. by subst.
Qed.

Lemma tip_Gt_le a b : compare_tips a b = Gt -> tip_le b a.
Proof. unfold tip_le. rewrite (cmp_antisym compare_tips a b). by intros ->. Qed.

Lemma better_iff h s tip cs :
  ((cs <? s) || ((s =? cs) && bool_decide (str_cmp h tip = Lt))) =
  match compare_tips (h, s) (tip, cs) with Gt => true | _ => false end.
Proof.
  unfold compare_tips. simpl. rewrite (cmp_antisym str_cmp h tip).
  destruct (N.compare_spec s cs) as [->|Hlt|Hgt]; simpl.
  - rewrite N.ltb_irrefl, N.eqb_refl. simpl. by destruct (str_cmp h tip).
  - rewrite (proj2 (N.ltb_ge cs s)) by lia. by rewrite (proj2 (N.eqb_neq s cs)) by lia.
  - by rewrite (proj2 (N.ltb_lt cs s)) by lia.
Qed.

(** Whether a resolved share replaces the current tip. *)
Definition preferred (t : ShareTree) (h : string) (s : N) : Prop :=
  match st_best_share_tip t with
  | Some tip => exists cs, resolved t tip cs /\ compare_tips (h, s) (tip, cs) = Gt
  | None => True
  end.

Definition tip_resolved (t : ShareTree) : Prop :=
  forall tip, st_best_share_tip t = Some tip -> exists s, resolved t tip s.

Lemma resolved_det t h s s' : resolved t h s -> resolved t h s' -> s = s'.
Proof. intros (n & Hn & Hs) (n' & Hn' & Hs'). simplify_eq. congruence. Qed.

Lemma resolved_branch t h s :
  sound t -> resolved t h s ->
  exists p, branch (shares_of t) h p /\ s = path_score (shares_of t) p /\ fits 128 s.
Proof.
  intros Hsd (n & Hn & Hs). specialize (Hsd h n Hn). rewrite Hs in Hsd. destruct Hsd as (p & ? & ? & ? & ? & ?). eauto.
Qed.

Lemma is_better_run t h s :
  tip_resolved t -> exists b, is_better t h s t = (Ok b, t) /\ (b = true <-> preferred t h s).
Proof.
  intros Htip. unfold is_better, preferred. destruct (st_best_share_tip t) as [tip|] eqn:Ht; [|by exists true].
  destruct (Htip tip Ht) as (cs & n & Hn & Hcs). rewrite Hn, Hcs. cbn [expect].
  eexists. split; [reflexivity|]. rewrite better_iff. split.
  - destruct (compare_tips (h, s) (tip, cs)) eqn:Hc; [done..|]. intros _. exists cs. split; [|done]. by exists n.
  - intros (cs' & (n' & Hn' & Hcs') & Hc). simplify_eq. by rewrite Hc.
Qed.

(** [consider_resolved_share] activates the share's branch exactly when it is preferred. *)
Lemma consider_run t h s p :
  shares_of t !! ZERO_SHARE_PARENT_HASH = None -> index_ok t -> sound t -> active_ok t -> tip_resolved t ->
  resolved t h s -> branch (shares_of t) h p ->
  exists t', consider_resolved_share h t = (Ok tt, t') /\
    (is_Some (latest_sharechain_checkpoint t) /\ t' = t \/
     latest_sharechain_checkpoint t = None /\
       (preferred t h s /\ t' = activate h p t \/ ~ preferred t h s /\ t' = t)).
Proof.
  intros Hz Hio Hsd Hac Htip Hr Hb. pose proof Hr as (n & Hn & Hs).
  destruct (resolved_branch _ _ _ Hsd Hr) as (p' & Hb' & -> & Hf).
  pose proof (branch_det _ _ _ Hb Hb') as <-. clear Hb'.
  unfold consider_resolved_share. rewrite M_bind_run. cbn [gets]. unfold id.
  destruct (latest_sharechain_checkpoint t) as [cp|] eqn:Hcp.
  { exists t. split; [done|]. left. eauto. }
  change (bool_decide (is_Some None)) with false. cbv iota.
  rewrite M_bind_run, Hn. cbn [expect mret M_ret]. rewrite M_bind_run, Hs. cbn [expect mret M_ret].
  rewrite M_bind_run. destruct (is_better_run t h (path_score (shares_of t) p) Htip) as (b & -> & Hbt).
  destruct b; simpl negb; cbv iota; [|exists t; split; [done|]; right; split; [done|]; right;
    split; [|done]; intros Hp; by apply Hbt in Hp].
  exists (activate h p t). split; [|right; split; [done|]; left; split; [by apply Hbt|done]].
  destruct (decide (st_best_share_tip t = Some (nd_parent_share_hash n))) as [Hpar|Hpar];
    [|rewrite bool_decide_eq_false_2 by done; simpl; by apply rebuild_run].
  rewrite bool_decide_eq_true_2 by done. simpl andb.
  destruct (decide (nd_parent_share_hash n ∈ st_active_share_hashes t)) as [Hin|Hin];
    [|rewrite bool_decide_eq_false_2 by done; simpl; by apply rebuild_run].
  rewrite bool_decide_eq_true_2 by done. cbv iota.
  unfold active_ok in Hac. rewrite Hpar in Hac. destruct Hac as (q & Hq & Hfq & Hact & Htot & Hsc).
  rewrite (io_parent _ Hio _ _ Hn) in *.
  assert (p = h :: q) as ->.
  { pose proof (shares_of_lookup _ _ _ Hn) as Hk. inversion Hb as [? s' Hs' Hroot|? s' q' Hs' _ Hq']; simplify_eq.
    - exfalso. destruct (branch_head _ _ Hq) as (q' & ->).
      destruct (branch_lookup _ _ _ Hq (list_elem_of_here _ _)) as [s' Hs'']. congruence.
    - f_equal. by eapply branch_det. }
  pose proof (shares_of_lookup _ _ _ Hn) as Hk.
  assert (miner_of (shares_of t) h = to_ascii_lowercase (sh_miner_id (nd_share n))) as Hm
    by (unfold miner_of; by rewrite Hk).
  assert (score_of (shares_of t) h = sh_hashrate_score_delta (nd_share n)) as Hd
    by (unfold score_of; by rewrite Hk).
  cbn [negb andb]. rewrite M_bind_run, credit_share_run; rewrite <-?Hd, <-?Hm, ?Hsc, ?Htot.
  - rewrite M_bind_run. cbn [modify]. unfold activate, set_tip, set_active, set_total, set_scores.
    simpl. rewrite Hact, N.add_comm. by rewrite path_score_cons.
  - rewrite miner_scores_lookup, miner_score_default. revert Hf. apply fits_mono.
    rewrite path_score_cons. pose proof (miner_sum_le (shares_of t) q (miner_of (shares_of t) h)). lia.
  - by rewrite N.add_comm, <-path_score_cons.
Qed.

(** ** The resolution loop *)

Definition unresolved (t : ShareTree) (h : string) : Prop :=
  exists n, st_shares t !! h = Some n /\ nd_cumulative_score n = None.

(** The share can be resolved: it is a root or its parent is resolved. *)
Definition ready (t : ShareTree) (s : Share) : Prop :=
  is_root s \/ exists s', resolved t (parent_of s) s'.

Definition mark (c : string) (score height : N) (t : ShareTree) : ShareTree :=
  set_shares (alter (resolve_node score height) c (st_shares t)) t.

Definition unresolved_count (t : ShareTree) : nat :=
  size (filter (fun kv : string * ShareNode => nd_cumulative_score kv.2 = None) (st_shares t)).

(** What the loop leaves alone. *)
Definition frame (t t' : ShareTree) : Prop :=
  shares_of t' = shares_of t /\ st_sharechain_checkpoints t' = st_sharechain_checkpoints t /\
  st_share_hash_by_work_hash t' = st_share_hash_by_work_hash t /\
  st_children_by_parent t' = st_children_by_parent t.

Lemma mark_shares_of c score height t : shares_of (mark c score height t) = shares_of t.
Proof.
  unfold shares_of, mark. simpl. apply map_eq. intros h. rewrite !lookup_fmap, lookup_alter.
  case_decide; [subst|done]. by destruct (st_shares t !! h).
Qed.

Lemma mark_lookup c score height t h :
  st_shares (mark c score height t) !! h =
  if decide (c = h) then resolve_node score height <$> st_shares t !! h else st_shares t !! h.
Proof. unfold mark. simpl. rewrite lookup_alter. by case_decide; subst. Qed.

Lemma mark_resolved c score height t h s :
  unresolved t c ->
  resolved (mark c score height t) h s <-> (h = c /\ s = score) \/ resolved t h s.
Proof.
  intros (nc & Hnc & Hcum). unfold resolved. rewrite mark_lookup. case_decide as Hch; [subst h|naive_solver].
  rewrite Hnc. simpl. split.
  - intros (n & [= <-] & [= <-]). by left.
  - intros [[_ ->]|(n & [= <-] & Hn)]; [eauto|congruence].
Qed.

Lemma mark_unresolved c score height t h :
  unresolved (mark c score height t) h <-> h <> c /\ unresolved t h.
Proof.
  unfold unresolved. rewrite mark_lookup. case_decide as Hch; [subst h|naive_solver].
  split; [|naive_solver]. destruct (st_shares t !! c); simpl; [|naive_solver]. by intros (n & [= <-] & ?).
Qed.

Lemma mark_count c score height t :
  unresolved t c -> unresolved_count t = S (unresolved_count (mark c score height t)).
Proof.
  intros (n & Hn & Hcum). unfold unresolved_count.
  assert (filter (fun kv : string * ShareNode => nd_cumulative_score kv.2 = None)
            (st_shares (mark c score height t)) =
          delete c (filter (fun kv : string * ShareNode => nd_cumulative_score kv.2 = None) (st_shares t)))
    as Heq.
  { apply map_eq. intros h. apply option_eq. intros x.
    rewrite map_lookup_filter_Some, lookup_delete_Some, map_lookup_filter_Some, mark_lookup.
    case_decide as Hch; [subst h|naive_solver]. rewrite Hn. simpl. naive_solver. }
  assert (filter (fun kv : string * ShareNode => nd_cumulative_score kv.2 = None) (st_shares t) !! c = Some n)
    as Hc by (by apply map_lookup_filter_Some).
  rewrite Heq, map_size_delete_Some by eauto.
  apply eq_sym, Nat.succ_pred. intros Hsz. apply map_size_empty_inv in Hsz. by rewrite Hsz in Hc.
Qed.

Section loop.
Context `{Hashing}.

Record loop_inv (t : ShareTree) (queue : list string) : Prop := {
  li_store : store_ok (shares_of t);
  li_index : index_ok t;
  li_sound : sound t;
  li_closed : forall h s share, resolved t h s -> shares_of t !! h = Some share -> ready t share;
  li_front : forall h share, unresolved t h -> shares_of t !! h = Some share -> ready t share -> h ∈ queue;
  li_nodup : NoDup queue;
  li_queue : forall h, h ∈ queue ->
    unresolved t h /\ forall share, shares_of t !! h = Some share -> ready t share;
  li_active : active_ok t;
  li_tip : tip_ok t;
  li_tip_resolved : tip_resolved t
}.

Lemma branch_score_run t c n :
  store_ok (shares_of t) -> index_ok t -> sound t -> st_shares t !! c = Some n -> ready t (nd_share n) ->
  exists p, branch (shares_of t) c p /\
    (fits 128 (path_score (shares_of t) p) /\ fits 64 (N.of_nat (length p)) /\
       branch_score (st_shares t) c = Ok (Some (path_score (shares_of t) p, N.of_nat (length p))) \/
     ~ (fits 128 (path_score (shares_of t) p) /\ fits 64 (N.of_nat (length p))) /\
       branch_score (st_shares t) c = Err (ShareBranchScoreOverflow c)).
Proof.
  intros Hst Hio Hsd Hn Hready. pose proof (shares_of_lookup _ _ _ Hn) as Hk.
  assert (score_of (shares_of t) c = sh_hashrate_score_delta (nd_share n)) as Hd
    by (unfold score_of; by rewrite Hk).
  unfold branch_score. rewrite Hn, (io_parent _ Hio _ _ Hn).
  destruct (String.eqb_spec (parent_of (nd_share n)) ZERO_SHARE_PARENT_HASH) as [Hz|Hz].
  - exists [c]. split; [by eapply branch_root|]. left.
    rewrite path_score_cons, Hd, N.add_0_r. split; [exact (so_fits _ Hst _ _ Hk)|done].
  - destruct Hready as [Hroot|(ps & pn & Hpn & Hps)]; [done|]. rewrite Hpn, Hps.
    pose proof (Hsd _ _ Hpn) as Hsp. rewrite Hps in Hsp. destruct Hsp as (p & Hb & -> & Hht & Hf & Hf64).
    exists (c :: p). split; [by eapply branch_step|]. rewrite Hht, path_score_cons, Hd.
    replace (N.of_nat (length (c :: p))) with (N.of_nat (length p) + 1) by (simpl; lia).
    rewrite (N.add_comm (sh_hashrate_score_delta (nd_share n))).
    destruct (checked_add 128 _ _) as [sc|] eqn:Hsc; simpl.
    + apply checked_add_Some in Hsc as [-> Hfs].
      destruct (checked_add 64 _ _) as [ht|] eqn:Hh; simpl.
      * apply checked_add_Some in Hh as [-> Hfh]. by left.
      * apply checked_add_None in Hh. right. split; [|done]. unfold fits. lia.
    + apply checked_add_None in Hsc. right. split; [|done]. unfold fits. lia.
Qed.

(** Marking the first share of the queue keeps the parts of the loop invariant
    that concern scores, and the share's children become the new frontier. *)
Lemma mark_scores t c p :
  sound t -> branch (shares_of t) c p ->
  fits 128 (path_score (shares_of t) p) -> fits 64 (N.of_nat (length p)) ->
  sound (mark c (path_score (shares_of t) p) (N.of_nat (length p)) t).
Proof.
  intros Hsd Hb Hf Hl h n. rewrite mark_shares_of, mark_lookup. case_decide as Hch.
  - subst h. intros (n0 & Hn0 & ->)%fmap_Some. simpl. eauto 10.
  - apply Hsd.
Qed.

Lemma mark_index t c score height : index_ok t -> index_ok (mark c score height t).
Proof.
  intros [Hp Hc Hne]. split.
  - intros h n. rewrite mark_lookup. case_decide as Hch; [subst h|apply Hp].
    intros (n0 & Hn0 & ->)%fmap_Some. simpl. by eapply Hp.
  - intros q h. rewrite mark_shares_of. apply Hc.
  - apply Hne.
Qed.

Lemma mark_ready t c score height s :
  unresolved t c ->
  ready (mark c score height t) s <-> ready t s \/ parent_of s = c.
Proof.
  intros Hu. unfold ready. setoid_rewrite mark_resolved; [|done..]. naive_solver.
Qed.

Lemma activate_index t h p : index_ok t -> index_ok (activate h p t).
Proof. intros [Hp Hc Hne]. split; [exact Hp|exact Hc|exact Hne]. Qed.

Definition children_of (t : ShareTree) (c : string) : list string :=
  from_option btree_set_list [] (st_children_by_parent t !! c).

Lemma children_of_elem t c h :
  index_ok t -> h ∈ children_of t c <-> exists s, shares_of t !! h = Some s /\ parent_of s = c.
Proof.
  intros Hio. rewrite <-(io_children _ Hio c h). unfold children_of.
  destruct (st_children_by_parent t !! c); simpl; [apply btree_set_list_elem|set_solver].
Qed.

Lemma children_of_NoDup t c : NoDup (children_of t c).
Proof.
  unfold children_of. destruct (st_children_by_parent t !! c); simpl; [|constructor].
  unfold btree_set_list. rewrite sort_by_perm. apply NoDup_elements.
Qed.

Lemma resolved_or_not t h s :
  shares_of t !! h = Some s -> unresolved t h \/ exists sc, resolved t h sc.
Proof.
  intros (n & Hn & _)%shares_of_Some.
  destruct (nd_cumulative_score n) eqn:Hc; [right|left]; unfold resolved, unresolved; eauto.
Qed.

Lemma unresolved_not_resolved t h s : unresolved t h -> resolved t h s -> False.
Proof. intros (n & Hn & Hc) (n' & Hn' & Hc'). congruence. Qed.

(** An unresolved share is nobody's ready parent. *)
Lemma child_not_ready t c s :
  shares_of t !! ZERO_SHARE_PARENT_HASH = None -> unresolved t c -> parent_of s = c -> ~ ready t s.
Proof.
  intros Hz Hu Hp [Hroot|(s' & Hr)].
  - unfold is_root in Hroot. destruct Hu as (n & Hn & _). apply shares_of_lookup in Hn. congruence.
  - rewrite Hp in Hr. by eapply unresolved_not_resolved.
Qed.

Lemma mark_frontier t c queue score height :
  loop_inv t (c :: queue) ->
  let m := mark c score height t in
  (forall h s share, resolved m h s -> shares_of m !! h = Some share -> ready m share) /\
  (forall h share, unresolved m h -> shares_of m !! h = Some share -> ready m share ->
     h ∈ queue ++ children_of t c) /\
  NoDup (queue ++ children_of t c) /\
  (forall h, h ∈ queue ++ children_of t c ->
     unresolved m h /\ forall share, shares_of m !! h = Some share -> ready m share).
Proof.
  intros Hli m. pose proof (so_zero _ (li_store _ _ Hli)) as Hz.
  destruct (li_queue _ _ Hli c (list_elem_of_here _ _)) as [Hu Hcr].
  pose proof (li_nodup _ _ Hli) as [Hcq Hnd]%NoDup_cons.
  assert (forall h s, shares_of t !! h = Some s -> parent_of s = c -> h <> c /\ unresolved t h) as Hchild.
  { intros h s Hs Hp. pose proof (child_not_ready _ _ _ Hz Hu Hp) as Hnr.
    destruct (resolved_or_not _ _ _ Hs) as [Hun|(sc & Hr)].
    - split; [|done]. intros ->. by apply Hnr, Hcr.
    - exfalso. by eapply Hnr, li_closed. }
  unfold m. rewrite !mark_shares_of. split_and!.
  - intros h s share Hr Hs. apply mark_ready; [done|]. left.
    apply mark_resolved in Hr as [[-> _]|Hr]; [by apply Hcr|by eapply li_closed|done].
  - intros h share [Hne Hun]%mark_unresolved Hs [Hr|Hp]%mark_ready; [| |done]; apply elem_of_app.
    + left. pose proof (li_front _ _ Hli _ _ Hun Hs Hr). set_solver.
    + right. apply children_of_elem; [apply (li_index _ _ Hli)|eauto].
  - apply NoDup_app. split_and!; [done| |apply children_of_NoDup].
    intros h Hq (s & Hs & Hp)%children_of_elem; [|apply (li_index _ _ Hli)].
    destruct (li_queue _ _ Hli h) as [_ Hr]; [set_solver|]. by eapply child_not_ready, Hr.
  - intros h [Hq|(s & Hs & Hp)%children_of_elem]%elem_of_app; [| |apply (li_index _ _ Hli)].
    + destruct (li_queue _ _ Hli h) as [Hun Hr]; [set_solver|]. split.
      * apply mark_unresolved. split; [set_solver|done].
      * intros share Hs. apply mark_ready; [done|]. left. by apply Hr.
    + destruct (Hchild _ _ Hs Hp). split; [by apply mark_unresolved|].
      intros share Hs'. apply mark_ready; [done|]. right. congruence.
Qed.

(** The tip stays the best resolved share when one more share is resolved. *)
Lemma best_after t c score height p :
  best_resolved t -> unresolved t c ->
  let m := mark c score height t in
  (preferred m c score -> best_resolved (activate c p m)) /\ (~ preferred m c score -> best_resolved m).
Proof.
  intros Hbest Hu m. unfold best_resolved, preferred in *. simpl.
  assert (forall h s, resolved (activate c p m) h s <-> (h = c /\ s = score) \/ resolved t h s) as Hra
    by (intros; by apply (mark_resolved c score height)).
  assert (forall h s, resolved m h s <-> (h = c /\ s = score) \/ resolved t h s) as Hrm
    by (intros; by apply mark_resolved).
  destruct (st_best_share_tip t) as [tip|]; (split; [intros Hp|intros Hnp]).
  - destruct Hbest as (s & Hr & Hmax). destruct Hp as (cs & Hcs & Hgt).
    assert (cs = s) as ->.
    { apply Hrm in Hcs as [[-> ->]|Hcs]; [|by eapply resolved_det]. exfalso. by eapply unresolved_not_resolved. }
    exists score. split; [apply Hra; by left|]. intros h s' [[-> ->]|Hh]%Hra; [apply tip_le_refl|].
    eapply tip_le_trans; [by apply Hmax|by apply tip_Gt_le].
  - destruct Hbest as (s & Hr & Hmax). exists s. split; [apply Hrm; by right|].
    intros h s' [[-> ->]|Hh]%Hrm; [|by apply Hmax]. intros Hgt. apply Hnp. exists s. split; [apply Hrm; by right|done].
  - exists score. split; [apply Hra; by left|]. intros h s' [[-> ->]|Hh]%Hra; [apply tip_le_refl|].
    exfalso. by eapply Hbest.
  - exfalso. by apply Hnp.
Qed.

(** The outcome of running a computation that may overflow a branch score. *)
Definition overflows (t : ShareTree) (h : string) : Prop :=
  exists p, branch (shares_of t) h p /\
    ~ (fits 128 (path_score (shares_of t) p) /\ fits 64 (N.of_nat (length p))).

Lemma active_tip_resolved t p h s :
  resolved t h s -> tip_resolved (activate h p t).
Proof. intros Hr tip [= <-]. by exists s. Qed.

(** One iteration of the loop on a share with a representable score. *)
Lemma loop_step t c queue p :
  loop_inv t (c :: queue) -> branch (shares_of t) c p ->
  fits 128 (path_score (shares_of t) p) -> fits 64 (N.of_nat (length p)) ->
  let m := mark c (path_score (shares_of t) p) (N.of_nat (length p)) t in
  exists t', consider_resolved_share c m = (Ok tt, t') /\
    loop_inv t' (queue ++ children_of t c) /\ frame t t' /\ unresolved_count t = S (unresolved_count t').
Proof.
  intros Hli Hb Hf Hf64 m. destruct (li_queue _ _ Hli c (list_elem_of_here _ _)) as [Hu _].
  assert (shares_of m = shares_of t) as Hm by apply mark_shares_of.
  assert (resolved m c (path_score (shares_of t) p)) as Hc by (apply mark_resolved; [done|by left]).
  assert (tip_resolved m) as Htm.
  { intros tip Ht. destruct (li_tip_resolved _ _ Hli tip Ht) as [s Hs]. exists s.
    apply mark_resolved; [done|by right]. }
  assert (active_ok m) as Ham.
  { pose proof (li_active _ _ Hli) as Ha. unfold active_ok in *. by rewrite Hm. }
  pose proof (mark_index _ c (path_score (shares_of t) p) (N.of_nat (length p)) (li_index _ _ Hli)) as Hio.
  pose proof (mark_scores _ _ _ (li_sound _ _ Hli) Hb Hf Hf64) as Hsd.
  destruct (mark_frontier t c queue (path_score (shares_of t) p) (N.of_nat (length p)) Hli)
    as (Hcl & Hfr & Hnd & Hq).
  assert (store_ok (shares_of m)) as Hst by (rewrite Hm; apply (li_store _ _ Hli)).
  destruct (consider_run m c (path_score (shares_of t) p) p (so_zero _ Hst) Hio Hsd Ham Htm Hc)
    as (t' & Hrun & Hcase); [by rewrite Hm|].
  exists t'. split; [done|].
  assert (active_ok (activate c p m)) as Haa.
  { exists p. rewrite <-Hm in Hb, Hf. done. }
  pose proof (li_tip _ _ Hli) as Htip. unfold tip_ok in Htip.
  assert (latest_sharechain_checkpoint m = latest_sharechain_checkpoint t) as Hcp by done.
  rewrite Hcp in Hcase. split_and!.
  - destruct Hcase as [[[cp Hl] ->]|[Hl [[Hp ->]|[Hnp ->]]]]; rewrite Hl in Htip;
      (split; [exact Hst|by try apply activate_index|exact Hsd|exact Hcl|exact Hfr|exact Hnd|exact Hq|..]).
    + exact Ham.
    + unfold tip_ok. rewrite Hcp, Hl. exact Htip.
    + exact Htm.
    + exact Haa.
    + unfold tip_ok. change (latest_sharechain_checkpoint (activate c p m)) with (latest_sharechain_checkpoint t).
      rewrite Hl. by apply (best_after t c).
    + by eapply active_tip_resolved.
    + exact Ham.
    + unfold tip_ok. rewrite Hcp, Hl. by apply (best_after t c _ _ p).
    + exact Htm.
  - destruct Hcase as [[_ ->]|[_ [[_ ->]|[_ ->]]]]; (split_and!; [exact Hm|done..]).
  - rewrite (mark_count c (path_score (shares_of t) p) (N.of_nat (length p))) by done.
    destruct Hcase as [[_ ->]|[_ [[_ ->]|[_ ->]]]]; done.
Qed.

Lemma frame_trans t1 t2 t3 : frame t1 t2 -> frame t2 t3 -> frame t1 t3.
Proof. unfold frame. intros (? & ? & ? & ?) (? & ? & ? & ?). split_and!; congruence. Qed.

(** The loop ends within its bound: every share that can be resolved is, or a
    branch score overflows. *)
Lemma resolve_loop_run fuel t queue :
  loop_inv t queue -> (unresolved_count t < fuel)%nat ->
  (exists t', resolve_loop fuel queue t = (Ok tt, t') /\ loop_inv t' [] /\ frame t t') \/
  (exists t' h, resolve_loop fuel queue t = (Err (ShareBranchScoreOverflow h), t') /\ frame t t' /\ overflows t h).
Proof.
  revert t queue. induction fuel as [|fuel IH]; intros t queue Hli Hfuel; [lia|].
  cbn [resolve_loop]. destruct queue as [|c queue]; [by left; exists t|].
  rewrite M_bind_run. unfold asks.
  destruct (li_queue _ _ Hli c (list_elem_of_here _ _)) as [Hu Hready]. pose proof Hu as (n & Hn & Hcum).
  destruct (branch_score_run t c n) as (p & Hb & [(Hf & Hf64 & ->)|[Hov ->]]);
    [apply (li_store _ _ Hli)|apply (li_index _ _ Hli)|apply (li_sound _ _ Hli)|done| | |].
  { apply Hready. by apply shares_of_lookup. }
  - destruct (N.eqb_spec (N.of_nat (length p)) 0) as [Hl|Hl].
    { destruct (branch_head _ _ Hb) as (q & ->). simpl in Hl. lia. }
    rewrite M_bind_run. cbn [modify]. rewrite M_bind_run.
    destruct (loop_step t c queue p Hli Hb Hf Hf64) as (t' & Hrun & Hli' & Hfr & Hcount).
    unfold mark in Hrun. rewrite Hrun. rewrite M_bind_run. cbn [gets].
    change (from_option btree_set_list [] (st_children_by_parent t' !! c)) with (children_of t' c).
    assert (children_of t' c = children_of t c) as ->.
    { unfold children_of. by rewrite (proj2 (proj2 (proj2 Hfr))). }
    destruct (IH t' (queue ++ children_of t c) Hli' ltac:(lia)) as [(t2 & -> & ? & ?)|(t2 & h & -> & ? & Hov)].
    + left. exists t2. split_and!; [done..|by eapply frame_trans].
    + right. exists t2, h. split_and!; [done|by eapply frame_trans|]. unfold overflows in *.
      by rewrite (proj1 Hfr) in Hov.
  - right. exists t, c. split_and!; [done..|]. by exists p.
Qed.
End loop.
