(* ===== verification/ShareTreeAdmit.v ===== *)
(** * Admitting shares

    [apply_share] accepts a share exactly when the tree stays consistent with
    it: no other share of the same work, no second root, and no overflowing
    branch score.  It keeps the invariant, and since the invariant determines
    the state from the stored shares, shares can arrive in any order. *)
From S2P Require Import Prelude Order Text Crates Concrete Payout Withdrawal Ledger IdenaAnchor ShareWork Commitment Sharechain ShareTree ShareBranch ShareTreeInv.

Local Open Scope N_scope.

(** Every branch score and height is representable. *)
Definition scores_fit (K : gmap string Share) : Prop :=
  forall h p, branch K h p -> fits 128 (path_score K p) /\ fits 64 (N.of_nat (length p)).

Section admission.
Context `{Hashing, !HexLaws}.

(** ** Facts about states that satisfy the invariant *)

Lemma inv_resolved t h p :
  sound t -> complete t -> branch (shares_of t) h p -> resolved t h (path_score (shares_of t) p).
Proof.
  intros Hsd Hco Hb. destruct (Hco _ _ Hb) as [s Hr].
  destruct (resolved_branch _ _ _ Hsd Hr) as (p' & Hb' & -> & _). by rewrite (branch_det _ _ _ Hb Hb').
Qed.

Lemma inv_scores_fit t : sound t -> complete t -> scores_fit (shares_of t).
Proof.
  intros Hsd Hco h p Hb. destruct (inv_resolved _ _ _ Hsd Hco Hb) as (n & Hn & Hs).
  pose proof (Hsd _ _ Hn) as Hs'. rewrite Hs in Hs'. destruct Hs' as (p' & Hb' & _ & Hh & Hf & Hf64).
  rewrite (branch_det _ _ _ Hb Hb') in *. by rewrite <-Hh.
Qed.

Lemma inv_tip_resolved t : complete t -> active_ok t -> tip_resolved t.
Proof.
  intros Hco Hac tip Ht. unfold active_ok in Hac. rewrite Ht in Hac. destruct Hac as (p & Hb & _).
  by eapply Hco.
Qed.

Lemma scores_fit_mono K K' : K ⊆ K' -> scores_fit K' -> scores_fit K.
Proof.
  intros Hsub Hf h p Hb. rewrite <-(path_score_mono K K' p) by (done || intros; by eapply branch_lookup).
  apply (Hf h). by eapply branch_mono.
Qed.

Lemma loop_done t : loop_inv t [] -> complete t.
Proof.
  intros Hli h p Hb. assert (forall h s, shares_of t !! h = Some s -> ready t s -> exists sc, resolved t h sc) as Hr.
  { intros x s Hs Hre. destruct (resolved_or_not _ _ _ Hs) as [Hu|?]; [|done].
    pose proof (li_front _ _ Hli _ _ Hu Hs Hre). set_solver. }
  induction Hb as [h s Hs Hz|h s p Hs Hz Hb IH]; (eapply Hr; [done|]); [by left|]. right. apply IH.
Qed.

Lemma active_mono t t' :
  shares_of t ⊆ shares_of t' -> st_best_share_tip t' = st_best_share_tip t ->
  st_active_share_hashes t' = st_active_share_hashes t ->
  st_active_share_score_total t' = st_active_share_score_total t ->
  st_hashrate_scores t' = st_hashrate_scores t -> active_ok t -> active_ok t'.
Proof.
  intros Hsub Ht Ha Hs Hm Hok. unfold active_ok in *. rewrite Ht, Ha, Hs, Hm.
  destruct (st_best_share_tip t); [|done]. destruct Hok as (p & Hb & Hf & ? & ? & ?). exists p.
  rewrite (path_score_mono _ _ p Hsub), (miner_scores_mono _ _ p Hsub)
    by (intros; by eapply branch_lookup). split; [by eapply branch_mono|done].
Qed.

Lemma checkpoints_mono t t' :
  shares_of t ⊆ shares_of t' -> st_sharechain_checkpoints t' = st_sharechain_checkpoints t ->
  checkpoints_ok t -> checkpoints_ok t'.
Proof.
  intros Hsub Hcs [Hr Hv Hc]. split; rewrite Hcs.
  - done.
  - intros r c Hrc. destruct (Hv r c Hrc) as [? ? (p & Hb & Hh & Hp)]. split; [done..|]. exists p.
    rewrite (path_score_mono _ _ p Hsub) by (intros; by eapply branch_lookup).
    split; [by eapply branch_mono|done].
  - intros r c c' H1c H2c. destruct (Hc r c c' H1c H2c) as (? & ? & p & Hb & ?).
    split_and!; [done..|]. exists p. split; [by eapply branch_mono|done].
Qed.

(** ** The state with a new, unresolved share *)

Definition store_share (h : string) (s : Share) (t : ShareTree) : ShareTree :=
  set_children (<[parent_of s := {[h]} ∪ default ∅ (st_children_by_parent t !! parent_of s)]>
                  (st_children_by_parent t))
    (set_shares (<[h := {| nd_share := s; nd_parent_share_hash := parent_of s;
                           nd_cumulative_score := None; nd_height := 0 |}]> (st_shares t)) t).

Lemma store_shares_of h s t : shares_of (store_share h s t) = <[h := s]> (shares_of t).
Proof. unfold shares_of, store_share. simpl. by rewrite fmap_insert. Qed.

Lemma store_subseteq h s t : shares_of t !! h = None -> shares_of t ⊆ shares_of (store_share h s t).
Proof. intros Hh. rewrite store_shares_of. by apply insert_subseteq. Qed.

Lemma shares_of_None t h : shares_of t !! h = None <-> st_shares t !! h = None.
Proof. unfold shares_of. rewrite lookup_fmap. by destruct (st_shares t !! h). Qed.

Lemma store_lookup h s t x :
  st_shares (store_share h s t) !! x =
  if decide (h = x) then Some {| nd_share := s; nd_parent_share_hash := parent_of s;
                                 nd_cumulative_score := None; nd_height := 0 |}
  else st_shares t !! x.
Proof. unfold store_share. simpl. apply lookup_insert. Qed.

Lemma store_resolved h s t x sc :
  shares_of t !! h = None -> resolved (store_share h s t) x sc <-> resolved t x sc.
Proof.
  intros Hh%shares_of_None. unfold resolved. rewrite store_lookup. case_decide as Hx; [subst x|done].
  rewrite Hh. naive_solver.
Qed.

Lemma store_unresolved h s t x :
  shares_of t !! h = None -> unresolved (store_share h s t) x <-> x = h \/ unresolved t x.
Proof.
  intros Hh%shares_of_None. unfold unresolved. rewrite store_lookup. case_decide as Hx; [subst x|naive_solver].
  rewrite Hh. naive_solver.
Qed.

Lemma store_ready h s t x :
  shares_of t !! h = None -> ready (store_share h s t) x <-> ready t x.
Proof. intros Hh. unfold ready. setoid_rewrite store_resolved; done. Qed.

Lemma store_index h s t :
  shares_of t !! h = None -> index_ok t -> index_ok (store_share h s t).
Proof.
  intros Hh [Hp Hc Hne]. split.
  - intros x n. rewrite store_lookup. case_decide as Hx; [|apply Hp]. by intros [= <-].
  - intros p x. rewrite store_shares_of. unfold store_share. simpl.
    destruct (decide (parent_of s = p)) as [<-|Hpp].
    + rewrite lookup_insert_eq. simpl. rewrite elem_of_union, elem_of_singleton, Hc.
      destruct (decide (h = x)) as [<-|Hhx].
      * rewrite lookup_insert_eq. naive_solver.
      * rewrite lookup_insert_ne by done. naive_solver.
    + rewrite lookup_insert_ne by done. rewrite Hc. destruct (decide (h = x)) as [<-|Hhx].
      * rewrite lookup_insert_eq, Hh. naive_solver.
      * by rewrite lookup_insert_ne.
  - intros p c. unfold store_share. simpl. destruct (decide (parent_of s = p)) as [<-|Hpp].
    + rewrite lookup_insert_eq. intros [= <-]. set_solver.
    + rewrite lookup_insert_ne by done. apply Hne.
Qed.

Lemma store_sound h s t : shares_of t !! h = None -> sound t -> sound (store_share h s t).
Proof.
  intros Hh Hsd x n. rewrite store_lookup. case_decide as Hx; [by intros [= <-]|].
  intros Hn. pose proof (Hsd x n Hn) as Hs. destruct (nd_cumulative_score n); [|done].
  destruct Hs as (p & Hb & -> & ? & ?). pose proof (store_subseteq h s t Hh) as Hsub.
  exists p. rewrite (path_score_mono _ _ p Hsub) by (intros; by eapply branch_lookup).
  split; [by eapply branch_mono|done].
Qed.

Lemma store_tip h s t : shares_of t !! h = None -> tip_ok t -> tip_ok (store_share h s t).
Proof.
  intros Hh. unfold tip_ok. change (latest_sharechain_checkpoint (store_share h s t))
    with (latest_sharechain_checkpoint t). destruct (latest_sharechain_checkpoint t); [done|].
  unfold best_resolved. change (st_best_share_tip (store_share h s t)) with (st_best_share_tip t).
  destruct (st_best_share_tip t); setoid_rewrite store_resolved; done.
Qed.

(** ** Resolving a new share *)

(** The invariant without the work index and the checkpoints. *)
Record core_inv (t : ShareTree) : Prop := {
  ci_store : store_ok (shares_of t);
  ci_index : index_ok t;
  ci_sound : sound t;
  ci_complete : complete t;
  ci_active : active_ok t;
  ci_tip : tip_ok t
}.

Lemma tree_core t : tree_inv t -> core_inv t.
Proof. by intros []. Qed.

Lemma loop_core t : loop_inv t [] -> core_inv t.
Proof. intros Hli. pose proof (loop_done _ Hli). by destruct Hli. Qed.

(** A share whose own branch is known to exist is ready. *)
Lemma branch_ready t h s p :
  complete t -> shares_of t !! h = Some s -> branch (shares_of t) h p -> ready t s.
Proof.
  intros Hco Hs Hb. destruct (decide (parent_of s = ZERO_SHARE_PARENT_HASH)) as [Hz|Hz]; [by left|].
  destruct (branch_parent _ _ _ Hb Hs Hz) as (q & _ & Hq). right. by eapply Hco.
Qed.

Lemma ready_branch t h s :
  sound t -> shares_of t !! h = Some s -> ready t s -> exists p, branch (shares_of t) h p.
Proof.
  intros Hsd Hs [Hz|(sc & Hr)]; [eexists; by eapply branch_root|].
  destruct (decide (parent_of s = ZERO_SHARE_PARENT_HASH)) as [Hz|Hz]; [eexists; by eapply branch_root|].
  destruct (resolved_branch _ _ _ Hsd Hr) as (p & Hp & _). eexists. by eapply branch_step.
Qed.

Lemma store_loop_inv h s t :
  core_inv t -> shares_of t !! h = None -> store_ok (<[h := s]> (shares_of t)) -> ready t s ->
  loop_inv (store_share h s t) [h].
Proof.
  intros [Hst Hio Hsd Hco Hac Htip] Hh Hst' Hre.
  pose proof (store_subseteq h s t Hh) as Hsub. split.
  - by rewrite store_shares_of.
  - by apply store_index.
  - by apply store_sound.
  - intros x sc share Hr. rewrite store_shares_of. apply store_resolved in Hr; [|done].
    assert (x <> h) as Hx. { intros ->. destruct Hr as (n & Hn & _). apply shares_of_None in Hh. congruence. }
    rewrite lookup_insert_ne by done. intros Hs. apply store_ready; [done|].
    destruct (resolved_branch _ _ _ Hsd Hr) as (p & Hb & _). by eapply branch_ready.
  - intros x share [->|Hu]%store_unresolved; [set_solver| |done].
    assert (x <> h) as Hx. { intros ->. destruct Hu as (n & Hn & _). apply shares_of_None in Hh. congruence. }
    rewrite store_shares_of, lookup_insert_ne by done. intros Hs Hr%store_ready; [|done].
    destruct (ready_branch _ _ _ Hsd Hs Hr) as [p Hp]. destruct (Hco _ _ Hp) as [sc Hsc].
    exfalso. by eapply unresolved_not_resolved.
  - apply NoDup_singleton.
  - intros x ->%list_elem_of_singleton. split; [apply store_unresolved; [done|by left]|].
    intros share. rewrite store_shares_of, lookup_insert_eq. intros [= <-]. by apply store_ready.
  - by apply (active_mono t).
  - by apply store_tip.
  - intros tip Ht. destruct (inv_tip_resolved t Hco Hac tip Ht) as [sc Hsc]. exists sc. by apply store_resolved.
Qed.

Lemma store_pending h s t :
  core_inv t -> shares_of t !! h = None -> store_ok (<[h := s]> (shares_of t)) -> ~ ready t s ->
  core_inv (store_share h s t).
Proof.
  intros [Hst Hio Hsd Hco Hac Htip] Hh Hst' Hre.
  pose proof (store_subseteq h s t Hh) as Hsub. split.
  - by rewrite store_shares_of.
  - by apply store_index.
  - by apply store_sound.
  - intros x p. rewrite store_shares_of. intros Hb. destruct (decide (h ∈ p)) as [Hin|Hin].
    + exfalso. apply Hre. destruct (branch_suffix _ _ _ Hb Hin) as (q & r & _ & Hr).
      pose proof (branch_NoDup _ _ Hr) as Hnd.
      inversion Hr as [? s' Hs' Hz|? s' r' Hs' Hz Hr']; subst; rewrite lookup_insert_eq in Hs';
        injection Hs' as <-; [by left|]. right.
      apply NoDup_cons in Hnd as [Hnin _]. eapply Hco. by eapply branch_insert_inv.
    + apply branch_insert_inv in Hb; [|done]. destruct (Hco _ _ Hb) as [sc Hsc]. exists sc. by apply store_resolved.
  - by apply (active_mono t).
  - by apply store_tip.
Qed.

Lemma unresolved_count_le t : (unresolved_count t <= size (st_shares t))%nat.
Proof. apply map_size_filter. Qed.

Lemma branch_score_not_ready t h s :
  index_ok t -> shares_of t !! h = Some s -> ~ ready t s -> branch_score (st_shares t) h = Ok None.
Proof.
  intros Hio (n & Hn & ->)%shares_of_Some Hre. unfold branch_score. rewrite Hn, (io_parent _ Hio _ _ Hn).
  destruct (String.eqb_spec (parent_of (nd_share n)) ZERO_SHARE_PARENT_HASH) as [Hz|_]; [exfalso; apply Hre; by left|].
  destruct (st_shares t !! parent_of (nd_share n)) as [pn|] eqn:Hpn; [|done].
  destruct (nd_cumulative_score pn) eqn:Hc; [|done]. exfalso. apply Hre. right. eexists. by exists pn.
Qed.

Lemma ready_dec t s : ready t s \/ ~ ready t s.
Proof.
  destruct (decide (parent_of s = ZERO_SHARE_PARENT_HASH)) as [Hz|Hz]; [left; by left|].
  destruct (st_shares t !! parent_of s) as [n|] eqn:Hn; [destruct (nd_cumulative_score n) eqn:Hc|].
  - left. right. eexists. by exists n.
  - right. intros [?|(sc & n' & Hn' & ?)]; [done|congruence].
  - right. intros [?|(sc & n' & Hn' & ?)]; [done|congruence].
Qed.

Lemma resolve_run h s t :
  core_inv t -> shares_of t !! h = None -> store_ok (<[h := s]> (shares_of t)) ->
  let t1 := store_share h s t in
  (exists t', resolve_share_and_descendants h t1 = (Ok tt, t') /\ core_inv t' /\ frame t1 t') \/
  (exists t' x, resolve_share_and_descendants h t1 = (Err (ShareBranchScoreOverflow x), t') /\
                frame t1 t' /\ overflows t1 x).
Proof.
  intros Hci Hh Hst t1. unfold resolve_share_and_descendants. rewrite M_bind_run. cbn [gets].
  destruct (ready_dec t s) as [Hre|Hre].
  - destruct (resolve_loop_run (S (S (size (st_shares t1)))) t1 [h]) as [(t' & ? & ? & ?)|(t' & x & ? & ? & ?)].
    + by apply store_loop_inv.
    + pose proof (unresolved_count_le t1). lia.
    + left. exists t'. split_and!; [done|by apply loop_core|done].
    + right. by exists t', x.
  - left. exists t1. split_and!; [|by apply store_pending|done].
    cbn [resolve_loop]. rewrite M_bind_run. unfold asks.
    rewrite (branch_score_not_ready t1 h s); [done|by apply store_index, ci_index| |].
    + unfold t1. by rewrite store_shares_of, lookup_insert_eq.
    + unfold t1. by rewrite store_ready.
Qed.

(** ** The acceptance rule *)

Lemma is_root_iff s : eq_ignore_ascii_case (parent_of s) ZERO_SHARE_PARENT_HASH = true <-> is_root s.
Proof.
  rewrite eq_ignore_ascii_case_iff. unfold is_root, parent_of. rewrite lower_idemp.
  by change (to_ascii_lowercase ZERO_SHARE_PARENT_HASH) with ZERO_SHARE_PARENT_HASH.
Qed.

Lemma share_hash_lower s : to_ascii_lowercase (share_hash s) = share_hash s.
Proof. apply hash_hex_lower. Qed.

(** [validate_unique_sharechain_root] reports a root other than the candidate. *)
Lemma unique_root_run t s :
  store_ok (shares_of t) -> index_ok t ->
  (validate_unique_sharechain_root t (share_hash s) (parent_of s) = Ok tt /\
     (is_root s -> forall x s', shares_of t !! x = Some s' -> is_root s' -> x = share_hash s)) \/
  (exists x s', validate_unique_sharechain_root t (share_hash s) (parent_of s)
                  = Err (AdditionalSharechainRoot (to_ascii_lowercase x) (share_hash s)) /\
     is_root s /\ shares_of t !! x = Some s' /\ is_root s' /\ x <> share_hash s).
Proof.
  intros Hst Hio. unfold validate_unique_sharechain_root.
  destruct (eq_ignore_ascii_case (parent_of s) ZERO_SHARE_PARENT_HASH) eqn:Hr; simpl negb; cbv iota.
  - apply is_root_iff in Hr. rewrite share_hash_lower. destruct (List.find _ _) as [[x n]|] eqn:Hfind.
    + apply List.find_some in Hfind as [Hin Hp]. simpl in Hp. apply andb_true_iff in Hp as [Hp Hx].
      apply list_elem_of_In, btree_entries_elem in Hin. rewrite (io_parent _ Hio _ _ Hin) in Hp.
      right. exists x, (nd_share n). split_and!; [done..|by apply shares_of_lookup|by apply is_root_iff|].
      intros ->. by rewrite eq_ignore_ascii_case_refl in Hx.
    + left. split; [done|]. intros _ x s' (n & Hn & ->)%shares_of_Some Hr'.
      pose proof (List.find_none _ _ Hfind (x, n)) as Hp. simpl in Hp.
      rewrite (io_parent _ Hio _ _ Hn), (proj2 (is_root_iff _) Hr') in Hp. simpl in Hp.
      specialize (Hp ltac:(apply list_elem_of_In, btree_entries_elem; done)).
      apply negb_false_iff, eq_ignore_ascii_case_iff in Hp. rewrite share_hash_lower in Hp.
      destruct (so_key _ Hst _ _ (shares_of_lookup _ _ _ Hn)) as [Hx _].
      by rewrite Hx, share_hash_lower in Hp; rewrite Hx.
  - left. split; [done|]. intros Hroot. apply is_root_iff in Hroot. congruence.
Qed.

Lemma store_ok_insert K s :
  store_ok K -> K !! share_hash s = None -> sh_normalized s = s ->
  share_hash s <> ZERO_SHARE_PARENT_HASH -> fits 128 (sh_hashrate_score_delta s) ->
  (forall x s', K !! x = Some s' -> sh_work_hash s' <> sh_work_hash s) ->
  (is_root s -> forall x s', K !! x = Some s' -> ~ is_root s') ->
  store_ok (<[share_hash s := s]> K).
Proof.
  intros [Hk Hz Hw Hr Hf] Hh Hn Hne Hfs Hnw Hnr. split.
  - intros x s' Hs. apply lookup_insert_Some in Hs as [[<- <-]|[_ Hs]]; [done|by apply Hk].
  - by rewrite lookup_insert_ne.
  - intros x1 x2 s1 s2 [[<- <-]|[_ Hs1]]%lookup_insert_Some [[<- <-]|[_ Hs2]]%lookup_insert_Some Heq;
      [done|exfalso; by eapply Hnw|exfalso; by eapply Hnw|by eapply Hw].
  - intros x1 x2 s1 s2 [[<- <-]|[_ Hs1]]%lookup_insert_Some [[<- <-]|[_ Hs2]]%lookup_insert_Some Hr1 Hr2;
      [done|exfalso; by eapply Hnr|exfalso; by eapply Hnr|by eapply Hr].
  - intros x s' Hs. apply lookup_insert_Some in Hs as [[<- <-]|[_ Hs]]; [done|by eapply Hf].
Qed.

(** A normalised share fits the store: it is there already, or it is new and
    consistent with the stored shares. *)
Definition admissible (K : gmap string Share) (s : Share) : Prop :=
  K !! share_hash s = Some s \/
  K !! share_hash s = None /\ store_ok (<[share_hash s := s]> K).

Definition is_conflict (e : SharechainReplayError) : bool :=
  match e with
  | ConflictingShare _ | DuplicateShareWork _ _ | AdditionalSharechainRoot _ _ => true
  | _ => false
  end.

(** What [apply_share] does, by result. *)
Definition share_outcome (t : ShareTree) (s : Share) (r : result SharechainReplayError unit * ShareTree) : Prop :=
  match r with
  | (Ok _, t') =>
      tree_inv t' /\ shares_of t' = <[share_hash s := s]> (shares_of t) /\
      st_sharechain_checkpoints t' = st_sharechain_checkpoints t /\ admissible (shares_of t) s
  | (Err e, t') =>
      (is_conflict e = true /\ t' = t /\ ~ admissible (shares_of t) s) \/
      (exists x, e = ShareBranchScoreOverflow x) /\ ~ scores_fit (<[share_hash s := s]> (shares_of t))
  end.

Lemma frame_by_work t t' h s :
  tree_inv t -> core_inv t' -> frame (store_share h s t) t' -> shares_of t !! h = None ->
  (forall x s', shares_of t !! x = Some s' -> sh_work_hash s' <> sh_work_hash s) ->
  tree_inv (set_by_work (<[sh_work_hash s := h]> (st_share_hash_by_work_hash t')) t').
Proof.
  intros Hinv [Hst Hio Hsd Hco Hac Htip] (Hsh & Hcp & Hbw & Hch) Hh Hnw.
  split; [exact Hst|destruct Hio; split; done| |exact Hsd|exact Hco|exact Hac|exact Htip|].
  - intros w x. simpl. rewrite Hbw. change (shares_of (set_by_work _ t')) with (shares_of t').
    rewrite Hsh, store_shares_of. change (st_share_hash_by_work_hash (store_share h s t))
      with (st_share_hash_by_work_hash t).
    pose proof (inv_work _ Hinv) as Hwk. destruct (decide (sh_work_hash s = w)) as [<-|Hw].
    + rewrite lookup_insert_eq. split.
      * intros [= <-]. exists s. by rewrite lookup_insert_eq.
      * intros (s' & [[<- <-]|[_ Hs']]%lookup_insert_Some & Heq); [done|]. exfalso. by eapply Hnw.
    + rewrite lookup_insert_ne by done. rewrite (Hwk w x). split.
      * intros (s' & Hs' & Heq). exists s'. split; [|done]. rewrite lookup_insert_ne; [done|]. congruence.
      * intros (s' & [[<- <-]|[_ Hs']]%lookup_insert_Some & Heq); [done|]. by exists s'.
  - apply (checkpoints_mono t); [|simpl; by rewrite Hcp|exact (inv_checkpoints _ Hinv)].
    change (shares_of (set_by_work _ t')) with (shares_of t'). rewrite Hsh. by apply store_subseteq.
Qed.

Lemma not_admissible K s h' s' :
  K !! share_hash s = None -> K !! h' = Some s' ->
  sh_work_hash s' = sh_work_hash s \/ (is_root s /\ is_root s') -> ~ admissible K s.
Proof.
  intros Hh Hs' Hc [Hin|[_ Hst]]; [congruence|].
  assert (h' <> share_hash s) as Hne by congruence.
  assert (<[share_hash s := s]> K !! h' = Some s') as Hl by (by rewrite lookup_insert_ne).
  pose proof (lookup_insert_eq K (share_hash s) s) as Hl'.
  destruct Hc as [Hw|[Hr Hr']]; apply Hne; [by eapply (so_work _ Hst)|by eapply (so_root _ Hst)].
Qed.

Lemma apply_share_run share t :
  tree_inv t -> share_hash share <> ZERO_SHARE_PARENT_HASH -> fits 128 (sh_hashrate_score_delta share) ->
  share_outcome t (sh_normalized share) (apply_share share t).
Proof.
  intros Hinv Hz Hfit. unfold apply_share. set (s := sh_normalized share).
  assert (sh_normalized s = s) as Hn by apply sh_normalized_idemp.
  assert (to_ascii_lowercase (sh_work_hash s) = sh_work_hash s) as Hw by apply lower_idemp.
  assert (share_hash s <> ZERO_SHARE_PARENT_HASH) as Hz' by (unfold s; by rewrite share_hash_normalized).
  rewrite M_bind_run. cbn [gets].
  destruct (st_shares t !! share_hash s) as [existing|] eqn:Hex.
  { pose proof (shares_of_lookup _ _ _ Hex) as Hk.
    destruct (decide (nd_share existing = s)) as [Heq|Hne].
    - rewrite bool_decide_eq_false_2 by naive_solver. simpl. rewrite Heq in Hk.
      split_and!; [done|by rewrite insert_id|done|by left].
    - rewrite bool_decide_eq_true_2 by done. simpl. left. split_and!; [done..|].
      intros [?|[? _]]; congruence. }
  pose proof (proj2 (shares_of_None _ _) Hex) as Hh. rewrite M_bind_run. cbn [gets]. rewrite Hw.
  destruct (st_share_hash_by_work_hash t !! sh_work_hash s) as [x|] eqn:Hbw.
  { apply (inv_work _ Hinv) in Hbw as (s' & Hs' & Heq). left. split_and!; [done..|].
    eapply not_admissible; eauto. }
  assert (forall x s', shares_of t !! x = Some s' -> sh_work_hash s' <> sh_work_hash s) as Hnw.
  { intros x s' Hs' Heq. assert (st_share_hash_by_work_hash t !! sh_work_hash s = Some x) as Hx
      by (apply (inv_work _ Hinv); eauto). congruence. }
  rewrite M_bind_run. unfold asks. change (to_ascii_lowercase (sh_parent_share_hash s)) with (parent_of s).
  destruct (unique_root_run t s (inv_store _ Hinv) (inv_index _ Hinv)) as [[-> Hroot]|(x & s' & -> & ? & Hs' & ? & ?)];
    [|left; split_and!; [done..|]; eapply not_admissible; eauto].
  assert (store_ok (<[share_hash s := s]> (shares_of t))) as Hst.
  { apply store_ok_insert; try done; [exact (inv_store _ Hinv)|].
    intros Hr x s' Hs' Hr'. rewrite (Hroot Hr _ _ Hs' Hr') in Hs'. congruence. }
  do 2 (rewrite M_bind_run; cbn [modify]). rewrite M_bind_run. match goal with |- context [resolve_share_and_descendants _ ?st] =>
    change st with (store_share (share_hash s) s t) end.
  destruct (resolve_run (share_hash s) s t (tree_core _ Hinv) Hh Hst)
    as [(t' & Hrun & Hci & Hfr)|(t' & x & Hrun & Hfr & Hov)]; rewrite Hrun.
  - split_and!; [by eapply frame_by_work| |exact (proj1 (proj2 Hfr))|by right].
    change (shares_of (set_by_work _ t')) with (shares_of t'). rewrite (proj1 Hfr). apply store_shares_of.
  - right. split; [by exists x|]. intros Hfit'. destruct Hov as (p & Hb & Hov). rewrite store_shares_of in *.
    by apply Hov, (Hfit' x).
Qed.

(** ** The stored shares determine the state *)

Lemma node_determined t1 t2 h n1 n2 :
  index_ok t1 -> sound t1 -> complete t1 -> index_ok t2 -> sound t2 -> complete t2 ->
  shares_of t1 = shares_of t2 -> st_shares t1 !! h = Some n1 -> st_shares t2 !! h = Some n2 -> n1 = n2.
Proof.
  intros Hio1 Hsd1 Hco1 Hio2 Hsd2 Hco2 Heq Hn1 Hn2.
  assert (nd_share n1 = nd_share n2) as Hsh.
  { apply shares_of_lookup in Hn1, Hn2. congruence. }
  pose proof (io_parent _ Hio1 _ _ Hn1) as Hp1. pose proof (io_parent _ Hio2 _ _ Hn2) as Hp2.
  pose proof (Hsd1 _ _ Hn1) as Hs1. pose proof (Hsd2 _ _ Hn2) as Hs2.
  destruct n1 as [s1 p1 [c1|] h1], n2 as [s2 p2 [c2|] h2]; simpl in *; subst.
  - destruct Hs1 as (q1 & Hb1 & -> & -> & _), Hs2 as (q2 & Hb2 & -> & -> & _). rewrite <-Heq in *.
    by rewrite (branch_det _ _ _ Hb1 Hb2).
  - destruct Hs1 as (q1 & Hb1 & _). rewrite Heq in Hb1. destruct (Hco2 _ _ Hb1) as (s & n & Hn & Hs).
    by simplify_eq/=.
  - destruct Hs2 as (q2 & Hb2 & _). rewrite <-Heq in Hb2. destruct (Hco1 _ _ Hb2) as (s & n & Hn & Hs).
    by simplify_eq/=.
  - done.
Qed.

Lemma shares_determined t1 t2 :
  core_inv t1 -> core_inv t2 -> shares_of t1 = shares_of t2 -> st_shares t1 = st_shares t2.
Proof.
  intros [] [] Heq. apply map_eq. intros h.
  destruct (st_shares t1 !! h) as [n1|] eqn:Hn1, (st_shares t2 !! h) as [n2|] eqn:Hn2.
  - f_equal. by eapply (node_determined t1 t2).
  - apply shares_of_None in Hn2. apply shares_of_lookup in Hn1. congruence.
  - apply shares_of_None in Hn1. apply shares_of_lookup in Hn2. congruence.
  - done.
Qed.

Lemma children_determined t1 t2 :
  index_ok t1 -> index_ok t2 -> shares_of t1 = shares_of t2 ->
  st_children_by_parent t1 = st_children_by_parent t2.
Proof.
  intros Hio1 Hio2 Heq. apply map_eq. intros p.
  assert (default ∅ (st_children_by_parent t1 !! p) = default ∅ (st_children_by_parent t2 !! p)) as Hd.
  { apply set_eq. intros h. by rewrite (io_children _ Hio1), (io_children _ Hio2), Heq. }
  destruct (st_children_by_parent t1 !! p) as [c1|] eqn:H1c, (st_children_by_parent t2 !! p) as [c2|] eqn:H2c;
    simpl in Hd; subst; [done|exfalso; by eapply (io_children_nonempty _ Hio1)
                        |exfalso; by eapply (io_children_nonempty _ Hio2)|done].
Qed.

Lemma tip_determined t1 t2 :
  st_shares t1 = st_shares t2 -> st_sharechain_checkpoints t1 = st_sharechain_checkpoints t2 ->
  tip_ok t1 -> tip_ok t2 -> st_best_share_tip t1 = st_best_share_tip t2.
Proof.
  intros Hsh Hcp. unfold tip_ok, latest_sharechain_checkpoint. rewrite Hcp.
  destruct (snd <$> last_key_value (st_sharechain_checkpoints t2)); [congruence|].
  assert (forall h s, resolved t1 h s <-> resolved t2 h s) as Hres
    by (intros h s; unfold resolved; by rewrite Hsh).
  unfold best_resolved. destruct (st_best_share_tip t1) as [tip1|], (st_best_share_tip t2) as [tip2|].
  - intros (s1 & Hr1 & Hm1) (s2 & Hr2 & Hm2). apply Hres in Hr1 as Hr1'. apply Hres in Hr2 as Hr2'.
    pose proof (tip_le_antisym _ _ (Hm2 _ _ Hr1') (Hm1 _ _ Hr2')) as [=]. by subst.
  - intros (s1 & Hr1 & _) Hn. apply Hres in Hr1. by apply Hn in Hr1.
  - intros Hn (s2 & Hr2 & _). apply Hres in Hr2. by apply Hn in Hr2.
  - done.
Qed.

Lemma active_determined t1 t2 :
  shares_of t1 = shares_of t2 -> st_best_share_tip t1 = st_best_share_tip t2 -> active_ok t1 -> active_ok t2 ->
  st_active_share_hashes t1 = st_active_share_hashes t2 /\
  st_active_share_score_total t1 = st_active_share_score_total t2 /\
  st_hashrate_scores t1 = st_hashrate_scores t2.
Proof.
  intros Hsh Ht. unfold active_ok. rewrite Hsh, Ht. destruct (st_best_share_tip t2) as [tip|].
  - intros (p1 & Hb1 & _ & -> & -> & ->) (p2 & Hb2 & _ & -> & -> & ->).
    by rewrite (branch_det _ _ _ Hb1 Hb2).
  - intros (-> & -> & ->) (-> & -> & ->). done.
Qed.

Lemma tree_determined t1 t2 :
  tree_inv t1 -> tree_inv t2 -> shares_of t1 = shares_of t2 ->
  st_sharechain_checkpoints t1 = st_sharechain_checkpoints t2 -> t1 = t2.
Proof.
  intros Hi1 Hi2 Hsh Hcp. pose proof (shares_determined _ _ (tree_core _ Hi1) (tree_core _ Hi2) Hsh) as Hs.
  pose proof (children_determined _ _ (inv_index _ Hi1) (inv_index _ Hi2) Hsh) as Hc.
  pose proof (tip_determined _ _ Hs Hcp (inv_tip _ Hi1) (inv_tip _ Hi2)) as Ht.
  destruct (active_determined _ _ Hsh Ht (inv_active _ Hi1) (inv_active _ Hi2)) as (Ha & Htot & Hm).
  assert (st_share_hash_by_work_hash t1 = st_share_hash_by_work_hash t2) as Hw.
  { apply map_eq. intros w. apply option_eq. intros h. by rewrite (inv_work _ Hi1 w h), (inv_work _ Hi2 w h), Hsh. }
  destruct t1, t2; simpl in *; congruence.
Qed.

(** ** Runs of shares *)

(** A store that can hold the old shares and the new ones. *)
Definition consistent (K : gmap string Share) (l : list Share) (F : gmap string Share) : Prop :=
  K ⊆ F /\ (forall s, s ∈ l -> F !! share_hash (sh_normalized s) = Some (sh_normalized s)) /\
  store_ok F /\ scores_fit F.

(** A share with a nonzero hash and a score of its type. *)
Definition well_typed (s : Share) : Prop :=
  share_hash s <> ZERO_SHARE_PARENT_HASH /\ fits 128 (sh_hashrate_score_delta s).

Lemma store_ok_mono K F : K ⊆ F -> store_ok F -> store_ok K.
Proof.
  intros Hsub [Hk Hz Hw Hr Hf]. assert (forall h s, K !! h = Some s -> F !! h = Some s) as Hl
    by (intros; by eapply lookup_weaken).
  split; eauto.
  destruct (K !! ZERO_SHARE_PARENT_HASH) as [s|] eqn:Hz'; [|done]. apply Hl in Hz'. congruence.
Qed.

Lemma outcome_accepts K F s :
  K ⊆ F -> F !! share_hash s = Some s -> store_ok F -> scores_fit F ->
  admissible K s /\ scores_fit (<[share_hash s := s]> K) /\ <[share_hash s := s]> K ⊆ F.
Proof.
  intros Hsub Hs Hst Hfit. assert (<[share_hash s := s]> K ⊆ F) as Hsub'.
  { apply insert_subseteq_l; done. }
  split_and!; [|by eapply scores_fit_mono|done]. destruct (K !! share_hash s) as [s'|] eqn:Hk.
  - left. pose proof (lookup_weaken _ _ _ _ Hk Hsub). congruence.
  - right. split; [done|]. by eapply store_ok_mono.
Qed.

Lemma outcome_Ok t s r :
  share_outcome t s r -> admissible (shares_of t) s -> scores_fit (<[share_hash s := s]> (shares_of t)) ->
  exists t', r = (Ok tt, t').
Proof.
  destruct r as [[[]|e] t']; simpl; [by exists t'|]. intros [(_ & _ & Hna)|[_ Hns]] Ha Hs; done.
Qed.

Lemma apply_shares_run l t F :
  tree_inv t -> Forall well_typed l -> consistent (shares_of t) l F ->
  exists t', for_each apply_share l t = (Ok tt, t') /\ tree_inv t' /\ shares_of t' ⊆ F /\
    st_sharechain_checkpoints t' = st_sharechain_checkpoints t.
Proof.
  intros Hinv Hty. revert t Hinv. induction Hty as [|s l [Hz Hf] Hty IH]; intros t Hinv (Hsub & Hl & Hst & Hfit).
  - by exists t.
  - cbn [for_each]. rewrite M_bind_run. pose proof (apply_share_run s t Hinv Hz Hf) as Hout.
    destruct (outcome_accepts _ F (sh_normalized s) Hsub) as (Ha & Hsf & Hsub'); [apply Hl; set_solver|done..|].
    destruct (outcome_Ok _ _ _ Hout Ha Hsf) as [t1 Ht1]. rewrite Ht1 in *.
    destruct Hout as (Hinv1 & Hsh1 & Hcp1 & _).
    destruct (IH t1 Hinv1) as (t' & -> & ? & ? & Hcp'); [|exists t'; split_and!; [done..|congruence]].
    split_and!; [by rewrite Hsh1|intros; apply Hl; set_solver|done..].
Qed.

Lemma apply_shares_Ok l t t' :
  tree_inv t -> Forall well_typed l -> for_each apply_share l t = (Ok tt, t') ->
  tree_inv t' /\ consistent (shares_of t) l (shares_of t') /\
  st_sharechain_checkpoints t' = st_sharechain_checkpoints t.
Proof.
  intros Hinv Hty. revert t Hinv. induction Hty as [|s l [Hz Hf] Hty IH]; intros t Hinv Hrun.
  - injection Hrun as <-. split; [done|]. split; [|done].
    split_and!; [done|set_solver|apply Hinv|apply inv_scores_fit; apply Hinv].
  - cbn [for_each] in Hrun. rewrite M_bind_run in Hrun. pose proof (apply_share_run s t Hinv Hz Hf) as Hout.
    destruct (apply_share s t) as [[[]|e] t1]; [|done]. destruct Hout as (Hinv1 & Hsh1 & Hcp1 & Hadm).
    destruct (IH t1 Hinv1 Hrun) as (Hinv' & (Hsub & Hl & Hst & Hfit) & Hcp').
    assert (shares_of t ⊆ shares_of t1) as Hsub1.
    { rewrite Hsh1. destruct Hadm as [Hin|[Hnone _]]; [by rewrite insert_id|by apply insert_subseteq]. }
    split; [done|]. split; [|congruence]. split_and!; [by etrans| |done..].
    intros s' [->|Hs']%elem_of_cons; [|by apply Hl]. eapply lookup_weaken; [|done].
    rewrite Hsh1. apply lookup_insert_eq.
Qed.
End admission.

(** ** Properties *)

Lemma tree_inv_default `{Hashing} : tree_inv st_default.
Proof.
  assert (shares_of st_default = ∅) as HK by (unfold shares_of; simpl; apply fmap_empty).
  split; rewrite ?HK.
  - split; intros; by simplify_map_eq.
  - split; [done| |done]. intros p h. rewrite HK. simpl. split; [set_solver|].
    intros (s & Hs & _). by rewrite lookup_empty in Hs.
  - intros w h. rewrite HK. simpl. rewrite lookup_empty. split; [done|].
    intros (s & Hs & _). by rewrite lookup_empty in Hs.
  - intros h n Hn. simpl in Hn. by rewrite lookup_empty in Hn.
  - intros h p Hb. rewrite HK in Hb. apply branch_lookup with (x := h) in Hb as [s Hs];
      [by rewrite lookup_empty in Hs|]. destruct (branch_head _ _ Hb) as (q & ->). set_solver.
  - done.
  - unfold tip_ok, latest_sharechain_checkpoint, last_key_value, best_resolved. simpl.
    rewrite map_to_list_empty. simpl. intros h s (n & Hn & _). simpl in Hn. by rewrite lookup_empty in Hn.
  - split.
    + intros r. simpl. rewrite lookup_empty, map_size_empty. split; [by intros []|lia].
    + intros r c Hc. simpl in Hc. by rewrite lookup_empty in Hc.
    + intros r c c' Hc. simpl in Hc. by rewrite lookup_empty in Hc.
Qed.

Definition table_sum (scores : gmap string N) : N := sum_N (map snd (map_to_list scores)).

Lemma table_sum_insert m k v :
  table_sum (<[k := default 0 (m !! k) + v]> m) = table_sum m + v.
Proof.
  unfold table_sum. rewrite <-insert_delete_eq.
  rewrite (map_to_list_insert (delete k m)) by apply lookup_delete_eq.
  destruct (m !! k) as [x|] eqn:Hk; simpl.
  - rewrite <-(insert_delete_id m k x Hk) at 2.
    rewrite (map_to_list_insert (delete k m)) by apply lookup_delete_eq. simpl. lia.
  - rewrite delete_id by done. lia.
Qed.

Lemma miner_scores_sum K p : table_sum (miner_scores K p) = path_score K p.
Proof.
  induction p as [|h p IH]; [by unfold table_sum; simpl; rewrite map_to_list_empty|].
  simpl. rewrite table_sum_insert, IH, path_score_cons. lia.
Qed.

(** (invariant). Admitting a share keeps the invariant of the share tree; a share
    that conflicts leaves the tree as it was; the only other failure is an
    overflowing branch score.  In particular no [expect] fails, the resolution
    loop and the walks end within their bounds, and the score table never overflows. *)
Theorem apply_share_keeps_invariant `{Hashing, !HexLaws} share t :
  tree_inv t -> well_typed share ->
  match apply_share share t with
  | (Ok _, t') =>
      tree_inv t' /\ shares_of t' = <[share_hash share := sh_normalized share]> (shares_of t)
  | (Err e, t') => is_conflict e = true /\ t' = t \/ exists x, e = ShareBranchScoreOverflow x
  end.
Proof.
  intros Hinv [Hz Hf]. pose proof (apply_share_run share t Hinv Hz Hf) as Hout.
  destruct (apply_share share t) as [[[]|e] t']; simpl in Hout; rewrite share_hash_normalized in Hout.
  - by destruct Hout as (? & ? & _).
  - destruct Hout as [(? & ? & _)|[? _]]; auto.
Qed.

(** C34 (functional). [apply_share] accepts a share exactly when it is stored already, or its
    hash and its work are new and it is not a second root, and no branch score
    of the extended tree overflows. *)
Theorem apply_share_accepts_iff `{Hashing, !HexLaws} share t :
  tree_inv t -> well_typed share ->
  (exists t', apply_share share t = (Ok tt, t')) <->
  admissible (shares_of t) (sh_normalized share) /\
  scores_fit (<[share_hash share := sh_normalized share]> (shares_of t)).
Proof.
  intros Hinv [Hz Hf]. pose proof (apply_share_run share t Hinv Hz Hf) as Hout. split.
  - intros [t' Ht']. rewrite Ht' in Hout. destruct Hout as (Hinv' & Hsh & _ & Hadm).
    rewrite share_hash_normalized in Hsh. split; [done|]. rewrite <-Hsh. apply inv_scores_fit; apply Hinv'.
  - intros [Hadm Hfit]. eapply outcome_Ok; [done..|]. by rewrite share_hash_normalized.
Qed.

(** C2 (convergence). Shares can be admitted in any order: if one order of a
    list of shares is accepted, so is every permutation of it, and the resulting
    states are equal, also when some shares arrive before their parents. *)
Theorem share_order_independent `{Hashing, !HexLaws} l1 l2 t t' :
  tree_inv t -> Forall well_typed l1 -> l1 ≡ₚ l2 ->
  for_each apply_share l1 t = (Ok tt, t') -> for_each apply_share l2 t = (Ok tt, t').
Proof.
  intros Hinv Hty1 Hperm Hrun. assert (Forall well_typed l2) as Hty2 by (by rewrite <-Hperm).
  destruct (apply_shares_Ok _ _ _ Hinv Hty1 Hrun) as (Hinv' & Hc & Hcp).
  assert (consistent (shares_of t) l2 (shares_of t')) as Hc2.
  { destruct Hc as (? & Hl & ? & ?). split_and!; [done| |done..]. intros s Hs. apply Hl. by rewrite Hperm. }
  destruct (apply_shares_run l2 t _ Hinv Hty2 Hc2) as (t2 & Hrun2 & Hinv2 & Hsub2 & Hcp2).
  destruct (apply_shares_Ok _ _ _ Hinv Hty2 Hrun2) as (_ & Hc2' & _).
  assert (consistent (shares_of t) l1 (shares_of t2)) as Hc1.
  { destruct Hc2' as (? & Hl & ? & ?). split_and!; [done| |done..]. intros s Hs. apply Hl. by rewrite <-Hperm. }
  destruct (apply_shares_run l1 t _ Hinv Hty1 Hc1) as (t1 & Hrun1 & _ & Hsub1 & _).
  rewrite Hrun in Hrun1. injection Hrun1 as <-.
  rewrite (tree_determined t2 t') in Hrun2; [done|done..| |congruence].
  apply (anti_symm (⊆)); done.
Qed.

(** C6 (fork choice). After any accepted sequence of shares the active branch is
    the branch of the best tip, which has the largest cumulative score of all branches,
    ties going to the smaller hash; the total and the sum of the miners' scores
    are that cumulative score. *)
Theorem fork_choice_optimal `{Hashing, !HexLaws} l t tip :
  Forall well_typed l -> for_each apply_share l st_default = (Ok tt, t) -> st_best_share_tip t = Some tip ->
  exists p, branch (shares_of t) tip p /\
    st_active_share_hashes t = list_to_set p /\
    st_active_share_score_total t = path_score (shares_of t) p /\
    table_sum (st_hashrate_scores t) = path_score (shares_of t) p /\
    (forall m, default 0 (st_hashrate_scores t !! m) = miner_sum (shares_of t) p m) /\
    forall h q, branch (shares_of t) h q ->
      path_score (shares_of t) q < path_score (shares_of t) p \/
      path_score (shares_of t) q = path_score (shares_of t) p /\ str_cmp tip h <> Gt.
Proof.
  intros Hty Hrun Htip. destruct (apply_shares_Ok _ _ _ tree_inv_default Hty Hrun) as (Hinv & _ & Hcp).
  pose proof (inv_active _ Hinv) as Hac. unfold active_ok in Hac. rewrite Htip in Hac.
  destruct Hac as (p & Hb & _ & Ha & Ht & Hs). exists p. split_and!; [done..| | |].
  - by rewrite Hs, miner_scores_sum.
  - intros m. by rewrite Hs, miner_scores_lookup, miner_score_default.
  - intros h q Hq. pose proof (inv_tip _ Hinv) as Hok. unfold tip_ok, latest_sharechain_checkpoint in Hok.
    rewrite Hcp in Hok. unfold last_key_value in Hok. simpl in Hok. rewrite map_to_list_empty in Hok.
    simpl in Hok. unfold best_resolved in Hok. rewrite Htip in Hok.
    destruct Hok as (s & Hr & Hmax).
    pose proof (inv_resolved _ _ _ (inv_sound _ Hinv) (inv_complete _ Hinv) Hb) as Hr'.
    rewrite (resolved_det _ _ _ _ Hr Hr') in *.
    pose proof (Hmax _ _ (inv_resolved _ _ _ (inv_sound _ Hinv) (inv_complete _ Hinv) Hq)) as Hle.
    unfold tip_le, compare_tips in Hle. simpl in Hle.
    destruct (N.compare_spec (path_score (shares_of t) q) (path_score (shares_of t) p)) as [Heq|Hlt|Hgt].
    + right. done.
    + by left.
    + by simpl in Hle.
Qed.

(** ** A concrete tree: two children of one root, one child arriving first *)

Definition sample_root : Share := sample_share "alice" ZERO_SHARE_PARENT_HASH "00000014".
Definition sample_child (nonce : string) : Share :=
  sample_share "bob" (@share_hash hashing_c sample_root) nonce.
Definition sample_shares : list Share := [sample_child "00000015"; sample_root; sample_child "00000016"].
Definition sample_shares' : list Share := [sample_root; sample_child "00000015"; sample_child "00000016"].
Definition run_shares (l : list Share) := for_each (@apply_share hashing_c) l st_default.
Definition sample_tree : ShareTree := snd (run_shares sample_shares).

Lemma sample_well_typed : Forall (@well_typed hashing_c) sample_shares.
Proof. repeat constructor; try apply (bool_decide_eq_true_1 _); vm_compute; try reflexivity; discriminate. Qed.

Lemma sample_run_Ok : fst (run_shares sample_shares) = Ok tt.
Proof. vm_compute. reflexivity. Qed.

Lemma sample_tree_run : run_shares sample_shares = (Ok tt, sample_tree).
Proof. unfold sample_tree. rewrite <-sample_run_Ok. apply surjective_pairing. Qed.

Lemma share_order_independent_witness : run_shares sample_shares' = (Ok tt, sample_tree).
Proof.
  exact (@share_order_independent hashing_c hex_laws_c sample_shares sample_shares' st_default sample_tree
    (@tree_inv_default hashing_c) sample_well_typed (perm_swap _ _ _) sample_tree_run).
Defined.

Definition sample_tip : string := default ""%string (st_best_share_tip sample_tree).

Lemma sample_tip_best : st_best_share_tip sample_tree = Some sample_tip.
Proof. vm_compute. reflexivity. Qed.

Lemma fork_choice_optimal_witness :
  exists p, branch (shares_of sample_tree) sample_tip p /\
    table_sum (st_hashrate_scores sample_tree) = path_score (shares_of sample_tree) p.
Proof.
  destruct (@fork_choice_optimal hashing_c hex_laws_c sample_shares sample_tree sample_tip
    sample_well_typed sample_tree_run sample_tip_best) as (p & Hb & _ & _ & Hs & _).
  exists p. split; [exact Hb|exact Hs].
Defined.

Lemma sample_root_typed : @well_typed hashing_c sample_root.
Proof. split; [apply (bool_decide_eq_true_1 _)|]; vm_compute; reflexivity. Qed.

Lemma apply_share_keeps_invariant_witness :
  match @apply_share hashing_c sample_root st_default with
  | (Ok _, t') =>
      @tree_inv hashing_c t' /\
      shares_of t' = <[@share_hash hashing_c sample_root := sh_normalized sample_root]> (shares_of st_default)
  | (Err e, t') => is_conflict e = true /\ t' = st_default \/ exists x, e = ShareBranchScoreOverflow x
  end.
Proof.
  exact (@apply_share_keeps_invariant hashing_c hex_laws_c sample_root st_default
    (@tree_inv_default hashing_c) sample_root_typed).
Defined.

Lemma apply_share_accepts_iff_witness :
  (exists t', @apply_share hashing_c sample_root st_default = (Ok tt, t')) <->
  @admissible hashing_c (shares_of st_default) (sh_normalized sample_root) /\
  scores_fit (<[@share_hash hashing_c sample_root := sh_normalized sample_root]> (shares_of st_default)).
Proof.
  exact (@apply_share_accepts_iff hashing_c hex_laws_c sample_root st_default
    (@tree_inv_default hashing_c) sample_root_typed).
Defined.
