(* ===== verification/ShareTreeLiveness.v ===== *)
(** * Progress of the share tree ([crates/pohw-core/src/sharechain_state.rs])

    Shares may arrive before their parents.  Once a whole chain of shares back to
    a root has been delivered, in any order and between any other shares, its
    tip has its cumulative score and height. *)
From S2P Require Import Prelude Order Text Crates Concrete IdenaAnchor Sharechain ShareTree ShareBranch ShareTreeInv ShareTreeAdmit.

Local Open Scope N_scope.

(** A list of shares from a tip down to a root: each names the next as its parent. *)
Fixpoint share_chain `{Hashing} (chain : list Share) : Prop :=
  match chain with
  | [] => False
  | [s] => parent_of s = ZERO_SHARE_PARENT_HASH
  | s :: (s' :: _) as rest => parent_of s = share_hash s' /\ share_chain rest
  end.

Section chain.
Context `{Hashing, !HexLaws}.

Lemma parent_of_normalized s : parent_of (sh_normalized s) = parent_of s.
Proof. unfold parent_of. simpl. apply lower_idemp. Qed.

(** A delivered chain is a branch of the store. *)
Lemma delivered_branch K chain s :
  K !! ZERO_SHARE_PARENT_HASH = None -> share_chain (s :: chain) ->
  Forall (fun x => K !! share_hash x = Some (sh_normalized x)) (s :: chain) ->
  branch K (share_hash s) (map share_hash (s :: chain)).
Proof.
  intros Hz. revert s. induction chain as [|s' chain IH]; intros s Hc Hall;
    apply Forall_cons in Hall as [Hs Hall].
  - eapply branch_root; [exact Hs|]. by rewrite parent_of_normalized.
  - destruct Hc as [Hp Hc]. cbn [map]. eapply branch_step; [exact Hs|rewrite parent_of_normalized, Hp..].
    + intros Heq. apply Forall_cons in Hall as [Hs' _]. rewrite Heq in Hs'. congruence.
    + by apply IH.
Qed.

Lemma delivered_score K chain :
  Forall (fun x => K !! share_hash x = Some (sh_normalized x)) chain ->
  path_score K (map share_hash chain) = sum_N (map sh_hashrate_score_delta chain).
Proof.
  unfold path_score. induction 1 as [|x chain Hx _ IH]; [done|]. simpl in *. rewrite IH.
  unfold score_of. by rewrite Hx.
Qed.
End chain.

(** C20 (liveness). Whatever else is delivered and in whatever order: after an accepted
    sequence of shares that contains a chain back to a root, the tip of the chain is
    stored with the sum of the scores of the chain and its length as height. *)
Theorem delivered_chain_resolves `{Hashing, !HexLaws} l t s chain :
  Forall well_typed l -> for_each apply_share l st_default = (Ok tt, t) ->
  share_chain (s :: chain) -> Forall (fun x => x ∈ l) (s :: chain) ->
  exists n, st_shares t !! share_hash s = Some n /\ nd_share n = sh_normalized s /\
    nd_cumulative_score n = Some (sum_N (map sh_hashrate_score_delta (s :: chain))) /\
    nd_height n = N.of_nat (length (s :: chain)).
Proof.
  intros Hty Hrun Hc Hin. destruct (apply_shares_Ok _ _ _ tree_inv_default Hty Hrun) as (Hinv & (_ & Hl & _ & _) & _).
  assert (Forall (fun x => shares_of t !! share_hash x = Some (sh_normalized x)) (s :: chain)) as Hall.
  { eapply Forall_impl; [exact Hin|]. intros x Hx. rewrite <-share_hash_normalized. by apply Hl. }
  pose proof (delivered_branch _ _ _ (so_zero _ (inv_store _ Hinv)) Hc Hall) as Hb.
  destruct (inv_complete _ Hinv _ _ Hb) as (score & n & Hn & Hscore).
  pose proof (inv_sound _ Hinv _ _ Hn) as Hs. rewrite Hscore in Hs.
  destruct Hs as (p & Hp & Heq & Hh & _). rewrite <-(branch_det _ _ _ Hb Hp) in Heq, Hh.
  rewrite delivered_score in Heq by done. rewrite length_map in Hh. exists n. split_and!; [done| | |done].
  - apply Forall_inv in Hall. apply shares_of_lookup in Hn. congruence.
  - by rewrite Hscore, Heq.
Qed.

Lemma delivered_chain_resolves_witness : exists n,
  st_shares sample_tree !! @share_hash hashing_c (sample_child "00000015") = Some n /\
  nd_cumulative_score n = Some 2.
Proof.
  assert (@share_chain hashing_c [sample_child "00000015"; sample_root]) as Hc
    by (split; vm_compute; reflexivity).
  assert (Forall (fun x => x ∈ sample_shares) [sample_child "00000015"; sample_root]) as Hin.
  { apply Forall_cons. split; [apply list_elem_of_here|]. apply Forall_cons. split; [|apply Forall_nil_2].
    apply list_elem_of_further, list_elem_of_here. }
  destruct (@delivered_chain_resolves hashing_c hex_laws_c sample_shares sample_tree
    (sample_child "00000015") [sample_root] sample_well_typed sample_tree_run Hc Hin) as (n & Hn & _ & Hs & _).
  exists n. split; [exact Hn|exact Hs].
Defined.
