(* ===== verification/ShareTreeCheckpoint.v ===== *)
(** * Checkpoints and finality

    [apply_sharechain_checkpoint] accepts consecutive rounds only, each for a
    resolved share that descends from the previous checkpoint, and moves the
    active branch there.  The theorems show that it keeps the invariant of the
    share tree and that checkpointed shares stay active for ever. *)
From S2P Require Import Prelude Order Text Crates Concrete Payout Withdrawal Ledger IdenaAnchor ShareWork Commitment Sharechain ShareTree ShareBranch ShareTreeInv ShareTreeAdmit.

From Stdlib Require Import Strings.Ascii.

Local Open Scope N_scope.

(** ** The last round *)

Lemma last_key_value_spec {V} (m : gmap N V) :
  match last_key_value m with
  | Some (k, v) => m !! k = Some v /\ forall k' v', m !! k' = Some v' -> k' <= k
  | None => m = ∅
  end.
Proof.
  unfold last_key_value.
  assert (forall l, match foldr (fun kv best => match best with
      | Some b => if fst b <? fst kv then Some kv else Some b | None => Some kv end) None l with
    | Some (k, v) => (k, v) ∈ l /\ forall k' (v' : V), (k', v') ∈ l -> k' <= k
    | None => l = [] end) as Hl.
  { induction l as [|[k v] l IH]; simpl; [done|]. destruct (foldr _ _ _) as [[k1 v1]|].
    - destruct IH as [Hin Hmax]. simpl. destruct (N.ltb_spec k1 k).
      + split; [set_solver|]. intros k' v' [[= -> ->]|Hk]%elem_of_cons; [done|]. apply Hmax in Hk. lia.
      + split; [set_solver|]. intros k' v' [[= -> ->]|Hk]%elem_of_cons; [done|]. by eapply Hmax.
    - subst. split; [set_solver|]. set_solver. }
  specialize (Hl (map_to_list m)). destruct (foldr _ _ _) as [[k v]|].
  - destruct Hl as [Hin Hmax]. split; [by apply elem_of_map_to_list|].
    intros k' v' Hk'. by eapply Hmax, elem_of_map_to_list.
  - by apply map_to_list_empty_iff.
Qed.

(** The results that stand for a failed [expect] or an endless loop. *)
Definition is_internal (e : SharechainReplayError) : bool :=
  match e with Panic _ | Diverged => true | _ => false end.

Section checkpoints.
Context `{Hashing, !HexLaws}.

Lemma last_round t :
  checkpoints_ok t ->
  match last_key_value (st_sharechain_checkpoints t) with
  | Some (r, c) => r = N.of_nat (size (st_sharechain_checkpoints t)) /\
                   st_sharechain_checkpoints t !! r = Some c
  | None => st_sharechain_checkpoints t = ∅
  end.
Proof.
  intros Hcs. pose proof (last_key_value_spec (st_sharechain_checkpoints t)) as Hl.
  destruct (last_key_value _) as [[r c]|]; [|done]. destruct Hl as [Hr Hmax]. split; [|done].
  set (n := N.of_nat (size (st_sharechain_checkpoints t))).
  assert (1 <= r <= n) as Hrn by (apply (cs_rounds _ Hcs); eauto).
  destruct (proj2 (cs_rounds _ Hcs n)) as [c' Hc']; [unfold n in *; lia|].
  apply Hmax in Hc'. lia.
Qed.

(** ** Descent *)

Lemma descends_walk_run t h p fuel seen anc :
  index_ok t -> branch (shares_of t) h p -> (length p < fuel)%nat ->
  (forall x, x ∈ p -> x ∉ seen) ->
  descends_walk fuel (st_shares t) seen anc h = Some (bool_decide (anc ∈ p)).
Proof.
  intros Hio Hb. revert fuel seen.
  induction Hb as [h s Hs Hz|h s p Hs Hz Hb IH]; intros fuel seen Hf Hseen;
    (destruct fuel as [|fuel]; [simpl in Hf; lia|]); cbn [descends_walk];
    (destruct (String.eqb_spec h anc) as [<-|Hne]; [by rewrite bool_decide_eq_true_2 by set_solver|]);
    rewrite (bool_decide_eq_false_2 (h ∈ seen)) by (apply Hseen; set_solver);
    pose proof Hs as (n & Hn & ->)%shares_of_Some; rewrite Hn, (io_parent _ Hio _ _ Hn).
  - rewrite (proj2 (zero_eqb _)) by done. rewrite bool_decide_eq_false_2 by set_solver. done.
  - destruct (String.eqb_spec (parent_of (nd_share n)) ZERO_SHARE_PARENT_HASH); [done|].
    assert (branch (shares_of t) h (h :: p)) as [Hh _]%branch_NoDup%NoDup_cons by (by eapply branch_step).
    rewrite IH; [|simpl in Hf; lia|].
    + f_equal. apply bool_decide_ext. set_solver.
    + intros x Hx. assert (x <> h) by set_solver. specialize (Hseen x). set_solver.
Qed.

Lemma key_lower t h : store_ok (shares_of t) -> is_Some (shares_of t !! h) -> to_ascii_lowercase h = h.
Proof. intros Hst [s Hs]. destruct (so_key _ Hst _ _ Hs) as [-> _]. apply share_hash_lower. Qed.

Lemma share_descends_run t h p anc :
  store_ok (shares_of t) -> index_ok t -> branch (shares_of t) h p -> is_Some (shares_of t !! anc) ->
  share_descends_from t h anc = Some (bool_decide (anc ∈ p)).
Proof.
  intros Hst Hio Hb Hanc. unfold share_descends_from.
  destruct (branch_head _ _ Hb) as (q & Hq).
  assert (is_Some (shares_of t !! h)) as Hh by (eapply branch_lookup; [done|set_solver]).
  rewrite (key_lower t anc), (key_lower t h) by done.
  apply descends_walk_run; [done..| |set_solver].
  apply branch_length in Hb. unfold shares_of in Hb. rewrite map_size_fmap in Hb. lia.
Qed.

(** ** One checkpoint *)

Lemma check_tip_run t previous c :
  core_inv t -> (forall r p, previous = Some (r, p) -> is_Some (shares_of t !! cp_share_tip_hash p)) ->
  (check_checkpoint_tip t previous c = Ok tt /\
     exists p, branch (shares_of t) (cp_share_tip_hash c) p /\
       fits 128 (path_score (shares_of t) p) /\
       cp_share_height c = N.of_nat (length p) /\
       parse_uint 128 (cp_cumulative_score c) = Some (path_score (shares_of t) p) /\
       (forall r prior, previous = Some (r, prior) -> cp_share_tip_hash prior ∈ p)) \/
  (exists e, check_checkpoint_tip t previous c = Err e /\ is_internal e = false).
Proof.
  intros [Hst Hio Hsd Hco _ _] Hprev. unfold check_checkpoint_tip.
  destruct (st_shares t !! cp_share_tip_hash c) as [n|] eqn:Hn; simpl; [|right; eauto].
  destruct (nd_cumulative_score n) as [sc|] eqn:Hc; simpl; [|right; eauto].
  pose proof (Hsd _ _ Hn) as Hs. rewrite Hc in Hs. destruct Hs as (p & Hb & -> & Hh & Hf & _).
  destruct (parse_uint 128 (cp_cumulative_score c)) as [ex|] eqn:Hp; simpl; [|right; eauto].
  rewrite Hc. destruct (N.eqb_spec (nd_height n) (cp_share_height c)) as [Heq|]; simpl; [|right; eauto].
  destruct (decide (Some (path_score (shares_of t) p) = Some ex)) as [[= <-]|Hne];
    [|rewrite bool_decide_eq_true_2 by done; simpl; right; eauto].
  rewrite bool_decide_eq_false_2 by naive_solver. cbv iota.
  destruct previous as [[r prior]|].
  - rewrite (share_descends_run t _ p) by (try done; by eapply Hprev). simpl.
    case_bool_decide as Hin; simpl; [|right; eauto]. left. split; [done|]. exists p.
    split_and!; [done..|congruence|done|]. by intros ? ? [= -> ->].
  - left. split; [done|]. exists p. split_and!; [done..|congruence|done|done].
Qed.

Lemma check_parent_run previous c :
  (check_checkpoint_parent previous c = Ok tt /\
     cp_round c = from_option (fun p => saturating_add 32 p.1 1) 1 previous /\
     forall r prior, previous = Some (r, prior) ->
       cp_parent_checkpoint_tip c = cp_share_tip_hash prior /\
       cp_finalization_block prior + CHECKPOINT_MIN_INTERVAL_BLOCKS <= cp_finalization_block c) \/
  (exists e, check_checkpoint_parent previous c = Err e /\ is_internal e = false).
Proof.
  unfold check_checkpoint_parent.
  destruct (N.eqb_spec (cp_round c) (from_option (fun p => saturating_add 32 p.1 1) 1 previous)) as [Hr|];
    simpl negb; cbv iota; [|right; eauto].
  destruct previous as [[r prior]|].
  - destruct (String.eqb_spec (cp_parent_checkpoint_tip c) (cp_share_tip_hash prior)); simpl; [|right; eauto].
    destruct (checked_add 64 _ _) as [m|] eqn:Hm; simpl; [|right; eauto].
    apply checked_add_Some in Hm as [-> _].
    destruct (N.ltb_spec (cp_finalization_block c) (cp_finalization_block prior + CHECKPOINT_MIN_INTERVAL_BLOCKS));
      [right; eauto|]. left. split_and!; [done..|]. by intros ? ? [= <- <-].
  - destruct (String.eqb_spec (cp_parent_checkpoint_tip c) ZERO_SHARE_PARENT_HASH); simpl; [|right; eauto].
    by left.
Qed.

Lemma check_miners_run regs c l :
  try_for_each (check_checkpoint_miner regs c) l = Ok tt \/
  try_for_each (check_checkpoint_miner regs c) l = Err CheckpointRegistrationSetMismatch.
Proof.
  induction l as [|m l IH]; simpl; [by left|].
  assert (check_checkpoint_miner regs c m = Ok tt \/
          check_checkpoint_miner regs c m = Err CheckpointRegistrationSetMismatch) as [->| ->]; [|done|by right].
  unfold check_checkpoint_miner. destruct (regs !! m) as [r|]; simpl; [|by right].
  destruct (require_registry_anchor r); simpl; [|by right]. destruct (_ || _); auto.
Qed.

Definition add_checkpoint (c : SharechainCheckpointAnchorV1) (t : ShareTree) : ShareTree :=
  set_checkpoints (<[cp_round c := c]> (st_sharechain_checkpoints t)) t.

(** The next round is one more than the number of rounds; a saturated counter
    names an existing round. *)
Lemma next_round t c :
  checkpoints_ok t -> st_sharechain_checkpoints t !! cp_round c = None ->
  cp_round c = from_option (fun p => saturating_add 32 p.1 1) 1
                 (last_key_value (st_sharechain_checkpoints t)) ->
  cp_round c = N.of_nat (size (st_sharechain_checkpoints t)) + 1.
Proof.
  intros Hcs Hnone Hr. pose proof (last_round t Hcs) as Hl.
  destruct (last_key_value _) as [[r prior]|]; simpl in Hr.
  - destruct Hl as [Hn Hp]. unfold saturating_add in Hr.
    destruct (N.le_gt_cases (r + 1) (2 ^ 32 - 1)); [rewrite N.min_l in Hr by done; lia|].
    rewrite N.min_r in Hr by lia. exfalso.
    assert (is_Some (st_sharechain_checkpoints t !! cp_round c)) as Hsome.
    { apply (cs_rounds _ Hcs). rewrite Hr. assert (1 <= r) by (apply (cs_rounds _ Hcs); eauto). lia. }
    rewrite Hnone in Hsome. by destruct Hsome.
  - rewrite Hl. by rewrite map_size_empty.
Qed.

Lemma latest_add t c :
  checkpoints_ok t -> cp_round c = N.of_nat (size (st_sharechain_checkpoints t)) + 1 ->
  latest_sharechain_checkpoint (add_checkpoint c t) = Some c.
Proof.
  intros Hcs Hr. unfold latest_sharechain_checkpoint, add_checkpoint. simpl.
  pose proof (last_key_value_spec (<[cp_round c := c]> (st_sharechain_checkpoints t))) as Hl.
  destruct (last_key_value _) as [[r c']|]; simpl.
  - destruct Hl as [Hc' Hmax]. pose proof (Hmax _ _ (lookup_insert_eq _ _ _)) as Hle.
    apply lookup_insert_Some in Hc' as [[_ ->]|[Hne Hc']]; [done|].
    assert (1 <= r <= N.of_nat (size (st_sharechain_checkpoints t))) by (apply (cs_rounds _ Hcs); eauto). lia.
  - by apply insert_non_empty in Hl.
Qed.

Lemma add_checkpoint_checkpoints t c p :
  checkpoints_ok t -> cp_validate c = Ok tt ->
  cp_round c = N.of_nat (size (st_sharechain_checkpoints t)) + 1 ->
  branch (shares_of t) (cp_share_tip_hash c) p -> cp_share_height c = N.of_nat (length p) ->
  parse_uint 128 (cp_cumulative_score c) = Some (path_score (shares_of t) p) ->
  (forall prior, st_sharechain_checkpoints t !! N.of_nat (size (st_sharechain_checkpoints t)) = Some prior ->
     extends t prior c) ->
  checkpoints_ok (add_checkpoint c t).
Proof.
  intros Hcs Hv Hr Hb Hh Hp Hext. set (n := N.of_nat (size (st_sharechain_checkpoints t))) in *.
  assert (st_sharechain_checkpoints t !! cp_round c = None) as Hnone.
  { destruct (st_sharechain_checkpoints t !! cp_round c) eqn:Hc; [|done].
    assert (1 <= cp_round c <= n) by (apply (cs_rounds _ Hcs); eauto). lia. }
  assert (N.of_nat (size (st_sharechain_checkpoints (add_checkpoint c t))) = n + 1) as Hsize.
  { unfold add_checkpoint. simpl. rewrite map_size_insert_None by done. unfold n. lia. }
  split.
  - intros r. rewrite Hsize. unfold add_checkpoint. simpl. rewrite lookup_insert_is_Some, (cs_rounds _ Hcs r).
    fold n. lia.
  - intros r c' Hc'. unfold add_checkpoint in Hc'. simpl in Hc'.
    apply lookup_insert_Some in Hc' as [[<- <-]|[_ Hc']]; [split; [done..|]; by exists p|].
    destruct (cs_valid _ Hcs _ _ Hc'). by split.
  - intros r c1 c2 Hc1 Hc2. unfold add_checkpoint in Hc1, Hc2. simpl in Hc1, Hc2.
    assert (is_Some (st_sharechain_checkpoints t !! r) -> 1 <= r <= n) as Hle by apply (cs_rounds _ Hcs).
    assert (is_Some (st_sharechain_checkpoints t !! (r + 1)) -> 1 <= r + 1 <= n) as Hle' by apply (cs_rounds _ Hcs).
    apply lookup_insert_Some in Hc1 as [[<- <-]|[Hne1 Hc1]], Hc2 as [[Heq <-]|[Hne2 Hc2]].
    + lia.
    + specialize (Hle' (mk_is_Some _ _ Hc2)). lia.
    + apply Hext. replace n with r by lia. done.
    + by eapply (cs_chain _ Hcs).
Qed.

Lemma add_checkpoint_inv t c p :
  tree_inv t -> cp_validate c = Ok tt -> st_sharechain_checkpoints t !! cp_round c = None ->
  cp_round c = N.of_nat (size (st_sharechain_checkpoints t)) + 1 ->
  branch (shares_of t) (cp_share_tip_hash c) p -> fits 128 (path_score (shares_of t) p) ->
  checkpoints_ok (add_checkpoint c t) ->
  tree_inv (activate (cp_share_tip_hash c) p (add_checkpoint c t)).
Proof.
  intros [Hst Hio Hwk Hsd Hco Hac Htip Hcs] Hv Hnone Hr Hb Hf Hcs'.
  split; [exact Hst|destruct Hio; by split|exact Hwk|exact Hsd|exact Hco|by exists p| |].
  - unfold tip_ok. change (latest_sharechain_checkpoint (activate _ p (add_checkpoint c t)))
      with (latest_sharechain_checkpoint (add_checkpoint c t)). by rewrite latest_add.
  - destruct Hcs' as [Hrs Hva Hch]. split; [exact Hrs| |exact Hch].
    intros r c' Hc'. destruct (Hva r c' Hc'). by split.
Qed.

(** What [apply_sharechain_checkpoint] does, by result. *)
Definition checkpoint_outcome (t : ShareTree) (c : SharechainCheckpointAnchorV1)
    (r : result SharechainReplayError unit * ShareTree) : Prop :=
  match r with
  | (Ok _, t') => tree_inv t' /\
      (t' = t \/
       exists p, branch (shares_of t) (cp_share_tip_hash c) p /\
         t' = activate (cp_share_tip_hash c) p (add_checkpoint c t) /\
         st_sharechain_checkpoints t !! cp_round c = None /\
         forall prior, latest_sharechain_checkpoint t = Some prior -> cp_share_tip_hash prior ∈ p)
  | (Err e, t') => t' = t /\ is_internal e = false
  end.

Lemma apply_checkpoint_run regs checkpoint t :
  tree_inv t ->
  checkpoint_outcome t (cp_normalized checkpoint) (apply_sharechain_checkpoint regs checkpoint t).
Proof.
  intros Hinv. unfold apply_sharechain_checkpoint. set (c := cp_normalized checkpoint).
  pose proof (inv_checkpoints _ Hinv) as Hcs. pose proof (last_round t Hcs) as Hl.
  rewrite M_bind_run. unfold lift. destruct (cp_validate c) as [[]|e] eqn:Hv; simpl map_err; [|by split].
  rewrite M_bind_run. cbn [gets].
  destruct (st_sharechain_checkpoints t !! cp_round c) as [existing|] eqn:Hex.
  { destruct (bool_decide (existing = c)); simpl; [|by split]. split; [done|by left]. }
  rewrite M_bind_run. unfold lift.
  destruct (check_parent_run (last_key_value (st_sharechain_checkpoints t)) c)
    as [(-> & Hround & Hprior)|(e & -> & He)]; [|by split].
  destruct (bool_decide (btree_keys regs <> cp_registered_miners c)); [by split|].
  rewrite M_bind_run. unfold lift.
  destruct (check_miners_run regs c (cp_registered_miners c)) as [->| ->]; [|by split].
  rewrite M_bind_run. unfold asks.
  assert (forall r p, last_key_value (st_sharechain_checkpoints t) = Some (r, p) ->
    is_Some (shares_of t !! cp_share_tip_hash p)) as Hprev.
  { intros r p Hlast. rewrite Hlast in Hl. destruct Hl as [_ Hp].
    destruct (ck_branch _ _ _ (cs_valid _ Hcs _ _ Hp)) as (q & Hq & _).
    destruct (branch_head _ _ Hq) as (q' & ->). eapply branch_lookup; [done|set_solver]. }
  destruct (check_tip_run t (last_key_value (st_sharechain_checkpoints t)) c (tree_core _ Hinv) Hprev)
    as [(-> & p & Hb & Hf & Hh & Hsc & Hdesc)|(e & -> & Hi)]; [|by split].
  rewrite M_bind_run. cbn [modify].
  pose proof (next_round t c Hcs Hex Hround) as Hr.
  fold (add_checkpoint c t). rewrite (rebuild_run (add_checkpoint c t) _ p);
    [|destruct (inv_index _ Hinv); by split|done..].
  split.
  - apply add_checkpoint_inv; try done. apply (add_checkpoint_checkpoints t c p); try done.
    intros prior Hp. destruct (last_key_value (st_sharechain_checkpoints t)) as [[r prior']|].
    + destruct Hl as [-> Hp']. simplify_eq. destruct (Hprior _ _ eq_refl). split_and!; [done..|].
      exists p. split; [done|]. by eapply Hdesc.
    + rewrite Hl in Hp. by rewrite lookup_empty in Hp.
  - right. exists p. split_and!; [done..|]. intros prior Hlast. unfold latest_sharechain_checkpoint in Hlast.
    destruct (last_key_value (st_sharechain_checkpoints t)) as [[r prior']|]; [|done].
    simpl in Hlast. injection Hlast as <-. by eapply Hdesc.
Qed.
End checkpoints.

(** ** Properties *)

(** One accepted message on the share tree. *)
Inductive tree_step `{Hashing} : ShareTree -> ShareTree -> Prop :=
| step_share s t t' : well_typed s -> apply_share s t = (Ok tt, t') -> tree_step t t'
| step_checkpoint regs c t t' : apply_sharechain_checkpoint regs c t = (Ok tt, t') -> tree_step t t'.

Section finality.
Context `{Hashing, !HexLaws}.

Lemma step_inv t t' : tree_inv t -> tree_step t t' -> tree_inv t'.
Proof.
  intros Hinv Hstep. inversion Hstep as [s t1 t2 [Hz Hf] Hrun|regs c t1 t2 Hrun]; subst.
  - pose proof (apply_share_run s t Hinv Hz Hf) as Hout. rewrite Hrun in Hout. apply Hout.
  - pose proof (apply_checkpoint_run regs c t Hinv) as Hout. rewrite Hrun in Hout. apply Hout.
Qed.

Lemma steps_inv t t' : tree_inv t -> rtc tree_step t t' -> tree_inv t'.
Proof. intros Hinv Hsteps. induction Hsteps; eauto using step_inv. Qed.

(** Under a checkpoint the active shares are the branch of its tip. *)
Lemma active_of_checkpoint t c p :
  tree_inv t -> latest_sharechain_checkpoint t = Some c -> branch (shares_of t) (cp_share_tip_hash c) p ->
  st_active_share_hashes t = list_to_set p.
Proof.
  intros Hinv Hl Hb. pose proof (inv_tip _ Hinv) as Ht. unfold tip_ok in Ht. rewrite Hl in Ht.
  pose proof (inv_active _ Hinv) as Ha. unfold active_ok in Ha. rewrite Ht in Ha.
  destruct Ha as (q & Hq & _ & -> & _). by rewrite (branch_det _ _ _ Hb Hq).
Qed.

Lemma latest_branch t c :
  checkpoints_ok t -> latest_sharechain_checkpoint t = Some c ->
  st_sharechain_checkpoints t !! N.of_nat (size (st_sharechain_checkpoints t)) = Some c /\
  exists p, branch (shares_of t) (cp_share_tip_hash c) p.
Proof.
  intros Hcs Hl. pose proof (last_round t Hcs) as Hlast. unfold latest_sharechain_checkpoint in Hl.
  destruct (last_key_value _) as [[r c']|]; [|done]. simpl in Hl. injection Hl as ->.
  destruct Hlast as [-> Hc]. split; [done|].
  destruct (ck_branch _ _ _ (cs_valid _ Hcs _ _ Hc)) as (p & Hb & _). eauto.
Qed.

Lemma latest_exists t r c :
  checkpoints_ok t -> st_sharechain_checkpoints t !! r = Some c ->
  exists c', latest_sharechain_checkpoint t = Some c'.
Proof.
  intros Hcs Hc. pose proof (last_round t Hcs) as Hl. unfold latest_sharechain_checkpoint.
  destruct (last_key_value _) as [[r' c']|]; [eauto|]. rewrite Hl in Hc. by rewrite lookup_empty in Hc.
Qed.

(** A later step keeps the checkpoints and, under one, the active shares. *)
Lemma step_finality t t' r c :
  tree_inv t -> tree_step t t' -> st_sharechain_checkpoints t !! r = Some c ->
  st_sharechain_checkpoints t' !! r = Some c /\ st_active_share_hashes t ⊆ st_active_share_hashes t'.
Proof.
  intros Hinv Hstep Hc. pose proof (step_inv _ _ Hinv Hstep) as Hinv'.
  destruct (latest_exists _ _ _ (inv_checkpoints _ Hinv) Hc) as [last Hlast].
  destruct (latest_branch _ _ (inv_checkpoints _ Hinv) Hlast) as [_ [q Hq]].
  inversion Hstep as [s t1 t2 [Hz Hf] Hrun|regs c' t1 t2 Hrun]; subst.
  - pose proof (apply_share_run s t Hinv Hz Hf) as Hout. rewrite Hrun in Hout.
    destruct Hout as (_ & Hsh & Hcp & Hadm). split; [by rewrite Hcp|].
    assert (shares_of t ⊆ shares_of t') as Hsub.
    { rewrite Hsh. destruct Hadm as [Hin|[Hnone _]]; [by rewrite insert_id|by apply insert_subseteq]. }
    rewrite (active_of_checkpoint t last q) by done.
    rewrite (active_of_checkpoint t' last q); [done|done| |by eapply branch_mono].
    unfold latest_sharechain_checkpoint. by rewrite Hcp.
  - pose proof (apply_checkpoint_run regs c' t Hinv) as Hout. rewrite Hrun in Hout.
    destruct Hout as (_ & [->|(p & Hb & -> & Hnone & Hdesc)]); [done|]. split.
    + unfold add_checkpoint. simpl. rewrite lookup_insert_ne; [done|]. simpl in Hnone. congruence.
    + rewrite (active_of_checkpoint t last q) by done. simpl.
      destruct (branch_suffix _ _ _ Hb (Hdesc _ Hlast)) as (a & b & -> & Hb').
      rewrite (branch_det _ _ _ Hq Hb'). rewrite list_to_set_app_L. set_solver.
Qed.

(** The tip of every checkpoint is on the branch of every later one. *)
Lemma checkpoint_tip_active t r c :
  tree_inv t -> st_sharechain_checkpoints t !! r = Some c -> cp_share_tip_hash c ∈ st_active_share_hashes t.
Proof.
  intros Hinv Hc. pose proof (inv_checkpoints _ Hinv) as Hcs.
  destruct (latest_exists _ _ _ Hcs Hc) as [last Hlast].
  destruct (latest_branch _ _ Hcs Hlast) as [Hn [q Hq]].
  rewrite (active_of_checkpoint t last q), elem_of_list_to_set by done.
  set (n := N.of_nat (size (st_sharechain_checkpoints t))) in *.
  assert (r <= n) as Hrn by (apply (cs_rounds _ Hcs); eauto).
  assert (exists k, n = r + k) as [k Hk] by (exists (n - r); lia). clearbody n. clear Hlast.
  revert n last q Hn Hq Hrn Hk. induction k as [|k IH] using N.peano_ind; intros n last q Hn Hq Hrn Hk.
  - replace r with n in Hc by lia. simplify_eq. destruct (branch_head _ _ Hq) as (q' & ->). set_solver.
  - destruct (proj2 (cs_rounds _ Hcs (r + k))) as [mid Hmid].
    { assert (1 <= r) by (apply (cs_rounds _ Hcs); eauto).
      assert (n <= N.of_nat (size (st_sharechain_checkpoints t))) by (apply (cs_rounds _ Hcs); eauto). lia. }
    replace n with (r + k + 1) in Hn by lia.
    destruct (cs_chain _ Hcs _ _ _ Hmid Hn) as (_ & _ & p & Hp & Hin).
    rewrite (branch_det _ _ _ Hq Hp). destruct (branch_suffix _ _ _ Hp Hin) as (a & b & -> & Hb).
    apply elem_of_app. right. apply (IH (r + k) mid b); [done|done|lia|done].
Qed.

Lemma steps_finality t t' r c :
  tree_inv t -> rtc tree_step t t' -> st_sharechain_checkpoints t !! r = Some c ->
  st_sharechain_checkpoints t' !! r = Some c /\ st_active_share_hashes t ⊆ st_active_share_hashes t'.
Proof.
  intros Hinv Hsteps. induction Hsteps as [t|t1 t2 t3 Hstep Hsteps IH]; intros Hc; [done|].
  destruct (step_finality _ _ _ _ Hinv Hstep Hc) as [Hc2 Hsub].
  destruct (IH (step_inv _ _ Hinv Hstep) Hc2) as [? ?]. split; [done|by etrans].
Qed.
End finality.

(** (invariant). A checkpoint message keeps the invariant of the share tree; a
    rejected one changes nothing, and no [expect] fails or loop diverges. *)
Theorem checkpoint_keeps_invariant `{Hashing, !HexLaws} regs checkpoint t :
  tree_inv t ->
  match apply_sharechain_checkpoint regs checkpoint t with
  | (Ok _, t') => tree_inv t'
  | (Err e, t') => t' = t /\ is_internal e = false
  end.
Proof.
  intros Hinv. pose proof (apply_checkpoint_run regs checkpoint t Hinv) as Hout.
  destruct (apply_sharechain_checkpoint regs checkpoint t) as [[[]|e] t']; [apply Hout|exact Hout].
Qed.

(** C8 (finality). In every reachable state, whatever is accepted afterwards,
    a checkpoint is never replaced, its share stays on the active branch, and no
    share that was active under a checkpoint becomes inactive. *)
Theorem checkpoint_finality `{Hashing, !HexLaws} t t' r c :
  rtc tree_step st_default t -> rtc tree_step t t' -> st_sharechain_checkpoints t !! r = Some c ->
  st_sharechain_checkpoints t' !! r = Some c /\
  cp_share_tip_hash c ∈ st_active_share_hashes t' /\
  st_active_share_hashes t ⊆ st_active_share_hashes t'.
Proof.
  intros Hreach Hsteps Hc. pose proof (steps_inv _ _ tree_inv_default Hreach) as Hinv.
  destruct (steps_finality _ _ _ _ Hinv Hsteps Hc) as [Hc' Hsub].
  split_and!; [done| |done]. eapply checkpoint_tip_active; [by eapply steps_inv|done].
Qed.

(** ** A concrete checkpoint *)

Definition sample_registrations : gmap string MinerRegistration := {["alice" := sample_anchored 1]}.

Definition sample_round : SharechainCheckpointAnchorV1 := {|
  cp_contract_address := "0x" +:+ repeat_char "4" 40; cp_experiment_id := "exp-1"; cp_round := 1;
  cp_share_tip_hash := @share_hash hashing_c sample_root; cp_share_height := 1; cp_cumulative_score := "1";
  cp_parent_checkpoint_tip := ZERO_SHARE_PARENT_HASH; cp_finalization_block := 10;
  cp_finalization_block_hash := "0x" +:+ repeat_char "5" 64; cp_finalization_epoch := 1;
  cp_finalization_timestamp := 100; cp_support_count := 1; cp_registered_count := 1;
  cp_registered_miners := ["alice"%string]; cp_supporters := ["alice"%string] |}.

Definition rooted_tree : ShareTree := snd (@apply_share hashing_c sample_root st_default).
Definition checkpointed_tree : ShareTree :=
  snd (@apply_sharechain_checkpoint hashing_c sample_registrations sample_round rooted_tree).
Definition extended_tree : ShareTree :=
  snd (@apply_share hashing_c (sample_child "00000015") checkpointed_tree).

Lemma rooted_run : @apply_share hashing_c sample_root st_default = (Ok tt, rooted_tree).
Proof.
  assert (fst (@apply_share hashing_c sample_root st_default) = Ok tt) as <- by (vm_compute; reflexivity).
  apply surjective_pairing.
Qed.

Lemma checkpointed_run :
  @apply_sharechain_checkpoint hashing_c sample_registrations sample_round rooted_tree = (Ok tt, checkpointed_tree).
Proof.
  assert (fst (@apply_sharechain_checkpoint hashing_c sample_registrations sample_round rooted_tree) = Ok tt)
    as <- by (vm_compute; reflexivity).
  apply surjective_pairing.
Qed.

Lemma extended_run :
  @apply_share hashing_c (sample_child "00000015") checkpointed_tree = (Ok tt, extended_tree).
Proof.
  assert (fst (@apply_share hashing_c (sample_child "00000015") checkpointed_tree) = Ok tt)
    as <- by (vm_compute; reflexivity).
  apply surjective_pairing.
Qed.

Lemma checkpointed_reachable : rtc (@tree_step hashing_c) st_default checkpointed_tree.
Proof.
  eapply rtc_l; [exact (step_share _ _ _ sample_root_typed rooted_run)|].
  eapply rtc_l; [exact (step_checkpoint _ _ _ _ checkpointed_run)|]. apply rtc_refl.
Qed.

Lemma extended_reachable : rtc (@tree_step hashing_c) checkpointed_tree extended_tree.
Proof.
  eapply rtc_l; [|apply rtc_refl]. refine (step_share _ _ _ _ extended_run).
  exact (Forall_inv sample_well_typed).
Qed.

Lemma checkpointed_round : st_sharechain_checkpoints checkpointed_tree !! 1 = Some sample_round.
Proof. vm_compute. reflexivity. Qed.

Lemma checkpoint_finality_witness :
  cp_share_tip_hash sample_round ∈ st_active_share_hashes extended_tree.
Proof.
  exact (proj1 (proj2 (@checkpoint_finality hashing_c hex_laws_c checkpointed_tree extended_tree 1 sample_round
    checkpointed_reachable extended_reachable checkpointed_round))).
Defined.

Lemma checkpoint_keeps_invariant_witness :
  match @apply_sharechain_checkpoint hashing_c sample_registrations sample_round st_default with
  | (Ok _, t') => @tree_inv hashing_c t'
  | (Err e, t') => t' = st_default /\ is_internal e = false
  end.
Proof.
  exact (@checkpoint_keeps_invariant hashing_c hex_laws_c sample_registrations sample_round st_default
    (@tree_inv_default hashing_c)).
Defined.
