(* ===== verification/ShareTreeRebuild.v ===== *)
(** * Recomputing the derived fields

    [rebuild_derived_share_state] recomputes the indexes, the scores, the tip
    and the active branch from the stored shares alone, with a memoised
    recursion instead of the queue.  Without checkpoints it reproduces the
    state that the incremental code maintains; with one it does not. *)
From S2P Require Import Prelude Order Text Crates Concrete Payout Withdrawal Ledger IdenaAnchor ShareWork Commitment Sharechain ShareTree ShareBranch ShareTreeInv ShareTreeAdmit ShareTreeCheckpoint.

Local Open Scope N_scope.

(** The score and height recorded in a node. *)
Definition node_score (n : ShareNode) : option (N * N) :=
  match nd_cumulative_score n with Some s => Some (s, nd_height n) | None => None end.

Section rebuild.
Context `{Hashing, !HexLaws}.

Lemma in_tail_not_head {A} (x : A) l : NoDup (x :: l) -> x ∉ l.
Proof. by intros [? _]%NoDup_cons. Qed.

Lemma entries_unique {V} (m : gmap string V) don h v rest v' :
  btree_entries m = don ++ (h, v) :: rest -> (h, v') ∉ don.
Proof.
  intros Heq Hin. pose proof (btree_keys_NoDup m) as Hnd. unfold btree_keys in Hnd.
  rewrite Heq, map_app in Hnd. apply NoDup_app in Hnd as (_ & Hd & _).
  apply (Hd h); [|simpl; set_solver]. apply (list_elem_of_fmap_2 fst _ _ Hin).
Qed.

Lemma entry_stored {V} (m : gmap string V) don h v rest :
  btree_entries m = don ++ (h, v) :: rest -> m !! h = Some v.
Proof. intros Heq. apply btree_entries_elem. rewrite Heq. set_solver. Qed.

(** ** The indexes *)

Lemma rebuild_work_run t t0 :
  tree_inv t -> t0 = set_by_work ∅ t ->
  for_each rebuild_work_index (btree_entries (st_shares t)) t0 = (Ok tt, t).
Proof.
  intros Hinv ->.
  destruct (for_each_run rebuild_work_index (fun don s => exists bw, s = set_by_work bw t /\
    forall w h, bw !! w = Some h <-> exists n, (h, n) ∈ don /\ sh_work_hash (nd_share n) = w)
    (btree_entries (st_shares t)) (set_by_work ∅ t)) as (s & -> & bw & -> & Hbw).
  - exists ∅. split; [done|]. intros w h. rewrite lookup_empty. split; [done|]. intros (n & Hn & _). set_solver.
  - intros don [h n] rest s Heq (bw & -> & Hbw). pose proof (entry_stored _ _ _ _ _ Heq) as Hn.
    pose proof (shares_of_lookup _ _ _ Hn) as Hk. destruct (so_key _ (inv_store _ Hinv) _ _ Hk) as [Hh Hnorm].
    assert (to_ascii_lowercase (sh_work_hash (nd_share n)) = sh_work_hash (nd_share n)) as Hw
      by (rewrite <-Hnorm; apply lower_idemp).
    unfold rebuild_work_index. rewrite M_bind_run. unfold asks.
    rewrite (io_parent _ (inv_index _ Hinv) _ _ Hn), Hh.
    change (validate_unique_sharechain_root (set_by_work bw t)) with (validate_unique_sharechain_root t).
    destruct (unique_root_run t (nd_share n) (inv_store _ Hinv) (inv_index _ Hinv))
      as [[-> _]|(x & s' & _ & Hr & Hx & Hr' & Hne)];
      [|exfalso; apply Hne; rewrite <-Hh; by eapply (so_root _ (inv_store _ Hinv))].
    rewrite M_bind_run. cbn [gets]. rewrite M_bind_run. cbn [modify]. rewrite Hw.
    assert (bw !! sh_work_hash (nd_share n) = None) as Hnone.
    { destruct (bw !! _) as [x|] eqn:Hx; [|done]. apply Hbw in Hx as (n' & Hin & Heqw). exfalso.
      assert (st_shares t !! x = Some n') as Hx'.
      { apply btree_entries_elem. rewrite Heq. set_solver. }
      assert (x = h) as -> by (eapply (so_work _ (inv_store _ Hinv)); [by apply shares_of_lookup|done|done]).
      by eapply entries_unique. }
    cbn [st_share_hash_by_work_hash set_by_work]. rewrite Hnone. eexists. split; [reflexivity|].
    exists (<[sh_work_hash (nd_share n) := share_hash (nd_share n)]> bw). split; [done|].
    intros w x. rewrite <-Hh. destruct (decide (sh_work_hash (nd_share n) = w)) as [<-|Hww].
    + rewrite lookup_insert_eq. split.
      * intros [= <-]. exists n. set_solver.
      * intros (n' & [Hin|[= -> ->]%list_elem_of_singleton]%elem_of_app & Heqw); [|done]. exfalso.
        assert (bw !! sh_work_hash (nd_share n) = Some x) by (apply Hbw; eauto). congruence.
    + rewrite lookup_insert_ne by done. rewrite Hbw. split.
      * intros (n' & Hin & ?). exists n'. set_solver.
      * intros (n' & [Hin|[= -> ->]%list_elem_of_singleton]%elem_of_app & Heqw); [eauto|done].
  - f_equal. assert (bw = st_share_hash_by_work_hash t) as ->; [|by destruct t].
    apply map_eq. intros w. apply option_eq. intros h. rewrite Hbw, (inv_work _ Hinv w h). split.
    + intros (n & Hn%btree_entries_elem & ?). exists (nd_share n). split; [by apply shares_of_lookup|done].
    + intros (s & (n & Hn & ->)%shares_of_Some & ?). exists n. split; [by apply btree_entries_elem|done].
Qed.

Lemma rebuild_children_run t :
  index_ok t ->
  for_each rebuild_child_index (btree_entries (st_shares t)) (set_children ∅ t) = (Ok tt, t).
Proof.
  intros Hio.
  destruct (for_each_run rebuild_child_index (fun don s => exists ch, s = set_children ch t /\
    (forall p h, h ∈ default ∅ (ch !! p) <-> exists n, (h, n) ∈ don /\ nd_parent_share_hash n = p) /\
    (forall p c, ch !! p = Some c -> c <> ∅))
    (btree_entries (st_shares t)) (set_children ∅ t)) as (s & -> & ch & -> & Hch & Hne).
  - exists ∅. split_and!; [done| |done]. intros p h. rewrite lookup_empty. simpl. set_solver.
  - intros don [h n] rest s Heq (ch & -> & Hch & Hne). eexists. split; [reflexivity|].
    eexists. split; [reflexivity|]. split.
    + intros p x. cbn [st_children_by_parent set_children]. destruct (decide (nd_parent_share_hash n = p)) as [<-|Hp].
      * rewrite lookup_insert_eq. simpl. rewrite elem_of_union, elem_of_singleton, Hch.
        setoid_rewrite elem_of_app. setoid_rewrite list_elem_of_singleton. naive_solver.
      * rewrite lookup_insert_ne by done. rewrite Hch.
        setoid_rewrite elem_of_app. setoid_rewrite list_elem_of_singleton. naive_solver.
    + intros p c. cbn [st_children_by_parent set_children]. intros [[_ <-]|[_ Hc]]%lookup_insert_Some; [set_solver|].
      by eapply Hne.
  - f_equal. assert (st_children_by_parent (set_children ch t) = st_children_by_parent t) as Heq;
      [|simpl in Heq; rewrite Heq; by destruct t].
    apply children_determined; [|done|done]. split; [apply (io_parent _ Hio)| |exact Hne].
    intros p h. change (shares_of (set_children ch t)) with (shares_of t).
    cbn [st_children_by_parent set_children]. rewrite Hch. split.
    + intros (n & Hn%btree_entries_elem & <-). exists (nd_share n).
      split; [by apply shares_of_lookup|]. by rewrite (io_parent _ Hio _ _ Hn).
    + intros (s & (n & Hn & ->)%shares_of_Some & <-). exists n.
      split; [by apply btree_entries_elem|]. by eapply (io_parent _ Hio).
Qed.

(** ** The memoised scores *)

Definition memo_ok (shares : gmap string ShareNode) (memo : gmap string (option (N * N))) : Prop :=
  forall h r, memo !! h = Some r -> exists n, shares !! h = Some n /\ r = node_score n.

(** Every share being visited has the current one as a proper ancestor, as far as it has a branch. *)
Definition visiting_ok (t : ShareTree) (visiting : gset string) (h : string) : Prop :=
  visiting ⊆ dom (st_shares t) /\
  forall x p, x ∈ visiting -> branch (shares_of t) x p -> h ∈ tail p.

Lemma node_score_branch t h n p :
  core_inv t -> st_shares t !! h = Some n -> branch (shares_of t) h p ->
  node_score n = Some (path_score (shares_of t) p, N.of_nat (length p)).
Proof.
  intros Hci Hn Hb. destruct (inv_resolved _ _ _ (ci_sound _ Hci) (ci_complete _ Hci) Hb) as (n' & Hn' & Hs).
  simplify_eq. pose proof (ci_sound _ Hci _ _ Hn) as Hsd. unfold node_score. rewrite Hs in *.
  destruct Hsd as (p' & Hb' & _ & -> & _). by rewrite (branch_det _ _ _ Hb Hb').
Qed.

Lemma node_score_None t h n :
  sound t -> st_shares t !! h = Some n -> (forall p, ~ branch (shares_of t) h p) -> node_score n = None.
Proof.
  intros Hsd Hn Hnb. pose proof (Hsd _ _ Hn) as Hs. unfold node_score.
  destruct (nd_cumulative_score n); [|done]. destruct Hs as (p & Hb & _). by apply Hnb in Hb.
Qed.

(** The score of a share in terms of its parent's. *)
Lemma node_score_parent t h n pn :
  core_inv t -> st_shares t !! h = Some n -> nd_parent_share_hash n <> ZERO_SHARE_PARENT_HASH ->
  st_shares t !! nd_parent_share_hash n = Some pn ->
  extend_branch_score h n (node_score pn) = Ok (node_score n).
Proof.
  intros Hci Hn Hz Hpn. pose proof (shares_of_lookup _ _ _ Hn) as Hk.
  rewrite (io_parent _ (ci_index _ Hci) _ _ Hn) in *. pose proof (ci_sound _ Hci _ _ Hpn) as Hs.
  destruct (nd_cumulative_score pn) as [sc|] eqn:Hc.
  - destruct Hs as (q & Hq & -> & Hh & _).
    assert (branch (shares_of t) h (h :: q)) as Hb by (by eapply branch_step).
    rewrite (node_score_branch _ _ _ _ Hci Hn Hb), (node_score_branch _ _ _ _ Hci Hpn Hq).
    destruct (inv_scores_fit t (ci_sound _ Hci) (ci_complete _ Hci) _ _ Hb) as [Hf Hf64].
    assert (score_of (shares_of t) h = sh_hashrate_score_delta (nd_share n)) as Hd
      by (unfold score_of; by rewrite Hk).
    rewrite path_score_cons, Hd, N.add_comm in *. unfold extend_branch_score.
    rewrite (proj2 (checked_add_Some 128 _ _ _) (conj eq_refl Hf)). simpl.
    replace (N.of_nat (length (h :: q))) with (N.of_nat (length q) + 1) in * by (simpl; lia).
    rewrite (proj2 (checked_add_Some 64 _ _ _) (conj eq_refl Hf64)). simpl. do 3 f_equal. lia.
  - assert (node_score pn = None) as -> by (unfold node_score; by rewrite Hc). simpl. f_equal. symmetry.
    apply (node_score_None t h); [apply Hci|done|]. intros p Hb.
    destruct (branch_parent _ _ _ Hb Hk Hz) as (q & _ & Hq).
    destruct (ci_complete _ Hci _ _ Hq) as (s & n' & Hn' & Hs'). congruence.
Qed.

Lemma node_score_root t h n :
  core_inv t -> st_shares t !! h = Some n -> nd_parent_share_hash n = ZERO_SHARE_PARENT_HASH ->
  node_score n = Some (sh_hashrate_score_delta (nd_share n), 1).
Proof.
  intros Hci Hn Hz. pose proof (shares_of_lookup _ _ _ Hn) as Hk.
  rewrite (io_parent _ (ci_index _ Hci) _ _ Hn) in Hz.
  rewrite (node_score_branch t h n [h]); [|done|done|by eapply branch_root].
  rewrite path_score_cons. unfold score_of. rewrite Hk. simpl. by rewrite N.add_0_r.
Qed.

Lemma node_score_orphan t h n :
  core_inv t -> st_shares t !! h = Some n -> nd_parent_share_hash n <> ZERO_SHARE_PARENT_HASH ->
  st_shares t !! nd_parent_share_hash n = None -> node_score n = None.
Proof.
  intros Hci Hn Hz Hp. pose proof (shares_of_lookup _ _ _ Hn) as Hk.
  rewrite (io_parent _ (ci_index _ Hci) _ _ Hn) in *.
  apply (node_score_None t h); [apply Hci|done|]. intros p Hb.
  destruct (branch_parent _ _ _ Hb Hk Hz) as (q & _ & Hq). destruct (branch_head _ _ Hq) as (q' & ->).
  destruct (branch_lookup _ _ _ Hq (list_elem_of_here _ _)) as [s Hs]. apply shares_of_None in Hp. congruence.
Qed.

Lemma visiting_parent t visiting h n :
  index_ok t -> st_shares t !! h = Some n -> nd_parent_share_hash n <> ZERO_SHARE_PARENT_HASH ->
  visiting_ok t visiting h -> visiting_ok t ({[h]} ∪ visiting) (nd_parent_share_hash n).
Proof.
  intros Hio Hn Hz [Hdom Hv]. pose proof (shares_of_lookup _ _ _ Hn) as Hk.
  rewrite (io_parent _ Hio _ _ Hn) in *. split.
  { intros x [->%elem_of_singleton|Hx]%elem_of_union; [by apply elem_of_dom|by apply Hdom]. }
  assert (forall p, branch (shares_of t) h p -> parent_of (nd_share n) ∈ tail p) as Hh.
  { intros p Hb. destruct (branch_parent _ _ _ Hb Hk Hz) as (q & -> & Hq).
    destruct (branch_head _ _ Hq) as (q' & ->). simpl. set_solver. }
  intros x p [->%elem_of_singleton|Hx]%elem_of_union Hb; [by apply Hh|].
  pose proof (Hv _ _ Hx Hb) as Hin. destruct (branch_head _ _ Hb) as (q & ->). simpl in Hin.
  destruct (branch_suffix _ _ h Hb) as (a & b & Heq & Hb'); [set_solver|].
  pose proof (Hh _ Hb') as Hpar. destruct a as [|y a].
  - simpl in Heq. subst. exact Hpar.
  - injection Heq as <- ->. simpl. destruct (branch_head _ _ Hb') as (b' & ->). simpl in Hpar. set_solver.
Qed.

Lemma memo_insert shares memo h n :
  memo_ok shares memo -> shares !! h = Some n -> memo_ok shares (<[h := node_score n]> memo).
Proof.
  intros Hm Hn x r [[<- <-]|[_ Hx]]%lookup_insert_Some; [by exists n|by apply Hm].
Qed.

(** A run of the recursion returns the recorded score and extends the table. *)
Definition memo_run (shares : gmap string ShareNode) (h : string) (n : ShareNode) (memo : gmap string (option (N * N)))
    (visiting : gset string) (r : result SharechainReplayError (option (N * N)) * (gmap string (option (N * N)) * gset string))
    : Prop :=
  exists memo', r = (Ok (node_score n), (memo', visiting)) /\ memo_ok shares memo' /\ is_Some (memo' !! h) /\
    forall x, is_Some (memo !! x) -> is_Some (memo' !! x).

Lemma memo_finish shares memo memo1 h n visiting :
  memo_ok shares memo1 -> shares !! h = Some n -> h ∉ visiting ->
  (forall x, is_Some (memo !! x) -> is_Some (memo1 !! x)) ->
  memo_run shares h n memo visiting
    (Ok (node_score n), (<[h := node_score n]> memo1, ({[h]} ∪ visiting) ∖ {[h]})).
Proof.
  intros Hm Hn Hh Hsub. exists (<[h := node_score n]> memo1). split_and!.
  - do 3 f_equal. set_solver.
  - by apply memo_insert.
  - rewrite lookup_insert_eq. eauto.
  - intros x Hx. apply lookup_insert_is_Some'. auto.
Qed.

Lemma compute_run t fuel h n memo visiting :
  core_inv t -> st_shares t !! h = Some n -> memo_ok (st_shares t) memo -> visiting_ok t visiting h ->
  (size (st_shares t) < fuel + size visiting)%nat ->
  memo_run (st_shares t) h n memo visiting
    (compute_share_branch_score fuel (st_shares t) h (memo, visiting)).
Proof.
  intros Hci. revert h n memo visiting.
  induction fuel as [|fuel IH]; intros h n memo visiting Hn Hm Hv Hf.
  { pose proof (subseteq_size _ _ (proj1 Hv)) as Hs. rewrite size_dom in Hs. lia. }
  cbn [compute_share_branch_score]. rewrite M_bind_run. cbn [gets]. unfold id. cbn [fst snd].
  destruct (memo !! h) as [r|] eqn:Hmh.
  { destruct (Hm _ _ Hmh) as (n' & Hn' & ->). simplify_eq. exists memo. split_and!; [done..|eauto|done]. }
  destruct (decide (h ∈ visiting)) as [Hin|Hin].
  { rewrite bool_decide_eq_true_2 by done. rewrite M_bind_run. cbn [modify mret M_ret fst snd].
    assert (node_score n = None) as Hnone.
    { apply (node_score_None t h); [apply Hci|done|]. intros p Hb. pose proof (proj2 Hv _ _ Hin Hb) as Ht.
      pose proof (branch_NoDup _ _ Hb) as Hnd. destruct (branch_head _ _ Hb) as (q & ->).
      by apply (in_tail_not_head _ _ Hnd). }
    exists (<[h := node_score n]> memo). split_and!; [by rewrite Hnone|by apply memo_insert| |].
    - rewrite lookup_insert_eq. eauto.
    - intros x Hx. apply lookup_insert_is_Some'. auto. }
  rewrite bool_decide_eq_false_2 by done. rewrite M_bind_run. cbn [modify fst snd]. rewrite M_bind_run, Hn.
  destruct (String.eqb_spec (nd_parent_share_hash n) ZERO_SHARE_PARENT_HASH) as [Hz|Hz].
  { rewrite <-(node_score_root t h n) by done. cbn [mret M_ret]. rewrite M_bind_run. cbn [modify fst snd].
    by apply memo_finish. }
  destruct (st_shares t !! nd_parent_share_hash n) as [pn|] eqn:Hpn.
  - change (bool_decide (is_Some (Some pn))) with true. cbv iota. rewrite M_bind_run.
    destruct (IH (nd_parent_share_hash n) pn memo ({[h]} ∪ visiting)) as (memo1 & -> & Hm1 & _ & Hsub).
    + done.
    + done.
    + by apply visiting_parent, Hv; [apply Hci|..].
    + rewrite size_union by set_solver. rewrite size_singleton. lia.
    + unfold lift. rewrite (node_score_parent t h n pn) by done. rewrite M_bind_run. cbn [modify fst snd mret M_ret].
      by apply memo_finish.
  - change (bool_decide (is_Some None)) with false. cbv iota.
    rewrite <-(node_score_orphan t h n) at 1 by done. cbn [mret M_ret]. rewrite M_bind_run. cbn [modify fst snd].
    by apply memo_finish.
Qed.

Lemma compute_all_run t keys memo :
  core_inv t -> (forall h, h ∈ keys -> is_Some (st_shares t !! h)) -> memo_ok (st_shares t) memo ->
  exists memo', compute_branch_scores (st_shares t) keys memo = Ok memo' /\ memo_ok (st_shares t) memo' /\
    (forall h, h ∈ keys \/ is_Some (memo !! h) -> is_Some (memo' !! h)).
Proof.
  intros Hci. revert memo. induction keys as [|h keys IH]; intros memo Hkeys Hm; cbn [compute_branch_scores].
  - exists memo. split_and!; [done..|]. set_solver.
  - destruct (Hkeys h) as [n Hn]; [set_solver|].
    destruct (compute_run t (S (S (size (st_shares t)))) h n memo ∅ Hci Hn Hm) as (memo1 & -> & Hm1 & Hh & Hsub).
    + split; set_solver.
    + rewrite size_empty. lia.
    + simpl. destruct (IH memo1) as (memo' & -> & ? & Hall); [set_solver|done|]. exists memo'.
      split_and!; [done..|]. intros x [[->|Hx]%elem_of_cons|Hx]; apply Hall; auto.
Qed.

Lemma branch_scores_run t :
  core_inv t -> exists memo, compute_branch_scores (st_shares t) (btree_keys (st_shares t)) ∅ = Ok memo /\
    memo = node_score <$> st_shares t.
Proof.
  intros Hci. destruct (compute_all_run t (btree_keys (st_shares t)) ∅ Hci) as (memo & Hrun & Hm & Hall).
  - intros h Hh. unfold btree_keys in Hh. apply list_elem_of_fmap in Hh as ([h' n] & -> & Hh%btree_entries_elem). eauto.
  - intros h r Hr. by rewrite lookup_empty in Hr.
  - exists memo. split; [done|]. apply map_eq. intros h. rewrite lookup_fmap.
    destruct (st_shares t !! h) as [n|] eqn:Hn; simpl.
    + destruct (Hall h) as [r Hr].
      { left. unfold btree_keys. apply list_elem_of_fmap. exists (h, n). split; [done|]. by apply btree_entries_elem. }
      rewrite Hr. destruct (Hm _ _ Hr) as (n' & ? & ->). by simplify_eq.
    + destruct (memo !! h) as [r|] eqn:Hr; [|done]. destruct (Hm _ _ Hr) as (n' & ? & _). congruence.
Qed.

(** ** Nodes, tip and active branch *)

Lemma apply_scores_run t :
  sound t ->
  map_imap (fun h node => Some (apply_branch_score (node_score <$> st_shares t) h node)) (st_shares t) = st_shares t.
Proof.
  intros Hsd. apply map_eq. intros h. rewrite map_lookup_imap.
  destruct (st_shares t !! h) as [n|] eqn:Hn; simpl; [|done]. f_equal. unfold apply_branch_score.
  rewrite lookup_fmap, Hn. simpl. pose proof (Hsd _ _ Hn) as Hs.
  destruct n as [share parent [sc|] height]; simpl in *; [done|]. by subst.
Qed.

Lemma max_by_spec {A} (cmp : A -> A -> comparison) `{!CmpOrder cmp} best l :
  match max_by cmp best l with
  | Some b => (Some b = best \/ b ∈ l) /\ (forall x, x ∈ l \/ best = Some x -> cmp x b <> Gt)
  | None => best = None /\ l = []
  end.
Proof.
  revert best. induction l as [|y l IH]; intros best; simpl.
  { destruct best as [b|]; [|done]. split; [by left|]. intros x [Hx|[= ->]]; [set_solver|].
    by rewrite (cmp_refl cmp). }
  assert (exists b1, match best with
    | None => Some y | Some b => match cmp b y with Gt => Some b | _ => Some y end end = Some b1 /\
    (Some b1 = best \/ b1 = y) /\ cmp y b1 <> Gt /\ forall x, best = Some x -> cmp x b1 <> Gt) as (b1 & -> & Hb1 & Hy & Hx).
  { destruct best as [b|]; [|exists y; split_and!; [done|by right|by rewrite (cmp_refl cmp)|done]].
    destruct (cmp b y) eqn:Hc.
    - exists y. split_and!; [done|by right|by rewrite (cmp_refl cmp)|]. intros x [= ->]. by rewrite Hc.
    - exists y. split_and!; [done|by right|by rewrite (cmp_refl cmp)|]. intros x [= ->]. by rewrite Hc.
    - exists b. split_and!; [done|by left| |]; [by rewrite (cmp_antisym cmp b y), Hc|].
      intros x [= ->]. by rewrite (cmp_refl cmp). }
  specialize (IH (Some b1)). destruct (max_by cmp (Some b1) l) as [b|]; [|by destruct IH].
  destruct IH as [Hin Hmax]. split.
  - destruct Hin as [[= ->]|Hin]; [destruct Hb1 as [?| ->]; [by left|right; set_solver]|right; set_solver].
  - pose proof (Hmax b1 (or_intror eq_refl)) as Hb.
    intros x [[->|Hxl]%elem_of_cons|Hbest]; [by eapply (cmp_trans cmp)|apply Hmax; by left|].
    eapply (cmp_trans cmp); [by apply Hx|done].
Qed.

Definition rebuilt_tip (t : ShareTree) : option string :=
  fst <$> max_by compare_tips None
    (omap (fun entry => match entry.2 with Some (score, _) => Some (entry.1, score) | None => None end)
       (btree_entries (node_score <$> st_shares t))).

Lemma rebuilt_tip_run t : best_resolved t -> rebuilt_tip t = st_best_share_tip t.
Proof.
  intros Hbest. unfold rebuilt_tip. set (l := omap _ _).
  assert (forall h s, (h, s) ∈ l <-> resolved t h s) as Hl.
  { intros h s. unfold l. rewrite list_elem_of_omap. split.
    - intros ([x r] & Hin%btree_entries_elem & Heq). rewrite lookup_fmap in Hin. simpl in Heq.
      destruct (st_shares t !! x) as [n|] eqn:Hn; [|done]. simpl in Hin. injection Hin as <-.
      unfold node_score in Heq. destruct (nd_cumulative_score n) eqn:Hc; [|done]. injection Heq as <- <-. by exists n.
    - intros (n & Hn & Hs). exists (h, node_score n). split.
      + apply btree_entries_elem. by rewrite lookup_fmap, Hn.
      + simpl. unfold node_score. by rewrite Hs. }
  pose proof (max_by_spec compare_tips None l) as Hmax. unfold best_resolved in Hbest.
  destruct (max_by compare_tips None l) as [[h s]|]; simpl.
  - destruct Hmax as [[?|Hin] Hmax]; [done|]. apply Hl in Hin as Hr.
    destruct (st_best_share_tip t) as [tip|]; [|by apply Hbest in Hr].
    destruct Hbest as (s' & Hr' & Hle). f_equal.
    assert ((h, s) = (tip, s')) as [= -> ->]; [|done]. apply tip_le_antisym; [by apply Hle|].
    apply Hmax. left. by apply Hl.
  - destruct Hmax as [_ Hnil]. destruct (st_best_share_tip t) as [tip|]; [|done].
    destruct Hbest as (s' & Hr' & _). apply Hl in Hr'. rewrite Hnil in Hr'. set_solver.
Qed.

Lemma credit_stored_run h n t : st_shares t !! h = Some n -> credit_if_stored h t = credit_share h n t.
Proof. intros Hn. unfold credit_if_stored. rewrite M_bind_run. cbn [gets]. by rewrite Hn. Qed.

Lemma rebuild_active_run t :
  index_ok t -> active_ok t ->
  (active_branch ← match st_best_share_tip t with
                   | Some tip => lift (ok_or Diverged (active_branch_of (st_shares t) tip))
                   | None => mret []
                   end;
   _ ← modify (fun t => set_total 0 (set_scores ∅ (set_active (list_to_set active_branch) t)));
   for_each credit_if_stored active_branch) t = (Ok tt, t).
Proof.
  intros Hio Hac. unfold active_ok in Hac. rewrite M_bind_run.
  destruct (st_best_share_tip t) as [tip|] eqn:Ht.
  - destruct Hac as (p & Hb & Hf & Ha & Htot & Hs). unfold lift. rewrite (active_branch_run _ _ _ Hio Hb).
    cbn [ok_or]. rewrite M_bind_run. cbn [modify].
    rewrite (credit_branch_run credit_if_stored _ [] p); [|apply credit_stored_run| |done..].
    + f_equal. cbn [app]. change (shares_of (set_total _ (set_scores _ (set_active _ t)))) with (shares_of t).
      rewrite <-Htot, <-Hs, <-Ha. by destruct t.
    + intros x Hx. exact (branch_lookup _ _ _ Hb Hx).
  - cbn [mret M_ret]. rewrite M_bind_run. cbn [modify]. destruct Hac as (Ha & Htot & Hs). simpl.
    f_equal. destruct t; simpl in *; by subst.
Qed.

Lemma rebuild_derived_run t :
  tree_inv t -> best_resolved t -> rebuild_derived_share_state t = (Ok tt, t).
Proof.
  intros Hinv Hbest. unfold rebuild_derived_share_state. rewrite M_bind_run. cbn [gets].
  rewrite M_bind_run. cbn [modify]. rewrite M_bind_run, (rebuild_work_run t) by done.
  rewrite M_bind_run. cbn [modify]. rewrite M_bind_run, (rebuild_children_run t) by apply Hinv.
  rewrite M_bind_run. unfold lift at 1.
  destruct (branch_scores_run t (tree_core _ Hinv)) as (memo & -> & ->).
  rewrite M_bind_run. cbn [modify]. rewrite apply_scores_run by apply Hinv.
  rewrite M_bind_run. cbn [modify]. fold (rebuilt_tip t). rewrite rebuilt_tip_run by done.
  assert (set_tip (st_best_share_tip t) (set_shares (st_shares t) t) = t) as -> by (by destruct t).
  rewrite M_bind_run. cbn [gets]. apply rebuild_active_run; apply Hinv.
Qed.
End rebuild.

(** The state [rebuild_derived_share_state] would leave unchanged. *)
Definition rebuild_stable (t : ShareTree) : Prop := rebuild_derived_share_state t = (Ok tt, t).

(** C18 (equivalence). Without checkpoints, recomputing all derived fields from the
    stored shares gives the state that the incremental code maintains. *)
Theorem rebuild_reproduces_state `{Hashing, !HexLaws} l t :
  Forall well_typed l -> for_each apply_share l st_default = (Ok tt, t) ->
  rebuild_stable t.
Proof.
  intros Hty Hrun. destruct (apply_shares_Ok _ _ _ tree_inv_default Hty Hrun) as (Hinv & _ & Hcp).
  apply rebuild_derived_run; [done|]. pose proof (inv_tip _ Hinv) as Ht.
  unfold tip_ok, latest_sharechain_checkpoint in Ht. rewrite Hcp in Ht.
  unfold last_key_value in Ht. simpl in Ht. by rewrite map_to_list_empty in Ht.
Qed.

Lemma rebuild_reproduces_state_witness : rebuild_stable sample_tree.
Proof.
  exact (@rebuild_reproduces_state hashing_c hex_laws_c sample_shares sample_tree sample_well_typed sample_tree_run).
Defined.

(** (divergence). With a checkpoint, [rebuild_derived_share_state] does not
    reproduce the state: in a reachable state whose only checkpoint is the root
    share, it succeeds and makes a pending child of the root active. *)
Theorem rebuild_ignores_checkpoints :
  exists t t', rtc (@tree_step hashing_c) st_default t /\
    st_best_share_tip t = cp_share_tip_hash <$> latest_sharechain_checkpoint t /\
    rebuild_derived_share_state t = (Ok tt, t') /\ ~ rebuild_stable t /\
    st_best_share_tip t' <> st_best_share_tip t /\
    st_active_share_score_total t < st_active_share_score_total t'.
Proof.
  exists extended_tree, (snd (rebuild_derived_share_state extended_tree)). split_and!.
  - etrans; [exact checkpointed_reachable|exact extended_reachable].
  - vm_compute. reflexivity.
  - assert (fst (rebuild_derived_share_state extended_tree) = Ok tt) as <- by (vm_compute; reflexivity).
    apply surjective_pairing.
  - intros Hst. apply (f_equal (fun r => st_active_share_score_total r.2)) in Hst. by vm_compute in Hst.
  - vm_compute. discriminate.
  - vm_compute. reflexivity.
Qed.
