(* ===== verification/SharechainState.v ===== *)
(** * Sharechain replay ([crates/pohw-core/src/sharechain_state.rs])

    [SharechainReplayState]: the state every node derives from the sharechain
    message log, [apply_message] with all its handlers, the policy checks a node
    runs before applying a message, and the accounting views (participant
    accounts, claim balances, the accounting state root) that payouts and block
    commitments are computed from.  The share-tree fields are the record
    [ShareTree] of ShareTree.v.  [SharechainReplay.v] has the theorems. *)
From S2P Require Import Prelude Order Text Crates Payout Withdrawal Ledger IdenaAnchor ShareWork Commitment Sharechain ShareTree.
From Stdlib Require Import Strings.String.

Local Open Scope N_scope.

(** ** State *)

Inductive ApplyOutcome := Applied | DuplicateIgnored.

Record SnapshotVoteKey := {
  vk_snapshot_day : string;
  vk_idena_height : N;
  vk_score_root : string
}.

Global Instance SnapshotVoteKey_eq_dec : EqDecision SnapshotVoteKey.
Proof. solve_decision. Defined.
Global Program Instance SnapshotVoteKey_countable : Countable SnapshotVoteKey :=
  inj_countable' (fun k => (vk_snapshot_day k, vk_idena_height k, vk_score_root k))
    (fun p => {| vk_snapshot_day := p.1.1; vk_idena_height := p.1.2; vk_score_root := p.2 |}) _.
Next Obligation. by intros []. Qed.

(** The derived [Ord]: field by field. *)
Definition compare_vote_keys (a b : SnapshotVoteKey) : comparison :=
  then_with (str_cmp (vk_snapshot_day a) (vk_snapshot_day b))
    (then_with (vk_idena_height a ?= vk_idena_height b) (str_cmp (vk_score_root a) (vk_score_root b))).

Record SharechainReplayState := {
  rs_applied_message_hashes : gset string;
  rs_accepted_bitcoin_work_template_prefixes : gmap string string;
  rs_bitcoin_work_templates : gmap string BitcoinWorkTemplate;
  rs_registrations : gmap string MinerRegistration;
  rs_tree : ShareTree;
  rs_snapshot_votes : gmap SnapshotVoteKey (gset string);
  rs_proposed_payout_schedules : gmap string PayoutSchedule;
  rs_withdrawal_requests : gmap string WithdrawalRequest;
  rs_withdrawal_batches : gmap string WithdrawalBatch;
  rs_claim_ledger : ClaimLedger;
  rs_last_message_hash : option string
}.

Definition rs_default : SharechainReplayState := {|
  rs_applied_message_hashes := ∅; rs_accepted_bitcoin_work_template_prefixes := ∅;
  rs_bitcoin_work_templates := ∅; rs_registrations := ∅; rs_tree := st_default;
  rs_snapshot_votes := ∅; rs_proposed_payout_schedules := ∅; rs_withdrawal_requests := ∅;
  rs_withdrawal_batches := ∅; rs_claim_ledger := ledger_default; rs_last_message_hash := None |}.

(** Field assignments. *)
Definition with_applied (v : gset string) (s : SharechainReplayState) : SharechainReplayState := {|
  rs_applied_message_hashes := v;
  rs_accepted_bitcoin_work_template_prefixes := rs_accepted_bitcoin_work_template_prefixes s;
  rs_bitcoin_work_templates := rs_bitcoin_work_templates s; rs_registrations := rs_registrations s;
  rs_tree := rs_tree s; rs_snapshot_votes := rs_snapshot_votes s;
  rs_proposed_payout_schedules := rs_proposed_payout_schedules s;
  rs_withdrawal_requests := rs_withdrawal_requests s; rs_withdrawal_batches := rs_withdrawal_batches s;
  rs_claim_ledger := rs_claim_ledger s; rs_last_message_hash := rs_last_message_hash s |}.
Definition with_prefixes (v : gmap string string) (s : SharechainReplayState) : SharechainReplayState := {|
  rs_applied_message_hashes := rs_applied_message_hashes s;
  rs_accepted_bitcoin_work_template_prefixes := v;
  rs_bitcoin_work_templates := rs_bitcoin_work_templates s; rs_registrations := rs_registrations s;
  rs_tree := rs_tree s; rs_snapshot_votes := rs_snapshot_votes s;
  rs_proposed_payout_schedules := rs_proposed_payout_schedules s;
  rs_withdrawal_requests := rs_withdrawal_requests s; rs_withdrawal_batches := rs_withdrawal_batches s;
  rs_claim_ledger := rs_claim_ledger s; rs_last_message_hash := rs_last_message_hash s |}.
Definition with_templates (v : gmap string BitcoinWorkTemplate) (s : SharechainReplayState) : SharechainReplayState := {|
  rs_applied_message_hashes := rs_applied_message_hashes s;
  rs_accepted_bitcoin_work_template_prefixes := rs_accepted_bitcoin_work_template_prefixes s;
  rs_bitcoin_work_templates := v; rs_registrations := rs_registrations s; rs_tree := rs_tree s;
  rs_snapshot_votes := rs_snapshot_votes s;
  rs_proposed_payout_schedules := rs_proposed_payout_schedules s;
  rs_withdrawal_requests := rs_withdrawal_requests s; rs_withdrawal_batches := rs_withdrawal_batches s;
  rs_claim_ledger := rs_claim_ledger s; rs_last_message_hash := rs_last_message_hash s |}.
Definition with_registrations (v : gmap string MinerRegistration) (s : SharechainReplayState) : SharechainReplayState := {|
  rs_applied_message_hashes := rs_applied_message_hashes s;
  rs_accepted_bitcoin_work_template_prefixes := rs_accepted_bitcoin_work_template_prefixes s;
  rs_bitcoin_work_templates := rs_bitcoin_work_templates s; rs_registrations := v; rs_tree := rs_tree s;
  rs_snapshot_votes := rs_snapshot_votes s;
  rs_proposed_payout_schedules := rs_proposed_payout_schedules s;
  rs_withdrawal_requests := rs_withdrawal_requests s; rs_withdrawal_batches := rs_withdrawal_batches s;
  rs_claim_ledger := rs_claim_ledger s; rs_last_message_hash := rs_last_message_hash s |}.
Definition with_tree (v : ShareTree) (s : SharechainReplayState) : SharechainReplayState := {|
  rs_applied_message_hashes := rs_applied_message_hashes s;
  rs_accepted_bitcoin_work_template_prefixes := rs_accepted_bitcoin_work_template_prefixes s;
  rs_bitcoin_work_templates := rs_bitcoin_work_templates s; rs_registrations := rs_registrations s;
  rs_tree := v; rs_snapshot_votes := rs_snapshot_votes s;
  rs_proposed_payout_schedules := rs_proposed_payout_schedules s;
  rs_withdrawal_requests := rs_withdrawal_requests s; rs_withdrawal_batches := rs_withdrawal_batches s;
  rs_claim_ledger := rs_claim_ledger s; rs_last_message_hash := rs_last_message_hash s |}.
Definition with_votes (v : gmap SnapshotVoteKey (gset string)) (s : SharechainReplayState) : SharechainReplayState := {|
  rs_applied_message_hashes := rs_applied_message_hashes s;
  rs_accepted_bitcoin_work_template_prefixes := rs_accepted_bitcoin_work_template_prefixes s;
  rs_bitcoin_work_templates := rs_bitcoin_work_templates s; rs_registrations := rs_registrations s;
  rs_tree := rs_tree s; rs_snapshot_votes := v;
  rs_proposed_payout_schedules := rs_proposed_payout_schedules s;
  rs_withdrawal_requests := rs_withdrawal_requests s; rs_withdrawal_batches := rs_withdrawal_batches s;
  rs_claim_ledger := rs_claim_ledger s; rs_last_message_hash := rs_last_message_hash s |}.
Definition with_schedules (v : gmap string PayoutSchedule) (s : SharechainReplayState) : SharechainReplayState := {|
  rs_applied_message_hashes := rs_applied_message_hashes s;
  rs_accepted_bitcoin_work_template_prefixes := rs_accepted_bitcoin_work_template_prefixes s;
  rs_bitcoin_work_templates := rs_bitcoin_work_templates s; rs_registrations := rs_registrations s;
  rs_tree := rs_tree s; rs_snapshot_votes := rs_snapshot_votes s; rs_proposed_payout_schedules := v;
  rs_withdrawal_requests := rs_withdrawal_requests s; rs_withdrawal_batches := rs_withdrawal_batches s;
  rs_claim_ledger := rs_claim_ledger s; rs_last_message_hash := rs_last_message_hash s |}.
Definition with_requests (v : gmap string WithdrawalRequest) (s : SharechainReplayState) : SharechainReplayState := {|
  rs_applied_message_hashes := rs_applied_message_hashes s;
  rs_accepted_bitcoin_work_template_prefixes := rs_accepted_bitcoin_work_template_prefixes s;
  rs_bitcoin_work_templates := rs_bitcoin_work_templates s; rs_registrations := rs_registrations s;
  rs_tree := rs_tree s; rs_snapshot_votes := rs_snapshot_votes s;
  rs_proposed_payout_schedules := rs_proposed_payout_schedules s; rs_withdrawal_requests := v;
  rs_withdrawal_batches := rs_withdrawal_batches s; rs_claim_ledger := rs_claim_ledger s;
  rs_last_message_hash := rs_last_message_hash s |}.
Definition with_batches (v : gmap string WithdrawalBatch) (s : SharechainReplayState) : SharechainReplayState := {|
  rs_applied_message_hashes := rs_applied_message_hashes s;
  rs_accepted_bitcoin_work_template_prefixes := rs_accepted_bitcoin_work_template_prefixes s;
  rs_bitcoin_work_templates := rs_bitcoin_work_templates s; rs_registrations := rs_registrations s;
  rs_tree := rs_tree s; rs_snapshot_votes := rs_snapshot_votes s;
  rs_proposed_payout_schedules := rs_proposed_payout_schedules s;
  rs_withdrawal_requests := rs_withdrawal_requests s; rs_withdrawal_batches := v;
  rs_claim_ledger := rs_claim_ledger s; rs_last_message_hash := rs_last_message_hash s |}.
Definition with_ledger (v : ClaimLedger) (s : SharechainReplayState) : SharechainReplayState := {|
  rs_applied_message_hashes := rs_applied_message_hashes s;
  rs_accepted_bitcoin_work_template_prefixes := rs_accepted_bitcoin_work_template_prefixes s;
  rs_bitcoin_work_templates := rs_bitcoin_work_templates s; rs_registrations := rs_registrations s;
  rs_tree := rs_tree s; rs_snapshot_votes := rs_snapshot_votes s;
  rs_proposed_payout_schedules := rs_proposed_payout_schedules s;
  rs_withdrawal_requests := rs_withdrawal_requests s; rs_withdrawal_batches := rs_withdrawal_batches s;
  rs_claim_ledger := v; rs_last_message_hash := rs_last_message_hash s |}.
Definition with_last (v : option string) (s : SharechainReplayState) : SharechainReplayState := {|
  rs_applied_message_hashes := rs_applied_message_hashes s;
  rs_accepted_bitcoin_work_template_prefixes := rs_accepted_bitcoin_work_template_prefixes s;
  rs_bitcoin_work_templates := rs_bitcoin_work_templates s; rs_registrations := rs_registrations s;
  rs_tree := rs_tree s; rs_snapshot_votes := rs_snapshot_votes s;
  rs_proposed_payout_schedules := rs_proposed_payout_schedules s;
  rs_withdrawal_requests := rs_withdrawal_requests s; rs_withdrawal_batches := rs_withdrawal_batches s;
  rs_claim_ledger := rs_claim_ledger s; rs_last_message_hash := v |}.

Abbreviation state_method A := (M SharechainReplayState SharechainReplayError A).

(** Runs a method of the share tree on the state. *)
Definition on_tree {A} (m : tree_method A) : state_method A := fun s =>
  let '(r, t) := m (rs_tree s) in (r, with_tree t s).

(** [self.claim_ledger.method()?] *)
Definition on_ledger {A} (m : M ClaimLedger LedgerError A) : state_method A := fun s =>
  let '(r, ledger) := m (rs_claim_ledger s) in (map_err LedgerFailure r, with_ledger ledger s).

Definition replace_claim_ledger (claim_ledger : ClaimLedger) (s : SharechainReplayState)
    : SharechainReplayState := with_ledger claim_ledger s.

(** [collect] into a [BTreeMap]: a later entry replaces an earlier one. *)
Definition collect_map {V} (l : list (string * V)) : gmap string V :=
  foldl (fun m entry => <[entry.1 := entry.2]> m) ∅ l.

(** ** The views of the state *)

Section views.
Context `{Hashing, Secp256k1, BitcoinCrate, DateAndCid}.

Definition idena_addresses (registrations : list MinerRegistration) : gset string :=
  list_to_set (map (fun r => to_ascii_lowercase (mr_idena_address r)) registrations).

Definition active_idena_addresses (s : SharechainReplayState) : gset string :=
  idena_addresses
    (omap (fun entry => rs_registrations s !! entry.1)
       (List.filter (fun entry => 0 <? entry.2) (btree_entries (st_hashrate_scores (rs_tree s))))).

Definition recent_active_idena_addresses (s : SharechainReplayState) (minimum_template_created_at_unix : Z)
    : gset string :=
  let nodes := omap (fun h => st_shares (rs_tree s) !! h) (btree_set_list (st_active_share_hashes (rs_tree s))) in
  let recent node :=
    match rs_bitcoin_work_templates s !! sh_bitcoin_template_hash (nd_share node) with
    | Some template => (minimum_template_created_at_unix <=? wt_created_at_unix template)%Z
    | None => false
    end in
  idena_addresses
    (omap (fun node => rs_registrations s !! to_ascii_lowercase (sh_miner_id (nd_share node)))
       (List.filter recent nodes)).

Definition unique_snapshot_voter_idena_count (s : SharechainReplayState) (snapshot_day : string)
    (idena_height : N) (score_root : string) : nat :=
  let key := {| vk_snapshot_day := snapshot_day; vk_idena_height := idena_height;
                vk_score_root := to_ascii_lowercase score_root |} in
  size (idena_addresses
    (omap (fun miner_id => rs_registrations s !! miner_id)
       (btree_set_list (default ∅ (rs_snapshot_votes s !! key))))).

Definition best_share_height (s : SharechainReplayState) : option N :=
  share_hash ← st_best_share_tip (rs_tree s);
  node ← st_shares (rs_tree s) !! share_hash;
  Some (nd_height node).

Record SharechainShareSummary := {
  ss_share_hash : string;
  ss_height : N;
  ss_active : bool;
  ss_miner_id : string;
  ss_parent_share_hash : string;
  ss_bitcoin_template_hash : string;
  ss_work_hash : string;
  ss_target : string;
  ss_hashrate_score_delta : string;
  ss_cumulative_score : option string;
  ss_idena_snapshot_id : string;
  ss_idena_snapshot_proof_root : string;
  ss_template_created_at_unix : option Z
}.

Definition share_summary_for_node (s : SharechainReplayState) (share_hash : string) (node : ShareNode)
    : SharechainShareSummary := {|
  ss_share_hash := share_hash;
  ss_height := nd_height node;
  ss_active := bool_decide (share_hash ∈ st_active_share_hashes (rs_tree s));
  ss_miner_id := sh_miner_id (nd_share node);
  ss_parent_share_hash := nd_parent_share_hash node;
  ss_bitcoin_template_hash := sh_bitcoin_template_hash (nd_share node);
  ss_work_hash := sh_work_hash (nd_share node);
  ss_target := sh_target (nd_share node);
  ss_hashrate_score_delta := pretty (sh_hashrate_score_delta (nd_share node));
  ss_cumulative_score := pretty <$> nd_cumulative_score node;
  ss_idena_snapshot_id := sh_idena_snapshot_id (nd_share node);
  ss_idena_snapshot_proof_root := sh_idena_snapshot_proof_root (nd_share node);
  ss_template_created_at_unix :=
    wt_created_at_unix <$> rs_bitcoin_work_templates s !! sh_bitcoin_template_hash (nd_share node) |}.

Definition compare_summaries (left right : SharechainShareSummary) : comparison :=
  then_with (ss_height right ?= ss_height left) (str_cmp (ss_share_hash left) (ss_share_hash right)).

Definition share_summaries (s : SharechainReplayState) : list SharechainShareSummary :=
  sort_by compare_summaries
    (map (fun entry => share_summary_for_node s entry.1 entry.2) (btree_entries (st_shares (rs_tree s)))).

Definition share_summary (s : SharechainReplayState) (share_hash : string) : option SharechainShareSummary :=
  let normalized := to_ascii_lowercase share_hash in
  share_summary_for_node s normalized <$> st_shares (rs_tree s) !! normalized.

Definition claim_balances (s : SharechainReplayState) : gmap string N :=
  collect_map
    (List.filter (fun entry => 0 <? entry.2)
       (map (fun registration =>
               let owner := to_ascii_lowercase (mr_claim_owner_pubkey_hex registration) in
               (owner, balance (rs_claim_ledger s) owner))
            (btree_values (rs_registrations s)))).

Definition participant_account (s : SharechainReplayState) (registration : MinerRegistration)
    : ParticipantAccount :=
  let miner_id := to_ascii_lowercase (mr_miner_id registration) in
  let claim_owner_id := to_ascii_lowercase (mr_claim_owner_pubkey_hex registration) in
  {| pa_miner_id := miner_id;
     pa_btc_payout_script_hex := to_ascii_lowercase (mr_btc_payout_script_hex registration);
     pa_claim_owner_id := claim_owner_id;
     pa_unpaid_sats := balance (rs_claim_ledger s) claim_owner_id;
     pa_hashrate_score := default 0 (st_hashrate_scores (rs_tree s) !! miner_id);
     pa_idena_score := 0 |}.

Definition participant_accounts (s : SharechainReplayState) : list ParticipantAccount :=
  map (participant_account s) (btree_values (rs_registrations s)).

Definition has_message_hash (s : SharechainReplayState) (message_hash : string) : bool :=
  bool_decide (to_ascii_lowercase message_hash ∈ rs_applied_message_hashes s).
End views.

Record SharechainReplaySummary := {
  rsm_applied_message_count : nat;
  rsm_registered_miner_count : nat;
  rsm_unique_registered_idena_count : nat;
  rsm_active_idena_participant_count : nat;
  rsm_accepted_bitcoin_work_template_count : nat;
  rsm_bitcoin_work_template_count : nat;
  rsm_stored_share_count : nat;
  rsm_active_share_count : nat;
  rsm_inactive_share_count : nat;
  rsm_share_miner_count : nat;
  rsm_active_share_score_total : N;
  rsm_best_share_tip : option string;
  rsm_finalized_checkpoint_count : nat;
  rsm_latest_checkpoint_round : option N;
  rsm_latest_checkpoint_tip : option string;
  rsm_snapshot_vote_root_count : nat;
  rsm_proposed_payout_schedule_count : nat;
  rsm_withdrawal_request_count : nat;
  rsm_withdrawal_batch_count : nat;
  rsm_pending_withdrawal_count : nat;
  rsm_vault_claim_owner_count : nat;
  rsm_last_message_hash : option string
}.

Definition summary (s : SharechainReplayState) : SharechainReplaySummary := {|
  rsm_applied_message_count := size (rs_applied_message_hashes s);
  rsm_registered_miner_count := size (rs_registrations s);
  rsm_unique_registered_idena_count := size (idena_addresses (btree_values (rs_registrations s)));
  rsm_active_idena_participant_count := size (active_idena_addresses s);
  rsm_accepted_bitcoin_work_template_count := size (rs_accepted_bitcoin_work_template_prefixes s);
  rsm_bitcoin_work_template_count := size (rs_bitcoin_work_templates s);
  rsm_stored_share_count := size (st_shares (rs_tree s));
  rsm_active_share_count := size (st_active_share_hashes (rs_tree s));
  rsm_inactive_share_count := (size (st_shares (rs_tree s)) - size (st_active_share_hashes (rs_tree s)))%nat;
  rsm_share_miner_count := size (st_hashrate_scores (rs_tree s));
  rsm_active_share_score_total := st_active_share_score_total (rs_tree s);
  rsm_best_share_tip := st_best_share_tip (rs_tree s);
  rsm_finalized_checkpoint_count := size (st_sharechain_checkpoints (rs_tree s));
  rsm_latest_checkpoint_round := fst <$> last_key_value (st_sharechain_checkpoints (rs_tree s));
  rsm_latest_checkpoint_tip :=
    (fun entry => cp_share_tip_hash entry.2) <$> last_key_value (st_sharechain_checkpoints (rs_tree s));
  rsm_snapshot_vote_root_count := size (rs_snapshot_votes s);
  rsm_proposed_payout_schedule_count := size (rs_proposed_payout_schedules s);
  rsm_withdrawal_request_count := size (rs_withdrawal_requests s);
  rsm_withdrawal_batch_count := size (rs_withdrawal_batches s);
  rsm_pending_withdrawal_count := pending_withdrawal_count (rs_claim_ledger s);
  rsm_vault_claim_owner_count := size (claim_balances s);
  rsm_last_message_hash := rs_last_message_hash s |}.

(** ** The accounting state root *)

Global Instance gmap_serialize `{Serialize V} : Serialize (gmap string V) := fun m =>
  JObj (map (fun entry => (entry.1, to_json entry.2)) (btree_entries m)).
Global Instance gset_serialize : Serialize (gset string) := fun s => to_json (btree_set_list s).

(** A [BTreeMap<u32, _>]: numeric order, keys printed in decimal. *)
Definition compare_rounds {V} (a b : N * V) : comparison := a.1 ?= b.1.
Global Instance gmap_N_serialize `{Serialize V} : Serialize (gmap N V) := fun m =>
  JObj (map (fun entry => (pretty entry.1, to_json entry.2)) (sort_by compare_rounds (map_to_list m))).

Global Instance PendingWithdrawal_serialize : Serialize PendingWithdrawal := fun p =>
  JObj (field "request_id" (pw_request_id p) ++
        field "claim_owner_id" (pw_claim_owner_id p) ++
        field "gross_amount_sats" (pw_gross_amount_sats p) ++
        field "fee_sats" (pw_fee_sats p) ++
        field "net_amount_sats" (pw_net_amount_sats p)).

Global Instance ClaimLedger_serialize : Serialize ClaimLedger := fun l =>
  JObj (field "balances" (cl_balances l) ++
        field "pending_withdrawals" (cl_pending_withdrawals l) ++
        field "last_withdrawal_nonce_by_owner" (cl_last_withdrawal_nonce_by_owner l)).

Record AccountingStateRootMaterial := {
  am_version : string;
  am_best_share_tip : option string;
  am_active_share_hashes : list string;
  am_active_share_score_total : N;
  am_hashrate_scores : gmap string N;
  am_registrations : gmap string MinerRegistration;
  am_sharechain_checkpoints : gmap N SharechainCheckpointAnchorV1;
  am_snapshot_votes : gmap string (gset string);
  am_proposed_payout_schedules : gmap string PayoutSchedule;
  am_withdrawal_requests : gmap string WithdrawalRequest;
  am_withdrawal_batches : gmap string WithdrawalBatch;
  am_claim_ledger : ClaimLedger
}.

Global Instance AccountingStateRootMaterial_serialize : Serialize AccountingStateRootMaterial := fun m =>
  JObj (field "version" (am_version m) ++
        field "best_share_tip" (am_best_share_tip m) ++
        field "active_share_hashes" (am_active_share_hashes m) ++
        field "active_share_score_total" (am_active_share_score_total m) ++
        field "hashrate_scores" (am_hashrate_scores m) ++
        field "registrations" (am_registrations m) ++
        field "sharechain_checkpoints" (am_sharechain_checkpoints m) ++
        field "snapshot_votes" (am_snapshot_votes m) ++
        field "proposed_payout_schedules" (am_proposed_payout_schedules m) ++
        field "withdrawal_requests" (am_withdrawal_requests m) ++
        field "withdrawal_batches" (am_withdrawal_batches m) ++
        field "claim_ledger" (am_claim_ledger m)).

Section accounting.
Context `{Hashing}.

(** [serde_json::to_string] of the tuple. *)
Definition accounting_snapshot_vote_key (key : SnapshotVoteKey) : string :=
  string_of_list_byte (to_vec (JArr [to_json (vk_snapshot_day key); to_json (vk_idena_height key);
                                     to_json (to_ascii_lowercase (vk_score_root key))])).

Definition compare_vote_entries (a b : SnapshotVoteKey * gset string) : comparison :=
  compare_vote_keys a.1 b.1.

Definition accounting_material (s : SharechainReplayState) : AccountingStateRootMaterial := {|
  am_version := "POHW1_ACCOUNTING_STATE";
  am_best_share_tip := st_best_share_tip (rs_tree s);
  am_active_share_hashes := btree_set_list (st_active_share_hashes (rs_tree s));
  am_active_share_score_total := st_active_share_score_total (rs_tree s);
  am_hashrate_scores := st_hashrate_scores (rs_tree s);
  am_registrations :=
    collect_map (map (fun entry => (entry.1, mr_normalized entry.2)) (btree_entries (rs_registrations s)));
  am_sharechain_checkpoints := st_sharechain_checkpoints (rs_tree s);
  am_snapshot_votes :=
    collect_map (map (fun entry => (accounting_snapshot_vote_key entry.1, entry.2))
                   (sort_by compare_vote_entries (map_to_list (rs_snapshot_votes s))));
  am_proposed_payout_schedules := rs_proposed_payout_schedules s;
  am_withdrawal_requests :=
    collect_map (map (fun entry => (entry.1, wr_normalized entry.2))
                   (btree_entries (rs_withdrawal_requests s)));
  am_withdrawal_batches := rs_withdrawal_batches s;
  am_claim_ledger := rs_claim_ledger s |}.

Definition accounting_state_root (s : SharechainReplayState) : string :=
  hash_hex (sha256_tagged (byte_str "POHW1_ACCOUNTING_STATE") (canonical_json (accounting_material s))).
End accounting.

(** ** Checks that do not change the state *)

Section handlers.
Context `{Hashing, Secp256k1, BitcoinCrate, DateAndCid}.
Implicit Types s : SharechainReplayState.

Abbreviation checked A := (result SharechainReplayError A).

Definition validate_share_work_binding_policy s (message : SharechainMessage)
    (policy : ShareWorkBindingPolicyV1) : checked unit :=
  _ ← map_err (fun e => InvalidSharechainSignature (InvalidShareWorkBinding e)) (swp_validate policy);
  match message with
  | MsgShare share =>
      let template_hash := to_ascii_lowercase (sh_bitcoin_template_hash share) in
      template ← ok_or (UnknownShareBitcoinWorkTemplate template_hash)
                   (rs_bitcoin_work_templates s !! template_hash);
      map_err InvalidSharechainSignature (verify_required_work_binding share template policy)
  | _ => Ok tt
  end.

(** One stored share of the loop of [validate_anchored_share]. *)
Definition check_bootstrap_anchor s (miner_id : string) (anchor : IdenaBlockAnchorV1) (node : ShareNode)
    : checked unit :=
  if negb (eq_ignore_ascii_case (sh_miner_id (nd_share node)) miner_id) then Ok tt
  else
    match rs_bitcoin_work_templates s !! to_ascii_lowercase (sh_bitcoin_template_hash (nd_share node)) with
    | None => Ok tt
    | Some existing_template =>
        if bool_decide (wt_idena_anchor existing_template = Some anchor)
        then Err (DuplicateBootstrapAnchor miner_id (iba_height anchor))
        else Ok tt
    end.

Definition check_parent_anchor s (anchor : IdenaBlockAnchorV1) (parent_hash : string) : checked unit :=
  if String.eqb parent_hash ZERO_SHARE_PARENT_HASH then Ok tt
  else
    parent ← ok_or (MissingAnchoredShareParent parent_hash) (st_shares (rs_tree s) !! parent_hash);
    let parent_template_hash := to_ascii_lowercase (sh_bitcoin_template_hash (nd_share parent)) in
    parent_template ← ok_or (MissingAnchoredParentBitcoinWorkTemplate parent_template_hash)
                        (rs_bitcoin_work_templates s !! parent_template_hash);
    match wt_idena_anchor parent_template with
    | Some parent_anchor =>
        if iba_height anchor <=? iba_height parent_anchor then Err NonIncreasingBootstrapAnchor else Ok tt
    | None => Ok tt
    end.

Definition validate_anchored_share s (share : Share) (policy : IdenaAnchorPolicyV2) : checked unit :=
  let miner_id := to_ascii_lowercase (sh_miner_id share) in
  registration ← ok_or (UnknownShareMiner miner_id) (rs_registrations s !! miner_id);
  registry_anchor ← map_err (fun _ => UnanchoredMinerRegistration miner_id)
                      (require_registry_anchor registration);
  _ ← map_err IdenaAnchorPolicy (validate_registry_anchor policy registry_anchor);
  let template_hash := to_ascii_lowercase (sh_bitcoin_template_hash share) in
  template ← ok_or (UnknownShareBitcoinWorkTemplate template_hash)
               (rs_bitcoin_work_templates s !! template_hash);
  anchor ← map_err (fun _ => UnanchoredBitcoinWorkTemplate template_hash) (require_idena_anchor template);
  if iba_height anchor <? mra_registration_block registry_anchor
  then Err TemplateAnchorBeforeRegistration
  else
    let parent_hash := to_ascii_lowercase (sh_parent_share_hash share) in
    _ ← validate_unique_sharechain_root (rs_tree s) (share_hash share) parent_hash;
    version ← map_err InvalidSharechainSignature (bitcoin_header_version template);
    if negb (bootstrap_limits_active policy version) then Ok tt
    else
      _ ← try_for_each (check_bootstrap_anchor s miner_id anchor) (btree_values (st_shares (rs_tree s)));
      check_parent_anchor s anchor parent_hash.

Definition validate_anchored_template s (template : BitcoinWorkTemplate) (policy : IdenaAnchorPolicyV2)
    : checked unit :=
  let miner_id := to_ascii_lowercase (wt_miner_id template) in
  registration ← ok_or (UnknownBitcoinWorkTemplateMiner miner_id) (rs_registrations s !! miner_id);
  registry_anchor ← map_err (fun _ => UnanchoredMinerRegistration miner_id)
                      (require_registry_anchor registration);
  _ ← map_err IdenaAnchorPolicy (validate_registry_anchor policy registry_anchor);
  block_anchor ← map_err (fun _ => UnanchoredBitcoinWorkTemplate (to_ascii_lowercase (wt_template_hash template)))
                   (require_idena_anchor template);
  policy_hash ← map_err IdenaAnchorPolicy (commitment_hash policy);
  template_policy_hash ← map_err InvalidSharechainSignature (require_idena_anchor_policy_hash template);
  if negb (String.eqb template_policy_hash policy_hash)
  then Err (IdenaAnchorPolicy PolicyCommitmentMismatch)
  else if iba_height block_anchor <? mra_registration_block registry_anchor
  then Err TemplateAnchorBeforeRegistration
  else Ok tt.

Definition validate_idena_anchor_policy s (message : SharechainMessage) (policy : IdenaAnchorPolicyV2)
    : checked unit :=
  _ ← map_err IdenaAnchorPolicy (iap_validate policy);
  match message with
  | MsgMinerRegistration registration =>
      anchor ← map_err (fun _ => UnanchoredMinerRegistration (to_ascii_lowercase (mr_miner_id registration)))
                 (require_registry_anchor registration);
      map_err IdenaAnchorPolicy (validate_registry_anchor policy anchor)
  | MsgBitcoinWorkTemplate template => validate_anchored_template s template policy
  | MsgShare share => validate_anchored_share s share policy
  | MsgSharechainCheckpoint checkpoint =>
      map_err IdenaAnchorPolicy (validate_checkpoint_anchor policy checkpoint)
  | _ => Ok tt
  end.

Definition validate_target_bound_message s (message : SharechainMessage) : checked unit :=
  match message with
  | MsgBitcoinWorkTemplate template => map_err InvalidSharechainSignature (require_target_bound template)
  | MsgShare share =>
      let template_hash := to_ascii_lowercase (sh_bitcoin_template_hash share) in
      template ← ok_or (UnknownShareBitcoinWorkTemplate template_hash)
                   (rs_bitcoin_work_templates s !! template_hash);
      _ ← map_err InvalidSharechainSignature (require_target_bound template);
      map_err InvalidSharechainSignature (verify_assigned_share_target template (sh_target share))
  | _ => Ok tt
  end.

Definition validate_share_bitcoin_work_template s (share : Share) : checked unit :=
  let template_hash := to_ascii_lowercase (sh_bitcoin_template_hash share) in
  template ← ok_or (UnknownShareBitcoinWorkTemplate template_hash)
               (rs_bitcoin_work_templates s !! template_hash);
  share_prefix ← map_err InvalidSharechainSignature (bitcoin_header_prefix_hex share);
  if negb (eq_ignore_ascii_case share_prefix (wt_header_prefix_hex template))
  then Err (ShareBitcoinWorkTemplateMismatch template_hash)
  else map_err InvalidSharechainSignature (verify_assigned_share_target template (sh_target share)).

(** ** Templates *)

(** The conflict is detected after the insertion has replaced the entry. *)
Definition insert_accepted_prefix (template_hash normalized_prefix : string) : state_method string :=
  prefixes ← gets rs_accepted_bitcoin_work_template_prefixes;
  _ ← modify (with_prefixes (<[template_hash := normalized_prefix]> prefixes));
  match prefixes !! template_hash with
  | Some existing_prefix =>
      if negb (String.eqb existing_prefix normalized_prefix)
      then throw (ConflictingBitcoinWorkTemplate template_hash)
      else mret template_hash
  | None => mret template_hash
  end.

Definition accept_bitcoin_work_template_prefix (header_prefix_hex : string) : state_method string :=
  template_hash ← lift (map_err InvalidSharechainSignature (template_hash_for_header_prefix_hex header_prefix_hex));
  insert_accepted_prefix template_hash (to_ascii_lowercase header_prefix_hex).

Definition accept_bitcoin_work_template (template : BitcoinWorkTemplate) : state_method string :=
  _ ← lift (map_err InvalidSharechainSignature (verify_template_hash template));
  insert_accepted_prefix (to_ascii_lowercase (wt_template_hash template))
    (to_ascii_lowercase (wt_header_prefix_hex template)).

Definition apply_bitcoin_work_template (template : BitcoinWorkTemplate) : state_method unit :=
  let miner_id := to_ascii_lowercase (wt_miner_id template) in
  registrations ← gets rs_registrations;
  registration ← lift (ok_or (UnknownBitcoinWorkTemplateMiner miner_id) (registrations !! miner_id));
  _ ← lift (map_err InvalidSharechainSignature
              (wt_verify_mining_signature template (mr_mining_pubkey_hex registration)));
  let template_hash := to_ascii_lowercase (wt_template_hash template) in
  prefixes ← gets rs_accepted_bitcoin_work_template_prefixes;
  accepted_prefix ← lift (ok_or (UnacceptedBitcoinWorkTemplate template_hash) (prefixes !! template_hash));
  if negb (eq_ignore_ascii_case (wt_header_prefix_hex template) accepted_prefix)
  then throw (ConflictingBitcoinWorkTemplate template_hash)
  else
    let normalized := wt_normalized template in
    templates ← gets rs_bitcoin_work_templates;
    _ ← modify (with_templates (<[template_hash := normalized]> templates));
    match templates !! template_hash with
    | Some existing =>
        if bool_decide (existing <> normalized)
        then throw (ConflictingBitcoinWorkTemplate template_hash)
        else mret tt
    | None => mret tt
    end.

(** ** Registrations *)

Definition is_valid_registry_registration_upgrade (existing candidate : MinerRegistration) : bool :=
  if negb (mr_version candidate =? IDENA_ANCHORED_MINER_REGISTRATION_VERSION)
     || negb (eq_ignore_ascii_case (mr_miner_id existing) (mr_miner_id candidate))
     || negb (eq_ignore_ascii_case (mr_idena_address existing) (mr_idena_address candidate))
     || negb (eq_ignore_ascii_case (mr_btc_payout_script_hex existing) (mr_btc_payout_script_hex candidate))
     || negb (eq_ignore_ascii_case (mr_claim_owner_pubkey_hex existing) (mr_claim_owner_pubkey_hex candidate))
     || negb (eq_ignore_ascii_case (mr_mining_pubkey_hex existing) (mr_mining_pubkey_hex candidate))
  then false
  else
    match mr_registry_anchor candidate, mr_registry_anchor existing with
    | None, _ => false
    | Some _, None => true
    | Some candidate_anchor, Some existing_anchor =>
        eq_ignore_ascii_case (mra_contract_address candidate_anchor) (mra_contract_address existing_anchor)
        && eq_ignore_ascii_case (mra_experiment_id candidate_anchor) (mra_experiment_id existing_anchor)
        && (mra_registration_sequence existing_anchor <? mra_registration_sequence candidate_anchor)
    end.

(** The copy [apply_registration] stores: every field but the anchor in lower case. *)
Definition stored_registration (r : MinerRegistration) : MinerRegistration := {|
  mr_version := mr_version r;
  mr_miner_id := to_ascii_lowercase (mr_miner_id r);
  mr_idena_address := to_ascii_lowercase (mr_idena_address r);
  mr_btc_payout_script_hex := to_ascii_lowercase (mr_btc_payout_script_hex r);
  mr_claim_owner_pubkey_hex := to_ascii_lowercase (mr_claim_owner_pubkey_hex r);
  mr_mining_pubkey_hex := to_ascii_lowercase (mr_mining_pubkey_hex r);
  mr_registry_anchor := mr_registry_anchor r;
  mr_idena_signature_hex := to_ascii_lowercase (mr_idena_signature_hex r);
  mr_mining_signature_hex := to_ascii_lowercase (mr_mining_signature_hex r) |}.

Definition apply_registration (registration : MinerRegistration) : state_method unit :=
  _ ← lift (map_err InvalidSharechainSignature (mr_verify_mining_signature registration));
  _ ← lift (map_err InvalidSharechainSignature (verify_idena_ownership_signature registration));
  let registration := stored_registration registration in
  registrations ← gets rs_registrations;
  let insert := modify (with_registrations (<[mr_miner_id registration := registration]> registrations)) in
  match registrations !! mr_miner_id registration with
  | Some existing =>
      if bool_decide (existing = registration) then mret tt
      else if negb (is_valid_registry_registration_upgrade existing registration)
      then throw (ConflictingRegistration (mr_miner_id registration))
      else insert
  | None => insert
  end.

(** ** Votes and payout schedules *)

Definition apply_snapshot_vote (vote : SnapshotVote) : state_method unit :=
  let voter_miner_id := to_ascii_lowercase (sv_voter_miner_id vote) in
  registrations ← gets rs_registrations;
  registration ← lift (ok_or (UnknownSnapshotVoter voter_miner_id) (registrations !! voter_miner_id));
  _ ← lift (map_err InvalidSharechainSignature
              (sv_verify_mining_signature vote (mr_mining_pubkey_hex registration)));
  let key := {| vk_snapshot_day := sv_snapshot_day vote; vk_idena_height := sv_idena_height vote;
                vk_score_root := to_ascii_lowercase (sv_score_root vote) |} in
  modify (fun s => with_votes
    (<[key := {[voter_miner_id]} ∪ default ∅ (rs_snapshot_votes s !! key)]> (rs_snapshot_votes s)) s).

Definition check_direct_binding (registrations : gmap string MinerRegistration) (output : DirectPayout)
    : checked unit :=
  let miner_id := to_ascii_lowercase (dp_miner_id output) in
  registration ← ok_or (UnknownPayoutMiner miner_id) (registrations !! miner_id);
  if negb (String.eqb (to_ascii_lowercase (dp_btc_payout_script_hex output))
             (mr_btc_payout_script_hex registration))
  then Err (PayoutScriptMismatch miner_id)
  else Ok tt.

Definition check_vault_binding (registrations : gmap string MinerRegistration) (allocation : VaultAllocation)
    : checked unit :=
  let miner_id := to_ascii_lowercase (va_miner_id allocation) in
  registration ← ok_or (UnknownPayoutMiner miner_id) (registrations !! miner_id);
  if negb (String.eqb (to_ascii_lowercase (va_claim_owner_id allocation))
             (mr_claim_owner_pubkey_hex registration))
  then Err (PayoutClaimOwnerMismatch miner_id)
  else Ok tt.

Definition validate_payout_schedule_bindings s (schedule : PayoutSchedule) : checked unit :=
  _ ← map_err InvalidPayoutSchedule (ps_validate schedule);
  _ ← try_for_each (check_direct_binding (rs_registrations s)) (ps_direct_outputs schedule);
  try_for_each (check_vault_binding (rs_registrations s)) (ps_vault_allocations schedule).

Definition expected_payout_schedule s (accounts : list ParticipantAccount) (reward_sats : N)
    (direct_limit : nat) (min_direct_payout_sats : N) : checked PayoutSchedule :=
  schedule ← map_err InvalidPayoutSchedule
               (build_payout_schedule accounts reward_sats direct_limit min_direct_payout_sats);
  _ ← validate_payout_schedule_bindings s schedule;
  Ok schedule.

Definition validate_deterministic_payout_schedule s (schedule : PayoutSchedule)
    (accounts : list ParticipantAccount) (reward_sats : N) (direct_limit : nat)
    (min_direct_payout_sats : N) : checked unit :=
  _ ← validate_payout_schedule_bindings s schedule;
  expected ← expected_payout_schedule s accounts reward_sats direct_limit min_direct_payout_sats;
  if bool_decide (expected <> schedule) then Err PayoutScheduleMismatch else Ok tt.

Definition apply_payout_schedule_proposal (schedule : PayoutSchedule) : state_method unit :=
  _ ← asks (fun s => validate_payout_schedule_bindings s schedule);
  let payout_root := to_ascii_lowercase (ps_payout_root schedule) in
  schedules ← gets rs_proposed_payout_schedules;
  match schedules !! payout_root with
  | Some existing =>
      if bool_decide (existing <> schedule) then throw (ConflictingPayoutSchedule payout_root) else mret tt
  | None => modify (with_schedules (<[payout_root := schedule]> schedules))
  end.

(** [self.claim_ledger.apply_payout_schedule(schedule)?]: a failure keeps the
    credits made before it. *)
Definition apply_confirmed_payout_schedule (schedule : PayoutSchedule) (accounts : list ParticipantAccount)
    (reward_sats : N) (direct_limit : nat) (min_direct_payout_sats : N) : state_method unit :=
  _ ← asks (fun s => validate_deterministic_payout_schedule s schedule accounts reward_sats direct_limit
                       min_direct_payout_sats);
  on_ledger (apply_payout_schedule schedule).

(** ** Withdrawals *)

Definition output_matches_request (request : WithdrawalRequest) (output : WithdrawalOutput) : bool :=
  negb (negb (eq_ignore_ascii_case (wr_destination_script_hex request) (wo_destination_script_hex output))
        || bool_decide (wr_output_kind request <> wo_output_kind output)
        || negb (wr_amount_sats request =? wo_gross_amount_sats output)).

Definition pending_matches_output (pending : PendingWithdrawal) (output : WithdrawalOutput) : bool :=
  negb (negb (String.eqb (pw_request_id pending) (wo_request_id output))
        || negb (pw_gross_amount_sats pending =? wo_gross_amount_sats output)
        || negb (pw_fee_sats pending =? wo_fee_sats output)
        || negb (pw_net_amount_sats pending =? wo_net_amount_sats output)).

Definition get_request s (output : WithdrawalOutput) : checked WithdrawalRequest :=
  ok_or (UnknownWithdrawalRequest (wo_request_id output)) (rs_withdrawal_requests s !! wo_request_id output).

Definition expected_withdrawal_batch s (batch : WithdrawalBatch) (current_height : N)
    : checked WithdrawalBatch :=
  let batch := wb_normalized batch in
  requests ← try_map (get_request s) (wb_outputs batch);
  expected ← map_err RP_InvalidWithdrawal
               (build_withdrawal_batch requests (wb_inputs batch) (wb_fee_rate_sat_vb batch) current_height);
  if bool_decide (expected <> batch) then Err (WithdrawalBatchMismatch (batch_hash batch)) else Ok expected.

(** One output of the loop of [claim_ledger_after_withdrawal_batch]. *)
Definition reserve_output s (current_height : N) (ledger : ClaimLedger) (output : WithdrawalOutput)
    : checked ClaimLedger :=
  request ← get_request s output;
  if negb (output_matches_request request output)
  then Err (WithdrawalBatchRequestMismatch (wo_request_id output))
  else
    let '(r, ledger) := reserve_withdrawal request (wo_fee_sats output) current_height ledger in
    pending ← map_err LedgerFailure r;
    if negb (pending_matches_output pending output)
    then Err (WithdrawalBatchRequestMismatch (wo_request_id output))
    else Ok ledger.

Definition claim_ledger_after_withdrawal_batch s (batch : WithdrawalBatch) (current_height : N)
    : checked ClaimLedger :=
  batch ← expected_withdrawal_batch s batch current_height;
  try_fold (reserve_output s current_height) (rs_claim_ledger s) (wb_outputs batch).

(** One output of the loop of [withdrawal_batch_is_reserved]. *)
Definition check_reserved s (current_height : N) (output : WithdrawalOutput) : checked unit :=
  request ← get_request s output;
  if negb (output_matches_request request output)
  then Err (WithdrawalBatchRequestMismatch (wo_request_id output))
  else
    _ ← map_err RP_InvalidWithdrawal (wr_validate request current_height);
    pending ← ok_or (UnreservedWithdrawalRequest (wo_request_id output))
                (pending_withdrawal (rs_claim_ledger s) (wo_request_id output));
    if negb (pending_matches_output pending output)
       || negb (String.eqb (pw_claim_owner_id pending) (wr_claim_owner_id request))
    then Err (WithdrawalBatchRequestMismatch (wo_request_id output))
    else Ok tt.

Definition withdrawal_batch_is_reserved s (batch : WithdrawalBatch) (current_height : N) : checked unit :=
  batch ← expected_withdrawal_batch s batch current_height;
  let hash := batch_hash batch in
  accepted ← ok_or (UnknownWithdrawalBatch hash) (rs_withdrawal_batches s !! hash);
  if bool_decide (accepted <> batch) then Err (ConflictingWithdrawalBatch hash)
  else try_for_each (check_reserved s current_height) (wb_outputs batch).

Definition apply_withdrawal_request (request : WithdrawalRequest) : state_method unit :=
  _ ← lift (map_err RP_InvalidWithdrawal (wr_validate request 0));
  let request := wr_normalized request in
  ledger ← gets rs_claim_ledger;
  let available_sats := balance ledger (wr_claim_owner_id request) in
  if available_sats <? wr_amount_sats request
  then throw (LedgerFailure (InsufficientBalance (wr_claim_owner_id request) (wr_amount_sats request)
                               available_sats))
  else
    requests ← gets rs_withdrawal_requests;
    match requests !! wr_request_id request with
    | Some existing =>
        if bool_decide (existing <> request)
        then throw (ConflictingWithdrawalRequest (wr_request_id request))
        else mret tt
    | None => modify (with_requests (<[wr_request_id request := request]> requests))
    end.

Definition apply_withdrawal_batch (batch : WithdrawalBatch) : state_method unit :=
  let batch := wb_normalized batch in
  let hash := batch_hash batch in
  batches ← gets rs_withdrawal_batches;
  match batches !! hash with
  | Some existing =>
      if bool_decide (existing <> batch) then throw (ConflictingWithdrawalBatch hash) else mret tt
  | None =>
      ledger ← asks (fun s => claim_ledger_after_withdrawal_batch s batch 0);
      _ ← modify (with_ledger ledger);
      modify (fun s => with_batches (<[hash := batch]> (rs_withdrawal_batches s)) s)
  end.

(** ** Messages *)

Definition apply_share_message (share : Share) : state_method unit :=
  let miner_id := to_ascii_lowercase (sh_miner_id share) in
  registrations ← gets rs_registrations;
  registration ← lift (ok_or (UnknownShareMiner miner_id) (registrations !! miner_id));
  let template_hash := to_ascii_lowercase (sh_bitcoin_template_hash share) in
  templates ← gets rs_bitcoin_work_templates;
  template ← lift (ok_or (UnknownShareBitcoinWorkTemplate template_hash) (templates !! template_hash));
  _ ← lift (map_err InvalidSharechainSignature
              (verify_mining_signature_for_template share (mr_mining_pubkey_hex registration) template));
  _ ← asks (fun s => validate_share_bitcoin_work_template s share);
  on_tree (apply_share share).

Definition apply_payload (message : SharechainMessage) : state_method unit :=
  match message with
  | MsgMinerRegistration registration => apply_registration registration
  | MsgBitcoinWorkTemplate template => apply_bitcoin_work_template template
  | MsgShare share => apply_share_message share
  | MsgSharechainCheckpoint checkpoint =>
      registrations ← gets rs_registrations;
      on_tree (apply_sharechain_checkpoint registrations checkpoint)
  | MsgSnapshotVote vote => apply_snapshot_vote vote
  | MsgPayoutSchedule schedule => apply_payout_schedule_proposal schedule
  | MsgWithdrawalRequest request => apply_withdrawal_request request
  | MsgWithdrawalBatch batch => apply_withdrawal_batch batch
  | MsgPohwCommitment commitment => lift (map_err InvalidCommitment (pc_validate_fields commitment))
  end.

Definition apply_message (message : SharechainMessage) : state_method ApplyOutcome :=
  let hash := message_hash message in
  applied ← gets rs_applied_message_hashes;
  if bool_decide (hash ∈ applied) then mret DuplicateIgnored
  else
    _ ← apply_payload message;
    _ ← modify (fun s => with_applied ({[hash]} ∪ rs_applied_message_hashes s) s);
    _ ← modify (with_last (Some hash));
    mret Applied.
End handlers.
