(* ===== verification/Vault.v ===== *)
(** * Vault epochs, spend plans and signing sessions ([crates/pohw-core/src/vault.rs])

    A vault epoch is the set of online signers with a 67% threshold and, once
    the key generation has run, the group key and the FROST identifiers of the
    signers.  A spend plan lists vault inputs, a withdrawal batch and a
    remainder; a signing session collects verified signature shares for one
    plan until every input has a quorum.  Times are nanoseconds; an error text
    that embeds another error ([err.to_string()]) keeps that error as a value.
    [VaultSafety.v] has the theorems. *)
From S2P Require Import Prelude Order Text Crates Withdrawal DkgTransport ShareTree SharechainState.
From Stdlib Require Import Strings.Ascii.

Local Open Scope N_scope.

(** ** Data *)

Definition MIN_VAULT_INPUT_CONFIRMATIONS : N := 100.

Record SignerHeartbeat := {
  hb_signer_id : string;
  hb_idena_address : string;
  hb_host_pubkey : string;
  hb_last_seen : Z;
  hb_eligible : bool
}.

Record DkgSignerBinding := {
  sb_signer_id : string;
  sb_frost_identifier_hex : string
}.

Global Instance DkgSignerBinding_serialize : Serialize DkgSignerBinding := fun b =>
  JObj (field "signer_id" (sb_signer_id b) ++
        field "frost_identifier_hex" (sb_frost_identifier_hex b)).

Record VaultEpoch := {
  ve_epoch_id : N;
  ve_starts_at : Z;
  ve_signer_ids : list string;
  ve_threshold : nat;
  ve_frost_group_key_xonly : option string;
  ve_dkg_transcript_hash : option string;
  ve_dkg_public_key_package_hash : option string;
  ve_frost_signer_bindings : list DkgSignerBinding
}.

Record DkgTranscript := {
  dt_epoch_id : N;
  dt_threshold : nat;
  dt_signer_ids : list string;
  dt_frost_group_key_xonly : string;
  dt_public_key_package_hash : string;
  dt_signer_bindings : list DkgSignerBinding;
  dt_round1_packages_root : string;
  dt_round2_packages_root : string;
  dt_signer_ack_root : string;
  dt_recovery_data_hash : string
}.

Global Instance DkgTranscript_serialize : Serialize DkgTranscript := fun t =>
  JObj (field "epoch_id" (dt_epoch_id t) ++
        field "threshold" (dt_threshold t) ++
        field "signer_ids" (dt_signer_ids t) ++
        field "frost_group_key_xonly" (dt_frost_group_key_xonly t) ++
        field "public_key_package_hash" (dt_public_key_package_hash t) ++
        field "signer_bindings" (dt_signer_bindings t) ++
        field "round1_packages_root" (dt_round1_packages_root t) ++
        field "round2_packages_root" (dt_round2_packages_root t) ++
        field "signer_ack_root" (dt_signer_ack_root t) ++
        field "recovery_data_hash" (dt_recovery_data_hash t)).

Record VaultInput := {
  vi_txid : string;
  vi_vout : N;
  vi_amount_sats : N;
  vi_confirmations : N;
  vi_script_pubkey_hex : string
}.

Global Instance VaultInput_serialize : Serialize VaultInput := fun i =>
  JObj (field "txid" (vi_txid i) ++
        field "vout" (vi_vout i) ++
        field "amount_sats" (vi_amount_sats i) ++
        field "confirmations" (vi_confirmations i) ++
        field "script_pubkey_hex" (vi_script_pubkey_hex i)).

Inductive VaultRemainderKind := SameEpochChange | NextEpochRotation.

Global Instance VaultRemainderKind_serialize : Serialize VaultRemainderKind := fun k =>
  JStr match k with SameEpochChange => "SameEpochChange" | NextEpochRotation => "NextEpochRotation" end.

Record VaultRemainderOutput := {
  vr_epoch_id : N;
  vr_frost_group_key_xonly : string;
  vr_amount_sats : N;
  vr_kind : VaultRemainderKind
}.

Global Instance VaultRemainderOutput_serialize : Serialize VaultRemainderOutput := fun r =>
  JObj (field "epoch_id" (vr_epoch_id r) ++
        field "frost_group_key_xonly" (vr_frost_group_key_xonly r) ++
        field "amount_sats" (vr_amount_sats r) ++
        field "kind" (vr_kind r)).

Record VaultSpendPlan := {
  vp_epoch_id : N;
  vp_frost_group_key_xonly : string;
  vp_inputs : list VaultInput;
  vp_withdrawal_batch : option WithdrawalBatch;
  vp_tx_fee_sats : N;
  vp_vault_remainder : option VaultRemainderOutput
}.

Global Instance VaultSpendPlan_serialize : Serialize VaultSpendPlan := fun p =>
  JObj (field "epoch_id" (vp_epoch_id p) ++
        field "frost_group_key_xonly" (vp_frost_group_key_xonly p) ++
        field "inputs" (vp_inputs p) ++
        field "withdrawal_batch" (vp_withdrawal_batch p) ++
        field "tx_fee_sats" (vp_tx_fee_sats p) ++
        field "vault_remainder" (vp_vault_remainder p)).

Record FrostSignatureShare := {
  fs_signer_id : string;
  fs_frost_identifier_hex : string;
  fs_public_key_package_hash : string;
  fs_spend_plan_hash : string;
  fs_input_index : nat;
  fs_sighash_hex : string;
  fs_signature_share_hex : string
}.

Record VerifiedFrostSignatureShare := { vfs_share : FrostSignatureShare }.

Record VaultSigningSession := {
  vs_epoch_id : N;
  vs_threshold : nat;
  vs_signer_ids : list string;
  vs_dkg_public_key_package_hash : string;
  vs_spend_plan_hash : string;
  vs_input_sighashes : list string;
  vs_spend_plan : VaultSpendPlan;
  vs_signer_frost_identifiers : gmap string string;
  vs_signature_shares : gmap string FrostSignatureShare
}.

Record InputSignerApproval := {
  ia_input_index : nat;
  ia_sighash_hex : string;
  ia_signer_ids : list string
}.

Record VaultSpendApproval := {
  va_epoch_id : N;
  va_threshold : nat;
  va_dkg_public_key_package_hash : string;
  va_spend_plan_hash : string;
  va_input_sighashes : list string;
  va_signer_ids : list string;
  va_input_signer_ids : list InputSignerApproval;
  va_signature_shares : list FrostSignatureShare
}.

Inductive VaultError :=
| WrongEpoch (expected actual : N)
| SignerSetMismatch
| EmptyTranscriptSignerSet
| InvalidTranscriptThreshold (threshold signer_count expected_threshold : nat)
| SignerBindingMismatch
| InvalidSignerId (signer_id : string)
| DuplicateSignerId (signer_id : string)
| DuplicateSignerBinding (signer_id : string)
| DuplicateFrostIdentifierBinding (frost_identifier_hex : string)
| MissingGroupKey (epoch_id : N)
| MissingDkgTranscript (epoch_id : N)
| InvalidXOnlyGroupKey (reason : string)
| InvalidFrostIdentifier (value : string)
| InvalidHexPayload
| InvalidHashPayload (value : string)
| EmptyVaultInputs
| ZeroValueInput (txid : string) (vout : N)
| InvalidVaultInputTxid (txid : string)
| InvalidVaultInputScript (reason : string)
| VaultInputScriptMismatch (txid : string) (vout : N) (expected_script_pubkey_hex actual_script_pubkey_hex : string)
| DuplicateVaultInput (txid : string) (vout : N)
| InsufficientInputConfirmations (txid : string) (vout confirmations minimum_confirmations : N)
| NoSpendOutputs
| EmptyWithdrawalBatch
| BatchInputCountMismatch (batch_inputs vault_inputs : N)
| DuplicateWithdrawalOutput (request_id : string)
| WithdrawalOutputFeeExceedsAmount (request_id : string) (gross_amount_sats fee_sats : N)
| WithdrawalOutputNetMismatch (request_id : string) (gross_amount_sats fee_sats net_amount_sats : N)
| WithdrawalOutputPolicy (request_id : string) (reason : WithdrawalError)
| WithdrawalBatchEstimate (reason : WithdrawalError)
| BatchVsizeMismatch (batch_vsize expected_vsize : N)
| BatchFeeEstimateMismatch (batch_fee_sats expected_fee_sats : N)
| BatchFeeMismatch (batch_fee_sats tx_fee_sats : N)
| BatchOutputFeeMismatch (output_fee_total_sats batch_fee_sats : N)
| AmountMismatch (input_total_sats expected_spend_sats : N)
| FeeExceedsInputs (input_total_sats tx_fee_sats : N)
| V_AmountOverflow
| InvalidRemainderTarget
| WrongGroupKey (epoch_id : N)
| EmptySignerSet
| ThresholdExceedsSignerCount (threshold signer_count : nat)
| MissingInputSighashes
| InputSighashCountMismatch (input_count sighash_count : nat)
| InputIndexOutOfRange (input_index input_count : nat)
| InputSighashMismatch (input_index : nat) (expected_sighash actual_sighash : string)
| WrongSpendPlanHash
| SignerNotInEpoch (signer_id : string) (epoch_id : N)
| MissingSignerBinding (signer_id : string) (epoch_id : N)
| WrongFrostIdentifier (signer_id expected_frost_identifier_hex actual_frost_identifier_hex : string)
| WrongPublicKeyPackageHash (expected_public_key_package_hash actual_public_key_package_hash : string)
| DuplicateSignatureShare (signer_id : string) (input_index : nat)
| UnverifiedSignatureShare (signer_id : string)
| UnreservedWithdrawalBatch
| UnverifiedWithdrawalBatch (reason : SharechainReplayError)
| NotEnoughSignatureShares (threshold actual : nat).

Abbreviation vault_checked := (result VaultError).

(** ** Thresholds and field checks *)

(** [(67 * n).div_ceil(100)]; a [Vec] of strings is too short for the product
    to overflow a [usize]. *)
Definition threshold_67_percent (n : nat) : nat :=
  if Nat.eqb n 0 then 0 else ((67 * n + 99) / 100)%nat.

(** The check shared by the five [validate_*_hex] functions: 64 hexadecimal
    digits, returned in lower case. *)
Definition hex64 (e : string -> VaultError) (value : string) : vault_checked string :=
  let normalized := to_ascii_lowercase value in
  if Nat.eqb (String.length normalized) 64 && all_bytes is_ascii_hexdigit normalized
  then Ok normalized
  else Err (e value).

Definition validate_xonly_hex : string -> vault_checked string := hex64 InvalidXOnlyGroupKey.
Definition validate_input_txid : string -> vault_checked string := hex64 InvalidVaultInputTxid.
Definition validate_frost_signature_share_hex : string -> vault_checked string :=
  hex64 (fun _ => InvalidHexPayload).
Definition validate_frost_identifier_hex : string -> vault_checked string := hex64 InvalidFrostIdentifier.
Definition validate_hash_hex : string -> vault_checked string := hex64 InvalidHashPayload.

Definition deterministic_frost_identifier_hex (idx : nat) : string :=
  padded_lower_hex 64 (N.of_nat idx + 1).

Definition checked_signer_id (signer_id : string) : vault_checked string :=
  map_err (fun _ => InvalidSignerId signer_id) (normalize_dkg_signer_id signer_id).

Definition normalize_signer_ids (signer_ids : list string) : vault_checked (list string) :=
  signer_ids ← try_map checked_signer_id signer_ids;
  let signer_ids := sort_by str_cmp signer_ids in
  match adjacent_duplicate signer_ids with
  | Some d => Err (DuplicateSignerId d)
  | None => Ok signer_ids
  end.

Definition sb_normalized (b : DkgSignerBinding) : vault_checked DkgSignerBinding :=
  signer_id ← checked_signer_id (sb_signer_id b);
  frost ← validate_frost_identifier_hex (sb_frost_identifier_hex b);
  Ok {| sb_signer_id := signer_id; sb_frost_identifier_hex := frost |}.

(** The loop over [&bindings] with its two sets. *)
Fixpoint check_bindings (signer_ids frost_identifiers : gset string) (l : list DkgSignerBinding)
    : vault_checked unit :=
  match l with
  | [] => Ok tt
  | b :: l' =>
      if bool_decide (sb_signer_id b ∈ signer_ids)
      then Err (DuplicateSignerBinding (sb_signer_id b))
      else if bool_decide (sb_frost_identifier_hex b ∈ frost_identifiers)
      then Err (DuplicateFrostIdentifierBinding (sb_frost_identifier_hex b))
      else check_bindings ({[sb_signer_id b]} ∪ signer_ids)
             ({[sb_frost_identifier_hex b]} ∪ frost_identifiers) l'
  end.

Definition compare_bindings (a b : DkgSignerBinding) : comparison :=
  str_cmp (sb_signer_id a) (sb_signer_id b).

Definition normalize_signer_bindings (bindings : list DkgSignerBinding)
    : vault_checked (list DkgSignerBinding) :=
  bindings ← try_map sb_normalized bindings;
  let bindings := sort_by compare_bindings bindings in
  _ ← check_bindings ∅ ∅ bindings;
  Ok bindings.

Definition vi_normalized (i : VaultInput) : VaultInput := {|
  vi_txid := to_ascii_lowercase (vi_txid i);
  vi_vout := vi_vout i;
  vi_amount_sats := vi_amount_sats i;
  vi_confirmations := vi_confirmations i;
  vi_script_pubkey_hex := to_ascii_lowercase (vi_script_pubkey_hex i) |}.

Definition compare_inputs (a b : VaultInput) : comparison :=
  then_with (str_cmp (vi_txid a) (vi_txid b)) (vi_vout a ?= vi_vout b).

Definition normalize_inputs (inputs : list VaultInput) : list VaultInput :=
  sort_by compare_inputs (map vi_normalized inputs).

Definition normalize_withdrawal_outputs (outputs : list WithdrawalOutput) : list WithdrawalOutput :=
  sort_by compare_output_ids outputs.

Definition normalize_input_sighashes (input_sighashes : list string) : vault_checked (list string) :=
  try_map validate_hash_hex input_sighashes.

Definition signature_share_key (input_index : nat) (signer_id : string) : string :=
  pretty input_index +:+ ":" +:+ signer_id.

Definition sum_sats (values : list N) : vault_checked N :=
  try_fold (fun total value => ok_or V_AmountOverflow (checked_add sats_bits total value)) 0 values.

(** ** Epochs *)

(** [signed_duration_since(_).num_seconds()] truncates towards zero. *)
Definition age_seconds (starts_at last_seen : Z) : Z := Z.quot (starts_at - last_seen) 1000000000.

Definition is_online (starts_at max_age_seconds : Z) (h : SignerHeartbeat) : bool :=
  let age := age_seconds starts_at (hb_last_seen h) in
  hb_eligible h && (0 <=? age)%Z && (age <=? max_age_seconds)%Z.

(** [Vec::dedup]. *)
Fixpoint dedup (l : list string) : list string :=
  match l with
  | x :: (y :: _) as l' => if String.eqb x y then dedup l' else x :: dedup l'
  | _ => l
  end.

Definition from_online_signers (epoch_id : N) (starts_at : Z) (heartbeats : list SignerHeartbeat)
    (max_age_seconds : Z) : VaultEpoch :=
  let online := List.filter (is_online starts_at max_age_seconds) heartbeats in
  let ids := omap (fun h => match normalize_dkg_signer_id (hb_signer_id h) with
                            | Ok id => Some id
                            | Err _ => None
                            end) online in
  let signer_ids := dedup (sort_by str_cmp ids) in
  {| ve_epoch_id := epoch_id; ve_starts_at := starts_at; ve_signer_ids := signer_ids;
     ve_threshold := threshold_67_percent (length signer_ids);
     ve_frost_group_key_xonly := None; ve_dkg_transcript_hash := None;
     ve_dkg_public_key_package_hash := None; ve_frost_signer_bindings := [] |}.

Definition signer_count (e : VaultEpoch) : nat := length (ve_signer_ids e).

(** The loop that compares each binding with its position's identifier. *)
Fixpoint check_identifiers (idx : nat) (l : list DkgSignerBinding) : vault_checked unit :=
  match l with
  | [] => Ok tt
  | b :: l' =>
      if negb (String.eqb (sb_frost_identifier_hex b) (deterministic_frost_identifier_hex idx))
      then Err SignerBindingMismatch
      else check_identifiers (S idx) l'
  end.

Definition dt_normalized (t : DkgTranscript) : vault_checked DkgTranscript :=
  signer_ids ← normalize_signer_ids (dt_signer_ids t);
  if Nat.eqb (length signer_ids) 0 then Err EmptyTranscriptSignerSet
  else
    let expected_threshold := threshold_67_percent (length signer_ids) in
    if Nat.eqb (dt_threshold t) 0 || Nat.ltb (length signer_ids) (dt_threshold t)
       || negb (Nat.eqb (dt_threshold t) expected_threshold)
    then Err (InvalidTranscriptThreshold (dt_threshold t) (length signer_ids) expected_threshold)
    else
      group_key ← validate_xonly_hex (dt_frost_group_key_xonly t);
      package_hash ← validate_hash_hex (dt_public_key_package_hash t);
      bindings ← normalize_signer_bindings (dt_signer_bindings t);
      if bool_decide (map sb_signer_id bindings <> signer_ids) then Err SignerBindingMismatch
      else
        _ ← check_identifiers 0 bindings;
        round1 ← validate_hash_hex (dt_round1_packages_root t);
        round2 ← validate_hash_hex (dt_round2_packages_root t);
        ack ← validate_hash_hex (dt_signer_ack_root t);
        recovery ← validate_hash_hex (dt_recovery_data_hash t);
        Ok {| dt_epoch_id := dt_epoch_id t; dt_threshold := dt_threshold t;
              dt_signer_ids := signer_ids; dt_frost_group_key_xonly := group_key;
              dt_public_key_package_hash := package_hash; dt_signer_bindings := bindings;
              dt_round1_packages_root := round1; dt_round2_packages_root := round2;
              dt_signer_ack_root := ack; dt_recovery_data_hash := recovery |}.

Definition transcript_hash `{Hashing} (t : DkgTranscript) : string :=
  hash_hex (sha256_tagged (byte_str "POHW1_CHILLDKG_TRANSCRIPT") (canonical_json t)).

Definition with_transcript (t : DkgTranscript) (hash : string) (e : VaultEpoch) : VaultEpoch := {|
  ve_epoch_id := ve_epoch_id e; ve_starts_at := ve_starts_at e; ve_signer_ids := ve_signer_ids e;
  ve_threshold := ve_threshold e;
  ve_frost_group_key_xonly := Some (dt_frost_group_key_xonly t);
  ve_dkg_transcript_hash := Some hash;
  ve_dkg_public_key_package_hash := Some (dt_public_key_package_hash t);
  ve_frost_signer_bindings := dt_signer_bindings t |}.

Definition attach_dkg_transcript `{Hashing} (transcript : DkgTranscript) : M VaultEpoch VaultError unit :=
  transcript ← lift (dt_normalized transcript);
  self ← gets id;
  if negb (dt_epoch_id transcript =? ve_epoch_id self)
  then throw (WrongEpoch (ve_epoch_id self) (dt_epoch_id transcript))
  else if negb (Nat.eqb (dt_threshold transcript) (ve_threshold self))
          || bool_decide (dt_signer_ids transcript <> ve_signer_ids self)
  then throw SignerSetMismatch
  else modify (with_transcript transcript (transcript_hash transcript)).

Definition required_group_key (e : VaultEpoch) : vault_checked string :=
  key ← ok_or (MissingGroupKey (ve_epoch_id e)) (ve_frost_group_key_xonly e);
  validate_xonly_hex key.

Definition required_public_key_package_hash (e : VaultEpoch) : vault_checked string :=
  hash ← ok_or (MissingDkgTranscript (ve_epoch_id e)) (ve_dkg_public_key_package_hash e);
  validate_hash_hex hash.

Definition signer_frost_identifier_map (e : VaultEpoch) : vault_checked (gmap string string) :=
  match ve_frost_signer_bindings e with
  | [] => Err (MissingDkgTranscript (ve_epoch_id e))
  | _ =>
      bindings ← normalize_signer_bindings (ve_frost_signer_bindings e);
      if bool_decide (map sb_signer_id bindings <> ve_signer_ids e) then Err SignerBindingMismatch
      else Ok (list_to_map (map (fun b => (sb_signer_id b, sb_frost_identifier_hex b)) bindings))
  end.

(** ** Spend plans *)

Definition same_epoch_change (epoch_id : N) (frost_group_key_xonly : string) (amount_sats : N)
    : VaultRemainderOutput := {|
  vr_epoch_id := epoch_id; vr_frost_group_key_xonly := frost_group_key_xonly;
  vr_amount_sats := amount_sats; vr_kind := SameEpochChange |}.

Definition next_epoch_rotation (epoch_id : N) (frost_group_key_xonly : string) (amount_sats : N)
    : VaultRemainderOutput := {|
  vr_epoch_id := epoch_id; vr_frost_group_key_xonly := frost_group_key_xonly;
  vr_amount_sats := amount_sats; vr_kind := NextEpochRotation |}.

Definition with_remainder_key (key : string) (r : VaultRemainderOutput) : VaultRemainderOutput := {|
  vr_epoch_id := vr_epoch_id r; vr_frost_group_key_xonly := key;
  vr_amount_sats := vr_amount_sats r; vr_kind := vr_kind r |}.

Definition vr_normalized (r : VaultRemainderOutput) : vault_checked VaultRemainderOutput :=
  key ← validate_xonly_hex (vr_frost_group_key_xonly r);
  Ok (with_remainder_key key r).

(** The batch with its outputs in request order. *)
Definition sort_outputs (b : WithdrawalBatch) : WithdrawalBatch := {|
  wb_inputs := wb_inputs b; wb_fee_rate_sat_vb := wb_fee_rate_sat_vb b;
  wb_estimated_vsize := wb_estimated_vsize b; wb_total_fee_sats := wb_total_fee_sats b;
  wb_outputs := normalize_withdrawal_outputs (wb_outputs b) |}.

Definition vp_normalized (p : VaultSpendPlan) : vault_checked VaultSpendPlan :=
  key ← validate_xonly_hex (vp_frost_group_key_xonly p);
  remainder ← match vp_vault_remainder p with
              | Some r => Some <$> vr_normalized r
              | None => Ok None
              end;
  Ok {| vp_epoch_id := vp_epoch_id p; vp_frost_group_key_xonly := key;
        vp_inputs := normalize_inputs (vp_inputs p);
        vp_withdrawal_batch := sort_outputs <$> vp_withdrawal_batch p;
        vp_tx_fee_sats := vp_tx_fee_sats p;
        vp_vault_remainder := remainder |}.

Definition canonicalized_for_hash (p : VaultSpendPlan) : VaultSpendPlan := {|
  vp_epoch_id := vp_epoch_id p;
  vp_frost_group_key_xonly := to_ascii_lowercase (vp_frost_group_key_xonly p);
  vp_inputs := normalize_inputs (vp_inputs p);
  vp_withdrawal_batch := sort_outputs <$> vp_withdrawal_batch p;
  vp_tx_fee_sats := vp_tx_fee_sats p;
  vp_vault_remainder :=
    (fun r => with_remainder_key (to_ascii_lowercase (vr_frost_group_key_xonly r)) r)
      <$> vp_vault_remainder p |}.

Definition input_total_sats (p : VaultSpendPlan) : vault_checked N :=
  sum_sats (map vi_amount_sats (vp_inputs p)).

Definition withdrawal_net_total_sats (p : VaultSpendPlan) : vault_checked N :=
  match vp_withdrawal_batch p with
  | None => Ok 0
  | Some batch => sum_sats (map wo_net_amount_sats (wb_outputs batch))
  end.

Definition vault_remainder_sats (p : VaultSpendPlan) : N :=
  match vp_vault_remainder p with Some r => vr_amount_sats r | None => 0 end.

Section plans.
Context `{Hashing, Secp256k1, !Taproot, BitcoinCrate}.

Definition plan_hash (p : VaultSpendPlan) : string :=
  hash_hex (sha256_tagged (byte_str "POHW1_VAULT_SPEND_PLAN") (canonical_json (canonicalized_for_hash p))).

Definition vault_script_pubkey_hex (frost_group_key_xonly : string) : vault_checked string :=
  key ← validate_xonly_hex frost_group_key_xonly;
  internal_key ← map_err InvalidXOnlyGroupKey (xonly_from_str key);
  Ok (hex_encode (new_p2tr internal_key)).

Definition validate_script_hex (value : string) : vault_checked string :=
  let normalized := to_ascii_lowercase value in
  _ ← map_err InvalidVaultInputScript (hex_decode normalized);
  Ok normalized.

(** One round of the first loop of [validate]. *)
Definition check_input (expected_script : string) (input : VaultInput) : vault_checked unit :=
  _ ← validate_input_txid (vi_txid input);
  script ← validate_script_hex (vi_script_pubkey_hex input);
  if negb (String.eqb script expected_script)
  then Err (VaultInputScriptMismatch (vi_txid input) (vi_vout input) expected_script script)
  else if vi_amount_sats input =? 0 then Err (ZeroValueInput (vi_txid input) (vi_vout input))
  else if vi_confirmations input <? MIN_VAULT_INPUT_CONFIRMATIONS
  then Err (InsufficientInputConfirmations (vi_txid input) (vi_vout input) (vi_confirmations input)
              MIN_VAULT_INPUT_CONFIRMATIONS)
  else Ok tt.

(** The second loop, with its set of outpoints. *)
Fixpoint check_outpoints (outpoints : gset (string * N)) (l : list VaultInput) : vault_checked unit :=
  match l with
  | [] => Ok tt
  | input :: l' =>
      if bool_decide ((vi_txid input, vi_vout input) ∈ outpoints)
      then Err (DuplicateVaultInput (vi_txid input) (vi_vout input))
      else check_outpoints ({[(vi_txid input, vi_vout input)]} ∪ outpoints) l'
  end.

(** One round of the loop of [validate_withdrawal_batch]; the loop carries the
    set of request ids and the two output counters. *)
Definition check_output (output : WithdrawalOutput) : vault_checked unit :=
  if wo_gross_amount_sats output <=? wo_fee_sats output
  then Err (WithdrawalOutputFeeExceedsAmount (wo_request_id output) (wo_gross_amount_sats output)
              (wo_fee_sats output))
  else if negb (wo_net_amount_sats output =? wo_gross_amount_sats output - wo_fee_sats output)
  then Err (WithdrawalOutputNetMismatch (wo_request_id output) (wo_gross_amount_sats output)
              (wo_fee_sats output) (wo_net_amount_sats output))
  else map_err (WithdrawalOutputPolicy (wo_request_id output))
         (validate_destination_script_policy (wo_request_id output) (wo_destination_script_hex output)
            (wo_output_kind output) (wo_net_amount_sats output)).

Fixpoint check_outputs (request_ids : gset string) (p2wpkh_outputs p2tr_outputs : N)
    (l : list WithdrawalOutput) : vault_checked (N * N) :=
  match l with
  | [] => Ok (p2wpkh_outputs, p2tr_outputs)
  | output :: l' =>
      if bool_decide (wo_request_id output ∈ request_ids)
      then Err (DuplicateWithdrawalOutput (wo_request_id output))
      else
        _ ← check_output output;
        let request_ids := {[wo_request_id output]} ∪ request_ids in
        match wo_output_kind output with
        | P2wpkh => check_outputs request_ids (p2wpkh_outputs + 1) p2tr_outputs l'
        | P2tr => check_outputs request_ids p2wpkh_outputs (p2tr_outputs + 1) l'
        end
  end.

Definition validate_withdrawal_batch (p : VaultSpendPlan) (batch : WithdrawalBatch) : vault_checked unit :=
  let inputs := N.of_nat (length (vp_inputs p)) in
  if Nat.eqb (length (wb_outputs batch)) 0 then Err EmptyWithdrawalBatch
  else if negb (wb_inputs batch =? inputs) then Err (BatchInputCountMismatch (wb_inputs batch) inputs)
  else
    counts ← check_outputs ∅ 0 0 (wb_outputs batch);
    expected_vsize ← map_err WithdrawalBatchEstimate (estimate_batch_vsize inputs counts.1 counts.2);
    if negb (wb_estimated_vsize batch =? expected_vsize)
    then Err (BatchVsizeMismatch (wb_estimated_vsize batch) expected_vsize)
    else
      expected_fee_sats ← map_err WithdrawalBatchEstimate
                            (estimate_fee_sats expected_vsize (wb_fee_rate_sat_vb batch));
      if negb (wb_total_fee_sats batch =? expected_fee_sats)
      then Err (BatchFeeEstimateMismatch (wb_total_fee_sats batch) expected_fee_sats)
      else Ok tt.

(** The [if let Some(batch)] block of [validate]. *)
Definition check_batch (p : VaultSpendPlan) (batch : WithdrawalBatch) : vault_checked unit :=
  _ ← validate_withdrawal_batch p batch;
  if negb (wb_total_fee_sats batch =? vp_tx_fee_sats p)
  then Err (BatchFeeMismatch (wb_total_fee_sats batch) (vp_tx_fee_sats p))
  else
    output_fee_total_sats ← sum_sats (map wo_fee_sats (wb_outputs batch));
    if negb (output_fee_total_sats =? wb_total_fee_sats batch)
    then Err (BatchOutputFeeMismatch output_fee_total_sats (wb_total_fee_sats batch))
    else Ok tt.

(** The [if let Some(remainder)] block of [validate]. *)
Definition check_remainder (p : VaultSpendPlan) (r : VaultRemainderOutput) : vault_checked unit :=
  match vr_kind r with
  | SameEpochChange =>
      if negb (vr_epoch_id r =? vp_epoch_id p) then Err InvalidRemainderTarget
      else
        target ← validate_xonly_hex (vr_frost_group_key_xonly r);
        own ← validate_xonly_hex (vp_frost_group_key_xonly p);
        if negb (String.eqb target own) then Err InvalidRemainderTarget else Ok tt
  | NextEpochRotation =>
      if vr_epoch_id r <=? vp_epoch_id p then Err InvalidRemainderTarget
      else
        target ← validate_xonly_hex (vr_frost_group_key_xonly r);
        own ← validate_xonly_hex (vp_frost_group_key_xonly p);
        if String.eqb target own then Err InvalidRemainderTarget else Ok tt
  end.

Definition vp_validate (p : VaultSpendPlan) : vault_checked unit :=
  if Nat.eqb (length (vp_inputs p)) 0 then Err EmptyVaultInputs
  else
    expected_script ← vault_script_pubkey_hex (vp_frost_group_key_xonly p);
    _ ← try_for_each (check_input expected_script) (vp_inputs p);
    _ ← check_outpoints ∅ (vp_inputs p);
    if negb (bool_decide (is_Some (vp_withdrawal_batch p)))
       && negb (bool_decide (is_Some (vp_vault_remainder p)))
    then Err NoSpendOutputs
    else
      net_total ← withdrawal_net_total_sats p;
      _ ← match vp_withdrawal_batch p with Some batch => check_batch p batch | None => Ok tt end;
      _ ← match vp_vault_remainder p with Some r => check_remainder p r | None => Ok tt end;
      expected_spend ← sum_sats [net_total; vp_tx_fee_sats p; vault_remainder_sats p];
      input_total ← input_total_sats p;
      if negb (input_total =? expected_spend) then Err (AmountMismatch input_total expected_spend)
      else Ok tt.

Definition validate_against_epoch (p : VaultSpendPlan) (epoch : VaultEpoch) : vault_checked unit :=
  if negb (vp_epoch_id p =? ve_epoch_id epoch)
  then Err (WrongEpoch (ve_epoch_id epoch) (vp_epoch_id p))
  else
    epoch_key ← required_group_key epoch;
    key ← validate_xonly_hex (vp_frost_group_key_xonly p);
    if negb (String.eqb key epoch_key) then Err (WrongGroupKey (ve_epoch_id epoch))
    else vp_validate p.

(** [VaultSpendPlan::withdrawal_batch]. *)
Definition vp_withdrawal (epoch : VaultEpoch) (inputs : list VaultInput) (batch : WithdrawalBatch)
    (vault_remainder : option VaultRemainderOutput) : vault_checked VaultSpendPlan :=
  key ← required_group_key epoch;
  plan ← vp_normalized {| vp_epoch_id := ve_epoch_id epoch; vp_frost_group_key_xonly := key;
                          vp_inputs := inputs; vp_withdrawal_batch := Some batch;
                          vp_tx_fee_sats := wb_total_fee_sats batch;
                          vp_vault_remainder := vault_remainder |};
  _ ← validate_against_epoch plan epoch;
  Ok plan.

(** [VaultSpendPlan::rotation]. *)
Definition vp_rotation (current_epoch next_epoch : VaultEpoch) (inputs : list VaultInput)
    (tx_fee_sats : N) : vault_checked VaultSpendPlan :=
  key ← required_group_key current_epoch;
  next_group_key ← required_group_key next_epoch;
  let inputs := map vi_normalized inputs in
  total ← sum_sats (map vi_amount_sats inputs);
  if total <=? tx_fee_sats then Err (FeeExceedsInputs total tx_fee_sats)
  else
    plan ← vp_normalized {| vp_epoch_id := ve_epoch_id current_epoch; vp_frost_group_key_xonly := key;
                            vp_inputs := inputs; vp_withdrawal_batch := None;
                            vp_tx_fee_sats := tx_fee_sats;
                            vp_vault_remainder :=
                              Some (next_epoch_rotation (ve_epoch_id next_epoch) next_group_key
                                      (total - tx_fee_sats)) |};
    _ ← validate_against_epoch plan current_epoch;
    Ok plan.

(** ** Signature shares and sessions *)

Definition fs_normalized (s : FrostSignatureShare) : vault_checked FrostSignatureShare :=
  signer_id ← checked_signer_id (fs_signer_id s);
  frost ← validate_frost_identifier_hex (fs_frost_identifier_hex s);
  package ← validate_hash_hex (fs_public_key_package_hash s);
  let plan := to_ascii_lowercase (fs_spend_plan_hash s) in
  sighash ← validate_hash_hex (fs_sighash_hex s);
  share ← validate_frost_signature_share_hex (fs_signature_share_hex s);
  Ok {| fs_signer_id := signer_id; fs_frost_identifier_hex := frost;
        fs_public_key_package_hash := package; fs_spend_plan_hash := plan;
        fs_input_index := fs_input_index s; fs_sighash_hex := sighash;
        fs_signature_share_hex := share |}.

Definition from_verified_share (share : FrostSignatureShare) : vault_checked VerifiedFrostSignatureShare :=
  share ← fs_normalized share;
  Ok {| vfs_share := share |}.

Definition new_after_policy_checks (epoch : VaultEpoch) (spend_plan : VaultSpendPlan)
    (input_sighashes : list string) : vault_checked VaultSigningSession :=
  signer_ids ← normalize_signer_ids (ve_signer_ids epoch);
  if Nat.eqb (ve_threshold epoch) 0 || Nat.eqb (length signer_ids) 0 then Err EmptySignerSet
  else if Nat.ltb (length signer_ids) (ve_threshold epoch)
  then Err (ThresholdExceedsSignerCount (ve_threshold epoch) (length signer_ids))
  else
    package_hash ← required_public_key_package_hash epoch;
    identifiers ← signer_frost_identifier_map epoch;
    spend_plan ← vp_normalized spend_plan;
    _ ← validate_against_epoch spend_plan epoch;
    input_sighashes ← normalize_input_sighashes input_sighashes;
    if Nat.eqb (length input_sighashes) 0 then Err MissingInputSighashes
    else if negb (Nat.eqb (length input_sighashes) (length (vp_inputs spend_plan)))
    then Err (InputSighashCountMismatch (length (vp_inputs spend_plan)) (length input_sighashes))
    else Ok {| vs_epoch_id := ve_epoch_id epoch; vs_threshold := ve_threshold epoch;
               vs_signer_ids := signer_ids; vs_dkg_public_key_package_hash := package_hash;
               vs_spend_plan_hash := plan_hash spend_plan; vs_input_sighashes := input_sighashes;
               vs_spend_plan := spend_plan; vs_signer_frost_identifiers := identifiers;
               vs_signature_shares := ∅ |}.

(** [VaultSigningSession::new]. *)
Definition vs_new (epoch : VaultEpoch) (spend_plan : VaultSpendPlan) (input_sighashes : list string)
    : vault_checked VaultSigningSession :=
  match vp_withdrawal_batch spend_plan with
  | Some _ => Err UnreservedWithdrawalBatch
  | None => new_after_policy_checks epoch spend_plan input_sighashes
  end.

Definition new_with_reserved_withdrawals (epoch : VaultEpoch) (spend_plan : VaultSpendPlan)
    (input_sighashes : list string) (replay_state : SharechainReplayState) (current_height : N)
    : vault_checked VaultSigningSession :=
  match vp_withdrawal_batch spend_plan with
  | None => new_after_policy_checks epoch spend_plan input_sighashes
  | Some batch =>
      _ ← map_err UnverifiedWithdrawalBatch (withdrawal_batch_is_reserved replay_state batch current_height);
      new_after_policy_checks epoch spend_plan input_sighashes
  end.
End plans.

Definition validate_share_identity (self : VaultSigningSession) (share : FrostSignatureShare)
    : vault_checked unit :=
  if negb (String.eqb (fs_spend_plan_hash share) (vs_spend_plan_hash self)) then Err WrongSpendPlanHash
  else if negb (bool_decide (fs_signer_id share ∈ vs_signer_ids self))
  then Err (SignerNotInEpoch (fs_signer_id share) (vs_epoch_id self))
  else if negb (String.eqb (fs_public_key_package_hash share) (vs_dkg_public_key_package_hash self))
  then Err (WrongPublicKeyPackageHash (vs_dkg_public_key_package_hash self)
              (fs_public_key_package_hash share))
  else
    expected_identifier ← ok_or (MissingSignerBinding (fs_signer_id share) (vs_epoch_id self))
                            (vs_signer_frost_identifiers self !! fs_signer_id share);
    if negb (String.eqb (fs_frost_identifier_hex share) expected_identifier)
    then Err (WrongFrostIdentifier (fs_signer_id share) expected_identifier (fs_frost_identifier_hex share))
    else
      expected_sighash ← ok_or (InputIndexOutOfRange (fs_input_index share)
                                  (length (vs_input_sighashes self)))
                           (vs_input_sighashes self !! fs_input_index share);
      if negb (String.eqb (fs_sighash_hex share) expected_sighash)
      then Err (InputSighashMismatch (fs_input_index share) expected_sighash (fs_sighash_hex share))
      else if bool_decide (is_Some (vs_signature_shares self
                                      !! signature_share_key (fs_input_index share) (fs_signer_id share)))
      then Err (DuplicateSignatureShare (fs_signer_id share) (fs_input_index share))
      else Ok tt.

Definition with_shares (shares : gmap string FrostSignatureShare) (s : VaultSigningSession)
    : VaultSigningSession := {|
  vs_epoch_id := vs_epoch_id s; vs_threshold := vs_threshold s; vs_signer_ids := vs_signer_ids s;
  vs_dkg_public_key_package_hash := vs_dkg_public_key_package_hash s;
  vs_spend_plan_hash := vs_spend_plan_hash s; vs_input_sighashes := vs_input_sighashes s;
  vs_spend_plan := vs_spend_plan s; vs_signer_frost_identifiers := vs_signer_frost_identifiers s;
  vs_signature_shares := shares |}.

Definition signature_share_count (s : VaultSigningSession) : nat := size (vs_signature_shares s).

(** A share whose proof was not checked is refused after its identity checks. *)
Definition add_signature_share (share : FrostSignatureShare) : M VaultSigningSession VaultError nat :=
  share ← lift (fs_normalized share);
  _ ← asks (fun self => validate_share_identity self share);
  throw (UnverifiedSignatureShare (fs_signer_id share)).

Definition add_verified_signature_share (share : VerifiedFrostSignatureShare)
    : M VaultSigningSession VaultError nat :=
  let share := vfs_share share in
  _ ← asks (fun self => validate_share_identity self share);
  _ ← modify (fun self =>
        with_shares (<[signature_share_key (fs_input_index share) (fs_signer_id share) := share]>
                       (vs_signature_shares self)) self);
  gets signature_share_count.

Definition shares_of_input (s : VaultSigningSession) (input_index : nat) : list FrostSignatureShare :=
  List.filter (fun share => Nat.eqb (fs_input_index share) input_index)
    (btree_values (vs_signature_shares s)).

Definition is_ready (s : VaultSigningSession) : bool :=
  forallb (fun input_index => Nat.leb (vs_threshold s) (length (shares_of_input s input_index)))
    (seq 0 (length (vs_input_sighashes s))).

(** Collecting into a [BTreeSet] and back. *)
Definition sorted_signers (l : list FrostSignatureShare) : list string :=
  btree_set_list (list_to_set (map fs_signer_id l)).

Definition approval (s : VaultSigningSession) : vault_checked VaultSpendApproval :=
  if negb (is_ready s) then Err (NotEnoughSignatureShares (vs_threshold s) (signature_share_count s))
  else Ok {|
    va_epoch_id := vs_epoch_id s; va_threshold := vs_threshold s;
    va_dkg_public_key_package_hash := vs_dkg_public_key_package_hash s;
    va_spend_plan_hash := vs_spend_plan_hash s;
    va_input_sighashes := vs_input_sighashes s;
    va_signer_ids := sorted_signers (btree_values (vs_signature_shares s));
    va_input_signer_ids :=
      imap (fun input_index sighash => {| ia_input_index := input_index; ia_sighash_hex := sighash;
                                          ia_signer_ids := sorted_signers (shares_of_input s input_index) |})
        (vs_input_sighashes s);
    va_signature_shares := btree_values (vs_signature_shares s) |}.
