(* ===== verification/VaultSafety.v ===== *)
(** * Theorems about the vault

    The invariants of epochs and signing sessions, what a validated spend plan
    guarantees, and what an approval proves about the signers behind it. *)
From S2P Require Import Prelude Order Text Crates Concrete Withdrawal DkgTransport ShareTree SharechainState Vault.
From Stdlib Require Import Strings.Ascii Strings.Byte.

Local Open Scope N_scope.

(** ** Field checks *)

Lemma hex64_Ok e v n :
  hex64 e v = Ok n <->
  n = to_ascii_lowercase v /\ String.length n = 64%nat /\ all_bytes is_ascii_hexdigit n = true.
Proof.
  unfold hex64. rewrite <-Nat.eqb_eq. split.
  - intros. res_inv. subst. bool_inv. rewrite Nat.eqb_eq. auto.
  - intros (-> & -> & ->). done.
Qed.

Lemma hex64_idemp e v n : hex64 e v = Ok n -> hex64 e n = Ok n.
Proof. rewrite !hex64_Ok. intros (-> & ?). by rewrite lower_idemp. Qed.

(** The same digits accepted under one error are accepted under another. *)
Lemma hex64_transfer e e' v n : hex64 e v = Ok n -> hex64 e' n = Ok n.
Proof. rewrite !hex64_Ok. intros (-> & ?). by rewrite lower_idemp. Qed.

Lemma vault_sum_Ok l t : sum_sats l = Ok t <-> t = sum_N l /\ fits sats_bits (sum_N l).
Proof. apply (try_fold_checked_add sats_bits V_AmountOverflow l 0). done. Qed.

Lemma checked_signer_id_Ok v n : checked_signer_id v = Ok n <-> normalize_dkg_signer_id v = Ok n.
Proof. apply map_err_Ok. Qed.

Lemma try_map_fixed {E A} (f : A -> result E A) l : Forall (fun x => f x = Ok x) l -> try_map f l = Ok l.
Proof. intros Hl. apply try_map_Ok. induction Hl; by constructor. Qed.

Lemma normalize_signer_ids_Ok ids k : normalize_signer_ids ids = Ok k -> signer_list k.
Proof.
  unfold normalize_signer_ids. rewrite bind_Ok. intros (n & Hn & H).
  destruct (adjacent_duplicate _) eqn:Hd in H; [done|]. injection H as <-.
  assert (Hsort := sort_by_sorted str_cmp n). apply adjacent_duplicate_None in Hd; [|done].
  split; [|done]. rewrite sort_by_perm. apply try_map_Ok in Hn.
  apply Forall_forall. intros x [i Hi]%list_elem_of_lookup.
  eapply Forall2_lookup_r in Hn as (y & _ & Hy%checked_signer_id_Ok); [|exact Hi].
  by eapply normalize_dkg_signer_id_idemp.
Qed.

Lemma normalize_signer_ids_id ids : signer_list ids -> normalize_signer_ids ids = Ok ids.
Proof.
  intros (Hn & Hs & Hd). unfold normalize_signer_ids.
  rewrite (try_map_fixed checked_signer_id ids)
    by (eapply Forall_impl; [exact Hn|]; intros x Hx; by apply checked_signer_id_Ok).
  simpl. rewrite (sort_by_id str_cmp ids Hs). by rewrite (proj2 (adjacent_duplicate_None ids Hs) Hd).
Qed.

(** The three duplicate scans are the same loop: a key is refused when it was
    seen before. *)
Section distinct.
Context {A K : Type} `{Countable K} (key : A -> K).

Lemma fresh_cons (x : A) l (seen : gset K) :
  key x ∉ seen -> (NoDup (map key l) /\ Forall (fun y => key y ∉ {[key x]} ∪ seen) l) <->
  (NoDup (map key (x :: l)) /\ Forall (fun y => key y ∉ seen) (x :: l)).
Proof.
  intros Hx. simpl. rewrite NoDup_cons, Forall_cons, !Forall_forall, list_elem_of_fmap. split.
  - intros [Hd Hl]. repeat split; try done.
    + intros (y & Heq & Hy). apply (Hl y Hy). set_solver.
    + intros y Hy. specialize (Hl y Hy). set_solver.
  - intros [[Hx' Hd] [_ Hl]]. split; [done|]. intros y Hy. specialize (Hl y Hy).
    rewrite elem_of_union, elem_of_singleton. intros [Heq|]; [|done]. apply Hx'. eauto.
Qed.
End distinct.

Lemma check_outpoints_Ok seen l :
  check_outpoints seen l = Ok tt <->
  NoDup (map (fun i => (vi_txid i, vi_vout i)) l) /\ Forall (fun i => (vi_txid i, vi_vout i) ∉ seen) l.
Proof.
  revert seen. induction l as [|i l IH]; intros seen; cbn [check_outpoints].
  - split; [|done]. split; constructor.
  - case_bool_decide as Hi.
    + split; [done|]. intros [_ Hf]. inversion Hf; by subst.
    + rewrite IH. exact (fresh_cons (fun i => (vi_txid i, vi_vout i)) i l seen Hi).
Qed.

Lemma check_bindings_Ok ids frost l :
  check_bindings ids frost l = Ok tt <->
  (NoDup (map sb_signer_id l) /\ Forall (fun b => sb_signer_id b ∉ ids) l) /\
  (NoDup (map sb_frost_identifier_hex l) /\ Forall (fun b => sb_frost_identifier_hex b ∉ frost) l).
Proof.
  revert ids frost. induction l as [|b l IH]; intros ids frost; cbn [check_bindings].
  - split; [|done]. repeat split; constructor.
  - case_bool_decide as Hi; [|case_bool_decide as Hf].
    + split; [done|]. intros [[_ Hx] _]. inversion Hx; by subst.
    + split; [done|]. intros [_ [_ Hx]]. inversion Hx; by subst.
    + rewrite IH. by rewrite (fresh_cons sb_signer_id b l ids Hi), (fresh_cons sb_frost_identifier_hex b l frost Hf).
Qed.

Lemma signature_share_key_inj i j a b :
  signature_share_key i a = signature_share_key j b -> i = j /\ a = b.
Proof.
  unfold signature_share_key. intros Heq.
  assert (forall n : nat, all_bytes (fun c => negb (Ascii.eqb c ":")) (pretty n) = true) as Hsep.
  { intros n. eapply all_bytes_impl; [|apply (pretty_digits (N.of_nat n))].
    intros c Hc. by destruct c as [[] [] [] [] [] [] [] []]. }
  assert (pretty i = pretty j) as Hij.
  { apply (f_equal (split ":")) in Heq. change (":" +:+ a) with (String ":" a) in Heq.
    change (":" +:+ b) with (String ":" b) in Heq. rewrite !split_app_sep in Heq by apply Hsep. congruence. }
  apply (inj pretty) in Hij as ->. split; [done|]. apply (inj (String.append _)) in Heq. by injection Heq.
Qed.

(** ** Spend plans *)

Section plans.
Context `{Hashing, Secp256k1, !Taproot, BitcoinCrate}.

Lemma check_outputs_Ok seen a b l c :
  check_outputs seen a b l = Ok c ->
  (NoDup (map wo_request_id l) /\ Forall (fun o => wo_request_id o ∉ seen) l) /\
  Forall (fun o => check_output o = Ok tt) l.
Proof.
  revert seen a b. induction l as [|o l IH]; intros seen a b; cbn [check_outputs].
  - intros _. repeat split; constructor.
  - case_bool_decide as Ho; [done|]. rewrite bind_Ok. intros ([] & Hc & Hl).
    assert ((NoDup (map wo_request_id l) /\ Forall (fun y => wo_request_id y ∉ {[wo_request_id o]} ∪ seen) l) /\
      Forall (fun o => check_output o = Ok tt) l) as [Hd Hf] by (destruct (wo_output_kind o); eauto).
    split; [|by constructor]. by apply (fresh_cons wo_request_id).
Qed.

Lemma check_output_net o :
  check_output o = Ok tt ->
  wo_gross_amount_sats o = wo_net_amount_sats o + wo_fee_sats o /\ 0 < wo_net_amount_sats o.
Proof. unfold check_output. intros. res_inv. bool_inv. lia. Qed.

Lemma sum_gross (l : list WithdrawalOutput) :
  Forall (fun o => check_output o = Ok tt) l ->
  sum_N (map wo_gross_amount_sats l) = sum_N (map wo_net_amount_sats l) + sum_N (map wo_fee_sats l).
Proof.
  induction 1 as [|o l Ho _ IH]; [done|]. apply check_output_net in Ho as [Ho _]. simpl. lia.
Qed.

Definition batch_outputs (p : VaultSpendPlan) : list WithdrawalOutput :=
  match vp_withdrawal_batch p with Some batch => wb_outputs batch | None => [] end.

Lemma withdrawal_net_total_Ok p t :
  withdrawal_net_total_sats p = Ok t -> t = sum_N (map wo_net_amount_sats (batch_outputs p)).
Proof.
  unfold withdrawal_net_total_sats, batch_outputs. destruct (vp_withdrawal_batch p).
  - by intros [-> _]%vault_sum_Ok.
  - by intros [= <-].
Qed.

Lemma check_batch_Ok p batch :
  check_batch p batch = Ok tt ->
  NoDup (map wo_request_id (wb_outputs batch)) /\
  Forall (fun o => check_output o = Ok tt) (wb_outputs batch) /\
  sum_N (map wo_fee_sats (wb_outputs batch)) = vp_tx_fee_sats p.
Proof.
  unfold check_batch, validate_withdrawal_batch. intros Hc.
  apply bind_Ok in Hc as ([] & Hv & Hc). res_inv. bool_inv.
  match goal with H : check_outputs _ _ _ _ = Ok _ |- _ => apply check_outputs_Ok in H as [[Hd _] Hf] end.
  match goal with H : sum_sats _ = Ok _ |- _ => apply vault_sum_Ok in H as [-> _] end.
  repeat split; [done..|congruence].
Qed.

(** What [check_input] establishes of a vault input. *)
Definition input_ok (script : string) (i : VaultInput) : Prop :=
  to_ascii_lowercase (vi_script_pubkey_hex i) = script /\ 0 < vi_amount_sats i /\ 100 <= vi_confirmations i /\
  String.length (vi_txid i) = 64%nat.

Lemma check_input_Ok script i : check_input script i = Ok tt -> input_ok script i.
Proof.
  unfold check_input, validate_script_hex, MIN_VAULT_INPUT_CONFIRMATIONS. intros Hc.
  apply bind_Ok in Hc as (t & (-> & Ht & _)%hex64_Ok & Hc). rewrite lower_length in Ht.
  res_inv. bool_inv. subst. repeat split; [lia..|done].
Qed.

(** The outpoint an input stands for: the digits of a txid may have either case. *)
Definition outpoint_text (i : VaultInput) : string * N := (to_ascii_lowercase (vi_txid i), vi_vout i).

Lemma normalized_outpoints plan p :
  vp_normalized plan = Ok p -> map outpoint_text (vp_inputs p) = map (fun i => (vi_txid i, vi_vout i)) (vp_inputs p).
Proof.
  unfold vp_normalized. intros Hn. res_inv. subst. cbn. apply map_ext_Forall. unfold normalize_inputs.
  rewrite sort_by_perm. apply Forall_map, Forall_true. intros i. unfold outpoint_text. cbn. by rewrite lower_idemp.
Qed.

Lemma validate_parts p :
  vp_validate p = Ok tt ->
  exists script, vault_script_pubkey_hex (vp_frost_group_key_xonly p) = Ok script /\
    Forall (input_ok script) (vp_inputs p) /\
    NoDup (map (fun i => (vi_txid i, vi_vout i)) (vp_inputs p)) /\
    (forall batch, vp_withdrawal_batch p = Some batch -> check_batch p batch = Ok tt) /\
    (forall r, vp_vault_remainder p = Some r -> check_remainder p r = Ok tt) /\
    sum_N (map vi_amount_sats (vp_inputs p)) =
      sum_N (map wo_net_amount_sats (batch_outputs p)) + vp_tx_fee_sats p + vault_remainder_sats p /\
    fits sats_bits (sum_N (map vi_amount_sats (vp_inputs p))) /\ vp_inputs p <> [].
Proof.
  unfold vp_validate. intros Hv. destruct (Nat.eqb _ 0) eqn:Hne; [done|].
  apply bind_Ok in Hv as (script & Hs & Hv). apply bind_Ok in Hv as (u & Hin & Hv).
  apply bind_Ok in Hv as ([] & [Hd _]%check_outpoints_Ok & Hv).
  destruct (_ && _); [done|]. apply bind_Ok in Hv as (net & Hnet & Hv).
  apply bind_Ok in Hv as ([] & Hb & Hv). apply bind_Ok in Hv as ([] & Hr & Hv).
  apply bind_Ok in Hv as (spend & [-> _]%vault_sum_Ok & Hv).
  apply bind_Ok in Hv as (tot & [-> Hfit]%vault_sum_Ok & Hv). res_inv. bool_inv.
  apply withdrawal_net_total_Ok in Hnet as ->. exists script. repeat split; try done.
  - apply try_for_each_Ok in Hin. eapply Forall_impl; [exact Hin|]. intros i. apply check_input_Ok.
  - intros batch Hbatch. by rewrite Hbatch in Hb.
  - intros r Hrem. by rewrite Hrem in Hr.
  - simpl in *. lia.
  - intros Hnil. by rewrite Hnil in Hne.
Qed.
End plans.

(** C27 (safety). A spend plan that validates pays out exactly what it spends:
    the inputs equal the net withdrawals, the fee and the remainder (and the sum
    fits 64 bits); every input is a nonzero, 100-deep output of the vault's own
    script; the withdrawals together cost their owners the net amounts plus the
    whole fee.  No outpoint is listed twice with its txid written in the same way,
    and a plan in the normal form that signing sessions use lists no outpoint
    twice in any spelling. *)
Theorem validated_plan_balances `{Hashing, Secp256k1, !Taproot, BitcoinCrate} p :
  vp_validate p = Ok tt ->
  sum_N (map vi_amount_sats (vp_inputs p)) =
    sum_N (map wo_net_amount_sats (batch_outputs p)) + vp_tx_fee_sats p + vault_remainder_sats p /\
  fits sats_bits (sum_N (map vi_amount_sats (vp_inputs p))) /\
  (exists script, vault_script_pubkey_hex (vp_frost_group_key_xonly p) = Ok script /\
     Forall (input_ok script) (vp_inputs p)) /\
  NoDup (map (fun i => (vi_txid i, vi_vout i)) (vp_inputs p)) /\
  (forall plan, vp_normalized plan = Ok p -> NoDup (map outpoint_text (vp_inputs p))) /\
  (forall batch, vp_withdrawal_batch p = Some batch ->
     NoDup (map wo_request_id (wb_outputs batch)) /\
     sum_N (map wo_gross_amount_sats (wb_outputs batch)) =
       sum_N (map wo_net_amount_sats (wb_outputs batch)) + vp_tx_fee_sats p).
Proof.
  intros (script & Hs & Hin & Hd & Hb & _ & Hsum & Hfit & _)%validate_parts.
  do 4 (split; [done || eauto|]). split; [intros plan Hn; by rewrite (normalized_outpoints _ _ Hn)|]. intros batch (Hnd & Hf & Hfee)%Hb%check_batch_Ok.
  split; [done|]. by rewrite (sum_gross _ Hf), Hfee.
Qed.

(** A plan that moves the whole vault from one epoch to a later one. *)
Definition moves_everything (current next : VaultEpoch) (inputs : list VaultInput) (fee : N) (p : VaultSpendPlan) : Prop :=
  vp_withdrawal_batch p = None /\
  exists r own target, vp_vault_remainder p = Some r /\
    vr_amount_sats r + fee = sum_N (map vi_amount_sats inputs) /\ 0 < vr_amount_sats r /\
    ve_epoch_id current < vr_epoch_id r /\ vr_epoch_id r = ve_epoch_id next /\
    required_group_key current = Ok own /\ required_group_key next = Ok target /\
    vr_frost_group_key_xonly r = target /\ own <> target.

(** (safety). Rotating the vault moves all of it: a rotation plan has no
    withdrawals and sends everything but the fee to a later epoch with a
    different group key. *)
Theorem rotation_moves_everything `{Hashing, Secp256k1, !Taproot, BitcoinCrate} current next inputs fee p :
  vp_rotation current next inputs fee = Ok p -> moves_everything current next inputs fee p.
Proof.
  unfold vp_rotation. intros Hp. apply bind_Ok in Hp as (own & Hown & Hp). apply bind_Ok in Hp as (target & Htarget & Hp).
  apply bind_Ok in Hp as (total & [-> _]%vault_sum_Ok & Hp). destruct (N.leb_spec (sum_N (map vi_amount_sats (map vi_normalized inputs))) fee)
    as [|Hlt]; [done|].
  apply bind_Ok in Hp as (plan & Hn & Hp). apply bind_Ok in Hp as ([] & Hv & [= <-]).
  assert (hex64 InvalidXOnlyGroupKey own = Ok own) as Hown'.
  { unfold required_group_key in Hown. res_inv. by eapply hex64_idemp. }
  assert (hex64 InvalidXOnlyGroupKey target = Ok target) as Htarget'.
  { unfold required_group_key in Htarget. res_inv. by eapply hex64_idemp. }
  unfold vp_normalized, vr_normalized, validate_xonly_hex in Hn. cbn in Hn. rewrite Hown', Htarget' in Hn. cbn in Hn.
  injection Hn as <-. split; [done|].
  unfold validate_against_epoch in Hv. cbn [vp_epoch_id vp_frost_group_key_xonly] in Hv.
  rewrite N.eqb_refl, Hown in Hv. cbn in Hv. unfold validate_xonly_hex in Hv. rewrite Hown' in Hv. cbn in Hv.
  rewrite String.eqb_refl in Hv. cbn [negb] in Hv.
  apply validate_parts in Hv as (_ & _ & _ & _ & _ & Hr & _). specialize (Hr _ eq_refl).
  unfold check_remainder, validate_xonly_hex in Hr. cbn in Hr. rewrite Hown', Htarget' in Hr. cbn in Hr.
  assert (map vi_amount_sats (map vi_normalized inputs) = map vi_amount_sats inputs) as Hmap by (rewrite map_map; done).
  rewrite Hmap in *. res_inv. bool_inv. eexists _, own, target. repeat split; cbn; [lia..|done|done|congruence].
Qed.

(** ** Epochs *)

Lemma dedup_sorted l :
  StronglySorted (cmp_le str_cmp) l ->
  StronglySorted (cmp_le str_cmp) (dedup l) /\ NoDup (dedup l) /\ (forall x, x ∈ dedup l <-> x ∈ l) /\
  head (dedup l) = head l.
Proof.
  induction 1 as [|x l Hl IH Hx]; [split_and!; try constructor; done|].
  destruct l as [|y l]; [split_and!; [by repeat constructor|apply NoDup_singleton|done|done]|].
  destruct IH as (IHs & IHd & IHe & IHh). cbn [dedup].
  destruct (String.eqb_spec x y) as [->|Hne].
  - split_and!; [done|done| |done]. intros z. rewrite IHe. set_solver.
  - assert (Forall (cmp_le str_cmp x) (dedup (y :: l))) as Hx'.
    { apply Forall_forall. intros z Hz%IHe. rewrite Forall_forall in Hx. auto. }
    split_and!; [by constructor| |intros z; rewrite !elem_of_cons, IHe; set_solver|done].
    apply NoDup_cons. split; [|done]. intros Hin%IHe.
    inversion Hx as [|?? Hxy Hxl]; subst. inversion Hl as [|?? Hl' Hyl]; subst.
    apply elem_of_cons in Hin as [->|Hin]; [done|]. rewrite Forall_forall in Hyl.
    apply Hne, str_cmp_Eq, cmp_le_antisym; [apply _|done|]. by apply Hyl.
Qed.

(** An epoch as the code builds it: a signer list and its 67% threshold. *)
Definition epoch_inv (e : VaultEpoch) : Prop :=
  signer_list (ve_signer_ids e) /\ ve_threshold e = threshold_67_percent (length (ve_signer_ids e)).

Lemma from_online_signers_inv epoch_id starts_at heartbeats max_age :
  epoch_inv (from_online_signers epoch_id starts_at heartbeats max_age).
Proof.
  split; [|done]. unfold from_online_signers. cbn [ve_signer_ids].
  match goal with |- signer_list (dedup (sort_by _ ?l)) => set (ids := l) end.
  destruct (dedup_sorted (sort_by str_cmp ids)) as (Hs & Hd & He & _); [apply sort_by_sorted, _|].
  split; [|done]. apply Forall_forall. intros x Hx%He%sort_by_elem.
  apply list_elem_of_omap in Hx as (h & _ & Hh).
  destruct (normalize_dkg_signer_id (hb_signer_id h)) eqn:Hn; [|done]. injection Hh as <-.
  by eapply normalize_dkg_signer_id_idemp.
Qed.

Lemma normalize_signer_bindings_Ok l k :
  normalize_signer_bindings l = Ok k ->
  Forall (fun b => sb_normalized b = Ok b) k /\ StronglySorted (cmp_le compare_bindings) k /\
  NoDup (map sb_signer_id k) /\ NoDup (map sb_frost_identifier_hex k).
Proof.
  unfold normalize_signer_bindings. rewrite bind_Ok. intros (n & Hn & H).
  apply bind_Ok in H as ([] & [[Hi _] [Hf _]]%check_bindings_Ok & [= <-]).
  split_and!; try done; [|apply sort_by_sorted; unfold compare_bindings; apply _].
  rewrite sort_by_perm. apply try_map_Ok in Hn. apply Forall_forall. intros b [i Hb]%list_elem_of_lookup.
  eapply Forall2_lookup_r in Hn as (y & _ & Hy); [|exact Hb]. clear -Hy. unfold sb_normalized in *.
  apply bind_Ok in Hy as (id & Hid%checked_signer_id_Ok & Hy). apply bind_Ok in Hy as (f & Hf & [= <-]). cbn.
  apply normalize_dkg_signer_id_idemp in Hid. apply hex64_idemp in Hf.
  unfold checked_signer_id, validate_frost_identifier_hex. rewrite Hid. cbn. by rewrite Hf.
Qed.

(** Normalised bindings are left as they are. *)
Lemma normalize_signer_bindings_id k :
  Forall (fun b => sb_normalized b = Ok b) k -> StronglySorted (cmp_le compare_bindings) k ->
  NoDup (map sb_signer_id k) -> NoDup (map sb_frost_identifier_hex k) -> normalize_signer_bindings k = Ok k.
Proof.
  intros Hn Hs Hi Hf. unfold normalize_signer_bindings. rewrite (try_map_fixed _ _ Hn). cbn.
  rewrite (sort_by_id _ _ Hs). rewrite (proj2 (check_bindings_Ok ∅ ∅ k)); [done|].
  repeat split; try done; apply Forall_forall; set_solver.
Qed.

(** What [normalized] establishes of a transcript. *)
Lemma dt_normalized_Ok t n :
  dt_normalized t = Ok n ->
  signer_list (dt_signer_ids n) /\ (0 < length (dt_signer_ids n))%nat /\
  validate_xonly_hex (dt_frost_group_key_xonly n) = Ok (dt_frost_group_key_xonly n) /\
  validate_hash_hex (dt_public_key_package_hash n) = Ok (dt_public_key_package_hash n) /\
  normalize_signer_bindings (dt_signer_bindings n) = Ok (dt_signer_bindings n) /\
  NoDup (map sb_frost_identifier_hex (dt_signer_bindings n)) /\
  map sb_signer_id (dt_signer_bindings n) = dt_signer_ids n.
Proof.
  unfold dt_normalized. intros Ht. apply bind_Ok in Ht as (ids & Hids%normalize_signer_ids_Ok & Ht).
  destruct (Nat.eqb_spec (length ids) 0) as [|Hne]; [done|]. destruct (_ || _ || _); [done|].
  apply bind_Ok in Ht as (key & Hkey & Ht). apply bind_Ok in Ht as (pkg & Hpkg & Ht).
  apply bind_Ok in Ht as (bs & Hbs & Ht). case_bool_decide as Heq; [done|].
  apply bind_Ok in Ht as (? & _ & Ht). do 4 (apply bind_Ok in Ht as (? & _ & Ht)). injection Ht as <-. cbn.
  apply normalize_signer_bindings_Ok in Hbs as (Hn & Hs & Hi & Hf).
  split_and!; try done; [lia|by eapply hex64_idemp|by eapply hex64_idemp|by apply normalize_signer_bindings_id].
Qed.

(** An epoch that is ready to sign: its transcript is attached. *)
Definition epoch_ready (e : VaultEpoch) : Prop :=
  epoch_inv e /\ (0 < length (ve_signer_ids e))%nat /\
  (exists key, ve_frost_group_key_xonly e = Some key /\ validate_xonly_hex key = Ok key) /\
  (exists hash, ve_dkg_public_key_package_hash e = Some hash /\ validate_hash_hex hash = Ok hash) /\
  normalize_signer_bindings (ve_frost_signer_bindings e) = Ok (ve_frost_signer_bindings e) /\
  NoDup (map sb_frost_identifier_hex (ve_frost_signer_bindings e)) /\
  map sb_signer_id (ve_frost_signer_bindings e) = ve_signer_ids e.

Lemma attach_ready `{Hashing} t e e' :
  epoch_inv e -> attach_dkg_transcript t e = (Ok tt, e') -> epoch_ready e'.
Proof.
  intros [Hl Ht] Ha. unfold attach_dkg_transcript in Ha. rewrite M_bind_run in Ha. cbn [lift] in Ha.
  destruct (dt_normalized t) as [n|] eqn:Hn; [|done]. rewrite M_bind_run in Ha. cbn [gets id] in Ha.
  destruct (negb _); [done|]. destruct (negb _ || bool_decide _) eqn:Hc; [done|].
  injection Ha as <-. apply orb_false_iff in Hc as [_ Hids%bool_decide_eq_false_1%dec_stable].
  apply dt_normalized_Ok in Hn as (Hs & Hne & Hkey & Hpkg & Hb & Hf & Hm). rewrite Hids in *.
  unfold epoch_ready, epoch_inv. cbn. split_and!; eauto.
Qed.

Lemma ready_identifier_map e :
  epoch_ready e ->
  signer_frost_identifier_map e =
    Ok (list_to_map (map (fun b => (sb_signer_id b, sb_frost_identifier_hex b)) (ve_frost_signer_bindings e))).
Proof.
  intros (_ & Hne & _ & _ & Hb & _ & Hm). unfold signer_frost_identifier_map.
  destruct (ve_frost_signer_bindings e) as [|b bs] eqn:Hbs; [rewrite <-Hm in Hne; simpl in Hne; lia|].
  rewrite Hb. cbn [mbind result_bind]. rewrite bool_decide_eq_false_2 by naive_solver. done.
Qed.

(** ** Signing sessions *)

Abbreviation share_key sh := (signature_share_key (fs_input_index sh) (fs_signer_id sh)).

(** A share that belongs to the session: right plan, a signer of the epoch with
    its own identifier, and the sighash of its input. *)
Definition share_matches (s : VaultSigningSession) (sh : FrostSignatureShare) : Prop :=
  fs_spend_plan_hash sh = vs_spend_plan_hash s /\ fs_signer_id sh ∈ vs_signer_ids s /\
  fs_public_key_package_hash sh = vs_dkg_public_key_package_hash s /\
  vs_signer_frost_identifiers s !! fs_signer_id sh = Some (fs_frost_identifier_hex sh) /\
  vs_input_sighashes s !! fs_input_index sh = Some (fs_sighash_hex sh).

Lemma validate_share_identity_Ok s sh :
  validate_share_identity s sh = Ok tt <->
  share_matches s sh /\ vs_signature_shares s !! share_key sh = None.
Proof.
  unfold validate_share_identity, share_matches. split.
  - intros. res_inv. bool_inv. subst. rewrite eq_None_not_Some. split_and!; congruence || done.
  - intros [(-> & Hs & -> & -> & ->) Hn]. rewrite !String.eqb_refl. cbn.
    rewrite bool_decide_eq_true_2 by done. cbn. rewrite !String.eqb_refl, Hn. done.
Qed.

(** The parts of a session that never change. *)
Definition session_frame (s s' : VaultSigningSession) : Prop :=
  exists shares, s' = with_shares shares s.

Lemma session_frame_refl s : session_frame s s.
Proof. exists (vs_signature_shares s). by destruct s. Qed.
Lemma session_frame_trans s1 s2 s3 : session_frame s1 s2 -> session_frame s2 s3 -> session_frame s1 s3.
Proof. intros [a ->] [b ->]. by exists b. Qed.

Definition shares_inv (s : VaultSigningSession) : Prop :=
  map_Forall (fun k sh => k = share_key sh /\ share_matches s sh) (vs_signature_shares s).

(** The calls that reach a session. *)
Inductive session_step : VaultSigningSession -> VaultSigningSession -> Prop :=
| step_raw share r s s' : add_signature_share share s = (r, s') -> session_step s s'
| step_verified share r s s' : add_verified_signature_share share s = (r, s') -> session_step s s'.

Lemma add_verified_outcome sh s r s' :
  add_verified_signature_share sh s = (r, s') ->
  ((exists e, r = Err e) /\ s' = s) \/
  (validate_share_identity s (vfs_share sh) = Ok tt /\
   s' = with_shares (<[share_key (vfs_share sh) := vfs_share sh]> (vs_signature_shares s)) s /\
   r = Ok (size (vs_signature_shares s'))).
Proof.
  unfold add_verified_signature_share. rewrite M_bind_run. unfold asks.
  destruct (validate_share_identity s (vfs_share sh)) as [[]|e]; [|intros [= <- <-]; eauto].
  rewrite M_bind_run. cbn. intros [= <- <-]. right. done.
Qed.

Lemma session_step_inv s s' :
  shares_inv s -> session_step s s' -> session_frame s s' /\ shares_inv s'.
Proof.
  intros Hinv Hstep. destruct Hstep as [share r s s' Hrun|share r s s' Hrun].
  - unfold add_signature_share in Hrun. rewrite M_bind_run in Hrun. cbn [lift] in Hrun.
    destruct (fs_normalized share); [|injection Hrun as _ <-; by split; [apply session_frame_refl|]].
    rewrite M_bind_run in Hrun. unfold asks in Hrun.
    destruct (validate_share_identity s _) as [[]|]; injection Hrun as _ <-; by split; [apply session_frame_refl|].
  - apply add_verified_outcome in Hrun as [[_ ->]|([Hm Hn]%validate_share_identity_Ok & -> & _)];
      [by split; [apply session_frame_refl|]|].
    split; [by eexists|]. unfold shares_inv. cbn. apply map_Forall_insert_2; [done|]. exact Hinv.
Qed.

Lemma session_steps_inv s s' :
  shares_inv s -> rtc session_step s s' -> session_frame s s' /\ shares_inv s'.
Proof.
  intros Hinv Hsteps. induction Hsteps as [s|s s1 s2 Hstep _ IH]; [by split; [apply session_frame_refl|]|].
  apply session_step_inv in Hstep as [Hf Hinv']; [|done]. apply IH in Hinv' as [Hf' ?].
  split; [by eapply session_frame_trans|done].
Qed.

(** The shares of one input come from different signers. *)
Lemma btree_values_shares (m : gmap string FrostSignatureShare) :
  map_Forall (fun k sh => k = share_key sh) m -> map (fun sh => share_key sh) (btree_values m) = btree_keys m.
Proof.
  intros Hm. unfold btree_values, btree_keys. rewrite map_map. apply map_ext_in. intros [k sh] Hin.
  apply list_elem_of_In, btree_entries_elem, Hm in Hin. by rewrite Hin.
Qed.

Lemma shares_of_input_elem s i sh :
  sh ∈ shares_of_input s i <-> sh ∈ btree_values (vs_signature_shares s) /\ fs_input_index sh = i.
Proof.
  unfold shares_of_input. rewrite list_elem_of_In, filter_In, <-list_elem_of_In, Nat.eqb_eq. done.
Qed.

Lemma NoDup_filter_signers i l :
  NoDup (map (fun sh => share_key sh) l) ->
  NoDup (map fs_signer_id (List.filter (fun sh => Nat.eqb (fs_input_index sh) i) l)).
Proof.
  induction l as [|sh l IH]; cbn [map List.filter]; [constructor|].
  rewrite NoDup_cons. intros [Hn Hd]. specialize (IH Hd).
  destruct (Nat.eqb_spec (fs_input_index sh) i) as [<-|]; [|done]. cbn [map]. apply NoDup_cons. split; [|done].
  intros (sh' & Heq & Hin)%list_elem_of_fmap. apply Hn, list_elem_of_fmap. exists sh'.
  apply list_elem_of_In, filter_In in Hin as [Hin Hidx]. apply Nat.eqb_eq in Hidx.
  split; [congruence|]. by apply list_elem_of_In.
Qed.

Lemma shares_of_input_signers s i :
  shares_inv s -> NoDup (map fs_signer_id (shares_of_input s i)).
Proof.
  intros Hinv. apply NoDup_filter_signers. rewrite btree_values_shares; [apply btree_keys_NoDup|].
  intros k sh Hk. by apply (Hinv k sh).
Qed.

Lemma sorted_signers_length l : NoDup (map fs_signer_id l) -> length (sorted_signers l) = length l.
Proof.
  intros Hd. unfold sorted_signers, btree_set_list. rewrite sort_by_length.
  change (length (elements ?X)) with (size X). by rewrite size_list_to_set, length_map.
Qed.

Lemma sorted_signers_elem l x : x ∈ sorted_signers l <-> exists sh, sh ∈ l /\ fs_signer_id sh = x.
Proof.
  unfold sorted_signers. rewrite btree_set_list_elem, elem_of_list_to_set, list_elem_of_fmap. naive_solver.
Qed.

Lemma sorted_signers_NoDup l : NoDup (sorted_signers l).
Proof. unfold sorted_signers, btree_set_list. rewrite sort_by_perm. apply NoDup_elements. Qed.

Lemma is_ready_iff s :
  is_ready s = true <->
  forall i, (i < length (vs_input_sighashes s))%nat -> (vs_threshold s <= length (shares_of_input s i))%nat.
Proof.
  unfold is_ready. rewrite forallb_forall. split; intros Hr i Hi.
  - apply Nat.leb_le, Hr, in_seq. lia.
  - apply Nat.leb_le, Hr. apply in_seq in Hi. lia.
Qed.

Lemma approval_Ok s a :
  approval s = Ok a ->
  is_ready s = true /\ va_spend_plan_hash a = vs_spend_plan_hash s /\ va_input_sighashes a = vs_input_sighashes s /\
  va_signature_shares a = btree_values (vs_signature_shares s) /\
  forall i sighash, vs_input_sighashes s !! i = Some sighash ->
    va_input_signer_ids a !! i = Some {| ia_input_index := i; ia_sighash_hex := sighash;
                                         ia_signer_ids := sorted_signers (shares_of_input s i) |}.
Proof.
  unfold approval. intros. res_inv. bool_inv. subst. cbn. split_and!; try done.
  intros i h Hi. by rewrite list_lookup_imap, Hi.
Qed.

Section sessions.
Context `{Hashing, Secp256k1, !Taproot, BitcoinCrate}.

Lemma new_session_Ok epoch plan sighashes s :
  new_after_policy_checks epoch plan sighashes = Ok s ->
  normalize_signer_ids (ve_signer_ids epoch) = Ok (vs_signer_ids s) /\
  vs_threshold s = ve_threshold epoch /\ (0 < ve_threshold epoch <= length (vs_signer_ids s))%nat /\
  required_public_key_package_hash epoch = Ok (vs_dkg_public_key_package_hash s) /\
  signer_frost_identifier_map epoch = Ok (vs_signer_frost_identifiers s) /\
  vp_normalized plan = Ok (vs_spend_plan s) /\ validate_against_epoch (vs_spend_plan s) epoch = Ok tt /\
  normalize_input_sighashes sighashes = Ok (vs_input_sighashes s) /\
  length (vs_input_sighashes s) = length (vp_inputs (vs_spend_plan s)) /\
  vs_spend_plan_hash s = plan_hash (vs_spend_plan s) /\ vs_signature_shares s = ∅.
Proof. unfold new_after_policy_checks. intros. res_inv. bool_inv. subst. cbn. split_and!; done || lia. Qed.

Lemma new_session_shares epoch plan sighashes s :
  new_after_policy_checks epoch plan sighashes = Ok s -> shares_inv s.
Proof. intros (_ & _ & _ & _ & _ & _ & _ & _ & _ & _ & He)%new_session_Ok. unfold shares_inv. rewrite He. apply map_Forall_empty. Qed.

(** What an approval records of one input. *)
Definition input_quorum (epoch : VaultEpoch) (a : VaultSpendApproval) (i : nat) (sighash : string) : Prop :=
  exists signers, va_input_signer_ids a !! i =
      Some {| ia_input_index := i; ia_sighash_hex := sighash; ia_signer_ids := signers |} /\
    NoDup signers /\ (ve_threshold epoch <= length signers)%nat /\
    forall id, id ∈ signers -> exists sh, sh ∈ va_signature_shares a /\ fs_signer_id sh = id /\
      fs_input_index sh = i /\ fs_sighash_hex sh = sighash /\ fs_spend_plan_hash sh = va_spend_plan_hash a.

Lemma approval_input_quorum epoch plan sighashes s0 s a i sighash :
  new_after_policy_checks epoch plan sighashes = Ok s0 -> rtc session_step s0 s -> approval s = Ok a ->
  va_input_sighashes a !! i = Some sighash ->
  input_quorum epoch a i sighash /\
  exists signers, va_input_signer_ids a !! i =
      Some {| ia_input_index := i; ia_sighash_hex := sighash; ia_signer_ids := signers |} /\
    NoDup signers /\ (ve_threshold epoch <= length signers)%nat /\ signers ⊆ vs_signer_ids s0.
Proof.
  intros Hnew Hsteps Ha Hi. assert (Hinv := new_session_shares _ _ _ _ Hnew).
  apply new_session_Ok in Hnew as (_ & Ht & _ & _ & _ & _ & _ & _ & _ & _ & _).
  apply session_steps_inv in Hsteps as [[shares ->] Hinv']; [|done].
  apply approval_Ok in Ha as (Hr & Hph & Hsh & Hshares & Hsig). rewrite Hsh in Hi. specialize (Hsig i sighash Hi).
  assert (Hlt := lookup_lt_Some _ _ _ Hi). apply (proj1 (is_ready_iff _) Hr) in Hlt. cbn in Hlt.
  assert (Hd := shares_of_input_signers _ i Hinv').
  rewrite <-(sorted_signers_length _ Hd), Ht in Hlt.
  set (signers := sorted_signers _) in *.
  assert (forall id, id ∈ signers -> exists sh, sh ∈ shares_of_input (with_shares shares s0) i /\ fs_signer_id sh = id /\
    share_matches s0 sh) as Hall.
  { intros id (sh & Hin & Hid)%sorted_signers_elem. exists sh. split; [done|]. split; [done|].
    apply shares_of_input_elem in Hin as [Hin _]. apply list_elem_of_fmap in Hin as ([k sh'] & -> & Hin).
    apply btree_entries_elem, Hinv' in Hin as [_ Hm]. exact Hm. }
  split; exists signers.
  - split_and!; [done|apply sorted_signers_NoDup|done|]. intros id (sh & Hin & Hid & Hm)%Hall.
    exists sh. apply shares_of_input_elem in Hin as [Hin Hidx]. destruct Hm as (Hp & _ & _ & _ & Hs).
    rewrite Hshares, Hph. split_and!; try done. rewrite Hidx in Hs. cbn in Hi. congruence.
  - split_and!; [done|apply sorted_signers_NoDup|done|]. intros id (sh & _ & <- & _ & Hs & _)%Hall. done.
Qed.
End sessions.

(** C16 (safety). No spend is approved without its quorum.  Whatever sequence of
    calls reached the session, if [approval] succeeds then it is for the hash of
    the session's own plan, that plan validates against the epoch, and every
    input has at least [threshold] different signers, each with a share for
    exactly that input, sighash and plan. *)
Theorem approval_has_quorum `{Hashing, Secp256k1, !Taproot, BitcoinCrate} epoch plan sighashes s0 s a :
  new_after_policy_checks epoch plan sighashes = Ok s0 -> rtc session_step s0 s -> approval s = Ok a ->
  va_spend_plan_hash a = plan_hash (vs_spend_plan s0) /\
  validate_against_epoch (vs_spend_plan s0) epoch = Ok tt /\
  length (va_input_sighashes a) = length (vp_inputs (vs_spend_plan s0)) /\
  forall i sighash, va_input_sighashes a !! i = Some sighash -> input_quorum epoch a i sighash.
Proof.
  intros Hnew Hsteps Ha. assert (Hinv := new_session_shares _ _ _ _ Hnew).
  assert (Hq := fun i h => approval_input_quorum _ _ _ _ _ _ i h Hnew Hsteps Ha).
  apply session_steps_inv in Hsteps as [[shares ->] _]; [|done].
  apply new_session_Ok in Hnew as (_ & _ & _ & _ & _ & _ & Hv & _ & Hlen & Hph & _).
  apply approval_Ok in Ha as (_ & Hpa & Hsh & _). split_and!; [|done|by rewrite Hsh|].
  - rewrite Hpa. exact Hph.
  - intros i h Hi. by apply Hq.
Qed.

(** *** Quorums overlap *)

Lemma size_union_intersection (X Y : gset string) : (size (X ∪ Y) + size (X ∩ Y) = size X + size Y)%nat.
Proof.
  rewrite size_union_alt. assert (Y = (Y ∖ X) ∪ (X ∩ Y)) as HY.
  { apply leibniz_equiv. intros z. destruct (decide (z ∈ X)); set_solver. }
  assert (size Y = size (Y ∖ X) + size (X ∩ Y))%nat as Hs; [|lia].
  assert ((Y ∖ X) ## (X ∩ Y)) as Hdisj by set_solver. by rewrite <-(size_union _ _ Hdisj), <-HY.
Qed.

Lemma common_members (all l k : list string) :
  NoDup all -> NoDup l -> NoDup k -> l ⊆ all -> k ⊆ all ->
  exists common, NoDup common /\ common ⊆ l /\ common ⊆ k /\
    (length l + length k <= length all + length common)%nat.
Proof.
  intros Ha Hl Hk Hla Hka. pose (X := list_to_set l : gset string). pose (Y := list_to_set k : gset string).
  exists (elements (X ∩ Y)). split_and!; [apply NoDup_elements|subst X Y; intros z; set_solver..|].
  change (length (elements ?Z)) with (size Z). assert (Hs := size_union_intersection X Y).
  assert (size X = length l) as HX by (by apply size_list_to_set).
  assert (size Y = length k) as HY by (by apply size_list_to_set).
  assert (size (X ∪ Y) <= size (list_to_set all : gset string))%nat as Hle
    by (apply subseteq_size; subst X Y; set_solver).
  rewrite size_list_to_set in Hle by done. lia.
Qed.

Lemma threshold_bounds n : (0 < n)%nat -> (67 * n <= 100 * threshold_67_percent n < 67 * n + 100)%nat.
Proof.
  intros Hn. unfold threshold_67_percent. destruct (Nat.eqb_spec n 0); [lia|].
  pose proof (Nat.div_mod_eq (67 * n + 99) 100). pose proof (Nat.mod_upper_bound (67 * n + 99) 100). lia.
Qed.

(** (safety). Two approvals in one epoch cannot come from separate groups:
    for any two plans and any two of their inputs, more than a third of the
    epoch's signers signed both. *)
Theorem approvals_share_signers `{Hashing, Secp256k1, !Taproot, BitcoinCrate}
    epoch plan1 sighashes1 s1 s1' a1 i1 h1 plan2 sighashes2 s2 s2' a2 i2 h2 :
  epoch_inv epoch ->
  new_after_policy_checks epoch plan1 sighashes1 = Ok s1 -> rtc session_step s1 s1' -> approval s1' = Ok a1 ->
  new_after_policy_checks epoch plan2 sighashes2 = Ok s2 -> rtc session_step s2 s2' -> approval s2' = Ok a2 ->
  va_input_sighashes a1 !! i1 = Some h1 -> va_input_sighashes a2 !! i2 = Some h2 ->
  exists ia1 ia2 common, va_input_signer_ids a1 !! i1 = Some ia1 /\ va_input_signer_ids a2 !! i2 = Some ia2 /\
    NoDup common /\ common ⊆ ia_signer_ids ia1 /\ common ⊆ ia_signer_ids ia2 /\
    (signer_count epoch < 3 * length common)%nat.
Proof.
  intros [Hsl Hth] Hn1 Hs1 Ha1 Hn2 Hs2 Ha2 Hi1 Hi2.
  destruct (approval_input_quorum _ _ _ _ _ _ _ _ Hn1 Hs1 Ha1 Hi1) as (_ & l & Hl & Hld & Hlt & Hls).
  destruct (approval_input_quorum _ _ _ _ _ _ _ _ Hn2 Hs2 Ha2 Hi2) as (_ & k & Hk & Hkd & Hkt & Hks).
  apply new_session_Ok in Hn1 as (Hids1 & _ & Hpos & _). apply new_session_Ok in Hn2 as (Hids2 & _).
  rewrite normalize_signer_ids_id in Hids1, Hids2 by done. injection Hids1 as Hids1. injection Hids2 as Hids2.
  rewrite <-Hids1 in Hls, Hpos. rewrite <-Hids2 in Hks.
  destruct (common_members (ve_signer_ids epoch) l k) as (common & Hc & Hcl & Hck & Hlen); [apply Hsl|done..|].
  eexists _, _, common. split_and!; [exact Hl|exact Hk|done..|].
  pose proof (threshold_bounds (length (ve_signer_ids epoch))). unfold signer_count. lia.
Qed.

(** *** Delivered shares complete a session *)

Lemma filter_length_perm {A} (f : A -> bool) (l k : list A) :
  l ≡ₚ k -> length (List.filter f l) = length (List.filter f k).
Proof.
  induction 1 as [|x l k _ IH|x y l|l k m _ IH1 _ IH2]; simpl; [done| | |congruence].
  - destruct (f x); simpl; congruence.
  - by destruct (f x), (f y).
Qed.

Lemma btree_values_perm {V} (m : gmap string V) : btree_values m ≡ₚ map snd (map_to_list m).
Proof. unfold btree_values, btree_entries. by rewrite sort_by_perm. Qed.

(** Shares that arrive one after the other. *)
Definition deliver_shares (l : list FrostSignatureShare) : M VaultSigningSession VaultError unit :=
  for_each (fun sh => _ ← add_verified_signature_share {| vfs_share := sh |}; mret tt) l.

Definition keyed_shares (l : list FrostSignatureShare) : list (string * FrostSignatureShare) :=
  map (fun sh => (share_key sh, sh)) l.

Lemma NoDup_share_keys l :
  NoDup (map (fun sh => (fs_input_index sh, fs_signer_id sh)) l) -> NoDup (map fst (keyed_shares l)).
Proof.
  unfold keyed_shares. rewrite map_map. cbn. induction l as [|sh l IH]; cbn [map]; [constructor|].
  rewrite !NoDup_cons, !list_elem_of_fmap. intros [Hn Hd]. split; [|by apply IH].
  intros (sh' & Heq & Hin). apply signature_share_key_inj in Heq as [Hi Hs]. apply Hn. exists sh'. by rewrite Hi, Hs.
Qed.

Lemma deliver_shares_run s0 l :
  vs_signature_shares s0 = ∅ -> Forall (share_matches s0) l ->
  NoDup (map (fun sh => (fs_input_index sh, fs_signer_id sh)) l) ->
  deliver_shares l s0 = (Ok tt, with_shares (list_to_map (keyed_shares l)) s0).
Proof.
  intros He Hm Hd%NoDup_share_keys.
  destruct (for_each_run (fun sh => _ ← add_verified_signature_share {| vfs_share := sh |}; mret tt)
    (fun don s => s = with_shares (list_to_map (keyed_shares don)) s0) l s0) as (s & Hrun & ->); [| |exact Hrun].
  - unfold keyed_shares. cbn. rewrite <-He. by destruct s0.
  - intros don sh rest s -> ->. rewrite Forall_app, Forall_cons in Hm. destruct Hm as (_ & Hsh & _).
    unfold keyed_shares in Hd. rewrite map_map, map_app in Hd. cbn in Hd.
    assert (share_key sh ∉ map fst (keyed_shares don)) as Hfresh.
    { apply NoDup_app in Hd as (_ & Hd & _). unfold keyed_shares. rewrite map_map. cbn. set_solver. }
    eexists. split; [|reflexivity]. unfold add_verified_signature_share. rewrite !M_bind_run. unfold asks. cbn [vfs_share].
    rewrite (proj2 (validate_share_identity_Ok (with_shares (list_to_map (keyed_shares don)) s0) sh))
      by (split; [exact Hsh|by apply not_elem_of_list_to_map_1]).
    cbn. f_equal. unfold keyed_shares. rewrite map_app. cbn [map].
    rewrite list_to_map_snoc by done. done.
Qed.

Lemma ready_session `{Hashing, Secp256k1, !Taproot, BitcoinCrate} epoch plan p sighashes hs :
  epoch_ready epoch -> vp_normalized plan = Ok p -> validate_against_epoch p epoch = Ok tt ->
  normalize_input_sighashes sighashes = Ok hs -> length hs = length (vp_inputs p) ->
  exists s, new_after_policy_checks epoch plan sighashes = Ok s /\ vs_input_sighashes s = hs /\ vs_signature_shares s = ∅.
Proof.
  intros Hready Hp Hv Hh Hlen. assert (Hmap := ready_identifier_map _ Hready).
  destruct Hready as ([Hsl Ht] & Hne & _ & (hash & Hpkg & Hhash) & _).
  assert (vp_inputs p <> []) as Hin.
  { unfold validate_against_epoch in Hv. res_inv. by apply validate_parts in Hv as (? & _ & _ & _ & _ & _ & _ & _ & ?). }
  unfold new_after_policy_checks, required_public_key_package_hash. rewrite (normalize_signer_ids_id _ Hsl). cbn [mbind result_bind].
  pose proof (threshold_bounds _ Hne). rewrite <-Ht in *.
  rewrite (proj2 (Nat.eqb_neq (ve_threshold epoch) 0)) by lia.
  rewrite (proj2 (Nat.eqb_neq (length (ve_signer_ids epoch)) 0)) by lia. cbn [orb].
  rewrite (proj2 (Nat.ltb_ge (length (ve_signer_ids epoch)) (ve_threshold epoch))) by lia.
  rewrite Hpkg. cbn. rewrite Hhash. cbn. rewrite Hmap. cbn. rewrite Hp. cbn. rewrite Hv. cbn. rewrite Hh. cbn.
  rewrite Hlen, Nat.eqb_refl. cbn [negb].
  rewrite (proj2 (Nat.eqb_neq (length (vp_inputs p)) 0)) by (destruct (vp_inputs p); done).
  eexists. split; [reflexivity|]. done.
Qed.

(** C22 (liveness). An epoch whose transcript is attached can spend: for a plan
    that validates, a session opens, and once a quorum of its signers has
    delivered matching shares for every input, in any order, every share is
    accepted and the session approves the spend with exactly those shares. *)
Theorem ready_epoch_approves `{Hashing, Secp256k1, !Taproot, BitcoinCrate} epoch plan p sighashes hs :
  epoch_ready epoch -> vp_normalized plan = Ok p -> validate_against_epoch p epoch = Ok tt ->
  normalize_input_sighashes sighashes = Ok hs -> length hs = length (vp_inputs p) ->
  exists s0, new_after_policy_checks epoch plan sighashes = Ok s0 /\
    forall l, Forall (share_matches s0) l ->
      NoDup (map (fun sh => (fs_input_index sh, fs_signer_id sh)) l) ->
      (forall i, (i < length hs)%nat ->
         (ve_threshold epoch <= length (List.filter (fun sh => Nat.eqb (fs_input_index sh) i) l))%nat) ->
      exists s a, deliver_shares l s0 = (Ok tt, s) /\ approval s = Ok a /\ va_signature_shares a ≡ₚ l.
Proof.
  intros Hready Hp Hv Hh Hlen.
  destruct (ready_session _ _ _ _ _ Hready Hp Hv Hh Hlen) as (s0 & Hnew & Hhs & He). exists s0. split; [done|].
  intros l Hm Hd Hq. eexists. apply new_session_Ok in Hnew as (_ & Ht & _).
  assert (Hkeys := NoDup_share_keys _ Hd).
  assert (btree_values (list_to_map (keyed_shares l) : gmap string FrostSignatureShare) ≡ₚ l) as Hperm.
  { rewrite btree_values_perm. assert (Hpm := map_to_list_to_map (M := gmap string) (keyed_shares l) Hkeys).
    rewrite Hpm. unfold keyed_shares. rewrite map_map. cbn. by rewrite map_id. }
  assert (is_ready (with_shares (list_to_map (keyed_shares l)) s0) = true) as Hr.
  { apply is_ready_iff. intros i Hi. cbn in Hi. rewrite Hhs in Hi. unfold shares_of_input. cbn.
    rewrite (filter_length_perm _ _ _ Hperm), Ht. auto. }
  unfold approval. eexists. split; [by apply deliver_shares_run|]. rewrite Hr. cbn [negb]. split; [reflexivity|done].
Qed.

(** ** Withdrawals in a session *)

(** What the vault relies on before it pays a withdrawal output: its owner's
    stored request is valid and signed, names that script and gross amount, and
    the claim ledger holds the reservation. *)
Definition reserved_output `{Hashing, Secp256k1, BitcoinCrate} (rs : SharechainReplayState) (height : N)
    (o : WithdrawalOutput) : Prop :=
  exists request pending, rs_withdrawal_requests rs !! wo_request_id o = Some request /\
    wr_validate request height = Ok tt /\
    to_ascii_lowercase (wr_destination_script_hex request) = to_ascii_lowercase (wo_destination_script_hex o) /\
    wr_amount_sats request = wo_gross_amount_sats o /\
    Ledger.pending_withdrawal (rs_claim_ledger rs) (wo_request_id o) = Some pending /\
    Ledger.pw_claim_owner_id pending = wr_claim_owner_id request /\
    Ledger.pw_net_amount_sats pending = wo_net_amount_sats o /\ Ledger.pw_fee_sats pending = wo_fee_sats o.

Lemma check_reserved_output `{Hashing, Secp256k1, BitcoinCrate} rs height o :
  check_reserved rs height o = Ok tt -> reserved_output rs height o.
Proof.
  unfold check_reserved, get_request. intros. res_inv. bool_inv.
  unfold output_matches_request, pending_matches_output in *. bool_inv.
  match goal with H : eq_ignore_ascii_case _ _ = true |- _ => apply eq_ignore_ascii_case_iff in H end.
  eexists _, _. split_and!; eassumption || congruence || done.
Qed.

Lemma reserved_batch_outputs `{Hashing, Secp256k1, BitcoinCrate} rs batch height :
  withdrawal_batch_is_reserved rs batch height = Ok tt -> Forall (reserved_output rs height) (wb_outputs batch).
Proof.
  unfold withdrawal_batch_is_reserved, expected_withdrawal_batch. intros Hr.
  apply bind_Ok in Hr as (b & Hb & Hr). res_inv. subst.
  match goal with H : bool_decide (_ <> wb_normalized batch) = false |- _ =>
    apply bool_decide_eq_false_1, dec_stable in H as -> end.
  apply try_for_each_Ok in Hr. cbn [wb_normalized wb_outputs] in Hr. rewrite sort_by_perm in Hr.
  apply Forall_map in Hr. eapply Forall_impl; [exact Hr|]. intros o Ho%check_reserved_output.
  unfold reserved_output in *. cbn in Ho. by rewrite lower_idemp in Ho.
Qed.

(** ** Examples *)

Definition vault_key (c : ascii) : string := repeat_char c 64.
Definition heartbeat (id : string) : SignerHeartbeat := {|
  hb_signer_id := id; hb_idena_address := "0x00"; hb_host_pubkey := "00"; hb_last_seen := 0; hb_eligible := true |}.
Definition sample_signers : list string := ["Dave"; "alice"; "bob"; "carol"]%string.
Definition binding (idx : nat) (id : string) : DkgSignerBinding := {|
  sb_signer_id := id; sb_frost_identifier_hex := deterministic_frost_identifier_hex idx |}.

Definition sample_transcript (epoch : N) (key : ascii) : DkgTranscript := {|
  dt_epoch_id := epoch; dt_threshold := 3; dt_signer_ids := sample_signers;
  dt_frost_group_key_xonly := vault_key key; dt_public_key_package_hash := vault_key "1";
  dt_signer_bindings := [binding 3 "dave"; binding 0 "alice"; binding 1 "bob"; binding 2 "carol"];
  dt_round1_packages_root := vault_key "2"; dt_round2_packages_root := vault_key "3";
  dt_signer_ack_root := vault_key "4"; dt_recovery_data_hash := vault_key "5" |}.

Definition online_epoch (epoch : N) : VaultEpoch :=
  from_online_signers epoch 5000000000 (map heartbeat ("bob" :: sample_signers)%string) 60.
Definition sample_epoch (epoch : N) (key : ascii) : VaultEpoch :=
  (@attach_dkg_transcript hashing_c (sample_transcript epoch key) (online_epoch epoch)).2.

Lemma attached_pair {S E} (m : M S E unit) s : is_ok (m s).1 = true -> m s = (Ok tt, (m s).2).
Proof. by destruct (m s) as [[[]|] s']. Qed.

Lemma sample_epoch_ready : epoch_ready (sample_epoch 5 "a").
Proof.
  eapply (@attach_ready hashing_c); [apply from_online_signers_inv|]. apply attached_pair. vm_compute. reflexivity.
Qed.

Definition vault_input (c : ascii) (vout amount : N) : VaultInput := {|
  vi_txid := vault_key c; vi_vout := vout; vi_amount_sats := amount; vi_confirmations := 120;
  vi_script_pubkey_hex := "5120" +:+ vault_key "a" |}.

Definition rotation_plan : VaultSpendPlan := {|
  vp_epoch_id := 5; vp_frost_group_key_xonly := vault_key "a";
  vp_inputs := [vault_input "c" 1 50000; vault_input "d" 0 70000];
  vp_withdrawal_batch := None; vp_tx_fee_sats := 1000;
  vp_vault_remainder := Some (next_epoch_rotation 6 (vault_key "b") 119000) |}.

Definition rotation_sighashes : list string := [vault_key "7"; vault_key "8"].

Definition sample_share (plan_hash : string) (signer : nat * string) (input : nat * string) : FrostSignatureShare := {|
  fs_signer_id := signer.2; fs_frost_identifier_hex := deterministic_frost_identifier_hex signer.1;
  fs_public_key_package_hash := vault_key "1"; fs_spend_plan_hash := plan_hash;
  fs_input_index := input.1; fs_sighash_hex := input.2; fs_signature_share_hex := vault_key "9" |}.

Lemma validated_plan_balances_witness :
  sum_N (map vi_amount_sats (vp_inputs rotation_plan)) = 0 + 1000 + 119000.
Proof.
  assert (@vp_validate hashing_c secp_c taproot_c bitcoin_c rotation_plan = Ok tt) as Hv by (vm_compute; reflexivity).
  exact (proj1 (@validated_plan_balances hashing_c secp_c taproot_c bitcoin_c rotation_plan Hv)).
Defined.

Lemma rotation_moves_everything_witness : exists r,
  vp_vault_remainder rotation_plan = Some r /\ vr_amount_sats r + 1000 = 120000.
Proof.
  assert (@vp_rotation hashing_c secp_c taproot_c bitcoin_c (sample_epoch 5 "a") (sample_epoch 6 "b")
    [vault_input "d" 0 70000; vault_input "c" 1 50000] 1000 = Ok rotation_plan) as Hp by (vm_compute; reflexivity).
  destruct (@rotation_moves_everything hashing_c secp_c taproot_c bitcoin_c (sample_epoch 5 "a") (sample_epoch 6 "b")
    [vault_input "d" 0 70000; vault_input "c" 1 50000] 1000 rotation_plan Hp) as (_ & r & _ & _ & Hr & Hsum & _).
  exists r. split; [exact Hr|exact Hsum].
Defined.

Definition opened_session : VaultSigningSession := {|
  vs_epoch_id := 5; vs_threshold := 3; vs_signer_ids := ["alice"; "bob"; "carol"; "dave"]%string;
  vs_dkg_public_key_package_hash := vault_key "1"; vs_spend_plan_hash := @plan_hash hashing_c rotation_plan;
  vs_input_sighashes := rotation_sighashes; vs_spend_plan := rotation_plan;
  vs_signer_frost_identifiers :=
    list_to_map (imap (fun i id => (id, deterministic_frost_identifier_hex i)) ["alice"; "bob"; "carol"; "dave"]%string);
  vs_signature_shares := ∅ |}.

Lemma opened_session_new :
  @new_after_policy_checks hashing_c secp_c taproot_c bitcoin_c (sample_epoch 5 "a") rotation_plan rotation_sighashes
    = Ok opened_session.
Proof. vm_compute. reflexivity. Qed.

(** The shares of three of the four signers for both inputs. *)
Definition quorum_shares (signers : list (nat * string)) : list FrostSignatureShare :=
  signer ← signers;
  map (sample_share (@plan_hash hashing_c rotation_plan) signer) [(0%nat, vault_key "7"); (1%nat, vault_key "8")].
Definition first_quorum : list (nat * string) := [(0%nat, "alice"); (1%nat, "bob"); (2%nat, "carol")]%string.
Definition second_quorum : list (nat * string) := [(1%nat, "bob"); (2%nat, "carol"); (3%nat, "dave")]%string.

Definition approve (signers : list (nat * string)) : VaultSigningSession :=
  (deliver_shares (quorum_shares signers) opened_session).2.

Lemma deliver_steps l s s' : deliver_shares l s = (Ok tt, s') -> rtc session_step s s'.
Proof.
  revert s. unfold deliver_shares. induction l as [|sh l IH]; intros s Hrun; cbn [for_each] in Hrun.
  - by injection Hrun as <-.
  - apply M_bind_Ok in Hrun as ([] & s1 & Hsh & Hrun). apply M_bind_Ok in Hsh as (n & s2 & Hadd & Hret).
    injection Hret as <-. eapply rtc_l; [by eapply step_verified|]. by apply IH.
Qed.

Lemma approve_steps signers :
  is_ok (deliver_shares (quorum_shares signers) opened_session).1 = true -> rtc session_step opened_session (approve signers).
Proof. intros Hok. eapply deliver_steps, attached_pair, Hok. Qed.

Lemma approval_has_quorum_witness : exists a,
  approval (approve first_quorum) = Ok a /\ input_quorum (sample_epoch 5 "a") a 1 (vault_key "8").
Proof.
  assert (Hsteps := approve_steps first_quorum ltac:(vm_compute; reflexivity)).
  destruct (is_ok_Ok (approval (approve first_quorum))) as [a Ha]; [vm_compute; reflexivity|].
  exists a. split; [exact Ha|].
  refine (proj2 (proj2 (proj2 (@approval_has_quorum hashing_c secp_c taproot_c bitcoin_c _ _ _ _ _ _ opened_session_new Hsteps Ha)))
    1%nat (vault_key "8") _).
  apply approval_Ok in Ha as (_ & _ & -> & _). vm_compute. reflexivity.
Defined.

Lemma approvals_share_signers_witness : exists common : list string,
  NoDup common /\ (4 < 3 * length common)%nat.
Proof.
  assert (Hs1 := approve_steps first_quorum ltac:(vm_compute; reflexivity)).
  assert (Hs2 := approve_steps second_quorum ltac:(vm_compute; reflexivity)).
  destruct (is_ok_Ok (approval (approve first_quorum))) as [a1 Ha1]; [vm_compute; reflexivity|].
  destruct (is_ok_Ok (approval (approve second_quorum))) as [a2 Ha2]; [vm_compute; reflexivity|].
  assert (va_input_sighashes a1 !! 0%nat = Some (vault_key "7")) as Hi1
    by (apply approval_Ok in Ha1 as (_ & _ & -> & _); vm_compute; reflexivity).
  assert (va_input_sighashes a2 !! 1%nat = Some (vault_key "8")) as Hi2
    by (apply approval_Ok in Ha2 as (_ & _ & -> & _); vm_compute; reflexivity).
  destruct (@approvals_share_signers hashing_c secp_c taproot_c bitcoin_c (sample_epoch 5 "a") _ _ _ _ _ _ _ _ _ _ _ _ _ _
    (proj1 sample_epoch_ready) opened_session_new Hs1 Ha1 opened_session_new Hs2 Ha2 Hi1 Hi2)
    as (_ & _ & common & _ & _ & Hd & _ & _ & Hlen).
  exists common. split; [exact Hd|exact Hlen].
Defined.

Lemma ready_epoch_approves_witness : exists s a,
  deliver_shares (quorum_shares first_quorum) opened_session = (Ok tt, s) /\ approval s = Ok a /\
  va_signature_shares a ≡ₚ quorum_shares first_quorum.
Proof.
  destruct (@ready_epoch_approves hashing_c secp_c taproot_c bitcoin_c (sample_epoch 5 "a") rotation_plan rotation_plan
    rotation_sighashes rotation_sighashes sample_epoch_ready) as (s0 & Hs0 & Hl);
    [vm_compute; reflexivity..|].
  rewrite opened_session_new in Hs0. injection Hs0 as <-. apply Hl.
  - vm_compute. repeat (constructor; [split_and!; [reflexivity| |reflexivity..]|]); [..|constructor];
      repeat first [apply list_elem_of_here | apply list_elem_of_further].
  - apply (bool_decide_eq_true_1 _). vm_compute. reflexivity.
  - intros i Hi. destruct i as [|[|i]]; [vm_compute; lia..|]. cbn in Hi. lia.
Defined.
