(* ===== verification/VaultTx.v ===== *)
(** * Vault transactions ([crates/pohw-core/src/vault_tx.rs])

    Builds the unsigned transaction and PSBT of a spend plan and the sighash of
    each input, and proves what the transaction pays.  The structs of the
    [bitcoin] crate are plain records; parsing a txid, creating a PSBT and the
    taproot sighash are the crate's and stay parameters. *)
From S2P Require Import Prelude Order Text Crates Concrete Withdrawal DkgTransport ShareTree SharechainState Vault VaultSafety.
From Stdlib Require Import Strings.Ascii Strings.Byte.

Local Open Scope N_scope.

(** ** The structs of the [bitcoin] crate *)

Record TxOut := { to_value : N; to_script_pubkey : bytes }.

Class TxidParser := { Txid : Type; txid_from_str : string -> result string Txid }.

(** Documented behaviour: 64 hexadecimal digits of either case are a txid, and
    the txid determines them up to the case. *)
Class TxidLaws `{TxidParser} := {
  txid_from_str_total s :
    String.length s = 64%nat -> all_bytes is_ascii_hexdigit s = true -> exists t, txid_from_str s = Ok t;
  txid_from_str_case s : txid_from_str (to_ascii_lowercase s) = txid_from_str s;
  txid_from_str_inj a b t :
    txid_from_str a = Ok t -> txid_from_str b = Ok t -> to_ascii_lowercase a = to_ascii_lowercase b
}.

Record TxIn `{TxidParser} := {
  ti_previous_output : Txid * N;
  ti_script_sig : bytes;
  ti_sequence : N;
  ti_witness : list bytes
}.

Record UnsignedTransaction `{TxidParser} := {
  ut_version : N;
  ut_lock_time : N;
  ut_input : list TxIn;
  ut_output : list TxOut
}.

Record PsbtInput `{Secp256k1} := {
  pi_witness_utxo : option TxOut;
  pi_tap_internal_key : option XOnlyPublicKey;
  pi_sighash_type : option N
}.

(** [Psbt::from_unsigned_tx], of which only the list of inputs is used later,
    and [SighashCache::taproot_key_spend_signature_hash]. *)
Class PsbtCrate `{TxidParser, Secp256k1} := {
  psbt_from_unsigned_tx : UnsignedTransaction -> result string (list PsbtInput);
  taproot_sighash : UnsignedTransaction -> nat -> list TxOut -> result string bytes
}.

Definition empty_psbt_input `{Secp256k1} : PsbtInput :=
  {| pi_witness_utxo := None; pi_tap_internal_key := None; pi_sighash_type := None |}.

(** Documented behaviour: a PSBT is created for any transaction without script
    signatures and witnesses, with one empty input map per input; the sighash
    of an existing input is a 32-byte digest when there is one prevout per input. *)
Class PsbtLaws `{PsbtCrate} := {
  psbt_from_unsigned tx :
    Forall (fun i => ti_script_sig i = [] /\ ti_witness i = []) (ut_input tx) ->
    psbt_from_unsigned_tx tx = Ok (replicate (length (ut_input tx)) empty_psbt_input);
  taproot_sighash_total tx i prevouts :
    (i < length (ut_input tx))%nat -> length prevouts = length (ut_input tx) ->
    exists h, taproot_sighash tx i prevouts = Ok h /\ length h = 32%nat
}.

(** ** [vault_tx.rs] *)

Inductive VaultTxError :=
| InvalidVaultKey (reason : string)
| InvalidInputTxid (txid reason : string)
| VT_InvalidDestinationScript (request_id reason : string)
| VT_WithdrawalOutputPolicy (request_id : string) (reason : WithdrawalError)
| InvalidSpendPlan (reason : VaultError)
| InvalidSpendPlanScript (txid : string) (vout : N) (reason : string)
| VT_Psbt (reason : string)
| VT_AmountOverflow
| MissingWitnessUtxo (input_index : nat)
| PsbtInputCountMismatch (psbt_inputs tx_inputs : nat)
| TaprootSighash (reason : string).

Abbreviation vault_tx_checked := (result VaultTxError).

(** [Sequence::ENABLE_RBF_NO_LOCKTIME] and [TapSighashType::Default]. *)
Definition ENABLE_RBF_NO_LOCKTIME : N := 0xFFFFFFFD.
Definition TAP_SIGHASH_DEFAULT : N := 0.

Definition sorted_inputs (inputs : list VaultInput) : list VaultInput := sort_by compare_inputs inputs.

Section transactions.
Context `{Hashing, Secp256k1, !Taproot, BitcoinCrate, !TxidParser, !PsbtCrate}.

Record VaultTransactionPlan := {
  vtp_spend_plan_hash : string;
  vtp_vault_script_pubkey : bytes;
  vtp_unsigned_tx : UnsignedTransaction;
  vtp_psbt : list PsbtInput
}.

(** One round of the loop over the inputs. *)
Definition build_tx_input (input : VaultInput) : vault_tx_checked TxIn :=
  txid ← map_err (InvalidInputTxid (vi_txid input)) (txid_from_str (vi_txid input));
  Ok {| ti_previous_output := (txid, vi_vout input); ti_script_sig := [];
        ti_sequence := ENABLE_RBF_NO_LOCKTIME; ti_witness := [] |}.

(** One round of the loop over the withdrawal outputs. *)
Definition build_tx_output (output : WithdrawalOutput) : vault_tx_checked TxOut :=
  _ ← map_err (VT_WithdrawalOutputPolicy (wo_request_id output))
        (validate_destination_script_policy (wo_request_id output) (wo_destination_script_hex output)
           (wo_output_kind output) (wo_net_amount_sats output));
  script_bytes ← map_err (VT_InvalidDestinationScript (wo_request_id output))
                   (hex_decode (wo_destination_script_hex output));
  Ok {| to_value := wo_net_amount_sats output; to_script_pubkey := script_bytes |}.

Definition build_remainder_output (r : VaultRemainderOutput) : vault_tx_checked TxOut :=
  remainder_key ← map_err InvalidVaultKey (xonly_from_str (vr_frost_group_key_xonly r));
  Ok {| to_value := vr_amount_sats r; to_script_pubkey := new_p2tr remainder_key |}.

(** The loop over [psbt.inputs.iter_mut().zip(inputs)]: it stops at the shorter
    of the two lists. *)
Fixpoint fill_psbt (internal_key : XOnlyPublicKey) (psbt : list PsbtInput) (inputs : list VaultInput)
    : vault_tx_checked (list PsbtInput) :=
  match psbt, inputs with
  | _ :: psbt', input :: inputs' =>
      script_bytes ← map_err (InvalidSpendPlanScript (vi_txid input) (vi_vout input))
                       (hex_decode (vi_script_pubkey_hex input));
      rest ← fill_psbt internal_key psbt' inputs';
      Ok ({| pi_witness_utxo := Some {| to_value := vi_amount_sats input; to_script_pubkey := script_bytes |};
             pi_tap_internal_key := Some internal_key;
             pi_sighash_type := Some TAP_SIGHASH_DEFAULT |} :: rest)
  | _, _ => Ok psbt
  end.

Definition build_vault_psbt (plan : VaultSpendPlan) : vault_tx_checked VaultTransactionPlan :=
  _ ← map_err InvalidSpendPlan (vp_validate plan);
  internal_key ← map_err InvalidVaultKey (xonly_from_str (vp_frost_group_key_xonly plan));
  let inputs := sorted_inputs (vp_inputs plan) in
  tx_inputs ← try_map build_tx_input inputs;
  withdrawals ← match vp_withdrawal_batch plan with
                | Some batch => try_map build_tx_output (sort_by compare_output_ids (wb_outputs batch))
                | None => Ok []
                end;
  remainder ← match vp_vault_remainder plan with
              | Some r => out ← build_remainder_output r; Ok [out]
              | None => Ok []
              end;
  let unsigned_tx := {| ut_version := 2; ut_lock_time := 0; ut_input := tx_inputs;
                        ut_output := withdrawals ++ remainder |} in
  psbt ← map_err VT_Psbt (psbt_from_unsigned_tx unsigned_tx);
  psbt ← fill_psbt internal_key psbt inputs;
  Ok {| vtp_spend_plan_hash := plan_hash plan; vtp_vault_script_pubkey := new_p2tr internal_key;
        vtp_unsigned_tx := unsigned_tx; vtp_psbt := psbt |}.

Definition transaction_output_total_sats (tx : UnsignedTransaction) : vault_tx_checked N :=
  try_fold (fun total output => ok_or VT_AmountOverflow (checked_add sats_bits total (to_value output)))
    0 (ut_output tx).

(** The [witness_utxo]s by position. *)
Fixpoint collect_prevouts (input_index : nat) (psbt : list PsbtInput) : vault_tx_checked (list TxOut) :=
  match psbt with
  | [] => Ok []
  | input :: psbt' =>
      utxo ← ok_or (MissingWitnessUtxo input_index) (pi_witness_utxo input);
      rest ← collect_prevouts (S input_index) psbt';
      Ok (utxo :: rest)
  end.

Definition vault_input_sighashes (tx_plan : VaultTransactionPlan) : vault_tx_checked (list string) :=
  let tx := vtp_unsigned_tx tx_plan in
  if negb (Nat.eqb (length (vtp_psbt tx_plan)) (length (ut_input tx)))
  then Err (PsbtInputCountMismatch (length (vtp_psbt tx_plan)) (length (ut_input tx)))
  else
    prevouts ← collect_prevouts 0 (vtp_psbt tx_plan);
    try_map (fun input_index =>
      sighash ← map_err TaprootSighash (taproot_sighash tx input_index prevouts);
      Ok (hex_encode sighash)) (seq 0 (length (ut_input tx))).
End transactions.

(** ** What the transaction pays *)

Section lemmas.
Context `{Hashing, Secp256k1, !Taproot, BitcoinCrate, !TxidParser, !PsbtCrate}.

(** The outpoint of an input. *)
Definition outpoint_of (input : VaultInput) : result string (Txid * N) :=
  txid ← txid_from_str (vi_txid input); Ok (txid, vi_vout input).

Lemma build_tx_inputs_Ok l k :
  try_map build_tx_input l = Ok k ->
  Forall2 (fun input i => outpoint_of input = Ok (ti_previous_output i)) l k /\
  Forall (fun i => ti_script_sig i = [] /\ ti_witness i = []) k.
Proof.
  intros Hk%try_map_Ok. split.
  - eapply Forall2_impl; [exact Hk|]. intros input i Hi. unfold build_tx_input in Hi. unfold outpoint_of.
    res_inv. subst. match goal with H : txid_from_str _ = Ok _ |- _ => by rewrite H end.
  - eapply Forall2_Forall_r; [exact Hk|]. apply Forall_forall. intros input _ i Hi. unfold build_tx_input in Hi.
    res_inv. by subst.
Qed.

Lemma build_tx_outputs_Ok l k :
  try_map build_tx_output l = Ok k ->
  Forall2 (fun o out => to_value out = wo_net_amount_sats o /\
                        hex_decode (wo_destination_script_hex o) = Ok (to_script_pubkey out)) l k.
Proof.
  intros Hk%try_map_Ok. eapply Forall2_impl; [exact Hk|]. intros o out Ho.
  unfold build_tx_output in Ho. res_inv. by subst.
Qed.

Lemma Forall2_sum {A B} (f : A -> N) (g : B -> N) l k :
  Forall2 (fun x y => g y = f x) l k -> sum_N (map g k) = sum_N (map f l).
Proof. induction 1 as [|x y l k Hxy _ IH]; simpl; [done|]. by rewrite Hxy, IH. Qed.

Lemma sum_map_perm {A} (f : A -> N) l k : l ≡ₚ k -> sum_N (map f l) = sum_N (map f k).
Proof. intros Hp. by apply sum_N_perm, Permutation_map. Qed.

Lemma transaction_output_total_Ok tx t :
  transaction_output_total_sats tx = Ok t <->
  t = sum_N (map to_value (ut_output tx)) /\ fits sats_bits (sum_N (map to_value (ut_output tx))).
Proof.
  unfold transaction_output_total_sats.
  rewrite <-(N.add_0_l (sum_N _)), <-(try_fold_checked_add sats_bits VT_AmountOverflow) by done.
  generalize 0. induction (ut_output tx) as [|o l IH]; intros t0; cbn [map try_fold]; [done|].
  rewrite !bind_Ok. by setoid_rewrite IH.
Qed.

(** Every filled PSBT input carries the amount of its vault input. *)
Lemma fill_psbt_Ok key psbt inputs filled :
  length psbt = length inputs -> fill_psbt key psbt inputs = Ok filled ->
  Forall2 (fun input p => exists script, pi_witness_utxo p = Some {| to_value := vi_amount_sats input; to_script_pubkey := script |} /\
                          hex_decode (vi_script_pubkey_hex input) = Ok script) inputs filled.
Proof.
  revert inputs filled. induction psbt as [|p psbt IH]; intros [|input inputs] filled Hl Hf; try discriminate Hl.
  - injection Hf as <-. constructor.
  - cbn [fill_psbt] in Hf. res_inv. subst. constructor; [eauto|]. apply IH; [|done]. by injection Hl.
Qed.

Lemma fill_psbt_total key psbt inputs :
  Forall (fun input => exists b, hex_decode (vi_script_pubkey_hex input) = Ok b) inputs ->
  exists filled, fill_psbt key psbt inputs = Ok filled.
Proof.
  intros Hi. revert psbt. induction Hi as [|input inputs [b Hb] _ IH]; intros [|p psbt]; cbn; eauto.
  destruct (IH psbt) as [filled Hf]. rewrite Hb. cbn. rewrite Hf. cbn. eauto.
Qed.

Lemma collect_prevouts_Ok idx inputs psbt :
  Forall2 (fun input p => exists script, pi_witness_utxo p = Some {| to_value := vi_amount_sats input; to_script_pubkey := script |} /\
                          hex_decode (vi_script_pubkey_hex input) = Ok script) inputs psbt ->
  exists prevouts, collect_prevouts idx psbt = Ok prevouts /\
    Forall2 (fun input out => to_value out = vi_amount_sats input) inputs prevouts.
Proof.
  intros Hf. revert idx. induction Hf as [|input p inputs psbt (script & Hu & _) _ IH]; intros idx; cbn.
  - eexists. split; [reflexivity|constructor].
  - destruct (IH (S idx)) as (prevouts & Hc & Hp). rewrite Hu. cbn. rewrite Hc. cbn.
    eexists. split; [reflexivity|]. by constructor.
Qed.

Lemma try_map_total {E A B} (f : A -> result E B) l :
  Forall (fun x => exists y, f x = Ok y) l -> exists k, try_map f l = Ok k.
Proof.
  induction 1 as [|x l [y Hy] _ [k Hk]]; [by exists []|]. exists (y :: k). cbn. rewrite Hy. cbn. by rewrite Hk.
Qed.

(** What a built transaction is, in terms of its plan. *)
Lemma build_vault_psbt_Ok `{!PsbtLaws} p t :
  build_vault_psbt p = Ok t ->
  let tx := vtp_unsigned_tx t in
  vp_validate p = Ok tt /\
  Forall2 (fun input i => outpoint_of input = Ok (ti_previous_output i)) (sorted_inputs (vp_inputs p)) (ut_input tx) /\
  (exists withdrawals remainder, ut_output tx = withdrawals ++ remainder /\
    Forall2 (fun o out => to_value out = wo_net_amount_sats o /\
                          hex_decode (wo_destination_script_hex o) = Ok (to_script_pubkey out))
      (sort_by compare_output_ids (batch_outputs p)) withdrawals /\
    Forall2 (fun r out => build_remainder_output r = Ok out) (option_list (vp_vault_remainder p)) remainder) /\
  Forall2 (fun input pi => exists script, pi_witness_utxo pi = Some {| to_value := vi_amount_sats input; to_script_pubkey := script |} /\
                           hex_decode (vi_script_pubkey_hex input) = Ok script)
    (sorted_inputs (vp_inputs p)) (vtp_psbt t) /\
  vtp_spend_plan_hash t = plan_hash p.
Proof.
  unfold build_vault_psbt. intros Hb. apply bind_Ok in Hb as ([] & Hv%map_err_Ok & Hb).
  apply bind_Ok in Hb as (key & _ & Hb). apply bind_Ok in Hb as (ins & Hins & Hb).
  apply bind_Ok in Hb as (ws & Hws & Hb). apply bind_Ok in Hb as (rem & Hrem & Hb).
  apply bind_Ok in Hb as (psbt & Hpsbt%map_err_Ok & Hb). apply bind_Ok in Hb as (filled & Hfill & [= <-]). cbn.
  apply build_tx_inputs_Ok in Hins as [Hins Hempty]. rewrite psbt_from_unsigned in Hpsbt by done. injection Hpsbt as <-.
  apply fill_psbt_Ok in Hfill; [|rewrite length_replicate; cbn; symmetry; by eapply Forall2_length].
  split_and!; try done. exists ws, rem. split; [done|]. split.
  - unfold batch_outputs. destruct (vp_withdrawal_batch p); [by apply build_tx_outputs_Ok|]. injection Hws as <-. constructor.
  - destruct (vp_vault_remainder p) as [r|]; cbn; [|injection Hrem as <-; constructor].
    apply bind_Ok in Hrem as (out & Hout & [= <-]). by repeat constructor.
Qed.
End lemmas.

Section built.
Context `{Hashing, !HexLaws, Secp256k1, !Taproot, BitcoinCrate, !TxidParser, !PsbtCrate, !PsbtLaws}.

Lemma built_output_sum p t :
  build_vault_psbt p = Ok t ->
  sum_N (map to_value (ut_output (vtp_unsigned_tx t))) =
    sum_N (map wo_net_amount_sats (batch_outputs p)) + vault_remainder_sats p.
Proof.
  intros (_ & _ & (ws & rem & -> & Hws & Hrem) & _)%build_vault_psbt_Ok. rewrite map_app, sum_N_app. f_equal.
  - rewrite (Forall2_sum wo_net_amount_sats to_value (sort_by compare_output_ids (batch_outputs p)) ws)
      by (eapply Forall2_impl; [exact Hws|]; by intros ?? []).
    apply sum_map_perm, sort_by_perm.
  - unfold vault_remainder_sats. destruct (vp_vault_remainder p) as [r|]; cbn in Hrem; inversion Hrem as [|? out ? rest Hout Hrest]; subst; [|done].
    inversion Hrest; subst. unfold build_remainder_output in Hout. res_inv. subst. cbn. lia.
Qed.

Lemma sighash_normalized sighash :
  length sighash = 32%nat -> validate_hash_hex (hex_encode sighash) = Ok (hex_encode sighash).
Proof.
  intros Hl. apply hex64_Ok. rewrite hex_encode_lower, hex_encode_length, Hl. split_and!; [done..|].
  apply hex_encode_digits.
Qed.

Lemma vault_input_sighashes_total p t :
  build_vault_psbt p = Ok t ->
  exists hs, vault_input_sighashes t = Ok hs /\ length hs = length (vp_inputs p) /\
    normalize_input_sighashes hs = Ok hs.
Proof.
  intros (_ & Hins & _ & Hpsbt & _)%build_vault_psbt_Ok.
  assert (length (ut_input (vtp_unsigned_tx t)) = length (vp_inputs p)) as Hin.
  { rewrite <-(Forall2_length _ _ _ Hins). apply sort_by_length. }
  assert (length (vtp_psbt t) = length (vp_inputs p)) as Hp.
  { rewrite <-(Forall2_length _ _ _ Hpsbt). apply sort_by_length. }
  destruct (collect_prevouts_Ok 0 _ _ Hpsbt) as (prevouts & Hc & Hsum).
  assert (length prevouts = length (ut_input (vtp_unsigned_tx t))) as Hpl.
  { rewrite <-(Forall2_length _ _ _ Hsum), Hin. apply sort_by_length. }
  unfold vault_input_sighashes. rewrite Hp, Hin, Nat.eqb_refl, Hc. cbn [negb mbind result_bind].
  match goal with |- context [try_map ?f ?l] => set (step := f); destruct (try_map_total step l) as [hs Hhs] end.
  { apply Forall_forall. intros i Hi%elem_of_seq. unfold step.
    destruct (taproot_sighash_total (vtp_unsigned_tx t) i prevouts) as (h & Hh & _); [lia|done|].
    rewrite Hh. cbn. eauto. }
  exists hs. split; [exact Hhs|]. apply try_map_Ok in Hhs. split.
  - rewrite <-(Forall2_length _ _ _ Hhs). by rewrite length_seq.
  - apply try_map_fixed, Forall_forall. intros x [j Hx]%list_elem_of_lookup.
    eapply Forall2_lookup_r in Hhs as (i & Hi & Hy); [|exact Hx]. apply lookup_seq in Hi as [-> Hi].
    destruct (taproot_sighash_total (vtp_unsigned_tx t) (0 + j) prevouts) as (h & Hh & Hlen); [lia|done|].
    unfold step in Hy. rewrite Hh in Hy. cbn in Hy. injection Hy as <-. by apply sighash_normalized.
Qed.
End built.

(** C28 (functional). The transaction built for a plan carries out the plan: its
    outputs total the inputs less the fee (without overflow), it spends exactly
    the plan's outpoints in order, and every input has a sighash that a signing
    session accepts. *)
Theorem built_transaction_pays_plan `{Hashing, !HexLaws, Secp256k1, !Taproot, BitcoinCrate, !TxidParser, !PsbtCrate, !PsbtLaws}
    p t :
  build_vault_psbt p = Ok t ->
  (exists total, transaction_output_total_sats (vtp_unsigned_tx t) = Ok total /\
     total + vp_tx_fee_sats p = sum_N (map vi_amount_sats (vp_inputs p))) /\
  Forall2 (fun input i => outpoint_of input = Ok (ti_previous_output i))
    (sorted_inputs (vp_inputs p)) (ut_input (vtp_unsigned_tx t)) /\
  (exists hs, vault_input_sighashes t = Ok hs /\ length hs = length (vp_inputs p) /\
     normalize_input_sighashes hs = Ok hs).
Proof.
  intros Hb. assert (Hsum := built_output_sum _ _ Hb). assert (Hh := vault_input_sighashes_total _ _ Hb).
  apply build_vault_psbt_Ok in Hb as (Hv & Hins & _). split_and!; [|done|done].
  apply validate_parts in Hv as (_ & _ & _ & _ & _ & _ & Hbal & Hfit & _).
  exists (sum_N (map to_value (ut_output (vtp_unsigned_tx t)))). split; [|lia].
  apply transaction_output_total_Ok. split; [done|]. eapply fits_mono; [|exact Hfit]. lia.
Qed.

(** *** Distinct outpoints *)

Section distinct.
Context `{Hashing, Secp256k1, !Taproot, BitcoinCrate, !TxidParser, !TxidLaws, !PsbtCrate, !PsbtLaws}.

Lemma outpoint_text_same a b (oa ob : Txid * N) :
  outpoint_of a = Ok oa -> outpoint_of b = Ok ob -> oa = ob <-> outpoint_text a = outpoint_text b.
Proof.
  unfold outpoint_of, outpoint_text. intros (ta & Ha & [= <-])%bind_Ok (tb & Hb & [= <-])%bind_Ok. split.
  - intros [= -> ->]. f_equal. by eapply txid_from_str_inj.
  - intros [= Ht ->]. f_equal. rewrite <-txid_from_str_case in Ha, Hb. rewrite Ht, Hb in Ha. congruence.
Qed.

Lemma outpoints_NoDup (l : list VaultInput) (ins : list TxIn) :
  Forall2 (fun input i => outpoint_of input = Ok (ti_previous_output i)) l ins ->
  NoDup (map ti_previous_output ins) <-> NoDup (map outpoint_text l).
Proof.
  induction 1 as [|a i l ins Ha Hl IH]; cbn [map]; [by rewrite !NoDup_nil|]. rewrite !NoDup_cons, IH.
  enough (ti_previous_output i ∈ map ti_previous_output ins <-> outpoint_text a ∈ map outpoint_text l) as -> by done.
  rewrite !list_elem_of_fmap. split.
  - intros (i' & Heq & [j Hj]%list_elem_of_lookup). eapply Forall2_lookup_r in Hl as (b & Hb & Hob); [|exact Hj].
    exists b. split; [by eapply outpoint_text_same|]. by eapply list_elem_of_lookup_2.
  - intros (b & Heq & [j Hj]%list_elem_of_lookup). eapply Forall2_lookup_l in Hl as (i' & Hi' & Hob); [|exact Hj].
    exists i'. split; [by eapply outpoint_text_same|]. by eapply list_elem_of_lookup_2.
Qed.
End distinct.

(** C40 (equivalence). The transaction built for a plan spends no outpoint twice
    exactly when the plan lists no outpoint in two spellings, which [validate]
    does not check: it compares txids as they are written, while they are parsed
    in either case. A plan in normal form lists none, so the transaction of every
    such plan spends distinct outpoints. *)
Theorem built_inputs_distinct_iff
    `{Hashing, Secp256k1, !Taproot, BitcoinCrate, !TxidParser, !TxidLaws, !PsbtCrate, !PsbtLaws} p t :
  build_vault_psbt p = Ok t ->
  (NoDup (map ti_previous_output (ut_input (vtp_unsigned_tx t))) <-> NoDup (map outpoint_text (vp_inputs p))) /\
  (forall plan, vp_normalized plan = Ok p -> NoDup (map ti_previous_output (ut_input (vtp_unsigned_tx t)))).
Proof.
  intros (Hv & Hins & _)%build_vault_psbt_Ok.
  assert (NoDup (map ti_previous_output (ut_input (vtp_unsigned_tx t))) <-> NoDup (map outpoint_text (vp_inputs p))) as Hiff.
  { rewrite (outpoints_NoDup _ _ Hins). unfold sorted_inputs. by rewrite sort_by_perm. }
  split; [exact Hiff|]. intros plan Hn. apply Hiff. rewrite (normalized_outpoints _ _ Hn).
  by apply validate_parts in Hv as (_ & _ & _ & Hd & _).
Qed.

(** *** Building succeeds *)

Section total.
Context `{Hashing, !HexLaws, Secp256k1, !Taproot, BitcoinCrate, !TxidParser, !TxidLaws, !PsbtCrate, !PsbtLaws}.

Lemma normalized_plan plan p :
  vp_normalized plan = Ok p ->
  validate_xonly_hex (vp_frost_group_key_xonly p) = Ok (vp_frost_group_key_xonly p) /\
  Forall (fun i => to_ascii_lowercase (vi_script_pubkey_hex i) = vi_script_pubkey_hex i) (vp_inputs p).
Proof.
  unfold vp_normalized. intros Hn. apply bind_Ok in Hn as (k & Hk & Hn). res_inv. subst. cbn. split.
  - by eapply hex64_idemp.
  - unfold normalize_inputs. rewrite sort_by_perm. apply Forall_map, Forall_true. intros i. apply lower_idemp.
Qed.

(** The checks of [validate] the builder repeats. *)
Lemma validate_checks p :
  vp_validate p = Ok tt ->
  (exists script, vault_script_pubkey_hex (vp_frost_group_key_xonly p) = Ok script /\
     Forall (fun i => check_input script i = Ok tt) (vp_inputs p)) /\
  Forall (fun o => check_output o = Ok tt) (batch_outputs p).
Proof.
  intros Hv. unfold batch_outputs. assert (Hb := validate_parts _ Hv).
  destruct Hb as (_ & _ & _ & _ & Hb & _). split.
  - unfold vp_validate in Hv. destruct (Nat.eqb _ 0); [done|]. apply bind_Ok in Hv as (script & Hs & Hv).
    apply bind_Ok in Hv as (u & Hin%try_for_each_Ok & _). eauto.
  - destruct (vp_withdrawal_batch p) as [batch|]; [|constructor]. by apply (check_batch_Ok p batch), Hb.
Qed.

Lemma checked_inputs_build script l :
  Forall (fun i => check_input script i = Ok tt) l -> exists ins, try_map build_tx_input (sorted_inputs l) = Ok ins.
Proof.
  intros Hin. apply try_map_total. unfold sorted_inputs. rewrite sort_by_perm.
  eapply Forall_impl; [exact Hin|]. intros i Hi. unfold check_input in Hi.
  apply bind_Ok in Hi as (tx & (-> & Hlen & Hdig)%hex64_Ok & _).
  destruct (txid_from_str_total _ Hlen Hdig) as [txid Htx]. rewrite txid_from_str_case in Htx.
  unfold build_tx_input. rewrite Htx. cbn. eauto.
Qed.

Lemma checked_outputs_build l :
  Forall (fun o => check_output o = Ok tt) l -> exists outs, try_map build_tx_output (sort_by compare_output_ids l) = Ok outs.
Proof.
  intros Ho. apply try_map_total. rewrite sort_by_perm. eapply Forall_impl; [exact Ho|]. intros o Hc.
  unfold check_output in Hc. res_inv. unfold build_tx_output.
  match goal with H : validate_destination_script_policy _ _ _ _ = Ok _ |- _ => rewrite H; revert H end. cbn.
  unfold validate_destination_script_policy. intros. res_inv.
  match goal with H : hex_decode _ = Ok _ |- _ => rewrite H end. cbn. eauto.
Qed.

Lemma checked_scripts_decode script l :
  Forall (fun i => to_ascii_lowercase (vi_script_pubkey_hex i) = vi_script_pubkey_hex i) l ->
  Forall (fun i => check_input script i = Ok tt) l ->
  Forall (fun i => exists b, hex_decode (vi_script_pubkey_hex i) = Ok b) l.
Proof.
  rewrite !Forall_forall. intros Hlow Hin i Hi. specialize (Hin i Hi). specialize (Hlow i Hi).
  unfold check_input, validate_script_hex in Hin. rewrite Hlow in Hin.
  apply bind_Ok in Hin as (? & _ & Hin). apply bind_Ok in Hin as (? & Hdec & _).
  apply bind_Ok in Hdec as (b & Hb%map_err_Ok & _). eauto.
Qed.

Lemma build_withdrawals p :
  Forall (fun o => check_output o = Ok tt) (batch_outputs p) ->
  exists ws, match vp_withdrawal_batch p with
             | Some batch => try_map build_tx_output (sort_by compare_output_ids (wb_outputs batch))
             | None => Ok []
             end = Ok ws.
Proof. unfold batch_outputs. destruct (vp_withdrawal_batch p); [apply checked_outputs_build|eauto]. Qed.
End total.

(** (termination). Building never fails on a normalised, validated plan whose
    remainder key is a curve point: every check the builder repeats has already
    been made. *)
Theorem validated_plan_builds `{Hashing, !HexLaws, Secp256k1, !Taproot, BitcoinCrate, !TxidParser, !TxidLaws, !PsbtCrate, !PsbtLaws}
    plan p :
  vp_normalized plan = Ok p -> vp_validate p = Ok tt ->
  (forall r, vp_vault_remainder p = Some r -> exists k, xonly_from_str (vr_frost_group_key_xonly r) = Ok k) ->
  exists t, build_vault_psbt p = Ok t.
Proof.
  intros [Hkey Hlow]%normalized_plan Hv Hrem. unfold build_vault_psbt. rewrite Hv. cbn [map_err mbind result_bind].
  apply validate_checks in Hv as [(script & Hs & Hin) Hout].
  unfold vault_script_pubkey_hex in Hs. rewrite Hkey in Hs. cbn in Hs.
  apply bind_Ok in Hs as (key & Hk%map_err_Ok & _). rewrite Hk. cbn [map_err mbind result_bind].
  destruct (checked_inputs_build _ _ Hin) as [ins Hins]. rewrite Hins. cbn [mbind result_bind].
  destruct (build_withdrawals p Hout) as [ws ->]. cbn [mbind result_bind].
  assert (exists rem, match vp_vault_remainder p with
    | Some r => out ← build_remainder_output r; Ok [out] | None => Ok [] end = Ok rem) as [rem ->].
  { destruct (vp_vault_remainder p) as [r|]; [|eauto]. destruct (Hrem r eq_refl) as [k Hkr].
    unfold build_remainder_output. rewrite Hkr. cbn. eauto. }
  cbn [mbind result_bind]. apply build_tx_inputs_Ok in Hins as [_ Hempty]. rewrite psbt_from_unsigned by exact Hempty.
  cbn [map_err mbind result_bind ut_input].
  destruct (fill_psbt_total key (replicate (length ins) empty_psbt_input) (sorted_inputs (vp_inputs p))) as [filled Hf].
  { unfold sorted_inputs. rewrite sort_by_perm. by eapply checked_scripts_decode. }
  setoid_rewrite Hf. cbn. eauto.
Qed.

(** ** Only authorised outputs are signed *)

(** What the transaction may pay: a withdrawal its owner asked for and the
    ledger reserves, or the plan's remainder to a vault key. *)
Definition authorized_output `{Hashing, Secp256k1, !Taproot, BitcoinCrate} (rs : SharechainReplayState) (height : N)
    (p : VaultSpendPlan) (out : TxOut) : Prop :=
  (exists o, o ∈ batch_outputs p /\ reserved_output rs height o /\ to_value out = wo_net_amount_sats o /\
     hex_decode (wo_destination_script_hex o) = Ok (to_script_pubkey out)) \/
  (exists r k, vp_vault_remainder p = Some r /\ xonly_from_str (vr_frost_group_key_xonly r) = Ok k /\
     out = {| to_value := vr_amount_sats r; to_script_pubkey := new_p2tr k |}).

Lemma session_outputs_reserved `{Hashing, Secp256k1, !Taproot, BitcoinCrate} epoch plan sighashes rs height s :
  vs_new epoch plan sighashes = Ok s \/ new_with_reserved_withdrawals epoch plan sighashes rs height = Ok s ->
  Forall (reserved_output rs height) (batch_outputs (vs_spend_plan s)) /\
  vs_spend_plan_hash s = plan_hash (vs_spend_plan s).
Proof.
  assert (forall s, new_after_policy_checks epoch plan sighashes = Ok s ->
    batch_outputs (vs_spend_plan s) ≡ₚ batch_outputs plan /\ vs_spend_plan_hash s = plan_hash (vs_spend_plan s)) as Hb.
  { intros s' (_ & _ & _ & _ & _ & Hn & _ & _ & _ & Hh & _)%new_session_Ok. split; [|done]. unfold vp_normalized in Hn. res_inv.
    unfold batch_outputs. match goal with H : _ = vs_spend_plan s' |- _ => rewrite <-H end. cbn.
    destruct (vp_withdrawal_batch plan); [|done]. cbn. unfold normalize_withdrawal_outputs. apply sort_by_perm. }
  intros [Hs|Hs].
  - unfold vs_new in Hs. destruct (vp_withdrawal_batch plan) eqn:Hw; [done|]. apply Hb in Hs as [Hp Hh].
    split; [|done]. rewrite Hp. unfold batch_outputs. rewrite Hw. constructor.
  - unfold new_with_reserved_withdrawals in Hs. destruct (vp_withdrawal_batch plan) as [batch|] eqn:Hw.
    + apply bind_Ok in Hs as ([] & Hr%map_err_Ok & Hs). apply Hb in Hs as [Hp Hh]. split; [|done]. rewrite Hp.
      unfold batch_outputs. rewrite Hw. by apply reserved_batch_outputs.
    + apply Hb in Hs as [Hp Hh]. split; [|done]. rewrite Hp. unfold batch_outputs. rewrite Hw. constructor.
Qed.

(** C13 (refinement). What the vault's signers sign is what the ledger promised:
    the transaction of any session, however it was opened, is for the plan the
    session collects shares for, and each of its outputs is either a withdrawal
    with a valid signed request and a matching reservation in the local replay
    state, paid to the script the owner named, or the vault's own remainder. *)
Theorem session_transaction_authorized
    `{Hashing, Secp256k1, !Taproot, BitcoinCrate, !TxidParser, !PsbtCrate, !PsbtLaws} epoch plan sighashes rs height s t :
  vs_new epoch plan sighashes = Ok s \/ new_with_reserved_withdrawals epoch plan sighashes rs height = Ok s ->
  build_vault_psbt (vs_spend_plan s) = Ok t ->
  vtp_spend_plan_hash t = vs_spend_plan_hash s /\
  Forall (authorized_output rs height (vs_spend_plan s)) (ut_output (vtp_unsigned_tx t)).
Proof.
  intros [Hres ->]%session_outputs_reserved (_ & _ & (ws & rem & -> & Hws & Hrem) & _ & Hh)%build_vault_psbt_Ok.
  split; [done|]. apply Forall_app. split; apply Forall_forall; intros out [j Hj]%list_elem_of_lookup.
  - left. eapply Forall2_lookup_r in Hws as (o & Ho & Hval & Hscript); [|exact Hj].
    apply list_elem_of_lookup_2 in Ho. rewrite sort_by_elem in Ho. rewrite Forall_forall in Hres. eauto 6.
  - right. eapply Forall2_lookup_r in Hrem as (r & Hr & Hout); [|exact Hj].
    unfold build_remainder_output in Hout. res_inv. apply list_elem_of_lookup_2 in Hr.
    destruct (vp_vault_remainder (vs_spend_plan s)) as [r'|]; cbn in Hr; [|by apply not_elem_of_nil in Hr].
    apply list_elem_of_singleton in Hr as ->. eauto.
Qed.

(** ** Examples *)

Definition txid_c : TxidParser := {|
  Txid := bytes;
  txid_from_str s := if Nat.eqb (String.length s) 64 then ok_or "malformed txid"%string (hex_decode_c s)
                     else Err "malformed txid"%string |}.

Definition psbt_c : @PsbtCrate txid_c secp_c := {|
  psbt_from_unsigned_tx tx :=
    if forallb (fun i => Nat.eqb (length (ti_script_sig i)) 0 && Nat.eqb (length (ti_witness i)) 0) (ut_input tx)
    then Ok (replicate (length (ut_input tx)) empty_psbt_input) else Err "unsigned transaction has script"%string;
  taproot_sighash tx i prevouts :=
    if Nat.eqb (length prevouts) (length (ut_input tx)) && Nat.ltb i (length (ut_input tx))
    then Ok (be_bytes 32 (checksum (concat (map to_script_pubkey (ut_output tx))) + N.of_nat i))
    else Err "index out of range"%string |}.

Lemma txid_laws_c : @TxidLaws txid_c.
Proof.
  split.
  - intros s Hlen Hd. cbn [txid_from_str txid_c]. rewrite Hlen. cbn.
    destruct (hex_decode_c_total s) as [b Hb]; [rewrite Hlen; by exists 32%nat|done|]. rewrite Hb. by exists b.
  - intros s. cbn [txid_from_str txid_c]. rewrite lower_length. destruct (Nat.eqb _ 64); [|done]. f_equal.
    destruct (hex_decode_c s) as [b|] eqn:Hs.
    + apply hex_decode_c_iff in Hs. apply hex_decode_c_iff. fold (to_ascii_lowercase (to_ascii_lowercase s)). by rewrite lower_idemp.
    + destruct (hex_decode_c (to_ascii_lowercase s)) as [b|] eqn:Hs'; [|done]. apply hex_decode_c_iff in Hs'.
      fold (to_ascii_lowercase (to_ascii_lowercase s)) in Hs'. rewrite lower_idemp in Hs'. apply hex_decode_c_iff in Hs'. congruence.
  - intros a b t. cbn [txid_from_str txid_c]. do 2 (destruct (Nat.eqb _ 64); [|done]).
    destruct (hex_decode_c a) as [x|] eqn:Ha; [|done]. destruct (hex_decode_c b) as [y|] eqn:Hb; [|done].
    intros [= <-] [= ->]. apply hex_decode_c_iff in Ha, Hb. unfold to_ascii_lowercase. congruence.
Qed.

Lemma psbt_laws_c : @PsbtLaws txid_c secp_c psbt_c.
Proof.
  split.
  - intros tx Hf. cbn. rewrite (proj2 (forallb_forall _ _)); [done|].
    intros i Hi%list_elem_of_In. rewrite Forall_forall in Hf. by destruct (Hf i Hi) as [-> ->].
  - intros tx i prevouts Hi Hp. cbn -[be_bytes checksum Nat.ltb]. rewrite Hp, Nat.eqb_refl, (proj2 (Nat.ltb_lt _ _) Hi). cbn -[be_bytes checksum].
    eexists. split; [reflexivity|]. apply be_bytes_length.
Qed.

(** The duplicate check compares txids as they are written, while a txid is
    accepted and parsed in either case. *)
Definition mixed_case_plan : VaultSpendPlan := {|
  vp_epoch_id := 5; vp_frost_group_key_xonly := vault_key "a";
  vp_inputs := [vault_input "c" 0 60000; vault_input "C" 0 60000];
  vp_withdrawal_batch := None; vp_tx_fee_sats := 1000;
  vp_vault_remainder := Some (same_epoch_change 5 (vault_key "a") 119000) |}.

Definition built_mixed : result VaultTxError (@VaultTransactionPlan secp_c txid_c) :=
  @build_vault_psbt hashing_c secp_c taproot_c bitcoin_c txid_c psbt_c mixed_case_plan.

Lemma built_inputs_distinct_iff_witness : exists t,
  @vp_validate hashing_c secp_c taproot_c bitcoin_c mixed_case_plan = Ok tt /\ built_mixed = Ok t /\
  ~ NoDup (map (@ti_previous_output txid_c) (ut_input (vtp_unsigned_tx t))).
Proof.
  destruct (is_ok_Ok built_mixed) as [t Ht]; [vm_compute; reflexivity|]. exists t.
  split; [vm_compute; reflexivity|]. split; [exact Ht|]. intros Hnd.
  assert (bool_decide (NoDup (map outpoint_text (vp_inputs mixed_case_plan))) = false) as Hdup by (vm_compute; reflexivity).
  apply bool_decide_eq_false_1 in Hdup. apply Hdup.
  exact (proj1 (proj1 (@built_inputs_distinct_iff hashing_c secp_c taproot_c bitcoin_c txid_c txid_laws_c psbt_c
    psbt_laws_c mixed_case_plan t Ht)) Hnd).
Defined.

Lemma rotation_validates : @vp_validate hashing_c secp_c taproot_c bitcoin_c rotation_plan = Ok tt.
Proof. vm_compute. reflexivity. Qed.

Abbreviation built_rotation :=
  (@build_vault_psbt hashing_c secp_c taproot_c bitcoin_c txid_c psbt_c rotation_plan).

Lemma built_transaction_pays_plan_witness : exists t total,
  built_rotation = Ok t /\ transaction_output_total_sats (vtp_unsigned_tx t) = Ok total /\ total + 1000 = 120000.
Proof.
  destruct (is_ok_Ok built_rotation) as [t Ht]; [vm_compute; reflexivity|].
  destruct (proj1 (@built_transaction_pays_plan hashing_c hex_laws_c secp_c taproot_c bitcoin_c txid_c psbt_c psbt_laws_c
    rotation_plan t Ht)) as (total & Htotal & Hsum).
  exists t, total. split; [exact Ht|]. split; [exact Htotal|exact Hsum].
Defined.

Lemma validated_plan_builds_witness : exists t, built_rotation = Ok t.
Proof.
  apply (@validated_plan_builds hashing_c hex_laws_c secp_c taproot_c bitcoin_c txid_c txid_laws_c psbt_c psbt_laws_c
    rotation_plan rotation_plan); [vm_compute; reflexivity|exact rotation_validates|].
  intros r Hr. exists (vr_frost_group_key_xonly r). injection Hr as <-. reflexivity.
Defined.

(** A replay state in which the two sample requests are stored and reserved. *)
Definition funded_state : SharechainReplayState :=
  with_ledger {| Ledger.cl_balances := {[repeat_char "a" 64 := 30000; repeat_char "b" 64 := 20000]};
                 Ledger.cl_pending_withdrawals := ∅; Ledger.cl_last_withdrawal_nonce_by_owner := ∅ |} rs_default.
Definition store_request (s : SharechainReplayState) (r : WithdrawalRequest) : SharechainReplayState :=
  (@apply_withdrawal_request hashing_c secp_c bitcoin_c r s).2.
Definition reserved_state : SharechainReplayState :=
  (@apply_withdrawal_batch hashing_c secp_c bitcoin_c sample_batch (foldl store_request funded_state sample_requests)).2.

Definition withdrawal_plan : VaultSpendPlan := {|
  vp_epoch_id := 5; vp_frost_group_key_xonly := vault_key "a"; vp_inputs := [vault_input "c" 1 60000];
  vp_withdrawal_batch := Some sample_batch; vp_tx_fee_sats := 390;
  vp_vault_remainder := Some (same_epoch_change 5 (vault_key "a") 10000) |}.

Abbreviation withdrawal_session :=
  (@new_with_reserved_withdrawals hashing_c secp_c taproot_c bitcoin_c (sample_epoch 5 "a") withdrawal_plan
    [vault_key "7"] reserved_state 0).

Lemma withdrawal_run : exists s t, withdrawal_session = Ok s /\
  @build_vault_psbt hashing_c secp_c taproot_c bitcoin_c txid_c psbt_c (vs_spend_plan s) = Ok t.
Proof.
  assert (is_ok (s ← map_err InvalidSpendPlan withdrawal_session;
    @build_vault_psbt hashing_c secp_c taproot_c bitcoin_c txid_c psbt_c (vs_spend_plan s)) = true) as Hok
    by (vm_compute; reflexivity).
  apply is_ok_Ok in Hok as [t Ht]. apply bind_Ok in Ht as (s & Hs & Ht). apply map_err_Ok in Hs.
  exists s, t. split; [exact Hs|exact Ht].
Qed.

Lemma session_transaction_authorized_witness : exists s t, withdrawal_session = Ok s /\
  @build_vault_psbt hashing_c secp_c taproot_c bitcoin_c txid_c psbt_c (vs_spend_plan s) = Ok t /\
  Forall (@authorized_output hashing_c secp_c taproot_c bitcoin_c reserved_state 0 (vs_spend_plan s))
    (ut_output (vtp_unsigned_tx t)).
Proof.
  destruct withdrawal_run as (s & t & Hs & Ht). exists s, t. split; [exact Hs|]. split; [exact Ht|].
  exact (proj2 (@session_transaction_authorized hashing_c secp_c taproot_c bitcoin_c txid_c psbt_c psbt_laws_c
    (sample_epoch 5 "a") withdrawal_plan [vault_key "7"] reserved_state 0 s t (or_intror Hs) Ht)).
Defined.
