(* ===== verification/SharechainReplay.v ===== *)
(** * Properties of sharechain replay ([crates/pohw-core/src/sharechain_state.rs])

    The invariant of [SharechainReplayState] and its preservation by every
    message, the guarantees of the log (a message applies once, registered keys
    are permanent, claims are conserved), and the accounting derived from it
    (participant accounts, expected payout schedules, the accounting root). *)
From S2P Require Import Prelude Order Text Crates Concrete Payout Withdrawal Ledger IdenaAnchor ShareWork Commitment Sharechain.
From S2P Require Import ShareTree ShareBranch ShareTreeInv ShareTreeAdmit ShareTreeCheckpoint SharechainState.
From Stdlib Require Import Strings.Ascii.

Local Open Scope N_scope.

(** ** What the state means *)

(** Two registrations of one miner with the same identity, script and keys. *)
Definition same_keys (r r' : MinerRegistration) : Prop :=
  mr_miner_id r = mr_miner_id r' /\ mr_idena_address r = mr_idena_address r' /\
  mr_btc_payout_script_hex r = mr_btc_payout_script_hex r' /\
  mr_claim_owner_pubkey_hex r = mr_claim_owner_pubkey_hex r' /\
  mr_mining_pubkey_hex r = mr_mining_pubkey_hex r'.

(** The sequence number of the contract record, zero without one. *)
Definition registry_sequence (r : MinerRegistration) : N :=
  from_option mra_registration_sequence 0 (mr_registry_anchor r).

Definition registration_le (r r' : MinerRegistration) : Prop :=
  same_keys r r' /\ (is_Some (mr_registry_anchor r) -> is_Some (mr_registry_anchor r')) /\
  registry_sequence r <= registry_sequence r'.

Global Instance registration_le_preorder : PreOrder registration_le.
Proof.
  split.
  - intros r. split_and!; [by repeat split|done|lia].
  - intros r1 r2 r3 ((? & ? & ? & ? & ?) & ? & ?) ((? & ? & ? & ? & ?) & ? & ?).
    split_and!; [split_and!; congruence|auto|lia].
Qed.

(** No registration disappears or changes its keys. *)
Definition registrations_le (R R' : gmap string MinerRegistration) : Prop :=
  forall m r, R !! m = Some r -> exists r', R' !! m = Some r' /\ registration_le r r'.

Global Instance registrations_le_preorder : PreOrder registrations_le.
Proof.
  split; [by intros R m r Hr; exists r|].
  intros R1 R2 R3 Hle1 Hle2 m r1 (r2 & Hr2 & Hle)%Hle1. destruct (Hle2 _ _ Hr2) as (r3 & Hr3 & Hle').
  exists r3. split; [done|by etrans].
Qed.

Section inv.
Context `{Hashing, Secp256k1, BitcoinCrate, DateAndCid}.

Definition registration_backed (m : string) (r : MinerRegistration) : Prop :=
  exists raw, r = stored_registration raw /\ m = mr_miner_id r /\
    mr_verify_mining_signature raw = Ok tt /\ verify_idena_ownership_signature raw = Ok tt.

(** A stored share is the normal form of one signed by its registered miner,
    with verified work on a template. *)
Definition share_backed (R : gmap string MinerRegistration) (T : gmap string BitcoinWorkTemplate)
    (share : Share) : Prop :=
  is_Some (T !! sh_bitcoin_template_hash share) /\
  exists raw r template, share = sh_normalized raw /\ R !! sh_miner_id share = Some r /\
    verify_mining_signature_for_template raw (mr_mining_pubkey_hex r) template = Ok tt.

Definition template_backed (R : gmap string MinerRegistration) (h : string) (t : BitcoinWorkTemplate) : Prop :=
  exists raw r, t = wt_normalized raw /\ h = wt_template_hash t /\ R !! wt_miner_id t = Some r /\
    wt_verify_mining_signature raw (mr_mining_pubkey_hex r) = Ok tt.

Definition vote_backed (R : gmap string MinerRegistration) (key : SnapshotVoteKey) (voter : string) : Prop :=
  exists vote r, R !! voter = Some r /\ voter = to_ascii_lowercase (sv_voter_miner_id vote) /\
    key = {| vk_snapshot_day := sv_snapshot_day vote; vk_idena_height := sv_idena_height vote;
             vk_score_root := to_ascii_lowercase (sv_score_root vote) |} /\
    sv_verify_mining_signature vote (mr_mining_pubkey_hex r) = Ok tt.

Definition schedule_bound (R : gmap string MinerRegistration) (schedule : PayoutSchedule) : Prop :=
  ps_validate schedule = Ok tt /\
  Forall (fun o => check_direct_binding R o = Ok tt) (ps_direct_outputs schedule) /\
  Forall (fun a => check_vault_binding R a = Ok tt) (ps_vault_allocations schedule).

Record state_inv (s : SharechainReplayState) : Prop := {
  si_tree : tree_inv (rs_tree s);
  si_registrations m r : rs_registrations s !! m = Some r -> registration_backed m r;
  si_templates h t : rs_bitcoin_work_templates s !! h = Some t -> template_backed (rs_registrations s) h t;
  si_shares h share : shares_of (rs_tree s) !! h = Some share ->
    share_backed (rs_registrations s) (rs_bitcoin_work_templates s) share;
  si_votes key voters : rs_snapshot_votes s !! key = Some voters ->
    to_ascii_lowercase (vk_score_root key) = vk_score_root key /\
    forall voter, voter ∈ voters -> vote_backed (rs_registrations s) key voter;
  si_schedules root schedule : rs_proposed_payout_schedules s !! root = Some schedule ->
    root = to_ascii_lowercase (ps_payout_root schedule) /\ schedule_bound (rs_registrations s) schedule;
  si_requests id request : rs_withdrawal_requests s !! id = Some request ->
    id = wr_request_id request /\ wr_normalized request = request /\ wr_validate request 0 = Ok tt;
  si_batches hash batch : rs_withdrawal_batches s !! hash = Some batch ->
    hash = batch_hash batch /\ wb_normalized batch = batch
}.

Lemma state_inv_default : state_inv rs_default.
Proof.
  split; simpl; [apply tree_inv_default|..]; intros *; rewrite ?lookup_empty; try done.
Qed.

(** ** Growing registrations *)

Lemma stored_registration_idemp r : stored_registration (stored_registration r) = stored_registration r.
Proof. unfold stored_registration. simpl. by rewrite !lower_idemp. Qed.

Lemma direct_binding_mono R R' o :
  registrations_le R R' -> check_direct_binding R o = Ok tt -> check_direct_binding R' o = Ok tt.
Proof.
  unfold check_direct_binding. intros Hle Hok. destruct (R !! _) as [r|] eqn:Hr; [|done].
  destruct (Hle _ _ Hr) as (r' & -> & (_ & _ & Hs & _) & _). simpl in *. by rewrite <-Hs.
Qed.

Lemma vault_binding_mono R R' a :
  registrations_le R R' -> check_vault_binding R a = Ok tt -> check_vault_binding R' a = Ok tt.
Proof.
  unfold check_vault_binding. intros Hle Hok. destruct (R !! _) as [r|] eqn:Hr; [|done].
  destruct (Hle _ _ Hr) as (r' & -> & (_ & _ & _ & Hs & _) & _). simpl in *. by rewrite <-Hs.
Qed.

Lemma schedule_bound_mono R R' schedule :
  registrations_le R R' -> schedule_bound R schedule -> schedule_bound R' schedule.
Proof.
  intros Hle (? & Hd & Ha). split_and!; [done| |]; eapply Forall_impl; eauto using direct_binding_mono, vault_binding_mono.
Qed.

Lemma share_backed_mono R R' T T' share :
  registrations_le R R' -> (forall h, is_Some (T !! h) -> is_Some (T' !! h)) ->
  share_backed R T share -> share_backed R' T' share.
Proof.
  intros Hle HT (Ht & raw & r & t & -> & Hr & Hv). split; [by apply HT|].
  destruct (Hle _ _ Hr) as (r' & Hr' & (_ & _ & _ & _ & Hk) & _). exists raw, r', t. by rewrite <-Hk.
Qed.

Lemma template_backed_mono R R' h t : registrations_le R R' -> template_backed R h t -> template_backed R' h t.
Proof.
  intros Hle (raw & r & ? & ? & Hr & Hv). destruct (Hle _ _ Hr) as (r' & Hr' & (_ & _ & _ & _ & Hk) & _).
  exists raw, r'. by rewrite <-Hk.
Qed.

Lemma vote_backed_mono R R' key voter : registrations_le R R' -> vote_backed R key voter -> vote_backed R' key voter.
Proof.
  intros Hle (vote & r & Hr & ? & ? & Hv). destruct (Hle _ _ Hr) as (r' & Hr' & (_ & _ & _ & _ & Hk) & _).
  exists vote, r'. by rewrite <-Hk.
Qed.

Lemma bindings_Ok s schedule :
  validate_payout_schedule_bindings s schedule = Ok tt <-> schedule_bound (rs_registrations s) schedule.
Proof.
  unfold validate_payout_schedule_bindings, schedule_bound. rewrite bind_Ok. split.
  - intros ([] & Hv%map_err_Ok & Hb). rewrite bind_Ok in Hb. destruct Hb as ([] & Hd & Ha).
    apply try_for_each_Ok in Hd, Ha. done.
  - intros (Hv & Hd & Ha). exists tt. rewrite map_err_Ok. split; [done|]. rewrite bind_Ok. exists tt.
    by rewrite !try_for_each_Ok.
Qed.

(** An accepted upgrade keeps the keys and moves the sequence number forward. *)
Lemma upgrade_le existing candidate :
  stored_registration existing = existing -> stored_registration candidate = candidate ->
  is_valid_registry_registration_upgrade existing candidate = true -> registration_le existing candidate.
Proof.
  intros He Hc. unfold is_valid_registry_registration_upgrade. destruct (_ || _) eqn:Hor; [done|].
  bool_inv. repeat match goal with H : eq_ignore_ascii_case _ _ = true |- _ =>
    apply eq_ignore_ascii_case_iff in H end.
  intros Ha. split.
  - destruct existing, candidate. unfold stored_registration in He, Hc. simpl in *.
    injection He as ???????. injection Hc as ???????. unfold same_keys. simpl. split_and!; congruence.
  - unfold registry_sequence. destruct (mr_registry_anchor candidate), (mr_registry_anchor existing); simpl; try done.
    + bool_inv. split; [done|]. lia.
    + split; [done|lia].
Qed.
End inv.

(** ** Results that are neither a failed [expect] nor an endless loop *)

Definition external {A} (r : result SharechainReplayError A) : Prop :=
  forall e, r = Err e -> is_internal e = false.

Lemma external_Ok {A} (a : A) : external (Ok a).
Proof. done. Qed.
Lemma external_Err {A} e : is_internal e = false -> external (A := A) (Err e).
Proof. intros He e' [= <-]. done. Qed.
Lemma external_ok_or {A} e (o : option A) : is_internal e = false -> external (ok_or e o).
Proof. destruct o; [done|]. apply external_Err. Qed.
Lemma external_map_err {E A} (f : E -> SharechainReplayError) (r : result E A) :
  (forall e, is_internal (f e) = false) -> external (map_err f r).
Proof. destruct r; [done|]. intros Hf. by apply external_Err. Qed.
Lemma external_bind {A B} (r : result SharechainReplayError A) (f : A -> result SharechainReplayError B) :
  external r -> (forall a, external (f a)) -> external (r ≫= f).
Proof. destruct r; simpl; [auto|]. intros Hr _ e' [= <-]. by apply Hr. Qed.
Lemma external_if {A} (b : bool) (r1 r2 : result SharechainReplayError A) :
  external r1 -> external r2 -> external (if b then r1 else r2).
Proof. by destruct b. Qed.
Lemma external_for_each {A} (f : A -> result SharechainReplayError unit) l :
  (forall a, external (f a)) -> external (try_for_each f l).
Proof. intros Hf. induction l; simpl; [done|]. by apply external_bind. Qed.
Lemma external_map {A B} (f : A -> result SharechainReplayError B) l :
  (forall a, external (f a)) -> external (try_map f l).
Proof.
  intros Hf. induction l; simpl; [done|]. apply external_bind; [done|]. intros b. by apply external_bind.
Qed.
Lemma external_fold {A B} (f : B -> A -> result SharechainReplayError B) b l :
  (forall b a, external (f b a)) -> external (try_fold f b l).
Proof. intros Hf. revert b. induction l; intros b'; simpl; [done|]. by apply external_bind. Qed.

Create HintDb external.
#[export] Hint Resolve external_Ok external_Err external_ok_or external_map_err external_bind
  external_if external_for_each external_map external_fold : external.

Section external.
Context `{Hashing, Secp256k1, BitcoinCrate, DateAndCid}.

Lemma external_direct R o : external (check_direct_binding R o).
Proof. unfold check_direct_binding. auto 7 with external. Qed.
Lemma external_vault R a : external (check_vault_binding R a).
Proof. unfold check_vault_binding. auto 7 with external. Qed.
Lemma external_bindings s schedule : external (validate_payout_schedule_bindings s schedule).
Proof.
  unfold validate_payout_schedule_bindings. auto 8 using external_direct, external_vault with external.
Qed.
Lemma external_work_template s share : external (validate_share_bitcoin_work_template s share).
Proof. unfold validate_share_bitcoin_work_template. auto 8 with external. Qed.
Lemma external_get_request s o : external (get_request s o).
Proof. unfold get_request. auto with external. Qed.
Lemma external_expected_batch s batch height : external (expected_withdrawal_batch s batch height).
Proof. unfold expected_withdrawal_batch. auto 8 using external_get_request with external. Qed.
Lemma external_reserve_output s height ledger o : external (reserve_output s height ledger o).
Proof.
  unfold reserve_output. apply external_bind; [apply external_get_request|]. intros request.
  apply external_if; [by apply external_Err|].
  destruct (reserve_withdrawal request (wo_fee_sats o) height ledger). auto 6 with external.
Qed.
Lemma external_after_batch s batch height : external (claim_ledger_after_withdrawal_batch s batch height).
Proof.
  unfold claim_ledger_after_withdrawal_batch.
  auto using external_expected_batch, external_reserve_output with external.
Qed.
End external.

(** ** Handlers *)

Section handlers.
Context `{Hashing, !HexLaws, Secp256k1, BitcoinCrate, DateAndCid}.
Implicit Types s : SharechainReplayState.

(** A rejected message changes nothing, except that a conflicting template has
    already replaced the stored one, and that an overflowing branch score may
    leave the share tree half updated. *)
Definition rejected s (e : SharechainReplayError) s' : Prop :=
  is_internal e = false /\
  ((exists x, e = ShareBranchScoreOverflow x) \/
   state_inv s' /\ rs_registrations s' = rs_registrations s /\
   (s' = s \/ exists h, e = ConflictingBitcoinWorkTemplate h)).

Definition outcome {A} s (r : result SharechainReplayError A * SharechainReplayState) : Prop :=
  match r with
  | (Ok _, s') => state_inv s' /\ registrations_le (rs_registrations s) (rs_registrations s')
  | (Err e, s') => rejected s e s'
  end.

Lemma reject {A} s e : state_inv s -> is_internal e = false -> outcome (A := A) s (Err e, s).
Proof. intros Hinv He. split; [done|]. right. auto. Qed.

Lemma unchanged {A} s (a : A) : state_inv s -> outcome s (Ok a, s).
Proof. done. Qed.

(** One fallible step of a handler that does not touch the state. *)
Lemma outcome_lift {A B} (r : result SharechainReplayError A) (f : A -> state_method B) s :
  state_inv s -> external r -> (forall a, r = Ok a -> outcome s (f a s)) -> outcome s ((lift r ≫= f) s).
Proof.
  intros Hinv Hext Hf. rewrite M_bind_run. unfold lift. destruct r as [a|e]; [by apply Hf|].
  apply reject; [done|by apply Hext].
Qed.

Lemma outcome_asks {A B} (g : SharechainReplayState -> result SharechainReplayError A)
    (f : A -> state_method B) s :
  state_inv s -> external (g s) -> (forall a, g s = Ok a -> outcome s (f a s)) -> outcome s ((asks g ≫= f) s).
Proof. apply outcome_lift. Qed.

Lemma outcome_gets {A B} (g : SharechainReplayState -> A) (f : A -> state_method B) s :
  outcome s (f (g s) s) -> outcome s ((gets g ≫= f) s).
Proof. done. Qed.

Lemma registration_backed_stored m r : registration_backed m r -> stored_registration r = r.
Proof. intros (raw & -> & _). apply stored_registration_idemp. Qed.

(** Replacing or adding one registration. *)
Lemma insert_registration_inv s raw :
  state_inv s -> mr_verify_mining_signature raw = Ok tt -> verify_idena_ownership_signature raw = Ok tt ->
  let r := stored_registration raw in
  (forall old, rs_registrations s !! mr_miner_id r = Some old -> registration_le old r) ->
  outcome s (Ok tt, with_registrations (<[mr_miner_id r := r]> (rs_registrations s)) s).
Proof.
  intros Hinv Hv Hid r Hold.
  assert (registrations_le (rs_registrations s) (<[mr_miner_id r := r]> (rs_registrations s))) as Hle.
  { intros m x Hx. destruct (decide (mr_miner_id r = m)) as [<-|Hne].
    - exists r. rewrite lookup_insert_eq. auto.
    - exists x. by rewrite lookup_insert_ne. }
  split; [|exact Hle]. split; simpl; try apply Hinv.
  - intros m x [[<- <-]|[_ Hx]]%lookup_insert_Some; [by exists raw|by apply Hinv].
  - intros h t Ht. eapply template_backed_mono; [done|by apply Hinv].
  - intros h share Hs. eapply share_backed_mono; [done|done|by eapply Hinv].
  - intros key voters Hk. destruct (si_votes _ Hinv _ _ Hk) as [? Hv']. split; [done|].
    intros voter Hin. eapply vote_backed_mono; [done|by apply Hv'].
  - intros root schedule Hs. destruct (si_schedules _ Hinv _ _ Hs).
    split; [done|]. by eapply schedule_bound_mono.
Qed.

Lemma registration_outcome registration s : state_inv s -> outcome s (apply_registration registration s).
Proof.
  intros Hinv. unfold apply_registration. apply outcome_lift; [done|auto with external|].
  intros [] Hv%map_err_Ok. apply outcome_lift; [done|auto with external|]. intros [] Hid%map_err_Ok.
  apply outcome_gets. set (r := stored_registration registration).
  destruct (rs_registrations s !! mr_miner_id r) as [existing|] eqn:Hex.
  - destruct (bool_decide (existing = r)); [by apply unchanged|].
    destruct (is_valid_registry_registration_upgrade existing r) eqn:Hup; cbn [negb]; [|by apply reject].
    apply insert_registration_inv; [done..|]. intros old Hold.
    assert (old = existing) as -> by (unfold r in Hex; congruence).
    apply upgrade_le; [by eapply registration_backed_stored, Hinv|apply stored_registration_idemp|exact Hup].
  - apply insert_registration_inv; [done..|]. intros old Hold. unfold r in Hex. congruence.
Qed.

Lemma template_outcome template s : state_inv s -> outcome s (apply_bitcoin_work_template template s).
Proof.
  intros Hinv. unfold apply_bitcoin_work_template. apply outcome_gets.
  apply outcome_lift; [done|auto with external|]. intros r Hr%ok_or_Ok.
  apply outcome_lift; [done|auto with external|]. intros [] Hv%map_err_Ok.
  apply outcome_gets. apply outcome_lift; [done|auto with external|]. intros prefix _.
  destruct (negb _); [by apply reject|]. apply outcome_gets.
  rewrite M_bind_run. cbn [modify].
  set (h := to_ascii_lowercase (wt_template_hash template)).
  set (s' := with_templates _ s). assert (state_inv s') as Hinv'.
  { split; simpl; try apply Hinv.
    - intros h' t [[<- <-]|[_ Ht]]%lookup_insert_Some; [by exists template, r|by apply Hinv].
    - intros h' share Hs. eapply share_backed_mono; [done| |by eapply Hinv].
      intros h''. rewrite lookup_insert_is_Some. destruct (decide (h = h'')); auto. }
  destruct (rs_bitcoin_work_templates s !! h) as [existing|]; [|done].
  destruct (bool_decide _); [|done]. split; [done|]. right. eauto.
Qed.

Lemma share_outcome_message share s : state_inv s -> well_typed share -> outcome s (apply_share_message share s).
Proof.
  intros Hinv [Hz Hf]. unfold apply_share_message. apply outcome_gets.
  apply outcome_lift; [done|auto with external|]. intros r Hr%ok_or_Ok.
  apply outcome_gets. apply outcome_lift; [done|auto with external|]. intros t Ht%ok_or_Ok.
  apply outcome_lift; [done|auto with external|]. intros [] Hv%map_err_Ok.
  apply outcome_asks; [done|apply external_work_template|]. intros [] _.
  unfold on_tree. pose proof (apply_share_run share _ (si_tree _ Hinv) Hz Hf) as Hout.
  destruct (apply_share share (rs_tree s)) as [[[]|e] tree]; simpl in Hout.
  - destruct Hout as (Htree & Hsh & _). split; [|done]. split; simpl; try apply Hinv; [done|].
    rewrite Hsh. intros h x [[<- <-]|[_ Hx]]%lookup_insert_Some; [|by eapply Hinv].
    split; [by exists t|]. by exists share, r, t.
  - destruct Hout as [(Hc & -> & _)|[Hov _]].
    + replace (with_tree (rs_tree s) s) with s by (by destruct s). apply reject; [done|by destruct e].
    + destruct Hov as [x ->]. split; [done|]. left. eauto.
Qed.

Lemma checkpoint_outcome_message regs checkpoint s :
  state_inv s -> outcome s (on_tree (apply_sharechain_checkpoint regs checkpoint) s).
Proof.
  intros Hinv. unfold on_tree. pose proof (apply_checkpoint_run regs checkpoint _ (si_tree _ Hinv)) as Hout.
  destruct (apply_sharechain_checkpoint regs checkpoint (rs_tree s)) as [[[]|e] tree]; simpl in Hout.
  - destruct Hout as [Htree Hcase]. split; [|done]. split; simpl; try apply Hinv; [done|].
    destruct Hcase as [->|(p & _ & -> & _)]; apply Hinv.
  - destruct Hout as [-> He]. replace (with_tree (rs_tree s) s) with s by (by destruct s). by apply reject.
Qed.

Lemma vote_outcome vote s : state_inv s -> outcome s (apply_snapshot_vote vote s).
Proof.
  intros Hinv. unfold apply_snapshot_vote. apply outcome_gets.
  apply outcome_lift; [done|auto with external|]. intros r Hr%ok_or_Ok.
  apply outcome_lift; [done|auto with external|]. intros [] Hv%map_err_Ok.
  split; [|done]. split; simpl; try apply Hinv.
  intros key voters [[<- <-]|[_ Hk]]%lookup_insert_Some; [|by apply Hinv]. split; [apply lower_idemp|].
  intros voter [->%elem_of_singleton|Hin]%elem_of_union; [by exists vote, r|].
  destruct (rs_snapshot_votes s !! _) as [old|] eqn:Hold; simpl in Hin; [|set_solver].
  by apply (si_votes _ Hinv _ _ Hold).
Qed.

Lemma schedule_outcome schedule s : state_inv s -> outcome s (apply_payout_schedule_proposal schedule s).
Proof.
  intros Hinv. unfold apply_payout_schedule_proposal.
  apply outcome_asks; [done|apply external_bindings|]. intros [] Hb%bindings_Ok.
  apply outcome_gets. destruct (rs_proposed_payout_schedules s !! _) as [existing|].
  - destruct (bool_decide _); [by apply reject|by apply unchanged].
  - split; [|done]. split; simpl; try apply Hinv.
    intros root x [[<- <-]|[_ Hx]]%lookup_insert_Some; [done|by apply Hinv].
Qed.

Lemma request_outcome request s : state_inv s -> outcome s (apply_withdrawal_request request s).
Proof.
  intros Hinv. unfold apply_withdrawal_request.
  apply outcome_lift; [done|auto with external|]. intros [] Hv%map_err_Ok.
  apply outcome_gets. destruct (_ <? _); [by apply reject|].
  apply outcome_gets. destruct (rs_withdrawal_requests s !! _) as [existing|].
  - destruct (bool_decide _); [by apply reject|by apply unchanged].
  - split; [|done]. split; simpl; try apply Hinv.
    intros id x [[<- <-]|[_ Hx]]%lookup_insert_Some; [|by apply Hinv].
    split_and!; [done|apply wr_normalized_idemp|]. unfold wr_validate in *. by rewrite wr_normalized_idemp.
Qed.

Lemma batch_outcome batch s : state_inv s -> outcome s (apply_withdrawal_batch batch s).
Proof.
  intros Hinv. unfold apply_withdrawal_batch. apply outcome_gets.
  destruct (rs_withdrawal_batches s !! _) as [existing|].
  - destruct (bool_decide _); [by apply reject|by apply unchanged].
  - apply outcome_asks; [done|apply external_after_batch|]. intros ledger _.
    split; [|done]. split; simpl; try apply Hinv.
    intros hash x [[<- <-]|[_ Hx]]%lookup_insert_Some; [|by apply Hinv].
    split; [done|apply wb_normalized_idemp].
Qed.

Definition message_ok (message : SharechainMessage) : Prop :=
  match message with MsgShare share => well_typed share | _ => True end.

Lemma payload_outcome message s : state_inv s -> message_ok message -> outcome s (apply_payload message s).
Proof.
  intros Hinv Hok. destruct message; simpl.
  - by apply registration_outcome.
  - by apply template_outcome.
  - by apply share_outcome_message.
  - apply outcome_gets. by apply checkpoint_outcome_message.
  - by apply vote_outcome.
  - by apply schedule_outcome.
  - by apply request_outcome.
  - by apply batch_outcome.
  - unfold lift. destruct (pc_validate_fields commitment); [by apply (unchanged s tt)|by apply (reject (A := unit))].
Qed.

Lemma message_outcome message s : state_inv s -> message_ok message -> outcome s (apply_message message s).
Proof.
  intros Hinv Hok. unfold apply_message. apply outcome_gets. destruct (bool_decide _); [by apply unchanged|].
  rewrite M_bind_run. pose proof (payload_outcome message s Hinv Hok) as Hout.
  destruct (apply_payload message s) as [[[]|e] s']; simpl in *; [|exact Hout].
  destruct Hout as [[]]. by split.
Qed.
End handlers.

(** ** Fields a method leaves alone *)

Definition keeps {S E A X} (f : S -> X) (m : M S E A) : Prop := forall s, f (m s).2 = f s.

Section keeps.
Context {S E X : Type} (f : S -> X).

Lemma keeps_ret {A} (a : A) : keeps f (mret a : M S E A).
Proof. done. Qed.
Lemma keeps_lift {A} (r : result E A) : keeps f (lift r).
Proof. done. Qed.
Lemma keeps_gets {A} (g : S -> A) : keeps (E := E) f (gets g).
Proof. done. Qed.
Lemma keeps_asks {A} (g : S -> result E A) : keeps f (asks g).
Proof. done. Qed.
Lemma keeps_throw {A} (e : E) : keeps (A := A) f (throw e).
Proof. done. Qed.
Lemma keeps_modify (g : S -> S) : (forall s, f (g s) = f s) -> keeps (E := E) f (modify g).
Proof. done. Qed.
Lemma keeps_bind {A B} (m : M S E A) (k : A -> M S E B) :
  keeps f m -> (forall a, keeps f (k a)) -> keeps f (m ≫= k).
Proof.
  intros Hm Hk s. rewrite M_bind_run. specialize (Hm s). destruct (m s) as [[a|e] s1]; simpl in *; [|done].
  by rewrite Hk.
Qed.
Lemma keeps_if {A} (b : bool) (m1 m2 : M S E A) : keeps f m1 -> keeps f m2 -> keeps f (if b then m1 else m2).
Proof. by destruct b. Qed.
Lemma keeps_option {A B} (o : option B) (m1 : B -> M S E A) m2 :
  (forall b, keeps f (m1 b)) -> keeps f m2 -> keeps f (match o with Some b => m1 b | None => m2 end).
Proof. destruct o; auto. Qed.
End keeps.

Lemma keeps_on_tree {A X} (f : SharechainReplayState -> X) (m : tree_method A) :
  (forall t s, f (with_tree t s) = f s) -> keeps f (on_tree m).
Proof. intros Hf s. unfold on_tree. destruct (m (rs_tree s)). apply Hf. Qed.

Lemma keeps_on_ledger {A X} (f : SharechainReplayState -> X) (m : M ClaimLedger LedgerError A) :
  (forall l s, f (with_ledger l s) = f s) -> keeps f (on_ledger m).
Proof. intros Hf s. unfold on_ledger. destruct (m (rs_claim_ledger s)). apply Hf. Qed.

Create HintDb keeps.
#[export] Hint Resolve keeps_ret keeps_lift keeps_gets keeps_asks keeps_throw keeps_modify keeps_bind
  keeps_if keeps_option keeps_on_tree keeps_on_ledger : keeps.

Section frames.
Context `{Hashing, Secp256k1, BitcoinCrate, DateAndCid}.

Lemma payload_keeps_applied message : keeps rs_applied_message_hashes (apply_payload message).
Proof.
  destruct message; simpl; unfold apply_registration, apply_bitcoin_work_template, apply_share_message,
    apply_snapshot_vote, apply_payout_schedule_proposal, apply_withdrawal_request, apply_withdrawal_batch;
    auto 20 with keeps.
Qed.

Lemma accept_prefix_keeps {X} (f : SharechainReplayState -> X) hash prefix :
  (forall v s, f (with_prefixes v s) = f s) -> keeps f (insert_accepted_prefix hash prefix).
Proof. intros Hf. unfold insert_accepted_prefix. auto 10 with keeps. Qed.

Lemma accept_keeps {X} (f : SharechainReplayState -> X) template :
  (forall v s, f (with_prefixes v s) = f s) -> keeps f (accept_bitcoin_work_template template).
Proof. intros Hf. unfold accept_bitcoin_work_template. auto using accept_prefix_keeps with keeps. Qed.

Lemma accept_raw_keeps {X} (f : SharechainReplayState -> X) prefix :
  (forall v s, f (with_prefixes v s) = f s) -> keeps f (accept_bitcoin_work_template_prefix prefix).
Proof. intros Hf. unfold accept_bitcoin_work_template_prefix. auto using accept_prefix_keeps with keeps. Qed.

Lemma confirmed_keeps {X} (f : SharechainReplayState -> X) schedule accounts reward limit minimum :
  (forall v s, f (with_ledger v s) = f s) ->
  keeps f (apply_confirmed_payout_schedule schedule accounts reward limit minimum).
Proof. intros Hf. unfold apply_confirmed_payout_schedule. auto with keeps. Qed.

Lemma state_inv_prefixes v s : state_inv s -> state_inv (with_prefixes v s).
Proof. by intros []. Qed.
Lemma state_inv_ledger v s : state_inv s -> state_inv (with_ledger v s).
Proof. by intros []. Qed.
End frames.

(** ** Runs *)

(** What a node does with its state: apply messages (rejected ones included,
    unless a branch score overflows), accept template prefixes, and credit
    confirmed payout schedules. *)
Inductive replay_step `{Hashing, Secp256k1, BitcoinCrate, DateAndCid} :
    SharechainReplayState -> SharechainReplayState -> Prop :=
| step_message message s r s' :
    message_ok message -> apply_message message s = (r, s') ->
    (forall x, r <> Err (ShareBranchScoreOverflow x)) -> replay_step s s'
| step_accept_template template s r s' : accept_bitcoin_work_template template s = (r, s') -> replay_step s s'
| step_accept_prefix prefix s r s' : accept_bitcoin_work_template_prefix prefix s = (r, s') -> replay_step s s'
| step_confirmed schedule accounts reward limit minimum s r s' :
    apply_confirmed_payout_schedule schedule accounts reward limit minimum s = (r, s') -> replay_step s s'.

Section runs.
Context `{Hashing, !HexLaws, Secp256k1, BitcoinCrate, DateAndCid}.

(** The steps other than messages change the accepted prefixes or the ledger only. *)
Lemma side_step {X} (f : SharechainReplayState -> X) s s' :
  (forall v s, f (with_prefixes v s) = f s) -> (forall v s, f (with_ledger v s) = f s) ->
  replay_step s s' ->
  (exists message r, message_ok message /\ apply_message message s = (r, s') /\
     forall x, r <> Err (ShareBranchScoreOverflow x)) \/ f s' = f s.
Proof.
  intros Hp Hl Hstep. destruct Hstep as [message s r s' Hok Hrun Hne|template s r s' Hrun|prefix s r s' Hrun
    |schedule accounts reward limit minimum s r s' Hrun]; [left; eauto|right..].
  - pose proof (accept_keeps f template Hp s) as Hk. by rewrite Hrun in Hk.
  - pose proof (accept_raw_keeps f prefix Hp s) as Hk. by rewrite Hrun in Hk.
  - pose proof (confirmed_keeps f schedule accounts reward limit minimum Hl s) as Hk. by rewrite Hrun in Hk.
Qed.

Lemma step_state_inv s s' : state_inv s -> replay_step s s' ->
  state_inv s' /\ registrations_le (rs_registrations s) (rs_registrations s').
Proof.
  intros Hinv Hstep.
  destruct (side_step (fun s => with_prefixes ∅ (with_ledger ledger_default s)) s s') as [(m & r & Hok & Hrun & Hne)|Heq];
    [done|done|done| |].
  - pose proof (message_outcome m s Hinv Hok) as Hout. rewrite Hrun in Hout.
    destruct r as [o|e]; [exact Hout|].
    destruct Hout as (_ & [[x ->]|(Hinv' & -> & _)]); [by destruct (Hne x)|done].
  - assert (rs_registrations s' = rs_registrations s) as Hr by (by apply (f_equal rs_registrations) in Heq).
    split; [|by rewrite Hr].
    apply (state_inv_ledger ledger_default), (state_inv_prefixes ∅) in Hinv. rewrite <-Heq in Hinv. by destruct Hinv.
Qed.
End runs.

(** ** Claims *)

Section claims.
Context `{Hashing, Secp256k1, BitcoinCrate, DateAndCid}.

Definition claims (s : SharechainReplayState) : N := ledger_total (rs_claim_ledger s).

Lemma reserve_output_total s height l o l' : reserve_output s height l o = Ok l' -> ledger_total l' = ledger_total l.
Proof.
  unfold reserve_output. intros (q & _ & Hr)%bind_Ok. destruct (negb _); [done|].
  pose proof (reserve_total q (wo_fee_sats o) height l) as Ht.
  destruct (reserve_withdrawal q (wo_fee_sats o) height l) as [[pending|e] l1]; simpl in *; [|done].
  res_inv. by subst.
Qed.

Lemma reserve_outputs_total s height l os l' :
  try_fold (reserve_output s height) l os = Ok l' -> ledger_total l' = ledger_total l.
Proof.
  revert l. induction os as [|o os IH]; intros l; simpl; [by intros [= ->]|].
  intros (l1 & Hl1 & Hf)%bind_Ok. rewrite (IH _ Hf). by eapply reserve_output_total.
Qed.

Lemma after_batch_total s batch height l :
  claim_ledger_after_withdrawal_batch s batch height = Ok l -> ledger_total l = claims s.
Proof.
  unfold claim_ledger_after_withdrawal_batch. intros (b & _ & Hf)%bind_Ok. by eapply reserve_outputs_total.
Qed.

Lemma payload_keeps_claims message : keeps claims (apply_payload message).
Proof.
  destruct message; simpl; unfold apply_registration, apply_bitcoin_work_template, apply_share_message,
    apply_snapshot_vote, apply_payout_schedule_proposal, apply_withdrawal_request; auto 20 with keeps.
  unfold apply_withdrawal_batch. apply keeps_bind; [auto with keeps|]. intros batches.
  apply keeps_option; [auto with keeps|]. intros s. rewrite M_bind_run. unfold asks.
  destruct (claim_ledger_after_withdrawal_batch s _ 0) as [l|e] eqn:Hl; [|done].
  unfold claims at 1. simpl. by eapply after_batch_total.
Qed.

Lemma message_keeps_claims message : keeps claims (apply_message message).
Proof. unfold apply_message. auto 10 using payload_keeps_claims with keeps. Qed.

Lemma applied_sats_all s l :
  (apply_payout_schedule s l).1 = Ok tt ->
  applied_sats (ps_vault_allocations s) l = sum_N (map va_amount_sats (ps_vault_allocations s)).
Proof.
  unfold apply_payout_schedule. revert l. induction (ps_vault_allocations s) as [|a rest IH]; intros l; simpl; [done|].
  rewrite M_bind_run. destruct (apply_vault_allocation a l) as [[[]|e] l1]; simpl; [|done].
  intros Hr. by rewrite IH.
Qed.
End claims.

(** ** Properties *)

Section reachable.
Context `{Hashing, !HexLaws, Secp256k1, BitcoinCrate, DateAndCid}.

Lemma steps_state_inv s s' : state_inv s -> rtc replay_step s s' ->
  state_inv s' /\ registrations_le (rs_registrations s) (rs_registrations s').
Proof.
  intros Hinv Hsteps. induction Hsteps as [s|s1 s2 s3 Hstep _ IH]; [done|].
  destruct (step_state_inv _ _ Hinv Hstep) as [Hinv2 Hle]. destruct (IH Hinv2) as [? ?].
  split; [done|by etrans].
Qed.

Lemma message_applied message s o s' : apply_message message s = (Ok o, s') ->
  message_hash message ∈ rs_applied_message_hashes s'.
Proof.
  unfold apply_message. rewrite M_bind_run. cbn [gets]. destruct (bool_decide _) eqn:Hb.
  - intros [= _ <-]. by apply bool_decide_eq_true in Hb.
  - rewrite M_bind_run. destruct (apply_payload message s) as [[[]|e] s1]; [|done].
    intros [= _ <-]. simpl. set_solver.
Qed.

Lemma step_applied s s' : replay_step s s' -> rs_applied_message_hashes s ⊆ rs_applied_message_hashes s'.
Proof.
  intros Hstep. destruct (side_step rs_applied_message_hashes s s') as [(m & r & _ & Hrun & _)| ->]; try done.
  unfold apply_message in Hrun. rewrite M_bind_run in Hrun. cbn [gets] in Hrun.
  destruct (bool_decide _); [by injection Hrun as _ <-|]. rewrite M_bind_run in Hrun.
  pose proof (payload_keeps_applied m s) as Hk. destruct (apply_payload m s) as [[[]|e] s1]; simpl in *.
  - injection Hrun as _ <-. simpl. rewrite Hk. set_solver.
  - injection Hrun as _ <-. by rewrite Hk.
Qed.
End reachable.

(** C1 (invariant). Every message keeps the invariant of the replay state: the share
    tree is well formed, registrations, templates, shares, votes and withdrawal
    requests are exactly ones that passed their signature checks, and proposed
    schedules pay registered scripts and claim owners.  A rejected message changes
    nothing, unless it is a conflicting template or a branch score overflows, and no
    handler panics or diverges. *)
Theorem message_keeps_invariant `{Hashing, !HexLaws, Secp256k1, BitcoinCrate, DateAndCid} message s :
  state_inv s -> message_ok message ->
  match apply_message message s with
  | (Ok _, s') => state_inv s'
  | (Err e, s') =>
      is_internal e = false /\
      ((exists x, e = ShareBranchScoreOverflow x) \/
       state_inv s' /\ (s' = s \/ exists h, e = ConflictingBitcoinWorkTemplate h))
  end.
Proof.
  intros Hinv Hok. pose proof (message_outcome message s Hinv Hok) as Hout.
  destruct (apply_message message s) as [[o|e] s']; [apply Hout|].
  destruct Hout as (He & [Hov|(Hinv' & _ & Hs)]); auto.
Qed.

(** (safety). A message takes effect at most once: after it is applied, whatever happens
    next, it and every message with its hash are ignored and change nothing. *)
Theorem message_applied_once `{Hashing, !HexLaws, Secp256k1, BitcoinCrate, DateAndCid}
    message message' s o s1 s2 :
  apply_message message s = (Ok o, s1) -> rtc replay_step s1 s2 ->
  message_hash message' = message_hash message ->
  apply_message message' s2 = (Ok DuplicateIgnored, s2).
Proof.
  intros Hrun Hsteps Heq. apply message_applied in Hrun.
  assert (message_hash message' ∈ rs_applied_message_hashes s2) as Hin.
  { rewrite Heq. induction Hsteps as [|s1 s2 s3 Hstep _ IH]; [done|]. apply IH.
    by apply (step_applied _ _ Hstep). }
  unfold apply_message. rewrite M_bind_run. cbn [gets]. by rewrite bool_decide_eq_true_2.
Qed.

(** (safety). In every run a registered miner stays registered, with the same Idena
    address, payout script, claim owner and mining key, and a registry sequence
    number that never decreases. *)
Theorem registered_keys_permanent `{Hashing, !HexLaws, Secp256k1, BitcoinCrate, DateAndCid} s s' m r :
  rtc replay_step rs_default s -> rtc replay_step s s' -> rs_registrations s !! m = Some r ->
  exists r', rs_registrations s' !! m = Some r' /\ same_keys r r' /\ registry_sequence r <= registry_sequence r'.
Proof.
  intros Hreach Hsteps Hr. destruct (steps_state_inv _ _ state_inv_default Hreach) as [Hinv _].
  destruct (steps_state_inv _ _ Hinv Hsteps) as [_ Hle]. destruct (Hle _ _ Hr) as (r' & ? & ? & _ & ?). eauto.
Qed.

(** C12 (invariant). No message creates or destroys vault claims, and a confirmed payout schedule
    adds to them exactly the part of the block reward it does not pay directly. *)
Theorem replay_conserves_claims `{Hashing, !HexLaws, Secp256k1, BitcoinCrate, DateAndCid}
    message schedule accounts reward limit minimum s s' :
  fits sats_bits reward ->
  apply_confirmed_payout_schedule schedule accounts reward limit minimum s = (Ok tt, s') ->
  claims s' + sum_N (map dp_amount_sats (ps_direct_outputs schedule)) = claims s + reward /\
  claims (apply_message message s').2 = claims s'.
Proof.
  intros Hfit Hrun. split; [|apply message_keeps_claims].
  unfold apply_confirmed_payout_schedule in Hrun. rewrite M_bind_run in Hrun. unfold asks in Hrun.
  destruct (validate_deterministic_payout_schedule _ _ _ _ _ _) as [[]|e] eqn:Hv; [|done].
  unfold validate_deterministic_payout_schedule in Hv. res_inv.
  match goal with HH : expected_payout_schedule _ _ _ _ _ = Ok ?x |- _ =>
    unfold expected_payout_schedule in HH; res_inv end.
  match goal with HH : bool_decide (?x <> schedule) = false |- _ =>
    apply bool_decide_eq_false, dec_stable in HH; subst end.
  match goal with HH : build_payout_schedule _ _ _ _ = Ok _ |- _ =>
    destruct (build_conserves _ _ _ _ _ Hfit HH) as [Hsum _] end.
  unfold on_ledger in Hrun. pose proof (payout_total schedule (rs_claim_ledger s)) as Ht.
  pose proof (applied_sats_all schedule (rs_claim_ledger s)) as Ha.
  destruct (apply_payout_schedule schedule (rs_claim_ledger s)) as [[[]|e] l]; [|done].
  injection Hrun as <-. unfold claims. simpl in *. rewrite Ha in Ht by done. lia.
Qed.

(** A template that a registered miner signed for an accepted prefix, while
    another one is stored under its hash. *)
Record conflicting_template `{Hashing, Secp256k1, BitcoinCrate, DateAndCid} (s : SharechainReplayState)
    (template : BitcoinWorkTemplate) : Prop := {
  ct_new : message_hash (MsgBitcoinWorkTemplate template) ∉ rs_applied_message_hashes s;
  ct_signed : exists r, rs_registrations s !! to_ascii_lowercase (wt_miner_id template) = Some r /\
    wt_verify_mining_signature template (mr_mining_pubkey_hex r) = Ok tt;
  ct_accepted : exists prefix,
    rs_accepted_bitcoin_work_template_prefixes s !! to_ascii_lowercase (wt_template_hash template) = Some prefix /\
    eq_ignore_ascii_case (wt_header_prefix_hex template) prefix = true;
  ct_stored : exists existing,
    rs_bitcoin_work_templates s !! to_ascii_lowercase (wt_template_hash template) = Some existing /\
    existing <> wt_normalized template
}.

(** C38 (error). A signed template that conflicts with a stored one is rejected, yet the
    rejected template has replaced the stored one in the state. *)
Theorem rejected_template_overwrites `{Hashing, Secp256k1, BitcoinCrate, DateAndCid} template s :
  let hash := to_ascii_lowercase (wt_template_hash template) in
  conflicting_template s template ->
  exists s', apply_message (MsgBitcoinWorkTemplate template) s = (Err (ConflictingBitcoinWorkTemplate hash), s') /\
    rs_bitcoin_work_templates s' !! hash = Some (wt_normalized template).
Proof.
  intros hash [Hnew (r & Hr & Hv) (prefix & Hp & Heq) (existing & Hex & Hne)]. fold hash in Hp, Hex. eexists. split.
  - unfold apply_message. rewrite M_bind_run. cbn [gets]. rewrite bool_decide_eq_false_2 by done.
    rewrite M_bind_run. cbn [apply_payload]. unfold apply_bitcoin_work_template. fold hash.
    rewrite M_bind_run. cbn [gets]. rewrite Hr, M_bind_run. unfold lift at 1. cbn [ok_or].
    rewrite M_bind_run, Hv. unfold lift at 1. cbn [map_err]. rewrite M_bind_run. cbn [gets].
    rewrite Hp, M_bind_run. unfold lift at 1. cbn [ok_or]. rewrite Heq. cbn [negb].
    rewrite M_bind_run. cbn [gets]. rewrite M_bind_run. cbn [modify]. rewrite Hex.
    by rewrite bool_decide_eq_true_2.
  - simpl. apply lookup_insert_eq.
Qed.

(** ** Concrete runs *)

Abbreviation apply_c := (@apply_message hashing_c secp_c bitcoin_c date_cid_c).

Definition sample_registration_message : SharechainMessage := MsgMinerRegistration (sample_registration "alice").
Definition registered_state : SharechainReplayState := (apply_c sample_registration_message rs_default).2.

Lemma registered_run : apply_c sample_registration_message rs_default = (Ok Applied, registered_state).
Proof.
  assert ((apply_c sample_registration_message rs_default).1 = Ok Applied) as <- by (vm_compute; reflexivity).
  apply surjective_pairing.
Qed.

(** The registration with a registry anchor, signed again. *)
Definition sample_upgrade : MinerRegistration :=
  let r := sample_anchored 1 in {|
    mr_version := mr_version r; mr_miner_id := mr_miner_id r; mr_idena_address := mr_idena_address r;
    mr_btc_payout_script_hex := mr_btc_payout_script_hex r;
    mr_claim_owner_pubkey_hex := mr_claim_owner_pubkey_hex r; mr_mining_pubkey_hex := mr_mining_pubkey_hex r;
    mr_registry_anchor := mr_registry_anchor r; mr_idena_signature_hex := mr_idena_signature_hex r;
    mr_mining_signature_hex := sign_c (@mr_signing_hash hashing_c r) |}.
Definition upgraded_state : SharechainReplayState :=
  (apply_c (MsgMinerRegistration sample_upgrade) registered_state).2.

Lemma upgraded_run : apply_c (MsgMinerRegistration sample_upgrade) registered_state = (Ok Applied, upgraded_state).
Proof.
  assert ((apply_c (MsgMinerRegistration sample_upgrade) registered_state).1 = Ok Applied) as <-
    by (vm_compute; reflexivity).
  apply surjective_pairing.
Qed.

Definition accepted_state : SharechainReplayState :=
  (@accept_bitcoin_work_template hashing_c bitcoin_c (sample_template "alice" 7) registered_state).2.
Definition template_state : SharechainReplayState :=
  (apply_c (MsgBitcoinWorkTemplate (sample_template "alice" 7)) accepted_state).2.

Definition sample_payout_account : ParticipantAccount := {|
  pa_miner_id := "alice"; pa_btc_payout_script_hex := "0014" +:+ repeat_char "1"%char 40;
  pa_claim_owner_id := repeat_char "c"%char 64; pa_unpaid_sats := 0; pa_hashrate_score := 3; pa_idena_score := 1 |}.
Definition alice_schedule : PayoutSchedule :=
  unwrap {| ps_direct_outputs := []; ps_vault_output_sats := 0; ps_vault_allocations := []; ps_payout_root := "" |}
    (@build_payout_schedule hashing_c [sample_payout_account] 50000 1 100000).
Definition credited_state : SharechainReplayState :=
  (@apply_confirmed_payout_schedule hashing_c alice_schedule [sample_payout_account] 50000 1 100000
     registered_state).2.

Lemma credited_run :
  @apply_confirmed_payout_schedule hashing_c alice_schedule [sample_payout_account] 50000 1 100000
    registered_state = (Ok tt, credited_state).
Proof.
  assert ((@apply_confirmed_payout_schedule hashing_c alice_schedule [sample_payout_account] 50000 1 100000
    registered_state).1 = Ok tt) as <- by (vm_compute; reflexivity).
  apply surjective_pairing.
Qed.

Lemma message_keeps_invariant_witness : @state_inv hashing_c secp_c bitcoin_c date_cid_c registered_state.
Proof.
  pose proof (@message_keeps_invariant hashing_c hex_laws_c secp_c bitcoin_c date_cid_c
    sample_registration_message rs_default (@state_inv_default hashing_c secp_c bitcoin_c date_cid_c) I) as Hinv.
  rewrite registered_run in Hinv. exact Hinv.
Defined.

Lemma message_applied_once_witness :
  apply_c (MsgMinerRegistration (mr_normalized (sample_registration "alice"))) registered_state =
  (Ok DuplicateIgnored, registered_state).
Proof.
  refine (@message_applied_once hashing_c hex_laws_c secp_c bitcoin_c date_cid_c
    sample_registration_message _ rs_default Applied registered_state registered_state
    registered_run (rtc_refl _ _) _).
  vm_compute. reflexivity.
Defined.

Lemma registered_reachable :
  rtc (@replay_step hashing_c secp_c bitcoin_c date_cid_c) rs_default registered_state.
Proof. apply rtc_once. by eapply step_message; [|apply registered_run|]. Qed.

Lemma upgraded_reachable :
  rtc (@replay_step hashing_c secp_c bitcoin_c date_cid_c) registered_state upgraded_state.
Proof. apply rtc_once. by eapply step_message; [|apply upgraded_run|]. Qed.

Lemma alice_registered :
  rs_registrations registered_state !! "alice" = Some (stored_registration (sample_registration "alice")).
Proof. vm_compute. reflexivity. Qed.

Lemma registered_keys_permanent_witness : exists r', rs_registrations upgraded_state !! "alice" = Some r' /\
  same_keys (stored_registration (sample_registration "alice")) r'.
Proof.
  destruct (@registered_keys_permanent hashing_c hex_laws_c secp_c bitcoin_c date_cid_c
    registered_state upgraded_state "alice" _ registered_reachable upgraded_reachable alice_registered)
    as (r' & Hr & Hk & _).
  exists r'. split; [exact Hr|exact Hk].
Defined.

Lemma reward_fits : fits sats_bits 50000.
Proof. unfold fits. lia. Qed.

Lemma replay_conserves_claims_witness :
  claims credited_state + sum_N (map dp_amount_sats (ps_direct_outputs alice_schedule)) =
  claims registered_state + 50000.
Proof.
  exact (proj1 (@replay_conserves_claims hashing_c hex_laws_c secp_c bitcoin_c date_cid_c
    sample_registration_message alice_schedule [sample_payout_account] 50000 1 100000
    registered_state credited_state reward_fits credited_run)).
Defined.

Definition late_template : BitcoinWorkTemplate := sample_template "alice" 9.

Lemma absent_by_computation (x : string) (X : gset string) : bool_decide (x ∈ X) = false -> x ∉ X.
Proof. apply bool_decide_eq_false_1. Qed.

Lemma late_template_new :
  @message_hash hashing_c (MsgBitcoinWorkTemplate late_template) ∉ rs_applied_message_hashes template_state.
Proof. apply absent_by_computation. vm_compute. reflexivity. Qed.

Lemma stored_template :
  rs_bitcoin_work_templates template_state !! to_ascii_lowercase (wt_template_hash late_template) =
  Some (wt_normalized (sample_template "alice" 7)).
Proof. vm_compute. reflexivity. Qed.

Lemma late_template_differs : wt_normalized (sample_template "alice" 7) <> wt_normalized late_template.
Proof. apply (bool_decide_eq_false_1 (_ = _)). vm_compute. reflexivity. Qed.

Lemma late_template_conflicts :
  @conflicting_template hashing_c secp_c bitcoin_c date_cid_c template_state late_template.
Proof.
  split; [exact late_template_new| | |exact (ex_intro _ _ (conj stored_template late_template_differs))].
  - exists (stored_registration (sample_registration "alice")). split; vm_compute; reflexivity.
  - exists sample_prefix. split; vm_compute; reflexivity.
Qed.

Lemma rejected_template_overwrites_witness : exists s',
  apply_c (MsgBitcoinWorkTemplate late_template) template_state =
    (Err (ConflictingBitcoinWorkTemplate (to_ascii_lowercase (wt_template_hash late_template))), s') /\
  rs_bitcoin_work_templates s' !! to_ascii_lowercase (wt_template_hash late_template) =
    Some (wt_normalized late_template).
Proof.
  exact (@rejected_template_overwrites hashing_c secp_c bitcoin_c date_cid_c late_template template_state
    late_template_conflicts).
Defined.
