(* ===== verification/SharechainAccounting.v ===== *)
(** * The accounting derived from replay ([crates/pohw-core/src/sharechain_state.rs])

    What payouts and block commitments are computed from: the participant
    accounts carry exactly the work of the active branch, a schedule built from
    them passes the checks every node makes, an applied withdrawal batch is
    reserved, and the accounting root commits to the whole accounting state. *)
From S2P Require Import Prelude Order Text Crates Concrete Payout Withdrawal Ledger IdenaAnchor ShareWork Commitment Sharechain.
From S2P Require Import ShareTree ShareBranch ShareTreeInv ShareTreeAdmit ShareTreeCheckpoint SharechainState SharechainReplay.
From Stdlib Require Import Strings.Ascii.

Local Open Scope N_scope.

(** ** Participant accounts *)

(** The Idena score of an account is filled in from a snapshot. *)
Definition with_idena_score (score : string -> N) (a : ParticipantAccount) : ParticipantAccount := {|
  pa_miner_id := pa_miner_id a; pa_btc_payout_script_hex := pa_btc_payout_script_hex a;
  pa_claim_owner_id := pa_claim_owner_id a; pa_unpaid_sats := pa_unpaid_sats a;
  pa_hashrate_score := pa_hashrate_score a; pa_idena_score := score (pa_miner_id a) |}.

(** A table summed over any duplicate-free list of keys that covers it. *)
Lemma table_sum_keys (scores : gmap string N) keys :
  NoDup keys -> (forall k, is_Some (scores !! k) -> k ∈ keys) ->
  sum_N (map (fun k => default 0 (scores !! k)) keys) = table_sum scores.
Proof.
  intros Hnd. revert scores. induction Hnd as [|k keys Hk Hnd IH]; intros scores Hcov; simpl.
  - assert (scores = ∅) as ->.
    { apply map_empty. intros k. destruct (scores !! k) eqn:Hs; [|done]. set_solver. }
    unfold table_sum. by rewrite map_to_list_empty.
  - assert (sum_N (map (fun k' => default 0 (scores !! k')) keys) = table_sum (delete k scores)) as ->.
    { rewrite <-IH.
      - f_equal. apply map_ext_in. intros k' Hk'%list_elem_of_In. rewrite lookup_delete_ne; [done|]. set_solver.
      - intros k' [v Hv]. apply lookup_delete_Some in Hv as [Hne Hv]. specialize (Hcov k'). set_solver. }
    unfold table_sum. destruct (scores !! k) as [v|] eqn:Hs; simpl.
    + rewrite <-(insert_delete_id scores k v Hs) at 2.
      by rewrite (map_to_list_insert (delete k scores)) by apply lookup_delete_eq.
    + by rewrite delete_id.
Qed.

Section accounts.
Context `{Hashing, !HexLaws, Secp256k1, BitcoinCrate, DateAndCid}.

Lemma registration_lower m r : registration_backed m r ->
  m = mr_miner_id r /\ to_ascii_lowercase (mr_miner_id r) = mr_miner_id r /\
  to_ascii_lowercase (mr_btc_payout_script_hex r) = mr_btc_payout_script_hex r /\
  to_ascii_lowercase (mr_claim_owner_pubkey_hex r) = mr_claim_owner_pubkey_hex r.
Proof. intros (raw & -> & -> & _). simpl. by rewrite !lower_idemp. Qed.

Lemma account_keys s : state_inv s ->
  map account_key (participant_accounts s) = btree_keys (rs_registrations s).
Proof.
  intros Hinv. unfold participant_accounts, btree_keys, btree_values. rewrite !map_map.
  apply map_ext_in. intros [m r] Hin%list_elem_of_In. apply btree_entries_elem in Hin.
  destruct (registration_lower m r) as (-> & Hl & _); [by apply Hinv|]. unfold account_key. simpl.
  by rewrite !Hl.
Qed.

Lemma account_scores s : state_inv s ->
  map pa_hashrate_score (participant_accounts s) =
  map (fun k => default 0 (st_hashrate_scores (rs_tree s) !! k)) (btree_keys (rs_registrations s)).
Proof.
  intros Hinv. unfold participant_accounts, btree_keys, btree_values. rewrite !map_map.
  apply map_ext_in. intros [m r] Hin%list_elem_of_In. apply btree_entries_elem in Hin.
  destruct (registration_lower m r) as (-> & Hl & _); [by apply Hinv|]. simpl. by rewrite Hl.
Qed.

(** Every miner with a score is registered. *)
Lemma scored_registered s m : state_inv s ->
  is_Some (st_hashrate_scores (rs_tree s) !! m) -> is_Some (rs_registrations s !! m).
Proof.
  intros Hinv Hm. pose proof (inv_active _ (si_tree _ Hinv)) as Hac. unfold active_ok in Hac.
  destruct (st_best_share_tip (rs_tree s)) as [tip|].
  - destruct Hac as (p & Hb & _ & _ & _ & Hs). rewrite Hs, miner_scores_lookup in Hm.
    unfold miner_score in Hm. case_decide as Hin; [|by destruct Hm].
    apply list_elem_of_fmap in Hin as (h & -> & Hh). destruct (branch_lookup _ _ _ Hb Hh) as [share Hshare].
    unfold miner_of. rewrite Hshare. simpl.
    destruct (si_shares _ Hinv _ _ Hshare) as (_ & raw & r & t & -> & Hr & _).
    simpl in *. rewrite lower_idemp. eauto.
  - destruct Hac as (_ & _ & Hs). rewrite Hs, lookup_empty in Hm. by destruct Hm.
Qed.

Lemma accounts_total s : state_inv s ->
  sum_N (map pa_hashrate_score (participant_accounts s)) = st_active_share_score_total (rs_tree s) /\
  fits score_bits (st_active_share_score_total (rs_tree s)).
Proof.
  intros Hinv. rewrite account_scores by done. rewrite table_sum_keys.
  - pose proof (inv_active _ (si_tree _ Hinv)) as Hac. unfold active_ok in Hac.
    destruct (st_best_share_tip (rs_tree s)) as [tip|].
    + destruct Hac as (p & Hb & Hf & _ & -> & ->). by rewrite miner_scores_sum.
    + destruct Hac as (_ & -> & ->). unfold table_sum. by rewrite map_to_list_empty.
  - apply btree_keys_NoDup.
  - intros k [r Hr]%(scored_registered _ _ Hinv). unfold btree_keys. apply list_elem_of_fmap.
    exists (k, r). by rewrite btree_entries_elem.
Qed.

(** ** Schedules *)

(** Accounts that carry the script and the claim owner of their registration. *)
Definition accounts_bound (R : gmap string MinerRegistration) (accounts : list ParticipantAccount) : Prop :=
  Forall (fun a => exists r, R !! account_key a = Some r /\
    to_ascii_lowercase (pa_btc_payout_script_hex a) = mr_btc_payout_script_hex r /\
    to_ascii_lowercase (pa_claim_owner_id a) = mr_claim_owner_pubkey_hex r) accounts.

Lemma participant_accounts_bound s score : state_inv s ->
  accounts_bound (rs_registrations s) (map (with_idena_score score) (participant_accounts s)).
Proof.
  intros Hinv. apply Forall_fmap, Forall_fmap, Forall_forall. intros r Hr.
  apply list_elem_of_fmap in Hr as ([m r'] & -> & Hr). apply btree_entries_elem in Hr.
  destruct (registration_lower m r') as (-> & Hl & Hs & Ho); [by apply Hinv|].
  exists r'. unfold account_key. simpl. by rewrite !Hl, Hs, Ho, Hs, Ho.
Qed.

Lemma entry_bound R accounts deltas a (d : N) :
  accounts_bound R accounts -> (a, d) ∈ zip (sorted_accounts accounts) deltas ->
  exists r, R !! to_ascii_lowercase (pa_miner_id a) = Some r /\
    to_ascii_lowercase (pa_btc_payout_script_hex a) = mr_btc_payout_script_hex r /\
    to_ascii_lowercase (pa_claim_owner_id a) = mr_claim_owner_pubkey_hex r.
Proof.
  intros Hb Ha%elem_of_zip_l. unfold sorted_accounts in Ha. rewrite sort_by_elem in Ha.
  apply list_elem_of_fmap in Ha as (b & -> & Hin). unfold accounts_bound in Hb. rewrite Forall_forall in Hb.
  destruct (Hb _ Hin) as (r & Hr & Hs & Ho). exists r. simpl. rewrite !lower_idemp. done.
Qed.

Lemma built_schedule_bound R accounts reward limit minimum schedule :
  fits sats_bits reward -> NoDup (map account_key accounts) -> accounts_bound R accounts ->
  build_payout_schedule accounts reward limit minimum = Ok schedule -> schedule_bound R schedule.
Proof.
  intros Hfit Hnd Hbound Hb. split; [by eapply build_validates|].
  destruct (build_inv _ _ _ _ _ Hfit Hb) as (deltas & ranked & _ & _ & _ & Hd & Hv & _).
  split; apply Forall_forall.
  - intros o Ho. rewrite Hd, sort_by_elem in Ho. apply route_direct_elem in Ho as (a & Ha & _ & Hid & _ & Hs).
    destruct (entry_bound _ _ _ _ _ Hbound Ha) as (r & Hr & Hscript & _).
    unfold check_direct_binding. rewrite Hid, Hr, Hs, Hscript. simpl. by rewrite String.eqb_refl.
  - intros o Ho. rewrite Hv, sort_by_elem in Ho. apply route_vault_elem in Ho as (a & Ha & _ & Hid & _ & Hs).
    destruct (entry_bound _ _ _ _ _ Hbound Ha) as (r & Hr & _ & Howner).
    unfold check_vault_binding. rewrite Hid, Hr, Hs, Howner. simpl. by rewrite String.eqb_refl.
Qed.
End accounts.

(** C31 (functional). In every state that satisfies the invariant, the participant accounts have
    distinct miner ids and their scores add up to the work of the active branch;
    and any schedule built from them, with Idena scores from any snapshot, is
    accepted by every node that replays the same state. *)
Theorem honest_schedule_accepted `{Hashing, !HexLaws, Secp256k1, BitcoinCrate, DateAndCid}
    s score reward limit minimum schedule :
  let accounts := map (with_idena_score score) (participant_accounts s) in
  state_inv s -> fits sats_bits reward ->
  build_payout_schedule accounts reward limit minimum = Ok schedule ->
  NoDup (map account_key accounts) /\
  sum_N (map pa_hashrate_score accounts) = st_active_share_score_total (rs_tree s) /\
  validate_deterministic_payout_schedule s schedule accounts reward limit minimum = Ok tt.
Proof.
  intros accounts Hinv Hfit Hb.
  assert (map account_key accounts = btree_keys (rs_registrations s)) as Hk.
  { unfold accounts. rewrite map_map, <-account_keys by done. by apply map_ext. }
  assert (NoDup (map account_key accounts)) as Hnd by (rewrite Hk; apply btree_keys_NoDup).
  assert (schedule_bound (rs_registrations s) schedule) as Hbound.
  { eapply built_schedule_bound; [done|done| |done]. by apply participant_accounts_bound. }
  split_and!; [done| |].
  - unfold accounts. rewrite map_map. by apply accounts_total.
  - unfold validate_deterministic_payout_schedule, expected_payout_schedule.
    rewrite (proj2 (bindings_Ok s schedule) Hbound), Hb. simpl.
    rewrite (proj2 (bindings_Ok s schedule) Hbound). simpl. by rewrite bool_decide_eq_false_2 by naive_solver.
Qed.

(** ** Withdrawal batches *)

Section batches.
Context `{Hashing, !HexLaws, Secp256k1, BitcoinCrate, DateAndCid}.

(** The reservation a processed output leaves in the ledger. *)
Definition output_reserved (s : SharechainReplayState) (height : N) (l : ClaimLedger) (o : WithdrawalOutput) : Prop :=
  exists request pending, get_request s o = Ok request /\ output_matches_request request o = true /\
    wr_validate request height = Ok tt /\
    cl_pending_withdrawals l !! wo_request_id o = Some pending /\ pending_matches_output pending o = true /\
    pw_claim_owner_id pending = to_ascii_lowercase (wr_claim_owner_id request).

Lemma output_reserved_mono s height l l' o :
  cl_pending_withdrawals l ⊆ cl_pending_withdrawals l' ->
  output_reserved s height l o -> output_reserved s height l' o.
Proof.
  intros Hsub (request & pending & ? & ? & ? & Hp & ? & ?). exists request, pending.
  split_and!; try done. by eapply lookup_weaken.
Qed.

Lemma reserve_output_reserved s height l o l' :
  reserve_output s height l o = Ok l' ->
  cl_pending_withdrawals l ⊆ cl_pending_withdrawals l' /\ output_reserved s height l' o.
Proof.
  unfold reserve_output. intros (request & Hq & Hr)%bind_Ok.
  destruct (output_matches_request request o) eqn:Hm; cbn [negb] in Hr; [|done].
  rewrite reserve_run in Hr. destruct (check_reservation l request _ height) as [[]|e] eqn:Hc; [|done].
  apply check_reservation_Ok in Hc as (Hv & _ & Hnone & _). simpl in Hr. res_inv. subst l'. simpl.
  match goal with HH : negb (pending_matches_output ?p o) = false |- _ =>
    apply negb_false_iff in HH as Hpm end.
  assert (wr_request_id request = wo_request_id o) as Hid.
  { unfold pending_matches_output in Hpm. apply negb_true_iff in Hpm. bool_inv. simpl in *. done. }
  split; [by apply insert_subseteq|]. eexists request, _. split_and!; [done..| |exact Hpm|done].
  simpl. rewrite Hid. apply lookup_insert_eq.
Qed.

Lemma reserve_outputs_reserved s height l os l' :
  try_fold (reserve_output s height) l os = Ok l' ->
  cl_pending_withdrawals l ⊆ cl_pending_withdrawals l' /\ Forall (output_reserved s height l') os.
Proof.
  revert l. induction os as [|o os IH]; intros l; simpl; [by intros [= ->]|].
  intros (l1 & Hl1 & Hf)%bind_Ok. destruct (reserve_output_reserved _ _ _ _ _ Hl1) as [Hsub Ho].
  destruct (IH _ Hf) as [Hsub' Hos]. split; [by etrans|]. constructor; [|done].
  by eapply output_reserved_mono.
Qed.

Lemma after_batch_reserved s batch height l :
  claim_ledger_after_withdrawal_batch s batch height = Ok l ->
  expected_withdrawal_batch s batch height = Ok (wb_normalized batch) /\
  Forall (output_reserved s height l) (wb_outputs (wb_normalized batch)).
Proof.
  unfold claim_ledger_after_withdrawal_batch. intros (b & Hb & Hf)%bind_Ok.
  assert (b = wb_normalized batch) as ->.
  { unfold expected_withdrawal_batch in Hb. res_inv. subst.
    match goal with HH : bool_decide (_ <> _) = false |- _ => by apply bool_decide_eq_false, dec_stable in HH end. }
  split; [done|]. by eapply reserve_outputs_reserved.
Qed.

Lemma check_reserved_Ok s s' height l o :
  state_inv s -> rs_withdrawal_requests s' = rs_withdrawal_requests s -> rs_claim_ledger s' = l ->
  output_reserved s height l o -> check_reserved s' height o = Ok tt.
Proof.
  intros Hinv Hreq Hl (request & pending & Hq & Hm & Hv & Hp & Hpm & Howner).
  unfold check_reserved, get_request, pending_withdrawal in *. rewrite Hreq, Hq, Hl. simpl.
  rewrite Hm, Hv. simpl. rewrite Hp. simpl. rewrite Hpm, Howner. simpl.
  apply ok_or_Ok in Hq. destruct (si_requests _ Hinv _ _ Hq) as (_ & Hn & _).
  assert (to_ascii_lowercase (wr_claim_owner_id request) = wr_claim_owner_id request) as ->
    by (rewrite <-Hn; apply lower_idemp).
  by rewrite String.eqb_refl.
Qed.
End batches.

(** The check a vault signer makes before it signs the transaction of a batch. *)
Definition signer_accepts `{Hashing, Secp256k1, BitcoinCrate} (s : SharechainReplayState) (batch : WithdrawalBatch)
    (height : N) : Prop := withdrawal_batch_is_reserved s batch height = Ok tt.

(** (refinement). A batch message that is applied leaves the ledger in the state the
    signer's check asks for: [withdrawal_batch_is_reserved] accepts the batch, so
    every output is a stored, signed request with a matching reservation. *)
Theorem applied_batch_is_reserved `{Hashing, !HexLaws, Secp256k1, BitcoinCrate, DateAndCid} batch s s' :
  state_inv s -> rs_withdrawal_batches s !! batch_hash batch = None ->
  apply_withdrawal_batch batch s = (Ok tt, s') ->
  signer_accepts s' batch 0.
Proof.
  intros Hinv Hnone Hrun. assert (batch_hash (wb_normalized batch) = batch_hash batch) as Hh
    by (unfold batch_hash; by rewrite wb_normalized_idemp).
  unfold apply_withdrawal_batch in Hrun. rewrite M_bind_run in Hrun. cbn [gets] in Hrun.
  rewrite Hh, Hnone in Hrun. rewrite M_bind_run in Hrun. unfold asks in Hrun.
  destruct (claim_ledger_after_withdrawal_batch s (wb_normalized batch) 0) as [l|e] eqn:Hl; [|done].
  rewrite M_bind_run in Hrun. cbn [modify] in Hrun. injection Hrun as <-.
  apply after_batch_reserved in Hl as [Hexp Hres]. unfold signer_accepts, withdrawal_batch_is_reserved.
  rewrite wb_normalized_idemp in Hexp, Hres.
  assert (expected_withdrawal_batch s batch 0 = Ok (wb_normalized batch)) as Hexp'.
  { unfold expected_withdrawal_batch in *. by rewrite wb_normalized_idemp in Hexp. }
  match goal with |- context [expected_withdrawal_batch ?s1 batch 0] =>
    change (expected_withdrawal_batch s1 batch 0) with (expected_withdrawal_batch s batch 0) end.
  rewrite Hexp'. simpl. rewrite Hh, lookup_insert_eq. simpl.
  rewrite bool_decide_eq_false_2 by naive_solver. apply try_for_each_Ok.
  eapply Forall_impl; [exact Hres|]. intros o Ho. by eapply check_reserved_Ok.
Qed.

(** ** The accounting root *)

Lemma btree_entries_inj {V} (m1 m2 : gmap string V) : btree_entries m1 = btree_entries m2 -> m1 = m2.
Proof.
  intros Heq. apply map_eq. intros k. apply option_eq. intros v.
  by rewrite <-(btree_entries_elem m1), <-(btree_entries_elem m2), Heq.
Qed.

Lemma btree_set_list_inj (s1 s2 : gset string) : btree_set_list s1 = btree_set_list s2 -> s1 = s2.
Proof. intros Heq. apply set_eq. intros x. by rewrite <-!btree_set_list_elem, Heq. Qed.

Lemma map_entries_inj {K V : Type} `{SerializeInj V} (name : K -> string) (l1 l2 : list (K * V)) :
  Inj (=) (=) name ->
  map (fun entry => (name entry.1, to_json entry.2)) l1 = map (fun entry => (name entry.1, to_json entry.2)) l2 ->
  l1 = l2.
Proof.
  intros Hinj. revert l2. induction l1 as [|[k1 v1] l1 IH]; intros [|[k2 v2] l2] Heq; try discriminate; [done|].
  simpl in Heq. injection Heq as Hk Hv Heq. apply Hinj in Hk. apply to_json_inj in Hv.
  by rewrite Hk, Hv, (IH _ Heq).
Qed.

Global Instance gmap_serialize_inj `{SerializeInj V} : SerializeInj (gmap string V).
Proof.
  intros m1 m2 Heq%JObj_inj. apply btree_entries_inj. by apply (map_entries_inj id) in Heq; [|apply _].
Qed.

Global Instance gmap_N_serialize_inj `{SerializeInj V} : SerializeInj (gmap N V).
Proof.
  intros m1 m2 Heq%JObj_inj. apply (map_entries_inj pretty) in Heq; [|apply _].
  apply map_eq. intros k. apply option_eq. intros v.
  rewrite <-!elem_of_map_to_list.
  rewrite <-(sort_by_elem compare_rounds _ (map_to_list m1)), <-(sort_by_elem compare_rounds _ (map_to_list m2)).
  by rewrite Heq.
Qed.

Global Instance gset_serialize_inj : SerializeInj (gset string).
Proof. intros s1 s2 Heq. unfold to_json, gset_serialize in Heq. apply to_json_inj in Heq. by apply btree_set_list_inj. Qed.

Global Instance PendingWithdrawal_serialize_inj : SerializeInj PendingWithdrawal.
Proof. solve_serialize_inj. Qed.
Global Instance ClaimLedger_serialize_inj : SerializeInj ClaimLedger.
Proof. solve_serialize_inj. Qed.
Global Instance AccountingStateRootMaterial_serialize_inj : SerializeInj AccountingStateRootMaterial.
Proof. solve_serialize_inj. Qed.

(** Collecting mapped entries maps the values. *)
Lemma collect_map_elem {V} (l : list (string * V)) k v :
  NoDup (map fst l) -> collect_map l !! k = Some v <-> (k, v) ∈ l.
Proof.
  unfold collect_map. induction l as [|[k' v'] l IH] using rev_ind; intros Hnd; [simpl; set_solver|].
  rewrite foldl_app, map_app in *. simpl in *. apply NoDup_app in Hnd as (Hnd & Hdisj & _).
  rewrite elem_of_app, list_elem_of_singleton, <-IH by done. split.
  - intros [[<- <-]|[_ Hl]]%lookup_insert_Some; auto.
  - intros [Hl|[= -> ->]]; [|apply lookup_insert_eq]. rewrite lookup_insert_ne; [done|].
    intros ->. apply IH in Hl; [|done]. apply (Hdisj k); [|set_solver].
    apply list_elem_of_fmap. by exists (k, v).
Qed.

Lemma collect_map_fmap {V W} (f : V -> W) (m : gmap string V) :
  collect_map (map (fun entry => (entry.1, f entry.2)) (btree_entries m)) = f <$> m.
Proof.
  apply map_eq. intros k. apply option_eq. intros w. rewrite collect_map_elem.
  - rewrite lookup_fmap_Some. split.
    + intros ([k' v] & [= -> ->] & Hin%btree_entries_elem)%list_elem_of_fmap. eauto.
    + intros (v & <- & Hv). apply list_elem_of_fmap. exists (k, v). by rewrite btree_entries_elem.
  - rewrite map_map. apply btree_keys_NoDup.
Qed.

Section root.
Context `{Hashing, !HexLaws, !HashLaws, Secp256k1, BitcoinCrate, DateAndCid}.

Definition accounting_input (s : SharechainReplayState) : bytes :=
  tagged_input (byte_str "POHW1_ACCOUNTING_STATE") (canonical_json (accounting_material s)).

Definition lower_key (key : SnapshotVoteKey) : Prop :=
  to_ascii_lowercase (vk_score_root key) = vk_score_root key.

Lemma vote_key_inj k1 k2 : lower_key k1 -> lower_key k2 ->
  accounting_snapshot_vote_key k1 = accounting_snapshot_vote_key k2 -> k1 = k2.
Proof.
  unfold accounting_snapshot_vote_key, lower_key. intros Hl1 Hl2 Heq.
  apply (f_equal Strings.String.list_byte_of_string) in Heq.
  rewrite !Strings.String.list_byte_of_string_of_list_byte in Heq. apply to_vec_inj in Heq.
  rewrite Hl1, Hl2 in Heq. injection Heq as Hd Hh Hr. apply N2Z.inj in Hh. destruct k1, k2. simpl in *. by subst.
Qed.

Lemma accounting_votes s key voters : state_inv s -> lower_key key ->
  am_snapshot_votes (accounting_material s) !! accounting_snapshot_vote_key key = Some voters <->
  rs_snapshot_votes s !! key = Some voters.
Proof.
  intros Hinv Hkey. simpl.
  assert (forall k v, (k, v) ∈ sort_by compare_vote_entries (map_to_list (rs_snapshot_votes s)) <->
    rs_snapshot_votes s !! k = Some v) as Hin by (intros; by rewrite sort_by_elem, elem_of_map_to_list).
  rewrite collect_map_elem.
  - rewrite list_elem_of_fmap. split.
    + intros ([k v] & [= Hk ->] & Hv%Hin). apply vote_key_inj in Hk as ->; [done|done|].
      by apply (si_votes _ Hinv _ _ Hv).
    + intros Hv. exists (key, voters). by rewrite Hin.
  - rewrite map_map. simpl. rewrite <-(map_map fst accounting_snapshot_vote_key).
    apply NoDup_fmap_2_strong.
    + intros k1 k2 ([? v1] & -> & Hv1%Hin)%list_elem_of_fmap ([? v2] & -> & Hv2%Hin)%list_elem_of_fmap.
      apply vote_key_inj; [by apply (si_votes _ Hinv _ _ Hv1)|by apply (si_votes _ Hinv _ _ Hv2)].
    + rewrite sort_by_perm. apply NoDup_fst_map_to_list.
Qed.

Lemma votes_determined s1 s2 : state_inv s1 -> state_inv s2 ->
  am_snapshot_votes (accounting_material s1) = am_snapshot_votes (accounting_material s2) ->
  rs_snapshot_votes s1 = rs_snapshot_votes s2.
Proof.
  intros Hinv1 Hinv2 Heq. apply map_eq. intros key. apply option_eq. intros voters. split; intros Hv.
  - assert (lower_key key) by apply (si_votes _ Hinv1 _ _ Hv).
    apply (accounting_votes s2); [done..|]. rewrite <-Heq. by apply accounting_votes.
  - assert (lower_key key) by apply (si_votes _ Hinv2 _ _ Hv).
    apply (accounting_votes s1); [done..|]. rewrite Heq. by apply accounting_votes.
Qed.

Lemma requests_determined s : state_inv s -> wr_normalized <$> rs_withdrawal_requests s = rs_withdrawal_requests s.
Proof.
  intros Hinv. apply map_eq. intros id. rewrite lookup_fmap.
  destruct (rs_withdrawal_requests s !! id) as [q|] eqn:Hq; [|done]. simpl.
  by rewrite (proj1 (proj2 (si_requests _ Hinv _ _ Hq))).
Qed.
End root.

(** The part of the state that payouts, withdrawals and snapshots are computed from. *)
Record same_accounting (s1 s2 : SharechainReplayState) : Prop := {
  sa_tip : st_best_share_tip (rs_tree s1) = st_best_share_tip (rs_tree s2);
  sa_active : st_active_share_hashes (rs_tree s1) = st_active_share_hashes (rs_tree s2);
  sa_total : st_active_share_score_total (rs_tree s1) = st_active_share_score_total (rs_tree s2);
  sa_scores : st_hashrate_scores (rs_tree s1) = st_hashrate_scores (rs_tree s2);
  sa_registrations : mr_normalized <$> rs_registrations s1 = mr_normalized <$> rs_registrations s2;
  sa_checkpoints : st_sharechain_checkpoints (rs_tree s1) = st_sharechain_checkpoints (rs_tree s2);
  sa_votes : rs_snapshot_votes s1 = rs_snapshot_votes s2;
  sa_schedules : rs_proposed_payout_schedules s1 = rs_proposed_payout_schedules s2;
  sa_requests : rs_withdrawal_requests s1 = rs_withdrawal_requests s2;
  sa_batches : rs_withdrawal_batches s1 = rs_withdrawal_batches s2;
  sa_ledger : rs_claim_ledger s1 = rs_claim_ledger s2
}.

(** C33 (binding). Two replay states with one accounting root agree on everything payouts,
    withdrawals and snapshots are computed from: tip, active work, scores,
    registrations up to letter case, checkpoints, votes, schedules, withdrawals and
    claims; or the two serialised states are a SHA-256 collision. *)
Theorem accounting_root_binds `{Hashing, !HexLaws, !HashLaws, Secp256k1, BitcoinCrate, DateAndCid} s1 s2 :
  state_inv s1 -> state_inv s2 -> accounting_state_root s1 = accounting_state_root s2 ->
  same_accounting s1 s2 \/ collision_among [accounting_input s1; accounting_input s2].
Proof.
  intros Hinv1 Hinv2 Heq%hex_encode_inj.
  destruct (collision_free_or [accounting_input s1; accounting_input s2]) as [Hfree|]; [left|by right].
  apply (Hfree (accounting_input s1) (accounting_input s2)) in Heq; [|set_solver..].
  apply tagged_input_inj, to_vec_inj, to_json_inj in Heq.
  pose proof (f_equal am_snapshot_votes Heq) as Hvotes%votes_determined; [|done..].
  pose proof (f_equal am_registrations Heq) as Hregs. simpl in Hregs. rewrite !collect_map_fmap in Hregs.
  pose proof (f_equal am_withdrawal_requests Heq) as Hreqs. simpl in Hreqs.
  rewrite !collect_map_fmap, !requests_determined in Hreqs by done.
  injection Heq as ???????????. split; try done. by apply btree_set_list_inj.
Qed.

(** ** Concrete runs *)

Abbreviation inv_c := (@state_inv hashing_c secp_c bitcoin_c date_cid_c).

Lemma run_pair {S E A} (m : M S E A) s a : (m s).1 = Ok a -> m s = (Ok a, (m s).2).
Proof. intros <-. apply surjective_pairing. Qed.

(** One applied message of a concrete run. *)
Lemma concrete_message message s :
  inv_c s -> @message_ok hashing_c message -> (apply_c message s).1 = Ok Applied -> inv_c (apply_c message s).2.
Proof.
  intros Hinv Hok Hrun. pose proof (@message_outcome hashing_c hex_laws_c secp_c bitcoin_c date_cid_c _ _ Hinv Hok) as Hout.
  rewrite (run_pair _ _ _ Hrun) in Hout. exact (proj1 Hout).
Qed.

Lemma registered_inv : inv_c registered_state.
Proof.
  apply concrete_message; [apply (@state_inv_default hashing_c secp_c bitcoin_c date_cid_c)|exact I|].
  vm_compute. reflexivity.
Qed.

Lemma accepted_inv : inv_c accepted_state.
Proof.
  eapply (@step_state_inv hashing_c hex_laws_c secp_c bitcoin_c date_cid_c); [exact registered_inv|].
  eapply (@step_accept_template hashing_c secp_c bitcoin_c date_cid_c (sample_template "alice" 7)).
  apply surjective_pairing.
Qed.

Definition working_state : SharechainReplayState := (apply_c (MsgShare sample_root) template_state).2.

Lemma working_inv : inv_c working_state.
Proof.
  apply concrete_message; [apply concrete_message; [exact accepted_inv|exact I|vm_compute; reflexivity]| |].
  - exact (Forall_inv (Forall_inv_tail sample_well_typed)).
  - vm_compute. reflexivity.
Qed.

Definition working_accounts : list ParticipantAccount :=
  map (with_idena_score (fun _ => 1)) (participant_accounts working_state).
Definition working_schedule : PayoutSchedule :=
  unwrap alice_schedule (@build_payout_schedule hashing_c working_accounts 50000 1 100000).

Lemma honest_schedule_accepted_witness :
  @validate_deterministic_payout_schedule hashing_c working_state working_schedule working_accounts 50000 1 100000 = Ok tt.
Proof.
  assert (@build_payout_schedule hashing_c working_accounts 50000 1 100000 = Ok working_schedule) as Hb
    by (vm_compute; reflexivity).
  exact (proj2 (proj2 (@honest_schedule_accepted hashing_c hex_laws_c secp_c bitcoin_c date_cid_c
    working_state (fun _ => 1) 50000 1 100000 working_schedule working_inv reward_fits Hb))).
Defined.

Definition sample_withdrawal : WithdrawalRequest := sample_request "w-1" (repeat_char "c" 64) 30000 1.
Definition requested_state : SharechainReplayState := (apply_c (MsgWithdrawalRequest sample_withdrawal) credited_state).2.
Definition sample_withdrawal_batch : WithdrawalBatch :=
  unwrap {| wb_inputs := 0; wb_fee_rate_sat_vb := 0; wb_estimated_vsize := 0; wb_total_fee_sats := 0; wb_outputs := [] |}
    (@build_withdrawal_batch hashing_c secp_c bitcoin_c [sample_withdrawal] 1 3 0).

Lemma requested_inv : inv_c requested_state.
Proof.
  apply concrete_message; [|exact I|vm_compute; reflexivity].
  eapply (@step_state_inv hashing_c hex_laws_c secp_c bitcoin_c date_cid_c); [exact registered_inv|].
  by eapply step_confirmed, credited_run.
Qed.

Lemma applied_batch_is_reserved_witness : exists s',
  @signer_accepts hashing_c secp_c bitcoin_c s' sample_withdrawal_batch 0.
Proof.
  assert ((@apply_withdrawal_batch hashing_c secp_c bitcoin_c sample_withdrawal_batch requested_state).1 = Ok tt)
    as Hrun by (vm_compute; reflexivity).
  eexists. exact (@applied_batch_is_reserved hashing_c hex_laws_c secp_c bitcoin_c date_cid_c sample_withdrawal_batch
    requested_state _ requested_inv eq_refl (run_pair _ _ _ Hrun)).
Defined.

Lemma accounting_root_binds_witness :
  same_accounting registered_state accepted_state \/
  @collision_among hashing_c [@accounting_input hashing_c registered_state; @accounting_input hashing_c accepted_state].
Proof.
  assert (@accounting_state_root hashing_c registered_state = @accounting_state_root hashing_c accepted_state) as Hr
    by (vm_compute; reflexivity).
  exact (@accounting_root_binds hashing_c hex_laws_c hash_laws_c secp_c bitcoin_c date_cid_c
    registered_state accepted_state registered_inv accepted_inv Hr).
Defined.
