(* ===== verification/GovText.v ===== *)
(** * String searching for the governance checks

    [contains], [ends_with], [find] and control characters of Rust's [str], as the
    label, path and text checks of [attestation.rs], [manifest.rs] and [scope.rs]
    use them. *)
From S2P Require Import Prelude Order Text.
From Stdlib Require Import Ascii.

Local Open Scope N_scope.

Fixpoint contains (needle s : string) : bool :=
  starts_with needle s || match s with EmptyString => false | String _ s' => contains needle s' end.

(** [s.find(needle)]: the offset of the first occurrence. *)
Fixpoint find (needle s : string) : option nat :=
  if starts_with needle s then Some O
  else match s with EmptyString => None | String _ s' => option_map S (find needle s') end.

Definition ends_with (suffix s : string) : bool :=
  Nat.leb (String.length suffix) (String.length s) &&
  String.eqb (drop_bytes (String.length s - String.length suffix) s) suffix.

Definition contains_byte (c : ascii) (s : string) : bool := any_bytes (Ascii.eqb c) s.

(** [s.chars().any(|c| c.is_control() && !allowed(c))] on UTF-8 text: the control characters are
    those below space, delete, and U+0080 to U+009F, which are encoded as C2 80 to C2 9F. *)
Fixpoint has_control (allowed : ascii -> bool) (s : string) : bool :=
  match s with
  | EmptyString => false
  | String c s' =>
      (is_ascii_control c && negb (allowed c))
      || match s' with
         | String d _ => (N_of_ascii c =? 0xC2) && (0x80 <=? N_of_ascii d) && (N_of_ascii d <=? 0x9F)
         | EmptyString => false
         end
      || has_control allowed s'
  end.

Definition str_lt (a b : string) : bool := match str_cmp a b with Lt => true | _ => false end.

(** The [previous] loops: every element is strictly above the one before. *)
Definition strict_sorted_unique (values : list string) : bool := windows2_all str_lt values.

Definition is_safe_byte (c : ascii) : bool :=
  is_ascii_alphanumeric c || Ascii.eqb c "-" || Ascii.eqb c "." || Ascii.eqb c "_".
Definition is_lower_label_byte (c : ascii) : bool :=
  is_ascii_lowercase c || is_ascii_digit c || Ascii.eqb c "-" || Ascii.eqb c "." || Ascii.eqb c "_".
Definition is_lower_hex_byte (c : ascii) : bool := is_ascii_digit c || in_range "a" "f" c.

(** The check of a name whose first byte is alphanumeric. *)
Definition portable_name (maximum : nat) (value : string) : bool :=
  match value with
  | EmptyString => false
  | String c _ => Nat.leb (String.length value) maximum && is_ascii_alphanumeric c && all_bytes is_safe_byte value
  end.

Definition lower_hex_64 (value : string) : bool :=
  Nat.eqb (String.length value) 64 && all_bytes is_lower_hex_byte value.

(** [value.parse::<u128>()] of a canonical decimal string. *)
Definition canonical_decimal (value : string) : bool :=
  negb (is_empty value) && negb (Nat.ltb 1 (String.length value) && starts_with "0" value) &&
  all_bytes is_ascii_digit value.

(** [iter.collect::<BTreeMap<String, _>>()]: a later entry replaces an earlier one. *)
Definition btree_collect {V} (entries : list (string * V)) : gmap string V :=
  foldl (fun m '(k, v) => <[k := v]> m) ∅ entries.

(** [previous.is_some_and(|name| name >= value)] *)
Definition not_after (previous : option string) (value : string) : bool :=
  match previous with Some name => negb (str_lt name value) | None => false end.

(** [option.map(f).transpose()?] *)
Definition try_option {E A B} (f : A -> result E B) (o : option A) : result E (option B) :=
  match o with Some a => b ← f a; Ok (Some b) | None => Ok None end.

(** [value.len()] as a [usize] read by the checks. *)
Definition count {A} (l : list A) : N := N.of_nat (length l).
