(* ===== verification/GovMath.v ===== *)
(** * Governance arithmetic ([crates/governance-core/src]: [types.rs],
      [identity.rs], [math.rs], [gates.rs])

    Parameter sets, vote weights and the five acceptance gates.  The integer
    square root and the ratio in basis points are loops in the source; they are
    proved equal to the exact floor. *)
From S2P Require Import Prelude Text.

Local Open Scope N_scope.

(** ** [types.rs] *)

Inductive RiskClass := Normal | Critical | Consensus | Migration.
Inductive VoteChoice := Yes | No | Abstain.

#[global] Instance RiskClass_eq_dec : EqDecision RiskClass.
Proof. solve_decision. Defined.
#[global] Instance VoteChoice_eq_dec : EqDecision VoteChoice.
Proof. solve_decision. Defined.

Definition is_critical (risk : RiskClass) : bool := match risk with Normal => false | _ => true end.

Record GateParameterSet := {
  turnout_quorum_bps : N;
  yes_threshold_bps : N;
  minimum_yes_identities : N;
  minimum_verified_or_human_yes : N;
  minimum_agent_attestations : N;
  minimum_agent_runtime_groups : N;
  minimum_agent_families : N;
  minimum_agent_owners : N;
  critical_finding_owner_threshold : N;
  minimum_builders : N;
  minimum_builder_platforms : N;
  minimum_data_availability_providers : N
}.

Record StatusBps := { bps_human : N; bps_verified : N; bps_newbie : N }.

Record ProposalBondPolicy := {
  minimum_bond_atoms : string;
  rejected_return_bps : N;
  stale_processing_fee_atoms : string;
  expired_slash_bps : N
}.

Record ObjectiveSlashPolicy := {
  fraudulent_proposal_slash_bps : N;
  fraudulent_reviewer_slash_bps : N;
  fraudulent_builder_slash_bps : N;
  unavailable_data_slash_bps : N;
  fraudulent_actor_stake_slash_bps : N
}.

Record GovernanceParameterSetV1 := {
  gp_schema_version : N;
  idna_atoms_per_unit : string;
  stake_quantum_atoms : string;
  minimum_active_stake_atoms : string;
  status_bps_set : StatusBps;
  flip_prior_reported : N;
  flip_prior_total : N;
  flip_trust_floor_bps : N;
  flip_trust_ceiling_bps : N;
  flip_penalty_scale : N;
  activation_delay_epochs : N;
  unbonding_delay_epochs : N;
  review_period_blocks : N;
  voting_period_blocks : N;
  challenge_period_blocks : N;
  timelock_blocks : N;
  execution_window_blocks : N;
  minimum_identity_metrics_attestations : N;
  minimum_reviewer_bond_atoms : string;
  minimum_builder_bond_atoms : string;
  minimum_data_availability_bond_atoms : string;
  gp_normal : GateParameterSet;
  gp_critical : GateParameterSet;
  proposal_bond_policy : ProposalBondPolicy;
  objective_slash_policy : ObjectiveSlashPolicy
}.

Definition experimental_defaults : GovernanceParameterSetV1 := {|
  gp_schema_version := 1;
  idna_atoms_per_unit := "1000000000000000000";
  stake_quantum_atoms := "1000000000000";
  minimum_active_stake_atoms := "1000000000000000000";
  status_bps_set := {| bps_human := 10000; bps_verified := 8500; bps_newbie := 7000 |};
  flip_prior_reported := 1; flip_prior_total := 20;
  flip_trust_floor_bps := 4000; flip_trust_ceiling_bps := 10000; flip_penalty_scale := 15000;
  activation_delay_epochs := 1; unbonding_delay_epochs := 4;
  review_period_blocks := 40; voting_period_blocks := 120; challenge_period_blocks := 60;
  timelock_blocks := 60; execution_window_blocks := 600;
  minimum_identity_metrics_attestations := 3;
  minimum_reviewer_bond_atoms := "1000000000000000000";
  minimum_builder_bond_atoms := "1000000000000000000";
  minimum_data_availability_bond_atoms := "1000000000000000000";
  gp_normal := {|
    turnout_quorum_bps := 2000; yes_threshold_bps := 6667; minimum_yes_identities := 7;
    minimum_verified_or_human_yes := 3; minimum_agent_attestations := 3;
    minimum_agent_runtime_groups := 2; minimum_agent_families := 2; minimum_agent_owners := 2;
    critical_finding_owner_threshold := 2; minimum_builders := 2; minimum_builder_platforms := 1;
    minimum_data_availability_providers := 2 |};
  gp_critical := {|
    turnout_quorum_bps := 3000; yes_threshold_bps := 7500; minimum_yes_identities := 12;
    minimum_verified_or_human_yes := 5; minimum_agent_attestations := 5;
    minimum_agent_runtime_groups := 3; minimum_agent_families := 3; minimum_agent_owners := 3;
    critical_finding_owner_threshold := 3; minimum_builders := 3; minimum_builder_platforms := 2;
    minimum_data_availability_providers := 3 |};
  proposal_bond_policy := {|
    minimum_bond_atoms := "10000000000000000000"; rejected_return_bps := 9000;
    stale_processing_fee_atoms := "100000000000000000"; expired_slash_bps := 2500 |};
  objective_slash_policy := {|
    fraudulent_proposal_slash_bps := 5000; fraudulent_reviewer_slash_bps := 10000;
    fraudulent_builder_slash_bps := 10000; unavailable_data_slash_bps := 5000;
    fraudulent_actor_stake_slash_bps := 500 |} |}.

(** ** [identity.rs] *)

Inductive IdentityState := Human | Verified | Newbie | Candidate | Invite | Suspended | Zombie | Killed | Undefined.

#[global] Instance IdentityState_eq_dec : EqDecision IdentityState.
Proof. solve_decision. Defined.

Definition status_bps (s : IdentityState) : option N :=
  match s with
  | Human => Some 10000
  | Verified => Some 8500
  | Newbie => Some 7000
  | _ => None
  end.

Definition is_verified_or_human (s : IdentityState) : bool :=
  match s with Human | Verified => true | _ => false end.

Inductive MetricsError := ReportedExceedsFinalized.

Definition PRIOR_REPORTED : N := 1.
Definition PRIOR_TOTAL : N := 20.
Definition FLIP_TRUST_MIN_BPS : N := 4000.
Definition FLIP_TRUST_MAX_BPS : N := 10000.
Definition FLIP_PENALTY_SCALE : N := 15000.

(** On [u64] arguments no intermediate value leaves [u128]. *)
Definition flip_trust_bps (finalized reported : N) : result MetricsError N :=
  if finalized <? reported then Err ReportedExceedsFinalized
  else
    let numerator := (reported + PRIOR_REPORTED) * 10000 in
    let denominator := finalized + PRIOR_TOTAL in
    let reported_rate_bps := numerator / denominator in
    let penalty := FLIP_PENALTY_SCALE * reported_rate_bps / 10000 in
    let raw := 10000 - penalty in
    Ok (as_uint 16 (N.max FLIP_TRUST_MIN_BPS (N.min raw FLIP_TRUST_MAX_BPS))).

(** ** [math.rs] *)

Definition IDNA_ATOMS_PER_UNIT : N := 1000000000000000000.
Definition STAKE_QUANTUM_ATOMS : N := 1000000000000.
Definition BASIS_POINTS_SQUARED : N := 100000000.

Inductive MathError := InvalidBasisPoints | MathOverflow.

Definition div_ceil (a b : N) : N := (a + b - 1) / b.

(** The [while low < high] loop; [fuel] bounds the halvings of [high - low]. *)
Fixpoint sqrt_loop (fuel : nat) (value low high : N) : N :=
  match fuel with
  | O => low
  | S fuel' =>
      if low <? high then
        let middle := low + div_ceil (high - low) 2 in
        if middle <=? value / middle then sqrt_loop fuel' value middle high
        else sqrt_loop fuel' value low (middle - 1)
      else low
  end.

(** [128 - value.leading_zeros()] is the number of significant bits; 65 halvings
    empty an interval of at most [2 ^ 64]. *)
Definition integer_sqrt (value : N) : N :=
  if value <? 2 then value
  else sqrt_loop 65 value 1 (N.shiftl 1 (div_ceil (N.size value) 2)).

Definition stake_score (active_stake_atoms : N) : N := integer_sqrt (active_stake_atoms / STAKE_QUANTUM_ATOMS).

Definition effective_vote_weight (active_stake_atoms identity_status_bps trust_bps : N) : result MathError N :=
  if (10000 <? identity_status_bps) || (10000 <? trust_bps) then Err InvalidBasisPoints
  else
    weighted ← ok_or MathOverflow
      (value ← checked_mul 128 (stake_score active_stake_atoms) identity_status_bps;
       checked_mul 128 value trust_bps);
    Ok (weighted / BASIS_POINTS_SQUARED).

(** ** [gates.rs] *)

Record AcceptanceEvidence := {
  yes_weight : N;
  no_weight : N;
  abstain_weight : N;
  total_registered_weight : N;
  distinct_yes_identities : N;
  verified_or_human_yes_identities : N;
  valid_agent_attestations : N;
  distinct_agent_runtime_groups : N;
  distinct_agent_families : N;
  distinct_agent_owner_identities : N;
  unresolved_critical_findings : N;
  valid_builders : N;
  distinct_builder_platforms : N;
  matching_core_artifact_digests : bool;
  independent_data_availability_providers : N
}.

Record GateResult := { passed : bool; reason : string }.

Record GateResults := {
  pos : GateResult;
  pohw : GateResult;
  poaw : GateResult;
  verification_work : GateResult;
  data_availability : GateResult;
  accepted : bool
}.

Definition gate (p : bool) (r : string) : GateResult := {| passed := p; reason := r |}.

Definition overflow_results : GateResults :=
  let failed := {| passed := false; reason := "arithmetic overflow in acceptance evidence" |} in
  {| pos := failed; pohw := failed; poaw := failed; verification_work := failed; data_availability := failed;
     accepted := false |}.

(** One pass of the [for _ in 0..10_000] loop, on [(remainder, fractional)]. *)
Definition ratio_step (denominator addend : N) (acc : N * N) : N * N :=
  if negb (addend =? 0) && (denominator - addend <=? acc.1)
  then (acc.1 - (denominator - addend), acc.2 + 1)
  else (acc.1 + addend, acc.2).

Definition ratio_bps (numerator denominator : N) : N :=
  if denominator =? 0 then 0
  else
    let numerator := N.min numerator denominator in
    let whole := numerator / denominator in
    let addend := numerator mod denominator in
    let fractional := (N.iter 10000 (ratio_step denominator addend) (0, 0)).2 in
    N.min (as_uint 16 whole * 10000 + fractional) 10000.

Definition print_bool (b : bool) : string := if b then "true" else "false".

Definition evaluate_gates (risk : RiskClass) (normal critical : GateParameterSet) (evidence : AcceptanceEvidence)
    : GateResults :=
  let parameters := if is_critical risk then critical else normal in
  match (value ← checked_add 128 (yes_weight evidence) (no_weight evidence);
         checked_add 128 value (abstain_weight evidence)) with
  | None => overflow_results
  | Some turnout =>
      let turnout_bps := ratio_bps turnout (total_registered_weight evidence) in
      match checked_add 128 (yes_weight evidence) (no_weight evidence) with
      | None => overflow_results
      | Some decisive =>
          let approval_bps := ratio_bps (yes_weight evidence) decisive in
          let pos_passed := (turnout_quorum_bps parameters <=? turnout_bps) &&
                            (yes_threshold_bps parameters <=? approval_bps) in
          let pohw_passed := (minimum_yes_identities parameters <=? distinct_yes_identities evidence) &&
            (minimum_verified_or_human_yes parameters <=? verified_or_human_yes_identities evidence) in
          let poaw_passed :=
            (minimum_agent_attestations parameters <=? valid_agent_attestations evidence) &&
            (minimum_agent_runtime_groups parameters <=? distinct_agent_runtime_groups evidence) &&
            (minimum_agent_families parameters <=? distinct_agent_families evidence) &&
            (minimum_agent_owners parameters <=? distinct_agent_owner_identities evidence) &&
            (unresolved_critical_findings evidence <? critical_finding_owner_threshold parameters) in
          let build_passed := (minimum_builders parameters <=? valid_builders evidence) &&
            (minimum_builder_platforms parameters <=? distinct_builder_platforms evidence) &&
            matching_core_artifact_digests evidence in
          let availability_passed := minimum_data_availability_providers parameters <=?
                                     independent_data_availability_providers evidence in
          {| pos := gate pos_passed
               ("turnout=" +:+ pretty turnout_bps +:+ "bps approval=" +:+ pretty approval_bps +:+ "bps");
             pohw := gate pohw_passed
               ("yes-identities=" +:+ pretty (distinct_yes_identities evidence) +:+
                " verified-or-human=" +:+ pretty (verified_or_human_yes_identities evidence));
             poaw := gate poaw_passed
               ("attestations=" +:+ pretty (valid_agent_attestations evidence) +:+
                " runtimes=" +:+ pretty (distinct_agent_runtime_groups evidence) +:+
                " families=" +:+ pretty (distinct_agent_families evidence) +:+
                " owners=" +:+ pretty (distinct_agent_owner_identities evidence) +:+
                " unresolved-critical=" +:+ pretty (unresolved_critical_findings evidence));
             verification_work := gate build_passed
               ("builders=" +:+ pretty (valid_builders evidence) +:+
                " platforms=" +:+ pretty (distinct_builder_platforms evidence) +:+
                " matching=" +:+ print_bool (matching_core_artifact_digests evidence));
             data_availability := gate availability_passed
               ("providers=" +:+ pretty (independent_data_availability_providers evidence));
             accepted := pos_passed && pohw_passed && poaw_passed && build_passed && availability_passed |}
      end
  end.

(** ** The loops compute the exact floor *)

Lemma div_ceil_2 a : 2 * div_ceil a 2 = a \/ 2 * div_ceil a 2 = a + 1.
Proof.
  unfold div_ceil. replace (a + 2 - 1) with (a + 1) by lia.
  pose proof (N.div_mod (a + 1) 2 ltac:(done)) as Hd. pose proof (N.mod_lt (a + 1) 2 ltac:(done)) as Hr.
  revert Hd Hr. generalize ((a + 1) / 2) ((a + 1) mod 2). intros q r Hd Hr.
  assert (r = 0 \/ r = 1) as [-> | ->] by lia; lia.
Qed.

Lemma sqrt_loop_spec fuel : forall value low high,
  1 <= low -> low <= high -> low * low <= value -> value < (high + 1) * (high + 1) ->
  high - low < 2 ^ N.of_nat fuel -> sqrt_loop fuel value low high = N.sqrt value.
Proof.
  induction fuel as [|fuel IH]; intros value low high Hlow Hle Hlo Hhi Hd.
  - simpl in Hd. assert (high = low) as -> by lia. simpl. symmetry. apply N.sqrt_unique. split; [done|].
    by rewrite <-N.add_1_r.
  - rewrite Nat2N.inj_succ, N.pow_succ_r' in Hd. cbn [sqrt_loop].
    destruct (N.ltb_spec low high) as [Hlt|Hge].
    + pose proof (div_ceil_2 (high - low)) as Hc. set (middle := low + div_ceil (high - low) 2) in *.
      destruct (N.leb_spec middle (value / middle)) as [Hm|Hm].
      * apply IH; try lia. transitivity (middle * (value / middle)); [nia|]. apply N.Div0.mul_div_le.
      * apply IH; try lia. replace (middle - 1 + 1) with middle by lia.
        pose proof (N.div_mod value middle ltac:(lia)). pose proof (N.mod_lt value middle ltac:(lia)). nia.
    + assert (high = low) as -> by lia. symmetry. apply N.sqrt_unique. split; [done|]. by rewrite <-N.add_1_r.
Qed.

Lemma integer_sqrt_spec value : fits 128 value -> integer_sqrt value = N.sqrt value.
Proof.
  intros Hv. unfold integer_sqrt. destruct (N.ltb_spec value 2) as [Hs|Hs].
  { by assert (value = 0 \/ value = 1) as [->| ->] by lia. }
  rewrite N.shiftl_1_l. pose proof (N.size_gt value) as Hgt. pose proof (div_ceil_2 (N.size value)) as Hc.
  assert (N.size value <= 128) as Hsz.
  { rewrite N.size_log2 by lia. apply N.le_succ_l, N.log2_lt_pow2; [lia|done]. }
  assert (1 <= 2 ^ div_ceil (N.size value) 2) as Hpos
    by (pose proof (N.pow_nonzero 2 (div_ceil (N.size value) 2)); lia).
  apply sqrt_loop_spec; try lia.
  - assert (2 ^ N.size value <= 2 ^ (2 * div_ceil (N.size value) 2)) as Hp by (apply N.pow_le_mono_r; lia).
    rewrite N.mul_comm, N.pow_mul_r in Hp. rewrite N.pow_2_r in Hp. nia.
  - assert (2 ^ div_ceil (N.size value) 2 <= 2 ^ 64) as Hp by (apply N.pow_le_mono_r; lia).
    change (2 ^ N.of_nat 65) with (2 * 2 ^ 64). lia.
Qed.

Lemma ratio_step_iter denominator addend k :
  addend < denominator ->
  let r := N.iter k (ratio_step denominator addend) (0, 0) in
  r.1 < denominator /\ k * addend = r.2 * denominator + r.1.
Proof.
  intros Ha. induction k as [|k IH] using N.peano_ind; [simpl; lia|].
  rewrite N.iter_succ. destruct (N.iter k _ _) as [r f]. simpl in IH |- *. unfold ratio_step. simpl.
  destruct (N.eqb_spec addend 0); simpl; [lia|]. destruct (N.leb_spec (denominator - addend) r); simpl; nia.
Qed.

Lemma ratio_bps_spec numerator denominator :
  0 < denominator -> ratio_bps numerator denominator = N.min numerator denominator * 10000 / denominator.
Proof.
  intros Hd. unfold ratio_bps. destruct (N.eqb_spec denominator 0) as [->|_]; [lia|].
  destruct (N.le_gt_cases denominator numerator) as [Hle|Hgt].
  - rewrite (N.min_r numerator) by done. rewrite N.div_same, N.Div0.mod_same by lia.
    destruct (ratio_step_iter denominator 0 10000 Hd) as [Hr Heq].
    destruct (N.iter _ _ _) as [r f]. simpl in *. assert (f = 0) as -> by nia.
    rewrite (N.mul_comm denominator), N.div_mul by lia. reflexivity.
  - rewrite (N.min_l numerator) by lia. rewrite N.div_small, N.mod_small by done.
    destruct (ratio_step_iter denominator numerator 10000 Hgt) as [Hr Heq].
    destruct (N.iter _ _ _) as [r f]. simpl in *. change (as_uint 16 0) with 0. rewrite N.mul_0_l, N.add_0_l.
    assert (f = numerator * 10000 / denominator) as <-.
    { apply (N.div_unique _ _ _ r); lia. }
    rewrite N.min_l; [done|nia].
Qed.

Lemma ratio_bps_le quorum numerator denominator :
  0 < quorum ->
  quorum <= ratio_bps numerator denominator <->
  0 < denominator /\ quorum * denominator <= 10000 * N.min numerator denominator.
Proof.
  intros Hq. destruct (N.eq_0_gt_0_cases denominator) as [->|Hd].
  { unfold ratio_bps. simpl. lia. }
  rewrite ratio_bps_spec by done. split.
  - intros Hle. split; [done|].
    pose proof (N.Div0.mul_div_le (N.min numerator denominator * 10000) denominator). nia.
  - intros [_ Hle]. apply N.div_le_lower_bound; lia.
Qed.

(** ** Vote weights *)

Lemma sqrt_pow_bound n k : n < 2 ^ (2 * k) -> N.sqrt n < 2 ^ k.
Proof.
  intros Hn. destruct (N.lt_ge_cases (N.sqrt n) (2 ^ k)) as [?|Hge]; [done|].
  destruct (N.sqrt_spec n ltac:(lia)) as [Hlo _]. rewrite N.mul_comm, N.pow_mul_r, N.pow_2_r in Hn. nia.
Qed.

Lemma stake_score_spec atoms :
  fits 128 atoms ->
  stake_score atoms = N.sqrt (atoms / STAKE_QUANTUM_ATOMS) /\ stake_score atoms < 2 ^ 64.
Proof.
  intros Ha. assert (fits 128 (atoms / STAKE_QUANTUM_ATOMS)) as Hf.
  { eapply fits_mono; [|done]. apply N.Div0.div_le_upper_bound. unfold STAKE_QUANTUM_ATOMS. lia. }
  unfold stake_score. rewrite integer_sqrt_spec by done. split; [done|]. by apply (sqrt_pow_bound _ 64).
Qed.

Lemma vote_weight_Ok atoms status trust w :
  fits 128 atoms -> effective_vote_weight atoms status trust = Ok w ->
  status <= 10000 /\ trust <= 10000 /\
  w = N.sqrt (atoms / STAKE_QUANTUM_ATOMS) * status * trust / BASIS_POINTS_SQUARED.
Proof.
  intros Ha. unfold effective_vote_weight. case_match eqn:Hb; [done|]. bool_inv.
  intros Hw. apply bind_Ok in Hw as (v & Hv%ok_or_Ok & [= <-]).
  destruct (checked_mul 128 (stake_score atoms) status) as [x|] eqn:Hx; [|done]. simpl in Hv.
  apply checked_mul_Some in Hx as [-> _]. apply checked_mul_Some in Hv as [-> _].
  destruct (stake_score_spec atoms Ha) as [-> _]. split_and!; [lia..|done].
Qed.

(** (bounds). The vote weight of every [u128] stake is defined: it is the exact
    floor of the square root of the staked quanta scaled by the two multipliers,
    no product overflows, and it grows with the stake and with each multiplier. *)
Theorem vote_weight_exact atoms status trust :
  fits 128 atoms -> status <= 10000 -> trust <= 10000 ->
  exists w, effective_vote_weight atoms status trust = Ok w /\
    w = N.sqrt (atoms / STAKE_QUANTUM_ATOMS) * status * trust / BASIS_POINTS_SQUARED /\
    w * w * STAKE_QUANTUM_ATOMS <= atoms /\
    forall atoms' status' trust' w',
      fits 128 atoms' -> atoms <= atoms' -> status <= status' -> trust <= trust' ->
      effective_vote_weight atoms' status' trust' = Ok w' -> w <= w'.
Proof.
  intros Ha Hs Ht. destruct (stake_score_spec atoms Ha) as [Heq Hlt].
  set (root := N.sqrt (atoms / STAKE_QUANTUM_ATOMS)) in *.
  exists (root * status * trust / BASIS_POINTS_SQUARED). split_and!; [|done|..].
  - unfold effective_vote_weight, checked_mul. rewrite Heq.
    rewrite (proj2 (N.ltb_ge _ _) Hs), (proj2 (N.ltb_ge _ _) Ht). cbn [orb].
    rewrite Heq in Hlt. assert (root * status <= 2 ^ 64 * 10000) as H1 by (apply N.mul_le_mono; lia).
    assert (root * status * trust <= 2 ^ 64 * 10000 * 10000) as H2 by (by apply N.mul_le_mono).
    rewrite (proj2 (N.ltb_lt (root * status) (2 ^ 128))) by (eapply N.le_lt_trans; [exact H1|reflexivity]).
    cbn [mbind option_bind ok_or].
    by rewrite (proj2 (N.ltb_lt (root * status * trust) (2 ^ 128))) by (eapply N.le_lt_trans; [exact H2|reflexivity]).
  - assert (root * status * trust / BASIS_POINTS_SQUARED <= root) as Hw.
    { apply N.Div0.div_le_upper_bound. unfold BASIS_POINTS_SQUARED.
      transitivity (root * 10000 * 10000); [|lia]. apply N.mul_le_mono; [apply N.mul_le_mono|]; done. }
    assert (root * root <= atoms / STAKE_QUANTUM_ATOMS) as Hr by (apply N.sqrt_spec, N.le_0_l).
    pose proof (N.Div0.mul_div_le atoms STAKE_QUANTUM_ATOMS).
    transitivity (root * root * STAKE_QUANTUM_ATOMS); [|nia]. apply N.mul_le_mono_r, N.mul_le_mono; done.
  - intros atoms' status' trust' w' Ha' Hle Hs' Ht' Hw'. apply vote_weight_Ok in Hw' as (_ & _ & ->); [|done].
    apply N.Div0.div_le_mono. apply N.mul_le_mono; [|done]. apply N.mul_le_mono; [|done].
    by apply N.sqrt_le_mono, N.Div0.div_le_mono.
Qed.

Lemma vote_weight_exact_witness :
  fits 128 IDNA_ATOMS_PER_UNIT /\ exists w, effective_vote_weight IDNA_ATOMS_PER_UNIT 8500 10000 = Ok w /\ w = 850.
Proof.
  split; [reflexivity|].
  destruct (vote_weight_exact IDNA_ATOMS_PER_UNIT 8500 10000) as (w & Hw & Heq & _); [reflexivity|lia|lia|].
  exists w. split; [exact Hw|]. rewrite Heq. reflexivity.
Defined.

(** ** The gates *)

(** The thresholds as exact inequalities. *)
Definition gates_met (p : GateParameterSet) (e : AcceptanceEvidence) : Prop :=
  let decisive := yes_weight e + no_weight e in
  let turnout := decisive + abstain_weight e in
  turnout < 2 ^ 128 /\
  0 < total_registered_weight e /\
  turnout_quorum_bps p * total_registered_weight e <= 10000 * N.min turnout (total_registered_weight e) /\
  0 < decisive /\ yes_threshold_bps p * decisive <= 10000 * yes_weight e /\
  minimum_yes_identities p <= distinct_yes_identities e /\
  minimum_verified_or_human_yes p <= verified_or_human_yes_identities e /\
  minimum_agent_attestations p <= valid_agent_attestations e /\
  minimum_agent_runtime_groups p <= distinct_agent_runtime_groups e /\
  minimum_agent_families p <= distinct_agent_families e /\
  minimum_agent_owners p <= distinct_agent_owner_identities e /\
  unresolved_critical_findings e < critical_finding_owner_threshold p /\
  minimum_builders p <= valid_builders e /\
  minimum_builder_platforms p <= distinct_builder_platforms e /\
  matching_core_artifact_digests e = true /\
  minimum_data_availability_providers p <= independent_data_availability_providers e.

(** C26 (functional). A proposal is accepted exactly when all five gates are met: turnout
    and approval reach their quorums without rounding in the proposal's favour, and
    the identity, review, build and availability counts reach the minimums of the
    gate set its risk class selects. *)
Theorem gates_accept_iff risk normal critical e :
  let p := if is_critical risk then critical else normal in
  0 < turnout_quorum_bps p -> 0 < yes_threshold_bps p ->
  accepted (evaluate_gates risk normal critical e) = true <-> gates_met p e.
Proof.
  intros p Hq Hy. unfold evaluate_gates, gates_met, checked_add. fold p.
  destruct (N.ltb_spec (yes_weight e + no_weight e) (2 ^ 128)) as [Hd|Hd]; cbn [mbind option_bind];
    [|split; [done|]; lia].
  destruct (N.ltb_spec (yes_weight e + no_weight e + abstain_weight e) (2 ^ 128)) as [Ht|Ht]; [|split; [done|]; lia].
  cbn [accepted]. rewrite !andb_true_iff, !N.leb_le, N.ltb_lt, !ratio_bps_le by done.
  rewrite (N.min_l (yes_weight e)) by lia. tauto.
Qed.

Lemma gates_accept_iff_witness :
  let e := {| yes_weight := 60; no_weight := 20; abstain_weight := 0; total_registered_weight := 100;
              distinct_yes_identities := 12; verified_or_human_yes_identities := 5; valid_agent_attestations := 5;
              distinct_agent_runtime_groups := 3; distinct_agent_families := 3;
              distinct_agent_owner_identities := 3; unresolved_critical_findings := 2; valid_builders := 3;
              distinct_builder_platforms := 2; matching_core_artifact_digests := true;
              independent_data_availability_providers := 3 |} in
  gates_met (gp_critical experimental_defaults) e.
Proof.
  intros e. apply (gates_accept_iff Consensus (gp_normal experimental_defaults) (gp_critical experimental_defaults) e);
    [reflexivity..|]. vm_compute. reflexivity.
Defined.
