(* ===== verification/GovSource.v ===== *)
(** * Content-addressed packages ([crates/governance-core/src/source.rs])

    Every governance object travels as a CARv1 archive whose only block is the
    canonical DAG-CBOR of the object, named by a CID.  Here are the archive
    format, packaging and verification, and the source-tree manifests and
    patches.  The [cid] crate and DAG-CBOR ([serde_ipld_dagcbor] with the derived
    serialisers) are parameters.

    Verification accepts exactly what packaging produces: there is one archive
    per object.  Collecting files from a directory, checking out and the
    secret scan are file-system code and not modelled. *)
From S2P Require Import Prelude Order Text Crates Concrete.
From Stdlib Require Import Strings.Byte.

Local Open Scope N_scope.

(** ** The crates *)

(** [cid::Cid]: parsing and printing, the fields, [Cid::new_v1] on a SHA2-256
    multihash, the binary form, and [Cid::read_bytes] with what the reader leaves. *)
Class CidCrate := {
  CID : Type;
  CID_eq_dec :: EqDecision CID;
  cid_from_str : string -> option CID;
  cid_text : CID -> string;
  cid_v1 : CID -> bool;
  cid_codec : CID -> N;
  cid_multihash : CID -> N;
  cid_digest : CID -> bytes;
  cid_new_v1 : N -> bytes -> CID;
  cid_to_bytes : CID -> bytes;
  cid_read_bytes : bytes -> result string (CID * bytes)
}.

(** [serde_ipld_dagcbor::to_vec] and [from_slice] at a type with its derived
    [Serialize] and [Deserialize]; errors are their [to_string()]. *)
Class DagCbor (T : Type) := {
  dag_cbor_to_vec : T -> result string bytes;
  dag_cbor_from_slice : bytes -> result string T
}.

(** Documented behaviour: a CIDv1 on SHA2-256 is its codec and digest, CIDs print
    and encode without loss, and readers accept only the canonical bytes (the
    varints of a CID are minimal). *)
Class CidLaws `{CidCrate} : Prop := {
  cid_codec_fits c : fits 64 (cid_codec c);
  cid_new_fields codec digest : fits 64 codec -> length digest = 32%nat ->
    cid_v1 (cid_new_v1 codec digest) = true /\ cid_codec (cid_new_v1 codec digest) = codec /\
    cid_multihash (cid_new_v1 codec digest) = 0x12 /\ cid_digest (cid_new_v1 codec digest) = digest;
  cid_determined c : cid_v1 c = true -> cid_multihash c = 0x12 -> length (cid_digest c) = 32%nat ->
    c = cid_new_v1 (cid_codec c) (cid_digest c);
  cid_from_text c : cid_from_str (cid_text c) = Some c;
  cid_read_iff b c rest : cid_read_bytes b = Ok (c, rest) <-> b = cid_to_bytes c ++ rest
}.

(** Decoding inverts encoding. *)
Class DagCborLaws (T : Type) `{DagCbor T} : Prop :=
  dag_cbor_from_to v b : dag_cbor_to_vec v = Ok b -> dag_cbor_from_slice b = Ok v.

(** ** Constants and errors *)

Definition RAW_CODEC : N := 0x55.
Definition DAG_CBOR_CODEC : N := 0x71.
Definition SHA2_256_CODE : N := 0x12.
Definition MAX_CAR_SECTION_BYTES : N := 512 * 1024 * 1024.
Definition MAX_SOURCE_FILES : N := 100000.
Definition MAX_CAR_BLOCKS : N := MAX_SOURCE_FILES + 1.

(** [Io] does not arise here; [SourceDiverged] stands for a loop that runs past
    its bound and is shown not to arise. *)
Inductive SourceError :=
| InvalidRoot (m : string)
| InvalidRepository (m : string)
| UnsafePath (m : string)
| UnsafeFileType (m : string)
| ForbiddenPath (m : string)
| SecretContent (path m : string)
| FileTooLarge (m : string)
| TreeTooLarge
| InvalidSourceManifest (m : string)
| InvalidCar (m : string)
| CidMismatch (m : string)
| MissingBlock (m : string)
| UnsafeOutput (m : string)
| Cbor (m : string)
| SourceDiverged.

Record SourceFileEntryV1 := {
  sf_path : string; sf_mode : N; sf_size : N; sf_cid : string; sf_sha256 : string }.

Record SourceTreeManifestV1 := {
  st_schema_version : N; st_kind : string; st_repository : string; st_files : list SourceFileEntryV1 }.

Record SourcePatchV1 := {
  pt_schema_version : N; pt_kind : string; pt_repository : string; pt_base_source_cid : string;
  pt_candidate_source_cid : string; pt_removed_paths : list string;
  pt_upserted_files : list SourceFileEntryV1 }.

#[global] Instance SourceFileEntryV1_eq_dec : EqDecision SourceFileEntryV1.
Proof. solve_decision. Defined.

Section crates.
Context `{CidCrate}.

Record CanonicalSourceFileEntryV1 := {
  csf_path : string; csf_mode : N; csf_size : N; csf_cid : CID; csf_sha256 : string }.

Record CanonicalSourceTreeManifestV1 := {
  cst_schema_version : N; cst_kind : string; cst_repository : string;
  cst_files : list CanonicalSourceFileEntryV1 }.

Record CanonicalSourcePatchV1 := {
  cpt_schema_version : N; cpt_kind : string; cpt_repository : string; cpt_base_source_cid : CID;
  cpt_candidate_source_cid : CID; cpt_removed_paths : list string;
  cpt_upserted_files : list CanonicalSourceFileEntryV1 }.

Record SourcePackage := {
  sp_root_cid : CID; sp_source_tree_sha256 : string; sp_manifest : SourceTreeManifestV1;
  sp_dag_cbor_bytes : bytes; sp_car_bytes : bytes }.

Record SourcePatchPackage := {
  pp_patch_cid : CID; pp_patch_sha256 : string; pp_patch : SourcePatchV1;
  pp_dag_cbor_bytes : bytes; pp_car_bytes : bytes }.

Record VerifiedSourcePatch := {
  vp_patch_cid : CID; vp_patch_sha256 : string; vp_patch : SourcePatchV1; vp_dag_cbor_bytes : bytes }.

Record VerifiedSourcePackage := {
  vs_root_cid : CID; vs_source_tree_sha256 : string; vs_manifest : SourceTreeManifestV1;
  vs_dag_cbor_bytes : bytes; vs_blocks : gmap string bytes }.

Record DagCborPackage (T : Type) := {
  root_cid : CID;
  root_sha256 : string;
  package_value : T;
  dag_cbor_bytes : bytes;
  car_bytes : bytes
}.

Record CarHeader := { roots : list CID; car_version : N }.

Record ParsedCar := { car_root : CID; car_order : list CID; car_blocks : gmap string bytes }.

End crates.
Arguments root_cid {_ T}.
Arguments root_sha256 {_ T}.
Arguments package_value {_ T}.
Arguments dag_cbor_bytes {_ T}.
Arguments car_bytes {_ T}.

(** ** Variable-length integers *)

Definition u8 (n : N) : byte := default x00 (Byte.of_N (n mod 256)).

(** The [while value >= 0x80] loop; ten steps shift a [u64] to zero. *)
Fixpoint uvarint_loop (fuel : nat) (value : N) : bytes :=
  match fuel with
  | O => []
  | S fuel' =>
      if 0x80 <=? value then u8 (N.lor value 0x80) :: uvarint_loop fuel' (N.shiftr value 7)
      else [u8 value]
  end.

Definition write_uvarint (value : N) : bytes := uvarint_loop 10 value.

(** The [for (index, shift) in (0..70).step_by(7).enumerate()] loop: [steps] passes
    are left and [shift = 7 * index]. *)
Fixpoint read_uvarint_loop (steps : nat) (index acc : N) (cursor : bytes) : result SourceError (N * bytes) :=
  match steps with
  | O => Err (InvalidCar "varint overflow")
  | S steps' =>
      match cursor with
      | [] => Err (InvalidCar "truncated varint")
      | byte :: cursor' =>
          let b := Byte.to_N byte in
          if (7 * index =? 63) && (1 <? b) then Err (InvalidCar "varint overflow")
          else
            let acc := N.lor acc (N.shiftl (N.land b 0x7f) (7 * index)) in
            if N.land b 0x80 =? 0 then
              if (0 <? index) && (acc <? N.shiftl 1 (index * 7))
              then Err (InvalidCar "non-minimal varint encoding")
              else Ok (acc, cursor')
            else read_uvarint_loop steps' (index + 1) acc cursor'
      end
  end.

Definition read_uvarint (cursor : bytes) : result SourceError (N * bytes) := read_uvarint_loop 10 0 0 cursor.

Definition read_exact_section (cursor : bytes) (length : N) : result SourceError (bytes * bytes) :=
  if N.of_nat (List.length cursor) <? length then Err (InvalidCar "truncated CAR section")
  else Ok (take (N.to_nat length) cursor, drop (N.to_nat length) cursor).

(** ** CIDs, archives and packages *)

Section archive.
Context `{Hashing, CidCrate, DagCbor CarHeader}.

Definition canonical_dag_cbor {T} `{DagCbor T} (value : T) : result SourceError bytes :=
  map_err Cbor (dag_cbor_to_vec value).

Definition from_dag_cbor {T} `{DagCbor T} (b : bytes) : result SourceError T := map_err Cbor (dag_cbor_from_slice b).

Definition cid_for (codec : N) (b : bytes) : CID := cid_new_v1 codec (sha256 b).

Definition sha256_hex (b : bytes) : string := hex_encode (sha256 b).

Definition parse_cid (value : string) : result SourceError CID :=
  cid ← ok_or (InvalidSourceManifest ("invalid CID " +:+ value)) (cid_from_str value);
  if negb (String.eqb (cid_text cid) value)
  then Err (InvalidSourceManifest ("CID must use canonical CIDv1 base32 display: " +:+ value))
  else Ok cid.

Definition validate_cid_profile (cid : CID) (codec : N) : result SourceError unit :=
  if negb (cid_v1 cid) || negb (cid_codec cid =? codec) || negb (cid_multihash cid =? SHA2_256_CODE)
     || negb (Nat.eqb (length (cid_digest cid)) 32)
  then Err (InvalidSourceManifest ("CID does not use CIDv1/0x" +:+ lower_hex codec +:+ "/SHA2-256: " +:+ cid_text cid))
  else Ok tt.

Definition verify_block_cid (cid : CID) (b : bytes) : result SourceError unit :=
  _ ← validate_cid_profile cid (cid_codec cid);
  if bool_decide (cid_for (cid_codec cid) b <> cid) then Err (CidMismatch (cid_text cid)) else Ok tt.

Definition write_car_block (cid : CID) (b : bytes) : bytes :=
  let cid_bytes := cid_to_bytes cid in
  write_uvarint (N.of_nat (length cid_bytes + length b)) ++ cid_bytes ++ b.

Definition write_car_header (root : CID) : result SourceError bytes :=
  header ← canonical_dag_cbor {| roots := [root]; car_version := 1 |};
  Ok (write_uvarint (N.of_nat (length header)) ++ header).

Definition encode_single_block_car (root : CID) (root_bytes : bytes) : result SourceError bytes :=
  output ← write_car_header root;
  Ok (output ++ write_car_block root root_bytes).

(** One pass of the block loop of [parse_car]: the state is the blocks read so far. *)
Definition read_car_block (order : list CID) (blocks : gmap string bytes) (cursor : bytes)
    : result SourceError (list CID * gmap string bytes * bytes) :=
  if MAX_CAR_BLOCKS <=? N.of_nat (length order)
  then Err (InvalidCar ("CAR exceeds the " +:+ pretty MAX_CAR_BLOCKS +:+ "-block limit"))
  else
    '(section_len, cursor) ← read_uvarint cursor;
    if (section_len =? 0) || (MAX_CAR_SECTION_BYTES <? section_len) then Err (InvalidCar "invalid block length")
    else
      '(section, cursor) ← read_exact_section cursor section_len;
      '(cid, data) ← map_err (fun err => InvalidCar ("invalid block CID: " +:+ err)) (cid_read_bytes section);
      _ ← verify_block_cid cid data;
      let key := cid_text cid in
      if bool_decide (is_Some (blocks !! key)) then Err (InvalidCar ("duplicate block " +:+ key))
      else Ok (order ++ [cid], <[key := data]> blocks, cursor).

(** The [while] loop; every pass consumes a byte, so the length of the archive is enough. *)
Fixpoint read_car_blocks (fuel : nat) (order : list CID) (blocks : gmap string bytes) (cursor : bytes)
    : result SourceError (list CID * gmap string bytes) :=
  match cursor with
  | [] => Ok (order, blocks)
  | _ =>
      match fuel with
      | O => Err SourceDiverged
      | S fuel' =>
          '(order, blocks, cursor) ← read_car_block order blocks cursor;
          read_car_blocks fuel' order blocks cursor
      end
  end.

Definition read_car_header (cursor : bytes) : result SourceError (CID * bytes) :=
  '(header_len, cursor) ← read_uvarint cursor;
  if (header_len =? 0) || (MAX_CAR_SECTION_BYTES <? header_len) then Err (InvalidCar "invalid header length")
  else
    '(header_bytes, cursor) ← read_exact_section cursor header_len;
    header ← from_dag_cbor (T := CarHeader) header_bytes;
    canonical ← canonical_dag_cbor header;
    if bool_decide (canonical <> header_bytes) then Err (InvalidCar "header is not canonical DAG-CBOR")
    else
      match roots header with
      | [root] =>
          if negb (car_version header =? 1) then Err (InvalidCar "CARv1 requires exactly one source root")
          else Ok (root, cursor)
      | _ => Err (InvalidCar "CARv1 requires exactly one source root")
      end.

Definition parse_car (b : bytes) : result SourceError ParsedCar :=
  '(root, cursor) ← read_car_header b;
  '(order, blocks) ← read_car_blocks (length b) [] ∅ cursor;
  if bool_decide (head order <> Some root) then Err (InvalidCar "root block must be the first block")
  else Ok {| car_root := root; car_order := order; car_blocks := blocks |}.

Section package.
Context {T : Type} `{DagCbor T}.

Definition package_dag_cbor (value : T) : result SourceError (DagCborPackage T) :=
  dag_cbor_bytes ← canonical_dag_cbor value;
  let root_cid := cid_for DAG_CBOR_CODEC dag_cbor_bytes in
  car_bytes ← encode_single_block_car root_cid dag_cbor_bytes;
  Ok {| root_cid := root_cid; root_sha256 := sha256_hex dag_cbor_bytes; package_value := value;
        dag_cbor_bytes := dag_cbor_bytes; car_bytes := car_bytes |}.

Definition verify_dag_cbor_car (b : bytes) : result SourceError (DagCborPackage T) :=
  parsed ← parse_car b;
  _ ← validate_cid_profile (car_root parsed) DAG_CBOR_CODEC;
  if bool_decide (car_order parsed <> [car_root parsed]) || negb (Nat.eqb (size (car_blocks parsed)) 1)
  then Err (InvalidCar "canonical object CAR must contain exactly its root block")
  else
    root_bytes ← ok_or (MissingBlock (cid_text (car_root parsed)))
                   (car_blocks parsed !! cid_text (car_root parsed));
    value ← from_dag_cbor (T := T) root_bytes;
    canonical ← canonical_dag_cbor value;
    if bool_decide (canonical <> root_bytes) then Err (InvalidCar "root object is not canonical DAG-CBOR")
    else Ok {| root_cid := car_root parsed; root_sha256 := sha256_hex root_bytes; package_value := value;
               dag_cbor_bytes := root_bytes; car_bytes := b |}.
End package.

Definition verify_car_integrity (b : bytes) : result SourceError CID :=
  parsed ← parse_car b;
  Ok (car_root parsed).
End archive.

(** ** Source manifests and patches *)

Section manifests.
Context `{CidCrate, DagCbor CanonicalSourceTreeManifestV1, DagCbor CanonicalSourcePatchV1}.

Definition canonical_file_entry (entry : SourceFileEntryV1) : result SourceError CanonicalSourceFileEntryV1 :=
  cid ← parse_cid (sf_cid entry);
  Ok {| csf_path := sf_path entry; csf_mode := sf_mode entry; csf_size := sf_size entry;
        csf_cid := cid; csf_sha256 := sf_sha256 entry |}.

Definition human_file_entry (entry : CanonicalSourceFileEntryV1) : SourceFileEntryV1 :=
  {| sf_path := csf_path entry; sf_mode := csf_mode entry; sf_size := csf_size entry;
     sf_cid := cid_text (csf_cid entry); sf_sha256 := csf_sha256 entry |}.

Definition encode_source_manifest (manifest : SourceTreeManifestV1) : result SourceError bytes :=
  files ← try_map canonical_file_entry (st_files manifest);
  canonical_dag_cbor {|
    cst_schema_version := st_schema_version manifest; cst_kind := st_kind manifest;
    cst_repository := st_repository manifest; cst_files := files |}.

Definition decode_source_manifest (b : bytes) : result SourceError SourceTreeManifestV1 :=
  canonical ← from_dag_cbor (T := CanonicalSourceTreeManifestV1) b;
  Ok {| st_schema_version := cst_schema_version canonical; st_kind := cst_kind canonical;
        st_repository := cst_repository canonical; st_files := map human_file_entry (cst_files canonical) |}.

Definition encode_source_patch (patch : SourcePatchV1) : result SourceError bytes :=
  base ← parse_cid (pt_base_source_cid patch);
  candidate ← parse_cid (pt_candidate_source_cid patch);
  files ← try_map canonical_file_entry (pt_upserted_files patch);
  canonical_dag_cbor {|
    cpt_schema_version := pt_schema_version patch; cpt_kind := pt_kind patch;
    cpt_repository := pt_repository patch; cpt_base_source_cid := base;
    cpt_candidate_source_cid := candidate; cpt_removed_paths := pt_removed_paths patch;
    cpt_upserted_files := files |}.

Definition decode_source_patch (b : bytes) : result SourceError SourcePatchV1 :=
  canonical ← from_dag_cbor (T := CanonicalSourcePatchV1) b;
  Ok {| pt_schema_version := cpt_schema_version canonical; pt_kind := cpt_kind canonical;
        pt_repository := cpt_repository canonical;
        pt_base_source_cid := cid_text (cpt_base_source_cid canonical);
        pt_candidate_source_cid := cid_text (cpt_candidate_source_cid canonical);
        pt_removed_paths := cpt_removed_paths canonical;
        pt_upserted_files := map human_file_entry (cpt_upserted_files canonical) |}.
End manifests.

(** ** Variable-length integers are canonical *)

Lemma lor_shift a b n : a < 2 ^ n -> N.lor a (N.shiftl b n) = a + b * 2 ^ n.
Proof.
  intros Ha. assert (N.land a (N.shiftl b n) = 0) as Hd.
  { apply N.bits_inj_0. intros i. rewrite N.land_spec. destruct (N.lt_ge_cases i n) as [?|?].
    - rewrite N.shiftl_spec_low by done. apply andb_false_r.
    - destruct (N.eq_dec a 0) as [->|]; [by rewrite N.bits_0|].
      rewrite N.bits_above_log2; [done|]. apply N.log2_lt_pow2; [lia|].
      eapply N.lt_le_trans; [exact Ha|]. apply N.pow_le_mono_r; lia. }
  rewrite <-N.lxor_lor, <-N.add_nocarry_lxor by done. by rewrite N.shiftl_mul_pow2.
Qed.

Lemma u8_to_N n : Byte.to_N (u8 n) = n mod 256.
Proof.
  unfold u8. destruct (Byte.of_N (n mod 256)) as [b|] eqn:Hb; simpl; [by apply Byte.to_of_N|].
  apply Byte.of_N_None_iff in Hb. pose proof (N.mod_lt n 256 ltac:(done)). lia.
Qed.

Lemma u8_of_byte b : u8 (Byte.to_N b) = b.
Proof. by destruct b. Qed.

Lemma continuation_byte r v : r < 128 -> N.lor (r + 128 * v) 128 mod 256 = 128 + r.
Proof.
  intros Hr. change 256 with (2 ^ 8). rewrite <-N.land_ones. rewrite N.land_lor_distr_l.
  change (N.land 128 (N.ones 8)) with 128. rewrite N.land_ones.
  replace ((r + 128 * v) mod 2 ^ 8) with (r + 128 * (v mod 2)).
  2: { pose proof (N.div_mod v 2 ltac:(done)). pose proof (N.mod_lt v 2 ltac:(done)).
       replace (r + 128 * v) with (r + 128 * (v mod 2) + v / 2 * 2 ^ 8) by (change (2 ^ 8) with 256; lia).
       rewrite N.Div0.mod_add. symmetry. apply N.mod_small. change (2 ^ 8) with 256. lia. }
  assert (N.lor r 128 = 128 + r) as Hlor by (change 128 with (N.shiftl 1 7) at 1; rewrite lor_shift by done; change (2 ^ 7) with 128; lia).
  pose proof (N.mod_lt v 2 ltac:(done)) as Hm. revert Hm. generalize (v mod 2) as m. intros m Hm. clear v.
  assert (m = 0 \/ m = 1) as [-> | ->] by (clear Hlor; lia).
  - by rewrite N.add_0_r.
  - replace (r + 128 * 1) with (128 + r) by lia. rewrite <-Hlor, <-N.lor_assoc. done.
Qed.

Lemma byte_cases b :
  if N.land (Byte.to_N b) 0x80 =? 0 then Byte.to_N b < 128 /\ N.land (Byte.to_N b) 0x7f = Byte.to_N b
  else N.land (Byte.to_N b) 0x7f < 128 /\ Byte.to_N b = 128 + N.land (Byte.to_N b) 0x7f.
Proof. by destruct b. Qed.

(** What the loop still has to read at position [index] of ten. *)
Lemma uvarint_loop_read steps : forall index acc v rest,
  N.of_nat steps + index = 10 -> acc < 2 ^ (7 * index) -> v * 2 ^ (7 * index) < 2 ^ 64 ->
  (0 < index -> 0 < v) ->
  read_uvarint_loop steps index acc (uvarint_loop steps v ++ rest) = Ok (acc + v * 2 ^ (7 * index), rest).
Proof.
  induction steps as [|steps IH]; intros index acc v rest Hsteps Hacc Hv Hpos.
  { assert (index = 10) as -> by lia. simpl in Hv. assert (v = 0) by lia. lia. }
  cbn [uvarint_loop read_uvarint_loop]. destruct (N.leb_spec 0x80 v) as [Hge|Hlt]; cbn [app].
  - pose proof (N.div_mod v 128 ltac:(done)) as Hdm. pose proof (N.mod_lt v 128 ltac:(done)) as Hr.
    set (r := v mod 128) in *. set (q := v / 128) in *.
    assert (N.shiftr v 7 = q) as -> by (rewrite N.shiftr_div_pow2; done).
    assert (Byte.to_N (u8 (N.lor v 128)) = 128 + r) as Hb.
    { rewrite u8_to_N. replace v with (r + 128 * q) by lia. by apply continuation_byte. }
    pose proof (byte_cases (u8 (N.lor v 128))) as Hc. rewrite Hb in *.
    destruct (N.eqb_spec (N.land (128 + r) 128) 0); [lia|]. destruct Hc as [_ Hc].
    assert (N.land (128 + r) 127 = r) as -> by lia.
    assert (index <> 9) by (intros ->; change (2 ^ (7 * 9)) with (2 ^ 63) in Hv; change (2 ^ 64) with (2 * 2 ^ 63) in Hv; nia).
    destruct (N.eqb_spec (7 * index) 63); [lia|]. cbn [andb]. rewrite lor_shift by done.
    assert (2 ^ (7 * (index + 1)) = 128 * 2 ^ (7 * index)) as Hpow
      by (replace (7 * (index + 1)) with (7 + 7 * index) by lia; by rewrite N.pow_add_r).
    rewrite IH; [do 2 f_equal; rewrite Hpow; nia|lia|rewrite Hpow; nia|rewrite Hpow; nia|lia].
  - assert (Byte.to_N (u8 v) = v) as Hb by (rewrite u8_to_N; apply N.mod_small; lia).
    pose proof (byte_cases (u8 v)) as Hc. rewrite Hb in *.
    destruct (N.eqb_spec (N.land v 128) 0); [|lia]. destruct Hc as [_ Hc]. rewrite Hc, lor_shift by done.
    destruct (N.eqb_spec (7 * index) 63) as [H7|]; destruct (N.ltb_spec 1 v); cbn [andb];
      try (rewrite H7 in Hv; change (2 ^ 64) with (2 * 2 ^ 63) in Hv; nia).
    all: destruct (N.ltb_spec 0 index); cbn [andb]; [|done].
    all: rewrite N.shiftl_1_l, (N.mul_comm index 7).
    all: destruct (N.ltb_spec (acc + v * 2 ^ (7 * index)) (2 ^ (7 * index))); [nia|done].
Qed.

Lemma read_loop_write steps : forall index acc l w rest,
  acc < 2 ^ (7 * index) -> N.of_nat steps + index = 10 ->
  read_uvarint_loop steps index acc l = Ok (w, rest) ->
  exists v, w = acc + v * 2 ^ (7 * index) /\ l = uvarint_loop steps v ++ rest /\ (0 < index -> 0 < v) /\
    v * 2 ^ (7 * index) < 2 ^ 64.
Proof.
  induction steps as [|steps IH]; intros index acc l w rest Hacc Hsteps Hread; [done|].
  cbn [read_uvarint_loop] in Hread. destruct l as [|b l]; [done|]. pose proof (byte_cases b) as Hc.
  destruct ((7 * index =? 63) && (1 <? Byte.to_N b)) eqn:Hov; [done|].
  destruct (N.eqb_spec (N.land (Byte.to_N b) 128) 0) as [|].
  - destruct Hc as [Hb Hc]. rewrite Hc, lor_shift in Hread by done.
    match type of Hread with (if ?c then _ else _) = _ => destruct c eqn:Hmin end; [done|]. injection Hread as <- <-. exists (Byte.to_N b).
    assert (0 < index -> 0 < Byte.to_N b).
    { intros Hi. rewrite N.shiftl_1_l, (N.mul_comm index 7) in Hmin. apply andb_false_iff in Hmin as [Hm|Hm];
        [apply N.ltb_ge in Hm; lia|apply N.ltb_ge in Hm; nia]. }
    split_and!; [done| |done|].
    + cbn [uvarint_loop]. destruct (N.leb_spec 128 (Byte.to_N b)); [lia|]. by rewrite u8_of_byte.
    + destruct (N.eq_dec index 9) as [->|].
      * simpl in Hov. apply N.ltb_ge in Hov. change (2 ^ (7 * 9)) with (2 ^ 63). change (2 ^ 64) with (2 * 2 ^ 63). nia.
      * apply N.lt_le_trans with (128 * 2 ^ (7 * index)); [nia|]. change 128 with (2 ^ 7). rewrite <-N.pow_add_r.
        apply N.pow_le_mono_r; lia.
  - destruct Hc as [Hr Hb]. set (r := N.land (Byte.to_N b) 127) in *. rewrite lor_shift in Hread by done.
    assert (2 ^ (7 * (index + 1)) = 128 * 2 ^ (7 * index)) as Hpow
      by (replace (7 * (index + 1)) with (7 + 7 * index) by lia; by rewrite N.pow_add_r).
    apply IH in Hread as (v & -> & -> & Hv & Hbound); [|rewrite Hpow; nia|lia].
    exists (r + 128 * v). specialize (Hv ltac:(lia)). rewrite Hpow in *. split_and!; [nia| |nia|].
    + cbn [uvarint_loop]. destruct (N.leb_spec 128 (r + 128 * v)); [|lia].
      assert (u8 (N.lor (r + 128 * v) 128) = b) as ->.
      { unfold u8. rewrite continuation_byte by done. rewrite <-Hb, Byte.of_to_N. done. }
      rewrite N.shiftr_div_pow2. change (2 ^ 7) with 128.
      replace ((r + 128 * v) / 128) with v; [done|]. rewrite N.mul_comm, N.div_add by done.
      rewrite N.div_small by done. lia.
    + assert (index <> 9) by (intros ->; simpl in Hov; apply N.ltb_ge in Hov; lia).
      apply N.lt_le_trans with ((v + 1) * (128 * 2 ^ (7 * index))); [nia|].
      assert (2 ^ 64 = 2 ^ (57 - 7 * index) * (128 * 2 ^ (7 * index))) as Heq.
      { change 128 with (2 ^ 7). rewrite <-!N.pow_add_r. f_equal. lia. }
      rewrite Heq in Hbound |- *. apply N.mul_le_mono_r. apply N.mul_lt_mono_pos_r in Hbound; [lia|].
      pose proof (N.pow_nonzero 2 (7 * index)). lia.
Qed.

(** The two directions together: reading accepts exactly what writing produces. *)
Lemma read_uvarint_iff l v rest :
  read_uvarint l = Ok (v, rest) <-> l = write_uvarint v ++ rest /\ fits 64 v.
Proof.
  unfold read_uvarint, write_uvarint, fits. assert (2 ^ (7 * 0) = 1) as H0 by done. split.
  - intros Hr. apply read_loop_write in Hr as (w & -> & -> & _ & Hw); [|done..].
    rewrite H0, N.mul_1_r in *. by rewrite N.add_0_l.
  - intros [-> Hv]. rewrite uvarint_loop_read; rewrite ?H0, ?N.mul_1_r; try done.
Qed.

(** ** Verification accepts exactly what packaging produces *)

Lemma read_exact_iff c n s c' :
  read_exact_section c n = Ok (s, c') <-> c = s ++ c' /\ N.of_nat (length s) = n.
Proof.
  unfold read_exact_section. destruct (N.ltb_spec (N.of_nat (length c)) n) as [?|?]; split.
  - done.
  - intros [-> <-]. rewrite length_app in *. lia.
  - intros [= <- <-]. rewrite take_drop, length_take. split; [done|lia].
  - intros [-> <-]. rewrite Nat2N.id, take_app_length, drop_app_length. done.
Qed.

(** A length prefix and its section. *)
Definition section_ok (len : nat) : Prop := 0 < N.of_nat len <= MAX_CAR_SECTION_BYTES.

Section archive_lemmas.
Context `{Hashing, !HashLaws, CidCrate, !CidLaws, DagCbor CarHeader, !DagCborLaws CarHeader}.

Lemma section_ok_fits len : section_ok len -> fits 64 (N.of_nat len).
Proof. unfold section_ok, fits. intros [_ Hle]. eapply N.le_lt_trans; [exact Hle|done]. Qed.

Lemma section_read b rest :
  section_ok (length b) ->
  read_uvarint (write_uvarint (N.of_nat (length b)) ++ b ++ rest) = Ok (N.of_nat (length b), b ++ rest) /\
  read_exact_section (b ++ rest) (N.of_nat (length b)) = Ok (b, rest) /\
  ((N.of_nat (length b) =? 0) || (MAX_CAR_SECTION_BYTES <? N.of_nat (length b))) = false.
Proof.
  intros Hb. split_and!; [apply read_uvarint_iff; eauto using section_ok_fits|by apply read_exact_iff|].
  destruct Hb as [? ?]. apply orb_false_iff. rewrite N.eqb_neq, N.ltb_ge. lia.
Qed.

Ltac car_inv :=
  repeat (res_step || (match goal with x : (_ * _)%type |- _ => destruct x end; cbn beta iota in *)); bool_inv;
  repeat match goal with
  | Hr : read_uvarint _ = Ok _ |- _ => apply read_uvarint_iff in Hr as [-> ?]
  | Hr : read_exact_section _ _ = Ok _ |- _ => apply read_exact_iff in Hr as [-> <-]
  | Hr : cid_read_bytes _ = Ok _ |- _ => apply cid_read_iff in Hr as ->
  end.

Lemma validate_cid_profile_Ok cid codec :
  validate_cid_profile cid codec = Ok tt <->
  cid_v1 cid = true /\ cid_codec cid = codec /\ cid_multihash cid = 0x12 /\ length (cid_digest cid) = 32%nat.
Proof.
  unfold validate_cid_profile. destruct (cid_v1 cid); [|naive_solver].
  destruct (N.eqb_spec (cid_codec cid) codec); [|naive_solver].
  destruct (N.eqb_spec (cid_multihash cid) SHA2_256_CODE); [|naive_solver].
  destruct (Nat.eqb_spec (length (cid_digest cid)) 32); naive_solver.
Qed.

Lemma cid_for_profile codec data :
  fits 64 codec -> validate_cid_profile (cid_for codec data) codec = Ok tt.
Proof.
  intros Hcodec. apply validate_cid_profile_Ok. unfold cid_for.
  pose proof (cid_new_fields codec (sha256 data) Hcodec (sha256_length _)) as (-> & -> & -> & ->).
  split_and!; auto using sha256_length.
Qed.

Lemma cid_for_codec codec data : fits 64 codec -> cid_codec (cid_for codec data) = codec.
Proof. intros Hc. by apply (cid_for_profile _ data), validate_cid_profile_Ok in Hc as (_ & ? & _). Qed.

Lemma verify_block_cid_iff cid data :
  verify_block_cid cid data = Ok tt <-> cid = cid_for (cid_codec cid) data.
Proof.
  unfold verify_block_cid. split.
  - intros Hv. car_inv. by destruct (decide (cid_for (cid_codec cid) data = cid)).
  - intros Heq. assert (validate_cid_profile cid (cid_codec cid) = Ok tt) as Hp
      by (rewrite Heq at 1; apply cid_for_profile, cid_codec_fits).
    rewrite Hp. cbn. rewrite bool_decide_false; [done|]. by intros [].
Qed.

Lemma read_car_block_iff order blocks cursor order' blocks' cursor' :
  read_car_block order blocks cursor = Ok (order', blocks', cursor') <->
  exists cid data, cursor = write_car_block cid data ++ cursor' /\ order' = order ++ [cid] /\
    blocks' = <[cid_text cid := data]> blocks /\ cid = cid_for (cid_codec cid) data /\
    blocks !! cid_text cid = None /\ section_ok (length (cid_to_bytes cid ++ data)) /\
    N.of_nat (length order) < MAX_CAR_BLOCKS.
Proof.
  unfold read_car_block. split.
  - intros Hr. car_inv. match goal with Hv : verify_block_cid ?c ?d = Ok tt |- _ => exists c, d;
      apply verify_block_cid_iff in Hv end.
    match goal with Hn : ~ is_Some _ |- _ => apply eq_None_not_Some in Hn end. simplify_eq.
    unfold write_car_block. rewrite <-length_app, <-!app_assoc. split_and!; try done; unfold section_ok; lia.
  - intros (cid & data & -> & -> & -> & Hcid & Hfresh & Hlen & Hord).
    destruct (N.leb_spec MAX_CAR_BLOCKS (N.of_nat (length order))); [lia|].
    unfold write_car_block. rewrite <-length_app, <-app_assoc.
    destruct (section_read (cid_to_bytes cid ++ data) cursor' Hlen) as (-> & Hs & Hz). cbn [mbind result_bind].
    rewrite Hz, Hs. cbn [mbind result_bind].
    rewrite (proj2 (cid_read_iff _ cid data) eq_refl). cbn [map_err mbind result_bind].
    rewrite (proj2 (verify_block_cid_iff _ _) Hcid). cbn [mbind result_bind].
    rewrite bool_decide_false by (by apply eq_None_not_Some). done.
Qed.

Lemma read_car_header_iff b root cursor :
  read_car_header b = Ok (root, cursor) <->
  exists header, dag_cbor_to_vec {| roots := [root]; car_version := 1 |} = Ok header /\
    b = write_uvarint (N.of_nat (length header)) ++ header ++ cursor /\ section_ok (length header).
Proof.
  unfold read_car_header, canonical_dag_cbor, from_dag_cbor. split.
  - intros Hr. car_inv. match goal with Hd : dag_cbor_to_vec ?h = Ok _ |- _ => destruct h as [rs ver] end.
    cbn [roots car_version] in *. destruct rs as [|r []]; [done| |done]. car_inv. simplify_eq.
    match goal with Hn : ~ (_ <> _) |- _ => apply dec_stable in Hn; subst end.
    eexists. split_and!; [done..|]. unfold section_ok; lia.
  - intros (header & Henc & -> & Hlen). destruct (section_read header cursor Hlen) as (-> & Hs & Hz).
    cbn [mbind result_bind]. rewrite Hz, Hs. cbn [mbind result_bind].
    rewrite (dag_cbor_from_to _ _ Henc). cbn [map_err mbind result_bind]. rewrite Henc.
    cbn [map_err mbind result_bind]. rewrite bool_decide_false by tauto. done.
Qed.
(** The block loop reads at least a byte per pass. *)
Lemma uvarint_loop_length fuel v : (0 < fuel)%nat -> (0 < length (uvarint_loop fuel v))%nat.
Proof. intros ?. destruct fuel; [lia|]. cbn. case_match; cbn; lia. Qed.

Lemma write_car_block_length cid data : (0 < length (write_car_block cid data))%nat.
Proof. unfold write_car_block. rewrite length_app. apply Nat.lt_lt_add_r, uvarint_loop_length. lia. Qed.

Lemma read_car_blocks_grow fuel order blocks cursor order' blocks' :
  read_car_blocks fuel order blocks cursor = Ok (order', blocks') ->
  (cursor = [] /\ order' = order /\ blocks' = blocks) \/ (length order < length order')%nat.
Proof.
  revert order blocks cursor. induction fuel as [|fuel IH]; intros order blocks [|x cursor] Hr; cbn in Hr;
    try (by left; simplify_eq).
  right. car_inv. match goal with Hb : read_car_block _ _ _ = _ |- _ =>
    apply read_car_block_iff in Hb as (cid & data & _ & -> & -> & _) end.
  apply IH in Hr as [(_ & -> & _)|Hlt]; rewrite length_app in *; simpl in *; lia.
Qed.

(** An archive with one block. *)
Lemma parse_single_iff b root data :
  parse_car b = Ok {| car_root := root; car_order := [root]; car_blocks := {[cid_text root := data]} |} <->
  exists header, dag_cbor_to_vec {| roots := [root]; car_version := 1 |} = Ok header /\
    b = write_uvarint (N.of_nat (length header)) ++ header ++ write_car_block root data /\
    section_ok (length header) /\ section_ok (length (cid_to_bytes root ++ data)) /\
    root = cid_for (cid_codec root) data.
Proof.
  unfold parse_car. split.
  - intros Hp. car_inv. simplify_eq.
    match goal with Hh : read_car_header b = _ |- _ => apply read_car_header_iff in Hh as (header & Henc & -> & Hlen) end.
    exists header. match goal with Hr : read_car_blocks _ _ _ ?cur = _ |- _ => rename Hr into Hblocks; rename cur into cursor end.
    destruct cursor as [|x cursor]; [by destruct (length _) in Hblocks|].
    destruct (length _) as [|fuel] in Hblocks; [done|]. cbn in Hblocks. car_inv.
    match goal with Hb : read_car_block _ _ _ = _ |- _ =>
      apply read_car_block_iff in Hb as (cid & d & -> & -> & -> & Hcid & _ & Hsec & _) end.
    apply read_car_blocks_grow in Hblocks as [(-> & [= <-] & Hd)|Hlt]; [|cbn in Hlt; lia].
    apply (f_equal (lookup (cid_text root))) in Hd. rewrite lookup_singleton_eq, lookup_insert_eq in Hd.
    injection Hd as ->. by rewrite app_nil_r.
  - intros (header & Henc & -> & Hlen & Hsec & Hroot).
    rewrite (proj2 (read_car_header_iff _ root (write_car_block root data))) by eauto. cbn [mbind result_bind].
    pose proof (write_car_block_length root data) as Hpos.
    rewrite !length_app. destruct (_ + _)%nat as [|fuel] eqn:Hfuel; [lia|]. cbn [read_car_blocks].
    destruct (write_car_block root data) as [|x rest] eqn:Hblock; [cbn in Hpos; lia|].
    rewrite (proj2 (read_car_block_iff [] ∅ (x :: rest) [root] {[cid_text root := data]} [])).
    2: { exists root, data. rewrite Hblock, app_nil_r. split_and!; try done. }
    cbn [mbind result_bind]. destruct fuel; cbn; by rewrite bool_decide_false by tauto.
Qed.
End archive_lemmas.

Lemma map_size_1_lookup {V} (m : gmap string V) k v : size m = 1%nat -> m !! k = Some v -> m = {[k := v]}.
Proof.
  intros Hs Hk. rewrite <-(insert_delete_id m k v Hk) in Hs |- *.
  rewrite map_size_insert_None in Hs by apply lookup_delete_eq.
  assert (delete k m = ∅) as ->; [|done]. apply map_size_empty_inv. lia.
Qed.

(** The two sections of the archive respect the limits of the reader. *)
Definition within_car_limits `{CidCrate, DagCbor CarHeader} {T} (pkg : DagCborPackage T) : Prop :=
  section_ok (length (cid_to_bytes (root_cid pkg) ++ dag_cbor_bytes pkg)) /\
  forall header, dag_cbor_to_vec {| roots := [root_cid pkg]; car_version := 1 |} = Ok header ->
    section_ok (length header).

Section package_theorems.
Context `{Hashing, !HashLaws, CidCrate, !CidLaws, DagCbor CarHeader, !DagCborLaws CarHeader}.
Context {T : Type} `{DagCbor T, !DagCborLaws T}.

Lemma package_Ok (v : T) pkg :
  package_dag_cbor v = Ok pkg <->
  package_value pkg = v /\ dag_cbor_to_vec v = Ok (dag_cbor_bytes pkg) /\
  root_cid pkg = cid_for DAG_CBOR_CODEC (dag_cbor_bytes pkg) /\ root_sha256 pkg = sha256_hex (dag_cbor_bytes pkg) /\
  exists header, dag_cbor_to_vec {| roots := [root_cid pkg]; car_version := 1 |} = Ok header /\
    car_bytes pkg = write_uvarint (N.of_nat (length header)) ++ header ++
                    write_car_block (root_cid pkg) (dag_cbor_bytes pkg).
Proof.
  unfold package_dag_cbor, canonical_dag_cbor, encode_single_block_car, write_car_header, canonical_dag_cbor. split.
  - intros Hp. res_inv. subst pkg. cbn. split_and!; try done. eexists. split; [done|]. by subst; rewrite <-app_assoc.
  - destruct pkg as [c h v' d car]. cbn. intros (-> & -> & -> & -> & header & Hh & ->). cbn.
    rewrite Hh. cbn. by rewrite <-app_assoc.
Qed.

Lemma verified_iff b (pkg : DagCborPackage T) :
  verify_dag_cbor_car b = Ok pkg <->
  package_dag_cbor (package_value pkg) = Ok pkg /\ car_bytes pkg = b /\ within_car_limits pkg.
Proof.
  rewrite package_Ok. unfold verify_dag_cbor_car, within_car_limits. split.
  - intros Hv. res_inv. bool_inv. destruct x as [root order blocks]; cbn [car_root car_order car_blocks] in *.
    match goal with Hn : ~ (order <> _) |- _ => apply dec_stable in Hn as -> end.
    match goal with Hs : size blocks = 1%nat, Hl : blocks !! _ = Some _ |- _ =>
      rewrite (map_size_1_lookup _ _ _ Hs Hl) in * end.
    match goal with Hn : ~ (_ <> _) |- _ => apply dec_stable in Hn; subst end.
    match goal with Hp : parse_car b = Ok _ |- _ =>
      apply parse_single_iff in Hp as (header & Henc & -> & Hlen & Hsec & Hroot) end.
    match goal with Hp : validate_cid_profile _ _ = Ok tt |- _ =>
      apply validate_cid_profile_Ok in Hp as (_ & Hcodec & _) end.
    unfold canonical_dag_cbor, from_dag_cbor in *. res_inv. cbn. rewrite Hcodec in Hroot.
    split_and!; try done; [by eauto|]. intros ? Heq. rewrite Henc in Heq. by injection Heq as <-.
  - destruct pkg as [c h v d car]. cbn [root_cid root_sha256 package_value dag_cbor_bytes car_bytes].
    intros ((_ & Hd & -> & -> & header & Hh & ->) & <- & Hsec & Hlen).
    rewrite (proj2 (parse_single_iff _ (cid_for DAG_CBOR_CODEC d) d)).
    2: { exists header. split_and!; try by eauto.
         by rewrite cid_for_codec. }
    cbn [mbind result_bind car_root car_order car_blocks]. rewrite cid_for_profile by done.
    cbn [mbind result_bind]. rewrite bool_decide_false by tauto. rewrite map_size_singleton. cbn. rewrite lookup_singleton_eq. cbn.
    unfold from_dag_cbor, canonical_dag_cbor. rewrite (dag_cbor_from_to _ _ Hd). cbn. rewrite Hd. cbn.
    by rewrite bool_decide_false by tauto.
Qed.

(** (equivalence). [verify_dag_cbor_car] accepts an archive exactly when it is the archive
    that [package_dag_cbor] builds for the value it returns and its sections are within the
    limits: every object has one archive, and a verified archive decodes to what was packed. *)
Theorem verified_iff_packaged b (pkg : DagCborPackage T) :
  verify_dag_cbor_car b = Ok pkg <->
  package_dag_cbor (package_value pkg) = Ok pkg /\ car_bytes pkg = b /\ within_car_limits pkg.
Proof. apply verified_iff. Qed.

(** Two verified objects with one CID are equal unless SHA-256 collides. *)
Lemma verified_cid_binds b1 b2 (p1 p2 : DagCborPackage T) :
  verify_dag_cbor_car b1 = Ok p1 -> verify_dag_cbor_car b2 = Ok p2 -> root_cid p1 = root_cid p2 ->
  b1 = b2 /\ p1 = p2 \/ collision_among [dag_cbor_bytes p1; dag_cbor_bytes p2].
Proof.
  intros (Hp1 & <- & _)%verified_iff (Hp2 & <- & _)%verified_iff Heq.
  destruct (collision_free_or [dag_cbor_bytes p1; dag_cbor_bytes p2]) as [Hfree|]; [left|by right].
  apply package_Ok in Hp1 as (_ & He1 & Hc1 & Hs1 & h1 & Hh1 & Hb1).
  apply package_Ok in Hp2 as (_ & He2 & Hc2 & Hs2 & h2 & Hh2 & Hb2).
  assert (dag_cbor_bytes p1 = dag_cbor_bytes p2) as Hd.
  { apply Hfree; [set_solver..|]. rewrite Hc1, Hc2 in Heq. unfold cid_for in Heq.
    apply (f_equal cid_digest) in Heq.
    by rewrite !(proj2 (proj2 (proj2 (cid_new_fields DAG_CBOR_CODEC _ eq_refl (sha256_length _))))) in Heq. }
  rewrite <-Hd in *. rewrite <-Heq, Hh1 in Hh2. injection Hh2 as <-.
  apply dag_cbor_from_to in He1, He2. rewrite He1 in He2. injection He2 as Hv.
  destruct p1, p2; cbn in *; subst. done.
Qed.
End package_theorems.

(** ** Parsing terminates within its bound *)

Section termination.
Context `{Hashing, CidCrate, DagCbor CarHeader}.

Lemma read_loop_ok steps : forall index acc l,
  read_uvarint_loop steps index acc l <> Err SourceDiverged /\
  (forall v rest, read_uvarint_loop steps index acc l = Ok (v, rest) -> (length rest < length l)%nat).
Proof.
  induction steps as [|steps IH]; intros index acc l; cbn [read_uvarint_loop]; [done|].
  destruct l as [|b l]; [done|]. destruct (_ && _); [done|]. destruct (_ =? 0).
  - destruct (_ && _); [done|]. split; [done|]. intros ? ? [= _ <-]. cbn. lia.
  - match goal with |- read_uvarint_loop _ ?i ?a _ <> _ /\ _ => destruct (IH i a l) as [Hn Hl] end.
    split; [done|]. intros ? ? Hr. apply Hl in Hr. cbn. lia.
Qed.

Lemma read_car_block_ok order blocks cursor :
  read_car_block order blocks cursor <> Err SourceDiverged /\
  (forall o bl rest, read_car_block order blocks cursor = Ok (o, bl, rest) -> (length rest < length cursor)%nat).
Proof.
  unfold read_car_block. destruct (_ <=? _); [done|].
  destruct (read_loop_ok 10 0 0 cursor) as [Hn Hl]. fold (read_uvarint cursor) in *.
  destruct (read_uvarint cursor) as [[len c]|e]; cbn; [|split; [|done]; by intros [= ->]].
  specialize (Hl _ _ eq_refl). destruct (_ || _); [done|]. unfold read_exact_section.
  destruct (_ <? _); [done|]. cbn. destruct (cid_read_bytes _) as [[cid data]|]; [|done]. cbn.
  unfold verify_block_cid, validate_cid_profile.
  destruct (_ || _ || _ || _); cbn; [by split|]. destruct (bool_decide (cid_for _ _ <> _)); cbn; [by split|].
  destruct (bool_decide _); [by split|].
  split; [done|]. intros ??? [= _ _ <-]. rewrite length_drop. lia.
Qed.

(** The bound of the block loop is never reached: parsing an archive ends with a result or one of
    the source's errors. *)
Lemma parse_car_terminates b : parse_car b <> Err SourceDiverged.
Proof.
  unfold parse_car, read_car_header, from_dag_cbor, canonical_dag_cbor.
  destruct (read_loop_ok 10 0 0 b) as [Hn Hl]. fold (read_uvarint b) in *.
  destruct (read_uvarint b) as [[len c]|e]; cbn; [|by intros [= ->]].
  specialize (Hl _ _ eq_refl). destruct (_ || _); [done|]. unfold read_exact_section.
  destruct (_ <? _); [done|]. cbn. destruct (dag_cbor_from_slice _) as [[rs ver]|]; [|done]. cbn.
  destruct (dag_cbor_to_vec _); [|done]. cbn. case_match; [done|]. destruct rs as [|root []]; try done.
  destruct (negb _); [done|]. cbn.
  set (cursor := drop _ c). assert (length cursor <= length b)%nat as Hb.
  { subst cursor. rewrite length_drop. lia. }
  enough (forall fuel o bl cur, (length cur <= fuel)%nat -> read_car_blocks fuel o bl cur <> Err SourceDiverged) as Hgo.
  { specialize (Hgo _ [] ∅ _ Hb). destruct (read_car_blocks _ _ _ _) as [[o bl]|]; cbn.
    - by case_match.
    - naive_solver. }
  clear. induction fuel as [|fuel IH]; intros o bl [|x cur] Hle; cbn [read_car_blocks]; try done; [cbn in Hle; lia|].
  destruct (read_car_block_ok o bl (x :: cur)) as [Hn Hl].
  destruct (read_car_block o bl (x :: cur)) as [[[o' bl'] cur']|e]; cbn; [|by intros [= ->]].
  specialize (Hl _ _ _ eq_refl). apply IH. cbn in *. lia.
Qed.
End termination.

(** ** A concrete [cid] crate *)

Definition cid_valid (x : N * bytes) : bool := (x.1 <? 2 ^ 64) && Nat.eqb (length x.2) 32.
Definition cid_carrier : Type := { x : N * bytes | cid_valid x = true }.

Definition cid_mk (codec : N) (digest : bytes) : option cid_carrier :=
  match decide (cid_valid (codec, digest) = true) with left Hv => Some (exist _ (codec, digest) Hv) | _ => None end.

Definition cid_zero : cid_carrier := exist _ (0, replicate 32 x00) eq_refl.

Definition cid_bytes_c (c : cid_carrier) : bytes := write_uvarint (proj1_sig c).1 ++ (proj1_sig c).2.

Definition cid_read_c (b : bytes) : result string (cid_carrier * bytes) :=
  match read_uvarint b with
  | Ok (codec, r) =>
      match read_exact_section r 32 with
      | Ok (digest, rest) => c ← ok_or "unreadable" (cid_mk codec digest); Ok (c, rest)
      | Err _ => Err "truncated"
      end
  | Err _ => Err "invalid varint"
  end.

Definition cid_parse_c (s : string) : option cid_carrier :=
  raw ← strip_prefix "b" s;
  match hex_decode_c raw with
  | Some b => match cid_read_c b with Ok (c, []) => Some c | _ => None end
  | None => None
  end.

#[local] Instance cid_crate_c : CidCrate := {|
  CID := cid_carrier;
  cid_from_str := cid_parse_c;
  cid_text c := "b" +:+ hex_encode_c (cid_bytes_c c);
  cid_v1 _ := true;
  cid_codec c := (proj1_sig c).1;
  cid_multihash _ := 0x12;
  cid_digest c := (proj1_sig c).2;
  cid_new_v1 codec digest := default cid_zero (cid_mk codec digest);
  cid_to_bytes := cid_bytes_c;
  cid_read_bytes := cid_read_c |}.

Lemma cid_mk_Some codec digest c :
  cid_mk codec digest = Some c <-> proj1_sig c = (codec, digest).
Proof.
  unfold cid_mk. case_match; split.
  - by intros [= <-].
  - destruct c as [x Hx]; cbn. intros ->. do 2 f_equal. apply (proof_irrel _).
  - done.
  - destruct c as [x Hx]; cbn. intros ->. done.
Qed.

Lemma cid_valid_iff c : fits 64 (proj1_sig c).1 /\ length (proj1_sig (P := fun x => cid_valid x = true) c).2 = 32%nat.
Proof.
  destruct c as [[codec digest] Hv]. cbn. apply andb_true_iff in Hv as [?%N.ltb_lt ?%Nat.eqb_eq]. done.
Qed.

Lemma cid_read_c_iff b c rest : cid_read_c b = Ok (c, rest) <-> b = cid_bytes_c c ++ rest.
Proof.
  unfold cid_read_c, cid_bytes_c. destruct (cid_valid_iff c) as [Hfit Hlen]. split.
  - destruct (read_uvarint b) as [[codec r]|] eqn:Hu; [|done]. apply read_uvarint_iff in Hu as [-> _].
    destruct (read_exact_section r 32) as [[digest r']|] eqn:Hr; [|done]. apply read_exact_iff in Hr as [-> _].
    intros Hc. res_inv. simplify_eq. match goal with Hk : cid_mk _ _ = _ |- _ => apply cid_mk_Some in Hk as -> end.
    by rewrite <-app_assoc.
  - intros ->. destruct (proj1_sig c) as [codec digest] eqn:Hc. cbn [fst snd] in *. rewrite <-app_assoc.
    rewrite (proj2 (read_uvarint_iff _ codec (digest ++ rest))) by done.
    rewrite (proj2 (read_exact_iff (digest ++ rest) 32 digest rest)) by (rewrite Hlen; done).
    by rewrite (proj2 (cid_mk_Some codec digest c) Hc).
Qed.

#[local] Instance cid_laws_c : CidLaws.
Proof.
  split.
  - intros c. apply cid_valid_iff.
  - intros codec digest Hfit Hlen. cbn.
    assert (exists c, cid_mk codec digest = Some c) as [c Hc].
    { unfold cid_mk. destruct (decide _) as [|Hn]; [eauto|]. exfalso. apply Hn. unfold cid_valid, fits in *.
      cbn [fst snd]. by rewrite Hlen, (proj2 (N.ltb_lt _ _) Hfit). }
    rewrite Hc. apply cid_mk_Some in Hc. cbn. by rewrite Hc.
  - intros c _ _ _. cbn. destruct (cid_mk _ _) as [d|] eqn:Hd.
    + apply cid_mk_Some in Hd. cbn. destruct c as [x Hx], d as [y Hy]; cbn in *.
      destruct x; cbn in *; subst. f_equal. apply (proof_irrel _).
    + rewrite (proj2 (cid_mk_Some _ _ c)) in Hd; [done|]. by destruct (proj1_sig c).
  - intros c. change (cid_parse_c ("b" +:+ hex_encode_c (cid_bytes_c c)) = Some c). unfold cid_parse_c.
    rewrite (proj2 (strip_prefix_Some _ _ _) eq_refl). cbn [mbind option_bind].
    rewrite (proj2 (hex_decode_c_iff _ (cid_bytes_c c)) (proj1 (hex_encode_c_chars _))).
    rewrite (proj2 (cid_read_c_iff _ c [])); [done|]. by rewrite app_nil_r.
  - apply cid_read_c_iff.
Qed.

(** A codec for archive headers, and bytes as the object in an archive. *)
#[local] Instance header_cbor_c : DagCbor CarHeader := {|
  dag_cbor_to_vec h := match h with {| roots := [r]; car_version := 1 |} => Ok (cid_to_bytes r) | _ => Err "header" end;
  dag_cbor_from_slice b := '(r, _) ← cid_read_bytes b; Ok {| roots := [r]; car_version := 1 |} |}.

#[local] Instance header_cbor_laws_c : DagCborLaws CarHeader.
Proof.
  intros [[|r []] [|[]]] b Hb; cbn [dag_cbor_to_vec header_cbor_c] in Hb; try discriminate Hb. injection Hb as <-.
  cbn [dag_cbor_from_slice header_cbor_c]. rewrite (proj2 (cid_read_iff _ r [])); [done|]. by rewrite app_nil_r.
Qed.

(** A codec for the values of a table: the tag of the table and the position. *)
Fixpoint table_index {T} `{EqDecision T} (v : T) (values : list T) : option nat :=
  match values with
  | [] => None
  | w :: values => if decide (w = v) then Some O else option_map S (table_index v values)
  end.

Definition table_cbor {T} `{EqDecision T} (tag : byte) (values : list T) : DagCbor T := {|
  dag_cbor_to_vec v :=
    match table_index v values with
    | Some i => if Nat.ltb i 256 then Ok [tag; u8 (N.of_nat i)] else Err "not in the table"
    | None => Err "not in the table"
    end;
  dag_cbor_from_slice b :=
    match b with [_; i] => ok_or "not in the table" (values !! N.to_nat (Byte.to_N i)) | _ => Err "not in the table" end |}.

Lemma table_index_Some {T} `{EqDecision T} (v : T) values i : table_index v values = Some i -> values !! i = Some v.
Proof.
  revert i. induction values as [|w values IH]; intros i; cbn; [done|]. destruct (decide (w = v)) as [->|Hne]; [by intros [= <-]|].
  destruct (table_index v values) as [k|]; cbn; [|done]. intros [= <-]. by apply IH.
Qed.

Lemma table_cbor_laws {T} `{EqDecision T} (tag : byte) (values : list T) : @DagCborLaws T (table_cbor tag values).
Proof.
  intros v b. cbn [dag_cbor_to_vec dag_cbor_from_slice table_cbor]. destruct (table_index v values) as [i|] eqn:Hi; [|done].
  destruct (Nat.ltb_spec i 256) as [Hlt|]; [|done]. intros [= <-]. rewrite u8_to_N, N.mod_small by lia.
  by rewrite Nat2N.id, (table_index_Some _ _ _ Hi).
Qed.

Local Instance bytes_cbor_c : DagCbor bytes := {| dag_cbor_to_vec := Ok; dag_cbor_from_slice := Ok |}.

Local Instance bytes_cbor_laws_c : DagCborLaws bytes.
Proof. by intros v b [= ->]. Qed.

#[local] Existing Instance hashing_c.
#[local] Existing Instance hash_laws_c.

Abbreviation sample_package := (package_dag_cbor (T := bytes) [x01; x02; x03]).

Definition section_ok_bool (len : nat) : bool := (0 <? N.of_nat len) && (N.of_nat len <=? MAX_CAR_SECTION_BYTES).

Lemma section_ok_by_computation len : section_ok_bool len = true -> section_ok len.
Proof. intros [?%N.ltb_lt ?%N.leb_le]%andb_true_iff. done. Qed.

Lemma sample_package_within : exists p, sample_package = Ok p /\ within_car_limits p.
Proof.
  assert (match sample_package with
          | Ok p => section_ok_bool (length (cid_to_bytes (root_cid p) ++ dag_cbor_bytes p)) &&
                    section_ok_bool (length (cid_to_bytes (root_cid p)))
          | Err _ => false end = true) as Hrun by (vm_compute; reflexivity).
  destruct sample_package as [p|]; [|done]. apply andb_true_iff in Hrun as [Hd Hh].
  exists p. split; [done|]. split; [by apply section_ok_by_computation|].
  intros header [= <-]. by apply section_ok_by_computation.
Qed.

Lemma verified_iff_packaged_witness :
  exists p : DagCborPackage bytes, sample_package = Ok p /\ verify_dag_cbor_car (car_bytes p) = Ok p.
Proof.
  destruct sample_package_within as (p & Hp & Hw). exists p. split; [done|].
  apply verified_iff_packaged. split_and!; [|done..].
  assert (package_value p = [x01; x02; x03]) as ->; [|done].
  by apply (proj1 (package_Ok _ _)) in Hp as [? _].
Defined.
