(* ===== verification/GovTree.v ===== *)
(** * Merkle trees with inclusion proofs

    [metrics.rs] and [lifecycle.rs] of the governance crate build the same tree
    with different node domains: an odd level pairs its last hash with itself, a
    proof lists the siblings from the leaf upwards, and the checker insists that
    the sibling of a last odd node is the node itself.  The tree, the proofs and
    the checker are defined here over the node function; the two files
    instantiate them with their domains.

    A built proof is accepted, and an accepted proof is for the leaf that the tree
    has at that position, unless SHA-256 collides. *)
From S2P Require Import Prelude Text Crates Concrete.
From Equations Require Import Equations.
From Stdlib Require Import Strings.Byte.

Local Open Scope N_scope.

(** The [while count > 1] loop; a count below [2 ^ k] needs at most [k] passes. *)
Fixpoint levels_loop (fuel : nat) (count : N) : nat :=
  match fuel with
  | O => O
  | S fuel' => if 1 <? count then S (levels_loop fuel' ((count + 1) / 2)) else O
  end.

Definition tree_levels (count : N) : nat := levels_loop (N.size_nat count) count.

Section tree.
Context (node : bytes -> bytes -> bytes).

(** One pass over [level.chunks(2)]. *)
Fixpoint tree_level (level : list bytes) : list bytes :=
  match level with
  | [] => []
  | [a] => [node a a]
  | a :: b :: rest => node a b :: tree_level rest
  end.

Lemma tree_level_length level : length (tree_level level) = Nat.div2 (S (length level)).
Proof.
  remember (length level) as n eqn:Hn. revert level Hn.
  induction (lt_wf n) as [n _ IH]; intros [|a [|b rest]] ->; [done..|].
  cbn [tree_level length]. rewrite (IH (length rest)); [done|cbn; lia|done].
Qed.

Lemma tree_level_shrinks a b rest : (length (tree_level (a :: b :: rest)) < length (a :: b :: rest))%nat.
Proof. rewrite tree_level_length. cbn [length Nat.div2]. pose proof (Nat.lt_div2 (S (length rest)) ltac:(lia)). cbn [Nat.div2] in *. lia. Qed.

(** The [while level.len() > 1] loop and [level[0]]; the callers pass at least one hash. *)
Equations? tree_root (level : list bytes) : bytes by wf (length level) lt :=
  tree_root [] := [];
  tree_root [a] := a;
  tree_root (a :: b :: rest) := tree_root (tree_level (a :: b :: rest)).
Proof. exact (tree_level_shrinks a b rest). Qed.

Definition sibling_of (level : list bytes) (index : nat) : bytes :=
  if Nat.even index then default (level !!! index) (level !! S index) else level !!! (index - 1)%nat.

Equations? tree_siblings (level : list bytes) (index : nat) : list bytes by wf (length level) lt :=
  tree_siblings [] _ := [];
  tree_siblings [a] _ := [];
  tree_siblings (a :: b :: rest) index :=
    sibling_of (a :: b :: rest) index :: tree_siblings (tree_level (a :: b :: rest)) (Nat.div2 index).
Proof. exact (tree_level_shrinks a b rest). Qed.

(** The loop over the siblings of a proof; [None] is the early return. *)
Fixpoint climb (current : bytes) (index count : N) (siblings : list bytes) : option bytes :=
  match siblings with
  | [] => Some current
  | sibling :: rest =>
      if N.even index then
        if (count <=? index + 1) && bool_decide (sibling <> current) then None
        else climb (node current sibling) (index / 2) ((count + 1) / 2) rest
      else climb (node sibling current) (index / 2) ((count + 1) / 2) rest
  end.

End tree.

(** ** Levels *)

Lemma half_up_le count b : count <= 2 * b -> (count + 1) / 2 <= b.
Proof. intros Hc. apply N.lt_succ_r, N.Div0.div_lt_upper_bound. lia. Qed.

Lemma levels_loop_spec fuel count : count <= 2 ^ N.of_nat fuel -> levels_loop fuel count = N.to_nat (N.log2_up count).
Proof.
  revert count. induction fuel as [|fuel IH]; intros count Hc; cbn [levels_loop].
  - cbn in Hc. rewrite N.log2_up_eqn0; [done|lia].
  - destruct (N.ltb_spec 1 count) as [Hlt|Hle]; [|by rewrite N.log2_up_eqn0].
    assert ((count + 1) / 2 <= 2 ^ N.of_nat fuel) as Hh.
    { apply half_up_le. by rewrite <-N.pow_succ_r', <-Nat2N.inj_succ. }
    rewrite IH by done. pose proof (N.div_mod (count + 1) 2 ltac:(done)) as Hdm.
    pose proof (N.mod_lt (count + 1) 2 ltac:(done)) as Hm. remember ((count + 1) / 2) as h eqn:Hhdef.
    remember ((count + 1) mod 2) as m eqn:Hmdef. clear Hhdef Hmdef IH.
    assert (N.log2_up count = N.succ (N.log2_up h)) as ->; [|lia].
    assert (count = 2 * h \/ count = 2 * h - 1) as Hcase by lia.
    rewrite !N.log2_up_eqn by lia. destruct (N.eq_dec h 1) as [->|].
    { assert (count = 2) as -> by lia. done. }
    rewrite N.log2_up_eqn by lia. do 2 f_equal.
    destruct Hcase as [->| ->].
    + replace (N.pred (2 * h)) with (2 * N.pred h + 1) by lia. rewrite N.log2_succ_double by lia. done.
    + replace (N.pred (2 * h - 1)) with (2 * N.pred h) by lia. rewrite N.log2_double by lia. done.
Qed.

Lemma le_pow_size_nat n : n <= 2 ^ N.of_nat (N.size_nat n).
Proof.
  destruct n as [|p]; [cbn; lia|]. assert (N.of_nat (N.size_nat (N.pos p)) = N.size (N.pos p)) as ->.
  { cbn. induction p as [p IH|p IH|]; cbn [Pos.size_nat Pos.size]; [..|done]; rewrite Nat2N.inj_succ, IH; by destruct (Pos.size p). }
  pose proof (N.size_gt (N.pos p)). lia.
Qed.

Lemma tree_levels_spec count : tree_levels count = N.to_nat (N.log2_up count).
Proof. apply levels_loop_spec, le_pow_size_nat. Qed.

Lemma tree_levels_small count : count <= 1 -> tree_levels count = O.
Proof. intros Hc. rewrite tree_levels_spec, N.log2_up_eqn0 by done. done. Qed.

Lemma tree_levels_step count : 1 < count -> tree_levels count = S (tree_levels ((count + 1) / 2)).
Proof.
  intros Hc. set (f := N.size_nat count). assert (count <= 2 ^ N.of_nat (S f)) as Hf.
  { rewrite Nat2N.inj_succ, N.pow_succ_r'. pose proof (le_pow_size_nat count). fold f in H. lia. }
  rewrite tree_levels_spec, <-(levels_loop_spec (S f)) by done. cbn [levels_loop].
  destruct (N.ltb_spec 1 count); [|lia]. f_equal. rewrite tree_levels_spec. apply levels_loop_spec.
  apply half_up_le. by rewrite <-N.pow_succ_r', <-Nat2N.inj_succ.
Qed.

(** ** Built proofs are accepted *)

Lemma half_of_nat i : N.of_nat i / 2 = N.of_nat (Nat.div2 i).
Proof. rewrite Nat.div2_div. rewrite Nat2N.inj_div. done. Qed.

Lemma half_up_of_nat n : (N.of_nat n + 1) / 2 = N.of_nat (Nat.div2 (S n)).
Proof. rewrite <-half_of_nat. f_equal. lia. Qed.

Lemma even_of_nat i : N.even (N.of_nat i) = Nat.even i.
Proof.
  destruct (Nat.even i) eqn:Hi; [apply N.even_spec|apply not_true_iff_false; rewrite N.even_spec].
  - apply Nat.even_spec in Hi as [k ->]. exists (N.of_nat k). lia.
  - intros [k Hk]. apply not_true_iff_false in Hi. apply Hi, Nat.even_spec. exists (N.to_nat k). lia.
Qed.

Section proofs.
Context (node : bytes -> bytes -> bytes).

Abbreviation parent level index x :=
  (if Nat.even index then node x (sibling_of level index) else node (sibling_of level index) x).

Lemma tree_level_lookup level : forall index x,
  level !! index = Some x -> tree_level node level !! Nat.div2 index = Some (parent level index x).
Proof.
  remember (length level) as n eqn:Hn. revert level Hn.
  induction (lt_wf n) as [n _ IH]; intros [|a [|b rest]] -> index x Hx; [done|..].
  - destruct index; [|done]. injection Hx as <-. done.
  - destruct index as [|[|index]]; [injection Hx as <-; done..|].
    change (rest !! index = Some x) in Hx.
    change (tree_level node rest !! Nat.div2 index = Some (parent (a :: b :: rest) (S (S index)) x)).
    rewrite (IH (length rest) ltac:(cbn; lia) rest eq_refl index x Hx).
    unfold sibling_of. cbn [Nat.even]. destruct index as [|index]; [done|].
    replace (S (S (S index)) - 1)%nat with (S (S index)) by lia. replace (S index - 1)%nat with index by lia.
    destruct (Nat.even (S index)); done.
Qed.

Lemma tree_root_step level : (1 < length level)%nat -> tree_root node level = tree_root node (tree_level node level).
Proof. destruct level as [|a [|b rest]]; cbn [length]; [lia..|]. intros _. by simp tree_root. Qed.

Lemma tree_siblings_step level index : (1 < length level)%nat ->
  tree_siblings node level index = sibling_of level index :: tree_siblings node (tree_level node level) (Nat.div2 index).
Proof. destruct level as [|a [|b rest]]; cbn [length]; [lia..|]. intros _. by simp tree_siblings. Qed.

Lemma climb_siblings level : forall index x,
  level !! index = Some x ->
  climb node x (N.of_nat index) (N.of_nat (length level)) (tree_siblings node level index) = Some (tree_root node level) /\
  length (tree_siblings node level index) = tree_levels (N.of_nat (length level)).
Proof.
  remember (length level) as n eqn:Hn. revert level Hn.
  induction (lt_wf n) as [n _ IH]; intros level -> index x Hx.
  destruct (decide (length level <= 1)%nat) as [Hsmall|Hbig].
  - pose proof (lookup_lt_Some _ _ _ Hx). destruct level as [|a [|]]; cbn [length] in *; [lia| |lia].
    destruct index; [|lia]. injection Hx as <-. simp tree_siblings tree_root. done.
  - rewrite tree_siblings_step, tree_root_step by lia. cbn [climb length].
    pose proof (tree_level_lookup _ _ _ Hx) as Hp. pose proof (tree_level_length node level) as Hlen.
    assert (Nat.div2 (S (length level)) < length level)%nat as Hlt.
    { destruct level as [|a [|b rest]]; cbn [length] in *; [lia..|]. rewrite <-Hlen. apply tree_level_shrinks. }
    destruct (IH _ Hlt (tree_level node level) (eq_sym Hlen) _ _ Hp) as [Hclimb Hsib].
    rewrite (tree_levels_step (N.of_nat (length level))) by lia.
    rewrite even_of_nat, half_of_nat, half_up_of_nat, Hsib.
    split; [|done]. destruct (Nat.even index) eqn:He; [|done].
    rewrite andb_comm. case_bool_decide as Hne; [|done]. cbn [andb].
    destruct (N.leb_spec (N.of_nat (length level)) (N.of_nat index + 1)) as [Hle|]; [|done].
    exfalso. apply Hne. unfold sibling_of. rewrite He. rewrite lookup_ge_None_2 by lia. cbn.
    by apply list_lookup_total_correct.
Qed.
End proofs.

(** ** Accepted proofs are for leaves of the tree *)

(** The byte strings hashed while building a tree and while checking a proof, for a node
    function that hashes [node_in left right]. *)
Section inputs.
Context (node node_in : bytes -> bytes -> bytes).

Fixpoint tree_level_inputs (level : list bytes) : list bytes :=
  match level with
  | [] => []
  | [a] => [node_in a a]
  | a :: b :: rest => node_in a b :: tree_level_inputs rest
  end.

Equations? tree_inputs (level : list bytes) : list bytes by wf (length level) lt :=
  tree_inputs [] := [];
  tree_inputs [a] := [];
  tree_inputs (a :: b :: rest) :=
    tree_level_inputs (a :: b :: rest) ++ tree_inputs (tree_level node (a :: b :: rest)).
Proof. exact (tree_level_shrinks node a b rest). Qed.

Fixpoint climb_inputs (current : bytes) (index : N) (siblings : list bytes) : list bytes :=
  match siblings with
  | [] => []
  | sibling :: rest =>
      if N.even index then node_in current sibling :: climb_inputs (node current sibling) (index / 2) rest
      else node_in sibling current :: climb_inputs (node sibling current) (index / 2) rest
  end.
End inputs.

Section soundness.
Context `{Hashing, !HashLaws} (node_in : bytes -> bytes -> bytes).
Context (Hinj : forall a b c d, length a = 32%nat -> length c = 32%nat -> node_in a b = node_in c d -> a = c /\ b = d).

Abbreviation node := (fun a b => sha256 (node_in a b)).
Abbreviation digests l := (Forall (fun h : bytes => length h = 32%nat) l).

Lemma tree_level_digests level : digests (tree_level node level).
Proof.
  remember (length level) as n eqn:Hn. revert level Hn.
  induction (lt_wf n) as [n _ IH]; intros [|a [|b rest]] ->; cbn [tree_level]; repeat constructor;
    try apply sha256_length.
  apply (IH (length rest)); [cbn; lia|done].
Qed.

Lemma sibling_of_digest level index x : digests level -> level !! index = Some x -> length (sibling_of level index) = 32%nat.
Proof.
  intros Hd Hx. pose proof (lookup_lt_Some _ _ _ Hx) as Hlt. unfold sibling_of. destruct (Nat.even index).
  - destruct (level !! S index) as [y|] eqn:Hy; cbn.
    + by apply (Forall_lookup_1 _ _ _ _ Hd Hy).
    + rewrite (list_lookup_total_correct _ _ _ Hx). by apply (Forall_lookup_1 _ _ _ _ Hd Hx).
  - destruct (lookup_lt_is_Some_2 level (index - 1) ltac:(lia)) as [y Hy].
    rewrite (list_lookup_total_correct _ _ _ Hy). by apply (Forall_lookup_1 _ _ _ _ Hd Hy).
Qed.

Lemma tree_siblings_digests level : forall index, digests level -> (index < length level)%nat ->
  digests (tree_siblings node level index).
Proof.
  remember (length level) as n eqn:Hn. revert level Hn.
  induction (lt_wf n) as [n _ IH]; intros level -> index Hd Hi.
  destruct (decide (1 < length level)%nat) as [Hbig|].
  - rewrite tree_siblings_step by done. destruct (lookup_lt_is_Some_2 level index Hi) as [x Hx].
    constructor; [by eapply sibling_of_digest|]. pose proof (tree_level_lookup node _ _ _ Hx) as Hp%lookup_lt_Some.
    apply (IH (length (tree_level node level))); [|done|apply tree_level_digests|done].
    destruct level as [|a [|b rest]]; cbn [length] in Hbig; [lia..|]. apply tree_level_shrinks.
  - destruct level as [|a [|]]; cbn [length] in *; [lia| |lia]. simp tree_siblings. constructor.
Qed.

Lemma level_input_elem level : forall index x, level !! index = Some x ->
  (if Nat.even index then node_in x (sibling_of level index) else node_in (sibling_of level index) x)
    ∈ tree_level_inputs node_in level.
Proof.
  remember (length level) as n eqn:Hn. revert level Hn.
  induction (lt_wf n) as [n _ IH]; intros [|a [|b rest]] -> index x Hx; [done|..].
  - destruct index; [|done]. injection Hx as <-. cbn. set_solver.
  - destruct index as [|[|index]]; [injection Hx as <-; cbn; set_solver..|].
    change (rest !! index = Some x) in Hx. cbn [Nat.even tree_level_inputs]. apply list_elem_of_further.
    specialize (IH (length rest) ltac:(cbn; lia) rest eq_refl index x Hx).
    unfold sibling_of in *. cbn [Nat.even]. destruct index as [|index]; [done|].
    replace (S (S (S index)) - 1)%nat with (S (S index)) by lia. replace (S index - 1)%nat with index in IH by lia.
    destruct (Nat.even (S index)); done.
Qed.

Lemma tree_inputs_step level : (1 < length level)%nat ->
  tree_inputs node node_in level = tree_level_inputs node_in level ++ tree_inputs node node_in (tree_level node level).
Proof. destruct level as [|a [|b rest]]; cbn [length]; [lia..|]. intros _. by simp tree_inputs. Qed.

Context (known : bytes -> Prop) (Hfree : collision_free known).

Lemma climb_sound siblings : forall level index x,
  digests level -> length x = 32%nat -> digests siblings ->
  Forall known (tree_inputs node node_in level) -> Forall known (climb_inputs node node_in x (N.of_nat index) siblings) ->
  (index < length level)%nat -> length siblings = tree_levels (N.of_nat (length level)) ->
  climb node x (N.of_nat index) (N.of_nat (length level)) siblings = Some (tree_root node level) ->
  level !! index = Some x.
Proof.
  induction siblings as [|s siblings IH]; intros level index x Hlev Hx Hsib Hin Hpath Hidx Hlen Hclimb.
  - cbn in Hclimb, Hlen. injection Hclimb as Hroot. destruct (decide (length level <= 1)%nat) as [|Hbig].
    + destruct level as [|a [|]]; cbn [length] in *; [lia| |lia]. destruct index; [|lia].
      simp tree_root in Hroot. by subst.
    + rewrite tree_levels_step in Hlen by lia. done.
  - assert (1 < length level)%nat as Hbig.
    { destruct (decide (length level <= 1)%nat); [|lia]. rewrite tree_levels_small in Hlen by lia. done. }
    rewrite tree_levels_step in Hlen by lia. cbn [length] in Hlen. injection Hlen as Hlen.
    rewrite tree_root_step in Hclimb by done. rewrite tree_inputs_step, Forall_app in Hin by done.
    destruct Hin as [Hin Hin']. apply Forall_cons in Hsib as [Hs Hsib].
    destruct (lookup_lt_is_Some_2 level index Hidx) as [y Hy].
    pose proof (level_input_elem _ _ _ Hy) as Hey. apply (proj1 (Forall_forall _ _) Hin) in Hey.
    pose proof (tree_level_lookup node _ _ _ Hy) as Hpy. pose proof (tree_level_length node level) as Hll.
    pose proof (sibling_of_digest _ _ _ Hlev Hy) as Hsy. pose proof (proj1 (Forall_lookup _ _) Hlev _ _ Hy) as Hyd.
    rewrite half_up_of_nat, <-Hll in Hlen. pose proof (lookup_lt_Some _ _ _ Hpy) as Hpi.
    cbn [climb climb_inputs] in *. rewrite even_of_nat, half_of_nat in *. rewrite half_up_of_nat, <-Hll in Hclimb.
    destruct (Nat.even index).
    + destruct (_ && _); [done|]. apply Forall_cons in Hpath as [Hk Hpath].
      pose proof (IH _ _ _ (tree_level_digests _) (sha256_length _) Hsib Hin' Hpath Hpi Hlen Hclimb) as Heq.
      rewrite Hpy in Heq. injection Heq as Heq. apply Hfree in Heq; [|done..].
      apply Hinj in Heq as [-> _]; done.
    + apply Forall_cons in Hpath as [Hk Hpath].
      pose proof (IH _ _ _ (tree_level_digests _) (sha256_length _) Hsib Hin' Hpath Hpi Hlen Hclimb) as Heq.
      rewrite Hpy in Heq. injection Heq as Heq. apply Hfree in Heq; [|done..].
      apply Hinj in Heq as [_ ->]; done.
Qed.
End soundness.
