(* ===== verification/GovMetrics.v ===== *)
(** * Identity metrics ([crates/governance-core/src/metrics.rs])

    Voting weight comes from identity metrics that a Merkle root commits to.  A
    voter registers with a leaf and an inclusion proof; the theorems show that
    every proof of a built snapshot is accepted and that an accepted proof is for
    a leaf of the snapshot, unless SHA-256 collides. *)
From S2P Require Import Prelude Order Text Crates Concrete GovText GovMath GovSource GovTree.
From Stdlib Require Import Ascii Strings.Byte.

Local Open Scope N_scope.

Definition MAX_IDENTITY_METRICS_LEAVES : N := 262144.
Definition MAX_SOURCE_BLOCK_HASHES : N := 65537.

Record GovernanceIdentityMetricsLeafV1 := {
  ml_address : string;
  ml_identity_state : IdentityState;
  ml_total_finalized_authored_flips : N;
  ml_total_consensus_reported_authored_flips : N;
  ml_flip_trust_bps : N;
  ml_source_epoch : N;
  ml_source_block_height : N;
  ml_source_block_hash : string
}.

Record GovernanceIdentityMetricsProofV1 := {
  mp_leaf : GovernanceIdentityMetricsLeafV1;
  mp_index : N;
  mp_leaf_count : N;
  mp_siblings : list string
}.

Record BuiltIdentityMetricsSnapshot := {
  bm_root : string;
  bm_leaves : list GovernanceIdentityMetricsLeafV1;
  bm_proofs : gmap string GovernanceIdentityMetricsProofV1
}.

Record IdentityMetricsSnapshotV1 := {
  ms_schema_version : N;
  ms_source_epoch : N;
  ms_source_block_height : N;
  ms_source_block_hash : string;
  ms_replay_start_height : N;
  ms_replay_commitment : string;
  ms_source_block_hashes : list string;
  ms_leaves : list GovernanceIdentityMetricsLeafV1;
  ms_merkle_root : string
}.

Inductive MetricsProofError :=
| InvalidMetricsAddress
| InvalidBlockHash
| IneligibleIdentity
| InvalidTrust
| InconsistentSnapshot
| InvalidProof
| InvalidSnapshotPackage.

#[global] Instance GovernanceIdentityMetricsLeafV1_eq_dec : EqDecision GovernanceIdentityMetricsLeafV1.
Proof. solve_decision. Defined.

Section metrics.
Context `{Hashing}.
Abbreviation checked := (result MetricsProofError).

Definition normalize_address (value : string) : checked string :=
  raw ← ok_or InvalidMetricsAddress (strip_prefix "0x" value);
  b ← map_err (fun _ => InvalidMetricsAddress) (hex_decode raw);
  if negb (Nat.eqb (length b) 20) then Err InvalidMetricsAddress else Ok ("0x" +:+ hex_encode b).

Definition decode_address (value : string) : checked bytes :=
  normalized ← normalize_address value;
  b ← map_err (fun _ => InvalidMetricsAddress) (hex_decode (drop_bytes 2 normalized));
  if Nat.eqb (length b) 20 then Ok b else Err InvalidMetricsAddress.

(** The error of [decode_hash] carries nothing. *)
Definition decode_hash (value : string) : option bytes :=
  if negb (Nat.eqb (String.length value) 64) || any_bytes (fun c => negb (is_lower_hex_byte c)) value then None
  else
    match hex_decode value with
    | Ok b => if Nat.eqb (length b) 32 then Some b else None
    | Err _ => None
    end.

Definition validate_identity_leaf (leaf : GovernanceIdentityMetricsLeafV1) : checked unit :=
  _ ← decode_address (ml_address leaf);
  _ ← ok_or InvalidBlockHash (decode_hash (ml_source_block_hash leaf));
  match status_bps (ml_identity_state leaf) with
  | None => Err IneligibleIdentity
  | Some _ =>
      expected ← map_err (fun _ => InvalidTrust)
        (flip_trust_bps (ml_total_finalized_authored_flips leaf) (ml_total_consensus_reported_authored_flips leaf));
      if negb (expected =? ml_flip_trust_bps leaf) then Err InvalidTrust else Ok tt
  end.

Definition state_byte (s : IdentityState) : checked byte :=
  match s with Human => Ok x03 | Verified => Ok x02 | Newbie => Ok x01 | _ => Err IneligibleIdentity end.

Definition METRICS_LEAF_DOMAIN : bytes := byte_str "IDENA_GOV_METRICS_V1" ++ [x00].
Definition METRICS_NODE_DOMAIN : bytes := byte_str "IDENA_GOV_MERKLE_V1" ++ [x00].
Definition METRICS_ROOT_DOMAIN : bytes := byte_str "IDENA_GOV_METRICS_ROOT_V1" ++ [x00].

Definition metrics_leaf_data (leaf : GovernanceIdentityMetricsLeafV1) : checked bytes :=
  _ ← validate_identity_leaf leaf;
  address ← decode_address (ml_address leaf);
  block_hash ← ok_or InvalidBlockHash (decode_hash (ml_source_block_hash leaf));
  state ← state_byte (ml_identity_state leaf);
  Ok (METRICS_LEAF_DOMAIN ++ address ++ [state] ++
      be_bytes 8 (ml_total_finalized_authored_flips leaf) ++
      be_bytes 8 (ml_total_consensus_reported_authored_flips leaf) ++
      be_bytes 2 (ml_flip_trust_bps leaf) ++ be_bytes 2 (ml_source_epoch leaf) ++
      be_bytes 8 (ml_source_block_height leaf) ++ block_hash).

Definition hash_identity_metrics_leaf (leaf : GovernanceIdentityMetricsLeafV1) : checked bytes :=
  data ← metrics_leaf_data leaf;
  Ok (sha256 data).

Definition metrics_node_in (left right : bytes) : bytes := METRICS_NODE_DOMAIN ++ left ++ right.
Definition hash_merkle_node (left right : bytes) : bytes := sha256 (metrics_node_in left right).

Definition metrics_merkle_root (hashes : list bytes) : bytes :=
  match hashes with
  | [] => sha256 (byte_str "IDENA_GOV_METRICS_EMPTY_V1")
  | _ => tree_root hash_merkle_node hashes
  end.

Definition metrics_root_in (tree_root : bytes) (leaf_count : N) : bytes :=
  METRICS_ROOT_DOMAIN ++ be_bytes 8 leaf_count ++ tree_root.
Definition committed_merkle_root (tree_root : bytes) (leaf_count : N) : bytes :=
  sha256 (metrics_root_in tree_root leaf_count).

Definition metrics_boundary (leaf : GovernanceIdentityMetricsLeafV1) : N * N * string :=
  (ml_source_epoch leaf, ml_source_block_height leaf, ml_source_block_hash leaf).

(** The loop over the sorted leaves: the addresses so far and the boundary. *)
Definition check_boundary (st : gset string * option (N * N * string)) (leaf : GovernanceIdentityMetricsLeafV1)
    : checked (gset string * option (N * N * string)) :=
  let '(addresses, boundary) := st in
  if bool_decide (ml_address leaf ∈ addresses) then Err InconsistentSnapshot
  else
    let value := metrics_boundary leaf in
    if bool_decide (default value boundary <> value) then Err InconsistentSnapshot
    else Ok ({[ml_address leaf]} ∪ addresses, Some value).

Definition normalize_leaf (leaf : GovernanceIdentityMetricsLeafV1) : checked GovernanceIdentityMetricsLeafV1 :=
  address ← normalize_address (ml_address leaf);
  let leaf := {|
    ml_address := address; ml_identity_state := ml_identity_state leaf;
    ml_total_finalized_authored_flips := ml_total_finalized_authored_flips leaf;
    ml_total_consensus_reported_authored_flips := ml_total_consensus_reported_authored_flips leaf;
    ml_flip_trust_bps := ml_flip_trust_bps leaf; ml_source_epoch := ml_source_epoch leaf;
    ml_source_block_height := ml_source_block_height leaf; ml_source_block_hash := ml_source_block_hash leaf |} in
  _ ← validate_identity_leaf leaf;
  Ok leaf.

Definition metrics_proof (leaves : list GovernanceIdentityMetricsLeafV1) (hashes : list bytes) (index : nat)
    (leaf : GovernanceIdentityMetricsLeafV1) : GovernanceIdentityMetricsProofV1 :=
  {| mp_leaf := leaf; mp_index := N.of_nat index; mp_leaf_count := N.of_nat (length leaves);
     mp_siblings := map hex_encode (tree_siblings hash_merkle_node hashes index) |}.

Definition build_identity_metrics_snapshot (leaves : list GovernanceIdentityMetricsLeafV1)
    : checked BuiltIdentityMetricsSnapshot :=
  if MAX_IDENTITY_METRICS_LEAVES <? N.of_nat (length leaves) then Err InconsistentSnapshot
  else
    leaves ← try_map normalize_leaf leaves;
    let leaves := sort_by (fun a b => str_cmp (ml_address a) (ml_address b)) leaves in
    _ ← try_fold check_boundary (∅, None) leaves;
    hashes ← try_map hash_identity_metrics_leaf leaves;
    let root := committed_merkle_root (metrics_merkle_root hashes) (N.of_nat (length hashes)) in
    Ok {| bm_root := hex_encode root; bm_leaves := leaves;
          bm_proofs := foldl (fun proofs '(address, proof) => <[address := proof]> proofs) ∅
            (imap (fun index leaf => (ml_address leaf, metrics_proof leaves hashes index leaf)) leaves) |}.

Definition verify_identity_metrics_proof (proof : GovernanceIdentityMetricsProofV1) (expected_root : string)
    : checked unit :=
  _ ← validate_identity_leaf (mp_leaf proof);
  address ← normalize_address (ml_address (mp_leaf proof));
  if negb (String.eqb (ml_address (mp_leaf proof)) address) || (mp_leaf_count proof =? 0)
     || (mp_leaf_count proof <=? mp_index proof)
  then Err InvalidProof
  else
    expected_root ← ok_or InvalidProof (decode_hash expected_root);
    if negb (Nat.eqb (length (mp_siblings proof)) (tree_levels (mp_leaf_count proof))) then Err InvalidProof
    else
      current ← hash_identity_metrics_leaf (mp_leaf proof);
      siblings ← try_map (fun s => ok_or InvalidProof (decode_hash s)) (mp_siblings proof);
      current ← ok_or InvalidProof (climb hash_merkle_node current (mp_index proof) (mp_leaf_count proof) siblings);
      if bool_decide (committed_merkle_root current (mp_leaf_count proof) <> expected_root) then Err InvalidProof
      else Ok tt.

(** The loop over the source block hashes. *)
Definition check_source_hash (seen : gset string) (source_hash : string) : checked (gset string) :=
  _ ← ok_or InvalidSnapshotPackage (decode_hash source_hash);
  if bool_decide (source_hash ∈ seen) then Err InvalidSnapshotPackage else Ok ({[source_hash]} ∪ seen).

Definition check_snapshot_leaf (value : IdentityMetricsSnapshotV1) (leaf : GovernanceIdentityMetricsLeafV1) : checked unit :=
  if negb (ml_source_epoch leaf =? ms_source_epoch value)
     || negb (ml_source_block_height leaf =? ms_source_block_height value)
     || negb (String.eqb (ml_source_block_hash leaf) (ms_source_block_hash value))
  then Err InconsistentSnapshot else Ok tt.

Definition validate_identity_metrics_snapshot (value : IdentityMetricsSnapshotV1) : checked unit :=
  if negb (ms_schema_version value =? 1) || (ms_source_block_height value <? ms_replay_start_height value)
     || (MAX_IDENTITY_METRICS_LEAVES <? N.of_nat (length (ms_leaves value)))
     || (MAX_SOURCE_BLOCK_HASHES <? N.of_nat (length (ms_source_block_hashes value)))
  then Err InvalidSnapshotPackage
  else
    _ ← ok_or InvalidSnapshotPackage (decode_hash (ms_source_block_hash value));
    _ ← ok_or InvalidSnapshotPackage (decode_hash (ms_replay_commitment value));
    _ ← ok_or InvalidSnapshotPackage (decode_hash (ms_merkle_root value));
    if bool_decide (last (ms_source_block_hashes value) <> Some (ms_source_block_hash value))
    then Err InvalidSnapshotPackage
    else
      _ ← try_fold check_source_hash ∅ (ms_source_block_hashes value);
      _ ← try_for_each (check_snapshot_leaf value) (ms_leaves value);
      rebuilt ← build_identity_metrics_snapshot (ms_leaves value);
      if bool_decide (bm_leaves rebuilt <> ms_leaves value) || negb (String.eqb (bm_root rebuilt) (ms_merkle_root value))
      then Err InconsistentSnapshot
      else Ok tt.

Section packages.
Context `{CidCrate, DagCbor CarHeader, DagCbor IdentityMetricsSnapshotV1}.

Definition package_identity_metrics_snapshot (value : IdentityMetricsSnapshotV1)
    : checked (DagCborPackage IdentityMetricsSnapshotV1) :=
  _ ← validate_identity_metrics_snapshot value;
  map_err (fun _ => InvalidSnapshotPackage) (package_dag_cbor value).

Definition verify_identity_metrics_snapshot_car (b : bytes) : checked (DagCborPackage IdentityMetricsSnapshotV1) :=
  package ← map_err (fun _ => InvalidSnapshotPackage) (verify_dag_cbor_car (T := IdentityMetricsSnapshotV1) b);
  _ ← validate_identity_metrics_snapshot (package_value package);
  Ok package.
End packages.
End metrics.

(** ** Fixed-width encodings *)

Lemma be_bytes_inj k : forall n m, n < 256 ^ N.of_nat k -> m < 256 ^ N.of_nat k -> be_bytes k n = be_bytes k m -> n = m.
Proof.
  induction k as [|k IH]; intros n m Hn Hm Heq; [cbn in *; lia|].
  cbn [be_bytes] in Heq. apply app_inj_2 in Heq as [Hhi Hlo]; [|done]. rewrite Nat2N.inj_succ, N.pow_succ_r' in Hn, Hm.
  rewrite !N.shiftr_div_pow2 in Hhi. change (2 ^ 8) with 256 in Hhi.
  assert (forall x, Byte.to_N (default x00 (Byte.of_N (N.land x 255))) = x mod 256) as Hbyte.
  { intros x. change 255 with (N.ones 8). rewrite N.land_ones. apply u8_to_N. }
  injection Hlo as Hlo. apply (f_equal Byte.to_N) in Hlo. rewrite !Hbyte in Hlo.
  apply IH in Hhi; [|apply N.Div0.div_lt_upper_bound; lia..].
  rewrite (N.div_mod n 256), (N.div_mod m 256), Hhi, Hlo by done. done.
Qed.

Lemma be_bytes_inj_64 n m : fits 64 n -> fits 64 m -> be_bytes 8 n = be_bytes 8 m -> n = m.
Proof. unfold fits. replace (2 ^ 64) with (256 ^ N.of_nat 8) by (vm_compute; reflexivity). apply be_bytes_inj. Qed.

Lemma be_bytes_inj_16 n m : fits 16 n -> fits 16 m -> be_bytes 2 n = be_bytes 2 m -> n = m.
Proof. unfold fits. replace (2 ^ 16) with (256 ^ N.of_nat 2) by (vm_compute; reflexivity). apply be_bytes_inj. Qed.

Section metrics_lemmas.
Context `{Hashing, !HexLaws, !HashLaws}.

Lemma normalize_address_Ok v a :
  normalize_address v = Ok a <-> exists b, length b = 20%nat /\ a = "0x" +:+ hex_encode b /\
    exists raw, v = "0x" +:+ raw /\ hex_decode raw = Ok b.
Proof.
  unfold normalize_address. split.
  - intros Hn. res_inv. bool_inv. match goal with Hp : strip_prefix _ _ = Some _ |- _ => apply strip_prefix_Some in Hp end.
    subst. eauto 10.
  - intros (b & Hlen & -> & raw & -> & Hraw). rewrite (proj2 (strip_prefix_Some _ _ _) eq_refl). cbn [mbind result_bind ok_or].
    rewrite Hraw. cbn [mbind result_bind map_err]. by rewrite Hlen.
Qed.

(** A normalised address is the text of its bytes. *)
Lemma decode_normalized a v : normalize_address v = Ok a ->
  exists b, length b = 20%nat /\ a = "0x" +:+ hex_encode b /\ decode_address v = Ok b /\ decode_address a = Ok b /\
    normalize_address a = Ok a.
Proof.
  intros Hn. pose proof Hn as (b & Hlen & -> & raw & -> & Hraw)%normalize_address_Ok. exists b.
  assert (normalize_address ("0x" +:+ hex_encode b) = Ok ("0x" +:+ hex_encode b)) as Ha.
  { apply normalize_address_Ok. exists b. split_and!; [done..|]. eauto using hex_decode_encode. }
  assert (hex_decode (drop_bytes 2 ("0x" +:+ hex_encode b)) = Ok b) as Hd by apply hex_decode_encode.
  unfold decode_address. rewrite Hn, Ha. cbn [mbind result_bind]. rewrite Hd. cbn. by rewrite Hlen.
Qed.

Lemma decode_hash_Some s b : decode_hash s = Some b <-> s = hex_encode b /\ length b = 32%nat.
Proof.
  unfold decode_hash. split.
  - destruct (_ || _) eqn:Hif; [done|]. bool_inv. destruct (hex_decode s) as [b'|] eqn:Hs; [|done].
    destruct (Nat.eqb_spec (length b') 32); [|done]. intros [= <-]. split; [|done].
    apply hex_decode_iff in Hs. rewrite <-Hs. clear Hs.
    assert (all_bytes is_lower_hex_byte s = true) as Hall.
    { unfold any_bytes in *. match goal with Ha : negb _ = false |- _ => apply negb_false_iff in Ha; rewrite <-Ha end.
      clear. induction s as [|c s IH]; cbn; [done|]. by rewrite negb_involutive, IH. }
    clear -Hall. induction s as [|c s IH]; [done|]. cbn in *. apply andb_true_iff in Hall as [Hc Hs].
    unfold to_ascii_lowercase in *. cbn. rewrite <-(IH Hs). f_equal.
    destruct c as [[] [] [] [] [] [] [] []]; done.
  - intros [-> Hlen]. rewrite hex_encode_length, Hlen. cbn [orb negb Nat.eqb Nat.mul Nat.add].
    rewrite hex_decode_encode, Hlen. destruct (any_bytes _ _) eqn:Hany; [|done]. exfalso.
    assert (all_bytes is_lower_hex_byte (hex_encode b) = true) as Hall.
    { pose proof (hex_encode_digits b) as Hd. pose proof (hex_encode_lower b) as Hl. unfold to_ascii_lowercase in Hl.
      revert Hd Hl. generalize (hex_encode b). clear. induction s as [|c s IH]; [done|]. cbn.
      intros [Hc Hs]%andb_true_iff [= Hlc Hls]. rewrite (IH Hs Hls), andb_true_r.
      destruct c as [[] [] [] [] [] [] [] []]; done. }
    clear -Hall Hany. unfold any_bytes in Hany. apply negb_true_iff in Hany.
    assert (all_bytes (fun c => negb (negb (is_lower_hex_byte c))) (hex_encode b) = true) as Hc; [|congruence].
    revert Hall. generalize (hex_encode b). clear. induction s as [|c s IH]; [done|]. cbn.
    intros [Hc Hs]%andb_true_iff. by rewrite negb_involutive, Hc, IH.
Qed.

(** The widths of the source's integer fields. *)
Definition leaf_widths (leaf : GovernanceIdentityMetricsLeafV1) : Prop :=
  fits 64 (ml_total_finalized_authored_flips leaf) /\ fits 64 (ml_total_consensus_reported_authored_flips leaf) /\
  fits 16 (ml_flip_trust_bps leaf) /\ fits 16 (ml_source_epoch leaf) /\ fits 64 (ml_source_block_height leaf).

Definition normalized (leaf : GovernanceIdentityMetricsLeafV1) : Prop :=
  normalize_address (ml_address leaf) = Ok (ml_address leaf).

Lemma state_byte_inj s s' b : state_byte s = Ok b -> state_byte s' = Ok b -> s = s'.
Proof. by destruct s, s'; cbn; intros [= <-] [=]. Qed.

Lemma Ok_inj {E A} (a b : A) : Ok (E := E) a = Ok b -> a = b.
Proof. by intros [= ->]. Qed.

Definition leaf_layout (leaf : GovernanceIdentityMetricsLeafV1) (address block_hash : bytes) (state : byte) : bytes :=
  METRICS_LEAF_DOMAIN ++ address ++ [state] ++ be_bytes 8 (ml_total_finalized_authored_flips leaf) ++
  be_bytes 8 (ml_total_consensus_reported_authored_flips leaf) ++ be_bytes 2 (ml_flip_trust_bps leaf) ++
  be_bytes 2 (ml_source_epoch leaf) ++ be_bytes 8 (ml_source_block_height leaf) ++ block_hash.

Lemma metrics_leaf_data_Ok l d : metrics_leaf_data l = Ok d ->
  validate_identity_leaf l = Ok tt /\
  exists address block_hash state, decode_address (ml_address l) = Ok address /\
    decode_hash (ml_source_block_hash l) = Some block_hash /\ state_byte (ml_identity_state l) = Ok state /\
    d = leaf_layout l address block_hash state.
Proof.
  unfold metrics_leaf_data. intros ([] & Hv & (address & Ha & (bh & Hb%ok_or_Ok & (st & Hs & <-%Ok_inj)%bind_Ok)%bind_Ok)%bind_Ok)%bind_Ok.
  eauto 10.
Qed.

Lemma metrics_leaf_data_inj l l' d :
  metrics_leaf_data l = Ok d -> metrics_leaf_data l' = Ok d -> leaf_widths l -> leaf_widths l' ->
  normalized l -> normalized l' -> l = l'.
Proof.
  intros (_ & a & bh & st & Hda & Hbh & Hst & ->)%metrics_leaf_data_Ok
    (_ & a' & bh' & st' & Hda' & Hbh' & Hst' & Hd)%metrics_leaf_data_Ok
    (W1 & W2 & W3 & W4 & W5) (W1' & W2' & W3' & W4' & W5') Hn Hn'.
  apply decode_normalized in Hn as (b & Hb & Hal & Hdb & _). apply decode_normalized in Hn' as (b' & Hb' & Hal' & Hdb' & _).
  rewrite Hda in Hdb. rewrite Hda' in Hdb'. apply Ok_inj in Hdb as <-, Hdb' as <-.
  apply decode_hash_Some in Hbh as [Hbh Hbl], Hbh' as [Hbh' Hbl']. unfold leaf_layout in Hd.
  apply app_inv_head in Hd.
  apply app_inj_1 in Hd as [<- Hd]; [|by rewrite Hb, Hb']. apply app_inj_1 in Hd as [[= <-] Hd]; [|done].
  do 5 (apply app_inj_1 in Hd as [? Hd]; [|by rewrite !be_bytes_length]).
  repeat match goal with
  | Hb : be_bytes 8 _ = be_bytes 8 _ |- _ => apply be_bytes_inj_64 in Hb; [|assumption..]
  | Hb : be_bytes 2 _ = be_bytes 2 _ |- _ => apply be_bytes_inj_16 in Hb; [|assumption..]
  end.
  destruct l, l'; cbn [ml_address ml_identity_state ml_total_finalized_authored_flips
    ml_total_consensus_reported_authored_flips ml_flip_trust_bps ml_source_epoch ml_source_block_height
    ml_source_block_hash] in *. subst. f_equal. eapply state_byte_inj; eauto.
Qed.

(** ** What a built snapshot contains *)

Lemma foldl_insert_lookup {V} (entries : list (string * V)) m k v :
  NoDup (map fst entries) -> (k, v) ∈ entries ->
  foldl (fun m '(k, v) => <[k := v]> m) (m : gmap string V) entries !! k = Some v.
Proof.
  revert m. induction entries as [|[k' v'] entries IH]; intros m Hnd Hin; [by apply elem_of_nil in Hin|].
  cbn in *. apply NoDup_cons in Hnd as [Hk Hnd]. apply elem_of_cons in Hin as [[= -> ->]|Hin]; [|by apply IH].
  clear IH. assert (forall m : gmap string V, m !! k' = Some v' ->
    foldl (fun m '(k, v) => <[k := v]> m) m entries !! k' = Some v') as Hgo; [|apply Hgo, lookup_insert_eq].
  clear Hnd. induction entries as [|[k'' v''] entries IH]; intros m' Hm; [done|]. cbn in *.
  apply not_elem_of_cons in Hk as [Hne Hk]. apply IH; [done|]. by rewrite lookup_insert_ne.
Qed.

Lemma map_fst_imap {A K V} (g : A -> K) (h : nat -> A -> V) l : map fst (imap (fun i x => (g x, h i x)) l) = map g l.
Proof. revert h. induction l as [|x l IH]; intros h; [done|]. cbn. f_equal. apply (IH (fun i => h (S i))). Qed.

Lemma normalize_leaf_Ok l l' : normalize_leaf l = Ok l' ->
  normalized l' /\ (leaf_widths l -> leaf_widths l').
Proof.
  unfold normalize_leaf. intros (a & Ha & (_ & _ & <-%Ok_inj)%bind_Ok)%bind_Ok.
  apply decode_normalized in Ha as (_ & _ & _ & _ & _ & Ha). done.
Qed.

Lemma check_boundary_NoDup leaves st :
  try_fold check_boundary (∅, None) leaves = Ok st -> NoDup (map ml_address leaves).
Proof.
  intros Hf. enough (st.1 = list_to_set (map ml_address leaves) /\ NoDup (map ml_address leaves)) by tauto.
  revert Hf. apply (try_fold_inv check_boundary (fun leaves st =>
    st.1 = list_to_set (map ml_address leaves) /\ NoDup (map ml_address leaves))); [by split; [|constructor]|].
  intros don l [addrs b] [addrs' b'] [Ha Hnd] Hstep. cbn [fst] in Ha. subst addrs. unfold check_boundary in Hstep. res_inv. bool_inv.
  simplify_eq. cbn [fst]. rewrite map_app, list_to_set_app_L. cbn. split; [set_solver|].
  apply NoDup_app. split_and!; [done| |apply NoDup_singleton]. set_solver.
Qed.

Lemma leaf_hash_Ok l h : hash_identity_metrics_leaf l = Ok h <-> exists d, metrics_leaf_data l = Ok d /\ h = sha256 d.
Proof.
  unfold hash_identity_metrics_leaf. rewrite bind_Ok. split; intros (d & Hd & Hh); exists d; split; try done.
  - by apply Ok_inj in Hh.
  - by subst.
Qed.

Lemma build_snapshot_Ok leaves s :
  build_identity_metrics_snapshot leaves = Ok s ->
  exists hashes, Forall2 (fun l h => hash_identity_metrics_leaf l = Ok h) (bm_leaves s) hashes /\
    Forall normalized (bm_leaves s) /\ NoDup (map ml_address (bm_leaves s)) /\
    (Forall leaf_widths leaves -> Forall leaf_widths (bm_leaves s)) /\
    N.of_nat (length (bm_leaves s)) <= MAX_IDENTITY_METRICS_LEAVES /\
    bm_root s = hex_encode (committed_merkle_root (metrics_merkle_root hashes) (N.of_nat (length hashes))) /\
    forall i l, bm_leaves s !! i = Some l -> bm_proofs s !! ml_address l = Some (metrics_proof (bm_leaves s) hashes i l).
Proof.
  unfold build_identity_metrics_snapshot. destruct (N.ltb_spec MAX_IDENTITY_METRICS_LEAVES (N.of_nat (length leaves))) as [|Hmax]; [done|].
  intros (norm & Hnorm%try_map_Ok & (st & Hst & (hashes & Hh%try_map_Ok & <-%Ok_inj)%bind_Ok)%bind_Ok)%bind_Ok.
  exists hashes. cbn [bm_leaves bm_root bm_proofs]. set (cmp := fun a b => str_cmp (ml_address a) (ml_address b)) in *.
  pose proof (sort_by_perm cmp norm) as Hperm. pose proof (check_boundary_NoDup _ _ Hst) as Hnd.
  split_and!; try done.
  - rewrite Hperm. apply Forall_forall. intros l Hl. apply list_elem_of_lookup in Hl as [i Hi].
    destruct (Forall2_lookup_r _ _ _ _ _ Hnorm Hi) as (l0 & _ & Hl0). by apply normalize_leaf_Ok in Hl0 as [? _].
  - intros Hw. rewrite Hperm. apply Forall_forall. intros l Hl. apply list_elem_of_lookup in Hl as [i Hi].
    destruct (Forall2_lookup_r _ _ _ _ _ Hnorm Hi) as (l0 & Hl0i & Hl0). apply normalize_leaf_Ok in Hl0 as [_ Hl0].
    by apply Hl0, (Forall_lookup_1 _ _ _ _ Hw Hl0i).
  - rewrite Hperm. by rewrite <-(Forall2_length _ _ _ Hnorm).
  - intros i l Hl. apply foldl_insert_lookup.
    + by rewrite map_fst_imap.
    + apply list_elem_of_lookup. exists i. by rewrite list_lookup_imap, Hl.
Qed.

Lemma leaf_hashes_digests leaves hashes :
  Forall2 (fun l h => hash_identity_metrics_leaf l = Ok h) leaves hashes -> Forall (fun h => length h = 32%nat) hashes.
Proof.
  intros Hh. apply Forall_forall. intros h [i Hi]%list_elem_of_lookup.
  destruct (Forall2_lookup_r _ _ _ _ _ Hh Hi) as (l & _ & (d & _ & ->)%leaf_hash_Ok). apply sha256_length.
Qed.

Lemma try_map_decode_hash hs : Forall (fun h => length h = 32%nat) hs ->
  try_map (fun s => ok_or InvalidProof (decode_hash s)) (map hex_encode hs) = Ok hs.
Proof.
  intros Hd. apply try_map_Ok. induction Hd as [|h hs Hh Hd IH]; [constructor|]. cbn. constructor; [|done].
  by rewrite (proj2 (decode_hash_Some _ h)).
Qed.

(** (roundtrip). Every leaf of a built snapshot has a proof under its address, and that proof is
    accepted against the root of the snapshot. *)
Theorem metrics_proofs_accepted leaves s leaf :
  build_identity_metrics_snapshot leaves = Ok s -> leaf ∈ bm_leaves s ->
  exists proof, bm_proofs s !! ml_address leaf = Some proof /\ mp_leaf proof = leaf /\
    verify_identity_metrics_proof proof (bm_root s) = Ok tt.
Proof.
  intros (hashes & Hh & Hnorm & _ & _ & _ & -> & Hproofs)%build_snapshot_Ok [i Hi]%list_elem_of_lookup.
  eexists. split; [by apply Hproofs|]. split; [done|].
  destruct (Forall2_lookup_l _ _ _ _ _ Hh Hi) as (h & Hih & Hlh).
  pose proof (Forall2_length _ _ _ Hh) as Hlen. pose proof (lookup_lt_Some _ _ _ Hi) as Hlt.
  pose proof (leaf_hashes_digests _ _ Hh) as Hdig.
  destruct (climb_siblings hash_merkle_node _ _ _ Hih) as [Hclimb Hsib].
  pose proof Hlh as (d & (Hv & _)%metrics_leaf_data_Ok & _)%leaf_hash_Ok.
  pose proof (Forall_lookup_1 _ _ _ _ Hnorm Hi) as Hn. unfold normalized in Hn.
  unfold verify_identity_metrics_proof, metrics_proof. cbn [mp_leaf mp_index mp_leaf_count mp_siblings].
  rewrite Hv. cbn [mbind result_bind]. rewrite Hn. cbn [mbind result_bind]. rewrite String.eqb_refl.
  destruct (N.eqb_spec (N.of_nat (length (bm_leaves s))) 0); [lia|].
  destruct (N.leb_spec (N.of_nat (length (bm_leaves s))) (N.of_nat i)); [lia|]. cbn [negb orb].
  rewrite (proj2 (decode_hash_Some _ (committed_merkle_root (metrics_merkle_root hashes) (N.of_nat (length hashes)))))
    by (split; [done|apply sha256_length]). cbn [ok_or mbind result_bind].
  rewrite length_map, Hlen, Hsib, Nat.eqb_refl. cbn [negb]. rewrite Hlh. cbn [mbind result_bind].
  rewrite try_map_decode_hash by (apply (tree_siblings_digests metrics_node_in); [done|by rewrite <-Hlen]).
  cbn [mbind result_bind]. rewrite Hclimb. cbn [ok_or mbind result_bind].
  rewrite bool_decide_false; [done|]. intros []. destruct hashes; [cbn in Hlen; lia|]. done.
Qed.

(** ** Accepted proofs are for leaves of the snapshot *)

Definition leaf_input (leaf : GovernanceIdentityMetricsLeafV1) : bytes :=
  match metrics_leaf_data leaf with Ok d => d | Err _ => [] end.

(** Everything that building a snapshot and checking a proof pass to SHA-256. *)
Definition snapshot_inputs (s : BuiltIdentityMetricsSnapshot) : list bytes :=
  let hashes := map (fun l => sha256 (leaf_input l)) (bm_leaves s) in
  metrics_root_in (metrics_merkle_root hashes) (N.of_nat (length hashes)) ::
  map leaf_input (bm_leaves s) ++ tree_inputs hash_merkle_node metrics_node_in hashes.

Definition proof_inputs (p : GovernanceIdentityMetricsProofV1) : list bytes :=
  let current := sha256 (leaf_input (mp_leaf p)) in
  let siblings := omap decode_hash (mp_siblings p) in
  leaf_input (mp_leaf p) ::
  metrics_root_in (default [] (climb hash_merkle_node current (mp_index p) (mp_leaf_count p) siblings)) (mp_leaf_count p) ::
  climb_inputs hash_merkle_node metrics_node_in current (mp_index p) siblings.

Lemma metrics_node_in_inj a b c d : length a = 32%nat -> length c = 32%nat ->
  metrics_node_in a b = metrics_node_in c d -> a = c /\ b = d.
Proof. intros Ha Hc Heq. apply app_inv_head in Heq. apply app_inj_1 in Heq; [done|congruence]. Qed.

Lemma hashed_leaves leaves hashes :
  Forall2 (fun l h => hash_identity_metrics_leaf l = Ok h) leaves hashes ->
  hashes = map (fun l => sha256 (leaf_input l)) leaves.
Proof.
  induction 1 as [|l h leaves hashes (d & Hd & ->)%leaf_hash_Ok Hf IH]; [done|]. cbn. f_equal; [|done].
  unfold leaf_input. by rewrite Hd.
Qed.

Lemma verify_proof_Ok proof root :
  verify_identity_metrics_proof proof (hex_encode root) = Ok tt ->
  normalized (mp_leaf proof) /\ mp_index proof < mp_leaf_count proof /\
  hash_identity_metrics_leaf (mp_leaf proof) = Ok (sha256 (leaf_input (mp_leaf proof))) /\
  let siblings := omap decode_hash (mp_siblings proof) in
  Forall (fun h => length h = 32%nat) siblings /\ length siblings = tree_levels (mp_leaf_count proof) /\
  exists current, climb hash_merkle_node (sha256 (leaf_input (mp_leaf proof))) (mp_index proof) (mp_leaf_count proof) siblings
    = Some current /\ committed_merkle_root current (mp_leaf_count proof) = root.
Proof.
  unfold verify_identity_metrics_proof. intros ([] & Hv & (a & Ha & Hrest)%bind_Ok)%bind_Ok.
  destruct (_ || _) eqn:Hif in Hrest; [done|]. bool_inv. apply bind_Ok in Hrest as (r & [Hr _]%ok_or_Ok%decode_hash_Some & Hrest).
  apply hex_encode_inj in Hr as ->. destruct (negb _) eqn:Hlen in Hrest; [done|]. bool_inv.
  apply bind_Ok in Hrest as (h & Hh & (sibs & Hs%try_map_Ok & (cur & Hc%ok_or_Ok & Hrest)%bind_Ok)%bind_Ok).
  assert (h = sha256 (leaf_input (mp_leaf proof))) as ->.
  { pose proof Hh as (d & Hd & ->)%leaf_hash_Ok. unfold leaf_input. by rewrite Hd. }
  assert (omap decode_hash (mp_siblings proof) = sibs /\ length sibs = length (mp_siblings proof) /\
          Forall (fun h => length h = 32%nat) sibs) as (-> & Hl & Hd).
  { clear -Hs H0. induction Hs as [|s b ss bs Hb Hs (IH1 & IH2 & IH3)]; [by repeat constructor|]. apply ok_or_Ok in Hb. cbn.
    rewrite Hb. cbn. rewrite IH1, IH2. apply decode_hash_Some in Hb as [_ ?]. by repeat constructor. }
  destruct (bool_decide _) eqn:Hroot in Hrest; [done|]. bool_inv. apply dec_stable in Hroot.
  split_and!; [unfold normalized; congruence|done|done|done|congruence|eauto].
Qed.

(** (safety). A proof that is accepted against the root of a snapshot is for a leaf of that
    snapshot, unless two of the strings hashed on the way collide. *)
Theorem metrics_proof_sound leaves s proof :
  build_identity_metrics_snapshot leaves = Ok s -> Forall leaf_widths leaves -> leaf_widths (mp_leaf proof) ->
  fits 64 (mp_leaf_count proof) -> verify_identity_metrics_proof proof (bm_root s) = Ok tt ->
  mp_leaf proof ∈ bm_leaves s \/ collision_among (snapshot_inputs s ++ proof_inputs proof).
Proof.
  intros Hb Hw Hwp Hcount Hver. destruct (collision_free_or (snapshot_inputs s ++ proof_inputs proof)) as [Hfree|]; [left|by right].
  apply build_snapshot_Ok in Hb as (hashes & Hh & Hnorm & _ & Hw' & Hmax & Hroot & _). specialize (Hw' Hw).
  rewrite Hroot in Hver. apply verify_proof_Ok in Hver as (Hn & Hidx & Hlh & Hdig & Hlen & cur & Hclimb & Hcur).
  pose proof (hashed_leaves _ _ Hh) as Hhs. unfold snapshot_inputs, proof_inputs in Hfree. cbv zeta in Hfree.
  rewrite <-Hhs, Hclimb in Hfree. cbn [default] in Hfree.
  assert (metrics_root_in cur (mp_leaf_count proof) = metrics_root_in (metrics_merkle_root hashes) (N.of_nat (length hashes))) as Heq
    by (apply Hfree; [set_solver..|done]).
  apply app_inv_head, app_inj_1 in Heq as [Hc ->]; [|by rewrite !be_bytes_length].
  pose proof (Forall2_length _ _ _ Hh) as Hll.
  apply be_bytes_inj_64 in Hc; [|done|rewrite <-Hll; eapply N.le_lt_trans; [exact Hmax|done]].
  assert (exists i, mp_index proof = N.of_nat i) as [i Hi] by (exists (N.to_nat (mp_index proof)); lia).
  rewrite Hi, Hc in *. assert (i < length hashes)%nat as Hil by lia.
  destruct hashes as [|h0 hashes0] eqn:Hne; [cbn in Hil; lia|]. rewrite <-Hne in *.
  assert (metrics_merkle_root hashes = tree_root hash_merkle_node hashes) as Hroot' by by rewrite Hne.
  assert (hashes !! i = Some (sha256 (leaf_input (mp_leaf proof)))) as Hlook.
  { eapply (climb_sound metrics_node_in metrics_node_in_inj (fun x => x ∈ _) Hfree); try done.
    - by eapply leaf_hashes_digests.
    - apply sha256_length.
    - apply Forall_forall. intros x Hx. set_solver.
    - apply Forall_forall. intros x Hx. set_solver.
    - rewrite Hroot' in Hclimb. exact Hclimb. }
  destruct (Forall2_lookup_r _ _ _ _ _ Hh Hlook) as (l & Hl & (d & Hd & Heqh)%leaf_hash_Ok).
  apply list_elem_of_lookup. exists i. rewrite Hl. f_equal.
  pose proof Hlh as (d' & Hd' & _)%leaf_hash_Ok.
  assert (d = d') as ->.
  { apply Hfree.
    - apply elem_of_app. left. apply list_elem_of_further, elem_of_app. left. apply list_elem_of_fmap.
      exists l. unfold leaf_input. rewrite Hd. split; [done|]. by eapply list_elem_of_lookup_2.
    - assert (leaf_input (mp_leaf proof) = d') as <- by (unfold leaf_input; by rewrite Hd'). set_solver.
    - rewrite <-Heqh. unfold leaf_input. by rewrite Hd'. }
  apply (metrics_leaf_data_inj l (mp_leaf proof) d'); try done.
  - by apply (Forall_lookup_1 _ _ _ _ Hw' Hl).
  - by apply (Forall_lookup_1 _ _ _ _ Hnorm Hl).
Qed.
End metrics_lemmas.

(** ** A concrete snapshot *)

Definition sample_leaf (address : string) (state : IdentityState) : GovernanceIdentityMetricsLeafV1 := {|
  ml_address := address; ml_identity_state := state; ml_total_finalized_authored_flips := 30;
  ml_total_consensus_reported_authored_flips := 0;
  ml_flip_trust_bps := match flip_trust_bps 30 0 with Ok t => t | Err _ => 0 end;
  ml_source_epoch := 7; ml_source_block_height := 1000;
  ml_source_block_hash := "00000000000000000000000000000000000000000000000000000000000000aa" |}.

Definition sample_leaves : list GovernanceIdentityMetricsLeafV1 :=
  [sample_leaf "0x2222222222222222222222222222222222222222" Human;
   sample_leaf "0x1111111111111111111111111111111111111111" Verified;
   sample_leaf "0x3333333333333333333333333333333333333333" Newbie].

#[local] Existing Instance hashing_c.
#[local] Existing Instance hex_laws_c.
#[local] Existing Instance hash_laws_c.

Abbreviation sample_snapshot := (build_identity_metrics_snapshot sample_leaves).

Lemma metrics_proofs_accepted_witness :
  exists s leaf proof, sample_snapshot = Ok s /\ leaf ∈ bm_leaves s /\
    verify_identity_metrics_proof proof (bm_root s) = Ok tt.
Proof.
  assert (match sample_snapshot with Ok s => negb (Nat.eqb (length (bm_leaves s)) 0) | Err _ => false end = true) as Hrun
    by (vm_compute; reflexivity).
  destruct sample_snapshot as [s|] eqn:Hs; [|done]. destruct (bm_leaves s) as [|leaf rest] eqn:Hl; [done|].
  assert (leaf ∈ bm_leaves s) as Hin by (rewrite Hl; left).
  destruct (metrics_proofs_accepted _ _ leaf Hs Hin) as (proof & _ & _ & Hv).
  exists s, leaf, proof. done.
Defined.

Definition widths_bool (leaf : GovernanceIdentityMetricsLeafV1) : bool :=
  (ml_total_finalized_authored_flips leaf <? 2 ^ 64) && (ml_total_consensus_reported_authored_flips leaf <? 2 ^ 64) &&
  (ml_flip_trust_bps leaf <? 2 ^ 16) && (ml_source_epoch leaf <? 2 ^ 16) && (ml_source_block_height leaf <? 2 ^ 64).

Lemma widths_by_computation leaf : widths_bool leaf = true -> leaf_widths leaf.
Proof. unfold widths_bool. rewrite !andb_true_iff, !N.ltb_lt. unfold leaf_widths, fits. tauto. Qed.

Lemma metrics_proof_sound_witness :
  exists s proof, sample_snapshot = Ok s /\ verify_identity_metrics_proof proof (bm_root s) = Ok tt /\
    (mp_leaf proof ∈ bm_leaves s \/ collision_among (snapshot_inputs s ++ proof_inputs proof)).
Proof.
  assert (match sample_snapshot with
          | Ok s => match btree_values (bm_proofs s) with
                    | p :: _ => is_ok (verify_identity_metrics_proof p (bm_root s)) && widths_bool (mp_leaf p)
                                && (mp_leaf_count p <? 2 ^ 64)
                    | [] => false end
          | Err _ => false end = true) as Hrun by (vm_compute; reflexivity).
  destruct sample_snapshot as [s|] eqn:Hs; [|done]. destruct (btree_values (bm_proofs s)) as [|p rest]; [done|].
  apply andb_true_iff in Hrun as [[[[] Hv]%is_ok_Ok Hw]%andb_true_iff Hc%N.ltb_lt]. exists s, p. split_and!; [done..|].
  apply (metrics_proof_sound sample_leaves); try done.
  - repeat constructor; by vm_compute.
  - by apply widths_by_computation.
Defined.
