(* ===== verification/GovAttest.v ===== *)
(** * Attestations ([crates/governance-core/src/attestation.rs])

    The signed statements a proposal rests on: agent reviews, builds, data
    availability, audits, migration rehearsals and identity metrics, their checks,
    their packages and their detached authentication.  A package that verifies
    holds a valid attestation, and an authentication binds one attestation. *)
From S2P Require Import Prelude Order Text Crates Concrete GovText GovSource GovMetrics.
From Stdlib Require Import Ascii Strings.Byte.

Local Open Scope N_scope.

Definition CORE_ARTIFACT_SET_DOMAIN : bytes := byte_str "IDENA_GOV_CORE_ARTIFACT_SET_V1" ++ [x00].
Definition MIGRATION_REHEARSAL_DIGEST_DOMAIN : bytes := byte_str "IDENA_GOV_MIGRATION_REHEARSAL_V1" ++ [x00].
Definition MAX_PORTABLE_ARTIFACT_SIZE : N := 9007199254740991.
Definition MAX_REPOSITORY_CIDS : nat := 64.
Definition MAX_TOOL_VERSIONS : nat := 256.
Definition MAX_BUILD_ARTIFACTS : nat := 4096.
Definition MAX_VERIFIED_CIDS : nat := 4096.
Definition MAX_ARTIFACT_NAME_BYTES : nat := 128.
Definition MAX_CONTRACT_DAG_CBOR_BYTES : N := 65536.
Definition ATTESTATION_AUTHENTICATION_DOMAIN : bytes := byte_str "IDENA_GOV_ATTESTATION_AUTH_V1" ++ [x00].
Definition ATTESTATION_SIGNIN_PREFIX : string := "signin-pohw1-governance-attestation-".
Definition IDENA_RECOVERABLE_SIGNATURE_HEX_LEN : nat := 130.
Definition DETACHED_IDENA_SIGNATURE_AUTHENTICATION : string := "detached-idena-signature-v1".
Definition ON_CHAIN_SUBMITTER_AUTHENTICATION : string := "on-chain-submitter".
Definition EXTERNAL_AUDIT_ATTESTATION_DOMAIN : string := "external_audit_v1".
Definition MIGRATION_REHEARSAL_ATTESTATION_DOMAIN : string := "migration_rehearsal_v1".

(** ** Data *)

Record RepositoryCidV1 := { rc_repository : string; rc_cid : string }.

Record CommandExecutionV1 := {
  ce_command : string; ce_exit_code : Z; ce_stdout_sha256 : string; ce_stderr_sha256 : string }.

Inductive FindingSeverity := SeverityInfo | SeverityLow | SeverityMedium | SeverityHigh | SeverityCritical.

Record SecurityFindingV1 := {
  fi_severity : FindingSeverity; fi_summary : string; fi_evidence_cid : option string; fi_resolved : bool }.

Inductive ReviewVerdictV1 := ReviewApprove | ReviewReject | ReviewAbstain.
Inductive ExternalAuditVerdictV1 := AuditPass | AuditFail.

Record AgentReviewAttestationV1 := {
  ag_schema_version : N; ag_parent_ecosystem_cid : string; ag_candidate_ecosystem_cid : string;
  ag_patch_cid : string; ag_affected_repositories : list RepositoryCidV1; ag_model_identifier : string;
  ag_model_revision : option string; ag_provider_or_runtime_identifier : string; ag_model_family : string;
  ag_agent_policy_cid : string; ag_system_prompt_policy_cid : string; ag_tool_versions : gmap string string;
  ag_commands_executed : list CommandExecutionV1; ag_test_results_cid : string; ag_tests_passed : bool;
  ag_static_analysis_results_cid : string; ag_dependency_findings_cid : string;
  ag_security_findings : list SecurityFindingV1; ag_unresolved_critical_findings : N;
  ag_verdict : ReviewVerdictV1; ag_owner_idena_address : string; ag_reviewer_bond_atoms : string;
  ag_creation_block_or_timestamp : N; ag_authentication : string }.

Record BuildArtifactV1 := {
  ba_name : string; ba_cid : string; ba_sha256 : string; ba_size : N; ba_core : bool }.

Record BuildAttestationV1 := {
  bd_schema_version : N; bd_candidate_ecosystem_cid : string; bd_source_cids : list RepositoryCidV1;
  bd_toolchain_cid : string; bd_scope_evidence_cid : string; bd_builder_identity : string;
  bd_runtime_family : string; bd_architecture : string; bd_commands : list CommandExecutionV1;
  bd_test_results_cid : string; bd_tests_passed : bool; bd_sbom_cid : string;
  bd_artifacts : list BuildArtifactV1; bd_core_artifact_digest : string; bd_builder_bond_atoms : string;
  bd_creation_block_or_timestamp : N; bd_authentication : string }.

Record DataAvailabilityAttestationV1 := {
  da_schema_version : N; da_candidate_ecosystem_cid : string; da_pinset_cid : string; da_provider_id : string;
  da_operator_identity : string; da_verified_cids : list string; da_probe_result_cid : string;
  da_available : bool; da_observed_at_block_or_timestamp : N; da_expires_at_block : N;
  da_bond_atoms : string; da_authentication : string }.

Record ExternalAuditAttestationV1 := {
  ea_schema_version : N; ea_candidate_ecosystem_cid : string; ea_scope_evidence_cid : string;
  ea_auditor_identity : string; ea_auditor_organization_id : string; ea_audit_policy_cid : string;
  ea_report_cid : string; ea_independence_statement_cid : string;
  ea_covered_repository_cids : list RepositoryCidV1; ea_unresolved_critical_findings : N;
  ea_unresolved_high_findings : N; ea_verdict : ExternalAuditVerdictV1;
  ea_creation_block_or_timestamp : N; ea_authentication : string }.

Record MigrationRehearsalAttestationV1 := {
  mg_schema_version : N; mg_parent_ecosystem_cid : string; mg_candidate_ecosystem_cid : string;
  mg_scope_evidence_cid : string; mg_network_id : string; mg_governance_contract_address : string;
  mg_governance_contract_code_cid : string; mg_deployment_tx_hash : string; mg_deployment_block : N;
  mg_execution_proposal_id : string; mg_execution_tx_hash : string; mg_execution_block : N;
  mg_observed_candidate_ecosystem_cid : string; mg_rollback_proposal_id : string;
  mg_rollback_tx_hash : string; mg_rollback_block : N; mg_observed_rollback_ecosystem_cid : string;
  mg_state_snapshot_cid : string; mg_event_log_cid : string; mg_command_log_cid : string;
  mg_legacy_compatibility_report_cid : string; mg_governance_disabled_report_cid : string;
  mg_rehearsal_digest : string; mg_tests_passed : bool; mg_operator_identity : string;
  mg_runtime_family : string; mg_architecture : string; mg_creation_block_or_timestamp : N;
  mg_authentication : string }.

Record IdentityMetricsAttestationV1 := {
  im_schema_version : N; im_metrics_root : string; im_snapshot_cid : string; im_snapshot_sha256 : string;
  im_source_epoch : N; im_source_block_height : N; im_source_block_hash : string;
  im_replay_start_height : N; im_replay_commitment : string; im_indexer_implementation_cid : string;
  im_operator_idena_address : string; im_observed_at_block_or_timestamp : N; im_authentication : string }.

Record AttestationAuthenticationRequestV1 := {
  ar_schema_version : N; ar_attestation_kind : string; ar_attestation_cid : string;
  ar_attestation_sha256 : string; ar_candidate_ecosystem_cid : string; ar_identity : string;
  ar_binding_sha256 : string; ar_challenge : string }.

Record FinalizedOnChainAttestationReceiptV1 := {
  fr_schema_version : N; fr_chain_id : string; fr_contract_address : string; fr_transaction_hash : string;
  fr_transaction_block_height : N; fr_transaction_block_hash : string; fr_finalized_at_height : N;
  fr_finality_confirmations : N; fr_submitter_identity : string; fr_call_data_commitment : string;
  fr_success : bool }.

Inductive AttestationAuthenticationProofV1 :=
| IdenaSignature (signature_hex : string)
| FinalizedOnChainReceipt (receipt : FinalizedOnChainAttestationReceiptV1).

Record AttestationAuthenticationV1 := {
  au_schema_version : N; au_attestation_kind : string; au_attestation_cid : string;
  au_attestation_sha256 : string; au_candidate_ecosystem_cid : string; au_identity : string;
  au_binding_sha256 : string; au_proof : AttestationAuthenticationProofV1 }.

Record AttestationPackage `{CidCrate} (T : Type) := {
  ap_root_cid : CID; ap_root_sha256 : string; ap_value : T; ap_dag_cbor_bytes : bytes; ap_car_bytes : bytes }.
Arguments ap_root_cid {_ T}.
Arguments ap_root_sha256 {_ T}.
Arguments ap_value {_ T}.
Arguments ap_dag_cbor_bytes {_ T}.
Arguments ap_car_bytes {_ T}.

Inductive AttestationError := AttestationInvalid (m : string) | AttestationSource (e : SourceError).

#[global] Instance RepositoryCidV1_eq_dec : EqDecision RepositoryCidV1.
Proof. solve_decision. Defined.
#[global] Instance FindingSeverity_eq_dec : EqDecision FindingSeverity.
Proof. solve_decision. Defined.
#[global] Instance AttestationAuthenticationRequestV1_eq_dec : EqDecision AttestationAuthenticationRequestV1.
Proof. solve_decision. Defined.

(** ** Text and CID checks *)

Definition invalid {T} (message : string) : result AttestationError T := Err (AttestationInvalid message).

Abbreviation checked_att := (result AttestationError).

Section cids.
Context `{CidCrate}.

Definition validate_cid (value : string) : checked_att CID :=
  cid ← ok_or (AttestationInvalid ("invalid CID: " +:+ value)) (cid_from_str value);
  if negb (cid_v1 cid) || negb (cid_multihash cid =? SHA2_256_CODE) || negb (Nat.eqb (length (cid_digest cid)) 32)
     || negb (String.eqb (cid_text cid) value)
  then invalid "CID must be CIDv1 base32 with SHA2-256"
  else Ok cid.

Definition validate_raw_cid (value field : string) : checked_att CID :=
  cid ← validate_cid value;
  if negb (cid_codec cid =? 0x55) then invalid (field +:+ " must use the raw multicodec") else Ok cid.

Definition validate_dag_cbor_cid (value field : string) : checked_att CID :=
  cid ← validate_cid value;
  if negb (cid_codec cid =? 0x71) then invalid (field +:+ " must use the DAG-CBOR multicodec") else Ok cid.

Definition validate_content_cid (value : string) : checked_att CID :=
  cid ← validate_cid value;
  if negb ((cid_codec cid =? 0x55) || (cid_codec cid =? 0x71))
  then invalid "content CID must use the raw or DAG-CBOR multicodec"
  else Ok cid.
End cids.

Definition validate_sha256 (value : string) : checked_att unit :=
  if negb (Nat.eqb (String.length value) 64)
     || any_bytes (fun byte => negb (is_ascii_digit byte) && negb (in_range "a" "f" byte)) value
  then invalid "SHA-256 must be 64 lowercase hexadecimal characters"
  else Ok tt.

Definition validate_safe_label (value : string) (max_length : nat) (field : string) : checked_att unit :=
  if is_empty value || Nat.ltb max_length (String.length value) || negb (all_bytes is_safe_byte value)
  then invalid (field +:+ " is not a safe deterministic label")
  else Ok tt.

Definition validate_lower_label (value : string) (max_length : nat) (field : string) : checked_att unit :=
  if is_empty value || Nat.ltb max_length (String.length value) || negb (all_bytes is_lower_label_byte value)
  then invalid (field +:+ " is not a lowercase deterministic label")
  else Ok tt.

Definition validate_artifact_name (value : string) : checked_att unit :=
  if negb (portable_name MAX_ARTIFACT_NAME_BYTES value)
  then invalid "artifact name is not a portable deterministic label"
  else Ok tt.

Definition newline_or_tab (c : ascii) : bool := (N_of_ascii c =? 10) || (N_of_ascii c =? 9).

Definition validate_text (value : string) (minimum maximum : nat) (field : string) : checked_att unit :=
  if Nat.ltb (String.length value) minimum || Nat.ltb maximum (String.length value)
     || has_control newline_or_tab value
  then invalid (field +:+ " contains invalid text")
  else Ok tt.

Fixpoint strict_sorted_unique_loop (previous : option string) (seen : gset string) (values : list string) : bool :=
  match values with
  | [] => true
  | value :: values =>
      if match previous with Some item => negb (str_lt item value) | None => false end
         || bool_decide (value ∈ seen)
      then false
      else strict_sorted_unique_loop (Some value) ({[value]} ∪ seen) values
  end.

Definition strict_sorted_unique (values : list string) : bool := strict_sorted_unique_loop None ∅ values.

Definition validate_amount (value : string) : checked_att unit :=
  if is_empty value || Nat.ltb 39 (String.length value)
     || (Nat.ltb 1 (String.length value) && starts_with "0" value)
     || any_bytes (fun byte => negb (is_ascii_digit byte)) value
     || bool_decide (parse_uint 128 value = None)
  then invalid "atomic amount is invalid"
  else Ok tt.

Definition validate_authentication (value : string) : checked_att unit :=
  if negb (String.eqb value ON_CHAIN_SUBMITTER_AUTHENTICATION
           || String.eqb value DETACHED_IDENA_SIGNATURE_AUTHENTICATION)
  then invalid "authentication must declare an on-chain submitter or detached Idena signature"
  else Ok tt.

(** The characters allowed after a redacted value, [is_ascii_whitespace] included. *)
Definition is_redaction_boundary (value : ascii) : bool :=
  existsb (N.eqb (N_of_ascii value)) [9; 10; 12; 13; 32] ||
  existsb (N.eqb (N_of_ascii value)) [39; 34; 59; 124; 38; 41; 93; 125; 44].

(** The [while let] loop on the suffixes from [offset]; every pass moves past
    a needle, so the length of the text bounds it. *)
Fixpoint unredacted_loop (fuel : nat) (value lower needle : string) : bool :=
  match fuel with
  | O => false
  | S fuel =>
      match find needle lower with
      | None => false
      | Some relative =>
          let value_offset := (relative + String.length needle)%nat in
          let suffix := drop_bytes value_offset value in
          match strip_prefix "[REDACTED]" suffix with
          | None => true
          | Some rest =>
              match rest with
              | String character _ =>
                  if negb (is_redaction_boundary character) then true
                  else unredacted_loop fuel suffix (drop_bytes value_offset lower) needle
              | EmptyString => unredacted_loop fuel suffix (drop_bytes value_offset lower) needle
              end
          end
      end
  end.

Definition has_unredacted_assignment (value lower needle : string) : bool :=
  unredacted_loop (S (String.length lower)) value lower needle.

Definition reject_unredacted_secret (value : string) : checked_att unit :=
  let lower := to_ascii_lowercase value in
  let assignments := ["private_key="; "private-key="; "api_key="; "apikey="; "auth_token="; "access_token=";
                      "secret_key="; "--password="; "--token="]%string in
  if existsb (fun needle => has_unredacted_assignment value lower needle) assignments
     || existsb (fun needle => contains needle lower) ["tskey-"; "ghp_"; "github_pat_"]%string
  then invalid "command log appears to contain an unredacted secret"
  else Ok tt.

Definition validate_string_map (values : gmap string string) (field : string) : checked_att unit :=
  if Nat.eqb (size values) 0 || Nat.ltb MAX_TOOL_VERSIONS (size values)
  then invalid (field +:+ " must contain between 1 and 256 entries")
  else
    try_for_each (fun '(key, value) =>
      _ ← validate_safe_label key 80 field; validate_text value 1 160 field) (btree_entries values).

Definition validate_command (require_success : bool) (value : CommandExecutionV1) : checked_att unit :=
  if require_success && negb (ce_exit_code value =? 0)%Z
  then invalid "testsPassed contradicts a nonzero command exit code"
  else
    _ ← validate_text (ce_command value) 1 8192 "command";
    _ ← validate_sha256 (ce_stdout_sha256 value);
    _ ← validate_sha256 (ce_stderr_sha256 value);
    reject_unredacted_secret (ce_command value).

Definition validate_commands (values : list CommandExecutionV1) (require_success : bool) : checked_att unit :=
  if Nat.eqb (length values) 0 || Nat.ltb 2000 (length values)
  then invalid "command log must contain between 1 and 2000 commands"
  else try_for_each (validate_command require_success) values.

Definition validate_repository_cid `{CidCrate} (previous : option string) (value : RepositoryCidV1)
    : checked_att (option string) :=
  _ ← validate_safe_label (rc_repository value) 80 "repository";
  _ ← validate_dag_cbor_cid (rc_cid value) "repository source CID";
  if not_after previous (rc_repository value)
  then invalid "repository CID list must be uniquely sorted by repository"
  else Ok (Some (rc_repository value)).

Definition validate_repository_cids `{CidCrate} (values : list RepositoryCidV1) : checked_att unit :=
  if Nat.eqb (length values) 0 || Nat.ltb MAX_REPOSITORY_CIDS (length values)
  then invalid "repository CID list must contain between 1 and 64 entries"
  else _ ← try_fold validate_repository_cid None values; Ok tt.

(** ** Digests and authentication *)

Section attestation.
Context `{Hashing, Secp256k1, CidCrate}.

Definition normalize_attestation_address (value : string) : checked_att string :=
  map_err (fun _ => AttestationInvalid "invalid Idena address") (normalize_address value).

(** A hasher is the bytes it has been given. *)
Definition update_length_prefixed (hasher : bytes) (value : bytes) (field : string) : checked_att bytes :=
  if 2 ^ 32 <=? N.of_nat (length value) then Err (AttestationInvalid (field +:+ " is too large"))
  else Ok (hasher ++ be_bytes 4 (N.of_nat (length value)) ++ value).

Definition update_core_artifact (hasher : bytes) (artifact : BuildArtifactV1) : checked_att bytes :=
  hasher ← update_length_prefixed hasher (byte_str (ba_name artifact)) "artifact name";
  hasher ← update_length_prefixed hasher (byte_str (ba_cid artifact)) "artifact CID";
  digest ← map_err (fun _ => AttestationInvalid "artifact SHA-256 is invalid") (hex_decode (ba_sha256 artifact));
  if negb (Nat.eqb (length digest) 32) then invalid "artifact SHA-256 is invalid"
  else Ok (hasher ++ digest ++ be_bytes 8 (ba_size artifact)).

Definition by_artifact_name (left right : BuildArtifactV1) : comparison := str_cmp (ba_name left) (ba_name right).

Definition core_artifact_set_digest (artifacts : list BuildArtifactV1) : checked_att string :=
  let core := sort_by by_artifact_name (filter (fun artifact => ba_core artifact = true) artifacts) in
  if 2 ^ 32 <=? N.of_nat (length core) then Err (AttestationInvalid "too many core artifacts")
  else if Nat.eqb (length core) 0 then invalid "at least one core artifact is required"
  else
    hasher ← try_fold update_core_artifact
               (CORE_ARTIFACT_SET_DOMAIN ++ be_bytes 4 (N.of_nat (length core))) core;
    Ok (hex_encode (sha256 hasher)).

Definition attestation_authentication_binding_sha256
    (attestation_kind attestation_cid attestation_sha256 candidate_ecosystem_cid identity : string)
    : checked_att string :=
  hasher ← try_fold (fun hasher '(value, field) => update_length_prefixed hasher (byte_str value) field)
             ATTESTATION_AUTHENTICATION_DOMAIN
             [(attestation_kind, "attestation kind"); (attestation_cid, "attestation CID");
              (attestation_sha256, "attestation SHA-256");
              (candidate_ecosystem_cid, "candidate ecosystem CID"); (identity, "attested identity")]%string;
  Ok (hex_encode (sha256 hasher)).

Definition validate_attestation_kind (value : string) : checked_att unit :=
  if negb (existsb (String.eqb value)
             ["agent_review_v1"; "build_attestation_v1"; "data_availability_v1";
              EXTERNAL_AUDIT_ATTESTATION_DOMAIN; MIGRATION_REHEARSAL_ATTESTATION_DOMAIN]%string)
  then invalid "unsupported attestation authentication kind"
  else Ok tt.

Definition attestation_authentication_request
    (attestation_kind attestation_cid attestation_sha256 candidate_ecosystem_cid identity : string)
    : checked_att AttestationAuthenticationRequestV1 :=
  _ ← validate_attestation_kind attestation_kind;
  cid ← validate_dag_cbor_cid attestation_cid "attestationCid";
  _ ← validate_sha256 attestation_sha256;
  if negb (String.eqb (hex_encode (cid_digest cid)) attestation_sha256)
  then invalid "attestationCid and attestationSha256 disagree"
  else
    _ ← validate_dag_cbor_cid candidate_ecosystem_cid "candidateEcosystemCid";
    identity ← normalize_attestation_address identity;
    binding_sha256 ← attestation_authentication_binding_sha256
      attestation_kind attestation_cid attestation_sha256 candidate_ecosystem_cid identity;
    Ok {| ar_schema_version := 1; ar_attestation_kind := attestation_kind;
          ar_attestation_cid := attestation_cid; ar_attestation_sha256 := attestation_sha256;
          ar_candidate_ecosystem_cid := candidate_ecosystem_cid; ar_identity := identity;
          ar_binding_sha256 := binding_sha256;
          ar_challenge := ATTESTATION_SIGNIN_PREFIX +:+ binding_sha256 |}.

Definition validate_authentication_request (request : AttestationAuthenticationRequestV1) : checked_att unit :=
  if negb (ar_schema_version request =? 1) then invalid "authentication request schemaVersion must be 1"
  else
    expected ← attestation_authentication_request (ar_attestation_kind request) (ar_attestation_cid request)
      (ar_attestation_sha256 request) (ar_candidate_ecosystem_cid request) (ar_identity request);
    if bool_decide (expected <> request)
    then invalid "authentication request binding or challenge is not canonical"
    else Ok tt.

Definition idena_signin_hash (challenge : string) : bytes :=
  keccak256_crate (keccak256_crate (byte_str challenge)).

Definition idena_address_from_pubkey (public_key : PublicKey) : string :=
  "0x" +:+ hex_encode (drop 12 (keccak256_crate (drop 1 (serialize_uncompressed public_key)))).

Definition idena_recovery_id (value : N) : checked_att RecoveryId :=
  id ← (if value <=? 3 then Ok value
        else if (27 <=? value) && (value <=? 30) then Ok (value - 27)
        else invalid "Idena signature has an unsupported recovery id");
  map_err (fun _ => AttestationInvalid "Idena signature recovery id is invalid")
    (recovery_id_from_i32 (Z.of_N id)).

Definition recover_idena_signin_address (challenge signature_hex : string) : checked_att string :=
  let normalized := default signature_hex (strip_prefix "0x" signature_hex) in
  if negb (Nat.eqb (String.length normalized) IDENA_RECOVERABLE_SIGNATURE_HEX_LEN)
     || any_bytes (fun byte => negb (is_ascii_hexdigit byte)) normalized
  then invalid "Idena signature must be 65 bytes encoded as hexadecimal"
  else
    b ← map_err (fun _ => AttestationInvalid "Idena signature is invalid") (hex_decode normalized);
    recovery_id ← idena_recovery_id (Byte.to_N (nth 64 b x00));
    signature ← map_err (fun _ => AttestationInvalid "Idena signature is invalid")
                  (recoverable_from_compact (take 64 b) recovery_id);
    public_key ← map_err (fun _ => AttestationInvalid "Idena signature recovery failed")
                   (recover_ecdsa (idena_signin_hash challenge) signature);
    Ok (idena_address_from_pubkey public_key).

Definition on_chain_receipt_disabled : string :=
  "on-chain receipt authentication is disabled until an authenticated Idena inclusion and finality proof verifier is available".

Definition binds_request (expected : AttestationAuthenticationRequestV1)
    (authentication : AttestationAuthenticationV1) : bool :=
  (au_schema_version authentication =? 1) &&
  String.eqb (au_attestation_kind authentication) (ar_attestation_kind expected) &&
  String.eqb (au_attestation_cid authentication) (ar_attestation_cid expected) &&
  String.eqb (au_attestation_sha256 authentication) (ar_attestation_sha256 expected) &&
  String.eqb (au_candidate_ecosystem_cid authentication) (ar_candidate_ecosystem_cid expected) &&
  String.eqb (au_identity authentication) (ar_identity expected) &&
  String.eqb (au_binding_sha256 authentication) (ar_binding_sha256 expected).

Definition verify_attestation_authentication (expected : AttestationAuthenticationRequestV1)
    (authentication_intent : string) (authentication : AttestationAuthenticationV1) : checked_att unit :=
  _ ← validate_authentication_request expected;
  if negb (binds_request expected authentication)
  then invalid "authentication does not bind the exact attestation kind, CID, content, candidate, and identity"
  else
    match au_proof authentication with
    | IdenaSignature signature_hex =>
        if negb (String.eqb authentication_intent DETACHED_IDENA_SIGNATURE_AUTHENTICATION)
        then invalid "signature proof contradicts the attestation authentication intent"
        else
          recovered ← recover_idena_signin_address (ar_challenge expected) signature_hex;
          if negb (String.eqb recovered (ar_identity expected))
          then invalid "Idena signature does not recover the attested identity"
          else Ok tt
    | FinalizedOnChainReceipt _ =>
        if negb (String.eqb authentication_intent ON_CHAIN_SUBMITTER_AUTHENTICATION)
        then invalid "on-chain receipt contradicts the attestation authentication intent"
        else invalid on_chain_receipt_disabled
    end.

Definition authentication_for_request (request : AttestationAuthenticationRequestV1)
    (proof : AttestationAuthenticationProofV1) : AttestationAuthenticationV1 :=
  {| au_schema_version := 1; au_attestation_kind := ar_attestation_kind request;
     au_attestation_cid := ar_attestation_cid request; au_attestation_sha256 := ar_attestation_sha256 request;
     au_candidate_ecosystem_cid := ar_candidate_ecosystem_cid request; au_identity := ar_identity request;
     au_binding_sha256 := ar_binding_sha256 request; au_proof := proof |}.

Definition signature_attestation_authentication (request : AttestationAuthenticationRequestV1)
    (signature_hex : string) : checked_att AttestationAuthenticationV1 :=
  _ ← validate_authentication_request request;
  let authentication := authentication_for_request request (IdenaSignature signature_hex) in
  _ ← verify_attestation_authentication request DETACHED_IDENA_SIGNATURE_AUTHENTICATION authentication;
  Ok authentication.

Definition receipt_attestation_authentication (request : AttestationAuthenticationRequestV1)
    (_receipt : FinalizedOnChainAttestationReceiptV1) : checked_att AttestationAuthenticationV1 :=
  _ ← validate_authentication_request request;
  invalid on_chain_receipt_disabled.

(** ** Validation *)

Definition validate_finding (finding : SecurityFindingV1) : checked_att unit :=
  _ ← validate_text (fi_summary finding) 1 4096 "finding summary";
  if bool_decide (fi_severity finding = SeverityCritical) && negb (fi_resolved finding)
     && bool_decide (fi_evidence_cid finding = None)
  then invalid "unresolved critical findings require immutable evidence"
  else
    match fi_evidence_cid finding with
    | Some cid => _ ← validate_content_cid cid; Ok tt
    | None => Ok tt
    end.

Definition unresolved_critical (findings : list SecurityFindingV1) : N :=
  N.of_nat (length (filter (fun f => fi_severity f = SeverityCritical /\ fi_resolved f = false) findings)).

Definition validate_agent_review (value : AgentReviewAttestationV1) : checked_att unit :=
  if negb (ag_schema_version value =? 1) then invalid "schemaVersion must be 1"
  else
    _ ← try_for_each (fun '(cid, field) => _ ← validate_dag_cbor_cid cid field; Ok tt)
          [(ag_parent_ecosystem_cid value, "parentEcosystemCid");
           (ag_candidate_ecosystem_cid value, "candidateEcosystemCid");
           (ag_patch_cid value, "patchCid")]%string;
    _ ← try_for_each (fun cid => _ ← validate_content_cid cid; Ok tt)
          [ag_agent_policy_cid value; ag_system_prompt_policy_cid value;
           ag_static_analysis_results_cid value; ag_dependency_findings_cid value];
    _ ← validate_raw_cid (ag_test_results_cid value) "testResultsCid";
    _ ← validate_repository_cids (ag_affected_repositories value);
    _ ← validate_text (ag_model_identifier value) 1 160 "modelIdentifier";
    _ ← match ag_model_revision value with
        | Some revision => validate_text revision 1 160 "modelRevision"
        | None => Ok tt
        end;
    _ ← validate_text (ag_provider_or_runtime_identifier value) 1 160 "providerOrRuntimeIdentifier";
    _ ← validate_lower_label (ag_model_family value) 64 "modelFamily";
    _ ← validate_string_map (ag_tool_versions value) "toolVersions";
    _ ← validate_commands (ag_commands_executed value) (ag_tests_passed value);
    if 10000 <? N.of_nat (length (ag_security_findings value))
    then invalid "securityFindings exceeds the deterministic limit"
    else
      _ ← try_for_each validate_finding (ag_security_findings value);
      let unresolved := unresolved_critical (ag_security_findings value) in
      if (2 ^ 32 - 1 <? unresolved) || negb (ag_unresolved_critical_findings value =? as_uint 32 unresolved)
      then invalid "unresolvedCriticalFindings does not match securityFindings"
      else
        _ ← normalize_attestation_address (ag_owner_idena_address value);
        _ ← validate_amount (ag_reviewer_bond_atoms value);
        validate_authentication (ag_authentication value).

Definition validate_build_artifact (previous : option string) (artifact : BuildArtifactV1)
    : checked_att (option string) :=
  _ ← validate_artifact_name (ba_name artifact);
  if not_after previous (ba_name artifact) then invalid "artifacts must be uniquely sorted by name"
  else
    cid ← validate_raw_cid (ba_cid artifact) "artifact CID";
    _ ← validate_sha256 (ba_sha256 artifact);
    if negb (String.eqb (hex_encode (cid_digest cid)) (ba_sha256 artifact))
    then invalid "artifact CID and SHA-256 disagree"
    else if MAX_PORTABLE_ARTIFACT_SIZE <? ba_size artifact
    then invalid "artifact size exceeds the portable integer limit"
    else Ok (Some (ba_name artifact)).

Definition validate_build (value : BuildAttestationV1) : checked_att unit :=
  if negb (bd_schema_version value =? 1) then invalid "schemaVersion must be 1"
  else
    _ ← validate_dag_cbor_cid (bd_candidate_ecosystem_cid value) "candidateEcosystemCid";
    _ ← validate_dag_cbor_cid (bd_toolchain_cid value) "toolchainCid";
    _ ← validate_dag_cbor_cid (bd_scope_evidence_cid value) "scopeEvidenceCid";
    _ ← validate_raw_cid (bd_sbom_cid value) "sbomCid";
    _ ← validate_raw_cid (bd_test_results_cid value) "testResultsCid";
    _ ← validate_repository_cids (bd_source_cids value);
    _ ← normalize_attestation_address (bd_builder_identity value);
    _ ← validate_lower_label (bd_runtime_family value) 31 "runtimeFamily";
    _ ← validate_lower_label (bd_architecture value) 31 "architecture";
    _ ← validate_commands (bd_commands value) (bd_tests_passed value);
    _ ← validate_sha256 (bd_core_artifact_digest value);
    if Nat.eqb (length (bd_artifacts value)) 0 || Nat.ltb MAX_BUILD_ARTIFACTS (length (bd_artifacts value))
    then invalid "artifacts must contain between 1 and 4096 entries"
    else
      _ ← try_fold validate_build_artifact None (bd_artifacts value);
      digest ← core_artifact_set_digest (bd_artifacts value);
      if negb (String.eqb digest (bd_core_artifact_digest value))
      then invalid "coreArtifactDigest does not match the declared core artifact set"
      else
        _ ← validate_amount (bd_builder_bond_atoms value);
        validate_authentication (bd_authentication value).

Definition validate_availability (value : DataAvailabilityAttestationV1) : checked_att unit :=
  if negb (da_schema_version value =? 1) then invalid "schemaVersion must be 1"
  else
    _ ← validate_dag_cbor_cid (da_candidate_ecosystem_cid value) "candidateEcosystemCid";
    _ ← validate_dag_cbor_cid (da_pinset_cid value) "pinsetCid";
    _ ← validate_raw_cid (da_probe_result_cid value) "probeResultCid";
    _ ← validate_safe_label (da_provider_id value) 80 "providerId";
    _ ← normalize_attestation_address (da_operator_identity value);
    if Nat.eqb (length (da_verified_cids value)) 0 || Nat.ltb MAX_VERIFIED_CIDS (length (da_verified_cids value))
       || negb (existsb (String.eqb (da_candidate_ecosystem_cid value)) (da_verified_cids value))
       || negb (existsb (String.eqb (da_probe_result_cid value)) (da_verified_cids value))
       || negb (strict_sorted_unique (da_verified_cids value))
    then invalid "verifiedCids must be sorted, unique, and include the candidate and probe-result CIDs"
    else
      _ ← try_for_each (fun cid => _ ← validate_content_cid cid; Ok tt) (da_verified_cids value);
      if da_expires_at_block value <=? da_observed_at_block_or_timestamp value
      then invalid "expiresAtBlock must be later than the observation boundary"
      else
        _ ← validate_amount (da_bond_atoms value);
        validate_authentication (da_authentication value).

Definition is_pass (v : ExternalAuditVerdictV1) : bool := match v with AuditPass => true | AuditFail => false end.

Definition validate_external_audit (value : ExternalAuditAttestationV1) : checked_att unit :=
  if negb (ea_schema_version value =? 1) then invalid "schemaVersion must be 1"
  else
    _ ← validate_dag_cbor_cid (ea_candidate_ecosystem_cid value) "candidateEcosystemCid";
    _ ← validate_dag_cbor_cid (ea_scope_evidence_cid value) "scopeEvidenceCid";
    _ ← validate_lower_label (ea_auditor_organization_id value) 80 "auditorOrganizationId";
    _ ← normalize_attestation_address (ea_auditor_identity value);
    _ ← try_for_each (fun cid => _ ← validate_content_cid cid; Ok tt)
          [ea_audit_policy_cid value; ea_report_cid value; ea_independence_statement_cid value];
    _ ← validate_repository_cids (ea_covered_repository_cids value);
    if is_pass (ea_verdict value)
       && (negb (ea_unresolved_critical_findings value =? 0) || negb (ea_unresolved_high_findings value =? 0))
    then invalid "a passing external audit cannot contain unresolved high or critical findings"
    else validate_authentication (ea_authentication value).

Definition rehearsal_fields (value : MigrationRehearsalAttestationV1) : list (string * string) :=
  [(mg_parent_ecosystem_cid value, "parent ecosystem CID");
   (mg_candidate_ecosystem_cid value, "candidate ecosystem CID");
   (mg_scope_evidence_cid value, "scope evidence CID"); (mg_network_id value, "network id");
   (mg_governance_contract_address value, "governance contract address");
   (mg_governance_contract_code_cid value, "governance contract code CID");
   (mg_deployment_tx_hash value, "deployment transaction hash");
   (mg_execution_proposal_id value, "execution proposal id");
   (mg_execution_tx_hash value, "execution transaction hash");
   (mg_observed_candidate_ecosystem_cid value, "observed candidate ecosystem CID");
   (mg_rollback_proposal_id value, "rollback proposal id");
   (mg_rollback_tx_hash value, "rollback transaction hash");
   (mg_observed_rollback_ecosystem_cid value, "observed rollback ecosystem CID");
   (mg_state_snapshot_cid value, "state snapshot CID"); (mg_event_log_cid value, "event log CID")]%string.

Definition migration_rehearsal_digest (value : MigrationRehearsalAttestationV1) : checked_att string :=
  hasher ← try_fold (fun hasher '(field, label) => update_length_prefixed hasher (byte_str field) label)
             MIGRATION_REHEARSAL_DIGEST_DOMAIN (rehearsal_fields value);
  Ok (hex_encode (sha256 (hasher ++ be_bytes 8 (mg_deployment_block value)
                                 ++ be_bytes 8 (mg_execution_block value)
                                 ++ be_bytes 8 (mg_rollback_block value)))).

Definition validate_migration_rehearsal (value : MigrationRehearsalAttestationV1) : checked_att unit :=
  if negb (mg_schema_version value =? 1) then invalid "schemaVersion must be 1"
  else
    _ ← try_for_each (fun '(cid, field) => _ ← validate_dag_cbor_cid cid field; Ok tt)
          [(mg_parent_ecosystem_cid value, "parentEcosystemCid");
           (mg_candidate_ecosystem_cid value, "candidateEcosystemCid");
           (mg_scope_evidence_cid value, "scopeEvidenceCid");
           (mg_observed_candidate_ecosystem_cid value, "observedCandidateEcosystemCid");
           (mg_observed_rollback_ecosystem_cid value, "observedRollbackEcosystemCid")]%string;
    _ ← validate_raw_cid (mg_governance_contract_code_cid value) "governanceContractCodeCid";
    _ ← try_for_each (fun cid => _ ← validate_content_cid cid; Ok tt)
          [mg_state_snapshot_cid value; mg_event_log_cid value; mg_command_log_cid value;
           mg_legacy_compatibility_report_cid value; mg_governance_disabled_report_cid value];
    _ ← validate_lower_label (mg_network_id value) 80 "networkId";
    _ ← validate_lower_label (mg_runtime_family value) 31 "runtimeFamily";
    _ ← validate_lower_label (mg_architecture value) 31 "architecture";
    _ ← normalize_attestation_address (mg_governance_contract_address value);
    _ ← normalize_attestation_address (mg_operator_identity value);
    _ ← try_for_each (fun '(digest, field) =>
            _ ← validate_sha256 digest;
            if all_bytes (Ascii.eqb "0") digest then invalid (field +:+ " cannot be the zero digest") else Ok tt)
          [(mg_deployment_tx_hash value, "deploymentTxHash");
           (mg_execution_proposal_id value, "executionProposalId");
           (mg_execution_tx_hash value, "executionTxHash");
           (mg_rollback_proposal_id value, "rollbackProposalId");
           (mg_rollback_tx_hash value, "rollbackTxHash"); (mg_rehearsal_digest value, "rehearsalDigest")]%string;
    if negb (String.eqb (mg_observed_candidate_ecosystem_cid value) (mg_candidate_ecosystem_cid value))
    then invalid "observedCandidateEcosystemCid does not match the candidate"
    else if negb (String.eqb (mg_observed_rollback_ecosystem_cid value) (mg_parent_ecosystem_cid value))
    then invalid "observedRollbackEcosystemCid does not restore the parent"
    else if (mg_execution_block value <=? mg_deployment_block value)
            || (mg_rollback_block value <=? mg_execution_block value)
    then invalid "deployment, execution, and rollback blocks must be strictly ordered"
    else
      digest ← migration_rehearsal_digest value;
      if negb (String.eqb digest (mg_rehearsal_digest value))
      then invalid "rehearsalDigest does not match the deployed migration transition"
      else validate_authentication (mg_authentication value).

Definition validate_identity_metrics_attestation (value : IdentityMetricsAttestationV1) : checked_att unit :=
  if negb (im_schema_version value =? 1) then invalid "schemaVersion must be 1"
  else
    _ ← try_for_each validate_sha256
          [im_metrics_root value; im_snapshot_sha256 value; im_source_block_hash value; im_replay_commitment value];
    snapshot_cid ← validate_cid (im_snapshot_cid value);
    if negb (cid_codec snapshot_cid =? 0x71) then invalid "snapshotCid must use canonical DAG-CBOR"
    else if negb (String.eqb (hex_encode (cid_digest snapshot_cid)) (im_snapshot_sha256 value))
    then invalid "snapshotCid and snapshotSha256 disagree"
    else
      implementation_cid ← validate_cid (im_indexer_implementation_cid value);
      if negb (cid_codec implementation_cid =? 0x71)
      then invalid "indexerImplementationCid must use canonical DAG-CBOR"
      else
        _ ← normalize_attestation_address (im_operator_idena_address value);
        if im_source_block_height value <? im_replay_start_height value
        then invalid "replayStartHeight exceeds sourceBlockHeight"
        else validate_authentication (im_authentication value).
End attestation.

(** ** Packages *)

Section packages.
Context `{Hashing, CidCrate, DagCbor CarHeader}.

Section generic.
Context {T : Type} `{DagCbor T}.

Definition attestation_package (p : DagCborPackage T) : AttestationPackage T :=
  {| ap_root_cid := root_cid p; ap_root_sha256 := root_sha256 p; ap_value := package_value p;
     ap_dag_cbor_bytes := dag_cbor_bytes p; ap_car_bytes := car_bytes p |}.

Definition package (value : T) : checked_att (AttestationPackage T) :=
  package ← map_err AttestationSource (package_dag_cbor value);
  if MAX_CONTRACT_DAG_CBOR_BYTES <? N.of_nat (length (dag_cbor_bytes package))
  then invalid "attestation DAG-CBOR exceeds the contract payload limit"
  else Ok (attestation_package package).

Definition verify_package (b : bytes) (validate : T -> checked_att unit) : checked_att (AttestationPackage T) :=
  package ← map_err AttestationSource (verify_dag_cbor_car (T := T) b);
  if MAX_CONTRACT_DAG_CBOR_BYTES <? N.of_nat (length (dag_cbor_bytes package))
  then invalid "attestation DAG-CBOR exceeds the contract payload limit"
  else
    _ ← validate (package_value package);
    Ok (attestation_package package).
End generic.

Definition package_agent_review_attestation `{DagCbor AgentReviewAttestationV1} (value : AgentReviewAttestationV1)
    : checked_att (AttestationPackage AgentReviewAttestationV1) :=
  owner_idena_address ← normalize_attestation_address (ag_owner_idena_address value);
  let value := {| ag_schema_version := ag_schema_version value;
     ag_parent_ecosystem_cid := ag_parent_ecosystem_cid value;
     ag_candidate_ecosystem_cid := ag_candidate_ecosystem_cid value; ag_patch_cid := ag_patch_cid value;
     ag_affected_repositories := ag_affected_repositories value;
     ag_model_identifier := ag_model_identifier value; ag_model_revision := ag_model_revision value;
     ag_provider_or_runtime_identifier := ag_provider_or_runtime_identifier value;
     ag_model_family := ag_model_family value; ag_agent_policy_cid := ag_agent_policy_cid value;
     ag_system_prompt_policy_cid := ag_system_prompt_policy_cid value;
     ag_tool_versions := ag_tool_versions value; ag_commands_executed := ag_commands_executed value;
     ag_test_results_cid := ag_test_results_cid value; ag_tests_passed := ag_tests_passed value;
     ag_static_analysis_results_cid := ag_static_analysis_results_cid value;
     ag_dependency_findings_cid := ag_dependency_findings_cid value;
     ag_security_findings := ag_security_findings value;
     ag_unresolved_critical_findings := ag_unresolved_critical_findings value; ag_verdict := ag_verdict value;
     ag_owner_idena_address := owner_idena_address; ag_reviewer_bond_atoms := ag_reviewer_bond_atoms value;
     ag_creation_block_or_timestamp := ag_creation_block_or_timestamp value;
     ag_authentication := ag_authentication value |} in
  _ ← validate_agent_review value;
  package value.

Definition verify_agent_review_attestation_car `{DagCbor AgentReviewAttestationV1} (b : bytes)
    : checked_att (AttestationPackage AgentReviewAttestationV1) := verify_package b validate_agent_review.

Definition package_build_attestation `{DagCbor BuildAttestationV1} (value : BuildAttestationV1)
    : checked_att (AttestationPackage BuildAttestationV1) :=
  builder_identity ← normalize_attestation_address (bd_builder_identity value);
  let value := {| bd_schema_version := bd_schema_version value;
     bd_candidate_ecosystem_cid := bd_candidate_ecosystem_cid value; bd_source_cids := bd_source_cids value;
     bd_toolchain_cid := bd_toolchain_cid value; bd_scope_evidence_cid := bd_scope_evidence_cid value;
     bd_builder_identity := builder_identity; bd_runtime_family := bd_runtime_family value;
     bd_architecture := bd_architecture value; bd_commands := bd_commands value;
     bd_test_results_cid := bd_test_results_cid value; bd_tests_passed := bd_tests_passed value;
     bd_sbom_cid := bd_sbom_cid value; bd_artifacts := bd_artifacts value;
     bd_core_artifact_digest := bd_core_artifact_digest value;
     bd_builder_bond_atoms := bd_builder_bond_atoms value;
     bd_creation_block_or_timestamp := bd_creation_block_or_timestamp value;
     bd_authentication := bd_authentication value |} in
  _ ← validate_build value;
  package value.

Definition verify_build_attestation_car `{DagCbor BuildAttestationV1} (b : bytes)
    : checked_att (AttestationPackage BuildAttestationV1) := verify_package b validate_build.

Definition package_data_availability_attestation `{DagCbor DataAvailabilityAttestationV1} (value : DataAvailabilityAttestationV1)
    : checked_att (AttestationPackage DataAvailabilityAttestationV1) :=
  operator_identity ← normalize_attestation_address (da_operator_identity value);
  let value := {| da_schema_version := da_schema_version value;
     da_candidate_ecosystem_cid := da_candidate_ecosystem_cid value; da_pinset_cid := da_pinset_cid value;
     da_provider_id := da_provider_id value; da_operator_identity := operator_identity;
     da_verified_cids := da_verified_cids value; da_probe_result_cid := da_probe_result_cid value;
     da_available := da_available value;
     da_observed_at_block_or_timestamp := da_observed_at_block_or_timestamp value;
     da_expires_at_block := da_expires_at_block value; da_bond_atoms := da_bond_atoms value;
     da_authentication := da_authentication value |} in
  _ ← validate_availability value;
  package value.

Definition verify_data_availability_attestation_car `{DagCbor DataAvailabilityAttestationV1} (b : bytes)
    : checked_att (AttestationPackage DataAvailabilityAttestationV1) := verify_package b validate_availability.

Definition package_external_audit_attestation `{DagCbor ExternalAuditAttestationV1} (value : ExternalAuditAttestationV1)
    : checked_att (AttestationPackage ExternalAuditAttestationV1) :=
  auditor_identity ← normalize_attestation_address (ea_auditor_identity value);
  let value := {| ea_schema_version := ea_schema_version value;
     ea_candidate_ecosystem_cid := ea_candidate_ecosystem_cid value;
     ea_scope_evidence_cid := ea_scope_evidence_cid value; ea_auditor_identity := auditor_identity;
     ea_auditor_organization_id := ea_auditor_organization_id value;
     ea_audit_policy_cid := ea_audit_policy_cid value; ea_report_cid := ea_report_cid value;
     ea_independence_statement_cid := ea_independence_statement_cid value;
     ea_covered_repository_cids := ea_covered_repository_cids value;
     ea_unresolved_critical_findings := ea_unresolved_critical_findings value;
     ea_unresolved_high_findings := ea_unresolved_high_findings value; ea_verdict := ea_verdict value;
     ea_creation_block_or_timestamp := ea_creation_block_or_timestamp value;
     ea_authentication := ea_authentication value |} in
  _ ← validate_external_audit value;
  package value.

Definition verify_external_audit_attestation_car `{DagCbor ExternalAuditAttestationV1} (b : bytes)
    : checked_att (AttestationPackage ExternalAuditAttestationV1) := verify_package b validate_external_audit.

Definition package_migration_rehearsal_attestation `{DagCbor MigrationRehearsalAttestationV1} (value : MigrationRehearsalAttestationV1)
    : checked_att (AttestationPackage MigrationRehearsalAttestationV1) :=
  governance_contract_address ← normalize_attestation_address (mg_governance_contract_address value);
  operator_identity ← normalize_attestation_address (mg_operator_identity value);
  let value := {| mg_schema_version := mg_schema_version value;
     mg_parent_ecosystem_cid := mg_parent_ecosystem_cid value;
     mg_candidate_ecosystem_cid := mg_candidate_ecosystem_cid value;
     mg_scope_evidence_cid := mg_scope_evidence_cid value; mg_network_id := mg_network_id value;
     mg_governance_contract_address := governance_contract_address;
     mg_governance_contract_code_cid := mg_governance_contract_code_cid value;
     mg_deployment_tx_hash := mg_deployment_tx_hash value; mg_deployment_block := mg_deployment_block value;
     mg_execution_proposal_id := mg_execution_proposal_id value;
     mg_execution_tx_hash := mg_execution_tx_hash value; mg_execution_block := mg_execution_block value;
     mg_observed_candidate_ecosystem_cid := mg_observed_candidate_ecosystem_cid value;
     mg_rollback_proposal_id := mg_rollback_proposal_id value;
     mg_rollback_tx_hash := mg_rollback_tx_hash value; mg_rollback_block := mg_rollback_block value;
     mg_observed_rollback_ecosystem_cid := mg_observed_rollback_ecosystem_cid value;
     mg_state_snapshot_cid := mg_state_snapshot_cid value; mg_event_log_cid := mg_event_log_cid value;
     mg_command_log_cid := mg_command_log_cid value;
     mg_legacy_compatibility_report_cid := mg_legacy_compatibility_report_cid value;
     mg_governance_disabled_report_cid := mg_governance_disabled_report_cid value;
     mg_rehearsal_digest := mg_rehearsal_digest value; mg_tests_passed := mg_tests_passed value;
     mg_operator_identity := operator_identity; mg_runtime_family := mg_runtime_family value;
     mg_architecture := mg_architecture value;
     mg_creation_block_or_timestamp := mg_creation_block_or_timestamp value;
     mg_authentication := mg_authentication value |} in
  _ ← validate_migration_rehearsal value;
  package value.

Definition verify_migration_rehearsal_attestation_car `{DagCbor MigrationRehearsalAttestationV1} (b : bytes)
    : checked_att (AttestationPackage MigrationRehearsalAttestationV1) := verify_package b validate_migration_rehearsal.

Definition package_identity_metrics_attestation `{DagCbor IdentityMetricsAttestationV1} (value : IdentityMetricsAttestationV1)
    : checked_att (AttestationPackage IdentityMetricsAttestationV1) :=
  operator_idena_address ← normalize_attestation_address (im_operator_idena_address value);
  let value := {| im_schema_version := im_schema_version value; im_metrics_root := im_metrics_root value;
     im_snapshot_cid := im_snapshot_cid value; im_snapshot_sha256 := im_snapshot_sha256 value;
     im_source_epoch := im_source_epoch value; im_source_block_height := im_source_block_height value;
     im_source_block_hash := im_source_block_hash value;
     im_replay_start_height := im_replay_start_height value;
     im_replay_commitment := im_replay_commitment value;
     im_indexer_implementation_cid := im_indexer_implementation_cid value;
     im_operator_idena_address := operator_idena_address;
     im_observed_at_block_or_timestamp := im_observed_at_block_or_timestamp value;
     im_authentication := im_authentication value |} in
  _ ← validate_identity_metrics_attestation value;
  package value.

Definition verify_identity_metrics_attestation_car `{DagCbor IdentityMetricsAttestationV1} (b : bytes)
    : checked_att (AttestationPackage IdentityMetricsAttestationV1) := verify_package b validate_identity_metrics_attestation.
End packages.

(** ** The scan for secrets reaches the end of its text *)

Lemma drop_bytes_length n s : String.length (drop_bytes n s) = (String.length s - n)%nat.
Proof. revert s. induction n as [|n IH]; intros [|c s]; cbn; [done..|]. apply IH. Qed.

Lemma find_Some needle s i : find needle s = Some i -> (i + String.length needle <= String.length s)%nat.
Proof.
  assert (forall s, starts_with needle s = true -> (String.length needle <= String.length s)%nat) as Hpre.
  { clear. unfold starts_with. induction needle as [|c needle IH]; intros [|d s]; cbn; try lia; try done.
    destruct (Ascii.eqb c d); [|done]. intros Hs%IH. lia. }
  revert i. induction s as [|c s IH]; intros i; cbn -[starts_with]; destruct (starts_with needle _) eqn:Hs.
  - intros [= <-]. by apply Hpre in Hs.
  - done.
  - intros [= <-]. by apply Hpre in Hs.
  - destruct (find needle s) as [j|]; [|done]. intros [= <-]. specialize (IH j eq_refl). lia.
Qed.

Lemma unredacted_loop_fuel needle fuel : forall value lower, (0 < String.length needle)%nat ->
  (String.length lower < fuel)%nat ->
  unredacted_loop fuel value lower needle = unredacted_loop (S (String.length lower)) value lower needle.
Proof.
  assert (forall f1 f2 value lower, (0 < String.length needle)%nat ->
    (String.length lower < f1)%nat -> (String.length lower < f2)%nat ->
    unredacted_loop f1 value lower needle = unredacted_loop f2 value lower needle) as Hfuel; [|intros; apply Hfuel; lia].
  clear fuel. induction f1 as [|f1 IH]; intros [|f2] value lower Hn H1 H2; [lia..|]. cbn [unredacted_loop].
  destruct (find needle lower) as [i|] eqn:Hi; [|done]. apply find_Some in Hi.
  destruct (strip_prefix _ _) as [[|c rest]|]; [|destruct (negb _)|]; try done; apply IH; rewrite ?drop_bytes_length; lia.
Qed.

(** ** Length-prefixed hashing is unambiguous *)

Definition prefixed (v : bytes) : bytes := be_bytes 4 (N.of_nat (length v)) ++ v.

Lemma update_length_prefixed_Ok h v field out :
  update_length_prefixed h v field = Ok out <-> fits 32 (N.of_nat (length v)) /\ out = h ++ prefixed v.
Proof.
  unfold update_length_prefixed, fits. fold (prefixed v). destruct (N.leb_spec (2 ^ 32) (N.of_nat (length v))) as [Hge|Hlt].
  - split; [intros Heq; discriminate Heq|intros [Hlt _]; lia].
  - split; [intros Heq; apply Ok_inj in Heq as <-; done|]. by intros [_ ->].
Qed.

Lemma be_bytes_inj_32 n m : fits 32 n -> fits 32 m -> be_bytes 4 n = be_bytes 4 m -> n = m.
Proof. unfold fits. replace (2 ^ 32) with (256 ^ N.of_nat 4) by (vm_compute; reflexivity). apply be_bytes_inj. Qed.

Lemma prefixed_inj v w r s : fits 32 (N.of_nat (length v)) -> fits 32 (N.of_nat (length w)) ->
  prefixed v ++ r = prefixed w ++ s -> v = w /\ r = s.
Proof.
  unfold prefixed. intros Hv Hw Heq. rewrite <-!app_assoc in Heq.
  apply app_inj_1 in Heq as [Hl Heq]; [|by rewrite !be_bytes_length].
  apply be_bytes_inj_32 in Hl; [|done..]. apply app_inj_1 in Heq; [done|lia].
Qed.

Lemma byte_str_inj a b : byte_str a = byte_str b -> a = b.
Proof.
  unfold byte_str. intros Heq. apply (f_equal Strings.String.string_of_list_byte) in Heq.
  by rewrite !Strings.String.string_of_list_byte_of_string in Heq.
Qed.

(** The bytes of a list of length-prefixed strings. *)
Definition prefixed_fields (fields : list (string * string)) : bytes :=
  mjoin (map (fun f => prefixed (byte_str f.1)) fields).

Abbreviation update_fields :=
  (try_fold (fun hasher '(value, field) => update_length_prefixed hasher (byte_str value) field)).

Lemma update_fields_Ok fields : forall h out, update_fields h fields = Ok out ->
  Forall (fun f => fits 32 (N.of_nat (length (byte_str f.1)))) fields /\ out = h ++ prefixed_fields fields.
Proof.
  induction fields as [|[value field] fields IH]; intros h out Hf; cbn in Hf.
  - injection Hf as <-. unfold prefixed_fields. cbn. by rewrite app_nil_r.
  - apply bind_Ok in Hf as (h' & [Hfit ->]%update_length_prefixed_Ok & [Hall ->]%IH). split; [by constructor|].
    unfold prefixed_fields. cbn. by rewrite <-!app_assoc.
Qed.

Lemma prefixed_fields_inj l1 : forall l2 r s,
  Forall (fun f => fits 32 (N.of_nat (length (byte_str f.1)))) l1 ->
  Forall (fun f => fits 32 (N.of_nat (length (byte_str f.1)))) l2 -> length l1 = length l2 ->
  prefixed_fields l1 ++ r = prefixed_fields l2 ++ s -> map fst l1 = map fst l2 /\ r = s.
Proof.
  unfold prefixed_fields.
  induction l1 as [|f1 l1 IH]; intros [|f2 l2] r s H1 H2 Hlen Heq; try discriminate Hlen; [done|]. cbn in *.
  inversion H1; inversion H2; subst. rewrite <-!app_assoc in Heq.
  apply prefixed_inj in Heq as [Hf Heq]; [|done..]. apply byte_str_inj in Hf.
  apply IH in Heq as [-> ->]; [|try done..|]; [by rewrite Hf|by injection Hlen].
Qed.

(** ** An authentication is for one attestation *)

Section binding.
Context `{Hashing, !HexLaws, !HashLaws, Secp256k1, CidCrate}.

(** What an authentication request hashes. *)
Definition request_input (r : AttestationAuthenticationRequestV1) : bytes :=
  ATTESTATION_AUTHENTICATION_DOMAIN ++
  prefixed_fields (map (fun v => (v, EmptyString))
    [ar_attestation_kind r; ar_attestation_cid r; ar_attestation_sha256 r; ar_candidate_ecosystem_cid r; ar_identity r]).

Lemma binding_Ok kind cid sha candidate identity b :
  attestation_authentication_binding_sha256 kind cid sha candidate identity = Ok b ->
  Forall (fun v => fits 32 (N.of_nat (length (byte_str v)))) [kind; cid; sha; candidate; identity] /\
  b = hex_encode (sha256 (ATTESTATION_AUTHENTICATION_DOMAIN ++
        prefixed_fields (map (fun v => (v, EmptyString)) [kind; cid; sha; candidate; identity]))).
Proof.
  unfold attestation_authentication_binding_sha256. intros (h & [Hall ->]%update_fields_Ok & [= <-])%bind_Ok.
  split; [|done]. by repeat (apply Forall_cons in Hall as [? Hall]; constructor).
Qed.

Lemma valid_request_Ok r : validate_authentication_request r = Ok tt ->
  attestation_authentication_request (ar_attestation_kind r) (ar_attestation_cid r) (ar_attestation_sha256 r)
    (ar_candidate_ecosystem_cid r) (ar_identity r) = Ok r.
Proof.
  unfold validate_authentication_request. destruct (negb _); [done|].
  intros (e & He & Hr)%bind_Ok. destruct (bool_decide _) eqn:Hd; [done|]. bool_inv. apply dec_stable in Hd as <-. done.
Qed.

(** A canonical request is determined by the string it hashes. *)
Lemma valid_request_binding r : validate_authentication_request r = Ok tt ->
  Forall (fun v => fits 32 (N.of_nat (length (byte_str v))))
    [ar_attestation_kind r; ar_attestation_cid r; ar_attestation_sha256 r; ar_candidate_ecosystem_cid r; ar_identity r] /\
  ar_binding_sha256 r = hex_encode (sha256 (request_input r)) /\
  ar_challenge r = ATTESTATION_SIGNIN_PREFIX +:+ ar_binding_sha256 r /\ ar_schema_version r = 1.
Proof.
  intros Hr%valid_request_Ok. unfold attestation_authentication_request in Hr.
  apply bind_Ok in Hr as ([] & _ & (cid & _ & ([] & _ & Hr)%bind_Ok)%bind_Ok). destruct (negb _); [done|].
  apply bind_Ok in Hr as (c & _ & (id & Hid & (b & [Hfit Hb]%binding_Ok & [= Hr])%bind_Ok)%bind_Ok).
  rewrite <-Hr. cbn. rewrite <-Hr in Hfit. cbn in Hfit. unfold request_input. cbn. by subst b.
Qed.

Lemma valid_requests_agree r1 r2 :
  validate_authentication_request r1 = Ok tt -> validate_authentication_request r2 = Ok tt ->
  request_input r1 = request_input r2 -> r1 = r2.
Proof.
  intros (F1 & B1 & C1 & S1)%valid_request_binding (F2 & B2 & C2 & S2)%valid_request_binding Heq.
  pose proof Heq as Hin. unfold request_input in Hin. apply app_inv_head in Hin.
  rewrite <-(app_nil_r (prefixed_fields _)) in Hin. rewrite <-(app_nil_r (prefixed_fields (map _ [ar_attestation_kind r2; _; _; _; _]))) in Hin.
  apply prefixed_fields_inj in Hin as [Hin _]; [|by apply Forall_map|by apply Forall_map|done].
  cbn in Hin. injection Hin as ?????. rewrite Heq in B1. rewrite B1, <-B2 in C1. rewrite <-C2 in C1.
  destruct r1, r2; cbn in *. congruence.
Qed.

Lemma signed_Ok r intent a : verify_attestation_authentication r intent a = Ok tt ->
  validate_authentication_request r = Ok tt /\ intent = DETACHED_IDENA_SIGNATURE_AUTHENTICATION /\
  exists signature, a = authentication_for_request r (IdenaSignature signature) /\
    recover_idena_signin_address (ar_challenge r) signature = Ok (ar_identity r).
Proof.
  unfold verify_attestation_authentication. intros ([] & Hr & Hv)%bind_Ok. split; [done|].
  destruct (negb _) eqn:Hb in Hv; [done|]. unfold binds_request in Hb. bool_inv.
  destruct a as [sv k c s e i b [signature|receipt]]; cbn in *; [|by destruct (negb _) in Hv].
  destruct (negb _) eqn:Hi in Hv; [done|]. bool_inv. apply bind_Ok in Hv as (rec & Hrec & Hv).
  destruct (negb _) eqn:Hq in Hv; [done|]. bool_inv. subst. split; [done|]. exists signature. done.
Qed.

(** C37 (safety). An accepted authentication is a signature of the request's challenge by the
    attested identity, receipts being refused; and one challenge serves one attestation: two
    accepted authentications whose challenges agree are for the same attestation kind, content,
    candidate and identity, unless the two bindings collide under SHA-256. *)
Theorem authentication_binds_attestation r1 r2 intent1 intent2 a1 a2 :
  verify_attestation_authentication r1 intent1 a1 = Ok tt ->
  verify_attestation_authentication r2 intent2 a2 = Ok tt ->
  (exists signature, a1 = authentication_for_request r1 (IdenaSignature signature) /\
    recover_idena_signin_address (ar_challenge r1) signature = Ok (ar_identity r1)) /\
  (ar_challenge r1 = ar_challenge r2 ->
     r1 = r2 \/ collision_among [request_input r1; request_input r2]).
Proof.
  intros (V1 & _ & Hs)%signed_Ok (V2 & _ & _)%signed_Ok. split; [done|]. intros Heq.
  destruct (collision_free_or [request_input r1; request_input r2]) as [Hfree|]; [left|by right].
  apply valid_requests_agree; [done..|]. apply Hfree; [set_solver..|].
  apply valid_request_binding in V1 as (_ & B1 & C1 & _), V2 as (_ & B2 & C2 & _).
  rewrite C1, C2 in Heq. apply hex_encode_inj. rewrite <-B1, <-B2.
  by apply (inj (String.append ATTESTATION_SIGNIN_PREFIX)) in Heq.
Qed.
End binding.

(** ** A concrete authentication *)

#[local] Existing Instance hashing_c.
#[local] Existing Instance cid_crate_c.
#[local] Existing Instance cid_laws_c.
#[local] Existing Instance header_cbor_c.
#[local] Existing Instance header_cbor_laws_c.
#[local] Existing Instance hex_laws_c.
#[local] Existing Instance hash_laws_c.
#[local] Existing Instance secp_c.

Definition sample_signature : string := repeat_char "1" 128 +:+ "00".

(** The identity that the sample signature recovers to; the stand-in for recovery does not
    depend on the challenge. *)
Definition sample_identity : string :=
  match recover_idena_signin_address EmptyString sample_signature with Ok a => a | Err _ => EmptyString end.

Definition sample_cid (data : bytes) : string := cid_text (cid_for DAG_CBOR_CODEC data).

Abbreviation sample_request :=
  (attestation_authentication_request "agent_review_v1" (sample_cid [x01]) (sha256_hex [x01]) (sample_cid [x02])
     sample_identity).

Lemma authentication_binds_attestation_witness :
  exists r a, sample_request = Ok r /\ verify_attestation_authentication r DETACHED_IDENA_SIGNATURE_AUTHENTICATION a = Ok tt /\
    exists signature, a = authentication_for_request r (IdenaSignature signature) /\
      recover_idena_signin_address (ar_challenge r) signature = Ok (ar_identity r).
Proof.
  assert (match sample_request with
          | Ok r => is_ok (verify_attestation_authentication r DETACHED_IDENA_SIGNATURE_AUTHENTICATION
                             (authentication_for_request r (IdenaSignature sample_signature)))
          | Err _ => false end = true) as Hrun by (vm_compute; reflexivity).
  destruct sample_request as [r|]; [|done]. apply is_ok_Ok in Hrun as [[] Hv]. eexists r, _. split_and!; [done|exact Hv|].
  apply (authentication_binds_attestation _ _ _ _ _ _ Hv Hv).
Defined.
