(* ===== verification/GovManifest.v ===== *)
(** * Ecosystem manifests ([crates/governance-core/src/manifest.rs])

    The manifests of an ecosystem, of a patch between two ecosystems, of its
    toolchains and of the content to keep available, with their checks, their
    packages and the check that a patch is exactly the difference of two
    ecosystems. *)
From S2P Require Import Prelude Order Text Crates Concrete GovText GovSource.
From Stdlib Require Import Ascii Strings.Byte.

Local Open Scope N_scope.

Definition MAX_PORTABLE_ARTIFACT_SIZE : N := 9007199254740991.
Definition MAX_REPOSITORIES : N := 64.
Definition MAX_REPOSITORY_PATCHES : N := 64.
Definition MAX_DEPENDENCY_LOCKS : N := 4096.
Definition MAX_BUILD_INSTRUCTIONS : N := 256.
Definition MAX_REPOSITORY_ARTIFACTS : N := 4096.
Definition MAX_PINSET_CIDS : N := 4096.
Definition MAX_STRING_MAP_ENTRIES : N := 256.
Definition MAX_COMPATIBILITY_CONSUMERS : N := 256.

(** ** Data *)

Record DependencyLockV1 := { dl_path : string; dl_sha256 : string }.

Record ArtifactManifestV1 := { am_name : string; am_cid : string; am_sha256 : string; am_size : N }.

Record RepositoryManifestV1 := {
  rm_schema_version : N; rm_name : string; rm_source_tree_cid : string; rm_source_tree_sha256 : string;
  rm_git_bundle_cid : option string; rm_git_commit_metadata : option string;
  rm_dependency_locks : list DependencyLockV1; rm_toolchain_locks : gmap string string;
  rm_build_instructions : list string; rm_artifacts : list ArtifactManifestV1 }.

Record EcosystemManifestV1 := {
  em_schema_version : N; em_ecosystem_id : string; em_parent_ecosystem_cid : option string;
  em_repositories : list RepositoryManifestV1; em_compatibility_pins : gmap string (gmap string string);
  em_toolchain_locks : gmap string string; em_governance_contract_version : string;
  em_governance_parameter_set_cid : string }.

Record RepositoryPatchManifestV1 := {
  rp_repository : string; rp_base_source_cid : string; rp_candidate_source_cid : string;
  rp_patch_cid : string; rp_patch_sha256 : string }.

Record EcosystemPatchManifestV1 := {
  ep_schema_version : N; ep_kind : string; ep_parent_ecosystem_cid : string;
  ep_candidate_ecosystem_cid : string; ep_repository_patches : list RepositoryPatchManifestV1 }.

Record RepositoryToolchainLocksV1 := { rt_repository : string; rt_toolchain_locks : gmap string string }.

Record ToolchainManifestV1 := {
  tm_schema_version : N; tm_ecosystem_locks : gmap string string;
  tm_repository_locks : list RepositoryToolchainLocksV1 }.

Record PinsetManifestV1 := { pm_schema_version : N; pm_ecosystem_cid : string; pm_cids : list string }.

Inductive ManifestError := ManifestInvalid (m : string) | ManifestSource (e : SourceError).

Section canonical.
Context `{CidCrate}.

Record CanonicalArtifactManifestV1 := { cam_name : string; cam_cid : CID; cam_sha256 : string; cam_size : N }.

Record CanonicalRepositoryManifestV1 := {
  crm_schema_version : N; crm_name : string; crm_source_tree_cid : CID; crm_source_tree_sha256 : string;
  crm_git_bundle_cid : option CID; crm_git_commit_metadata : option string;
  crm_dependency_locks : list DependencyLockV1; crm_toolchain_locks : gmap string string;
  crm_build_instructions : list string; crm_artifacts : list CanonicalArtifactManifestV1 }.

Record CanonicalEcosystemManifestV1 := {
  cem_schema_version : N; cem_ecosystem_id : string; cem_parent_ecosystem_cid : option CID;
  cem_repositories : list CanonicalRepositoryManifestV1; cem_compatibility_pins : gmap string (gmap string string);
  cem_toolchain_locks : gmap string string; cem_governance_contract_version : string;
  cem_governance_parameter_set_cid : CID }.

Record CanonicalRepositoryPatchManifestV1 := {
  crp_repository : string; crp_base_source_cid : CID; crp_candidate_source_cid : CID;
  crp_patch_cid : CID; crp_patch_sha256 : string }.

Record CanonicalEcosystemPatchManifestV1 := {
  cep_schema_version : N; cep_kind : string; cep_parent_ecosystem_cid : CID; cep_candidate_ecosystem_cid : CID;
  cep_repository_patches : list CanonicalRepositoryPatchManifestV1 }.

Record CanonicalPinsetManifestV1 := { cpm_schema_version : N; cpm_ecosystem_cid : CID; cpm_cids : list CID }.

Record EcosystemManifestPackage := {
  emp_root_cid : CID; emp_root_sha256 : string; emp_manifest : EcosystemManifestV1;
  emp_dag_cbor_bytes : bytes; emp_car_bytes : bytes }.

Record EcosystemPatchManifestPackage := {
  epp_root_cid : CID; epp_root_sha256 : string; epp_manifest : EcosystemPatchManifestV1;
  epp_dag_cbor_bytes : bytes; epp_car_bytes : bytes }.

Record PinsetManifestPackage := {
  pmp_root_cid : CID; pmp_root_sha256 : string; pmp_manifest : PinsetManifestV1;
  pmp_dag_cbor_bytes : bytes; pmp_car_bytes : bytes }.

Definition ToolchainManifestPackage : Type := DagCborPackage ToolchainManifestV1.

#[global] Instance ManifestError_eq_dec : EqDecision ManifestError.
Proof. assert (EqDecision SourceError) by solve_decision. solve_decision. Defined.
#[global] Instance CanonicalEcosystemManifestV1_eq_dec : EqDecision CanonicalEcosystemManifestV1.
Proof.
  assert (EqDecision DependencyLockV1) by solve_decision. assert (EqDecision CanonicalArtifactManifestV1) by solve_decision.
  assert (EqDecision CanonicalRepositoryManifestV1) by solve_decision. solve_decision.
Defined.
#[global] Instance CanonicalEcosystemPatchManifestV1_eq_dec : EqDecision CanonicalEcosystemPatchManifestV1.
Proof. assert (EqDecision CanonicalRepositoryPatchManifestV1) by solve_decision. solve_decision. Defined.
#[global] Instance CanonicalPinsetManifestV1_eq_dec : EqDecision CanonicalPinsetManifestV1.
Proof. solve_decision. Defined.
#[global] Instance ToolchainManifestV1_eq_dec : EqDecision ToolchainManifestV1.
Proof. assert (EqDecision RepositoryToolchainLocksV1) by solve_decision. solve_decision. Defined.
End canonical.

(** ** Checks of text *)

Abbreviation checked_manifest := (result ManifestError).

Definition invalid {T} (message : string) : checked_manifest T := Err (ManifestInvalid message).

Definition is_lower_hex (value : string) : bool := all_bytes is_lower_hex_byte value.

Definition validate_sha256 (value : string) : checked_manifest unit :=
  if negb (Nat.eqb (String.length value) 64) || negb (is_lower_hex value)
  then invalid "SHA-256 values must be 64 lowercase hexadecimal digits"
  else Ok tt.

(** The loop over [value.bytes().enumerate()]. *)
Fixpoint identifier_loop (ecosystem : bool) (index : nat) (value : string) : checked_manifest unit :=
  match value with
  | EmptyString => Ok tt
  | String byte value' =>
      let allowed := is_safe_byte byte || (negb ecosystem && (Ascii.eqb byte "/" || Ascii.eqb byte ":")) in
      if negb allowed || (ecosystem && is_ascii_uppercase byte)
         || (ecosystem && Nat.eqb index 0 && negb (is_ascii_alphanumeric byte))
      then invalid "identifier contains forbidden characters"
      else identifier_loop ecosystem (S index) value'
  end.

Definition validate_identifier (value : string) (minimum maximum : nat) (ecosystem : bool) : checked_manifest unit :=
  if Nat.ltb (String.length value) minimum || Nat.ltb maximum (String.length value)
  then invalid "identifier length is outside the schema bounds"
  else identifier_loop ecosystem 0 value.

Definition validate_semver (value : string) : checked_manifest unit :=
  let parts := split "." value in
  if negb (Nat.eqb (length parts) 3)
     || existsb (fun part => is_empty part || negb (all_bytes is_ascii_digit part)
                             || (Nat.ltb 1 (String.length part) && starts_with "0" part)) parts
  then invalid "governanceContractVersion must be canonical major.minor.patch"
  else Ok tt.

Definition validate_relative_path (value : string) : checked_manifest unit :=
  if is_empty value || Nat.ltb 1024 (String.length value) || starts_with "/" value || contains_byte "\" value
     || existsb (fun part => is_empty part || String.eqb part "." || String.eqb part "..") (split "/" value)
  then invalid "dependency lock path must be a normalized relative path"
  else Ok tt.

Definition validate_text (value : string) (min max : nat) (label : string) : checked_manifest unit :=
  if Nat.ltb (String.length value) min || Nat.ltb max (String.length value) || has_control (fun _ => false) value
  then invalid (label +:+ " is empty, too long, or contains control characters")
  else Ok tt.

Definition validate_artifact_name (value : string) : checked_manifest unit :=
  if negb (portable_name 128 value) then invalid "artifact name is not a portable deterministic label" else Ok tt.

Definition validate_portable_name (value : string) (maximum : nat) (label : string) : checked_manifest unit :=
  if negb (portable_name maximum value) then invalid (label +:+ " is not a portable deterministic label") else Ok tt.

Definition validate_string_map (values : gmap string string) (label : string) : checked_manifest unit :=
  if MAX_STRING_MAP_ENTRIES <? N.of_nat (size values) then invalid (label +:+ " has too many entries")
  else try_for_each (fun '(key, value) =>
         _ ← validate_identifier key 1 120 false; validate_text value 1 4096 label) (btree_entries values).

(** ** Checks of manifests *)

Section checks.
Context `{Hashing, CidCrate}.

Definition parse_profile_cid (value : string) (codec : option N) : checked_manifest CID :=
  cid ← ok_or (ManifestInvalid "invalid CID") (cid_from_str value);
  if negb (cid_v1 cid) || negb (String.eqb (cid_text cid) value) || negb (starts_with "b" value)
     || negb (cid_multihash cid =? SHA2_256_CODE) || negb (Nat.eqb (length (cid_digest cid)) 32)
     || match codec with Some expected => negb (cid_codec cid =? expected) | None => false end
  then invalid "CID must be canonical base32 CIDv1 with SHA2-256 and the expected codec"
  else Ok cid.

Definition validate_dependency_lock (previous : option string) (lock : DependencyLockV1) : checked_manifest (option string) :=
  _ ← validate_relative_path (dl_path lock);
  _ ← validate_sha256 (dl_sha256 lock);
  if not_after previous (dl_path lock) then invalid "dependencyLocks must be uniquely sorted by path"
  else Ok (Some (dl_path lock)).

Definition validate_artifact (previous : option string) (artifact : ArtifactManifestV1) : checked_manifest (option string) :=
  _ ← validate_artifact_name (am_name artifact);
  _ ← validate_sha256 (am_sha256 artifact);
  cid ← parse_profile_cid (am_cid artifact) (Some RAW_CODEC);
  if negb (String.eqb (hex_encode (cid_digest cid)) (am_sha256 artifact))
  then invalid "artifact SHA-256 must equal its raw CID digest"
  else if MAX_PORTABLE_ARTIFACT_SIZE <? am_size artifact
  then invalid "artifact size exceeds the portable integer limit"
  else if not_after previous (am_name artifact) then invalid "artifacts must be uniquely sorted by name"
  else Ok (Some (am_name artifact)).

Definition validate_repository_manifest (repository : RepositoryManifestV1) : checked_manifest unit :=
  if negb (rm_schema_version repository =? 1) then invalid "repository schemaVersion must be 1"
  else
    _ ← validate_portable_name (rm_name repository) 80 "repository";
    source ← parse_profile_cid (rm_source_tree_cid repository) (Some DAG_CBOR_CODEC);
    _ ← validate_sha256 (rm_source_tree_sha256 repository);
    if negb (String.eqb (hex_encode (cid_digest source)) (rm_source_tree_sha256 repository))
    then invalid "sourceTreeSha256 must equal the source-tree CID digest"
    else
      _ ← try_option (fun bundle => parse_profile_cid bundle (Some RAW_CODEC)) (rm_git_bundle_cid repository);
      _ ← match rm_git_commit_metadata repository with
          | Some commit =>
              if negb (Nat.eqb (String.length commit) 40 || Nat.eqb (String.length commit) 64)
                 || negb (is_lower_hex commit)
              then invalid "gitCommitMetadata must be a lowercase 40- or 64-digit hash"
              else Ok tt
          | None => Ok tt
          end;
      if MAX_DEPENDENCY_LOCKS <? count (rm_dependency_locks repository)
      then invalid "dependencyLocks exceeds the deterministic limit"
      else
        _ ← try_fold validate_dependency_lock None (rm_dependency_locks repository);
        _ ← validate_string_map (rm_toolchain_locks repository) "repository toolchainLocks";
        if (count (rm_build_instructions repository) =? 0)
           || (MAX_BUILD_INSTRUCTIONS <? count (rm_build_instructions repository))
        then invalid "buildInstructions count is outside the deterministic limits"
        else
          _ ← try_for_each (fun command => validate_text command 1 4096 "build instruction")
                (rm_build_instructions repository);
          if MAX_REPOSITORY_ARTIFACTS <? count (rm_artifacts repository)
          then invalid "artifacts exceeds the deterministic limit"
          else _ ← try_fold validate_artifact None (rm_artifacts repository); Ok tt.

(** One pass of the loop over the repositories: the previous name, the names and the artifact names. *)
Definition check_repository (st : option string * gset string * gset string) (repository : RepositoryManifestV1)
    : checked_manifest (option string * gset string * gset string) :=
  let '(previous_name, names, artifact_names) := st in
  if not_after previous_name (rm_name repository) then invalid "repositories must be uniquely sorted by name"
  else if bool_decide (rm_name repository ∈ names) then invalid "repository names must be unique"
  else
    _ ← validate_repository_manifest repository;
    artifact_names ← try_fold (fun seen artifact =>
        if bool_decide (am_name artifact ∈ seen) then invalid "artifact names must be unique across the ecosystem"
        else Ok ({[am_name artifact]} ∪ seen)) artifact_names (rm_artifacts repository);
    Ok (Some (rm_name repository), {[rm_name repository]} ∪ names, artifact_names).

Definition validate_ecosystem_manifest (manifest : EcosystemManifestV1) : checked_manifest unit :=
  if negb (em_schema_version manifest =? 1) then invalid "schemaVersion must be 1"
  else
    _ ← validate_identifier (em_ecosystem_id manifest) 3 80 true;
    _ ← try_option (fun parent => parse_profile_cid parent (Some DAG_CBOR_CODEC)) (em_parent_ecosystem_cid manifest);
    _ ← parse_profile_cid (em_governance_parameter_set_cid manifest) (Some DAG_CBOR_CODEC);
    _ ← validate_semver (em_governance_contract_version manifest);
    if (count (em_repositories manifest) =? 0) || (MAX_REPOSITORIES <? count (em_repositories manifest))
    then invalid "repository count is outside the deterministic limits"
    else
      _ ← try_fold check_repository (None, ∅, ∅) (em_repositories manifest);
      _ ← validate_string_map (em_toolchain_locks manifest) "toolchainLocks";
      if MAX_COMPATIBILITY_CONSUMERS <? N.of_nat (size (em_compatibility_pins manifest))
      then invalid "compatibilityPins has too many consumers"
      else
        try_for_each (fun '(consumer, pins) =>
          _ ← validate_identifier consumer 1 120 false; validate_string_map pins "compatibilityPins")
          (btree_entries (em_compatibility_pins manifest)).

Definition validate_repository_patch (previous : option string) (patch : RepositoryPatchManifestV1)
    : checked_manifest (option string) :=
  _ ← validate_portable_name (rp_repository patch) 80 "repository";
  if not_after previous (rp_repository patch) then invalid "repositoryPatches must be uniquely sorted by repository"
  else
    _ ← parse_profile_cid (rp_base_source_cid patch) (Some DAG_CBOR_CODEC);
    _ ← parse_profile_cid (rp_candidate_source_cid patch) (Some DAG_CBOR_CODEC);
    if String.eqb (rp_base_source_cid patch) (rp_candidate_source_cid patch)
    then invalid "repository patch base and candidate CIDs must differ"
    else
      patch_cid ← parse_profile_cid (rp_patch_cid patch) (Some DAG_CBOR_CODEC);
      _ ← validate_sha256 (rp_patch_sha256 patch);
      if negb (String.eqb (hex_encode (cid_digest patch_cid)) (rp_patch_sha256 patch))
      then invalid "repository patch CID and SHA-256 disagree"
      else Ok (Some (rp_repository patch)).

Definition validate_ecosystem_patch_manifest (manifest : EcosystemPatchManifestV1) : checked_manifest unit :=
  if negb (ep_schema_version manifest =? 1) || negb (String.eqb (ep_kind manifest) "pohw-ecosystem-patch-v1")
  then invalid "ecosystem patch schemaVersion or kind is invalid"
  else
    _ ← parse_profile_cid (ep_parent_ecosystem_cid manifest) (Some DAG_CBOR_CODEC);
    _ ← parse_profile_cid (ep_candidate_ecosystem_cid manifest) (Some DAG_CBOR_CODEC);
    if String.eqb (ep_parent_ecosystem_cid manifest) (ep_candidate_ecosystem_cid manifest)
    then invalid "ecosystem patch must change the ecosystem CID"
    else if (count (ep_repository_patches manifest) =? 0)
            || (MAX_REPOSITORY_PATCHES <? count (ep_repository_patches manifest))
    then invalid "repositoryPatches count is outside the deterministic limits"
    else _ ← try_fold validate_repository_patch None (ep_repository_patches manifest); Ok tt.

Definition validate_repository_locks (previous : option string) (repository : RepositoryToolchainLocksV1)
    : checked_manifest (option string) :=
  _ ← validate_portable_name (rt_repository repository) 80 "toolchain repository";
  if not_after previous (rt_repository repository)
  then invalid "repositoryLocks must be uniquely sorted by repository"
  else
    _ ← validate_string_map (rt_toolchain_locks repository) "repository toolchainLocks";
    Ok (Some (rt_repository repository)).

Definition validate_toolchain_manifest (manifest : ToolchainManifestV1) : checked_manifest unit :=
  if negb (tm_schema_version manifest =? 1) then invalid "toolchain manifest schemaVersion must be 1"
  else
    _ ← validate_string_map (tm_ecosystem_locks manifest) "ecosystemLocks";
    if (count (tm_repository_locks manifest) =? 0) || (MAX_REPOSITORIES <? count (tm_repository_locks manifest))
    then invalid "repositoryLocks count is outside the deterministic limits"
    else _ ← try_fold validate_repository_locks None (tm_repository_locks manifest); Ok tt.

Definition validate_pinset_cid (previous : option string) (cid : string) : checked_manifest (option string) :=
  _ ← parse_profile_cid cid None;
  if not_after previous cid then invalid "pinset CIDs must be uniquely sorted" else Ok (Some cid).

Definition validate_pinset_manifest (manifest : PinsetManifestV1) : checked_manifest unit :=
  if negb (pm_schema_version manifest =? 1) then invalid "pinset manifest schemaVersion must be 1"
  else
    _ ← parse_profile_cid (pm_ecosystem_cid manifest) (Some DAG_CBOR_CODEC);
    if (count (pm_cids manifest) =? 0) || (MAX_PINSET_CIDS <? count (pm_cids manifest))
    then invalid "pinset CID count is outside the deterministic limits"
    else _ ← try_fold validate_pinset_cid None (pm_cids manifest); Ok tt.

(** ** Canonical and readable forms *)

Definition canonical_artifact (artifact : ArtifactManifestV1) : checked_manifest CanonicalArtifactManifestV1 :=
  cid ← parse_profile_cid (am_cid artifact) (Some RAW_CODEC);
  Ok {| cam_name := am_name artifact; cam_cid := cid; cam_sha256 := am_sha256 artifact; cam_size := am_size artifact |}.

Definition canonical_repository (repository : RepositoryManifestV1) : checked_manifest CanonicalRepositoryManifestV1 :=
  source_tree_cid ← parse_profile_cid (rm_source_tree_cid repository) (Some DAG_CBOR_CODEC);
  git_bundle_cid ← try_option (fun value => parse_profile_cid value (Some RAW_CODEC)) (rm_git_bundle_cid repository);
  artifacts ← try_map canonical_artifact (rm_artifacts repository);
  Ok {| crm_schema_version := rm_schema_version repository; crm_name := rm_name repository;
        crm_source_tree_cid := source_tree_cid; crm_source_tree_sha256 := rm_source_tree_sha256 repository;
        crm_git_bundle_cid := git_bundle_cid; crm_git_commit_metadata := rm_git_commit_metadata repository;
        crm_dependency_locks := rm_dependency_locks repository; crm_toolchain_locks := rm_toolchain_locks repository;
        crm_build_instructions := rm_build_instructions repository; crm_artifacts := artifacts |}.

Definition canonical_ecosystem (manifest : EcosystemManifestV1) : checked_manifest CanonicalEcosystemManifestV1 :=
  parent_ecosystem_cid ← try_option (fun value => parse_profile_cid value (Some DAG_CBOR_CODEC))
                           (em_parent_ecosystem_cid manifest);
  repositories ← try_map canonical_repository (em_repositories manifest);
  governance_parameter_set_cid ← parse_profile_cid (em_governance_parameter_set_cid manifest) (Some DAG_CBOR_CODEC);
  Ok {| cem_schema_version := em_schema_version manifest; cem_ecosystem_id := em_ecosystem_id manifest;
        cem_parent_ecosystem_cid := parent_ecosystem_cid; cem_repositories := repositories;
        cem_compatibility_pins := em_compatibility_pins manifest; cem_toolchain_locks := em_toolchain_locks manifest;
        cem_governance_contract_version := em_governance_contract_version manifest;
        cem_governance_parameter_set_cid := governance_parameter_set_cid |}.

Definition canonical_repository_patch (patch : RepositoryPatchManifestV1)
    : checked_manifest CanonicalRepositoryPatchManifestV1 :=
  base_source_cid ← parse_profile_cid (rp_base_source_cid patch) (Some DAG_CBOR_CODEC);
  candidate_source_cid ← parse_profile_cid (rp_candidate_source_cid patch) (Some DAG_CBOR_CODEC);
  patch_cid ← parse_profile_cid (rp_patch_cid patch) (Some DAG_CBOR_CODEC);
  Ok {| crp_repository := rp_repository patch; crp_base_source_cid := base_source_cid;
        crp_candidate_source_cid := candidate_source_cid; crp_patch_cid := patch_cid;
        crp_patch_sha256 := rp_patch_sha256 patch |}.

Definition canonical_ecosystem_patch (manifest : EcosystemPatchManifestV1)
    : checked_manifest CanonicalEcosystemPatchManifestV1 :=
  parent_ecosystem_cid ← parse_profile_cid (ep_parent_ecosystem_cid manifest) (Some DAG_CBOR_CODEC);
  candidate_ecosystem_cid ← parse_profile_cid (ep_candidate_ecosystem_cid manifest) (Some DAG_CBOR_CODEC);
  repository_patches ← try_map canonical_repository_patch (ep_repository_patches manifest);
  Ok {| cep_schema_version := ep_schema_version manifest; cep_kind := ep_kind manifest;
        cep_parent_ecosystem_cid := parent_ecosystem_cid; cep_candidate_ecosystem_cid := candidate_ecosystem_cid;
        cep_repository_patches := repository_patches |}.

Definition human_artifact (artifact : CanonicalArtifactManifestV1) : ArtifactManifestV1 :=
  {| am_name := cam_name artifact; am_cid := cid_text (cam_cid artifact); am_sha256 := cam_sha256 artifact;
     am_size := cam_size artifact |}.

Definition human_repository (repository : CanonicalRepositoryManifestV1) : RepositoryManifestV1 :=
  {| rm_schema_version := crm_schema_version repository; rm_name := crm_name repository;
     rm_source_tree_cid := cid_text (crm_source_tree_cid repository);
     rm_source_tree_sha256 := crm_source_tree_sha256 repository;
     rm_git_bundle_cid := option_map cid_text (crm_git_bundle_cid repository);
     rm_git_commit_metadata := crm_git_commit_metadata repository;
     rm_dependency_locks := crm_dependency_locks repository; rm_toolchain_locks := crm_toolchain_locks repository;
     rm_build_instructions := crm_build_instructions repository;
     rm_artifacts := map human_artifact (crm_artifacts repository) |}.

Definition human_ecosystem (canonical : CanonicalEcosystemManifestV1) : EcosystemManifestV1 :=
  {| em_schema_version := cem_schema_version canonical; em_ecosystem_id := cem_ecosystem_id canonical;
     em_parent_ecosystem_cid := option_map cid_text (cem_parent_ecosystem_cid canonical);
     em_repositories := map human_repository (cem_repositories canonical);
     em_compatibility_pins := cem_compatibility_pins canonical; em_toolchain_locks := cem_toolchain_locks canonical;
     em_governance_contract_version := cem_governance_contract_version canonical;
     em_governance_parameter_set_cid := cid_text (cem_governance_parameter_set_cid canonical) |}.

Definition human_repository_patch (patch : CanonicalRepositoryPatchManifestV1) : RepositoryPatchManifestV1 :=
  {| rp_repository := crp_repository patch; rp_base_source_cid := cid_text (crp_base_source_cid patch);
     rp_candidate_source_cid := cid_text (crp_candidate_source_cid patch);
     rp_patch_cid := cid_text (crp_patch_cid patch); rp_patch_sha256 := crp_patch_sha256 patch |}.

Definition human_ecosystem_patch (canonical : CanonicalEcosystemPatchManifestV1) : EcosystemPatchManifestV1 :=
  {| ep_schema_version := cep_schema_version canonical; ep_kind := cep_kind canonical;
     ep_parent_ecosystem_cid := cid_text (cep_parent_ecosystem_cid canonical);
     ep_candidate_ecosystem_cid := cid_text (cep_candidate_ecosystem_cid canonical);
     ep_repository_patches := map human_repository_patch (cep_repository_patches canonical) |}.

Definition canonical_pinset (manifest : PinsetManifestV1) : checked_manifest CanonicalPinsetManifestV1 :=
  ecosystem_cid ← parse_profile_cid (pm_ecosystem_cid manifest) (Some DAG_CBOR_CODEC);
  cids ← try_map (fun value => parse_profile_cid value None) (pm_cids manifest);
  Ok {| cpm_schema_version := pm_schema_version manifest; cpm_ecosystem_cid := ecosystem_cid; cpm_cids := cids |}.

Definition human_pinset (canonical : CanonicalPinsetManifestV1) : PinsetManifestV1 :=
  {| pm_schema_version := cpm_schema_version canonical; pm_ecosystem_cid := cid_text (cpm_ecosystem_cid canonical);
     pm_cids := map cid_text (cpm_cids canonical) |}.

(** ** The transition between two ecosystems *)

Definition source_cids (manifest : EcosystemManifestV1) : gmap string string :=
  btree_collect (map (fun repository => (rm_name repository, rm_source_tree_cid repository)) (em_repositories manifest)).

(** The names whose source differs, in the order of the map. *)
Definition changed_sources (parent_sources candidate_sources : gmap string string) : list string :=
  map fst (filter (fun '(name, source) => candidate_sources !! name <> Some source) (btree_entries parent_sources)).

Definition check_patched_source (parent_sources candidate_sources : gmap string string)
    (entry : string * RepositoryPatchManifestV1) : checked_manifest unit :=
  let '(name, repository_patch) := entry in
  if negb (String.eqb (rp_repository repository_patch) name)
     || negb (bool_decide (parent_sources !! name = Some (rp_base_source_cid repository_patch)))
     || negb (bool_decide (candidate_sources !! name = Some (rp_candidate_source_cid repository_patch)))
  then invalid "aggregate patch source transition differs from the ecosystem manifests"
  else Ok tt.

Definition verify_ecosystem_transition (parent candidate : EcosystemManifestPackage)
    (patch : EcosystemPatchManifestPackage) : checked_manifest (list string) :=
  let parent_cid := cid_text (emp_root_cid parent) in
  let candidate_cid := cid_text (emp_root_cid candidate) in
  if bool_decide (em_parent_ecosystem_cid (emp_manifest candidate) <> Some parent_cid)
  then invalid "candidate parentEcosystemCid does not match the verified parent CAR"
  else if negb (String.eqb (ep_parent_ecosystem_cid (epp_manifest patch)) parent_cid)
          || negb (String.eqb (ep_candidate_ecosystem_cid (epp_manifest patch)) candidate_cid)
  then invalid "aggregate patch does not bind the verified parent and candidate CARs"
  else
    let parent_sources := source_cids (emp_manifest parent) in
    let candidate_sources := source_cids (emp_manifest candidate) in
    if bool_decide (btree_keys parent_sources <> btree_keys candidate_sources)
    then invalid "candidate repository source set differs from its parent"
    else
      let changed := changed_sources parent_sources candidate_sources in
      if negb (count changed =? count (ep_repository_patches (epp_manifest patch)))
      then invalid "aggregate patch does not exactly cover candidate source changes"
      else
        _ ← try_for_each (check_patched_source parent_sources candidate_sources)
              (zip changed (ep_repository_patches (epp_manifest patch)));
        Ok changed.

Definition required_pinset_cids (candidate : EcosystemManifestPackage) (patch : EcosystemPatchManifestPackage)
    : checked_manifest (gset string) :=
  let candidate_cid := cid_text (emp_root_cid candidate) in
  if negb (String.eqb (ep_candidate_ecosystem_cid (epp_manifest patch)) candidate_cid)
  then invalid "pinset transition does not target the candidate ecosystem"
  else
    let repositories := em_repositories (emp_manifest candidate) in
    Ok ({[candidate_cid; cid_text (epp_root_cid patch); em_governance_parameter_set_cid (emp_manifest candidate)]}
        ∪ list_to_set (map rm_source_tree_cid repositories)
        ∪ list_to_set (map am_cid (mjoin (map rm_artifacts repositories)))
        ∪ list_to_set (map rp_patch_cid (ep_repository_patches (epp_manifest patch)))).

Definition verify_pinset_manifest_for_transition (pinset : PinsetManifestPackage)
    (candidate : EcosystemManifestPackage) (patch : EcosystemPatchManifestPackage) : checked_manifest unit :=
  if negb (String.eqb (pm_ecosystem_cid (pmp_manifest pinset)) (cid_text (emp_root_cid candidate)))
  then invalid "pinset ecosystem CID does not match the candidate ecosystem"
  else
    let actual : gset string := list_to_set (pm_cids (pmp_manifest pinset)) in
    required ← required_pinset_cids candidate patch;
    if negb (bool_decide (required ⊆ actual))
    then invalid "pinset omits candidate, patch, source, artifact, or parameter content"
    else Ok tt.
End checks.

(** ** Packages *)

Section packages.
Context `{Hashing, CidCrate, DagCbor CarHeader, DagCbor CanonicalEcosystemManifestV1,
  DagCbor CanonicalEcosystemPatchManifestV1, DagCbor CanonicalPinsetManifestV1, DagCbor ToolchainManifestV1}.

Definition human_package (package : DagCborPackage CanonicalEcosystemManifestV1) (manifest : EcosystemManifestV1)
    : EcosystemManifestPackage :=
  {| emp_root_cid := root_cid package; emp_root_sha256 := root_sha256 package; emp_manifest := manifest;
     emp_dag_cbor_bytes := dag_cbor_bytes package; emp_car_bytes := car_bytes package |}.

Definition human_patch_package (package : DagCborPackage CanonicalEcosystemPatchManifestV1)
    (manifest : EcosystemPatchManifestV1) : EcosystemPatchManifestPackage :=
  {| epp_root_cid := root_cid package; epp_root_sha256 := root_sha256 package; epp_manifest := manifest;
     epp_dag_cbor_bytes := dag_cbor_bytes package; epp_car_bytes := car_bytes package |}.

Definition human_pinset_package (package : DagCborPackage CanonicalPinsetManifestV1)
    (manifest : PinsetManifestV1) : PinsetManifestPackage :=
  {| pmp_root_cid := root_cid package; pmp_root_sha256 := root_sha256 package; pmp_manifest := manifest;
     pmp_dag_cbor_bytes := dag_cbor_bytes package; pmp_car_bytes := car_bytes package |}.

Definition package_ecosystem_manifest (manifest : EcosystemManifestV1) : checked_manifest EcosystemManifestPackage :=
  _ ← validate_ecosystem_manifest manifest;
  canonical ← canonical_ecosystem manifest;
  package ← map_err ManifestSource (package_dag_cbor canonical);
  Ok (human_package package manifest).

Definition verify_ecosystem_manifest_car (b : bytes) : checked_manifest EcosystemManifestPackage :=
  package ← map_err ManifestSource (verify_dag_cbor_car (T := CanonicalEcosystemManifestV1) b);
  let manifest := human_ecosystem (package_value package) in
  _ ← validate_ecosystem_manifest manifest;
  Ok (human_package package manifest).

Definition package_ecosystem_patch_manifest (manifest : EcosystemPatchManifestV1)
    : checked_manifest EcosystemPatchManifestPackage :=
  _ ← validate_ecosystem_patch_manifest manifest;
  canonical ← canonical_ecosystem_patch manifest;
  package ← map_err ManifestSource (package_dag_cbor canonical);
  Ok (human_patch_package package manifest).

Definition verify_ecosystem_patch_manifest_car (b : bytes) : checked_manifest EcosystemPatchManifestPackage :=
  package ← map_err ManifestSource (verify_dag_cbor_car (T := CanonicalEcosystemPatchManifestV1) b);
  let manifest := human_ecosystem_patch (package_value package) in
  _ ← validate_ecosystem_patch_manifest manifest;
  Ok (human_patch_package package manifest).

Definition toolchain_manifest (ecosystem : EcosystemManifestV1) : ToolchainManifestV1 :=
  {| tm_schema_version := 1; tm_ecosystem_locks := em_toolchain_locks ecosystem;
     tm_repository_locks := map (fun repository =>
       {| rt_repository := rm_name repository; rt_toolchain_locks := rm_toolchain_locks repository |})
       (em_repositories ecosystem) |}.

Definition package_toolchain_manifest_for_ecosystem (ecosystem : EcosystemManifestV1)
    : checked_manifest ToolchainManifestPackage :=
  _ ← validate_ecosystem_manifest ecosystem;
  let value := toolchain_manifest ecosystem in
  _ ← validate_toolchain_manifest value;
  map_err ManifestSource (package_dag_cbor value).

Definition verify_toolchain_manifest_car (b : bytes) : checked_manifest ToolchainManifestPackage :=
  package ← map_err ManifestSource (verify_dag_cbor_car (T := ToolchainManifestV1) b);
  _ ← validate_toolchain_manifest (package_value package);
  Ok package.

Definition package_pinset_manifest_for_transition_with_additional (candidate : EcosystemManifestPackage)
    (patch : EcosystemPatchManifestPackage) (additional_cids : list string) : checked_manifest PinsetManifestPackage :=
  let candidate_cid := cid_text (emp_root_cid candidate) in
  if negb (String.eqb (ep_candidate_ecosystem_cid (epp_manifest patch)) candidate_cid)
  then invalid "pinset transition does not target the candidate ecosystem"
  else
    cids ← required_pinset_cids candidate patch;
    cids ← try_fold (fun cids cid => _ ← parse_profile_cid cid None; Ok ({[cid]} ∪ cids)) cids additional_cids;
    let manifest := {| pm_schema_version := 1; pm_ecosystem_cid := candidate_cid; pm_cids := btree_set_list cids |} in
    _ ← validate_pinset_manifest manifest;
    canonical ← canonical_pinset manifest;
    package ← map_err ManifestSource (package_dag_cbor canonical);
    Ok (human_pinset_package package manifest).

Definition package_pinset_manifest_for_transition (candidate : EcosystemManifestPackage)
    (patch : EcosystemPatchManifestPackage) : checked_manifest PinsetManifestPackage :=
  package_pinset_manifest_for_transition_with_additional candidate patch [].

Definition verify_pinset_manifest_car (b : bytes) : checked_manifest PinsetManifestPackage :=
  package ← map_err ManifestSource (verify_dag_cbor_car (T := CanonicalPinsetManifestV1) b);
  let manifest := human_pinset (package_value package) in
  _ ← validate_pinset_manifest manifest;
  Ok (human_pinset_package package manifest).
End packages.

(** ** Packaging and verification agree *)

Section roundtrip.
Context `{Hashing, !HashLaws, CidCrate, !CidLaws, DagCbor CarHeader, !DagCborLaws CarHeader}.
Context `{DagCbor CanonicalEcosystemManifestV1, !DagCborLaws CanonicalEcosystemManifestV1}.
Context `{DagCbor CanonicalEcosystemPatchManifestV1, !DagCborLaws CanonicalEcosystemPatchManifestV1}.

Lemma parse_profile_cid_text value codec cid : parse_profile_cid value codec = Ok cid -> cid_text cid = value.
Proof. unfold parse_profile_cid, invalid. intros Hp. res_inv. bool_inv. by subst. Qed.

Lemma try_map_inverse {E A B} (f : A -> result E B) (g : B -> A) l k :
  (forall a b, f a = Ok b -> g b = a) -> try_map f l = Ok k -> map g k = l.
Proof. intros Hg Hl%try_map_Ok. induction Hl as [|a b l k Hf Hl IH]; cbn; [done|]. f_equal; auto. Qed.

Lemma try_option_inverse {E A B} (f : A -> result E B) (g : B -> A) o o' :
  (forall a b, f a = Ok b -> g b = a) -> try_option f o = Ok o' -> option_map g o' = o.
Proof. intros Hg. destruct o as [a|]; cbn; intros Ho; res_inv; subst; cbn; [by erewrite Hg|done]. Qed.

Lemma canonical_artifact_human a c : canonical_artifact a = Ok c -> human_artifact c = a.
Proof.
  unfold canonical_artifact. intros (cid & Hc%parse_profile_cid_text & [= <-])%bind_Ok. unfold human_artifact. cbn.
  rewrite Hc. by destruct a.
Qed.

Lemma canonical_repository_human r c : canonical_repository r = Ok c -> human_repository c = r.
Proof.
  unfold canonical_repository.
  intros (cid & Hc%parse_profile_cid_text & (bundle & Hb & (arts & Ha & [= <-])%bind_Ok)%bind_Ok)%bind_Ok.
  apply (try_option_inverse _ cid_text) in Hb; [|intros ?? Hv; by apply parse_profile_cid_text in Hv].
  apply (try_map_inverse _ human_artifact) in Ha; [|apply canonical_artifact_human].
  unfold human_repository. cbn. rewrite Hc, Hb, Ha. by destruct r.
Qed.

Lemma canonical_ecosystem_human m c : canonical_ecosystem m = Ok c -> human_ecosystem c = m.
Proof.
  unfold canonical_ecosystem. intros (parent & Hp & (repos & Hr & (params & Hg%parse_profile_cid_text & [= <-])%bind_Ok)%bind_Ok)%bind_Ok.
  apply (try_option_inverse _ cid_text) in Hp; [|intros ?? Hv; by apply parse_profile_cid_text in Hv].
  apply (try_map_inverse _ human_repository) in Hr; [|apply canonical_repository_human].
  unfold human_ecosystem. cbn. rewrite Hp, Hr, Hg. by destruct m.
Qed.

Lemma canonical_repository_patch_human p c : canonical_repository_patch p = Ok c -> human_repository_patch c = p.
Proof.
  unfold canonical_repository_patch.
  intros (a & Ha%parse_profile_cid_text & (b & Hb%parse_profile_cid_text & (d & Hd%parse_profile_cid_text & [= <-])%bind_Ok)%bind_Ok)%bind_Ok.
  unfold human_repository_patch. cbn. rewrite Ha, Hb, Hd. by destruct p.
Qed.

Lemma canonical_ecosystem_patch_human m c : canonical_ecosystem_patch m = Ok c -> human_ecosystem_patch c = m.
Proof.
  unfold canonical_ecosystem_patch.
  intros (a & Ha%parse_profile_cid_text & (b & Hb%parse_profile_cid_text & (ps & Hps & [= <-])%bind_Ok)%bind_Ok)%bind_Ok.
  apply (try_map_inverse _ human_repository_patch) in Hps; [|apply canonical_repository_patch_human].
  unfold human_ecosystem_patch. cbn. rewrite Ha, Hb, Hps. by destruct m.
Qed.

(** The archive of a packaged object, as the limits of the reader see it. *)
Definition as_car {A} (manifest : A) (cid : CID) (sha : string) (cbor car : bytes) : DagCborPackage A :=
  {| root_cid := cid; root_sha256 := sha; package_value := manifest; dag_cbor_bytes := cbor; car_bytes := car |}.

Definition ecosystem_within_limits (p : EcosystemManifestPackage) : Prop :=
  within_car_limits (as_car (emp_manifest p) (emp_root_cid p) (emp_root_sha256 p) (emp_dag_cbor_bytes p) (emp_car_bytes p)).

Definition patch_within_limits (p : EcosystemPatchManifestPackage) : Prop :=
  within_car_limits (as_car (epp_manifest p) (epp_root_cid p) (epp_root_sha256 p) (epp_dag_cbor_bytes p) (epp_car_bytes p)).

Lemma package_value_of `{DagCbor T} (v : T) pkg : package_dag_cbor v = Ok pkg -> package_value pkg = v.
Proof. by intros [? _]%package_Ok. Qed.

(** (roundtrip). An ecosystem manifest and a patch manifest that were packaged verify, within
    the limits of the archive reader, to the same packages: every field survives the canonical
    form, in which CIDs are binary. *)
Theorem manifests_survive_packaging manifest patch p q :
  package_ecosystem_manifest manifest = Ok p -> package_ecosystem_patch_manifest patch = Ok q ->
  ecosystem_within_limits p -> patch_within_limits q ->
  verify_ecosystem_manifest_car (emp_car_bytes p) = Ok p /\ emp_manifest p = manifest /\
  verify_ecosystem_patch_manifest_car (epp_car_bytes q) = Ok q /\ epp_manifest q = patch.
Proof.
  unfold package_ecosystem_manifest, package_ecosystem_patch_manifest.
  intros ([] & Hv & (c & Hc & (pkg & Hp%map_err_Ok & [= <-])%bind_Ok)%bind_Ok)%bind_Ok
         ([] & Hv' & (c' & Hc' & (pkg' & Hp'%map_err_Ok & [= <-])%bind_Ok)%bind_Ok)%bind_Ok Hl Hl'.
  pose proof (package_value_of _ _ Hp) as Hval. pose proof (package_value_of _ _ Hp') as Hval'.
  apply canonical_ecosystem_human in Hc. apply canonical_ecosystem_patch_human in Hc'.
  unfold verify_ecosystem_manifest_car, verify_ecosystem_patch_manifest_car, human_package, human_patch_package. cbn [emp_car_bytes epp_car_bytes emp_manifest epp_manifest].
  rewrite (proj2 (verified_iff (car_bytes pkg) pkg)) by (split_and!; [by rewrite Hval|done|exact Hl]).
  rewrite (proj2 (verified_iff (car_bytes pkg') pkg')) by (split_and!; [by rewrite Hval'|done|exact Hl']).
  cbn [mbind result_bind map_err]. rewrite Hval, Hval', Hc, Hc', Hv, Hv'. done.
Qed.
End roundtrip.

(** ** A verified patch is the difference of two ecosystems *)

Lemma btree_entries_keys {V} (m : gmap string V) : btree_keys m = map fst (btree_entries m).
Proof. done. Qed.

Lemma btree_keys_elem {V} (m : gmap string V) k : k ∈ btree_keys m <-> is_Some (m !! k).
Proof.
  rewrite btree_entries_keys, list_elem_of_fmap. split.
  - intros ([k' v] & -> & Hin%btree_entries_elem). by exists v.
  - intros [v Hv%btree_entries_elem]. by exists (k, v).
Qed.

Lemma changed_sources_elem parent candidate name :
  name ∈ changed_sources parent candidate <->
  is_Some (parent !! name) /\ candidate !! name <> parent !! name.
Proof.
  unfold changed_sources. rewrite list_elem_of_fmap. split.
  - intros ([k v] & -> & [Hne Hin%btree_entries_elem]%list_elem_of_filter). cbn. split; [by exists v|]. congruence.
  - intros [[v Hv] Hne]. exists (name, v). split; [done|]. apply list_elem_of_filter.
    split; [congruence|by apply btree_entries_elem].
Qed.

(** Replaces the sources that a patch names. *)
Definition apply_patches (patches : list RepositoryPatchManifestV1) (sources : gmap string string) : gmap string string :=
  foldl (fun m p => <[rp_repository p := rp_candidate_source_cid p]> m) sources patches.

Lemma apply_patches_other patches : forall sources name,
  name ∉ map rp_repository patches -> apply_patches patches sources !! name = sources !! name.
Proof.
  unfold apply_patches. induction patches as [|p patches IH]; intros sources name Hn; [done|]. cbn in *.
  apply not_elem_of_cons in Hn as [Hne Hn]. rewrite IH by done. by rewrite lookup_insert_ne.
Qed.

Lemma apply_patches_in patches sources name target :
  Forall (fun p => rp_repository p = name -> rp_candidate_source_cid p = target) patches ->
  name ∈ map rp_repository patches -> apply_patches patches sources !! name = Some target.
Proof.
  revert sources. induction patches as [|p patches IH]; intros sources Hall Hin; [by apply elem_of_nil in Hin|].
  cbn in *. apply Forall_cons in Hall as [Hp Hall].
  destruct (decide (name ∈ map rp_repository patches)) as [Hin'|Hn]; [by apply IH|].
  apply elem_of_cons in Hin as [->|]; [|done]. pose proof (apply_patches_other patches) as Hother.
  unfold apply_patches in *. rewrite Hother by done. by rewrite lookup_insert_eq, Hp.
Qed.

Section transition.
Context `{CidCrate}.

Lemma transition_Ok parent candidate patch changed :
  verify_ecosystem_transition parent candidate patch = Ok changed ->
  let ps := source_cids (emp_manifest parent) in let cs := source_cids (emp_manifest candidate) in
  let patches := ep_repository_patches (epp_manifest patch) in
  em_parent_ecosystem_cid (emp_manifest candidate) = Some (cid_text (emp_root_cid parent)) /\
  ep_parent_ecosystem_cid (epp_manifest patch) = cid_text (emp_root_cid parent) /\
  ep_candidate_ecosystem_cid (epp_manifest patch) = cid_text (emp_root_cid candidate) /\
  btree_keys ps = btree_keys cs /\ changed = changed_sources ps cs /\
  Forall2 (fun name p => rp_repository p = name /\ ps !! name = Some (rp_base_source_cid p) /\
                         cs !! name = Some (rp_candidate_source_cid p)) changed patches.
Proof.
  unfold verify_ecosystem_transition, invalid. intros Ht. cbv zeta in *.
  destruct (bool_decide _) eqn:Hb1 in Ht; [discriminate Ht|]. destruct (_ || _) eqn:Hb2 in Ht; [discriminate Ht|].
  destruct (bool_decide _) eqn:Hb3 in Ht; [discriminate Ht|]. destruct (negb _) eqn:Hb4 in Ht; [discriminate Ht|].
  apply bind_Ok in Ht as ([] & Hall%try_for_each_Ok & [= <-]). bool_inv.
  apply dec_stable in Hb1, Hb3. split_and!; [done..|]. unfold count in *.
  assert (length (changed_sources (source_cids (emp_manifest parent)) (source_cids (emp_manifest candidate))) =
          length (ep_repository_patches (epp_manifest patch))) as Hlen by lia.
  revert Hlen Hall. generalize (changed_sources (source_cids (emp_manifest parent)) (source_cids (emp_manifest candidate))).
  generalize (ep_repository_patches (epp_manifest patch)). clear.
  intros patches names. revert patches. induction names as [|name names IH]; intros [|p patches] Hlen Hall; try done.
  cbn in Hall. apply Forall_cons in Hall as [Hp Hall]. constructor; [|apply IH; [by injection Hlen|done]].
  unfold check_patched_source, invalid in Hp. destruct (_ || _) eqn:Hif in Hp; [discriminate Hp|]. by bool_inv.
Qed.

(** C29 (refinement). When a transition verifies, the candidate names its parent and the patch
    names both; the patch lists exactly the repositories whose source changed; and replacing
    in the parent the sources that the patch lists gives the sources of the candidate. *)
Theorem verified_patch_yields_candidate parent candidate patch changed :
  verify_ecosystem_transition parent candidate patch = Ok changed ->
  em_parent_ecosystem_cid (emp_manifest candidate) = Some (cid_text (emp_root_cid parent)) /\
  ep_candidate_ecosystem_cid (epp_manifest patch) = cid_text (emp_root_cid candidate) /\
  map rp_repository (ep_repository_patches (epp_manifest patch)) = changed /\
  (forall name, name ∈ changed <->
     is_Some (source_cids (emp_manifest parent) !! name) /\
     source_cids (emp_manifest candidate) !! name <> source_cids (emp_manifest parent) !! name) /\
  apply_patches (ep_repository_patches (epp_manifest patch)) (source_cids (emp_manifest parent))
  = source_cids (emp_manifest candidate).
Proof.
  intros (Hpar & _ & Hcand & Hkeys & Hch & Hall)%transition_Ok.
  assert (map rp_repository (ep_repository_patches (epp_manifest patch)) = changed) as Hnames.
  { clear -Hall. induction Hall as [|n p ns ps (? & _) Hall IH]; [done|]. cbn. by f_equal. }
  assert (forall name, name ∈ changed <-> is_Some (source_cids (emp_manifest parent) !! name) /\
     source_cids (emp_manifest candidate) !! name <> source_cids (emp_manifest parent) !! name) as Hiff
    by (intros name; rewrite Hch; apply changed_sources_elem).
  split_and!; [done..|]. apply map_eq. intros name. destruct (decide (name ∈ changed)) as [Hin|Hn].
  - destruct (list_elem_of_lookup_1 _ _ Hin) as [i Hi].
    destruct (Forall2_lookup_l _ _ _ _ _ Hall Hi) as (p & Hp & Hrepo & _ & Hc). rewrite Hc.
    apply apply_patches_in; [|by rewrite Hnames]. apply Forall_forall. intros q Hq Heq.
    destruct (list_elem_of_lookup_1 _ _ Hq) as [j Hj].
    destruct (Forall2_lookup_r _ _ _ _ _ Hall Hj) as (n & _ & Hrq & _ & Hcq). congruence.
  - rewrite apply_patches_other by by rewrite Hnames.
    destruct (source_cids (emp_manifest parent) !! name) as [v|] eqn:Hv.
    + destruct (decide (source_cids (emp_manifest candidate) !! name = Some v)) as [|Hne]; [done|].
      exfalso. apply Hn, Hiff. rewrite Hv. split; [by eexists|done].
    + destruct (source_cids (emp_manifest candidate) !! name) as [v|] eqn:Hw; [|done]. exfalso.
      assert (name ∈ btree_keys (source_cids (emp_manifest candidate))) as Hk by (apply btree_keys_elem; by eexists).
      rewrite <-Hkeys in Hk. apply btree_keys_elem in Hk as [? ?]. congruence.
Qed.
End transition.

(** ** A concrete transition *)

#[local] Existing Instance hashing_c.
#[local] Existing Instance cid_crate_c.
#[local] Existing Instance cid_laws_c.
#[local] Existing Instance header_cbor_c.
#[local] Existing Instance header_cbor_laws_c.
#[local] Existing Instance hash_laws_c.

Definition sample_cid (codec : N) (data : bytes) : string := cid_text (cid_for codec data).

Definition sample_repository (name : string) (source : bytes) : RepositoryManifestV1 := {|
  rm_schema_version := 1; rm_name := name; rm_source_tree_cid := sample_cid DAG_CBOR_CODEC source;
  rm_source_tree_sha256 := sha256_hex source; rm_git_bundle_cid := None; rm_git_commit_metadata := None;
  rm_dependency_locks := [{| dl_path := "Cargo.lock"; dl_sha256 := sha256_hex [x09] |}];
  rm_toolchain_locks := {["rustc" := "1.85"]}; rm_build_instructions := ["cargo build"];
  rm_artifacts := [{| am_name := name; am_cid := sample_cid RAW_CODEC [x0a]; am_sha256 := sha256_hex [x0a]; am_size := 1 |}] |}.

Definition sample_ecosystem (parent : option string) (node_source : bytes) : EcosystemManifestV1 := {|
  em_schema_version := 1; em_ecosystem_id := "pohw"; em_parent_ecosystem_cid := parent;
  em_repositories := [sample_repository "node" node_source; sample_repository "ui" [x02]];
  em_compatibility_pins := ∅; em_toolchain_locks := ∅; em_governance_contract_version := "0.3.0";
  em_governance_parameter_set_cid := sample_cid DAG_CBOR_CODEC [x50; x00] |}.

(** The positions of the ecosystems, their sources and the patches in their tables give their CIDs. *)
Definition sample_parent : EcosystemManifestV1 := sample_ecosystem None [x12; x00].
Definition sample_parent_cid : string := sample_cid DAG_CBOR_CODEC [x10; x00].
Definition sample_candidate : EcosystemManifestV1 := sample_ecosystem (Some sample_parent_cid) [x12; x01].
Definition sample_candidate_cid : string := sample_cid DAG_CBOR_CODEC [x10; x01].

Definition sample_patch : EcosystemPatchManifestV1 := {|
  ep_schema_version := 1; ep_kind := "pohw-ecosystem-patch-v1"; ep_parent_ecosystem_cid := sample_parent_cid;
  ep_candidate_ecosystem_cid := sample_candidate_cid;
  ep_repository_patches := [{|
    rp_repository := "node"; rp_base_source_cid := sample_cid DAG_CBOR_CODEC [x12; x00];
    rp_candidate_source_cid := sample_cid DAG_CBOR_CODEC [x12; x01]; rp_patch_cid := sample_cid DAG_CBOR_CODEC [x13; x00];
    rp_patch_sha256 := sha256_hex [x13; x00] |}] |}.

Definition ok_values {E A} (l : list (result E A)) : list A := omap (fun r => match r with Ok a => Some a | Err _ => None end) l.

#[local] Instance sample_ecosystem_cbor : DagCbor CanonicalEcosystemManifestV1 :=
  table_cbor x10 (ok_values [canonical_ecosystem sample_parent; canonical_ecosystem sample_candidate]).
#[local] Instance sample_ecosystem_cbor_laws : DagCborLaws CanonicalEcosystemManifestV1 := table_cbor_laws _ _.
#[local] Instance sample_patch_cbor : DagCbor CanonicalEcosystemPatchManifestV1 :=
  table_cbor x11 (ok_values [canonical_ecosystem_patch sample_patch]).
#[local] Instance sample_patch_cbor_laws : DagCborLaws CanonicalEcosystemPatchManifestV1 := table_cbor_laws _ _.

Definition ecosystem_limits_bool (cid : CID) (cbor : bytes) : bool :=
  section_ok_bool (length (cid_to_bytes cid ++ cbor)) && section_ok_bool (length (cid_to_bytes cid)).

Lemma limits_by_computation {A} (m : A) cid sha cbor car :
  ecosystem_limits_bool cid cbor = true -> within_car_limits (as_car m cid sha cbor car).
Proof.
  intros [Hd Hh]%andb_true_iff. split; [by apply section_ok_by_computation|].
  intros header [= <-]. by apply section_ok_by_computation.
Qed.

Lemma manifests_survive_packaging_witness :
  exists p q, package_ecosystem_manifest sample_candidate = Ok p /\ package_ecosystem_patch_manifest sample_patch = Ok q /\
    verify_ecosystem_manifest_car (emp_car_bytes p) = Ok p /\ verify_ecosystem_patch_manifest_car (epp_car_bytes q) = Ok q.
Proof.
  assert (match package_ecosystem_manifest sample_candidate, package_ecosystem_patch_manifest sample_patch with
          | Ok p, Ok q => ecosystem_limits_bool (emp_root_cid p) (emp_dag_cbor_bytes p) &&
                          ecosystem_limits_bool (epp_root_cid q) (epp_dag_cbor_bytes q)
          | _, _ => false end = true) as Hrun by (vm_compute; reflexivity).
  destruct (package_ecosystem_manifest sample_candidate) as [p|] eqn:Hp; [|done].
  destruct (package_ecosystem_patch_manifest sample_patch) as [q|] eqn:Hq; [|done].
  apply andb_true_iff in Hrun as [Hl1 Hl2]. exists p, q.
  destruct (manifests_survive_packaging _ _ p q Hp Hq) as (? & _ & ? & _); [by apply limits_by_computation..|].
  split_and!; [reflexivity|reflexivity|assumption|assumption].
Defined.

Lemma verified_patch_yields_candidate_witness :
  exists parent candidate patch,
    verify_ecosystem_transition parent candidate patch = Ok ["node"] /\ emp_manifest candidate = sample_candidate /\
    apply_patches (ep_repository_patches (epp_manifest patch)) (source_cids (emp_manifest parent))
    = source_cids (emp_manifest candidate).
Proof.
  pose (pack := fun m => match package_ecosystem_manifest m with Ok p => [p] | Err _ => [] end).
  assert (match pack sample_parent, pack sample_candidate, package_ecosystem_patch_manifest sample_patch with
          | [p], [c], Ok q => bool_decide (verify_ecosystem_transition p c q = Ok ["node"]) | _, _, _ => false end = true) as Hrun
    by (vm_compute; reflexivity).
  unfold pack in Hrun. clear pack. destruct (package_ecosystem_manifest sample_parent) as [p|]; [|done].
  destruct (package_ecosystem_manifest sample_candidate) as [c|] eqn:Hc; [|done].
  destruct (package_ecosystem_patch_manifest sample_patch) as [q|]; [|done].
  apply bool_decide_eq_true_1 in Hrun. exists p, c, q. split_and!; [exact Hrun| |by apply (verified_patch_yields_candidate _ _ _ _ Hrun)].
  unfold package_ecosystem_manifest in Hc. by apply bind_Ok in Hc as (? & _ & (? & _ & (? & _ & [= <-])%bind_Ok)%bind_Ok).
Defined.
