(* ===== verification/GovScope.v ===== *)
(** * Proposal scope evidence ([crates/governance-core/src/scope.rs])

    What a proposal changes, recomputed from the source manifests it carries:
    the changed paths of every repository, their sizes, and the risk class of
    the proposal, the highest of its paths.  A verified scope lists exactly the
    files that differ, and a scope of normal risk touches documentation only. *)
From S2P Require Import Prelude Order Text Crates Concrete GovText GovMath GovSource.
From Stdlib Require Import Ascii Strings.Byte.

Local Open Scope N_scope.

Definition OBJECTIVE_RISK_CLASSIFIER_V2 : string := "pohw-objective-risk-classifier-v2".
Definition MAX_SCOPE_DAG_CBOR_BYTES : N := 1400000.
Definition MAX_SCOPE_PROOF_BYTES : N := 600000.
Definition MAX_SCOPE_FILES_PER_REPOSITORY : N := 2048.
Definition MAX_SOURCE_FILE_BYTES : N := 256 * 1024 * 1024.
Definition MAX_SOURCE_TREE_BYTES : N := 2 * 1024 * 1024 * 1024.

Record ScopeChangeV1 := { sc_path : string; sc_change_kind : string; sc_size : N }.

Record RepositoryScopeEvidenceV1 := {
  rs_repository : string; rs_base_source_cid : string; rs_candidate_source_cid : string;
  rs_patch_cid : string; rs_patch_sha256 : string; rs_base_manifest_dag_cbor_hex : string;
  rs_candidate_manifest_dag_cbor_hex : string; rs_patch_dag_cbor_hex : string;
  rs_patch_content_bytes : N; rs_candidate_content_bytes : N; rs_changes : list ScopeChangeV1 }.

Record ProposalScopeEvidenceV1 := {
  pe_schema_version : N; pe_classifier_version : string; pe_parent_ecosystem_cid : string;
  pe_candidate_ecosystem_cid : string; pe_patch_cid : string; pe_repositories : list RepositoryScopeEvidenceV1;
  pe_rationale_bytes : N; pe_migration_notes_bytes : N; pe_test_plan_bytes : N; pe_changed_file_count : N;
  pe_patch_bytes : N; pe_source_package_bytes : N; pe_description_bytes : N;
  pe_migration_operation_count : N; pe_derived_risk_class : RiskClass }.

Inductive ScopeError := ScopeInvalid (m : string) | ScopeOverflow | ScopePackaging (m : string).

#[global] Instance ScopeChangeV1_eq_dec : EqDecision ScopeChangeV1.
Proof. solve_decision. Defined.
#[global] Instance ProposalScopeEvidenceV1_eq_dec : EqDecision ProposalScopeEvidenceV1.
Proof. assert (EqDecision RepositoryScopeEvidenceV1) by solve_decision. solve_decision. Defined.

Abbreviation checked_scope := (result ScopeError).

Definition invalid {T} (message : string) : checked_scope T := Err (ScopeInvalid message).

(** The [Display] of a [SourceError]. *)
Definition source_error_to_string (e : SourceError) : string :=
  match e with
  | InvalidRoot m => "source root must be a non-symlink directory: " +:+ m
  | InvalidRepository m => "repository name is invalid: " +:+ m
  | UnsafePath m => "source path is unsafe or non-portable: " +:+ m
  | UnsafeFileType m => "source path is a symlink or special file: " +:+ m
  | ForbiddenPath m => "source path is forbidden by the secret/local-state policy: " +:+ m
  | SecretContent path reason => "source file appears to contain a secret (" +:+ reason +:+ "): " +:+ path
  | FileTooLarge m => "source file exceeds " +:+ pretty MAX_SOURCE_FILE_BYTES +:+ " bytes: " +:+ m
  | TreeTooLarge => "source tree exceeds " +:+ pretty MAX_SOURCE_TREE_BYTES +:+ " bytes"
  | InvalidSourceManifest m => "source manifest is invalid: " +:+ m
  | InvalidCar m => "CAR file is malformed: " +:+ m
  | CidMismatch m => "CID verification failed for " +:+ m
  | MissingBlock m => "CAR is missing block " +:+ m
  | UnsafeOutput m => "output directory must be absent or empty and contain no symlinks: " +:+ m
  | Cbor m => "DAG-CBOR error: " +:+ m
  | SourceDiverged => EmptyString
  end.

(** ** Paths and risk *)

Definition is_documentation_path (path : string) : bool :=
  (ends_with ".md" path || ends_with ".txt" path) &&
  (starts_with "docs/" path
   || (negb (contains "/" path) &&
       existsb (String.eqb path) ["README.md"; "CONTRIBUTING.md"; "SECURITY.md"; "CODE_OF_CONDUCT.md"]%string)).

Definition is_migration_path (path : string) : bool :=
  starts_with "migrations/" path || contains "/migrations/" path
  || starts_with "migration/" path || contains "/migration/" path.

Definition classify_repository_path (repository path : string) : RiskClass :=
  if existsb (String.eqb repository) ["idena-wasm"; "idena-wasm-binding"; "wasmer"]%string then Consensus
  else if String.eqb repository "idena-go"
          && existsb (fun prefix => starts_with prefix path)
               ["blockchain/"; "core/"; "vm/"; "consensus/"; "config/"]%string
  then Consensus
  else if String.eqb repository "P2poolBTC"
          && (starts_with "contracts/idena-code-governance/" path
              || starts_with "compatibility/governance-fork" path
              || starts_with "compatibility/governance-day-fork" path
              || starts_with "integrations/governance-epoch-anchor/" path
              || contains "fork_chain" path || contains "sharechain" path || contains "consensus" path)
  then Consensus
  else if is_migration_path path then Migration
  else if is_documentation_path path then Normal
  else Critical.

Definition risk_rank (risk : RiskClass) : N :=
  match risk with Normal => 0 | Critical => 1 | Migration => 2 | Consensus => 3 end.

Definition max_risk (left right : RiskClass) : RiskClass := if risk_rank left <? risk_rank right then right else left.

Definition valid_repository_name (value : string) : bool :=
  negb (is_empty value) && Nat.leb (String.length value) 80 && all_bytes is_safe_byte value.

Definition valid_scope_path (path : string) : bool :=
  negb (is_empty path) && Nat.leb (String.length path) 1024 && negb (starts_with "/" path)
  && negb (ends_with "/" path) && negb (contains_byte zero path) && negb (contains_byte "\" path)
  && negb (contains_byte ":" path)
  && forallb (fun part => negb (is_empty part) && negb (String.eqb part ".") && negb (String.eqb part ".."))
       (split "/" path).

Definition is_lower_hex_64 (value : string) : bool := lower_hex_64 value.

(** ** Source manifests *)

Section scope.
Context `{Hashing, CidCrate}.

Definition validate_canonical_cid (value : string) : checked_scope unit :=
  cid ← ok_or (ScopeInvalid "invalid CID") (cid_from_str value);
  if negb (cid_v1 cid) || negb (cid_codec cid =? 0x71) || negb (cid_multihash cid =? 0x12)
     || negb (Nat.eqb (length (cid_digest cid)) 32) || negb (starts_with "b" value)
     || negb (String.eqb (cid_text cid) value)
  then invalid "CID must be canonical base32 CIDv1 DAG-CBOR SHA2-256"
  else Ok tt.

Definition decode_hex_proof (value : string) : checked_scope bytes :=
  if is_empty value || Nat.odd (String.length value) then invalid "source-manifest proof hex is empty or malformed"
  else map_err (fun _ => ScopeInvalid "source-manifest proof hex is invalid") (hex_decode value).

Definition validate_source_entry (entry : SourceFileEntryV1) : checked_scope unit :=
  if negb (valid_scope_path (sf_path entry)) || negb ((sf_mode entry =? 420) || (sf_mode entry =? 493))
     || (MAX_SOURCE_FILE_BYTES <? sf_size entry) || negb (is_lower_hex_64 (sf_sha256 entry))
  then invalid "source manifest file entry is invalid"
  else
    cid ← ok_or (ScopeInvalid "source file CID is malformed") (cid_from_str (sf_cid entry));
    if negb (cid_v1 cid) || negb (cid_codec cid =? 0x55) || negb (cid_multihash cid =? 0x12)
       || negb (Nat.eqb (length (cid_digest cid)) 32) || negb (String.eqb (cid_text cid) (sf_cid entry))
       || negb (String.eqb (hex_encode (cid_digest cid)) (sf_sha256 entry))
    then invalid "source file CID and digest are inconsistent"
    else Ok tt.

(** One pass of the loop over the files: the previous path, the lower-case paths and the total. *)
Definition check_source_entry (st : option string * gset string * N) (entry : SourceFileEntryV1)
    : checked_scope (option string * gset string * N) :=
  let '(previous, portable_paths, total) := st in
  _ ← validate_source_entry entry;
  if not_after previous (sf_path entry) || bool_decide (to_ascii_lowercase (sf_path entry) ∈ portable_paths)
  then invalid "source manifest paths are not portable and strictly sorted"
  else
    total ← ok_or ScopeOverflow (checked_add 64 total (sf_size entry));
    if MAX_SOURCE_TREE_BYTES <? total then invalid "source manifest content exceeds the deterministic limit"
    else Ok (Some (sf_path entry), {[to_ascii_lowercase (sf_path entry)]} ∪ portable_paths, total).

Definition validate_source_manifest_metadata (manifest : SourceTreeManifestV1) (repository : string) : checked_scope N :=
  if negb (st_schema_version manifest =? 1) || negb (String.eqb (st_kind manifest) "pohw-source-tree-v1")
     || negb (String.eqb (st_repository manifest) repository)
     || (MAX_SCOPE_FILES_PER_REPOSITORY <? count (st_files manifest))
  then invalid "source manifest schema, repository, or file count is invalid"
  else '(_, _, total) ← try_fold check_source_entry (None, ∅, 0) (st_files manifest); Ok total.

Definition files_by_path (files : list SourceFileEntryV1) : gmap string SourceFileEntryV1 :=
  btree_collect (map (fun entry => (sf_path entry, entry)) files).

Definition removed_paths (base_files candidate_files : gmap string SourceFileEntryV1) : list string :=
  filter (fun path => candidate_files !! path = None) (btree_keys base_files).

Definition upserted_files (base_files candidate_files : gmap string SourceFileEntryV1) : list SourceFileEntryV1 :=
  map snd (filter (fun '(path, entry) => base_files !! path <> Some entry) (btree_entries candidate_files)).

Definition scope_changes (removed : list string) (upserted : list SourceFileEntryV1) : list ScopeChangeV1 :=
  sort_by (fun left right => str_cmp (sc_path left) (sc_path right))
    (map (fun path => {| sc_path := path; sc_change_kind := "remove"; sc_size := 0 |}) removed ++
     map (fun entry => {| sc_path := sf_path entry; sc_change_kind := "upsert"; sc_size := sf_size entry |}) upserted).

Context `{DagCbor CanonicalSourceTreeManifestV1, DagCbor CanonicalSourcePatchV1}.

Abbreviation scope_source r := (map_err (fun error => ScopeInvalid (source_error_to_string error)) r).

Definition verify_repository_scope_proof (evidence : RepositoryScopeEvidenceV1)
    (base_bytes candidate_bytes patch_bytes : bytes) : checked_scope (list ScopeChangeV1 * N * N) :=
  if negb (String.eqb (cid_text (cid_for 0x71 base_bytes)) (rs_base_source_cid evidence))
     || negb (String.eqb (cid_text (cid_for 0x71 candidate_bytes)) (rs_candidate_source_cid evidence))
     || negb (String.eqb (cid_text (cid_for 0x71 patch_bytes)) (rs_patch_cid evidence))
     || negb (String.eqb (hex_encode (cid_digest (cid_for 0x71 patch_bytes))) (rs_patch_sha256 evidence))
  then invalid "source-manifest proof CID or digest mismatch"
  else
    base ← scope_source (decode_source_manifest base_bytes);
    candidate ← scope_source (decode_source_manifest candidate_bytes);
    patch ← scope_source (decode_source_patch patch_bytes);
    canonical ← (encoded ← scope_source (encode_source_manifest base);
                 if bool_decide (encoded <> base_bytes) then Ok false
                 else
                   encoded ← scope_source (encode_source_manifest candidate);
                   if bool_decide (encoded <> candidate_bytes) then Ok false
                   else encoded ← scope_source (encode_source_patch patch); Ok (bool_decide (encoded = patch_bytes)));
    if negb canonical then invalid "source-manifest proof is not canonical DAG-CBOR"
    else
      _ ← validate_source_manifest_metadata base (rs_repository evidence);
      candidate_content ← validate_source_manifest_metadata candidate (rs_repository evidence);
      if negb (pt_schema_version patch =? 1) || negb (String.eqb (pt_kind patch) "pohw-source-patch-v1")
         || negb (String.eqb (pt_repository patch) (rs_repository evidence))
         || negb (String.eqb (pt_base_source_cid patch) (rs_base_source_cid evidence))
         || negb (String.eqb (pt_candidate_source_cid patch) (rs_candidate_source_cid evidence))
      then invalid "source patch metadata does not bind the declared transition"
      else
        let base_files := files_by_path (st_files base) in
        let candidate_files := files_by_path (st_files candidate) in
        let removed := removed_paths base_files candidate_files in
        let upserted := upserted_files base_files candidate_files in
        if bool_decide (pt_removed_paths patch <> removed) || bool_decide (pt_upserted_files patch <> upserted)
        then invalid "source patch does not exactly reconstruct the candidate manifest"
        else
          patch_content ← try_fold (fun total entry => ok_or ScopeOverflow (checked_add 64 total (sf_size entry)))
                            0 upserted;
          Ok (scope_changes removed upserted, patch_content, candidate_content).

(** ** The evidence of a proposal *)

(** The counters of the loops of [validate_proposal_scope_evidence]. *)
Record ScopeTotals := {
  tot_previous_repository : option string;
  tot_changed_file_count : N;
  tot_patch_bytes : N;
  tot_source_package_bytes : N;
  tot_migration_operation_count : N;
  tot_derived_risk : RiskClass;
  tot_proof_bytes : N
}.

Definition no_totals : ScopeTotals := {|
  tot_previous_repository := None; tot_changed_file_count := 0; tot_patch_bytes := 0; tot_source_package_bytes := 0;
  tot_migration_operation_count := 0; tot_derived_risk := Normal; tot_proof_bytes := 0 |}.

(** The inner loop: the previous path, the paths seen, and the three counters it advances. *)
Definition check_scope_change (repository : string) (st : option string * gset string * (N * N * RiskClass))
    (change : ScopeChangeV1) : checked_scope (option string * gset string * (N * N * RiskClass)) :=
  let '(previous_path, unique_paths, (changed_file_count, migration_operation_count, derived_risk)) := st in
  if negb (valid_scope_path (sc_path change)) then invalid "invalid changed path"
  else if not_after previous_path (sc_path change) || bool_decide (sc_path change ∈ unique_paths)
  then invalid "changed paths must be uniquely sorted"
  else if negb (String.eqb (sc_change_kind change) "remove") && negb (String.eqb (sc_change_kind change) "upsert")
  then invalid "change kind must be remove or upsert"
  else if String.eqb (sc_change_kind change) "remove" && negb (sc_size change =? 0)
  then invalid "removed paths must have size zero"
  else
    changed_file_count ← ok_or ScopeOverflow (checked_add 32 changed_file_count 1);
    migration_operation_count ←
      (if is_migration_path (sc_path change) then ok_or ScopeOverflow (checked_add 32 migration_operation_count 1)
       else Ok migration_operation_count);
    Ok (Some (sc_path change), {[sc_path change]} ∪ unique_paths,
        (changed_file_count, migration_operation_count,
         max_risk derived_risk (classify_repository_path repository (sc_path change)))).

Definition check_scope_repository (st : ScopeTotals) (repository : RepositoryScopeEvidenceV1) : checked_scope ScopeTotals :=
  if negb (valid_repository_name (rs_repository repository)) then invalid "invalid repository name"
  else if not_after (tot_previous_repository st) (rs_repository repository)
  then invalid "repositories must be uniquely sorted"
  else
    _ ← try_for_each validate_canonical_cid
          [rs_base_source_cid repository; rs_candidate_source_cid repository; rs_patch_cid repository];
    if String.eqb (rs_base_source_cid repository) (rs_candidate_source_cid repository)
    then invalid "repository source transition does not change"
    else if negb (is_lower_hex_64 (rs_patch_sha256 repository))
    then invalid "repository patch digest must be lowercase SHA-256"
    else
      base_bytes ← decode_hex_proof (rs_base_manifest_dag_cbor_hex repository);
      candidate_bytes ← decode_hex_proof (rs_candidate_manifest_dag_cbor_hex repository);
      patch_root_bytes ← decode_hex_proof (rs_patch_dag_cbor_hex repository);
      proof_bytes ← ok_or ScopeOverflow (
        total ← checked_add 64 (tot_proof_bytes st) (count base_bytes);
        total ← checked_add 64 total (count candidate_bytes);
        checked_add 64 total (count patch_root_bytes));
      if MAX_SCOPE_PROOF_BYTES <? proof_bytes then invalid "source-manifest proof bytes exceed the contract limit"
      else
        '(derived_changes, patch_content, candidate_content) ←
          verify_repository_scope_proof repository base_bytes candidate_bytes patch_root_bytes;
        if bool_decide (rs_changes repository <> derived_changes)
           || negb (rs_patch_content_bytes repository =? patch_content)
           || negb (rs_candidate_content_bytes repository =? candidate_content)
        then invalid "repository scope differs from the verified source transition"
        else if (count (rs_changes repository) =? 0) || (1024 <? count (rs_changes repository))
        then invalid "changed path count is outside deterministic limits"
        else
          '(_, _, (changed_file_count, migration_operation_count, derived_risk)) ←
            try_fold (check_scope_change (rs_repository repository))
              (None, ∅, (tot_changed_file_count st, tot_migration_operation_count st, tot_derived_risk st))
              (rs_changes repository);
          patch_bytes ← ok_or ScopeOverflow (checked_add 64 (tot_patch_bytes st) (rs_patch_content_bytes repository));
          source_package_bytes ← ok_or ScopeOverflow
            (checked_add 64 (tot_source_package_bytes st) (rs_candidate_content_bytes repository));
          Ok {| tot_previous_repository := Some (rs_repository repository);
                tot_changed_file_count := changed_file_count; tot_patch_bytes := patch_bytes;
                tot_source_package_bytes := source_package_bytes;
                tot_migration_operation_count := migration_operation_count; tot_derived_risk := derived_risk;
                tot_proof_bytes := proof_bytes |}.

Definition validate_proposal_scope_evidence (evidence : ProposalScopeEvidenceV1) : checked_scope unit :=
  if negb (pe_schema_version evidence =? 1)
     || negb (String.eqb (pe_classifier_version evidence) OBJECTIVE_RISK_CLASSIFIER_V2)
  then invalid "unsupported schema or classifier version"
  else
    _ ← try_for_each validate_canonical_cid
          [pe_parent_ecosystem_cid evidence; pe_candidate_ecosystem_cid evidence; pe_patch_cid evidence];
    if String.eqb (pe_parent_ecosystem_cid evidence) (pe_candidate_ecosystem_cid evidence)
    then invalid "parent and candidate ecosystem CIDs must differ"
    else if (count (pe_repositories evidence) =? 0) || (64 <? count (pe_repositories evidence))
    then invalid "repository evidence count is outside deterministic limits"
    else
      totals ← try_fold check_scope_repository no_totals (pe_repositories evidence);
      description_bytes ← ok_or ScopeOverflow (
        value ← checked_add 32 (pe_rationale_bytes evidence) (pe_migration_notes_bytes evidence);
        checked_add 32 value (pe_test_plan_bytes evidence));
      if (pe_rationale_bytes evidence =? 0) || (pe_test_plan_bytes evidence =? 0)
      then invalid "rationale and test plan must be nonempty"
      else if negb (pe_changed_file_count evidence =? tot_changed_file_count totals)
              || negb (pe_patch_bytes evidence =? tot_patch_bytes totals)
              || negb (pe_source_package_bytes evidence =? tot_source_package_bytes totals)
              || negb (pe_description_bytes evidence =? description_bytes)
              || negb (pe_migration_operation_count evidence =? tot_migration_operation_count totals)
              || negb (bool_decide (pe_derived_risk_class evidence = tot_derived_risk totals))
      then invalid "declared scope counters or risk differ from recomputed values"
      else Ok tt.

Context `{DagCbor CarHeader, DagCbor ProposalScopeEvidenceV1}.

Definition package_proposal_scope_evidence (evidence : ProposalScopeEvidenceV1)
    : checked_scope (DagCborPackage ProposalScopeEvidenceV1) :=
  _ ← validate_proposal_scope_evidence evidence;
  package ← map_err (fun error => ScopePackaging (source_error_to_string error)) (package_dag_cbor evidence);
  if MAX_SCOPE_DAG_CBOR_BYTES <? count (dag_cbor_bytes package)
  then invalid "scope evidence exceeds the contract payload limit"
  else Ok package.

Definition verify_proposal_scope_evidence_car (b : bytes) : checked_scope (DagCborPackage ProposalScopeEvidenceV1) :=
  package ← map_err (fun error => ScopePackaging (source_error_to_string error)) (verify_dag_cbor_car b);
  if MAX_SCOPE_DAG_CBOR_BYTES <? count (dag_cbor_bytes package)
  then invalid "scope evidence exceeds the contract payload limit"
  else
    _ ← validate_proposal_scope_evidence (package_value package);
    Ok package.
End scope.

(** ** The risk of a scope is the highest of its paths *)

Lemma max_risk_spec a b : risk_rank (max_risk a b) = N.max (risk_rank a) (risk_rank b) /\ (max_risk a b = a \/ max_risk a b = b).
Proof. by destruct a, b; cbn; auto. Qed.

Lemma foldl_max_risk risks : forall d,
  (forall r, r ∈ d :: risks -> risk_rank r <= risk_rank (foldl max_risk d risks)) /\ foldl max_risk d risks ∈ d :: risks.
Proof.
  induction risks as [|r0 risks IH]; intros d; cbn; [split; [|by left]; intros r ->%list_elem_of_singleton; lia|].
  destruct (IH (max_risk d r0)) as [Hle Hin]. destruct (max_risk_spec d r0) as [Hrank Hor].
  split.
  - pose proof (Hle (max_risk d r0) ltac:(left)) as Hmax. rewrite Hrank in Hmax.
    intros r [->|[->|Hr]%elem_of_cons]%elem_of_cons; [lia|lia|]. apply Hle. by right.
  - apply elem_of_cons in Hin as [->|Hin]; [|by right; right]. destruct Hor as [-> | ->]; [by left|by right; left].
Qed.

Definition path_risks (r : RepositoryScopeEvidenceV1) : list RiskClass :=
  map (fun c => classify_repository_path (rs_repository r) (sc_path c)) (rs_changes r).

Lemma check_changes_Ok repository changes : forall prev seen n k d prev' seen' n' k' d',
  try_fold (check_scope_change repository) (prev, seen, (n, k, d)) changes = Ok (prev', seen', (n', k', d')) ->
  n' = n + count changes /\
  k' = k + count (filter (fun c => is_migration_path (sc_path c)) changes) /\
  d' = foldl max_risk d (map (fun c => classify_repository_path repository (sc_path c)) changes) /\
  NoDup (map sc_path changes) /\ Forall (fun c => sc_path c ∉ seen) changes.
Proof.
  induction changes as [|c changes IH]; intros prev seen n k d prev' seen' n' k' d' Hf; cbn [try_fold] in Hf.
  - injection Hf as -> -> -> -> ->. unfold count. cbn. split_and!; [lia|lia|done|constructor|constructor].
  - apply bind_Ok in Hf as ([[prev1 seen1] [[n1 k1] d1]] & Hc & Hf). apply IH in Hf as (-> & -> & -> & Hnd & Hall).
    unfold check_scope_change, invalid in Hc. cbv beta iota in Hc. destruct (_ : bool) in Hc; [discriminate Hc|].
    destruct (_ || _) eqn:Hnew in Hc; [discriminate Hc|]. do 2 (destruct (_ : bool) in Hc; [discriminate Hc|]).
    apply orb_false_iff in Hnew as [_ Hnew%bool_decide_eq_false_1].
    apply bind_Ok in Hc as (n2 & [-> _]%ok_or_Ok%checked_add_Some & (k2 & Hk & [= _ <- <- <- <-])%bind_Ok).
    rewrite filter_cons. unfold count in *. cbn [map length]. split_and!; [lia| |done| |].
    + destruct (is_migration_path (sc_path c)); simpl.
      * apply ok_or_Ok, checked_add_Some in Hk as [-> _]. lia.
      * injection Hk as ->. done.
    + constructor; [|done]. intros (c' & Heq & Hc')%list_elem_of_fmap. rewrite Forall_forall in Hall.
      specialize (Hall c' Hc'). set_solver.
    + constructor; [done|]. eapply Forall_impl; [exact Hall|]. set_solver.
Qed.

(** ** Manifests with distinct paths *)

Lemma sum_N_perm l l' : l ≡ₚ l' -> sum_N l = sum_N l'.
Proof. induction 1; rewrite ?sum_N_cons in *; lia. Qed.

Lemma sizes_total (l : list SourceFileEntryV1) : forall t t',
  try_fold (fun total entry => ok_or ScopeOverflow (checked_add 64 total (sf_size entry))) t l = Ok t' ->
  t' = t + sum_N (map sf_size l).
Proof.
  induction l as [|e l IH]; intros t t'; cbn [try_fold map]; [intros [= ->]; unfold sum_N; simpl; lia|].
  rewrite sum_N_cons. intros (t1 & [-> _]%ok_or_Ok%checked_add_Some & ->%IH)%bind_Ok. lia.
Qed.

Lemma collect_lookup {V} (l : list (string * V)) k v :
  NoDup (map fst l) -> btree_collect l !! k = Some v <-> (k, v) ∈ l.
Proof.
  unfold btree_collect. enough (forall m : gmap string V, (forall k', k' ∈ map fst l -> m !! k' = None) -> NoDup (map fst l) ->
    foldl (fun m '(k, v) => <[k := v]> m) m l !! k = Some v <-> (k, v) ∈ l \/ m !! k = Some v) as Hgo.
  { intros Hnd. rewrite Hgo by done. rewrite lookup_empty. naive_solver. }
  induction l as [|[k1 v1] l IH]; intros m Hm Hnd; cbn [foldl].
  - rewrite elem_of_nil. naive_solver.
  - cbn [map] in *. apply NoDup_cons in Hnd as [Hk1 Hnd]. rewrite IH; [|intros k' Hk'|done].
    + rewrite elem_of_cons, lookup_insert_Some. split.
      * intros [Hin|[[-> ->]|[_ Hmk]]]; auto.
      * intros [[[= -> ->]|Hin]|Hmk]; auto. destruct (decide (k1 = k)) as [->|Hne]; [|auto].
        rewrite Hm in Hmk by left. done.
    + rewrite lookup_insert_ne by (intros ->; done). apply Hm. by right.
Qed.

Lemma files_by_path_lookup files path e :
  NoDup (map sf_path files) -> files_by_path files !! path = Some e <-> e ∈ files /\ sf_path e = path.
Proof.
  intros Hnd. unfold files_by_path. rewrite collect_lookup by (by rewrite map_map). rewrite list_elem_of_fmap. naive_solver.
Qed.

(** The files of [candidate] that [base] does not have as they are. *)
Definition new_files (base candidate : list SourceFileEntryV1) : list SourceFileEntryV1 :=
  filter (fun e => e ∉ base) candidate.

Lemma upserted_elem base candidate e :
  NoDup (map sf_path base) -> NoDup (map sf_path candidate) ->
  e ∈ upserted_files (files_by_path base) (files_by_path candidate) <-> e ∈ new_files base candidate.
Proof.
  intros Hb Hc. unfold upserted_files, new_files. rewrite list_elem_of_fmap, list_elem_of_filter. split.
  - intros ([path e'] & -> & [Hne Hin%btree_entries_elem]%list_elem_of_filter). cbn in *.
    apply files_by_path_lookup in Hin as [Hin <-]; [|done]. split; [|done]. intros Hbase. apply Hne.
    by apply files_by_path_lookup.
  - intros [Hne Hin]. exists (sf_path e, e). split; [done|]. apply list_elem_of_filter. split.
    + intros Hl%files_by_path_lookup; naive_solver.
    + by apply btree_entries_elem, files_by_path_lookup.
Qed.

Lemma upserted_perm base candidate :
  NoDup (map sf_path base) -> NoDup (map sf_path candidate) ->
  upserted_files (files_by_path base) (files_by_path candidate) ≡ₚ new_files base candidate.
Proof.
  intros Hb Hc. apply NoDup_Permutation; [| |intros e; by apply upserted_elem].
  - unfold upserted_files. apply NoDup_fmap_2_strong.
    + intros [p e] [p' e'] [_ Hp%btree_entries_elem]%list_elem_of_filter [_ Hp'%btree_entries_elem]%list_elem_of_filter Heq.
      cbn in Heq. subst e'. apply files_by_path_lookup in Hp as [_ <-]; [|done].
      by apply files_by_path_lookup in Hp' as [_ <-].
    + apply NoDup_filter. unfold btree_entries. rewrite sort_by_perm. apply NoDup_map_to_list.
  - apply NoDup_filter. by eapply NoDup_fmap_1.
Qed.

(** What a change says of two manifests. *)
Definition is_change (base candidate : list SourceFileEntryV1) (c : ScopeChangeV1) : Prop :=
  (sc_change_kind c = "remove"%string /\ sc_size c = 0 /\ sc_path c ∈ map sf_path base /\ sc_path c ∉ map sf_path candidate) \/
  (sc_change_kind c = "upsert"%string /\
   exists e, e ∈ candidate /\ (e ∉ base) /\ sf_path e = sc_path c /\ sf_size e = sc_size c).

Lemma removed_elem base candidate path :
  NoDup (map sf_path base) -> NoDup (map sf_path candidate) ->
  path ∈ removed_paths (files_by_path base) (files_by_path candidate) <->
  path ∈ map sf_path base /\ path ∉ map sf_path candidate.
Proof.
  intros Hb Hc. unfold removed_paths. rewrite list_elem_of_filter. unfold btree_keys.
  assert (path ∈ map fst (btree_entries (files_by_path base)) <-> path ∈ map sf_path base) as ->.
  { rewrite !list_elem_of_fmap. split.
    - intros ([k e] & -> & [Hin <-]%btree_entries_elem%files_by_path_lookup); [|done]. by exists e.
    - intros (e & -> & Hin). exists (sf_path e, e). split; [done|]. by apply btree_entries_elem, files_by_path_lookup. }
  assert (files_by_path candidate !! path = None <-> path ∉ map sf_path candidate) as ->; [|naive_solver].
  rewrite eq_None_not_Some, list_elem_of_fmap. split; intros Hno; contradict Hno.
  - destruct Hno as (e & -> & Hin). exists e. by apply files_by_path_lookup.
  - destruct Hno as [e [Hin <-]%files_by_path_lookup]; [|done]. by exists e.
Qed.

Lemma scope_changes_elem base candidate c :
  NoDup (map sf_path base) -> NoDup (map sf_path candidate) ->
  c ∈ scope_changes (removed_paths (files_by_path base) (files_by_path candidate))
        (upserted_files (files_by_path base) (files_by_path candidate)) <-> is_change base candidate c.
Proof.
  intros Hb Hc. unfold scope_changes, is_change. rewrite sort_by_elem, elem_of_app. split.
  - intros [(path & -> & Hp)%list_elem_of_fmap|(e & -> & He)%list_elem_of_fmap]; cbn; [left|right].
    + by apply removed_elem in Hp as [].
    + apply upserted_elem in He; [|done..]. apply list_elem_of_filter in He as []. eauto 10.
  - destruct c as [path kind size]; cbn. intros [(-> & -> & Hp)|(-> & e & He1 & He2 & <- & <-)]; [left|right];
      apply list_elem_of_fmap.
    + exists path. split; [done|]. by apply removed_elem.
    + exists e. split; [done|]. apply upserted_elem; [done..|]. by apply list_elem_of_filter.
Qed.

(** The changed paths of a repository are those on which the two manifests disagree. *)
Lemma files_by_path_key files path entry : files_by_path files !! path = Some entry -> sf_path entry = path.
Proof.
  unfold files_by_path, btree_collect.
  assert (forall l (m : gmap string SourceFileEntryV1), (forall p e, m !! p = Some e -> sf_path e = p) ->
    forall p e, foldl (fun m '(k, v) => <[k := v]> m) m (map (fun entry => (sf_path entry, entry)) l) !! p = Some e ->
    sf_path e = p) as Hgo; [|apply Hgo; intros p e; by rewrite lookup_empty].
  clear. induction l as [|x l IH]; intros m Hm p e Hl; [by apply Hm|]. cbn in Hl. eapply IH; [|exact Hl].
  intros p' e' Hp'. apply lookup_insert_Some in Hp' as [[<- <-]|[_ Hp']]; [done|]. by apply Hm.
Qed.

Lemma scope_changes_paths base candidate path :
  let bf := files_by_path base in let cf := files_by_path candidate in
  path ∈ map sc_path (scope_changes (removed_paths bf cf) (upserted_files bf cf)) <-> bf !! path <> cf !! path.
Proof.
  cbv zeta. unfold scope_changes. rewrite list_elem_of_fmap. setoid_rewrite sort_by_elem. setoid_rewrite elem_of_app.
  setoid_rewrite list_elem_of_fmap. unfold removed_paths, upserted_files.
  setoid_rewrite list_elem_of_fmap. setoid_rewrite list_elem_of_filter. split.
  - intros (c & -> & [(p & -> & Hn & Hk)|(e & -> & [p e'] & -> & Hne & Hin%btree_entries_elem)]); cbn in *.
    + unfold btree_keys in Hk. apply list_elem_of_fmap in Hk as ([k v] & -> & Hv%btree_entries_elem). cbn in *. congruence.
    + by rewrite (files_by_path_key _ _ _ Hin), Hin.
  - intros Hne. destruct (files_by_path candidate !! path) as [e|] eqn:Hc.
    + eexists. split; [|right; exists e; split; [reflexivity|]]; [cbn; symmetry; by eapply files_by_path_key|].
      exists (path, e). split; [done|]. split; [done|]. by apply btree_entries_elem.
    + destruct (files_by_path base !! path) as [e|] eqn:Hb; [|done].
      eexists. split; [|left; exists path; split; [reflexivity|split; [done|]]]; [done|].
      unfold btree_keys. apply list_elem_of_fmap. exists (path, e). split; [done|]. by apply btree_entries_elem.
Qed.

Section scope_theorems.
Context `{Hashing, CidCrate, DagCbor CanonicalSourceTreeManifestV1, DagCbor CanonicalSourcePatchV1}.

(** The manifests that a repository's evidence carries. *)
Definition carries (r : RepositoryScopeEvidenceV1) (base candidate : SourceTreeManifestV1) : Prop :=
  exists base_bytes candidate_bytes,
    hex_decode (rs_base_manifest_dag_cbor_hex r) = Ok base_bytes /\
    hex_decode (rs_candidate_manifest_dag_cbor_hex r) = Ok candidate_bytes /\
    cid_text (cid_for 0x71 base_bytes) = rs_base_source_cid r /\
    cid_text (cid_for 0x71 candidate_bytes) = rs_candidate_source_cid r /\
    decode_source_manifest base_bytes = Ok base /\ decode_source_manifest candidate_bytes = Ok candidate.

Lemma decode_hex_proof_Ok v b : decode_hex_proof v = Ok b -> hex_decode v = Ok b.
Proof. unfold decode_hex_proof, invalid. destruct (_ || _); [done|]. by intros ?%map_err_Ok. Qed.

Lemma check_entries_Ok files : forall prev seen total prev' seen' total',
  try_fold check_source_entry (prev, seen, total) files = Ok (prev', seen', total') ->
  total' = total + sum_N (map sf_size files) /\ NoDup (map sf_path files) /\
  Forall (fun e => to_ascii_lowercase (sf_path e) ∉ seen) files.
Proof.
  induction files as [|e files IH]; intros prev seen total prev' seen' total'; cbn [try_fold map].
  - intros [= _ _ ->]. split_and!; [unfold sum_N; simpl; lia|constructor|constructor].
  - intros ([[prev1 seen1] total1] & He & (-> & Hnd & Hall)%IH)%bind_Ok.
    unfold check_source_entry, invalid in He. apply bind_Ok in He as ([] & _ & He).
    destruct (_ || _) eqn:Hnew in He; [discriminate He|]. apply orb_false_iff in Hnew as [_ Hnew%bool_decide_eq_false_1].
    apply bind_Ok in He as (t1 & [-> _]%ok_or_Ok%checked_add_Some & He). destruct (_ <? _) in He; [discriminate He|].
    injection He as _ <- <-. rewrite sum_N_cons. split_and!; [lia| |].
    + constructor; [|done]. intros (e' & Heq & He')%list_elem_of_fmap. rewrite Forall_forall in Hall.
      specialize (Hall e' He'). rewrite Heq in Hall. set_solver.
    + constructor; [done|]. eapply Forall_impl; [exact Hall|]. set_solver.
Qed.

Lemma manifest_metadata_Ok manifest repository total :
  validate_source_manifest_metadata manifest repository = Ok total ->
  total = sum_N (map sf_size (st_files manifest)) /\ NoDup (map sf_path (st_files manifest)).
Proof.
  unfold validate_source_manifest_metadata, invalid. destruct (_ || _); [done|].
  intros ([[prev seen] t] & (Ht & Hnd & _)%check_entries_Ok & [= <-])%bind_Ok. split; [lia|done].
Qed.

Lemma scope_proof_Ok r bb cb pb changes pc cc :
  verify_repository_scope_proof r bb cb pb = Ok (changes, pc, cc) ->
  cid_text (cid_for 0x71 bb) = rs_base_source_cid r /\ cid_text (cid_for 0x71 cb) = rs_candidate_source_cid r /\
  exists base candidate, decode_source_manifest bb = Ok base /\ decode_source_manifest cb = Ok candidate /\
    changes = scope_changes (removed_paths (files_by_path (st_files base)) (files_by_path (st_files candidate)))
                (upserted_files (files_by_path (st_files base)) (files_by_path (st_files candidate))) /\
    NoDup (map sf_path (st_files base)) /\ NoDup (map sf_path (st_files candidate)) /\
    pc = sum_N (map sf_size (new_files (st_files base) (st_files candidate))) /\
    cc = sum_N (map sf_size (st_files candidate)).
Proof.
  unfold verify_repository_scope_proof, invalid. destruct (_ || _) eqn:Hif; [done|]. bool_inv.
  intros (base & Hb%map_err_Ok & (cand & Hc%map_err_Ok & (patch & _ & (can & _ & Hv)%bind_Ok)%bind_Ok)%bind_Ok)%bind_Ok.
  destruct (negb can); [done|].
  apply bind_Ok in Hv as (bt & [_ Hnb]%manifest_metadata_Ok & (ct & [-> Hnc]%manifest_metadata_Ok & Hv)%bind_Ok).
  destruct (_ || _) in Hv; [done|]. cbv zeta in Hv. destruct (_ || _) in Hv; [done|].
  apply bind_Ok in Hv as (pt & Hpt%sizes_total & [= <- <- <-]). split; [done|]. split; [done|]. exists base, cand.
  split_and!; try done. rewrite Hpt. by rewrite (sum_N_perm _ _ (Permutation_map sf_size (upserted_perm _ _ Hnb Hnc))).
Qed.

(** What the evidence of a repository says of the manifests it carries. *)
Record exact_scope (r : RepositoryScopeEvidenceV1) (base candidate : list SourceFileEntryV1) : Prop := {
  es_changes c : c ∈ rs_changes r <-> is_change base candidate c;
  es_distinct : NoDup (map sc_path (rs_changes r));
  es_paths path : path ∈ map sc_path (rs_changes r) <-> files_by_path base !! path <> files_by_path candidate !! path;
  es_patch_bytes : rs_patch_content_bytes r = sum_N (map sf_size (new_files base candidate));
  es_candidate_bytes : rs_candidate_content_bytes r = sum_N (map sf_size candidate)
}.

Lemma check_repository_Ok st r st' : check_scope_repository st r = Ok st' ->
  tot_changed_file_count st' = tot_changed_file_count st + count (rs_changes r) /\
  tot_patch_bytes st' = tot_patch_bytes st + rs_patch_content_bytes r /\
  tot_source_package_bytes st' = tot_source_package_bytes st + rs_candidate_content_bytes r /\
  tot_derived_risk st' = foldl max_risk (tot_derived_risk st) (path_risks r) /\
  tot_migration_operation_count st' =
    tot_migration_operation_count st + count (filter (fun c => is_migration_path (sc_path c)) (rs_changes r)) /\
  exists base candidate, carries r base candidate /\ exact_scope r (st_files base) (st_files candidate).
Proof.
  unfold check_scope_repository, invalid. do 2 (destruct (_ : bool); [done|]). intros ([] & _ & Hr)%bind_Ok.
  do 2 (destruct (_ : bool) in Hr; [discriminate Hr|]).
  apply bind_Ok in Hr as (bb & Hbb%decode_hex_proof_Ok & (cb & Hcb%decode_hex_proof_Ok & (pb & _ & (total & _ & Hr)%bind_Ok)%bind_Ok)%bind_Ok).
  destruct (_ : bool) in Hr; [discriminate Hr|].
  apply bind_Ok in Hr as ([[changes pc] cc] & (Hb & Hc & base & cand & Hdb & Hdc & -> & Hnb & Hnc & -> & ->)%scope_proof_Ok & Hr).
  destruct (_ || _) eqn:Hif in Hr; [discriminate Hr|]. destruct (_ || _) in Hr; [discriminate Hr|]. bool_inv.
  apply bind_Ok in Hr as ([[prev seen] [[n k] d]] & (-> & -> & -> & Hnd & _)%check_changes_Ok & Hr).
  apply bind_Ok in Hr as (pbytes & [-> _]%ok_or_Ok%checked_add_Some & (sbytes & [-> _]%ok_or_Ok%checked_add_Some & [= <-])%bind_Ok).
  cbn. split_and!; try done. exists base, cand. split; [by exists bb, cb|].
  match goal with Hch : ¬ (rs_changes r <> _) |- _ => apply dec_stable in Hch as Heq end.
  split; try done.
  - intros c. rewrite Heq. by apply scope_changes_elem.
  - intros path. rewrite Heq. apply scope_changes_paths.
Qed.

Lemma check_repositories_Ok repositories : forall st st',
  try_fold check_scope_repository st repositories = Ok st' ->
  tot_changed_file_count st' = tot_changed_file_count st + sum_N (map (fun r => count (rs_changes r)) repositories) /\
  tot_patch_bytes st' = tot_patch_bytes st + sum_N (map rs_patch_content_bytes repositories) /\
  tot_source_package_bytes st' = tot_source_package_bytes st + sum_N (map rs_candidate_content_bytes repositories) /\
  tot_derived_risk st' = foldl max_risk (tot_derived_risk st) (mjoin (map path_risks repositories)) /\
  tot_migration_operation_count st' = tot_migration_operation_count st +
    sum_N (map (fun r => count (filter (fun c => is_migration_path (sc_path c)) (rs_changes r))) repositories) /\
  Forall (fun r => exists base candidate, carries r base candidate /\ exact_scope r (st_files base) (st_files candidate))
    repositories.
Proof.
  induction repositories as [|r rs IH]; intros st st' Hf; cbn [try_fold] in Hf.
  - injection Hf as <-. cbn. split_and!; try lia; done.
  - apply bind_Ok in Hf as (st1 & (Hn & Hp & Hs & Hd & Hm & Hx)%check_repository_Ok & (Hn' & Hp' & Hs' & Hd' & Hm' & Hx')%IH).
    cbn [map]. rewrite !sum_N_cons. split_and!; [lia..| |lia|by constructor].
    rewrite Hd', Hd. change (mjoin (path_risks r :: map path_risks rs)) with (path_risks r ++ mjoin (map path_risks rs)).
    by rewrite foldl_app.
Qed.

(** C32 (functional). Evidence that validates is exact. Each repository carries two
    source manifests with the CIDs it names. Its changes, with distinct paths, are
    the removal of every path that only the base has, with size zero, and an upsert
    of every file of the candidate that the base does not have as it is, with the
    size of that file. Its patch bytes are the sizes of these files, its candidate
    bytes the sizes of all files of the candidate. The counters of the proposal are
    the sums over the repositories, and the risk class is the highest class of a
    changed path, so a proposal of normal risk changes documentation only. *)
Theorem scope_evidence_exact evidence :
  validate_proposal_scope_evidence evidence = Ok tt ->
  pe_changed_file_count evidence = sum_N (map (fun r => count (rs_changes r)) (pe_repositories evidence)) /\
  pe_patch_bytes evidence = sum_N (map rs_patch_content_bytes (pe_repositories evidence)) /\
  pe_source_package_bytes evidence = sum_N (map rs_candidate_content_bytes (pe_repositories evidence)) /\
  pe_migration_operation_count evidence =
    sum_N (map (fun r => count (filter (fun c => is_migration_path (sc_path c)) (rs_changes r))) (pe_repositories evidence)) /\
  (forall r, r ∈ pe_repositories evidence ->
     (exists base candidate, carries r base candidate /\ exact_scope r (st_files base) (st_files candidate)) /\
     forall c, c ∈ rs_changes r ->
       risk_rank (classify_repository_path (rs_repository r) (sc_path c)) <= risk_rank (pe_derived_risk_class evidence)) /\
  (pe_derived_risk_class evidence = Normal \/
   exists r c, r ∈ pe_repositories evidence /\ c ∈ rs_changes r /\
     classify_repository_path (rs_repository r) (sc_path c) = pe_derived_risk_class evidence).
Proof.
  unfold validate_proposal_scope_evidence, invalid. destruct (_ || _); [done|]. intros ([] & _ & Hv)%bind_Ok.
  do 2 (destruct (_ : bool) in Hv; [discriminate Hv|]).
  apply bind_Ok in Hv as (st & (Hn & Hp & Hs & Hd & Hm & Hx)%check_repositories_Ok & (desc & _ & Hv)%bind_Ok).
  destruct (_ || _) in Hv; [discriminate Hv|]. destruct (_ || _) eqn:Hif in Hv; [discriminate Hv|]. bool_inv.
  cbn in Hn, Hp, Hs, Hd, Hm.
  match goal with He : pe_derived_risk_class evidence = _ |- _ => rewrite He end.
  destruct (foldl_max_risk (mjoin (map path_risks (pe_repositories evidence))) Normal) as [Hmax Hin].
  rewrite <-Hd in Hmax, Hin. split_and!; [lia..| |].
  - intros r Hr. split.
    + rewrite Forall_forall in Hx. by apply Hx.
    + intros c Hc. apply Hmax. right. apply list_elem_of_join. exists (path_risks r). split.
      * apply list_elem_of_fmap. by exists c.
      * apply list_elem_of_fmap. by exists r.
  - apply elem_of_cons in Hin as [->|Hin]; [by left|right].
    apply list_elem_of_join in Hin as (l & Hl & (r & -> & Hr)%list_elem_of_fmap).
    apply list_elem_of_fmap in Hl as (c & Heq & Hc). exists r, c. done.
Qed.
End scope_theorems.

(** ** A concrete scope: a change of the read-me file *)

#[local] Existing Instance hashing_c.
#[local] Existing Instance cid_crate_c.
#[local] Existing Instance cid_laws_c.
#[local] Existing Instance header_cbor_c.
#[local] Existing Instance header_cbor_laws_c.

Definition sample_file (content : bytes) : CanonicalSourceFileEntryV1 := {|
  csf_path := "README.md"; csf_mode := 420; csf_size := count content; csf_cid := cid_for 0x55 content;
  csf_sha256 := sha256_hex content |}.

Definition sample_tree (content : bytes) : CanonicalSourceTreeManifestV1 := {|
  cst_schema_version := 1; cst_kind := "pohw-source-tree-v1"; cst_repository := "node"; cst_files := [sample_file content] |}.

#[global] Instance CanonicalSourceTreeManifestV1_eq_dec : EqDecision CanonicalSourceTreeManifestV1.
Proof. assert (EqDecision CanonicalSourceFileEntryV1) by solve_decision. solve_decision. Defined.
#[global] Instance CanonicalSourcePatchV1_eq_dec : EqDecision CanonicalSourcePatchV1.
Proof. assert (EqDecision CanonicalSourceFileEntryV1) by solve_decision. solve_decision. Defined.

#[local] Instance sample_tree_cbor : DagCbor CanonicalSourceTreeManifestV1 :=
  table_cbor x12 [sample_tree [x21]; sample_tree [x22; x23]].

Definition sample_source_patch : CanonicalSourcePatchV1 := {|
  cpt_schema_version := 1; cpt_kind := "pohw-source-patch-v1"; cpt_repository := "node";
  cpt_base_source_cid := cid_for 0x71 [x12; x00]; cpt_candidate_source_cid := cid_for 0x71 [x12; x01];
  cpt_removed_paths := []; cpt_upserted_files := [sample_file [x22; x23]] |}.

#[local] Instance sample_source_patch_cbor : DagCbor CanonicalSourcePatchV1 := table_cbor x13 [sample_source_patch].

Definition sample_scope (parent candidate patch : string) : ProposalScopeEvidenceV1 := {|
  pe_schema_version := 1; pe_classifier_version := OBJECTIVE_RISK_CLASSIFIER_V2; pe_parent_ecosystem_cid := parent;
  pe_candidate_ecosystem_cid := candidate; pe_patch_cid := patch;
  pe_repositories := [{|
    rs_repository := "node"; rs_base_source_cid := cid_text (cid_for 0x71 [x12; x00]);
    rs_candidate_source_cid := cid_text (cid_for 0x71 [x12; x01]); rs_patch_cid := cid_text (cid_for 0x71 [x13; x00]);
    rs_patch_sha256 := sha256_hex [x13; x00]; rs_base_manifest_dag_cbor_hex := "1200";
    rs_candidate_manifest_dag_cbor_hex := "1201"; rs_patch_dag_cbor_hex := "1300"; rs_patch_content_bytes := 2;
    rs_candidate_content_bytes := 2;
    rs_changes := [{| sc_path := "README.md"; sc_change_kind := "upsert"; sc_size := 2 |}] |}];
  pe_rationale_bytes := 10; pe_migration_notes_bytes := 0; pe_test_plan_bytes := 5; pe_changed_file_count := 1;
  pe_patch_bytes := 2; pe_source_package_bytes := 2; pe_description_bytes := 15; pe_migration_operation_count := 0;
  pe_derived_risk_class := Normal |}.

Lemma scope_evidence_exact_witness :
  let s := sample_scope (cid_text (cid_for 0x71 [x01])) (cid_text (cid_for 0x71 [x02])) (cid_text (cid_for 0x71 [x03])) in
  validate_proposal_scope_evidence s = Ok tt /\
  forall r, r ∈ pe_repositories s ->
    exists base candidate, carries r base candidate /\ exact_scope r (st_files base) (st_files candidate).
Proof.
  intros s. assert (validate_proposal_scope_evidence s = Ok tt) as Hv by (vm_compute; reflexivity). split; [done|].
  intros r Hr. destruct (scope_evidence_exact s Hv) as (_ & _ & _ & _ & Hall & _).
  exact (proj1 (Hall r Hr)).
Defined.
