(* ===== verification/GovState.v ===== *)
(** * The governance engine: state ([crates/governance-core/src/lifecycle.rs])

    The data of the engine: the clock, proposals and review rounds with their bonded
    attestations, stake positions, metrics certifications, and the engine's state.
    Atoms and weights are [u128], blocks [u64], epochs [u16]. *)
From S2P Require Import Prelude Order Text Crates GovText GovMath GovSource GovMetrics GovAttest GovManifest GovScope.

Local Open Scope N_scope.

Definition MAX_OBJECTIVE_EVIDENCE_BYTES : N := 64 * 1024.
Definition MAX_REVIEW_ATTESTATIONS_PER_CLASS : N := 256.
Definition MAX_ATTESTATIONS_PER_OWNER_PER_CLASS : N := 2.
Definition MAX_REQUIRED_AVAILABILITY_CIDS : N := 4096.
Definition GOVERNANCE_CONTRACT_VERSION : string := "0.3.0".
Definition AGENT_REVIEW_COMMITMENT_DOMAIN : string := "agent_review_v1".
Definition BUILD_ATTESTATION_COMMITMENT_DOMAIN : string := "build_attestation_v1".
Definition DATA_AVAILABILITY_COMMITMENT_DOMAIN : string := "data_availability_v1".

Record GovernanceClock := { block : N; epoch : N }.

Record OpenReviewRoundInputV1 := {
  or_parent_car : bytes; or_candidate_car : bytes; or_patch_car : bytes; or_pinset_car : bytes;
  or_scope_car : bytes; or_opener_address : string; or_attached_bond_atoms : N }.

Inductive ProposalState :=
| Draft | ReviewOpen | VotingOpen | AcceptedPendingChallenge | Rejected | Challenged
| AcceptedPendingExecution | Executed | Stale | Expired.

Inductive ReviewRoundState := RoundOpen | RoundAvailabilityOpen | RoundFrozen | RoundClaimed | RoundExpired.

Inductive AttestationVerdict := VerdictApprove | VerdictReject | VerdictAbstain.

#[global] Instance ProposalState_eq_dec : EqDecision ProposalState.
Proof. solve_decision. Defined.
#[global] Instance ReviewRoundState_eq_dec : EqDecision ReviewRoundState.
Proof. solve_decision. Defined.
#[global] Instance AttestationVerdict_eq_dec : EqDecision AttestationVerdict.
Proof. solve_decision. Defined.

Record CidCommitmentProofV1 := { cp_index : N; cp_leaf_count : N; cp_siblings : list string }.
Record BuiltCidCommitment := { bc_root : string; bc_proofs : gmap string CidCommitmentProofV1 }.
Record AttestationCommitmentEntryV1 := { ace_attestation_cid : string; ace_canonical_fields : string }.

Record ChangeProposalContentV1 := {
  pc_schema_version : N; pc_scope_evidence_cid : string; pc_governance_parameter_set_cid : string;
  pc_parent_canonical_ecosystem_cid : string; pc_candidate_ecosystem_cid : string;
  pc_affected_repositories : list string; pc_changed_file_count : N; pc_patch_bytes : N;
  pc_source_package_bytes : N; pc_description_bytes : N; pc_migration_operation_count : N;
  pc_base_source_cids : gmap string string; pc_candidate_source_cids : gmap string string;
  pc_patch_cid : string; pc_review_round_id : string; pc_proposer_address : string;
  pc_proposal_bond_atoms : N; pc_risk_class : RiskClass; pc_rationale_cid : string;
  pc_migration_notes_cid : string; pc_test_plan_cid : string; pc_rollback_manifest_cid : string;
  pc_rollback_instructions_cid : string; pc_release_manifest_cid : option string;
  pc_critical_finding_waiver_cid : option string; pc_agent_review_root : string;
  pc_build_attestation_root : string; pc_data_availability_root : string; pc_creation_block : N;
  pc_creation_epoch : N; pc_staking_epoch : N; pc_identity_metrics_epoch : N;
  pc_candidate_identity_metrics_root : option string; pc_candidate_identity_metrics_epoch : option N;
  pc_voting_start : N; pc_voting_end : N; pc_challenge_end : N }.

Record AgentAttestationInputV1 := {
  ai_attestation_cid : string; ai_attestation_car : bytes; ai_parent_ecosystem_cid : string;
  ai_candidate_ecosystem_cid : string; ai_patch_cid : string; ai_owner_address : string;
  ai_model_identifier : string; ai_model_revision : option string; ai_runtime_identifier : string;
  ai_independence_group : string; ai_verdict : AttestationVerdict; ai_unresolved_critical_findings : N;
  ai_test_result_cid : string; ai_tests_passed_claim : bool; ai_bond_atoms : N }.

Record BuildAttestationInputV1 := {
  bi_attestation_cid : string; bi_attestation_car : bytes; bi_candidate_ecosystem_cid : string;
  bi_builder_address : string; bi_runtime_family : string; bi_architecture : string;
  bi_core_artifact_digest : string; bi_test_result_cid : string; bi_tests_passed_claim : bool;
  bi_bond_atoms : N }.

Record DataAvailabilityAttestationInputV1 := {
  di_attestation_cid : string; di_attestation_car : bytes; di_candidate_ecosystem_cid : string;
  di_provider_id : string; di_operator_address : string; di_pinset_cid : string;
  di_verified_cids : list string; di_probe_result_cid : string; di_available_claim : bool;
  di_expires_at_block : N; di_bond_atoms : N }.

Record GovernanceVoteReceiptV1 := {
  vr_schema_version : N; vr_proposal_id : string; vr_voter_address : string; vr_choice : VoteChoice;
  vr_staking_epoch : N; vr_identity_metrics_epoch : N; vr_active_stake_atoms : N; vr_stake_score : N;
  vr_identity_status_bps : N; vr_flip_trust_bps : N; vr_effective_vote_weight : N; vr_cast_at_block : N }.

Inductive ObjectiveChallengeTarget := AgentTestResult | BuilderTestResult | DataAvailabilityProbe.

Record ObjectiveChallengeInputV1 := {
  oc_challenger_address : string; oc_target : ObjectiveChallengeTarget; oc_attestation_cid : string;
  oc_evidence_cid : string; oc_evidence_bytes : bytes }.

Record CanonicalEcosystemChanged := {
  ev_old_cid : string; ev_new_cid : string; ev_proposal_id : string; ev_agent_review_root : string;
  ev_build_attestation_root : string; ev_data_availability_root : string }.

(** The one constructor of [GovernanceEvent]. *)
Definition GovernanceEvent : Type := CanonicalEcosystemChanged.

Record StakePositionView := {
  sv_pending_activation_atoms : N; sv_active_atoms : N; sv_scheduled_withdrawal_atoms : N;
  sv_unbonding_atoms : N }.

Record ProposalView := {
  pv_proposal_id : string; pv_state : ProposalState; pv_content : ChangeProposalContentV1;
  pv_gates : option GateResults; pv_vote_count : nat; pv_challenge_end : N; pv_execution_not_before : N;
  pv_execution_expires : N }.

Record ReviewRoundView := {
  rv_review_round_id : string; rv_state : ReviewRoundState; rv_parent_cid : string; rv_candidate_cid : string;
  rv_patch_cid : string; rv_scope_evidence_cid : string; rv_opener_address : string; rv_opened_block : N;
  rv_end_block : N; rv_claim_deadline : N; rv_proposal_id : option string; rv_agent_review_root : option string;
  rv_build_attestation_root : option string; rv_data_availability_root : option string;
  rv_critical_finding_waiver_cid : option string; rv_agent_attestations : nat; rv_build_attestations : nat;
  rv_data_availability_attestations : nat }.

Record IdentityMetricsCertificationView := {
  cv_metrics_root : string; cv_source_epoch : N; cv_attestation_count : nat; cv_minimum_required : N;
  cv_certified : bool; cv_conflict : bool; cv_descriptor_hash : option string }.

(** [GovernancePanic] stands for a panic: an index of a map that is absent, or a subtraction
    below zero. *)
Inductive GovernanceError :=
| InvalidParameters (m : string)
| InvalidAddress
| InvalidContentAddress (m : string)
| GovernanceOverflow
| InsufficientAmount
| InvalidIdentityProof
| InvalidProposal
| StaleParent
| Duplicate
| ProposalNotFound
| ReviewRoundNotFound
| ReviewRoundFull
| InvalidReviewRoundState (s : ReviewRoundState)
| InvalidState (s : ProposalState)
| InvalidDeadline
| InvalidAttestation
| IneligibleVoter
| InsufficientActiveStake
| StakeSlashReserved
| InvalidChallenge
| NoRefund
| GovernancePanic.

Record StakeLot := { sl_atoms : N; sl_activation_epoch : N }.
Record ScheduledWithdrawal := { sw_atoms : N; sw_start_epoch : N; sw_release_epoch : N }.

Record StakePosition := {
  pos_active_atoms : N; pos_pending : list StakeLot; pos_scheduled : list ScheduledWithdrawal;
  pos_unbonding : list ScheduledWithdrawal }.

Record VoterSnapshot := {
  vt_stake_atoms : N; vt_status_bps : N; vt_state : IdentityState; vt_trust_bps : N; vt_weight : N }.

(** [BondedAgentAttestation], [BondedBuildAttestation] and [BondedDataAvailabilityAttestation]
    differ in the input they hold. *)
Record Bonded (I : Type) := { bonded_input : I; bonded_settled : bool; bonded_invalid : bool }.
Arguments bonded_input {I}.
Arguments bonded_settled {I}.
Arguments bonded_invalid {I}.
Arguments Build_Bonded {I}.

Abbreviation BondedAgentAttestation := (Bonded AgentAttestationInputV1).
Abbreviation BondedBuildAttestation := (Bonded BuildAttestationInputV1).
Abbreviation BondedDataAvailabilityAttestation := (Bonded DataAvailabilityAttestationInputV1).

Inductive BondTarget := TargetAgent | TargetBuilder | TargetAvailability.

#[global] Instance BondTarget_eq_dec : EqDecision BondTarget.
Proof. solve_decision. Defined.

Record PendingChallenge := { ch_input : ObjectiveChallengeInputV1; ch_target_type : BondTarget }.

(** What the three kinds of attestation input share: who posted the bond, and how much. *)
Class BondInput (I : Type) := { bond_owner : I -> string; bond_atoms : I -> N; bond_target : BondTarget }.
#[global] Instance agent_bond : BondInput AgentAttestationInputV1 :=
  {| bond_owner := ai_owner_address; bond_atoms := ai_bond_atoms; bond_target := TargetAgent |}.
#[global] Instance build_bond : BondInput BuildAttestationInputV1 :=
  {| bond_owner := bi_builder_address; bond_atoms := bi_bond_atoms; bond_target := TargetBuilder |}.
#[global] Instance availability_bond : BondInput DataAvailabilityAttestationInputV1 :=
  {| bond_owner := di_operator_address; bond_atoms := di_bond_atoms; bond_target := TargetAvailability |}.

(** [CriticalFindingWaiverV1] of [epoch_governance.rs]. *)
Record CriticalFindingWaiverV1 := {
  cw_schema_version : N; cw_review_round_id : string; cw_parent_ecosystem_cid : string;
  cw_candidate_ecosystem_cid : string; cw_patch_cid : string; cw_risk_class : RiskClass;
  cw_agent_review_root : string; cw_unresolved_critical_owner_count : N; cw_scope : string;
  cw_rationale_cid : string; cw_author_idena_address : string; cw_creation_block : N }.

Record ProposalRecord := {
  pr_id : string;
  pr_state : ProposalState;
  pr_content : ChangeProposalContentV1;
  pr_proposal_bond_settled : bool;
  pr_agents : gmap string BondedAgentAttestation;
  pr_builders : gmap string BondedBuildAttestation;
  pr_availability : gmap string BondedDataAvailabilityAttestation;
  pr_required_availability_cids : gset string;
  pr_critical_finding_waiver : option CriticalFindingWaiverV1;
  pr_voter_snapshot : gmap string VoterSnapshot;
  pr_votes : gmap string GovernanceVoteReceiptV1;
  pr_yes_weight : N;
  pr_no_weight : N;
  pr_abstain_weight : N;
  pr_total_registered_weight : N;
  pr_gates : option GateResults;
  pr_pending_challenge : option PendingChallenge;
  pr_challenge_end : N;
  pr_execution_not_before : N;
  pr_execution_expires : N
}.

Record ReviewRoundRecord := {
  rr_id : string;
  rr_state : ReviewRoundState;
  rr_parent_cid : string;
  rr_candidate_cid : string;
  rr_patch_cid : string;
  rr_scope_evidence_cid : string;
  rr_scope_evidence : ProposalScopeEvidenceV1;
  rr_affected_repositories : list string;
  rr_base_source_cids : gmap string string;
  rr_candidate_source_cids : gmap string string;
  rr_all_candidate_source_cids : list RepositoryCidV1;
  rr_candidate_artifact_keys : gset string;
  rr_toolchain_cid : string;
  rr_pinset_cid : string;
  rr_pinset_cids : list string;
  rr_required_availability_cids : gset string;
  rr_opener_address : string;
  rr_opened_block : N;
  rr_end_block : N;
  rr_claim_deadline : N;
  rr_proposal_id : option string;
  rr_bond_atoms : N;
  rr_bond_settled : bool;
  rr_agent_review_root : option string;
  rr_build_attestation_root : option string;
  rr_data_availability_root : option string;
  rr_critical_finding_waiver_cid : option string;
  rr_critical_finding_waiver : option CriticalFindingWaiverV1;
  rr_agents : gmap string BondedAgentAttestation;
  rr_builders : gmap string BondedBuildAttestation;
  rr_availability : gmap string BondedDataAvailabilityAttestation
}.

Record IdentityMetricsCertificationDescriptor := {
  cd_snapshot_cid : string; cd_snapshot_sha256 : string; cd_source_block_height : N;
  cd_source_block_hash : string; cd_replay_start_height : N; cd_replay_commitment : string;
  cd_indexer_implementation_cid : string }.

#[global] Instance IdentityMetricsCertificationDescriptor_eq_dec : EqDecision IdentityMetricsCertificationDescriptor.
Proof. solve_decision. Defined.

Record IdentityMetricsCertificationRecord := {
  cr_descriptors : gmap string IdentityMetricsCertificationDescriptor;
  cr_descriptor_operators : gmap string (gset string);
  cr_operator_attestations : gmap string (string * string);
  cr_finalized_descriptor : option string }.

Record GovernanceEngine := {
  ge_canonical_ecosystem_cid : string;
  ge_governance_parameter_set_cid : string;
  ge_parameters : GovernanceParameterSetV1;
  ge_metrics_root : string;
  ge_metrics_epoch : N;
  ge_stakes : gmap string StakePosition;
  ge_registered_metrics : gmap string GovernanceIdentityMetricsLeafV1;
  ge_metrics_certifications : gmap (string * N) IdentityMetricsCertificationRecord;
  ge_review_rounds : gmap string ReviewRoundRecord;
  ge_active_review_candidates : gmap string string;
  ge_proposals : gmap string ProposalRecord;
  ge_refunds : gmap string N;
  ge_burned_atoms : N;
  ge_events : list GovernanceEvent
}.

(** The [Default] of a stake position and of a certification record. *)
Definition default_position : StakePosition :=
  {| pos_active_atoms := 0; pos_pending := []; pos_scheduled := []; pos_unbonding := [] |}.
Definition default_certification : IdentityMetricsCertificationRecord :=
  {| cr_descriptors := ∅; cr_descriptor_operators := ∅; cr_operator_attestations := ∅; cr_finalized_descriptor := None |}.

(** ** Assignments to single fields *)

Definition set_pr_state (v : ProposalState) (p : ProposalRecord) : ProposalRecord :=
  {| pr_id := pr_id p; pr_state := v; pr_content := pr_content p;
     pr_proposal_bond_settled := pr_proposal_bond_settled p; pr_agents := pr_agents p;
     pr_builders := pr_builders p; pr_availability := pr_availability p;
     pr_required_availability_cids := pr_required_availability_cids p;
     pr_critical_finding_waiver := pr_critical_finding_waiver p; pr_voter_snapshot := pr_voter_snapshot p;
     pr_votes := pr_votes p; pr_yes_weight := pr_yes_weight p; pr_no_weight := pr_no_weight p;
     pr_abstain_weight := pr_abstain_weight p; pr_total_registered_weight := pr_total_registered_weight p;
     pr_gates := pr_gates p; pr_pending_challenge := pr_pending_challenge p;
     pr_challenge_end := pr_challenge_end p; pr_execution_not_before := pr_execution_not_before p;
     pr_execution_expires := pr_execution_expires p |}.

Definition set_pr_proposal_bond_settled (v : bool) (p : ProposalRecord) : ProposalRecord :=
  {| pr_id := pr_id p; pr_state := pr_state p; pr_content := pr_content p; pr_proposal_bond_settled := v;
     pr_agents := pr_agents p; pr_builders := pr_builders p; pr_availability := pr_availability p;
     pr_required_availability_cids := pr_required_availability_cids p;
     pr_critical_finding_waiver := pr_critical_finding_waiver p; pr_voter_snapshot := pr_voter_snapshot p;
     pr_votes := pr_votes p; pr_yes_weight := pr_yes_weight p; pr_no_weight := pr_no_weight p;
     pr_abstain_weight := pr_abstain_weight p; pr_total_registered_weight := pr_total_registered_weight p;
     pr_gates := pr_gates p; pr_pending_challenge := pr_pending_challenge p;
     pr_challenge_end := pr_challenge_end p; pr_execution_not_before := pr_execution_not_before p;
     pr_execution_expires := pr_execution_expires p |}.

Definition set_pr_agents (v : gmap string BondedAgentAttestation) (p : ProposalRecord) : ProposalRecord :=
  {| pr_id := pr_id p; pr_state := pr_state p; pr_content := pr_content p;
     pr_proposal_bond_settled := pr_proposal_bond_settled p; pr_agents := v; pr_builders := pr_builders p;
     pr_availability := pr_availability p; pr_required_availability_cids := pr_required_availability_cids p;
     pr_critical_finding_waiver := pr_critical_finding_waiver p; pr_voter_snapshot := pr_voter_snapshot p;
     pr_votes := pr_votes p; pr_yes_weight := pr_yes_weight p; pr_no_weight := pr_no_weight p;
     pr_abstain_weight := pr_abstain_weight p; pr_total_registered_weight := pr_total_registered_weight p;
     pr_gates := pr_gates p; pr_pending_challenge := pr_pending_challenge p;
     pr_challenge_end := pr_challenge_end p; pr_execution_not_before := pr_execution_not_before p;
     pr_execution_expires := pr_execution_expires p |}.

Definition set_pr_builders (v : gmap string BondedBuildAttestation) (p : ProposalRecord) : ProposalRecord :=
  {| pr_id := pr_id p; pr_state := pr_state p; pr_content := pr_content p;
     pr_proposal_bond_settled := pr_proposal_bond_settled p; pr_agents := pr_agents p; pr_builders := v;
     pr_availability := pr_availability p; pr_required_availability_cids := pr_required_availability_cids p;
     pr_critical_finding_waiver := pr_critical_finding_waiver p; pr_voter_snapshot := pr_voter_snapshot p;
     pr_votes := pr_votes p; pr_yes_weight := pr_yes_weight p; pr_no_weight := pr_no_weight p;
     pr_abstain_weight := pr_abstain_weight p; pr_total_registered_weight := pr_total_registered_weight p;
     pr_gates := pr_gates p; pr_pending_challenge := pr_pending_challenge p;
     pr_challenge_end := pr_challenge_end p; pr_execution_not_before := pr_execution_not_before p;
     pr_execution_expires := pr_execution_expires p |}.

Definition set_pr_availability (v : gmap string BondedDataAvailabilityAttestation) (p : ProposalRecord) : ProposalRecord :=
  {| pr_id := pr_id p; pr_state := pr_state p; pr_content := pr_content p;
     pr_proposal_bond_settled := pr_proposal_bond_settled p; pr_agents := pr_agents p;
     pr_builders := pr_builders p; pr_availability := v;
     pr_required_availability_cids := pr_required_availability_cids p;
     pr_critical_finding_waiver := pr_critical_finding_waiver p; pr_voter_snapshot := pr_voter_snapshot p;
     pr_votes := pr_votes p; pr_yes_weight := pr_yes_weight p; pr_no_weight := pr_no_weight p;
     pr_abstain_weight := pr_abstain_weight p; pr_total_registered_weight := pr_total_registered_weight p;
     pr_gates := pr_gates p; pr_pending_challenge := pr_pending_challenge p;
     pr_challenge_end := pr_challenge_end p; pr_execution_not_before := pr_execution_not_before p;
     pr_execution_expires := pr_execution_expires p |}.

Definition set_pr_votes (v : gmap string GovernanceVoteReceiptV1) (p : ProposalRecord) : ProposalRecord :=
  {| pr_id := pr_id p; pr_state := pr_state p; pr_content := pr_content p;
     pr_proposal_bond_settled := pr_proposal_bond_settled p; pr_agents := pr_agents p;
     pr_builders := pr_builders p; pr_availability := pr_availability p;
     pr_required_availability_cids := pr_required_availability_cids p;
     pr_critical_finding_waiver := pr_critical_finding_waiver p; pr_voter_snapshot := pr_voter_snapshot p;
     pr_votes := v; pr_yes_weight := pr_yes_weight p; pr_no_weight := pr_no_weight p;
     pr_abstain_weight := pr_abstain_weight p; pr_total_registered_weight := pr_total_registered_weight p;
     pr_gates := pr_gates p; pr_pending_challenge := pr_pending_challenge p;
     pr_challenge_end := pr_challenge_end p; pr_execution_not_before := pr_execution_not_before p;
     pr_execution_expires := pr_execution_expires p |}.

Definition set_pr_yes_weight (v : N) (p : ProposalRecord) : ProposalRecord :=
  {| pr_id := pr_id p; pr_state := pr_state p; pr_content := pr_content p;
     pr_proposal_bond_settled := pr_proposal_bond_settled p; pr_agents := pr_agents p;
     pr_builders := pr_builders p; pr_availability := pr_availability p;
     pr_required_availability_cids := pr_required_availability_cids p;
     pr_critical_finding_waiver := pr_critical_finding_waiver p; pr_voter_snapshot := pr_voter_snapshot p;
     pr_votes := pr_votes p; pr_yes_weight := v; pr_no_weight := pr_no_weight p;
     pr_abstain_weight := pr_abstain_weight p; pr_total_registered_weight := pr_total_registered_weight p;
     pr_gates := pr_gates p; pr_pending_challenge := pr_pending_challenge p;
     pr_challenge_end := pr_challenge_end p; pr_execution_not_before := pr_execution_not_before p;
     pr_execution_expires := pr_execution_expires p |}.

Definition set_pr_no_weight (v : N) (p : ProposalRecord) : ProposalRecord :=
  {| pr_id := pr_id p; pr_state := pr_state p; pr_content := pr_content p;
     pr_proposal_bond_settled := pr_proposal_bond_settled p; pr_agents := pr_agents p;
     pr_builders := pr_builders p; pr_availability := pr_availability p;
     pr_required_availability_cids := pr_required_availability_cids p;
     pr_critical_finding_waiver := pr_critical_finding_waiver p; pr_voter_snapshot := pr_voter_snapshot p;
     pr_votes := pr_votes p; pr_yes_weight := pr_yes_weight p; pr_no_weight := v;
     pr_abstain_weight := pr_abstain_weight p; pr_total_registered_weight := pr_total_registered_weight p;
     pr_gates := pr_gates p; pr_pending_challenge := pr_pending_challenge p;
     pr_challenge_end := pr_challenge_end p; pr_execution_not_before := pr_execution_not_before p;
     pr_execution_expires := pr_execution_expires p |}.

Definition set_pr_abstain_weight (v : N) (p : ProposalRecord) : ProposalRecord :=
  {| pr_id := pr_id p; pr_state := pr_state p; pr_content := pr_content p;
     pr_proposal_bond_settled := pr_proposal_bond_settled p; pr_agents := pr_agents p;
     pr_builders := pr_builders p; pr_availability := pr_availability p;
     pr_required_availability_cids := pr_required_availability_cids p;
     pr_critical_finding_waiver := pr_critical_finding_waiver p; pr_voter_snapshot := pr_voter_snapshot p;
     pr_votes := pr_votes p; pr_yes_weight := pr_yes_weight p; pr_no_weight := pr_no_weight p;
     pr_abstain_weight := v; pr_total_registered_weight := pr_total_registered_weight p; pr_gates := pr_gates p;
     pr_pending_challenge := pr_pending_challenge p; pr_challenge_end := pr_challenge_end p;
     pr_execution_not_before := pr_execution_not_before p; pr_execution_expires := pr_execution_expires p |}.

Definition set_pr_gates (v : option GateResults) (p : ProposalRecord) : ProposalRecord :=
  {| pr_id := pr_id p; pr_state := pr_state p; pr_content := pr_content p;
     pr_proposal_bond_settled := pr_proposal_bond_settled p; pr_agents := pr_agents p;
     pr_builders := pr_builders p; pr_availability := pr_availability p;
     pr_required_availability_cids := pr_required_availability_cids p;
     pr_critical_finding_waiver := pr_critical_finding_waiver p; pr_voter_snapshot := pr_voter_snapshot p;
     pr_votes := pr_votes p; pr_yes_weight := pr_yes_weight p; pr_no_weight := pr_no_weight p;
     pr_abstain_weight := pr_abstain_weight p; pr_total_registered_weight := pr_total_registered_weight p;
     pr_gates := v; pr_pending_challenge := pr_pending_challenge p; pr_challenge_end := pr_challenge_end p;
     pr_execution_not_before := pr_execution_not_before p; pr_execution_expires := pr_execution_expires p |}.

Definition set_pr_pending_challenge (v : option PendingChallenge) (p : ProposalRecord) : ProposalRecord :=
  {| pr_id := pr_id p; pr_state := pr_state p; pr_content := pr_content p;
     pr_proposal_bond_settled := pr_proposal_bond_settled p; pr_agents := pr_agents p;
     pr_builders := pr_builders p; pr_availability := pr_availability p;
     pr_required_availability_cids := pr_required_availability_cids p;
     pr_critical_finding_waiver := pr_critical_finding_waiver p; pr_voter_snapshot := pr_voter_snapshot p;
     pr_votes := pr_votes p; pr_yes_weight := pr_yes_weight p; pr_no_weight := pr_no_weight p;
     pr_abstain_weight := pr_abstain_weight p; pr_total_registered_weight := pr_total_registered_weight p;
     pr_gates := pr_gates p; pr_pending_challenge := v; pr_challenge_end := pr_challenge_end p;
     pr_execution_not_before := pr_execution_not_before p; pr_execution_expires := pr_execution_expires p |}.

Definition set_pr_challenge_end (v : N) (p : ProposalRecord) : ProposalRecord :=
  {| pr_id := pr_id p; pr_state := pr_state p; pr_content := pr_content p;
     pr_proposal_bond_settled := pr_proposal_bond_settled p; pr_agents := pr_agents p;
     pr_builders := pr_builders p; pr_availability := pr_availability p;
     pr_required_availability_cids := pr_required_availability_cids p;
     pr_critical_finding_waiver := pr_critical_finding_waiver p; pr_voter_snapshot := pr_voter_snapshot p;
     pr_votes := pr_votes p; pr_yes_weight := pr_yes_weight p; pr_no_weight := pr_no_weight p;
     pr_abstain_weight := pr_abstain_weight p; pr_total_registered_weight := pr_total_registered_weight p;
     pr_gates := pr_gates p; pr_pending_challenge := pr_pending_challenge p; pr_challenge_end := v;
     pr_execution_not_before := pr_execution_not_before p; pr_execution_expires := pr_execution_expires p |}.

Definition set_pr_execution_not_before (v : N) (p : ProposalRecord) : ProposalRecord :=
  {| pr_id := pr_id p; pr_state := pr_state p; pr_content := pr_content p;
     pr_proposal_bond_settled := pr_proposal_bond_settled p; pr_agents := pr_agents p;
     pr_builders := pr_builders p; pr_availability := pr_availability p;
     pr_required_availability_cids := pr_required_availability_cids p;
     pr_critical_finding_waiver := pr_critical_finding_waiver p; pr_voter_snapshot := pr_voter_snapshot p;
     pr_votes := pr_votes p; pr_yes_weight := pr_yes_weight p; pr_no_weight := pr_no_weight p;
     pr_abstain_weight := pr_abstain_weight p; pr_total_registered_weight := pr_total_registered_weight p;
     pr_gates := pr_gates p; pr_pending_challenge := pr_pending_challenge p;
     pr_challenge_end := pr_challenge_end p; pr_execution_not_before := v;
     pr_execution_expires := pr_execution_expires p |}.

Definition set_pr_execution_expires (v : N) (p : ProposalRecord) : ProposalRecord :=
  {| pr_id := pr_id p; pr_state := pr_state p; pr_content := pr_content p;
     pr_proposal_bond_settled := pr_proposal_bond_settled p; pr_agents := pr_agents p;
     pr_builders := pr_builders p; pr_availability := pr_availability p;
     pr_required_availability_cids := pr_required_availability_cids p;
     pr_critical_finding_waiver := pr_critical_finding_waiver p; pr_voter_snapshot := pr_voter_snapshot p;
     pr_votes := pr_votes p; pr_yes_weight := pr_yes_weight p; pr_no_weight := pr_no_weight p;
     pr_abstain_weight := pr_abstain_weight p; pr_total_registered_weight := pr_total_registered_weight p;
     pr_gates := pr_gates p; pr_pending_challenge := pr_pending_challenge p;
     pr_challenge_end := pr_challenge_end p; pr_execution_not_before := pr_execution_not_before p;
     pr_execution_expires := v |}.

Definition set_rr_state (v : ReviewRoundState) (r : ReviewRoundRecord) : ReviewRoundRecord :=
  {| rr_id := rr_id r; rr_state := v; rr_parent_cid := rr_parent_cid r; rr_candidate_cid := rr_candidate_cid r;
     rr_patch_cid := rr_patch_cid r; rr_scope_evidence_cid := rr_scope_evidence_cid r;
     rr_scope_evidence := rr_scope_evidence r; rr_affected_repositories := rr_affected_repositories r;
     rr_base_source_cids := rr_base_source_cids r; rr_candidate_source_cids := rr_candidate_source_cids r;
     rr_all_candidate_source_cids := rr_all_candidate_source_cids r;
     rr_candidate_artifact_keys := rr_candidate_artifact_keys r; rr_toolchain_cid := rr_toolchain_cid r;
     rr_pinset_cid := rr_pinset_cid r; rr_pinset_cids := rr_pinset_cids r;
     rr_required_availability_cids := rr_required_availability_cids r; rr_opener_address := rr_opener_address r;
     rr_opened_block := rr_opened_block r; rr_end_block := rr_end_block r;
     rr_claim_deadline := rr_claim_deadline r; rr_proposal_id := rr_proposal_id r;
     rr_bond_atoms := rr_bond_atoms r; rr_bond_settled := rr_bond_settled r;
     rr_agent_review_root := rr_agent_review_root r; rr_build_attestation_root := rr_build_attestation_root r;
     rr_data_availability_root := rr_data_availability_root r;
     rr_critical_finding_waiver_cid := rr_critical_finding_waiver_cid r;
     rr_critical_finding_waiver := rr_critical_finding_waiver r; rr_agents := rr_agents r;
     rr_builders := rr_builders r; rr_availability := rr_availability r |}.

Definition set_rr_required_availability_cids (v : gset string) (r : ReviewRoundRecord) : ReviewRoundRecord :=
  {| rr_id := rr_id r; rr_state := rr_state r; rr_parent_cid := rr_parent_cid r;
     rr_candidate_cid := rr_candidate_cid r; rr_patch_cid := rr_patch_cid r;
     rr_scope_evidence_cid := rr_scope_evidence_cid r; rr_scope_evidence := rr_scope_evidence r;
     rr_affected_repositories := rr_affected_repositories r; rr_base_source_cids := rr_base_source_cids r;
     rr_candidate_source_cids := rr_candidate_source_cids r;
     rr_all_candidate_source_cids := rr_all_candidate_source_cids r;
     rr_candidate_artifact_keys := rr_candidate_artifact_keys r; rr_toolchain_cid := rr_toolchain_cid r;
     rr_pinset_cid := rr_pinset_cid r; rr_pinset_cids := rr_pinset_cids r; rr_required_availability_cids := v;
     rr_opener_address := rr_opener_address r; rr_opened_block := rr_opened_block r;
     rr_end_block := rr_end_block r; rr_claim_deadline := rr_claim_deadline r; rr_proposal_id := rr_proposal_id r;
     rr_bond_atoms := rr_bond_atoms r; rr_bond_settled := rr_bond_settled r;
     rr_agent_review_root := rr_agent_review_root r; rr_build_attestation_root := rr_build_attestation_root r;
     rr_data_availability_root := rr_data_availability_root r;
     rr_critical_finding_waiver_cid := rr_critical_finding_waiver_cid r;
     rr_critical_finding_waiver := rr_critical_finding_waiver r; rr_agents := rr_agents r;
     rr_builders := rr_builders r; rr_availability := rr_availability r |}.

Definition set_rr_proposal_id (v : option string) (r : ReviewRoundRecord) : ReviewRoundRecord :=
  {| rr_id := rr_id r; rr_state := rr_state r; rr_parent_cid := rr_parent_cid r;
     rr_candidate_cid := rr_candidate_cid r; rr_patch_cid := rr_patch_cid r;
     rr_scope_evidence_cid := rr_scope_evidence_cid r; rr_scope_evidence := rr_scope_evidence r;
     rr_affected_repositories := rr_affected_repositories r; rr_base_source_cids := rr_base_source_cids r;
     rr_candidate_source_cids := rr_candidate_source_cids r;
     rr_all_candidate_source_cids := rr_all_candidate_source_cids r;
     rr_candidate_artifact_keys := rr_candidate_artifact_keys r; rr_toolchain_cid := rr_toolchain_cid r;
     rr_pinset_cid := rr_pinset_cid r; rr_pinset_cids := rr_pinset_cids r;
     rr_required_availability_cids := rr_required_availability_cids r; rr_opener_address := rr_opener_address r;
     rr_opened_block := rr_opened_block r; rr_end_block := rr_end_block r;
     rr_claim_deadline := rr_claim_deadline r; rr_proposal_id := v; rr_bond_atoms := rr_bond_atoms r;
     rr_bond_settled := rr_bond_settled r; rr_agent_review_root := rr_agent_review_root r;
     rr_build_attestation_root := rr_build_attestation_root r;
     rr_data_availability_root := rr_data_availability_root r;
     rr_critical_finding_waiver_cid := rr_critical_finding_waiver_cid r;
     rr_critical_finding_waiver := rr_critical_finding_waiver r; rr_agents := rr_agents r;
     rr_builders := rr_builders r; rr_availability := rr_availability r |}.

Definition set_rr_bond_settled (v : bool) (r : ReviewRoundRecord) : ReviewRoundRecord :=
  {| rr_id := rr_id r; rr_state := rr_state r; rr_parent_cid := rr_parent_cid r;
     rr_candidate_cid := rr_candidate_cid r; rr_patch_cid := rr_patch_cid r;
     rr_scope_evidence_cid := rr_scope_evidence_cid r; rr_scope_evidence := rr_scope_evidence r;
     rr_affected_repositories := rr_affected_repositories r; rr_base_source_cids := rr_base_source_cids r;
     rr_candidate_source_cids := rr_candidate_source_cids r;
     rr_all_candidate_source_cids := rr_all_candidate_source_cids r;
     rr_candidate_artifact_keys := rr_candidate_artifact_keys r; rr_toolchain_cid := rr_toolchain_cid r;
     rr_pinset_cid := rr_pinset_cid r; rr_pinset_cids := rr_pinset_cids r;
     rr_required_availability_cids := rr_required_availability_cids r; rr_opener_address := rr_opener_address r;
     rr_opened_block := rr_opened_block r; rr_end_block := rr_end_block r;
     rr_claim_deadline := rr_claim_deadline r; rr_proposal_id := rr_proposal_id r;
     rr_bond_atoms := rr_bond_atoms r; rr_bond_settled := v; rr_agent_review_root := rr_agent_review_root r;
     rr_build_attestation_root := rr_build_attestation_root r;
     rr_data_availability_root := rr_data_availability_root r;
     rr_critical_finding_waiver_cid := rr_critical_finding_waiver_cid r;
     rr_critical_finding_waiver := rr_critical_finding_waiver r; rr_agents := rr_agents r;
     rr_builders := rr_builders r; rr_availability := rr_availability r |}.

Definition set_rr_agent_review_root (v : option string) (r : ReviewRoundRecord) : ReviewRoundRecord :=
  {| rr_id := rr_id r; rr_state := rr_state r; rr_parent_cid := rr_parent_cid r;
     rr_candidate_cid := rr_candidate_cid r; rr_patch_cid := rr_patch_cid r;
     rr_scope_evidence_cid := rr_scope_evidence_cid r; rr_scope_evidence := rr_scope_evidence r;
     rr_affected_repositories := rr_affected_repositories r; rr_base_source_cids := rr_base_source_cids r;
     rr_candidate_source_cids := rr_candidate_source_cids r;
     rr_all_candidate_source_cids := rr_all_candidate_source_cids r;
     rr_candidate_artifact_keys := rr_candidate_artifact_keys r; rr_toolchain_cid := rr_toolchain_cid r;
     rr_pinset_cid := rr_pinset_cid r; rr_pinset_cids := rr_pinset_cids r;
     rr_required_availability_cids := rr_required_availability_cids r; rr_opener_address := rr_opener_address r;
     rr_opened_block := rr_opened_block r; rr_end_block := rr_end_block r;
     rr_claim_deadline := rr_claim_deadline r; rr_proposal_id := rr_proposal_id r;
     rr_bond_atoms := rr_bond_atoms r; rr_bond_settled := rr_bond_settled r; rr_agent_review_root := v;
     rr_build_attestation_root := rr_build_attestation_root r;
     rr_data_availability_root := rr_data_availability_root r;
     rr_critical_finding_waiver_cid := rr_critical_finding_waiver_cid r;
     rr_critical_finding_waiver := rr_critical_finding_waiver r; rr_agents := rr_agents r;
     rr_builders := rr_builders r; rr_availability := rr_availability r |}.

Definition set_rr_build_attestation_root (v : option string) (r : ReviewRoundRecord) : ReviewRoundRecord :=
  {| rr_id := rr_id r; rr_state := rr_state r; rr_parent_cid := rr_parent_cid r;
     rr_candidate_cid := rr_candidate_cid r; rr_patch_cid := rr_patch_cid r;
     rr_scope_evidence_cid := rr_scope_evidence_cid r; rr_scope_evidence := rr_scope_evidence r;
     rr_affected_repositories := rr_affected_repositories r; rr_base_source_cids := rr_base_source_cids r;
     rr_candidate_source_cids := rr_candidate_source_cids r;
     rr_all_candidate_source_cids := rr_all_candidate_source_cids r;
     rr_candidate_artifact_keys := rr_candidate_artifact_keys r; rr_toolchain_cid := rr_toolchain_cid r;
     rr_pinset_cid := rr_pinset_cid r; rr_pinset_cids := rr_pinset_cids r;
     rr_required_availability_cids := rr_required_availability_cids r; rr_opener_address := rr_opener_address r;
     rr_opened_block := rr_opened_block r; rr_end_block := rr_end_block r;
     rr_claim_deadline := rr_claim_deadline r; rr_proposal_id := rr_proposal_id r;
     rr_bond_atoms := rr_bond_atoms r; rr_bond_settled := rr_bond_settled r;
     rr_agent_review_root := rr_agent_review_root r; rr_build_attestation_root := v;
     rr_data_availability_root := rr_data_availability_root r;
     rr_critical_finding_waiver_cid := rr_critical_finding_waiver_cid r;
     rr_critical_finding_waiver := rr_critical_finding_waiver r; rr_agents := rr_agents r;
     rr_builders := rr_builders r; rr_availability := rr_availability r |}.

Definition set_rr_data_availability_root (v : option string) (r : ReviewRoundRecord) : ReviewRoundRecord :=
  {| rr_id := rr_id r; rr_state := rr_state r; rr_parent_cid := rr_parent_cid r;
     rr_candidate_cid := rr_candidate_cid r; rr_patch_cid := rr_patch_cid r;
     rr_scope_evidence_cid := rr_scope_evidence_cid r; rr_scope_evidence := rr_scope_evidence r;
     rr_affected_repositories := rr_affected_repositories r; rr_base_source_cids := rr_base_source_cids r;
     rr_candidate_source_cids := rr_candidate_source_cids r;
     rr_all_candidate_source_cids := rr_all_candidate_source_cids r;
     rr_candidate_artifact_keys := rr_candidate_artifact_keys r; rr_toolchain_cid := rr_toolchain_cid r;
     rr_pinset_cid := rr_pinset_cid r; rr_pinset_cids := rr_pinset_cids r;
     rr_required_availability_cids := rr_required_availability_cids r; rr_opener_address := rr_opener_address r;
     rr_opened_block := rr_opened_block r; rr_end_block := rr_end_block r;
     rr_claim_deadline := rr_claim_deadline r; rr_proposal_id := rr_proposal_id r;
     rr_bond_atoms := rr_bond_atoms r; rr_bond_settled := rr_bond_settled r;
     rr_agent_review_root := rr_agent_review_root r; rr_build_attestation_root := rr_build_attestation_root r;
     rr_data_availability_root := v; rr_critical_finding_waiver_cid := rr_critical_finding_waiver_cid r;
     rr_critical_finding_waiver := rr_critical_finding_waiver r; rr_agents := rr_agents r;
     rr_builders := rr_builders r; rr_availability := rr_availability r |}.

Definition set_rr_critical_finding_waiver_cid (v : option string) (r : ReviewRoundRecord) : ReviewRoundRecord :=
  {| rr_id := rr_id r; rr_state := rr_state r; rr_parent_cid := rr_parent_cid r;
     rr_candidate_cid := rr_candidate_cid r; rr_patch_cid := rr_patch_cid r;
     rr_scope_evidence_cid := rr_scope_evidence_cid r; rr_scope_evidence := rr_scope_evidence r;
     rr_affected_repositories := rr_affected_repositories r; rr_base_source_cids := rr_base_source_cids r;
     rr_candidate_source_cids := rr_candidate_source_cids r;
     rr_all_candidate_source_cids := rr_all_candidate_source_cids r;
     rr_candidate_artifact_keys := rr_candidate_artifact_keys r; rr_toolchain_cid := rr_toolchain_cid r;
     rr_pinset_cid := rr_pinset_cid r; rr_pinset_cids := rr_pinset_cids r;
     rr_required_availability_cids := rr_required_availability_cids r; rr_opener_address := rr_opener_address r;
     rr_opened_block := rr_opened_block r; rr_end_block := rr_end_block r;
     rr_claim_deadline := rr_claim_deadline r; rr_proposal_id := rr_proposal_id r;
     rr_bond_atoms := rr_bond_atoms r; rr_bond_settled := rr_bond_settled r;
     rr_agent_review_root := rr_agent_review_root r; rr_build_attestation_root := rr_build_attestation_root r;
     rr_data_availability_root := rr_data_availability_root r; rr_critical_finding_waiver_cid := v;
     rr_critical_finding_waiver := rr_critical_finding_waiver r; rr_agents := rr_agents r;
     rr_builders := rr_builders r; rr_availability := rr_availability r |}.

Definition set_rr_critical_finding_waiver (v : option CriticalFindingWaiverV1) (r : ReviewRoundRecord) : ReviewRoundRecord :=
  {| rr_id := rr_id r; rr_state := rr_state r; rr_parent_cid := rr_parent_cid r;
     rr_candidate_cid := rr_candidate_cid r; rr_patch_cid := rr_patch_cid r;
     rr_scope_evidence_cid := rr_scope_evidence_cid r; rr_scope_evidence := rr_scope_evidence r;
     rr_affected_repositories := rr_affected_repositories r; rr_base_source_cids := rr_base_source_cids r;
     rr_candidate_source_cids := rr_candidate_source_cids r;
     rr_all_candidate_source_cids := rr_all_candidate_source_cids r;
     rr_candidate_artifact_keys := rr_candidate_artifact_keys r; rr_toolchain_cid := rr_toolchain_cid r;
     rr_pinset_cid := rr_pinset_cid r; rr_pinset_cids := rr_pinset_cids r;
     rr_required_availability_cids := rr_required_availability_cids r; rr_opener_address := rr_opener_address r;
     rr_opened_block := rr_opened_block r; rr_end_block := rr_end_block r;
     rr_claim_deadline := rr_claim_deadline r; rr_proposal_id := rr_proposal_id r;
     rr_bond_atoms := rr_bond_atoms r; rr_bond_settled := rr_bond_settled r;
     rr_agent_review_root := rr_agent_review_root r; rr_build_attestation_root := rr_build_attestation_root r;
     rr_data_availability_root := rr_data_availability_root r;
     rr_critical_finding_waiver_cid := rr_critical_finding_waiver_cid r; rr_critical_finding_waiver := v;
     rr_agents := rr_agents r; rr_builders := rr_builders r; rr_availability := rr_availability r |}.

Definition set_rr_agents (v : gmap string BondedAgentAttestation) (r : ReviewRoundRecord) : ReviewRoundRecord :=
  {| rr_id := rr_id r; rr_state := rr_state r; rr_parent_cid := rr_parent_cid r;
     rr_candidate_cid := rr_candidate_cid r; rr_patch_cid := rr_patch_cid r;
     rr_scope_evidence_cid := rr_scope_evidence_cid r; rr_scope_evidence := rr_scope_evidence r;
     rr_affected_repositories := rr_affected_repositories r; rr_base_source_cids := rr_base_source_cids r;
     rr_candidate_source_cids := rr_candidate_source_cids r;
     rr_all_candidate_source_cids := rr_all_candidate_source_cids r;
     rr_candidate_artifact_keys := rr_candidate_artifact_keys r; rr_toolchain_cid := rr_toolchain_cid r;
     rr_pinset_cid := rr_pinset_cid r; rr_pinset_cids := rr_pinset_cids r;
     rr_required_availability_cids := rr_required_availability_cids r; rr_opener_address := rr_opener_address r;
     rr_opened_block := rr_opened_block r; rr_end_block := rr_end_block r;
     rr_claim_deadline := rr_claim_deadline r; rr_proposal_id := rr_proposal_id r;
     rr_bond_atoms := rr_bond_atoms r; rr_bond_settled := rr_bond_settled r;
     rr_agent_review_root := rr_agent_review_root r; rr_build_attestation_root := rr_build_attestation_root r;
     rr_data_availability_root := rr_data_availability_root r;
     rr_critical_finding_waiver_cid := rr_critical_finding_waiver_cid r;
     rr_critical_finding_waiver := rr_critical_finding_waiver r; rr_agents := v; rr_builders := rr_builders r;
     rr_availability := rr_availability r |}.

Definition set_rr_builders (v : gmap string BondedBuildAttestation) (r : ReviewRoundRecord) : ReviewRoundRecord :=
  {| rr_id := rr_id r; rr_state := rr_state r; rr_parent_cid := rr_parent_cid r;
     rr_candidate_cid := rr_candidate_cid r; rr_patch_cid := rr_patch_cid r;
     rr_scope_evidence_cid := rr_scope_evidence_cid r; rr_scope_evidence := rr_scope_evidence r;
     rr_affected_repositories := rr_affected_repositories r; rr_base_source_cids := rr_base_source_cids r;
     rr_candidate_source_cids := rr_candidate_source_cids r;
     rr_all_candidate_source_cids := rr_all_candidate_source_cids r;
     rr_candidate_artifact_keys := rr_candidate_artifact_keys r; rr_toolchain_cid := rr_toolchain_cid r;
     rr_pinset_cid := rr_pinset_cid r; rr_pinset_cids := rr_pinset_cids r;
     rr_required_availability_cids := rr_required_availability_cids r; rr_opener_address := rr_opener_address r;
     rr_opened_block := rr_opened_block r; rr_end_block := rr_end_block r;
     rr_claim_deadline := rr_claim_deadline r; rr_proposal_id := rr_proposal_id r;
     rr_bond_atoms := rr_bond_atoms r; rr_bond_settled := rr_bond_settled r;
     rr_agent_review_root := rr_agent_review_root r; rr_build_attestation_root := rr_build_attestation_root r;
     rr_data_availability_root := rr_data_availability_root r;
     rr_critical_finding_waiver_cid := rr_critical_finding_waiver_cid r;
     rr_critical_finding_waiver := rr_critical_finding_waiver r; rr_agents := rr_agents r; rr_builders := v;
     rr_availability := rr_availability r |}.

Definition set_rr_availability (v : gmap string BondedDataAvailabilityAttestation) (r : ReviewRoundRecord) : ReviewRoundRecord :=
  {| rr_id := rr_id r; rr_state := rr_state r; rr_parent_cid := rr_parent_cid r;
     rr_candidate_cid := rr_candidate_cid r; rr_patch_cid := rr_patch_cid r;
     rr_scope_evidence_cid := rr_scope_evidence_cid r; rr_scope_evidence := rr_scope_evidence r;
     rr_affected_repositories := rr_affected_repositories r; rr_base_source_cids := rr_base_source_cids r;
     rr_candidate_source_cids := rr_candidate_source_cids r;
     rr_all_candidate_source_cids := rr_all_candidate_source_cids r;
     rr_candidate_artifact_keys := rr_candidate_artifact_keys r; rr_toolchain_cid := rr_toolchain_cid r;
     rr_pinset_cid := rr_pinset_cid r; rr_pinset_cids := rr_pinset_cids r;
     rr_required_availability_cids := rr_required_availability_cids r; rr_opener_address := rr_opener_address r;
     rr_opened_block := rr_opened_block r; rr_end_block := rr_end_block r;
     rr_claim_deadline := rr_claim_deadline r; rr_proposal_id := rr_proposal_id r;
     rr_bond_atoms := rr_bond_atoms r; rr_bond_settled := rr_bond_settled r;
     rr_agent_review_root := rr_agent_review_root r; rr_build_attestation_root := rr_build_attestation_root r;
     rr_data_availability_root := rr_data_availability_root r;
     rr_critical_finding_waiver_cid := rr_critical_finding_waiver_cid r;
     rr_critical_finding_waiver := rr_critical_finding_waiver r; rr_agents := rr_agents r;
     rr_builders := rr_builders r; rr_availability := v |}.

Definition set_ge_canonical_ecosystem_cid (v : string) (s : GovernanceEngine) : GovernanceEngine :=
  {| ge_canonical_ecosystem_cid := v; ge_governance_parameter_set_cid := ge_governance_parameter_set_cid s;
     ge_parameters := ge_parameters s; ge_metrics_root := ge_metrics_root s;
     ge_metrics_epoch := ge_metrics_epoch s; ge_stakes := ge_stakes s;
     ge_registered_metrics := ge_registered_metrics s; ge_metrics_certifications := ge_metrics_certifications s;
     ge_review_rounds := ge_review_rounds s; ge_active_review_candidates := ge_active_review_candidates s;
     ge_proposals := ge_proposals s; ge_refunds := ge_refunds s; ge_burned_atoms := ge_burned_atoms s;
     ge_events := ge_events s |}.

Definition set_ge_metrics_root (v : string) (s : GovernanceEngine) : GovernanceEngine :=
  {| ge_canonical_ecosystem_cid := ge_canonical_ecosystem_cid s;
     ge_governance_parameter_set_cid := ge_governance_parameter_set_cid s; ge_parameters := ge_parameters s;
     ge_metrics_root := v; ge_metrics_epoch := ge_metrics_epoch s; ge_stakes := ge_stakes s;
     ge_registered_metrics := ge_registered_metrics s; ge_metrics_certifications := ge_metrics_certifications s;
     ge_review_rounds := ge_review_rounds s; ge_active_review_candidates := ge_active_review_candidates s;
     ge_proposals := ge_proposals s; ge_refunds := ge_refunds s; ge_burned_atoms := ge_burned_atoms s;
     ge_events := ge_events s |}.

Definition set_ge_metrics_epoch (v : N) (s : GovernanceEngine) : GovernanceEngine :=
  {| ge_canonical_ecosystem_cid := ge_canonical_ecosystem_cid s;
     ge_governance_parameter_set_cid := ge_governance_parameter_set_cid s; ge_parameters := ge_parameters s;
     ge_metrics_root := ge_metrics_root s; ge_metrics_epoch := v; ge_stakes := ge_stakes s;
     ge_registered_metrics := ge_registered_metrics s; ge_metrics_certifications := ge_metrics_certifications s;
     ge_review_rounds := ge_review_rounds s; ge_active_review_candidates := ge_active_review_candidates s;
     ge_proposals := ge_proposals s; ge_refunds := ge_refunds s; ge_burned_atoms := ge_burned_atoms s;
     ge_events := ge_events s |}.

Definition set_ge_stakes (v : gmap string StakePosition) (s : GovernanceEngine) : GovernanceEngine :=
  {| ge_canonical_ecosystem_cid := ge_canonical_ecosystem_cid s;
     ge_governance_parameter_set_cid := ge_governance_parameter_set_cid s; ge_parameters := ge_parameters s;
     ge_metrics_root := ge_metrics_root s; ge_metrics_epoch := ge_metrics_epoch s; ge_stakes := v;
     ge_registered_metrics := ge_registered_metrics s; ge_metrics_certifications := ge_metrics_certifications s;
     ge_review_rounds := ge_review_rounds s; ge_active_review_candidates := ge_active_review_candidates s;
     ge_proposals := ge_proposals s; ge_refunds := ge_refunds s; ge_burned_atoms := ge_burned_atoms s;
     ge_events := ge_events s |}.

Definition set_ge_registered_metrics (v : gmap string GovernanceIdentityMetricsLeafV1) (s : GovernanceEngine) : GovernanceEngine :=
  {| ge_canonical_ecosystem_cid := ge_canonical_ecosystem_cid s;
     ge_governance_parameter_set_cid := ge_governance_parameter_set_cid s; ge_parameters := ge_parameters s;
     ge_metrics_root := ge_metrics_root s; ge_metrics_epoch := ge_metrics_epoch s; ge_stakes := ge_stakes s;
     ge_registered_metrics := v; ge_metrics_certifications := ge_metrics_certifications s;
     ge_review_rounds := ge_review_rounds s; ge_active_review_candidates := ge_active_review_candidates s;
     ge_proposals := ge_proposals s; ge_refunds := ge_refunds s; ge_burned_atoms := ge_burned_atoms s;
     ge_events := ge_events s |}.

Definition set_ge_metrics_certifications (v : gmap (string * N) IdentityMetricsCertificationRecord) (s : GovernanceEngine) : GovernanceEngine :=
  {| ge_canonical_ecosystem_cid := ge_canonical_ecosystem_cid s;
     ge_governance_parameter_set_cid := ge_governance_parameter_set_cid s; ge_parameters := ge_parameters s;
     ge_metrics_root := ge_metrics_root s; ge_metrics_epoch := ge_metrics_epoch s; ge_stakes := ge_stakes s;
     ge_registered_metrics := ge_registered_metrics s; ge_metrics_certifications := v;
     ge_review_rounds := ge_review_rounds s; ge_active_review_candidates := ge_active_review_candidates s;
     ge_proposals := ge_proposals s; ge_refunds := ge_refunds s; ge_burned_atoms := ge_burned_atoms s;
     ge_events := ge_events s |}.

Definition set_ge_review_rounds (v : gmap string ReviewRoundRecord) (s : GovernanceEngine) : GovernanceEngine :=
  {| ge_canonical_ecosystem_cid := ge_canonical_ecosystem_cid s;
     ge_governance_parameter_set_cid := ge_governance_parameter_set_cid s; ge_parameters := ge_parameters s;
     ge_metrics_root := ge_metrics_root s; ge_metrics_epoch := ge_metrics_epoch s; ge_stakes := ge_stakes s;
     ge_registered_metrics := ge_registered_metrics s; ge_metrics_certifications := ge_metrics_certifications s;
     ge_review_rounds := v; ge_active_review_candidates := ge_active_review_candidates s;
     ge_proposals := ge_proposals s; ge_refunds := ge_refunds s; ge_burned_atoms := ge_burned_atoms s;
     ge_events := ge_events s |}.

Definition set_ge_active_review_candidates (v : gmap string string) (s : GovernanceEngine) : GovernanceEngine :=
  {| ge_canonical_ecosystem_cid := ge_canonical_ecosystem_cid s;
     ge_governance_parameter_set_cid := ge_governance_parameter_set_cid s; ge_parameters := ge_parameters s;
     ge_metrics_root := ge_metrics_root s; ge_metrics_epoch := ge_metrics_epoch s; ge_stakes := ge_stakes s;
     ge_registered_metrics := ge_registered_metrics s; ge_metrics_certifications := ge_metrics_certifications s;
     ge_review_rounds := ge_review_rounds s; ge_active_review_candidates := v; ge_proposals := ge_proposals s;
     ge_refunds := ge_refunds s; ge_burned_atoms := ge_burned_atoms s; ge_events := ge_events s |}.

Definition set_ge_proposals (v : gmap string ProposalRecord) (s : GovernanceEngine) : GovernanceEngine :=
  {| ge_canonical_ecosystem_cid := ge_canonical_ecosystem_cid s;
     ge_governance_parameter_set_cid := ge_governance_parameter_set_cid s; ge_parameters := ge_parameters s;
     ge_metrics_root := ge_metrics_root s; ge_metrics_epoch := ge_metrics_epoch s; ge_stakes := ge_stakes s;
     ge_registered_metrics := ge_registered_metrics s; ge_metrics_certifications := ge_metrics_certifications s;
     ge_review_rounds := ge_review_rounds s; ge_active_review_candidates := ge_active_review_candidates s;
     ge_proposals := v; ge_refunds := ge_refunds s; ge_burned_atoms := ge_burned_atoms s;
     ge_events := ge_events s |}.

Definition set_ge_refunds (v : gmap string N) (s : GovernanceEngine) : GovernanceEngine :=
  {| ge_canonical_ecosystem_cid := ge_canonical_ecosystem_cid s;
     ge_governance_parameter_set_cid := ge_governance_parameter_set_cid s; ge_parameters := ge_parameters s;
     ge_metrics_root := ge_metrics_root s; ge_metrics_epoch := ge_metrics_epoch s; ge_stakes := ge_stakes s;
     ge_registered_metrics := ge_registered_metrics s; ge_metrics_certifications := ge_metrics_certifications s;
     ge_review_rounds := ge_review_rounds s; ge_active_review_candidates := ge_active_review_candidates s;
     ge_proposals := ge_proposals s; ge_refunds := v; ge_burned_atoms := ge_burned_atoms s;
     ge_events := ge_events s |}.

Definition set_ge_burned_atoms (v : N) (s : GovernanceEngine) : GovernanceEngine :=
  {| ge_canonical_ecosystem_cid := ge_canonical_ecosystem_cid s;
     ge_governance_parameter_set_cid := ge_governance_parameter_set_cid s; ge_parameters := ge_parameters s;
     ge_metrics_root := ge_metrics_root s; ge_metrics_epoch := ge_metrics_epoch s; ge_stakes := ge_stakes s;
     ge_registered_metrics := ge_registered_metrics s; ge_metrics_certifications := ge_metrics_certifications s;
     ge_review_rounds := ge_review_rounds s; ge_active_review_candidates := ge_active_review_candidates s;
     ge_proposals := ge_proposals s; ge_refunds := ge_refunds s; ge_burned_atoms := v; ge_events := ge_events s |}.

Definition set_ge_events (v : list GovernanceEvent) (s : GovernanceEngine) : GovernanceEngine :=
  {| ge_canonical_ecosystem_cid := ge_canonical_ecosystem_cid s;
     ge_governance_parameter_set_cid := ge_governance_parameter_set_cid s; ge_parameters := ge_parameters s;
     ge_metrics_root := ge_metrics_root s; ge_metrics_epoch := ge_metrics_epoch s; ge_stakes := ge_stakes s;
     ge_registered_metrics := ge_registered_metrics s; ge_metrics_certifications := ge_metrics_certifications s;
     ge_review_rounds := ge_review_rounds s; ge_active_review_candidates := ge_active_review_candidates s;
     ge_proposals := ge_proposals s; ge_refunds := ge_refunds s; ge_burned_atoms := ge_burned_atoms s;
     ge_events := v |}.

Definition set_pc_proposer_address (v : string) (c : ChangeProposalContentV1) : ChangeProposalContentV1 :=
  {| pc_schema_version := pc_schema_version c; pc_scope_evidence_cid := pc_scope_evidence_cid c;
     pc_governance_parameter_set_cid := pc_governance_parameter_set_cid c;
     pc_parent_canonical_ecosystem_cid := pc_parent_canonical_ecosystem_cid c;
     pc_candidate_ecosystem_cid := pc_candidate_ecosystem_cid c;
     pc_affected_repositories := pc_affected_repositories c; pc_changed_file_count := pc_changed_file_count c;
     pc_patch_bytes := pc_patch_bytes c; pc_source_package_bytes := pc_source_package_bytes c;
     pc_description_bytes := pc_description_bytes c;
     pc_migration_operation_count := pc_migration_operation_count c; pc_base_source_cids := pc_base_source_cids c;
     pc_candidate_source_cids := pc_candidate_source_cids c; pc_patch_cid := pc_patch_cid c;
     pc_review_round_id := pc_review_round_id c; pc_proposer_address := v;
     pc_proposal_bond_atoms := pc_proposal_bond_atoms c; pc_risk_class := pc_risk_class c;
     pc_rationale_cid := pc_rationale_cid c; pc_migration_notes_cid := pc_migration_notes_cid c;
     pc_test_plan_cid := pc_test_plan_cid c; pc_rollback_manifest_cid := pc_rollback_manifest_cid c;
     pc_rollback_instructions_cid := pc_rollback_instructions_cid c;
     pc_release_manifest_cid := pc_release_manifest_cid c;
     pc_critical_finding_waiver_cid := pc_critical_finding_waiver_cid c;
     pc_agent_review_root := pc_agent_review_root c; pc_build_attestation_root := pc_build_attestation_root c;
     pc_data_availability_root := pc_data_availability_root c; pc_creation_block := pc_creation_block c;
     pc_creation_epoch := pc_creation_epoch c; pc_staking_epoch := pc_staking_epoch c;
     pc_identity_metrics_epoch := pc_identity_metrics_epoch c;
     pc_candidate_identity_metrics_root := pc_candidate_identity_metrics_root c;
     pc_candidate_identity_metrics_epoch := pc_candidate_identity_metrics_epoch c;
     pc_voting_start := pc_voting_start c; pc_voting_end := pc_voting_end c;
     pc_challenge_end := pc_challenge_end c |}.

Definition set_ai_owner_address (v : string) (i : AgentAttestationInputV1) : AgentAttestationInputV1 :=
  {| ai_attestation_cid := ai_attestation_cid i; ai_attestation_car := ai_attestation_car i;
     ai_parent_ecosystem_cid := ai_parent_ecosystem_cid i;
     ai_candidate_ecosystem_cid := ai_candidate_ecosystem_cid i; ai_patch_cid := ai_patch_cid i;
     ai_owner_address := v; ai_model_identifier := ai_model_identifier i; ai_model_revision := ai_model_revision i;
     ai_runtime_identifier := ai_runtime_identifier i; ai_independence_group := ai_independence_group i;
     ai_verdict := ai_verdict i; ai_unresolved_critical_findings := ai_unresolved_critical_findings i;
     ai_test_result_cid := ai_test_result_cid i; ai_tests_passed_claim := ai_tests_passed_claim i;
     ai_bond_atoms := ai_bond_atoms i |}.

Definition set_bi_builder_address (v : string) (i : BuildAttestationInputV1) : BuildAttestationInputV1 :=
  {| bi_attestation_cid := bi_attestation_cid i; bi_attestation_car := bi_attestation_car i;
     bi_candidate_ecosystem_cid := bi_candidate_ecosystem_cid i; bi_builder_address := v;
     bi_runtime_family := bi_runtime_family i; bi_architecture := bi_architecture i;
     bi_core_artifact_digest := bi_core_artifact_digest i; bi_test_result_cid := bi_test_result_cid i;
     bi_tests_passed_claim := bi_tests_passed_claim i; bi_bond_atoms := bi_bond_atoms i |}.

Definition set_di_operator_address (v : string) (i : DataAvailabilityAttestationInputV1) : DataAvailabilityAttestationInputV1 :=
  {| di_attestation_cid := di_attestation_cid i; di_attestation_car := di_attestation_car i;
     di_candidate_ecosystem_cid := di_candidate_ecosystem_cid i; di_provider_id := di_provider_id i;
     di_operator_address := v; di_pinset_cid := di_pinset_cid i; di_verified_cids := di_verified_cids i;
     di_probe_result_cid := di_probe_result_cid i; di_available_claim := di_available_claim i;
     di_expires_at_block := di_expires_at_block i; di_bond_atoms := di_bond_atoms i |}.

Definition set_oc_challenger_address (v : string) (i : ObjectiveChallengeInputV1) : ObjectiveChallengeInputV1 :=
  {| oc_challenger_address := v; oc_target := oc_target i; oc_attestation_cid := oc_attestation_cid i;
     oc_evidence_cid := oc_evidence_cid i; oc_evidence_bytes := oc_evidence_bytes i |}.
