(* ===== verification/GovCommit.v ===== *)
(** * Attestation commitments ([crates/governance-core/src/lifecycle.rs])

    The checks of addresses, CIDs and labels of the engine, and the Merkle
    commitments of a review round: a root over the canonical fields of all
    attestations of a class, with a proof for each.  A proof that was built is
    accepted, and an accepted proof is for fields that were committed. *)
From S2P Require Import Prelude Order Text Crates Concrete GovText GovTree GovSource GovMetrics GovState.
From Stdlib Require Import Ascii Strings.Byte.

Local Open Scope N_scope.

Definition ATTESTATION_NODE_DOMAIN : bytes := byte_str "IDENA_GOV_ATTESTATION_MERKLE_V1" ++ [x00].
Definition ATTESTATION_ROOT_DOMAIN : bytes := byte_str "IDENA_GOV_ATTESTATION_ROOT_V1" ++ [x00].

Abbreviation governed := (result GovernanceError).

(** ** Checks *)

Section checks.
Context `{Hashing, CidCrate}.

Definition normalize_governance_address (value : string) : governed string :=
  map_err (fun _ => InvalidAddress) (normalize_address value).

Definition validate_profile_cid (value : string) (expected_codec : option N) : governed unit :=
  cid ← ok_or (InvalidContentAddress value) (cid_from_str value);
  if negb (cid_v1 cid)
     || match expected_codec with Some codec => negb (cid_codec cid =? codec) | None => false end
     || (bool_decide (expected_codec = None)
         && negb ((cid_codec cid =? RAW_CODEC) || (cid_codec cid =? DAG_CBOR_CODEC)))
     || negb (cid_multihash cid =? 0x12) || negb (Nat.eqb (length (cid_digest cid)) 32)
     || negb (String.eqb (cid_text cid) value)
  then Err (InvalidContentAddress value)
  else Ok tt.

Definition validate_canonical_cid (value : string) : governed unit := validate_profile_cid value (Some DAG_CBOR_CODEC).
Definition validate_raw_content_cid (value : string) : governed unit := validate_profile_cid value (Some RAW_CODEC).
Definition validate_content_cid (value : string) : governed unit := validate_profile_cid value None.

Definition validate_sha256 (value : string) : governed unit :=
  if negb (Nat.eqb (String.length value) 64)
     || any_bytes (fun byte => negb (is_ascii_digit byte) && negb (in_range "a" "f" byte)) value
  then Err (InvalidContentAddress value)
  else Ok tt.

Definition validate_safe_label (value : string) (max_length : nat) : governed unit :=
  if is_empty value || Nat.ltb max_length (String.length value) || negb (all_bytes is_lower_label_byte value)
  then Err InvalidAttestation
  else Ok tt.

Definition validate_attestation_domain (domain : string) : governed unit :=
  _ ← validate_safe_label domain 40;
  if negb (existsb (String.eqb domain)
             [AGENT_REVIEW_COMMITMENT_DOMAIN; BUILD_ATTESTATION_COMMITMENT_DOMAIN; DATA_AVAILABILITY_COMMITMENT_DOMAIN])
  then Err InvalidAttestation
  else Ok tt.

Definition validate_canonical_attestation_fields (value : string) : governed unit :=
  if is_empty value || Nat.ltb 2048 (String.length value)
     || any_bytes (fun byte => negb ((0x20 <=? N_of_ascii byte) && (N_of_ascii byte <=? 0x7e)) || Ascii.eqb byte "\") value
  then Err InvalidAttestation
  else Ok tt.

Definition commitment_address (value : string) : governed string :=
  address ← normalize_governance_address value;
  Ok (drop_bytes 2 address).

(** ** The fields that are committed *)

Definition agent_attestation_commitment_fields (attestation_cid model_family owner_address : string)
    (unresolved_critical_findings : N) : governed string :=
  _ ← validate_canonical_cid attestation_cid;
  _ ← validate_safe_label model_family 64;
  owner ← commitment_address owner_address;
  Ok (attestation_cid +:+ "|" +:+ model_family +:+ "|" +:+ owner +:+ "|" +:+ pretty unresolved_critical_findings).

Definition build_attestation_commitment_fields
    (attestation_cid artifact_digest runtime_family architecture owner_address : string) : governed string :=
  _ ← validate_canonical_cid attestation_cid;
  _ ← validate_sha256 artifact_digest;
  _ ← validate_safe_label runtime_family 31;
  _ ← validate_safe_label architecture 31;
  let platform := runtime_family +:+ "-" +:+ architecture in
  _ ← validate_safe_label platform 64;
  owner ← commitment_address owner_address;
  Ok (attestation_cid +:+ "|" +:+ artifact_digest +:+ "|" +:+ platform +:+ "|" +:+ owner).

Definition data_availability_commitment_fields
    (attestation_cid candidate_ecosystem_cid pinset_cid provider_id owner_address : string) : governed string :=
  _ ← validate_canonical_cid attestation_cid;
  _ ← validate_canonical_cid candidate_ecosystem_cid;
  _ ← validate_canonical_cid pinset_cid;
  _ ← validate_safe_label provider_id 80;
  owner ← commitment_address owner_address;
  Ok (attestation_cid +:+ "|" +:+ candidate_ecosystem_cid +:+ "|" +:+ pinset_cid +:+ "|" +:+ provider_id +:+ "|" +:+ owner).

(** ** Commitments to CIDs *)

Definition hash_commitment_leaf (cid : string) : governed bytes :=
  c ← ok_or (InvalidContentAddress cid) (cid_from_str cid);
  Ok (sha256 (byte_str "POHW_GOV_ATTESTATION_V1" ++ [x00] ++ cid_to_bytes c)).

Definition hash_commitment_node (left right : bytes) : bytes :=
  sha256 (byte_str "POHW_GOV_ATTESTATION_NODE_V1" ++ [x00] ++ left ++ right).

(** [Vec::dedup] of a sorted list. *)
Fixpoint dedup (l : list string) : list string :=
  match l with
  | x :: (y :: _) as l' => if String.eqb x y then dedup l' else x :: dedup l'
  | _ => l
  end.

Definition commitment_proof (node : bytes -> bytes -> bytes) (hashes : list bytes) (index : nat) : CidCommitmentProofV1 :=
  {| cp_index := N.of_nat index; cp_leaf_count := N.of_nat (length hashes);
     cp_siblings := map hex_encode (tree_siblings node hashes index) |}.

Definition build_cid_commitment (cids : list string) : governed BuiltCidCommitment :=
  if Nat.eqb (length cids) 0 then Err InvalidAttestation
  else
    let canonical := dedup (sort_by str_cmp cids) in
    if negb (Nat.eqb (length canonical) (length cids)) then Err Duplicate
    else
      hashes ← try_map (fun cid => _ ← validate_canonical_cid cid; hash_commitment_leaf cid) canonical;
      Ok {| bc_root := hex_encode (tree_root hash_commitment_node hashes);
            bc_proofs := btree_collect (imap (fun index cid => (cid, commitment_proof hash_commitment_node hashes index)) canonical) |}.

(** ** Commitments to attestations *)

Definition attestation_leaf_in (domain canonical_fields : string) : bytes :=
  byte_str domain ++ [x00] ++ byte_str canonical_fields.
Definition hash_attestation_commitment_leaf (domain canonical_fields : string) : bytes :=
  sha256 (attestation_leaf_in domain canonical_fields).

Definition attestation_node_in (left right : bytes) : bytes := ATTESTATION_NODE_DOMAIN ++ left ++ right.
Definition hash_attestation_commitment_node (left right : bytes) : bytes := sha256 (attestation_node_in left right).

Definition attestation_root_in (domain : string) (leaf_count : N) (tree_root : bytes) : bytes :=
  ATTESTATION_ROOT_DOMAIN ++ byte_str domain ++ [x00] ++ be_bytes 8 leaf_count ++ tree_root.
Definition committed_attestation_root (domain : string) (leaf_count : N) (tree_root : bytes) : bytes :=
  sha256 (attestation_root_in domain leaf_count tree_root).

(** One pass of the loop over the sorted entries: the CIDs seen and the hashes so far. *)
Definition commit_entry (domain : string) (st : gset string * list bytes) (entry : AttestationCommitmentEntryV1)
    : governed (gset string * list bytes) :=
  let '(seen, hashes) := st in
  _ ← validate_canonical_cid (ace_attestation_cid entry);
  _ ← validate_canonical_attestation_fields (ace_canonical_fields entry);
  if bool_decide (ace_attestation_cid entry ∈ seen) then Err Duplicate
  else Ok ({[ace_attestation_cid entry]} ∪ seen,
           hashes ++ [hash_attestation_commitment_leaf domain (ace_canonical_fields entry)]).

Definition by_attestation_cid (left right : AttestationCommitmentEntryV1) : comparison :=
  str_cmp (ace_attestation_cid left) (ace_attestation_cid right).

Definition build_attestation_commitment (domain : string) (entries : list AttestationCommitmentEntryV1)
    : governed BuiltCidCommitment :=
  _ ← validate_attestation_domain domain;
  if Nat.eqb (length entries) 0 then Err InvalidAttestation
  else if MAX_REVIEW_ATTESTATIONS_PER_CLASS <? count entries then Err ReviewRoundFull
  else
    let canonical := sort_by by_attestation_cid entries in
    '(_, hashes) ← try_fold (commit_entry domain) (∅, []) canonical;
    let root := committed_attestation_root domain (count canonical)
                  (tree_root hash_attestation_commitment_node hashes) in
    Ok {| bc_root := hex_encode root;
          bc_proofs := btree_collect (imap (fun index entry =>
            (ace_attestation_cid entry, commitment_proof hash_attestation_commitment_node hashes index)) canonical) |}.

(** [hex::decode] of a sibling into 32 bytes. *)
Definition decode_sibling (sibling : string) : option bytes :=
  match hex_decode sibling with
  | Ok b => if Nat.eqb (length b) 32 then Some b else None
  | Err _ => None
  end.

(** Every early return is [false]. *)
Definition verify_attestation_commitment (domain attestation_cid canonical_fields : string)
    (proof : CidCommitmentProofV1) (root : string) : bool :=
  if negb (is_ok (validate_attestation_domain domain)) || negb (is_ok (validate_canonical_cid attestation_cid))
     || negb (is_ok (validate_canonical_attestation_fields canonical_fields))
     || negb (starts_with attestation_cid canonical_fields)
     || negb (starts_with "|" (drop_bytes (String.length attestation_cid) canonical_fields))
     || (cp_leaf_count proof =? 0) || (cp_leaf_count proof <=? cp_index proof) || negb (is_ok (validate_sha256 root))
  then false
  else if negb (Nat.eqb (length (cp_siblings proof)) (tree_levels (cp_leaf_count proof))) then false
  else
    match mapM decode_sibling (cp_siblings proof) with
    | None => false
    | Some siblings =>
        match climb hash_attestation_commitment_node (hash_attestation_commitment_leaf domain canonical_fields)
                (cp_index proof) (cp_leaf_count proof) siblings with
        | None => false
        | Some current => String.eqb (hex_encode (committed_attestation_root domain (cp_leaf_count proof) current)) root
        end
    end.
End checks.

(** ** Built proofs are accepted *)

Section commitments.
Context `{Hashing, !HexLaws, !HashLaws, CidCrate}.

Lemma commit_entries_Ok domain entries : forall seen hashes seen' hashes',
  try_fold (commit_entry domain) (seen, hashes) entries = Ok (seen', hashes') ->
  hashes' = hashes ++ map (fun e => hash_attestation_commitment_leaf domain (ace_canonical_fields e)) entries /\
  NoDup (map ace_attestation_cid entries) /\ Forall (fun e => ace_attestation_cid e ∉ seen) entries /\
  Forall (fun e => validate_canonical_cid (ace_attestation_cid e) = Ok tt /\
                   validate_canonical_attestation_fields (ace_canonical_fields e) = Ok tt) entries.
Proof.
  induction entries as [|e entries IH]; intros seen hashes seen' hashes' Hf; cbn [try_fold] in Hf.
  - injection Hf as <- <-. cbn. rewrite app_nil_r. split_and!; [done|constructor|constructor|constructor].
  - apply bind_Ok in Hf as ([seen1 hashes1] & Hc & Hf). unfold commit_entry in Hc.
    apply bind_Ok in Hc as ([] & Hcid & ([] & Hfields & Hc)%bind_Ok). destruct (bool_decide _) eqn:Hin; [done|].
    apply bool_decide_eq_false_1 in Hin. injection Hc as <- <-. apply IH in Hf as (-> & Hnd & Hns & Hv). cbn.
    rewrite <-app_assoc. cbn. split_and!; [done| | |by constructor].
    + constructor; [|done]. intros (e' & Heq & He')%list_elem_of_fmap. rewrite Forall_forall in Hns.
      apply (Hns e' He'). rewrite <-Heq. set_solver.
    + constructor; [done|]. eapply Forall_impl; [exact Hns|]. cbn. set_solver.
Qed.

Lemma build_commitment_Ok domain entries c :
  build_attestation_commitment domain entries = Ok c ->
  let canonical := sort_by by_attestation_cid entries in
  let hashes := map (fun e => hash_attestation_commitment_leaf domain (ace_canonical_fields e)) canonical in
  validate_attestation_domain domain = Ok tt /\ canonical <> [] /\ count canonical <= MAX_REVIEW_ATTESTATIONS_PER_CLASS /\
  NoDup (map ace_attestation_cid canonical) /\
  Forall (fun e => validate_canonical_cid (ace_attestation_cid e) = Ok tt /\
                   validate_canonical_attestation_fields (ace_canonical_fields e) = Ok tt) canonical /\
  bc_root c = hex_encode (committed_attestation_root domain (count canonical) (tree_root hash_attestation_commitment_node hashes)) /\
  bc_proofs c = btree_collect (imap (fun index entry =>
    (ace_attestation_cid entry, commitment_proof hash_attestation_commitment_node hashes index)) canonical).
Proof.
  unfold build_attestation_commitment. intros ([] & Hd & Hb)%bind_Ok. cbv zeta in *.
  destruct (Nat.eqb _ _) eqn:Hne in Hb; [done|]. destruct (N.ltb _ _) eqn:Hmax in Hb; [done|]. bool_inv.
  apply bind_Ok in Hb as ([seen hashes] & (-> & Hnd & _ & Hv)%commit_entries_Ok & [= <-]). cbn [app].
  unfold count in *. rewrite sort_by_length in *. split_and!; try done.
  intros Heq%(f_equal length). by rewrite sort_by_length in Heq.
Qed.

Lemma mapM_decode_siblings hs : Forall (fun h => length h = 32%nat) hs -> mapM decode_sibling (map hex_encode hs) = Some hs.
Proof.
  intros Hall. apply mapM_Some. induction Hall as [|h hs Hh Hall IH]; cbn; constructor; [|done].
  unfold decode_sibling. by rewrite hex_decode_encode, Hh.
Qed.

Lemma any_bytes_ext p q s : (forall c, p c = q c) -> any_bytes p s = any_bytes q s.
Proof.
  intros Hpq. unfold any_bytes. f_equal. induction s as [|c s IH]; [done|]. unfold all_bytes in *.
  cbn [String.list_ascii_of_string forallb]. by rewrite Hpq, IH.
Qed.

Lemma validate_sha256_encode b : length b = 32%nat -> validate_sha256 (hex_encode b) = Ok tt.
Proof.
  intros Hlen. pose proof (proj2 (decode_hash_Some (hex_encode b) b) (conj eq_refl Hlen)) as Hd.
  unfold decode_hash in Hd. destruct (_ || _) eqn:Hif in Hd; [done|]. apply orb_false_iff in Hif as [Hl Ha].
  unfold validate_sha256. rewrite Hl. cbn [orb]. rewrite (any_bytes_ext _ (fun c => negb (is_lower_hex_byte c))), Ha; [done|].
  intros c. unfold is_lower_hex_byte. by rewrite negb_orb.
Qed.

(** Fields as the three kinds of attestation write them: the CID, then a bar. *)
Definition names_cid (e : AttestationCommitmentEntryV1) : bool :=
  starts_with (ace_attestation_cid e) (ace_canonical_fields e) &&
  starts_with "|" (drop_bytes (String.length (ace_attestation_cid e)) (ace_canonical_fields e)).

(** (roundtrip). The proof that [build_attestation_commitment] files for an attestation is
    accepted by [verify_attestation_commitment] against the root. *)
Theorem commitment_proofs_accepted domain entries c e :
  build_attestation_commitment domain entries = Ok c -> e ∈ entries -> names_cid e = true ->
  exists proof, bc_proofs c !! ace_attestation_cid e = Some proof /\
    verify_attestation_commitment domain (ace_attestation_cid e) (ace_canonical_fields e) proof (bc_root c) = true.
Proof.
  intros (Hdom & Hne & Hmax & Hnd & Hv & Hroot & Hproofs)%build_commitment_Ok Hin [Hs1 Hs2]%andb_true_iff.
  set (canonical := sort_by by_attestation_cid entries) in *.
  set (hashes := map (fun e => hash_attestation_commitment_leaf domain (ace_canonical_fields e)) canonical) in *.
  assert (e ∈ canonical) as Hin' by by apply sort_by_elem.
  destruct (list_elem_of_lookup_1 _ _ Hin') as [i Hi].
  exists (commitment_proof hash_attestation_commitment_node hashes i). split.
  { rewrite Hproofs. apply foldl_insert_lookup; [by rewrite map_fst_imap|].
    apply list_elem_of_lookup. exists i. by rewrite list_lookup_imap, Hi. }
  assert (hashes !! i = Some (hash_attestation_commitment_leaf domain (ace_canonical_fields e))) as Hh
    by (unfold hashes; by rewrite list_lookup_fmap, Hi).
  assert (length hashes = length canonical) as Hlen by apply length_map.
  pose proof (lookup_lt_Some _ _ _ Hh) as Hlt. rewrite Forall_forall in Hv. destruct (Hv e Hin') as [Hcid Hf].
  destruct (climb_siblings hash_attestation_commitment_node hashes i _ Hh) as [Hclimb Hlevels].
  unfold verify_attestation_commitment, commitment_proof. cbn [cp_index cp_leaf_count cp_siblings].
  rewrite Hdom, Hcid, Hf, Hs1, Hs2, Hroot, validate_sha256_encode by apply sha256_length. cbn [is_ok negb orb].
  destruct (N.eqb_spec (N.of_nat (length hashes)) 0); [lia|]. destruct (N.leb_spec (N.of_nat (length hashes)) (N.of_nat i)); [lia|].
  cbn [orb]. rewrite length_map, Hlevels, Nat.eqb_refl. cbn [negb].
  rewrite mapM_decode_siblings.
  2: { eapply (tree_siblings_digests attestation_node_in); [|done]. apply Forall_map, Forall_forall. intros x _. apply sha256_length. }
  fold hash_attestation_commitment_node. rewrite Hclimb. unfold count. rewrite Hlen. apply String.eqb_refl.
Qed.

(** ** Accepted proofs are for committed fields *)

(** Everything that building a commitment and checking a proof pass to SHA-256. *)
Definition commitment_inputs (domain : string) (entries : list AttestationCommitmentEntryV1) : list bytes :=
  let canonical := sort_by by_attestation_cid entries in
  let leaves := map (fun e => attestation_leaf_in domain (ace_canonical_fields e)) canonical in
  let hashes := map sha256 leaves in
  attestation_root_in domain (count canonical) (tree_root hash_attestation_commitment_node hashes) ::
  leaves ++ tree_inputs hash_attestation_commitment_node attestation_node_in hashes.

Definition checked_inputs (domain canonical_fields : string) (proof : CidCommitmentProofV1) : list bytes :=
  let current := hash_attestation_commitment_leaf domain canonical_fields in
  let siblings := default [] (mapM decode_sibling (cp_siblings proof)) in
  attestation_leaf_in domain canonical_fields ::
  attestation_root_in domain (cp_leaf_count proof)
    (default [] (climb hash_attestation_commitment_node current (cp_index proof) (cp_leaf_count proof) siblings)) ::
  climb_inputs hash_attestation_commitment_node attestation_node_in current (cp_index proof) siblings.

Lemma domain_cases domain : validate_attestation_domain domain = Ok tt ->
  domain = AGENT_REVIEW_COMMITMENT_DOMAIN \/ domain = BUILD_ATTESTATION_COMMITMENT_DOMAIN \/
  domain = DATA_AVAILABILITY_COMMITMENT_DOMAIN.
Proof.
  unfold validate_attestation_domain. intros ([] & _ & Hd)%bind_Ok. destruct (negb _) eqn:Hn in Hd; [done|].
  apply negb_false_iff in Hn. cbn [existsb] in Hn. rewrite !orb_true_iff, !String.eqb_eq in Hn. naive_solver.
Qed.

(** The zero byte after it makes the domain readable off the root string. *)
Lemma domain_prefix d1 d2 r1 r2 : validate_attestation_domain d1 = Ok tt -> validate_attestation_domain d2 = Ok tt ->
  byte_str d1 ++ x00 :: r1 = byte_str d2 ++ x00 :: r2 -> d1 = d2 /\ r1 = r2.
Proof.
  intros [->|[->| ->]]%domain_cases [->|[->| ->]]%domain_cases Heq; cbv [byte_str] in Heq; cbn in Heq; try discriminate Heq;
    split; try done; by injection Heq.
Qed.

Lemma attestation_node_in_inj a b c d : length a = 32%nat -> length c = 32%nat ->
  attestation_node_in a b = attestation_node_in c d -> a = c /\ b = d.
Proof. intros Ha Hc Heq. apply app_inv_head in Heq. apply app_inj_1 in Heq; [done|congruence]. Qed.

Lemma verify_commitment_true domain cid fields proof root :
  verify_attestation_commitment domain cid fields proof root = true ->
  validate_attestation_domain domain = Ok tt /\ cp_index proof < cp_leaf_count proof /\
  exists siblings current, mapM decode_sibling (cp_siblings proof) = Some siblings /\
    Forall (fun h => length h = 32%nat) siblings /\ length siblings = tree_levels (cp_leaf_count proof) /\
    climb hash_attestation_commitment_node (hash_attestation_commitment_leaf domain fields) (cp_index proof)
      (cp_leaf_count proof) siblings = Some current /\
    hex_encode (committed_attestation_root domain (cp_leaf_count proof) current) = root.
Proof.
  unfold verify_attestation_commitment. destruct (_ || _) eqn:Hif; [done|]. bool_inv.
  destruct (negb _) eqn:Hlen; [done|]. bool_inv. destruct (mapM _ _) as [siblings|] eqn:Hs; [|done].
  destruct (climb _ _ _ _ _) as [current|] eqn:Hc; [|done]. intros Hr%String.eqb_eq.
  repeat match goal with Hk : is_ok _ = true |- _ => apply is_ok_Ok in Hk as [[] ?] end.
  split_and!; [done|done|]. pose proof Hs as Hs'%mapM_Some. exists siblings, current. split_and!; try done.
  - clear -Hs'. induction Hs' as [|s b ss bs Hb Hs IH]; [done|]. constructor; [|done]. unfold decode_sibling in Hb.
    destruct (hex_decode s); [|done]. destruct (Nat.eqb_spec (length t) 32); [|done]. by injection Hb as <-.
  - by rewrite <-(Forall2_length _ _ _ Hs').
Qed.

(** C30 (safety). A proof that is accepted against the root of a commitment is for the commitment's
    own domain and for fields that were committed, unless two strings hashed on the way
    collide. *)
Theorem commitment_proof_sound domain entries c domain' cid fields proof :
  build_attestation_commitment domain entries = Ok c -> fits 64 (cp_leaf_count proof) ->
  verify_attestation_commitment domain' cid fields proof (bc_root c) = true ->
  domain' = domain /\ (exists e, e ∈ entries /\ ace_canonical_fields e = fields) \/
  collision_among (commitment_inputs domain entries ++ checked_inputs domain' fields proof).
Proof.
  intros (Hdom & Hne & Hmax & _ & _ & Hroot & _)%build_commitment_Ok Hcount Hver.
  destruct (collision_free_or (commitment_inputs domain entries ++ checked_inputs domain' fields proof)) as [Hfree|]; [left|by right].
  rewrite Hroot in Hver. apply verify_commitment_true in Hver as (Hdom' & Hidx & sibs & cur & Hs & Hdig & Hlen & Hclimb & Heq).
  unfold commitment_inputs, checked_inputs in Hfree. cbv zeta in Hfree. rewrite Hs in Hfree. cbn [from_option id] in Hfree.
  rewrite Hclimb in Hfree. cbn [from_option id] in Hfree. rewrite map_map in Hfree.
  set (canonical := sort_by by_attestation_cid entries) in *.
  fold (hash_attestation_commitment_leaf domain) in Hfree.
  change (fun x => sha256 (attestation_leaf_in domain (ace_canonical_fields x)))
    with (fun x => hash_attestation_commitment_leaf domain (ace_canonical_fields x)) in Hfree.
  set (hashes := map (fun e => hash_attestation_commitment_leaf domain (ace_canonical_fields e)) canonical) in *.
  assert (length hashes = length canonical) as Hll by apply length_map. unfold count in *.
  apply hex_encode_inj in Heq. apply Hfree in Heq; [|set_solver..].
  unfold attestation_root_in in Heq. apply app_inv_head in Heq. apply domain_prefix in Heq as [-> Heq]; [|done..].
  split; [done|]. apply app_inj_1 in Heq as [Hc ->]; [|by rewrite !be_bytes_length].
  apply be_bytes_inj_64 in Hc; [|done|eapply N.le_lt_trans; [exact Hmax|done]].
  assert (exists i, cp_index proof = N.of_nat i) as [i Hi] by (exists (N.to_nat (cp_index proof)); lia).
  rewrite Hi, Hc, <-Hll in *. assert (i < length hashes)%nat as Hil by lia.
  assert (hashes !! i = Some (hash_attestation_commitment_leaf domain fields)) as Hlook.
  { eapply (climb_sound attestation_node_in attestation_node_in_inj (fun x => x ∈ _) Hfree); try done.
    - apply Forall_map, Forall_forall. intros x _. apply sha256_length.
    - apply sha256_length.
    - apply Forall_forall. intros x Hx. set_solver.
    - apply Forall_forall. intros x Hx. set_solver. }
  unfold hashes in Hlook. rewrite list_lookup_fmap in Hlook.
  destruct (canonical !! i) as [e|] eqn:He; [|done]. cbn in Hlook. injection Hlook as Hleaf.
  assert (e ∈ canonical) as Hin by by eapply list_elem_of_lookup_2.
  exists e. split; [by apply sort_by_elem in Hin|].
  apply Hfree in Hleaf; [|apply elem_of_app; left; apply list_elem_of_further, elem_of_app; left; apply list_elem_of_fmap; by exists e|set_solver].
  unfold attestation_leaf_in in Hleaf. apply app_inv_head in Hleaf. injection Hleaf as Hleaf.
  unfold byte_str in Hleaf. apply (f_equal Strings.String.string_of_list_byte) in Hleaf.
  by rewrite !Strings.String.string_of_list_byte_of_string in Hleaf.
Qed.
End commitments.

(** ** A concrete commitment *)

#[local] Existing Instance hashing_c.
#[local] Existing Instance cid_crate_c.
#[local] Existing Instance cid_laws_c.
#[local] Existing Instance hex_laws_c.
#[local] Existing Instance hash_laws_c.

(** Three agent reviews, committed by the CIDs of their packages. *)
Definition sample_entry (tag : byte) (model : string) (critical : N) : AttestationCommitmentEntryV1 :=
  let cid := cid_text (cid_for DAG_CBOR_CODEC [tag]) in
  {| ace_attestation_cid := cid;
     ace_canonical_fields :=
       match agent_attestation_commitment_fields cid model "0x1111111111111111111111111111111111111111" critical with
       | Ok fields => fields
       | Err _ => ""
       end |}.

Definition sample_entries : list AttestationCommitmentEntryV1 :=
  [sample_entry x61 "model-a" 0; sample_entry x62 "model-b" 1; sample_entry x63 "model-c" 0].

Abbreviation sample_commitment := (build_attestation_commitment AGENT_REVIEW_COMMITMENT_DOMAIN sample_entries).

Lemma commitment_proofs_accepted_witness :
  exists c proof, sample_commitment = Ok c /\ bc_proofs c !! ace_attestation_cid (sample_entry x62 "model-b" 1) = Some proof.
Proof.
  assert (is_ok sample_commitment = true) as Hok by (vm_compute; reflexivity).
  destruct sample_commitment as [c|] eqn:Hc; [|done]. exists c.
  destruct (commitment_proofs_accepted _ _ c (sample_entry x62 "model-b" 1) Hc) as (proof & Hp & _).
  - right. left.
  - vm_compute; reflexivity.
  - exists proof. split; [reflexivity|exact Hp].
Defined.

Lemma commitment_proof_sound_witness :
  exists c proof, sample_commitment = Ok c /\
    let e := sample_entry x63 "model-c" 0 in
    (AGENT_REVIEW_COMMITMENT_DOMAIN = AGENT_REVIEW_COMMITMENT_DOMAIN /\
       (exists e', e' ∈ sample_entries /\ ace_canonical_fields e' = ace_canonical_fields e) \/
     collision_among (commitment_inputs AGENT_REVIEW_COMMITMENT_DOMAIN sample_entries ++
                      checked_inputs AGENT_REVIEW_COMMITMENT_DOMAIN (ace_canonical_fields e) proof)).
Proof.
  assert (match sample_commitment with
          | Ok c => match bc_proofs c !! ace_attestation_cid (sample_entry x63 "model-c" 0) with
                    | Some proof => (cp_leaf_count proof <? 2 ^ 64) &&
                        verify_attestation_commitment AGENT_REVIEW_COMMITMENT_DOMAIN
                          (ace_attestation_cid (sample_entry x63 "model-c" 0))
                          (ace_canonical_fields (sample_entry x63 "model-c" 0)) proof (bc_root c)
                    | None => false
                    end
          | Err _ => false
          end = true) as Hok by (vm_compute; reflexivity).
  destruct sample_commitment as [c|] eqn:Hc; [|done].
  destruct (bc_proofs c !! _) as [proof|] eqn:Hp; [|done]. apply andb_true_iff in Hok as [Hn%N.ltb_lt Hv].
  exists c, proof. split; [reflexivity|]. exact (commitment_proof_sound _ _ c _ _ _ proof Hc Hn Hv).
Defined.
