(* ===== verification/GovRules.v ===== *)
(** * The governance engine: rules ([crates/governance-core/src/lifecycle.rs])

    The functions of the engine that do not change it: amounts, the checks of
    parameters and of proposal content, identifiers, the evidence a vote is decided
    on, and the commitments and certifications of review rounds. *)
From S2P Require Import Prelude Order Text Crates GovText GovTree GovMath GovSource GovMetrics GovAttest GovManifest GovScope GovState GovCommit.
From Stdlib Require Import Ascii Strings.Byte.

Local Open Scope N_scope.

(** ** Amounts *)

Definition not_canonical_decimal : GovernanceError := InvalidParameters "atomic amount is not canonical decimal".

Definition parse_atoms (value : string) : governed N :=
  if is_empty value || (Nat.ltb 1 (String.length value) && starts_with "0" value)
     || any_bytes (fun byte => negb (is_ascii_digit byte)) value
  then Err not_canonical_decimal
  else ok_or GovernanceOverflow (parse_uint 128 value).

Definition checked_sum (values : list N) : governed N :=
  try_fold (fun sum value => ok_or GovernanceOverflow (checked_add 128 sum value)) 0 values.

(** [(value % 10_000) * bps] is below [2^30]. *)
Definition apply_bps (value bps : N) : governed N :=
  whole ← ok_or GovernanceOverflow (checked_mul 128 (value / 10000) bps);
  let remainder := value mod 10000 * bps / 10000 in
  ok_or GovernanceOverflow (checked_add 128 whole remainder).

(** [bond - amount] on [u128], which panics below zero. *)
Definition minus (a b : N) : governed N := ok_or GovernancePanic (checked_sub a b).

Definition is_terminal (state : ProposalState) : bool :=
  match state with Rejected | Executed | Stale | Expired => true | _ => false end.

Definition valid_repository_name (value : string) : bool :=
  negb (is_empty value) && Nat.leb (String.length value) 80
  && all_bytes (fun byte => is_ascii_alphanumeric byte || Ascii.eqb byte "." || Ascii.eqb byte "_" || Ascii.eqb byte "-") value.

(** ** Stake positions *)

(** [drain] empties the list even when the loop stops with an error: what is left of
    [active_atoms], [pending] and [unbonding] then is written out. *)
Fixpoint activate_lots (epoch active : N) (still lots : list StakeLot) : result N (N * list StakeLot) :=
  match lots with
  | [] => Ok (active, still)
  | lot :: rest =>
      if sl_activation_epoch lot <=? epoch then
        match checked_add 128 active (sl_atoms lot) with
        | Some active' => activate_lots epoch active' still rest
        | None => Err active
        end
      else activate_lots epoch active (still ++ [lot]) rest
  end.

Fixpoint start_withdrawals (epoch active : N) (unbonding still scheduled : list ScheduledWithdrawal)
    : result (N * list ScheduledWithdrawal) (N * list ScheduledWithdrawal * list ScheduledWithdrawal) :=
  match scheduled with
  | [] => Ok (active, unbonding, still)
  | withdrawal :: rest =>
      if sw_start_epoch withdrawal <=? epoch then
        match checked_sub active (sw_atoms withdrawal) with
        | Some active' => start_withdrawals epoch active' (unbonding ++ [withdrawal]) still rest
        | None => Err (active, unbonding)
        end
      else start_withdrawals epoch active unbonding (still ++ [withdrawal]) rest
  end.

Definition sync_position (position : StakePosition) (epoch : N) : governed unit * StakePosition :=
  match activate_lots epoch (pos_active_atoms position) [] (pos_pending position) with
  | Err active => (Err GovernanceOverflow,
      {| pos_active_atoms := active; pos_pending := []; pos_scheduled := pos_scheduled position;
         pos_unbonding := pos_unbonding position |})
  | Ok (active, pending) =>
      match start_withdrawals epoch active (pos_unbonding position) [] (pos_scheduled position) with
      | Err (active', unbonding) => (Err GovernanceOverflow,
          {| pos_active_atoms := active'; pos_pending := pending; pos_scheduled := []; pos_unbonding := unbonding |})
      | Ok (active', unbonding, scheduled) => (Ok tt,
          {| pos_active_atoms := active'; pos_pending := pending; pos_scheduled := scheduled; pos_unbonding := unbonding |})
      end
  end.

(** ** Parameters *)

Definition valid_gate_parameters (gate : GateParameterSet) : bool :=
  (0 <? turnout_quorum_bps gate) && (turnout_quorum_bps gate <=? 10000)
  && (0 <? yes_threshold_bps gate) && (yes_threshold_bps gate <=? 10000)
  && (0 <? minimum_yes_identities gate)
  && (minimum_verified_or_human_yes gate <=? minimum_yes_identities gate)
  && (0 <? minimum_agent_attestations gate)
  && (minimum_agent_runtime_groups gate =? minimum_agent_owners gate)
  && (minimum_agent_runtime_groups gate <=? minimum_agent_attestations gate)
  && (0 <? minimum_agent_families gate)
  && (minimum_agent_families gate <=? minimum_agent_attestations gate)
  && (0 <? minimum_agent_owners gate)
  && (2 <=? critical_finding_owner_threshold gate)
  && (critical_finding_owner_threshold gate <=? minimum_agent_owners gate)
  && (0 <? minimum_builders gate)
  && (0 <? minimum_builder_platforms gate)
  && (minimum_builder_platforms gate <=? minimum_builders gate)
  && (2 <=? minimum_data_availability_providers gate).

Definition validate_governance_parameters (parameters : GovernanceParameterSetV1) : governed unit :=
  let status := status_bps_set parameters in
  let bonds := proposal_bond_policy parameters in
  let slash := objective_slash_policy parameters in
  if negb (gp_schema_version parameters =? 1)
     || negb (String.eqb (idna_atoms_per_unit parameters) "1000000000000000000")
     || negb (String.eqb (stake_quantum_atoms parameters) "1000000000000")
     || negb (bps_human status =? 10000) || negb (bps_verified status =? 8500) || negb (bps_newbie status =? 7000)
     || negb ((bps_verified status <? bps_human status) && (bps_newbie status <? bps_verified status))
     || negb (flip_prior_reported parameters =? 1) || negb (flip_prior_total parameters =? 20)
     || negb (flip_trust_floor_bps parameters =? 4000) || negb (flip_trust_ceiling_bps parameters =? 10000)
     || negb (flip_penalty_scale parameters =? 15000)
     || (activation_delay_epochs parameters =? 0)
     || (unbonding_delay_epochs parameters <=? activation_delay_epochs parameters)
     || (review_period_blocks parameters =? 0) || (voting_period_blocks parameters =? 0)
     || (challenge_period_blocks parameters =? 0) || (timelock_blocks parameters =? 0)
     || (execution_window_blocks parameters =? 0)
     || (minimum_identity_metrics_attestations parameters =? 0)
     || negb (valid_gate_parameters (gp_normal parameters)) || negb (valid_gate_parameters (gp_critical parameters))
     || (10000 <? rejected_return_bps bonds) || (10000 <? expired_slash_bps bonds)
     || (10000 <? fraudulent_proposal_slash_bps slash) || (10000 <? fraudulent_reviewer_slash_bps slash)
     || (10000 <? fraudulent_builder_slash_bps slash) || (10000 <? unavailable_data_slash_bps slash)
     || (10000 <? fraudulent_actor_stake_slash_bps slash)
  then Err (InvalidParameters "fixed formula or lifecycle invariant violated")
  else
    try_for_each (fun value => _ ← parse_atoms value; Ok tt)
      [minimum_active_stake_atoms parameters; minimum_reviewer_bond_atoms parameters;
       minimum_builder_bond_atoms parameters; minimum_data_availability_bond_atoms parameters;
       minimum_bond_atoms bonds; stale_processing_fee_atoms bonds].

(** ** States a handler requires *)

Definition require_state (proposal : ProposalRecord) (expected : ProposalState) : governed unit :=
  if bool_decide (pr_state proposal = expected) then Ok tt else Err (InvalidState (pr_state proposal)).

Definition require_review_round_state (round : ReviewRoundRecord) (expected : ReviewRoundState) : governed unit :=
  if bool_decide (rr_state round = expected) then Ok tt else Err (InvalidReviewRoundState (rr_state round)).

Definition require_review_round_submission (round : ReviewRoundRecord) (clock : GovernanceClock) : governed unit :=
  _ ← require_review_round_state round RoundOpen;
  if rr_end_block round <=? block clock then Err InvalidDeadline else Ok tt.

(** ** Vote weights *)

Definition add_vote_weight (proposal : ProposalRecord) (choice : VoteChoice) (weight : N) : governed ProposalRecord :=
  match choice with
  | Yes => w ← ok_or GovernanceOverflow (checked_add 128 (pr_yes_weight proposal) weight); Ok (set_pr_yes_weight w proposal)
  | No => w ← ok_or GovernanceOverflow (checked_add 128 (pr_no_weight proposal) weight); Ok (set_pr_no_weight w proposal)
  | Abstain => w ← ok_or GovernanceOverflow (checked_add 128 (pr_abstain_weight proposal) weight); Ok (set_pr_abstain_weight w proposal)
  end.

Definition subtract_vote_weight (proposal : ProposalRecord) (choice : VoteChoice) (weight : N) : governed ProposalRecord :=
  match choice with
  | Yes => w ← ok_or GovernanceOverflow (checked_sub (pr_yes_weight proposal) weight); Ok (set_pr_yes_weight w proposal)
  | No => w ← ok_or GovernanceOverflow (checked_sub (pr_no_weight proposal) weight); Ok (set_pr_no_weight w proposal)
  | Abstain => w ← ok_or GovernanceOverflow (checked_sub (pr_abstain_weight proposal) weight); Ok (set_pr_abstain_weight w proposal)
  end.

(** ** Evidence *)

(** [iter.collect::<BTreeSet<_>>().len() as u32] *)
Definition distinct (values : list string) : N := as_uint 32 (N.of_nat (size (list_to_set values : gset string))).

Definition unresolved_critical_owners (agents : gmap string BondedAgentAttestation) : N :=
  distinct (map (fun item => ai_owner_address (bonded_input item))
    (filter (fun item => negb (bonded_invalid item) && (0 <? ai_unresolved_critical_findings (bonded_input item)) = true)
       (btree_values agents))).

Definition review_round_unresolved_critical_owner_count (round : ReviewRoundRecord) : N :=
  unresolved_critical_owners (rr_agents round).

(** Every required CID is among the verified ones. *)
Definition covers (required : gset string) (verified : list string) : bool :=
  forallb (fun cid => existsb (String.eqb cid) verified) (btree_set_list required).

(** The builders and platforms that attested one artifact digest. *)
Definition join_group (groups : gmap string (gset string * gset string)) (item : BondedBuildAttestation)
    : gmap string (gset string * gset string) :=
  let input := bonded_input item in
  let group := default (∅, ∅) (groups !! bi_core_artifact_digest input) in
  <[bi_core_artifact_digest input :=
      ({[bi_builder_address input]} ∪ group.1,
       {[bi_runtime_family input +:+ "-" +:+ bi_architecture input]} ∪ group.2)]> groups.

Definition compare_groups (left right : string * (gset string * gset string)) : comparison :=
  then_with (Nat.compare (size left.2.1) (size right.2.1))
    (then_with (Nat.compare (size left.2.2) (size right.2.2)) (str_cmp right.1 left.1)).

(** [Iterator::max_by]: the last of the greatest elements. *)
Definition max_by {A} (cmp : A -> A -> comparison) (l : list A) : option A :=
  match l with
  | [] => None
  | x :: rest => Some (foldl (fun best y => match cmp best y with Gt => best | _ => y end) x rest)
  end.

Definition selected_build_group (builders : gmap string BondedBuildAttestation) : option (string * (gset string * gset string)) :=
  max_by compare_groups (btree_entries (foldl join_group ∅
    (filter (fun item => negb (bonded_invalid item) && bi_tests_passed_claim (bonded_input item) = true) (btree_values builders)))).

Definition available_until (required : gset string) (block : N) (item : BondedDataAvailabilityAttestation) : bool :=
  negb (bonded_invalid item) && di_available_claim (bonded_input item)
  && (block <=? di_expires_at_block (bonded_input item)) && covers required (di_verified_cids (bonded_input item)).

Definition live_data_availability_provider_count (proposal : ProposalRecord) (block : N) : N :=
  distinct (map (fun item => di_operator_address (bonded_input item))
    (filter (fun item => available_until (pr_required_availability_cids proposal) block item = true)
       (btree_values (pr_availability proposal)))).

Definition complete_review_availability_provider_count (round : ReviewRoundRecord) : N :=
  distinct (map (fun item => di_operator_address (bonded_input item))
    (filter (fun item => negb (bonded_invalid item) && di_available_claim (bonded_input item)
                         && covers (rr_required_availability_cids round) (di_verified_cids (bonded_input item)) = true)
       (btree_values (rr_availability round)))).

Definition acceptance_evidence (proposal : ProposalRecord) : AcceptanceEvidence :=
  let yes_voters := filter (fun receipt => vr_choice receipt = Yes) (btree_values (pr_votes proposal)) in
  let verified_or_human := filter (fun receipt =>
    match pr_voter_snapshot proposal !! vr_voter_address receipt with
    | Some snapshot => is_verified_or_human (vt_state snapshot)
    | None => false
    end = true) yes_voters in
  let approved_agents := filter (fun item =>
    negb (bonded_invalid item) && bool_decide (ai_verdict (bonded_input item) = VerdictApprove)
    && ai_tests_passed_claim (bonded_input item) = true) (btree_values (pr_agents proposal)) in
  let agent_families := distinct (map (fun item => ai_independence_group (bonded_input item)) approved_agents) in
  let agent_owners := distinct (map (fun item => ai_owner_address (bonded_input item)) approved_agents) in
  let unresolved := unresolved_critical_owners (pr_agents proposal) in
  let group := selected_build_group (pr_builders proposal) in
  {| yes_weight := pr_yes_weight proposal;
     no_weight := pr_no_weight proposal;
     abstain_weight := pr_abstain_weight proposal;
     total_registered_weight := pr_total_registered_weight proposal;
     distinct_yes_identities := as_uint 32 (count yes_voters);
     verified_or_human_yes_identities := as_uint 32 (count verified_or_human);
     valid_agent_attestations := as_uint 32 (count approved_agents);
     distinct_agent_runtime_groups := agent_owners;
     distinct_agent_families := agent_families;
     distinct_agent_owner_identities := agent_owners;
     unresolved_critical_findings :=
       if (0 <? unresolved) && is_critical (pc_risk_class (pr_content proposal))
          && bool_decide (is_Some (pr_critical_finding_waiver proposal))
       then 0 else unresolved;
     valid_builders := match group with Some (_, (owners, _)) => as_uint 32 (N.of_nat (size owners)) | None => 0 end;
     distinct_builder_platforms := match group with Some (_, (_, platforms)) => as_uint 32 (N.of_nat (size platforms)) | None => 0 end;
     matching_core_artifact_digests := bool_decide (is_Some group);
     independent_data_availability_providers :=
       live_data_availability_provider_count proposal (pr_execution_expires proposal) |}.

(** ** Identifiers *)

(** [value.trim_start_matches("0x")] *)
Fixpoint trim_start_0x (value : string) : string :=
  match value with
  | String "0" (String "x" rest) => trim_start_0x rest
  | _ => value
  end.

(** Everything after the domain of the two review hashes is separated by bars. *)
Definition domain_hash `{Hashing} (domain : string) (text : string) : string :=
  hex_encode (sha256 (byte_str domain ++ [x00] ++ byte_str text)).

Section rules.
Context `{Hashing, CidCrate}.

Definition proposal_id_from_review_round (review_round_id : string) : governed string :=
  _ ← validate_sha256 review_round_id;
  Ok (domain_hash "IDENA_GOV_PROPOSAL_ID_V2" review_round_id).

Definition proposal_id (content : ChangeProposalContentV1) : governed string :=
  proposal_id_from_review_round (pc_review_round_id content).

Definition proposal_id_from_cid (proposal_cid : string) : governed string :=
  _ ← validate_canonical_cid proposal_cid;
  Ok (domain_hash "IDENA_GOV_PROPOSAL_ID_V1" proposal_cid).

Definition review_round_id (parent_cid candidate_cid patch_cid scope_evidence_cid opener_address : string)
    (opened_block : N) : string :=
  domain_hash "IDENA_GOV_REVIEW_ROUND_V2"
    (parent_cid +:+ "|" +:+ candidate_cid +:+ "|" +:+ patch_cid +:+ "|" +:+ scope_evidence_cid +:+ "|" +:+
     trim_start_0x opener_address +:+ "|" +:+ pretty opened_block).

Definition review_candidate_key (parent_cid candidate_cid patch_cid : string) : string :=
  domain_hash "IDENA_GOV_REVIEW_CANDIDATE_V1" (parent_cid +:+ "|" +:+ candidate_cid +:+ "|" +:+ patch_cid).

(** [format!("{}\0{}\0{}\0{}", ...)] *)
Definition artifact_key (name cid sha : string) (size : N) : string :=
  let nul := String Ascii.zero EmptyString in
  name +:+ nul +:+ cid +:+ nul +:+ sha +:+ nul +:+ pretty size.

Definition candidate_artifact_key (artifact : ArtifactManifestV1) : string :=
  artifact_key (am_name artifact) (am_cid artifact) (am_sha256 artifact) (am_size artifact).
Definition build_artifact_key (artifact : BuildArtifactV1) : string :=
  artifact_key (ba_name artifact) (ba_cid artifact) (ba_sha256 artifact) (ba_size artifact).

(** ** Proposal content *)

Record ScopeLimits := {
  max_repositories : N; max_changed_files : N; max_patch_bytes : N; max_source_bytes : N;
  max_description_bytes : N; max_migration_operations : N }.

Definition scope_limits (risk : RiskClass) : ScopeLimits :=
  if is_critical risk then
    {| max_repositories := 16; max_changed_files := 1024; max_patch_bytes := 16 * 1024 * 1024;
       max_source_bytes := 1024 * 1024 * 1024; max_description_bytes := 64 * 1024; max_migration_operations := 64 |}
  else
    {| max_repositories := 4; max_changed_files := 128; max_patch_bytes := 2 * 1024 * 1024;
       max_source_bytes := 256 * 1024 * 1024; max_description_bytes := 16 * 1024; max_migration_operations := 8 |}.

(** The checks of the candidate metrics root. *)
Definition validate_candidate_metrics (content : ChangeProposalContentV1) : governed unit :=
  match pc_candidate_identity_metrics_root content, pc_candidate_identity_metrics_epoch content with
  | None, None => Ok tt
  | Some root, Some epoch =>
      if negb (bool_decide (pc_risk_class content = Migration)) || (epoch <=? pc_identity_metrics_epoch content)
      then Err InvalidProposal
      else validate_sha256 root
  | _, _ => Err InvalidProposal
  end.

(** The checks of the repositories, their number and the sizes. *)
Definition validate_proposal_scope (content : ChangeProposalContentV1) : governed unit :=
  let repositories := pc_affected_repositories content in
  if Nat.eqb (length repositories) 0 || (16 <? count repositories) || negb (strict_sorted_unique repositories)
     || existsb (fun name => negb (valid_repository_name name)) repositories
  then Err InvalidProposal
  else
    let limits := scope_limits (pc_risk_class content) in
    if (max_repositories limits <? count repositories)
       || (pc_changed_file_count content =? 0) || (max_changed_files limits <? pc_changed_file_count content)
       || (pc_patch_bytes content =? 0) || (max_patch_bytes limits <? pc_patch_bytes content)
       || (pc_source_package_bytes content =? 0) || (max_source_bytes limits <? pc_source_package_bytes content)
       || (pc_description_bytes content =? 0) || (max_description_bytes limits <? pc_description_bytes content)
       || (max_migration_operations limits <? pc_migration_operation_count content)
    then Err InvalidProposal
    else
      let affected : gset string := list_to_set repositories in
      if bool_decide (dom (pc_base_source_cids content) <> affected)
         || bool_decide (dom (pc_candidate_source_cids content) <> affected)
      then Err InvalidProposal
      else
        try_for_each validate_canonical_cid
          (btree_values (pc_base_source_cids content) ++ btree_values (pc_candidate_source_cids content)).

Definition validate_proposal_content_internal (content : ChangeProposalContentV1) (parameters : GovernanceParameterSetV1)
    (clock : GovernanceClock) (objective_scope_verified : bool) : governed unit :=
  if negb (pc_schema_version content =? 2)
     || negb (pc_creation_block content =? block clock)
     || negb (pc_creation_epoch content =? epoch clock)
     || negb (pc_staking_epoch content =? pc_creation_epoch content)
     || (bool_decide (pc_risk_class content = Normal) && negb objective_scope_verified)
  then Err InvalidProposal
  else
    voting_start ← ok_or GovernanceOverflow (checked_add 64 (pc_creation_block content) (review_period_blocks parameters));
    voting_end ← ok_or GovernanceOverflow (checked_add 64 voting_start (voting_period_blocks parameters));
    challenge_end ← ok_or GovernanceOverflow (checked_add 64 voting_end (challenge_period_blocks parameters));
    if negb (pc_voting_start content =? voting_start) || negb (pc_voting_end content =? voting_end)
       || negb (pc_challenge_end content =? challenge_end)
    then Err InvalidProposal
    else
      _ ← try_for_each validate_canonical_cid
            [pc_scope_evidence_cid content; pc_governance_parameter_set_cid content;
             pc_parent_canonical_ecosystem_cid content; pc_candidate_ecosystem_cid content; pc_patch_cid content];
      _ ← try_for_each validate_content_cid
            [pc_rationale_cid content; pc_migration_notes_cid content; pc_test_plan_cid content;
             pc_rollback_manifest_cid content; pc_rollback_instructions_cid content];
      _ ← match pc_release_manifest_cid content with Some cid => validate_canonical_cid cid | None => Ok tt end;
      _ ← validate_sha256 (pc_review_round_id content);
      _ ← match pc_critical_finding_waiver_cid content with
          | Some cid =>
              _ ← validate_canonical_cid cid;
              if negb (is_critical (pc_risk_class content)) then Err InvalidProposal else Ok tt
          | None => Ok tt
          end;
      _ ← try_for_each validate_sha256
            [pc_agent_review_root content; pc_build_attestation_root content; pc_data_availability_root content];
      _ ← validate_candidate_metrics content;
      validate_proposal_scope content.

Definition validate_proposal_content (content : ChangeProposalContentV1) (parameters : GovernanceParameterSetV1)
    (clock : GovernanceClock) : governed unit :=
  validate_proposal_content_internal content parameters clock false.

Definition creation_clock (content : ChangeProposalContentV1) : GovernanceClock :=
  {| block := pc_creation_block content; epoch := pc_creation_epoch content |}.

(** The address and the bond, which both checks of a proposal end with. *)
Definition validate_proposer (content : ChangeProposalContentV1) (parameters : GovernanceParameterSetV1) : governed unit :=
  _ ← normalize_governance_address (pc_proposer_address content);
  minimum ← parse_atoms (minimum_bond_atoms (proposal_bond_policy parameters));
  if pc_proposal_bond_atoms content <? minimum then Err InsufficientAmount else Ok tt.

Definition validate_change_proposal_content (content : ChangeProposalContentV1) (parameters : GovernanceParameterSetV1)
    : governed unit :=
  _ ← validate_governance_parameters parameters;
  _ ← validate_proposal_content content parameters (creation_clock content);
  validate_proposer content parameters.

(** One repository of the scope beside the affected repository of the content. *)
Definition check_scope_sources (content : ChangeProposalContentV1) (pair : RepositoryScopeEvidenceV1 * string) : governed unit :=
  let '(repository, affected) := pair in
  if negb (String.eqb (rs_repository repository) affected)
     || bool_decide (pc_base_source_cids content !! affected <> Some (rs_base_source_cid repository))
     || bool_decide (pc_candidate_source_cids content !! affected <> Some (rs_candidate_source_cid repository))
  then Err InvalidProposal
  else Ok tt.

Section proposals.
Context `{DagCbor CanonicalSourceTreeManifestV1, DagCbor CanonicalSourcePatchV1}.

Definition validate_change_proposal_content_with_scope (content : ChangeProposalContentV1)
    (parameters : GovernanceParameterSetV1) (scope_cid : string) (scope : ProposalScopeEvidenceV1) : governed unit :=
  _ ← validate_governance_parameters parameters;
  _ ← validate_proposal_content_internal content parameters (creation_clock content) true;
  _ ← map_err (fun _ => InvalidProposal) (validate_proposal_scope_evidence scope);
  _ ← validate_canonical_cid scope_cid;
  if negb (String.eqb (pc_scope_evidence_cid content) scope_cid)
     || negb (String.eqb (pe_parent_ecosystem_cid scope) (pc_parent_canonical_ecosystem_cid content))
     || negb (String.eqb (pe_candidate_ecosystem_cid scope) (pc_candidate_ecosystem_cid content))
     || negb (String.eqb (pe_patch_cid scope) (pc_patch_cid content))
     || negb (pe_changed_file_count scope =? pc_changed_file_count content)
     || negb (pe_patch_bytes scope =? pc_patch_bytes content)
     || negb (pe_source_package_bytes scope =? pc_source_package_bytes content)
     || negb (pe_description_bytes scope =? pc_description_bytes content)
     || negb (pe_migration_operation_count scope =? pc_migration_operation_count content)
     || negb (bool_decide (pe_derived_risk_class scope = pc_risk_class content))
     || negb (Nat.eqb (length (pe_repositories scope)) (length (pc_affected_repositories content)))
  then Err InvalidProposal
  else
    _ ← try_for_each (check_scope_sources content) (zip (pe_repositories scope) (pc_affected_repositories content));
    validate_proposer content parameters.

Record ChangeProposalPackage := {
  pp_proposal_id : string; pp_content_cid : CID; pp_content_sha256 : string; pp_content : ChangeProposalContentV1;
  pp_dag_cbor_bytes : bytes; pp_car_bytes : bytes }.

Context `{DagCbor CarHeader, DagCbor ChangeProposalContentV1}.

(** What the two ways of packaging do after their checks. *)
Definition finish_proposal_package (content : ChangeProposalContentV1) : governed ChangeProposalPackage :=
  package ← map_err (fun _ => InvalidProposal) (package_dag_cbor content);
  if MAX_CONTRACT_DAG_CBOR_BYTES <? count (dag_cbor_bytes package) then Err InvalidProposal
  else
    id ← proposal_id content;
    Ok {| pp_proposal_id := id; pp_content_cid := root_cid package; pp_content_sha256 := root_sha256 package;
          pp_content := content; pp_dag_cbor_bytes := dag_cbor_bytes package; pp_car_bytes := car_bytes package |}.

Definition package_change_proposal (content : ChangeProposalContentV1) (parameters : GovernanceParameterSetV1)
    : governed ChangeProposalPackage :=
  proposer ← normalize_governance_address (pc_proposer_address content);
  let content := set_pc_proposer_address proposer content in
  _ ← validate_change_proposal_content content parameters;
  finish_proposal_package content.

Definition package_change_proposal_with_scope (content : ChangeProposalContentV1) (parameters : GovernanceParameterSetV1)
    (scope_cid : string) (scope : ProposalScopeEvidenceV1) : governed ChangeProposalPackage :=
  proposer ← normalize_governance_address (pc_proposer_address content);
  let content := set_pc_proposer_address proposer content in
  _ ← validate_change_proposal_content_with_scope content parameters scope_cid scope;
  finish_proposal_package content.

(** The comparison of the archive with the package that its content gives. *)
Definition same_proposal_package (package : DagCborPackage ChangeProposalContentV1) (b : bytes)
    (expected : ChangeProposalPackage) : governed ChangeProposalPackage :=
  if negb (bool_decide (pp_content_cid expected = root_cid package)) || negb (bool_decide (pp_car_bytes expected = b))
  then Err InvalidProposal
  else Ok expected.

Definition verify_change_proposal_car (b : bytes) (parameters : GovernanceParameterSetV1) : governed ChangeProposalPackage :=
  package ← map_err (fun _ => InvalidProposal) (verify_dag_cbor_car (T := ChangeProposalContentV1) b);
  expected ← package_change_proposal (package_value package) parameters;
  same_proposal_package package b expected.

Definition verify_change_proposal_car_with_scope (b : bytes) (parameters : GovernanceParameterSetV1)
    (scope_cid : string) (scope : ProposalScopeEvidenceV1) : governed ChangeProposalPackage :=
  package ← map_err (fun _ => InvalidProposal) (verify_dag_cbor_car (T := ChangeProposalContentV1) b);
  expected ← package_change_proposal_with_scope (package_value package) parameters scope_cid scope;
  same_proposal_package package b expected.
End proposals.

(** ** Commitments of a proposal and of a review round *)

Definition agent_entry (item : BondedAgentAttestation) : governed AttestationCommitmentEntryV1 :=
  let input := bonded_input item in
  fields ← agent_attestation_commitment_fields (ai_attestation_cid input) (ai_independence_group input)
             (ai_owner_address input) (ai_unresolved_critical_findings input);
  Ok {| ace_attestation_cid := ai_attestation_cid input; ace_canonical_fields := fields |}.

Definition build_entry (item : BondedBuildAttestation) : governed AttestationCommitmentEntryV1 :=
  let input := bonded_input item in
  fields ← build_attestation_commitment_fields (bi_attestation_cid input) (bi_core_artifact_digest input)
             (bi_runtime_family input) (bi_architecture input) (bi_builder_address input);
  Ok {| ace_attestation_cid := bi_attestation_cid input; ace_canonical_fields := fields |}.

Definition availability_entry (item : BondedDataAvailabilityAttestation) : governed AttestationCommitmentEntryV1 :=
  let input := bonded_input item in
  fields ← data_availability_commitment_fields (di_attestation_cid input) (di_candidate_ecosystem_cid input)
             (di_pinset_cid input) (di_provider_id input) (di_operator_address input);
  Ok {| ace_attestation_cid := di_attestation_cid input; ace_canonical_fields := fields |}.

Definition too_many {V} (m : gmap string V) : bool := MAX_REVIEW_ATTESTATIONS_PER_CLASS <? N.of_nat (size m).

Definition verify_attestation_roots (proposal : ProposalRecord) : governed unit :=
  if too_many (pr_agents proposal) || too_many (pr_builders proposal) || too_many (pr_availability proposal)
  then Err ReviewRoundFull
  else
    agent_entries ← try_map agent_entry (btree_values (pr_agents proposal));
    build_entries ← try_map build_entry (btree_values (pr_builders proposal));
    availability_entries ← try_map availability_entry (btree_values (pr_availability proposal));
    agent ← build_attestation_commitment AGENT_REVIEW_COMMITMENT_DOMAIN agent_entries;
    build ← build_attestation_commitment BUILD_ATTESTATION_COMMITMENT_DOMAIN build_entries;
    availability ← build_attestation_commitment DATA_AVAILABILITY_COMMITMENT_DOMAIN availability_entries;
    if negb (String.eqb (bc_root agent) (pc_agent_review_root (pr_content proposal)))
       || negb (String.eqb (bc_root build) (pc_build_attestation_root (pr_content proposal)))
       || negb (String.eqb (bc_root availability) (pc_data_availability_root (pr_content proposal)))
    then Err InvalidAttestation
    else Ok tt.

Definition review_evidence_commitments (round : ReviewRoundRecord) : governed (BuiltCidCommitment * BuiltCidCommitment) :=
  if too_many (rr_agents round) || too_many (rr_builders round) then Err ReviewRoundFull
  else
    agent_entries ← try_map agent_entry (btree_values (rr_agents round));
    build_entries ← try_map build_entry (btree_values (rr_builders round));
    agents ← build_attestation_commitment AGENT_REVIEW_COMMITMENT_DOMAIN agent_entries;
    builders ← build_attestation_commitment BUILD_ATTESTATION_COMMITMENT_DOMAIN build_entries;
    Ok (agents, builders).

Definition review_availability_commitment (round : ReviewRoundRecord) : governed BuiltCidCommitment :=
  if too_many (rr_availability round) then Err ReviewRoundFull
  else
    entries ← try_map availability_entry (btree_values (rr_availability round));
    build_attestation_commitment DATA_AVAILABILITY_COMMITMENT_DOMAIN entries.

(** ** Certification of metrics roots *)

Definition identity_metrics_certification_descriptor_hash (descriptor : IdentityMetricsCertificationDescriptor) : string :=
  domain_hash "IDENA_GOV_METRICS_CERTIFICATION_V1"
    (cd_snapshot_cid descriptor +:+ "|" +:+ cd_snapshot_sha256 descriptor +:+ "|" +:+
     pretty (cd_source_block_height descriptor) +:+ "|" +:+ cd_source_block_hash descriptor +:+ "|" +:+
     pretty (cd_replay_start_height descriptor) +:+ "|" +:+ cd_replay_commitment descriptor +:+ "|" +:+
     cd_indexer_implementation_cid descriptor).
End rules.

Definition identity_metrics_certification_passes (record : IdentityMetricsCertificationRecord) (minimum : N) : bool :=
  match cr_finalized_descriptor record with
  | Some descriptor =>
      match cr_descriptor_operators record !! descriptor with
      | Some operators => minimum <=? N.of_nat (size operators)
      | None => false
      end
  | None => false
  end.

Definition identity_metrics_certification_view (metrics_root : string) (source_epoch : N)
    (record : IdentityMetricsCertificationRecord) (minimum : N) : IdentityMetricsCertificationView := {|
  cv_metrics_root := metrics_root; cv_source_epoch := source_epoch;
  cv_attestation_count :=
    match cr_finalized_descriptor record ≫= (fun descriptor => cr_descriptor_operators record !! descriptor) with
    | Some operators => size operators
    | None => 0%nat
    end;
  cv_minimum_required := minimum;
  cv_certified := identity_metrics_certification_passes record minimum;
  cv_conflict := false;
  cv_descriptor_hash := cr_finalized_descriptor record |}.

Definition review_round_view (round : ReviewRoundRecord) : ReviewRoundView := {|
  rv_review_round_id := rr_id round; rv_state := rr_state round; rv_parent_cid := rr_parent_cid round;
  rv_candidate_cid := rr_candidate_cid round; rv_patch_cid := rr_patch_cid round;
  rv_scope_evidence_cid := rr_scope_evidence_cid round; rv_opener_address := rr_opener_address round;
  rv_opened_block := rr_opened_block round; rv_end_block := rr_end_block round;
  rv_claim_deadline := rr_claim_deadline round; rv_proposal_id := rr_proposal_id round;
  rv_agent_review_root := rr_agent_review_root round; rv_build_attestation_root := rr_build_attestation_root round;
  rv_data_availability_root := rr_data_availability_root round;
  rv_critical_finding_waiver_cid := rr_critical_finding_waiver_cid round;
  rv_agent_attestations := size (rr_agents round); rv_build_attestations := size (rr_builders round);
  rv_data_availability_attestations := size (rr_availability round) |}.

(** ** Challenges *)

(** [serde_json::from_slice] into the two result structs; the error is discarded. *)
Class EvidenceJson := {
  test_result_from_slice : bytes -> option bool;
  availability_result_from_slice : bytes -> option bool
}.

(** The texts {"passed":false} and {"available":false}. *)
Definition PASSED_FALSE : bytes := [x7b; x22; x70; x61; x73; x73; x65; x64; x22; x3a; x66; x61; x6c; x73; x65; x7d].
Definition AVAILABLE_FALSE : bytes :=
  [x7b; x22; x61; x76; x61; x69; x6c; x61; x62; x6c; x65; x22; x3a; x66; x61; x6c; x73; x65; x7d].

Class EvidenceJsonLaws `{EvidenceJson} : Prop := {
  parse_passed_false : test_result_from_slice PASSED_FALSE = Some false;
  parse_available_false : availability_result_from_slice AVAILABLE_FALSE = Some false
}.

Definition objective_challenge_succeeds `{EvidenceJson} (proposal : ProposalRecord) (challenge : PendingChallenge) : governed bool :=
  let cid := oc_attestation_cid (ch_input challenge) in
  let evidence := oc_evidence_bytes (ch_input challenge) in
  match ch_target_type challenge with
  | TargetAgent =>
      attestation ← ok_or InvalidChallenge (pr_agents proposal !! cid);
      passed ← ok_or InvalidChallenge (test_result_from_slice evidence);
      Ok (ai_tests_passed_claim (bonded_input attestation) && negb passed)
  | TargetBuilder =>
      attestation ← ok_or InvalidChallenge (pr_builders proposal !! cid);
      passed ← ok_or InvalidChallenge (test_result_from_slice evidence);
      Ok (bi_tests_passed_claim (bonded_input attestation) && negb passed)
  | TargetAvailability =>
      attestation ← ok_or InvalidChallenge (pr_availability proposal !! cid);
      available ← ok_or InvalidChallenge (availability_result_from_slice evidence);
      Ok (di_available_claim (bonded_input attestation) && negb available)
  end.

Definition verify_canonical_false_result (target : BondTarget) (evidence_bytes : bytes) : governed unit :=
  let expected := match target with TargetAgent | TargetBuilder => PASSED_FALSE | TargetAvailability => AVAILABLE_FALSE end in
  if bool_decide (evidence_bytes <> expected) then Err InvalidChallenge else Ok tt.
