(* ===== verification/GovStake.v ===== *)
(** * The governance engine: stakes, metrics and settlement ([crates/governance-core/src/lifecycle.rs])

    The engine as a state monad: initialisation, identity metrics and their
    certification, stake positions, and the settlement of bonds that the handlers of
    rounds and proposals share. *)
From S2P Require Import Prelude Order Text Crates GovText GovMath GovSource GovMetrics GovAttest GovManifest GovScope GovState GovCommit GovRules.

Local Open Scope N_scope.

Abbreviation engine_method A := (M GovernanceEngine GovernanceError A).

(** [if condition { return Err(error); }] *)
Definition reject_if (condition : bool) (error : GovernanceError) : governed unit :=
  if condition then Err error else Ok tt.

Definition with_atomic_state {A} (operation : engine_method A) : engine_method A := fun checkpoint =>
  match operation checkpoint with
  | (Ok value, s) => (Ok value, s)
  | (Err error, _) => (Err error, checkpoint)
  end.

Definition proposal_mut (proposal_id : string) : engine_method ProposalRecord :=
  asks (fun s => ok_or ProposalNotFound (ge_proposals s !! proposal_id)).
Definition review_round_mut (review_round_id : string) : engine_method ReviewRoundRecord :=
  asks (fun s => ok_or ReviewRoundNotFound (ge_review_rounds s !! review_round_id)).

(** Assignments through the references of the two methods above. *)
Definition put_proposal (proposal_id : string) (p : ProposalRecord) : engine_method unit :=
  modify (fun s => set_ge_proposals (<[proposal_id := p]> (ge_proposals s)) s).
Definition put_round (review_round_id : string) (r : ReviewRoundRecord) : engine_method unit :=
  modify (fun s => set_ge_review_rounds (<[review_round_id := r]> (ge_review_rounds s)) s).
Definition put_stake (address : string) (position : StakePosition) : engine_method unit :=
  modify (fun s => set_ge_stakes (<[address := position]> (ge_stakes s)) s).

(** ** Initialisation and identity metrics *)

Section metrics.
Context `{Hashing, CidCrate, DagCbor CarHeader}.

Definition initialize `{DagCbor GovernanceParameterSetV1} (initial_canonical_ecosystem_cid governance_parameter_set_cid : string)
    (parameters : GovernanceParameterSetV1) (metrics_root : string) (metrics_epoch : N) : governed GovernanceEngine :=
  _ ← validate_canonical_cid initial_canonical_ecosystem_cid;
  _ ← validate_canonical_cid governance_parameter_set_cid;
  _ ← validate_sha256 metrics_root;
  _ ← validate_governance_parameters parameters;
  parameter_package ← map_err (fun _ => InvalidContentAddress governance_parameter_set_cid) (package_dag_cbor parameters);
  if negb (String.eqb (cid_text (root_cid parameter_package)) governance_parameter_set_cid)
  then Err (InvalidContentAddress governance_parameter_set_cid)
  else Ok {|
    ge_canonical_ecosystem_cid := initial_canonical_ecosystem_cid;
    ge_governance_parameter_set_cid := governance_parameter_set_cid; ge_parameters := parameters;
    ge_metrics_root := metrics_root; ge_metrics_epoch := metrics_epoch; ge_stakes := ∅; ge_registered_metrics := ∅;
    ge_metrics_certifications := ∅; ge_review_rounds := ∅; ge_active_review_candidates := ∅; ge_proposals := ∅;
    ge_refunds := ∅; ge_burned_atoms := 0; ge_events := [] |}.

Definition register_identity_metrics (caller : string) (proof : GovernanceIdentityMetricsProofV1) : engine_method unit :=
  caller ← lift (normalize_governance_address caller);
  address ← lift (normalize_governance_address (ml_address (mp_leaf proof)));
  s ← gets id;
  _ ← lift (reject_if
        (negb (String.eqb address caller)
         || negb (ml_source_epoch (mp_leaf proof) =? ge_metrics_epoch s)
         || bool_decide (status_bps (ml_identity_state (mp_leaf proof)) = None)
         || negb (is_ok (verify_identity_metrics_proof proof (ge_metrics_root s))))
        InvalidIdentityProof);
  modify (fun s => set_ge_registered_metrics (<[caller := mp_leaf proof]> (ge_registered_metrics s)) s).

(** [registered_metrics.get(address).is_some_and(..)] with the current epoch and an eligible status. *)
Definition eligible_identity (s : GovernanceEngine) (address : string) : bool :=
  match ge_registered_metrics s !! address with
  | Some metrics =>
      (ml_source_epoch metrics =? ge_metrics_epoch s) && bool_decide (is_Some (status_bps (ml_identity_state metrics)))
  | None => false
  end.

Definition certification_descriptor (value : IdentityMetricsAttestationV1) : IdentityMetricsCertificationDescriptor := {|
  cd_snapshot_cid := im_snapshot_cid value; cd_snapshot_sha256 := im_snapshot_sha256 value;
  cd_source_block_height := im_source_block_height value; cd_source_block_hash := im_source_block_hash value;
  cd_replay_start_height := im_replay_start_height value; cd_replay_commitment := im_replay_commitment value;
  cd_indexer_implementation_cid := im_indexer_implementation_cid value |}.

(** The checks and changes of one certification record. *)
Definition certify (caller attestation_cid descriptor_hash : string) (descriptor : IdentityMetricsCertificationDescriptor)
    (minimum : N) (record : IdentityMetricsCertificationRecord) : governed IdentityMetricsCertificationRecord :=
  _ ← reject_if (bool_decide (is_Some (cr_operator_attestations record !! caller))) Duplicate;
  _ ← reject_if (match cr_finalized_descriptor record with
                 | Some finalized => negb (String.eqb finalized descriptor_hash)
                 | None => false
                 end) InvalidAttestation;
  _ ← reject_if (match cr_descriptors record !! descriptor_hash with
                 | Some existing => bool_decide (existing <> descriptor)
                 | None => false
                 end) InvalidAttestation;
  let operators := {[caller]} ∪ default ∅ (cr_descriptor_operators record !! descriptor_hash) in
  Ok {| cr_descriptors := <[descriptor_hash := default descriptor (cr_descriptors record !! descriptor_hash)]> (cr_descriptors record);
        cr_descriptor_operators := <[descriptor_hash := operators]> (cr_descriptor_operators record);
        cr_operator_attestations := <[caller := (attestation_cid, descriptor_hash)]> (cr_operator_attestations record);
        cr_finalized_descriptor :=
          if (minimum <=? N.of_nat (size operators)) && bool_decide (cr_finalized_descriptor record = None)
          then Some descriptor_hash else cr_finalized_descriptor record |}.

(** [entry(key).or_default()] inserts a record before the checks on it. *)
Definition submit_identity_metrics_attestation `{DagCbor IdentityMetricsAttestationV1} (caller attestation_cid : string)
    (attestation_car : bytes) (clock : GovernanceClock) : engine_method IdentityMetricsCertificationView :=
  caller ← lift (normalize_governance_address caller);
  s ← gets id;
  _ ← lift (reject_if (negb (eligible_identity s caller)) InvalidIdentityProof);
  package ← lift (map_err (fun _ => InvalidAttestation) (verify_identity_metrics_attestation_car attestation_car));
  let value := ap_value package in
  _ ← lift (reject_if (negb (String.eqb (cid_text (ap_root_cid package)) attestation_cid)) InvalidAttestation);
  operator ← lift (normalize_governance_address (im_operator_idena_address value));
  _ ← lift (reject_if (negb (String.eqb operator caller) || (block clock <? im_observed_at_block_or_timestamp value))
              InvalidAttestation);
  let descriptor := certification_descriptor value in
  let descriptor_hash := identity_metrics_certification_descriptor_hash descriptor in
  let key := (im_metrics_root value, im_source_epoch value) in
  let minimum := minimum_identity_metrics_attestations (ge_parameters s) in
  let record := default default_certification (ge_metrics_certifications s !! key) in
  _ ← modify (fun s => set_ge_metrics_certifications (<[key := record]> (ge_metrics_certifications s)) s);
  record' ← lift (certify caller attestation_cid descriptor_hash descriptor minimum record);
  _ ← modify (fun s => set_ge_metrics_certifications (<[key := record']> (ge_metrics_certifications s)) s);
  mret (identity_metrics_certification_view (im_metrics_root value) (im_source_epoch value) record' minimum).

Definition identity_metrics_certification (s : GovernanceEngine) (metrics_root : string) (source_epoch : N)
    : governed IdentityMetricsCertificationView :=
  _ ← validate_sha256 metrics_root;
  let record := default default_certification (ge_metrics_certifications s !! (metrics_root, source_epoch)) in
  Ok (identity_metrics_certification_view metrics_root source_epoch record
        (minimum_identity_metrics_attestations (ge_parameters s))).

(** Whether a metrics root of an epoch is certified. *)
Definition certified (s : GovernanceEngine) (root : string) (epoch : N) : bool :=
  match ge_metrics_certifications s !! (root, epoch) with
  | Some record => identity_metrics_certification_passes record (minimum_identity_metrics_attestations (ge_parameters s))
  | None => false
  end.
End metrics.

(** ** Refunds *)

Definition credit_refund (address : string) (amount : N) : engine_method unit :=
  if amount =? 0 then mret tt
  else
    s ← gets id;
    balance ← lift (ok_or GovernanceOverflow (checked_add 128 (default 0 (ge_refunds s !! address)) amount));
    modify (fun s => set_ge_refunds (<[address := balance]> (ge_refunds s)) s).

Definition burn (amount : N) : engine_method unit :=
  s ← gets id;
  burned ← lift (ok_or GovernanceOverflow (checked_add 128 (ge_burned_atoms s) amount));
  modify (set_ge_burned_atoms burned).

Definition withdraw_refund `{Hashing} (caller : string) : engine_method N :=
  caller ← lift (normalize_governance_address caller);
  s ← gets id;
  let amount := default 0 (ge_refunds s !! caller) in
  _ ← modify (fun s => set_ge_refunds (delete caller (ge_refunds s)) s);
  _ ← lift (reject_if (amount =? 0) NoRefund);
  mret amount.

Definition refund_balance `{Hashing} (s : GovernanceEngine) (caller : string) : governed N :=
  caller ← normalize_governance_address caller;
  Ok (default 0 (ge_refunds s !! caller)).

(** ** Stakes *)

(** [sync_position(self.stakes.entry(address).or_default(), epoch)?] *)
Definition sync_entry (address : string) (epoch : N) : engine_method StakePosition :=
  s ← gets id;
  let '(r, position) := sync_position (default default_position (ge_stakes s !! address)) epoch in
  _ ← put_stake address position;
  _ ← lift r;
  mret position.

Definition sync_all_stakes (epoch : N) : engine_method unit :=
  s ← gets id;
  for_each (fun address => _ ← sync_entry address epoch; mret tt) (btree_keys (ge_stakes s)).

Definition register_stake_inner `{Hashing} (caller : string) (attached_atoms : N) (clock : GovernanceClock) : engine_method unit :=
  _ ← lift (reject_if (attached_atoms =? 0) InsufficientAmount);
  caller ← lift (normalize_governance_address caller);
  parameters ← gets ge_parameters;
  activation_epoch ← lift (ok_or GovernanceOverflow (checked_add 16 (epoch clock) (activation_delay_epochs parameters)));
  position ← sync_entry caller (epoch clock);
  put_stake caller
    {| pos_active_atoms := pos_active_atoms position;
       pos_pending := pos_pending position ++ [{| sl_atoms := attached_atoms; sl_activation_epoch := activation_epoch |}];
       pos_scheduled := pos_scheduled position; pos_unbonding := pos_unbonding position |}.

Definition register_stake `{Hashing} (caller : string) (attached_atoms : N) (clock : GovernanceClock) : engine_method unit :=
  with_atomic_state (register_stake_inner caller attached_atoms clock).

Definition schedule_withdrawal_inner `{Hashing} (caller : string) (atoms : N) (clock : GovernanceClock) : engine_method unit :=
  _ ← lift (reject_if (atoms =? 0) InsufficientAmount);
  caller ← lift (normalize_governance_address caller);
  position ← sync_entry caller (epoch clock);
  already_scheduled ← lift (checked_sum (map sw_atoms (pos_scheduled position)));
  _ ← lift (reject_if (pos_active_atoms position - already_scheduled <? atoms) InsufficientActiveStake);
  start_epoch ← lift (ok_or GovernanceOverflow (checked_add 16 (epoch clock) 1));
  parameters ← gets ge_parameters;
  release_epoch ← lift (ok_or GovernanceOverflow (checked_add 16 start_epoch (unbonding_delay_epochs parameters)));
  put_stake caller
    {| pos_active_atoms := pos_active_atoms position; pos_pending := pos_pending position;
       pos_scheduled := pos_scheduled position ++
         [{| sw_atoms := atoms; sw_start_epoch := start_epoch; sw_release_epoch := release_epoch |}];
       pos_unbonding := pos_unbonding position |}.

Definition schedule_withdrawal `{Hashing} (caller : string) (atoms : N) (clock : GovernanceClock) : engine_method unit :=
  with_atomic_state (schedule_withdrawal_inner caller atoms clock).

(** ** Reserved stake *)

Definition unsettled_bond_of {I} `{BondInput I} (address : string) (m : gmap string (Bonded I)) : bool :=
  existsb (fun item => negb (bonded_settled item) && String.eqb (bond_owner (bonded_input item)) address) (btree_values m).

Definition is_live_round (state : ReviewRoundState) : bool :=
  match state with RoundOpen | RoundAvailabilityOpen | RoundFrozen => true | _ => false end.

Definition round_reserves (address : string) (round : ReviewRoundRecord) : bool :=
  if negb (is_live_round (rr_state round)) then false
  else (negb (rr_bond_settled round) && String.eqb (rr_opener_address round) address)
       || unsettled_bond_of address (rr_agents round) || unsettled_bond_of address (rr_builders round)
       || unsettled_bond_of address (rr_availability round).

Definition proposal_reserves (address : string) (proposal : ProposalRecord) : bool :=
  (negb (pr_proposal_bond_settled proposal) && String.eqb (pc_proposer_address (pr_content proposal)) address)
  || unsettled_bond_of address (pr_agents proposal) || unsettled_bond_of address (pr_builders proposal)
  || unsettled_bond_of address (pr_availability proposal).

Definition has_unsettled_slashable_action (s : GovernanceEngine) (address : string) : bool :=
  existsb (round_reserves address) (btree_values (ge_review_rounds s))
  || existsb (proposal_reserves address) (btree_values (ge_proposals s)).

(** The loop over the unbonding lots: what is released, and what remains. *)
Definition release_lot (now : N) (st : N * list ScheduledWithdrawal) (item : ScheduledWithdrawal)
    : governed (N * list ScheduledWithdrawal) :=
  let '(released, remaining) := st in
  if sw_release_epoch item <=? now then
    released' ← ok_or GovernanceOverflow (checked_add 128 released (sw_atoms item));
    Ok (released', remaining)
  else Ok (released, remaining ++ [item]).

Definition finalize_unbonding_inner `{Hashing} (caller : string) (clock : GovernanceClock) : engine_method N :=
  caller ← lift (normalize_governance_address caller);
  s ← gets id;
  _ ← lift (reject_if (has_unsettled_slashable_action s caller) StakeSlashReserved);
  position ← sync_entry caller (epoch clock);
  '(released, remaining) ← lift (try_fold (release_lot (epoch clock)) (0, []) (pos_unbonding position));
  _ ← put_stake caller
        {| pos_active_atoms := pos_active_atoms position; pos_pending := pos_pending position;
           pos_scheduled := pos_scheduled position; pos_unbonding := remaining |};
  _ ← lift (reject_if (released =? 0) NoRefund);
  _ ← credit_refund caller released;
  mret released.

Definition finalize_unbonding `{Hashing} (caller : string) (clock : GovernanceClock) : engine_method N :=
  with_atomic_state (finalize_unbonding_inner caller clock).

Definition stake_position_inner `{Hashing} (caller : string) (epoch : N) : engine_method StakePositionView :=
  caller ← lift (normalize_governance_address caller);
  position ← sync_entry caller epoch;
  pending ← lift (checked_sum (map sl_atoms (pos_pending position)));
  scheduled ← lift (checked_sum (map sw_atoms (pos_scheduled position)));
  unbonding ← lift (checked_sum (map sw_atoms (pos_unbonding position)));
  mret {| sv_pending_activation_atoms := pending; sv_active_atoms := pos_active_atoms position;
          sv_scheduled_withdrawal_atoms := scheduled; sv_unbonding_atoms := unbonding |}.

Definition stake_position `{Hashing} (caller : string) (epoch : N) : engine_method StakePositionView :=
  with_atomic_state (stake_position_inner caller epoch).

(** ** Slashing *)

(** [let reduction = item.atoms.min(remaining)] along a list of lots. *)
Fixpoint take_atoms (remaining : N) (lots : list N) : N * list N :=
  match lots with
  | [] => (remaining, [])
  | atoms :: rest =>
      let reduction := N.min atoms remaining in
      let '(remaining', rest') := take_atoms (remaining - reduction) rest in
      (remaining', (atoms - reduction) :: rest')
  end.

Definition set_lot (lot : StakeLot) (atoms : N) : StakeLot :=
  {| sl_atoms := atoms; sl_activation_epoch := sl_activation_epoch lot |}.
Definition set_withdrawal (w : ScheduledWithdrawal) (atoms : N) : ScheduledWithdrawal :=
  {| sw_atoms := atoms; sw_start_epoch := sw_start_epoch w; sw_release_epoch := sw_release_epoch w |}.

Definition slash_withdrawals (remaining : N) (l : list ScheduledWithdrawal) : N * list ScheduledWithdrawal :=
  let '(remaining', atoms) := take_atoms remaining (map sw_atoms l) in
  (remaining', filter (fun w => 0 < sw_atoms w) (zip_with set_withdrawal l atoms)).

Definition slash_lots (remaining : N) (l : list StakeLot) : N * list StakeLot :=
  let '(remaining', atoms) := take_atoms remaining (map sl_atoms l) in
  (remaining', filter (fun lot => 0 < sl_atoms lot) (zip_with set_lot l atoms)).

(** The changes of one position.  An error is returned to [resolve_objective_challenge], which restores the
    engine, so the position it would leave behind is not kept. *)
Definition slash_position (position : StakePosition) (slash_bps : N) : governed (N * StakePosition) :=
  pending ← checked_sum (map sl_atoms (pos_pending position));
  unbonding ← checked_sum (map sw_atoms (pos_unbonding position));
  total ← ok_or GovernanceOverflow
            (value ← checked_add 128 (pos_active_atoms position) pending; checked_add 128 value unbonding);
  slash ← apply_bps total slash_bps;
  let '(remaining, unbonding) := slash_withdrawals slash (pos_unbonding position) in
  let '(remaining, pending) := slash_lots remaining (pos_pending position) in
  let active_reduction := N.min (pos_active_atoms position) remaining in
  let active := pos_active_atoms position - active_reduction in
  _ ← reject_if (negb (remaining - active_reduction =? 0)) GovernanceOverflow;
  scheduled ← checked_sum (map sw_atoms (pos_scheduled position));
  let '(scheduled_excess, reversed) := slash_withdrawals (scheduled - active) (rev (pos_scheduled position)) in
  _ ← reject_if (negb (scheduled_excess =? 0)) GovernanceOverflow;
  Ok (slash, {| pos_active_atoms := active; pos_pending := pending; pos_scheduled := rev reversed; pos_unbonding := unbonding |}).

Definition slash_governance_stake (address : string) (slash_bps : N) : engine_method N :=
  s ← gets id;
  match ge_stakes s !! address with
  | None => mret 0
  | Some position =>
      '(slash, position') ← lift (slash_position position slash_bps);
      _ ← put_stake address position';
      _ ← burn slash;
      mret slash
  end.

(** ** Bonds *)

Definition settle_bond {I} (item : Bonded I) : Bonded I :=
  {| bonded_input := bonded_input item; bonded_settled := true; bonded_invalid := bonded_invalid item |}.
Definition invalidate_bond {I} (item : Bonded I) : Bonded I :=
  {| bonded_input := bonded_input item; bonded_settled := true; bonded_invalid := true |}.

(** The entries of one class that are not settled, in the order of their CIDs. *)
Definition unsettled {I} (m : gmap string (Bonded I)) : list (string * Bonded I) :=
  filter (fun entry => bonded_settled entry.2 = false) (btree_entries m).

(** One pass of the loop of [refund_unsettled_attestations]: owner, refund and burned part. *)
Definition settlement {I} `{BondInput I} (slash : option (BondTarget * string)) (slash_bps : N) (entry : string * Bonded I)
    : governed (string * N * N) :=
  let '(cid, item) := entry in
  let bps := if bool_decide (slash = Some (bond_target (I := I), cid)) then slash_bps else 0 in
  let bond := bond_atoms (bonded_input item) in
  burned ← apply_bps bond bps;
  refund ← minus bond burned;
  Ok (bond_owner (bonded_input item), refund, burned).

Definition pay_settlement (entry : string * N * N) : engine_method unit :=
  let '(address, refund, burned) := entry in
  _ ← credit_refund address refund;
  burn burned.

(** Every caller runs under [with_atomic_state], so the marks set before a failing [apply_bps] are not kept. *)
Definition refund_unsettled_attestations (proposal_id : string) (slash : option (BondTarget * string)) : engine_method unit :=
  policy ← gets (fun s => objective_slash_policy (ge_parameters s));
  proposal ← proposal_mut proposal_id;
  agents ← lift (try_map (settlement slash (fraudulent_reviewer_slash_bps policy)) (unsettled (pr_agents proposal)));
  builders ← lift (try_map (settlement slash (fraudulent_builder_slash_bps policy)) (unsettled (pr_builders proposal)));
  availability ← lift (try_map (settlement slash (unavailable_data_slash_bps policy)) (unsettled (pr_availability proposal)));
  _ ← put_proposal proposal_id
        (set_pr_agents (settle_bond <$> pr_agents proposal)
           (set_pr_builders (settle_bond <$> pr_builders proposal)
              (set_pr_availability (settle_bond <$> pr_availability proposal) proposal)));
  for_each pay_settlement (agents ++ builders ++ availability).

Section settle.
Context `{Hashing}.

Definition release_review_candidate_for_proposal (proposal_id : string) : engine_method unit :=
  proposal ← proposal_mut proposal_id;
  let content := pr_content proposal in
  let key := review_candidate_key (pc_parent_canonical_ecosystem_cid content) (pc_candidate_ecosystem_cid content)
               (pc_patch_cid content) in
  modify (fun s => set_ge_active_review_candidates (delete key (ge_active_review_candidates s)) s).

(** [proposal_bond_settled] is read and set; proposer, bond and the old flag are returned. *)
Definition take_proposal_bond (proposal_id : string) : engine_method (string * N * bool) :=
  proposal ← proposal_mut proposal_id;
  _ ← put_proposal proposal_id (set_pr_proposal_bond_settled true proposal);
  mret (pc_proposer_address (pr_content proposal), pc_proposal_bond_atoms (pr_content proposal),
        pr_proposal_bond_settled proposal).

(** [if !settled { .. }] *)
Definition unless_settled (settled : bool) (pay : engine_method unit) : engine_method unit :=
  if settled then mret tt else pay.

(** The end of every settlement. *)
Definition settle_rest (proposal_id : string) : engine_method unit :=
  _ ← refund_unsettled_attestations proposal_id None;
  release_review_candidate_for_proposal proposal_id.

Definition settle_normal_rejection (proposal_id : string) : engine_method unit :=
  '(proposer, bond, settled) ← take_proposal_bond proposal_id;
  _ ← unless_settled settled (
         parameters ← gets ge_parameters;
         refund ← lift (apply_bps bond (rejected_return_bps (proposal_bond_policy parameters)));
         _ ← credit_refund proposer refund;
         rest ← lift (minus bond refund);
         burn rest);
  settle_rest proposal_id.

Definition settle_full_refund (proposal_id : string) : engine_method unit :=
  '(proposer, bond, settled) ← take_proposal_bond proposal_id;
  _ ← unless_settled settled (credit_refund proposer bond);
  settle_rest proposal_id.

Definition settle_fraudulent_proposer (proposal_id : string) : engine_method unit :=
  '(proposer, bond, settled) ← take_proposal_bond proposal_id;
  _ ← unless_settled settled (
         parameters ← gets ge_parameters;
         slash ← lift (apply_bps bond (fraudulent_proposal_slash_bps (objective_slash_policy parameters)));
         _ ← burn slash;
         rest ← lift (minus bond slash);
         credit_refund proposer rest);
  settle_rest proposal_id.
End settle.

(** One class of bonds in a proposal: the challenged item is settled and marked invalid. *)
Definition invalidate {I} `{BondInput I} (cid : string) (m : gmap string (Bonded I)) : governed (string * N * gmap string (Bonded I)) :=
  item ← ok_or InvalidChallenge (m !! cid);
  _ ← reject_if (bonded_settled item || bonded_invalid item) InvalidChallenge;
  Ok (bond_owner (bonded_input item), bond_atoms (bonded_input item), <[cid := invalidate_bond item]> m).

Definition invalidate_and_slash_attestation (proposal_id : string) (challenge : PendingChallenge) : engine_method string :=
  policy ← gets (fun s => objective_slash_policy (ge_parameters s));
  proposal ← proposal_mut proposal_id;
  let cid := oc_attestation_cid (ch_input challenge) in
  '(offender, bond, slash_bps, proposal') ← lift
    match ch_target_type challenge with
    | TargetAgent =>
        '(offender, bond, m) ← invalidate cid (pr_agents proposal);
        Ok (offender, bond, fraudulent_reviewer_slash_bps policy, set_pr_agents m proposal)
    | TargetBuilder =>
        '(offender, bond, m) ← invalidate cid (pr_builders proposal);
        Ok (offender, bond, fraudulent_builder_slash_bps policy, set_pr_builders m proposal)
    | TargetAvailability =>
        '(offender, bond, m) ← invalidate cid (pr_availability proposal);
        Ok (offender, bond, unavailable_data_slash_bps policy, set_pr_availability m proposal)
    end;
  _ ← put_proposal proposal_id proposal';
  burned ← lift (apply_bps bond slash_bps);
  refund ← lift (minus bond burned);
  _ ← credit_refund offender refund;
  _ ← burn burned;
  _ ← slash_governance_stake offender (fraudulent_actor_stake_slash_bps policy);
  mret offender.

(** ** Voters *)

(** One stake position in the snapshot; [None] is [continue]. *)
Definition snapshot_voter (s : GovernanceEngine) (identity_metrics_epoch minimum_stake : N) (entry : string * StakePosition)
    : governed (option VoterSnapshot) :=
  let '(address, position) := entry in
  if pos_active_atoms position <? minimum_stake then Ok None
  else
    match ge_registered_metrics s !! address with
    | None => Ok None
    | Some metrics =>
        if negb (ml_source_epoch metrics =? identity_metrics_epoch) then Ok None
        else
          match status_bps (ml_identity_state metrics) with
          | None => Ok None
          | Some status =>
              weight ← map_err (fun _ => GovernanceOverflow)
                         (effective_vote_weight (pos_active_atoms position) status (ml_flip_trust_bps metrics));
              Ok (Some {| vt_stake_atoms := pos_active_atoms position; vt_status_bps := status;
                          vt_state := ml_identity_state metrics; vt_trust_bps := ml_flip_trust_bps metrics;
                          vt_weight := weight |})
          end
    end.

Definition add_voter (s : GovernanceEngine) (identity_metrics_epoch minimum_stake : N)
    (st : gmap string VoterSnapshot * N) (entry : string * StakePosition) : governed (gmap string VoterSnapshot * N) :=
  let '(snapshot, total) := st in
  voter ← snapshot_voter s identity_metrics_epoch minimum_stake entry;
  match voter with
  | None => Ok st
  | Some v =>
      total' ← ok_or GovernanceOverflow (checked_add 128 total (vt_weight v));
      Ok (<[entry.1 := v]> snapshot, total')
  end.

Definition build_voter_snapshot (s : GovernanceEngine) (identity_metrics_epoch : N) : governed (gmap string VoterSnapshot * N) :=
  minimum_stake ← parse_atoms (minimum_active_stake_atoms (ge_parameters s));
  try_fold (add_voter s identity_metrics_epoch minimum_stake) (∅, 0) (btree_entries (ge_stakes s)).
