(* ===== verification/GovRound.v ===== *)
(** * The governance engine: review rounds ([crates/governance-core/src/lifecycle.rs])

    A round collects bonded attestations for a candidate ecosystem: opened with a bond,
    frozen in two steps that commit to the attestations, claimed by a proposal or
    expired. *)
From S2P Require Import Prelude Order Text Crates GovText GovMath GovSource GovMetrics GovAttest GovManifest GovScope GovState GovCommit GovRules GovStake.

Local Open Scope N_scope.

Section rounds.
Context `{Hashing, CidCrate, DagCbor CarHeader}.

(** ** Opening *)

(** [parent_sources[name].clone()] for the affected repositories. *)
Definition affected_sources (manifest : EcosystemManifestV1) (affected : list string) : governed (gmap string string) :=
  let sources := btree_collect (map (fun r => (rm_name r, rm_source_tree_cid r)) (em_repositories manifest)) in
  entries ← try_map (fun name => cid ← ok_or GovernancePanic (sources !! name); Ok (name, cid)) affected;
  Ok (btree_collect entries).

(** One repository of the scope against the transition. *)
Definition check_scope_transition (patches : list RepositoryPatchManifestV1) (base candidate : gmap string string)
    (repository : RepositoryScopeEvidenceV1) : governed unit :=
  expected_patch ← ok_or InvalidProposal
    (List.find (fun entry => String.eqb (rp_repository entry) (rs_repository repository)) patches);
  reject_if (bool_decide (base !! rs_repository repository <> Some (rs_base_source_cid repository))
             || bool_decide (candidate !! rs_repository repository <> Some (rs_candidate_source_cid repository))
             || negb (String.eqb (rp_patch_cid expected_patch) (rs_patch_cid repository))
             || negb (String.eqb (rp_patch_sha256 expected_patch) (rs_patch_sha256 repository)))
    InvalidProposal.

Context `{DagCbor CanonicalEcosystemManifestV1, DagCbor CanonicalEcosystemPatchManifestV1,
          DagCbor CanonicalPinsetManifestV1, DagCbor ToolchainManifestV1}.
Context `{DagCbor ProposalScopeEvidenceV1, DagCbor CanonicalSourceTreeManifestV1, DagCbor CanonicalSourcePatchV1}.

(** The checks of the five archives: the round, without its identifier, opener, blocks and bond, which
    [open_review_round] fills in. *)
Definition review_transition (s : GovernanceEngine) (input : OpenReviewRoundInputV1) : governed ReviewRoundRecord :=
  parent ← map_err (fun _ => InvalidProposal) (verify_ecosystem_manifest_car (or_parent_car input));
  candidate ← map_err (fun _ => InvalidProposal) (verify_ecosystem_manifest_car (or_candidate_car input));
  patch ← map_err (fun _ => InvalidProposal) (verify_ecosystem_patch_manifest_car (or_patch_car input));
  pinset ← map_err (fun _ => InvalidProposal) (verify_pinset_manifest_car (or_pinset_car input));
  scope ← map_err (fun _ => InvalidProposal) (verify_proposal_scope_evidence_car (or_scope_car input));
  affected_repositories ← map_err (fun _ => InvalidProposal) (verify_ecosystem_transition parent candidate patch);
  _ ← map_err (fun _ => InvalidProposal) (verify_pinset_manifest_for_transition pinset candidate patch);
  let parent_cid := cid_text (emp_root_cid parent) in
  let candidate_cid := cid_text (emp_root_cid candidate) in
  let patch_cid := cid_text (epp_root_cid patch) in
  let scope_evidence_cid := cid_text (root_cid scope) in
  let evidence := package_value scope in
  _ ← reject_if (negb (String.eqb parent_cid (ge_canonical_ecosystem_cid s))) StaleParent;
  _ ← reject_if
        (negb (String.eqb (em_governance_parameter_set_cid (emp_manifest parent)) (ge_governance_parameter_set_cid s))
         || negb (String.eqb (em_governance_parameter_set_cid (emp_manifest candidate)) (ge_governance_parameter_set_cid s))
         || negb (String.eqb (em_governance_contract_version (emp_manifest parent)) GOVERNANCE_CONTRACT_VERSION)
         || negb (String.eqb (em_governance_contract_version (emp_manifest candidate)) GOVERNANCE_CONTRACT_VERSION))
        InvalidProposal;
  base_source_cids ← affected_sources (emp_manifest parent) affected_repositories;
  candidate_source_cids ← affected_sources (emp_manifest candidate) affected_repositories;
  _ ← reject_if
        (negb (String.eqb (pe_parent_ecosystem_cid evidence) parent_cid)
         || negb (String.eqb (pe_candidate_ecosystem_cid evidence) candidate_cid)
         || negb (String.eqb (pe_patch_cid evidence) patch_cid)
         || bool_decide (map rs_repository (pe_repositories evidence) <> affected_repositories))
        InvalidProposal;
  _ ← try_for_each
        (check_scope_transition (ep_repository_patches (epp_manifest patch)) base_source_cids candidate_source_cids)
        (pe_repositories evidence);
  toolchain ← map_err (fun _ => InvalidProposal) (package_toolchain_manifest_for_ecosystem (emp_manifest candidate));
  let pinset_cids := pm_cids (pmp_manifest pinset) in
  _ ← reject_if (negb (existsb (String.eqb scope_evidence_cid) pinset_cids)) InvalidProposal;
  Ok {| rr_id := ""; rr_state := RoundOpen; rr_parent_cid := parent_cid; rr_candidate_cid := candidate_cid;
        rr_patch_cid := patch_cid; rr_scope_evidence_cid := scope_evidence_cid; rr_scope_evidence := evidence;
        rr_affected_repositories := affected_repositories; rr_base_source_cids := base_source_cids;
        rr_candidate_source_cids := candidate_source_cids;
        rr_all_candidate_source_cids :=
          map (fun r => {| rc_repository := rm_name r; rc_cid := rm_source_tree_cid r |}) (em_repositories (emp_manifest candidate));
        rr_candidate_artifact_keys :=
          list_to_set (map candidate_artifact_key (mjoin (map rm_artifacts (em_repositories (emp_manifest candidate)))));
        rr_toolchain_cid := cid_text (root_cid toolchain); rr_pinset_cid := cid_text (pmp_root_cid pinset);
        rr_pinset_cids := pinset_cids; rr_required_availability_cids := list_to_set pinset_cids;
        rr_opener_address := ""; rr_opened_block := 0; rr_end_block := 0; rr_claim_deadline := 0;
        rr_proposal_id := None; rr_bond_atoms := 0; rr_bond_settled := false; rr_agent_review_root := None;
        rr_build_attestation_root := None; rr_data_availability_root := None; rr_critical_finding_waiver_cid := None;
        rr_critical_finding_waiver := None; rr_agents := ∅; rr_builders := ∅; rr_availability := ∅ |}.

(** The fields that do not come from the archives. *)
Definition opened_round (id opener : string) (opened end_block claim_deadline bond : N) (r : ReviewRoundRecord) : ReviewRoundRecord :=
  {| rr_id := id; rr_state := rr_state r; rr_parent_cid := rr_parent_cid r; rr_candidate_cid := rr_candidate_cid r;
     rr_patch_cid := rr_patch_cid r; rr_scope_evidence_cid := rr_scope_evidence_cid r;
     rr_scope_evidence := rr_scope_evidence r; rr_affected_repositories := rr_affected_repositories r;
     rr_base_source_cids := rr_base_source_cids r; rr_candidate_source_cids := rr_candidate_source_cids r;
     rr_all_candidate_source_cids := rr_all_candidate_source_cids r;
     rr_candidate_artifact_keys := rr_candidate_artifact_keys r; rr_toolchain_cid := rr_toolchain_cid r;
     rr_pinset_cid := rr_pinset_cid r; rr_pinset_cids := rr_pinset_cids r;
     rr_required_availability_cids := rr_required_availability_cids r; rr_opener_address := opener;
     rr_opened_block := opened; rr_end_block := end_block; rr_claim_deadline := claim_deadline;
     rr_proposal_id := rr_proposal_id r; rr_bond_atoms := bond; rr_bond_settled := rr_bond_settled r;
     rr_agent_review_root := rr_agent_review_root r; rr_build_attestation_root := rr_build_attestation_root r;
     rr_data_availability_root := rr_data_availability_root r;
     rr_critical_finding_waiver_cid := rr_critical_finding_waiver_cid r;
     rr_critical_finding_waiver := rr_critical_finding_waiver r; rr_agents := rr_agents r;
     rr_builders := rr_builders r; rr_availability := rr_availability r |}.

Definition open_review_round (input : OpenReviewRoundInputV1) (clock : GovernanceClock) : engine_method string :=
  s ← gets id;
  round ← lift (review_transition s input);
  opener_address ← lift (normalize_governance_address (or_opener_address input));
  _ ← lift (reject_if (negb (eligible_identity s opener_address)) InvalidIdentityProof);
  minimum ← lift (parse_atoms (minimum_bond_atoms (proposal_bond_policy (ge_parameters s))));
  _ ← lift (reject_if (or_attached_bond_atoms input <? minimum) InsufficientAmount);
  let candidate_key := review_candidate_key (rr_parent_cid round) (rr_candidate_cid round) (rr_patch_cid round) in
  _ ← lift (reject_if (bool_decide (is_Some (ge_active_review_candidates s !! candidate_key))) Duplicate);
  end_block ← lift (ok_or GovernanceOverflow (checked_add 64 (block clock) (review_period_blocks (ge_parameters s))));
  claim_deadline ← lift (ok_or GovernanceOverflow (checked_add 64 end_block (review_period_blocks (ge_parameters s))));
  let id := review_round_id (rr_parent_cid round) (rr_candidate_cid round) (rr_patch_cid round)
              (rr_scope_evidence_cid round) opener_address (block clock) in
  _ ← lift (reject_if (bool_decide (is_Some (ge_review_rounds s !! id))) Duplicate);
  _ ← put_round id (opened_round id opener_address (block clock) end_block claim_deadline (or_attached_bond_atoms input) round);
  _ ← modify (fun s => set_ge_active_review_candidates (<[candidate_key := id]> (ge_active_review_candidates s)) s);
  mret id.

(** ** Freezing *)

Definition gate_of (s : GovernanceEngine) (risk : RiskClass) : GateParameterSet :=
  if is_critical risk then gp_critical (ge_parameters s) else gp_normal (ge_parameters s).

Definition freeze_review_round (review_round_id : string) (clock : GovernanceClock) : engine_method ReviewRoundView :=
  round ← review_round_mut review_round_id;
  s ← gets id;
  if bool_decide (rr_state round = RoundOpen) then
    _ ← lift (reject_if ((block clock <? rr_end_block round) || (rr_claim_deadline round <? block clock)) InvalidDeadline);
    _ ← lift (reject_if (negb (String.eqb (rr_parent_cid round) (ge_canonical_ecosystem_cid s))) StaleParent);
    '(agents, builders) ← lift (review_evidence_commitments round);
    let round' := set_rr_state RoundAvailabilityOpen
                    (set_rr_build_attestation_root (Some (bc_root builders))
                       (set_rr_agent_review_root (Some (bc_root agents)) round)) in
    _ ← put_round review_round_id round';
    mret (review_round_view round')
  else
    _ ← lift (require_review_round_state round RoundAvailabilityOpen);
    _ ← lift (reject_if (rr_claim_deadline round <? block clock) InvalidDeadline);
    _ ← lift (reject_if (negb (String.eqb (rr_parent_cid round) (ge_canonical_ecosystem_cid s))) StaleParent);
    let gate := gate_of s (pe_derived_risk_class (rr_scope_evidence round)) in
    _ ← lift (reject_if (complete_review_availability_provider_count round <? minimum_data_availability_providers gate)
                InvalidAttestation);
    availability ← lift (review_availability_commitment round);
    let round' := set_rr_state RoundFrozen (set_rr_data_availability_root (Some (bc_root availability)) round) in
    _ ← put_round review_round_id round';
    mret (review_round_view round').

(** The conditions before and after the author's address is normalised. *)
Definition waiver_rejected (round : ReviewRoundRecord) (waiver : CriticalFindingWaiverV1) (caller : string)
    (clock : GovernanceClock) (threshold unresolved_owners : N) : bool :=
  let risk := pe_derived_risk_class (rr_scope_evidence round) in
  (rr_claim_deadline round <? block clock) || negb (is_critical risk)
  || negb (String.eqb (rr_opener_address round) caller) || bool_decide (is_Some (rr_critical_finding_waiver round))
  || (unresolved_owners <? threshold) || negb (cw_schema_version waiver =? 1)
  || negb (String.eqb (cw_review_round_id waiver) (rr_id round))
  || negb (String.eqb (cw_parent_ecosystem_cid waiver) (rr_parent_cid round))
  || negb (String.eqb (cw_candidate_ecosystem_cid waiver) (rr_candidate_cid round))
  || negb (String.eqb (cw_patch_cid waiver) (rr_patch_cid round))
  || negb (bool_decide (cw_risk_class waiver = risk))
  || negb (String.eqb (cw_agent_review_root waiver) (default "" (rr_agent_review_root round)))
  || negb (cw_unresolved_critical_owner_count waiver =? unresolved_owners)
  || negb (String.eqb (cw_scope waiver) "all-corroborated-unresolved-critical-findings-in-agent-review-root").

Definition register_critical_finding_waiver `{DagCbor CriticalFindingWaiverV1}
    (authenticated_caller review_round_id waiver_cid : string) (waiver_car : bytes) (clock : GovernanceClock)
    : engine_method ReviewRoundView :=
  caller ← lift (normalize_governance_address authenticated_caller);
  _ ← lift (validate_canonical_cid waiver_cid);
  package ← lift (map_err (fun _ => InvalidAttestation) (verify_dag_cbor_car (T := CriticalFindingWaiverV1) waiver_car));
  _ ← lift (reject_if (negb (String.eqb (cid_text (root_cid package)) waiver_cid)) InvalidAttestation);
  let waiver := package_value package in
  round ← review_round_mut review_round_id;
  _ ← lift (require_review_round_state round RoundAvailabilityOpen);
  s ← gets id;
  let threshold := critical_finding_owner_threshold (gate_of s (pe_derived_risk_class (rr_scope_evidence round))) in
  let unresolved_owners := unresolved_critical_owners (rr_agents round) in
  _ ← lift (reject_if (waiver_rejected round waiver caller clock threshold unresolved_owners) InvalidAttestation);
  author ← lift (normalize_governance_address (cw_author_idena_address waiver));
  _ ← lift (reject_if (negb (String.eqb author caller) || (cw_creation_block waiver <? rr_end_block round)
                       || (block clock <? cw_creation_block waiver)) InvalidAttestation);
  _ ← lift (validate_content_cid (cw_rationale_cid waiver));
  let required := {[cw_rationale_cid waiver]} ∪ ({[waiver_cid]} ∪ rr_required_availability_cids round) in
  _ ← lift (reject_if (MAX_REQUIRED_AVAILABILITY_CIDS <? N.of_nat (size required)) ReviewRoundFull);
  let round' := set_rr_critical_finding_waiver (Some waiver)
                  (set_rr_critical_finding_waiver_cid (Some waiver_cid)
                     (set_rr_required_availability_cids required round)) in
  _ ← put_round review_round_id round';
  mret (review_round_view round').

(** ** Expiry *)

(** [values_mut()] of one class: the owners and bonds that were not settled. *)
Definition owed {I} `{BondInput I} (m : gmap string (Bonded I)) : list (string * N) :=
  map (fun entry => (bond_owner (bonded_input entry.2), bond_atoms (bonded_input entry.2))) (unsettled m).

(** What is burned of the bond of an expired or stale round. *)
Definition round_burn (s : GovernanceEngine) (round : ReviewRoundRecord) (stale_fee : N) (stale : bool) : governed N :=
  let threshold := critical_finding_owner_threshold (gate_of s (pe_derived_risk_class (rr_scope_evidence round))) in
  if stale then Ok (N.min stale_fee (rr_bond_atoms round))
  else if threshold <=? unresolved_critical_owners (rr_agents round) then Ok 0
  else apply_bps (rr_bond_atoms round) (expired_slash_bps (proposal_bond_policy (ge_parameters s))).

Definition expired_round (round : ReviewRoundRecord) : ReviewRoundRecord :=
  set_rr_bond_settled true
    (set_rr_state RoundExpired
       (set_rr_agents (settle_bond <$> rr_agents round)
          (set_rr_builders (settle_bond <$> rr_builders round)
             (set_rr_availability (settle_bond <$> rr_availability round) round)))).

Definition expire_review_round_inner (review_round_id : string) (clock : GovernanceClock) : engine_method unit :=
  s ← gets id;
  stale_fee ← lift (parse_atoms (stale_processing_fee_atoms (proposal_bond_policy (ge_parameters s))));
  round ← review_round_mut review_round_id;
  _ ← lift (reject_if (negb (is_live_round (rr_state round))) (InvalidReviewRoundState (rr_state round)));
  let stale := negb (String.eqb (rr_parent_cid round) (ge_canonical_ecosystem_cid s)) in
  _ ← lift (reject_if (negb stale && (block clock <=? rr_claim_deadline round)) InvalidDeadline);
  burned ← lift (round_burn s round stale_fee stale);
  bond_refund ← lift (minus (rr_bond_atoms round) burned);
  _ ← put_round review_round_id (expired_round round);
  let key := review_candidate_key (rr_parent_cid round) (rr_candidate_cid round) (rr_patch_cid round) in
  _ ← modify (fun s => set_ge_active_review_candidates (delete key (ge_active_review_candidates s)) s);
  _ ← credit_refund (rr_opener_address round) bond_refund;
  _ ← for_each (fun '(address, amount) => credit_refund address amount)
        (owed (rr_agents round) ++ owed (rr_builders round) ++ owed (rr_availability round));
  burn burned.

Definition expire_review_round (review_round_id : string) (clock : GovernanceClock) : engine_method unit :=
  with_atomic_state (expire_review_round_inner review_round_id clock).

Definition review_round (s : GovernanceEngine) (review_round_id : string) : governed ReviewRoundView :=
  ok_or ReviewRoundNotFound (review_round_view <$> ge_review_rounds s !! review_round_id).

(** ** Attestations *)

Definition verdict_of (verdict : ReviewVerdictV1) : AttestationVerdict :=
  match verdict with ReviewApprove => VerdictApprove | ReviewReject => VerdictReject | ReviewAbstain => VerdictAbstain end.

(** [metrics_valid && stake_valid], read after the stakes were synchronised. *)
Definition qualified (s : GovernanceEngine) (address : string) (minimum_active_stake : N) : bool :=
  match ge_registered_metrics s !! address with Some value => ml_source_epoch value =? ge_metrics_epoch s | None => false end
  && match ge_stakes s !! address with Some position => minimum_active_stake <=? pos_active_atoms position | None => false end.

(** How many bonds of a class an owner has. *)
Definition owned {I} `{BondInput I} (address : string) (m : gmap string (Bonded I)) : N :=
  count (filter (fun item => bond_owner (bonded_input item) = address) (btree_values m)).

Definition new_bond {I} (input : I) : Bonded I := {| bonded_input := input; bonded_settled := false; bonded_invalid := false |}.

(** An approval of the same owner for another model family. *)
Definition conflicting_family (input : AgentAttestationInputV1) (agents : gmap string BondedAgentAttestation) : bool :=
  bool_decide (ai_verdict input = VerdictApprove) && ai_tests_passed_claim input
  && existsb (fun item =>
       negb (bonded_invalid item) && bool_decide (ai_verdict (bonded_input item) = VerdictApprove)
       && ai_tests_passed_claim (bonded_input item)
       && String.eqb (ai_owner_address (bonded_input item)) (ai_owner_address input)
       && negb (String.eqb (ai_independence_group (bonded_input item)) (ai_independence_group input)))
     (btree_values agents).

(** The comparisons of input, payload and round; the expected repositories index the sources of the round. *)
Definition check_agent_submission (package_cid payload_owner : string) (payload : AgentReviewAttestationV1)
    (input : AgentAttestationInputV1) (payload_bond minimum : N) (valid : bool) (clock : GovernanceClock)
    (round : ReviewRoundRecord) : governed unit :=
  _ ← reject_if
        ((ai_bond_atoms input <? minimum) || negb valid || negb (String.eqb package_cid (ai_attestation_cid input))
         || negb (String.eqb payload_owner (ai_owner_address input))
         || negb (String.eqb (ag_parent_ecosystem_cid payload) (ai_parent_ecosystem_cid input))
         || negb (String.eqb (ag_candidate_ecosystem_cid payload) (ai_candidate_ecosystem_cid input))
         || negb (String.eqb (ag_patch_cid payload) (ai_patch_cid input))
         || negb (String.eqb (ag_model_identifier payload) (ai_model_identifier input))
         || negb (bool_decide (ag_model_revision payload = ai_model_revision input))
         || negb (String.eqb (ag_provider_or_runtime_identifier payload) (ai_runtime_identifier input))
         || negb (String.eqb (ag_model_family payload) (ai_independence_group input))
         || negb (bool_decide (verdict_of (ag_verdict payload) = ai_verdict input))
         || negb (ag_unresolved_critical_findings payload =? ai_unresolved_critical_findings input)
         || negb (String.eqb (ag_test_results_cid payload) (ai_test_result_cid input))
         || negb (Bool.eqb (ag_tests_passed payload) (ai_tests_passed_claim input))
         || negb (payload_bond =? ai_bond_atoms input) || (block clock <? ag_creation_block_or_timestamp payload)
         || negb (String.eqb (ag_authentication payload) "on-chain-submitter")
         || negb (String.eqb (ai_parent_ecosystem_cid input) (rr_parent_cid round))
         || negb (String.eqb (ai_candidate_ecosystem_cid input) (rr_candidate_cid round))
         || negb (String.eqb (ai_patch_cid input) (rr_patch_cid round)))
        InvalidAttestation;
  expected ← try_map (fun repository =>
               cid ← ok_or GovernancePanic (rr_candidate_source_cids round !! repository);
               Ok {| rc_repository := repository; rc_cid := cid |}) (rr_affected_repositories round);
  _ ← reject_if
        (bool_decide (ag_affected_repositories payload <> expected) || is_empty (ai_model_identifier input)
         || is_empty (ai_runtime_identifier input) || is_empty (ai_independence_group input)
         || negb (is_ok (validate_raw_content_cid (ai_test_result_cid input))))
        InvalidAttestation;
  _ ← validate_canonical_cid (ai_attestation_cid input);
  _ ← reject_if (bool_decide (is_Some (rr_agents round !! ai_attestation_cid input))) Duplicate;
  _ ← reject_if (conflicting_family input (rr_agents round)) InvalidAttestation;
  _ ← reject_if (MAX_ATTESTATIONS_PER_OWNER_PER_CLASS <=? owned (ai_owner_address input) (rr_agents round)) ReviewRoundFull;
  reject_if (MAX_REVIEW_ATTESTATIONS_PER_CLASS <=? N.of_nat (size (rr_agents round))) ReviewRoundFull.

(** The CIDs that a review makes required. *)
Definition agent_required_cids (attestation_cid : string) (payload : AgentReviewAttestationV1) : list string :=
  [attestation_cid; ag_agent_policy_cid payload; ag_system_prompt_policy_cid payload; ag_test_results_cid payload;
   ag_static_analysis_results_cid payload; ag_dependency_findings_cid payload]
  ++ omap fi_evidence_cid (ag_security_findings payload).

Definition submit_agent_attestation `{DagCbor AgentReviewAttestationV1} (review_round_id : string)
    (input : AgentAttestationInputV1) (clock : GovernanceClock) : engine_method unit :=
  _ ← sync_all_stakes (epoch clock);
  package ← lift (map_err (fun _ => InvalidAttestation) (verify_agent_review_attestation_car (ai_attestation_car input)));
  let payload := ap_value package in
  payload_owner ← lift (normalize_governance_address (ag_owner_idena_address payload));
  payload_bond ← lift (map_err (fun _ => InvalidAttestation) (parse_atoms (ag_reviewer_bond_atoms payload)));
  owner ← lift (normalize_governance_address (ai_owner_address input));
  let input := set_ai_owner_address owner input in
  s ← gets id;
  minimum ← lift (parse_atoms (minimum_reviewer_bond_atoms (ge_parameters s)));
  minimum_active_stake ← lift (parse_atoms (minimum_active_stake_atoms (ge_parameters s)));
  round ← review_round_mut review_round_id;
  _ ← lift (require_review_round_submission round clock);
  _ ← lift (agent_attestation_commitment_fields (ai_attestation_cid input) (ai_independence_group input)
              (ai_owner_address input) (ai_unresolved_critical_findings input));
  _ ← lift (check_agent_submission (cid_text (ap_root_cid package)) payload_owner payload input payload_bond minimum
              (qualified s owner minimum_active_stake) clock round);
  let required := list_to_set (agent_required_cids (ai_attestation_cid input) payload) ∪ rr_required_availability_cids round in
  _ ← lift (reject_if (MAX_REQUIRED_AVAILABILITY_CIDS <? N.of_nat (size required)) ReviewRoundFull);
  put_round review_round_id
    (set_rr_agents (<[ai_attestation_cid input := new_bond input]> (rr_agents round))
       (set_rr_required_availability_cids required round)).

Definition check_build_submission (package_cid payload_owner : string) (payload : BuildAttestationV1)
    (input : BuildAttestationInputV1) (payload_bond minimum : N) (valid : bool) (clock : GovernanceClock)
    (round : ReviewRoundRecord) : governed unit :=
  _ ← reject_if
        ((bi_bond_atoms input <? minimum) || negb valid || negb (String.eqb package_cid (bi_attestation_cid input))
         || negb (String.eqb payload_owner (bi_builder_address input))
         || negb (String.eqb (bd_candidate_ecosystem_cid payload) (bi_candidate_ecosystem_cid input))
         || negb (String.eqb (bd_runtime_family payload) (bi_runtime_family input))
         || negb (String.eqb (bd_architecture payload) (bi_architecture input))
         || negb (String.eqb (bd_core_artifact_digest payload) (bi_core_artifact_digest input))
         || negb (String.eqb (bd_test_results_cid payload) (bi_test_result_cid input))
         || negb (Bool.eqb (bd_tests_passed payload) (bi_tests_passed_claim input))
         || negb (payload_bond =? bi_bond_atoms input) || (block clock <? bd_creation_block_or_timestamp payload)
         || negb (String.eqb (bd_authentication payload) "on-chain-submitter")
         || negb (String.eqb (bi_candidate_ecosystem_cid input) (rr_candidate_cid round))
         || bool_decide (bd_source_cids payload <> rr_all_candidate_source_cids round)
         || negb (String.eqb (bd_toolchain_cid payload) (rr_toolchain_cid round))
         || negb (String.eqb (bd_scope_evidence_cid payload) (rr_scope_evidence_cid round))
         || bool_decide (list_to_set (map build_artifact_key (bd_artifacts payload)) <> rr_candidate_artifact_keys round)
         || is_empty (bi_runtime_family input) || is_empty (bi_architecture input)
         || negb (is_ok (validate_sha256 (bi_core_artifact_digest input)))
         || negb (is_ok (validate_raw_content_cid (bi_test_result_cid input))))
        InvalidAttestation;
  _ ← validate_canonical_cid (bi_attestation_cid input);
  _ ← reject_if (bool_decide (is_Some (rr_builders round !! bi_attestation_cid input))) Duplicate;
  _ ← reject_if (MAX_ATTESTATIONS_PER_OWNER_PER_CLASS <=? owned (bi_builder_address input) (rr_builders round)) ReviewRoundFull;
  reject_if (MAX_REVIEW_ATTESTATIONS_PER_CLASS <=? N.of_nat (size (rr_builders round))) ReviewRoundFull.

Definition build_required_cids (attestation_cid : string) (payload : BuildAttestationV1) : list string :=
  [attestation_cid; bd_toolchain_cid payload; bd_test_results_cid payload; bd_sbom_cid payload]
  ++ map ba_cid (bd_artifacts payload).

Definition submit_build_attestation `{DagCbor BuildAttestationV1} (review_round_id : string)
    (input : BuildAttestationInputV1) (clock : GovernanceClock) : engine_method unit :=
  _ ← sync_all_stakes (epoch clock);
  package ← lift (map_err (fun _ => InvalidAttestation) (verify_build_attestation_car (bi_attestation_car input)));
  let payload := ap_value package in
  payload_owner ← lift (normalize_governance_address (bd_builder_identity payload));
  payload_bond ← lift (map_err (fun _ => InvalidAttestation) (parse_atoms (bd_builder_bond_atoms payload)));
  builder ← lift (normalize_governance_address (bi_builder_address input));
  let input := set_bi_builder_address builder input in
  s ← gets id;
  minimum ← lift (parse_atoms (minimum_builder_bond_atoms (ge_parameters s)));
  minimum_active_stake ← lift (parse_atoms (minimum_active_stake_atoms (ge_parameters s)));
  round ← review_round_mut review_round_id;
  _ ← lift (require_review_round_submission round clock);
  _ ← lift (build_attestation_commitment_fields (bi_attestation_cid input) (bi_core_artifact_digest input)
              (bi_runtime_family input) (bi_architecture input) (bi_builder_address input));
  _ ← lift (check_build_submission (cid_text (ap_root_cid package)) payload_owner payload input payload_bond minimum
              (qualified s builder minimum_active_stake) clock round);
  let required := list_to_set (build_required_cids (bi_attestation_cid input) payload) ∪ rr_required_availability_cids round in
  _ ← lift (reject_if (MAX_REQUIRED_AVAILABILITY_CIDS <? N.of_nat (size required)) ReviewRoundFull);
  put_round review_round_id
    (set_rr_builders (<[bi_attestation_cid input := new_bond input]> (rr_builders round))
       (set_rr_required_availability_cids required round)).

(** The verified CIDs are distinct and valid. *)
Definition check_verified_cid (unique : gset string) (cid : string) : governed (gset string) :=
  _ ← validate_content_cid cid;
  if bool_decide (cid ∈ unique) then Err InvalidAttestation else Ok ({[cid]} ∪ unique).

Definition check_availability_submission (package_cid payload_owner : string) (payload : DataAvailabilityAttestationV1)
    (input : DataAvailabilityAttestationInputV1) (payload_bond minimum : N) (valid : bool) (clock : GovernanceClock)
    (latest_execution_expiry : N) (round : ReviewRoundRecord) : governed unit :=
  _ ← reject_if
        ((di_bond_atoms input <? minimum) || negb valid || negb (String.eqb package_cid (di_attestation_cid input))
         || negb (String.eqb payload_owner (di_operator_address input))
         || negb (String.eqb (da_candidate_ecosystem_cid payload) (di_candidate_ecosystem_cid input))
         || negb (String.eqb (da_provider_id payload) (di_provider_id input))
         || negb (String.eqb (da_pinset_cid payload) (di_pinset_cid input))
         || bool_decide (da_verified_cids payload <> di_verified_cids input)
         || negb (String.eqb (da_probe_result_cid payload) (di_probe_result_cid input))
         || negb (Bool.eqb (da_available payload) (di_available_claim input))
         || negb (da_expires_at_block payload =? di_expires_at_block input) || negb (payload_bond =? di_bond_atoms input)
         || (da_observed_at_block_or_timestamp payload <? rr_end_block round)
         || (block clock <? da_observed_at_block_or_timestamp payload)
         || negb (String.eqb (da_authentication payload) "on-chain-submitter")
         || negb (String.eqb (di_candidate_ecosystem_cid input) (rr_candidate_cid round))
         || negb (String.eqb (di_pinset_cid input) (rr_pinset_cid round))
         || (MAX_REQUIRED_AVAILABILITY_CIDS <? count (di_verified_cids input))
         || negb (forallb (fun cid => existsb (String.eqb cid) (di_verified_cids input)) (rr_pinset_cids round))
         || negb (existsb (String.eqb (di_probe_result_cid input)) (di_verified_cids input))
         || is_empty (di_provider_id input) || (di_expires_at_block input <? latest_execution_expiry)
         || negb (is_ok (validate_canonical_cid (di_pinset_cid input)))
         || negb (is_ok (validate_raw_content_cid (di_probe_result_cid input))))
        InvalidAttestation;
  _ ← try_fold check_verified_cid ∅ (di_verified_cids input);
  _ ← validate_canonical_cid (di_attestation_cid input);
  _ ← reject_if (bool_decide (is_Some (rr_availability round !! di_attestation_cid input))) Duplicate;
  _ ← reject_if (existsb (fun item =>
         String.eqb (di_provider_id (bonded_input item)) (di_provider_id input)
         || String.eqb (di_operator_address (bonded_input item)) (di_operator_address input))
       (btree_values (rr_availability round))) Duplicate;
  reject_if (MAX_REVIEW_ATTESTATIONS_PER_CLASS <=? N.of_nat (size (rr_availability round))) ReviewRoundFull.

(** [a.checked_add(b).and_then(|value| value.checked_add(c))] on blocks. *)
Definition add_blocks (a b c : N) : governed N :=
  ok_or GovernanceOverflow (value ← checked_add 64 a b; checked_add 64 value c).

Definition submit_data_availability_attestation `{DagCbor DataAvailabilityAttestationV1} (review_round_id : string)
    (input : DataAvailabilityAttestationInputV1) (clock : GovernanceClock) : engine_method unit :=
  _ ← sync_all_stakes (epoch clock);
  package ← lift (map_err (fun _ => InvalidAttestation) (verify_data_availability_attestation_car (di_attestation_car input)));
  let payload := ap_value package in
  payload_owner ← lift (normalize_governance_address (da_operator_identity payload));
  payload_bond ← lift (map_err (fun _ => InvalidAttestation) (parse_atoms (da_bond_atoms payload)));
  operator ← lift (normalize_governance_address (di_operator_address input));
  let input := set_di_operator_address operator input in
  s ← gets id;
  let parameters := ge_parameters s in
  minimum ← lift (parse_atoms (minimum_data_availability_bond_atoms parameters));
  minimum_active_stake ← lift (parse_atoms (minimum_active_stake_atoms parameters));
  lifecycle_after_claim ← lift (add_blocks (review_period_blocks parameters) (voting_period_blocks parameters)
                                  (challenge_period_blocks parameters));
  post_vote_lifecycle ← lift (add_blocks (challenge_period_blocks parameters) (timelock_blocks parameters)
                                (execution_window_blocks parameters));
  round ← review_round_mut review_round_id;
  _ ← lift (require_review_round_state round RoundAvailabilityOpen);
  _ ← lift (reject_if (rr_claim_deadline round <? block clock) InvalidDeadline);
  latest_execution_expiry ← lift (add_blocks (rr_claim_deadline round) lifecycle_after_claim post_vote_lifecycle);
  _ ← lift (data_availability_commitment_fields (di_attestation_cid input) (di_candidate_ecosystem_cid input)
              (di_pinset_cid input) (di_provider_id input) (di_operator_address input));
  _ ← lift (check_availability_submission (cid_text (ap_root_cid package)) payload_owner payload input payload_bond minimum
              (qualified s operator minimum_active_stake) clock latest_execution_expiry round);
  put_round review_round_id
    (set_rr_availability (<[di_attestation_cid input := new_bond input]> (rr_availability round)) round).
End rounds.
