(* ===== verification/GovEngine.v ===== *)
(** * The governance engine: proposals ([crates/governance-core/src/lifecycle.rs])

    A proposal claims a frozen review round, is reviewed, voted on, challenged,
    executed or expired; every way out settles its bonds. *)
From S2P Require Import Prelude Order Text Crates GovText GovMath GovSource GovMetrics GovAttest GovManifest GovScope GovState GovCommit GovRules GovStake GovRound.

Local Open Scope N_scope.

Section engine.
Context `{Hashing, CidCrate, DagCbor CarHeader, EvidenceJson}.

(** ** Settlement of stale and expired proposals *)

Definition mark_stale_inner (proposal_id : string) : engine_method unit :=
  canonical ← gets ge_canonical_ecosystem_cid;
  proposal ← proposal_mut proposal_id;
  _ ← lift (reject_if (String.eqb (pc_parent_canonical_ecosystem_cid (pr_content proposal)) canonical) InvalidProposal);
  _ ← lift (reject_if (is_terminal (pr_state proposal)) (InvalidState (pr_state proposal)));
  _ ← put_proposal proposal_id (set_pr_state Stale proposal);
  '(proposer, bond, settled) ← take_proposal_bond proposal_id;
  _ ← unless_settled settled (
        parameters ← gets ge_parameters;
        stale_fee ← lift (parse_atoms (stale_processing_fee_atoms (proposal_bond_policy parameters)));
        let fee := N.min stale_fee bond in
        _ ← burn fee;
        rest ← lift (minus bond fee);
        credit_refund proposer rest);
  settle_rest proposal_id.

Definition mark_stale (proposal_id : string) : engine_method unit := with_atomic_state (mark_stale_inner proposal_id).

Definition proposal_expired (proposal : ProposalRecord) (clock : GovernanceClock) : bool :=
  match pr_state proposal with
  | Draft => pc_voting_start (pr_content proposal) <? block clock
  | ReviewOpen => pc_voting_end (pr_content proposal) <=? block clock
  | AcceptedPendingExecution => pr_execution_expires proposal <? block clock
  | _ => false
  end.

Definition expire_proposal_inner (proposal_id : string) (clock : GovernanceClock) : engine_method unit :=
  proposal ← proposal_mut proposal_id;
  _ ← lift (reject_if (negb (proposal_expired proposal clock)) InvalidDeadline);
  _ ← put_proposal proposal_id (set_pr_state Expired proposal);
  '(proposer, bond, settled) ← take_proposal_bond proposal_id;
  _ ← unless_settled settled (
        parameters ← gets ge_parameters;
        slash ← lift (apply_bps bond (expired_slash_bps (proposal_bond_policy parameters)));
        _ ← burn slash;
        rest ← lift (minus bond slash);
        credit_refund proposer rest);
  settle_rest proposal_id.

Definition expire_proposal (proposal_id : string) (clock : GovernanceClock) : engine_method unit :=
  with_atomic_state (expire_proposal_inner proposal_id clock).

(** ** Drafts *)

Definition content_in_pinset (content : ChangeProposalContentV1) (round : ReviewRoundRecord) : bool :=
  forallb (fun cid => existsb (String.eqb cid) (rr_pinset_cids round))
    [pc_rationale_cid content; pc_migration_notes_cid content; pc_test_plan_cid content;
     pc_rollback_manifest_cid content; pc_rollback_instructions_cid content]
  && match pc_release_manifest_cid content with
     | Some cid => existsb (String.eqb cid) (rr_pinset_cids round)
     | None => true
     end.

(** The content repeats what the frozen round committed to. *)
Definition content_matches_round (content : ChangeProposalContentV1) (round : ReviewRoundRecord) : bool :=
  String.eqb (rr_opener_address round) (pc_proposer_address content)
  && String.eqb (rr_parent_cid round) (pc_parent_canonical_ecosystem_cid content)
  && String.eqb (rr_candidate_cid round) (pc_candidate_ecosystem_cid content)
  && String.eqb (rr_patch_cid round) (pc_patch_cid content)
  && String.eqb (rr_scope_evidence_cid round) (pc_scope_evidence_cid content)
  && bool_decide (rr_affected_repositories round = pc_affected_repositories content)
  && bool_decide (rr_base_source_cids round = pc_base_source_cids content)
  && bool_decide (rr_candidate_source_cids round = pc_candidate_source_cids content)
  && content_in_pinset content round
  && bool_decide (pc_critical_finding_waiver_cid content = rr_critical_finding_waiver_cid round)
  && (rr_bond_atoms round =? pc_proposal_bond_atoms content)
  && bool_decide (rr_agent_review_root round = Some (pc_agent_review_root content))
  && bool_decide (rr_build_attestation_root round = Some (pc_build_attestation_root content))
  && bool_decide (rr_data_availability_root round = Some (pc_data_availability_root content)).

(** The metrics epoch, the proposer's identity and the certified roots. *)
Definition check_proposal_metrics (s : GovernanceEngine) (content : ChangeProposalContentV1) : governed unit :=
  _ ← reject_if
        (negb (pc_identity_metrics_epoch content =? ge_metrics_epoch s)
         || match ge_registered_metrics s !! pc_proposer_address content with
            | Some metrics => negb (ml_source_epoch metrics =? pc_identity_metrics_epoch content)
            | None => true
            end)
        InvalidIdentityProof;
  _ ← reject_if (negb (certified s (ge_metrics_root s) (ge_metrics_epoch s))) InvalidAttestation;
  match pc_candidate_identity_metrics_root content, pc_candidate_identity_metrics_epoch content with
  | Some root, Some epoch => reject_if (negb (certified s root epoch)) InvalidAttestation
  | _, _ => Ok tt
  end.

Definition check_claimed_round (s : GovernanceEngine) (content : ChangeProposalContentV1) (round : ReviewRoundRecord)
    (clock : GovernanceClock) : governed unit :=
  _ ← require_review_round_state round RoundFrozen;
  _ ← reject_if (rr_claim_deadline round <? block clock) InvalidDeadline;
  _ ← reject_if
        ((critical_finding_owner_threshold (gate_of s (pc_risk_class content))
            <=? review_round_unresolved_critical_owner_count round)
         && bool_decide (rr_critical_finding_waiver_cid round = None))
        InvalidAttestation;
  reject_if (negb (content_matches_round content round)) InvalidProposal.

Definition evaluate_proposal (s : GovernanceEngine) (proposal : ProposalRecord) : GateResults :=
  evaluate_gates (pc_risk_class (pr_content proposal)) (gp_normal (ge_parameters s)) (gp_critical (ge_parameters s))
    (acceptance_evidence proposal).

Section drafts.
Context `{DagCbor CanonicalSourceTreeManifestV1, DagCbor CanonicalSourcePatchV1}.

Definition create_proposal_draft_inner (content : ChangeProposalContentV1) (attached_bond_atoms : N) (clock : GovernanceClock)
    : engine_method string :=
  _ ← sync_all_stakes (epoch clock);
  proposer ← lift (normalize_governance_address (pc_proposer_address content));
  let content := set_pc_proposer_address proposer content in
  s ← gets id;
  round ← review_round_mut (pc_review_round_id content);
  _ ← lift (validate_change_proposal_content_with_scope content (ge_parameters s) (rr_scope_evidence_cid round)
              (rr_scope_evidence round));
  _ ← lift (reject_if (negb (String.eqb (pc_governance_parameter_set_cid content) (ge_governance_parameter_set_cid s)))
              InvalidProposal);
  _ ← lift (reject_if (negb (String.eqb (pc_parent_canonical_ecosystem_cid content) (ge_canonical_ecosystem_cid s)))
              StaleParent);
  _ ← lift (check_proposal_metrics s content);
  _ ← lift (reject_if (negb (attached_bond_atoms =? 0)) InsufficientAmount);
  _ ← lift (check_claimed_round s content round clock);
  id ← lift (proposal_id content);
  _ ← lift (reject_if (bool_decide (is_Some (ge_proposals s !! id))) Duplicate);
  execution_not_before ← lift (ok_or GovernanceOverflow
                                 (checked_add 64 (pc_challenge_end content) (timelock_blocks (ge_parameters s))));
  execution_expires ← lift (ok_or GovernanceOverflow
                              (checked_add 64 execution_not_before (execution_window_blocks (ge_parameters s))));
  '(voter_snapshot, total_registered_weight) ← lift (build_voter_snapshot s (pc_identity_metrics_epoch content));
  let proposal := {|
    pr_id := id; pr_state := Draft; pr_content := content; pr_proposal_bond_settled := false;
    pr_agents := rr_agents round; pr_builders := rr_builders round; pr_availability := rr_availability round;
    pr_required_availability_cids := rr_required_availability_cids round;
    pr_critical_finding_waiver := rr_critical_finding_waiver round; pr_voter_snapshot := voter_snapshot;
    pr_votes := ∅; pr_yes_weight := 0; pr_no_weight := 0; pr_abstain_weight := 0;
    pr_total_registered_weight := total_registered_weight; pr_gates := None; pr_pending_challenge := None;
    pr_challenge_end := pc_challenge_end content; pr_execution_not_before := execution_not_before;
    pr_execution_expires := execution_expires |} in
  _ ← lift (verify_attestation_roots proposal);
  let gates := evaluate_proposal s proposal in
  _ ← lift (reject_if (negb (passed (poaw gates)) || negb (passed (verification_work gates))
                       || negb (passed (data_availability gates))) InvalidAttestation);
  _ ← put_round (pc_review_round_id content) (set_rr_proposal_id (Some id) (set_rr_state RoundClaimed round));
  _ ← put_proposal id proposal;
  mret id.

Definition create_proposal_draft (content : ChangeProposalContentV1) (attached_bond_atoms : N) (clock : GovernanceClock)
    : engine_method string :=
  with_atomic_state (create_proposal_draft_inner content attached_bond_atoms clock).
End drafts.

(** ** Review and voting *)

(** A stale proposal is settled before the call fails. *)
Definition fail_if_stale (proposal_id : string) : engine_method unit :=
  proposal ← proposal_mut proposal_id;
  canonical ← gets ge_canonical_ecosystem_cid;
  if negb (String.eqb (pc_parent_canonical_ecosystem_cid (pr_content proposal)) canonical) then
    _ ← mark_stale proposal_id;
    throw StaleParent
  else mret tt.

Definition open_review (proposal_id : string) (clock : GovernanceClock) : engine_method unit :=
  _ ← fail_if_stale proposal_id;
  proposal ← proposal_mut proposal_id;
  _ ← lift (require_state proposal Draft);
  _ ← lift (reject_if ((block clock <? pc_creation_block (pr_content proposal))
                       || (pc_voting_start (pr_content proposal) <=? block clock)) InvalidDeadline);
  put_proposal proposal_id (set_pr_state ReviewOpen proposal).

Definition open_voting (proposal_id : string) (clock : GovernanceClock) : engine_method unit :=
  _ ← fail_if_stale proposal_id;
  proposal ← proposal_mut proposal_id;
  _ ← lift (require_state proposal ReviewOpen);
  _ ← lift (reject_if ((block clock <? pc_voting_start (pr_content proposal))
                       || (pc_voting_end (pr_content proposal) <=? block clock)
                       || negb (epoch clock =? pc_staking_epoch (pr_content proposal))) InvalidDeadline);
  _ ← lift (verify_attestation_roots proposal);
  put_proposal proposal_id (set_pr_state VotingOpen proposal).

Definition vote_receipt (proposal : ProposalRecord) (voter : string) (choice : VoteChoice) (snapshot : VoterSnapshot)
    (clock : GovernanceClock) : GovernanceVoteReceiptV1 := {|
  vr_schema_version := 1; vr_proposal_id := pr_id proposal; vr_voter_address := voter; vr_choice := choice;
  vr_staking_epoch := pc_staking_epoch (pr_content proposal);
  vr_identity_metrics_epoch := pc_identity_metrics_epoch (pr_content proposal);
  vr_active_stake_atoms := vt_stake_atoms snapshot; vr_stake_score := stake_score (vt_stake_atoms snapshot);
  vr_identity_status_bps := vt_status_bps snapshot; vr_flip_trust_bps := vt_trust_bps snapshot;
  vr_effective_vote_weight := vt_weight snapshot; vr_cast_at_block := block clock |}.

Definition cast_vote_inner (proposal_id voter : string) (choice : VoteChoice) (clock : GovernanceClock)
    : engine_method GovernanceVoteReceiptV1 :=
  voter ← lift (normalize_governance_address voter);
  canonical ← gets ge_canonical_ecosystem_cid;
  proposal ← proposal_mut proposal_id;
  _ ← lift (require_state proposal VotingOpen);
  _ ← lift (reject_if (negb (String.eqb (pc_parent_canonical_ecosystem_cid (pr_content proposal)) canonical)) StaleParent);
  _ ← lift (reject_if ((block clock <? pc_voting_start (pr_content proposal))
                       || (pc_voting_end (pr_content proposal) <=? block clock)) InvalidDeadline);
  snapshot ← lift (ok_or IneligibleVoter (pr_voter_snapshot proposal !! voter));
  proposal1 ← lift match pr_votes proposal !! voter with
                   | Some previous => subtract_vote_weight proposal (vr_choice previous) (vr_effective_vote_weight previous)
                   | None => Ok proposal
                   end;
  proposal2 ← lift (add_vote_weight proposal1 choice (vt_weight snapshot));
  let receipt := vote_receipt proposal voter choice snapshot clock in
  _ ← put_proposal proposal_id (set_pr_votes (<[voter := receipt]> (pr_votes proposal2)) proposal2);
  mret receipt.

Definition cast_vote (proposal_id voter : string) (choice : VoteChoice) (clock : GovernanceClock)
    : engine_method GovernanceVoteReceiptV1 :=
  with_atomic_state (cast_vote_inner proposal_id voter choice clock).

Definition finalize_voting_inner (proposal_id : string) (clock : GovernanceClock) : engine_method GateResults :=
  s ← gets id;
  let parameters := ge_parameters s in
  proposal ← proposal_mut proposal_id;
  _ ← lift (require_state proposal VotingOpen);
  _ ← lift (reject_if (block clock <? pc_voting_end (pr_content proposal)) InvalidDeadline);
  _ ← lift (reject_if (pc_challenge_end (pr_content proposal) <? block clock) InvalidDeadline);
  challenge_end ← lift (ok_or GovernanceOverflow (checked_add 64 (block clock) (challenge_period_blocks parameters)));
  execution_not_before ← lift (ok_or GovernanceOverflow (checked_add 64 challenge_end (timelock_blocks parameters)));
  execution_expires ← lift (ok_or GovernanceOverflow
                              (checked_add 64 execution_not_before (execution_window_blocks parameters)));
  let proposal := set_pr_execution_expires execution_expires
                    (set_pr_execution_not_before execution_not_before (set_pr_challenge_end challenge_end proposal)) in
  let gates := evaluate_proposal s proposal in
  let state := if accepted gates then AcceptedPendingChallenge else Rejected in
  _ ← put_proposal proposal_id (set_pr_state state (set_pr_gates (Some gates) proposal));
  _ ← (if accepted gates then mret tt else settle_normal_rejection proposal_id);
  mret gates.

Definition finalize_voting (proposal_id : string) (clock : GovernanceClock) : engine_method GateResults :=
  _ ← fail_if_stale proposal_id;
  with_atomic_state (finalize_voting_inner proposal_id clock).

(** ** Challenges *)

(** The target of a challenge: an attestation that is neither settled nor invalid, with the evidence it names. *)
Definition challengeable {I} (evidence_of : I -> string) (m : gmap string (Bonded I)) (input : ObjectiveChallengeInputV1)
    : governed unit :=
  attestation ← ok_or InvalidChallenge (m !! oc_attestation_cid input);
  reject_if (bonded_invalid attestation || bonded_settled attestation
             || negb (String.eqb (evidence_of (bonded_input attestation)) (oc_evidence_cid input))) InvalidChallenge.

Definition challenge_target (proposal : ProposalRecord) (input : ObjectiveChallengeInputV1) : governed BondTarget :=
  match oc_target input with
  | AgentTestResult => _ ← challengeable ai_test_result_cid (pr_agents proposal) input; Ok TargetAgent
  | BuilderTestResult => _ ← challengeable bi_test_result_cid (pr_builders proposal) input; Ok TargetBuilder
  | DataAvailabilityProbe => _ ← challengeable di_probe_result_cid (pr_availability proposal) input; Ok TargetAvailability
  end.

Definition submit_objective_challenge (proposal_id : string) (input : ObjectiveChallengeInputV1) (clock : GovernanceClock)
    : engine_method unit :=
  challenger ← lift (normalize_governance_address (oc_challenger_address input));
  let input := set_oc_challenger_address challenger input in
  _ ← lift (reject_if (Nat.eqb (length (oc_evidence_bytes input)) 0
                       || (MAX_OBJECTIVE_EVIDENCE_BYTES <? count (oc_evidence_bytes input))) InvalidChallenge);
  _ ← lift (validate_raw_content_cid (oc_evidence_cid input));
  _ ← lift (reject_if (negb (String.eqb (cid_text (cid_for RAW_CODEC (oc_evidence_bytes input))) (oc_evidence_cid input)))
              InvalidChallenge);
  proposal ← proposal_mut proposal_id;
  _ ← lift (require_state proposal AcceptedPendingChallenge);
  _ ← lift (reject_if (pr_challenge_end proposal <=? block clock) InvalidDeadline);
  target_type ← lift (challenge_target proposal input);
  _ ← lift (verify_canonical_false_result target_type (oc_evidence_bytes input));
  put_proposal proposal_id
    (set_pr_state Challenged
       (set_pr_pending_challenge (Some {| ch_input := input; ch_target_type := target_type |}) proposal)).

(** What happens after a successful challenge, by whether the offender is the proposer. *)
Definition punish (proposal_id offender : string) : engine_method unit :=
  proposal ← proposal_mut proposal_id;
  if String.eqb (pc_proposer_address (pr_content proposal)) offender then
    _ ← put_proposal proposal_id (set_pr_state Rejected (set_pr_pending_challenge None proposal));
    settle_fraudulent_proposer proposal_id
  else
    s ← gets id;
    let gates := evaluate_proposal s proposal in
    let state := if accepted gates then AcceptedPendingChallenge else Expired in
    _ ← put_proposal proposal_id
          (set_pr_state state (set_pr_gates (Some gates) (set_pr_pending_challenge None proposal)));
    if accepted gates then mret tt else settle_full_refund proposal_id.

Definition resolve_objective_challenge_inner (proposal_id : string) : engine_method bool :=
  proposal ← proposal_mut proposal_id;
  _ ← lift (require_state proposal Challenged);
  challenge ← lift (ok_or InvalidChallenge (pr_pending_challenge proposal));
  successful ← lift (objective_challenge_succeeds proposal challenge);
  _ ← (if (successful : bool) then
         offender ← invalidate_and_slash_attestation proposal_id challenge;
         punish proposal_id offender
       else
         put_proposal proposal_id (set_pr_state AcceptedPendingChallenge (set_pr_pending_challenge None proposal)));
  mret successful.

Definition resolve_objective_challenge (proposal_id : string) : engine_method bool :=
  with_atomic_state (resolve_objective_challenge_inner proposal_id).

Definition close_challenge_period (proposal_id : string) (clock : GovernanceClock) : engine_method unit :=
  proposal ← proposal_mut proposal_id;
  _ ← lift (require_state proposal AcceptedPendingChallenge);
  _ ← lift (reject_if (block clock <? pr_challenge_end proposal) InvalidDeadline);
  put_proposal proposal_id (set_pr_state AcceptedPendingExecution proposal).

(** ** Execution *)

Definition execute_ready_proposal (proposal_id old_canonical : string) : engine_method GovernanceEvent :=
  proposal ← proposal_mut proposal_id;
  let content := pr_content proposal in
  let event := {|
    ev_old_cid := old_canonical; ev_new_cid := pc_candidate_ecosystem_cid content; ev_proposal_id := pr_id proposal;
    ev_agent_review_root := pc_agent_review_root content; ev_build_attestation_root := pc_build_attestation_root content;
    ev_data_availability_root := pc_data_availability_root content |} in
  _ ← put_proposal proposal_id (set_pr_state Executed proposal);
  _ ← modify (set_ge_canonical_ecosystem_cid (pc_candidate_ecosystem_cid content));
  _ ← match pc_candidate_identity_metrics_root content, pc_candidate_identity_metrics_epoch content with
      | Some root, Some epoch =>
          modify (fun s => set_ge_registered_metrics ∅ (set_ge_metrics_epoch epoch (set_ge_metrics_root root s)))
      | _, _ => mret tt
      end;
  _ ← settle_full_refund proposal_id;
  _ ← modify (fun s => set_ge_events (ge_events s ++ [event]) s);
  mret event.

Definition execute_proposal (proposal_id : string) (clock : GovernanceClock) : engine_method GovernanceEvent :=
  old_canonical ← gets ge_canonical_ecosystem_cid;
  proposal ← proposal_mut proposal_id;
  _ ← lift (require_state proposal AcceptedPendingExecution);
  if negb (String.eqb (pc_parent_canonical_ecosystem_cid (pr_content proposal)) old_canonical) then
    _ ← mark_stale proposal_id;
    throw StaleParent
  else
    _ ← lift (reject_if (block clock <? pr_execution_not_before proposal) InvalidDeadline);
    if pr_execution_expires proposal <? block clock then
      _ ← expire_proposal proposal_id clock;
      throw InvalidDeadline
    else
      s ← gets id;
      let gate := gate_of s (pc_risk_class (pr_content proposal)) in
      _ ← lift (reject_if (live_data_availability_provider_count proposal (block clock)
                             <? minimum_data_availability_providers gate) InvalidAttestation);
      with_atomic_state (execute_ready_proposal proposal_id old_canonical).

(** ** Views *)

Definition proposal (s : GovernanceEngine) (proposal_id : string) : governed ProposalView :=
  p ← ok_or ProposalNotFound (ge_proposals s !! proposal_id);
  Ok {| pv_proposal_id := pr_id p; pv_state := pr_state p; pv_content := pr_content p; pv_gates := pr_gates p;
        pv_vote_count := size (pr_votes p); pv_challenge_end := pr_challenge_end p;
        pv_execution_not_before := pr_execution_not_before p; pv_execution_expires := pr_execution_expires p |}.

Definition voter_receipt (s : GovernanceEngine) (proposal_id voter : string) : governed (option GovernanceVoteReceiptV1) :=
  voter ← normalize_governance_address voter;
  p ← ok_or ProposalNotFound (ge_proposals s !! proposal_id);
  Ok (pr_votes p !! voter).
End engine.
