(* ===== verification/GovWp.v ===== *)
(** * Reasoning about the governance engine

    A weakest-precondition calculus for the methods of the engine, which covers the
    states left by errors as well, sums over maps, the errors that are not panics,
    and payments into refunds and the burned total. *)
From S2P Require Import Prelude Order Text Crates GovText GovMath GovSource GovMetrics GovAttest GovManifest GovScope GovState GovCommit GovRules GovStake GovRound GovEngine.

Local Open Scope N_scope.

(** ** Methods *)

(** [m] started in [s] ends in a state that satisfies [Q] with its result, or [R] with its error. *)
Definition wp {A} (m : engine_method A) (Q : A -> GovernanceEngine -> Prop)
    (R : GovernanceError -> GovernanceEngine -> Prop) (s : GovernanceEngine) : Prop :=
  match m s with
  | (Ok a, s') => Q a s'
  | (Err e, s') => R e s'
  end.

Section wp_rules.
Context {A B : Type} (Q : A -> GovernanceEngine -> Prop) (R : GovernanceError -> GovernanceEngine -> Prop) (s : GovernanceEngine).

Lemma wp_bind (m : engine_method B) (f : B -> engine_method A) :
  wp m (fun b s' => wp (f b) Q R s') R s -> wp (m ≫= f) Q R s.
Proof. unfold wp. rewrite M_bind_run. by destruct (m s) as [[b|e] s']. Qed.

Lemma wp_ret (a : A) : Q a s -> wp (mret a) Q R s.
Proof. done. Qed.

Lemma wp_lift (r : governed A) :
  (forall a, r = Ok a -> Q a s) -> (forall e, r = Err e -> R e s) -> wp (lift r) Q R s.
Proof. unfold wp, lift. intros Hok Herr. destruct r; eauto. Qed.

Lemma wp_gets (f : GovernanceEngine -> A) : Q (f s) s -> wp (gets f) Q R s.
Proof. done. Qed.

Lemma wp_asks (f : GovernanceEngine -> governed A) :
  (forall a, f s = Ok a -> Q a s) -> (forall e, f s = Err e -> R e s) -> wp (asks f) Q R s.
Proof. unfold wp, asks. intros Hok Herr. destruct (f s); eauto. Qed.

Lemma wp_throw e : R e s -> wp (A := A) (throw e) Q R s.
Proof. done. Qed.

Lemma wp_mono (m : engine_method A) (Q' : A -> GovernanceEngine -> Prop) (R' : GovernanceError -> GovernanceEngine -> Prop) :
  wp m Q' R' s -> (forall a s', Q' a s' -> Q a s') -> (forall e s', R' e s' -> R e s') -> wp m Q R s.
Proof. unfold wp. destruct (m s) as [[a|e] s']; eauto. Qed.

Lemma wp_atomic (m : engine_method A) : wp m Q (fun e _ => R e s) s -> wp (with_atomic_state m) Q R s.
Proof. unfold wp, with_atomic_state. by destruct (m s) as [[a|e] s']. Qed.
End wp_rules.

Lemma wp_modify f (Q : unit -> GovernanceEngine -> Prop) R s : Q tt (f s) -> wp (modify f) Q R s.
Proof. done. Qed.

Lemma wp_run {A} (m : engine_method A) Q R s r s' :
  wp m Q R s -> m s = (r, s') -> match r with Ok a => Q a s' | Err e => R e s' end.
Proof. unfold wp. intros Hwp Hm. rewrite Hm in Hwp. by destruct r. Qed.

(** A loop whose body keeps an invariant of the elements done. *)
Lemma wp_for_each {A} (f : A -> engine_method unit) (P : list A -> GovernanceEngine -> Prop) (R : GovernanceError -> GovernanceEngine -> Prop) l s :
  P [] s -> (forall don x rest s', l = don ++ x :: rest -> P don s' -> wp (f x) (fun _ s'' => P (don ++ [x]) s'') R s') ->
  wp (for_each f l) (fun _ s' => P l s') R s.
Proof.
  intros H0 Hstep.
  enough (forall rest don s', l = don ++ rest -> P don s' -> wp (for_each f rest) (fun _ s'' => P l s'') R s') as Hgen
    by by apply (Hgen l []).
  induction rest as [|x rest IH]; intros don s' Hl Hs; cbn [for_each].
  - apply wp_ret. by rewrite Hl, app_nil_r.
  - apply wp_bind. eapply wp_mono; [exact (Hstep don x rest s' Hl Hs)| |done]. cbn beta. intros _ s'' Hs''.
    apply (IH (don ++ [x])); [by rewrite <-app_assoc|done].
Qed.

(** ** Errors other than panics *)

Definition no_panic {A} (r : governed A) : Prop := r <> Err GovernancePanic.

Create HintDb panics discriminated.
#[export] Hint Constants Opaque : panics.

Lemma no_panic_Ok {A} (a : A) : no_panic (Ok a).
Proof. done. Qed.
Lemma no_panic_bind {A B} (m : governed A) (f : A -> governed B) :
  no_panic m -> (forall a, m = Ok a -> no_panic (f a)) -> no_panic (m ≫= f).
Proof. unfold no_panic. destruct m as [a|e]; cbn; [eauto|congruence]. Qed.
Lemma no_panic_reject b e : e <> GovernancePanic -> no_panic (reject_if b e).
Proof. unfold reject_if, no_panic. destruct b; congruence. Qed.
Lemma no_panic_ok_or {A} e (o : option A) : e <> GovernancePanic -> no_panic (ok_or e o).
Proof. unfold ok_or, no_panic. destruct o; congruence. Qed.
Lemma no_panic_map_err {E A} (f : E -> GovernanceError) (r : result E A) : (forall e, f e <> GovernancePanic) -> no_panic (map_err f r).
Proof. unfold map_err, no_panic. intros Hf. destruct r as [|e]; [done|]. specialize (Hf e). congruence. Qed.
Lemma no_panic_if {A} (b : bool) (r1 r2 : governed A) : no_panic r1 -> no_panic r2 -> no_panic (if b then r1 else r2).
Proof. by destruct b. Qed.
Lemma no_panic_Err {A} e : e <> GovernancePanic -> no_panic (A := A) (Err e).
Proof. unfold no_panic. congruence. Qed.
Lemma no_panic_for_each {A} (f : A -> governed unit) l : (forall x, no_panic (f x)) -> no_panic (try_for_each f l).
Proof. intros Hf. induction l as [|x l IH]; cbn [try_for_each]; [done|]. apply no_panic_bind; auto. Qed.
Lemma no_panic_try_map {A B} (f : A -> governed B) l : (forall x, x ∈ l -> no_panic (f x)) -> no_panic (try_map f l).
Proof.
  induction l as [|x l IH]; intros Hf; cbn [try_map]; [done|]. apply no_panic_bind; [apply Hf; left|].
  intros y _. apply no_panic_bind; [|done]. apply IH. intros z Hz. apply Hf. by right.
Qed.
Lemma no_panic_try_fold {A B} (f : B -> A -> governed B) l : (forall b x, no_panic (f b x)) -> forall b, no_panic (try_fold f b l).
Proof. intros Hf. induction l as [|x l IH]; intros b; cbn [try_fold]; [done|]. apply no_panic_bind; auto. Qed.

#[export] Hint Resolve no_panic_Ok no_panic_reject no_panic_ok_or no_panic_map_err no_panic_if no_panic_Err : panics.
#[export] Hint Resolve no_panic_bind no_panic_for_each no_panic_try_map no_panic_try_fold : panics.
#[export] Hint Extern 1 (_ <> GovernancePanic) => discriminate : panics.

(** Goes through the definition of a check that never panics. *)
Ltac no_panics :=
  repeat (intros;
    match goal with
    | |- no_panic (_ ≫= _) => apply no_panic_bind; [|intros ? ?]
    | |- no_panic (try_for_each _ _) => apply no_panic_for_each
    | |- no_panic (try_fold _ _ _) => apply no_panic_try_fold
    | |- no_panic (try_map _ _) => apply no_panic_try_map
    | |- no_panic (if _ then _ else _) => apply no_panic_if
    | |- no_panic (match _ with _ => _ end) => case_match
    | |- no_panic _ => solve [eauto 2 with panics]
    end).

Lemma no_panic_normalize `{Hashing} a : no_panic (normalize_governance_address a).
Proof. unfold normalize_governance_address. no_panics. Qed.
Lemma no_panic_atoms a : no_panic (parse_atoms a).
Proof. unfold parse_atoms, not_canonical_decimal. no_panics. Qed.
Lemma no_panic_bps a b : no_panic (apply_bps a b).
Proof. unfold apply_bps. no_panics. Qed.
Lemma no_panic_profile `{CidCrate} a c : no_panic (validate_profile_cid a c).
Proof. unfold validate_profile_cid. no_panics. Qed.
Lemma no_panic_canonical `{CidCrate} a : no_panic (validate_canonical_cid a).
Proof. apply no_panic_profile. Qed.
Lemma no_panic_content_cid `{CidCrate} a : no_panic (validate_content_cid a).
Proof. apply no_panic_profile. Qed.
Lemma no_panic_raw `{CidCrate} a : no_panic (validate_raw_content_cid a).
Proof. apply no_panic_profile. Qed.
Lemma no_panic_sha256 a : no_panic (validate_sha256 a).
Proof. unfold validate_sha256. no_panics. Qed.
Lemma no_panic_label a n : no_panic (validate_safe_label a n).
Proof. unfold validate_safe_label. no_panics. Qed.
Lemma no_panic_sum l : no_panic (checked_sum l).
Proof. unfold checked_sum. no_panics. Qed.
#[export] Hint Resolve no_panic_normalize no_panic_atoms no_panic_bps no_panic_profile no_panic_sha256 no_panic_label no_panic_sum : panics.
#[export] Hint Resolve no_panic_canonical no_panic_content_cid no_panic_raw : panics.

Section no_panics.
Context `{Hashing, CidCrate}.

Lemma no_panic_address a : no_panic (commitment_address a).
Proof. unfold commitment_address. no_panics. Qed.
#[local] Hint Resolve no_panic_address : panics.
Lemma no_panic_domain d : no_panic (validate_attestation_domain d).
Proof. unfold validate_attestation_domain. no_panics. Qed.
Lemma no_panic_agent_fields a b c d : no_panic (agent_attestation_commitment_fields a b c d).
Proof. unfold agent_attestation_commitment_fields, validate_canonical_cid. no_panics. Qed.
Lemma no_panic_build_fields a b c d e : no_panic (build_attestation_commitment_fields a b c d e).
Proof. unfold build_attestation_commitment_fields, validate_canonical_cid. no_panics. Qed.
Lemma no_panic_availability_fields a b c d e : no_panic (data_availability_commitment_fields a b c d e).
Proof. unfold data_availability_commitment_fields, validate_canonical_cid. no_panics. Qed.
Lemma no_panic_fields f : no_panic (validate_canonical_attestation_fields f).
Proof. unfold validate_canonical_attestation_fields. no_panics. Qed.
#[local] Hint Resolve no_panic_domain no_panic_agent_fields no_panic_build_fields no_panic_availability_fields no_panic_fields : panics.

Lemma no_panic_commitment d es : no_panic (build_attestation_commitment d es).
Proof.
  unfold build_attestation_commitment. no_panics. unfold commit_entry, validate_canonical_cid. no_panics.
Qed.
#[local] Hint Resolve no_panic_commitment : panics.

Lemma no_panic_roots p : no_panic (verify_attestation_roots p).
Proof. unfold verify_attestation_roots. no_panics; unfold agent_entry, build_entry, availability_entry; no_panics. Qed.
Lemma no_panic_evidence r : no_panic (review_evidence_commitments r).
Proof. unfold review_evidence_commitments. no_panics; unfold agent_entry, build_entry; no_panics. Qed.
Lemma no_panic_availability r : no_panic (review_availability_commitment r).
Proof. unfold review_availability_commitment. no_panics; unfold availability_entry; no_panics. Qed.

Lemma no_panic_require p st : no_panic (require_state p st).
Proof. unfold require_state. no_panics. Qed.
Lemma no_panic_require_round r st : no_panic (require_review_round_state r st).
Proof. unfold require_review_round_state. no_panics. Qed.
#[local] Hint Resolve no_panic_require_round : panics.
Lemma no_panic_submission r c : no_panic (require_review_round_submission r c).
Proof. unfold require_review_round_submission. no_panics. Qed.

Lemma no_panic_parameters p : no_panic (validate_governance_parameters p).
Proof. unfold validate_governance_parameters. cbv zeta. no_panics. Qed.
#[local] Hint Resolve no_panic_parameters : panics.
Lemma no_panic_scope c : no_panic (validate_proposal_scope c).
Proof. unfold validate_proposal_scope, validate_canonical_cid. cbv zeta. no_panics. Qed.
#[local] Hint Resolve no_panic_scope : panics.
Lemma no_panic_candidate_metrics c : no_panic (validate_candidate_metrics c).
Proof. unfold validate_candidate_metrics. no_panics. Qed.
#[local] Hint Resolve no_panic_candidate_metrics : panics.
Lemma no_panic_content c p k o : no_panic (validate_proposal_content_internal c p k o).
Proof. unfold validate_proposal_content_internal, validate_canonical_cid, validate_content_cid. no_panics. Qed.
#[local] Hint Resolve no_panic_content : panics.
Lemma no_panic_scoped_content `{DagCbor CanonicalSourceTreeManifestV1, DagCbor CanonicalSourcePatchV1} c p sc s :
  no_panic (validate_change_proposal_content_with_scope c p sc s).
Proof.
  unfold validate_change_proposal_content_with_scope, validate_canonical_cid, validate_proposer. no_panics.
  unfold check_scope_sources. no_panics.
Qed.
Lemma no_panic_proposal_id c : no_panic (proposal_id c).
Proof. unfold proposal_id, proposal_id_from_review_round. no_panics. Qed.
Lemma no_panic_voters s e : no_panic (build_voter_snapshot s e).
Proof.
  unfold build_voter_snapshot. no_panics. unfold add_voter, snapshot_voter. no_panics.
Qed.
Lemma no_panic_certify a b c d e f : no_panic (certify a b c d e f).
Proof. unfold certify. cbv zeta. no_panics. Qed.
Lemma no_panic_proposal_metrics s c : no_panic (check_proposal_metrics s c).
Proof. unfold check_proposal_metrics. no_panics. Qed.
Lemma no_panic_claimed s c r k : no_panic (check_claimed_round s c r k).
Proof. unfold check_claimed_round. no_panics. Qed.
Lemma no_panic_challenge `{EvidenceJson} p c : no_panic (objective_challenge_succeeds p c).
Proof. unfold objective_challenge_succeeds. no_panics. Qed.
Lemma no_panic_target p i : no_panic (challenge_target p i).
Proof. unfold challenge_target, challengeable. no_panics. Qed.
Lemma no_panic_false_result t b : no_panic (verify_canonical_false_result t b).
Proof. unfold verify_canonical_false_result. no_panics. Qed.
Lemma no_panic_add_weight p c w : no_panic (add_vote_weight p c w).
Proof. unfold add_vote_weight. no_panics. Qed.
Lemma no_panic_subtract_weight p c w : no_panic (subtract_vote_weight p c w).
Proof. unfold subtract_vote_weight. no_panics. Qed.
Lemma no_panic_blocks a b c : no_panic (add_blocks a b c).
Proof. unfold add_blocks. no_panics. Qed.
End no_panics.
#[export] Hint Resolve no_panic_agent_fields no_panic_build_fields no_panic_availability_fields no_panic_roots : panics.
#[export] Hint Resolve no_panic_evidence no_panic_availability no_panic_require no_panic_require_round no_panic_submission : panics.
#[export] Hint Resolve no_panic_scoped_content no_panic_proposal_id no_panic_voters no_panic_certify no_panic_proposal_metrics : panics.
#[export] Hint Resolve no_panic_claimed no_panic_challenge no_panic_target no_panic_false_result no_panic_add_weight : panics.
#[export] Hint Resolve no_panic_subtract_weight no_panic_blocks no_panic_parameters : panics.
