(* ===== verification/GovFunds.v ===== *)
(** * Where the money of the governance engine is

    Stakes, bonds of rounds and proposals, refunds and the burned total, and how
    settlement moves amounts between them: what leaves a bond is refunded or burned,
    to the atom, and settlement does not fail while the total fits in [u128]. *)
From S2P Require Import Prelude Order Text Crates GovText GovMath GovSource GovMetrics GovAttest GovManifest GovScope GovState GovCommit GovRules GovStake GovRound GovEngine GovWp.

Local Open Scope N_scope.

(** ** Sums over maps *)

Definition map_sum {V} (f : V -> N) (m : gmap string V) : N := sum_N (map (fun e => f e.2) (map_to_list m)).

Lemma map_sum_perm {V} (f : V -> N) (l1 l2 : list (string * V)) :
  l1 ≡ₚ l2 -> sum_N (map (fun e => f e.2) l1) = sum_N (map (fun e => f e.2) l2).
Proof. induction 1; cbn [map]; rewrite ?sum_N_cons in *; lia. Qed.

Lemma map_sum_empty {V} (f : V -> N) : map_sum f ∅ = 0.
Proof. unfold map_sum. by rewrite map_to_list_empty. Qed.

Lemma map_sum_insert_new {V} (f : V -> N) m k v : m !! k = None -> map_sum f (<[k := v]> m) = f v + map_sum f m.
Proof. intros Hk. unfold map_sum. rewrite (map_sum_perm f _ ((k, v) :: map_to_list m)) by by apply map_to_list_insert. done. Qed.

Lemma map_sum_insert {V} (f : V -> N) m k v : map_sum f (<[k := v]> m) = f v + map_sum f (delete k m).
Proof. rewrite <-insert_delete_eq. apply map_sum_insert_new, lookup_delete_eq. Qed.

Lemma map_sum_lookup {V} (f : V -> N) m k v : m !! k = Some v -> map_sum f m = f v + map_sum f (delete k m).
Proof. intros Hk. rewrite <-(insert_id m k v Hk) at 1. apply map_sum_insert. Qed.

Lemma map_sum_update {V} (f : V -> N) m k v v' :
  m !! k = Some v -> map_sum f (<[k := v']> m) + f v = map_sum f m + f v'.
Proof. intros Hk. rewrite map_sum_insert, (map_sum_lookup f m k v) by done. lia. Qed.

Lemma map_sum_le {V} (f : V -> N) m k v : m !! k = Some v -> f v <= map_sum f m.
Proof. intros Hk. rewrite (map_sum_lookup f m k v) by done. lia. Qed.

Lemma map_sum_default {V} (f : V -> N) (d : V) m k : f d = 0 -> map_sum f m = f (default d (m !! k)) + map_sum f (delete k m).
Proof.
  intros Hd. destruct (m !! k) as [v|] eqn:Hk; cbn; [by apply map_sum_lookup|]. by rewrite delete_id, Hd by done.
Qed.

Lemma map_sum_zero {V} (f : V -> N) m : (forall k v, m !! k = Some v -> f v = 0) -> map_sum f m = 0.
Proof.
  induction m as [|k v m Hk IH] using map_ind; intros Hz; [apply map_sum_empty|].
  rewrite map_sum_insert_new by done. rewrite (Hz k v) by apply lookup_insert_eq. rewrite IH; [done|].
  intros k' v' Hk'. apply (Hz k'). by rewrite lookup_insert_ne by naive_solver.
Qed.

Lemma map_sum_entries {V} (f : V -> N) (m : gmap string V) : sum_N (map (fun e => f e.2) (btree_entries m)) = map_sum f m.
Proof. apply map_sum_perm. apply sort_by_perm. Qed.

(** ** Amounts *)

Lemma apply_bps_Ok value bps : fits 128 value -> bps <= 10000 ->
  exists burned, apply_bps value bps = Ok burned /\ burned <= value.
Proof.
  intros Hv Hb. unfold apply_bps, checked_mul, checked_add.
  pose proof (N.div_mod value 10000 ltac:(done)) as Hdm. pose proof (N.mod_lt value 10000 ltac:(done)) as Hm.
  set (q := value / 10000) in *. set (r := value mod 10000) in *.
  assert (q * bps <= q * 10000) as Hq by (apply N.mul_le_mono_l; lia).
  assert (r * bps / 10000 <= r) as Hr.
  { apply N.lt_succ_r, N.Div0.div_lt_upper_bound. assert (r * bps <= r * 10000) by (apply N.mul_le_mono_l; lia). lia. }
  unfold fits in Hv. set (t := r * bps / 10000) in *.
  destruct (N.ltb_spec (q * bps) (2 ^ 128)); [|exfalso; lia]. cbn.
  destruct (N.ltb_spec (q * bps + t) (2 ^ 128)); [|exfalso; lia]. cbn. eexists. split; [done|lia].
Qed.

Lemma apply_bps_0 value : apply_bps value 0 = Ok 0.
Proof.
  unfold apply_bps, checked_mul. rewrite N.mul_0_r. cbn [ok_or]. change (0 <? 2 ^ 128) with true. cbn [ok_or mbind result_bind].
  rewrite N.mul_0_r. done.
Qed.

Lemma minus_Ok a b : b <= a -> minus a b = Ok (a - b).
Proof. intros Hb. unfold minus, checked_sub. destruct (N.leb_spec b a); [done|lia]. Qed.

Lemma checked_sum_Ok l : fits 128 (sum_N l) -> checked_sum l = Ok (sum_N l).
Proof.
  unfold checked_sum. intros Hf. enough (forall acc, fits 128 (acc + sum_N l) ->
    try_fold (fun sum value => ok_or GovernanceOverflow (checked_add 128 sum value)) acc l = Ok (acc + sum_N l)) as Hg by by rewrite Hg.
  clear Hf. induction l as [|x l IH]; intros acc Hf; cbn [try_fold]; [unfold sum_N; cbn [foldr]; by rewrite N.add_0_r|].
  rewrite sum_N_cons in *. unfold checked_add. unfold fits in *.
  destruct (N.ltb_spec (acc + x) (2 ^ 128)); [|exfalso; lia]. cbn [ok_or mbind result_bind]. rewrite IH by lia. f_equal. lia.
Qed.

(** ** Stake positions *)

Definition position_funds (p : StakePosition) : N :=
  pos_active_atoms p + sum_N (map sl_atoms (pos_pending p)) + sum_N (map sw_atoms (pos_unbonding p)).

(** What is scheduled to leave is still active. *)
Definition position_ok (p : StakePosition) : Prop := sum_N (map sw_atoms (pos_scheduled p)) <= pos_active_atoms p.

Lemma activate_lots_spec e lots : forall active still, fits 128 (active + sum_N (map sl_atoms lots)) ->
  exists active' still', activate_lots e active still lots = Ok (active', still') /\ active <= active' /\
    active' + sum_N (map sl_atoms still') = active + sum_N (map sl_atoms still) + sum_N (map sl_atoms lots).
Proof.
  induction lots as [|lot lots IH]; intros active still Hf; cbn [activate_lots].
  - exists active, still. split_and!; [done|done|]. change (sum_N (map sl_atoms [])) with 0. lia.
  - cbn [map] in *. rewrite sum_N_cons in *. unfold fits in *. destruct (_ <=? _).
    + unfold checked_add. destruct (N.ltb_spec (active + sl_atoms lot) (2 ^ 128)); [|exfalso; lia].
      destruct (IH (active + sl_atoms lot) still) as (a' & st' & -> & Ha & Hs); [unfold fits; lia|].
      exists a', st'. split_and!; [done|lia|lia].
    + destruct (IH active (still ++ [lot])) as (a' & st' & -> & Ha & Hs); [unfold fits; lia|].
      exists a', st'. split_and!; [done|done|]. rewrite Hs, map_app, sum_N_app. cbn [map]. rewrite sum_N_cons.
      change (sum_N []) with 0. lia.
Qed.

Lemma start_withdrawals_spec e l : forall active u still,
  sum_N (map sw_atoms still) + sum_N (map sw_atoms l) <= active ->
  exists active' u' still', start_withdrawals e active u still l = Ok (active', u', still') /\
    active' + sum_N (map sw_atoms u') = active + sum_N (map sw_atoms u) /\ sum_N (map sw_atoms still') <= active'.
Proof.
  induction l as [|w l IH]; intros active u still Hs; cbn [start_withdrawals].
  - exists active, u, still. split_and!; [done|done|]. change (sum_N (map sw_atoms [])) with 0 in Hs. lia.
  - cbn [map] in *. rewrite sum_N_cons in *. destruct (_ <=? _).
    + unfold checked_sub. destruct (N.leb_spec (sw_atoms w) active); [|exfalso; lia].
      destruct (IH (active - sw_atoms w) (u ++ [w]) still) as (a' & u' & st' & -> & Ha & Ho); [lia|].
      exists a', u', st'. split_and!; [done| |done]. rewrite Ha, map_app, sum_N_app. cbn [map]. rewrite sum_N_cons.
      change (sum_N []) with 0. lia.
    + destruct (IH active u (still ++ [w])) as (a' & u' & st' & -> & Ha & Ho).
      { rewrite map_app, sum_N_app. cbn [map]. rewrite sum_N_cons. change (sum_N []) with 0. lia. }
      eauto 6.
Qed.

Lemma sync_position_spec p e : position_ok p -> fits 128 (position_funds p) ->
  exists p', sync_position p e = (Ok tt, p') /\ position_funds p' = position_funds p /\ position_ok p'.
Proof.
  unfold position_ok, position_funds, sync_position. intros Hok Hf.
  destruct (activate_lots_spec e (pos_pending p) (pos_active_atoms p) []) as (a & st & -> & Ha & Hs).
  { eapply fits_mono; [|exact Hf]. lia. }
  destruct (start_withdrawals_spec e (pos_scheduled p) a (pos_unbonding p) []) as (a' & u & st' & -> & Hu & Hst).
  { change (sum_N (map sw_atoms [])) with 0. lia. }
  eexists. split; [done|]. cbn [pos_active_atoms pos_pending pos_unbonding pos_scheduled]. change (sum_N (map sl_atoms [])) with 0 in Hs. split; [lia|done].
Qed.

Lemma take_atoms_spec l : forall remaining, let '(rest, l') := take_atoms remaining l in
  length l' = length l /\ sum_N l' + remaining = sum_N l + rest /\ rest = remaining - sum_N l.
Proof.
  induction l as [|x l IH]; intros remaining; cbn [take_atoms].
  - change (sum_N []) with 0. split_and!; [done|lia|lia].
  - specialize (IH (remaining - N.min x remaining)). destruct (take_atoms _ l) as [rest l']. destruct IH as (Hl & Hs & Hr).
    rewrite !sum_N_cons. cbn [length]. split_and!; [lia|lia|lia].
Qed.

Lemma sum_filter_positive {A} (f : A -> N) (l : list A) : sum_N (map f (filter (fun x => 0 < f x) l)) = sum_N (map f l).
Proof.
  induction l as [|x l IH]; [done|]. rewrite filter_cons. cbn [map]. case_decide; cbn [map]; rewrite !sum_N_cons, IH; [done|lia].
Qed.

Lemma map_zip_with_set {A} (get : A -> N) (set : A -> N -> A) (l : list A) : (forall a n, get (set a n) = n) ->
  forall ns, length ns = length l -> map get (zip_with set l ns) = ns.
Proof.
  intros Hgs. induction l as [|a l IH]; intros [|n ns] Hl; cbn in *; try done. rewrite Hgs. f_equal. apply IH. lia.
Qed.

Lemma slash_withdrawals_spec remaining l : let '(rest, l') := slash_withdrawals remaining l in
  sum_N (map sw_atoms l') + remaining = sum_N (map sw_atoms l) + rest /\ rest = remaining - sum_N (map sw_atoms l).
Proof.
  unfold slash_withdrawals. pose proof (take_atoms_spec (map sw_atoms l) remaining) as Ht.
  destruct (take_atoms _ _) as [rest ns]. destruct Ht as (Hl & Hs & Hr). rewrite length_map in Hl.
  by rewrite sum_filter_positive, (map_zip_with_set sw_atoms set_withdrawal).
Qed.

Lemma slash_lots_spec remaining l : let '(rest, l') := slash_lots remaining l in
  sum_N (map sl_atoms l') + remaining = sum_N (map sl_atoms l) + rest /\ rest = remaining - sum_N (map sl_atoms l).
Proof.
  unfold slash_lots. pose proof (take_atoms_spec (map sl_atoms l) remaining) as Ht.
  destruct (take_atoms _ _) as [rest ns]. destruct Ht as (Hl & Hs & Hr). rewrite length_map in Hl.
  by rewrite sum_filter_positive, (map_zip_with_set sl_atoms set_lot).
Qed.

Lemma sum_rev (f : ScheduledWithdrawal -> N) l : sum_N (map f (rev l)) = sum_N (map f l).
Proof.
  induction l as [|x l IH]; [done|]. cbn [rev map]. rewrite map_app, sum_N_app, IH, sum_N_cons. cbn [map].
  rewrite sum_N_cons. change (sum_N []) with 0. lia.
Qed.

Lemma slash_position_spec p bps : position_ok p -> fits 128 (position_funds p) -> bps <= 10000 ->
  exists slash p', slash_position p bps = Ok (slash, p') /\ position_funds p' + slash = position_funds p /\ position_ok p'.
Proof.
  unfold position_ok, position_funds. intros Hok Hf Hb. unfold slash_position.
  rewrite (checked_sum_Ok (map sl_atoms _)) by (eapply fits_mono; [|exact Hf]; lia). cbn [mbind result_bind].
  rewrite (checked_sum_Ok (map sw_atoms (pos_unbonding p))) by (eapply fits_mono; [|exact Hf]; lia). cbn [mbind result_bind].
  unfold checked_add. unfold fits in Hf. destruct (N.ltb_spec (pos_active_atoms p + sum_N (map sl_atoms (pos_pending p))) (2 ^ 128)); [|exfalso; lia].
  cbn [mbind option_bind]. destruct (N.ltb_spec (pos_active_atoms p + sum_N (map sl_atoms (pos_pending p)) + sum_N (map sw_atoms (pos_unbonding p))) (2 ^ 128)); [|exfalso; lia].
  cbn [ok_or mbind result_bind]. destruct (apply_bps_Ok _ bps Hf Hb) as (slash & -> & Hle). cbn [mbind result_bind].
  pose proof (slash_withdrawals_spec slash (pos_unbonding p)) as Hu. destruct (slash_withdrawals _ _) as [r1 u']. destruct Hu as [Hu Hr1].
  pose proof (slash_lots_spec r1 (pos_pending p)) as Hp. destruct (slash_lots _ _) as [r2 pend']. destruct Hp as [Hp Hr2].
  unfold reject_if. destruct (N.eqb_spec (r2 - N.min (pos_active_atoms p) r2) 0); [|exfalso; lia]. cbn [negb mbind result_bind].
  rewrite checked_sum_Ok by (unfold fits; lia). cbn [mbind result_bind].
  pose proof (slash_withdrawals_spec (sum_N (map sw_atoms (pos_scheduled p)) - (pos_active_atoms p - N.min (pos_active_atoms p) r2)) (rev (pos_scheduled p))) as Hs.
  destruct (slash_withdrawals _ (rev _)) as [ex sch]. destruct Hs as [Hs He]. rewrite sum_rev in Hs, He.
  destruct (N.eqb_spec ex 0); [|exfalso; lia]. cbn [negb mbind result_bind].
  eexists _, _. split; [done|]. cbn [pos_active_atoms pos_pending pos_unbonding pos_scheduled]. rewrite sum_rev. split; lia.
Qed.

(** ** Bonds and the total *)

Definition bond_funds {I} `{BondInput I} (m : gmap string (Bonded I)) : N :=
  map_sum (fun item => if bonded_settled item then 0 else bond_atoms (bonded_input item)) m.

(** The bonds of the attestations of a proposal that were not returned yet. *)
Definition attestation_funds (p : ProposalRecord) : N :=
  bond_funds (pr_agents p) + bond_funds (pr_builders p) + bond_funds (pr_availability p).

Definition proposal_funds (p : ProposalRecord) : N :=
  (if pr_proposal_bond_settled p then 0 else pc_proposal_bond_atoms (pr_content p)) + attestation_funds p.

(** A claimed round has handed its bonds to the proposal, an expired one has returned them. *)
Definition round_funds (r : ReviewRoundRecord) : N :=
  if is_live_round (rr_state r)
  then rr_bond_atoms r + (bond_funds (rr_agents r) + bond_funds (rr_builders r) + bond_funds (rr_availability r))
  else 0.

Definition total (m : gmap string N) : N := map_sum (fun n => n) m.

Definition liquid_funds (s : GovernanceEngine) : N := total (ge_refunds s) + ge_burned_atoms s.

Definition engine_funds (s : GovernanceEngine) : N :=
  map_sum position_funds (ge_stakes s) + map_sum round_funds (ge_review_rounds s)
  + map_sum proposal_funds (ge_proposals s) + liquid_funds s.

Definition update_proposal (id : string) (p : ProposalRecord) (s : GovernanceEngine) : GovernanceEngine :=
  set_ge_proposals (<[id := p]> (ge_proposals s)) s.

(** [s'] is [s] after [n] atoms were refunded or burned; review candidates may have been released. *)
Definition paid (n : N) (s s' : GovernanceEngine) : Prop :=
  exists refunds burned candidates,
    s' = set_ge_active_review_candidates candidates (set_ge_burned_atoms burned (set_ge_refunds refunds s)) /\
    total refunds + burned = liquid_funds s + n.

Lemma paid_0 s : paid 0 s s.
Proof. exists (ge_refunds s), (ge_burned_atoms s), (ge_active_review_candidates s). split; [by destruct s|]. unfold liquid_funds. lia. Qed.

Lemma paid_trans n1 n2 s1 s2 s3 : paid n1 s1 s2 -> paid n2 s2 s3 -> paid (n1 + n2) s1 s3.
Proof.
  intros (r1 & b1 & c1 & -> & H1) (r2 & b2 & c2 & -> & H2). exists r2, b2, c2. split; [done|].
  unfold liquid_funds in *. cbn [ge_refunds ge_burned_atoms set_ge_active_review_candidates set_ge_burned_atoms set_ge_refunds] in H2. lia.
Qed.

Lemma paid_liquid n s s' : paid n s s' -> liquid_funds s' = liquid_funds s + n.
Proof. intros (r & b & c & -> & Heq). unfold liquid_funds at 1. done. Qed.

Lemma paid_funds n s s' : paid n s s' -> engine_funds s' = engine_funds s + n.
Proof.
  intros Hp. pose proof (paid_liquid _ _ _ Hp) as Hl. destruct Hp as (r & b & c & -> & _). unfold engine_funds.
  rewrite Hl. cbn [ge_stakes ge_review_rounds ge_proposals set_ge_active_review_candidates set_ge_burned_atoms set_ge_refunds]. lia.
Qed.

Lemma credit_refund_spec a n s : fits 128 (liquid_funds s + n) ->
  wp (credit_refund a n) (fun _ s' => paid n s s') (fun _ _ => False) s.
Proof.
  intros Hf. unfold credit_refund. destruct (N.eqb_spec n 0) as [->|]; [apply wp_ret, paid_0|].
  apply wp_bind, wp_gets. change (id s) with s. pose proof (map_sum_default (fun n => n) 0 (ge_refunds s) a eq_refl) as Hs.
  cbn beta in Hs. unfold liquid_funds, total, fits in Hf. unfold checked_add.
  destruct (N.ltb_spec (default 0 (ge_refunds s !! a) + n) (2 ^ 128)); [|exfalso; lia].
  apply wp_bind. apply wp_lift; [|done]. intros b [= <-]. apply wp_modify.
  exists (<[a := default 0 (ge_refunds s !! a) + n]> (ge_refunds s)), (ge_burned_atoms s), (ge_active_review_candidates s).
  split; [by destruct s|]. unfold liquid_funds, total. rewrite map_sum_insert. lia.
Qed.

Lemma burn_spec n s : fits 128 (liquid_funds s + n) -> wp (burn n) (fun _ s' => paid n s s') (fun _ _ => False) s.
Proof.
  intros Hf. unfold burn. apply wp_bind, wp_gets. change (id s) with s. unfold liquid_funds, fits in Hf. unfold checked_add.
  destruct (N.ltb_spec (ge_burned_atoms s + n) (2 ^ 128)); [|exfalso; lia].
  apply wp_bind. apply wp_lift; [|done]. intros b [= <-]. apply wp_modify.
  exists (ge_refunds s), (ge_burned_atoms s + n), (ge_active_review_candidates s).
  split; [by destruct s|]. unfold liquid_funds. lia.
Qed.

(** A list of payments, each total while the sum fits. *)
Lemma payments_spec {A} (pay : A -> engine_method unit) (amount : A -> N) (l : list A) s :
  (forall x s', x ∈ l -> fits 128 (liquid_funds s' + amount x) -> wp (pay x) (fun _ s'' => paid (amount x) s' s'') (fun _ _ => False) s') ->
  fits 128 (liquid_funds s + sum_N (map amount l)) ->
  wp (for_each pay l) (fun _ s' => paid (sum_N (map amount l)) s s') (fun _ _ => False) s.
Proof.
  intros Hpay Hf. apply (wp_for_each pay (fun don s' => paid (sum_N (map amount don)) s s')); [apply paid_0|].
  intros don x rest s' -> Hs. rewrite map_app, sum_N_app in Hf. cbn [map] in Hf. rewrite sum_N_cons in Hf.
  eapply wp_mono; [apply Hpay| |done].
  - set_solver.
  - rewrite (paid_liquid _ _ _ Hs). eapply fits_mono; [|exact Hf]. lia.
  - cbn beta. intros _ s'' Hp. rewrite map_app, sum_N_app. cbn [map]. rewrite sum_N_cons.
    change (sum_N []) with 0. rewrite N.add_0_r. by eapply paid_trans.
Qed.

Lemma unsettled_funds {I} `{BondInput I} (m : gmap string (Bonded I)) :
  sum_N (map (fun entry => bond_atoms (bonded_input entry.2)) (unsettled m)) = bond_funds m.
Proof.
  unfold bond_funds. rewrite <-map_sum_entries. unfold unsettled. induction (btree_entries m) as [|[cid item] l IH]; [done|].
  rewrite filter_cons. cbn [snd map]. rewrite sum_N_cons. case_decide as Hd.
  - cbn [map]. rewrite sum_N_cons, IH. cbn [snd]. by rewrite Hd.
  - rewrite IH. destruct (bonded_settled item); [done|by exfalso].
Qed.

Lemma settled_funds {I} `{BondInput I} (m : gmap string (Bonded I)) : bond_funds (settle_bond <$> m) = 0.
Proof. apply map_sum_zero. intros k v Hk. rewrite lookup_fmap in Hk. destruct (m !! k); [|done]. cbn in Hk. by injection Hk as <-. Qed.

(** Without a challenge every bond is returned in full. *)
Lemma settlements_None {I} `{BondInput I} bps (l : list (string * Bonded I)) :
  try_map (settlement None bps) l = Ok (map (fun e => (bond_owner (bonded_input e.2), bond_atoms (bonded_input e.2), 0)) l).
Proof.
  induction l as [|[cid item] l IH]; [done|]. cbn [try_map map]. rewrite IH.
  assert (settlement None bps (cid, item) = Ok (bond_owner (bonded_input item), bond_atoms (bonded_input item), 0)) as ->; [|done].
  unfold settlement. rewrite bool_decide_false by done. rewrite apply_bps_0. cbn [mbind result_bind]. rewrite minus_Ok by lia.
  cbn [mbind result_bind]. by rewrite N.sub_0_r.
Qed.

(** A proposal whose attestation bonds are all settled. *)
Definition attestations_settled (p : ProposalRecord) : ProposalRecord :=
  set_pr_agents (settle_bond <$> pr_agents p)
    (set_pr_builders (settle_bond <$> pr_builders p) (set_pr_availability (settle_bond <$> pr_availability p) p)).

Lemma refund_unsettled_spec id p s : ge_proposals s !! id = Some p -> fits 128 (liquid_funds s + attestation_funds p) ->
  wp (refund_unsettled_attestations id None)
    (fun _ s' => paid (attestation_funds p) (update_proposal id (attestations_settled p) s) s') (fun _ _ => False) s.
Proof.
  intros Hp Hf. unfold refund_unsettled_attestations. apply wp_bind, wp_gets, wp_bind.
  apply wp_asks; rewrite Hp; [|done]. intros p' [= <-].
  do 3 (apply wp_bind, wp_lift; rewrite settlements_None; [|done]; intros ? [= <-]).
  apply wp_bind, wp_modify. set (l := _ ++ _ ++ _). 
  assert (sum_N (map (fun e : string * N * N => e.1.2 + e.2) l) = attestation_funds p) as Hsum.
  { unfold l, attestation_funds. rewrite <-!unsettled_funds, !map_app, !sum_N_app, !map_map. cbn [fst snd].
    assert (forall {X} (f : X -> N) k, sum_N (map (fun x => f x + 0) k) = sum_N (map f k)) as Hz
      by (intros X f k; induction k as [|y k IH]; [done|]; cbn [map]; rewrite !sum_N_cons, IH; lia).
    rewrite !Hz, N.add_assoc. reflexivity. }
  rewrite <-Hsum. fold (attestations_settled p). fold (update_proposal id (attestations_settled p) s).
  apply payments_spec; [|by rewrite Hsum].
  intros [[a r] b] s' _ Hf'. cbn [fst snd] in *. unfold pay_settlement. apply wp_bind.
  eapply wp_mono; [apply credit_refund_spec; eapply fits_mono; [|exact Hf']; lia| |done].
  cbn beta. intros _ s1 H1. eapply wp_mono; [apply burn_spec; rewrite (paid_liquid _ _ _ H1); eapply fits_mono; [|exact Hf']; lia| |done].
  cbn beta. intros _ s2 H2. by eapply paid_trans.
Qed.

(** ** Closing a proposal *)

(** Every bond of the proposal is settled. *)
Definition closed (p : ProposalRecord) : ProposalRecord := attestations_settled (set_pr_proposal_bond_settled true p).

Lemma closed_funds p : proposal_funds (closed p) = 0.
Proof.
  unfold proposal_funds, attestation_funds, closed, attestations_settled.
  cbn [pr_proposal_bond_settled pr_agents pr_builders pr_availability set_pr_agents set_pr_builders set_pr_availability set_pr_proposal_bond_settled].
  by rewrite !settled_funds.
Qed.

Lemma paid_proposals n s s' : paid n s s' -> ge_proposals s' = ge_proposals s.
Proof. by intros (r & b & c & -> & _). Qed.
Lemma paid_parameters n s s' : paid n s s' -> ge_parameters s' = ge_parameters s.
Proof. by intros (r & b & c & -> & _). Qed.

Lemma paid_update n s s' id p : paid n s s' -> paid n (update_proposal id p s) (update_proposal id p s').
Proof. intros (r & b & c & -> & Heq). exists r, b, c. split; [by destruct s|done]. Qed.

Lemma update_update id p1 p2 s : update_proposal id p2 (update_proposal id p1 s) = update_proposal id p2 s.
Proof. unfold update_proposal, set_ge_proposals. cbn [ge_proposals]. rewrite insert_insert_eq. by destruct s. Qed.

Section settle_specs.
Context `{Hashing}.

Lemma settle_rest_spec id p s : ge_proposals s !! id = Some p -> fits 128 (liquid_funds s + attestation_funds p) ->
  wp (settle_rest id) (fun _ s' => paid (attestation_funds p) (update_proposal id (attestations_settled p) s) s') (fun _ _ => False) s.
Proof.
  intros Hp Hf. unfold settle_rest. apply wp_bind. eapply wp_mono; [by apply refund_unsettled_spec| |done]. cbn beta.
  intros _ s1 H1. unfold release_review_candidate_for_proposal. apply wp_bind.
  assert (ge_proposals s1 !! id = Some (attestations_settled p)) as Hp1.
  { rewrite (paid_proposals _ _ _ H1). apply lookup_insert_eq. }
  apply wp_asks; rewrite Hp1; [|done]. intros p' [= <-]. apply wp_modify.
  rewrite <-(N.add_0_r (attestation_funds p)). eapply paid_trans; [exact H1|].
  eexists (ge_refunds s1), (ge_burned_atoms s1), _. split; [by destruct s1|]. unfold liquid_funds. lia.
Qed.

Lemma take_bond_spec id p s : ge_proposals s !! id = Some p ->
  wp (take_proposal_bond id)
    (fun r s' => r = (pc_proposer_address (pr_content p), pc_proposal_bond_atoms (pr_content p), pr_proposal_bond_settled p) /\
                 s' = update_proposal id (set_pr_proposal_bond_settled true p) s) (fun _ _ => False) s.
Proof.
  intros Hp. unfold take_proposal_bond. apply wp_bind, wp_asks; rewrite Hp; [|done]. intros p' [= <-].
  apply wp_bind, wp_modify, wp_ret. done.
Qed.

(** The shape of the five ways to settle a proposal: [pay] disposes of the proposal bond. *)
Lemma settle_spec (pay : string -> N -> engine_method unit) id p s :
  ge_proposals s !! id = Some p -> fits 128 (liquid_funds s + proposal_funds p) ->
  (forall s1, ge_parameters s1 = ge_parameters s -> fits 128 (liquid_funds s1 + pc_proposal_bond_atoms (pr_content p)) ->
     wp (pay (pc_proposer_address (pr_content p)) (pc_proposal_bond_atoms (pr_content p)))
       (fun _ s2 => paid (pc_proposal_bond_atoms (pr_content p)) s1 s2) (fun _ _ => False) s1) ->
  wp ('(proposer, bond, settled) ← take_proposal_bond id; _ ← unless_settled settled (pay proposer bond); settle_rest id)
    (fun _ s' => paid (proposal_funds p) (update_proposal id (closed p) s) s') (fun _ _ => False) s.
Proof.
  intros Hp Hf Hpay. apply wp_bind. eapply wp_mono; [by apply take_bond_spec| |done]. cbn beta.
  intros _ s1 [-> Hs1]. cbn beta iota. apply wp_bind.
  set (n := if pr_proposal_bond_settled p then 0 else pc_proposal_bond_atoms (pr_content p)).
  assert (wp (unless_settled (pr_proposal_bond_settled p) (pay (pc_proposer_address (pr_content p)) (pc_proposal_bond_atoms (pr_content p))))
            (fun _ s2 => paid n s1 s2) (fun _ _ => False) s1) as Hbond.
  { unfold proposal_funds in Hf. unfold unless_settled, n. destruct (pr_proposal_bond_settled p); [apply wp_ret, paid_0|].
    apply Hpay; [by rewrite Hs1|]. eapply fits_mono; [|exact Hf]. rewrite Hs1. change (liquid_funds (update_proposal _ _ s)) with (liquid_funds s). lia. }
  eapply wp_mono; [exact Hbond| |done]. cbn beta. intros _ s2 H2. set (q := set_pr_proposal_bond_settled true p) in *.
  assert (attestation_funds q = attestation_funds p) as Hq by done.
  eapply wp_mono; [apply (settle_rest_spec id q)| |done].
  - rewrite (paid_proposals _ _ _ H2), Hs1. apply lookup_insert_eq.
  - rewrite (paid_liquid _ _ _ H2), Hq. subst s1. change (liquid_funds (update_proposal _ _ s)) with (liquid_funds s).
    unfold proposal_funds in Hf. fold n in Hf. by rewrite <-N.add_assoc.
  - cbn beta. intros _ s3 H3. rewrite Hq in H3. apply (paid_update _ _ _ id (attestations_settled q)) in H2.
    subst s1. rewrite update_update in H2. unfold proposal_funds. fold n. by eapply paid_trans.
Qed.

(** Returning a part and burning the rest, in either order. *)
Lemma refund_then_burn owner bond refund s : refund <= bond -> fits 128 (liquid_funds s + bond) ->
  wp (_ ← credit_refund owner refund; rest ← lift (minus bond refund); burn rest)
    (fun _ s' => paid bond s s') (fun _ _ => False) s.
Proof.
  intros Hr Hf. apply wp_bind. eapply wp_mono; [apply credit_refund_spec; eapply fits_mono; [|exact Hf]; lia| |done].
  cbn beta. intros _ s1 H1. rewrite minus_Ok by done. apply wp_bind, wp_lift; [|done]. intros rest [= <-].
  eapply wp_mono; [apply burn_spec; rewrite (paid_liquid _ _ _ H1); eapply fits_mono; [|exact Hf]; lia| |done].
  cbn beta. intros _ s2 H2. replace bond with (refund + (bond - refund)) by lia. by eapply paid_trans.
Qed.

Lemma burn_then_refund owner bond slash s : slash <= bond -> fits 128 (liquid_funds s + bond) ->
  wp (_ ← burn slash; rest ← lift (minus bond slash); credit_refund owner rest)
    (fun _ s' => paid bond s s') (fun _ _ => False) s.
Proof.
  intros Hr Hf. apply wp_bind. eapply wp_mono; [apply burn_spec; eapply fits_mono; [|exact Hf]; lia| |done].
  cbn beta. intros _ s1 H1. rewrite minus_Ok by done. apply wp_bind, wp_lift; [|done]. intros rest [= <-].
  eapply wp_mono; [apply credit_refund_spec; rewrite (paid_liquid _ _ _ H1); eapply fits_mono; [|exact Hf]; lia| |done].
  cbn beta. intros _ s2 H2. replace bond with (slash + (bond - slash)) by lia. by eapply paid_trans.
Qed.
End settle_specs.

(** ** What validated parameters guarantee *)

Record parameters_ok (p : GovernanceParameterSetV1) : Prop := {
  ok_rejected : rejected_return_bps (proposal_bond_policy p) <= 10000;
  ok_expired : expired_slash_bps (proposal_bond_policy p) <= 10000;
  ok_proposal : fraudulent_proposal_slash_bps (objective_slash_policy p) <= 10000;
  ok_reviewer : fraudulent_reviewer_slash_bps (objective_slash_policy p) <= 10000;
  ok_builder : fraudulent_builder_slash_bps (objective_slash_policy p) <= 10000;
  ok_unavailable : unavailable_data_slash_bps (objective_slash_policy p) <= 10000;
  ok_stake : fraudulent_actor_stake_slash_bps (objective_slash_policy p) <= 10000;
  ok_fee : exists fee, parse_atoms (stale_processing_fee_atoms (proposal_bond_policy p)) = Ok fee;
  ok_activation : 0 < activation_delay_epochs p < unbonding_delay_epochs p
}.

Lemma validated_parameters p : validate_governance_parameters p = Ok tt -> parameters_ok p.
Proof.
  unfold validate_governance_parameters. cbv zeta. destruct (_ || _) eqn:Hif; [done|]. bool_inv. intros Hall%try_for_each_Ok.
  rewrite !Forall_cons in Hall. destruct Hall as (_ & _ & _ & _ & _ & Hfee & _).
  apply bind_Ok in Hfee as (fee & Hfee & _). constructor; try assumption; [by exists fee|]. lia.
Qed.
