(* ===== verification/GovInvariant.v ===== *)
(** * The invariant of the governance engine

    What holds of every reachable engine: well-formed positions, rounds and proposals,
    exact vote tallies, settled bonds of finished proposals, gates that accepted proposals
    meet, and a history of executions that leads to the canonical ecosystem.  Each
    kind of change to the engine keeps it and accounts for the money. *)
From S2P Require Import Prelude Order Text Crates GovText GovMath GovSource GovMetrics GovAttest GovManifest GovScope GovState GovCommit GovRules GovStake GovRound GovEngine GovWp GovFunds.

Local Open Scope N_scope.

(** ** Proposals, rounds and history *)

(** The weight cast for a choice. *)
Definition tally (choice : VoteChoice) (votes : gmap string GovernanceVoteReceiptV1) : N :=
  map_sum (fun r => if bool_decide (vr_choice r = choice) then vr_effective_vote_weight r else 0) votes.

(** States that are reached only through accepted gates. *)
Definition is_accepted (state : ProposalState) : bool :=
  match state with AcceptedPendingChallenge | Challenged | AcceptedPendingExecution | Executed => true | _ => false end.

Definition meets_gates (parameters : GovernanceParameterSetV1) (p : ProposalRecord) : Prop :=
  accepted (evaluate_gates (pc_risk_class (pr_content p)) (gp_normal parameters) (gp_critical parameters)
              (acceptance_evidence p)) = true.

Record proposal_ok (parameters : GovernanceParameterSetV1) (id : string) (p : ProposalRecord) : Prop := {
  po_id : pr_id p = id;
  po_yes : pr_yes_weight p = tally Yes (pr_votes p);
  po_no : pr_no_weight p = tally No (pr_votes p);
  po_abstain : pr_abstain_weight p = tally Abstain (pr_votes p);
  po_votes voter r : pr_votes p !! voter = Some r ->
    exists v, pr_voter_snapshot p !! voter = Some v /\ vr_effective_vote_weight r = vt_weight v;
  po_total : pr_total_registered_weight p = map_sum vt_weight (pr_voter_snapshot p);
  po_settled : pr_proposal_bond_settled p = is_terminal (pr_state p);
  po_returned : is_terminal (pr_state p) = true -> attestation_funds p = 0;
  po_accepted : is_accepted (pr_state p) = true -> meets_gates parameters p
}.

(** The sources that reviews of the round are compared with are there. *)
Definition round_ok (r : ReviewRoundRecord) : Prop :=
  forall name, name ∈ rr_affected_repositories r -> is_Some (rr_candidate_source_cids r !! name).

(** Each event starts from the ecosystem that the one before it made canonical. *)
Fixpoint linked (from : string) (events : list GovernanceEvent) (to : string) : Prop :=
  match events with
  | [] => from = to
  | e :: rest => ev_old_cid e = from /\ linked (ev_new_cid e) rest to
  end.

Definition executed_by (proposals : gmap string ProposalRecord) (e : GovernanceEvent) : Prop :=
  exists p, proposals !! ev_proposal_id e = Some p /\ pr_state p = Executed /\
    pc_parent_canonical_ecosystem_cid (pr_content p) = ev_old_cid e /\
    pc_candidate_ecosystem_cid (pr_content p) = ev_new_cid e.

(** [origin] is the ecosystem the engine was initialised with. *)
Record engine_ok (origin : string) (s : GovernanceEngine) : Prop := {
  eo_parameters : parameters_ok (ge_parameters s);
  eo_stakes a p : ge_stakes s !! a = Some p -> position_ok p;
  eo_rounds id r : ge_review_rounds s !! id = Some r -> round_ok r;
  eo_proposals id p : ge_proposals s !! id = Some p -> proposal_ok (ge_parameters s) id p;
  eo_linked : linked origin (ge_events s) (ge_canonical_ecosystem_cid s);
  eo_executed : Forall (executed_by (ge_proposals s)) (ge_events s)
}.

(** Finished proposals stay as they are. *)
Definition keeps_finished (s s' : GovernanceEngine) : Prop :=
  forall id p, ge_proposals s !! id = Some p -> is_terminal (pr_state p) = true -> ge_proposals s' !! id = Some p.

(** A step of the engine that takes [deposit] atoms in and pays [payout] out. *)
Record advances (origin : string) (deposit payout : N) (s s' : GovernanceEngine) : Prop := {
  adv_ok : engine_ok origin s';
  adv_funds : engine_funds s' + payout = engine_funds s + deposit;
  adv_finished : keeps_finished s s';
  adv_parameters : ge_parameters s' = ge_parameters s
}.

Lemma advances_0 origin s : engine_ok origin s -> advances origin 0 0 s s.
Proof. intros Hok. constructor; [done|done| |done]. by intros id p. Qed.

Lemma advances_trans origin d1 w1 d2 w2 s1 s2 s3 :
  advances origin d1 w1 s1 s2 -> advances origin d2 w2 s2 s3 -> advances origin (d1 + d2) (w1 + w2) s1 s3.
Proof.
  intros [_ Hf1 Hk1 Hp1] [Hok Hf2 Hk2 Hp2]. constructor; [done|lia| |congruence]. intros id p Hp Ht.
  apply Hk2, Ht. by apply Hk1.
Qed.

Lemma linked_app from events mid e : linked from events mid -> ev_old_cid e = mid -> linked from (events ++ [e]) (ev_new_cid e).
Proof. revert from. induction events as [|e' events IH]; intros from; cbn; naive_solver. Qed.

(** ** Changes of one part *)

(** Changes outside stakes, rounds, proposals and history. *)
Lemma advances_same origin n m s s' : engine_ok origin s ->
  ge_parameters s' = ge_parameters s -> ge_stakes s' = ge_stakes s -> ge_review_rounds s' = ge_review_rounds s ->
  ge_proposals s' = ge_proposals s -> ge_events s' = ge_events s ->
  ge_canonical_ecosystem_cid s' = ge_canonical_ecosystem_cid s -> liquid_funds s' + m = liquid_funds s + n ->
  advances origin n m s s'.
Proof.
  intros [Hp Hst Hr Hpr Hl He] E1 E2 E3 E4 E5 E6 Hliq. constructor; [constructor| | |done].
  - by rewrite E1.
  - by rewrite E2.
  - by rewrite E3.
  - by rewrite E4, E1.
  - by rewrite E5, E6.
  - by rewrite E4, E5.
  - unfold engine_funds. rewrite E2, E3, E4. lia.
  - intros id p Hp'. by rewrite E4.
Qed.

Lemma advances_stake origin a pos' d s : engine_ok origin s -> position_ok pos' ->
  position_funds pos' = position_funds (default default_position (ge_stakes s !! a)) + d ->
  advances origin d 0 s (set_ge_stakes (<[a := pos']> (ge_stakes s)) s).
Proof.
  intros [Hp Hst Hr Hpr Hl He] Hpos Hf. constructor; [constructor; try done| |by intros id p|done].
  - intros a' p. cbn [ge_stakes set_ge_stakes]. destruct (decide (a = a')) as [<-|].
    + rewrite lookup_insert_eq. by intros [= <-].
    + rewrite lookup_insert_ne by done. apply Hst.
  - unfold engine_funds. cbn [ge_stakes ge_review_rounds ge_proposals set_ge_stakes].
    change (liquid_funds (set_ge_stakes _ s)) with (liquid_funds s). rewrite map_sum_insert, Hf.
    rewrite (map_sum_default position_funds default_position (ge_stakes s) a) by done. lia.
Qed.

Lemma advances_round origin id r' d s : engine_ok origin s -> round_ok r' ->
  round_funds r' = match ge_review_rounds s !! id with Some r => round_funds r | None => 0 end + d ->
  advances origin d 0 s (set_ge_review_rounds (<[id := r']> (ge_review_rounds s)) s).
Proof.
  intros [Hp Hst Hr Hpr Hl He] Hro Hf. constructor; [constructor; try done| |by intros id' p|done].
  - intros id' r. cbn [ge_review_rounds set_ge_review_rounds]. destruct (decide (id = id')) as [<-|].
    + rewrite lookup_insert_eq. by intros [= <-].
    + rewrite lookup_insert_ne by done. apply Hr.
  - unfold engine_funds. cbn [ge_stakes ge_review_rounds ge_proposals set_ge_review_rounds].
    change (liquid_funds (set_ge_review_rounds _ s)) with (liquid_funds s). rewrite map_sum_insert, Hf.
    destruct (ge_review_rounds s !! id) as [r|] eqn:Hid.
    + rewrite (map_sum_lookup round_funds (ge_review_rounds s) id r) by done. lia.
    + rewrite delete_id by done. lia.
Qed.

(** A proposal that is not finished changes, and [n] atoms are refunded or burned. *)
Lemma proposal_step origin id p p' n s s' : engine_ok origin s -> ge_proposals s !! id = Some p ->
  is_terminal (pr_state p) = false -> proposal_ok (ge_parameters s) id p' -> paid n (update_proposal id p' s) s' ->
  engine_ok origin s' /\ engine_funds s' + proposal_funds p = engine_funds s + proposal_funds p' + n /\
  keeps_finished s s' /\ ge_parameters s' = ge_parameters s.
Proof.
  intros [Hp Hst Hr Hpr Hl He] Hid Hnt Hok' Hpaid. pose proof (paid_funds _ _ _ Hpaid) as Hfunds.
  assert (keeps_finished s s') as Hkeep.
  { intros id' q Hq Ht. rewrite (paid_proposals _ _ _ Hpaid). cbn [ge_proposals update_proposal set_ge_proposals].
    rewrite lookup_insert_ne; [done|]. intros <-. congruence. }
  destruct Hpaid as (rf & b & c & -> & _). split_and!; [constructor; try done| |done|done].
  - intros id' q. cbn [ge_proposals ge_parameters update_proposal set_ge_proposals set_ge_active_review_candidates set_ge_burned_atoms set_ge_refunds].
    destruct (decide (id = id')) as [<-|].
    + rewrite lookup_insert_eq. by intros [= <-].
    + rewrite lookup_insert_ne by done. apply Hpr.
  - eapply Forall_impl; [exact He|]. intros e (q & Hq & Hex & Hc). exists q. split; [|done]. apply Hkeep; [done|]. by rewrite Hex.
  - rewrite Hfunds. unfold engine_funds. cbn [ge_stakes ge_review_rounds ge_proposals update_proposal set_ge_proposals].
    change (liquid_funds (update_proposal id p' s)) with (liquid_funds s).
    pose proof (map_sum_update proposal_funds (ge_proposals s) id p p' Hid). lia.
Qed.

Lemma advances_proposal origin id p p' n s s' : engine_ok origin s -> ge_proposals s !! id = Some p ->
  is_terminal (pr_state p) = false -> proposal_ok (ge_parameters s) id p' -> proposal_funds p' + n = proposal_funds p ->
  paid n (update_proposal id p' s) s' -> advances origin 0 0 s s'.
Proof.
  intros Hok Hid Hnt Hok' Hf Hpaid. destruct (proposal_step _ _ _ _ _ _ _ Hok Hid Hnt Hok' Hpaid) as (? & Hfunds & ? & ?).
  constructor; [done|lia|done|done].
Qed.

Lemma proposal_funds_le s id p : ge_proposals s !! id = Some p -> liquid_funds s + proposal_funds p <= engine_funds s.
Proof. intros Hid. unfold engine_funds. pose proof (map_sum_le proposal_funds _ _ _ Hid). lia. Qed.

Lemma position_funds_le s a : position_funds (default default_position (ge_stakes s !! a)) <= engine_funds s.
Proof. unfold engine_funds. rewrite (map_sum_default position_funds default_position (ge_stakes s) a) by done. lia. Qed.

Lemma default_position_ok origin s a : engine_ok origin s -> position_ok (default default_position (ge_stakes s !! a)).
Proof. intros Hok. destruct (ge_stakes s !! a) as [p|] eqn:Ha; cbn; [by apply (eo_stakes _ _ Hok a)|]. unfold position_ok. cbn. done. Qed.
