(* ===== verification/GovSteps.v ===== *)
(** * Every operation of the governance engine keeps its invariant

    For each handler: on success and on failure the invariant holds again, the total
    of the money changes by exactly what was attached or paid out, finished proposals are
    untouched, and no panic occurs. *)
From S2P Require Import Prelude Order Text Crates GovText GovMath GovSource GovMetrics GovAttest GovManifest GovScope GovState GovCommit GovRules GovStake GovRound GovEngine GovWp GovFunds GovInvariant.

Local Open Scope N_scope.

(** ** Rules *)

(** A failure that is no panic and leaves the engine as an advance of nothing. *)
Definition failed (origin : string) (s : GovernanceEngine) (e : GovernanceError) (s' : GovernanceEngine) : Prop :=
  e <> GovernancePanic /\ advances origin 0 0 s s'.
(** A failure under [with_atomic_state]. *)
Definition reverted (e : GovernanceError) (s' : GovernanceEngine) : Prop := e <> GovernancePanic.

Lemma wp_check {A} (r : governed A) (Q : A -> GovernanceEngine -> Prop) (R : GovernanceError -> GovernanceEngine -> Prop) s :
  no_panic r -> (forall e, e <> GovernancePanic -> R e s) -> (forall a, r = Ok a -> Q a s) -> wp (lift r) Q R s.
Proof. intros Hn HR HQ. apply wp_lift; [done|]. intros e He. apply HR. unfold no_panic in Hn. congruence. Qed.

Lemma wp_proposal_mut id (Q : ProposalRecord -> GovernanceEngine -> Prop) (R : GovernanceError -> GovernanceEngine -> Prop) s :
  (forall e, e <> GovernancePanic -> R e s) -> (forall p, ge_proposals s !! id = Some p -> Q p s) -> wp (proposal_mut id) Q R s.
Proof. intros HR HQ. unfold proposal_mut. apply wp_asks; destruct (ge_proposals s !! id) as [p|]; try done; [intros ? [= <-]; by apply HQ|intros ? [= <-]; by apply HR]. Qed.

Lemma wp_round_mut id (Q : ReviewRoundRecord -> GovernanceEngine -> Prop) (R : GovernanceError -> GovernanceEngine -> Prop) s :
  (forall e, e <> GovernancePanic -> R e s) -> (forall r, ge_review_rounds s !! id = Some r -> Q r s) -> wp (review_round_mut id) Q R s.
Proof. intros HR HQ. unfold review_round_mut. apply wp_asks; destruct (ge_review_rounds s !! id) as [p|]; try done; [intros ? [= <-]; by apply HQ|intros ? [= <-]; by apply HR]. Qed.

Lemma wp_no_error {A} (m : engine_method A) (Q Q' : A -> GovernanceEngine -> Prop) R s :
  wp m Q' (fun _ _ => False) s -> (forall a s', Q' a s' -> Q a s') -> wp m Q R s.
Proof. intros Hm HQ. eapply wp_mono; [exact Hm|done|done]. Qed.

Lemma wp_atomic_ok {A} origin (m : engine_method A) Q s : engine_ok origin s ->
  wp m Q reverted s -> wp (with_atomic_state m) Q (failed origin s) s.
Proof. intros Hok Hm. apply wp_atomic. eapply wp_mono; [exact Hm|done|]. intros e s1 He. split; [exact He|by apply advances_0]. Qed.

(** One statement of a method: checks fail without a panic. *)
Ltac step :=
  match goal with
  | |- wp (_ ≫= _) _ _ _ => apply wp_bind
  | |- wp (mret _) _ _ _ => apply wp_ret
  | |- wp (gets _) _ _ _ => apply wp_gets
  | |- wp (modify _) _ _ _ => apply wp_modify
  | |- wp (put_proposal _ _) _ _ _ => apply wp_modify
  | |- wp (put_round _ _) _ _ _ => apply wp_modify
  | |- wp (put_stake _ _) _ _ _ => apply wp_modify
  | |- wp (throw _) _ _ _ => apply wp_throw
  | |- wp (proposal_mut _) _ _ _ => apply wp_proposal_mut; [|intros ? ?]
  | |- wp (review_round_mut _) _ _ _ => apply wp_round_mut; [|intros ? ?]
  | |- wp (lift (Ok _)) _ _ _ => apply wp_lift; [intros ? [= <-]|discriminate]
  | |- wp (lift (reject_if _ _)) _ _ _ => apply wp_check; [apply no_panic_reject; discriminate| |intros ? ?]
  | |- wp (lift _) _ _ _ => apply wp_check; [solve [eauto 3 with panics]| |intros ? ?]
  | |- forall e, e <> GovernancePanic -> reverted e _ => exact (fun e He => He)
  | |- forall e, e <> GovernancePanic -> failed ?o ?s e ?s => intros ? ?; split; [assumption|apply advances_0; assumption]
  | |- forall e, e <> GovernancePanic -> failed _ _ e _ => intros ? ?; split; assumption
  end; cbn beta; change (@id GovernanceEngine) with (fun s : GovernanceEngine => s) in *; cbn beta.

Lemma reject_Ok b e u : reject_if b e = Ok u -> b = false.
Proof. unfold reject_if. by destruct b. Qed.
Ltac rejects := repeat match goal with Hr : reject_if _ _ = Ok _ |- _ => apply reject_Ok in Hr end.

(** ** Identity metrics *)

Section steps.
Context `{Hashing, CidCrate, DagCbor CarHeader, EvidenceJson} (origin : string).

Lemma register_identity_metrics_step caller proof s : engine_ok origin s ->
  wp (register_identity_metrics caller proof) (fun _ s' => advances origin 0 0 s s') (failed origin s) s.
Proof. intros Hok. unfold register_identity_metrics. repeat step. by apply advances_same. Qed.

Lemma submit_identity_metrics_step `{DagCbor IdentityMetricsAttestationV1} caller cid car clock s : engine_ok origin s ->
  wp (submit_identity_metrics_attestation caller cid car clock) (fun _ s' => advances origin 0 0 s s') (failed origin s) s.
Proof.
  intros Hok. unfold submit_identity_metrics_attestation. repeat step.
  - intros e He. split; [done|]. by apply advances_same.
  - by apply advances_same.
Qed.

(** ** Stakes *)

Lemma sync_entry_step a e s : engine_ok origin s -> fits 128 (engine_funds s) ->
  wp (sync_entry a e)
    (fun pos s' => s' = set_ge_stakes (<[a := pos]> (ge_stakes s)) s /\ advances origin 0 0 s s' /\ position_ok pos /\
       position_funds pos = position_funds (default default_position (ge_stakes s !! a))) (fun _ _ => False) s.
Proof.
  intros Hok Hf. unfold sync_entry. repeat step.
  destruct (sync_position_spec (default default_position (ge_stakes s !! a)) e) as (p' & -> & Hp & Hpo).
  { by eapply default_position_ok. } { eapply fits_mono; [apply position_funds_le|done]. }
  repeat step. split_and!; [done| |done|done]. apply advances_stake; [done|done|]. by rewrite N.add_0_r.
Qed.

Lemma sync_all_stakes_step e s : engine_ok origin s -> fits 128 (engine_funds s) ->
  wp (sync_all_stakes e) (fun _ s' => advances origin 0 0 s s' /\ exists stakes, s' = set_ge_stakes stakes s) (fun _ _ => False) s.
Proof.
  intros Hok Hf. unfold sync_all_stakes. repeat step.
  apply (wp_for_each _ (fun _ s' => advances origin 0 0 s s' /\ exists stakes, s' = set_ge_stakes stakes s)).
  - split; [by apply advances_0|]. exists (ge_stakes s). by destruct s.
  - intros don x rest s' _ [Hadv (st & ->)]. step. eapply wp_no_error; [apply sync_entry_step|].
    + apply (adv_ok _ _ _ _ _ Hadv).
    + pose proof (adv_funds _ _ _ _ _ Hadv) as Hfs. rewrite !N.add_0_r in Hfs. by rewrite Hfs.
    + cbn beta. intros pos s' (-> & Hadv' & _). step. split; [|eexists; reflexivity].
      apply (advances_trans _ 0 0 0 0 _ _ _ Hadv Hadv').
Qed.

Lemma register_stake_step caller atoms clock s : engine_ok origin s -> fits 128 (engine_funds s) ->
  wp (register_stake caller atoms clock) (fun _ s' => advances origin atoms 0 s s') (failed origin s) s.
Proof.
  intros Hok Hf. apply wp_atomic_ok; [done|]. unfold register_stake_inner. repeat step.
  eapply wp_no_error; [by apply sync_entry_step|]. cbn beta. intros pos s' (-> & Hadv & Hpos & Hfunds). step.
  rewrite <-(N.add_0_l atoms). eapply (advances_trans _ 0 0 atoms 0); [exact Hadv|]. apply advances_stake.
  - apply (adv_ok _ _ _ _ _ Hadv).
  - done.
  - cbn [ge_stakes set_ge_stakes]. rewrite lookup_insert_eq. unfold position_funds.
    cbn [pos_active_atoms pos_pending pos_unbonding from_option id]. rewrite map_app, sum_N_app. cbn [map]. rewrite sum_N_cons.
    cbn [sl_atoms]. change (sum_N []) with 0. lia.
Qed.

(** A position that was just synchronised is replaced. *)
Lemma replace_synced a pos pos' d s :
  advances origin 0 0 s (set_ge_stakes (<[a := pos]> (ge_stakes s)) s) -> position_ok pos' -> position_funds pos' = position_funds pos + d ->
  advances origin d 0 s (set_ge_stakes (<[a := pos']> (<[a := pos]> (ge_stakes s))) (set_ge_stakes (<[a := pos]> (ge_stakes s)) s)).
Proof.
  intros Hadv Hpos Hf. rewrite <-(N.add_0_l d). eapply (advances_trans _ 0 0 d 0); [exact Hadv|].
  apply (advances_stake origin a pos' d (set_ge_stakes _ s)); [apply (adv_ok _ _ _ _ _ Hadv)|done|].
  cbn [ge_stakes set_ge_stakes]. by rewrite lookup_insert_eq.
Qed.

Lemma schedule_withdrawal_step caller atoms clock s : engine_ok origin s -> fits 128 (engine_funds s) ->
  wp (schedule_withdrawal caller atoms clock) (fun _ s' => advances origin 0 0 s s') (failed origin s) s.
Proof.
  intros Hok Hf. apply wp_atomic_ok; [done|]. unfold schedule_withdrawal_inner. repeat step.
  eapply wp_no_error; [by apply sync_entry_step|]. cbn beta. intros pos s' (-> & Hadv & Hpos & Hfunds). repeat step.
  rejects. bool_inv. match goal with Hs : checked_sum _ = Ok _ |- _ => rename Hs into Hsum end.
  unfold position_ok in Hpos. rewrite checked_sum_Ok in Hsum.
  2: { eapply fits_mono; [|exact Hf]. pose proof (position_funds_le s a0). rewrite <-Hfunds in *. unfold position_funds in *. lia. }
  injection Hsum as <-. eapply replace_synced; [exact Hadv| |].
  - unfold position_ok. cbn [pos_scheduled pos_active_atoms]. rewrite map_app, sum_N_app. cbn [map]. rewrite sum_N_cons.
    cbn [sw_atoms]. change (sum_N []) with 0. lia.
  - unfold position_funds. cbn [pos_active_atoms pos_pending pos_unbonding]. lia.
Qed.

Lemma release_lots_spec now l : forall released remaining r' rem',
  try_fold (release_lot now) (released, remaining) l = Ok (r', rem') ->
  r' + sum_N (map sw_atoms rem') = released + sum_N (map sw_atoms remaining) + sum_N (map sw_atoms l).
Proof.
  induction l as [|w l IH]; intros released remaining r' rem' Hf; cbn [try_fold] in Hf.
  - injection Hf as <- <-. change (sum_N (map sw_atoms [])) with 0. lia.
  - apply bind_Ok in Hf as ([r1 rem1] & Hw & Hf). apply IH in Hf. cbn [map]. rewrite sum_N_cons. unfold release_lot in Hw.
    destruct (_ <=? _).
    + apply bind_Ok in Hw as (r2 & Hr2 & [= <- <-]). apply ok_or_Ok, checked_add_Some in Hr2 as [-> _]. lia.
    + injection Hw as <- <-. rewrite map_app, sum_N_app in Hf. cbn [map] in Hf. rewrite sum_N_cons in Hf.
      change (sum_N []) with 0 in Hf. lia.
Qed.

Lemma release_lots_no_panic now st l : no_panic (try_fold (release_lot now) st l).
Proof. no_panics. unfold release_lot. no_panics. Qed.
#[local] Hint Resolve release_lots_no_panic : panics.

Lemma finalize_unbonding_step caller clock s : engine_ok origin s -> fits 128 (engine_funds s) ->
  wp (finalize_unbonding caller clock) (fun _ s' => advances origin 0 0 s s') (failed origin s) s.
Proof.
  intros Hok Hf. apply wp_atomic_ok; [done|]. unfold finalize_unbonding_inner. repeat step.
  eapply wp_no_error; [by apply sync_entry_step|]. cbn beta. intros pos s1 (-> & Hadv & Hpos & Hfunds). repeat step.
  destruct a1 as [released remaining]. match goal with Hs : try_fold _ _ _ = Ok _ |- _ => apply release_lots_spec in Hs; rename Hs into Hrel end.
  change (sum_N (map sw_atoms [])) with 0 in Hrel. repeat step.
  match goal with |- wp _ _ _ ?st => set (s2 := st) end.
  set (pos2 := {| pos_active_atoms := pos_active_atoms pos |}) in s2.
  assert (position_funds pos2 + released = position_funds pos) as Hp2.
  { unfold position_funds, pos2. cbn [pos_active_atoms pos_pending pos_unbonding]. lia. }
  assert (engine_funds s2 + released = engine_funds s) as Hf2.
  { assert (engine_funds s2 + position_funds pos = engine_funds s + position_funds pos2); [|lia].
    pose proof (adv_funds _ _ _ _ _ Hadv) as Hfs. rewrite !N.add_0_r in Hfs. rewrite <-Hfs.
    unfold engine_funds, s2. cbn [ge_stakes set_ge_stakes ge_review_rounds ge_proposals].
    change (liquid_funds (set_ge_stakes _ _)) with (liquid_funds s). rewrite insert_insert_eq, !map_sum_insert. lia. }
  assert (engine_ok origin s2) as Hok2.
  { destruct (adv_ok _ _ _ _ _ Hadv) as [K1 K2 K3 K4 K5 K6]. constructor; try done.
    intros a' p'. unfold s2. cbn [ge_stakes set_ge_stakes]. rewrite insert_insert_eq. intros [[<- <-]|[Hne Hl]]%lookup_insert_Some; [done|].
    apply (K2 a'). cbn [ge_stakes set_ge_stakes]. by rewrite lookup_insert_ne. }
  eapply wp_no_error; [apply credit_refund_spec|].
  { eapply fits_mono; [|exact Hf]. rewrite <-Hf2. unfold engine_funds. lia. }
  cbn beta. intros _ s3 Hpaid. step. pose proof (paid_funds _ _ _ Hpaid) as Hf3. destruct Hpaid as (rf & b & c & -> & _).
  destruct Hok2 as [K1 K2 K3 K4 K5 K6]. constructor; [by constructor|lia|by intros id p|done].
Qed.

Lemma stake_position_step caller e s : engine_ok origin s -> fits 128 (engine_funds s) ->
  wp (stake_position caller e) (fun _ s' => advances origin 0 0 s s') (failed origin s) s.
Proof.
  intros Hok Hf. apply wp_atomic_ok; [done|]. unfold stake_position_inner. repeat step.
  eapply wp_no_error; [by apply sync_entry_step|]. cbn beta. intros pos s1 (-> & Hadv & _). by repeat step.
Qed.

Lemma withdraw_refund_step caller s : engine_ok origin s ->
  wp (withdraw_refund caller) (fun amount s' => advances origin 0 amount s s') (failed origin s) s.
Proof.
  intros Hok. unfold withdraw_refund. step. step; [step|]. step. step. step. step. match goal with |- wp _ _ _ ?st => set (s1 := st) end.
  assert (advances origin 0 (default 0 (ge_refunds s !! a)) s s1) as Hadv.
  { apply advances_same; try done. unfold liquid_funds, total, s1. cbn [ge_refunds ge_burned_atoms set_ge_refunds].
    rewrite (map_sum_default (fun n => n) 0 (ge_refunds s) a) by done. lia. }
  step. unfold reject_if. destruct (N.eqb_spec (default 0 (ge_refunds s !! a)) 0) as [Hz|].
  - apply wp_lift; [done|]. intros e [= <-]. split; [done|]. by rewrite Hz in Hadv.
  - by repeat step.
Qed.

(** ** Review rounds *)

Lemma affected_sources_dom manifest affected m :
  affected_sources manifest affected = Ok m -> forall name, name ∈ affected -> is_Some (m !! name).
Proof.
  unfold affected_sources. intros (entries & Hmap & [= <-])%bind_Ok name Hin. apply try_map_Ok in Hmap.
  assert (name ∈ map fst entries) as Hkey.
  { induction Hmap as [|n e ns es Hn Hmap IH]; [done|]. apply bind_Ok in Hn as (cid & _ & [= <-]). cbn.
    apply elem_of_cons in Hin as [->|Hin]; [left|right; by apply IH]. }
  unfold btree_collect. clear Hmap Hin. assert (forall acc : gmap string string, (is_Some (acc !! name) \/ name ∈ map fst entries) ->
    is_Some (foldl (fun m '(k, v) => <[k := v]> m) acc entries !! name)) as Hgen; [|by apply Hgen; right].
  clear Hkey. induction entries as [|[k v] es IH]; intros acc Hor; cbn [foldl]; [by destruct Hor as [|Hin%elem_of_nil]|].
  apply IH. cbn in Hor. rewrite elem_of_cons in Hor. destruct (decide (name = k)) as [->|Hne].
  - left. rewrite lookup_insert_eq. by eexists.
  - rewrite lookup_insert_ne by done. naive_solver.
Qed.

Context `{DagCbor CanonicalEcosystemManifestV1, DagCbor CanonicalEcosystemPatchManifestV1,
          DagCbor CanonicalPinsetManifestV1, DagCbor ToolchainManifestV1}.
Context `{DagCbor ProposalScopeEvidenceV1, DagCbor CanonicalSourceTreeManifestV1, DagCbor CanonicalSourcePatchV1}.

(** The repositories of a verified transition exist in both ecosystems. *)
Lemma transition_sources parent candidate patch affected :
  verify_ecosystem_transition parent candidate patch = Ok affected ->
  no_panic (affected_sources (emp_manifest parent) affected) /\ no_panic (affected_sources (emp_manifest candidate) affected).
Proof.
  unfold verify_ecosystem_transition, GovManifest.invalid. cbv zeta. intros Hv. res_inv. subst affected. bool_inv.
  match goal with Hk : ~ btree_keys ?a <> btree_keys ?b |- _ => assert (btree_keys a = btree_keys b) as Hkeys by (destruct (decide (btree_keys a = btree_keys b)); [done|by exfalso]) end.
  assert (forall name, name ∈ changed_sources (source_cids (emp_manifest parent)) (source_cids (emp_manifest candidate)) ->
    name ∈ btree_keys (source_cids (emp_manifest parent))) as Hin.
  { intros name. unfold changed_sources, btree_keys. intros ([k v] & -> & [_ Hkv]%list_elem_of_filter)%list_elem_of_fmap.
    apply list_elem_of_fmap. by exists (k, v). }
  assert (forall m name, name ∈ btree_keys (source_cids m) -> is_Some (source_cids m !! name)) as Hlook.
  { intros m name ([k v] & -> & Hkv)%list_elem_of_fmap. apply btree_entries_elem in Hkv. by exists v. }
  split; unfold affected_sources; fold (source_cids (emp_manifest parent)); fold (source_cids (emp_manifest candidate)); no_panics.
  - destruct (Hlook (emp_manifest parent) x) as [cid ->]; [by apply Hin|done].
  - destruct (Hlook (emp_manifest candidate) x) as [cid ->]; [rewrite <-Hkeys; by apply Hin|done].
Qed.

Lemma no_panic_transition s input : no_panic (review_transition s input).
Proof.
  unfold review_transition, check_scope_transition. cbv zeta. no_panics.
  all: match goal with Ht : map_err _ (verify_ecosystem_transition _ _ _) = Ok _ |- _ => apply map_err_Ok, transition_sources in Ht as [? ?] end; done.
Qed.
#[local] Hint Resolve no_panic_transition : panics.

Lemma review_transition_Ok s input r : review_transition s input = Ok r ->
  round_ok r /\ rr_state r = RoundOpen /\ rr_agents r = ∅ /\ rr_builders r = ∅ /\ rr_availability r = ∅.
Proof.
  unfold review_transition. cbv zeta. intros Hr. unfold reject_if in Hr. res_inv. subst r. split_and!; [|done..].
  unfold round_ok. cbn [rr_affected_repositories rr_candidate_source_cids]. by eapply affected_sources_dom.
Qed.

Lemma no_bonds {I} `{BondInput I} : bond_funds (I := I) ∅ = 0.
Proof. apply map_sum_empty. Qed.

Lemma open_review_round_step input clock s : engine_ok origin s ->
  wp (open_review_round input clock) (fun _ s' => advances origin (or_attached_bond_atoms input) 0 s s') (failed origin s) s.
Proof.
  intros Hok. unfold open_review_round. repeat step. rejects.
  match goal with Hr : review_transition _ _ = Ok _ |- _ => apply review_transition_Ok in Hr as (Hro & Hst & Ha & Hb & Hv) end.
  match goal with Hd : bool_decide (is_Some (ge_review_rounds s !! ?i)) = false |- _ => set (id := i) in *; apply bool_decide_eq_false_1, eq_None_not_Some in Hd; rename Hd into Hnew end.
  match goal with |- advances _ _ _ _ (set_ge_active_review_candidates _ ?st) => set (s1 := st) end.
  assert (advances origin (or_attached_bond_atoms input) 0 s s1) as Hadv.
  { apply advances_round; [done|done|]. rewrite Hnew. unfold round_funds. cbn [rr_state rr_bond_atoms rr_agents rr_builders rr_availability opened_round].
    rewrite Hst, Ha, Hb, Hv, !no_bonds. cbn [is_live_round]. lia. }
  rewrite <-(N.add_0_r (or_attached_bond_atoms input)). apply (advances_trans _ _ 0 0 0 _ s1); [done|].
  apply advances_same; try done. apply (adv_ok _ _ _ _ _ Hadv).
Qed.

Lemma advances_round_at id r r' d s : engine_ok origin s -> ge_review_rounds s !! id = Some r -> round_ok r' ->
  round_funds r' = round_funds r + d -> advances origin d 0 s (set_ge_review_rounds (<[id := r']> (ge_review_rounds s)) s).
Proof. intros Hok Hid Hr Hf. apply advances_round; [done|done|]. by rewrite Hid. Qed.

Lemma freeze_review_round_step id clock s : engine_ok origin s ->
  wp (freeze_review_round id clock) (fun _ s' => advances origin 0 0 s s') (failed origin s) s.
Proof.
  intros Hok. unfold freeze_review_round. repeat step.
  match goal with Hl : ge_review_rounds s !! id = Some ?p |- _ => rename p into r; rename Hl into Hr end.
  pose proof (eo_rounds _ _ Hok _ _ Hr) as Hro. case_bool_decide as Hst.
  - repeat step. match goal with x : (BuiltCidCommitment * BuiltCidCommitment)%type |- _ => destruct x as [agents builders] end.
    repeat step. eapply advances_round_at; [done|done|done|]. unfold round_funds. rewrite Hst.
    cbn [rr_state rr_bond_atoms rr_agents rr_builders rr_availability set_rr_state set_rr_build_attestation_root set_rr_agent_review_root is_live_round]. lia.
  - repeat step. match goal with Hq : require_review_round_state r _ = Ok _ |- _ => unfold require_review_round_state in Hq; case_bool_decide as Hav; [|done] end.
    eapply advances_round_at; [done|done|done|]. unfold round_funds. rewrite Hav.
    cbn [rr_state rr_bond_atoms rr_agents rr_builders rr_availability set_rr_state set_rr_data_availability_root is_live_round]. lia.
Qed.

Lemma register_waiver_step `{DagCbor CriticalFindingWaiverV1} caller id cid car clock s : engine_ok origin s ->
  wp (register_critical_finding_waiver caller id cid car clock) (fun _ s' => advances origin 0 0 s s') (failed origin s) s.
Proof.
  intros Hok. unfold register_critical_finding_waiver, validate_canonical_cid, validate_content_cid. repeat step.
  match goal with Hl : ge_review_rounds s !! id = Some ?p |- _ => rename p into r; rename Hl into Hr end.
  eapply advances_round_at; [done|done|exact (eo_rounds _ _ Hok _ _ Hr)|]. unfold round_funds.
  cbn [rr_state rr_bond_atoms rr_agents rr_builders rr_availability set_rr_critical_finding_waiver set_rr_critical_finding_waiver_cid set_rr_required_availability_cids].
  lia.
Qed.

Lemma owed_funds {I} `{BondInput I} (m : gmap string (Bonded I)) : sum_N (map snd (owed m)) = bond_funds m.
Proof. unfold owed. rewrite map_map. cbn [snd]. apply unsettled_funds. Qed.

Lemma round_burn_Ok st r fee stale : parameters_ok (ge_parameters st) -> fits 128 (rr_bond_atoms r) ->
  exists burned, round_burn st r fee stale = Ok burned /\ burned <= rr_bond_atoms r.
Proof.
  intros Hp Hf. unfold round_burn. destruct stale; [eexists; split; [done|lia]|].
  destruct (_ <=? _); [eexists; split; [done|lia]|]. apply apply_bps_Ok; [done|]. apply (ok_expired _ Hp).
Qed.

Lemma round_funds_le s id r : ge_review_rounds s !! id = Some r -> liquid_funds s + round_funds r <= engine_funds s.
Proof. intros Hid. unfold engine_funds. pose proof (map_sum_le round_funds _ _ _ Hid). lia. Qed.

(** Past its deadline, or after the canonical ecosystem changed, a live round can be expired. *)
Definition round_due (s : GovernanceEngine) (r : ReviewRoundRecord) (clock : GovernanceClock) : bool :=
  is_live_round (rr_state r) &&
  (negb (String.eqb (rr_parent_cid r) (ge_canonical_ecosystem_cid s)) || (rr_claim_deadline r <? block clock)).

Lemma expire_round_total id r clock s : engine_ok origin s -> fits 128 (engine_funds s) ->
  ge_review_rounds s !! id = Some r -> round_due s r clock = true ->
  wp (expire_review_round_inner id clock)
    (fun _ s' => paid (round_funds r) (set_ge_review_rounds (<[id := expired_round r]> (ge_review_rounds s)) s) s') (fun _ _ => False) s.
Proof.
  intros Hok Hf Hr Hdue. unfold round_due in Hdue. apply andb_true_iff in Hdue as [Hlive Hdue].
  pose proof (round_funds_le _ _ _ Hr) as Hle. unfold round_funds in Hle. rewrite Hlive in Hle.
  unfold expire_review_round_inner. destruct (ok_fee _ (eo_parameters _ _ Hok)) as [fee Hfee]. step. step. rewrite Hfee.
  step. step. step. apply wp_asks; rewrite Hr; [|done]. intros r' [= <-]. rewrite Hlive. cbn [negb reject_if]. step. step.
  assert (reject_if (negb (negb (String.eqb (rr_parent_cid r) (ge_canonical_ecosystem_cid s))) && (block clock <=? rr_claim_deadline r)) InvalidDeadline = Ok tt) as ->.
  { unfold reject_if. apply orb_true_iff in Hdue as [->|Hd]; [done|]. bool_inv.
    destruct (N.leb_spec (block clock) (rr_claim_deadline r)); [lia|]. by rewrite andb_false_r. }
  step. step. step.
  edestruct (round_burn_Ok s r fee) as (burned & Hburn & Hb); [exact (eo_parameters _ _ Hok)|eapply fits_mono; [|exact Hf]; lia|].
  rewrite Hburn. step. step. rewrite (minus_Ok _ _ Hb). step. step. step. step. step. match goal with |- wp _ _ _ ?st => set (s1 := st) end.
  set (s0 := set_ge_review_rounds (<[id := expired_round r]> (ge_review_rounds s)) s) in *.
  assert (paid 0 s0 s1) as Hp0.
  { eexists (ge_refunds s), (ge_burned_atoms s), _. split; [by destruct s|]. unfold s0, liquid_funds. cbn. lia. }
  assert (liquid_funds s0 = liquid_funds s) as Hl0 by done.
  step. eapply wp_no_error; [apply credit_refund_spec; rewrite (paid_liquid _ _ _ Hp0), Hl0; eapply fits_mono; [|exact Hf]; lia|].
  cbn beta. intros _ s2 Hp2. pose proof (paid_trans _ _ _ _ _ Hp0 Hp2) as Hp02. clear Hp0 Hp2.
  step. eapply wp_no_error; [apply (payments_spec _ snd)|].
  { intros [a n] s3 _ Hs3. by apply credit_refund_spec. }
  { rewrite !map_app, !sum_N_app, !owed_funds, (paid_liquid _ _ _ Hp02), Hl0. eapply fits_mono; [|exact Hf]. lia. }
  cbn beta. intros _ s3 Hp3. pose proof (paid_trans _ _ _ _ _ Hp02 Hp3) as Hp03. clear Hp02 Hp3.
  rewrite !map_app, !sum_N_app, !owed_funds in Hp03.
  eapply wp_no_error; [apply burn_spec; rewrite (paid_liquid _ _ _ Hp03), Hl0; eapply fits_mono; [|exact Hf]; lia|].
  cbn beta. intros _ s4 Hp4. pose proof (paid_trans _ _ _ _ _ Hp03 Hp4) as Hpaid.
  by replace (0 + _ + _ + burned) with (round_funds r) in Hpaid by (unfold round_funds; rewrite Hlive; lia).
Qed.

(** What leaves a round is refunded or burned. *)
Lemma advances_round_paid id r r' n s s' : engine_ok origin s -> ge_review_rounds s !! id = Some r -> round_ok r' ->
  round_funds r' + n = round_funds r -> paid n (set_ge_review_rounds (<[id := r']> (ge_review_rounds s)) s) s' ->
  advances origin 0 0 s s'.
Proof.
  intros [K1 K2 K3 K4 K5 K6] Hid Hro Hf Hpaid. pose proof (paid_funds _ _ _ Hpaid) as Hfunds.
  destruct Hpaid as (rf & b & c & -> & _). constructor; [constructor; try done| |by intros i p|done].
  - intros id' q. cbn [ge_review_rounds set_ge_review_rounds set_ge_active_review_candidates set_ge_burned_atoms set_ge_refunds].
    intros [[<- <-]|[Hne Hl]]%lookup_insert_Some; [done|by apply (K3 id')].
  - rewrite Hfunds. unfold engine_funds. cbn [ge_stakes ge_review_rounds ge_proposals set_ge_review_rounds].
    change (liquid_funds (set_ge_review_rounds _ s)) with (liquid_funds s).
    pose proof (map_sum_update round_funds (ge_review_rounds s) id r r' Hid). lia.
Qed.

Lemma expire_review_round_step id clock s : engine_ok origin s -> fits 128 (engine_funds s) ->
  wp (expire_review_round id clock) (fun _ s' => advances origin 0 0 s s') (failed origin s) s.
Proof.
  intros Hok Hf. apply wp_atomic_ok; [done|]. destruct (ge_review_rounds s !! id) as [r|] eqn:Hr.
  - destruct (round_due s r clock) eqn:Hdue.
    + eapply wp_no_error; [by apply (expire_round_total id r)|]. cbn beta. intros _ s' Hpaid.
      eapply advances_round_paid; [done|done| | |exact Hpaid]; [exact (eo_rounds _ _ Hok _ _ Hr)|done].
    + unfold expire_review_round_inner. repeat step. exfalso. rejects. simplify_eq. unfold round_due in Hdue. bool_inv.
      match goal with Hl : is_live_round _ = true |- _ => rewrite Hl in Hdue end. cbn [andb] in Hdue. bool_inv.
      match goal with Hp : rr_parent_cid r = _, Hd : _ && _ = false |- _ => rewrite Hp, String.eqb_refl in Hd; cbn in Hd; bool_inv; lia end.
  - unfold expire_review_round_inner. repeat step. congruence.
Qed.

(** ** Attestations *)

Lemma no_panic_agent_submission a b c d e f g h r : round_ok r -> no_panic (check_agent_submission a b c d e f g h r).
Proof.
  intros Hro. unfold check_agent_submission, validate_canonical_cid. no_panics.
  match goal with Hin : ?x ∈ rr_affected_repositories r |- _ => destruct (Hro x Hin) as [cid ->] end. apply no_panic_Ok.
Qed.
Lemma no_panic_build_submission a b c d e f g h r : no_panic (check_build_submission a b c d e f g h r).
Proof. unfold check_build_submission, validate_canonical_cid. no_panics. Qed.
Lemma no_panic_availability_submission a b c d e f g h i r : no_panic (check_availability_submission a b c d e f g h i r).
Proof. unfold check_availability_submission, validate_canonical_cid, check_verified_cid, validate_content_cid. no_panics. Qed.
#[local] Hint Resolve no_panic_build_submission no_panic_availability_submission : panics.

Lemma new_bond_funds {I} `{BondInput I} cid (i : I) m : m !! cid = None -> bond_funds (<[cid := new_bond i]> m) = bond_atoms i + bond_funds m.
Proof. intros Hm. unfold bond_funds. by rewrite map_sum_insert_new. Qed.

Lemma submission_open r clock u : require_review_round_submission r clock = Ok u -> rr_state r = RoundOpen.
Proof.
  unfold require_review_round_submission, require_review_round_state. intros ([] & Hq & _)%bind_Ok. by case_bool_decide.
Qed.

Lemma synced_funds s s1 : advances origin 0 0 s s1 -> engine_funds s1 = engine_funds s.
Proof. intros Hadv. pose proof (adv_funds _ _ _ _ _ Hadv) as Hf. lia. Qed.

Lemma submit_agent_step `{DagCbor AgentReviewAttestationV1} id input clock s : engine_ok origin s -> fits 128 (engine_funds s) ->
  wp (submit_agent_attestation id input clock) (fun _ s' => advances origin (ai_bond_atoms input) 0 s s') (failed origin s) s.
Proof.
  intros Hok Hf. unfold submit_agent_attestation. step. eapply wp_no_error; [by apply sync_all_stakes_step|]. cbn beta.
  intros _ s1 [Hadv _]. repeat step.
  match goal with Hl : ge_review_rounds s1 !! id = Some ?p |- _ => rename p into r; rename Hl into Hr end.
  pose proof (eo_rounds _ _ (adv_ok _ _ _ _ _ Hadv) _ _ Hr) as Hro.
  apply wp_check; [by apply no_panic_agent_submission|step|]. intros u Hcheck. repeat step.
  match goal with Hq : require_review_round_submission r _ = Ok _ |- _ => apply submission_open in Hq; rename Hq into Hst end.
  unfold check_agent_submission in Hcheck. res_inv. rejects. bool_inv.
  match goal with Hd : ~ is_Some (rr_agents r !! _) |- _ => apply eq_None_not_Some in Hd; rename Hd into Hnew end.
  rewrite <-(N.add_0_l (ai_bond_atoms input)). eapply (advances_trans _ 0 0 _ 0); [exact Hadv|].
  eapply advances_round_at; [apply (adv_ok _ _ _ _ _ Hadv)|exact Hr|exact Hro|]. unfold round_funds.
  cbn [rr_state rr_bond_atoms rr_agents rr_builders rr_availability set_rr_agents set_rr_required_availability_cids]. rewrite Hst.
  cbn [is_live_round]. rewrite new_bond_funds by done. cbn [bond_atoms agent_bond ai_bond_atoms set_ai_owner_address]. lia.
Qed.

Lemma submit_build_step `{DagCbor BuildAttestationV1} id input clock s : engine_ok origin s -> fits 128 (engine_funds s) ->
  wp (submit_build_attestation id input clock) (fun _ s' => advances origin (bi_bond_atoms input) 0 s s') (failed origin s) s.
Proof.
  intros Hok Hf. unfold submit_build_attestation. step. eapply wp_no_error; [by apply sync_all_stakes_step|]. cbn beta.
  intros _ s1 [Hadv _]. repeat step.
  match goal with Hl : ge_review_rounds s1 !! id = Some ?p |- _ => rename p into r; rename Hl into Hr end.
  pose proof (eo_rounds _ _ (adv_ok _ _ _ _ _ Hadv) _ _ Hr) as Hro.
  match goal with Hq : require_review_round_submission r _ = Ok _ |- _ => apply submission_open in Hq; rename Hq into Hst end.
  match goal with Hc : check_build_submission _ _ _ _ _ _ _ _ _ = Ok _ |- _ => unfold check_build_submission in Hc; rename Hc into Hcheck end.
  res_inv. rejects. bool_inv.
  match goal with Hd : ~ is_Some (rr_builders r !! _) |- _ => apply eq_None_not_Some in Hd; rename Hd into Hnew end.
  rewrite <-(N.add_0_l (bi_bond_atoms input)). eapply (advances_trans _ 0 0 _ 0); [exact Hadv|].
  eapply advances_round_at; [apply (adv_ok _ _ _ _ _ Hadv)|exact Hr|exact Hro|]. unfold round_funds.
  cbn [rr_state rr_bond_atoms rr_agents rr_builders rr_availability set_rr_builders set_rr_required_availability_cids]. rewrite Hst.
  cbn [is_live_round]. rewrite new_bond_funds by done. cbn [bond_atoms build_bond bi_bond_atoms set_bi_builder_address]. lia.
Qed.

Lemma submit_availability_step `{DagCbor DataAvailabilityAttestationV1} id input clock s : engine_ok origin s -> fits 128 (engine_funds s) ->
  wp (submit_data_availability_attestation id input clock) (fun _ s' => advances origin (di_bond_atoms input) 0 s s') (failed origin s) s.
Proof.
  intros Hok Hf. unfold submit_data_availability_attestation. step. eapply wp_no_error; [by apply sync_all_stakes_step|]. cbn beta.
  intros _ s1 [Hadv _]. repeat step.
  match goal with Hl : ge_review_rounds s1 !! id = Some ?p |- _ => rename p into r; rename Hl into Hr end.
  pose proof (eo_rounds _ _ (adv_ok _ _ _ _ _ Hadv) _ _ Hr) as Hro.
  match goal with Hq : require_review_round_state r _ = Ok _ |- _ => unfold require_review_round_state in Hq; case_bool_decide as Hst; [|done] end.
  match goal with Hc : check_availability_submission _ _ _ _ _ _ _ _ _ _ = Ok _ |- _ => unfold check_availability_submission in Hc; rename Hc into Hcheck end.
  res_inv. rejects. bool_inv.
  match goal with Hd : ~ is_Some (rr_availability r !! _) |- _ => apply eq_None_not_Some in Hd; rename Hd into Hnew end.
  rewrite <-(N.add_0_l (di_bond_atoms input)). eapply (advances_trans _ 0 0 _ 0); [exact Hadv|].
  eapply advances_round_at; [apply (adv_ok _ _ _ _ _ Hadv)|exact Hr|exact Hro|]. unfold round_funds.
  cbn [rr_state rr_bond_atoms rr_agents rr_builders rr_availability set_rr_availability]. rewrite Hst.
  cbn [is_live_round]. rewrite new_bond_funds by done. cbn [bond_atoms availability_bond di_bond_atoms set_di_operator_address]. lia.
Qed.
End steps.
