(* ===== verification/GovLifecycle.v ===== *)
(** * The lifecycle of a proposal keeps the invariant

    Claiming a round, reviewing, voting, challenging, executing and expiring: the
    same contract as in [GovSteps], with exact tallies and gates. *)
From S2P Require Import Prelude Order Text Crates GovText GovMath GovSource GovMetrics GovAttest GovManifest GovScope GovState GovCommit GovRules GovStake GovRound GovEngine GovWp GovFunds GovInvariant GovSteps.

Local Open Scope N_scope.

(** ** Proposal records *)

Lemma proposal_ok_state parameters id p st : proposal_ok parameters id p -> is_terminal st = is_terminal (pr_state p) ->
  (is_accepted st = true -> meets_gates parameters p) -> proposal_ok parameters id (set_pr_state st p).
Proof. intros [P1 P2 P3 P4 P5 P6 P7 P8 P9] Ht Ha. constructor; try done; cbn [pr_state set_pr_state]; rewrite Ht; done. Qed.

(** The evidence does not depend on which bonds are settled. *)
Lemma btree_values_fmap {V W} (f : V -> W) (m : gmap string V) : btree_values (f <$> m) = map f (btree_values m).
Proof.
  assert (btree_entries (f <$> m) = map (prod_map id f) (btree_entries m)) as Heq.
  { unfold btree_entries. rewrite <-(sort_by_map (prod_map id f) (fun a b => str_cmp a.1 b.1) (fun a b => str_cmp a.1 b.1)) by (by intros [] []).
    f_equal. apply map_to_list_fmap. }
  unfold btree_values. rewrite Heq, !map_map. by apply map_ext; intros [].
Qed.

Lemma filter_map_same {A} (P : A -> Prop) `{forall x, Decision (P x)} (f : A -> A) l :
  (forall x, P (f x) <-> P x) -> filter P (map f l) = map f (filter P l).
Proof.
  intros Hf. induction l as [|x l IH]; [done|]. cbn [map]. rewrite !filter_cons, IH.
  destruct (decide (P (f x))) as [Hy|Hn], (decide (P x)) as [Hy'|Hn']; [done|by exfalso; apply Hn', Hf|by exfalso; apply Hn, Hf|done].
Qed.

(** Selecting and projecting items ignores whether they are settled. *)
Lemma select_settled {I B} (P : Bonded I -> Prop) `{forall x, Decision (P x)} (g : Bonded I -> B) (m : gmap string (Bonded I)) :
  (forall x, P (settle_bond x) <-> P x) -> (forall x, g (settle_bond x) = g x) ->
  map g (filter P (btree_values (settle_bond <$> m))) = map g (filter P (btree_values m)).
Proof. intros HP Hg. rewrite btree_values_fmap, filter_map_same, map_map by done. by apply map_ext. Qed.

Lemma evidence_settled p : acceptance_evidence (attestations_settled p) = acceptance_evidence p.
Proof.
  unfold acceptance_evidence, attestations_settled, live_data_availability_provider_count, unresolved_critical_owners.
  cbn [pr_agents pr_builders pr_availability pr_votes pr_voter_snapshot pr_content pr_yes_weight pr_no_weight pr_abstain_weight
       pr_total_registered_weight pr_required_availability_cids pr_critical_finding_waiver pr_execution_expires
       set_pr_agents set_pr_builders set_pr_availability].
  assert (selected_build_group (settle_bond <$> pr_builders p) = selected_build_group (pr_builders p)) as ->.
  { unfold selected_build_group. rewrite btree_values_fmap, filter_map_same by done. do 2 f_equal.
    generalize (filter (fun item : BondedBuildAttestation => negb (bonded_invalid item) && bi_tests_passed_claim (bonded_input item) = true) (btree_values (pr_builders p))).
    intros l. generalize (∅ : gmap string (gset string * gset string)). induction l as [|x l IH]; intros g; [done|]. cbn. apply IH. }
  rewrite !select_settled by done. unfold count. rewrite btree_values_fmap, filter_map_same, length_map by done. done.
Qed.

Lemma proposal_ok_closed parameters id p st : proposal_ok parameters id p -> is_terminal st = true ->
  (is_accepted st = true -> meets_gates parameters p) -> proposal_ok parameters id (closed (set_pr_state st p)).
Proof.
  intros [P1 P2 P3 P4 P5 P6 P7 P8 P9] Ht Ha. constructor; try done.
  - intros _. pose proof (closed_funds (set_pr_state st p)) as Hc. unfold proposal_funds in Hc. lia.
  - intros Hacc. unfold meets_gates, closed. rewrite evidence_settled. by apply Ha.
Qed.

Section lifecycle.
Context `{Hashing, CidCrate, DagCbor CarHeader, EvidenceJson} (origin : string).

(** ** Settling *)

(** A proposal in a state that is not final is closed in the state [st]. *)
Lemma advances_closed id p st s s' : engine_ok origin s -> ge_proposals s !! id = Some p -> is_terminal (pr_state p) = false ->
  is_terminal st = true -> (is_accepted st = true -> meets_gates (ge_parameters s) p) ->
  paid (proposal_funds p) (update_proposal id (closed (set_pr_state st p)) s) s' -> advances origin 0 0 s s'.
Proof.
  intros Hok Hp Hnt Ht Ha Hpaid. eapply advances_proposal; [done|exact Hp|done| | |exact Hpaid].
  - apply proposal_ok_closed; [by apply (eo_proposals _ _ Hok)|done|done].
  - by rewrite closed_funds.
Qed.

Lemma settle_rejection_spec id p s : parameters_ok (ge_parameters s) -> ge_proposals s !! id = Some p -> fits 128 (liquid_funds s + proposal_funds p) ->
  wp (settle_normal_rejection id) (fun _ s' => paid (proposal_funds p) (update_proposal id (closed p) s) s') (fun _ _ => False) s.
Proof.
  intros Hpar Hp Hf. unfold settle_normal_rejection. apply (settle_spec (fun proposer bond =>
    parameters ← gets ge_parameters; refund ← lift (apply_bps bond (rejected_return_bps (proposal_bond_policy parameters)));
    _ ← credit_refund proposer refund; rest ← lift (minus bond refund); burn rest)); [done|done|].
  intros s1 Hps Hf1. step. step. rewrite Hps.
  destruct (apply_bps_Ok (pc_proposal_bond_atoms (pr_content p)) _ ltac:(eapply fits_mono; [|exact Hf1]; lia) (ok_rejected _ Hpar)) as (refund & -> & Hr).
  step. step. by apply refund_then_burn.
Qed.

Lemma settle_full_spec id p s : ge_proposals s !! id = Some p -> fits 128 (liquid_funds s + proposal_funds p) ->
  wp (settle_full_refund id) (fun _ s' => paid (proposal_funds p) (update_proposal id (closed p) s) s') (fun _ _ => False) s.
Proof. intros Hp Hf. unfold settle_full_refund. apply (settle_spec credit_refund); [done|done|]. intros s1 _ Hf1. by apply credit_refund_spec. Qed.

Lemma settle_fraud_spec id p s : parameters_ok (ge_parameters s) -> ge_proposals s !! id = Some p -> fits 128 (liquid_funds s + proposal_funds p) ->
  wp (settle_fraudulent_proposer id) (fun _ s' => paid (proposal_funds p) (update_proposal id (closed p) s) s') (fun _ _ => False) s.
Proof.
  intros Hpar Hp Hf. unfold settle_fraudulent_proposer. apply (settle_spec (fun proposer bond =>
    parameters ← gets ge_parameters; slash ← lift (apply_bps bond (fraudulent_proposal_slash_bps (objective_slash_policy parameters)));
    _ ← burn slash; rest ← lift (minus bond slash); credit_refund proposer rest)); [done|done|].
  intros s1 Hps Hf1. step. step. rewrite Hps.
  destruct (apply_bps_Ok (pc_proposal_bond_atoms (pr_content p)) _ ltac:(eapply fits_mono; [|exact Hf1]; lia) (ok_proposal _ Hpar)) as (slash & -> & Hr).
  step. step. by apply burn_then_refund.
Qed.

(** A proposal that can be marked stale, or expired, is: settlement does not fail. *)
Lemma mark_stale_total id p s : engine_ok origin s -> fits 128 (engine_funds s) -> ge_proposals s !! id = Some p ->
  pc_parent_canonical_ecosystem_cid (pr_content p) <> ge_canonical_ecosystem_cid s -> is_terminal (pr_state p) = false ->
  wp (mark_stale_inner id)
    (fun _ s' => paid (proposal_funds p) (update_proposal id (closed (set_pr_state Stale p)) s) s') (fun _ _ => False) s.
Proof.
  intros Hok Hf Hp Hpar Hnt. unfold mark_stale_inner. step. step. step. apply wp_asks; rewrite Hp; [|done]. intros p' [= <-].
  apply String.eqb_neq in Hpar. rewrite Hpar, Hnt. cbn [reject_if]. do 6 step. rewrite <-(update_update id (set_pr_state Stale p)).
  change (proposal_funds p) with (proposal_funds (set_pr_state Stale p)).
  destruct (ok_fee _ (eo_parameters _ _ Hok)) as [fee Hfee].
  apply (settle_spec (fun proposer bond =>
    parameters ← gets ge_parameters; stale_fee ← lift (parse_atoms (stale_processing_fee_atoms (proposal_bond_policy parameters)));
    _ ← burn (N.min stale_fee bond); rest ← lift (minus bond (N.min stale_fee bond)); credit_refund proposer rest) id (set_pr_state Stale p)).
  - apply lookup_insert_eq.
  - eapply fits_mono; [|exact Hf]. apply (proposal_funds_le _ _ _ Hp).
  - intros s1 Hps Hf1. step. step. rewrite Hps. cbn [ge_parameters set_ge_proposals]. rewrite Hfee. step. step. apply burn_then_refund; [lia|done].
Qed.

Lemma expire_proposal_total id p clock s : engine_ok origin s -> fits 128 (engine_funds s) -> ge_proposals s !! id = Some p ->
  proposal_expired p clock = true ->
  wp (expire_proposal_inner id clock)
    (fun _ s' => paid (proposal_funds p) (update_proposal id (closed (set_pr_state Expired p)) s) s') (fun _ _ => False) s.
Proof.
  intros Hok Hf Hp Hex. unfold expire_proposal_inner. step. apply wp_asks; rewrite Hp; [|done]. intros p' [= <-].
  rewrite Hex. cbn [negb reject_if]. do 4 step. rewrite <-(update_update id (set_pr_state Expired p)).
  change (proposal_funds p) with (proposal_funds (set_pr_state Expired p)).
  apply (settle_spec (fun proposer bond =>
    parameters ← gets ge_parameters; slash ← lift (apply_bps bond (expired_slash_bps (proposal_bond_policy parameters)));
    _ ← burn slash; rest ← lift (minus bond slash); credit_refund proposer rest) id (set_pr_state Expired p)).
  - apply lookup_insert_eq.
  - eapply fits_mono; [|exact Hf]. apply (proposal_funds_le _ _ _ Hp).
  - intros s1 Hps Hf1. step. step. rewrite Hps.
    destruct (apply_bps_Ok (pc_proposal_bond_atoms (pr_content p)) _ ltac:(eapply fits_mono; [|exact Hf1]; cbn; lia) (ok_expired _ (eo_parameters _ _ Hok))) as (slash & Hs & Hr).
    cbn [ge_parameters set_ge_proposals pr_content set_pr_state]. rewrite Hs. step. step. by apply burn_then_refund.
Qed.

Lemma mark_stale_step id s : engine_ok origin s -> fits 128 (engine_funds s) ->
  wp (mark_stale id) (fun _ s' => advances origin 0 0 s s') (failed origin s) s.
Proof.
  intros Hok Hf. apply wp_atomic_ok; [done|]. destruct (ge_proposals s !! id) as [p|] eqn:Hp.
  - destruct (decide (pc_parent_canonical_ecosystem_cid (pr_content p) = ge_canonical_ecosystem_cid s)) as [Heq|Hne];
      [|destruct (is_terminal (pr_state p)) eqn:Ht].
    1, 2: unfold mark_stale_inner; repeat step; simplify_eq; rejects; exfalso; try congruence;
      match goal with He : String.eqb _ _ = false |- _ => apply String.eqb_neq in He; congruence end.
    eapply wp_no_error; [by apply (mark_stale_total id p)|]. cbn beta. intros _ s' Hpaid. by eapply (advances_closed id p Stale).
  - unfold mark_stale_inner. repeat step. congruence.
Qed.

Lemma expired_not_final p clock : proposal_expired p clock = true -> is_terminal (pr_state p) = false.
Proof. unfold proposal_expired. by destruct (pr_state p). Qed.

Lemma expire_proposal_step id clock s : engine_ok origin s -> fits 128 (engine_funds s) ->
  wp (expire_proposal id clock) (fun _ s' => advances origin 0 0 s s') (failed origin s) s.
Proof.
  intros Hok Hf. apply wp_atomic_ok; [done|]. destruct (ge_proposals s !! id) as [p|] eqn:Hp.
  - destruct (proposal_expired p clock) eqn:Hex.
    + eapply wp_no_error; [by apply (expire_proposal_total id p)|]. cbn beta. intros _ s' Hpaid.
      eapply (advances_closed id p Expired); try done. by eapply expired_not_final.
    + unfold expire_proposal_inner. step. step; [step|]. step. apply wp_check; [apply no_panic_reject; discriminate|step|].
      intros u Hr. simplify_eq. rejects. by rewrite Hex in Hr.
  - unfold expire_proposal_inner. repeat step. congruence.
Qed.

(** A proposal that is not stale is left to the handler. *)
Lemma fail_if_stale_step id s : engine_ok origin s -> fits 128 (engine_funds s) ->
  wp (fail_if_stale id)
    (fun _ s' => s' = s /\ exists p, ge_proposals s !! id = Some p /\ pc_parent_canonical_ecosystem_cid (pr_content p) = ge_canonical_ecosystem_cid s)
    (failed origin s) s.
Proof.
  intros Hok Hf. unfold fail_if_stale. step. step; [step|]. step. step.
  match goal with Hl : ge_proposals s !! id = Some ?q |- _ => rename q into p; rename Hl into Hp end.
  destruct (String.eqb_spec (pc_parent_canonical_ecosystem_cid (pr_content p)) (ge_canonical_ecosystem_cid s)) as [Heq|Hne]; cbn [negb].
  - step. eauto.
  - step. eapply wp_mono; [by apply mark_stale_step| |done]. cbn beta. intros _ s' Hadv. step. by split.
Qed.

(** A change of state that keeps the bonds. *)
Lemma advances_state id p p' s : engine_ok origin s -> ge_proposals s !! id = Some p -> is_terminal (pr_state p) = false ->
  proposal_ok (ge_parameters s) id p' -> proposal_funds p' = proposal_funds p -> advances origin 0 0 s (update_proposal id p' s).
Proof. intros Hok Hp Hnt Hok' Hf. eapply advances_proposal; [done|exact Hp|done|exact Hok'| |apply paid_0]. lia. Qed.

Lemma require_state_Ok p st u : require_state p st = Ok u -> pr_state p = st.
Proof. unfold require_state. by case_bool_decide. Qed.

Ltac in_state Hst := match goal with Hq : require_state _ _ = Ok _ |- _ => apply require_state_Ok in Hq; rename Hq into Hst end.

Lemma open_review_step id clock s : engine_ok origin s -> fits 128 (engine_funds s) ->
  wp (open_review id clock) (fun _ s' => advances origin 0 0 s s') (failed origin s) s.
Proof.
  intros Hok Hf. unfold open_review. step. eapply wp_mono; [by apply fail_if_stale_step| |done]. cbn beta. intros _ s' [-> _].
  repeat step. in_state Hst. eapply advances_state; [done|done|by rewrite Hst| |done].
  apply proposal_ok_state; [by apply (eo_proposals _ _ Hok)|by rewrite Hst|done].
Qed.

Lemma open_voting_step id clock s : engine_ok origin s -> fits 128 (engine_funds s) ->
  wp (open_voting id clock) (fun _ s' => advances origin 0 0 s s') (failed origin s) s.
Proof.
  intros Hok Hf. unfold open_voting. step. eapply wp_mono; [by apply fail_if_stale_step| |done]. cbn beta. intros _ s' [-> _].
  repeat step. in_state Hst. eapply advances_state; [done|done|by rewrite Hst| |done].
  apply proposal_ok_state; [by apply (eo_proposals _ _ Hok)|by rewrite Hst|done].
Qed.

Lemma close_challenge_period_step id clock s : engine_ok origin s ->
  wp (close_challenge_period id clock) (fun _ s' => advances origin 0 0 s s') (failed origin s) s.
Proof.
  intros Hok. unfold close_challenge_period. repeat step. in_state Hst.
  match goal with Hl : ge_proposals s !! id = Some ?q |- _ => rename q into p; rename Hl into Hp end.
  pose proof (eo_proposals _ _ Hok _ _ Hp) as Hpo. eapply advances_state; [done|done|by rewrite Hst| |done].
  apply proposal_ok_state; [done|by rewrite Hst|]. intros _. apply (po_accepted _ _ _ Hpo). by rewrite Hst.
Qed.

Lemma submit_challenge_step id input clock s : engine_ok origin s ->
  wp (submit_objective_challenge id input clock) (fun _ s' => advances origin 0 0 s s') (failed origin s) s.
Proof.
  intros Hok. unfold submit_objective_challenge. repeat step. in_state Hst.
  match goal with Hl : ge_proposals s !! id = Some ?q |- _ => rename q into p; rename Hl into Hp end.
  pose proof (eo_proposals _ _ Hok _ _ Hp) as Hpo. eapply advances_state; [done|done|by rewrite Hst| |done].
  destruct Hpo as [P1 P2 P3 P4 P5 P6 P7 P8 P9]. constructor; try done.
  - cbn. by rewrite P7, Hst.
  - intros _. apply P9. by rewrite Hst.
Qed.

(** ** Votes *)

Definition weight_of (choice : VoteChoice) (p : ProposalRecord) : N :=
  match choice with Yes => pr_yes_weight p | No => pr_no_weight p | Abstain => pr_abstain_weight p end.
Definition only_for (choice x : VoteChoice) (w : N) : N := if bool_decide (choice = x) then w else 0.

(** [p'] differs from [p] in the three weights. *)
Definition reweighed (p p' : ProposalRecord) : Prop :=
  p' = set_pr_abstain_weight (pr_abstain_weight p') (set_pr_no_weight (pr_no_weight p') (set_pr_yes_weight (pr_yes_weight p') p)).

Lemma add_vote_weight_Ok p c w p' : add_vote_weight p c w = Ok p' ->
  reweighed p p' /\ forall x, weight_of x p' = weight_of x p + only_for c x w.
Proof.
  unfold add_vote_weight. destruct c; intros (n & Hn & [= <-])%bind_Ok; apply ok_or_Ok, checked_add_Some in Hn as [-> _];
    (split; [by destruct p|intros x; unfold only_for; (case_bool_decide as Hx; [subst x|destruct x; try done]); cbn; lia]).
Qed.

Lemma subtract_vote_weight_Ok p c w p' : subtract_vote_weight p c w = Ok p' ->
  reweighed p p' /\ forall x, weight_of x p' + only_for c x w = weight_of x p.
Proof.
  unfold subtract_vote_weight. destruct c; intros (n & Hn & [= <-])%bind_Ok; apply ok_or_Ok, checked_sub_Some in Hn as [-> Hle];
    (split; [by destruct p|intros x; unfold only_for; (case_bool_decide as Hx; [subst x|destruct x; try done]); cbn; lia]).
Qed.

Lemma tally_insert x voter r votes : tally x (<[voter := r]> votes) = only_for (vr_choice r) x (vr_effective_vote_weight r) + tally x (delete voter votes).
Proof. unfold tally. by rewrite map_sum_insert. Qed.

Lemma tally_lookup x voter votes : tally x votes =
  match votes !! voter with Some r => only_for (vr_choice r) x (vr_effective_vote_weight r) | None => 0 end + tally x (delete voter votes).
Proof.
  unfold tally. destruct (votes !! voter) as [r|] eqn:Hv; [by rewrite (map_sum_lookup _ _ _ _ Hv)|]. by rewrite delete_id by done.
Qed.

Lemma weights_ok parameters id p : proposal_ok parameters id p -> forall x, weight_of x p = tally x (pr_votes p).
Proof. intros Hp []; [apply (po_yes _ _ _ Hp)|apply (po_no _ _ _ Hp)|apply (po_abstain _ _ _ Hp)]. Qed.

(** Replacing a vote subtracts the old weight and adds the new one. *)
Lemma proposal_ok_vote parameters id p p1 p2 voter v r : proposal_ok parameters id p -> is_accepted (pr_state p) = false ->
  pr_voter_snapshot p !! voter = Some v -> vr_effective_vote_weight r = vt_weight v ->
  match pr_votes p !! voter with
  | Some previous => subtract_vote_weight p (vr_choice previous) (vr_effective_vote_weight previous)
  | None => Ok p
  end = Ok p1 -> add_vote_weight p1 (vr_choice r) (vt_weight v) = Ok p2 ->
  proposal_ok parameters id (set_pr_votes (<[voter := r]> (pr_votes p2)) p2) /\
  proposal_funds (set_pr_votes (<[voter := r]> (pr_votes p2)) p2) = proposal_funds p.
Proof.
  intros Hp Hna Hv Hr Hsub (Hw2 & Hadd)%add_vote_weight_Ok. pose proof (weights_ok _ _ _ Hp) as Hw.
  assert (reweighed p p1 /\ forall x, weight_of x p1 = tally x (delete voter (pr_votes p))) as [Hw1 Hdel].
  { destruct (pr_votes p !! voter) as [prev|] eqn:Hprev.
    - apply subtract_vote_weight_Ok in Hsub as [Hs1 Hs2]. split; [done|]. intros x. specialize (Hs2 x). specialize (Hw x).
      rewrite (tally_lookup x voter), Hprev in Hw. lia.
    - injection Hsub as <-. split; [by destruct p|]. intros x. by rewrite delete_id by done. }
  assert (pr_votes p2 = pr_votes p) as Hvotes by (rewrite Hw2; cbn; rewrite Hw1; done).
  assert (forall x, weight_of x p2 = tally x (<[voter := r]> (pr_votes p2))) as Hnew.
  { intros x. rewrite Hadd, Hdel, Hvotes, tally_insert, Hr. lia. }
  destruct Hp as [P1 P2 P3 P4 P5 P6 P7 P8 P9]. unfold reweighed in Hw1, Hw2. rewrite Hw1 in Hw2. clear Hw1 Hadd Hsub.
  pose proof (Hnew Yes) as Hy. pose proof (Hnew No) as Hn. pose proof (Hnew Abstain) as Ha. cbn [weight_of] in Hy, Hn, Ha.
  split; [|rewrite Hw2; done]. constructor; try (rewrite Hw2; done); try done.
  - intros voter' r'. cbn [pr_votes set_pr_votes]. rewrite Hw2. cbn. intros [[<- <-]|[Hne Hl]]%lookup_insert_Some; [by exists v|by apply P5].
  - rewrite Hw2. cbn. by rewrite Hna.
Qed.

Lemma cast_vote_step id voter choice clock s : engine_ok origin s ->
  wp (cast_vote id voter choice clock) (fun _ s' => advances origin 0 0 s s') (failed origin s) s.
Proof.
  intros Hok. apply wp_atomic_ok; [done|]. unfold cast_vote_inner. repeat step.
  { apply wp_check; [case_match; eauto with panics|step|]. intros p1 Hp1. repeat step. in_state Hst.
    match goal with Hl : ge_proposals s !! id = Some ?q |- _ => rename q into p; rename Hl into Hp end.
    match goal with Hs : ok_or _ (pr_voter_snapshot p !! _) = Ok ?q |- _ => rename q into v; apply ok_or_Ok in Hs; rename Hs into Hv end.
    match goal with Ha : add_vote_weight _ _ _ = Ok ?q |- _ => rename q into p2; rename Ha into Hp2 end.
    match type of Hv with _ !! ?w = _ => destruct (proposal_ok_vote (ge_parameters s) id p p1 p2 w v (vote_receipt p w choice v clock)) as [Hpo' Hfunds] end;
      [by apply (eo_proposals _ _ Hok)|by rewrite Hst|exact Hv|done|exact Hp1|exact Hp2|].
    eapply advances_state; [done|exact Hp|by rewrite Hst|exact Hpo'|exact Hfunds]. }
Qed.

Lemma finalize_voting_step id clock s : engine_ok origin s -> fits 128 (engine_funds s) ->
  wp (finalize_voting id clock) (fun _ s' => advances origin 0 0 s s') (failed origin s) s.
Proof.
  intros Hok Hf. unfold finalize_voting. step. eapply wp_mono; [by apply fail_if_stale_step| |done]. cbn beta. intros _ s' [-> _].
  apply wp_atomic_ok; [done|]. unfold finalize_voting_inner. repeat step. in_state Hst.
  match goal with Hl : ge_proposals s !! id = Some ?q |- _ => rename q into p; rename Hl into Hp end.
  match goal with |- context [evaluate_proposal s ?x] => set (q := x) in *; set (g := evaluate_proposal s q) in * end.
  assert (proposal_ok (ge_parameters s) id (set_pr_gates (Some g) q)) as Hq.
  { destruct (eo_proposals _ _ Hok _ _ Hp) as [P1 P2 P3 P4 P5 P6 P7 P8 P9]. constructor; try done. cbn. by rewrite Hst. }
  fold (update_proposal id (set_pr_state (if accepted g then AcceptedPendingChallenge else Rejected) (set_pr_gates (Some g) q)) s).
  destruct (accepted g) eqn:Hg.
  - repeat step. eapply advances_state; [done|exact Hp|by rewrite Hst| |done]. apply proposal_ok_state; [done|cbn; by rewrite Hst|].
    intros _. exact Hg.
  - eapply wp_no_error; [apply (settle_rejection_spec id (set_pr_state Rejected (set_pr_gates (Some g) q)))|].
    + apply (eo_parameters _ _ Hok).
    + apply lookup_insert_eq.
    + eapply fits_mono; [|exact Hf]. apply (proposal_funds_le _ _ _ Hp).
    + cbn beta. intros _ s1 Hpaid. step. rewrite update_update in Hpaid.
      eapply advances_proposal; [done|exact Hp|by rewrite Hst| | |exact Hpaid]; [by apply proposal_ok_closed|by rewrite closed_funds].
Qed.

(** ** Challenges *)

(** [p'] differs from [p] in the attestation bonds. *)
Definition rebonded (p p' : ProposalRecord) : Prop :=
  p' = set_pr_agents (pr_agents p') (set_pr_builders (pr_builders p') (set_pr_availability (pr_availability p') p)).

Lemma invalidate_Ok {I} `{BondInput I} cid (m m' : gmap string (Bonded I)) owner bond :
  invalidate cid m = Ok (owner, bond, m') -> bond_funds m' + bond = bond_funds m.
Proof.
  unfold invalidate. intros (item & Hi & ([] & Hr & [= <- <- <-])%bind_Ok)%bind_Ok. apply ok_or_Ok in Hi. rejects.
  apply orb_false_iff in Hr as [Hs _]. unfold bond_funds.
  pose proof (map_sum_update (fun item => if bonded_settled item then 0 else bond_atoms (bonded_input item)) m cid item (invalidate_bond item) Hi) as Hu.
  cbn in Hu. rewrite Hs in Hu. lia.
Qed.

Lemma no_panic_invalidate {I} `{BondInput I} cid (m : gmap string (Bonded I)) : no_panic (invalidate cid m).
Proof. unfold invalidate. no_panics. Qed.
#[local] Hint Resolve no_panic_invalidate : panics.

Lemma slash_stake_spec a bps s : (forall a' p, ge_stakes s !! a' = Some p -> position_ok p) ->
  fits 128 (liquid_funds s + map_sum position_funds (ge_stakes s)) -> bps <= 10000 ->
  wp (slash_governance_stake a bps)
    (fun slash s' => exists stakes, (forall a' p, stakes !! a' = Some p -> position_ok p) /\
       map_sum position_funds stakes + slash = map_sum position_funds (ge_stakes s) /\ paid slash (set_ge_stakes stakes s) s')
    (fun _ _ => False) s.
Proof.
  intros Hok Hf Hb. unfold slash_governance_stake. step. step. destruct (ge_stakes s !! a) as [pos|] eqn:Hpos.
  - pose proof (map_sum_le position_funds _ _ _ Hpos) as Hle.
    destruct (slash_position_spec pos bps) as (slash & pos' & -> & Hfunds & Hpos'); [by apply (Hok a)|eapply fits_mono; [|exact Hf]; lia|done|].
    repeat step. eapply wp_no_error; [apply burn_spec|].
    { eapply fits_mono; [|exact Hf]. change (liquid_funds (set_ge_stakes _ s)) with (liquid_funds s). lia. }
    cbn beta. intros _ s' Hpaid. step. exists (<[a := pos']> (ge_stakes s)). split_and!; [| |done].
    + intros a' p [[<- <-]|[Hne Hl]]%lookup_insert_Some; [done|by apply (Hok a')].
    + pose proof (map_sum_update position_funds (ge_stakes s) a pos pos' Hpos). lia.
  - step. exists (ge_stakes s). split_and!; [apply Hok|lia|]. replace (set_ge_stakes (ge_stakes s) s) with s by by destruct s. apply paid_0.
Qed.

Lemma paid_stakes n s s' stakes : paid n s s' -> paid n (set_ge_stakes stakes s) (set_ge_stakes stakes s').
Proof. intros (r & b & c & -> & Heq). exists r, b, c. split; [by destruct s|done]. Qed.

(** The challenged bond is refunded and burned, and so is a part of the offender's stake. *)
Lemma invalidate_and_slash_spec id challenge p s : engine_ok origin s -> fits 128 (engine_funds s) -> ge_proposals s !! id = Some p ->
  wp (invalidate_and_slash_attestation id challenge)
    (fun _ s' => exists p' bond stakes slash, rebonded p p' /\ proposal_funds p' + bond = proposal_funds p /\
       (forall a q, stakes !! a = Some q -> position_ok q) /\
       map_sum position_funds stakes + slash = map_sum position_funds (ge_stakes s) /\
       paid (bond + slash) (update_proposal id p' (set_ge_stakes stakes s)) s') reverted s.
Proof.
  intros Hok Hf Hp. unfold invalidate_and_slash_attestation. do 4 step; [step|].
  match goal with Hl : ge_proposals s !! id = Some ?q |- _ => assert (q = p) as -> by congruence; clear Hl end.
  set (policy := objective_slash_policy (ge_parameters s)). step.
  apply wp_check; [destruct (ch_target_type challenge); no_panics|step|]. intros [[[offender bond] bps] p'] Hinv.
  assert (bps <= 10000 /\ rebonded p p' /\ proposal_funds p' + bond = proposal_funds p) as (Hbps & Hre & Hfunds).
  { pose proof (eo_parameters _ _ Hok) as Hpar.
    destruct (ch_target_type challenge); apply bind_Ok in Hinv as ([[o n] m] & Hi & [= <- <- <- <-]); apply invalidate_Ok in Hi;
      (split_and!; [apply Hpar|by destruct p|unfold proposal_funds, attestation_funds; cbn; lia]). }
  step. step. set (s1 := set_ge_proposals _ s). assert (liquid_funds s1 = liquid_funds s) as Hl1 by done.
  pose proof (proposal_funds_le _ _ _ Hp) as Hle.
  destruct (apply_bps_Ok bond bps) as (burned & -> & Hb); [eapply fits_mono; [|exact Hf]; lia|done|].
  step. step. step. rewrite (minus_Ok _ _ Hb). step. step.
  eapply wp_no_error; [apply credit_refund_spec; rewrite Hl1; eapply fits_mono; [|exact Hf]; lia|]. cbn beta. intros _ s2 Hp2. step.
  eapply wp_no_error; [apply burn_spec; rewrite (paid_liquid _ _ _ Hp2), Hl1; eapply fits_mono; [|exact Hf]; lia|]. cbn beta. intros _ s3 Hp3. step.
  pose proof (paid_trans _ _ _ _ _ Hp2 Hp3) as Hp13. replace (bond - burned + burned) with bond in Hp13 by lia. clear Hp2 Hp3.
  assert (ge_stakes s3 = ge_stakes s) as Hst3 by (destruct Hp13 as (? & ? & ? & -> & _); done).
  eapply wp_no_error; [apply slash_stake_spec|].
  - rewrite Hst3. apply (eo_stakes _ _ Hok).
  - rewrite Hst3, (paid_liquid _ _ _ Hp13), Hl1. eapply fits_mono; [|exact Hf]. unfold engine_funds.
    pose proof (map_sum_le proposal_funds _ _ _ Hp). lia.
  - apply (ok_stake _ (eo_parameters _ _ Hok)).
  - cbn beta. intros slash s4 (stakes & Hsok & Hsf & Hp4). step. rewrite Hst3 in Hsf.
    exists p', bond, stakes, slash. split_and!; [done|done|done|done|]. eapply paid_trans; [|exact Hp4].
    apply (paid_stakes _ _ _ stakes) in Hp13. by destruct s.
Qed.

Lemma rebonded_ok parameters id p p' : proposal_ok parameters id p -> is_terminal (pr_state p) = false -> rebonded p p' ->
  proposal_ok parameters id (set_pr_state VotingOpen (set_pr_pending_challenge None p')).
Proof.
  intros [P1 P2 P3 P4 P5 P6 P7 P8 P9] Hnt Hre. unfold rebonded in Hre. rewrite Hre. constructor; try done. cbn. by rewrite P7.
Qed.

(** After the offender was slashed, the proposal continues or is closed. *)
Lemma punish_spec id offender p p' bond slash stakes s s1 :
  engine_ok origin s -> fits 128 (engine_funds s) -> ge_proposals s !! id = Some p -> is_terminal (pr_state p) = false ->
  rebonded p p' -> proposal_funds p' + bond = proposal_funds p -> (forall a q, stakes !! a = Some q -> position_ok q) ->
  map_sum position_funds stakes + slash = map_sum position_funds (ge_stakes s) ->
  paid (bond + slash) (update_proposal id p' (set_ge_stakes stakes s)) s1 ->
  wp (punish id offender) (fun _ s' => advances origin 0 0 s s') reverted s1.
Proof.
  intros Hok Hf Hp Hnt Hre Hfp Hsok Hsf Hpaid. set (s0 := set_ge_stakes stakes s) in *.
  assert (engine_ok origin s0) as Hok0 by (destruct Hok as [K1 K2 K3 K4 K5 K6]; by constructor).
  assert (engine_funds s0 + slash = engine_funds s) as Hf0.
  { unfold engine_funds, s0. cbn [ge_stakes ge_review_rounds ge_proposals set_ge_stakes]. change (liquid_funds (set_ge_stakes _ s)) with (liquid_funds s). lia. }
  assert (parameters_ok (ge_parameters s1)) as Hpar by (rewrite (paid_parameters _ _ _ Hpaid); apply (eo_parameters _ _ Hok)).
  assert (ge_proposals s1 !! id = Some p') as Hp1 by (rewrite (paid_proposals _ _ _ Hpaid); apply lookup_insert_eq).
  assert (fits 128 (liquid_funds s1 + proposal_funds p')) as Hf1.
  { rewrite (paid_liquid _ _ _ Hpaid). eapply fits_mono; [|exact Hf]. change (liquid_funds (update_proposal _ _ s0)) with (liquid_funds s).
    pose proof (map_sum_le proposal_funds _ _ _ Hp). unfold engine_funds. lia. }
  pose proof (rebonded_ok (ge_parameters s) id p p' ltac:(by apply (eo_proposals _ _ Hok)) Hnt Hre) as Hbase.
  assert (forall n q s', proposal_ok (ge_parameters s0) id q -> proposal_funds q + n = proposal_funds p' ->
    paid n (update_proposal id q s1) s' -> advances origin 0 0 s s') as Hfinish.
  { intros n q s' Hq Hn Hs'. apply (paid_update _ _ _ id q) in Hpaid. rewrite update_update in Hpaid.
    pose proof (paid_trans _ _ _ _ _ Hpaid Hs') as Hall.
    destruct (proposal_step origin id p q _ s0 s' Hok0 Hp Hnt Hq Hall) as (Hok' & Hfs & Hkeep & Hpars). constructor; [done|lia|done|done]. }
  unfold punish. step. step; [step|]. match goal with Hl : ge_proposals s1 !! id = Some ?q |- _ => assert (q = p') as -> by congruence; clear Hl end.
  destruct (String.eqb _ offender).
  - step. step. fold (update_proposal id (set_pr_state Rejected (set_pr_pending_challenge None p')) s1).
    eapply wp_no_error; [apply (settle_fraud_spec id (set_pr_state Rejected (set_pr_pending_challenge None p'))); [done|apply lookup_insert_eq|done]|].
    cbn beta. intros _ s' Hs'. rewrite update_update in Hs'. eapply Hfinish; [| |exact Hs'].
    + by apply (proposal_ok_closed _ _ (set_pr_state VotingOpen (set_pr_pending_challenge None p')) Rejected).
    + by rewrite closed_funds.
  - step. step. set (g := evaluate_proposal s1 p'). step. step.
    set (q := set_pr_gates (Some g) (set_pr_pending_challenge None p')).
    assert (proposal_ok (ge_parameters s0) id (set_pr_state VotingOpen q)) as Hq by (destruct Hbase as [P1 P2 P3 P4 P5 P6 P7 P8 P9]; by constructor).
    destruct (accepted g) eqn:Hg.
    + step. eapply (Hfinish 0); [| |apply paid_0].
      * apply (proposal_ok_state _ _ (set_pr_state VotingOpen q) AcceptedPendingChallenge); [done|done|]. intros _.
        unfold meets_gates. unfold g, evaluate_proposal in Hg. by rewrite (paid_parameters _ _ _ Hpaid) in Hg.
      * rewrite N.add_0_r. done.
    + fold (update_proposal id (set_pr_state Expired q) s1).
      eapply wp_no_error; [apply (settle_full_spec id (set_pr_state Expired q)); [apply lookup_insert_eq|done]|].
      cbn beta. intros _ s' Hs'. rewrite update_update in Hs'. eapply Hfinish; [| |exact Hs'].
      * by apply (proposal_ok_closed _ _ (set_pr_state VotingOpen q) Expired).
      * by rewrite closed_funds.
Qed.

Lemma resolve_challenge_step id s : engine_ok origin s -> fits 128 (engine_funds s) ->
  wp (resolve_objective_challenge id) (fun _ s' => advances origin 0 0 s s') (failed origin s) s.
Proof.
  intros Hok Hf. apply wp_atomic_ok; [done|]. unfold resolve_objective_challenge_inner. do 9 step. 
  all: try step. in_state Hst.
  match goal with Hl : ge_proposals s !! id = Some ?q |- _ => rename q into p; rename Hl into Hp end.
  pose proof (eo_proposals _ _ Hok _ _ Hp) as Hpo.
  match goal with |- wp (if ?b then _ else _) _ _ _ => destruct b end.
  - step. eapply wp_mono; [by apply (invalidate_and_slash_spec id _ p)| |done]. cbn beta.
    intros offender s1 (p' & bond & stakes & slash & Hre & Hfp & Hsok & Hsf & Hpaid).
    eapply wp_mono; [eapply (punish_spec id offender p p' bond slash stakes s); try done; by rewrite Hst| |done].
    cbn beta. intros _ s' Hadv. by step.
  - step. step. eapply advances_state; [done|exact Hp|by rewrite Hst| |done].
    destruct Hpo as [P1 P2 P3 P4 P5 P6 P7 P8 P9]. constructor; try done; [cbn; by rewrite P7, Hst|]. intros _. apply P9. by rewrite Hst.
Qed.

(** ** Execution *)

Lemma advances_executed id p p' e n s s' : engine_ok origin s -> ge_proposals s !! id = Some p -> is_terminal (pr_state p) = false ->
  pc_parent_canonical_ecosystem_cid (pr_content p) = ge_canonical_ecosystem_cid s ->
  proposal_ok (ge_parameters s) id p' -> pr_state p' = Executed -> pr_content p' = pr_content p ->
  proposal_funds p' + n = proposal_funds p -> ev_proposal_id e = id -> ev_old_cid e = ge_canonical_ecosystem_cid s ->
  ev_new_cid e = pc_candidate_ecosystem_cid (pr_content p) ->
  ge_parameters s' = ge_parameters s -> ge_stakes s' = ge_stakes s -> ge_review_rounds s' = ge_review_rounds s ->
  ge_proposals s' = <[id := p']> (ge_proposals s) -> ge_events s' = ge_events s ++ [e] ->
  ge_canonical_ecosystem_cid s' = pc_candidate_ecosystem_cid (pr_content p) -> liquid_funds s' = liquid_funds s + n ->
  advances origin 0 0 s s'.
Proof.
  intros [K1 K2 K3 K4 K5 K6] Hp Hnt Hpar Hok' Hex Hc Hn E1 E2 E3 F1 F2 F3 F4 F5 F6 F7.
  assert (keeps_finished s s') as Hkeep.
  { intros id' q Hq Ht. rewrite F4, lookup_insert_ne; [done|]. intros <-. congruence. }
  constructor; [constructor| |done|done].
  - by rewrite F1.
  - by rewrite F2.
  - by rewrite F3.
  - intros id' q. rewrite F4, F1. intros [[<- <-]|[Hne Hl]]%lookup_insert_Some; [done|by apply K4].
  - rewrite F5, F6, <-E3. by eapply linked_app.
  - rewrite F5. apply Forall_app. split.
    + eapply Forall_impl; [exact K6|]. intros e' (q & Hq & Hxq & Hcq). exists q. split; [|done]. apply Hkeep; [done|by rewrite Hxq].
    + apply Forall_singleton. exists p'. rewrite F4, E1, lookup_insert_eq, Hc, E2, E3. done.
  - unfold engine_funds. rewrite F2, F3, F4, F7. pose proof (map_sum_update proposal_funds (ge_proposals s) id p p' Hp). lia.
Qed.

Lemma execute_ready_step id p s : engine_ok origin s -> fits 128 (engine_funds s) -> ge_proposals s !! id = Some p ->
  pr_state p = AcceptedPendingExecution -> pc_parent_canonical_ecosystem_cid (pr_content p) = ge_canonical_ecosystem_cid s ->
  wp (execute_ready_proposal id (ge_canonical_ecosystem_cid s)) (fun _ s' => advances origin 0 0 s s') reverted s.
Proof.
  intros Hok Hf Hp Hst Hpar. unfold execute_ready_proposal. step. step; [step|].
  match goal with Hl : ge_proposals s !! id = Some ?q |- _ => assert (q = p) as -> by congruence; clear Hl end.
  set (e := {| ev_old_cid := ge_canonical_ecosystem_cid s |}) in *. do 5 step.
  set (p1 := set_pr_state Executed p). match goal with |- wp _ _ _ ?st => set (s2 := st) end.
  assert (exists s3, wp (match pc_candidate_identity_metrics_root (pr_content p), pc_candidate_identity_metrics_epoch (pr_content p) with
      | Some root, Some epoch => modify (fun s => set_ge_registered_metrics ∅ (set_ge_metrics_epoch epoch (set_ge_metrics_root root s)))
      | _, _ => mret tt
      end) (fun _ s' => s' = s3) reverted s2 /\ ge_parameters s3 = ge_parameters s /\ ge_stakes s3 = ge_stakes s /\
      ge_review_rounds s3 = ge_review_rounds s /\ ge_proposals s3 = <[id := p1]> (ge_proposals s) /\ ge_events s3 = ge_events s /\
      ge_canonical_ecosystem_cid s3 = pc_candidate_ecosystem_cid (pr_content p) /\ liquid_funds s3 = liquid_funds s) as (s3 & Hwp & F).
  { destruct (pc_candidate_identity_metrics_root (pr_content p)), (pc_candidate_identity_metrics_epoch (pr_content p)); eexists; (split; [by repeat step|done]). }
  eapply wp_mono; [exact Hwp| |done]. cbn beta. intros _ s' ->. destruct F as (F1 & F2 & F3 & F4 & F5 & F6 & F7). step.
  eapply wp_no_error; [apply (settle_full_spec id p1)|].
  - rewrite F4. apply lookup_insert_eq.
  - rewrite F7. eapply fits_mono; [|exact Hf]. apply (proposal_funds_le _ _ _ Hp).
  - cbn beta. intros _ s4 Hpaid. do 3 step. pose proof (eo_proposals _ _ Hok _ _ Hp) as Hpo. pose proof (paid_liquid _ _ _ Hpaid) as Hl.
    destruct Hpaid as (rf & b & c & -> & _).
    eapply (advances_executed id p (closed p1) e (proposal_funds p1)); try done; try (by rewrite Hst).
    + apply proposal_ok_closed; [done|done|]. intros _. apply (po_accepted _ _ _ Hpo). by rewrite Hst.
    + by rewrite closed_funds.
    + apply (po_id _ _ _ Hpo).
    + cbn. rewrite F4. by rewrite insert_insert_eq.
    + cbn. by rewrite F5.
    + unfold liquid_funds in *. cbn in *. lia.
Qed.

Lemma execute_proposal_step id clock s : engine_ok origin s -> fits 128 (engine_funds s) ->
  wp (execute_proposal id clock) (fun _ s' => advances origin 0 0 s s') (failed origin s) s.
Proof.
  intros Hok Hf. unfold execute_proposal. do 4 step; [step|]. step. step; [step|]. in_state Hst.
  match goal with Hl : ge_proposals s !! id = Some ?q |- _ => rename q into p; rename Hl into Hp end.
  destruct (String.eqb_spec (pc_parent_canonical_ecosystem_cid (pr_content p)) (ge_canonical_ecosystem_cid s)) as [Hpar|Hne]; cbn [negb].
  - step. step; [step|]. destruct (pr_execution_expires p <? _).
    + step. eapply wp_mono; [by apply expire_proposal_step| |done]. cbn beta. intros _ s' Hadv. step. by split.
    + do 3 step. step; [step|]. apply wp_atomic_ok; [done|]. by apply (execute_ready_step id p).
  - step. eapply wp_mono; [by apply mark_stale_step| |done]. cbn beta. intros _ s' Hadv. step. by split.
Qed.

(** ** Drafts *)

(** The registered weight is the sum of the weights in the snapshot. *)
Lemma add_voter_total st e minimum entry snapshot total snapshot' total' :
  add_voter st e minimum (snapshot, total) entry = Ok (snapshot', total') -> snapshot !! entry.1 = None ->
  total = map_sum vt_weight snapshot ->
  total' = map_sum vt_weight snapshot' /\ forall a, snapshot' !! a <> None -> a = entry.1 \/ snapshot !! a <> None.
Proof.
  unfold add_voter. intros (voter & _ & Hq)%bind_Ok Hnew ->. destruct voter as [v|].
  - apply bind_Ok in Hq as (t & [-> _]%ok_or_Ok%checked_add_Some & [= <- <-]). rewrite map_sum_insert_new by done. split; [lia|].
    intros a Ha. destruct (decide (entry.1 = a)) as [->|Hne]; [by left|]. rewrite lookup_insert_ne in Ha by done. by right.
  - injection Hq as <- <-. split; [done|]. by right.
Qed.

Lemma add_voters_total st e minimum entries snapshot total snapshot' total' : NoDup entries.*1 ->
  (forall a, a ∈ entries.*1 -> snapshot !! a = None) -> total = map_sum vt_weight snapshot ->
  try_fold (add_voter st e minimum) (snapshot, total) entries = Ok (snapshot', total') -> total' = map_sum vt_weight snapshot'.
Proof.
  revert snapshot total. induction entries as [|[a pos] rest IH]; intros snapshot total Hnd Hnew Ht; [by intros [= <- <-]|].
  cbn [fmap list_fmap fst] in *. inversion Hnd as [|? ? Hnin Hnd']. subst. cbn [try_fold]. intros ([m t] & Ha & Hrest)%bind_Ok.
  apply add_voter_total in Ha as [-> Hkeys]; [|apply Hnew; by left|done]. eapply IH; [exact Hnd'| |done|exact Hrest].
  intros b Hb. apply eq_None_not_Some. intros [v Hv]. destruct (Hkeys b) as [->|Hbs]; [by rewrite Hv|done|].
  apply Hbs, Hnew. by right.
Qed.

Lemma snapshot_total st e snapshot total :
  build_voter_snapshot st e = Ok (snapshot, total) -> total = map_sum vt_weight snapshot.
Proof.
  unfold build_voter_snapshot. intros (minimum & _ & Hq)%bind_Ok. eapply add_voters_total; [| | |exact Hq].
  - apply btree_keys_NoDup.
  - intros a _. apply lookup_empty.
  - by rewrite map_sum_empty.
Qed.

(** A proposal takes the bonds of the round it is drafted from. *)
Lemma advances_draft rid r r' id p s : engine_ok origin s -> ge_review_rounds s !! rid = Some r -> ge_proposals s !! id = None ->
  round_ok r' -> round_funds r' = 0 -> proposal_funds p = round_funds r -> proposal_ok (ge_parameters s) id p ->
  advances origin 0 0 s (set_ge_proposals (<[id := p]> (ge_proposals s)) (set_ge_review_rounds (<[rid := r']> (ge_review_rounds s)) s)).
Proof.
  intros [K1 K2 K3 K4 K5 K6] Hr Hnew Hro Hz Hf Hpo.
  assert (forall id' q, ge_proposals s !! id' = Some q -> <[id := p]> (ge_proposals s) !! id' = Some q) as Hold.
  { intros id' q Hq. rewrite lookup_insert_ne; [done|]. intros <-. congruence. }
  constructor; [constructor; try done| | |done].
  - cbn. intros rid' q [[<- <-]|[_ Hq]]%lookup_insert_Some; [done|by eapply K3].
  - cbn. intros id' q [[<- <-]|[_ Hq]]%lookup_insert_Some; [done|by apply K4].
  - eapply Forall_impl; [exact K6|]. intros e (q & Hq & Hrest). exists q. split; [by apply Hold|exact Hrest].
  - unfold engine_funds. cbn [ge_stakes ge_review_rounds ge_proposals set_ge_review_rounds set_ge_proposals].
    change (liquid_funds (set_ge_proposals _ _)) with (liquid_funds s). rewrite (map_sum_insert_new proposal_funds) by exact Hnew.
    pose proof (map_sum_update round_funds (ge_review_rounds s) rid r r' Hr). lia.
  - intros id' q Hq _. by apply Hold.
Qed.

Lemma claimed_round st content r clock u : check_claimed_round st content r clock = Ok u ->
  rr_state r = RoundFrozen /\ rr_bond_atoms r = pc_proposal_bond_atoms content.
Proof.
  unfold check_claimed_round, require_review_round_state. intros Hc. res_inv. rejects.
  match goal with Hm : negb (content_matches_round _ _) = false |- _ => apply negb_false_iff in Hm; unfold content_matches_round in Hm end.
  bool_inv. case_bool_decide; [|done]. by split.
Qed.

Lemma create_proposal_draft_step `{!DagCbor CanonicalSourceTreeManifestV1, !DagCbor CanonicalSourcePatchV1} content attached clock s :
  engine_ok origin s -> fits 128 (engine_funds s) ->
  wp (create_proposal_draft content attached clock) (fun _ s' => advances origin 0 0 s s') (failed origin s) s.
Proof.
  intros Hok Hf. apply wp_atomic_ok; [done|]. unfold create_proposal_draft_inner. step.
  eapply wp_no_error; [by apply sync_all_stakes_step|]. cbn beta. intros _ s1 [Hadv _]. repeat step.
  match goal with a : (gmap string VoterSnapshot * N)%type |- _ => destruct a as [snapshot weight] end. repeat step.
  match goal with Hc : check_claimed_round _ _ _ _ = Ok _ |- _ => apply claimed_round in Hc as [Hst Hb] end.
  match goal with Hv : build_voter_snapshot _ _ = Ok _ |- _ => apply snapshot_total in Hv; rename Hv into Hweight end.
  match goal with Hl : ge_review_rounds s1 !! _ = Some _ |- _ => rename Hl into Hr end.
  rejects. match goal with Hd : bool_decide _ = false |- _ => apply bool_decide_eq_false, eq_None_not_Some in Hd; rename Hd into Hnew end.
  eapply (advances_trans _ 0 0 0 0); [exact Hadv|]. pose proof (adv_ok _ _ _ _ _ Hadv) as Hok1. cbn [ge_proposals set_ge_review_rounds].
  eapply advances_draft; [done|exact Hr|exact Hnew|exact (eo_rounds _ _ Hok1 _ _ Hr)|done| |].
  - unfold proposal_funds, round_funds, attestation_funds. rewrite Hst, Hb. done.
  - by constructor.
Qed.
End lifecycle.
