(* ===== verification/GovOps.v ===== *)
(** * Histories of the governance engine

    The public operations of [GovernanceEngine] as data: what each call does, what it
    brings into the engine, what it pays out, and the log of a sequence of calls. *)
From S2P Require Import Prelude Order Text Crates GovText GovMath GovSource GovMetrics GovAttest GovManifest GovScope GovState GovCommit GovRules GovStake GovRound GovEngine GovWp GovFunds GovInvariant GovSteps GovLifecycle.

Local Open Scope N_scope.

(** The methods that take [&mut self], one constructor for each. *)
Inductive operation :=
| OpRegisterMetrics (caller : string) (proof : GovernanceIdentityMetricsProofV1)
| OpSubmitMetrics (caller attestation_cid : string) (car : bytes) (clock : GovernanceClock)
| OpRegisterStake (caller : string) (atoms : N) (clock : GovernanceClock)
| OpScheduleWithdrawal (caller : string) (atoms : N) (clock : GovernanceClock)
| OpFinalizeUnbonding (caller : string) (clock : GovernanceClock)
| OpStakePosition (caller : string) (epoch : N)
| OpOpenRound (input : OpenReviewRoundInputV1) (clock : GovernanceClock)
| OpFreezeRound (review_round_id : string) (clock : GovernanceClock)
| OpRegisterWaiver (caller review_round_id waiver_cid : string) (car : bytes) (clock : GovernanceClock)
| OpExpireRound (review_round_id : string) (clock : GovernanceClock)
| OpSubmitAgent (review_round_id : string) (input : AgentAttestationInputV1) (clock : GovernanceClock)
| OpSubmitBuild (review_round_id : string) (input : BuildAttestationInputV1) (clock : GovernanceClock)
| OpSubmitAvailability (review_round_id : string) (input : DataAvailabilityAttestationInputV1) (clock : GovernanceClock)
| OpCreateDraft (content : ChangeProposalContentV1) (attached_bond_atoms : N) (clock : GovernanceClock)
| OpOpenReview (proposal_id : string) (clock : GovernanceClock)
| OpOpenVoting (proposal_id : string) (clock : GovernanceClock)
| OpCastVote (proposal_id voter : string) (choice : VoteChoice) (clock : GovernanceClock)
| OpFinalizeVoting (proposal_id : string) (clock : GovernanceClock)
| OpSubmitChallenge (proposal_id : string) (input : ObjectiveChallengeInputV1) (clock : GovernanceClock)
| OpResolveChallenge (proposal_id : string)
| OpCloseChallengePeriod (proposal_id : string) (clock : GovernanceClock)
| OpExecute (proposal_id : string) (clock : GovernanceClock)
| OpExpireProposal (proposal_id : string) (clock : GovernanceClock)
| OpMarkStale (proposal_id : string)
| OpWithdrawRefund (caller : string).

(** The atoms that a call brings in when it succeeds. *)
Definition deposit (op : operation) : N :=
  match op with
  | OpRegisterStake _ atoms _ => atoms
  | OpOpenRound input _ => or_attached_bond_atoms input
  | OpSubmitAgent _ input _ => ai_bond_atoms input
  | OpSubmitBuild _ input _ => bi_bond_atoms input
  | OpSubmitAvailability _ input _ => di_bond_atoms input
  | _ => 0
  end.

Section operations.
Context `{Hashing, CidCrate, EvidenceJson}.
Context `{DagCbor CarHeader, DagCbor GovernanceParameterSetV1, DagCbor IdentityMetricsAttestationV1, DagCbor CriticalFindingWaiverV1}.
Context `{DagCbor AgentReviewAttestationV1, DagCbor BuildAttestationV1, DagCbor DataAvailabilityAttestationV1}.
Context `{DagCbor CanonicalEcosystemManifestV1, DagCbor CanonicalEcosystemPatchManifestV1,
          DagCbor CanonicalPinsetManifestV1, DagCbor ToolchainManifestV1}.
Context `{DagCbor ProposalScopeEvidenceV1, DagCbor CanonicalSourceTreeManifestV1, DagCbor CanonicalSourcePatchV1}.

(** A call that pays nothing out. *)
Definition unpaid {A} (m : engine_method A) : engine_method N := _ ← m; mret 0.

(** A call returns the atoms that it pays to the caller. *)
Definition perform (op : operation) : engine_method N :=
  match op with
  | OpRegisterMetrics caller proof => unpaid (register_identity_metrics caller proof)
  | OpSubmitMetrics caller cid car clock => unpaid (submit_identity_metrics_attestation caller cid car clock)
  | OpRegisterStake caller atoms clock => unpaid (register_stake caller atoms clock)
  | OpScheduleWithdrawal caller atoms clock => unpaid (schedule_withdrawal caller atoms clock)
  | OpFinalizeUnbonding caller clock => unpaid (finalize_unbonding caller clock)
  | OpStakePosition caller epoch => unpaid (stake_position caller epoch)
  | OpOpenRound input clock => unpaid (open_review_round input clock)
  | OpFreezeRound id clock => unpaid (freeze_review_round id clock)
  | OpRegisterWaiver caller id cid car clock => unpaid (register_critical_finding_waiver caller id cid car clock)
  | OpExpireRound id clock => unpaid (expire_review_round id clock)
  | OpSubmitAgent id input clock => unpaid (submit_agent_attestation id input clock)
  | OpSubmitBuild id input clock => unpaid (submit_build_attestation id input clock)
  | OpSubmitAvailability id input clock => unpaid (submit_data_availability_attestation id input clock)
  | OpCreateDraft content attached clock => unpaid (create_proposal_draft content attached clock)
  | OpOpenReview id clock => unpaid (open_review id clock)
  | OpOpenVoting id clock => unpaid (open_voting id clock)
  | OpCastVote id voter choice clock => unpaid (cast_vote id voter choice clock)
  | OpFinalizeVoting id clock => unpaid (finalize_voting id clock)
  | OpSubmitChallenge id input clock => unpaid (submit_objective_challenge id input clock)
  | OpResolveChallenge id => unpaid (resolve_objective_challenge id)
  | OpCloseChallengePeriod id clock => unpaid (close_challenge_period id clock)
  | OpExecute id clock => unpaid (execute_proposal id clock)
  | OpExpireProposal id clock => unpaid (expire_proposal id clock)
  | OpMarkStale id => unpaid (mark_stale id)
  | OpWithdrawRefund caller => withdraw_refund caller
  end.

(** What each call of a sequence returned, and the engine after it. *)
Fixpoint history (ops : list operation) (s : GovernanceEngine) : list (operation * governed N) * GovernanceEngine :=
  match ops with
  | [] => ([], s)
  | op :: rest =>
      let '(r, s1) := perform op s in
      let '(log, s2) := history rest s1 in
      ((op, r) :: log, s2)
  end.

(** The atoms that the successful calls of a log brought in, and those they paid out. *)
Definition deposited (log : list (operation * governed N)) : N :=
  sum_N (map (fun e => if is_ok e.2 then deposit e.1 else 0) log).

Definition withdrawn (log : list (operation * governed N)) : N :=
  sum_N (map (fun e => match e.2 with Ok n => n | Err _ => 0 end) log).
End operations.
