(* ===== verification/GovSample.v ===== *)
(** * A complete governance history

    Concrete inputs for one change of the ecosystem, from the registration of metrics and
    stakes through review, availability, voting and the challenge period to execution.
    The histories of the theorems are evaluated on it. *)
From S2P Require Import Prelude Order Text Crates Concrete GovText GovMath GovSource GovMetrics GovAttest GovManifest GovScope GovState GovCommit GovRules GovStake GovRound GovEngine GovOps.
From Stdlib Require Import Strings.Byte.

Local Open Scope N_scope.

#[local] Existing Instance hashing_c.
#[local] Existing Instance cid_crate_c.
#[local] Existing Instance header_cbor_c.
#[local] Existing Instance sample_ecosystem_cbor.
#[local] Existing Instance sample_patch_cbor.
#[local] Existing Instance sample_tree_cbor.
#[local] Existing Instance sample_source_patch_cbor.

Definition raw_cid (data : bytes) : string := GovManifest.sample_cid RAW_CODEC data.
Definition block_cid (data : bytes) : string := GovManifest.sample_cid DAG_CBOR_CODEC data.

(** ** Parameters and people *)

Definition sample_gate : GateParameterSet := {|
  turnout_quorum_bps := 2000; yes_threshold_bps := 6000; minimum_yes_identities := 2; minimum_verified_or_human_yes := 1;
  minimum_agent_attestations := 2; minimum_agent_runtime_groups := 2; minimum_agent_families := 2; minimum_agent_owners := 2;
  critical_finding_owner_threshold := 2; minimum_builders := 1; minimum_builder_platforms := 1;
  minimum_data_availability_providers := 2 |}.

Definition sample_parameters : GovernanceParameterSetV1 :=
  let d := experimental_defaults in {|
  gp_schema_version := 1; idna_atoms_per_unit := idna_atoms_per_unit d; stake_quantum_atoms := stake_quantum_atoms d;
  minimum_active_stake_atoms := minimum_active_stake_atoms d; status_bps_set := status_bps_set d;
  flip_prior_reported := 1; flip_prior_total := 20; flip_trust_floor_bps := 4000; flip_trust_ceiling_bps := 10000;
  flip_penalty_scale := 15000; activation_delay_epochs := 1; unbonding_delay_epochs := 4; review_period_blocks := 40;
  voting_period_blocks := 120; challenge_period_blocks := 60; timelock_blocks := 60; execution_window_blocks := 600;
  minimum_identity_metrics_attestations := 1; minimum_reviewer_bond_atoms := minimum_reviewer_bond_atoms d;
  minimum_builder_bond_atoms := minimum_builder_bond_atoms d;
  minimum_data_availability_bond_atoms := minimum_data_availability_bond_atoms d; gp_normal := sample_gate;
  gp_critical := sample_gate; proposal_bond_policy := proposal_bond_policy d;
  objective_slash_policy := objective_slash_policy d |}.

#[global] Instance GovernanceParameterSetV1_eq_dec : EqDecision GovernanceParameterSetV1.
Proof.
  assert (EqDecision GateParameterSet) by solve_decision. assert (EqDecision StatusBps) by solve_decision.
  assert (EqDecision ProposalBondPolicy) by solve_decision. assert (EqDecision ObjectiveSlashPolicy) by solve_decision.
  solve_decision.
Defined.

#[local] Instance sample_parameters_cbor : DagCbor GovernanceParameterSetV1 := table_cbor x50 [sample_parameters].
Definition sample_parameters_cid : string := block_cid [x50; x00].

Definition alice : string := "0x1111111111111111111111111111111111111111".
Definition bob : string := "0x2222222222222222222222222222222222222222".
Definition carol : string := "0x3333333333333333333333333333333333333333".

Definition sample_metrics : BuiltIdentityMetricsSnapshot :=
  match build_identity_metrics_snapshot sample_leaves with
  | Ok s => s
  | Err _ => {| bm_root := ""; bm_leaves := []; bm_proofs := ∅ |}
  end.

(** One atom of IDNA stake or bond per unit. *)
Definition idna (n : N) : N := n * 10 ^ 18.

Definition sample_start : governed GovernanceEngine :=
  initialize sample_parent_cid sample_parameters_cid sample_parameters (bm_root sample_metrics) 7.

(** ** The metrics attestation *)

Definition sample_metrics_attestation : IdentityMetricsAttestationV1 := {|
  im_schema_version := 1; im_metrics_root := bm_root sample_metrics; im_snapshot_cid := block_cid [x60];
  im_snapshot_sha256 := sha256_hex [x60]; im_source_epoch := 7; im_source_block_height := 1000;
  im_source_block_hash := sha256_hex [x61]; im_replay_start_height := 1; im_replay_commitment := sha256_hex [x62];
  im_indexer_implementation_cid := block_cid [x63]; im_operator_idena_address := alice;
  im_observed_at_block_or_timestamp := 1; im_authentication := ON_CHAIN_SUBMITTER_AUTHENTICATION |}.

#[global] Instance IdentityMetricsAttestationV1_eq_dec : EqDecision IdentityMetricsAttestationV1.
Proof. solve_decision. Defined.
#[local] Instance sample_metrics_cbor : DagCbor IdentityMetricsAttestationV1 := table_cbor x51 [sample_metrics_attestation].

(** The archive of a value, and the archives of manifests. *)
Definition car_of {T} `{DagCbor T} (v : T) : bytes := match package_dag_cbor v with Ok p => car_bytes p | Err _ => [] end.

(** ** The review round *)

Definition sample_patch_cid : string := block_cid [x11; x00].
Definition sample_evidence : ProposalScopeEvidenceV1 := sample_scope sample_parent_cid sample_candidate_cid sample_patch_cid.
#[local] Instance sample_scope_cbor : DagCbor ProposalScopeEvidenceV1 := table_cbor x52 [sample_evidence].
Definition sample_scope_cid : string := block_cid [x52; x00].

Definition sample_toolchain : ToolchainManifestV1 := toolchain_manifest sample_candidate.
#[local] Instance sample_toolchain_cbor : DagCbor ToolchainManifestV1 := table_cbor x53 [sample_toolchain].
Definition sample_toolchain_cid : string := block_cid [x53; x00].

(** The candidate, the patch, the parameters, the sources, the artifact, the repository patch, the scope and the texts. *)
Definition sample_texts : list string := map (fun b => raw_cid [x70; b]) [x00; x01; x02; x03; x04].
Definition sample_pins : list string :=
  btree_set_list (list_to_set
    ([sample_candidate_cid; sample_patch_cid; sample_parameters_cid; sample_scope_cid; raw_cid [x0a]; block_cid [x13; x00]]
     ++ map rm_source_tree_cid (em_repositories sample_candidate) ++ sample_texts)).
Definition sample_pinset : PinsetManifestV1 :=
  {| pm_schema_version := 1; pm_ecosystem_cid := sample_candidate_cid; pm_cids := sample_pins |}.
#[local] Instance sample_pinset_cbor : DagCbor CanonicalPinsetManifestV1 := table_cbor x54 (ok_values [canonical_pinset sample_pinset]).
Definition sample_pinset_cid : string := block_cid [x54; x00].

(** The archives of values that have a canonical form. *)
Definition canonical_car {E T} `{DagCbor T} (r : result E T) : bytes := match r with Ok v => car_of v | Err _ => [] end.

Definition sample_opening : OpenReviewRoundInputV1 := {|
  or_parent_car := canonical_car (canonical_ecosystem sample_parent);
  or_candidate_car := canonical_car (canonical_ecosystem sample_candidate);
  or_patch_car := canonical_car (canonical_ecosystem_patch sample_patch);
  or_pinset_car := canonical_car (canonical_pinset sample_pinset); or_scope_car := car_of sample_evidence;
  or_opener_address := carol; or_attached_bond_atoms := idna 10 |}.

Definition sample_round_id : string :=
  review_round_id sample_parent_cid sample_candidate_cid sample_patch_cid sample_scope_cid carol 100.

(** ** Attestations *)

Definition sample_commands : list CommandExecutionV1 :=
  [{| ce_command := "cargo test"; ce_exit_code := 0; ce_stdout_sha256 := sha256_hex [x71]; ce_stderr_sha256 := sha256_hex [x72] |}].

Definition sample_review (owner family : string) : AgentReviewAttestationV1 := {|
  ag_schema_version := 1; ag_parent_ecosystem_cid := sample_parent_cid; ag_candidate_ecosystem_cid := sample_candidate_cid;
  ag_patch_cid := sample_patch_cid;
  ag_affected_repositories := [{| rc_repository := "node"; rc_cid := block_cid [x12; x01] |}];
  ag_model_identifier := "reviewer"; ag_model_revision := None; ag_provider_or_runtime_identifier := "local";
  ag_model_family := family; ag_agent_policy_cid := raw_cid [x73]; ag_system_prompt_policy_cid := raw_cid [x74];
  ag_tool_versions := {["cargo" := "1.85"]}; ag_commands_executed := sample_commands;
  ag_test_results_cid := raw_cid PASSED_FALSE; ag_tests_passed := true; ag_static_analysis_results_cid := raw_cid [x75];
  ag_dependency_findings_cid := raw_cid [x76]; ag_security_findings := []; ag_unresolved_critical_findings := 0;
  ag_verdict := ReviewApprove; ag_owner_idena_address := owner; ag_reviewer_bond_atoms := "1000000000000000000";
  ag_creation_block_or_timestamp := 105; ag_authentication := ON_CHAIN_SUBMITTER_AUTHENTICATION |}.

Definition sample_reviews : list AgentReviewAttestationV1 := [sample_review alice "alpha"; sample_review bob "beta"].

#[global] Instance AgentReviewAttestationV1_eq_dec : EqDecision AgentReviewAttestationV1.
Proof.
  assert (EqDecision CommandExecutionV1) by solve_decision. assert (EqDecision SecurityFindingV1) by solve_decision.
  assert (EqDecision ReviewVerdictV1) by solve_decision. solve_decision.
Defined.
#[local] Instance sample_review_cbor : DagCbor AgentReviewAttestationV1 := table_cbor x55 sample_reviews.

Definition sample_agent (i : byte) (review : AgentReviewAttestationV1) : AgentAttestationInputV1 := {|
  ai_attestation_cid := block_cid [x55; i]; ai_attestation_car := car_of review;
  ai_parent_ecosystem_cid := sample_parent_cid; ai_candidate_ecosystem_cid := sample_candidate_cid;
  ai_patch_cid := sample_patch_cid; ai_owner_address := ag_owner_idena_address review; ai_model_identifier := "reviewer";
  ai_model_revision := None; ai_runtime_identifier := "local"; ai_independence_group := ag_model_family review;
  ai_verdict := VerdictApprove; ai_unresolved_critical_findings := 0; ai_test_result_cid := raw_cid PASSED_FALSE;
  ai_tests_passed_claim := true; ai_bond_atoms := idna 1 |}.
Definition sample_agents : list AgentAttestationInputV1 := zip_with sample_agent [x00; x01] sample_reviews.

Definition sample_artifacts : list BuildArtifactV1 :=
  map (fun name => {| ba_name := name; ba_cid := raw_cid [x0a]; ba_sha256 := sha256_hex [x0a]; ba_size := 1; ba_core := true |})
    ["node"; "ui"]%string.
Definition sample_core_digest : string := match core_artifact_set_digest sample_artifacts with Ok d => d | Err _ => "" end.

Definition sample_build : BuildAttestationV1 := {|
  bd_schema_version := 1; bd_candidate_ecosystem_cid := sample_candidate_cid;
  bd_source_cids := map (fun r => {| rc_repository := rm_name r; rc_cid := rm_source_tree_cid r |}) (em_repositories sample_candidate);
  bd_toolchain_cid := sample_toolchain_cid; bd_scope_evidence_cid := sample_scope_cid; bd_builder_identity := carol;
  bd_runtime_family := "linux"; bd_architecture := "x86_64"; bd_commands := sample_commands;
  bd_test_results_cid := raw_cid [x77]; bd_tests_passed := true; bd_sbom_cid := raw_cid [x78]; bd_artifacts := sample_artifacts;
  bd_core_artifact_digest := sample_core_digest; bd_builder_bond_atoms := "1000000000000000000";
  bd_creation_block_or_timestamp := 105; bd_authentication := ON_CHAIN_SUBMITTER_AUTHENTICATION |}.

#[global] Instance BuildAttestationV1_eq_dec : EqDecision BuildAttestationV1.
Proof.
  assert (EqDecision CommandExecutionV1) by solve_decision. assert (EqDecision BuildArtifactV1) by solve_decision. solve_decision.
Defined.
#[local] Instance sample_build_cbor : DagCbor BuildAttestationV1 := table_cbor x56 [sample_build].

Definition sample_builder : BuildAttestationInputV1 := {|
  bi_attestation_cid := block_cid [x56; x00]; bi_attestation_car := car_of sample_build;
  bi_candidate_ecosystem_cid := sample_candidate_cid; bi_builder_address := carol; bi_runtime_family := "linux";
  bi_architecture := "x86_64"; bi_core_artifact_digest := sample_core_digest; bi_test_result_cid := raw_cid [x77];
  bi_tests_passed_claim := true; bi_bond_atoms := idna 1 |}.

(** Everything that has to be available once reviews and builds are in. *)
Definition sample_verified : list string :=
  btree_set_list (list_to_set
    (raw_cid [x79] :: sample_pins ++ build_required_cids (block_cid [x56; x00]) sample_build
     ++ mjoin (zip_with (fun i => agent_required_cids (block_cid [x55; i])) [x00; x01] sample_reviews))).

Definition sample_probe (operator provider : string) : DataAvailabilityAttestationV1 := {|
  da_schema_version := 1; da_candidate_ecosystem_cid := sample_candidate_cid; da_pinset_cid := sample_pinset_cid;
  da_provider_id := provider; da_operator_identity := operator; da_verified_cids := sample_verified;
  da_probe_result_cid := raw_cid [x79]; da_available := true; da_observed_at_block_or_timestamp := 145;
  da_expires_at_block := 2000; da_bond_atoms := "1000000000000000000"; da_authentication := ON_CHAIN_SUBMITTER_AUTHENTICATION |}.
Definition sample_probes : list DataAvailabilityAttestationV1 := [sample_probe alice "provider-a"; sample_probe bob "provider-b"].

#[global] Instance DataAvailabilityAttestationV1_eq_dec : EqDecision DataAvailabilityAttestationV1.
Proof. solve_decision. Defined.
#[local] Instance sample_probe_cbor : DagCbor DataAvailabilityAttestationV1 := table_cbor x57 sample_probes.

Definition sample_provider (i : byte) (probe : DataAvailabilityAttestationV1) : DataAvailabilityAttestationInputV1 := {|
  di_attestation_cid := block_cid [x57; i]; di_attestation_car := car_of probe;
  di_candidate_ecosystem_cid := sample_candidate_cid; di_provider_id := da_provider_id probe;
  di_operator_address := da_operator_identity probe; di_pinset_cid := sample_pinset_cid; di_verified_cids := sample_verified;
  di_probe_result_cid := raw_cid [x79]; di_available_claim := true; di_expires_at_block := 2000; di_bond_atoms := idna 1 |}.
Definition sample_providers : list DataAvailabilityAttestationInputV1 := zip_with sample_provider [x00; x01] sample_probes.

(** ** The proposal *)

(** The root of the commitment to the inputs of one class. *)
Definition sample_root {I} (domain : string) (entry : Bonded I -> governed AttestationCommitmentEntryV1) (inputs : list I) : string :=
  match (entries ← try_map (fun i => entry (new_bond i)) inputs; build_attestation_commitment domain entries) with
  | Ok c => bc_root c
  | Err _ => ""
  end.

Definition sample_content : ChangeProposalContentV1 := {|
  pc_schema_version := 2; pc_scope_evidence_cid := sample_scope_cid;
  pc_governance_parameter_set_cid := sample_parameters_cid; pc_parent_canonical_ecosystem_cid := sample_parent_cid;
  pc_candidate_ecosystem_cid := sample_candidate_cid; pc_affected_repositories := ["node"]; pc_changed_file_count := 1;
  pc_patch_bytes := 2; pc_source_package_bytes := 2; pc_description_bytes := 15; pc_migration_operation_count := 0;
  pc_base_source_cids := {["node" := block_cid [x12; x00]]}; pc_candidate_source_cids := {["node" := block_cid [x12; x01]]};
  pc_patch_cid := sample_patch_cid; pc_review_round_id := sample_round_id; pc_proposer_address := carol;
  pc_proposal_bond_atoms := idna 10; pc_risk_class := Normal; pc_rationale_cid := raw_cid [x70; x00];
  pc_migration_notes_cid := raw_cid [x70; x01]; pc_test_plan_cid := raw_cid [x70; x02];
  pc_rollback_manifest_cid := raw_cid [x70; x03]; pc_rollback_instructions_cid := raw_cid [x70; x04];
  pc_release_manifest_cid := None; pc_critical_finding_waiver_cid := None;
  pc_agent_review_root := sample_root AGENT_REVIEW_COMMITMENT_DOMAIN agent_entry sample_agents;
  pc_build_attestation_root := sample_root BUILD_ATTESTATION_COMMITMENT_DOMAIN build_entry [sample_builder];
  pc_data_availability_root := sample_root DATA_AVAILABILITY_COMMITMENT_DOMAIN availability_entry sample_providers;
  pc_creation_block := 170; pc_creation_epoch := 12; pc_staking_epoch := 12; pc_identity_metrics_epoch := 7;
  pc_candidate_identity_metrics_root := None; pc_candidate_identity_metrics_epoch := None; pc_voting_start := 210;
  pc_voting_end := 330; pc_challenge_end := 390 |}.

Definition sample_proposal_id : string := domain_hash "IDENA_GOV_PROPOSAL_ID_V2" sample_round_id.

(** ** The calls *)

#[global] Instance CriticalFindingWaiverV1_eq_dec : EqDecision CriticalFindingWaiverV1.
Proof. solve_decision. Defined.
#[local] Instance sample_waiver_cbor : DagCbor CriticalFindingWaiverV1 := table_cbor x58 [].
#[local] Instance evidence_json_c : EvidenceJson := {|
  test_result_from_slice b := if bool_decide (b = PASSED_FALSE) then Some false else None;
  availability_result_from_slice b := if bool_decide (b = AVAILABLE_FALSE) then Some false else None |}.

Definition metrics_proof_of (address : string) : GovernanceIdentityMetricsProofV1 :=
  default {| mp_leaf := sample_leaf "" Human; mp_index := 0; mp_leaf_count := 0; mp_siblings := [] |} (bm_proofs sample_metrics !! address).

Definition at_block (b : N) : GovernanceClock := {| block := b; epoch := if b <? 100 then 10 else 12 |}.

Definition sample_registration : list operation :=
  map (fun a => OpRegisterMetrics a (metrics_proof_of a)) [alice; bob; carol]
  ++ [OpSubmitMetrics alice (block_cid [x51; x00]) (car_of sample_metrics_attestation) (at_block 1)]
  ++ map (fun a => OpRegisterStake a (idna 100) (at_block 1)) [alice; bob; carol].

Definition sample_review_calls : list operation :=
  OpOpenRound sample_opening (at_block 100)
  :: map (fun i => OpSubmitAgent sample_round_id i (at_block 110)) sample_agents
  ++ [OpSubmitBuild sample_round_id sample_builder (at_block 110); OpFreezeRound sample_round_id (at_block 140)]
  ++ map (fun i => OpSubmitAvailability sample_round_id i (at_block 150)) sample_providers
  ++ [OpFreezeRound sample_round_id (at_block 160)].

Definition sample_vote_calls : list operation :=
  [OpCreateDraft sample_content 0 (at_block 170); OpOpenReview sample_proposal_id (at_block 180);
   OpOpenVoting sample_proposal_id (at_block 210)]
  ++ [OpCastVote sample_proposal_id alice No (at_block 215); OpCastVote sample_proposal_id alice Yes (at_block 220);
      OpCastVote sample_proposal_id bob Yes (at_block 220); OpCastVote sample_proposal_id carol Abstain (at_block 220)].

Definition sample_execution_calls : list operation :=
  [OpFinalizeVoting sample_proposal_id (at_block 330); OpCloseChallengePeriod sample_proposal_id (at_block 390);
   OpExecute sample_proposal_id (at_block 450); OpWithdrawRefund carol].

(** The engine after some calls, and whether all of them succeeded. *)
Definition sample_run (ops : list operation) : governed (bool * GovernanceEngine) :=
  s ← sample_start;
  let '(log, s') := history ops s in
  Ok (forallb (fun e => is_ok e.2) log, s').

(** Another end: the review of a false test result is challenged, and its author is slashed. *)
Definition sample_challenge : ObjectiveChallengeInputV1 := {|
  oc_challenger_address := bob; oc_target := AgentTestResult; oc_attestation_cid := block_cid [x55; x00];
  oc_evidence_cid := raw_cid PASSED_FALSE; oc_evidence_bytes := PASSED_FALSE |}.
Definition sample_challenge_calls : list operation :=
  [OpFinalizeVoting sample_proposal_id (at_block 330); OpSubmitChallenge sample_proposal_id sample_challenge (at_block 340);
   OpResolveChallenge sample_proposal_id].

(** The instances, for the files that evaluate the history. *)
Module Concretely.
#[export] Existing Instance hashing_c.
#[export] Existing Instance cid_crate_c.
#[export] Existing Instance header_cbor_c.
#[export] Existing Instance sample_ecosystem_cbor.
#[export] Existing Instance sample_patch_cbor.
#[export] Existing Instance sample_tree_cbor.
#[export] Existing Instance sample_source_patch_cbor.
#[export] Existing Instance sample_parameters_cbor.
#[export] Existing Instance sample_metrics_cbor.
#[export] Existing Instance sample_scope_cbor.
#[export] Existing Instance sample_toolchain_cbor.
#[export] Existing Instance sample_pinset_cbor.
#[export] Existing Instance sample_review_cbor.
#[export] Existing Instance sample_build_cbor.
#[export] Existing Instance sample_probe_cbor.
#[export] Existing Instance sample_waiver_cbor.
#[export] Existing Instance evidence_json_c.
End Concretely.

(** The stages of the history, each with what holds after it: the frozen round, the open vote, the execution, and the
    punished review. *)
Definition sample_stages (s0 : GovernanceEngine) : bool :=
  let '(log1, s1) := history (sample_registration ++ sample_review_calls) s0 in
  let '(log2, s2) := history sample_vote_calls s1 in
  let '(log3, s3) := history sample_execution_calls s2 in
  let '(log4, s4) := history sample_challenge_calls s2 in
  forallb (fun e => is_ok e.2) (log1 ++ log2 ++ log3 ++ log4)
  && match ge_review_rounds s1 !! sample_round_id with
     | Some r => bool_decide (rr_state r = RoundFrozen) && (rr_claim_deadline r =? 180)
                 && String.eqb (rr_parent_cid r) (ge_canonical_ecosystem_cid s1)
     | None => false
     end
  && match ge_proposals s2 !! sample_proposal_id with
     | Some p => bool_decide (pr_state p = VotingOpen)
                 && String.eqb (pc_parent_canonical_ecosystem_cid (pr_content p)) (ge_canonical_ecosystem_cid s2)
                 && (pc_voting_end (pr_content p) =? 330) && (pc_challenge_end (pr_content p) =? 390)
     | None => false
     end
  && match ge_proposals s3 !! sample_proposal_id with Some p => bool_decide (pr_state p = Executed) | None => false end
  && String.eqb (ge_canonical_ecosystem_cid s3) sample_candidate_cid && (withdrawn log3 =? idna 11)
  && match ge_proposals s4 !! sample_proposal_id with Some p => bool_decide (pr_state p = Expired) | None => false end
  && (0 <? ge_burned_atoms s4).

Lemma sample_stages_hold : match sample_start with Ok s0 => sample_stages s0 | Err _ => false end = true.
Proof. vm_compute. reflexivity. Qed.
