(* ===== verification/GovHistory.v ===== *)
(** * What every history of the governance engine guarantees

    For any sequence of calls on a freshly initialised engine, the conservation of its
    money, the well-formedness of its records, the absence of panics, the evidence behind
    each change of the canonical ecosystem, the finality of finished proposals, and the
    settlement of what is due. *)
From S2P Require Import Prelude Order Text Crates GovText GovMath GovSource GovMetrics GovAttest GovManifest GovScope GovState GovCommit GovRules GovStake GovRound GovEngine GovWp GovFunds GovInvariant GovSteps GovLifecycle GovOps GovSample.

Local Open Scope N_scope.

Section histories.
Context `{Hashing, CidCrate, EvidenceJson}.
Context `{DagCbor CarHeader, DagCbor GovernanceParameterSetV1, DagCbor IdentityMetricsAttestationV1, DagCbor CriticalFindingWaiverV1}.
Context `{DagCbor AgentReviewAttestationV1, DagCbor BuildAttestationV1, DagCbor DataAvailabilityAttestationV1}.
Context `{DagCbor CanonicalEcosystemManifestV1, DagCbor CanonicalEcosystemPatchManifestV1,
          DagCbor CanonicalPinsetManifestV1, DagCbor ToolchainManifestV1}.
Context `{DagCbor ProposalScopeEvidenceV1, DagCbor CanonicalSourceTreeManifestV1, DagCbor CanonicalSourcePatchV1}.

Lemma history_app ops ops' s : history (ops ++ ops') s =
  let '(log, s1) := history ops s in let '(log', s2) := history ops' s1 in (log ++ log', s2).
Proof.
  revert s. induction ops as [|op ops IH]; intros s; cbn [history app]; [by destruct (history ops' s)|].
  destruct (perform op s) as [r s1]. rewrite IH. destruct (history ops s1) as [log s2]. by destruct (history ops' s2).
Qed.

(** The atoms offered with the calls of a sequence, accepted or not. *)
Definition offered (ops : list operation) : N := sum_N (map deposit ops).

Lemma unpaid_step {A} (m : engine_method A) origin d s :
  wp m (fun _ s' => advances origin d 0 s s') (failed origin s) s ->
  wp (unpaid m) (fun w s' => advances origin d w s s') (failed origin s) s.
Proof. intros Hm. apply wp_bind. by eapply wp_mono; [exact Hm| |done]. Qed.

(** Every call keeps the invariant, moves money only as declared, and never panics. *)
Lemma perform_step origin op s : engine_ok origin s -> fits 128 (engine_funds s) ->
  wp (perform op) (fun w s' => advances origin (deposit op) w s s') (failed origin s) s.
Proof.
  intros Hok Hf. destruct op; cbn [perform deposit]; try apply unpaid_step.
  - by apply register_identity_metrics_step.
  - by apply submit_identity_metrics_step.
  - by apply register_stake_step.
  - by apply schedule_withdrawal_step.
  - by apply finalize_unbonding_step.
  - by apply stake_position_step.
  - by apply open_review_round_step.
  - by apply freeze_review_round_step.
  - by apply register_waiver_step.
  - by apply expire_review_round_step.
  - by apply submit_agent_step.
  - by apply submit_build_step.
  - by apply submit_availability_step.
  - by apply create_proposal_draft_step.
  - by apply open_review_step.
  - by apply open_voting_step.
  - by apply cast_vote_step.
  - by apply finalize_voting_step.
  - by apply submit_challenge_step.
  - by apply resolve_challenge_step.
  - by apply close_challenge_period_step.
  - by apply execute_proposal_step.
  - by apply expire_proposal_step.
  - by apply mark_stale_step.
  - by apply withdraw_refund_step.
Qed.

(** The same for a sequence of calls. *)
Lemma history_advances origin ops s log s' : engine_ok origin s -> fits 128 (engine_funds s + offered ops) ->
  history ops s = (log, s') ->
  advances origin (deposited log) (withdrawn log) s s' /\ Forall (fun e => e.2 <> Err GovernancePanic) log.
Proof.
  revert s log s'. induction ops as [|op ops IH]; intros s log s' Hok Hf; cbn [history].
  { intros [= <- <-]. split; [by apply advances_0|done]. }
  change (offered (op :: ops)) with (deposit op + offered ops) in Hf.
  destruct (perform op s) as [r s1] eqn:Hop. destruct (history ops s1) as [log1 s2] eqn:Hrest. intros [= <- <-].
  assert (advances origin (if is_ok r then deposit op else 0) (match r with Ok n => n | Err _ => 0 end) s s1 /\ r <> Err GovernancePanic) as [Hadv Hr].
  { eapply wp_run in Hop; [|apply perform_step; [exact Hok|eapply fits_mono; [|exact Hf]; lia]].
    destruct r as [w|e]; [by split|]. destruct Hop as [He Hadv]. split; [exact Hadv|]. by intros [= ->]. }
  pose proof (adv_funds _ _ _ _ _ Hadv) as Hfs.
  edestruct (IH s1 log1 s2) as [Hadv1 Hlog]; [by eapply adv_ok|eapply fits_mono; [|exact Hf]|done|].
  { destruct (is_ok r); lia. }
  split; [|by constructor]. change (deposited ((op, r) :: log1)) with ((if is_ok r then deposit op else 0) + deposited log1).
  change (withdrawn ((op, r) :: log1)) with (match r with Ok n => n | Err _ => 0 end + withdrawn log1).
  by eapply advances_trans.
Qed.

Lemma initialize_ok cid parameters_cid parameters root epoch s :
  initialize cid parameters_cid parameters root epoch = Ok s -> engine_ok cid s /\ engine_funds s = 0.
Proof.
  unfold initialize. intros Hi. res_inv. subst s. split; [|done]. constructor; try done. by apply validated_parameters.
Qed.

Lemma reached_ok cid parameters_cid parameters root epoch s0 ops log s :
  initialize cid parameters_cid parameters root epoch = Ok s0 -> fits 128 (offered ops) -> history ops s0 = (log, s) ->
  advances cid (deposited log) (withdrawn log) s0 s /\ engine_funds s0 = 0 /\ Forall (fun e => e.2 <> Err GovernancePanic) log.
Proof.
  intros [Hok Hz]%initialize_ok Hf Hh. split_and!; [|done|]; (eapply history_advances; [exact Hok| |exact Hh]; by rewrite Hz).
Qed.

(** What the successful calls of a log bring in is at most what was offered. *)
Lemma deposited_offered ops s log s' : history ops s = (log, s') -> deposited log <= offered ops.
Proof.
  revert s log s'. induction ops as [|op ops IH]; intros s log s'; cbn [history]; [by intros [= <- <-]|].
  destruct (perform op s) as [r s1]. destruct (history ops s1) as [log1 s2] eqn:Hrest. intros [= <- <-]. apply IH in Hrest.
  change (offered (op :: ops)) with (deposit op + offered ops).
  change (deposited ((op, r) :: log1)) with ((if is_ok r then deposit op else 0) + deposited log1). destruct (is_ok r); lia.
Qed.

Lemma reached_funds cid parameters_cid parameters root epoch s0 ops log s :
  initialize cid parameters_cid parameters root epoch = Ok s0 -> fits 128 (offered ops) -> history ops s0 = (log, s) ->
  engine_ok cid s /\ engine_funds s <= offered ops.
Proof.
  intros Hi Hf Hh. destruct (reached_ok _ _ _ _ _ _ _ _ _ Hi Hf Hh) as ([Hok Hfs _ _] & Hz & _). split; [done|].
  pose proof (deposited_offered _ _ _ _ Hh). lia.
Qed.

(** ** Money *)

(** C4 (invariant). The engine neither creates nor loses money: after any calls, what stakes, rounds, proposals,
    refunds and the burned total hold, together with what was withdrawn, is what the accepted calls brought in.
    The atoms offered over all calls are taken to fit 128 bits. *)
Theorem governance_conserves_funds cid parameters_cid parameters root epoch s0 ops log s :
  initialize cid parameters_cid parameters root epoch = Ok s0 -> fits 128 (offered ops) -> history ops s0 = (log, s) ->
  engine_funds s + withdrawn log = deposited log.
Proof. intros Hi Hf Hh. destruct (reached_ok _ _ _ _ _ _ _ _ _ Hi Hf Hh) as ([_ Hfs _ _] & Hz & _). lia. Qed.

(** ** Records *)

Lemma tally_sum (votes : gmap string GovernanceVoteReceiptV1) :
  tally Yes votes + tally No votes + tally Abstain votes = map_sum vr_effective_vote_weight votes.
Proof.
  unfold tally. induction votes as [|a r votes Ha IH] using map_ind; [by rewrite !map_sum_empty|].
  rewrite !map_sum_insert_new by done. destruct (vr_choice r); repeat case_bool_decide; try done; lia.
Qed.

Lemma map_sum_dom {V W} (f : V -> N) (g : W -> N) (m : gmap string V) : forall m' : gmap string W,
  (forall k v, m !! k = Some v -> exists w, m' !! k = Some w /\ f v = g w) -> map_sum f m <= map_sum g m'.
Proof.
  induction m as [|k v m Hk IH] using map_ind; intros m' Hdom; [rewrite map_sum_empty; lia|].
  destruct (Hdom k v) as (w & Hw & Hfg); [apply lookup_insert_eq|].
  rewrite map_sum_insert_new, (map_sum_lookup g m' k w) by done. specialize (IH (delete k m')). rewrite Hfg.
  enough (map_sum f m <= map_sum g (delete k m')) by lia. apply IH. intros k' v' Hk'.
  assert (k <> k') as Hne by by intros ->; congruence.
  destruct (Hdom k' v') as (w' & Hw' & Hfg'); [by rewrite lookup_insert_ne|]. exists w'. by rewrite lookup_delete_ne.
Qed.

(** The sums of a proposal are those of its votes, and its votes those of the voters it registered. *)
Definition votes_exact (p : ProposalRecord) : Prop :=
  pr_yes_weight p = tally Yes (pr_votes p) /\ pr_no_weight p = tally No (pr_votes p) /\
  pr_abstain_weight p = tally Abstain (pr_votes p) /\ pr_total_registered_weight p = map_sum vt_weight (pr_voter_snapshot p) /\
  pr_yes_weight p + pr_no_weight p + pr_abstain_weight p <= pr_total_registered_weight p /\
  forall voter r, pr_votes p !! voter = Some r ->
    exists v, pr_voter_snapshot p !! voter = Some v /\ vr_effective_vote_weight r = vt_weight v.

Lemma proposal_votes_exact parameters id p : proposal_ok parameters id p -> votes_exact p.
Proof.
  intros [_ Hy Hn Ha Hv Ht _ _ _]. unfold votes_exact. rewrite Hy, Hn, Ha, Ht, tally_sum. split_and!; try done.
  by apply map_sum_dom.
Qed.

(** C23 (functional). After any calls, every proposal counts exactly the votes it holds: each comes from a
    registered voter with the weight fixed at creation, and together they never exceed the registered weight.
    The atoms offered over all calls are taken to fit 128 bits. *)
Theorem governance_counts_votes cid parameters_cid parameters root epoch s0 ops log s id p :
  initialize cid parameters_cid parameters root epoch = Ok s0 -> fits 128 (offered ops) -> history ops s0 = (log, s) ->
  ge_proposals s !! id = Some p -> votes_exact p.
Proof.
  intros Hi Hf Hh Hp. destruct (reached_funds _ _ _ _ _ _ _ _ _ Hi Hf Hh) as [Hok _].
  eapply proposal_votes_exact, eo_proposals; [exact Hok|exact Hp].
Qed.

(** Records are stored under their identifiers and agree with themselves. *)
Record well_formed (s : GovernanceEngine) : Prop := {
  wf_stakes a p : ge_stakes s !! a = Some p -> sum_N (map sw_atoms (pos_scheduled p)) <= pos_active_atoms p;
  wf_rounds id r name : ge_review_rounds s !! id = Some r -> name ∈ rr_affected_repositories r ->
    is_Some (rr_candidate_source_cids r !! name);
  wf_proposals id p : ge_proposals s !! id = Some p -> pr_id p = id;
  wf_bonds id p : ge_proposals s !! id = Some p -> pr_proposal_bond_settled p = is_terminal (pr_state p)
}.

(** C15 (type). Every call takes a well-formed engine to a well-formed engine whether it succeeds or fails, and no
    call panics: neither the unchecked subtractions of bonds and stakes nor the indexing of source maps can
    fail. The atoms offered over all calls are taken to fit 128 bits. *)
Theorem governance_well_formed cid parameters_cid parameters root epoch s0 ops log s :
  initialize cid parameters_cid parameters root epoch = Ok s0 -> fits 128 (offered ops) -> history ops s0 = (log, s) ->
  well_formed s /\ Forall (fun e => e.2 <> Err GovernancePanic) log.
Proof.
  intros Hi Hf Hh. destruct (reached_ok _ _ _ _ _ _ _ _ _ Hi Hf Hh) as ([[_ Hst Hr Hp _ _] _ _ _] & _ & Hlog).
  split; [|done]. constructor.
  - exact Hst.
  - intros id r name Hl. apply (Hr _ _ Hl).
  - intros id p Hl. apply (Hp _ _ Hl).
  - intros id p Hl. apply (Hp _ _ Hl).
Qed.

(** ** The canonical ecosystem *)

(** C5 (safety). The canonical ecosystem changes only by accepted proposals: the events lead from the initial
    ecosystem to the current one without gaps, and each belongs to an executed proposal that was written against
    the ecosystem it replaced and whose recorded votes and evidence pass every gate of its risk class. The atoms
    offered over all calls are taken to fit 128 bits. *)
Theorem canonical_changes_accepted cid parameters_cid parameters root epoch s0 ops log s :
  initialize cid parameters_cid parameters root epoch = Ok s0 -> fits 128 (offered ops) -> history ops s0 = (log, s) ->
  linked cid (ge_events s) (ge_canonical_ecosystem_cid s) /\
  Forall (fun e => exists p, ge_proposals s !! ev_proposal_id e = Some p /\ pr_state p = Executed /\
    pc_parent_canonical_ecosystem_cid (pr_content p) = ev_old_cid e /\
    pc_candidate_ecosystem_cid (pr_content p) = ev_new_cid e /\ meets_gates (ge_parameters s) p) (ge_events s).
Proof.
  intros Hi Hf Hh. destruct (reached_funds _ _ _ _ _ _ _ _ _ Hi Hf Hh) as [[_ _ _ Hp Hl He] _]. split; [done|].
  eapply Forall_impl; [exact He|]. intros e (p & Hlk & Hex & Hpar & Hcand). exists p. split_and!; try done.
  apply (po_accepted _ _ _ (Hp _ _ Hlk)). by rewrite Hex.
Qed.

(** C17 (safety). A finished proposal is final: later calls leave it unchanged, and it holds no bond any more, so
    that nothing is refunded or slashed twice. The atoms offered over all calls are taken to fit 128 bits. *)
Theorem finished_proposals_final cid parameters_cid parameters root epoch s0 ops log s ops' log' s' id p :
  initialize cid parameters_cid parameters root epoch = Ok s0 -> fits 128 (offered ops + offered ops') ->
  history ops s0 = (log, s) -> history ops' s = (log', s') ->
  ge_proposals s !! id = Some p -> is_terminal (pr_state p) = true ->
  ge_proposals s' !! id = Some p /\ proposal_funds p = 0.
Proof.
  intros Hi Hf Hh Hh' Hp Ht. destruct (reached_funds _ _ _ _ _ _ ops log s Hi) as [Hok Hle]; [|exact Hh|].
  { eapply fits_mono; [|exact Hf]. lia. }
  destruct (history_advances cid ops' s log' s') as [Hadv _]; [done|eapply fits_mono; [|exact Hf]; lia|done|].
  split; [by apply (adv_finished _ _ _ _ _ Hadv)|]. pose proof (eo_proposals _ _ Hok _ _ Hp) as Hpo.
  unfold proposal_funds. by rewrite (po_settled _ _ _ Hpo), Ht, (po_returned _ _ _ Hpo Ht).
Qed.

(** ** Settlement *)

Lemma atomic_run {A} (m : engine_method A) Q s : wp m Q (fun _ _ => False) s -> exists a s', with_atomic_state m s = (Ok a, s') /\ Q a s'.
Proof. unfold wp, with_atomic_state. destruct (m s) as [[a|e] s']; [|done]. eauto. Qed.

(** C21 (liveness). What is due can always be settled: a round past its claim deadline or with a replaced parent
    expires, an expired draft, review or execution expires, and a proposal with a replaced parent goes stale.
    The calls succeed, close the record, and move exactly its bonds to refunds and the burned total. The atoms
    offered over all calls are taken to fit 128 bits. *)
Theorem due_settlements_succeed cid parameters_cid parameters root epoch s0 ops log s id clock :
  initialize cid parameters_cid parameters root epoch = Ok s0 -> fits 128 (offered ops) -> history ops s0 = (log, s) ->
  (forall r, ge_review_rounds s !! id = Some r -> round_due s r clock = true ->
     exists s', expire_review_round id clock s = (Ok tt, s') /\ ge_review_rounds s' !! id = Some (expired_round r) /\
       liquid_funds s' = liquid_funds s + round_funds r) /\
  (forall p, ge_proposals s !! id = Some p -> proposal_expired p clock = true ->
     exists s', expire_proposal id clock s = (Ok tt, s') /\ ge_proposals s' !! id = Some (closed (set_pr_state Expired p)) /\
       liquid_funds s' = liquid_funds s + proposal_funds p) /\
  (forall p, ge_proposals s !! id = Some p -> is_terminal (pr_state p) = false ->
     pc_parent_canonical_ecosystem_cid (pr_content p) <> ge_canonical_ecosystem_cid s ->
     exists s', mark_stale id s = (Ok tt, s') /\ ge_proposals s' !! id = Some (closed (set_pr_state Stale p)) /\
       liquid_funds s' = liquid_funds s + proposal_funds p).
Proof.
  intros Hi Hf Hh. destruct (reached_funds _ _ _ _ _ _ _ _ _ Hi Hf Hh) as [Hok Hle].
  assert (fits 128 (engine_funds s)) as Hfs by by eapply fits_mono.
  split_and!.
  - intros r Hr Hdue. destruct (atomic_run _ _ _ (expire_round_total _ _ _ _ _ Hok Hfs Hr Hdue)) as ([] & s' & Hrun & Hpaid).
    exists s'. split_and!; [exact Hrun| |].
    + destruct Hpaid as (rf & b & c & -> & _). apply lookup_insert_eq.
    + by rewrite (paid_liquid _ _ _ Hpaid).
  - intros p Hp Hex. destruct (atomic_run _ _ _ (expire_proposal_total _ _ _ _ _ Hok Hfs Hp Hex)) as ([] & s' & Hrun & Hpaid).
    exists s'. split_and!; [exact Hrun| |].
    + rewrite (paid_proposals _ _ _ Hpaid). apply lookup_insert_eq.
    + by rewrite (paid_liquid _ _ _ Hpaid).
  - intros p Hp Hnt Hpar. destruct (atomic_run _ _ _ (mark_stale_total _ _ _ _ Hok Hfs Hp Hpar Hnt)) as ([] & s' & Hrun & Hpaid).
    exists s'. split_and!; [exact Hrun| |].
    + rewrite (paid_proposals _ _ _ Hpaid). apply lookup_insert_eq.
    + by rewrite (paid_liquid _ _ _ Hpaid).
Qed.

(** ** Votes that nobody finalised *)

(** The calls on a proposal after a block. *)
Definition late_call (id : string) (after : N) (op : operation) : bool :=
  match op with
  | OpOpenReview id' clock | OpOpenVoting id' clock | OpCastVote id' _ _ clock | OpFinalizeVoting id' clock
  | OpSubmitChallenge id' _ clock | OpCloseChallengePeriod id' clock | OpExecute id' clock | OpExpireProposal id' clock =>
      String.eqb id' id && (after <? block clock)
  | OpResolveChallenge id' | OpMarkStale id' => String.eqb id' id
  | _ => false
  end.

(** A call that fails and changes nothing. *)
Definition refused {A} (m : engine_method A) (s : GovernanceEngine) : Prop := wp m (fun _ _ => False) (fun _ s' => s' = s) s.

Lemma refused_bind {A B} (m : engine_method A) (f : A -> engine_method B) s :
  wp m (fun a s' => s' = s /\ refused (f a) s) (fun _ s' => s' = s) s -> refused (m ≫= f) s.
Proof. intros Hm. apply wp_bind. eapply wp_mono; [exact Hm| |done]. by intros a s' [-> Hr]. Qed.

Lemma refused_lift {A B} (r : governed A) (f : A -> engine_method B) s :
  (forall a, r = Ok a -> refused (f a) s) -> refused (lift r ≫= f) s.
Proof. intros Hr. apply refused_bind, wp_lift; [|done]. intros a Ha. split; [done|by apply Hr]. Qed.

Lemma refused_gets {A B} (g : GovernanceEngine -> A) (f : A -> engine_method B) s : refused (f (g s)) s -> refused (gets g ≫= f) s.
Proof. intros Hr. by apply refused_bind, wp_gets. Qed.

Lemma refused_proposal {B} id p (f : ProposalRecord -> engine_method B) s :
  ge_proposals s !! id = Some p -> refused (f p) s -> refused (proposal_mut id ≫= f) s.
Proof. intros Hp Hr. apply refused_bind, wp_asks; rewrite Hp; [|done]. by intros q [= <-]. Qed.

Lemma refused_atomic {A} (m : engine_method A) s : refused m s -> refused (with_atomic_state m) s.
Proof. intros Hm. apply wp_atomic. by eapply wp_mono; [exact Hm| |]. Qed.

Lemma refused_fresh {B} id p (f : unit -> engine_method B) s : ge_proposals s !! id = Some p ->
  pc_parent_canonical_ecosystem_cid (pr_content p) = ge_canonical_ecosystem_cid s -> refused (f tt) s -> refused (fail_if_stale id ≫= f) s.
Proof.
  intros Hp Hpar Hr. apply refused_bind. unfold fail_if_stale. apply wp_bind, wp_asks; rewrite Hp; [|done]. intros q [= <-].
  apply wp_bind, wp_gets. rewrite Hpar, String.eqb_refl. by apply wp_ret.
Qed.

Lemma refused_unpaid {A} (m : engine_method A) s : refused m s -> refused (unpaid m) s.
Proof. intros Hm. apply refused_bind. by eapply wp_mono; [exact Hm| |]. Qed.

(** Walks through the checks of a call on the stored proposal until one of them fails. *)
Ltac refuse :=
  repeat match goal with
  | |- refused (with_atomic_state _) _ => apply refused_atomic
  | |- refused (gets _ ≫= _) _ => apply refused_gets
  | |- refused (fail_if_stale _ ≫= _) _ => eapply refused_fresh; [eassumption|eassumption|]
  | |- refused (proposal_mut _ ≫= _) _ => eapply refused_proposal; [eassumption|]
  | |- refused (lift _ ≫= _) _ => apply refused_lift; intros ? ?
  | Hq : require_state _ _ = Ok _, Hst : pr_state _ = _ |- _ => apply require_state_Ok in Hq; congruence
  end.

(** C39 (error). A vote that is still open after the challenge period can never be finished while its parent stays
    canonical: every call on the proposal is refused from then on, so that its bonds stay locked. *)
Theorem unfinalized_vote_stuck id p op s : ge_proposals s !! id = Some p -> pr_state p = VotingOpen ->
  pc_parent_canonical_ecosystem_cid (pr_content p) = ge_canonical_ecosystem_cid s ->
  pc_voting_end (pr_content p) <= pc_challenge_end (pr_content p) ->
  late_call id (pc_challenge_end (pr_content p)) op = true ->
  exists e, perform op s = (Err e, s).
Proof.
  intros Hp Hst Hpar Hends Hlate. enough (refused (perform op) s) as Hr.
  { unfold refused, wp in Hr. destruct (perform op s) as [[n|e] s']; [done|]. subst s'. by exists e. }
  destruct op; try discriminate; cbn [perform late_call] in *; bool_inv; subst; apply refused_unpaid.
  - unfold open_review. refuse.
  - unfold open_voting. refuse.
  - unfold cast_vote, cast_vote_inner. refuse. rejects. bool_inv. lia.
  - unfold finalize_voting, finalize_voting_inner. refuse. rejects. bool_inv. lia.
  - unfold submit_objective_challenge. refuse.
  - unfold resolve_objective_challenge, resolve_objective_challenge_inner. refuse.
  - unfold close_challenge_period. refuse.
  - unfold execute_proposal. refuse.
  - unfold expire_proposal, expire_proposal_inner. refuse. rejects. unfold proposal_expired in *. rewrite Hst in *. done.
  - unfold mark_stale, mark_stale_inner. refuse. rejects. rewrite Hpar, String.eqb_refl in *. done.
Qed.
End histories.

(** ** The sample history *)

Import Concretely.

(** The stages of the sample history, as equations. *)
Definition sample_history (s0 s1 s2 s3 : GovernanceEngine) (r : ReviewRoundRecord) (p q : ProposalRecord) : Prop :=
  sample_start = Ok s0 /\
  (exists log, history (sample_registration ++ sample_review_calls) s0 = (log, s1)) /\
  (exists log, history ((sample_registration ++ sample_review_calls) ++ sample_vote_calls) s0 = (log, s2)) /\
  (exists log, history sample_execution_calls s2 = (log, s3)) /\
  (ge_review_rounds s1 !! sample_round_id = Some r /\ round_due s1 r (at_block 181) = true) /\
  (ge_proposals s2 !! sample_proposal_id = Some p /\ pr_state p = VotingOpen /\
   pc_parent_canonical_ecosystem_cid (pr_content p) = ge_canonical_ecosystem_cid s2 /\
   pc_voting_end (pr_content p) = 330 /\ pc_challenge_end (pr_content p) = 390) /\
  (ge_proposals s3 !! sample_proposal_id = Some q /\ pr_state q = Executed /\ ge_canonical_ecosystem_cid s3 = sample_candidate_cid).

Lemma sample_history_exists : exists s0 s1 s2 s3 r p q, sample_history s0 s1 s2 s3 r p q.
Proof.
  pose proof sample_stages_hold as Hrun. destruct sample_start as [s0|] eqn:H0; [|done]. unfold sample_stages in Hrun.
  destruct (history (sample_registration ++ sample_review_calls) s0) as [log1 s1] eqn:H1.
  destruct (history sample_vote_calls s1) as [log2 s2] eqn:H2. destruct (history sample_execution_calls s2) as [log3 s3] eqn:H3.
  destruct (history sample_challenge_calls s2) as [log4 s4] eqn:H4.
  apply andb_true_iff in Hrun as [[[[[[[_ Hr]%andb_true_iff Hp]%andb_true_iff Hq]%andb_true_iff Hc]%andb_true_iff _]%andb_true_iff _]%andb_true_iff _].
  destruct (ge_review_rounds s1 !! sample_round_id) as [r|] eqn:Er; [|done].
  destruct (ge_proposals s2 !! sample_proposal_id) as [p|] eqn:Ep; [|done].
  destruct (ge_proposals s3 !! sample_proposal_id) as [q|] eqn:Eq; [|done]. bool_inv.
  exists s0, s1, s2, s3, r, p, q. split; [exact H0|]. split; [exists log1; exact H1|].
  split; [exists (log1 ++ log2); rewrite history_app, H1, H2; reflexivity|]. split; [exists log3; exact H3|].
  split; [split; [exact Er|]|split; split_and!; assumption].
  unfold round_due. repeat match goal with He : rr_state r = _ |- _ => rewrite He | He : rr_claim_deadline r = _ |- _ => rewrite He end.
  rewrite orb_true_r. reflexivity.
Qed.

Abbreviation sample_calls := ((sample_registration ++ sample_review_calls) ++ sample_vote_calls).

Lemma governance_conserves_funds_witness :
  exists s0 log s, sample_start = Ok s0 /\ history sample_calls s0 = (log, s) /\ engine_funds s + withdrawn log = deposited log.
Proof.
  destruct sample_history_exists as (s0 & s1 & s2 & s3 & r & p & q & H0 & _ & [log H2] & _). exists s0, log, s2.
  split_and!; [exact H0|exact H2|]. apply (governance_conserves_funds _ _ _ _ _ s0 sample_calls log s2 H0); [vm_compute; reflexivity|exact H2].
Defined.

Lemma governance_counts_votes_witness :
  exists s0 log s p, history sample_calls s0 = (log, s) /\ ge_proposals s !! sample_proposal_id = Some p /\ votes_exact p.
Proof.
  destruct sample_history_exists as (s0 & s1 & s2 & s3 & r & p & q & H0 & _ & [log H2] & _ & _ & [Hp _] & _). exists s0, log, s2, p.
  split_and!; [exact H2|exact Hp|].
  apply (governance_counts_votes _ _ _ _ _ s0 sample_calls log s2 sample_proposal_id p H0); [vm_compute; reflexivity|exact H2|exact Hp].
Defined.

Lemma governance_well_formed_witness :
  exists s0 log s, history sample_calls s0 = (log, s) /\ well_formed s /\ Forall (fun e => e.2 <> Err GovernancePanic) log.
Proof.
  destruct sample_history_exists as (s0 & s1 & s2 & s3 & r & p & q & H0 & _ & [log H2] & _). exists s0, log, s2.
  split; [exact H2|]. apply (governance_well_formed _ _ _ _ _ s0 sample_calls log s2 H0); [vm_compute; reflexivity|exact H2].
Defined.

Lemma canonical_changes_accepted_witness :
  exists s0 log s, history (sample_calls ++ sample_execution_calls) s0 = (log, s) /\
    ge_canonical_ecosystem_cid s = sample_candidate_cid /\ linked sample_parent_cid (ge_events s) (ge_canonical_ecosystem_cid s).
Proof.
  destruct sample_history_exists as (s0 & s1 & s2 & s3 & r & p & q & H0 & _ & [log H2] & [log' H3] & _ & _ & (_ & _ & Hc)).
  assert (history (sample_calls ++ sample_execution_calls) s0 = (log ++ log', s3)) as Hh by (rewrite history_app, H2, H3; reflexivity).
  exists s0, (log ++ log'), s3. split_and!; [exact Hh|exact Hc|].
  apply (canonical_changes_accepted _ _ _ _ _ s0 (sample_calls ++ sample_execution_calls) (log ++ log') s3 H0); [vm_compute; reflexivity|exact Hh].
Defined.

Lemma finished_proposals_final_witness :
  exists s p log' s', ge_proposals s !! sample_proposal_id = Some p /\ pr_state p = Executed /\
    history [OpMarkStale sample_proposal_id; OpExecute sample_proposal_id (at_block 460)] s = (log', s') /\
    ge_proposals s' !! sample_proposal_id = Some p /\ proposal_funds p = 0.
Proof.
  destruct sample_history_exists as (s0 & s1 & s2 & s3 & r & p & q & H0 & _ & [log H2] & [log' H3] & _ & _ & (Hq & Hst & _)).
  assert (history (sample_calls ++ sample_execution_calls) s0 = (log ++ log', s3)) as Hh by (rewrite history_app, H2, H3; reflexivity).
  destruct (history [OpMarkStale sample_proposal_id; OpExecute sample_proposal_id (at_block 460)] s3) as [log'' s4] eqn:H4.
  exists s3, q, log'', s4. split_and!; [exact Hq|exact Hst|exact H4|..];
    (eapply (finished_proposals_final _ _ _ _ _ s0 (sample_calls ++ sample_execution_calls) _ s3 _ _ s4 sample_proposal_id q H0);
      [|exact Hh|exact H4|exact Hq|rewrite Hst; reflexivity]; vm_compute; reflexivity).
Defined.

Lemma due_settlements_succeed_witness :
  exists s r s', ge_review_rounds s !! sample_round_id = Some r /\ expire_review_round sample_round_id (at_block 181) s = (Ok tt, s') /\
    ge_review_rounds s' !! sample_round_id = Some (expired_round r) /\ liquid_funds s' = liquid_funds s + round_funds r.
Proof.
  destruct sample_history_exists as (s0 & s1 & s2 & s3 & r & p & q & H0 & [log H1] & _ & _ & [Hr Hdue] & _).
  destruct (due_settlements_succeed _ _ _ _ _ s0 (sample_registration ++ sample_review_calls) log s1 sample_round_id (at_block 181) H0) as (Hround & _);
    [vm_compute; reflexivity|exact H1|].
  destruct (Hround r Hr Hdue) as (s' & Hrun & Hnew & Hfunds). exists s1, r, s'. split_and!; [exact Hr|exact Hrun|exact Hnew|exact Hfunds].
Defined.

Lemma unfinalized_vote_stuck_witness :
  exists s, (exists e, perform (OpFinalizeVoting sample_proposal_id (at_block 391)) s = (Err e, s)) /\
    (exists e, perform (OpExpireProposal sample_proposal_id (at_block 391)) s = (Err e, s)).
Proof.
  destruct sample_history_exists as (s0 & s1 & s2 & s3 & r & p & q & H0 & _ & _ & _ & _ & (Hp & Hst & Hpar & He & Hc) & _). exists s2.
  split; (apply (unfinalized_vote_stuck sample_proposal_id p); [exact Hp|exact Hst|exact Hpar|rewrite He, Hc; lia|rewrite Hc; vm_compute; reflexivity]).
Defined.
